(* ===== verification/_CoqProject ===== *)
-Q . S2P
Prelude.v
Bytes.v
Canonical.v
CanonicalFacts.v
CanonicalDecode.v
CanonicalTheorems.v
RecordFields.v
WireMap.v
ProfileLease.v
FleetLifecycle.v
Merkle.v
Keys.v
Envelope.v
RestoreEpoch.v
AuthzPayloads.v
AuthzRecord.v
TrustEvidence.v
TrustChain.v
TrustChainFacts.v
TrustChainTheorems.v
TrustCollect.v
Mutation.v
GrantSet.v
RootLifecycle.v
DeviceRevoke.v
Descriptors.v
Journal.v
JournalFacts.v
JournalTheorems.v
Hpke.v
Disk.v
DiskFacts.v
DiskLogic.v
Downgrade.v
DowngradeSteps.v
DowngradeTotal.v
DowngradeTheorems.v
DowngradeProgress.v
EnvelopeV2.v
EnvelopeV2Facts.v
EnvelopeObject.v
EnvelopeObjectFacts.v
EnvelopeOpenFacts.v
EnvelopeObjectTheorems.v
EnvelopeFailures.v
SnapshotV2.v
SnapshotV2Facts.v
SnapshotV2Theorems.v
Publish.v
PublishTheorems.v
HeadWalk.v
HeadWalkTheorems.v
PullPublished.v
