(* ===== verification/Prelude.v ===== *)
(** * ShardBrowser: the v2 records, their keys and their proofs

    ShardBrowser synchronises encrypted browser profiles between the devices of a
    team through a server that is not trusted with plaintext. Everything that
    crosses the wire or is signed is a closed map in a canonical CBOR subset.
    This library models the Rust crate [shared] (src/shared/src), which client
    and server both link: the codec, the maps, the signed containers around
    them, the keys they name, the restore-epoch Merkle tree, the trust chain of a
    tenant; and of the desktop client the journals that make its flows crash safe, with
    one of these flows, the downgrade of a profile to a clone an older version can open.

    ** How the parts call one another

    - [canonical.rs] encodes and decodes values. [authz_record.rs] ([Fields]) reads
      a decoded map field by field and refuses what is left over. Every record of
      [profile_lease.rs], [fleet_lifecycle.rs], [mutation.rs], [restore_epoch.rs] and
      [authz_record.rs] is parsed that way. [mutation.rs] wraps the payload of an operation
      (the root maps of its own, those of [fleet_lifecycle.rs] and [profile_lease.rs]) in
      one request, and the outcome in one stored response.
    - [keys.rs] and [signing.rs] give key identifiers, the signing input and strict
      Ed25519 verification; the two signed containers (authorization records and
      restore-epoch transitions) use them.
    - [envelope.rs] seals profile data under a DEK whose slot and intent are
      hashed maps, and holds the Merkle tree of a restore epoch;
      [restore_epoch.rs] signs the root of that tree and checks proofs against it.
      [envelope_v2.rs] is its second suite: it builds on the slot and the intent of
      [envelope.rs], and on [keys.rs] to unwrap the data key. The digests of an object go
      in a manifest of [snapshot_v2.rs], which a device signs ([signing.rs]) and commits;
      [sync.rs] of the desktop client runs these steps one after the other, and back; before
      it restores a head it walks to it from the head it has pinned, under the trust chain.

    - [trust_evidence.rs] parses the pages a server lists; [trust_chain.rs] keeps the
      authorization records of them that verify and derives from one self-grant which
      keys are custodians, when.

    ** Files

    - [Prelude]: outcomes ([result] with [Err] and [Crash]), the state-and-error
      monad [SM] of code that takes [&mut self], generic lemmas.
    - [Bytes]: u8 and big-endian integers, byte order, UTF-8, ordered byte maps.
    - [Canonical]: canonical.rs. [CanonicalFacts], [CanonicalDecode],
      [CanonicalTheorems]: its theory. [decode] accepts exactly the encodings of
      the values within the wire limits, is total, and the second encoding of
      [assert_canonical_roundtrip] is redundant; maps encode independently of the
      order of construction; domain-separated preimages are unambiguous.
    - [RecordFields]: [Fields] and [RecordError] of authz_record.rs, the helpers of
      mutation.rs. [WireMap]: the class of records whose parser takes exactly
      the fields their [put] writes; [wire_map_exact] turns its local laws into
      exactness over byte strings; tactics discharge the laws.
    - [ProfileLease], [FleetLifecycle]: one Module per map, named like the Rust
      type: [t] the struct, [parser]/[parse] its [parse], [put]/[encode] its
      [encode], [wf] the contract of the values it admits.
    - [Merkle], [Envelope]: the two halves of envelope.rs.
    - [Keys]: keys.rs and signing.rs over the classes [Aead] and [Ed25519].
    - [RestoreEpoch]: restore_epoch.rs: leaf, transition, signed container,
      inclusion proof; build, parse, verify.
    - [AuthzPayloads], [AuthzRecord]: authz_record.rs: the seven payloads and the
      signed container around them, with the sealing of recovery grants.
    - [TrustEvidence]: trust_evidence.rs: a page of a tenant's evidence and its nested
      maps. [TrustChain]: trust_chain.rs: [Evidence.collect], [TrustChain.evaluate] and
      the queries. [TrustChainFacts], [TrustChainTheorems], [TrustCollect]: its rules as
      one inductive definition and the theory of the fixpoint and of the collection.
    - mutation.rs: [Mutation] (the idempotent request and its stored response), [GrantSet]
      (hashes of grant sets), [RootLifecycle] (the tenant root maps), [DeviceRevoke] (the
      revocation request, which embeds a signed record and activations of both kinds, and
      its response), [Descriptors] (the two readback descriptors, rebuilt from a verified
      record). Its three field helpers are in [RecordFields].
    - [Journal]: src-tauri/src/team/journal.rs, the crash journals of the desktop client:
      the phases of the two flows, the tables (lists of rows in rowid order, under the
      keys and checks of src-tauri/src/team/db.rs) and every operation as a transaction.
      [JournalFacts]: every branch of each. [JournalTheorems]: reachable databases.
    - [Hpke]: grants.rs and fleet_grants.rs: root keys sealed to custodians, fleet keys
      sealed to devices, in both formats, over the class [Hpke] of the HPKE crate.
    - [Disk]: the disk under src-tauri/src/durable.rs: trees; a world with the changes that
      are not synced yet, which a power cut may undo, and a plan of which calls fail or are
      where the process dies; programs over it. [write_private], [create_dir_all],
      [remove_dir_all] and a file copy are programs of the calls they make. [DiskFacts]: trees.
      [DiskLogic]: triples (every run stays within a step relation), quiet programs,
      [goes] (runs in which nothing fails).
    - [Downgrade]: src-tauri/src/team/downgrade.rs, the clone flow: start, run, resume,
      roll back, with the claims of profile.rs and the settling of sync.rs it calls.
      [DowngradeSteps]: the abstract flow and the triple of every program.
      [DowngradeTotal]: every program returns. [DowngradeTheorems]: histories of runs,
      rollbacks and power cuts. [DowngradeProgress]: a rollback can always be finished.
    - [EnvelopeV2]: envelope_v2.rs, what an object carries: the preamble, the intent, the
      slot and its context, and their binding. [EnvelopeObject]: [seal], [open] and
      [check_public], in a monad over a reader, a writer and a list of the fates of the
      calls to come; the crate aead-stream is the class [StreamLE31]. [EnvelopeV2Facts],
      [EnvelopeObjectFacts], [EnvelopeOpenFacts]: what the bytes of an object are, step by
      step. [EnvelopeObjectTheorems]: runs where no call fails. [EnvelopeFailures]: any run.
    - [SnapshotV2]: snapshot_v2.rs: the manifest of an object, its signed container, the
      commit request, the finalize payload and the receipt. [SnapshotV2Facts],
      [SnapshotV2Theorems]: what each parser accepts, what a signature and a receipt say.
    - [Publish]: of src-tauri/src/team/sync.rs what [seal_snapshot], [prepare_commit] and
      [restore] compute; the rows, the replies and the random bytes are arguments.
      [PublishTheorems]: from one device's plaintext to its object and back.
    - [HeadWalk]: of sync.rs again: [listed], [walk] and [revert_rule], and what [pull]
      decides. [HeadWalkTheorems]: which chains of heads a walk follows and what it makes
      of them. [PullPublished]: the two halves of sync.rs together.

    ** What the theorems show

    - Exactness ([..._exact], [decode_iff], [payload_parse_exact]): a parser accepts a
      byte string exactly when it is the encoding of a well-formed record, and
      returns that record. Malleable encodings, missing, extra, duplicated or
      mistyped fields and broken rules are all refused; every well-formed record
      is accepted. A hypothesis bounds the input by [usize::MAX], which holds of
      every Rust slice.
    - Authenticity ([verified_..._authentic], [built_..._verifies]): the only way to
      a payload is a signature check under the key whose identifier the record
      names, over bytes determined by that payload.
    - Binding ([..._binds], [inclusion_sound], [merkle_proof_sound]): equal hashes mean
      equal contents, or the two different preimages are a collision of SHA-256.
      SHA-256 is a function parameter; only its output length is assumed.
    - Encryption ([..._iff_...]): a ciphertext opens exactly when it was sealed under
      the same key, nonce and context. The laws of [AeadLaws] are those of
      ChaCha20-Poly1305: decryption inverts encryption, an accepted ciphertext is
      the encryption of its plaintext (deterministic, tag recomputed), the tag has
      16 bytes.
    - Rules ([accepted_generation_rule], [capability_grant_rule]): what an accepted
      record can say.
    - Trust ([evaluate_least_fixpoint], [evaluate_outcome], [omission_only_tightens],
      [custodian_bounds], [collect_exact], [collect_accepts]): the evidence is exactly the
      verifiable part of a complete listing; its evaluation is the least fixpoint of the
      rules, ends on every evidence set; and, provided no age clip moves later, what it
      accepts with evidence omitted or revocations added it says of the full evidence too,
      unless that is refused for a second anchor ([omission_lifts_conflict]) or another pin.
    - Mutations ([descriptor_exact], [accepted_revocation], [accepted_root_generation],
      [grant_set_hash_binds], [mutation_hashes_bind]): a readback descriptor is accepted
      exactly when it is the derivation of a record verified under the trusted key; what a
      revocation embeds is one signed record and activations in strictly increasing order;
      a root generation is the bootstrap or follows the previous one; the hashes name the
      request, the response and the set.
    - Journals ([one_flow_per_profile], [phases_follow_the_chain], [restore_operations],
      [downgrade_operations], [resume_fits_the_phase]): by induction on the steps of any
      run, a profile is in one flow at most and holds the evidence of its phase; no phase
      is skipped; each operation commits what it says or nothing.
    - Grants ([custody_grant_roundtrip], [device_grant_roundtrip], [root_grant_bound_to_scope],
      [grant_formats_disjoint]): what is sealed opens under the device key and the scope it
      was sealed for and no other; the format of grants.rs for fleet keys and that of
      fleet_grants.rs never meet.
    - The clone flow: a refinement ([flow_takes_only_steps]) of a transition system, whose
      invariants then hold of every history with failures, kills and power cuts
      ([original_survives], [clone_never_deleted]), or with kills but no power cut
      ([phases_mean_what_they_say]); [returned_phase_is_stored], [flow_always_returns] for one
      run; [rollback_always_succeeds] from any state a history leaves.
      [rollback_flush_can_be_skipped] is a history where a power cut undoes a finished
      rollback, off Windows; [rollback_leaves_temporary] one where a rollback leaves the
      temporary file of a killed [write_private].
    - Objects ([open_iff_sealed], [public_exact], [opened_is_public],
      [published_object_opens]): [open] is the inverse of [seal], [check_public] accepts
      exactly the framing of an object, so nothing that opens was refused by the server, and
      a slot, an intent and an object built one on the other open to the plaintext. With
      failing calls, [open_writes_authentic] says what a run has written and
      [objects_never_panic] that every run returns. The laws of [StreamLaws] are what
      aead-stream documents: a decryptor in step with an encryptor inverts it and accepts
      nothing else, the tag has 16 bytes; [toy_stream] has them over any AEAD with its laws.
      [published_restores] follows a profile from [seal_snapshot] to [restore] on another
      device, through the codecs of every record on the way; [restore_any_server] leaves the
      replies to the server.
    - Heads ([walk_exact], [walk_resolves], [one_history], [pull_moves_forward]): a device
      follows an unbroken chain of signed manifests from its pin to the listed head or
      refuses; it restores a head of a signer in order, skips runs of revoked signers only,
      never goes back, and two servers cannot lead it to two results under one head hash.
      Its [Bound] has no head exactly at version 0, which the theorems assume.
      [published_is_pulled] composes the writer with the reader.
    - Commits ([publication_exact], [verified_manifest_authentic],
      [receipt_binds_one_request]): the parsers of manifests, requests and receipts accept
      what their builders write; a verified manifest is what its signer signed; a receipt is
      about one request, or two different request cores collide under SHA-256.
    - Intents: readers accept as an intent exactly what [build_intent_v2] writes of fields of
      their wire widths ([intent_v2_exact]). Outside them the next version of [build_intent]
      wraps, as it does in a release build ([build_intent_wraps]).

    ** Conventions and bounds

    A machine integer is a [Z] with its width in the checks that read it; a fixed
    array [[u8; N]] is a [bytes] whose length the parser checks; a [String] is the
    string of its UTF-8 bytes. Hash and signature crates, AEAD and HKDF are
    parameters or classes, instantiated by toy schemes in the witnesses only.
    Random nonces are arguments. [Crash Panic] is a Rust panic, [Crash OutOfFuel]
    a model that ran out of fuel; totality theorems exclude both. An unchecked addition that
    can overflow wraps as in a release build ([add_u64]); [add_within] marks those that the
    theorems show never overflow. Fuel: the decoder's recursion is bounded by [MAX_NESTING] and its loops by the length of
    the buffer; a tree level halves, so the number of leaves is enough; a
    verifier's width halves; the loops of [seal], [open] and [check_public] have the frames
    the intent has room for and one more, and [objects_never_panic] shows that is enough;
    the loop of [fetch] has the chunks of the object and one more ([restore_any_server]).

    ** Not modelled

    The rest of [shared] (session binding, snapshot archives,
    backups, recovery bundles, browser data formats), the server (SQL and HTTP), the
    desktop client but for its journals, its clone flow and what the publication, the walk
    and the restore of a profile compute, and the SDKs. Of sync.rs the rows it stores, the
    requests it sends, restore epoch transitions and the swap of a restored folder are left
    out. In [Journal] a commit that the
    disk refuses is an error like any other and is left out; so are the columns no query
    reads. Accessors that
    return a field. Of downgrade.rs the readiness report, unbinding and the calls of the
    Windows build: the model is the build of the other systems, whose data root and
    configuration root are one folder. Mode bits and times are not in a tree, what a link
    leads to lies outside it, and of the changes not synced at a power cut the oldest
    survive: they reach the disk in order, down to the writes of one file. Between runs only
    the flow writes its places; the database never loses a commit. JSON, UUIDs and SHA-256
    are parameters. Sums of container counts are unbounded integers: a count stays
    below [MAX_EVIDENCE_CONTAINERS] plus the length of one page. In [EnvelopeObject] the bytes
    behind the reader do not change while it is read, a read of one byte returns it if there
    is one, and the text of an I/O error is its kind or a code. *)

From Stdlib Require Export ZArith Lia.
From stdpp Require Export sorting base strings gmap countable.
From stdpp Require Export list.

#[global] Open Scope Z_scope.

(** ** Outcomes

    [Ok] and [Err] are the two constructors of [std::result::Result].
    [Crash Panic] stands for a Rust panic, and [Crash OutOfFuel] for a
    fuel-bounded loop of the model that ran out of fuel; no code of the program
    returns either, and the components prove that none of theirs does. *)
Inductive crash := Panic | OutOfFuel.

Inductive result (E A : Type) : Type :=
| Ok (a : A)
| Err (e : E)
| Crash (c : crash).
Arguments Ok {E A} a.
Arguments Err {E A} e.
Arguments Crash {E A} c.

#[export] Instance result_ret {E} : MRet (result E) := fun A a => Ok a.

#[export] Instance result_bind {E} : MBind (result E) := fun A B k m =>
  match m with
  | Ok a => k a
  | Err e => Err e
  | Crash c => Crash c
  end.

#[export] Instance result_fmap {E} : FMap (result E) := fun A B g m =>
  match m with
  | Ok a => Ok (g a)
  | Err e => Err e
  | Crash c => Crash c
  end.

(** [Result::map_err]. *)
Definition map_err {E E' A} (g : E -> E') (m : result E A) : result E' A :=
  match m with
  | Ok a => Ok a
  | Err e => Err (g e)
  | Crash c => Crash c
  end.

(** [Option::ok_or]. *)
Definition ok_or {E A} (o : option A) (e : E) : result E A :=
  match o with Some a => Ok a | None => Err e end.

(** [Option::is_some]. *)
Definition is_some {A} (o : option A) : bool :=
  match o with Some _ => true | None => false end.

(** [Option::and]. *)
Definition option_and {A B} (o : option A) (o' : option B) : option B :=
  match o with Some _ => o' | None => None end.

(** [p] holds of what the option carries, if anything. *)
Definition opt_ok {A} (p : A -> bool) (o : option A) : bool :=
  match o with Some a => p a | None => true end.

Definition is_ok {E A} (m : result E A) : bool :=
  match m with Ok _ => true | _ => false end.

(** A computation that never panics and never runs out of fuel. *)
Definition safe {E A} (m : result E A) : Prop := forall c, m <> Crash c.

(** ** State and error

    Code that takes [&mut self] and returns a [Result] is a function from the
    state to an outcome holding the new state; the state is lost on an error,
    as every caller drops it there. *)
Definition SM (S E A : Type) : Type := S -> result E (A * S).

#[export] Instance sm_ret {S E} : MRet (SM S E) := fun A a s => Ok (a, s).

#[export] Instance sm_bind {S E} : MBind (SM S E) := fun A B k m s =>
  match m s with
  | Ok (a, s') => k a s'
  | Err e => Err e
  | Crash c => Crash c
  end.

#[export] Instance sm_fmap {S E} : FMap (SM S E) := fun A B g m s =>
  match m s with
  | Ok (a, s') => Ok (g a, s')
  | Err e => Err e
  | Crash c => Crash c
  end.

Definition throw {S E A} (e : E) : SM S E A := fun _ => Err e.

(** [if c { return Err(e) }]. *)
Definition fail_if {S E} (c : bool) (e : E) : SM S E unit :=
  fun s => if c then Err e else Ok (tt, s).

Definition lift {S E A} (m : result E A) : SM S E A :=
  fun s => match m with
           | Ok a => Ok (a, s)
           | Err e => Err e
           | Crash c => Crash c
           end.

(** The value of a computation started in [s], its final state dropped. *)
Definition run {S E A} (m : SM S E A) (s : S) : result E A := fst <$> m s.

(** [for _ in 0..n { acc = body(acc)? }]. The fuel bounds the model only: a
    caller picks one that [n] iterations cannot exceed. *)
Fixpoint for_count {S E A} (fuel : nat) (n : Z) (body : A -> SM S E A)
    (acc : A) : SM S E A :=
  if n <=? 0 then mret acc
  else match fuel with
       | O => fun _ => Crash OutOfFuel
       | Datatypes.S fuel' =>
           acc' ← body acc; for_count fuel' (n - 1) body acc'
       end.

(** [into_iter().map(f).collect::<Result<Vec<_>>>()]: stops at the first error. *)
Fixpoint try_map {E A B} (f : A -> result E B) (l : list A) : result E (list B) :=
  match l with
  | [] => Ok []
  | a :: l' =>
      b ← f a;
      bs ← try_map f l';
      mret (b :: bs)
  end.

(** ** Lemmas on outcomes *)

Lemma sm_bind_ok {S E A B} (m : SM S E A) (k : A -> SM S E B) s r :
  (m ≫= k) s = Ok r <-> exists a s', m s = Ok (a, s') /\ k a s' = Ok r.
Proof.
  unfold mbind, sm_bind. destruct (m s) as [[a s']|e|c]; naive_solver.
Qed.

Lemma sm_bind_step {S E A B} (m : SM S E A) (k : A -> SM S E B) s a s' :
  m s = Ok (a, s') -> (m ≫= k) s = k a s'.
Proof. intros H. unfold mbind, sm_bind. by rewrite H. Qed.

Lemma result_bind_ok {E A B} (m : result E A) (k : A -> result E B) r :
  (m ≫= k) = Ok r <-> exists a, m = Ok a /\ k a = Ok r.
Proof. unfold mbind, result_bind. destruct m; naive_solver. Qed.

Lemma fail_if_ok {S E} c (e : E) (s : S) r :
  fail_if c e s = Ok r <-> c = false /\ r = (tt, s).
Proof. unfold fail_if. destruct c; naive_solver. Qed.

Lemma lift_ok {S E A} (m : result E A) (s : S) r :
  lift m s = Ok r <-> exists a, m = Ok a /\ r = (a, s).
Proof. unfold lift. destruct m; naive_solver. Qed.

Lemma ok_or_ok {E A} (o : option A) (e : E) a :
  ok_or o e = Ok a <-> o = Some a.
Proof. unfold ok_or. destruct o; naive_solver. Qed.

Lemma is_ok_true {E A} (m : result E A) : is_ok m = true <-> exists a, m = Ok a.
Proof. unfold is_ok. destruct m; naive_solver. Qed.

Lemma map_err_ok {E E' A} (g : E -> E') (m : result E A) a :
  map_err g m = Ok a <-> m = Ok a.
Proof. destruct m; naive_solver. Qed.

Lemma run_ok {S E A} (m : SM S E A) s a :
  run m s = Ok a <-> exists s', m s = Ok (a, s').
Proof.
  unfold run, fmap, result_fmap. destruct (m s) as [[a' s']|e|c]; naive_solver.
Qed.

Lemma safe_bind {E A B} (m : result E A) (k : A -> result E B) :
  safe m -> (forall a, m = Ok a -> safe (k a)) -> safe (m ≫= k).
Proof.
  intros Hm Hk c. unfold mbind, result_bind.
  destruct m as [a|e|c']; [by apply Hk| done | by destruct (Hm c')].
Qed.

Lemma ok_or_safe {E A} (o : option A) (e : E) : safe (ok_or o e).
Proof. by destruct o. Qed.

Lemma map_err_safe {E E' A} (g : E -> E') (m : result E A) : safe m -> safe (map_err g m).
Proof. intros H c. destruct m as [a|e|c']; [done..|]. by destruct (H c'). Qed.

Lemma safe_fmap {E A B} (g : A -> B) (m : result E A) : safe m -> safe (g <$> m).
Proof. intros H c. specialize (H c). destruct m as [a|e|c']; [done|done|]. by intros [= ->]. Qed.

Lemma safe_sm_bind {S E A B} (m : SM S E A) (k : A -> SM S E B) s :
  safe (m s) -> (forall a s', m s = Ok (a, s') -> safe (k a s')) ->
  safe ((m ≫= k) s).
Proof.
  intros Hm Hk c. unfold mbind, sm_bind.
  destruct (m s) as [[a s']|e|c']; [by apply Hk| done | by destruct (Hm c')].
Qed.

Lemma try_map_ok {E A B} (f : A -> result E B) l bs :
  try_map f l = Ok bs <-> Forall2 (fun a b => f a = Ok b) l bs.
Proof.
  revert bs. induction l as [|a l IH]; intros bs; simpl.
  - split; [by intros [= <-]|by intros ->%Forall2_nil_inv_l].
  - rewrite result_bind_ok. split.
    + intros (b & Hb & H). apply result_bind_ok in H as (bs' & Hbs & [= <-]).
      constructor; [done|by apply IH].
    + intros (b & bs' & Hb & Hbs%IH & ->)%Forall2_cons_inv_l. exists b. split; [done|].
      by rewrite Hbs.
Qed.

Lemma try_map_safe {E A B} (f : A -> result E B) l :
  (forall a, safe (f a)) -> safe (try_map f l).
Proof.
  intros Hf. induction l as [|a l IH]; [done|]. simpl. apply safe_bind; [done|]. intros b _.
  apply safe_bind; [done|]. by intros bs _.
Qed.

Lemma result_fmap_ok {E A B} (g : A -> B) (m : result E A) b :
  g <$> m = Ok b <-> exists a, m = Ok a /\ b = g a.
Proof. unfold fmap, result_fmap. destruct m; naive_solver. Qed.

Lemma nodup_fst_unique {A B} (l : list (A * B)) k v w :
  NoDup l.*1 -> (k, v) ∈ l -> (k, w) ∈ l -> v = w.
Proof.
  induction l as [|[k' x] l IH]; csimpl; intros Hd Hv Hw; [by apply elem_of_nil in Hv|].
  apply NoDup_cons in Hd as [Hn Hd].
  apply elem_of_cons in Hv as [Hv|Hv]; apply elem_of_cons in Hw as [Hw|Hw]; simplify_eq/=;
    [done|destruct Hn; apply list_elem_of_fmap; by eexists (_, _)..|by apply IH].
Qed.

Lemma cons_eq {A} (x y : A) l k : x :: l = y :: k -> x = y /\ l = k.
Proof. by intros [= -> ->]. Qed.

(** Splits every hypothesis that says a bind, a guard or a lifted outcome
    succeeded into the facts about its parts. *)
Ltac inv_ok1 :=
  match goal with
  | H : mbind _ _ _ = Ok _ |- _ => apply sm_bind_ok in H as (? & ? & ? & H)
  | H : (_ ≫= _) = Ok _ |- _ => apply result_bind_ok in H as (? & ? & H)
  | H : fail_if _ _ _ = Ok _ |- _ => apply fail_if_ok in H as [? H]
  | H : lift _ _ = Ok _ |- _ => apply lift_ok in H as (? & ? & H)
  | H : ok_or _ _ = Ok _ |- _ => apply ok_or_ok in H
  | H : map_err _ _ = Ok _ |- _ => apply map_err_ok in H
  | H : run _ _ = Ok _ |- _ => apply run_ok in H as [? H]
  | H : mret _ _ = Ok _ |- _ => unfold mret, sm_ret in H
  | H : throw _ _ = Ok _ |- _ => discriminate H
  | H : Ok _ = Ok _ |- _ => injection H as H
  | H : Err _ = Ok _ |- _ => discriminate H
  | H : (_, _) = (_, _) |- _ => injection H as ? ?
  | x : (_ * _)%type |- _ => destruct x
  end.
Ltac inv_ok := repeat (inv_ok1; simplify_eq/=).
