(* ===== verification/Bytes.v ===== *)
(** * Bytes, machine integers and ordered byte maps

    What the program uses of Rust's standard library on bytes: [u8] and
    big-endian integers, the lexicographic order of [Vec<u8>] and [[u8; N]],
    [str::from_utf8], and a [BTreeMap] keyed by byte strings. A Rust [String]
    is a [string] whose characters are the bytes of its UTF-8 form. *)

From Stdlib Require Import Strings.Byte Ascii String.
From S2P Require Import Prelude.

Abbreviation byte := Byte.byte.
Abbreviation bytes := (list Byte.byte).

(** ** u8 *)

Definition b2z (b : byte) : Z := Z.of_N (Byte.to_N b).

(** [z as u8]: the low eight bits. *)
Definition z2b (z : Z) : byte :=
  match Byte.of_N (Z.to_N (z mod 256)) with
  | Some b => b
  | None => Byte.x00
  end.

Definition U8_MAX : Z := 255.
Definition U16_MAX : Z := 65535.
Definition U32_MAX : Z := 4294967295.
Definition U64_MAX : Z := 18446744073709551615.
Definition I64_MAX : Z := 9223372036854775807.
(** [usize] on the 64-bit targets the program is built for. *)
Definition USIZE_MAX : Z := U64_MAX.

(** [u64::checked_add]. *)
Definition checked_add (a b : Z) : option Z :=
  if a + b <=? U64_MAX then Some (a + b) else None.

(** [+] on [u64] as the program is built: no profile turns overflow checks on, so a
    release build wraps around. *)
Definition add_u64 (a b : Z) : Z := (a + b) mod (U64_MAX + 1).

Lemma add_u64_small a b : 0 <= a + b <= U64_MAX -> add_u64 a b = a + b.
Proof. intros H. apply Z.mod_small. lia. Qed.

(** [len as u64] of a slice. *)
Definition blen {A} (l : list A) : Z := Z.of_nat (length l).

(** [to_be_bytes] of an [n]-byte integer. *)
Fixpoint be_bytes (n : nat) (z : Z) : bytes :=
  match n with
  | O => []
  | S n' => z2b (z / 256 ^ Z.of_nat n') :: be_bytes n' z
  end.

(** [from_be_bytes]. *)
Definition of_be (l : bytes) : Z := foldl (fun acc b => acc * 256 + b2z b) 0 l.

#[export] Instance byte_eq_decision : EqDecision byte := Byte.byte_eq_dec.

#[export, refine] Instance byte_countable : Countable byte :=
  inj_countable' Byte.to_N (fun n => default Byte.x00 (Byte.of_N n)) _.
Proof. intros b. by rewrite Byte.of_to_N. Defined.

(** ** Order: [Ord for [u8]] *)

Fixpoint bytes_cmp (l1 l2 : bytes) : comparison :=
  match l1, l2 with
  | [], [] => Eq
  | [], _ :: _ => Lt
  | _ :: _, [] => Gt
  | a :: l1', b :: l2' =>
      match b2z a ?= b2z b with
      | Eq => bytes_cmp l1' l2'
      | c => c
      end
  end.

Definition bytes_lt (l1 l2 : bytes) : Prop := bytes_cmp l1 l2 = Lt.

(** ** Strings *)

(** [str::as_bytes]. *)
Definition as_bytes (s : string) : bytes := list_byte_of_string s.

Definition in_range (lo hi : Z) (b : byte) : bool :=
  (lo <=? b2z b) && (b2z b <=? hi).

(** A UTF-8 continuation byte. *)
Definition utf8_cont (b : byte) : bool := in_range 128 191 b.

(** Whether [str::from_utf8] accepts: no overlong form, no surrogate, nothing
    above U+10FFFF (Unicode table 3-7). *)
Fixpoint utf8_valid (l : bytes) : bool :=
  match l with
  | [] => true
  | b1 :: l1 =>
      if in_range 0 127 b1 then utf8_valid l1
      else match l1 with
      | [] => false
      | b2 :: l2 =>
          if in_range 194 223 b1 && utf8_cont b2 then utf8_valid l2
          else match l2 with
          | [] => false
          | b3 :: l3 =>
              if ((in_range 224 224 b1 && in_range 160 191 b2)
                  || (in_range 225 236 b1 && utf8_cont b2)
                  || (in_range 237 237 b1 && in_range 128 159 b2)
                  || (in_range 238 239 b1 && utf8_cont b2)) && utf8_cont b3
              then utf8_valid l3
              else match l3 with
              | [] => false
              | b4 :: l4 =>
                  if ((in_range 240 240 b1 && in_range 144 191 b2)
                      || (in_range 241 243 b1 && utf8_cont b2)
                      || (in_range 244 244 b1 && in_range 128 143 b2))
                     && utf8_cont b3 && utf8_cont b4
                  then utf8_valid l4
                  else false
              end
          end
      end
  end.

(** [str::from_utf8]. *)
Definition from_utf8 (l : bytes) : option string :=
  if utf8_valid l then Some (string_of_list_byte l) else None.

(** [s.contains('\0')]. *)
Definition contains_nul (s : string) : bool :=
  existsb (fun b => b2z b =? 0) (as_bytes s).

(** ** [BTreeMap<Vec<u8>, V>] as a list in ascending key order *)

Fixpoint btree_insert {V} (k : bytes) (v : V) (t : list (bytes * V))
    : list (bytes * V) :=
  match t with
  | [] => [(k, v)]
  | (k', v') :: t' =>
      match bytes_cmp k k' with
      | Lt => (k, v) :: t
      | Eq => (k, v) :: t'
      | Gt => (k', v') :: btree_insert k v t'
      end
  end.

(** Inserting the entries one after another: a later one replaces an earlier
    one of the same key. *)
Definition btree_of_list {V} (l : list (bytes * V)) : list (bytes * V) :=
  foldl (fun t kv => btree_insert kv.1 kv.2 t) [] l.

(** ** Lemmas *)

Lemma b2z_range b : 0 <= b2z b <= 255.
Proof. unfold b2z. pose proof (Byte.to_N_bounded b). lia. Qed.

Lemma z2b_b2z b : z2b (b2z b) = b.
Proof. destruct b; reflexivity. Qed.

Lemma b2z_z2b z : b2z (z2b z) = z mod 256.
Proof.
  unfold z2b, b2z. pose proof (Z.mod_pos_bound z 256).
  destruct (Byte.of_N _) as [b|] eqn:E.
  - apply Byte.to_of_N in E. rewrite E. lia.
  - apply Byte.of_N_None_iff in E. lia.
Qed.

Lemma b2z_inj b1 b2 : b2z b1 = b2z b2 -> b1 = b2.
Proof. intros H. by rewrite <- (z2b_b2z b1), H, z2b_b2z. Qed.

Lemma z2b_mod z : z2b (z mod 256) = z2b z.
Proof. unfold z2b. by rewrite Z.mod_mod. Qed.

Lemma length_be_bytes n z : length (be_bytes n z) = n.
Proof. by induction n; simpl; f_equal. Qed.

Lemma of_be_snoc l b : of_be (l ++ [b]) = of_be l * 256 + b2z b.
Proof. unfold of_be. by rewrite foldl_app. Qed.

Lemma of_be_app l1 l2 :
  of_be (l1 ++ l2) = of_be l1 * 256 ^ blen l2 + of_be l2.
Proof.
  unfold blen. induction l2 as [|b l2 IH] using rev_ind.
  - rewrite app_nil_r. simpl. unfold of_be at 3. simpl. lia.
  - rewrite app_assoc, !of_be_snoc, IH, length_app. simpl length.
    rewrite Nat2Z.inj_add, Z.pow_add_r by lia. lia.
Qed.

Lemma of_be_cons b l : of_be (b :: l) = b2z b * 256 ^ blen l + of_be l.
Proof.
  change (b :: l) with ([b] ++ l). rewrite of_be_app. f_equal.
Qed.

Lemma of_be_range l : 0 <= of_be l < 256 ^ blen l.
Proof.
  unfold blen. induction l as [|b l IH] using rev_ind; [done|].
  rewrite of_be_snoc, length_app. simpl length.
  rewrite Nat2Z.inj_add, Z.pow_add_r by lia.
  pose proof (b2z_range b). lia.
Qed.

Lemma be_bytes_mod n m z :
  (n <= m)%nat -> be_bytes n (z mod 256 ^ Z.of_nat m) = be_bytes n z.
Proof.
  revert m. induction n as [|n IH]; intros m Hm; [done|].
  cbn [be_bytes]. f_equal; [|apply IH; lia].
  rewrite <- (z2b_mod (_ mod _ / _)), <- (z2b_mod (z / _)). f_equal.
  replace (Z.of_nat m) with (Z.of_nat n + (1 + Z.of_nat (m - S n))) by lia.
  rewrite !Z.pow_add_r by lia. change (256 ^ 1) with 256.
  set (p := 256 ^ Z.of_nat n). set (q := 256 ^ Z.of_nat (m - S n)).
  assert (0 < p) by (subst p; lia). assert (0 < q) by (subst q; lia).
  rewrite (Z.rem_mul_r z p (256 * q)) by lia.
  rewrite (Z.mul_comm p), Z.div_add by lia.
  rewrite (Z.div_small (z mod p)) by (apply Z.mod_pos_bound; lia).
  rewrite Z.add_0_l, (Z.rem_mul_r _ 256 q) by lia.
  rewrite (Z.mul_comm 256), Z.mod_add by lia. by rewrite Z.mod_mod.
Qed.

Lemma of_be_be_bytes n z :
  0 <= z < 256 ^ Z.of_nat n -> of_be (be_bytes n z) = z.
Proof.
  revert z. induction n as [|n IH]; intros z Hz.
  { simpl in *. unfold of_be. simpl. lia. }
  cbn [be_bytes]. rewrite of_be_cons, b2z_z2b.
  unfold blen. rewrite length_be_bytes.
  assert (0 < 256 ^ Z.of_nat n) by lia.
  rewrite Nat2Z.inj_succ, Z.pow_succ_r in Hz by lia.
  rewrite <- (be_bytes_mod n n), IH by (lia || (apply Z.mod_pos_bound; lia)).
  rewrite (Z.mod_small (z / _)); [|split; [apply Z.div_pos; lia|]].
  - rewrite (Z.div_mod z (256 ^ Z.of_nat n)) at 3 by lia. lia.
  - apply Z.div_lt_upper_bound; lia.
Qed.

Lemma be_bytes_inj n a b :
  0 <= a < 256 ^ Z.of_nat n -> 0 <= b < 256 ^ Z.of_nat n ->
  be_bytes n a = be_bytes n b -> a = b.
Proof. intros Ha Hb H. by rewrite <- (of_be_be_bytes n a), <- (of_be_be_bytes n b), H. Qed.

Lemma of_be_inj l1 l2 : length l1 = length l2 -> of_be l1 = of_be l2 -> l1 = l2.
Proof.
  revert l2. induction l1 as [|a l1 IH]; intros [|b l2] Hl H; simplify_eq/=; [done|].
  rewrite !of_be_cons in H. unfold blen in H. rewrite <- Hl in H.
  pose proof (of_be_range l1) as H1. pose proof (of_be_range l2) as H2.
  unfold blen in H1, H2. rewrite <- Hl in H2.
  assert (b2z a = b2z b) as Hab by nia.
  f_equal; [by apply b2z_inj|]. apply IH; [done|]. rewrite Hab in H. lia.
Qed.

Lemma be_bytes_of_be l : be_bytes (length l) (of_be l) = l.
Proof.
  apply of_be_inj; [apply length_be_bytes|]. apply of_be_be_bytes, of_be_range.
Qed.

Lemma bytes_cmp_refl l : bytes_cmp l l = Eq.
Proof. induction l; simpl; [done|]. by rewrite Z.compare_refl. Qed.

Lemma bytes_cmp_eq l1 l2 : bytes_cmp l1 l2 = Eq <-> l1 = l2.
Proof.
  split; [|intros ->; apply bytes_cmp_refl].
  revert l2. induction l1 as [|a l1 IH]; intros [|b l2]; simpl; try done.
  destruct (Z.compare_spec (b2z a) (b2z b)); try done.
  intros Hc. f_equal; [by apply b2z_inj|by apply IH].
Qed.

Lemma bytes_cmp_antisym l1 l2 : bytes_cmp l2 l1 = CompOpp (bytes_cmp l1 l2).
Proof.
  revert l2. induction l1 as [|a l1 IH]; intros [|b l2]; simpl; try done.
  rewrite (Z.compare_antisym (b2z a)). destruct (b2z a ?= b2z b); simpl; auto.
Qed.

#[export] Instance bytes_lt_trans : Transitive bytes_lt.
Proof.
  unfold bytes_lt. intros l1. induction l1 as [|a l1 IH]; intros [|b l2] [|c l3];
    simpl; try done.
  destruct (Z.compare_spec (b2z a) (b2z b)), (Z.compare_spec (b2z b) (b2z c));
    try done; intros H1 H2.
  - replace (b2z a ?= b2z c) with Eq by (symmetry; apply Z.compare_eq_iff; lia).
    by eapply IH.
  - by replace (b2z a ?= b2z c) with Lt by (symmetry; apply Z.compare_lt_iff; lia).
  - by replace (b2z a ?= b2z c) with Lt by (symmetry; apply Z.compare_lt_iff; lia).
  - by replace (b2z a ?= b2z c) with Lt by (symmetry; apply Z.compare_lt_iff; lia).
Qed.

#[export] Instance bytes_lt_irrefl : Irreflexive bytes_lt.
Proof. intros l. unfold complement, bytes_lt. by rewrite bytes_cmp_refl. Qed.

Lemma bytes_cmp_gt l1 l2 : bytes_cmp l1 l2 = Gt <-> bytes_lt l2 l1.
Proof.
  unfold bytes_lt. rewrite bytes_cmp_antisym. destruct (bytes_cmp l2 l1); naive_solver.
Qed.

Lemma as_bytes_of_bytes l : as_bytes (string_of_list_byte l) = l.
Proof. apply list_byte_of_string_of_list_byte. Qed.

Lemma of_bytes_as_bytes s : string_of_list_byte (as_bytes s) = s.
Proof. apply string_of_list_byte_of_string. Qed.

Lemma as_bytes_inj s1 s2 : as_bytes s1 = as_bytes s2 -> s1 = s2.
Proof. intros H. by rewrite <- (of_bytes_as_bytes s1), H, of_bytes_as_bytes. Qed.

Lemma from_utf8_Some l s :
  from_utf8 l = Some s <-> as_bytes s = l /\ utf8_valid (as_bytes s) = true.
Proof.
  unfold from_utf8. destruct (utf8_valid l) eqn:E.
  - split.
    + intros [= <-]. by rewrite as_bytes_of_bytes.
    + intros [<- _]. by rewrite of_bytes_as_bytes.
  - split; [done|]. intros [<- ?]. congruence.
Qed.

(** *** The ordered map *)

Definition key_lt {V} (p q : bytes * V) : Prop := bytes_lt p.1 q.1.

Abbreviation key_sorted := (StronglySorted key_lt).

Lemma btree_insert_keys {V} k (v : V) t p :
  p ∈ btree_insert k v t -> p = (k, v) \/ p ∈ t.
Proof.
  induction t as [|[k' v'] t IH]; simpl; [set_solver|].
  destruct (bytes_cmp k k'); set_solver.
Qed.

Lemma btree_insert_sorted {V} k (v : V) t :
  key_sorted t -> key_sorted (btree_insert k v t).
Proof.
  induction 1 as [|[k' v'] t Hs IH Hk]; simpl.
  { repeat constructor. }
  rewrite Forall_forall in Hk. destruct (bytes_cmp k k') eqn:E.
  - apply bytes_cmp_eq in E as ->. constructor; [done|]. by apply Forall_forall.
  - repeat constructor; [done| |done|].
    + by apply Forall_forall.
    + apply Forall_forall. intros p Hp. unfold key_lt. simpl.
      etrans; [exact E|]. by apply (Hk p).
  - constructor; [done|]. apply Forall_forall. intros p Hp.
    apply btree_insert_keys in Hp as [->|Hp]; [|by apply Hk].
    by apply bytes_cmp_gt.
Qed.

Lemma btree_insert_perm {V} k (v : V) t :
  k ∉ t.*1 -> btree_insert k v t ≡ₚ (k, v) :: t.
Proof.
  induction t as [|[k' v'] t IH]; simpl; [done|]. intros Hk.
  destruct (bytes_cmp k k') eqn:E; [|done|].
  - apply bytes_cmp_eq in E. set_solver.
  - rewrite IH by set_solver. constructor.
Qed.

Lemma btree_insert_last {V} k (v : V) t :
  Forall (fun p => bytes_lt p.1 k) t -> btree_insert k v t = t ++ [(k, v)].
Proof.
  induction 1 as [|[k' v'] t Hk Ht IH]; simpl in *; [done|].
  apply bytes_cmp_gt in Hk. rewrite Hk. by rewrite IH.
Qed.

Lemma btree_of_list_snoc {V} (l : list (bytes * V)) p :
  btree_of_list (l ++ [p]) = btree_insert p.1 p.2 (btree_of_list l).
Proof. unfold btree_of_list. by rewrite foldl_app. Qed.

Lemma btree_of_list_sorted {V} (l : list (bytes * V)) :
  key_sorted (btree_of_list l).
Proof.
  induction l as [|p l IH] using rev_ind; [constructor|].
  rewrite btree_of_list_snoc. by apply btree_insert_sorted.
Qed.

Lemma btree_of_list_perm {V} (l : list (bytes * V)) :
  NoDup l.*1 -> btree_of_list l ≡ₚ l.
Proof.
  induction l as [|[k v] l IH] using rev_ind; [done|].
  rewrite fmap_app, NoDup_app. intros (Hl & Hd & _).
  rewrite btree_of_list_snoc. simpl.
  rewrite btree_insert_perm, IH by (done || (rewrite IH by done; set_solver)).
  by rewrite (comm (++) l).
Qed.

Lemma key_sorted_NoDup {V} (l : list (bytes * V)) : key_sorted l -> NoDup l.*1.
Proof.
  induction 1 as [|[k v] l Hs IH Hk]; simpl; constructor; [|done].
  intros ([k' v'] & -> & Hin)%list_elem_of_fmap.
  rewrite Forall_forall in Hk. specialize (Hk _ Hin).
  by apply (irreflexivity bytes_lt k').
Qed.

Lemma key_sorted_unique {V} (l1 l2 : list (bytes * V)) :
  key_sorted l1 -> key_sorted l2 -> l1 ≡ₚ l2 -> l1 = l2.
Proof.
  apply StronglySorted_unique_strong. intros [k1 v1] [k2 v2] _ _ H1 H2.
  exfalso. apply (irreflexivity bytes_lt k1). by trans k2.
Qed.

Lemma btree_of_sorted {V} (l : list (bytes * V)) :
  key_sorted l -> btree_of_list l = l.
Proof.
  intros H. apply key_sorted_unique; [apply btree_of_list_sorted|done|].
  by apply btree_of_list_perm, key_sorted_NoDup.
Qed.

(** The order entries are inserted in does not matter when no key repeats. *)
Lemma btree_of_list_proper {V} (l1 l2 : list (bytes * V)) :
  NoDup l1.*1 -> l1 ≡ₚ l2 -> btree_of_list l1 = btree_of_list l2.
Proof.
  intros Hd Hp. apply key_sorted_unique; try apply btree_of_list_sorted.
  rewrite !btree_of_list_perm; [done| |done]. by rewrite <- Hp.
Qed.
