(* ===== verification/Canonical.v ===== *)
(** * CanonicalCborV2, the wire codec (shared/src/canonical.rs)

    The data model, the encoder, the strict decoder as a state machine over
    [(buf, pos, depth)], and the domain-separated hash preimage. The theorems
    about them are in [CanonicalTheorems]. *)

From Stdlib Require Import Ascii.
From S2P Require Import Prelude Bytes.

(** ** Data *)

Inductive Value :=
| Uint (n : Z)
| VBool (b : bool)
| Text (s : string)
| VBytes (b : bytes)
| Array (items : list Value)
| Map (entries : list (string * Value)).

#[export] Instance value_eq_dec : EqDecision Value.
Proof.
  unfold EqDecision, Decision. fix F 1. intros v w.
  assert (forall v1 v2 : list Value, {v1 = v2} + {v1 <> v2}) as FL
    by (fix G 1; decide equality).
  assert (forall v1 v2 : list (string * Value), {v1 = v2} + {v1 <> v2}) as FE
    by (fix G 1; decide equality; decide equality; apply String.string_dec).
  decide equality; apply decide; apply _.
Defined.

Inductive CborError :=
| NonCanonicalIntegerForm
| OverlongInteger
| IndefiniteLength
| UnsupportedMajorType (major : Z)
| FloatOrSimpleValue
| Tag
| DuplicateKey (key : string)
| UnsortedKey (previous current : string)
| NonTextKey
| TrailingBytes (n : Z)
| UnexpectedEof
| InvalidUtf8
| NulInText
| IntegerOutOfSqliteDomain (n : Z)
| NestingTooDeep.

Definition MAX_SQLITE_WIRE_UINT : Z := I64_MAX.
Definition MAX_NESTING : nat := 16.

(** ** Encoding

    Each function returns the bytes the Rust one appends to [out]. *)

Definition enc_head (major arg : Z) : bytes :=
  let m := Z.shiftl major 5 in
  if arg <? 24 then [z2b (Z.lor m arg)]
  else if arg <=? U8_MAX then [z2b (Z.lor m 24); z2b arg]
  else if arg <=? U16_MAX then z2b (Z.lor m 25) :: be_bytes 2 arg
  else if arg <=? U32_MAX then z2b (Z.lor m 26) :: be_bytes 4 arg
  else z2b (Z.lor m 27) :: be_bytes 8 arg.

Definition encoded_key (key : string) : bytes :=
  enc_head 3 (blen (as_bytes key)) ++ as_bytes key.

(** The map case inserts into a [BTreeMap] from encoded keys. The model encodes
    the values before the insertions and not after; insertion does not look at
    them. *)
Fixpoint encode_into (value : Value) : bytes :=
  match value with
  | Uint n => enc_head 0 n
  | VBytes b => enc_head 2 (blen b) ++ b
  | Text s => enc_head 3 (blen (as_bytes s)) ++ as_bytes s
  | Array items =>
      enc_head 4 (blen items) ++ List.flat_map encode_into items
  | Map entries =>
      let sorted := btree_of_list
        (List.map (fun kv => (encoded_key kv.1, encode_into kv.2)) entries) in
      enc_head 5 (blen sorted) ++ List.flat_map (fun kv => kv.1 ++ kv.2) sorted
  | VBool b => [if b then z2b 0xf5 else z2b 0xf4]
  end.

Definition encode (value : Value) : bytes := encode_into value.

(** ** Decoding *)

Module Decoder.

Record t := mk { buf : bytes; pos : nat; depth : nat }.

Abbreviation dec := (SM t CborError).

Definition set_pos (d : t) (p : nat) : t := mk (buf d) p (depth d).

Definition enter : dec unit := fun d =>
  let d' := mk (buf d) (pos d) (S (depth d)) in
  if decide (MAX_NESTING < depth d')%nat then Err NestingTooDeep else Ok (tt, d').

(** [self.depth -= 1]. *)
Definition leave : dec unit := fun d =>
  Ok (tt, mk (buf d) (pos d) (pred (depth d))).

(** [*self.buf.get(self.pos).ok_or(UnexpectedEof)?]. *)
Definition peek : dec Byte.byte := fun d =>
  match buf d !! pos d with
  | None => Err UnexpectedEof
  | Some b => Ok (b, d)
  end.

Definition byte : dec Byte.byte := fun d =>
  match buf d !! pos d with
  | None => Err UnexpectedEof
  | Some b => Ok (b, set_pos d (S (pos d)))
  end.

(** [checked_add] fails above [usize::MAX], [get] past the end of the buffer. *)
Definition take (n : Z) : dec bytes := fun d =>
  let end_ := Z.of_nat (pos d) + n in
  if USIZE_MAX <? end_ then Err UnexpectedEof
  else if blen (buf d) <? end_ then Err UnexpectedEof
  else Ok (firstn (Z.to_nat n) (drop (pos d) (buf d)), set_pos d (Z.to_nat end_)).

(** The argument after an initial byte: [width] bytes, refused when the value
    fits the next shorter form ([v <= below]). *)
Definition wide_arg (width below : Z) (overlong : CborError) : dec Z :=
  b ← take width;
  let v := of_be b in
  _ ← fail_if (v <=? below) overlong;
  mret v.

(** [let arg = match ai { .. }]. *)
Definition head_arg (ai : Z) (overlong : CborError) : dec Z :=
  if ai <=? 23 then mret ai
  else if ai =? 24 then
    v ← byte;
    _ ← fail_if (b2z v <? 24) overlong;
    mret (b2z v)
  else if ai =? 25 then wide_arg 2 U8_MAX overlong
  else if ai =? 26 then wide_arg 4 U16_MAX overlong
  else if ai =? 27 then wide_arg 8 U32_MAX overlong
  else if ai =? 31 then throw IndefiniteLength
  else throw NonCanonicalIntegerForm.

Definition head : dec (Z * Z) :=
  ib ← byte;
  let major := Z.shiftr (b2z ib) 5 in
  let ai := Z.land (b2z ib) 0x1f in
  let overlong :=
    if major <=? 1 then OverlongInteger else NonCanonicalIntegerForm in
  arg ← head_arg ai overlong;
  mret (major, arg).

(** [str::from_utf8(raw).map_err(|_| InvalidUtf8)?]. *)
Definition utf8 (raw : bytes) : dec string := lift (ok_or (from_utf8 raw) InvalidUtf8).

(** The order check of one key against the one before it. *)
Definition key_after (entries : list (string * Value)) (prev_key : option bytes)
    (key : string) (enc : bytes) : dec unit :=
  match prev_key with
  | None => mret tt
  | Some prev =>
      match bytes_cmp enc prev with
      | Eq => throw (DuplicateKey key)
      | Lt => throw (UnsortedKey (default EmptyString (fst <$> last entries)) key)
      | Gt => mret tt
      end
  end.

(** One turn of the map loop; [value] reads the entry's value. *)
Definition map_entry (value : dec Value)
    (acc : list (string * Value) * option bytes)
    : dec (list (string * Value) * option bytes) :=
  let '(entries, prev_key) := acc in
  key_start ← (fun d => Ok (pos d, d));
  kb ← peek;
  _ ← fail_if (negb (Z.shiftr (b2z kb) 5 =? 3)) NonTextKey;
  '(_, klen) ← head;
  raw ← take klen;
  key ← utf8 raw;
  enc ← (fun d => Ok (firstn (pos d - key_start) (drop key_start (buf d)), d));
  _ ← key_after entries prev_key key enc;
  v ← value;
  mret (entries ++ [(key, v)], Some enc).

(** One turn of the array loop. *)
Definition array_item (value : dec Value) (items : list Value) : dec (list Value) :=
  v ← value;
  mret (items ++ [v]).

(** A loop over [arg] elements reads at least one byte in each turn, so
    [1 + |buf|] turns are enough. *)
Definition loop {A} (arg : Z) (body : A -> dec A) (acc : A) : dec A :=
  fun d => for_count (S (length (buf d))) arg body acc d.

(** What follows a parsed head; [value] reads one element of an array or map. *)
Definition value_of (value : dec Value) (major arg : Z) : dec Value :=
  if major =? 0 then
    _ ← fail_if (MAX_SQLITE_WIRE_UINT <? arg) (IntegerOutOfSqliteDomain arg);
    mret (Uint arg)
  else if major =? 1 then throw (UnsupportedMajorType 1)
  else if major =? 2 then VBytes <$> take arg
  else if major =? 3 then
    raw ← take arg;
    s ← utf8 raw;
    _ ← fail_if (contains_nul s) NulInText;
    mret (Text s)
  else if major =? 4 then
    _ ← enter;
    items ← loop arg (array_item value) [];
    _ ← leave;
    mret (Array items)
  else if major =? 5 then
    _ ← enter;
    acc ← loop arg (map_entry value) ([], None);
    _ ← leave;
    mret (Map acc.1)
  else throw (UnsupportedMajorType major).

(** The recursion goes at most one level past [MAX_NESTING], which is what
    [enter] is for, so the fuel bounds the nesting of arrays and maps. *)
Fixpoint value (fuel : nat) : dec Value :=
  match fuel with
  | O => fun _ => Crash OutOfFuel
  | S fuel' =>
      ib ← peek;
      let major := Z.shiftr (b2z ib) 5 in
      if major =? 6 then throw Tag
      else if major =? 7 then
        _ ← byte;
        if b2z ib =? 0xf4 then mret (VBool false)
        else if b2z ib =? 0xf5 then mret (VBool true)
        else throw FloatOrSimpleValue
      else
        '(major, arg) ← head;
        value_of (value fuel') major arg
  end.

End Decoder.

(** Enough fuel for every nesting the decoder accepts. *)
Definition VALUE_FUEL : nat := S MAX_NESTING.

Definition decode (buf : bytes) : result CborError Value :=
  '(v, d) ← Decoder.value VALUE_FUEL (Decoder.mk buf 0 0);
  if decide (Decoder.pos d = length buf) then Ok v
  else Err (TrailingBytes (blen buf - Z.of_nat (Decoder.pos d))).

Definition assert_canonical_roundtrip (buf : bytes) : result CborError Value :=
  v ← decode buf;
  let re := encode v in
  if decide (re = buf) then Ok v else Err NonCanonicalIntegerForm.

(** ** Hash preimages *)

(** The bytes [domain_hash] feeds to SHA-256: label, [u32be] length, body. *)
Definition domain_preimage (ascii_label_with_nul : string) (body : bytes) : bytes :=
  as_bytes ascii_label_with_nul ++ be_bytes 4 (blen body) ++ body.

(** [sha256] is the [sha2] crate's function, a parameter of the model. *)
Definition domain_hash (sha256 : bytes -> bytes) (ascii_label_with_nul : string)
    (body : bytes) : bytes :=
  sha256 (domain_preimage ascii_label_with_nul body).

(** A label of the source: its text and the NUL that ends it. *)
Definition nul_label (s : string) : string := (s ++ String Ascii.zero EmptyString)%string.

Definition L_SIGNED_RECORD := nul_label "SHARDX-SIGNED-RECORD-V2".
Definition L_SIGNED_CONTAINER := nul_label "SHARDX-SIGNED-CONTAINER-V2".
Definition L_DEK_SLOT_CONTEXT := nul_label "SHARDX-DEK-SLOT-CONTEXT-V2".
Definition L_DEK_SLOT := nul_label "SHARDX-DEK-SLOT-V2".
Definition L_ENVELOPE_INTENT := nul_label "SHARDX-ENVELOPE-INTENT-V2".
Definition L_COMMIT_REQUEST := nul_label "SHARDX-COMMIT-REQUEST-V2".
Definition L_SNAPSHOT_HEAD := nul_label "SHARDX-SNAPSHOT-HEAD-V2".
Definition L_RESTORE_EPOCH_LEAF := nul_label "SHARDX-RESTORE-EPOCH-LEAF-V2".
Definition L_RESTORE_EPOCH_NODE2 := nul_label "SHARDX-RESTORE-EPOCH-NODE2-V2".
Definition L_RESTORE_EPOCH_NODE1 := nul_label "SHARDX-RESTORE-EPOCH-NODE1-V2".
Definition L_RESTORE_EPOCH_PROOF := nul_label "SHARDX-RESTORE-EPOCH-PROOF-V2".
Definition L_RESTORE_EPOCH_TRANSITION_TBS :=
  nul_label "SHARDX-RESTORE-EPOCH-TRANSITION-TBS-V2".
Definition L_RESTORE_EPOCH_TRANSITION_CONTAINER :=
  nul_label "SHARDX-RESTORE-EPOCH-TRANSITION-CONTAINER-V2".

Definition MAX_RESTORE_EPOCH_LEAVES_V2 : Z := 1000000.

(** The labels of [domain_hash], [node1] and [node2]. *)
Definition domain_labels : list string :=
  [ L_SIGNED_RECORD; L_SIGNED_CONTAINER; L_DEK_SLOT_CONTEXT; L_DEK_SLOT;
    L_ENVELOPE_INTENT; L_COMMIT_REQUEST; L_SNAPSHOT_HEAD; L_RESTORE_EPOCH_LEAF;
    L_RESTORE_EPOCH_NODE2; L_RESTORE_EPOCH_NODE1; L_RESTORE_EPOCH_PROOF;
    L_RESTORE_EPOCH_TRANSITION_TBS; L_RESTORE_EPOCH_TRANSITION_CONTAINER ].

(** ** Builders: the record modules use them as [c::m] and so on *)

Module c.

Definition m (entries : list (string * Value)) : Value := Map entries.
Definition t (s : string) : Value := Text s.
Definition b (bs : bytes) : Value := VBytes bs.
Definition u (n : Z) : Value := Uint n.

End c.

(** ** The codec's tests, evaluated *)

Definition hex (l : list Z) : bytes := z2b <$> l.

Example map_keys_are_sorted_by_encoded_bytes :
  encode (c.m [("z", c.u 1); ("aa", c.u 2)])
  = hex [0xa2; 0x61; 0x7a; 0x01; 0x62; 0x61; 0x61; 0x02]
  /\ encode (c.m [("aa", c.u 2); ("z", c.u 1)]) = encode (c.m [("z", c.u 1); ("aa", c.u 2)]).
Proof. split; vm_compute; reflexivity. Qed.

Example shortest_form_is_required :
  decode (hex [0x18; 0x18]) = Ok (Uint 24)
  /\ decode (hex [0x18; 0x17]) = Err OverlongInteger
  /\ decode (hex [0x38; 0x00]) = Err OverlongInteger
  /\ decode (hex [0x1b; 0; 0; 0; 0; 0; 0; 0; 1]) = Err OverlongInteger
  /\ decode (hex [0x78; 0x01; 0x61]) = Err NonCanonicalIntegerForm.
Proof. repeat split; vm_compute; reflexivity. Qed.

Example rejected_forms :
  decode (hex [0x5f]) = Err IndefiniteLength
  /\ decode (hex [0xc0]) = Err Tag
  /\ decode (hex [0xf9; 0; 0]) = Err FloatOrSimpleValue
  /\ decode (hex [0xf6]) = Err FloatOrSimpleValue
  /\ decode (hex [0x20]) = Err (UnsupportedMajorType 1)
  /\ decode (hex [0xa2; 0x61; 0x62; 0x01; 0x61; 0x61; 0x02]) = Err (UnsortedKey "b" "a")
  /\ decode (hex [0xa2; 0x61; 0x61; 0x01; 0x61; 0x61; 0x02]) = Err (DuplicateKey "a")
  /\ decode (hex [0xa1; 0x01; 0x01]) = Err NonTextKey
  /\ decode (hex [0x01; 0x02]) = Err (TrailingBytes 1)
  /\ decode (z2b 0x1b :: be_bytes 8 (I64_MAX + 1))
     = Err (IntegerOutOfSqliteDomain (I64_MAX + 1))
  /\ decode (hex [0x62; 0x61; 0x00]) = Err NulInText
  /\ decode (hex [0x43; 0x01]) = Err UnexpectedEof
  /\ decode [] = Err UnexpectedEof.
Proof. repeat split; vm_compute; reflexivity. Qed.

Example nesting_is_bounded :
  is_ok (decode (replicate 16 (z2b 0x81) ++ hex [0])) = true
  /\ decode (replicate 17 (z2b 0x81) ++ hex [0]) = Err NestingTooDeep
  /\ decode (replicate 5000 (z2b 0x81) ++ hex [0]) = Err NestingTooDeep.
Proof. repeat split; vm_compute; reflexivity. Qed.
