(* ===== verification/CanonicalFacts.v ===== *)
(** * What the wire can carry

    [encodable] and [canonical] say which values the codec of [Canonical] carries,
    [normalize] puts the maps of a value in wire order; readings of heads and the
    induction principle of values. The theorems are in [CanonicalDecode] and
    [CanonicalTheorems]. *)

From S2P Require Import Prelude Bytes Canonical.
Import Decoder.

(** ** Which values are on the wire *)

Definition wire_len (n : Z) : bool := n <=? U64_MAX.

Definition text_ok (s : string) : bool :=
  utf8_valid (as_bytes s) && wire_len (blen (as_bytes s)).

(** Every key is greater than the one before it. *)
Fixpoint keys_ascending (l : list bytes) : bool :=
  match l with
  | k1 :: (k2 :: _) as l' =>
      match bytes_cmp k1 k2 with Lt => keys_ascending l' | _ => false end
  | _ => true
  end.

(** [v] can stand [d] levels deep in an encoding: integers in the SQLite
    domain, text valid and without NUL, nesting bounded. *)
Fixpoint encodable (d : nat) (v : Value) : bool :=
  match v with
  | Uint n => (0 <=? n) && (n <=? MAX_SQLITE_WIRE_UINT)
  | VBool _ => true
  | Text s => text_ok s && negb (contains_nul s)
  | VBytes b => wire_len (blen b)
  | Array items =>
      bool_decide (d < MAX_NESTING)%nat && wire_len (blen items)
      && List.forallb (encodable (S d)) items
  | Map entries =>
      bool_decide (d < MAX_NESTING)%nat && wire_len (blen entries)
      && List.forallb (fun kv => text_ok kv.1 && encodable (S d) kv.2) entries
  end.

(** An encodable value whose maps hold their entries in wire order. *)
Fixpoint canonical (d : nat) (v : Value) : bool :=
  match v with
  | Array items =>
      bool_decide (d < MAX_NESTING)%nat && wire_len (blen items)
      && List.forallb (canonical (S d)) items
  | Map entries =>
      bool_decide (d < MAX_NESTING)%nat && wire_len (blen entries)
      && List.forallb (fun kv => text_ok kv.1 && canonical (S d) kv.2) entries
      && keys_ascending (List.map (fun kv => encoded_key kv.1) entries)
  | _ => encodable d v
  end.

(** The entries in wire order, the last of each key. *)
Definition sort_entries (l : list (string * Value)) : list (string * Value) :=
  snd <$> btree_of_list ((fun kv => (encoded_key kv.1, kv)) <$> l).

(** The value a decoder reads back. *)
Fixpoint normalize (v : Value) : Value :=
  match v with
  | Array items => Array (List.map normalize items)
  | Map entries =>
      Map (sort_entries (List.map (fun kv => (kv.1, normalize kv.2)) entries))
  | _ => v
  end.

(** ** Induction on values *)

Section value_ind.
  Variable P : Value -> Prop.
  Hypothesis HU : forall n, P (Uint n).
  Hypothesis HB : forall b, P (VBool b).
  Hypothesis HT : forall s, P (Text s).
  Hypothesis HY : forall b, P (VBytes b).
  Hypothesis HA : forall items, Forall P items -> P (Array items).
  Hypothesis HM : forall entries, Forall (fun kv => P kv.2) entries -> P (Map entries).

Fixpoint value_ind' (v : Value) : P v :=
  match v with
  | Uint n => HU n
  | VBool b => HB b
  | Text s => HT s
  | VBytes b => HY b
  | Array items => HA items
      ((fix go l := match l return Forall P l with
                    | [] => List.Forall_nil _
                    | x :: l' => List.Forall_cons _ _ _ (value_ind' x) (go l')
                    end) items)
  | Map entries => HM entries
      ((fix go l := match l return Forall (fun kv => P kv.2) l with
                    | [] => List.Forall_nil _
                    | kv :: l' => List.Forall_cons _ _ _ (value_ind' kv.2) (go l')
                    end) entries)
  end.
End value_ind.

(** ** Heads *)

Definition all_below (n : nat) (P : Z -> bool) : bool :=
  List.forallb P (seqZ 0 (Z.of_nat n)).

Lemma all_below_true n P x : all_below n P = true -> 0 <= x < Z.of_nat n -> P x = true.
Proof.
  unfold all_below. rewrite List.forallb_forall. intros H Hx.
  apply H. apply list_elem_of_In, elem_of_seqZ. lia.
Qed.

(** An initial byte is its major type and its low five bits. *)
Lemma head_byte_split m a :
  0 <= m < 8 -> 0 <= a < 32 ->
  Z.shiftr (b2z (z2b (Z.lor (Z.shiftl m 5) a))) 5 = m
  /\ Z.land (b2z (z2b (Z.lor (Z.shiftl m 5) a))) 0x1f = a.
Proof.
  intros Hm Ha.
  assert (all_below 8 (fun m => all_below 32 (fun a =>
    (Z.shiftr (b2z (z2b (Z.lor (Z.shiftl m 5) a))) 5 =? m)
    && (Z.land (b2z (z2b (Z.lor (Z.shiftl m 5) a))) 0x1f =? a))) = true) as H
    by (vm_compute; reflexivity).
  apply (all_below_true _ _ m) in H; [|lia].
  apply (all_below_true _ _ a) in H; [|lia]. cbv beta in H. lia.
Qed.

Lemma head_byte_join ib :
  0 <= Z.shiftr (b2z ib) 5 < 8 /\ 0 <= Z.land (b2z ib) 0x1f < 32
  /\ z2b (Z.lor (Z.shiftl (Z.shiftr (b2z ib) 5) 5) (Z.land (b2z ib) 0x1f)) = ib.
Proof.
  assert (all_below 256 (fun z => let ib := z2b z in
    (0 <=? Z.shiftr (b2z ib) 5) && (Z.shiftr (b2z ib) 5 <? 8)
    && (0 <=? Z.land (b2z ib) 0x1f) && (Z.land (b2z ib) 0x1f <? 32)
    && bool_decide (z2b (Z.lor (Z.shiftl (Z.shiftr (b2z ib) 5) 5)
                               (Z.land (b2z ib) 0x1f)) = ib)) = true) as H
    by (vm_compute; reflexivity).
  apply (all_below_true _ _ (b2z ib)) in H; [|pose proof (b2z_range ib); lia].
  simpl in H. rewrite z2b_b2z in H.
  apply andb_true_iff in H as [H ?%bool_decide_eq_true]. split_and!; try lia. done.
Qed.

(** ** What a decoder state sees *)

(** The unread input of [d] starts with [bs] and then holds [tl]. *)
Definition sees (d : t) (bs tl : bytes) : Prop := drop (pos d) (buf d) = bs ++ tl.

Definition skip (d : t) (n : nat) : t := set_pos d (pos d + n).

Lemma skip_0 d : skip d 0 = d.
Proof. destruct d. unfold skip, set_pos. simpl. f_equal. lia. Qed.

Lemma skip_skip d n m : skip (skip d n) m = skip d (n + m).
Proof. destruct d. unfold skip, set_pos. simpl. f_equal. lia. Qed.

Lemma skip_app {A} d (l1 l2 : list A) :
  skip (skip d (length l1)) (length l2) = skip d (length (l1 ++ l2)).
Proof. by rewrite skip_skip, length_app. Qed.

Lemma sees_app d b1 b2 tl : sees d (b1 ++ b2) tl <-> sees d b1 (b2 ++ tl).
Proof. unfold sees. by rewrite (assoc (++)). Qed.

Lemma sees_skip d b1 tl : sees d b1 tl -> sees (skip d (length b1)) [] tl.
Proof.
  unfold sees, skip. simpl. intros H. rewrite <- drop_drop, H.
  by rewrite drop_app_length.
Qed.

Lemma sees_step d b1 b2 tl :
  sees d (b1 ++ b2) tl <-> sees d b1 (b2 ++ tl) /\ sees (skip d (length b1)) b2 tl.
Proof.
  rewrite sees_app. split; [|naive_solver]. intros H. split; [done|].
  by apply sees_skip in H.
Qed.

(** Two readings in a row are one reading of both. *)
Lemma sees_chain d b1 tl1 b2 tl2 :
  sees d b1 tl1 -> sees (skip d (length b1)) b2 tl2 -> sees d (b1 ++ b2) tl2.
Proof.
  intros H1 H2. apply sees_app. pose proof (sees_skip _ _ _ H1) as H3.
  unfold sees in *. simpl app in H3. congruence.
Qed.

Lemma sees_nil d : sees d [] (drop (pos d) (buf d)).
Proof. done. Qed.

Lemma sees_length d bs tl :
  sees d bs tl -> bs <> [] -> (pos d + length bs <= length (buf d))%nat.
Proof.
  unfold sees. intros H Hn. apply (f_equal length) in H.
  rewrite length_drop, length_app in H. destruct bs; [done|]. simpl in *. lia.
Qed.

Lemma peek_ok d b d' :
  peek d = Ok (b, d') <-> d' = d /\ exists tl, sees d [b] tl.
Proof.
  unfold peek, sees. split.
  - destruct (buf d !! pos d) eqn:E; [|done]. intros [= -> <-].
    split; [done|]. exists (drop (S (pos d)) (buf d)). by apply drop_S.
  - intros [-> [tl H]]. by rewrite <- (Nat.add_0_r (pos d)), <- lookup_drop, H.
Qed.

Lemma byte_ok d b d' :
  byte d = Ok (b, d') <-> d' = skip d 1 /\ exists tl, sees d [b] tl.
Proof.
  pose proof (peek_ok d b d) as Hp. unfold peek, byte in *.
  destruct (buf d !! pos d) as [b'|] eqn:E.
  - unfold skip. rewrite Nat.add_1_r. split.
    + intros [= -> <-]. naive_solver.
    + intros [-> Hs]. assert (Ok (E:=CborError) (b', d) = Ok (b, d)) as [= ->] by naive_solver.
      done.
  - split; [done|]. intros [-> Hs].
    assert (Err UnexpectedEof = Ok (A:=Byte.byte * t) (b, d)) by naive_solver. done.
Qed.

Lemma take_sound n d s d' :
  0 <= n -> take n d = Ok (s, d') ->
  n = blen s /\ d' = skip d (length s) /\ exists tl, sees d s tl.
Proof.
  unfold take, sees, skip, blen. intros Hn. repeat case_match; [done..|].
  intros [= <- <-]. rewrite length_take, length_drop.
  split_and!; [lia|f_equal; lia|].
  eexists. symmetry. apply take_drop.
Qed.

Lemma take_complete d s tl :
  blen (buf d) <= USIZE_MAX -> (pos d <= length (buf d))%nat -> sees d s tl ->
  take (blen s) d = Ok (s, skip d (length s)).
Proof.
  unfold take, sees, skip, blen. intros Hb Hp H.
  pose proof (f_equal length H) as Hl. rewrite length_drop, length_app in Hl.
  rewrite !(proj2 (Z.ltb_ge _ _)) by lia.
  rewrite H, Nat2Z.id, take_app_length. do 3 f_equal. lia.
Qed.

(** ** Heads, both ways *)

Lemma wide_arg_sound w below e d a d' :
  0 <= w -> wide_arg w below e d = Ok (a, d') ->
  below < a /\ exists tl, a < 256 ^ w /\ sees d (be_bytes (Z.to_nat w) a) tl
  /\ d' = skip d (Z.to_nat w).
Proof.
  unfold wide_arg. intros Hw H. inv_ok.
  match goal with H : take _ _ = _ |- _ => apply take_sound in H as (-> & -> & tl & Hs) end; [|done].
  pose proof (of_be_range x) as Hr. unfold blen in *.
  rewrite Nat2Z.id, be_bytes_of_be. split; [lia|].
  exists tl. split; [lia|]. done.
Qed.

Lemma wide_arg_complete w below e d a tl :
  blen (buf d) <= USIZE_MAX -> (pos d <= length (buf d))%nat ->
  sees d (be_bytes w a) tl -> below < a -> 0 <= a < 256 ^ Z.of_nat w ->
  wide_arg (Z.of_nat w) below e d = Ok (a, skip d w).
Proof.
  intros Hb Hp Hs Ha Hw. unfold wide_arg.
  apply take_complete in Hs; [|done..].
  unfold blen in Hs. rewrite length_be_bytes in Hs.
  erewrite sm_bind_step by exact Hs. rewrite of_be_be_bytes by done.
  unfold fail_if. by rewrite (proj2 (Z.leb_gt _ _)).
Qed.

(** The low five bits of the initial byte of an argument, and what follows. *)
Definition head_ai (a : Z) : Z :=
  if a <? 24 then a else if a <=? U8_MAX then 24 else if a <=? U16_MAX then 25
  else if a <=? U32_MAX then 26 else 27.

Definition head_tail (a : Z) : bytes :=
  if a <? 24 then [] else if a <=? U8_MAX then be_bytes 1 a
  else if a <=? U16_MAX then be_bytes 2 a
  else if a <=? U32_MAX then be_bytes 4 a else be_bytes 8 a.

Lemma enc_head_split m a :
  enc_head m a = z2b (Z.lor (Z.shiftl m 5) (head_ai a)) :: head_tail a.
Proof.
  unfold enc_head, head_ai, head_tail. repeat case_match; try done.
  simpl. by rewrite Z.div_1_r.
Qed.

Lemma head_ai_range a : 0 <= a -> 0 <= head_ai a < 32.
Proof. unfold head_ai. intros. repeat case_match; lia. Qed.

Lemma enc_head_ne m a : enc_head m a <> [].
Proof. by rewrite enc_head_split. Qed.

Ltac widths := unfold U8_MAX, U16_MAX, U32_MAX, U64_MAX in *.

Lemma head_arg_sound ai e d a d' :
  0 <= ai < 32 -> head_arg ai e d = Ok (a, d') ->
  0 <= a <= U64_MAX /\ ai = head_ai a /\ d' = skip d (length (head_tail a))
  /\ exists tl, sees d (head_tail a) tl.
Proof.
  unfold head_arg. intros Hai H.
  destruct (Z.leb_spec ai 23).
  { inv_ok. unfold head_ai, head_tail. rewrite (proj2 (Z.ltb_lt _ _)) by lia.
    rewrite skip_0. widths. split_and!; try lia; [done|].
    eexists; apply sees_nil. }
  destruct (Z.eqb_spec ai 24) as [->|].
  { apply sm_bind_ok in H as (v & d1 & Hb & H). apply byte_ok in Hb as [-> [tl Hs]].
    inv_ok. rewrite Z.ltb_ge in *. pose proof (b2z_range v).
    unfold head_ai, head_tail. rewrite (proj2 (Z.ltb_ge _ _)) by lia.
    rewrite (proj2 (Z.leb_le _ _)) by (widths; lia). simpl.
    rewrite Z.div_1_r, z2b_b2z. widths. split_and!; try lia; [done|by exists tl]. }
  unfold head_ai, head_tail.
  repeat match type of H with
  | (if ?n =? ?k then _ else _) _ = _ => destruct (Z.eqb_spec n k) as [->|]
  end; try done;
  apply wide_arg_sound in H as (? & tl & ? & Hs & ->); try lia;
    rewrite ?length_be_bytes; widths.
  all: repeat (rewrite (proj2 (Z.ltb_ge _ _)) by lia).
  all: repeat (rewrite (proj2 (Z.leb_gt _ _)) by lia).
  all: rewrite ?(proj2 (Z.leb_le _ _)) by lia.
  all: rewrite ?length_be_bytes; split_and!; try lia; first [done | by exists tl].
Qed.

Lemma head_arg_complete e d a tl :
  blen (buf d) <= USIZE_MAX -> (pos d <= length (buf d))%nat ->
  0 <= a <= U64_MAX -> sees d (head_tail a) tl ->
  head_arg (head_ai a) e d = Ok (a, skip d (length (head_tail a))).
Proof.
  intros Hb Hp Ha. unfold head_arg, head_ai, head_tail. widths.
  destruct (Z.ltb_spec a 24).
  { intros _. rewrite (proj2 (Z.leb_le _ _)) by lia. by rewrite skip_0. }
  destruct (Z.leb_spec a 255); [|destruct (Z.leb_spec a 65535);
    [|destruct (Z.leb_spec a 4294967295)]]; intros Hs; rewrite ?length_be_bytes;
    cbv [Z.leb Z.eqb Z.compare Pos.compare Pos.compare_cont Pos.eqb].
  - simpl in Hs. rewrite Z.div_1_r in Hs.
    erewrite sm_bind_step by (apply byte_ok; eauto).
    unfold mbind, sm_bind, fail_if. rewrite b2z_z2b, Z.mod_small by lia.
    by rewrite (proj2 (Z.ltb_ge _ _)) by lia.
  - eapply (wide_arg_complete 2); eauto; lia.
  - eapply (wide_arg_complete 4); eauto; lia.
  - eapply (wide_arg_complete 8); eauto; lia.
Qed.

Lemma head_sound d m a d' :
  head d = Ok ((m, a), d') ->
  0 <= m < 8 /\ 0 <= a <= U64_MAX
  /\ d' = skip d (length (enc_head m a)) /\ exists tl, sees d (enc_head m a) tl.
Proof.
  unfold head. intros H. apply sm_bind_ok in H as (ib & d1 & Hb & H).
  apply byte_ok in Hb as [-> [tl Hs]].
  destruct (head_byte_join ib) as (Hm & Hai & Hib).
  apply sm_bind_ok in H as (arg & d2 & Ha & H).
  apply head_arg_sound in Ha as (Hr & Hi & -> & tl' & Hs'); [|done].
  unfold mret, sm_ret in H. injection H as <- <- <-.
  rewrite enc_head_split, <- Hi, Hib. split_and!; try lia.
  - by rewrite skip_skip.
  - exists tl'. by apply (sees_chain d [ib] tl).
Qed.

Lemma head_complete d m a tl :
  blen (buf d) <= USIZE_MAX -> 0 <= m < 8 -> 0 <= a <= U64_MAX ->
  sees d (enc_head m a) tl -> head d = Ok ((m, a), skip d (length (enc_head m a))).
Proof.
  intros Hb Hm Ha Hs. pose proof (sees_length _ _ _ Hs (enc_head_ne m a)) as Hl.
  rewrite enc_head_split in *. pose proof (head_ai_range a ltac:(lia)) as Hai.
  destruct (head_byte_split m (head_ai a) Hm Hai) as [H1 H2].
  change (?x :: ?l) with ([x] ++ l) in Hs. apply sees_step in Hs as [Hs1 Hs2].
  simpl in Hl. unfold head. erewrite sm_bind_step by (apply byte_ok; eauto).
  simpl length in Hs2. cbv zeta. rewrite H1, H2.
  erewrite sm_bind_step by (apply (head_arg_complete _ (skip d 1) a tl);
    [done|simpl; lia|done|done]).
  by rewrite skip_skip.
Qed.

(** The head a value starts with decides its major type. *)
Lemma head_peek d m a tl :
  0 <= m < 8 -> 0 <= a -> sees d (enc_head m a) tl ->
  exists ib, peek d = Ok (ib, d) /\ Z.shiftr (b2z ib) 5 = m.
Proof.
  intros Hm Ha Hs. rewrite enc_head_split in Hs.
  change (?x :: ?l) with ([x] ++ l) in Hs. apply sees_step in Hs as [Hs _].
  eexists. split; [apply peek_ok; split; [done|by eexists]|].
  by apply head_byte_split; [|apply head_ai_range].
Qed.

(** ** Loops *)

Lemma for_count_safe {S E A} (I : S -> Prop) (mu : S -> nat) (body : A -> SM S E A) :
  (forall acc s, I s -> safe (body acc s)) ->
  (forall acc s acc' s', I s -> body acc s = Ok (acc', s') -> I s' /\ (mu s' < mu s)%nat) ->
  forall fuel n acc s, I s -> (mu s < fuel)%nat -> safe (for_count fuel n body acc s).
Proof.
  intros Hsafe Hdec. induction fuel as [|fuel IH]; intros n acc s HI Hmu; [lia|].
  cbn [for_count]. destruct (n <=? 0); [done|].
  apply safe_sm_bind; [by apply Hsafe|]. intros acc' s' Hb.
  destruct (Hdec _ _ _ _ HI Hb). apply IH; [done|lia].
Qed.

(** The turns of a loop: [n] of them, each from the accumulator and the state
    the one before it left. *)
Inductive turns {S E A} (body : A -> SM S E A) : Z -> A -> S -> A -> S -> Prop :=
| turns_done acc s : turns body 0 acc s acc s
| turns_step n acc s acc1 s1 acc2 s2 :
    0 <= n -> body acc s = Ok (acc1, s1) -> turns body n acc1 s1 acc2 s2 ->
    turns body (n + 1) acc s acc2 s2.

Lemma for_count_turns {S E A} fuel n (body : A -> SM S E A) acc s acc' s' :
  0 <= n -> for_count fuel n body acc s = Ok (acc', s') -> turns body n acc s acc' s'.
Proof.
  revert n acc s. induction fuel as [|fuel IH]; intros n acc s Hn H;
    cbn [for_count] in H; destruct (Z.leb_spec n 0).
  - inv_ok. replace n with 0 by lia. constructor.
  - done.
  - inv_ok. replace n with 0 by lia. constructor.
  - apply sm_bind_ok in H as (acc1 & s1 & Hb & H). apply IH in H; [|lia].
    replace n with (n - 1 + 1) by lia. econstructor; [lia|done|done].
Qed.

Lemma turns_for_count {S E A} fuel n (body : A -> SM S E A) acc s acc' s' :
  turns body n acc s acc' s' -> n <= Z.of_nat fuel ->
  for_count fuel n body acc s = Ok (acc', s').
Proof.
  intros Ht. revert fuel. induction Ht as [acc s|n acc s acc1 s1 acc2 s2 Hn Hb Ht IH];
    intros fuel Hf.
  - by destruct fuel.
  - destruct fuel as [|fuel]; [lia|]. cbn [for_count].
    rewrite (proj2 (Z.leb_gt _ _)) by lia. erewrite sm_bind_step by exact Hb.
    replace (n + 1 - 1) with n by lia. apply IH. lia.
Qed.
