(* ===== verification/CanonicalDecode.v ===== *)
(** * The decoder accepts exactly the canonical encodings

    Soundness, completeness and crash freedom of [Decoder.value], and the
    theorems on [decode], [assert_canonical_roundtrip] and [domain_preimage]
    that the record files build on. *)

From S2P Require Import Prelude Bytes Canonical CanonicalFacts.
Import Decoder.

(** ** Readings *)

(** A computation went from [d] to [d'] over exactly the bytes [bs]. *)
Definition reads (d : t) (bs : bytes) (d' : t) : Prop :=
  d' = skip d (length bs) /\ exists tl, sees d bs tl.

Lemma reads_nil d : reads d [] d.
Proof. split; [by rewrite skip_0|]. eexists. apply sees_nil. Qed.

Lemma reads_trans d b1 d1 b2 d2 :
  reads d b1 d1 -> reads d1 b2 d2 -> reads d (b1 ++ b2) d2.
Proof.
  intros [-> [tl1 H1]] [-> [tl2 H2]]. split; [apply skip_app|].
  exists tl2. by eapply sees_chain.
Qed.

Lemma take_reads n d s d' :
  0 <= n -> take n d = Ok (s, d') -> n = blen s /\ reads d s d'.
Proof. intros Hn H. apply take_sound in H as (-> & -> & H); [done|done]. Qed.

Lemma head_reads d m a d' :
  head d = Ok ((m, a), d') ->
  0 <= m < 8 /\ 0 <= a <= U64_MAX /\ reads d (enc_head m a) d'.
Proof. intros (? & ? & -> & ?)%head_sound. done. Qed.

Lemma head_major d m a d' ib :
  head d = Ok ((m, a), d') -> peek d = Ok (ib, d) -> m = Z.shiftr (b2z ib) 5.
Proof.
  intros (Hm & Ha & _ & tl & Hs)%head_sound Hp.
  destruct (head_peek d m a tl) as (ib' & Hp' & <-); [lia..|done|]. congruence.
Qed.

Lemma utf8_ok raw d s d' :
  utf8 raw d = Ok (s, d') <-> d' = d /\ as_bytes s = raw /\ utf8_valid (as_bytes s) = true.
Proof.
  unfold utf8. rewrite lift_ok. split.
  - intros (x & H & [= -> ->]). apply ok_or_ok, from_utf8_Some in H. naive_solver.
  - intros (-> & H). exists s. split; [|done]. by apply ok_or_ok, from_utf8_Some.
Qed.

Lemma key_after_ok es prev k enc d r :
  key_after es prev k enc d = Ok r ->
  r = (tt, d) /\ forall p, prev = Some p -> bytes_lt p enc.
Proof.
  unfold key_after. destruct prev as [p|]; [|intros [= <-]; naive_solver].
  destruct (bytes_cmp enc p) eqn:E; [done..|]. intros [= <-].
  split; [done|]. intros ? [= <-]. by apply bytes_cmp_gt.
Qed.

(** ** Soundness *)

(** [rd] reads canonical encodings only. *)
Definition sound_reader (rd : dec Value) : Prop := forall d v d',
  rd d = Ok (v, d') -> canonical (depth d) v = true /\ reads d (encode_into v) d'.

Definition enc_entry (kv : string * Value) : bytes :=
  encoded_key kv.1 ++ encode_into kv.2.

Definition entry_ok (dep : nat) (kv : string * Value) : bool :=
  text_ok kv.1 && canonical dep kv.2.

Definition entry_keys (es : list (string * Value)) : list bytes :=
  List.map (fun kv => encoded_key kv.1) es.

Lemma array_item_turns rd n acc d acc' d' :
  sound_reader rd -> turns (array_item rd) n acc d acc' d' ->
  exists items, acc' = acc ++ items /\ blen items = n
    /\ List.forallb (canonical (depth d)) items = true
    /\ reads d (List.flat_map encode_into items) d'.
Proof.
  intros Hrd. induction 1 as [acc d|n acc d acc1 d1 acc2 d2 Hn Hb Ht IH].
  { exists []. rewrite app_nil_r. split_and!; [done..|apply reads_nil]. }
  unfold array_item in Hb. inv_ok. apply Hrd in H as [Hc Hr].
  destruct IH as (items & -> & <- & Hi & Hr2).
  assert (depth d1 = depth d) as Hd by (destruct Hr as [-> _]; done).
  exists (x :: items). rewrite Hd in Hi. simpl. rewrite Hc, <- (assoc (++)).
  split_and!; [done|unfold blen; simpl; lia|done|by eapply reads_trans].
Qed.

Lemma slice_reads d bs d' :
  reads d bs d' -> firstn (pos d' - pos d) (drop (pos d) (buf d')) = bs.
Proof.
  intros [-> [tl Hs]]. unfold skip. simpl.
  replace (pos d + length bs - pos d)%nat with (length bs) by lia.
  rewrite Hs. apply take_app_length.
Qed.

Lemma map_entry_sound rd es prev d acc' d' :
  sound_reader rd -> map_entry rd (es, prev) d = Ok (acc', d') ->
  exists kv, acc' = (es ++ [kv], Some (encoded_key kv.1))
    /\ entry_ok (depth d) kv = true /\ reads d (enc_entry kv) d'
    /\ forall p, prev = Some p -> bytes_lt p (encoded_key kv.1).
Proof.
  intros Hrd H. unfold map_entry in H.
  apply sm_bind_ok in H as (? & ? & [= <- <-] & H).
  apply sm_bind_ok in H as (kb & ? & Hp & H).
  pose proof Hp as [-> _]%peek_ok.
  apply sm_bind_ok in H as (? & ? & [Hm [= -> ->]]%fail_if_ok & H).
  apply sm_bind_ok in H as ([m klen] & d1 & Hh & H).
  apply negb_false_iff, Z.eqb_eq in Hm.
  pose proof (head_major _ _ _ _ _ Hh Hp) as ->. rewrite Hm in Hh.
  apply head_reads in Hh as (_ & Hk & Hr1).
  apply sm_bind_ok in H as (raw & d2 & Ht & H).
  apply take_reads in Ht as [-> Hr2]; [|lia].
  apply sm_bind_ok in H as (key & ? & (-> & <- & Hu)%utf8_ok & H).
  assert (reads d (encoded_key key) d2) as Hrk by (by eapply reads_trans).
  apply sm_bind_ok in H as (enc & ? & [= <- <-] & H).
  rewrite (slice_reads _ _ _ Hrk) in H.
  apply sm_bind_ok in H as (? & ? & [[= -> ->] Hlt]%key_after_ok & H).
  apply sm_bind_ok in H as (v & d3 & [Hc Hv]%Hrd & [= <- <-]).
  exists (key, v). unfold entry_ok, text_ok, wire_len. simpl.
  assert (depth d2 = depth d) as Hd by (destruct Hrk as [-> _]; done).
  rewrite Hd in Hc. rewrite Hu, Hc, (proj2 (Z.leb_le _ _)) by lia.
  split_and!; [done|done|by eapply reads_trans|done].
Qed.

Lemma map_entry_turns rd n acc d acc' d' :
  sound_reader rd -> turns (map_entry rd) n acc d acc' d' ->
  exists es, acc'.1 = acc.1 ++ es /\ blen es = n
    /\ List.forallb (entry_ok (depth d)) es = true
    /\ reads d (List.flat_map enc_entry es) d'
    /\ keys_ascending (option_list acc.2 ++ entry_keys es) = true.
Proof.
  intros Hrd. induction 1 as [acc d|n acc d acc1 d1 acc2 d2 Hn Hb Ht IH].
  { exists []. rewrite !app_nil_r. split_and!; [done..|apply reads_nil|].
    by destruct acc as [? [?|]]. }
  destruct acc as [es0 prev].
  apply map_entry_sound in Hb as (kv & -> & Hok & Hr & Hlt); [|done].
  destruct IH as (es & He & <- & Hi & Hr2 & Hs).
  assert (depth d1 = depth d) as Hd by (destruct Hr as [-> _]; done).
  rewrite Hd in Hi. exists (kv :: es). simpl in *. rewrite He, Hok, <- (assoc (++)).
  split_and!; [done|unfold blen; simpl; lia|done|by eapply reads_trans|].
  destruct prev as [p|]; [|done]. simpl. by rewrite (Hlt p).
Qed.

(** ** Maps in wire order encode entry by entry *)

Lemma keys_ascending_sorted {V} (l : list (bytes * V)) :
  keys_ascending l.*1 = true <-> key_sorted l.
Proof.
  induction l as [|[k1 v1] [|[k2 v2] l] IH].
  - split; [constructor|done].
  - split; [repeat constructor|done].
  - change (keys_ascending ((k1, v1) :: (k2, v2) :: l).*1)
      with (match bytes_cmp k1 k2 with
            | Lt => keys_ascending ((k2, v2) :: l).*1 | _ => false end).
    split.
    + destruct (bytes_cmp k1 k2) eqn:E; try done. intros [Hs Hf]%IH%StronglySorted_inv.
      constructor; [by constructor|]. constructor; [done|].
      eapply Forall_impl; [exact Hf|]. intros p Hp. unfold key_lt in *. simpl in *.
      by trans k2.
    + intros [Hs Hf]%StronglySorted_inv. apply Forall_cons in Hf as [Hlt _].
      unfold key_lt, bytes_lt in Hlt. simpl in Hlt. rewrite Hlt. by apply IH.
Qed.

(** The map encoding over the pairs of encoded key and encoded value. *)
Definition encoded_entries (es : list (string * Value)) : list (bytes * bytes) :=
  List.map (fun kv => (encoded_key kv.1, encode_into kv.2)) es.

Lemma encoded_entries_keys es : (encoded_entries es).*1 = entry_keys es.
Proof. apply List.map_map. Qed.

Lemma encode_map_sorted es :
  keys_ascending (entry_keys es) = true ->
  encode_into (Map es) = enc_head 5 (blen es) ++ List.flat_map enc_entry es.
Proof.
  intros H. rewrite <- encoded_entries_keys, keys_ascending_sorted in H.
  change (encode_into (Map es)) with
    (enc_head 5 (blen (btree_of_list (encoded_entries es)))
     ++ List.flat_map (fun kv => kv.1 ++ kv.2) (btree_of_list (encoded_entries es))).
  rewrite (btree_of_sorted _ H). unfold blen, encoded_entries.
  rewrite List.length_map. f_equal. clear H.
  induction es as [|kv es IH]; [done|]. simpl. by rewrite IH.
Qed.

Lemma enter_ok d r :
  enter d = Ok r <-> (depth d < MAX_NESTING)%nat /\ r = (tt, mk (buf d) (pos d) (S (depth d))).
Proof. unfold enter. simpl. case_decide; naive_solver lia. Qed.

Lemma loop_turns {A} arg (body : A -> dec A) acc d acc' d' :
  0 <= arg -> loop arg body acc d = Ok (acc', d') -> turns body arg acc d acc' d'.
Proof. apply for_count_turns. Qed.

(** What [enter] and [leave] bracket reads the same bytes one level deeper. *)
Lemma leave_reads d bs d' :
  reads (mk (buf d) (pos d) (S (depth d))) bs d' ->
  exists d'', leave d' = Ok (tt, d'') /\ reads d bs d''.
Proof. intros [-> Hs]. eexists. split; [done|]. split; [done|exact Hs]. Qed.

Lemma value_of_sound rd m a d d1 v d' :
  sound_reader rd -> 0 <= a <= U64_MAX -> reads d (enc_head m a) d1 ->
  value_of rd m a d1 = Ok (v, d') ->
  canonical (depth d) v = true /\ reads d (encode_into v) d'.
Proof.
  intros Hrd Ha Hr1 H. unfold value_of in H.
  assert (depth d1 = depth d) as Hdep by (destruct Hr1 as [-> _]; done).
  repeat match type of H with
  | (if m =? ?k then _ else _) _ = _ => destruct (Z.eqb_spec m k) as [->|]
  end; try done.
  - inv_ok. rewrite Z.ltb_ge in *. simpl. split; [lia|done].
  - unfold fmap, sm_fmap in H. destruct (take a d1) as [[s d2]|?|?] eqn:Ht; [|done..].
    simplify_eq/=. apply take_reads in Ht as [-> Hr2]; [|lia].
    unfold wire_len. split; [lia|by eapply reads_trans].
  - apply sm_bind_ok in H as (raw & d2 & [-> Hr2]%take_reads & H); [|lia].
    apply sm_bind_ok in H as (s & ? & (-> & <- & Hu)%utf8_ok & H).
    apply sm_bind_ok in H as (? & ? & [Hnul [= -> ->]]%fail_if_ok & [= <- <-]).
    cbn [canonical encodable encode_into]. unfold text_ok, wire_len.
    rewrite Hu, Hnul, (proj2 (Z.leb_le _ _)) by lia.
    split; [done|by eapply reads_trans].
  - apply sm_bind_ok in H as ([] & ? & [Hd [= ->]]%enter_ok & H).
    apply sm_bind_ok in H as (items & d2 & Ht & H).
    apply loop_turns in Ht; [|lia].
    apply array_item_turns in Ht as (l & -> & <- & Hc & Hr2); [|done].
    apply leave_reads in Hr2 as (d3 & Hl & Hr2).
    apply sm_bind_ok in H as (? & ? & Hl' & [= <- <-]).
    rewrite Hl in Hl'. simplify_eq. simpl in Hc. rewrite Hdep in *.
    cbn [canonical app encode_into]. rewrite bool_decide_true by done.
    unfold wire_len. rewrite Hc, (proj2 (Z.leb_le _ _)) by lia.
    split; [done|by eapply reads_trans].
  - apply sm_bind_ok in H as ([] & ? & [Hd [= ->]]%enter_ok & H).
    apply sm_bind_ok in H as (acc & d2 & Ht & H).
    apply loop_turns in Ht; [|lia].
    apply map_entry_turns in Ht as (es & He & <- & Hc & Hr2 & Hs); [|done].
    apply leave_reads in Hr2 as (d3 & Hl & Hr2).
    apply sm_bind_ok in H as (? & ? & Hl' & [= <- <-]).
    rewrite Hl in Hl'. simplify_eq. simpl in Hc, Hs, He. rewrite He, Hdep in *.
    rewrite encode_map_sorted by done.
    cbn [canonical app]. rewrite bool_decide_true by done.
    unfold wire_len. unfold entry_ok in Hc. unfold entry_keys in Hs.
    rewrite Hc, Hs, (proj2 (Z.leb_le _ _)) by lia.
    split; [done|by eapply reads_trans].
Qed.

Lemma value_sound fuel : sound_reader (value fuel).
Proof.
  induction fuel as [|fuel IH]; intros d v d' H; [done|]. cbn [value] in H.
  apply sm_bind_ok in H as (ib & ? & Hp & H). pose proof Hp as [-> [tl Hs]]%peek_ok.
  cbv zeta in H. destruct (Z.eqb_spec (Z.shiftr (b2z ib) 5) 6); [done|].
  destruct (Z.eqb_spec (Z.shiftr (b2z ib) 5) 7).
  - apply sm_bind_ok in H as (b & d1 & [-> [tl' Hs']]%byte_ok & H).
    assert (reads d [ib] (skip d 1)) as Hr by (split; [done|by exists tl]).
    destruct (Z.eqb_spec (b2z ib) 0xf4) as [E|]; [|destruct (Z.eqb_spec (b2z ib) 0xf5) as [E|]];
      inv_ok; (split; [done|]); cbn [encode_into]; by rewrite <- E, z2b_b2z.
  - apply sm_bind_ok in H as ([m a] & d1 & (Hm & Ha & Hr)%head_reads & H).
    by eapply value_of_sound.
Qed.

(** ** Completeness *)

(** A slice is never longer than the address space. *)
Definition fits (d : t) : Prop := blen (buf d) <= USIZE_MAX.

(** At depth [dep], [rd] reads every canonical encoding it sees. *)
Definition complete_reader (dep : nat) (rd : dec Value) : Prop := forall d v tl,
  depth d = dep -> fits d -> canonical dep v = true -> sees d (encode_into v) tl ->
  rd d = Ok (v, skip d (length (encode_into v))).

Lemma encode_ne v : encode_into v <> [].
Proof.
  destruct v; cbn [encode_into]; rewrite ?enc_head_split; try done.
Qed.

Lemma array_item_complete rd items acc d tl :
  complete_reader (depth d) rd -> fits d ->
  List.forallb (canonical (depth d)) items = true ->
  sees d (List.flat_map encode_into items) tl ->
  turns (array_item rd) (blen items) acc d (acc ++ items)
        (skip d (length (List.flat_map encode_into items))).
Proof.
  intros Hrd Hf. remember (depth d) as dep eqn:Hd.
  revert acc d Hf Hd. induction items as [|x items IH]; intros acc d Hf -> Hc Hs.
  { simpl. rewrite app_nil_r, skip_0. constructor. }
  simpl in *. apply andb_true_iff in Hc as [Hx Hc]. apply sees_step in Hs as [Hs1 Hs2].
  replace (blen (x :: items)) with (blen items + 1) by (unfold blen; simpl; lia).
  apply (turns_step _ _ _ _ (acc ++ [x]) (skip d (length (encode_into x)))).
  - unfold blen. lia.
  - unfold array_item. erewrite sm_bind_step; [done|]. by eapply Hrd.
  - rewrite <- skip_app. replace (acc ++ x :: items) with ((acc ++ [x]) ++ items)
      by (by rewrite <- (assoc (++))).
    by apply IH.
Qed.

Lemma map_entry_complete rd es prev kv d tl :
  complete_reader (depth d) rd -> fits d -> entry_ok (depth d) kv = true ->
  (forall p, prev = Some p -> bytes_lt p (encoded_key kv.1)) ->
  sees d (enc_entry kv) tl ->
  map_entry rd (es, prev) d
  = Ok ((es ++ [kv], Some (encoded_key kv.1)), skip d (length (enc_entry kv))).
Proof.
  intros Hrd Hf Hok Hlt Hs. destruct kv as [k v].
  unfold entry_ok, text_ok, wire_len in Hok. cbn [fst snd] in *.
  apply andb_true_iff in Hok as [[Hu Hl%Z.leb_le]%andb_true_iff Hc].
  pose proof Hs as [Hsk Hsv]%sees_step. cbn [fst snd] in Hsk, Hsv.
  unfold encoded_key in Hsk at 1. apply sees_step in Hsk as [Hsh Hsr].
  assert (0 <= blen (as_bytes k)) as Hk0 by (unfold blen; lia).
  destruct (head_peek d 3 (blen (as_bytes k)) _ ltac:(lia) Hk0 Hsh) as (ib & Hp & Hib).
  unfold map_entry. erewrite sm_bind_step by reflexivity.
  erewrite sm_bind_step by exact Hp. rewrite Hib.
  erewrite sm_bind_step by reflexivity.
  erewrite sm_bind_step by
    (apply (head_complete _ 3 _ _ Hf ltac:(lia) (conj Hk0 Hl) Hsh)).
  cbv beta iota.
  assert (pos d + length (enc_head 3 (blen (as_bytes k))) <= length (buf d))%nat as Hpos
    by (eapply sees_length; [exact Hsh|apply enc_head_ne]).
  erewrite sm_bind_step by (eapply take_complete; [exact Hf|exact Hpos|exact Hsr]).
  erewrite sm_bind_step by (apply utf8_ok; eauto).
  erewrite sm_bind_step by reflexivity.
  rewrite skip_app. change (enc_head 3 (blen (as_bytes k)) ++ as_bytes k) with (encoded_key k).
  rewrite (slice_reads d (encoded_key k)); [|split; [done|by eapply sees_step in Hs as [? _]; eexists]].
  erewrite sm_bind_step.
  2:{ unfold key_after. destruct prev as [p|]; [|done].
      specialize (Hlt p eq_refl). apply bytes_cmp_gt in Hlt. by rewrite Hlt. }
  erewrite sm_bind_step by (eapply Hrd; [done|exact Hf|exact Hc|exact Hsv]).
  unfold enc_entry. by rewrite skip_app.
Qed.

Lemma map_entries_complete rd es acc d tl :
  complete_reader (depth d) rd -> fits d ->
  List.forallb (entry_ok (depth d)) es = true ->
  keys_ascending (option_list acc.2 ++ entry_keys es) = true ->
  sees d (List.flat_map enc_entry es) tl ->
  exists prev, turns (map_entry rd) (blen es) acc d (acc.1 ++ es, prev)
        (skip d (length (List.flat_map enc_entry es))).
Proof.
  intros Hrd Hf. remember (depth d) as dep eqn:Hd.
  revert acc d Hf Hd. induction es as [|kv es IH]; intros [es0 prev] d Hf -> Hc Hk Hs.
  { exists prev. simpl. rewrite app_nil_r, skip_0. constructor. }
  cbn [List.forallb List.flat_map fst snd] in *.
  apply andb_true_iff in Hc as [Hx Hc]. apply sees_step in Hs as [Hs1 Hs2].
  assert ((forall p, prev = Some p -> bytes_lt p (encoded_key kv.1))
    /\ keys_ascending (encoded_key kv.1 :: entry_keys es) = true) as [Hlt Hk'].
  { destruct prev as [p|]; [|done]. simpl in *. unfold bytes_lt.
    destruct (bytes_cmp p _) eqn:E; try done. split; [|done]. congruence. }
  destruct (IH (es0 ++ [kv], Some (encoded_key kv.1)) (skip d (length (enc_entry kv))))
    as [prev' Ht]; [done..|].
  exists prev'. replace (blen (kv :: es)) with (blen es + 1) by (unfold blen; simpl; lia).
  eapply turns_step; [unfold blen; lia|by eapply map_entry_complete|].
  rewrite <- skip_app. cbn [fst] in Ht. by rewrite <- (assoc (++)) in Ht.
Qed.

Lemma flat_map_length {A} (g : A -> bytes) l :
  (forall x, g x <> []) -> (length l <= length (List.flat_map g l))%nat.
Proof.
  intros Hg. induction l as [|x l IH]; simpl; [done|]. rewrite length_app.
  specialize (Hg x). destruct (g x); [done|]. simpl. lia.
Qed.

Lemma loop_complete {A B} (body : A -> dec A) (g : B -> bytes) l acc d acc' d' tl :
  turns body (blen l) acc d acc' d' -> (forall x, g x <> []) ->
  sees d (List.flat_map g l) tl -> loop (blen l) body acc d = Ok (acc', d').
Proof.
  intros Ht Hg Hs. apply turns_for_count; [done|].
  pose proof (flat_map_length g l Hg). unfold sees in Hs. apply (f_equal length) in Hs.
  rewrite length_drop, length_app in Hs. unfold blen. lia.
Qed.

Lemma enc_entry_ne kv : enc_entry kv <> [].
Proof. unfold enc_entry, encoded_key. by rewrite enc_head_split. Qed.

Lemma value_dispatch fuel d m a tl :
  fits d -> 0 <= m < 6 -> 0 <= a <= U64_MAX -> sees d (enc_head m a) tl ->
  value (S fuel) d = value_of (value fuel) m a (skip d (length (enc_head m a))).
Proof.
  intros Hf Hm Ha Hs.
  destruct (head_peek d m a tl) as (ib & Hp & Hib); [lia..|done|].
  cbn [value]. erewrite sm_bind_step by exact Hp. rewrite Hib. cbv zeta.
  rewrite !(proj2 (Z.eqb_neq _ _)) by lia.
  by erewrite sm_bind_step by (apply (head_complete _ m a tl Hf ltac:(lia) Ha Hs)).
Qed.

(** One case of [value_complete]: a head, then a payload [bs]. *)
Lemma value_after_head fuel d m a bs tl v :
  fits d -> 0 <= m < 6 -> 0 <= a <= U64_MAX ->
  encode_into v = enc_head m a ++ bs -> sees d (encode_into v) tl ->
  (forall d1, fits d1 -> depth d1 = depth d -> sees d1 bs tl ->
     (pos d1 <= length (buf d1))%nat ->
     value_of (value fuel) m a d1 = Ok (v, skip d1 (length bs))) ->
  value (S fuel) d = Ok (v, skip d (length (encode_into v))).
Proof.
  intros Hf Hm Ha He Hs H. rewrite He, <- skip_app in *.
  apply sees_step in Hs as [Hsh Hs].
  rewrite (value_dispatch _ _ _ _ _ Hf Hm Ha Hsh). apply H; [done..|].
  simpl. eapply sees_length; [exact Hsh|apply enc_head_ne].
Qed.

Lemma canonical_array d items :
  canonical d (Array items) = true ->
  (d < MAX_NESTING)%nat /\ blen items <= U64_MAX /\ List.forallb (canonical (S d)) items = true.
Proof.
  cbn [canonical]. unfold wire_len.
  intros [[?%bool_decide_eq_true ?%Z.leb_le]%andb_true_iff ?]%andb_true_iff. done.
Qed.

Lemma canonical_map d es :
  canonical d (Map es) = true ->
  (d < MAX_NESTING)%nat /\ blen es <= U64_MAX
  /\ List.forallb (entry_ok (S d)) es = true /\ keys_ascending (entry_keys es) = true.
Proof.
  cbn [canonical]. unfold wire_len.
  intros [[[?%bool_decide_eq_true ?%Z.leb_le]%andb_true_iff ?]%andb_true_iff ?]%andb_true_iff.
  done.
Qed.

Lemma blen_nonneg {A} (l : list A) : 0 <= blen l.
Proof. unfold blen. lia. Qed.

Lemma value_complete fuel dep :
  (dep <= MAX_NESTING < dep + fuel)%nat -> complete_reader dep (value fuel).
Proof.
  revert dep. induction fuel as [|fuel IH]; intros dep Hdep d v tl Hd Hf Hc Hs; [lia|].
  destruct v as [n|b|s|b|items|es].
  - cbn [canonical encodable] in Hc. apply andb_true_iff in Hc as [H0%Z.leb_le H1%Z.leb_le].
    eapply (value_after_head _ _ 0 n [] tl); try done.
    { unfold MAX_SQLITE_WIRE_UINT, I64_MAX, U64_MAX in *. lia. }
    { cbn [encode_into]. by rewrite app_nil_r. }
    intros d1 _ _ _ _. unfold value_of. simpl. rewrite skip_0.
    unfold mbind, sm_bind, fail_if. by rewrite (proj2 (Z.ltb_ge _ _)).
  - cbn [encode_into] in *. cbn [value].
    erewrite sm_bind_step by (apply peek_ok; eauto). cbv zeta.
    replace (Z.shiftr (b2z (if b then z2b 0xf5 else z2b 0xf4)) 5) with 7 by (by destruct b).
    cbn [Z.eqb Pos.eqb]. erewrite sm_bind_step by (apply byte_ok; eauto).
    by destruct b.
  - cbn [canonical encodable] in Hc. unfold text_ok, wire_len in Hc.
    apply andb_true_iff in Hc as [[Hu Hl%Z.leb_le]%andb_true_iff Hn%negb_true_iff].
    eapply (value_after_head _ _ 3 (blen (as_bytes s)) (as_bytes s) tl); try done.
    { split; [apply blen_nonneg|done]. }
    intros d1 Hf1 _ Hs1 Hp1. unfold value_of. cbn [Z.eqb Pos.eqb].
    erewrite sm_bind_step by (by eapply take_complete).
    erewrite sm_bind_step by (apply utf8_ok; eauto).
    unfold mbind, sm_bind, fail_if. by rewrite Hn.
  - cbn [canonical encodable] in Hc. unfold wire_len in Hc. apply Z.leb_le in Hc.
    eapply (value_after_head _ _ 2 (blen b) b tl); try done.
    { split; [apply blen_nonneg|done]. }
    intros d1 Hf1 _ Hs1 Hp1. unfold value_of. cbn [Z.eqb Pos.eqb].
    unfold fmap, sm_fmap. by erewrite take_complete.
  - apply canonical_array in Hc as (Hlt & Hl & Hc).
    eapply (value_after_head _ _ 4 (blen items) _ tl); try done.
    { split; [apply blen_nonneg|done]. }
    intros d1 Hf1 Hd1 Hs1 Hp1. unfold value_of. cbn [Z.eqb Pos.eqb].
    erewrite sm_bind_step by (apply enter_ok; split; [congruence|done]).
    erewrite sm_bind_step.
    2:{ eapply (loop_complete _ encode_into _ []); [|apply encode_ne|exact Hs1].
        eapply array_item_complete; [|exact Hf1| |exact Hs1]; simpl; rewrite Hd1, Hd;
          [apply IH; lia|done]. }
    done.
  - apply canonical_map in Hc as (Hlt & Hl & Hc & Hk).
    eapply (value_after_head _ _ 5 (blen es) _ tl); try done.
    { split; [apply blen_nonneg|done]. }
    { by apply encode_map_sorted. }
    intros d1 Hf1 Hd1 Hs1 Hp1. unfold value_of. cbn [Z.eqb Pos.eqb].
    erewrite sm_bind_step by (apply enter_ok; split; [congruence|done]).
    edestruct (map_entries_complete (value fuel) es ([], None)
      (mk (buf d1) (pos d1) (S (depth d1))) tl) as [prev Ht]; [|exact Hf1| |done|exact Hs1|];
      [simpl; rewrite Hd1, Hd; apply IH; lia|simpl; by rewrite Hd1, Hd|].
    erewrite sm_bind_step by (eapply loop_complete; [exact Ht|apply enc_entry_ne|exact Hs1]).
    done.
Qed.

(** ** Crash freedom *)

Lemma lift_safe {S E A} (m : result E A) (s : S) : safe m -> safe (lift m s).
Proof. intros Hm c. unfold lift. destruct m; [done..|]. by specialize (Hm c0). Qed.

Lemma head_safe d : safe (head d).
Proof.
  unfold head. apply safe_sm_bind; [unfold byte; by case_match|]. intros ib s' _.
  apply safe_sm_bind; [|done]. unfold head_arg, wide_arg.
  repeat case_match; try done; (apply safe_sm_bind;
    [unfold take, byte; by repeat case_match|]); intros b s1 _;
    (apply safe_sm_bind; [unfold fail_if; by case_match|done]).
Qed.

Lemma utf8_safe raw d : safe (utf8 raw d).
Proof. apply lift_safe. unfold ok_or. by case_match. Qed.

Lemma take_safe n d : safe (take n d).
Proof. unfold take. by repeat case_match. Qed.

Lemma map_entry_safe rd acc d :
  (forall d', depth d' = depth d -> safe (rd d')) -> safe (map_entry rd acc d).
Proof.
  intros Hrd. destruct acc as [es prev]. unfold map_entry.
  apply safe_sm_bind; [done|]. intros ? ? [= <- <-].
  apply safe_sm_bind; [unfold peek; by case_match|]. intros kb ? [-> _]%peek_ok.
  apply safe_sm_bind; [unfold fail_if; by case_match|]. intros ? ? [_ [= -> ->]]%fail_if_ok.
  apply safe_sm_bind; [apply head_safe|]. intros [m k] d1 (Hm & Hk & [-> _])%head_reads.
  apply safe_sm_bind; [apply take_safe|]. intros raw d2 [_ [-> _]]%take_reads; [|lia].
  apply safe_sm_bind; [apply utf8_safe|]. intros key ? [-> _]%utf8_ok.
  apply safe_sm_bind; [done|]. intros ? ? [= <- <-].
  apply safe_sm_bind; [unfold key_after; by repeat case_match|].
  intros ? ? [[= -> ->] _]%key_after_ok. apply safe_sm_bind; [by apply Hrd|done].
Qed.

Lemma value_progress fuel d v d' :
  value fuel d = Ok (v, d') ->
  depth d' = depth d /\ buf d' = buf d /\ (pos d < pos d' <= length (buf d'))%nat.
Proof.
  intros [_ [-> [tl Hs]]]%value_sound. pose proof (encode_ne v) as Hn.
  pose proof (sees_length _ _ _ Hs Hn). split_and!; [done..| |done].
  simpl. destruct (encode_into v); [done|simpl; lia].
Qed.

Definition unread (d : t) : nat := length (buf d) - pos d.

Lemma loop_safe {A} fuel n (body : A -> dec A) acc d :
  (forall acc d', depth d' = depth d -> safe (body acc d')) ->
  (forall acc d1 acc' d2, depth d1 = depth d -> body acc d1 = Ok (acc', d2) ->
     depth d2 = depth d1 /\ buf d2 = buf d1 /\ (pos d1 < pos d2 <= length (buf d2))%nat) ->
  (unread d < fuel)%nat -> safe (for_count fuel n body acc d).
Proof.
  intros Hs Hp. apply (for_count_safe (fun d' => depth d' = depth d) unread); [done| |done].
  intros acc1 s acc' s' Hd H. destruct (Hp _ _ _ _ Hd H) as (? & Hb & ?).
  unfold unread. rewrite Hb in *. split; [congruence|lia].
Qed.

Lemma value_safe fuel d :
  (depth d <= MAX_NESTING < depth d + fuel)%nat -> safe (value fuel d).
Proof.
  revert d. induction fuel as [|fuel IH]; intros d Hd; [lia|]. cbn [value].
  apply safe_sm_bind; [unfold peek; by case_match|]. intros ib ? [-> _]%peek_ok. cbv zeta.
  case_match; [done|]. case_match.
  { apply safe_sm_bind; [unfold byte; by case_match|]. intros. by repeat case_match. }
  apply safe_sm_bind; [apply head_safe|]. intros [m a] d1 (Hm & Ha & [-> _])%head_reads.
  unfold value_of. repeat case_match; try done.
  - apply safe_sm_bind; [unfold fail_if; by case_match|done].
  - unfold fmap, sm_fmap. pose proof (take_safe a (skip d (length (enc_head m a)))) as Ht.
    destruct (take _ _) as [[]|?|]; [done..|by specialize (Ht c)].
  - apply safe_sm_bind; [apply take_safe|]. intros.
    apply safe_sm_bind; [apply utf8_safe|]. intros.
    apply safe_sm_bind; [unfold fail_if; by case_match|done].
  - apply safe_sm_bind; [unfold enter; by case_decide|]. intros ? ? [? [= -> ->]]%enter_ok.
    apply safe_sm_bind; [|intros; apply safe_sm_bind; done].
    apply loop_safe; [| |unfold unread; lia].
    + intros acc d' Hd'. apply safe_sm_bind; [|done]. apply IH. simpl in *. lia.
    + intros acc d1 acc' d2 _ H'. unfold array_item in H'.
      apply sm_bind_ok in H' as (x & d3 & H' & [= <- <-]). by apply value_progress in H'.
  - apply safe_sm_bind; [unfold enter; by case_decide|]. intros ? ? [? [= -> ->]]%enter_ok.
    apply safe_sm_bind; [|intros; apply safe_sm_bind; done].
    apply loop_safe; [| |unfold unread; lia].
    + intros acc d' Hd'. apply map_entry_safe. intros d'' Hd''. apply IH. simpl in *. lia.
    + intros [es prev] d1 acc' d2 _ H'. apply map_entry_sound in H' as (kv & _ & _ & [-> [tl Hs]] & _);
        [|apply value_sound].
      pose proof (enc_entry_ne kv) as Hne. pose proof (sees_length _ _ _ Hs Hne).
      split_and!; [done..| |done]. simpl. destruct (enc_entry kv); [done|simpl; lia].
Qed.

(** ** decode *)

Lemma decode_sound bs v : decode bs = Ok v -> canonical 0 v = true /\ encode v = bs.
Proof.
  unfold decode. intros H. apply result_bind_ok in H as ([v' d] & Hv & H).
  case_decide as Hp; [|done]. simplify_eq. apply value_sound in Hv as [Hc [-> [tl Hs]]].
  split; [done|]. unfold sees in Hs. simpl in *. rewrite drop_0 in Hs.
  apply (f_equal length) in Hs as Hl. rewrite length_app in Hl.
  destruct tl; [by rewrite app_nil_r in Hs|simpl in Hl; lia].
Qed.

Lemma decode_complete v :
  canonical 0 v = true -> blen (encode v) <= USIZE_MAX -> decode (encode v) = Ok v.
Proof.
  intros Hc Hb. unfold decode.
  rewrite (value_complete VALUE_FUEL 0 ltac:(unfold VALUE_FUEL; lia)
    (mk (encode v) 0 0) v [] eq_refl Hb Hc); [|unfold sees; simpl; by rewrite app_nil_r].
  unfold mbind, result_bind. by rewrite decide_True.
Qed.

Lemma decode_safe_all bs : safe (decode bs).
Proof.
  unfold decode. apply safe_bind; [apply value_safe; unfold VALUE_FUEL; simpl; lia|].
  intros [v d] _. by case_decide.
Qed.

Lemma roundtrip_is_decode bs : assert_canonical_roundtrip bs = decode bs.
Proof.
  unfold assert_canonical_roundtrip. destruct (decode bs) as [v|e|c] eqn:H; [|done..].
  apply decode_sound in H as [_ H]. unfold mbind, result_bind. by rewrite decide_True.
Qed.
