(* ===== verification/CanonicalTheorems.v ===== *)
(** * Theorems on the codec

    Normal forms of encodable values, independence of construction order, the
    size of encodings, unambiguous hash preimages, and the properties of
    [decode] and [encode] stated over whole byte strings. *)

From S2P Require Import Prelude Bytes Canonical CanonicalFacts CanonicalDecode.

(** ** Ordered maps and their normal form *)

Lemma btree_insert_fmap {V W} (g : V -> W) k v (t : list (bytes * V)) :
  btree_insert k (g v) (prod_map id g <$> t) = prod_map id g <$> btree_insert k v t.
Proof.
  induction t as [|[k' v'] t IH]; [done|]. csimpl. unfold prod_map at 1. simpl.
  destruct (bytes_cmp k k'); [done..|]. csimpl. by rewrite IH.
Qed.

Lemma btree_of_list_fmap {V W} (g : V -> W) (l : list (bytes * V)) :
  btree_of_list (prod_map id g <$> l) = prod_map id g <$> btree_of_list l.
Proof.
  induction l as [|[k v] l IH] using rev_ind; [done|].
  rewrite fmap_app. simpl. rewrite !btree_of_list_snoc, IH.
  apply (btree_insert_fmap g k v).
Qed.

Lemma btree_of_list_elem {V} (l : list (bytes * V)) p : p ∈ btree_of_list l -> p ∈ l.
Proof.
  induction l as [|[k v] l IH] using rev_ind; [done|].
  rewrite btree_of_list_snoc. intros [->|?]%btree_insert_keys; set_solver.
Qed.

Lemma btree_insert_length {V} k (v : V) t :
  (length (btree_insert k v t) <= S (length t))%nat.
Proof.
  induction t as [|[k' v'] t IH]; simpl; [lia|].
  destruct (bytes_cmp k k'); simpl; lia.
Qed.

Lemma btree_of_list_length {V} (l : list (bytes * V)) :
  (length (btree_of_list l) <= length l)%nat.
Proof.
  induction l as [|p l IH] using rev_ind; [done|].
  rewrite btree_of_list_snoc, length_app. simpl.
  pose proof (btree_insert_length p.1 p.2 (btree_of_list l)). lia.
Qed.

Definition keyed (l : list (string * Value)) : list (bytes * (string * Value)) :=
  (fun kv => (encoded_key kv.1, kv)) <$> l.

Lemma keyed_elem l p : p ∈ keyed l -> p.1 = encoded_key p.2.1 /\ p.2 ∈ l.
Proof. unfold keyed. intros (kv & -> & H)%list_elem_of_fmap. done. Qed.

Lemma sort_entries_keys l : entry_keys (sort_entries l) = (btree_of_list (keyed l)).*1.
Proof.
  unfold sort_entries, entry_keys. fold (keyed l).
  change (List.map ?f (?g <$> ?x)) with (f <$> (g <$> x)).
  rewrite <- list_fmap_compose. apply list_fmap_ext. intros i p Hp.
  apply list_elem_of_lookup_2, btree_of_list_elem, keyed_elem in Hp as [-> _]. done.
Qed.

Lemma sort_entries_ascending l : keys_ascending (entry_keys (sort_entries l)) = true.
Proof.
  rewrite sort_entries_keys. apply keys_ascending_sorted, btree_of_list_sorted.
Qed.

Lemma sort_entries_elem l kv : kv ∈ sort_entries l -> kv ∈ l.
Proof.
  unfold sort_entries. intros ([k kv'] & -> & H)%list_elem_of_fmap.
  by apply btree_of_list_elem, keyed_elem in H as [_ ?].
Qed.

Lemma sort_entries_perm l : NoDup (entry_keys l) -> sort_entries l ≡ₚ l.
Proof.
  intros Hd. unfold sort_entries. fold (keyed l). rewrite btree_of_list_perm.
  - unfold keyed. rewrite <- list_fmap_compose. by rewrite list_fmap_id.
  - unfold keyed. by rewrite <- list_fmap_compose.
Qed.

Lemma flat_map_ext_Forall {A B} (f g : A -> list B) l :
  Forall (fun x => f x = g x) l -> List.flat_map f l = List.flat_map g l.
Proof. induction 1 as [|x l Hx Hl IH]; simpl; [done|]. by rewrite Hx, IH. Qed.

Lemma flat_map_fmap {A B C} (f : B -> list C) (g : A -> B) l :
  List.flat_map f (g <$> l) = List.flat_map (fun x => f (g x)) l.
Proof. induction l as [|x l IH]; [done|]. csimpl. by rewrite IH. Qed.

Lemma encode_sort_entries l : encode_into (Map (sort_entries l)) = encode_into (Map l).
Proof.
  rewrite encode_map_sorted by apply sort_entries_ascending.
  cbn [encode_into].
  assert (List.map (fun kv => (encoded_key kv.1, encode_into kv.2)) l
          = prod_map id (fun kv => encode_into kv.2) <$> keyed l) as ->.
  { unfold keyed. by rewrite <- list_fmap_compose. }
  rewrite btree_of_list_fmap. unfold blen, sort_entries. rewrite !length_fmap. f_equal.
  fold (keyed l).
  assert (forall p, p ∈ btree_of_list (keyed l) -> p.1 = encoded_key p.2.1) as Hk.
  { intros p Hp. by apply btree_of_list_elem, keyed_elem in Hp as [-> _]. }
  rewrite !flat_map_fmap. apply flat_map_ext_Forall, Forall_forall. intros p Hp.
  unfold enc_entry. simpl. by rewrite (Hk p Hp).
Qed.

Lemma encode_map_ext es (g : Value -> Value) :
  Forall (fun kv => encode_into (g kv.2) = encode_into kv.2) es ->
  encode_into (Map (List.map (fun kv => (kv.1, g kv.2)) es)) = encode_into (Map es).
Proof.
  intros H. cbn [encode_into]. rewrite List.map_map. cbn [fst snd].
  replace (List.map (fun kv => (encoded_key kv.1, encode_into (g kv.2))) es)
    with (List.map (fun kv => (encoded_key kv.1, encode_into kv.2)) es); [done|].
  induction H as [|kv l Hkv Hl IH]; simpl; [done|]. by rewrite Hkv, IH.
Qed.

Lemma encode_normalize v : encode_into (normalize v) = encode_into v.
Proof.
  induction v as [n|b|s|b|items IH|es IH] using value_ind'; try done.
  - cbn [normalize encode_into]. unfold blen. rewrite List.length_map. f_equal.
    induction IH as [|x l Hx Hl IH]; simpl; [done|]. by rewrite Hx, IH.
  - cbn [normalize]. rewrite encode_sort_entries. by apply encode_map_ext.
Qed.

Lemma forallb_map {A B} (f : A -> B) (P : B -> bool) l :
  List.forallb P (List.map f l) = List.forallb (fun x => P (f x)) l.
Proof. induction l; simpl; congruence. Qed.

Lemma forallb_impl {A} (P Q : A -> bool) l :
  Forall (fun x => P x = true -> Q x = true) l ->
  List.forallb P l = true -> List.forallb Q l = true.
Proof.
  induction 1 as [|x l Hx Hl IH]; simpl; [done|].
  rewrite !andb_true_iff. naive_solver.
Qed.

Lemma canonical_normalize v d : encodable d v = true -> canonical d (normalize v) = true.
Proof.
  revert d. induction v as [n|b|s|b|items IH|es IH] using value_ind'; intros d H; try done.
  - cbn [normalize canonical encodable] in *.
    apply andb_true_iff in H as [H Hi]. unfold blen in *. rewrite List.length_map, H.
    simpl. rewrite forallb_map. eapply forallb_impl; [|exact Hi].
    eapply Forall_impl; [exact IH|]. naive_solver.
  - cbn [normalize encodable] in *.
    apply andb_true_iff in H as [[Hd Hl]%andb_true_iff Hi].
    set (es' := List.map _ es).
    pose proof (sort_entries_ascending es') as Hk. unfold entry_keys in Hk.
    cbn [canonical]. rewrite Hd, Hk, andb_true_r. simpl. apply andb_true_iff. split.
    + unfold wire_len, blen, sort_entries in *. rewrite length_fmap.
      pose proof (btree_of_list_length (keyed es')) as Hlen.
      unfold keyed in Hlen at 2. rewrite length_fmap in Hlen. unfold es' in Hlen at 2.
      rewrite List.length_map in Hlen. fold (keyed es'). lia.
    + apply List.forallb_forall. intros kv Hkv%list_elem_of_In%sort_entries_elem.
      apply list_elem_of_In, List.in_map_iff in Hkv as (kv0 & <- & Hin). cbn [fst snd].
      rewrite List.forallb_forall in Hi. specialize (Hi _ Hin).
      apply andb_true_iff in Hi as [-> Hi]. simpl.
      rewrite Forall_forall in IH. apply IH; [by apply list_elem_of_In|done].
Qed.

(** ** Size *)

(** An upper bound on the length of an encoding, field by field. *)
Fixpoint vsize (v : Value) : Z :=
  match v with
  | Uint _ => 9
  | VBool _ => 1
  | Text s => 9 + blen (as_bytes s)
  | VBytes b => 9 + blen b
  | Array items => 9 + foldr Z.add 0 (List.map vsize items)
  | Map es =>
      9 + foldr Z.add 0 (List.map (fun kv => 9 + blen (as_bytes kv.1) + vsize kv.2) es)
  end.

Lemma blen_app {A} (l1 l2 : list A) : blen (l1 ++ l2) = blen l1 + blen l2.
Proof. unfold blen. rewrite length_app. lia. Qed.

Lemma blen_cons {A} (x : A) l : blen (x :: l) = 1 + blen l.
Proof. unfold blen. simpl. lia. Qed.

Lemma enc_head_size m a : blen (enc_head m a) <= 9.
Proof.
  unfold enc_head. repeat case_match; rewrite ?blen_cons; unfold blen;
    rewrite ?length_be_bytes; simpl; lia.
Qed.

Definition pair_size (kv : bytes * bytes) : Z := blen kv.1 + blen kv.2.

Lemma enc_head_pos m a : 1 <= blen (enc_head m a).
Proof. unfold enc_head. repeat case_match; rewrite blen_cons; unfold blen; lia. Qed.

Lemma encode_pos v : 1 <= blen (encode v).
Proof.
  destruct v as [n|[]|s|b|items|es]; unfold encode; cbn [encode_into]; cbv zeta;
    rewrite ?blen_app; try apply enc_head_pos; try done.
  - pose proof (enc_head_pos 3 (blen (as_bytes s))). unfold blen in *. lia.
  - pose proof (enc_head_pos 2 (blen b)). unfold blen in *. lia.
  - pose proof (enc_head_pos 4 (blen items)). unfold blen in *. lia.
  - match goal with |- context [enc_head 5 ?n] => pose proof (enc_head_pos 5 n) end.
    unfold blen in *. lia.
Qed.

Lemma btree_insert_size k v t :
  foldr Z.add 0 (pair_size <$> btree_insert k v t)
  <= blen k + blen v + foldr Z.add 0 (pair_size <$> t).
Proof.
  induction t as [|[k' v'] t IH]; csimpl.
  { unfold pair_size. simpl. lia. }
  unfold pair_size in *. destruct (bytes_cmp k k') eqn:E; csimpl; simpl in *; [|lia|lia].
  pose proof (blen_nonneg k'). pose proof (blen_nonneg v'). lia.
Qed.

Lemma btree_of_list_size l :
  foldr Z.add 0 (pair_size <$> btree_of_list l) <= foldr Z.add 0 (pair_size <$> l).
Proof.
  assert (forall l1 x, foldr Z.add 0 (l1 ++ [x]) = foldr Z.add 0 l1 + x) as Hs.
  { intros l1 x. induction l1; simpl; lia. }
  induction l as [|[k v] l IH] using rev_ind; [done|].
  rewrite btree_of_list_snoc, fmap_app.
  change (pair_size <$> [(k, v)]) with [pair_size (k, v)]. rewrite Hs. simpl.
  pose proof (btree_insert_size k v (btree_of_list l)). unfold pair_size in *. simpl in *. lia.
Qed.

Lemma flat_map_size {A} (g : A -> bytes) l :
  blen (List.flat_map g l) = foldr Z.add 0 (List.map (fun x => blen (g x)) l).
Proof. induction l as [|x l IH]; [done|]. simpl. by rewrite blen_app, IH. Qed.

Lemma sum_le {A} (f g : A -> Z) l :
  Forall (fun x => f x <= g x) l ->
  foldr Z.add 0 (List.map f l) <= foldr Z.add 0 (List.map g l).
Proof. induction 1; simpl; lia. Qed.

Lemma encode_size v : blen (encode_into v) <= vsize v.
Proof.
  induction v as [n|b|s|b|items IH|es IH] using value_ind'; cbn [encode_into vsize];
    rewrite ?blen_app.
  - apply enc_head_size.
  - done.
  - pose proof (enc_head_size 3 (blen (as_bytes s))). lia.
  - pose proof (enc_head_size 2 (blen b)). lia.
  - pose proof (enc_head_size 4 (blen items)). rewrite flat_map_size.
    pose proof (sum_le _ _ _ IH). lia.
  - pose proof (enc_head_size 5 (blen (btree_of_list (encoded_entries es)))).
    fold (encoded_entries es). rewrite flat_map_size.
    pose proof (btree_of_list_size (encoded_entries es)) as Ht.
    assert (foldr Z.add 0 (pair_size <$> encoded_entries es) <=
      foldr Z.add 0 (List.map (fun kv => 9 + blen (as_bytes kv.1) + vsize kv.2) es)) as Hs.
    { unfold encoded_entries. change (pair_size <$> List.map ?f ?l)
        with (List.map pair_size (List.map f l)). rewrite List.map_map. apply sum_le.
      eapply Forall_impl; [exact IH|]. intros kv Hkv. cbv beta in Hkv. unfold pair_size, encoded_key. simpl.
      rewrite blen_app. pose proof (enc_head_size 3 (blen (as_bytes kv.1))). lia. }
    replace (List.map (fun x => blen (x.1 ++ x.2)) (btree_of_list (encoded_entries es)))
      with (pair_size <$> btree_of_list (encoded_entries es)); [lia|].
    apply list_fmap_ext. intros i x _. unfold pair_size. by rewrite blen_app.
Qed.

(** Evaluates the lengths of the literals in a goal. *)
Ltac eval_lengths :=
  repeat match goal with
  | |- context [blen (as_bytes ?s)] =>
      let n := eval vm_compute in (blen (as_bytes s)) in
      change (blen (as_bytes s)) with n
  end.

(** ** The facts other files use *)

Lemma sort_entries_sorted es : keys_ascending (entry_keys es) = true -> sort_entries es = es.
Proof.
  intros H. unfold sort_entries. fold (keyed es).
  assert (forall l, (keyed l).*1 = entry_keys l /\ (keyed l).*2 = l) as Hk.
  { intros l. unfold keyed, entry_keys. split.
    - by rewrite <- list_fmap_compose.
    - rewrite <- list_fmap_compose. apply list_fmap_id. }
  rewrite btree_of_sorted; [apply Hk|]. apply keys_ascending_sorted. by rewrite (proj1 (Hk es)).
Qed.

(** The order entries are listed in does not survive [sort_entries]. *)
Lemma sort_entries_proper l1 l2 :
  NoDup (entry_keys l1) -> l1 ≡ₚ l2 -> sort_entries l1 = sort_entries l2.
Proof.
  intros Hd Hp. unfold sort_entries. f_equal. apply btree_of_list_proper.
  - rewrite <- list_fmap_compose. exact Hd.
  - by rewrite Hp.
Qed.

(** A canonical value is its own normal form. *)
Lemma canonical_normal v d : canonical d v = true -> normalize v = v.
Proof.
  revert d. induction v as [n|b|s|b|items IH|es IH] using value_ind'; intros d H; try done.
  - apply canonical_array in H as (_ & _ & H). cbn [normalize]. f_equal.
    induction IH as [|v l Hv _ IHl]; [done|]. simpl in H. apply andb_true_iff in H as [H1 H2].
    simpl. by rewrite (Hv _ H1), IHl.
  - apply canonical_map in H as (_ & _ & H & Hk). cbn [normalize].
    replace (List.map (fun kv => (kv.1, normalize kv.2)) es) with es;
      [by rewrite sort_entries_sorted|].
    clear Hk. induction IH as [|[k v] l Hv _ IHl]; [done|]. simpl in H.
    apply andb_true_iff in H as [[_ H1]%andb_true_iff H2]. simpl in *.
    by rewrite (Hv _ H1), <- IHl.
Qed.

Lemma decode_normal v :
  encodable 0 v = true -> blen (encode v) <= USIZE_MAX ->
  decode (encode v) = Ok (normalize v).
Proof.
  intros Hv Hb. unfold encode in *. rewrite <- encode_normalize in *.
  apply decode_complete; [|done]. by apply canonical_normalize.
Qed.

Lemma encode_perm (l1 l2 : list (string * Value)) :
  NoDup (entry_keys l1) -> l1 ≡ₚ l2 -> encode (c.m l1) = encode (c.m l2).
Proof.
  intros Hd Hp. unfold encode, c.m. cbn [encode_into].
  enough (btree_of_list (encoded_entries l1) = btree_of_list (encoded_entries l2)) as He.
  { unfold encoded_entries in He. by rewrite He. }
  apply btree_of_list_proper; [by rewrite encoded_entries_keys|].
  unfold encoded_entries. by apply Permutation_map.
Qed.

Fixpoint is_prefix (l1 l2 : bytes) : bool :=
  match l1, l2 with
  | [], _ => true
  | x :: l1', y :: l2' => bool_decide (x = y) && is_prefix l1' l2'
  | _, _ => false
  end.

Lemma is_prefix_app l1 l2 x y :
  l1 ++ x = l2 ++ y -> is_prefix l1 l2 = true \/ is_prefix l2 l1 = true.
Proof.
  revert l2. induction l1 as [|a l1 IH]; intros [|b l2] H; [by left..|by right|].
  simplify_eq/=. rewrite bool_decide_true by done. by apply IH.
Qed.

(** No label of the source is a prefix of another one: each ends in its only NUL. *)
Lemma labels_prefix_free s1 s2 :
  s1 ∈ domain_labels -> s2 ∈ domain_labels ->
  is_prefix (as_bytes s1) (as_bytes s2) = true -> s1 = s2.
Proof.
  intros H1 H2 Hp.
  assert (List.forallb (fun s1 => List.forallb (fun s2 =>
    negb (is_prefix (as_bytes s1) (as_bytes s2)) || bool_decide (s1 = s2))
    domain_labels) domain_labels = true) as H by (vm_compute; reflexivity).
  rewrite List.forallb_forall in H. specialize (H s1 ltac:(by apply list_elem_of_In)).
  rewrite List.forallb_forall in H. specialize (H s2 ltac:(by apply list_elem_of_In)).
  rewrite Hp in H. by apply bool_decide_eq_true in H.
Qed.

Lemma preimage_inj (s1 s2 : string) (b1 b2 : bytes) :
  s1 ∈ domain_labels -> s2 ∈ domain_labels ->
  domain_preimage s1 b1 = domain_preimage s2 b2 -> s1 = s2 /\ b1 = b2.
Proof.
  unfold domain_preimage. intros H1 H2 H.
  assert (s1 = s2) as <-.
  { apply is_prefix_app in H as Hp. destruct Hp as [Hp|Hp];
      [by apply labels_prefix_free|symmetry; by apply labels_prefix_free]. }
  split; [done|]. apply app_inv_head in H.
  by apply app_inj_1 in H as [_ ?]; [|by rewrite !length_be_bytes].
Qed.

(** ** The properties *)

(** C1. The decoder accepts a byte string exactly when it is the encoding of a
    canonical value, and then returns that value: every accepted input has one
    reading and every value one accepted form. *)
Theorem decode_iff (bs : bytes) (v : Value) :
  blen bs <= USIZE_MAX ->
  decode bs = Ok v <-> canonical 0 v = true /\ encode v = bs.
Proof.
  intros Hb. split; [apply decode_sound|]. intros [Hc <-]. by apply decode_complete.
Qed.

Lemma decode_iff_witness :
  let v := Map [("z", Uint 1); ("aa", Array [VBool true; Text "x"])] in
  decode (encode v) = Ok v.
Proof.
  intros v. apply (decode_iff (encode v) v); [vm_compute; discriminate|].
  split; vm_compute; reflexivity.
Defined.

(** Encoding then decoding returns the value with its maps in wire order,
    whatever order (and with whatever repeated keys) they were built in. *)
Theorem decode_encode (v : Value) :
  encodable 0 v = true -> blen (encode v) <= USIZE_MAX ->
  decode (encode v) = Ok (normalize v).
Proof. apply decode_normal. Qed.

Lemma decode_encode_witness :
  decode (encode (Map [("aa", Uint 2); ("z", Uint 1); ("aa", Uint 3)]))
  = Ok (Map [("z", Uint 1); ("aa", Uint 3)]).
Proof.
  apply (decode_encode (Map [("aa", Uint 2); ("z", Uint 1); ("aa", Uint 3)]));
    vm_compute; [reflexivity|discriminate].
Defined.

(** C39. No input makes the decoder panic or loop: nesting stops at
    [MAX_NESTING] and every loop turn consumes input. *)
Theorem decode_total (bs : bytes) :
  (exists v, decode bs = Ok v) \/ (exists e, decode bs = Err e).
Proof.
  pose proof (decode_safe_all bs) as H. destruct (decode bs) as [v|e|c]; [eauto..|].
  by specialize (H c).
Qed.

(** The re-encoding check of [assert_canonical_roundtrip] never fires:
    the strict decoder alone already guarantees byte equality. *)
Theorem roundtrip_check_redundant (bs : bytes) :
  assert_canonical_roundtrip bs = decode bs.
Proof. apply roundtrip_is_decode. Qed.

(** The order fields are pushed in does not reach the wire: two orders of
    one set of entries encode to the same bytes. *)
Theorem encode_order_irrelevant (l1 l2 : list (string * Value)) :
  NoDup (entry_keys l1) -> l1 ≡ₚ l2 -> encode (c.m l1) = encode (c.m l2).
Proof. apply encode_perm. Qed.

Lemma encode_order_irrelevant_witness :
  encode (c.m [("aa", c.u 2); ("z", c.u 1)]) = encode (c.m [("z", c.u 1); ("aa", c.u 2)]).
Proof.
  apply (encode_order_irrelevant [("aa", c.u 2); ("z", c.u 1)] [("z", c.u 1); ("aa", c.u 2)]).
  - apply (bool_decide_unpack _). vm_compute. exact I.
  - apply Permutation_swap.
Defined.

Lemma domain_preimage_body s b1 b2 : domain_preimage s b1 = domain_preimage s b2 -> b1 = b2.
Proof.
  unfold domain_preimage. intros H%app_inv_head.
  by apply app_inj_1 in H as [_ ?]; [|by rewrite !length_be_bytes].
Qed.

(** Hash preimages are unambiguous: under the labels of the source, equal
    preimages have the same label and the same body. *)
Theorem domain_preimage_inj (s1 s2 : string) (b1 b2 : bytes) :
  s1 ∈ domain_labels -> s2 ∈ domain_labels ->
  domain_preimage s1 b1 = domain_preimage s2 b2 -> s1 = s2 /\ b1 = b2.
Proof. apply preimage_inj. Qed.

Lemma domain_preimage_inj_witness :
  L_DEK_SLOT ∈ domain_labels /\ (L_DEK_SLOT = L_DEK_SLOT /\ [Byte.x01] = [Byte.x01]).
Proof.
  assert (L_DEK_SLOT ∈ domain_labels) as H by (unfold domain_labels; repeat constructor).
  split; [exact H|].
  apply (domain_preimage_inj L_DEK_SLOT L_DEK_SLOT [Byte.x01] [Byte.x01] H H eq_refl).
Defined.
