(* ===== verification/RecordFields.v ===== *)
(** * Closed maps (shared/src/authz_record.rs, [Fields] and [RecordError])

    Every v2 record is parsed by taking its fields one by one from a decoded map
    and requiring that none is left. This file holds the [Fields] operations and
    the helpers the records share; the theory of such parsers is in [WireMap]. *)

From S2P Require Import Prelude Bytes Canonical CanonicalFacts CanonicalDecode CanonicalTheorems.

(** ** Errors *)

Inductive RecordError :=
| Cbor (e : CborError)
| NotAMap (map : string)
| UnknownField (map field : string)
| MissingField (map field : string)
| BadField (map field : string)
| BadValue (field : string)
| PayloadHashMismatch
| ContainerHashMismatch
| Unsupported (field : string) (id : Z)
| UnknownPayloadDomain (domain : string)
| IssuerKeyMismatch
| Signature.

(** The wire code of a refusal. *)
Definition code (e : RecordError) : string :=
  match e with
  | Cbor (IntegerOutOfSqliteDomain _) => "WIRE_INTEGER_OUT_OF_RANGE"
  | Cbor (UnsupportedMajorType n) =>
      if n =? 1 then "WIRE_INTEGER_OUT_OF_RANGE" else "NON_CANONICAL_RECORD"
  | Cbor OverlongInteger => "WIRE_INTEGER_OUT_OF_RANGE"
  | Cbor _ | NotAMap _ | UnknownField _ _ | MissingField _ _ | BadField _ _
  | BadValue _ => "NON_CANONICAL_RECORD"
  | PayloadHashMismatch => "SIGNED_BYTES_MISMATCH"
  | ContainerHashMismatch => "SIGNED_CONTAINER_HASH_MISMATCH"
  | Unsupported _ _ | UnknownPayloadDomain _ => "SCHEMA_UNSUPPORTED"
  | IssuerKeyMismatch => "KEY_SUBSTITUTION_DETECTED"
  | Signature => "SIGNATURE_INVALID"
  end.

(** ** Fields *)

Module Fields.

Record t := mk { map : string; entries : list (string * Value) }.

(** A computation on [&mut Fields]. *)
Abbreviation fields := (SM t RecordError).

Definition open (map : string) (v : Value) : result RecordError t :=
  match v with
  | Map entries => Ok (mk map entries)
  | _ => Err (NotAMap map)
  end.

Definition decode (map : string) (bs : Bytes.bytes) : result RecordError t :=
  v ← map_err Cbor (assert_canonical_roundtrip bs);
  open map v.

(** [position] and [remove]: the first entry of that key. *)
Fixpoint remove_first (field : string) (es : list (string * Value))
    : option (Value * list (string * Value)) :=
  match es with
  | [] => None
  | (k, v) :: es' =>
      if String.eqb k field then Some (v, es')
      else '(v', es'') ← remove_first field es'; Some (v', (k, v) :: es'')
  end.

Definition take (field : string) : fields (option Value) := fun f =>
  match remove_first field (entries f) with
  | None => Ok (None, f)
  | Some (v, es) => Ok (Some v, mk (map f) es)
  end.

(** [return Err(self.bad(field))]. *)
Definition bad {A} (field : string) : fields A := fun f => Err (BadField (map f) field).

Definition req (field : string) : fields Value := fun f =>
  match remove_first field (entries f) with
  | None => Err (MissingField (map f) field)
  | Some (v, es) => Ok (v, mk (map f) es)
  end.

Definition text (field : string) : fields string :=
  v ← req field;
  match v with Text s => mret s | _ => bad field end.

Definition exact_text (field expected : string) : fields unit :=
  s ← text field;
  fail_if (negb (String.eqb s expected)) (BadValue field).

Definition uint (field : string) : fields Z :=
  v ← req field;
  match v with Uint n => mret n | _ => bad field end.

Definition opt_uint (field : string) : fields (option Z) :=
  o ← take field;
  match o with
  | None => mret None
  | Some (Uint n) => mret (Some n)
  | Some _ => bad field
  end.

Definition u16 (field : string) : fields Z :=
  n ← uint field;
  if n <=? U16_MAX then mret n else bad field.

Definition bytes (field : string) (min max : Z) : fields Bytes.bytes :=
  v ← req field;
  match v with
  | VBytes b => if (min <=? blen b) && (blen b <=? max) then mret b else bad field
  | _ => bad field
  end.

(** [[u8; N]]: [try_into] cannot fail once the length is [N]. *)
Definition fixed (n : Z) (field : string) : fields Bytes.bytes := bytes field n n.

Definition opt_fixed (n : Z) (field : string) : fields (option Bytes.bytes) :=
  o ← take field;
  match o with
  | None => mret None
  | Some (VBytes b) => if blen b =? n then mret (Some b) else bad field
  | Some _ => bad field
  end.

(** Consumes the map: whatever is left is an unknown field. *)
Definition finish : fields unit := fun f =>
  match entries f with
  | [] => Ok (tt, f)
  | (field, _) :: _ => Err (UnknownField (map f) field)
  end.

End Fields.
Export (notations) Fields.

Abbreviation fields := (SM Fields.t RecordError).

(** ** Helpers of mutation.rs *)

Definition VERSION : Z := 2.

Definition exact_version (domain : string) : fields unit :=
  _ ← Fields.exact_text "domain" domain;
  v ← Fields.uint "version";
  fail_if (negb (v =? VERSION)) (BadValue "version").

(** [if f.u16("version")? != VERSION], of restore_epoch.rs and authz_record.rs. *)
Definition version_u16 : fields unit :=
  v ← Fields.u16 "version";
  fail_if (negb (v =? VERSION)) (BadValue "version").

(** A loop over guards: the error of the first that holds. *)
Fixpoint fail_first (checks : list (bool * RecordError)) : fields unit :=
  match checks with
  | [] => mret tt
  | (refused, e) :: rest => _ ← fail_if refused e; fail_first rest
  end.

(** The cast to [u32] is exact: every caller's [max] is at most [u32::MAX]. *)
Definition u32_in (field : string) (min max : Z) : fields Z :=
  n ← Fields.uint field;
  if negb ((min <=? n) && (n <=? max)) then Fields.bad field
  else mret (n mod (U32_MAX + 1)).

(** [ALL.into_iter().find(|x| x.as_str() == s)]: how an enum reads its text. *)
Definition find_str {A} (as_str : A -> string) (ALL : list A) (s : string) : option A :=
  List.find (fun x => String.eqb (as_str x) s) ALL.

Lemma find_str_ok {A} (as_str : A -> string) ALL s x :
  find_str as_str ALL s = Some x -> s = as_str x.
Proof. intros [_ H]%List.find_some. by apply String.eqb_eq in H. Qed.

(** The body of every [parse]: decode the map, take its fields. *)
Definition parse_map {A} (name : string) (p : fields A) (payload : bytes)
    : result RecordError A :=
  f ← Fields.decode name payload;
  run p f.
