(* ===== verification/WireMap.v ===== *)
(** * Exact closed maps: the theory of record parsers

    [WireMap name p put contract] is the interface between the [Fields] engine
    and a record: the parser [p] takes exactly the fields [put] writes, under the
    record's [contract]. Its laws are local facts about the parser; from them
    [wire_map_exact] derives that [parse] accepts exactly the encodings of
    well-formed records. The tactics below discharge the laws. *)

From S2P Require Import Prelude Bytes Canonical CanonicalFacts CanonicalDecode CanonicalTheorems.
From S2P Require Import RecordFields.

(** ** What a parser took

    [gives f es f']: between [f] and [f'] exactly the entries [es] were taken,
    in any order. *)
Definition gives (f : Fields.t) (es : list (string * Value)) (f' : Fields.t) : Prop :=
  Fields.entries f ≡ₚ es ++ Fields.entries f'.

Lemma gives_trans f l1 f1 l2 f2 : gives f l1 f1 -> gives f1 l2 f2 -> gives f (l1 ++ l2) f2.
Proof. unfold gives. intros -> ->. by rewrite (assoc (++)). Qed.

(** An optional field is written only when present. *)
Definition opt_entry {A} (field : string) (g : A -> Value) (o : option A)
    : list (string * Value) :=
  match o with Some a => [(field, g a)] | None => [] end.

Lemma remove_first_perm field es v es' :
  Fields.remove_first field es = Some (v, es') -> es ≡ₚ (field, v) :: es'.
Proof.
  revert es'. induction es as [|[k w] es IH]; intros es' H; [done|]. simpl in H.
  destruct (String.eqb_spec k field) as [->|_]; [by simplify_eq|].
  destruct (Fields.remove_first field es) as [[v' es'']|]; [|done].
  simplify_eq/=. rewrite (IH es'' eq_refl). apply Permutation_swap.
Qed.

Lemma take_gives field f o f' :
  Fields.take field f = Ok (o, f') -> gives f (opt_entry field id o) f'.
Proof.
  unfold Fields.take, gives. destruct (Fields.remove_first field _) as [[v es]|] eqn:E;
    intros [= <- <-]; [by apply remove_first_perm|done].
Qed.

Lemma req_gives field f v f' : Fields.req field f = Ok (v, f') -> gives f [(field, v)] f'.
Proof.
  unfold Fields.req, gives. destruct (Fields.remove_first field _) as [[w es]|] eqn:E;
    [|done]. intros [= <- <-]. by apply remove_first_perm.
Qed.

Ltac sound_prim := intros H; apply sm_bind_ok in H as (v & f1 & H1 & H);
  first [apply req_gives in H1 | apply take_gives in H1];
  unfold Fields.bad, mret, sm_ret in H.

Lemma text_gives field f s f' :
  Fields.text field f = Ok (s, f') -> gives f [(field, Text s)] f'.
Proof. sound_prim. destruct v; simplify_eq/=; done. Qed.

Lemma uint_gives field f n f' :
  Fields.uint field f = Ok (n, f') -> gives f [(field, Uint n)] f'.
Proof. sound_prim. destruct v; simplify_eq/=; done. Qed.

Lemma bytes_gives field lo hi f b f' :
  Fields.bytes field lo hi f = Ok (b, f') ->
  gives f [(field, VBytes b)] f' /\ lo <= blen b <= hi.
Proof.
  sound_prim. destruct v; simplify_eq/=. case_match eqn:E; simplify_eq/=.
  split; [done|lia].
Qed.

Lemma fixed_gives n field f b f' :
  Fields.fixed n field f = Ok (b, f') -> gives f [(field, VBytes b)] f' /\ blen b = n.
Proof. intros [??]%bytes_gives. split; [done|lia]. Qed.

Lemma opt_fixed_gives n field f o f' :
  Fields.opt_fixed n field f = Ok (o, f') ->
  gives f (opt_entry field VBytes o) f' /\ forall b, o = Some b -> blen b = n.
Proof.
  sound_prim. destruct v as [[]|]; simplify_eq/=; [|done].
  case_match eqn:E; simplify_eq/=. split; [done|]. intros ? [= <-]. lia.
Qed.

Lemma opt_uint_gives field f o f' :
  Fields.opt_uint field f = Ok (o, f') -> gives f (opt_entry field Uint o) f'.
Proof. sound_prim. by destruct v as [[]|]; simplify_eq/=. Qed.

Lemma exact_text_gives field s f u f' :
  Fields.exact_text field s f = Ok (u, f') -> gives f [(field, Text s)] f'.
Proof.
  unfold Fields.exact_text. intros H. apply sm_bind_ok in H as (v & f1 & H1 & H).
  apply text_gives in H1. apply fail_if_ok in H as [H [= -> ->]].
  apply negb_false_iff, String.eqb_eq in H as ->. done.
Qed.

Lemma u16_gives field f n f' :
  Fields.u16 field f = Ok (n, f') -> gives f [(field, Uint n)] f' /\ n <= U16_MAX.
Proof.
  unfold Fields.u16. intros H. apply sm_bind_ok in H as (v & f1 & H1 & H).
  apply uint_gives in H1. unfold mret, sm_ret, Fields.bad in H. case_match eqn:E; [|done].
  simplify_eq/=. split; [done|lia].
Qed.

Lemma finish_gives f u f' : Fields.finish f = Ok (u, f') -> Fields.entries f = [].
Proof. unfold Fields.finish. destruct (Fields.entries f) as [|[]]; naive_solver. Qed.

Lemma exact_version_gives d f u f' :
  exact_version d f = Ok (u, f') ->
  gives f [("domain", Text d); ("version", Uint VERSION)] f'.
Proof.
  unfold exact_version. intros H. apply sm_bind_ok in H as (? & f1 & H1 & H).
  apply exact_text_gives in H1. apply sm_bind_ok in H as (v & f2 & H2 & H).
  apply uint_gives in H2. apply fail_if_ok in H as [H [= -> ->]].
  apply negb_false_iff, Z.eqb_eq in H as ->. by apply (gives_trans _ _ _ _ _ H1 H2).
Qed.

Lemma u32_in_gives field lo hi f n f' :
  0 <= lo -> hi <= U32_MAX -> u32_in field lo hi f = Ok (n, f') ->
  gives f [(field, Uint n)] f' /\ lo <= n <= hi.
Proof.
  unfold u32_in, U32_MAX. intros Hlo Hhi H. apply sm_bind_ok in H as (v & f1 & H1 & H).
  apply uint_gives in H1. case_match eqn:E; [done|]. unfold mret, sm_ret in H.
  injection H as <- <-. apply negb_false_iff in E.
  rewrite Z.mod_small by lia. split; [done|lia].
Qed.

(** ** Order of the entries

    A parser behaves the same on every order of one set of entries, except for
    which unknown field [finish] names. *)
Definition same_fields (f1 f2 : Fields.t) : Prop :=
  Fields.map f1 = Fields.map f2 /\ NoDup (Fields.entries f1).*1
  /\ Fields.entries f1 ≡ₚ Fields.entries f2.

Definition same_result {A} (m1 m2 : result RecordError (A * Fields.t)) : Prop :=
  match m1, m2 with
  | Ok (a1, f1), Ok (a2, f2) => a1 = a2 /\ same_fields f1 f2
  | Err _, Err _ => True
  | Crash c1, Crash c2 => c1 = c2
  | _, _ => False
  end.

Abbreviation Respects p := (Proper (same_fields ==> same_result) p).

Lemma remove_first_None field es :
  Fields.remove_first field es = None <-> field ∉ es.*1.
Proof.
  induction es as [|[k v] es IH]; csimpl; [set_solver|].
  destruct (String.eqb_spec k field) as [->|Hk]; [set_solver|].
  destruct (Fields.remove_first field es) as [[]|]; simpl; set_solver.
Qed.

Lemma remove_first_same field es1 es2 :
  NoDup es1.*1 -> es1 ≡ₚ es2 ->
  match Fields.remove_first field es1, Fields.remove_first field es2 with
  | Some (v1, l1), Some (v2, l2) => v1 = v2 /\ l1 ≡ₚ l2 /\ NoDup l1.*1
  | None, None => True
  | _, _ => False
  end.
Proof.
  intros Hd Hp.
  assert (es1.*1 ≡ₚ es2.*1) as Hpk by by rewrite Hp.
  pose proof (remove_first_None field es1) as N1.
  pose proof (remove_first_None field es2) as N2.
  destruct (Fields.remove_first field es1) as [[v1 l1]|] eqn:E1,
    (Fields.remove_first field es2) as [[v2 l2]|] eqn:E2; [|..|done].
  - apply remove_first_perm in E1, E2. rewrite E1 in Hd. csimpl in *.
    apply NoDup_cons in Hd as [Hn Hd].
    assert ((field, v1) :: l1 ≡ₚ (field, v2) :: l2) as H12 by (by rewrite <- E1, Hp).
    assert ((field, v1) ∈ (field, v2) :: l2) as Hin by (rewrite <- H12; left).
    apply elem_of_cons in Hin as [[= ->]|Hin]; [by apply Permutation_cons_inv in H12|].
    exfalso. apply Hn.
    assert (field ∈ l2.*1) as Hl2 by (apply list_elem_of_fmap; by exists (field, v1)).
    apply (fmap_Permutation fst) in H12. csimpl in H12. apply Permutation_cons_inv in H12.
    by rewrite H12.
  - assert (field ∉ es1.*1) as Hn by (rewrite Hpk; by apply N2). apply N1 in Hn. done.
  - assert (field ∉ es2.*1) as Hn by (rewrite <- Hpk; by apply N1). apply N2 in Hn. done.
Qed.

#[export] Instance take_respects field : Respects (Fields.take field).
Proof.
  intros f1 f2 (Hm & Hd & Hp). unfold Fields.take.
  pose proof (remove_first_same field _ _ Hd Hp) as H.
  destruct (Fields.remove_first field (Fields.entries f1)) as [[]|],
    (Fields.remove_first field (Fields.entries f2)) as [[]|]; simpl; try done.
  destruct H as (-> & ? & ?). done.
Qed.

#[export] Instance req_respects field : Respects (Fields.req field).
Proof.
  intros f1 f2 (Hm & Hd & Hp). unfold Fields.req.
  pose proof (remove_first_same field _ _ Hd Hp) as H.
  destruct (Fields.remove_first field (Fields.entries f1)) as [[]|],
    (Fields.remove_first field (Fields.entries f2)) as [[]|]; simpl; try done.
  destruct H as (-> & ? & ?). done.
Qed.

#[export] Instance finish_respects : Respects Fields.finish.
Proof.
  intros f1 f2 (Hm & Hd & Hp). unfold Fields.finish.
  destruct (Fields.entries f1) as [|[] l1] eqn:E1.
  - apply Permutation_nil_l in Hp. rewrite <- Hp. simpl. split; [done|].
    unfold same_fields. rewrite E1, <- Hp. split_and!; [done|constructor|done].
  - destruct (Fields.entries f2) as [|[] l2] eqn:E2; [|done].
    by apply Permutation_nil_r in Hp.
Qed.

Lemma respects_bind {A B} (m : fields A) (k : A -> fields B) :
  Respects m -> (forall a, Respects (k a)) -> Respects (m ≫= k).
Proof.
  intros Hm Hk f1 f2 Hf. specialize (Hm f1 f2 Hf). unfold mbind, sm_bind.
  destruct (m f1) as [[a1 g1]|e1|c1], (m f2) as [[a2 g2]|e2|c2]; try done.
  destruct Hm as [-> Hg]. by apply Hk.
Qed.

Lemma respects_ret {A} (a : A) : Respects (mret a : fields A).
Proof. by intros f1 f2 Hf. Qed.

Lemma respects_throw {A} e : Respects (throw e : fields A).
Proof. by intros f1 f2 Hf. Qed.

Lemma respects_bad {A} field : Respects (Fields.bad field : fields A).
Proof. by intros f1 f2 Hf. Qed.

Lemma respects_fail_if c e : Respects (fail_if c e : fields unit).
Proof. intros f1 f2 Hf. unfold fail_if. by destruct c. Qed.

Lemma respects_lift {A} (m : result RecordError A) : Respects (lift m : fields A).
Proof. intros f1 f2 Hf. unfold lift. by destruct m. Qed.

(** ** Panics *)

Definition never_crashes {A} (p : fields A) : Prop := forall f, safe (p f).

Lemma never_crashes_bind {A B} (m : fields A) (k : A -> fields B) :
  never_crashes m -> (forall a, never_crashes (k a)) -> never_crashes (m ≫= k).
Proof. intros Hm Hk f. apply safe_sm_bind; [apply Hm|]. intros a f' _. apply Hk. Qed.

Lemma never_crashes_take field : never_crashes (Fields.take field).
Proof. intros f. unfold Fields.take. by repeat case_match. Qed.

Lemma never_crashes_req field : never_crashes (Fields.req field).
Proof. intros f. unfold Fields.req. by repeat case_match. Qed.

Lemma never_crashes_finish : never_crashes Fields.finish.
Proof. intros f. unfold Fields.finish. by repeat case_match. Qed.

Lemma never_crashes_ret {A} (a : A) : never_crashes (mret a : fields A).
Proof. by intros f. Qed.

Lemma never_crashes_throw {A} e : never_crashes (throw e : fields A).
Proof. by intros f. Qed.

Lemma never_crashes_bad {A} field : never_crashes (Fields.bad field : fields A).
Proof. by intros f. Qed.

Lemma never_crashes_fail_if c e : never_crashes (fail_if c e : fields unit).
Proof. intros f. unfold fail_if. by case_match. Qed.

Lemma never_crashes_lift {A} (m : result RecordError A) :
  safe m -> never_crashes (lift m : fields A).
Proof. intros Hm f. by apply lift_safe. Qed.

(** ** Parsers that respect the order of entries and never panic *)

Definition structured {A} (p : fields A) : Prop := Respects p /\ never_crashes p.

Lemma structured_bind {A B} (m : fields A) (k : A -> fields B) :
  structured m -> (forall a, structured (k a)) -> structured (m ≫= k).
Proof.
  intros [Hm Hm'] Hk. split.
  - apply respects_bind; [done|]. intros a. apply Hk.
  - apply never_crashes_bind; [done|]. intros a. apply Hk.
Qed.

Lemma structured_ret {A} (a : A) : structured (mret a : fields A).
Proof. split; [apply respects_ret|apply never_crashes_ret]. Qed.

Lemma structured_throw {A} e : structured (throw e : fields A).
Proof. split; [apply respects_throw|apply never_crashes_throw]. Qed.

Lemma structured_bad {A} field : structured (Fields.bad field : fields A).
Proof. split; [apply respects_bad|apply never_crashes_bad]. Qed.

Lemma structured_fail_if c e : structured (fail_if c e : fields unit).
Proof. split; [apply respects_fail_if|apply never_crashes_fail_if]. Qed.

Lemma structured_lift {A} (m : result RecordError A) :
  safe m -> structured (lift m : fields A).
Proof. split; [apply respects_lift|by apply never_crashes_lift]. Qed.

Lemma structured_ok_or {A} (o : option A) e : structured (lift (ok_or o e) : fields A).
Proof. apply structured_lift. intros c. by destruct o. Qed.

Lemma structured_take field : structured (Fields.take field).
Proof. split; [apply take_respects|apply never_crashes_take]. Qed.

Lemma structured_req field : structured (Fields.req field).
Proof. split; [apply req_respects|apply never_crashes_req]. Qed.

Lemma structured_finish : structured Fields.finish.
Proof. split; [apply finish_respects|apply never_crashes_finish]. Qed.

Create HintDb wire.
#[export] Hint Resolve structured_ret structured_throw structured_bad
  structured_fail_if structured_ok_or structured_take structured_req structured_finish : wire.

(** By the structure of the parser: binds, cases, and the parsers in [wire]. *)
Ltac by_structure :=
  repeat first
    [ progress intros
    | solve [eauto with wire]
    | apply structured_bind
    | case_match ].

Lemma structured_text field : structured (Fields.text field).
Proof. unfold Fields.text. by_structure. Qed.

Lemma structured_uint field : structured (Fields.uint field).
Proof. unfold Fields.uint. by_structure. Qed.

Lemma structured_opt_uint field : structured (Fields.opt_uint field).
Proof. unfold Fields.opt_uint. by_structure. Qed.

Lemma structured_bytes field lo hi : structured (Fields.bytes field lo hi).
Proof. unfold Fields.bytes. by_structure. Qed.

Lemma structured_fixed n field : structured (Fields.fixed n field).
Proof. apply structured_bytes. Qed.

Lemma structured_opt_fixed n field : structured (Fields.opt_fixed n field).
Proof. unfold Fields.opt_fixed. by_structure. Qed.

#[export] Hint Resolve structured_text structured_uint structured_opt_uint
  structured_bytes structured_fixed structured_opt_fixed : wire.

Lemma structured_exact_text field s : structured (Fields.exact_text field s).
Proof. unfold Fields.exact_text. by_structure. Qed.

Lemma structured_u16 field : structured (Fields.u16 field).
Proof. unfold Fields.u16. by_structure. Qed.

Lemma structured_u32_in field lo hi : structured (u32_in field lo hi).
Proof. unfold u32_in. by_structure. Qed.

#[export] Hint Resolve structured_exact_text structured_u16 structured_u32_in : wire.

Lemma structured_exact_version d : structured (exact_version d).
Proof. unfold exact_version. by_structure. Qed.

#[export] Hint Resolve structured_exact_version : wire.

Lemma structured_fail_first checks : structured (fail_first checks).
Proof. induction checks as [|[] ? IH]; simpl; by_structure. Qed.

#[export] Hint Resolve structured_fail_first : wire.

(** ** Running a parser on the fields in the order they are written *)

Section run.
Context (n : string) (es es' : list (string * Value)) (field : string).

Lemma text_run s :
  Fields.remove_first field es = Some (Text s, es') ->
  Fields.text field (Fields.mk n es) = Ok (s, Fields.mk n es').
Proof. intros H. unfold Fields.text, mbind, sm_bind, Fields.req. simpl. by rewrite H. Qed.

Lemma exact_text_run s :
  Fields.remove_first field es = Some (Text s, es') ->
  Fields.exact_text field s (Fields.mk n es) = Ok (tt, Fields.mk n es').
Proof.
  intros H. unfold Fields.exact_text. erewrite sm_bind_step by by apply text_run.
  unfold fail_if. by rewrite String.eqb_refl.
Qed.

Lemma uint_run m :
  Fields.remove_first field es = Some (Uint m, es') ->
  Fields.uint field (Fields.mk n es) = Ok (m, Fields.mk n es').
Proof. intros H. unfold Fields.uint, mbind, sm_bind, Fields.req. simpl. by rewrite H. Qed.

Lemma u16_run m :
  Fields.remove_first field es = Some (Uint m, es') -> m <= U16_MAX ->
  Fields.u16 field (Fields.mk n es) = Ok (m, Fields.mk n es').
Proof.
  intros H Hm. unfold Fields.u16. erewrite sm_bind_step by by apply uint_run.
  by rewrite (proj2 (Z.leb_le _ _)).
Qed.

Lemma u32_in_run lo hi m :
  Fields.remove_first field es = Some (Uint m, es') -> 0 <= lo <= m -> m <= hi <= U32_MAX ->
  u32_in field lo hi (Fields.mk n es) = Ok (m, Fields.mk n es').
Proof.
  intros H Hlo Hhi. unfold u32_in, U32_MAX in *.
  erewrite sm_bind_step by by apply uint_run.
  rewrite !(proj2 (Z.leb_le _ _)) by lia. simpl. by rewrite Z.mod_small by lia.
Qed.

Lemma bytes_run lo hi b :
  Fields.remove_first field es = Some (VBytes b, es') -> lo <= blen b <= hi ->
  Fields.bytes field lo hi (Fields.mk n es) = Ok (b, Fields.mk n es').
Proof.
  intros H Hb. unfold Fields.bytes, mbind, sm_bind, Fields.req. simpl. rewrite H.
  by rewrite !(proj2 (Z.leb_le _ _)) by lia.
Qed.

Lemma fixed_run k b :
  Fields.remove_first field es = Some (VBytes b, es') -> blen b = k ->
  Fields.fixed k field (Fields.mk n es) = Ok (b, Fields.mk n es').
Proof. intros H Hb. apply bytes_run; [done|lia]. Qed.

Lemma opt_fixed_run k b :
  Fields.remove_first field es = Some (VBytes b, es') -> blen b = k ->
  Fields.opt_fixed k field (Fields.mk n es) = Ok (Some b, Fields.mk n es').
Proof.
  intros H <-. unfold Fields.opt_fixed, mbind, sm_bind, Fields.take. simpl. rewrite H.
  by rewrite Z.eqb_refl.
Qed.

Lemma opt_fixed_absent k :
  Fields.remove_first field es = None ->
  Fields.opt_fixed k field (Fields.mk n es) = Ok (None, Fields.mk n es).
Proof.
  intros H. unfold Fields.opt_fixed, mbind, sm_bind, Fields.take. simpl. by rewrite H.
Qed.

Lemma opt_uint_run m :
  Fields.remove_first field es = Some (Uint m, es') ->
  Fields.opt_uint field (Fields.mk n es) = Ok (Some m, Fields.mk n es').
Proof.
  intros H. unfold Fields.opt_uint, mbind, sm_bind, Fields.take. simpl. by rewrite H.
Qed.

Lemma opt_uint_absent :
  Fields.remove_first field es = None ->
  Fields.opt_uint field (Fields.mk n es) = Ok (None, Fields.mk n es).
Proof.
  intros H. unfold Fields.opt_uint, mbind, sm_bind, Fields.take. simpl. by rewrite H.
Qed.

Lemma req_run v :
  Fields.remove_first field es = Some (v, es') ->
  Fields.req field (Fields.mk n es) = Ok (v, Fields.mk n es').
Proof. intros H. unfold Fields.req. simpl. by rewrite H. Qed.

Lemma take_run v :
  Fields.remove_first field es = Some (v, es') ->
  Fields.take field (Fields.mk n es) = Ok (Some v, Fields.mk n es').
Proof. intros H. unfold Fields.take. simpl. by rewrite H. Qed.

Lemma take_absent :
  Fields.remove_first field es = None ->
  Fields.take field (Fields.mk n es) = Ok (None, Fields.mk n es).
Proof. intros H. unfold Fields.take. simpl. by rewrite H. Qed.
End run.

Lemma exact_version_run n es es1 es2 d :
  Fields.remove_first "domain" es = Some (Text d, es1) ->
  Fields.remove_first "version" es1 = Some (Uint VERSION, es2) ->
  exact_version d (Fields.mk n es) = Ok (tt, Fields.mk n es2).
Proof.
  intros H1 H2. unfold exact_version. erewrite sm_bind_step by by apply exact_text_run.
  by erewrite sm_bind_step by by apply uint_run.
Qed.

Lemma fail_if_run {S E} c (e : E) (s : S) : c = false -> fail_if c e s = Ok (tt, s).
Proof. by intros ->. Qed.

(** ** The interface of a record *)

(** Keys that are distinct and fit the wire, whatever the values. *)
Definition keys_ok (es : list (string * Value)) : bool :=
  bool_decide (NoDup (entry_keys es)) && List.forallb (fun kv => text_ok kv.1) es
  && wire_len (blen es).

Definition values_ok (es : list (string * Value)) : bool :=
  List.forallb (fun kv => encodable 1 kv.2) es.

(** Values a decoder can return: every map in them is in wire order. *)
Definition values_normal (es : list (string * Value)) : Prop :=
  Forall (fun kv => normalize kv.2 = kv.2) es.

(** A record is well formed when its values fit the codec (integers at most
    [i64::MAX], text valid and NUL-free) and its contract holds. *)
Definition record_ok {A} (put : A -> list (string * Value)) (contract : A -> bool)
    (x : A) : bool :=
  values_ok (put x) && contract x.

Class WireMap {A} (name : string) (p : fields A) (put : A -> list (string * Value))
    (contract : A -> bool) : Prop := {
  wm_sound f x f' :
    p f = Ok (x, f') -> values_ok (Fields.entries f) = true ->
    values_normal (Fields.entries f) ->
    contract x = true /\ Fields.entries f ≡ₚ put x;
  wm_structured : structured p;
  wm_run x : record_ok put contract x = true ->
    exists f', p (Fields.mk name (put x)) = Ok (x, f');
  wm_keys x : keys_ok (put x) = true;
  wm_normal x : values_normal (put x);
}.

Lemma canonical_encodable v d : canonical d v = true -> encodable d v = true.
Proof.
  revert d. induction v as [n|b|s|b|items IH|es IH] using value_ind'; intros d H; try done.
  - apply canonical_array in H as (Hd & Hl & H). cbn [encodable]. unfold wire_len.
    rewrite bool_decide_true, (proj2 (Z.leb_le _ _)) by done. simpl.
    eapply forallb_impl; [|exact H]. eapply Forall_impl; [exact IH|]. naive_solver.
  - apply canonical_map in H as (Hd & Hl & H & _). cbn [encodable]. unfold wire_len.
    rewrite bool_decide_true, (proj2 (Z.leb_le _ _)) by done. simpl.
    eapply forallb_impl; [|exact H]. eapply Forall_impl; [exact IH|].
    intros kv Hkv. unfold entry_ok. rewrite !andb_true_iff. naive_solver.
Qed.

Lemma values_ok_perm es1 es2 : es1 ≡ₚ es2 -> values_ok es1 = true -> values_ok es2 = true.
Proof.
  unfold values_ok. rewrite !List.forallb_forall. intros Hp H kv Hin. apply H.
  apply list_elem_of_In. rewrite Hp. by apply list_elem_of_In.
Qed.

Lemma fields_decode_ok name bs f :
  Fields.decode name bs = Ok f ->
  Fields.map f = name /\ values_ok (Fields.entries f) = true
  /\ values_normal (Fields.entries f) /\ encode (Map (Fields.entries f)) = bs.
Proof.
  unfold Fields.decode. rewrite roundtrip_is_decode. intros H.
  apply result_bind_ok in H as (v & Hv & H). apply map_err_ok, decode_sound in Hv as [Hc <-].
  destruct v; [done..|]. cbn [Fields.open] in H. injection H as <-. split; [done|].
  apply canonical_map in Hc as (_ & _ & Hc & _). split; [|split; [|done]].
  2:{ rewrite List.forallb_forall in Hc. apply Forall_forall.
      intros kv Hin%list_elem_of_In. specialize (Hc _ Hin).
      apply andb_true_iff in Hc as [_ Hc]. by eapply canonical_normal. }
  unfold values_ok. eapply forallb_impl; [|exact Hc]. apply Forall_forall.
  intros kv _. unfold entry_ok. rewrite andb_true_iff. intros [_ ?]. by apply canonical_encodable.
Qed.

Lemma normalize_entries (es : list (string * Value)) :
  Forall (fun kv => normalize kv.2 = kv.2) es ->
  List.map (fun kv => (kv.1, normalize kv.2)) es = es.
Proof. induction 1 as [|[k v] es Hkv _ IH]; [done|]. simpl in *. by rewrite Hkv, IH. Qed.

Lemma fields_decode_encode name es :
  values_ok es = true -> keys_ok es = true ->
  Forall (fun kv => normalize kv.2 = kv.2) es -> blen (encode (Map es)) <= USIZE_MAX ->
  exists es', Fields.decode name (encode (Map es)) = Ok (Fields.mk name es') /\ es' ≡ₚ es.
Proof.
  unfold keys_ok. intros Hv [[Hd%bool_decide_eq_true Hk]%andb_true_iff Hl]%andb_true_iff Hn Hs.
  exists (sort_entries es). split; [|by apply sort_entries_perm].
  unfold Fields.decode. rewrite roundtrip_is_decode, decode_normal.
  - cbn [normalize]. by rewrite normalize_entries.
  - cbn [encodable]. rewrite bool_decide_true by (unfold MAX_NESTING; lia). rewrite Hl. simpl.
    apply List.forallb_forall. intros kv Hkv.
    unfold values_ok in Hv. rewrite List.forallb_forall in Hv, Hk. by rewrite Hk, Hv.
  - done.
Qed.

Lemma keys_ok_NoDup es : keys_ok es = true -> NoDup (entry_keys es).
Proof. unfold keys_ok. by intros [[?%bool_decide_eq_true _]%andb_true_iff _]%andb_true_iff. Qed.

Lemma entry_keys_NoDup es : NoDup (entry_keys es) -> NoDup es.*1.
Proof.
  unfold entry_keys. intros H. apply (NoDup_fmap_1 encoded_key).
  change (List.map ?f ?l) with (f <$> l) in H. by rewrite <- list_fmap_compose.
Qed.

(** [parse] accepts exactly the encodings of the records [ok] admits, and returns
    the record encoded. A Rust slice is never longer than [usize::MAX]. *)
Definition exact_map {A} (parse : bytes -> result RecordError A) (encode : A -> bytes)
    (ok : A -> bool) : Prop :=
  forall payload x, blen payload <= USIZE_MAX ->
    parse payload = Ok x <-> ok x = true /\ encode x = payload.

(** A parser that takes what it needs from the entries as written takes it from
    their encoding. *)
Lemma parse_map_run {A} name (p : fields A) es a f' :
  structured p -> values_ok es = true -> keys_ok es = true -> values_normal es ->
  blen (encode (c.m es)) <= USIZE_MAX ->
  p (Fields.mk name es) = Ok (a, f') -> parse_map name p (encode (c.m es)) = Ok a.
Proof.
  intros [Hst _] Hv Hk Hno Hb Hr. unfold parse_map.
  destruct (fields_decode_encode name es) as (es' & Hd & Hp); [done..|].
  unfold c.m. rewrite Hd. unfold mbind, result_bind. apply run_ok.
  assert (same_fields (Fields.mk name es) (Fields.mk name es')) as Hs.
  { split_and!; simpl; [done| |done]. by apply entry_keys_NoDup, keys_ok_NoDup. }
  pose proof (Hst _ _ Hs) as Hres. rewrite Hr in Hres.
  destruct (p (Fields.mk name es')) as [[b f2]|?|?]; [|done..].
  destruct Hres as [-> _]. by eexists.
Qed.

(** The exactness theorem of closed maps. *)
Lemma wire_map_exact {A} name (p : fields A) put contract
    `{Hw : !WireMap name p put contract} payload x :
  blen payload <= USIZE_MAX ->
  parse_map name p payload = Ok x <->
  record_ok put contract x = true /\ encode (c.m (put x)) = payload.
Proof.
  intros Hb. unfold parse_map. split.
  - intros H. apply result_bind_ok in H as (f & Hf & H).
    apply fields_decode_ok in Hf as (Hn & Hv & Hno & <-). apply run_ok in H as [f' H].
    pose proof (wm_sound f x f' H Hv Hno) as [Hc Hp]. unfold record_ok.
    rewrite Hc, (values_ok_perm _ _ Hp Hv). split; [done|].
    apply encode_perm; [|done]. apply keys_ok_NoDup, (wm_keys x).
  - intros [Hok <-]. pose proof Hok as [Hv _]%andb_true_iff. destruct (wm_run x Hok) as [f' Hr].
    eapply parse_map_run; [apply wm_structured|done|apply wm_keys|apply wm_normal|done|done].
Qed.

Lemma parse_map_safe {A} name (p : fields A) payload :
  structured p -> safe (parse_map name p payload).
Proof.
  intros [_ Hp]. unfold parse_map. apply safe_bind.
  - unfold Fields.decode. rewrite roundtrip_is_decode.
    apply safe_bind; [|intros [] _; done].
    pose proof (decode_safe_all payload) as H. intros c. destruct (decode payload); [done..|].
    by specialize (H c0).
  - intros f _ c. pose proof (Hp f) as H. unfold run, fmap, result_fmap.
    destruct (p f) as [[]|?|c']; [done..|]. by specialize (H c').
Qed.

Lemma wire_map_safe {A} name (p : fields A) put contract
    `{Hw : !WireMap name p put contract} payload : safe (parse_map name p payload).
Proof. apply parse_map_safe, wm_structured. Qed.

Lemma encodable_mono v d d' : (d <= d')%nat -> encodable d' v = true -> encodable d v = true.
Proof.
  revert d d'. induction v as [n|b|s|b|items IH|es IH] using value_ind'; intros d d' Hd H;
    try done; cbn [encodable] in *;
    apply andb_true_iff in H as [[H1%bool_decide_eq_true H2]%andb_true_iff H3];
    rewrite bool_decide_true, H2 by lia; cbn [andb].
  - eapply forallb_impl; [|exact H3]. eapply Forall_impl; [exact IH|].
    intros v Hv Hi. by apply (Hv (S d) (S d')); [lia|].
  - eapply forallb_impl; [|exact H3]. eapply Forall_impl; [exact IH|].
    intros kv Hv [Hk Hi]%andb_true_iff. rewrite Hk. by apply (Hv (S d) (S d')); [lia|].
Qed.

(** The entries of a map the decoder returned. *)
Lemma normal_entries d es :
  encodable d (Map es) = true -> normalize (Map es) = Map es ->
  values_ok es = true /\ values_normal es /\ sort_entries es = es.
Proof.
  cbn [encodable normalize]. intros [_ Hv]%andb_true_iff [= Hn].
  rewrite List.forallb_forall in Hv.
  assert (values_normal es) as Hno.
  { apply Forall_forall. intros kv Hkv. rewrite <- Hn in Hkv.
    apply sort_entries_elem, list_elem_of_In, in_map_iff in Hkv as (w & <- & Hw). cbn [snd].
    apply Hv, andb_true_iff in Hw as [_ Hw]. eapply canonical_normal, canonical_normalize, Hw. }
  split_and!; [|done|by rewrite normalize_entries in Hn].
  unfold values_ok. apply List.forallb_forall. intros kv Hkv.
  apply Hv, andb_true_iff in Hkv as [_ Hkv]. eapply encodable_mono; [|exact Hkv]. lia.
Qed.

(** The map of a record as a decoder returns it: in wire order. *)
Definition wire_value {A} (put : A -> list (string * Value)) (x : A) : Value :=
  Map (sort_entries (put x)).

(** A map nested in an array is parsed from its value; if the decoder returned
    that value, it is what the record writes. *)
Lemma open_sound {A} name (p : fields A) put contract
    `{Hw : !WireMap name p put contract} d v x :
  (f ← Fields.open name v; run p f) = Ok x ->
  encodable d v = true -> normalize v = v ->
  contract x = true /\ v = wire_value put x.
Proof.
  intros (f & Ho & [f' Hr]%run_ok)%result_bind_ok Hv Hn.
  destruct v as [| | | | |es]; try done. cbn [Fields.open] in Ho. injection Ho as <-.
  destruct (normal_entries d es Hv Hn) as (Hvo & Hno & Hs).
  destruct (wm_sound (Fields.mk name es) x f' Hr Hvo Hno) as [Hc Hperm].
  cbn [Fields.entries] in Hperm.
  split; [done|]. unfold wire_value. f_equal. rewrite <- Hs. apply sort_entries_proper; [|done].
  change (NoDup (List.map (fun kv => encoded_key kv.1) es)).
  rewrite Hperm. apply keys_ok_NoDup, (wm_keys x).
Qed.

Lemma open_run {A} name (p : fields A) put contract
    `{Hw : !WireMap name p put contract} x :
  record_ok put contract x = true ->
  (f ← Fields.open name (wire_value put x); run p f) = Ok x.
Proof.
  intros Hok. unfold wire_value. cbn [Fields.open]. unfold mbind, result_bind. apply run_ok.
  destruct (wm_run x Hok) as [f' Hf]. pose proof (keys_ok_NoDup _ (wm_keys x)) as Hd.
  assert (same_fields (Fields.mk name (put x)) (Fields.mk name (sort_entries (put x)))) as Hs.
  { split_and!; simpl; [done|by apply entry_keys_NoDup|by rewrite sort_entries_perm]. }
  pose proof (proj1 wm_structured _ _ Hs) as Hres. rewrite Hf in Hres.
  destruct (p (Fields.mk name (sort_entries (put x)))) as [[a f2]|?|?]; [|done..].
  destruct Hres as [-> _]. by exists f2.
Qed.

Lemma open_safe {A} name (p : fields A) put contract
    `{Hw : !WireMap name p put contract} v : safe (f ← Fields.open name v; run p f).
Proof.
  apply safe_bind; [by destruct v|]. intros f _. pose proof (proj2 wm_structured f) as H.
  unfold run, fmap, result_fmap. intros c. destruct (p f) as [[]|?|c']; [done..|].
  by specialize (H c').
Qed.

(** ** Arrays of maps and of byte strings *)

Lemma nested_sound {A} name (p : fields A) put contract
    `{Hw : !WireMap name p put contract} d items xs :
  List.forallb (encodable d) items = true -> List.map normalize items = items ->
  try_map (fun v => f ← Fields.open name v; run p f) items = Ok xs ->
  List.forallb contract xs = true /\ items = List.map (wire_value put) xs.
Proof.
  intros Hv Hn H%try_map_ok. induction H as [|v x items xs Hx _ IH]; [done|].
  simpl in Hv, Hn |- *. apply andb_true_iff in Hv as [Hv1 Hv2].
  apply cons_eq in Hn as [Hn1 Hn2]. destruct (IH Hv2 Hn2) as [Hc ->].
  destruct (open_sound _ _ _ _ d v x Hx Hv1 Hn1) as [Hc1 ->].
  by rewrite Hc1, Hc.
Qed.

Lemma nested_run {A} name (p : fields A) put contract
    `{Hw : !WireMap name p put contract} xs :
  List.forallb (record_ok put contract) xs = true ->
  try_map (fun v => f ← Fields.open name v; run p f) (List.map (wire_value put) xs) = Ok xs.
Proof.
  intros H. apply try_map_ok. induction xs as [|x xs IH]; [constructor|].
  simpl in H |- *. apply andb_true_iff in H as [H1 H2]. constructor; [|by apply IH].
  by apply (open_run name p put contract).
Qed.

Lemma nested_safe {A} name (p : fields A) put contract
    `{Hw : !WireMap name p put contract} items :
  safe (try_map (fun v => f ← Fields.open name v; run p f) items).
Proof. apply try_map_safe. intros v. apply (open_safe name p put contract). Qed.

(** The elements of an encodable array of records are well-formed records. *)
Lemma nested_values_ok {A} name (p : fields A) put contract
    `{Hw : !WireMap name p put contract} d xs :
  encodable d (Array (List.map (wire_value put) xs)) = true ->
  List.forallb contract xs = true -> List.forallb (record_ok put contract) xs = true.
Proof.
  cbn [encodable]. intros [_ H]%andb_true_iff Hc. rewrite List.forallb_forall in *.
  intros x Hx. unfold record_ok. rewrite (Hc x Hx), andb_true_r.
  assert (List.In (wire_value put x) (List.map (wire_value put) xs)) as Hin%H
    by (apply in_map_iff; by exists x).
  unfold wire_value in Hin. cbn [encodable] in Hin. apply andb_true_iff in Hin as [_ Hin].
  apply (values_ok_perm (sort_entries (put x)));
    [apply sort_entries_perm, keys_ok_NoDup, (wm_keys x)|].
  unfold values_ok. rewrite List.forallb_forall in *. intros kv [_ Hkv]%Hin%andb_true_iff.
  eapply encodable_mono; [|exact Hkv]. lia.
Qed.

(** Writing the nested maps in source order or in wire order is the same, and
    the latter is normal. *)
Lemma nested_normalize {A} name (p : fields A) put contract
    `{Hw : !WireMap name p put contract} xs :
  normalize (Array (List.map (fun x => Map (put x)) xs)) = Array (List.map (wire_value put) xs).
Proof.
  cbn [normalize]. f_equal. rewrite List.map_map. apply List.map_ext. intros x.
  unfold wire_value. cbn [normalize]. by rewrite normalize_entries by apply (wm_normal x).
Qed.

Lemma nested_normal {A} name (p : fields A) put contract
    `{Hw : !WireMap name p put contract} xs :
  normalize (Array (List.map (wire_value put) xs)) = Array (List.map (wire_value put) xs).
Proof.
  cbn [normalize]. f_equal. rewrite List.map_map. apply List.map_ext. intros x.
  unfold wire_value. cbn [normalize].
  assert (NoDup (entry_keys (put x))) as Hd by apply keys_ok_NoDup, (wm_keys x).
  rewrite normalize_entries.
  - f_equal. apply sort_entries_proper; [|by apply sort_entries_perm].
    unfold entry_keys in *. by rewrite (sort_entries_perm _ Hd).
  - rewrite (sort_entries_perm _ Hd). apply (wm_normal x).
Qed.

(** One element of an array of byte strings of bounded length. *)
Definition bytes_item (min max : Z) (e : RecordError) (v : Value) : result RecordError bytes :=
  match v with
  | VBytes b => if (min <=? blen b) && (blen b <=? max) then Ok b else Err e
  | _ => Err e
  end.

Definition sizes_ok (min max : Z) (bs : list bytes) : bool :=
  List.forallb (fun b => (min <=? blen b) && (blen b <=? max)) bs.

Lemma bytes_items_ok min max e items bs :
  try_map (bytes_item min max e) items = Ok bs <->
  items = List.map VBytes bs /\ sizes_ok min max bs = true.
Proof.
  rewrite try_map_ok. split.
  - induction 1 as [|v b items bs Hb _ [-> Hs]]; [done|]. unfold bytes_item in Hb.
    destruct v; try done. case_match eqn:E; [|done]. injection Hb as ->.
    unfold sizes_ok. simpl. by rewrite E.
  - intros [-> Hs]. induction bs as [|b bs IH]; [constructor|]. unfold sizes_ok in Hs.
    simpl in Hs |- *. apply andb_true_iff in Hs as [H1 H2]. constructor; [|by apply IH].
    unfold bytes_item. by rewrite H1.
Qed.

Lemma bytes_items_safe min max e items : safe (try_map (bytes_item min max e) items).
Proof. apply try_map_safe. intros v c. unfold bytes_item. by repeat case_match. Qed.

Lemma bytes_array_normal bs : normalize (Array (List.map VBytes bs)) = Array (List.map VBytes bs).
Proof. cbn [normalize]. f_equal. rewrite List.map_map. by apply List.map_ext. Qed.

(** An array the decoder returned holds encodable, normal values. *)
Lemma array_entry (es : list (string * Value)) field items :
  values_ok es = true -> values_normal es -> (field, Array items) ∈ es ->
  List.forallb (encodable 2) items = true /\ List.map normalize items = items.
Proof.
  unfold values_ok, values_normal. rewrite List.forallb_forall, Forall_forall. intros Hv Hn Hin.
  pose proof (Hn _ Hin) as Hnorm. apply list_elem_of_In, Hv in Hin. cbn in Hin, Hnorm. split.
  - by apply andb_true_iff in Hin as [_ Hin].
  - by injection Hnorm.
Qed.

(** ** Equal encodings *)

Lemma perm_same_keys (es1 es2 : list (string * Value)) :
  es1.*1 = es2.*1 -> NoDup es1.*1 -> es1 ≡ₚ es2 -> es1 = es2.
Proof.
  revert es2. induction es1 as [|[k v] es1 IH]; intros [|[k' v'] es2] Hk Hd Hp; try done.
  csimpl in *. injection Hk as <- Hk. apply NoDup_cons in Hd as [Hn Hd].
  assert ((k, v) ∈ (k, v') :: es2) as Hin by (rewrite <- Hp; left).
  apply elem_of_cons in Hin as [[= ->]|Hin].
  - apply Permutation_cons_inv in Hp. by rewrite (IH es2).
  - destruct Hn. rewrite Hk. apply list_elem_of_fmap. by exists (k, v).
Qed.

(** Two maps the codec can carry, with one encoding. *)
Lemma encode_m_inj es1 es2 :
  keys_ok es1 = true -> keys_ok es2 = true ->
  values_ok es1 = true -> values_ok es2 = true ->
  Forall (fun kv => normalize kv.2 = kv.2) es1 ->
  Forall (fun kv => normalize kv.2 = kv.2) es2 ->
  blen (encode (c.m es1)) <= USIZE_MAX ->
  encode (c.m es1) = encode (c.m es2) -> es1 ≡ₚ es2.
Proof.
  intros K1 K2 V1 V2 N1 N2 Hs He.
  destruct (fields_decode_encode "" es1) as (l1 & D1 & P1); [done..|].
  destruct (fields_decode_encode "" es2) as (l2 & D2 & P2);
    [done..|unfold c.m in *; by rewrite <- He|].
  unfold c.m in He. rewrite He, D2 in D1. injection D1 as <-. by rewrite <- P1, P2.
Qed.

(** Two records of one map with the same entries are one. *)
Lemma wire_put_inj {A} name (p : fields A) put contract
    `{Hw : !WireMap name p put contract} x y :
  record_ok put contract x = true -> record_ok put contract y = true ->
  put x ≡ₚ put y -> x = y.
Proof.
  intros Hx Hy Hp. destruct (wm_run x Hx) as [f Hf], (wm_run y Hy) as [g Hg].
  assert (same_fields (Fields.mk name (put x)) (Fields.mk name (put y))) as Hs
    by (split_and!; [done|by apply entry_keys_NoDup, keys_ok_NoDup, (wm_keys x)|done]).
  pose proof (proj1 wm_structured _ _ Hs) as H. rewrite Hf, Hg in H. by destruct H.
Qed.

(** A hash of the entries but the last, which is the hash, binds the record. *)
Lemma hashed_map_binds {A} name (p : fields A) put contract
    `{Hw : !WireMap name p put contract} sha256 label (core : A -> list (string * Value)) field
    (x y : A) :
  let pre z := domain_preimage label (encode (c.m (core z))) in
  let hash z := sha256 (pre z) in
  (forall z, put z = core z ++ [(field, c.b (hash z))]) -> (forall z, keys_ok (core z) = true) ->
  record_ok put contract x = true -> record_ok put contract y = true ->
  blen (encode (c.m (core x))) <= USIZE_MAX -> hash x = hash y ->
  x = y \/ (pre x <> pre y /\ sha256 (pre x) = sha256 (pre y)).
Proof.
  intros pre hash Hput Hkeys Hx Hy Hs Hh.
  destruct (decide (pre x = pre y)) as [He|]; [left|by right].
  assert (forall z, record_ok put contract z = true ->
    values_ok (core z) = true /\ values_normal (core z)) as Hcore.
  { intros z [Hv _]%andb_true_iff. pose proof (wm_normal z) as Hn. rewrite Hput in Hv, Hn.
    unfold values_ok in *. rewrite List.forallb_app in Hv. apply andb_true_iff in Hv as [Hv _].
    split; [done|]. unfold values_normal in *. by apply Forall_app in Hn as [Hn _]. }
  destruct (Hcore x Hx), (Hcore y Hy).
  apply domain_preimage_body, encode_m_inj in He; [|done..].
  eapply wire_put_inj; [done..|]. rewrite !Hput, Hh. by apply Permutation_app.
Qed.

(** ** Tactics for the laws of [WireMap]

    A record file adds its component parsers to [wire_unfold]; the tactics open
    them, flatten the binds and treat one primitive at a time. *)

Create HintDb wire_unfold.
(** The readers of enums, on the text of a value. *)
Create HintDb wire_find.
#[global] Arguments xorb : simpl never.

Lemma gives_refl f : gives f [] f.
Proof. unfold gives. done. Qed.

Lemma sm_bind_assoc {S E A B C} (m : SM S E A) (g : A -> SM S E B) (k : B -> SM S E C) s :
  ((m ≫= g) ≫= k) s = (m ≫= (fun a => g a ≫= k)) s.
Proof. unfold mbind, sm_bind. by destruct (m s) as [[]| |]. Qed.

Lemma sm_ret_bind {S E A B} (a : A) (k : A -> SM S E B) s : (mret a ≫= k) s = k a s.
Proof. done. Qed.

Lemma lift_run {S E A} (m : result E A) a (s : S) : m = Ok a -> lift m s = Ok (a, s).
Proof. by intros ->. Qed.

(** Reads off what one step took. *)
Ltac gives_op Ha :=
  first
    [ apply exact_version_gives in Ha
    | apply exact_text_gives in Ha
    | apply fixed_gives in Ha as [Ha ?]
    | apply opt_fixed_gives in Ha as [Ha ?]
    | apply u32_in_gives in Ha as [Ha ?]; [|done..]
    | apply bytes_gives in Ha as [Ha ?]
    | apply u16_gives in Ha as [Ha ?]
    | apply uint_gives in Ha
    | apply opt_uint_gives in Ha
    | apply text_gives in Ha
    | apply req_gives in Ha
    | apply take_gives in Ha ].

(** From [G : gives f0 l f] and a parser that succeeds from [f], collects
    everything taken into [G], the facts about values into the context. *)
Ltac collect_step G H :=
  cbv beta iota zeta in H;
  lazymatch type of H with
  | mbind _ (mbind _ _) _ = Ok _ => rewrite sm_bind_assoc in H
  | mbind _ (mret _) _ = Ok _ => rewrite sm_ret_bind in H
  | mbind _ (if ?b then _ else _) _ = Ok _ => destruct b eqn:?
  | mbind _ (match ?o with _ => _ end) _ = Ok _ =>
      first [is_var o; destruct o | destruct o eqn:?]
  | mbind _ (fail_first _) _ = Ok _ => cbn [fail_first] in H
  | mbind _ (throw _) _ = Ok _ => discriminate H
  | mbind _ (Fields.bad _) _ = Ok _ => discriminate H
  | mbind _ _ _ = Ok _ =>
      let Ha := fresh "Ha" in
      apply sm_bind_ok in H as (? & ? & Ha & H);
      lazymatch type of Ha with
      | fail_if _ _ _ = Ok _ =>
          let Hc := fresh "Hc" in
          apply fail_if_ok in Ha as [Hc Ha]; injection Ha as ? ?; subst
      | lift _ _ = Ok _ =>
          let Hc := fresh "Hc" in
          apply lift_ok in Ha as (? & Hc & Ha); injection Ha as ? ?; subst
      | Fields.finish _ = Ok _ => apply finish_gives in Ha
      | _ => gives_op Ha;
          let G' := fresh "G'" in
          pose proof (gives_trans _ _ _ _ _ G Ha) as G'; clear G Ha; rename G' into G
      end
  | mret _ _ = Ok _ => unfold mret, sm_ret in H; injection H as ? ?; subst
  | (if ?b then _ else _) _ = Ok _ => destruct b eqn:?
  | (match ?o with _ => _ end) _ = Ok _ =>
      first [is_var o; destruct o | destruct o eqn:?]
  | throw _ _ = Ok _ => discriminate H
  | Fields.bad _ _ = Ok _ => discriminate H
  end.
Ltac collect G H := repeat (collect_step G H).

(** A goal [l ≡ₚ r] on two written-out lists of the same entries. *)
Ltac split_at x r :=
  lazymatch r with
  | x :: ?r' => constr:((@nil (string * Value), r'))
  | ?y :: ?r' =>
      let p := split_at x r' in
      lazymatch p with (?a, ?b) => constr:((y :: a, b)) end
  end.
Ltac perm_lists :=
  repeat lazymatch goal with
  | |- [] ≡ₚ [] => apply perm_nil
  | |- ?x :: ?l ≡ₚ ?x :: ?r => apply perm_skip
  | |- ?x :: ?l ≡ₚ ?r =>
      let p := split_at x r in
      lazymatch p with
      | (?a, ?b) => change r with (a ++ x :: b); apply Permutation_cons_app; cbn [app]
      end
  end.

Ltac is_var_lhs H := lazymatch type of H with ?x = _ => is_var x end.

(** Facts about options of fixed arrays, and boolean guards. *)
Ltac wire_facts :=
  repeat match goal with
  | H : forall b, Some ?x = Some b -> _ |- _ => specialize (H x eq_refl)
  | H : forall b, None = Some b -> _ |- _ => clear H
  | H : _ && _ = true |- _ => apply andb_true_iff in H as [? H]
  | H : negb _ = false |- _ => apply negb_false_iff in H
  | H : negb _ = true |- _ => apply negb_true_iff in H
  | H : bool_decide _ = true |- _ => apply bool_decide_eq_true in H
  | H : bool_decide _ = false |- _ => apply bool_decide_eq_false in H
  | H : (_ =? _) = true |- _ => apply Z.eqb_eq in H; try (is_var_lhs H; subst)
  | H : String.eqb _ _ = true |- _ => apply String.eqb_eq in H; subst
  | H : is_ok _ = true |- _ => apply is_ok_true in H as [? H]
  | H : ok_or _ _ = Ok _ |- _ => apply ok_or_ok in H
  | H : find_str _ _ _ = Some _ |- _ => apply find_str_ok in H; subst
  end.

Ltac wire_bool :=
  first
  [ reflexivity | assumption | lia
  | match goal with H : ?m = Ok _ |- is_ok ?m = true => by rewrite H end
  | match goal with H : ?b = false |- negb ?b = true => by rewrite H end
  | match goal with H : ?b = true |- negb ?b = false => by rewrite H end
  | (apply bool_decide_eq_true; done)
  | (apply bool_decide_eq_false; done)
  | (apply negb_false_iff, bool_decide_eq_true; done)
  | (apply negb_true_iff, bool_decide_eq_false; done) | (unfold U16_MAX, U32_MAX in *; lia)
  | (repeat match goal with
       | |- context [?a =? ?b] => destruct (Z.eqb_spec a b)
       | H : context [?a =? ?b] |- _ => destruct (Z.eqb_spec a b)
       end; solve [reflexivity|discriminate|lia])
  | done ].

Lemma run_assoc {S E A B C X} (m : SM S E A) (g : A -> SM S E B) (k : B -> SM S E C) s r :
  (exists f : X, (m ≫= (fun a => g a ≫= k)) s = r f) -> exists f, ((m ≫= g) ≫= k) s = r f.
Proof. intros [f H]. exists f. by rewrite sm_bind_assoc. Qed.

Lemma run_bind {S E A B} (m : SM S E A) (k : A -> SM S E B) s a s' r :
  m s = Ok (a, s') -> (exists f : S, k a s' = r f) -> exists f, (m ≫= k) s = r f.
Proof. intros H [f Hk]. exists f. by rewrite (sm_bind_step _ _ _ _ _ H). Qed.

Lemma run_mret {S E A B} (a : A) (k : A -> SM S E B) s r :
  (exists f : S, k a s = r f) -> exists f, (mret a ≫= k) s = r f.
Proof. done. Qed.

(** One step of running a parser on known fields. *)
Ltac run_op :=
  lazymatch goal with
  | |- exact_version _ _ = _ => eapply exact_version_run; reflexivity
  | |- Fields.exact_text _ _ _ = _ => eapply exact_text_run; reflexivity
  | |- Fields.fixed _ _ _ = _ => eapply fixed_run; [reflexivity|wire_bool]
  | |- Fields.opt_fixed _ _ _ = _ =>
      first [ eapply opt_fixed_run; [reflexivity|wire_bool]
            | eapply opt_fixed_absent; reflexivity ]
  | |- u32_in _ _ _ _ = _ => eapply u32_in_run; [reflexivity|wire_bool|wire_bool]
  | |- Fields.bytes _ _ _ _ = _ => eapply bytes_run; [reflexivity|wire_bool]
  | |- Fields.u16 _ _ = _ => eapply u16_run; [reflexivity|wire_bool]
  | |- Fields.uint _ _ = _ => eapply uint_run; reflexivity
  | |- Fields.opt_uint _ _ = _ =>
      first [eapply opt_uint_run; reflexivity | eapply opt_uint_absent; reflexivity]
  | |- Fields.text _ _ = _ => eapply text_run; reflexivity
  | |- Fields.req _ _ = _ => eapply req_run; reflexivity
  | |- Fields.take _ _ = _ =>
      first [eapply take_run; reflexivity | eapply take_absent; reflexivity]
  | |- fail_if _ _ _ = _ => eapply fail_if_run; simpl; wire_bool
  | |- lift _ _ = _ =>
      eapply lift_run; first [reflexivity|eassumption|solve [eauto with wire_find]]
  | _ => reflexivity
  end.
Ltac run_if b :=
  first
    [ replace b with true by (symmetry; simpl; wire_bool)
    | replace b with false by (symmetry; simpl; wire_bool) ].
Ltac run_match o :=
  let o' := eval simpl in o in progress change o with o'.
Ltac run_step :=
  cbv beta iota zeta;
  lazymatch goal with
  | |- exists _, mbind _ (mbind _ _) _ = _ => apply run_assoc
  | |- exists _, mbind _ (fail_first _) _ = _ => cbn [fail_first]
  | |- exists _, mbind _ (mret _) _ = _ => apply run_mret
  | |- exists _, mbind _ (if ?b then _ else _) _ = _ => run_if b
  | |- exists _, (if ?b then _ else _) _ = _ => run_if b
  | |- exists _, mbind _ (match ?o with _ => _ end) _ = _ => run_match o
  | |- exists _, mbind _ _ _ = _ => eapply run_bind; [solve [run_op]|]
  | |- exists _, mret _ _ = _ => eexists; reflexivity
  end.
Ltac run_fields := repeat run_step.

Ltac unfold_head p :=
  lazymatch p with ?q _ => unfold_head q | _ => unfold p in * end.

(** The four laws. Each record names its own case split: [destruct_record x]
    opens the record and the components in it. *)
Ltac split_options :=
  repeat match goal with o : option _ |- _ => destruct o end.

Ltac wire_subst :=
  repeat match goal with
  | H : Some _ = Some _ |- _ => injection H as H
  | H : ?x = _ |- _ => is_var x; subst x
  end.

Ltac wire_sound :=
  let f := fresh "f" in let x := fresh "x" in let f' := fresh "f'" in
  let H := fresh "H" in let Hv := fresh "Hv" in
  intros f x f' H Hv _;
  match type of H with ?p _ = _ => unfold_head p end;
  autounfold with wire_unfold in H;
  let G := fresh "G" in
  pose proof (gives_refl f) as G; collect G H; wire_facts;
  unfold gives in G;
  match goal with Ha : Fields.entries _ = [] |- _ => rewrite Ha, app_nil_r in G end;
  clear Hv; split_options; wire_facts; autounfold with wire_unfold in *;
  simpl in *; try discriminate; wire_subst;
  (split; [repeat (apply andb_true_intro; split); wire_bool|rewrite G; perm_lists]).

Ltac wire_structured :=
  match goal with |- structured ?p => unfold_head p end;
  autounfold with wire_unfold; by_structure.

Ltac wire_run destruct_record :=
  let x := fresh "x" in let H := fresh "H" in
  intros x H; apply andb_true_iff in H as [_ H];
  destruct_record x; autounfold with wire_unfold in *; simpl in H;
  split_options; simpl in H; try discriminate H; wire_facts; try discriminate; simpl;
  match goal with |- exists _, ?p _ = _ => unfold_head p end;
  autounfold with wire_unfold; run_fields.

Ltac wire_keys destruct_record :=
  let x := fresh "x" in
  intros x; destruct_record x; split_options; vm_compute; reflexivity.

Ltac wire_normal destruct_record :=
  let x := fresh "x" in
  intros x; destruct_record x; split_options; repeat constructor.

Ltac wire_map destruct_record :=
  split;
    [wire_sound|wire_structured|wire_run destruct_record|wire_keys destruct_record
    |wire_normal destruct_record].
