(* ===== verification/ProfileLease.v ===== *)
(** * Profile lease maps (shared/src/profile_lease.rs)

    The request and response maps of the lease operations: publish-create,
    checkout, upload creation and finalization, release, local unbind with its
    tombstone, and renew. Each map is a Module: its record [t], the parser of
    its fields in the order of the source, [put] (the entries its [encode]
    writes), and [wf], the contract of the values it can hold; the instance of
    [WireMap] says that the parser accepts exactly what [put] writes under
    [wf]. *)

From S2P Require Import Prelude Bytes Canonical CanonicalFacts CanonicalDecode CanonicalTheorems.
From S2P Require Import RecordFields WireMap.

(** shared/src/envelope_v2.rs. *)
Definition MAX_OBJECT_SIZE : Z := 512 * 1024 * 1024.

Definition DOMAIN_PUBLISH_CREATE_REQUEST := "shardx.sync.profile-publish-create-request.v2".
Definition DOMAIN_PUBLISH_CREATE_RESPONSE := "shardx.sync.profile-publish-create-response.v2".
Definition DOMAIN_CHECKOUT_REQUEST := "shardx.sync.profile-checkout-request.v2".
Definition DOMAIN_CHECKOUT_RESPONSE := "shardx.sync.profile-checkout-response.v2".
Definition DOMAIN_RELEASE_LEASE_REQUEST := "shardx.sync.release-lease-request.v2".
Definition DOMAIN_RELEASE_LEASE_RESPONSE := "shardx.sync.release-lease-response.v2".
Definition RECORD_TYPE_PUBLISH_CREATED := "ProfilePublishCreateResponseV2".
Definition RECORD_TYPE_CHECKED_OUT := "ProfileCheckoutResponseV2".
Definition DOMAIN_LEASE_RENEW_REQUEST := "shardx.sync.lease-renew-request.v2".
Definition DOMAIN_LEASE_RENEW_RESPONSE := "shardx.sync.lease-renew-response.v2".
Definition RELEASE_OUTCOME_RELEASED := "released".
Definition DOMAIN_CREATE_UPLOAD_REQUEST := "shardx.sync.create-upload-request.v2".
Definition DOMAIN_CREATE_UPLOAD_RESPONSE := "shardx.sync.create-upload-response.v2".
Definition DOMAIN_FINALIZE_UPLOAD_RESPONSE := "shardx.sync.finalize-upload-response.v2".
Definition UPLOAD_STATE_OPEN := "OPEN".
Definition UPLOAD_STATE_READY := "READY".
Definition DOMAIN_LOCAL_UNBIND_REQUEST := "shardx.local.unbind-request.v2".
Definition DOMAIN_LOCAL_UNBIND_RESPONSE := "shardx.local.unbind-response.v2".
Definition DOMAIN_LOCAL_BINDING_TOMBSTONE := "shardx.local.binding-tombstone.v2".
Definition UNBIND_OUTCOME_UNBOUND := "unbound".
Definition L_LOCAL_BINDING_TOMBSTONE := nul_label "SHARDX-LOCAL-BINDING-TOMBSTONE-V2".
Definition MAX_LABEL_CIPHERTEXT : Z := 4096.
Definition MIN_LEASE_TTL_SECONDS : Z := 30.
Definition MAX_LEASE_TTL_SECONDS : Z := 900.
Definition MAX_SERVER_ID : Z := 512.
Definition MAX_LOCAL_PROFILE_ID : Z := 255.

#[global] Hint Unfold c.t c.u c.b MAX_OBJECT_SIZE MAX_LABEL_CIPHERTEXT MIN_LEASE_TTL_SECONDS
  MAX_LEASE_TTL_SECONDS MAX_SERVER_ID MAX_LOCAL_PROFILE_ID : wire_unfold.

(** ** Components *)

Definition take_ttl : fields Z :=
  u32_in "requested_lease_ttl_seconds" MIN_LEASE_TTL_SECONDS MAX_LEASE_TTL_SECONDS.

Definition ttl_ok (n : Z) : bool :=
  (MIN_LEASE_TTL_SECONDS <=? n) && (n <=? MAX_LEASE_TTL_SECONDS).

Module ProfileRef.

Record t := mk { tenant_id : bytes; fleet_id : bytes; profile_id : bytes }.

Definition take : fields t :=
  tenant_id ← Fields.fixed 16 "tenant_id";
  fleet_id ← Fields.fixed 16 "fleet_id";
  profile_id ← Fields.fixed 16 "profile_id";
  mret (mk tenant_id fleet_id profile_id).

Definition head (x : t) (domain : string) : list (string * Value) :=
  [("domain", c.t domain); ("version", c.u VERSION);
   ("tenant_id", c.b (tenant_id x)); ("fleet_id", c.b (fleet_id x));
   ("profile_id", c.b (profile_id x))].

Definition wf (x : t) : bool :=
  (blen (tenant_id x) =? 16) && (blen (fleet_id x) =? 16) && (blen (profile_id x) =? 16).

End ProfileRef.

Module LeaseRef.

Record t := mk { lease_id : bytes; fencing_token : Z; base_version : Z }.

Definition take : fields t :=
  lease_id ← Fields.fixed 16 "lease_id";
  fencing_token ← Fields.uint "fencing_token";
  base_version ← Fields.uint "base_version";
  mret (mk lease_id fencing_token base_version).

(** The entries [push] appends. *)
Definition push (x : t) : list (string * Value) :=
  [("lease_id", c.b (lease_id x)); ("fencing_token", c.u (fencing_token x));
   ("base_version", c.u (base_version x))].

Definition wf (x : t) : bool := blen (lease_id x) =? 16.

End LeaseRef.

#[global] Hint Unfold take_ttl ttl_ok ProfileRef.take ProfileRef.head ProfileRef.wf
  LeaseRef.take LeaseRef.push LeaseRef.wf : wire_unfold.

(** ** PROFILE_PUBLISH_CREATE and PROFILE_CHECKOUT *)

Module ProfilePublishCreateV2.

Record t := mk {
  profile : ProfileRef.t;
  label_ciphertext : bytes;
  requested_lease_ttl_seconds : Z;
  fkek_key_id : bytes;
  key_generation : Z }.

Definition parser : fields t :=
  _ ← exact_version DOMAIN_PUBLISH_CREATE_REQUEST;
  profile ← ProfileRef.take;
  label_ciphertext ← Fields.bytes "label_ciphertext" 1 MAX_LABEL_CIPHERTEXT;
  requested_lease_ttl_seconds ← take_ttl;
  fkek_key_id ← Fields.fixed 32 "fkek_key_id";
  key_generation ← Fields.uint "key_generation";
  _ ← Fields.finish;
  mret (mk profile label_ciphertext requested_lease_ttl_seconds fkek_key_id key_generation).

Definition parse : bytes -> result RecordError t :=
  parse_map "ProfilePublishCreateV2" parser.

Definition put (x : t) : list (string * Value) :=
  ProfileRef.head (profile x) DOMAIN_PUBLISH_CREATE_REQUEST ++
  [("label_ciphertext", c.b (label_ciphertext x));
   ("requested_lease_ttl_seconds", c.u (requested_lease_ttl_seconds x));
   ("fkek_key_id", c.b (fkek_key_id x)); ("key_generation", c.u (key_generation x))].

Definition encode (x : t) : bytes := Canonical.encode (c.m (put x)).

Definition wf (x : t) : bool :=
  ProfileRef.wf (profile x)
  && (1 <=? blen (label_ciphertext x)) && (blen (label_ciphertext x) <=? MAX_LABEL_CIPHERTEXT)
  && ttl_ok (requested_lease_ttl_seconds x) && (blen (fkek_key_id x) =? 32).

#[global] Hint Unfold put wf : wire_unfold.

#[global] Instance wire : WireMap "ProfilePublishCreateV2" parser put wf.
Proof. wire_map ltac:(fun x => destruct x as [[] ? ? ? ?]). Qed.

Lemma ProfilePublishCreateV2_exact :
  exact_map parse encode (record_ok put wf).
Proof. intros payload x. exact (wire_map_exact _ _ _ _ payload x). Qed.

End ProfilePublishCreateV2.

Module ProfileCheckoutV2.

Record t := mk {
  profile : ProfileRef.t;
  observed_version : Z;
  observed_signed_head_hash : option bytes;
  requested_lease_ttl_seconds : Z }.

Definition parser : fields t :=
  _ ← exact_version DOMAIN_CHECKOUT_REQUEST;
  profile ← ProfileRef.take;
  observed_version ← Fields.uint "observed_version";
  observed_signed_head_hash ← Fields.opt_fixed 32 "observed_signed_head_hash";
  requested_lease_ttl_seconds ← take_ttl;
  _ ← Fields.finish;
  _ ← fail_if (xorb (is_some observed_signed_head_hash) (negb (observed_version =? 0))) (BadValue "observed_signed_head_hash");
  mret (mk profile observed_version observed_signed_head_hash requested_lease_ttl_seconds).

Definition parse : bytes -> result RecordError t :=
  parse_map "ProfileCheckoutV2" parser.

Definition put (x : t) : list (string * Value) :=
  ProfileRef.head (profile x) DOMAIN_CHECKOUT_REQUEST ++
  [("observed_version", c.u (observed_version x))] ++
  opt_entry "observed_signed_head_hash" c.b (observed_signed_head_hash x) ++
  [("requested_lease_ttl_seconds", c.u (requested_lease_ttl_seconds x))].

Definition encode (x : t) : bytes := Canonical.encode (c.m (put x)).

Definition wf (x : t) : bool :=
  ProfileRef.wf (profile x) && opt_ok (fun h => blen h =? 32) (observed_signed_head_hash x)
  && ttl_ok (requested_lease_ttl_seconds x)
  && negb (xorb (is_some (observed_signed_head_hash x)) (negb (observed_version x =? 0))).

#[global] Hint Unfold put wf : wire_unfold.

#[global] Instance wire : WireMap "ProfileCheckoutV2" parser put wf.
Proof. wire_map ltac:(fun x => destruct x as [[] ? ? ?]). Qed.

Lemma ProfileCheckoutV2_exact :
  exact_map parse encode (record_ok put wf).
Proof. intros payload x. exact (wire_map_exact _ _ _ _ payload x). Qed.

End ProfileCheckoutV2.

Module LeaseOrigin.

Inductive t := PublishCreate | Checkout.

#[global] Instance eq_dec : EqDecision t.
Proof. solve_decision. Defined.

Definition domain (o : t) : string :=
  match o with
  | PublishCreate => DOMAIN_PUBLISH_CREATE_RESPONSE
  | Checkout => DOMAIN_CHECKOUT_RESPONSE
  end.

Definition record_type (o : t) : string :=
  match o with
  | PublishCreate => RECORD_TYPE_PUBLISH_CREATED
  | Checkout => RECORD_TYPE_CHECKED_OUT
  end.

End LeaseOrigin.

Module ProfileLeaseV2.

Record t := mk {
  profile : ProfileRef.t;
  lease : LeaseRef.t;
  expires_at_ms : Z;
  fkek_key_id : bytes;
  key_generation : Z;
  current_signed_head_hash : option bytes;
  server_instance_id : bytes;
  restore_epoch : Z }.

Definition parser (origin : LeaseOrigin.t) : fields t :=
  _ ← exact_version (LeaseOrigin.domain origin);
  profile ← ProfileRef.take;
  lease ← LeaseRef.take;
  expires_at_ms ← Fields.uint "expires_at_ms";
  fkek_key_id ← Fields.fixed 32 "fkek_key_id";
  key_generation ← Fields.uint "key_generation";
  current_signed_head_hash ← Fields.opt_fixed 32 "current_signed_head_hash";
  server_instance_id ← Fields.fixed 16 "server_instance_id";
  restore_epoch ← Fields.uint "restore_epoch";
  _ ← Fields.finish;
  _ ← fail_if (bool_decide (origin = LeaseOrigin.PublishCreate)
        && negb (LeaseRef.base_version lease =? 0)) (BadValue "base_version");
  _ ← fail_if (xorb (is_some current_signed_head_hash)
        (negb (LeaseRef.base_version lease =? 0))) (BadValue "current_signed_head_hash");
  mret (mk profile lease expires_at_ms fkek_key_id key_generation current_signed_head_hash
  server_instance_id restore_epoch).

Definition parse (origin : LeaseOrigin.t) : bytes -> result RecordError t :=
  parse_map "ProfileLeaseV2" (parser origin).

Definition put (origin : LeaseOrigin.t) (x : t) : list (string * Value) :=
  ProfileRef.head (profile x) (LeaseOrigin.domain origin) ++
  LeaseRef.push (lease x) ++
  [("expires_at_ms", c.u (expires_at_ms x)); ("fkek_key_id", c.b (fkek_key_id x));
   ("key_generation", c.u (key_generation x))] ++
  opt_entry "current_signed_head_hash" c.b (current_signed_head_hash x) ++
  [("server_instance_id", c.b (server_instance_id x)); ("restore_epoch", c.u (restore_epoch x))].

Definition encode (origin : LeaseOrigin.t) (x : t) : bytes := Canonical.encode (c.m (put origin x)).

Definition wf (origin : LeaseOrigin.t) (x : t) : bool :=
  ProfileRef.wf (profile x) && LeaseRef.wf (lease x) && (blen (fkek_key_id x) =? 32)
  && opt_ok (fun h => blen h =? 32) (current_signed_head_hash x)
  && (blen (server_instance_id x) =? 16)
  && negb (bool_decide (origin = LeaseOrigin.PublishCreate)
       && negb (LeaseRef.base_version (lease x) =? 0))
  && negb (xorb (is_some (current_signed_head_hash x))
       (negb (LeaseRef.base_version (lease x) =? 0))).

#[global] Hint Unfold put wf : wire_unfold.

#[global] Instance wire (origin : LeaseOrigin.t) : WireMap "ProfileLeaseV2" (parser origin) (put origin) (wf origin).
Proof. destruct origin; wire_map ltac:(fun x => destruct x as [[] [] ? ? ? ? ? ?]). Qed.

Lemma ProfileLeaseV2_exact (origin : LeaseOrigin.t) :
  exact_map (parse origin) (encode origin) (record_ok (put origin) (wf origin)).
Proof. intros payload x. exact (wire_map_exact _ _ _ _ payload x). Qed.

End ProfileLeaseV2.

(** ** CREATE_UPLOAD and FINALIZE_UPLOAD *)

Module CreateUploadV2.

Record t := mk {
  profile : ProfileRef.t;
  snapshot_id : bytes;
  manifest_replay_id : bytes;
  lease : LeaseRef.t;
  intent_hash : bytes;
  preamble_sha256 : bytes;
  dek_slot_sha256 : bytes;
  fkek_key_id : bytes;
  key_generation : Z;
  expected_ciphertext_size : Z;
  expected_ciphertext_sha256 : bytes }.

Definition take : fields t :=
  profile ← ProfileRef.take;
  snapshot_id ← Fields.fixed 16 "snapshot_id";
  manifest_replay_id ← Fields.fixed 16 "manifest_replay_id";
  lease ← LeaseRef.take;
  intent_hash ← Fields.fixed 32 "intent_hash";
  preamble_sha256 ← Fields.fixed 32 "preamble_sha256";
  dek_slot_sha256 ← Fields.fixed 32 "dek_slot_sha256";
  fkek_key_id ← Fields.fixed 32 "fkek_key_id";
  key_generation ← Fields.uint "key_generation";
  expected_ciphertext_size ← Fields.uint "expected_ciphertext_size";
  _ ← (if (1 <=? expected_ciphertext_size) && (expected_ciphertext_size <=? MAX_OBJECT_SIZE)
         then mret tt else Fields.bad "expected_ciphertext_size");
  expected_ciphertext_sha256 ← Fields.fixed 32 "expected_ciphertext_sha256";
  mret (mk profile snapshot_id manifest_replay_id lease intent_hash preamble_sha256
  dek_slot_sha256 fkek_key_id key_generation expected_ciphertext_size expected_ciphertext_sha256).

Definition map (x : t) (domain : string) : list (string * Value) :=
  ProfileRef.head (profile x) domain ++
  [("snapshot_id", c.b (snapshot_id x)); ("manifest_replay_id", c.b (manifest_replay_id x))] ++
  LeaseRef.push (lease x) ++
  [("intent_hash", c.b (intent_hash x)); ("preamble_sha256", c.b (preamble_sha256 x));
   ("dek_slot_sha256", c.b (dek_slot_sha256 x)); ("fkek_key_id", c.b (fkek_key_id x));
   ("key_generation", c.u (key_generation x));
   ("expected_ciphertext_size", c.u (expected_ciphertext_size x));
   ("expected_ciphertext_sha256", c.b (expected_ciphertext_sha256 x))].

Definition wf (x : t) : bool :=
  ProfileRef.wf (profile x) && (blen (snapshot_id x) =? 16)
  && (blen (manifest_replay_id x) =? 16) && LeaseRef.wf (lease x)
  && (blen (intent_hash x) =? 32) && (blen (preamble_sha256 x) =? 32)
  && (blen (dek_slot_sha256 x) =? 32) && (blen (fkek_key_id x) =? 32)
  && (1 <=? expected_ciphertext_size x) && (expected_ciphertext_size x <=? MAX_OBJECT_SIZE)
  && (blen (expected_ciphertext_sha256 x) =? 32).

#[global] Hint Unfold take map wf : wire_unfold.

Definition parser : fields t :=
  _ ← exact_version DOMAIN_CREATE_UPLOAD_REQUEST;
  r ← take;
  _ ← Fields.finish;
  mret r.

Definition parse : bytes -> result RecordError t := parse_map "CreateUploadV2" parser.

Definition put (x : t) : list (string * Value) := map x DOMAIN_CREATE_UPLOAD_REQUEST.

Definition encode (x : t) : bytes := Canonical.encode (c.m (put x)).

#[global] Hint Unfold put : wire_unfold.

#[global] Instance wire : WireMap "CreateUploadV2" parser put wf.
Proof. wire_map ltac:(fun x => destruct x as [[] ? ? [] ? ? ? ? ? ? ?]). Qed.

Lemma CreateUploadV2_exact : exact_map parse encode (record_ok put wf).
Proof. intros payload x. exact (wire_map_exact _ _ _ _ payload x). Qed.

End CreateUploadV2.

Module UploadCreatedV2.

Record t := mk {
  terms : CreateUploadV2.t;
  upload_id : bytes;
  expires_at_ms : Z;
  server_instance_id : bytes;
  restore_epoch : Z }.

Definition parser : fields t :=
  _ ← exact_version DOMAIN_CREATE_UPLOAD_RESPONSE;
  terms ← CreateUploadV2.take;
  upload_id ← Fields.fixed 16 "upload_id";
  committed_offset ← Fields.uint "committed_offset";
  _ ← (if negb (committed_offset =? 0) then Fields.bad "committed_offset" else mret tt);
  _ ← Fields.exact_text "state" UPLOAD_STATE_OPEN;
  expires_at_ms ← Fields.uint "expires_at_ms";
  server_instance_id ← Fields.fixed 16 "server_instance_id";
  restore_epoch ← Fields.uint "restore_epoch";
  _ ← Fields.finish;
  mret (mk terms upload_id expires_at_ms server_instance_id restore_epoch).

Definition parse : bytes -> result RecordError t :=
  parse_map "UploadCreatedV2" parser.

Definition put (x : t) : list (string * Value) :=
  CreateUploadV2.map (terms x) DOMAIN_CREATE_UPLOAD_RESPONSE ++
  [("upload_id", c.b (upload_id x)); ("committed_offset", c.u 0);
   ("state", c.t UPLOAD_STATE_OPEN); ("expires_at_ms", c.u (expires_at_ms x));
   ("server_instance_id", c.b (server_instance_id x)); ("restore_epoch", c.u (restore_epoch x))].

Definition encode (x : t) : bytes := Canonical.encode (c.m (put x)).

Definition wf (x : t) : bool :=
  CreateUploadV2.wf (terms x) && (blen (upload_id x) =? 16)
  && (blen (server_instance_id x) =? 16).

#[global] Hint Unfold put wf : wire_unfold.

#[global] Instance wire : WireMap "UploadCreatedV2" parser put wf.
Proof. wire_map ltac:(fun x => destruct x as [[[] ? ? [] ? ? ? ? ? ? ?] ? ? ? ?]). Qed.

Lemma UploadCreatedV2_exact :
  exact_map parse encode (record_ok put wf).
Proof. intros payload x. exact (wire_map_exact _ _ _ _ payload x). Qed.

End UploadCreatedV2.

Module UploadFinalizedV2.

Record t := mk {
  upload_id : bytes;
  snapshot_id : bytes;
  manifest_replay_id : bytes;
  ciphertext_size : Z;
  ciphertext_sha256 : bytes;
  object_receipt_id : bytes;
  server_instance_id : bytes;
  restore_epoch : Z }.

Definition parser : fields t :=
  _ ← exact_version DOMAIN_FINALIZE_UPLOAD_RESPONSE;
  upload_id ← Fields.fixed 16 "upload_id";
  snapshot_id ← Fields.fixed 16 "snapshot_id";
  manifest_replay_id ← Fields.fixed 16 "manifest_replay_id";
  _ ← Fields.exact_text "state" UPLOAD_STATE_READY;
  ciphertext_size ← Fields.uint "ciphertext_size";
  ciphertext_sha256 ← Fields.fixed 32 "ciphertext_sha256";
  object_receipt_id ← Fields.fixed 16 "object_receipt_id";
  server_instance_id ← Fields.fixed 16 "server_instance_id";
  restore_epoch ← Fields.uint "restore_epoch";
  _ ← Fields.finish;
  mret (mk upload_id snapshot_id manifest_replay_id ciphertext_size ciphertext_sha256
  object_receipt_id server_instance_id restore_epoch).

Definition parse : bytes -> result RecordError t :=
  parse_map "UploadFinalizedV2" parser.

Definition put (x : t) : list (string * Value) :=
  [("domain", c.t DOMAIN_FINALIZE_UPLOAD_RESPONSE); ("version", c.u VERSION);
   ("upload_id", c.b (upload_id x)); ("snapshot_id", c.b (snapshot_id x));
   ("manifest_replay_id", c.b (manifest_replay_id x)); ("state", c.t UPLOAD_STATE_READY);
   ("ciphertext_size", c.u (ciphertext_size x));
   ("ciphertext_sha256", c.b (ciphertext_sha256 x));
   ("object_receipt_id", c.b (object_receipt_id x));
   ("server_instance_id", c.b (server_instance_id x)); ("restore_epoch", c.u (restore_epoch x))].

Definition encode (x : t) : bytes := Canonical.encode (c.m (put x)).

Definition wf (x : t) : bool :=
  (blen (upload_id x) =? 16) && (blen (snapshot_id x) =? 16)
  && (blen (manifest_replay_id x) =? 16) && (blen (ciphertext_sha256 x) =? 32)
  && (blen (object_receipt_id x) =? 16) && (blen (server_instance_id x) =? 16).

#[global] Hint Unfold put wf : wire_unfold.

#[global] Instance wire : WireMap "UploadFinalizedV2" parser put wf.
Proof. wire_map ltac:(fun x => destruct x as []). Qed.

Lemma UploadFinalizedV2_exact :
  exact_map parse encode (record_ok put wf).
Proof. intros payload x. exact (wire_map_exact _ _ _ _ payload x). Qed.

End UploadFinalizedV2.

(** ** RELEASE_LEASE *)

Module ReleaseReason.

Inductive t := UserRelease | CancelPublish | ShutdownCleanup.

Definition ALL : list t := [UserRelease; CancelPublish; ShutdownCleanup].

Definition as_str (r : t) : string :=
  match r with
  | UserRelease => "user_release"
  | CancelPublish => "cancel_publish"
  | ShutdownCleanup => "shutdown_cleanup"
  end.

Definition parse (s : string) : option t := find_str as_str ALL s.

#[global] Hint Unfold parse : wire_unfold.

End ReleaseReason.

Module ReleaseLeaseV2.

Record t := mk {
  profile : ProfileRef.t;
  lease : LeaseRef.t;
  reason_code : ReleaseReason.t }.

Definition parser : fields t :=
  _ ← exact_version DOMAIN_RELEASE_LEASE_REQUEST;
  profile ← ProfileRef.take;
  lease ← LeaseRef.take;
  reason ← Fields.text "reason_code";
  reason_code ← lift (ok_or (ReleaseReason.parse reason) (BadValue "reason_code"));
  _ ← Fields.finish;
  mret (mk profile lease reason_code).

Definition parse : bytes -> result RecordError t :=
  parse_map "ReleaseLeaseV2" parser.

Definition put (x : t) : list (string * Value) :=
  ProfileRef.head (profile x) DOMAIN_RELEASE_LEASE_REQUEST ++
  LeaseRef.push (lease x) ++
  [("reason_code", c.t (ReleaseReason.as_str (reason_code x)))].

Definition encode (x : t) : bytes := Canonical.encode (c.m (put x)).

Definition wf (x : t) : bool :=
  ProfileRef.wf (profile x) && LeaseRef.wf (lease x).

#[global] Hint Unfold put wf : wire_unfold.

#[global] Instance wire : WireMap "ReleaseLeaseV2" parser put wf.
Proof. wire_map ltac:(fun x => destruct x as [[] [] []]). Qed.

Lemma ReleaseLeaseV2_exact :
  exact_map parse encode (record_ok put wf).
Proof. intros payload x. exact (wire_map_exact _ _ _ _ payload x). Qed.

End ReleaseLeaseV2.

Module LeaseReleasedV2.

Record t := mk {
  profile : ProfileRef.t;
  lease : LeaseRef.t;
  released_at_ms : Z;
  server_instance_id : bytes;
  restore_epoch : Z }.

Definition parser : fields t :=
  _ ← exact_version DOMAIN_RELEASE_LEASE_RESPONSE;
  profile ← ProfileRef.take;
  lease ← LeaseRef.take;
  _ ← Fields.exact_text "release_outcome" RELEASE_OUTCOME_RELEASED;
  released_at_ms ← Fields.uint "released_at_ms";
  server_instance_id ← Fields.fixed 16 "server_instance_id";
  restore_epoch ← Fields.uint "restore_epoch";
  _ ← Fields.finish;
  mret (mk profile lease released_at_ms server_instance_id restore_epoch).

Definition parse : bytes -> result RecordError t :=
  parse_map "LeaseReleasedV2" parser.

Definition put (x : t) : list (string * Value) :=
  ProfileRef.head (profile x) DOMAIN_RELEASE_LEASE_RESPONSE ++
  LeaseRef.push (lease x) ++
  [("release_outcome", c.t RELEASE_OUTCOME_RELEASED);
   ("released_at_ms", c.u (released_at_ms x));
   ("server_instance_id", c.b (server_instance_id x)); ("restore_epoch", c.u (restore_epoch x))].

Definition encode (x : t) : bytes := Canonical.encode (c.m (put x)).

Definition wf (x : t) : bool :=
  ProfileRef.wf (profile x) && LeaseRef.wf (lease x) && (blen (server_instance_id x) =? 16).

#[global] Hint Unfold put wf : wire_unfold.

#[global] Instance wire : WireMap "LeaseReleasedV2" parser put wf.
Proof. wire_map ltac:(fun x => destruct x as [[] [] ? ? ?]). Qed.

Lemma LeaseReleasedV2_exact :
  exact_map parse encode (record_ok put wf).
Proof. intros payload x. exact (wire_map_exact _ _ _ _ payload x). Qed.

End LeaseReleasedV2.

(** ** LOCAL_UNBIND *)

Definition take_text (field : string) (max : Z) : fields string :=
  s ← Fields.text field;
  if (1 <=? blen (as_bytes s)) && (blen (as_bytes s) <=? max) then mret s
  else Fields.bad field.

#[global] Hint Unfold take_text : wire_unfold.

Module UnboundBinding.

Record t := mk {
  server_id : string;
  server_instance_id : bytes;
  restore_epoch : Z;
  tenant_id : bytes;
  fleet_id : bytes;
  remote_profile_id : bytes;
  local_profile_id : string;
  remote_version : Z;
  expected_signed_head_hash : option bytes }.

Definition take : fields t :=
  server_id ← take_text "server_id" MAX_SERVER_ID;
  server_instance_id ← Fields.fixed 16 "server_instance_id";
  restore_epoch ← Fields.uint "restore_epoch";
  tenant_id ← Fields.fixed 16 "tenant_id";
  fleet_id ← Fields.fixed 16 "fleet_id";
  remote_profile_id ← Fields.fixed 16 "remote_profile_id";
  local_profile_id ← take_text "local_profile_id" MAX_LOCAL_PROFILE_ID;
  remote_version ← Fields.uint "remote_version";
  expected_signed_head_hash ← Fields.opt_fixed 32 "expected_signed_head_hash";
  _ ← fail_if (xorb (is_some expected_signed_head_hash) (negb (remote_version =? 0))) (BadValue "expected_signed_head_hash");
  mret (mk server_id server_instance_id restore_epoch tenant_id fleet_id remote_profile_id
  local_profile_id remote_version expected_signed_head_hash).

Definition map (x : t) (domain : string) : list (string * Value) :=
  [("domain", c.t domain); ("version", c.u VERSION);
   ("server_id", c.t (server_id x)); ("server_instance_id", c.b (server_instance_id x));
   ("restore_epoch", c.u (restore_epoch x)); ("tenant_id", c.b (tenant_id x));
   ("fleet_id", c.b (fleet_id x)); ("remote_profile_id", c.b (remote_profile_id x));
   ("local_profile_id", c.t (local_profile_id x)); ("remote_version", c.u (remote_version x))] ++
  opt_entry "expected_signed_head_hash" c.b (expected_signed_head_hash x).

Definition wf (x : t) : bool :=
  (1 <=? blen (as_bytes (server_id x))) && (blen (as_bytes (server_id x)) <=? MAX_SERVER_ID)
  && (blen (server_instance_id x) =? 16) && (blen (tenant_id x) =? 16)
  && (blen (fleet_id x) =? 16) && (blen (remote_profile_id x) =? 16)
  && (1 <=? blen (as_bytes (local_profile_id x))) && (blen (as_bytes (local_profile_id x)) <=? MAX_LOCAL_PROFILE_ID)
  && opt_ok (fun h => blen h =? 32) (expected_signed_head_hash x)
  && negb (xorb (is_some (expected_signed_head_hash x)) (negb (remote_version x =? 0))).

#[global] Hint Unfold take map wf : wire_unfold.

End UnboundBinding.

Module LocalUnbindV2.

(** One turn of the loop over the two flags. *)
Definition require_true (flag : string) : fields unit :=
  v ← Fields.req flag;
  match v with VBool true => mret tt | _ => throw (BadValue flag) end.

#[global] Hint Unfold require_true : wire_unfold.

Record t := mk {
  binding : UnboundBinding.t }.

Definition parser : fields t :=
  _ ← exact_version DOMAIN_LOCAL_UNBIND_REQUEST;
  binding ← UnboundBinding.take;
  _ ← require_true "require_no_lease";
  _ ← require_true "require_no_pending_operation";
  _ ← Fields.finish;
  mret (mk binding).

Definition parse : bytes -> result RecordError t :=
  parse_map "LocalUnbindV2" parser.

Definition put (x : t) : list (string * Value) :=
  UnboundBinding.map (binding x) DOMAIN_LOCAL_UNBIND_REQUEST ++
  [("require_no_lease", VBool true); ("require_no_pending_operation", VBool true)].

Definition encode (x : t) : bytes := Canonical.encode (c.m (put x)).

Definition wf (x : t) : bool :=
  UnboundBinding.wf (binding x).

#[global] Hint Unfold put wf : wire_unfold.

#[global] Instance wire : WireMap "LocalUnbindV2" parser put wf.
Proof. wire_map ltac:(fun x => destruct x as [[? ? ? ? ? ? ? ? ?]]). Qed.

Lemma LocalUnbindV2_exact :
  exact_map parse encode (record_ok put wf).
Proof. intros payload x. exact (wire_map_exact _ _ _ _ payload x). Qed.

End LocalUnbindV2.

Module LocalUnboundV2.

Record t := mk {
  binding : UnboundBinding.t;
  binding_tombstone_sha256 : bytes;
  completed_at_ms : Z }.

Definition parser : fields t :=
  _ ← exact_version DOMAIN_LOCAL_UNBIND_RESPONSE;
  binding ← UnboundBinding.take;
  _ ← Fields.exact_text "unbind_outcome" UNBIND_OUTCOME_UNBOUND;
  binding_tombstone_sha256 ← Fields.fixed 32 "binding_tombstone_sha256";
  completed_at_ms ← Fields.uint "completed_at_ms";
  _ ← Fields.finish;
  mret (mk binding binding_tombstone_sha256 completed_at_ms).

Definition parse : bytes -> result RecordError t :=
  parse_map "LocalUnboundV2" parser.

Definition put (x : t) : list (string * Value) :=
  UnboundBinding.map (binding x) DOMAIN_LOCAL_UNBIND_RESPONSE ++
  [("unbind_outcome", c.t UNBIND_OUTCOME_UNBOUND);
   ("binding_tombstone_sha256", c.b (binding_tombstone_sha256 x));
   ("completed_at_ms", c.u (completed_at_ms x))].

Definition encode (x : t) : bytes := Canonical.encode (c.m (put x)).

Definition wf (x : t) : bool :=
  UnboundBinding.wf (binding x) && (blen (binding_tombstone_sha256 x) =? 32).

#[global] Hint Unfold put wf : wire_unfold.

#[global] Instance wire : WireMap "LocalUnboundV2" parser put wf.
Proof. wire_map ltac:(fun x => destruct x as [[? ? ? ? ? ? ? ? ?] ? ?]). Qed.

Lemma LocalUnboundV2_exact :
  exact_map parse encode (record_ok put wf).
Proof. intros payload x. exact (wire_map_exact _ _ _ _ payload x). Qed.

End LocalUnboundV2.

Module LocalBindingTombstoneV2.

Record t := mk {
  binding : UnboundBinding.t;
  unbind_idempotency_key : bytes;
  completed_at_ms : Z }.

Definition parser : fields t :=
  _ ← exact_version DOMAIN_LOCAL_BINDING_TOMBSTONE;
  binding ← UnboundBinding.take;
  unbind_idempotency_key ← Fields.fixed 16 "unbind_idempotency_key";
  completed_at_ms ← Fields.uint "completed_at_ms";
  _ ← Fields.finish;
  mret (mk binding unbind_idempotency_key completed_at_ms).

Definition parse : bytes -> result RecordError t :=
  parse_map "LocalBindingTombstoneV2" parser.

Definition put (x : t) : list (string * Value) :=
  UnboundBinding.map (binding x) DOMAIN_LOCAL_BINDING_TOMBSTONE ++
  [("unbind_idempotency_key", c.b (unbind_idempotency_key x));
   ("completed_at_ms", c.u (completed_at_ms x))].

Definition encode (x : t) : bytes := Canonical.encode (c.m (put x)).

Definition wf (x : t) : bool :=
  UnboundBinding.wf (binding x) && (blen (unbind_idempotency_key x) =? 16).

#[global] Hint Unfold put wf : wire_unfold.

#[global] Instance wire : WireMap "LocalBindingTombstoneV2" parser put wf.
Proof. wire_map ltac:(fun x => destruct x as [[? ? ? ? ? ? ? ? ?] ? ?]). Qed.

Lemma LocalBindingTombstoneV2_exact :
  exact_map parse encode (record_ok put wf).
Proof. intros payload x. exact (wire_map_exact _ _ _ _ payload x). Qed.

Section hash.

Context (sha256 : bytes -> bytes).

Definition hash (x : t) : bytes := domain_hash sha256 L_LOCAL_BINDING_TOMBSTONE (encode x).

(** The response this tombstone completes. *)
Definition response (x : t) : LocalUnboundV2.t :=
  LocalUnboundV2.mk (binding x) (hash x) (completed_at_ms x).

End hash.

End LocalBindingTombstoneV2.

(** ** Renew *)

Module LeaseRenewV2.

Record t := mk {
  profile : ProfileRef.t;
  lease : LeaseRef.t;
  requested_lease_ttl_seconds : Z }.

Definition parser : fields t :=
  _ ← exact_version DOMAIN_LEASE_RENEW_REQUEST;
  profile ← ProfileRef.take;
  lease ← LeaseRef.take;
  requested_lease_ttl_seconds ← take_ttl;
  _ ← Fields.finish;
  mret (mk profile lease requested_lease_ttl_seconds).

Definition parse : bytes -> result RecordError t :=
  parse_map "LeaseRenewV2" parser.

Definition put (x : t) : list (string * Value) :=
  ProfileRef.head (profile x) DOMAIN_LEASE_RENEW_REQUEST ++
  LeaseRef.push (lease x) ++
  [("requested_lease_ttl_seconds", c.u (requested_lease_ttl_seconds x))].

Definition encode (x : t) : bytes := Canonical.encode (c.m (put x)).

Definition wf (x : t) : bool :=
  ProfileRef.wf (profile x) && LeaseRef.wf (lease x) && ttl_ok (requested_lease_ttl_seconds x).

#[global] Hint Unfold put wf : wire_unfold.

#[global] Instance wire : WireMap "LeaseRenewV2" parser put wf.
Proof. wire_map ltac:(fun x => destruct x as [[] [] ?]). Qed.

Lemma LeaseRenewV2_exact :
  exact_map parse encode (record_ok put wf).
Proof. intros payload x. exact (wire_map_exact _ _ _ _ payload x). Qed.

End LeaseRenewV2.

Module LeaseRenewedV2.

Record t := mk {
  profile : ProfileRef.t;
  lease : LeaseRef.t;
  expires_at_ms : Z }.

Definition parser : fields t :=
  _ ← exact_version DOMAIN_LEASE_RENEW_RESPONSE;
  profile ← ProfileRef.take;
  lease ← LeaseRef.take;
  expires_at_ms ← Fields.uint "expires_at_ms";
  _ ← Fields.finish;
  mret (mk profile lease expires_at_ms).

Definition parse : bytes -> result RecordError t :=
  parse_map "LeaseRenewedV2" parser.

Definition put (x : t) : list (string * Value) :=
  ProfileRef.head (profile x) DOMAIN_LEASE_RENEW_RESPONSE ++
  LeaseRef.push (lease x) ++
  [("expires_at_ms", c.u (expires_at_ms x))].

Definition encode (x : t) : bytes := Canonical.encode (c.m (put x)).

Definition wf (x : t) : bool :=
  ProfileRef.wf (profile x) && LeaseRef.wf (lease x).

#[global] Hint Unfold put wf : wire_unfold.

#[global] Instance wire : WireMap "LeaseRenewedV2" parser put wf.
Proof. wire_map ltac:(fun x => destruct x as [[] [] ?]). Qed.

Lemma LeaseRenewedV2_exact :
  exact_map parse encode (record_ok put wf).
Proof. intros payload x. exact (wire_map_exact _ _ _ _ payload x). Qed.

End LeaseRenewedV2.

(** ** The properties *)

(** Every lease map is exact: its parser accepts a payload exactly when the
    payload is the encoding of a record within the map's rules (bounds, fixed
    lengths, TTL of 30 to 900 seconds, a head hash present exactly when its
    version is not 0, a base of 0 after a publish), and returns that record. *)
Theorem lease_maps_exact :
  exact_map ProfilePublishCreateV2.parse ProfilePublishCreateV2.encode
    (record_ok ProfilePublishCreateV2.put ProfilePublishCreateV2.wf)
  /\ exact_map ProfileCheckoutV2.parse ProfileCheckoutV2.encode
    (record_ok ProfileCheckoutV2.put ProfileCheckoutV2.wf)
  /\ (forall origin, exact_map (ProfileLeaseV2.parse origin) (ProfileLeaseV2.encode origin)
    (record_ok (ProfileLeaseV2.put origin) (ProfileLeaseV2.wf origin)))
  /\ exact_map CreateUploadV2.parse CreateUploadV2.encode
    (record_ok CreateUploadV2.put CreateUploadV2.wf)
  /\ exact_map UploadCreatedV2.parse UploadCreatedV2.encode
    (record_ok UploadCreatedV2.put UploadCreatedV2.wf)
  /\ exact_map UploadFinalizedV2.parse UploadFinalizedV2.encode
    (record_ok UploadFinalizedV2.put UploadFinalizedV2.wf)
  /\ exact_map ReleaseLeaseV2.parse ReleaseLeaseV2.encode
    (record_ok ReleaseLeaseV2.put ReleaseLeaseV2.wf)
  /\ exact_map LeaseReleasedV2.parse LeaseReleasedV2.encode
    (record_ok LeaseReleasedV2.put LeaseReleasedV2.wf)
  /\ exact_map LocalUnbindV2.parse LocalUnbindV2.encode
    (record_ok LocalUnbindV2.put LocalUnbindV2.wf)
  /\ exact_map LocalUnboundV2.parse LocalUnboundV2.encode
    (record_ok LocalUnboundV2.put LocalUnboundV2.wf)
  /\ exact_map LocalBindingTombstoneV2.parse LocalBindingTombstoneV2.encode
    (record_ok LocalBindingTombstoneV2.put LocalBindingTombstoneV2.wf)
  /\ exact_map LeaseRenewV2.parse LeaseRenewV2.encode
    (record_ok LeaseRenewV2.put LeaseRenewV2.wf)
  /\ exact_map LeaseRenewedV2.parse LeaseRenewedV2.encode
    (record_ok LeaseRenewedV2.put LeaseRenewedV2.wf).
Proof.
  split_and!; [..|]; first
    [ intros payload x; exact (wire_map_exact _ _ _ _ payload x)
    | intros origin payload x; exact (wire_map_exact _ _ _ _ payload x) ].
Qed.

Lemma tombstone_size x :
  record_ok LocalBindingTombstoneV2.put LocalBindingTombstoneV2.wf x = true ->
  blen (LocalBindingTombstoneV2.encode x) <= 4096.
Proof.
  intros [_ H]%andb_true_iff. etrans; [apply encode_size|].
  destruct x as [[? ? ? ? ? ? ? ? [h|]] ? ?]; autounfold with wire_unfold in *;
    cbn -[Z.leb Z.eqb Z.ltb xorb as_bytes] in H; wire_facts; cbn -[Z.add blen as_bytes];
    repeat match goal with |- context [blen (as_bytes ?s)] =>
      lazymatch s with
      | String _ _ => let n := eval vm_compute in (blen (as_bytes s)) in
                      change (blen (as_bytes s)) with n
      | DOMAIN_LOCAL_BINDING_TOMBSTONE =>
          let n := eval vm_compute in (blen (as_bytes s)) in change (blen (as_bytes s)) with n
      end end; lia.
Qed.

(** The unbind response is a receipt: the response of a well-formed tombstone
    is itself well formed, and two tombstones with one response are equal (the
    idempotency key included), or SHA-256 maps their two different preimages to
    one value. *)
Theorem tombstone_response_binds sha256 x y :
  (forall b, length (sha256 b) = 32%nat) ->
  record_ok LocalBindingTombstoneV2.put LocalBindingTombstoneV2.wf x = true ->
  record_ok LocalBindingTombstoneV2.put LocalBindingTombstoneV2.wf y = true ->
  record_ok LocalUnboundV2.put LocalUnboundV2.wf
    (LocalBindingTombstoneV2.response sha256 x) = true
  /\ (LocalBindingTombstoneV2.response sha256 x = LocalBindingTombstoneV2.response sha256 y ->
      let pre t := domain_preimage L_LOCAL_BINDING_TOMBSTONE (LocalBindingTombstoneV2.encode t) in
      x = y \/ (pre x <> pre y /\ sha256 (pre x) = sha256 (pre y))).
Proof.
  intros Hsha Hx Hy. split.
  - apply andb_true_iff in Hx as [Hv Hw]. unfold record_ok.
    assert (blen (LocalBindingTombstoneV2.hash sha256 x) = 32) as Hh
      by (unfold blen, LocalBindingTombstoneV2.hash, domain_hash; by rewrite Hsha).
    unfold LocalBindingTombstoneV2.response.
    set (h := LocalBindingTombstoneV2.hash sha256 x) in *. clearbody h.
    destruct x as [b k t]. apply andb_true_intro. split.
    + unfold values_ok, LocalUnboundV2.put, LocalBindingTombstoneV2.put in *.
      rewrite !List.forallb_app, !andb_true_iff in *. destruct Hv as [Hb Ht].
      cbn [List.forallb snd] in *. rewrite !andb_true_iff in *. destruct Ht as (_ & Ht & _).
      split_and!; try done; try reflexivity.
      unfold c.b. cbn [encodable LocalUnboundV2.binding_tombstone_sha256].
      unfold wire_len, U64_MAX. lia.
    + apply andb_true_iff in Hw as [Hw _]. apply andb_true_intro.
      split; [exact Hw|by apply Z.eqb_eq].
  - intros Hr pre. pose proof (f_equal LocalUnboundV2.binding_tombstone_sha256 Hr) as Hh.
    destruct (decide (pre x = pre y)) as [He|Hne]; [left|by right].
    unfold pre, domain_preimage in He. apply app_inv_head in He.
    apply app_inj_1 in He as [_ He]; [|by rewrite !length_be_bytes].
    pose proof (tombstone_size x Hx) as Hs.
    assert (Ok x = (Ok y : result RecordError _)) as [= ->]; [|done].
    transitivity (LocalBindingTombstoneV2.parse (LocalBindingTombstoneV2.encode x));
      [symmetry|rewrite He in *];
      (apply LocalBindingTombstoneV2.LocalBindingTombstoneV2_exact;
        [unfold USIZE_MAX, U64_MAX; lia|done]).
Qed.

Definition sample_tombstone : LocalBindingTombstoneV2.t :=
  LocalBindingTombstoneV2.mk
    (UnboundBinding.mk "https://sync" (be_bytes 16 1) 3 (be_bytes 16 2) (be_bytes 16 4)
       (be_bytes 16 5) "profile-a" 7 (Some (be_bytes 32 6)))
    (be_bytes 16 8) 1000.

Lemma tombstone_response_binds_witness :
  record_ok LocalUnboundV2.put LocalUnboundV2.wf
    (LocalBindingTombstoneV2.response (fun b => be_bytes 32 (blen b)) sample_tombstone) = true.
Proof.
  assert (record_ok LocalBindingTombstoneV2.put LocalBindingTombstoneV2.wf sample_tombstone
          = true) as Hok by (vm_compute; reflexivity).
  exact (proj1 (tombstone_response_binds (fun b => be_bytes 32 (blen b)) sample_tombstone
    sample_tombstone (fun b => length_be_bytes 32 (blen b)) Hok Hok)).
Defined.
