(* ===== verification/FleetLifecycle.v ===== *)
(** * Fleet key-generation lifecycle maps (shared/src/fleet_lifecycle.rs)

    The request and stored-response maps of generation create and activate,
    grant create, acknowledgement and revocation. Components shared by the
    maps ([FleetGenerationRef], [FleetGenerationTerms], [FleetGrantRef],
    [FleetGrantRevocation]) have a [take] and a [put] of their own, as in the
    source; the rules a map decides alone (generation arithmetic, fields
    present exactly in their mode or variant, recomputed hashes) are in [wf]. *)

From S2P Require Import Prelude Bytes Canonical CanonicalFacts CanonicalDecode CanonicalTheorems.
From S2P Require Import RecordFields WireMap.

Definition DOMAIN_FLEET_GENERATION_CREATE := "shardx.keys.fleet-key-generation-create.v2".
Definition DOMAIN_FLEET_GENERATION_CREATED := "shardx.keys.fleet-key-generation-created.v2".
Definition DOMAIN_FLEET_GRANT_CREATE := "shardx.keys.fleet-key-grant-create.v2".
Definition DOMAIN_FLEET_GRANT_CREATED := "shardx.keys.fleet-key-grant-created.v2".
Definition DOMAIN_FLEET_GRANT_ACK := "shardx.keys.fleet-key-grant-ack.v2".
Definition DOMAIN_FLEET_GRANT_ACKED := "shardx.keys.fleet-key-grant-acked.v2".
Definition DOMAIN_FLEET_GENERATION_ACTIVATE := "shardx.keys.fleet-key-generation-activate.v2".
Definition DOMAIN_FLEET_GENERATION_ACTIVATED := "shardx.keys.fleet-key-generation-activated.v2".
Definition DOMAIN_FLEET_GRANT_REVOKE := "shardx.keys.fleet-key-grant-revoke.v2".
Definition DOMAIN_FLEET_GRANT_REVOKED := "shardx.keys.fleet-key-grant-revoked.v2".
Definition GRANT_STATE_PENDING_ACK := "PENDING_ACK".

(** shared/src/mutation.rs. *)
Definition ACK_OUTCOME_ACKNOWLEDGED := "acknowledged".
Definition GENERATION_STATE_PREPARING := "PREPARING".
Definition GENERATION_STATE_ACTIVE := "ACTIVE".
Definition GENERATION_STATE_RETIRED := "RETIRED".
Definition MAX_EMBEDDED_GRANT_BYTES : Z := 131072.

Definition opening (domain : string) : list (string * Value) :=
  [("domain", c.t domain); ("version", c.u VERSION)].

#[export] Hint Unfold c.t c.u c.b opening MAX_EMBEDDED_GRANT_BYTES : wire_unfold.

(** ** Components *)

Module FleetGenerationRef.

Record t := mk {
  tenant_id : bytes;
  server_instance_id : bytes;
  restore_epoch : Z;
  fleet_id : bytes;
  generation : Z;
  fkek_key_id : bytes }.

Definition take : fields t :=
  tenant_id ← Fields.fixed 16 "tenant_id";
  server_instance_id ← Fields.fixed 16 "server_instance_id";
  restore_epoch ← Fields.uint "restore_epoch";
  fleet_id ← Fields.fixed 16 "fleet_id";
  generation ← Fields.uint "generation";
  fkek_key_id ← Fields.fixed 32 "fkek_key_id";
  mret (mk tenant_id server_instance_id restore_epoch fleet_id generation fkek_key_id).

Definition put (x : t) : list (string * Value) :=
  [("tenant_id", c.b (tenant_id x)); ("server_instance_id", c.b (server_instance_id x));
   ("restore_epoch", c.u (restore_epoch x)); ("fleet_id", c.b (fleet_id x));
   ("generation", c.u (generation x)); ("fkek_key_id", c.b (fkek_key_id x))].

Definition wf (x : t) : bool :=
  (blen (tenant_id x) =? 16) && (blen (server_instance_id x) =? 16) && (blen (fleet_id x) =? 16)
  && (blen (fkek_key_id x) =? 32).

#[global] Hint Unfold take put wf : wire_unfold.

End FleetGenerationRef.

Module FleetGrantVariant.

Inductive t := DeviceHpke | Recovery | Rotation.

#[global] Instance eq_dec : EqDecision t.
Proof. solve_decision. Defined.

Definition ALL : list t := [DeviceHpke; Recovery; Rotation].

Definition as_str (x : t) : string :=
  match x with
  | DeviceHpke => "DeviceHpkeGrant"
  | Recovery => "RecoveryGrant"
  | Rotation => "RotationGrant"
  end.

Definition take : fields t :=
  s ← Fields.text "grant_variant";
  lift (ok_or (find_str as_str ALL s) (BadValue "grant_variant")).

#[global] Hint Unfold take : wire_unfold.

End FleetGrantVariant.

(** The generation a rotation follows and the grant that moves to it. *)
Module FleetRotation.

Record t := mk {
  previous_generation : Z;
  previous_fkek_key_id : bytes;
  rotation_grant_signed_container_hash : bytes }.

End FleetRotation.

Module FleetGenerationTerms.

Record t := mk {
  generation : FleetGenerationRef.t;
  required_device_grant_count : Z;
  required_device_grant_set_hash : bytes;
  recovery_grant_signed_container_hash : bytes;
  rotation : option FleetRotation.t }.

(** The four-way match of [take] on the generation number and the three
    optional fields. *)
Definition rotation_of (generation : FleetGenerationRef.t) (previous_generation : option Z)
    (previous_fkek_key_id rotation_hash : option bytes) : fields (option FleetRotation.t) :=
  let n := FleetGenerationRef.generation generation in
  match previous_generation, previous_fkek_key_id, rotation_hash with
  | None, None, None =>
      if n =? 0 then mret None else throw (BadValue "previous_generation")
  | Some previous_generation, Some previous_fkek_key_id, Some hash =>
      if 0 <? n then
        _ ← fail_if (negb (bool_decide (checked_add previous_generation 1 = Some n)))
              (BadValue "generation");
        _ ← fail_if (bool_decide (previous_fkek_key_id
                                  = FleetGenerationRef.fkek_key_id generation))
              (BadValue "previous_fkek_key_id");
        mret (Some (FleetRotation.mk previous_generation previous_fkek_key_id hash))
      else throw (BadValue "previous_generation")
  | _, _, _ => throw (BadValue "previous_generation")
  end.

(** Generation 0 is the bootstrap; every later one rotates from the one before
    it under another key. *)
Definition rotation_wf (g : FleetGenerationRef.t) (r : option FleetRotation.t) : bool :=
  match r with
  | None => FleetGenerationRef.generation g =? 0
  | Some r =>
      (0 <? FleetGenerationRef.generation g)
      && bool_decide (checked_add (FleetRotation.previous_generation r) 1
                      = Some (FleetGenerationRef.generation g))
      && negb (bool_decide (FleetRotation.previous_fkek_key_id r
                            = FleetGenerationRef.fkek_key_id g))
      && (blen (FleetRotation.previous_fkek_key_id r) =? 32)
      && (blen (FleetRotation.rotation_grant_signed_container_hash r) =? 32)
  end.

#[global] Hint Unfold rotation_of rotation_wf : wire_unfold.

Definition take : fields t :=
  generation ← FleetGenerationRef.take;
  required_device_grant_count ← u32_in "required_device_grant_count" 1 65535;
  required_device_grant_set_hash ← Fields.fixed 32 "required_device_grant_set_hash";
  recovery_grant_signed_container_hash ← Fields.fixed 32 "recovery_grant_signed_container_hash";
  previous_generation ← Fields.opt_uint "previous_generation";
  previous_fkek_key_id ← Fields.opt_fixed 32 "previous_fkek_key_id";
  rotation_hash ← Fields.opt_fixed 32 "rotation_grant_signed_container_hash";
  rotation ← rotation_of generation previous_generation previous_fkek_key_id rotation_hash;
  mret (mk generation required_device_grant_count required_device_grant_set_hash
  recovery_grant_signed_container_hash rotation).

Definition put (x : t) : list (string * Value) :=
  FleetGenerationRef.put (generation x) ++
  [("required_device_grant_count", c.u (required_device_grant_count x));
   ("required_device_grant_set_hash", c.b (required_device_grant_set_hash x));
   ("recovery_grant_signed_container_hash", c.b (recovery_grant_signed_container_hash x))] ++
  match rotation x with
  | None => []
  | Some r =>
      [("previous_generation", c.u (FleetRotation.previous_generation r));
       ("previous_fkek_key_id", c.b (FleetRotation.previous_fkek_key_id r));
       ("rotation_grant_signed_container_hash",
        c.b (FleetRotation.rotation_grant_signed_container_hash r))]
  end.

Definition wf (x : t) : bool :=
  FleetGenerationRef.wf (generation x)
  && (1 <=? required_device_grant_count x) && (required_device_grant_count x <=? 65535)
  && (blen (required_device_grant_set_hash x) =? 32)
  && (blen (recovery_grant_signed_container_hash x) =? 32)
  && rotation_wf (generation x) (rotation x).

#[global] Hint Unfold take put wf : wire_unfold.

Definition mode (x : t) : string :=
  if is_some (rotation x) then "rotation" else "bootstrap".

Definition take_mode (x : t) : fields unit := Fields.exact_text "mode" (mode x).

#[global] Hint Unfold mode take_mode : wire_unfold.

End FleetGenerationTerms.

(** ** Generation create and activate *)

Module FleetKeyGenerationCreateV2.

Record t := mk {
  terms : FleetGenerationTerms.t;
  root_generation : Z }.

Definition parser : fields t :=
  _ ← exact_version DOMAIN_FLEET_GENERATION_CREATE;
  terms ← FleetGenerationTerms.take;
  _ ← FleetGenerationTerms.take_mode terms;
  root_generation ← Fields.uint "root_generation";
  _ ← Fields.finish;
  mret (mk terms root_generation).

Definition parse : bytes -> result RecordError t :=
  parse_map "FleetKeyGenerationCreateV2" parser.

Definition put (x : t) : list (string * Value) :=
  opening DOMAIN_FLEET_GENERATION_CREATE ++
  FleetGenerationTerms.put (terms x) ++
  [("mode", c.t (FleetGenerationTerms.mode (terms x)));
   ("root_generation", c.u (root_generation x))].

Definition encode (x : t) : bytes := Canonical.encode (c.m (put x)).

Definition wf (x : t) : bool :=
  FleetGenerationTerms.wf (terms x).

#[global] Hint Unfold put wf : wire_unfold.

#[global] Instance wire : WireMap "FleetKeyGenerationCreateV2" parser put wf.
Proof. wire_map ltac:(fun x => destruct x as [[[] ? ? ? [[]|]] ?]). Qed.

Lemma FleetKeyGenerationCreateV2_exact :
  exact_map parse encode (record_ok put wf).
Proof. intros payload x. exact (wire_map_exact _ _ _ _ payload x). Qed.

End FleetKeyGenerationCreateV2.

Module FleetKeyGenerationCreatedV2.

Record t := mk {
  create : FleetKeyGenerationCreateV2.t;
  created_at_ms : Z }.

Definition parser : fields t :=
  _ ← exact_version DOMAIN_FLEET_GENERATION_CREATED;
  terms ← FleetGenerationTerms.take;
  _ ← FleetGenerationTerms.take_mode terms;
  root_generation ← Fields.uint "root_generation";
  _ ← Fields.exact_text "generation_state" GENERATION_STATE_PREPARING;
  created_at_ms ← Fields.uint "created_at_ms";
  _ ← Fields.finish;
  mret (mk (FleetKeyGenerationCreateV2.mk terms root_generation) created_at_ms).

Definition parse : bytes -> result RecordError t :=
  parse_map "FleetKeyGenerationCreatedV2" parser.

Definition put (x : t) : list (string * Value) :=
  opening DOMAIN_FLEET_GENERATION_CREATED ++
  FleetGenerationTerms.put (FleetKeyGenerationCreateV2.terms (create x)) ++
  [("mode", c.t (FleetGenerationTerms.mode (FleetKeyGenerationCreateV2.terms (create x))));
   ("root_generation", c.u (FleetKeyGenerationCreateV2.root_generation (create x)));
   ("generation_state", c.t GENERATION_STATE_PREPARING);
   ("created_at_ms", c.u (created_at_ms x))].

Definition encode (x : t) : bytes := Canonical.encode (c.m (put x)).

Definition wf (x : t) : bool :=
  FleetKeyGenerationCreateV2.wf (create x).

#[global] Hint Unfold put wf : wire_unfold.

#[global] Instance wire : WireMap "FleetKeyGenerationCreatedV2" parser put wf.
Proof. wire_map ltac:(fun x => destruct x as [[[[] ? ? ? [[]|]] ?] ?]). Qed.

Lemma FleetKeyGenerationCreatedV2_exact :
  exact_map parse encode (record_ok put wf).
Proof. intros payload x. exact (wire_map_exact _ _ _ _ payload x). Qed.

End FleetKeyGenerationCreatedV2.

Module FleetKeyGenerationActivateV2.

Record t := mk {
  terms : FleetGenerationTerms.t }.

Definition parser : fields t :=
  _ ← exact_version DOMAIN_FLEET_GENERATION_ACTIVATE;
  terms ← FleetGenerationTerms.take;
  _ ← Fields.finish;
  mret (mk terms).

Definition parse : bytes -> result RecordError t :=
  parse_map "FleetKeyGenerationActivateV2" parser.

Definition put (x : t) : list (string * Value) :=
  opening DOMAIN_FLEET_GENERATION_ACTIVATE ++
  FleetGenerationTerms.put (terms x).

Definition encode (x : t) : bytes := Canonical.encode (c.m (put x)).

Definition wf (x : t) : bool :=
  FleetGenerationTerms.wf (terms x).

#[global] Hint Unfold put wf : wire_unfold.

#[global] Instance wire : WireMap "FleetKeyGenerationActivateV2" parser put wf.
Proof. wire_map ltac:(fun x => destruct x as [[[] ? ? ? [[]|]]]). Qed.

Lemma FleetKeyGenerationActivateV2_exact :
  exact_map parse encode (record_ok put wf).
Proof. intros payload x. exact (wire_map_exact _ _ _ _ payload x). Qed.

End FleetKeyGenerationActivateV2.

Module FleetKeyGenerationActivatedV2.

Record t := mk {
  terms : FleetGenerationTerms.t;
  activated_at_ms : Z }.

Definition parser : fields t :=
  _ ← exact_version DOMAIN_FLEET_GENERATION_ACTIVATED;
  terms ← FleetGenerationTerms.take;
  _ ← Fields.exact_text "target_state" GENERATION_STATE_ACTIVE;
  previous_state ← Fields.take "previous_state";
  activated_at_ms ← Fields.uint "activated_at_ms";
  _ ← Fields.finish;
  let retired := Some (Text GENERATION_STATE_RETIRED) in
  _ ← fail_if (negb (bool_decide
        (previous_state = option_and (FleetGenerationTerms.rotation terms) retired)))
        (BadValue "previous_state");
  mret (mk terms activated_at_ms).

Definition parse : bytes -> result RecordError t :=
  parse_map "FleetKeyGenerationActivatedV2" parser.

Definition put (x : t) : list (string * Value) :=
  opening DOMAIN_FLEET_GENERATION_ACTIVATED ++
  FleetGenerationTerms.put (terms x) ++
  [("target_state", c.t GENERATION_STATE_ACTIVE)] ++
  (if is_some (FleetGenerationTerms.rotation (terms x))
   then [("previous_state", c.t GENERATION_STATE_RETIRED)] else []) ++
  [("activated_at_ms", c.u (activated_at_ms x))].

Definition encode (x : t) : bytes := Canonical.encode (c.m (put x)).

Definition wf (x : t) : bool :=
  FleetGenerationTerms.wf (terms x).

#[global] Hint Unfold put wf : wire_unfold.

#[global] Instance wire : WireMap "FleetKeyGenerationActivatedV2" parser put wf.
Proof. wire_map ltac:(fun x => destruct x as [[[] ? ? ? [[]|]] ?]). Qed.

Lemma FleetKeyGenerationActivatedV2_exact :
  exact_map parse encode (record_ok put wf).
Proof. intros payload x. exact (wire_map_exact _ _ _ _ payload x). Qed.

End FleetKeyGenerationActivatedV2.

(** ** Grant create and acknowledge *)

Module FleetGrantRef.

Record t := mk {
  generation : FleetGenerationRef.t;
  grant_variant : FleetGrantVariant.t;
  replay_id : bytes;
  signed_container_hash : bytes;
  exact_signed_grant_container_bytes_sha256 : bytes }.

Definition take : fields t :=
  generation ← FleetGenerationRef.take;
  grant_variant ← FleetGrantVariant.take;
  replay_id ← Fields.fixed 16 "replay_id";
  signed_container_hash ← Fields.fixed 32 "signed_container_hash";
  exact_signed_grant_container_bytes_sha256 ← Fields.fixed 32 "exact_signed_grant_container_bytes_sha256";
  mret (mk generation grant_variant replay_id signed_container_hash
  exact_signed_grant_container_bytes_sha256).

Definition put (x : t) : list (string * Value) :=
  FleetGenerationRef.put (generation x) ++
  [("grant_variant", c.t (FleetGrantVariant.as_str (grant_variant x)));
   ("replay_id", c.b (replay_id x)); ("signed_container_hash", c.b (signed_container_hash x));
   ("exact_signed_grant_container_bytes_sha256", c.b (exact_signed_grant_container_bytes_sha256 x))].

Definition wf (x : t) : bool :=
  FleetGenerationRef.wf (generation x) && (blen (replay_id x) =? 16)
  && (blen (signed_container_hash x) =? 32)
  && (blen (exact_signed_grant_container_bytes_sha256 x) =? 32).

#[global] Hint Unfold take put wf : wire_unfold.

End FleetGrantRef.

Module FleetKeyGrantCreateV2.

Record t := mk {
  grant : FleetGrantRef.t;
  exact_signed_grant_container_bytes : bytes }.

Definition parser (sha256 : bytes -> bytes) : fields t :=
  _ ← exact_version DOMAIN_FLEET_GRANT_CREATE;
  grant ← FleetGrantRef.take;
  exact_signed_grant_container_bytes ← Fields.bytes "exact_signed_grant_container_bytes" 1 MAX_EMBEDDED_GRANT_BYTES;
  _ ← Fields.finish;
  _ ← fail_if (negb (bool_decide (FleetGrantRef.exact_signed_grant_container_bytes_sha256 grant
        = sha256 exact_signed_grant_container_bytes))) (BadValue "exact_signed_grant_container_bytes_sha256");
  mret (mk grant exact_signed_grant_container_bytes).

Definition parse (sha256 : bytes -> bytes) : bytes -> result RecordError t :=
  parse_map "FleetKeyGrantCreateV2" (parser sha256).

Definition put (x : t) : list (string * Value) :=
  opening DOMAIN_FLEET_GRANT_CREATE ++
  FleetGrantRef.put (grant x) ++
  [("exact_signed_grant_container_bytes", c.b (exact_signed_grant_container_bytes x))].

Definition encode (x : t) : bytes := Canonical.encode (c.m (put x)).

Definition wf (sha256 : bytes -> bytes) (x : t) : bool :=
  FleetGrantRef.wf (grant x)
  && (1 <=? blen (exact_signed_grant_container_bytes x)) && (blen (exact_signed_grant_container_bytes x) <=? MAX_EMBEDDED_GRANT_BYTES)
  && bool_decide (FleetGrantRef.exact_signed_grant_container_bytes_sha256 (grant x)
      = sha256 (exact_signed_grant_container_bytes x)).

#[global] Hint Unfold put wf : wire_unfold.

#[global] Instance wire (sha256 : bytes -> bytes) : WireMap "FleetKeyGrantCreateV2" (parser sha256) put (wf sha256).
Proof. wire_map ltac:(fun x => destruct x as [[[] [] ? ? ?] ?]). Qed.

Lemma FleetKeyGrantCreateV2_exact (sha256 : bytes -> bytes) :
  exact_map (parse sha256) encode (record_ok put (wf sha256)).
Proof. intros payload x. exact (wire_map_exact _ _ _ _ payload x). Qed.

(** Builds the payload, taking the bytes hash from the bytes. *)
Definition new (sha256 : bytes -> bytes) (generation : FleetGenerationRef.t)
    (grant_variant : FleetGrantVariant.t) (replay_id signed_container_hash
     exact_signed_grant_container_bytes : bytes) : t :=
  mk (FleetGrantRef.mk generation grant_variant replay_id signed_container_hash
        (sha256 exact_signed_grant_container_bytes))
     exact_signed_grant_container_bytes.

End FleetKeyGrantCreateV2.

Module FleetGrantTarget.

Inductive t :=
| Device (subject_device_id : bytes)
| Root (recipient_root_generation : Z)
| Rotation.

Definition put (x : t) : list (string * Value) :=
  match x with
  | Device subject_device_id => [("subject_device_id", c.b subject_device_id)]
  | Root recipient_root_generation =>
      [("recipient_root_generation", c.u recipient_root_generation)]
  | Rotation => []
  end.

(** The target of each variant. *)
Definition wf (v : FleetGrantVariant.t) (x : t) : bool :=
  match v, x with
  | FleetGrantVariant.DeviceHpke, Device d => blen d =? 16
  | FleetGrantVariant.Recovery, Root _ => true
  | FleetGrantVariant.Rotation, Rotation => true
  | _, _ => false
  end.

(** The match of [FleetKeyGrantCreatedV2::parse], its arms in order. *)
Definition of_fields (v : FleetGrantVariant.t) (subject : option bytes) (root : option Z)
    : fields t :=
  match v, subject, root with
  | FleetGrantVariant.DeviceHpke, Some subject_device_id, None =>
      mret (Device subject_device_id)
  | FleetGrantVariant.Recovery, None, Some recipient_root_generation =>
      mret (Root recipient_root_generation)
  | FleetGrantVariant.Rotation, None, None => mret Rotation
  | FleetGrantVariant.DeviceHpke, _, _ | _, Some _, _ => throw (BadValue "subject_device_id")
  | _, _, _ => throw (BadValue "recipient_root_generation")
  end.

#[global] Hint Unfold put wf of_fields : wire_unfold.

End FleetGrantTarget.

Module FleetKeyGrantCreatedV2.

Record t := mk {
  grant : FleetGrantRef.t;
  target : FleetGrantTarget.t;
  created_at_ms : Z }.

Definition parser : fields t :=
  _ ← exact_version DOMAIN_FLEET_GRANT_CREATED;
  grant ← FleetGrantRef.take;
  subject ← Fields.opt_fixed 16 "subject_device_id";
  root ← Fields.opt_uint "recipient_root_generation";
  _ ← Fields.exact_text "grant_state" GRANT_STATE_PENDING_ACK;
  created_at_ms ← Fields.uint "created_at_ms";
  _ ← Fields.finish;
  target ← FleetGrantTarget.of_fields (FleetGrantRef.grant_variant grant) subject root;
  mret (mk grant target created_at_ms).

Definition parse : bytes -> result RecordError t :=
  parse_map "FleetKeyGrantCreatedV2" parser.

Definition put (x : t) : list (string * Value) :=
  opening DOMAIN_FLEET_GRANT_CREATED ++
  FleetGrantRef.put (grant x) ++
  FleetGrantTarget.put (target x) ++
  [("grant_state", c.t GRANT_STATE_PENDING_ACK); ("created_at_ms", c.u (created_at_ms x))].

Definition encode (x : t) : bytes := Canonical.encode (c.m (put x)).

Definition wf (x : t) : bool :=
  FleetGrantRef.wf (grant x)
  && FleetGrantTarget.wf (FleetGrantRef.grant_variant (grant x)) (target x).

#[global] Hint Unfold put wf : wire_unfold.

#[global] Instance wire : WireMap "FleetKeyGrantCreatedV2" parser put wf.
Proof. wire_map ltac:(fun x => destruct x as [[[] [] ? ? ?] [] ?]). Qed.

Lemma FleetKeyGrantCreatedV2_exact :
  exact_map parse encode (record_ok put wf).
Proof. intros payload x. exact (wire_map_exact _ _ _ _ payload x). Qed.

End FleetKeyGrantCreatedV2.

Module FleetKeyGrantAckV2.

Record t := mk {
  grant : FleetGrantRef.t }.

Definition parser : fields t :=
  _ ← exact_version DOMAIN_FLEET_GRANT_ACK;
  grant ← FleetGrantRef.take;
  unwrapped ← Fields.fixed 32 "locally_unwrapped_fkek_key_id";
  _ ← Fields.finish;
  _ ← fail_if (negb (bool_decide (unwrapped
        = FleetGenerationRef.fkek_key_id (FleetGrantRef.generation grant)))) (BadValue "locally_unwrapped_fkek_key_id");
  mret (mk grant).

Definition parse : bytes -> result RecordError t :=
  parse_map "FleetKeyGrantAckV2" parser.

Definition put (x : t) : list (string * Value) :=
  opening DOMAIN_FLEET_GRANT_ACK ++
  FleetGrantRef.put (grant x) ++
  [("locally_unwrapped_fkek_key_id",
    c.b (FleetGenerationRef.fkek_key_id (FleetGrantRef.generation (grant x))))].

Definition encode (x : t) : bytes := Canonical.encode (c.m (put x)).

Definition wf (x : t) : bool :=
  FleetGrantRef.wf (grant x).

#[global] Hint Unfold put wf : wire_unfold.

#[global] Instance wire : WireMap "FleetKeyGrantAckV2" parser put wf.
Proof. wire_map ltac:(fun x => destruct x as [[[] [] ? ? ?]]). Qed.

Lemma FleetKeyGrantAckV2_exact :
  exact_map parse encode (record_ok put wf).
Proof. intros payload x. exact (wire_map_exact _ _ _ _ payload x). Qed.

End FleetKeyGrantAckV2.

Module FleetKeyGrantAckedV2.

Record t := mk {
  grant : FleetGrantRef.t;
  acked_at_ms : Z }.

Definition parser : fields t :=
  _ ← exact_version DOMAIN_FLEET_GRANT_ACKED;
  grant ← FleetGrantRef.take;
  _ ← Fields.exact_text "ack_outcome" ACK_OUTCOME_ACKNOWLEDGED;
  acked_at_ms ← Fields.uint "acked_at_ms";
  _ ← Fields.finish;
  mret (mk grant acked_at_ms).

Definition parse : bytes -> result RecordError t :=
  parse_map "FleetKeyGrantAckedV2" parser.

Definition put (x : t) : list (string * Value) :=
  opening DOMAIN_FLEET_GRANT_ACKED ++
  FleetGrantRef.put (grant x) ++
  [("ack_outcome", c.t ACK_OUTCOME_ACKNOWLEDGED); ("acked_at_ms", c.u (acked_at_ms x))].

Definition encode (x : t) : bytes := Canonical.encode (c.m (put x)).

Definition wf (x : t) : bool :=
  FleetGrantRef.wf (grant x).

#[global] Hint Unfold put wf : wire_unfold.

#[global] Instance wire : WireMap "FleetKeyGrantAckedV2" parser put wf.
Proof. wire_map ltac:(fun x => destruct x as [[[] [] ? ? ?] ?]). Qed.

Lemma FleetKeyGrantAckedV2_exact :
  exact_map parse encode (record_ok put wf).
Proof. intros payload x. exact (wire_map_exact _ _ _ _ payload x). Qed.

End FleetKeyGrantAckedV2.

(** ** Revocation *)

Module FleetGrantRevokeReason.

Inductive t := MemberRemoved | DeviceRevoked | Superseded | Compromised.

#[global] Instance eq_dec : EqDecision t.
Proof. solve_decision. Defined.

Definition ALL : list t := [MemberRemoved; DeviceRevoked; Superseded; Compromised].

Definition as_str (x : t) : string :=
  match x with
  | MemberRemoved => "member_removed"
  | DeviceRevoked => "device_revoked"
  | Superseded => "superseded"
  | Compromised => "compromised"
  end.

End FleetGrantRevokeReason.

Module FleetGrantRevocation.

Record t := mk {
  generation : FleetGenerationRef.t;
  grant_variant : FleetGrantVariant.t;
  replay_id : bytes;
  signed_container_hash : bytes;
  reason_code : FleetGrantRevokeReason.t }.

Definition take : fields t :=
  generation ← FleetGenerationRef.take;
  grant_variant ← FleetGrantVariant.take;
  replay_id ← Fields.fixed 16 "replay_id";
  signed_container_hash ← Fields.fixed 32 "signed_container_hash";
  reason ← Fields.text "reason_code";
  reason_code ← lift (ok_or (find_str FleetGrantRevokeReason.as_str FleetGrantRevokeReason.ALL reason)
                        (BadValue "reason_code"));
  mret (mk generation grant_variant replay_id signed_container_hash reason_code).

Definition put (x : t) : list (string * Value) :=
  FleetGenerationRef.put (generation x) ++
  [("grant_variant", c.t (FleetGrantVariant.as_str (grant_variant x)));
   ("replay_id", c.b (replay_id x)); ("signed_container_hash", c.b (signed_container_hash x));
   ("reason_code", c.t (FleetGrantRevokeReason.as_str (reason_code x)))].

Definition wf (x : t) : bool :=
  FleetGenerationRef.wf (generation x) && (blen (replay_id x) =? 16)
  && (blen (signed_container_hash x) =? 32).

#[global] Hint Unfold take put wf : wire_unfold.

End FleetGrantRevocation.

Module FleetGrantRevokeV2.

Record t := mk {
  revocation : FleetGrantRevocation.t }.

Definition parser : fields t :=
  _ ← exact_version DOMAIN_FLEET_GRANT_REVOKE;
  revocation ← FleetGrantRevocation.take;
  _ ← Fields.finish;
  mret (mk revocation).

Definition parse : bytes -> result RecordError t :=
  parse_map "FleetGrantRevokeV2" parser.

Definition put (x : t) : list (string * Value) :=
  opening DOMAIN_FLEET_GRANT_REVOKE ++
  FleetGrantRevocation.put (revocation x).

Definition encode (x : t) : bytes := Canonical.encode (c.m (put x)).

Definition wf (x : t) : bool :=
  FleetGrantRevocation.wf (revocation x).

#[global] Hint Unfold put wf : wire_unfold.

#[global] Instance wire : WireMap "FleetGrantRevokeV2" parser put wf.
Proof. wire_map ltac:(fun x => destruct x as [[[] [] ? ? []]]). Qed.

Lemma FleetGrantRevokeV2_exact :
  exact_map parse encode (record_ok put wf).
Proof. intros payload x. exact (wire_map_exact _ _ _ _ payload x). Qed.

End FleetGrantRevokeV2.

Module FleetGrantRevokedV2.

Record t := mk {
  revocation : FleetGrantRevocation.t;
  revoked_at_ms : Z;
  invalidation_count : Z }.

Definition parser : fields t :=
  _ ← exact_version DOMAIN_FLEET_GRANT_REVOKED;
  revocation ← FleetGrantRevocation.take;
  revoked_at_ms ← Fields.uint "revoked_at_ms";
  invalidation_count ← u32_in "invalidation_count" 0 U32_MAX;
  _ ← Fields.finish;
  mret (mk revocation revoked_at_ms invalidation_count).

Definition parse : bytes -> result RecordError t :=
  parse_map "FleetGrantRevokedV2" parser.

Definition put (x : t) : list (string * Value) :=
  opening DOMAIN_FLEET_GRANT_REVOKED ++
  FleetGrantRevocation.put (revocation x) ++
  [("revoked_at_ms", c.u (revoked_at_ms x)); ("invalidation_count", c.u (invalidation_count x))].

Definition encode (x : t) : bytes := Canonical.encode (c.m (put x)).

Definition wf (x : t) : bool :=
  FleetGrantRevocation.wf (revocation x)
  && (0 <=? invalidation_count x) && (invalidation_count x <=? U32_MAX).

#[global] Hint Unfold put wf : wire_unfold.

#[global] Instance wire : WireMap "FleetGrantRevokedV2" parser put wf.
Proof. wire_map ltac:(fun x => destruct x as [[[] [] ? ? []] ? ?]). Qed.

Lemma FleetGrantRevokedV2_exact :
  exact_map parse encode (record_ok put wf).
Proof. intros payload x. exact (wire_map_exact _ _ _ _ payload x). Qed.

End FleetGrantRevokedV2.

(** ** The properties *)

(** Every fleet lifecycle map is exact: its parser accepts a payload exactly
    when the payload is the encoding of a record within the map's rules
    (generation arithmetic, rotation fields together and only after generation
    0, the mode, the previous state, the target of each grant variant, the
    unwrapped key id and the hash of the embedded grant). *)
Theorem fleet_maps_exact sha256 :
  exact_map FleetKeyGenerationCreateV2.parse FleetKeyGenerationCreateV2.encode
    (record_ok FleetKeyGenerationCreateV2.put FleetKeyGenerationCreateV2.wf)
  /\ exact_map FleetKeyGenerationCreatedV2.parse FleetKeyGenerationCreatedV2.encode
    (record_ok FleetKeyGenerationCreatedV2.put FleetKeyGenerationCreatedV2.wf)
  /\ exact_map FleetKeyGenerationActivateV2.parse FleetKeyGenerationActivateV2.encode
    (record_ok FleetKeyGenerationActivateV2.put FleetKeyGenerationActivateV2.wf)
  /\ exact_map FleetKeyGenerationActivatedV2.parse FleetKeyGenerationActivatedV2.encode
    (record_ok FleetKeyGenerationActivatedV2.put FleetKeyGenerationActivatedV2.wf)
  /\ exact_map (FleetKeyGrantCreateV2.parse sha256) FleetKeyGrantCreateV2.encode
    (record_ok FleetKeyGrantCreateV2.put (FleetKeyGrantCreateV2.wf sha256))
  /\ exact_map FleetKeyGrantCreatedV2.parse FleetKeyGrantCreatedV2.encode
    (record_ok FleetKeyGrantCreatedV2.put FleetKeyGrantCreatedV2.wf)
  /\ exact_map FleetKeyGrantAckV2.parse FleetKeyGrantAckV2.encode
    (record_ok FleetKeyGrantAckV2.put FleetKeyGrantAckV2.wf)
  /\ exact_map FleetKeyGrantAckedV2.parse FleetKeyGrantAckedV2.encode
    (record_ok FleetKeyGrantAckedV2.put FleetKeyGrantAckedV2.wf)
  /\ exact_map FleetGrantRevokeV2.parse FleetGrantRevokeV2.encode
    (record_ok FleetGrantRevokeV2.put FleetGrantRevokeV2.wf)
  /\ exact_map FleetGrantRevokedV2.parse FleetGrantRevokedV2.encode
    (record_ok FleetGrantRevokedV2.put FleetGrantRevokedV2.wf).
Proof. split_and!; intros payload x; exact (wire_map_exact _ _ _ _ payload x). Qed.

(** The rule of generations, on the terms of a create or activate map. *)
Definition generation_rule (x : FleetGenerationTerms.t) : Prop :=
  let g := FleetGenerationTerms.generation x in
  match FleetGenerationTerms.rotation x with
  | None => FleetGenerationRef.generation g = 0 /\ FleetGenerationTerms.mode x = "bootstrap"
  | Some r =>
      FleetGenerationRef.generation g = FleetRotation.previous_generation r + 1
      /\ FleetRotation.previous_fkek_key_id r <> FleetGenerationRef.fkek_key_id g
      /\ FleetGenerationTerms.mode x = "rotation"
  end.

Lemma terms_wf_rule x : FleetGenerationTerms.wf x = true -> generation_rule x.
Proof.
  unfold FleetGenerationTerms.wf, generation_rule, FleetGenerationTerms.mode. intros H.
  repeat (apply andb_true_iff in H as [H ?]).
  match goal with Hr : FleetGenerationTerms.rotation_wf _ _ = true |- _ =>
    unfold FleetGenerationTerms.rotation_wf in Hr;
    destruct (FleetGenerationTerms.rotation x) as [r|]; wire_facts; [|by split] end.
  match goal with Hc : checked_add _ _ = Some _ |- _ =>
    unfold checked_add in Hc; case_match; [|done]; injection Hc as <- end.
  by split_and!.
Qed.

(** The generation rule holds of every create and activate payload accepted,
    whatever its bytes: generation 0 is a bootstrap without rotation fields, any
    other generation rotates from exactly the one before it, to another key. *)
Theorem accepted_generation_rule payload :
  blen payload <= USIZE_MAX ->
  (forall x, FleetKeyGenerationCreateV2.parse payload = Ok x ->
     generation_rule (FleetKeyGenerationCreateV2.terms x))
  /\ (forall x, FleetKeyGenerationActivateV2.parse payload = Ok x ->
     generation_rule (FleetKeyGenerationActivateV2.terms x)).
Proof.
  intros Hb. split; intros x Hx.
  - apply FleetKeyGenerationCreateV2.FleetKeyGenerationCreateV2_exact in Hx
      as [[_ Hw]%andb_true_iff _]; [|done]. by apply terms_wf_rule.
  - apply FleetKeyGenerationActivateV2.FleetKeyGenerationActivateV2_exact in Hx
      as [[_ Hw]%andb_true_iff _]; [|done]. by apply terms_wf_rule.
Qed.

Definition sample_ref (generation : Z) : FleetGenerationRef.t :=
  FleetGenerationRef.mk (be_bytes 16 1) (be_bytes 16 2) 0 (be_bytes 16 3) generation
    (be_bytes 32 4).
Definition sample_terms : FleetGenerationTerms.t :=
  FleetGenerationTerms.mk (sample_ref 5) 1 (be_bytes 32 6) (be_bytes 32 7)
    (Some (FleetRotation.mk 4 (be_bytes 32 8) (be_bytes 32 9))).
Definition sample_create : FleetKeyGenerationCreateV2.t :=
  FleetKeyGenerationCreateV2.mk sample_terms 2.

Lemma accepted_generation_rule_witness :
  FleetKeyGenerationCreateV2.parse (FleetKeyGenerationCreateV2.encode sample_create)
  = Ok sample_create /\ generation_rule sample_terms.
Proof.
  assert (FleetKeyGenerationCreateV2.parse (FleetKeyGenerationCreateV2.encode sample_create)
    = Ok sample_create) as Hp by (vm_compute; reflexivity).
  split; [exact Hp|].
  refine (proj1 (accepted_generation_rule (FleetKeyGenerationCreateV2.encode sample_create) _)
    sample_create Hp).
  vm_compute. discriminate.
Defined.

(** A grant-create payload built by [new] from identifiers of the right sizes
    and a grant of 1 to 131072 bytes parses back to itself: the hash it carries is
    the one [parse] recomputes. *)
Theorem grant_create_roundtrip sha256 generation variant replay_id container_hash grant_bytes :
  (forall b, length (sha256 b) = 32%nat) ->
  FleetGenerationRef.wf generation = true ->
  values_ok (FleetGenerationRef.put generation) = true ->
  blen replay_id = 16 -> blen container_hash = 32 ->
  1 <= blen grant_bytes <= MAX_EMBEDDED_GRANT_BYTES ->
  let x := FleetKeyGrantCreateV2.new sha256 generation variant replay_id container_hash
             grant_bytes in
  FleetKeyGrantCreateV2.parse sha256 (FleetKeyGrantCreateV2.encode x) = Ok x.
Proof.
  intros Hsha Hg Hgv Hr Hc Hb x.
  assert (blen (sha256 grant_bytes) = 32) as Hh by (unfold blen; by rewrite Hsha).
  assert (record_ok FleetKeyGrantCreateV2.put (FleetKeyGrantCreateV2.wf sha256) x = true) as Hok.
  { unfold record_ok, x, FleetKeyGrantCreateV2.new. apply andb_true_intro. split.
    - unfold values_ok, FleetKeyGrantCreateV2.put, FleetGrantRef.put in *.
      rewrite !List.forallb_app, !andb_true_iff. split_and!; try done.
      + destruct variant; cbn [List.forallb snd]; rewrite !andb_true_iff; split_and!;
          try reflexivity; unfold c.b; cbn [encodable FleetGrantRef.replay_id
            FleetGrantRef.signed_container_hash FleetKeyGrantCreateV2.grant
            FleetGrantRef.exact_signed_grant_container_bytes_sha256];
          unfold wire_len, U64_MAX; lia.
      + cbn [List.forallb snd]. rewrite !andb_true_iff. split; [|done]. unfold c.b.
        cbn [encodable FleetKeyGrantCreateV2.exact_signed_grant_container_bytes].
        unfold wire_len, U64_MAX, MAX_EMBEDDED_GRANT_BYTES in *. lia.
    - unfold FleetKeyGrantCreateV2.wf, FleetGrantRef.wf.
      cbn [FleetKeyGrantCreateV2.grant FleetKeyGrantCreateV2.exact_signed_grant_container_bytes
        FleetGrantRef.generation FleetGrantRef.replay_id FleetGrantRef.signed_container_hash
        FleetGrantRef.exact_signed_grant_container_bytes_sha256].
      rewrite Hg, bool_decide_true by done. lia. }
  apply FleetKeyGrantCreateV2.FleetKeyGrantCreateV2_exact; [|done].
  unfold x, FleetKeyGrantCreateV2.new, FleetKeyGrantCreateV2.encode.
  etrans; [apply encode_size|]. destruct generation.
  autounfold with wire_unfold in *. cbn -[Z.leb Z.eqb] in Hg. wire_facts.
  assert (blen (as_bytes (FleetGrantVariant.as_str variant)) <= 16) by (by destruct variant).
  cbn -[Z.add blen as_bytes FleetGrantVariant.as_str].
  set (n := blen (as_bytes (FleetGrantVariant.as_str variant))) in *. eval_lengths.
  unfold USIZE_MAX, U64_MAX. lia.
Qed.

Lemma grant_create_roundtrip_witness :
  let x := FleetKeyGrantCreateV2.new (fun b => be_bytes 32 (blen b)) (sample_ref 5)
             FleetGrantVariant.Recovery (be_bytes 16 1) (be_bytes 32 2) [Byte.x01; Byte.x02] in
  FleetKeyGrantCreateV2.parse (fun b => be_bytes 32 (blen b)) (FleetKeyGrantCreateV2.encode x)
  = Ok x.
Proof.
  apply (grant_create_roundtrip (fun b => be_bytes 32 (blen b)) (sample_ref 5)
    FleetGrantVariant.Recovery (be_bytes 16 1) (be_bytes 32 2) [Byte.x01; Byte.x02]);
    try (vm_compute; reflexivity).
  split; vm_compute; discriminate.
Defined.
