(* ===== verification/Merkle.v ===== *)
(** * The restore-epoch Merkle tree (shared/src/envelope.rs)

    [merkle_root] reduces a sorted leaf set level by level: pairs through
    [node2], an odd tail through [node1]. [merkle_proof_steps] builds the
    inclusion proof of one leaf, [verify_proof] checks one against an index, a
    count and a root. SHA-256 is a parameter; the theorems that need it state
    what they use: its output length, and a collision as an explicit pair of the
    preimages that were hashed. *)

From S2P Require Import Prelude Bytes Canonical CanonicalTheorems.

(** A leaf: tenant id, profile id, exact leaf bytes. *)
Abbreviation EpochLeaf := (bytes * bytes * bytes)%type.

Inductive MerkleError :=
| EmptyTree
| TooManyLeaves (n : Z)
| DuplicateTuple
| UnsortedLeaves
| ForeignTenant
| ZeroPreviousHead
| IndexOutOfRange
| NotTheTransition.

Inductive ProofError :=
| DirectionMismatch (level : nat)
| UnaryNotAtOddTail (level : nat)
| MissingSibling
| UnexpectedSibling
| StepCountMismatch (expected got : nat)
| RootMismatch
| LeafIndexOutOfRange
| LeafCountOutOfRange.

Definition DIR_SIBLING_LEFT : Z := 0.
Definition DIR_SIBLING_RIGHT : Z := 1.
Definition DIR_UNARY_PROMOTE : Z := 2.

(** A direction and the sibling it consumes. *)
Abbreviation ProofStep := (Z * option bytes)%type.

(** [(a.0, a.1).cmp(&(b.0, b.1))]. *)
Definition tuple_cmp (a b : EpochLeaf) : comparison :=
  match bytes_cmp a.1.1 b.1.1 with
  | Eq => bytes_cmp a.1.2 b.1.2
  | o => o
  end.

(** The loop over [leaves.windows(2)]. *)
Fixpoint check_order (leaves : list EpochLeaf) : result MerkleError unit :=
  match leaves with
  | a :: (b :: _) as rest =>
      match tuple_cmp a b with
      | Eq => Err DuplicateTuple
      | Gt => Err UnsortedLeaves
      | Lt => check_order rest
      end
  | _ => Ok tt
  end.

Section tree.

(** The [sha2] crate's function. *)
Context (sha256 : bytes -> bytes).

Definition leaf_hash (exact_leaf_bytes : bytes) : bytes :=
  domain_hash sha256 L_RESTORE_EPOCH_LEAF exact_leaf_bytes.

Definition node2_preimage (left right : bytes) : bytes :=
  as_bytes L_RESTORE_EPOCH_NODE2 ++ left ++ right.
Definition node2 (left right : bytes) : bytes := sha256 (node2_preimage left right).

Definition node1_preimage (child : bytes) : bytes := as_bytes L_RESTORE_EPOCH_NODE1 ++ child.
Definition node1 (child : bytes) : bytes := sha256 (node1_preimage child).

(** One turn of the [while level.len() > 1] loop: the pairs from the left, then
    the odd tail. *)
Fixpoint next_level (level : list bytes) : list bytes :=
  match level with
  | a :: b :: rest => node2 a b :: next_level rest
  | [a] => [node1 a]
  | [] => []
  end.

(** The loop itself, then [level[0]]. A level of more than one hash shrinks, so
    its length is enough fuel. *)
Fixpoint reduce (fuel : nat) (level : list bytes) : result MerkleError bytes :=
  match level with
  | [] => Crash Panic
  | [a] => Ok a
  | _ =>
      match fuel with
      | O => Crash OutOfFuel
      | S fuel' => reduce fuel' (next_level level)
      end
  end.

Definition leaf_level (leaves : list EpochLeaf) : list bytes :=
  List.map (fun leaf => leaf_hash leaf.2) leaves.

Definition merkle_root (leaves : list EpochLeaf) : result MerkleError bytes :=
  if decide (leaves = []) then Err EmptyTree
  else if MAX_RESTORE_EPOCH_LEAVES_V2 <? blen leaves then Err (TooManyLeaves (blen leaves))
  else
    _ ← check_order leaves;
    reduce (length leaves) (leaf_level leaves).

(** The inner loop of [merkle_proof_steps] from position [i], [next_len] hashes
    pushed so far: the steps it pushes and the index it leaves. *)
Fixpoint level_steps (level : list bytes) (i next_len idx : nat) : list ProofStep * nat :=
  match level with
  | a :: b :: rest =>
      let '(steps, idx) :=
        if decide (idx = i) then ([(DIR_SIBLING_RIGHT, Some b)], next_len)
        else if decide (idx = i + 1)%nat then ([(DIR_SIBLING_LEFT, Some a)], next_len)
        else ([], idx) in
      let '(more, idx) := level_steps rest (i + 2) (S next_len) idx in
      (steps ++ more, idx)
  | [a] =>
      if decide (idx = i) then ([(DIR_UNARY_PROMOTE, None)], next_len) else ([], idx)
  | [] => ([], idx)
  end.

Fixpoint proof_steps (fuel : nat) (level : list bytes) (idx : nat)
    : result MerkleError (list ProofStep) :=
  if decide (length level <= 1)%nat then Ok []
  else
    match fuel with
    | O => Crash OutOfFuel
    | S fuel' =>
        let '(steps, idx) := level_steps level 0 0 idx in
        more ← proof_steps fuel' (next_level level) idx;
        mret (steps ++ more)
    end.

Definition merkle_proof_steps (leaves : list EpochLeaf) (leaf_index : nat)
    : result MerkleError (list ProofStep) :=
  proof_steps (length leaves) (leaf_level leaves) leaf_index.

(** The state of the verifier's loop. *)
Record verifier := Verifier {
  v_acc : bytes; v_idx : nat; v_width : nat; v_used : nat; v_level : nat }.

(** The hash one step computes. *)
Definition verify_step (s : verifier) (step : ProofStep) : result ProofError bytes :=
  let paired := (v_width s / 2 * 2)%nat in
  if (v_idx s <? paired)%nat then
    let expect_dir := if Nat.even (v_idx s) then DIR_SIBLING_RIGHT else DIR_SIBLING_LEFT in
    if negb (step.1 =? expect_dir) then Err (DirectionMismatch (v_level s))
    else
      sib ← ok_or step.2 MissingSibling;
      mret (if Nat.even (v_idx s) then node2 (v_acc s) sib else node2 sib (v_acc s))
  else if negb (step.1 =? DIR_UNARY_PROMOTE) then Err (DirectionMismatch (v_level s))
  else if negb (v_idx s =? v_width s - 1)%nat || Nat.even (v_width s) then
    Err (UnaryNotAtOddTail (v_level s))
  else if is_some step.2 then Err UnexpectedSibling
  else mret (node1 (v_acc s)).

(** The [while width > 1] loop; the width shrinks, so it is enough fuel. *)
Fixpoint verify_loop (fuel : nat) (steps : list ProofStep) (s : verifier)
    : result ProofError verifier :=
  if (v_width s <=? 1)%nat then Ok s
  else
    match fuel with
    | O => Crash OutOfFuel
    | S fuel' =>
        step ← ok_or (steps !! v_used s) (StepCountMismatch (v_used s + 1) (length steps));
        acc ← verify_step s step;
        verify_loop fuel' steps
          (Verifier acc (v_idx s / 2) ((v_width s + 1) / 2) (v_used s + 1) (v_level s + 1))
    end.

Definition verify_proof (leaf_index leaf_count : Z) (leaf_hash_value : bytes)
    (steps : list ProofStep) (expected_root : bytes) : result ProofError unit :=
  if (leaf_count =? 0) || (MAX_RESTORE_EPOCH_LEAVES_V2 <? leaf_count) then
    Err LeafCountOutOfRange
  else if leaf_count <=? leaf_index then Err LeafIndexOutOfRange
  else
    s ← verify_loop (Z.to_nat leaf_count) steps
          (Verifier leaf_hash_value (Z.to_nat leaf_index) (Z.to_nat leaf_count) 0 0);
    if negb (v_used s =? length steps)%nat then
      Err (StepCountMismatch (v_used s) (length steps))
    else if negb (v_width s =? 1)%nat || negb (v_idx s =? 0)%nat then Err RootMismatch
    else if decide (v_acc s = expected_root) then Ok tt
    else Err RootMismatch.

End tree.

(** ** Levels *)

(** Induction two elements at a time. *)
Lemma pairs_ind {A} (P : list A -> Prop) :
  P [] -> (forall a, P [a]) -> (forall a b l, P l -> P (a :: b :: l)) -> forall l, P l.
Proof.
  intros H0 H1 H2. fix IH 1. intros [|a [|b l]]; [done|apply H1|]. apply H2, IH.
Qed.

Section facts.
Context (sha256 : bytes -> bytes).

Lemma next_level_length level :
  length (next_level sha256 level) = ((length level + 1) / 2)%nat.
Proof.
  induction level as [|a|a b l IH] using pairs_ind; [done..|].
  cbn [length next_level]. rewrite IH.
  replace (S (S (length l)) + 1)%nat with (length l + 1 + 1 * 2)%nat by lia.
  rewrite Nat.div_add by done. lia.
Qed.

Lemma next_level_lookup level k :
  next_level sha256 level !! k =
  match level !! (2 * k)%nat, level !! (2 * k + 1)%nat with
  | Some a, Some b => Some (node2 sha256 a b)
  | Some a, None => Some (node1 sha256 a)
  | None, _ => None
  end.
Proof.
  revert k. induction level as [|a|a b l IH] using pairs_ind; intros [|k]; try done.
  cbn [next_level lookup list_lookup]. rewrite IH.
  replace (2 * S k)%nat with (S (S (2 * k))) by lia. done.
Qed.

(** Once the index is behind the position, a level adds no step. *)
Lemma level_steps_past level i n idx :
  (idx < i)%nat -> level_steps level i n idx = ([], idx).
Proof.
  revert i n. induction level as [|a|a b l IH] using pairs_ind; intros i n H; cbn [level_steps];
    rewrite ?decide_False by lia; [done..|]. by rewrite IH by lia.
Qed.

(** The one step a level adds for an index in it. *)
Definition level_step (level : list bytes) (idx : nat) : ProofStep :=
  if Nat.even idx then
    match level !! S idx with
    | Some b => (DIR_SIBLING_RIGHT, Some b)
    | None => (DIR_UNARY_PROMOTE, None)
    end
  else (DIR_SIBLING_LEFT, level !! pred idx).

Lemma level_steps_at level i n k :
  (k < length level)%nat -> (n <= i)%nat ->
  level_steps level i n (i + k) = ([level_step level k], (n + k / 2)%nat).
Proof.
  revert i n k. induction level as [|a|a b l IH] using pairs_ind; intros i n k Hk Hn;
    cbn [level_steps]; simpl in Hk; [lia|..].
  - assert (k = 0%nat) as -> by lia. rewrite decide_True by lia.
    by rewrite Nat.add_0_r.
  - destruct k as [|[|k]].
    + rewrite decide_True by lia. rewrite level_steps_past by lia. simpl.
      by rewrite Nat.add_0_r.
    + rewrite decide_False, decide_True by lia. rewrite level_steps_past by lia. simpl.
      by rewrite Nat.add_0_r.
    + rewrite !decide_False by lia.
      replace (i + S (S k))%nat with ((i + 2) + k)%nat by lia.
      rewrite IH by lia. f_equal.
      * unfold level_step. cbn [Nat.even]. destruct (Nat.even k) eqn:Ek; [done|].
        by destruct k.
      * replace (S (S k)) with (k + 1 * 2)%nat by lia. rewrite Nat.div_add by done. lia.
Qed.

(** ** Progress of the loops *)

Lemma parity_cases n :
  exists k, (n = 2 * k /\ Nat.even n = true \/ n = 2 * k + 1 /\ Nat.even n = false)%nat
            /\ (n / 2 = k)%nat.
Proof.
  exists (n / 2)%nat. split; [|done].
  destruct (Nat.even n) eqn:E; [left|right]; (split; [|done]).
  - apply Nat.even_spec in E as [k ->]. rewrite Nat.mul_comm, Nat.div_mul by done. lia.
  - rewrite <- Nat.negb_odd in E. apply negb_false_iff, Nat.odd_spec in E as [k ->].
    replace (2 * k + 1)%nat with (1 + k * 2)%nat by lia.
    rewrite Nat.div_add by done. simpl. lia.
Qed.

Lemma half_up_lt n : (1 < n)%nat -> (0 < (n + 1) / 2 < n)%nat.
Proof.
  intros H. destruct (parity_cases (n + 1)) as (k & [[Hk _]|[Hk _]] & ->); lia.
Qed.

Lemma half_index_lt i n : (i < n)%nat -> (i / 2 < (n + 1) / 2)%nat.
Proof.
  intros H. destruct (parity_cases i) as (k & Hk & ->).
  destruct (parity_cases (n + 1)) as (m & Hm & ->). lia.
Qed.

Lemma reduce_total fuel level :
  level <> [] -> (length level <= S fuel)%nat ->
  exists root, reduce sha256 fuel level = Ok root.
Proof.
  revert level. induction fuel as [|f IH]; intros [|a [|b l]] Hne Hl; try done;
    try (by exists a); [simpl in Hl; lia|].
  apply IH; [done|]. rewrite next_level_length.
  pose proof (half_up_lt (length (a :: b :: l)) ltac:(simpl; lia)). lia.
Qed.

Lemma reduce_step fuel level root :
  (1 < length level)%nat -> reduce sha256 fuel level = Ok root ->
  exists f, fuel = S f /\ reduce sha256 f (next_level sha256 level) = Ok root.
Proof.
  destruct level as [|a [|b l]]; simpl; intros; [lia..|]. destruct fuel; [done|]. eauto.
Qed.

Lemma reduce_one fuel level root :
  (length level <= 1)%nat -> reduce sha256 fuel level = Ok root -> level = [root].
Proof.
  destruct level as [|a [|b l]]; intros Hl H; [by destruct fuel| |simpl in Hl; lia].
  destruct fuel; by injection H as ->.
Qed.

Lemma proof_steps_step fuel level idx :
  (1 < length level)%nat -> (idx < length level)%nat ->
  proof_steps sha256 (S fuel) level idx =
  more ← proof_steps sha256 fuel (next_level sha256 level) (idx / 2);
  mret (level_step level idx :: more).
Proof.
  intros H1 Hi. cbn [proof_steps]. rewrite decide_False by lia.
  pose proof (level_steps_at level 0 0 idx Hi ltac:(lia)) as E. simpl plus in E. by rewrite E.
Qed.

Lemma proof_steps_total fuel level idx :
  (length level <= S fuel)%nat -> (idx < length level)%nat ->
  exists steps, proof_steps sha256 fuel level idx = Ok steps.
Proof.
  revert level idx. induction fuel as [|f IH]; intros level idx Hl Hi.
  - exists []. simpl. by rewrite decide_True by lia.
  - destruct (decide (length level <= 1)%nat) as [|H1].
    + exists []. simpl. by rewrite decide_True by lia.
    + rewrite proof_steps_step by lia.
      pose proof (half_up_lt (length level) ltac:(lia)).
      destruct (IH (next_level sha256 level) (idx / 2)%nat) as [more ->].
      * rewrite next_level_length. lia.
      * rewrite next_level_length. by apply half_index_lt.
      * by eexists.
Qed.

(** ** One level of the verifier *)

(** What the tree hashes for one level, and what the verifier hashes for a step. *)
Fixpoint level_preimages (level : list bytes) : list bytes :=
  match level with
  | a :: b :: rest => node2_preimage a b :: level_preimages rest
  | [a] => [node1_preimage a]
  | [] => []
  end.

Definition step_preimage (s : verifier) (step : ProofStep) : bytes :=
  match step.2 with
  | Some sib => if Nat.even (v_idx s) then node2_preimage (v_acc s) sib
                else node2_preimage sib (v_acc s)
  | None => node1_preimage (v_acc s)
  end.

Lemma next_level_hashes level :
  next_level sha256 level = List.map sha256 (level_preimages level).
Proof. induction level as [|a|a b l IH] using pairs_ind; [done..|]. simpl. by rewrite IH. Qed.

Lemma level_preimages_lookup level k :
  level_preimages level !! k =
  match level !! (2 * k)%nat, level !! (2 * k + 1)%nat with
  | Some a, Some b => Some (node2_preimage a b)
  | Some a, None => Some (node1_preimage a)
  | None, _ => None
  end.
Proof.
  revert k. induction level as [|a|a b l IH] using pairs_ind; intros [|k]; try done.
  cbn [level_preimages lookup list_lookup]. rewrite IH.
  replace (2 * S k)%nat with (S (S (2 * k))) by lia. done.
Qed.

Lemma paired_even k n : (2 * k < n / 2 * 2 <-> 2 * k + 1 < n)%nat.
Proof. destruct (parity_cases n) as (m & Hm & ->). lia. Qed.

Lemma paired_odd k n : (2 * k + 1 < n -> 2 * k + 1 < n / 2 * 2)%nat.
Proof. destruct (parity_cases n) as (m & Hm & ->). lia. Qed.

Lemma verify_step_honest s level :
  v_width s = length level -> level !! v_idx s = Some (v_acc s) ->
  exists acc, verify_step sha256 s (level_step level (v_idx s)) = Ok acc
              /\ next_level sha256 level !! (v_idx s / 2)%nat = Some acc.
Proof.
  destruct s as [acc idx width used lv]. cbn [v_width v_idx v_acc]. intros -> Ha.
  pose proof (lookup_lt_Some _ _ _ Ha) as Hi.
  destruct (parity_cases idx) as (k & [[-> He]|[-> He]] & ->); unfold verify_step, level_step;
    cbn [v_idx v_acc v_width]; rewrite He, next_level_lookup.
  - rewrite Ha. destruct (decide (2 * k + 1 < length level)%nat) as [Hs|Hs].
    + apply paired_even in Hs as Hp. rewrite (proj2 (Nat.ltb_lt _ _)) by done.
      destruct (lookup_lt_is_Some_2 level _ Hs) as [b Hb].
      rewrite Nat.add_1_r in Hb |- *. rewrite Hb. simpl. eauto.
    + rewrite (proj2 (Nat.ltb_ge _ _)) by (rewrite <- paired_even in Hs; lia).
      rewrite (lookup_ge_None_2 level (2 * k + 1)) by lia.
      rewrite (lookup_ge_None_2 level (S (2 * k))) by lia. simpl.
      replace (length level) with (2 * k + 1)%nat by lia.
      rewrite (proj2 (Nat.eqb_eq _ _)) by lia. rewrite Nat.add_comm, Nat.even_add, He. simpl. eauto.
  - rewrite (proj2 (Nat.ltb_lt _ _)) by by apply paired_odd.
    rewrite Ha. replace (pred (2 * k + 1)) with (2 * k)%nat by lia.
    destruct (lookup_lt_is_Some_2 level (2 * k) ltac:(lia)) as [b ->]. simpl. eauto.
Qed.

Lemma node2_preimage_inj a b a' b' :
  length a = 32%nat -> length a' = 32%nat ->
  node2_preimage a b = node2_preimage a' b' -> a = a' /\ b = b'.
Proof.
  unfold node2_preimage. intros Ha Ha' H. apply app_inv_head in H.
  apply app_inj_1 in H; [done|congruence].
Qed.

Lemma node1_preimage_inj a a' : node1_preimage a = node1_preimage a' -> a = a'.
Proof. unfold node1_preimage. apply app_inv_head. Qed.

(** An accepted step hashes what the tree hashes there, or something else. *)
Lemma verify_step_sound s level step acc :
  v_width s = length level -> (v_idx s < length level)%nat ->
  Forall (fun h => length h = 32%nat) level -> length (v_acc s) = 32%nat ->
  (forall sib, step.2 = Some sib -> length sib = 32%nat) ->
  verify_step sha256 s step = Ok acc ->
  acc = sha256 (step_preimage s step)
  /\ exists hp, level_preimages level !! (v_idx s / 2)%nat = Some hp
     /\ (hp = step_preimage s step ->
         level !! v_idx s = Some (v_acc s) /\ step = level_step level (v_idx s)).
Proof.
  destruct s as [a idx width used lv], step as [dir sib]. cbn [v_width v_idx v_acc].
  intros -> Hi H32 Ha Hsib. rewrite Forall_lookup in H32.
  unfold verify_step, step_preimage, level_step. cbn [v_idx v_acc v_width fst snd] in *.
  destruct (parity_cases idx) as (k & [[-> He]|[-> He]] & ->); rewrite He.
  - destruct (lookup_lt_is_Some_2 level _ Hi) as [x Hx].
    rewrite level_preimages_lookup, Hx.
    destruct (Nat.ltb_spec (2 * k) (length level / 2 * 2)) as [Hp|Hp].
    + apply paired_even in Hp. destruct (lookup_lt_is_Some_2 level _ Hp) as [b Hb].
      destruct (Z.eqb_spec dir DIR_SIBLING_RIGHT) as [->|]; [|done].
      destruct sib as [sib|]; [|done]. intros [= <-]. split; [done|].
      rewrite Hb. eexists; split; [done|]. rewrite Nat.add_1_r in Hb. rewrite Hb.
      intros [-> ->]%node2_preimage_inj; eauto.
    + destruct (Z.eqb_spec dir DIR_UNARY_PROMOTE) as [->|]; [|done].
      cbn [negb]. case_match eqn:E; [done|]. destruct sib as [sib|]; [done|]. intros [= <-].
      split; [done|]. assert (~ (2 * k + 1 < length level)%nat) by (rewrite <- paired_even; lia).
      rewrite (lookup_ge_None_2 level (2 * k + 1)) by lia.
      rewrite (lookup_ge_None_2 level (S (2 * k))) by lia.
      eexists; split; [done|]. by intros ->%node1_preimage_inj.
  - rewrite (proj2 (Nat.ltb_lt _ _)) by by apply paired_odd.
    destruct (lookup_lt_is_Some_2 level _ Hi) as [x Hx].
    destruct (lookup_lt_is_Some_2 level (2 * k) ltac:(lia)) as [b Hb].
    rewrite level_preimages_lookup, Hx, Hb.
    destruct (Z.eqb_spec dir DIR_SIBLING_LEFT) as [->|]; [|done].
    destruct sib as [sib|]; [|done]. intros [= <-]. split; [done|]. eexists; split; [done|].
    intros [-> ->]%node2_preimage_inj; [|eauto..].
    replace (pred (2 * k + 1)) with (2 * k)%nat by lia. by rewrite Hb.
Qed.

(** ** The whole verification *)

Definition next_verifier (acc : bytes) (s : verifier) : verifier :=
  Verifier acc (v_idx s / 2) ((v_width s + 1) / 2) (v_used s + 1) (v_level s + 1).

(** The preimages a tree hashes above its leaves, and those a verification
    hashes. *)
Fixpoint tree_preimages (fuel : nat) (level : list bytes) : list bytes :=
  match fuel with
  | O => []
  | S f =>
      if decide (length level <= 1)%nat then []
      else level_preimages level ++ tree_preimages f (next_level sha256 level)
  end.

Fixpoint path_preimages (fuel : nat) (steps : list ProofStep) (s : verifier) : list bytes :=
  match fuel, steps !! v_used s with
  | S f, Some step =>
      if (v_width s <=? 1)%nat then []
      else step_preimage s step
           :: path_preimages f steps (next_verifier (sha256 (step_preimage s step)) s)
  | _, _ => []
  end.

(** Two different byte strings, one of each list, with one hash. *)
Definition collision (xs ys : list bytes) : Prop :=
  exists x y, x ∈ xs /\ y ∈ ys /\ x <> y /\ sha256 x = sha256 y.

Lemma collision_mono xs ys xs' ys' :
  xs ⊆ xs' -> ys ⊆ ys' -> collision xs ys -> collision xs' ys'.
Proof. intros Hx Hy (x & y & ? & ? & ? & ?). exists x, y. set_solver. Qed.

Lemma drop_lookup_cons {A} (l : list A) n x :
  l !! n = Some x -> drop n l = x :: drop (n + 1) l.
Proof. intros H. rewrite Nat.add_1_r. by apply drop_S. Qed.

Lemma verify_loop_complete fuel f1 f2 level s steps root :
  reduce sha256 f1 level = Ok root ->
  proof_steps sha256 f2 level (v_idx s) = Ok (drop (v_used s) steps) ->
  (v_used s <= length steps)%nat ->
  level !! v_idx s = Some (v_acc s) -> v_width s = length level ->
  (length level <= S fuel)%nat ->
  exists lv, verify_loop sha256 fuel steps s = Ok (Verifier root 0 1 (length steps) lv).
Proof.
  revert f1 f2 level s. induction fuel as [|fuel IH]; intros f1 f2 level s Hr Hp Hu Ha Hw Hl;
    pose proof (lookup_lt_Some _ _ _ Ha) as Hi;
    destruct (decide (length level <= 1)%nat) as [H1|H1]; try lia.
  1-2: apply reduce_one in Hr as ->; [|done]; destruct s as [acc idx width used lv];
    cbn [v_idx v_acc v_width v_used length] in *; subst width;
    assert (idx = 0%nat) as -> by lia; injection Ha as ->;
    destruct f2; simpl in Hp; injection Hp as Hp; symmetry in Hp; apply drop_nil_inv in Hp;
    exists lv; simpl; do 2 f_equal; lia.
  destruct (reduce_step _ level _ ltac:(lia) Hr) as (f & -> & Hr').
  destruct f2 as [|f2].
  { simpl in Hp. by rewrite decide_False in Hp by lia. }
  rewrite proof_steps_step in Hp by lia. apply result_bind_ok in Hp as (more & Hm & Hp).
  injection Hp as Hp.
  assert (steps !! v_used s = Some (level_step level (v_idx s))) as Hstep.
  { rewrite <- (Nat.add_0_r (v_used s)), <- lookup_drop, <- Hp. done. }
  rewrite (drop_lookup_cons _ _ _ Hstep) in Hp. injection Hp as ->.
  cbn [verify_loop]. rewrite (proj2 (Nat.leb_gt _ _)) by lia. rewrite Hstep.
  destruct (verify_step_honest s level) as (acc & Hv & Hacc); [done..|].
  cbn [ok_or]. unfold mbind, result_bind. rewrite Hv.
  apply (IH f f2 (next_level sha256 level)); cbn [v_idx v_acc v_width v_used];
    rewrite ?next_level_length, ?Hw; try done.
  - apply lookup_lt_Some in Hstep. lia.
  - pose proof (half_up_lt (length level)). lia.
Qed.

Lemma verify_loop_sound fuel f1 level s steps root s' :
  reduce sha256 f1 level = Ok root ->
  (forall x, length (sha256 x) = 32%nat) ->
  Forall (fun h => length h = 32%nat) level -> length (v_acc s) = 32%nat ->
  Forall (fun step => forall sib, step.2 = Some sib -> length sib = 32%nat) steps ->
  v_width s = length level -> (v_idx s < length level)%nat ->
  verify_loop sha256 fuel steps s = Ok s' -> v_acc s' = root ->
  (v_used s <= v_used s')%nat
  /\ ((level !! v_idx s = Some (v_acc s)
       /\ proof_steps sha256 f1 level (v_idx s)
          = Ok (take (v_used s' - v_used s) (drop (v_used s) steps)))
      \/ collision (tree_preimages f1 level) (path_preimages fuel steps s)).
Proof.
  intros Hr Hsha. revert fuel level s Hr.
  induction f1 as [|f1 IH]; intros fuel level s Hr H32 Ha Hsteps Hw Hi Hv Hroot;
    (destruct (decide (length level <= 1)%nat) as [H1|H1];
      [|destruct (reduce_step _ level _ ltac:(lia) Hr) as (f & [= <-] & Hr')]).
  1-2: assert (s' = s) as -> by (destruct fuel; simpl in Hv;
      rewrite (proj2 (Nat.leb_le _ _)) in Hv by lia; by injection Hv);
    split; [done|]; left; apply reduce_one in Hr as ->; [|done]; simpl in Hi;
    replace (v_idx s) with 0%nat by lia; rewrite Nat.sub_diag, Hroot; by split.
  destruct fuel as [|fuel]; cbn [verify_loop] in Hv;
    rewrite (proj2 (Nat.leb_gt _ _)) in Hv by lia; [done|].
  apply result_bind_ok in Hv as (step & Hstep & Hv). apply ok_or_ok in Hstep.
  apply result_bind_ok in Hv as (acc & Hacc & Hv).
  rewrite Forall_lookup in Hsteps. pose proof (Hsteps _ _ Hstep) as Hsib.
  rewrite <- Forall_lookup in Hsteps.
  destruct (verify_step_sound s level step acc Hw Hi H32 Ha Hsib Hacc) as (-> & hp & Hhp & Hinj).
  assert ((v_idx s / 2 < length (next_level sha256 level))%nat) as Hi'
    by (rewrite next_level_length; by apply half_index_lt).
  apply (IH fuel (next_level sha256 level)) in Hv as [Hu Hv];
    cbn [v_idx v_acc v_width v_used] in *; rewrite ?next_level_length, ?Hw in *;
    [|try done..]; [|rewrite next_level_hashes; by apply Forall_map, Forall_true].
  split; [lia|]. cbn [tree_preimages path_preimages]. rewrite Hstep, decide_False by lia.
  rewrite (proj2 (Nat.leb_gt _ _)) by lia.
  destruct Hv as [[Hnext Hmore]|Hcol].
  - rewrite next_level_hashes, list_lookup_fmap, Hhp in Hnext. injection Hnext as Hnext.
    destruct (decide (hp = step_preimage s step)) as [Heq|Hne].
    + left. destruct (Hinj Heq) as [? ->]. split; [done|].
      rewrite proof_steps_step by lia. rewrite Hmore, (drop_lookup_cons _ _ _ Hstep).
      replace (v_used s' - v_used s)%nat with (S (v_used s' - (v_used s + 1))) by lia. done.
    + right. exists hp, (step_preimage s step). split_and!; [|by left|done|done].
      apply elem_of_app. left. by eapply list_elem_of_lookup_2.
  - right. eapply collision_mono; [| |exact Hcol]; unfold next_verifier; rewrite ?Hw; set_solver.
Qed.

End facts.

(** ** Leaf order *)

Definition tuple_lt (a b : EpochLeaf) : Prop := tuple_cmp a b = Lt.

(** A leaf set [merkle_root] accepts. *)
Definition leaves_ok (leaves : list EpochLeaf) : Prop :=
  leaves <> [] /\ blen leaves <= MAX_RESTORE_EPOCH_LEAVES_V2
  /\ StronglySorted tuple_lt leaves.

#[export] Instance tuple_lt_trans : Transitive tuple_lt.
Proof.
  intros [[a1 a2] a3] [[b1 b2] b3] [[c1 c2] c3]. unfold tuple_lt, tuple_cmp. simpl.
  destruct (bytes_cmp a1 b1) eqn:E1, (bytes_cmp b1 c1) eqn:E2; try done; intros H1 H2.
  - apply bytes_cmp_eq in E1 as ->, E2 as ->. rewrite bytes_cmp_refl.
    by apply (transitivity (R := bytes_lt) H1 H2).
  - apply bytes_cmp_eq in E1 as ->. by rewrite E2.
  - apply bytes_cmp_eq in E2 as ->. by rewrite E1.
  - pose proof (transitivity (R := bytes_lt) E1 E2) as H. by rewrite H.
Qed.

Lemma check_order_sorted leaves : check_order leaves = Ok tt <-> Sorted tuple_lt leaves.
Proof.
  induction leaves as [|a [|b l] IH]; [by split|split; [by repeat constructor|done]|].
  cbn [check_order]. destruct (tuple_cmp a b) eqn:E.
  - split; [done|]. intros [_ H]%Sorted_inv. apply HdRel_inv in H.
    unfold tuple_lt in H. congruence.
  - rewrite IH. split; [intros H; constructor; [done|by constructor]|].
    by intros [? _]%Sorted_inv.
  - split; [done|]. intros [_ H]%Sorted_inv. apply HdRel_inv in H.
    unfold tuple_lt in H. congruence.
Qed.

Lemma check_order_safe leaves : safe (check_order leaves).
Proof. induction leaves as [|a [|b l] IH]; [done..|]. cbn [check_order]. by case_match. Qed.

Section root.
Context (sha256 : bytes -> bytes).

Lemma merkle_root_inv leaves root :
  merkle_root sha256 leaves = Ok root <->
  leaves_ok leaves /\ reduce sha256 (length leaves) (leaf_level sha256 leaves) = Ok root.
Proof.
  unfold merkle_root, leaves_ok. destruct (decide (leaves = [])) as [->|Hne]; [naive_solver|].
  destruct (Z.ltb_spec MAX_RESTORE_EPOCH_LEAVES_V2 (blen leaves)); [naive_solver lia|].
  rewrite result_bind_ok. split.
  - intros ([] & Ho & Hr). split_and!; [done|lia| |done].
    apply Sorted_StronglySorted; [apply _|by apply check_order_sorted].
  - intros [(_ & _ & Hs) Hr]. exists tt. split; [|done].
    by apply check_order_sorted, StronglySorted_Sorted.
Qed.

Lemma leaf_level_length leaves : length (leaf_level sha256 leaves) = length leaves.
Proof. apply length_map. Qed.

Lemma merkle_root_of_ok leaves :
  leaves_ok leaves -> exists root, merkle_root sha256 leaves = Ok root.
Proof.
  intros Hok. destruct (reduce_total sha256 (length leaves) (leaf_level sha256 leaves))
    as [root Hr].
  - destruct Hok as [Hne _]. by destruct leaves.
  - rewrite leaf_level_length. lia.
  - exists root. by apply merkle_root_inv.
Qed.

Lemma leaf_level_32 leaves :
  (forall x, length (sha256 x) = 32%nat) ->
  Forall (fun h => length h = 32%nat) (leaf_level sha256 leaves).
Proof. intros H. unfold leaf_level. apply Forall_map, Forall_true. intros x. apply H. Qed.

(** What a leaf set hashes: its leaves, then the nodes of its tree. *)
Definition leaf_preimages (leaves : list EpochLeaf) : list bytes :=
  List.map (fun leaf => domain_preimage L_RESTORE_EPOCH_LEAF leaf.2) leaves.

Definition set_preimages (leaves : list EpochLeaf) : list bytes :=
  leaf_preimages leaves
  ++ tree_preimages sha256 (length leaves) (leaf_level sha256 leaves).

Lemma leaf_preimages_inj l1 l2 :
  leaf_preimages l1 = leaf_preimages l2 -> List.map snd l1 = List.map snd l2.
Proof.
  unfold leaf_preimages. revert l2.
  induction l1 as [|[? a] l1 IH]; intros [|[? b] l2] Heq; try done.
  cbn [List.map] in *. apply cons_eq in Heq as [Ha Heq]. apply IH in Heq as ->.
  unfold domain_preimage in Ha. apply app_inv_head in Ha.
  by apply app_inj_1 in Ha as [_ ->]; [|by rewrite !length_be_bytes].
Qed.

(** Equal hashes of two lists of preimages: equal preimages or a collision. *)
Lemma hashes_inj xs ys :
  List.map sha256 xs = List.map sha256 ys -> xs = ys \/ collision sha256 xs ys.
Proof.
  revert ys. induction xs as [|x xs IH]; intros [|y ys] H; simplify_eq/=; [by left|].
  destruct (decide (x = y)) as [->|Hne].
  - destruct (IH ys) as [->|Hc]; [done|by left|right].
    eapply collision_mono; [| |exact Hc]; set_solver.
  - right. exists x, y. set_solver.
Qed.

Lemma level_preimages_inj l1 l2 :
  length l1 = length l2 -> Forall (fun h => length h = 32%nat) l1 ->
  Forall (fun h => length h = 32%nat) l2 ->
  level_preimages l1 = level_preimages l2 -> l1 = l2.
Proof.
  revert l2. induction l1 as [|a|a b l1 IH] using pairs_ind; intros [|a' [|b' l2]] Hl H1 H2 H;
    try (simpl in Hl; lia); [done| |]; cbn [level_preimages] in H.
  - apply cons_eq in H as [H _]. by apply node1_preimage_inj in H as ->.
  - apply Forall_cons in H1 as [? [? ?]%Forall_cons].
    apply Forall_cons in H2 as [? [? ?]%Forall_cons].
    apply cons_eq in H as [H Hr]. apply node2_preimage_inj in H as [-> ->]; [|done..].
    rewrite (IH l2); [done|by injection Hl|done..].
Qed.

Lemma reduce_inj f1 f2 l1 l2 root :
  (forall x, length (sha256 x) = 32%nat) -> length l1 = length l2 ->
  Forall (fun h => length h = 32%nat) l1 -> Forall (fun h => length h = 32%nat) l2 ->
  reduce sha256 f1 l1 = Ok root -> reduce sha256 f2 l2 = Ok root ->
  l1 = l2 \/ collision sha256 (tree_preimages sha256 f1 l1) (tree_preimages sha256 f2 l2).
Proof.
  intros Hsha. revert f2 l1 l2. induction f1 as [|f1 IH]; intros f2 l1 l2 Hl H1 H2 Hr1 Hr2;
    (destruct (decide (length l1 <= 1)%nat) as [Hs|Hs];
      [left; apply reduce_one in Hr1 as ->, Hr2 as ->; [done|lia|done]|
       destruct (reduce_step sha256 _ l1 root ltac:(lia) Hr1) as (f & [= <-] & Hr1')]).
  destruct (reduce_step sha256 _ l2 root ltac:(lia) Hr2) as (g & -> & Hr2').
  cbn [tree_preimages]. rewrite !decide_False by lia.
  assert (forall l, Forall (fun h => length h = 32%nat) (next_level sha256 l)) as Hmap
    by (intros l; rewrite next_level_hashes; by apply Forall_map, Forall_true).
  destruct (IH g (next_level sha256 l1) (next_level sha256 l2)) as [Heq|Hc]; try done.
  - by rewrite !next_level_length, Hl.
  - rewrite !next_level_hashes in Heq.
    apply hashes_inj in Heq as [Heq|Hc]; [left; by apply level_preimages_inj|right].
    eapply collision_mono; [| |exact Hc]; set_solver.
  - right. eapply collision_mono; [| |exact Hc]; set_solver.
Qed.

End root.

Lemma verify_step_safe sha256 s step : safe (verify_step sha256 s step).
Proof.
  unfold verify_step. destruct step.2 as [sib|]; repeat case_match; try done;
    unfold ok_or, mbind, result_bind; done.
Qed.

Lemma verify_loop_safe sha256 fuel steps s :
  (v_width s <= S fuel)%nat -> safe (verify_loop sha256 fuel steps s).
Proof.
  revert s. induction fuel as [|f IH]; intros s Hw; cbn [verify_loop];
    destruct (Nat.leb_spec (v_width s) 1); try done; [lia|].
  apply safe_bind; [by destruct (steps !! v_used s)|]. intros step _.
  apply safe_bind; [apply verify_step_safe|]. intros acc _. apply IH. cbn [v_width].
  pose proof (half_up_lt (v_width s) ltac:(lia)). lia.
Qed.

Lemma verify_honest sha256 leaves root index leaf steps :
  merkle_root sha256 leaves = Ok root -> leaves !! index = Some leaf ->
  merkle_proof_steps sha256 leaves index = Ok steps ->
  verify_proof sha256 (Z.of_nat index) (blen leaves) (leaf_hash sha256 leaf.2) steps root
  = Ok tt.
Proof.
  intros [(Hne & Hmax & _) Hr]%merkle_root_inv Hleaf Hs.
  pose proof (lookup_lt_Some _ _ _ Hleaf) as Hi. unfold verify_proof, blen in *.
  rewrite (proj2 (Z.eqb_neq _ _)), (proj2 (Z.ltb_ge _ _)), (proj2 (Z.leb_gt _ _)) by lia.
  rewrite !Nat2Z.id. cbn [orb].
  destruct (verify_loop_complete sha256 (length leaves) (length leaves) (length leaves)
    (leaf_level sha256 leaves)
    (Verifier (leaf_hash sha256 leaf.2) index (length leaves) 0 0) steps root)
    as [lv Hv]; rewrite ?leaf_level_length; cbn [v_idx v_acc v_width v_used]; try done; try lia.
  - unfold leaf_level. change (List.map ?f ?l) with (f <$> l).
    by rewrite list_lookup_fmap, Hleaf.
  - rewrite Hv. unfold mbind, result_bind. cbn [v_idx v_acc v_width v_used].
    rewrite Nat.eqb_refl. simpl. by rewrite decide_True.
Qed.

Lemma verify_sound sha256 leaves root index h steps :
  (forall x, length (sha256 x) = 32%nat) ->
  merkle_root sha256 leaves = Ok root -> 0 <= index -> length h = 32%nat ->
  Forall (fun step => forall sib, step.2 = Some sib -> length sib = 32%nat) steps ->
  verify_proof sha256 index (blen leaves) h steps root = Ok tt ->
  (exists leaf, leaves !! Z.to_nat index = Some leaf /\ h = leaf_hash sha256 leaf.2
     /\ merkle_proof_steps sha256 leaves (Z.to_nat index) = Ok steps)
  \/ collision sha256
       (tree_preimages sha256 (length leaves) (leaf_level sha256 leaves))
       (path_preimages sha256 (length leaves) steps
          (Verifier h (Z.to_nat index) (length leaves) 0 0)).
Proof.
  intros Hsha [_ Hr]%merkle_root_inv Hi Hh Hsteps. unfold verify_proof, blen.
  case_match; [done|]. destruct (Z.leb_spec (Z.of_nat (length leaves)) index); [done|].
  rewrite Nat2Z.id. intros (s & Hv & Hs)%result_bind_ok. repeat (case_match; [done|]).
  destruct (decide (v_acc s = root)) as [Hroot|]; [|done].
  apply (verify_loop_sound sha256 _ (length leaves) (leaf_level sha256 leaves) _ _ root) in Hv
    as [_ [[Hl Hp]|Hc]]; cbn [v_idx v_acc v_width v_used] in *; try done;
    [|by right|by apply leaf_level_32|by rewrite leaf_level_length
     |rewrite leaf_level_length; lia].
  left. unfold leaf_level in Hl. change (List.map ?f ?l) with (f <$> l) in Hl.
  rewrite list_lookup_fmap in Hl. apply fmap_Some in Hl as (leaf & Hleaf & ->).
  exists leaf. split_and!; [done|done|]. unfold merkle_proof_steps. rewrite Hp. simpl.
  rewrite Nat.sub_0_r. repeat match goal with H : negb _ = false |- _ =>
    apply negb_false_iff, Nat.eqb_eq in H end.
  match goal with H : v_used s = _ |- _ => rewrite H end. by rewrite firstn_all.
Qed.

(** ** The properties *)

(** A hash to run witnesses with; it is 32 bytes long, as SHA-256 is. *)
Definition toy_sha256 (x : bytes) : bytes :=
  be_bytes 32 (blen x).

Lemma toy_sha256_length x : length (toy_sha256 x) = 32%nat.
Proof. apply length_be_bytes. Qed.

Definition sample_id (n : Z) : bytes := be_bytes 16 n.
Definition sample_leaves : list EpochLeaf :=
  [(sample_id 1, sample_id 1, [Byte.x01]); (sample_id 1, sample_id 2, [Byte.x02]);
   (sample_id 1, sample_id 5, [Byte.x03])].

(** [merkle_root] returns a root for exactly the leaf sets that are not
    empty, not larger than the maximum and in strictly ascending order of
    (tenant, profile), so without duplicates; for any other it returns an error,
    and it never panics or loops. *)
Theorem merkle_root_accepts sha256 leaves :
  (leaves_ok leaves /\ exists root, merkle_root sha256 leaves = Ok root)
  \/ (~ leaves_ok leaves /\ exists e, merkle_root sha256 leaves = Err e).
Proof.
  destruct (merkle_root sha256 leaves) as [root|e|c] eqn:E.
  - left. apply merkle_root_inv in E as E'. naive_solver.
  - right. split; [|eauto]. intros [root Hr]%(merkle_root_of_ok sha256). congruence.
  - exfalso. unfold merkle_root in E. case_decide as Hne; [done|]. case_match; [done|].
    revert E. apply safe_bind; [apply check_order_safe|]. intros [] _.
    destruct (reduce_total sha256 (length leaves) (leaf_level sha256 leaves)) as [root ->];
      [by destruct leaves|rewrite leaf_level_length; lia|done].
Qed.

(** Completeness: the proof [merkle_proof_steps] builds for a leaf of an
    accepted set verifies against the root of the set. *)
Theorem merkle_proof_verifies sha256 leaves root index leaf :
  merkle_root sha256 leaves = Ok root -> leaves !! index = Some leaf ->
  exists steps,
    merkle_proof_steps sha256 leaves index = Ok steps
    /\ verify_proof sha256 (Z.of_nat index) (blen leaves) (leaf_hash sha256 leaf.2) steps root
       = Ok tt.
Proof.
  intros Hr Hleaf. pose proof (lookup_lt_Some _ _ _ Hleaf) as Hi.
  destruct (proof_steps_total sha256 (length leaves) (leaf_level sha256 leaves) index)
    as [steps Hs]; [rewrite leaf_level_length; lia..|].
  exists steps. split; [done|]. by apply verify_honest.
Qed.

Definition sample_root : bytes :=
  match merkle_root toy_sha256 sample_leaves with Ok r => r | _ => [] end.

Lemma merkle_proof_verifies_witness :
  exists steps,
    merkle_proof_steps toy_sha256 sample_leaves 2 = Ok steps
    /\ verify_proof toy_sha256 (Z.of_nat 2) (blen sample_leaves)
         (leaf_hash toy_sha256 [Byte.x03]) steps sample_root = Ok tt.
Proof.
  apply (merkle_proof_verifies toy_sha256 sample_leaves sample_root 2
    (sample_id 1, sample_id 5, [Byte.x03])).
  - vm_compute. reflexivity.
  - reflexivity.
Defined.

(** Soundness: a proof accepted for an index under the root of a leaf set is
    the honest proof of the leaf at that index, or the verifier and the tree
    hashed two different byte strings to one value. *)
Theorem merkle_proof_sound sha256 leaves root index h steps :
  (forall x, length (sha256 x) = 32%nat) ->
  merkle_root sha256 leaves = Ok root -> 0 <= index -> length h = 32%nat ->
  Forall (fun step => forall sib, step.2 = Some sib -> length sib = 32%nat) steps ->
  verify_proof sha256 index (blen leaves) h steps root = Ok tt ->
  (exists leaf, leaves !! Z.to_nat index = Some leaf /\ h = leaf_hash sha256 leaf.2
     /\ merkle_proof_steps sha256 leaves (Z.to_nat index) = Ok steps)
  \/ collision sha256
       (tree_preimages sha256 (length leaves) (leaf_level sha256 leaves))
       (path_preimages sha256 (length leaves) steps
          (Verifier h (Z.to_nat index) (length leaves) 0 0)).
Proof. apply verify_sound. Qed.

Definition sample_steps : list ProofStep :=
  match merkle_proof_steps toy_sha256 sample_leaves 0 with Ok l => l | _ => [] end.

Lemma merkle_proof_sound_witness :
  (exists leaf, sample_leaves !! Z.to_nat 0 = Some leaf /\
     leaf_hash toy_sha256 [Byte.x01] = leaf_hash toy_sha256 leaf.2
     /\ merkle_proof_steps toy_sha256 sample_leaves (Z.to_nat 0) = Ok sample_steps)
  \/ collision toy_sha256
       (tree_preimages toy_sha256 3 (leaf_level toy_sha256 sample_leaves))
       (path_preimages toy_sha256 3 sample_steps
          (Verifier (leaf_hash toy_sha256 [Byte.x01]) (Z.to_nat 0) 3 0 0)).
Proof.
  apply (merkle_proof_sound toy_sha256 sample_leaves sample_root 0
    (leaf_hash toy_sha256 [Byte.x01]) sample_steps toy_sha256_length).
  - vm_compute. reflexivity.
  - apply Z.le_refl.
  - apply toy_sha256_length.
  - repeat constructor; intros sib H; injection H as <-; vm_compute; reflexivity.
  - vm_compute. reflexivity.
Defined.

(** A root commits to its leaves: two accepted sets of one size with one
    root hold the same leaf bytes, or two different preimages they hashed
    collide. *)
Theorem merkle_root_binds sha256 l1 l2 root :
  (forall x, length (sha256 x) = 32%nat) ->
  merkle_root sha256 l1 = Ok root -> merkle_root sha256 l2 = Ok root ->
  length l1 = length l2 ->
  List.map snd l1 = List.map snd l2
  \/ collision sha256 (set_preimages sha256 l1) (set_preimages sha256 l2).
Proof.
  intros Hsha [_ H1]%merkle_root_inv [_ H2]%merkle_root_inv Hl.
  apply (reduce_inj sha256 (length l1) (length l2) _ (leaf_level sha256 l2)) in H1
    as [Heq|Hc]; try done; [..|by apply leaf_level_32|by apply leaf_level_32].
  - unfold leaf_level in Heq.
    assert (forall l, List.map (fun leaf : EpochLeaf => leaf_hash sha256 leaf.2) l
              = List.map sha256 (leaf_preimages l)) as Hmap
      by (intros l; unfold leaf_preimages; by rewrite List.map_map).
    rewrite !Hmap in Heq. apply hashes_inj in Heq as [Heq|Hc].
    + left. by apply leaf_preimages_inj.
    + right. eapply collision_mono; [| |exact Hc]; unfold set_preimages; set_solver.
  - right. eapply collision_mono; [| |exact Hc]; unfold set_preimages; set_solver.
  - by rewrite !leaf_level_length.
Qed.

Lemma merkle_root_binds_witness :
  List.map snd sample_leaves = List.map snd sample_leaves
  \/ collision toy_sha256 (set_preimages toy_sha256 sample_leaves)
       (set_preimages toy_sha256 sample_leaves).
Proof.
  apply (merkle_root_binds toy_sha256 sample_leaves sample_leaves sample_root
    toy_sha256_length); vm_compute; reflexivity.
Defined.

(** [verify_proof] ends with a verdict on every input: it never panics and
    its loop never runs past its bound. *)
Theorem verify_proof_total sha256 index count h steps root :
  verify_proof sha256 index count h steps root = Ok tt
  \/ exists e, verify_proof sha256 index count h steps root = Err e.
Proof.
  assert (safe (verify_proof sha256 index count h steps root)) as H.
  { unfold verify_proof. case_match; [done|]. case_match; [done|]. apply safe_bind.
    - apply verify_loop_safe. cbn [v_width]. lia.
    - intros s _. repeat case_match; done. }
  destruct (verify_proof sha256 index count h steps root) as [[]|e|c]; [eauto..|].
  by specialize (H c).
Qed.
