(* ===== verification/Keys.v ===== *)
(** * Keys, signing input and profile labels (shared/src/keys.rs, signing.rs)

    The cryptographic crates are interfaces: [Aead] is ChaCha20-Poly1305 (the
    [chacha20poly1305] crate), [Ed25519] the [ed25519-dalek] crate; SHA-256 and
    HKDF-SHA256 are functions. Their laws state documented behaviour: decryption
    inverts encryption, an accepted ciphertext is the encryption of what it
    decrypts to (the scheme is deterministic and its tag is recomputed), the tag
    is 16 bytes. *)

From S2P Require Import Prelude Bytes Canonical CanonicalFacts CanonicalDecode CanonicalTheorems.

(** ** The crates *)

Class Aead := {
  aead_encrypt : forall (key nonce aad msg : bytes), option bytes;
  aead_decrypt : forall (key nonce aad ciphertext : bytes), option bytes;
}.

Class AeadLaws `{!Aead} : Prop := {
  aead_open_seal key nonce aad msg c :
    aead_encrypt key nonce aad msg = Some c -> aead_decrypt key nonce aad c = Some msg;
  aead_seal_open key nonce aad msg c :
    aead_decrypt key nonce aad c = Some msg -> aead_encrypt key nonce aad msg = Some c;
  aead_tag key nonce aad msg c :
    aead_encrypt key nonce aad msg = Some c -> blen c = blen msg + 16;
}.

Class Ed25519 := {
  ed_sign : forall (sk msg : bytes), bytes;
  ed_public : forall sk : bytes, bytes;
  (** [VerifyingKey::from_bytes] accepts. *)
  ed_valid_key : forall vk : bytes, bool;
  (** [verify_strict] accepts. *)
  ed_verify_strict : forall (vk msg sig : bytes), bool;
}.

Class Ed25519Laws `{!Ed25519} : Prop := {
  ed_sign_length sk msg : blen (ed_sign sk msg) = 64;
  ed_public_length sk : blen (ed_public sk) = 32;
  ed_public_valid sk : ed_valid_key (ed_public sk) = true;
  ed_sign_verifies sk msg : ed_verify_strict (ed_public sk) msg (ed_sign sk msg) = true;
}.

(** ** Constants of keys.rs *)

Definition ENVELOPE_SUITE_ID_CHACHA20POLY1305_STREAM : Z := 1.
Definition ENVELOPE_SUITE_ID_XCHACHA20POLY1305_STREAM_LE31 : Z := 2.
Definition WRAP_SUITE_ID_CHACHA20POLY1305 : Z := 1.
Definition ARCHIVE_FORMAT_ID_TAR : Z := 1.
Definition ARCHIVE_POLICY_ID_PROFILE_SNAPSHOT : Z := 1.
Definition COMPRESSION_ID_GZIP : Z := 1.
Definition DEK_LEN : Z := 32.
Definition WRAP_NONCE_LEN : Z := 12.
Definition STREAM_NONCE_PREFIX_LEN : Z := 7.
Definition AEAD_TAG_LEN : Z := 16.
Definition L_SIGNING_KEY_ID := nul_label "SHARDX-SIGNING-KEY-ID-V2".
Definition L_HPKE_KEY_ID := nul_label "SHARDX-HPKE-KEY-ID-V2".
Definition L_TENANT_ROOT_KEY_ID := nul_label "SHARDX-TENANT-ROOT-KEY-ID-V2".
Definition L_PROFILE_LABEL := nul_label "SHARDX-PROFILE-LABEL-V2".
Definition L_PROFILE_LABEL_KEY := nul_label "SHARDX-PROFILE-LABEL-KEY-V2".
Definition LABEL_BUCKETS : list Z := [64; 256; 1024].
Definition MAX_LABEL_LEN : Z := 1024 - 2.

Inductive KeyError :=
| KeyAead
| KeyBadLength (field : string) (got : Z).

(** ** Key identities *)

Section ids.
Context (sha256 : bytes -> bytes).

Definition signing_key_id (vk_bytes : bytes) : bytes :=
  domain_hash sha256 L_SIGNING_KEY_ID vk_bytes.
Definition hpke_key_id (pk_bytes : bytes) : bytes :=
  domain_hash sha256 L_HPKE_KEY_ID pk_bytes.
Definition root_key_id (trk : bytes) : bytes :=
  domain_hash sha256 L_TENANT_ROOT_KEY_ID trk.

End ids.

(** ** Signing input and strict verification (signing.rs) *)

Inductive SignError :=
| SignSignature
| SignBadLength (field : string) (got : Z)
| NonCanonicalKeyEncoding.

Definition SIGNATURE_SUITE_ID_ED25519 : Z := 1.
Definition SIGNATURE_VERSION : Z := 1.
Definition ED25519_SIG_LEN : Z := 64.

(** The cast of the length to [u32] is the [mod 2^32] of [be_bytes 4]. *)
Definition signed_record_signing_input (tbs_bytes : bytes) : bytes :=
  as_bytes L_SIGNED_RECORD ++ be_bytes 4 (blen tbs_bytes) ++ tbs_bytes.

Section signing.
Context `{!Ed25519}.

Definition sign_tbs (sk tbs_bytes : bytes) : bytes :=
  ed_sign sk (signed_record_signing_input tbs_bytes).

Definition verify_message_strict (vk_bytes msg sig_bytes : bytes) : result SignError unit :=
  if negb (blen vk_bytes =? 32) then Err (SignBadLength "verifying_key" (blen vk_bytes))
  else if negb (blen sig_bytes =? ED25519_SIG_LEN) then
    Err (SignBadLength "signature_bytes" (blen sig_bytes))
  else if negb (ed_valid_key vk_bytes) then Err NonCanonicalKeyEncoding
  else if ed_verify_strict vk_bytes msg sig_bytes then Ok tt
  else Err SignSignature.

Definition verify_tbs (vk_bytes tbs_bytes sig_bytes : bytes) : result SignError unit :=
  verify_message_strict vk_bytes (signed_record_signing_input tbs_bytes) sig_bytes.

End signing.

(** The container [build_signed_container] assembles. *)
Module SignedContainer.

Record t := mk {
  tbs_bytes : bytes;
  core_bytes : bytes;
  signed_container_hash : bytes;
  exact_bytes : bytes;
  exact_bytes_sha256 : bytes;
  signature_bytes : bytes }.

End SignedContainer.

Definition build_signed_container `{!Ed25519} (sha256 : bytes -> bytes) (sk : bytes)
    (tbs_fields : list (string * Value)) : SignedContainer.t :=
  let tbs_bytes := encode (c.m tbs_fields) in
  let signature := sign_tbs sk tbs_bytes in
  let core_fields := tbs_fields ++ [("signature_bytes", c.b signature)] in
  let core_bytes := encode (c.m core_fields) in
  let signed_container_hash := domain_hash sha256 L_SIGNED_CONTAINER core_bytes in
  let outer_fields :=
    core_fields ++ [("signed_container_hash", c.b signed_container_hash)] in
  let exact_bytes := encode (c.m outer_fields) in
  SignedContainer.mk tbs_bytes core_bytes signed_container_hash exact_bytes
    (sha256 exact_bytes) signature.

(** ** DEK wrapping and profile labels *)

Section wrap.
Context `{!Aead} (hkdf_sha256 : bytes -> bytes -> bytes).

Definition wrap_dek (fkek nonce dek context_bytes : bytes) : result KeyError bytes :=
  ok_or (aead_encrypt fkek nonce context_bytes dek) KeyAead.

Definition unwrap_dek (fkek nonce wrapped context_bytes : bytes) : result KeyError bytes :=
  pt ← ok_or (aead_decrypt fkek nonce context_bytes wrapped) KeyAead;
  if blen pt =? DEK_LEN then Ok pt else Err (KeyBadLength "dek" (blen pt)).

Definition label_context (domain : string) (tenant_id fleet_id profile_id : bytes)
    (generation : Z) : bytes :=
  as_bytes domain ++ tenant_id ++ fleet_id ++ profile_id ++ be_bytes 8 generation.

(** HKDF-SHA256 with no salt, expanded to 32 bytes. *)
Definition label_key (fkek tenant_id fleet_id profile_id : bytes) (generation : Z) : bytes :=
  hkdf_sha256 fkek (label_context L_PROFILE_LABEL_KEY tenant_id fleet_id profile_id generation).

(** The smallest bucket that holds [len] bytes. *)
Definition bucket_of (len : Z) : option Z := List.find (fun b => len <=? b) LABEL_BUCKETS.

(** [vec![0; bucket]] with the length and the label copied over its front. *)
Definition pad_label (bucket : Z) (label : bytes) : bytes :=
  be_bytes 2 (blen label) ++ label
  ++ replicate (Z.to_nat (bucket - 2 - blen label)) Byte.x00.

Definition seal_label (fkek nonce tenant_id fleet_id profile_id : bytes) (generation : Z)
    (label : bytes) : result KeyError bytes :=
  if (blen label =? 0) || (MAX_LABEL_LEN <? blen label) then
    Err (KeyBadLength "label" (blen label))
  else
    bucket ← ok_or (bucket_of (blen label + 2)) (KeyBadLength "label" (blen label));
    let padded := pad_label bucket label in
    let key := label_key fkek tenant_id fleet_id profile_id generation in
    let aad := label_context L_PROFILE_LABEL tenant_id fleet_id profile_id generation in
    sealed ← ok_or (aead_encrypt key nonce aad padded) KeyAead;
    mret (nonce ++ sealed).

(** The length field of a padded label, if the padding around it is right. *)
Definition padded_len (padded : bytes) : option Z :=
  match padded with
  | b0 :: b1 :: rest =>
      let l := of_be [b0; b1] in
      if (0 <? l) && bool_decide (bucket_of (l + 2) = Some (blen padded))
         && List.forallb (fun b => b2z b =? 0) (drop (Z.to_nat (2 + l)) padded)
      then Some l else None
  | _ => None
  end.

Definition open_label (fkek tenant_id fleet_id profile_id : bytes) (generation : Z)
    (sealed : bytes) : result KeyError bytes :=
  if blen sealed <? WRAP_NONCE_LEN + AEAD_TAG_LEN then
    Err (KeyBadLength "label_ciphertext" (blen sealed))
  else
    let nonce := take (Z.to_nat WRAP_NONCE_LEN) sealed in
    let body := drop (Z.to_nat WRAP_NONCE_LEN) sealed in
    let key := label_key fkek tenant_id fleet_id profile_id generation in
    let aad := label_context L_PROFILE_LABEL tenant_id fleet_id profile_id generation in
    padded ← ok_or (aead_decrypt key nonce aad body) KeyAead;
    len ← ok_or (padded_len padded) (KeyBadLength "label" (blen padded));
    mret (take (Z.to_nat len) (drop 2 padded)).

End wrap.

(** ** Facts *)

Lemma bucket_of_Some n b :
  bucket_of n = Some b <-> (b = 64 /\ n <= 64) \/ (b = 256 /\ 64 < n <= 256)
                           \/ (b = 1024 /\ 256 < n <= 1024).
Proof.
  unfold bucket_of, LABEL_BUCKETS, List.find.
  destruct (Z.leb_spec n 64), (Z.leb_spec n 256), (Z.leb_spec n 1024); split;
    try (intros [= <-]); try done; try lia; intros; f_equal; lia.
Qed.

Lemma blen_replicate {A} n (x : A) : 0 <= n -> blen (replicate (Z.to_nat n) x) = n.
Proof. intros H. unfold blen. rewrite length_replicate. lia. Qed.

Lemma zeros_replicate l :
  List.forallb (fun b => b2z b =? 0) l = true -> l = replicate (length l) Byte.x00.
Proof.
  induction l as [|b l IH]; simpl; [done|]. intros [Hb Hl]%andb_true_iff.
  rewrite <- (IH Hl). f_equal. apply b2z_inj. by apply Z.eqb_eq in Hb.
Qed.

Lemma forallb_replicate n : List.forallb (fun b => b2z b =? 0) (replicate n Byte.x00) = true.
Proof. by induction n. Qed.

(** What [pad_label] writes, [padded_len] reads. *)
Lemma padded_len_pad b label :
  0 < blen label -> bucket_of (blen label + 2) = Some b ->
  padded_len (pad_label b label) = Some (blen label) /\ blen (pad_label b label) = b
  /\ take (length label) (drop 2 (pad_label b label)) = label.
Proof.
  intros H0 Hb. pose proof Hb as Hb'. apply bucket_of_Some in Hb'.
  assert (blen (pad_label b label) = b) as Hl.
  { unfold pad_label. rewrite !blen_app, blen_replicate by lia.
    unfold blen at 1. rewrite length_be_bytes. lia. }
  split; [|split; [done|]].
  - pose proof (length_be_bytes 2 (blen label)) as H2.
    assert (of_be (be_bytes 2 (blen label)) = blen label) as Hof
      by (apply of_be_be_bytes; change (256 ^ Z.of_nat 2) with 65536; lia).
    unfold pad_label in *. destruct (be_bytes 2 (blen label)) as [|b0 [|b1 [|]]]; try done.
    cbn [app] in *. unfold padded_len. rewrite Hof, Hl, (proj2 (Z.ltb_lt _ _)) by done.
    rewrite bool_decide_true by by rewrite Hb.
    replace (Z.to_nat (2 + blen label)) with (2 + length label)%nat by (unfold blen; lia).
    cbn [Nat.add drop]. by rewrite drop_app_length, forallb_replicate.
  - unfold pad_label. rewrite drop_app_length' by by rewrite length_be_bytes.
    by rewrite take_app_length.
Qed.

Lemma padded_len_inv p l :
  padded_len p = Some l ->
  let label := take (Z.to_nat l) (drop 2 p) in
  blen label = l /\ 0 < l /\ bucket_of (l + 2) = Some (blen p) /\ p = pad_label (blen p) label.
Proof.
  intros H. destruct p as [|b0 [|b1 rest]]; [done..|]. cbn [padded_len] in H.
  case_match eqn:E; [|done]. injection H as <-.
  apply andb_true_iff in E as [[H0%Z.ltb_lt Hb%bool_decide_eq_true]%andb_true_iff Hz].
  set (l := of_be [b0; b1]) in *. cbn zeta. change (drop 2 (b0 :: b1 :: rest)) with rest.
  pose proof Hb as Hb'. apply bucket_of_Some in Hb'.
  rewrite !blen_cons in Hb'.
  assert (blen (take (Z.to_nat l) rest) = l) as Hl.
  { unfold blen in *. rewrite length_take_le by lia. lia. }
  split_and!; [done..|]. unfold pad_label. rewrite Hl.
  pose proof (be_bytes_of_be [b0; b1]) as Hbe. cbn [length] in Hbe. fold l in Hbe. rewrite Hbe.
  cbn [app]. do 2 f_equal. rewrite <- (take_drop (Z.to_nat l) rest) at 1. f_equal.
  replace (Z.to_nat (2 + l)) with (S (S (Z.to_nat l))) in Hz by lia. cbn [drop] in Hz.
  rewrite (zeros_replicate _ Hz) at 1. f_equal. rewrite length_drop, !blen_cons.
  unfold blen. lia.
Qed.

(** A profile label opens exactly when it was sealed: [open_label] accepts a
    ciphertext with a label exactly when [seal_label] makes that ciphertext from
    that label and some nonce, under the same key, tenant, fleet, profile and
    generation. *)
Theorem label_open_iff_seal `{HA : !Aead, !AeadLaws} hkdf fkek t f p g sealed label :
  open_label hkdf fkek t f p g sealed = Ok label <->
  exists nonce, blen nonce = WRAP_NONCE_LEN
    /\ seal_label hkdf fkek nonce t f p g label = Ok sealed.
Proof.
  unfold open_label, seal_label, WRAP_NONCE_LEN, AEAD_TAG_LEN, MAX_LABEL_LEN.
  change (Z.to_nat 12) with 12%nat. split.
  - destruct (Z.ltb_spec (blen sealed) (12 + 16)) as [|Hlen]; [done|].
    intros (padded & Hd%ok_or_ok & Hr)%result_bind_ok.
    apply result_bind_ok in Hr as (l & Hl%ok_or_ok & [= <-]).
    apply aead_seal_open in Hd. apply padded_len_inv in Hl as (Hbl & Hpos & Hb & Hp).
    exists (take 12 sealed). split; [unfold blen in *; rewrite length_take_le by lia; lia|].
    rewrite Hbl. pose proof Hb as Hb'. apply bucket_of_Some in Hb'.
    rewrite (proj2 (Z.eqb_neq _ _)), (proj2 (Z.ltb_ge _ _)) by lia. cbn [orb].
    rewrite Hb. cbn [ok_or]. unfold mbind, result_bind. rewrite <- Hp, Hd. cbn.
    by rewrite take_drop.
  - intros (nonce & Hn & Hr). case_match eqn:E; [done|]. apply orb_false_iff in E as [E0 E1].
    apply result_bind_ok in Hr as (b & Hb%ok_or_ok & Hr).
    apply result_bind_ok in Hr as (ct & Hc%ok_or_ok & [= <-]).
    destruct (padded_len_pad b label) as (Hp & Hbl & Ht);
      [pose proof (blen_nonneg label); lia|done|].
    pose proof (aead_tag _ _ _ _ _ Hc) as Htag. apply aead_open_seal in Hc.
    pose proof Hb as Hb'. apply bucket_of_Some in Hb'.
    rewrite blen_app, (proj2 (Z.ltb_ge _ _)) by lia.
    rewrite take_app_length', drop_app_length' by (unfold blen in Hn; lia).
    rewrite Hc. cbn [ok_or]. unfold mbind, result_bind. rewrite Hp. cbn [ok_or].
    replace (Z.to_nat (blen label)) with (length label) by (unfold blen; lia). by rewrite Ht.
Qed.

(** A sealed label has one of three sizes, fixed by the bucket of the label,
    and fits the 4096 bytes a publish-create request may carry. *)
Theorem sealed_label_size `{HA : !Aead, !AeadLaws} hkdf fkek nonce t f p g label sealed :
  blen nonce = WRAP_NONCE_LEN -> seal_label hkdf fkek nonce t f p g label = Ok sealed ->
  exists b, bucket_of (blen label + 2) = Some b /\ blen sealed = 12 + b + 16
            /\ 1 <= blen sealed <= 4096.
Proof.
  unfold seal_label, WRAP_NONCE_LEN. intros Hn Hr. case_match eqn:E; [done|].
  apply orb_false_iff in E as [E0 E1].
  apply result_bind_ok in Hr as (b & Hb%ok_or_ok & Hr).
  apply result_bind_ok in Hr as (ct & Hc%ok_or_ok & [= <-]).
  destruct (padded_len_pad b label) as (_ & Hbl & _);
    [pose proof (blen_nonneg label); lia|done|].
  apply aead_tag in Hc. apply bucket_of_Some in Hb as Hb'.
  exists b. rewrite blen_app. split_and!; [done|lia..].
Qed.

(** ** A concrete scheme, for witnesses

    Not a cipher: it appends the total length of what it was given. *)
Definition toy_tag (key nonce aad msg : bytes) : bytes :=
  be_bytes 16 (blen key + blen nonce + blen aad + blen msg).

Lemma toy_tag_length key nonce aad msg : length (toy_tag key nonce aad msg) = 16%nat.
Proof. apply length_be_bytes. Qed.

#[export] Instance toy_aead : Aead := {
  aead_encrypt key nonce aad msg := Some (msg ++ toy_tag key nonce aad msg);
  aead_decrypt key nonce aad ct :=
    let msg := take (length ct - 16) ct in
    if decide (ct = msg ++ toy_tag key nonce aad msg) then Some msg else None;
}.

#[export] Instance toy_aead_laws : AeadLaws.
Proof.
  split; simpl; intros key nonce aad msg ct.
  - intros [= <-]. rewrite length_app, toy_tag_length, Nat.add_sub, take_app_length.
    by rewrite decide_True.
  - case_decide as E; [|done]. intros [= <-]. by rewrite <- E.
  - intros [= <-]. rewrite blen_app. unfold blen at 2. by rewrite toy_tag_length.
Qed.

(** A signature scheme anyone can forge: a number made of the public key and the
    length of the message. *)
Definition toy_signature (vk msg : bytes) : bytes :=
  be_bytes 64 (of_be vk + blen msg).

#[export] Instance toy_ed25519 : Ed25519 := {
  ed_sign sk msg := toy_signature (be_bytes 32 (of_be sk)) msg;
  ed_public sk := be_bytes 32 (of_be sk);
  ed_valid_key vk := true;
  ed_verify_strict vk msg sig := bool_decide (sig = toy_signature vk msg);
}.

#[export] Instance toy_ed25519_laws : Ed25519Laws.
Proof.
  split.
  - intros sk msg. exact (f_equal Z.of_nat (length_be_bytes 64 _)).
  - intros sk. exact (f_equal Z.of_nat (length_be_bytes 32 _)).
  - done.
  - intros sk msg. by apply bool_decide_eq_true.
Qed.

Definition sample_label : bytes := [Byte.x41; Byte.x42; Byte.x43].
Definition sample_nonce : bytes := replicate 12 Byte.x07.
Definition sample_sealed : bytes :=
  match seal_label (fun k i => k) [Byte.x01] sample_nonce [] [] [] 3 sample_label with
  | Ok b => b | _ => []
  end.

Lemma label_open_iff_seal_witness :
  open_label (fun k i => k) [Byte.x01] [] [] [] 3 sample_sealed = Ok sample_label.
Proof.
  apply (label_open_iff_seal (HA := toy_aead) (fun k i => k) [Byte.x01] [] [] [] 3
    sample_sealed sample_label).
  exists sample_nonce. split; vm_compute; reflexivity.
Defined.

Lemma sealed_label_size_witness :
  exists b, bucket_of (blen sample_label + 2) = Some b /\ blen sample_sealed = 12 + b + 16
            /\ 1 <= blen sample_sealed <= 4096.
Proof.
  apply (sealed_label_size (HA := toy_aead) (fun k i => k) [Byte.x01] sample_nonce [] [] [] 3
    sample_label sample_sealed); vm_compute; reflexivity.
Defined.

(** ** Key identities *)

Inductive key_role := SigningKey | HpkeKey | TenantRootKey.

Definition role_label (r : key_role) : string :=
  match r with
  | SigningKey => L_SIGNING_KEY_ID
  | HpkeKey => L_HPKE_KEY_ID
  | TenantRootKey => L_TENANT_ROOT_KEY_ID
  end.

Definition key_id (sha256 : bytes -> bytes) (r : key_role) : bytes -> bytes :=
  match r with
  | SigningKey => signing_key_id sha256
  | HpkeKey => hpke_key_id sha256
  | TenantRootKey => root_key_id sha256
  end.

Lemma role_preimage_inj r1 r2 x y :
  domain_preimage (role_label r1) x = domain_preimage (role_label r2) y -> r1 = r2 /\ x = y.
Proof.
  intros H. assert (r1 = r2) as <-.
  { unfold domain_preimage in H. apply is_prefix_app in H.
    destruct r1, r2; try done; destruct H as [H|H]; vm_compute in H; discriminate H. }
  split; [done|]. unfold domain_preimage in H. apply app_inv_head in H.
  by apply app_inj_1 in H as [_ ?]; [|by rewrite !length_be_bytes].
Qed.

(** Two keys with one identifier are one key in one role, or SHA-256 maps
    their two different preimages to one value. *)
Theorem key_id_binds sha256 r1 r2 x y :
  key_id sha256 r1 x = key_id sha256 r2 y ->
  (r1 = r2 /\ x = y)
  \/ (domain_preimage (role_label r1) x <> domain_preimage (role_label r2) y
      /\ sha256 (domain_preimage (role_label r1) x)
         = sha256 (domain_preimage (role_label r2) y)).
Proof.
  intros H.
  destruct (decide (domain_preimage (role_label r1) x = domain_preimage (role_label r2) y))
    as [Heq|Hne]; [left; by apply role_preimage_inj|right].
  split; [done|]. by destruct r1, r2.
Qed.

Lemma key_id_binds_witness :
  (SigningKey = SigningKey /\ sample_label = sample_label)
  \/ (domain_preimage (role_label SigningKey) sample_label
      <> domain_preimage (role_label SigningKey) sample_label
      /\ (fun x => x) (domain_preimage (role_label SigningKey) sample_label)
         = (fun x => x) (domain_preimage (role_label SigningKey) sample_label)).
Proof. apply (key_id_binds (fun x => x) SigningKey SigningKey); reflexivity. Defined.

(** A wrapped DEK unwraps exactly under the key, nonce and context bytes it
    was wrapped with: [unwrap_dek] returns [dek] exactly when [wrap_dek] makes
    those bytes from it. *)
Theorem dek_unwrap_iff_wrap `{HA : !Aead, !AeadLaws} fkek nonce dek wrapped context :
  unwrap_dek fkek nonce wrapped context = Ok dek <->
  blen dek = DEK_LEN /\ wrap_dek fkek nonce dek context = Ok wrapped.
Proof.
  unfold unwrap_dek, wrap_dek. rewrite ok_or_ok. split.
  - intros (pt & Hd%ok_or_ok & Hp)%result_bind_ok. case_match eqn:E; [|done].
    injection Hp as ->. split; [lia|by apply aead_seal_open].
  - intros [Hl He%aead_open_seal]. rewrite He. simpl. by rewrite (proj2 (Z.eqb_eq _ _)).
Qed.

Lemma dek_unwrap_iff_wrap_witness :
  unwrap_dek [Byte.x01] sample_nonce
    (replicate 32 Byte.x05 ++ toy_tag [Byte.x01] sample_nonce [Byte.x09] (replicate 32 Byte.x05))
    [Byte.x09] = Ok (replicate 32 Byte.x05).
Proof.
  apply (dek_unwrap_iff_wrap (HA := toy_aead)). split; vm_compute; reflexivity.
Defined.

(** Signing, then verifying under the public key. *)
Lemma sign_verify `{HE : !Ed25519, !Ed25519Laws} sk tbs :
  verify_tbs (ed_public sk) tbs (sign_tbs sk tbs) = Ok tt.
Proof.
  unfold verify_tbs, verify_message_strict, sign_tbs, ED25519_SIG_LEN.
  by rewrite ed_public_length, ed_sign_length, ed_public_valid, ed_sign_verifies.
Qed.
