(* ===== verification/Envelope.v ===== *)
(** * Envelope suite 1 (shared/src/envelope.rs)

    The DEK slot, the pre-encryption intent and the STREAM frames. The slot
    context refers to nothing later; the intent commits to the slot; every frame
    is sealed under the intent's hash, its counter and its final flag. The
    restore-epoch tree of the same file is in [Merkle]. *)

From S2P Require Import Prelude Bytes Canonical CanonicalFacts CanonicalDecode CanonicalTheorems.
From S2P Require Import RecordFields WireMap Keys.

Definition STREAM_NONCE_LEN : Z := 12.
Definition L_ENVELOPE_FRAME := nul_label "SHARDX-ENVELOPE-FRAME-V2".

(** ** DEK slot *)

Module SlotMaterial.

Record t := mk {
  context_bytes : bytes;
  context_hash : bytes;
  exact_slot_bytes : bytes;
  dek_slot_sha256 : bytes }.

End SlotMaterial.

Module SlotIds.

Record t := mk {
  tenant_id : bytes;
  fleet_id : bytes;
  profile_id : bytes;
  snapshot_id : bytes;
  fkek_key_id : bytes;
  envelope_context_nonce : bytes }.

End SlotIds.

Definition slot_context (ids : SlotIds.t) (key_generation : Z) : list (string * Value) :=
  [("domain", c.t "shardx.envelope.dek-slot-context.v2");
   ("version", c.u 2);
   ("slot_index", c.u 0);
   ("tenant_id", c.b (SlotIds.tenant_id ids));
   ("fleet_id", c.b (SlotIds.fleet_id ids));
   ("profile_id", c.b (SlotIds.profile_id ids));
   ("snapshot_id", c.b (SlotIds.snapshot_id ids));
   ("fkek_key_id", c.b (SlotIds.fkek_key_id ids));
   ("key_generation", c.u key_generation);
   ("wrap_suite_id", c.u WRAP_SUITE_ID_CHACHA20POLY1305);
   ("envelope_context_nonce", c.b (SlotIds.envelope_context_nonce ids))].

Section slot.
Context `{HA : !Aead} (sha256 : bytes -> bytes).

Definition build_dek_slot (fkek dek wrap_nonce : bytes) (ids : SlotIds.t) (key_generation : Z)
    : result KeyError SlotMaterial.t :=
  let context_bytes := encode (c.m (slot_context ids key_generation)) in
  let context_hash := domain_hash sha256 L_DEK_SLOT_CONTEXT context_bytes in
  wrapped ← wrap_dek fkek wrap_nonce dek context_bytes;
  let slot :=
    c.m [("domain", c.t "shardx.envelope.dek-slot.v2");
         ("version", c.u 2);
         ("slot_index", c.u 0);
         ("canonical_dek_slot_context_bytes", c.b context_bytes);
         ("dek_slot_context_hash", c.b context_hash);
         ("wrap_nonce_bytes", c.b wrap_nonce);
         ("wrapped_dek_bytes", c.b wrapped)] in
  let exact_slot_bytes := encode slot in
  let dek_slot_sha256 := domain_hash sha256 L_DEK_SLOT exact_slot_bytes in
  mret (SlotMaterial.mk context_bytes context_hash exact_slot_bytes dek_slot_sha256).

End slot.

(** ** Envelope intent *)

Module IntentIds.

Record t := mk {
  snapshot_id : bytes;
  tenant_id : bytes;
  fleet_id : bytes;
  profile_id : bytes;
  lease_id : bytes;
  manifest_replay_id : bytes;
  server_instance_id : bytes;
  fkek_key_id : bytes;
  intended_signer_signing_key_id : bytes }.

End IntentIds.

Module IntentNumbers.

Record t := mk {
  target_version : Z;
  base_version : Z;
  fencing_token : Z;
  key_generation : Z;
  restore_epoch : Z;
  frame_plaintext_size : Z;
  max_plaintext_size : Z;
  max_ciphertext_size : Z;
  created_at_ms : Z }.

End IntentNumbers.

Module IntentMaterial.

Record t := mk { exact_intent_bytes : bytes; intent_hash : bytes }.

End IntentMaterial.

Inductive IntentError :=
| NonSequentialVersion (base target : Z)
| GenesisHeadMismatch (base_version : Z) (has_prev : bool)
| OutOfBounds (field : string).

Definition intent_fields (ids : IntentIds.t) (nums : IntentNumbers.t) (envelope_suite_id : Z)
    (stream_nonce_prefix : bytes) (previous_signed_head_hash : option bytes)
    (slot : SlotMaterial.t) : list (string * Value) :=
  [("domain", c.t "shardx.envelope.intent.v2");
   ("version", c.u 2);
   ("snapshot_id", c.b (IntentIds.snapshot_id ids));
   ("tenant_id", c.b (IntentIds.tenant_id ids));
   ("fleet_id", c.b (IntentIds.fleet_id ids));
   ("profile_id", c.b (IntentIds.profile_id ids));
   ("lease_id", c.b (IntentIds.lease_id ids));
   ("manifest_replay_id", c.b (IntentIds.manifest_replay_id ids));
   ("target_version", c.u (IntentNumbers.target_version nums));
   ("base_version", c.u (IntentNumbers.base_version nums));
   ("fencing_token", c.u (IntentNumbers.fencing_token nums));
   ("key_generation", c.u (IntentNumbers.key_generation nums));
   ("fkek_key_id", c.b (IntentIds.fkek_key_id ids));
   ("preamble_version", c.u 2);
   ("envelope_suite_id", c.u envelope_suite_id);
   ("wrap_suite_id", c.u WRAP_SUITE_ID_CHACHA20POLY1305);
   ("archive_format_id", c.u ARCHIVE_FORMAT_ID_TAR);
   ("archive_policy_id", c.u ARCHIVE_POLICY_ID_PROFILE_SNAPSHOT);
   ("compression_id", c.u COMPRESSION_ID_GZIP);
   ("frame_plaintext_size", c.u (IntentNumbers.frame_plaintext_size nums));
   ("stream_nonce_prefix", c.b stream_nonce_prefix);
   ("final_frame_required", VBool true);
   ("max_plaintext_size", c.u (IntentNumbers.max_plaintext_size nums));
   ("max_ciphertext_size", c.u (IntentNumbers.max_ciphertext_size nums));
   ("created_at_ms", c.u (IntentNumbers.created_at_ms nums));
   ("intended_signer_signing_key_id", c.b (IntentIds.intended_signer_signing_key_id ids));
   ("server_instance_id", c.b (IntentIds.server_instance_id ids));
   ("restore_epoch", c.u (IntentNumbers.restore_epoch nums));
   ("dek_slot_context_hash", c.b (SlotMaterial.context_hash slot));
   ("dek_slot_sha256", c.b (SlotMaterial.dek_slot_sha256 slot))]
  ++ opt_entry "previous_signed_head_hash" c.b previous_signed_head_hash.

Section intent.
Context (sha256 : bytes -> bytes).

(** [base_version + 1] wraps around after [u64::MAX]; a build with overflow checks panics
    there instead. *)
Definition build_intent (ids : IntentIds.t) (nums : IntentNumbers.t) (envelope_suite_id : Z)
    (stream_nonce_prefix : bytes) (previous_signed_head_hash : option bytes)
    (slot : SlotMaterial.t) : result IntentError IntentMaterial.t :=
  if negb (IntentNumbers.target_version nums =? add_u64 (IntentNumbers.base_version nums) 1) then
    Err (NonSequentialVersion (IntentNumbers.base_version nums)
           (IntentNumbers.target_version nums))
  else if xorb (negb (is_some previous_signed_head_hash))
            (IntentNumbers.base_version nums =? 0) then
    Err (GenesisHeadMismatch (IntentNumbers.base_version nums)
           (is_some previous_signed_head_hash))
  else
    let exact_intent_bytes :=
      encode (c.m (intent_fields ids nums envelope_suite_id stream_nonce_prefix
                     previous_signed_head_hash slot)) in
    Ok (IntentMaterial.mk exact_intent_bytes
          (domain_hash sha256 L_ENVELOPE_INTENT exact_intent_bytes)).

Definition build_envelope_intent (ids : IntentIds.t) (nums : IntentNumbers.t)
    (stream_nonce_prefix : bytes) (previous_signed_head_hash : option bytes)
    (slot : SlotMaterial.t) : result IntentError IntentMaterial.t :=
  build_intent ids nums ENVELOPE_SUITE_ID_CHACHA20POLY1305_STREAM stream_nonce_prefix
    previous_signed_head_hash slot.

End intent.

(** ** STREAM framing *)

Definition flag_byte (is_final : bool) : byte := if is_final then Byte.x01 else Byte.x00.

Definition stream_nonce (prefix : bytes) (counter : Z) (is_final : bool) : bytes :=
  prefix ++ be_bytes 4 counter ++ [flag_byte is_final].

Definition frame_aad (intent_hash : bytes) (counter : Z) (is_final : bool) : bytes :=
  as_bytes L_ENVELOPE_FRAME ++ intent_hash ++ be_bytes 4 counter ++ [flag_byte is_final].

Section frames.
Context `{HA : !Aead}.

Definition seal_frame (dek prefix intent_hash : bytes) (counter : Z) (is_final : bool)
    (plaintext : bytes) : result KeyError bytes :=
  ok_or (aead_encrypt dek (stream_nonce prefix counter is_final)
           (frame_aad intent_hash counter is_final) plaintext) KeyAead.

Definition open_frame (dek prefix intent_hash : bytes) (counter : Z) (is_final : bool)
    (ciphertext : bytes) : result KeyError bytes :=
  ok_or (aead_decrypt dek (stream_nonce prefix counter is_final)
           (frame_aad intent_hash counter is_final) ciphertext) KeyAead.

End frames.

(** ** Facts *)

Lemma intent_keys_ok ids nums suite prefix prev slot :
  keys_ok (intent_fields ids nums suite prefix prev slot) = true.
Proof. destruct prev; vm_compute; reflexivity. Qed.

Lemma intent_normal ids nums suite prefix prev slot :
  Forall (fun kv => normalize kv.2 = kv.2) (intent_fields ids nums suite prefix prev slot).
Proof. destruct prev; repeat constructor. Qed.

(** The fields of an intent determine everything it was built from. *)
Lemma intent_fields_inj ids nums suite prefix prev slot ids' nums' suite' prefix' prev' slot' :
  intent_fields ids nums suite prefix prev slot
  ≡ₚ intent_fields ids' nums' suite' prefix' prev' slot' ->
  ids = ids' /\ nums = nums' /\ suite = suite' /\ prefix = prefix' /\ prev = prev'
  /\ SlotMaterial.context_hash slot = SlotMaterial.context_hash slot'
  /\ SlotMaterial.dek_slot_sha256 slot = SlotMaterial.dek_slot_sha256 slot'.
Proof.
  intros Hp.
  assert (is_some prev = is_some prev') as Hs.
  { apply Permutation_length in Hp. by destruct prev, prev'. }
  apply perm_same_keys in Hp.
  - destruct ids, nums, ids', nums', prev, prev'; try done; unfold intent_fields in Hp;
      simpl in Hp; simplify_eq; done.
  - by destruct prev, prev'.
  - apply entry_keys_NoDup, keys_ok_NoDup, intent_keys_ok.
Qed.

(** The intent's values fit the codec. *)
Definition intent_ok (ids : IntentIds.t) (nums : IntentNumbers.t) (suite : Z)
    (prefix : bytes) (prev : option bytes) (slot : SlotMaterial.t) : bool :=
  let fields := intent_fields ids nums suite prefix prev slot in
  values_ok fields && (blen (encode (c.m fields)) <=? USIZE_MAX).

Definition intent_preimage (ids : IntentIds.t) (nums : IntentNumbers.t) (suite : Z)
    (prefix : bytes) (prev : option bytes) (slot : SlotMaterial.t) : bytes :=
  domain_preimage L_ENVELOPE_INTENT
    (encode (c.m (intent_fields ids nums suite prefix prev slot))).

Lemma build_intent_hash sha256 ids nums suite prefix prev slot m :
  build_intent sha256 ids nums suite prefix prev slot = Ok m ->
  IntentMaterial.intent_hash m = sha256 (intent_preimage ids nums suite prefix prev slot).
Proof. unfold build_intent. repeat case_match; try done. by intros [= <-]. Qed.

Lemma slot_context_keys_ok ids g : keys_ok (slot_context ids g) = true.
Proof. vm_compute. reflexivity. Qed.

(** ** The properties *)

(** The version after [u64::MAX] is taken for 0: an intent from it to version 0 is built,
    where the sequence of versions has ended. *)
Lemma build_intent_wraps sha256 ids nums suite prefix head slot :
  IntentNumbers.base_version nums = U64_MAX -> IntentNumbers.target_version nums = 0 ->
  exists m, build_intent sha256 ids nums suite prefix (Some head) slot = Ok m.
Proof. intros Hb Ht. unfold build_intent. rewrite Hb, Ht. by eexists. Qed.

(** The intent hash commits to the whole intent: two intents with one hash
    have the same identifiers, numbers, suite, nonce prefix, previous head and
    slot, or SHA-256 maps their two different preimages to one value. *)
Theorem intent_hash_binds sha256 ids nums suite prefix prev slot m
    ids' nums' suite' prefix' prev' slot' m' :
  intent_ok ids nums suite prefix prev slot = true ->
  intent_ok ids' nums' suite' prefix' prev' slot' = true ->
  build_intent sha256 ids nums suite prefix prev slot = Ok m ->
  build_intent sha256 ids' nums' suite' prefix' prev' slot' = Ok m' ->
  IntentMaterial.intent_hash m = IntentMaterial.intent_hash m' ->
  (ids = ids' /\ nums = nums' /\ suite = suite' /\ prefix = prefix' /\ prev = prev'
   /\ SlotMaterial.context_hash slot = SlotMaterial.context_hash slot'
   /\ SlotMaterial.dek_slot_sha256 slot = SlotMaterial.dek_slot_sha256 slot')
  \/ (intent_preimage ids nums suite prefix prev slot
      <> intent_preimage ids' nums' suite' prefix' prev' slot'
      /\ sha256 (intent_preimage ids nums suite prefix prev slot)
         = sha256 (intent_preimage ids' nums' suite' prefix' prev' slot')).
Proof.
  intros [V1 S1]%andb_true_iff [V2 S2]%andb_true_iff
    ->%build_intent_hash ->%build_intent_hash Hh.
  destruct (decide (intent_preimage ids nums suite prefix prev slot
    = intent_preimage ids' nums' suite' prefix' prev' slot')) as [Heq|Hne]; [left|by right].
  apply domain_preimage_body, encode_m_inj in Heq;
    eauto using intent_keys_ok, intent_normal; [|lia].
  by apply intent_fields_inj.
Qed.

(** A frame opens in its place only: [open_frame] accepts a ciphertext with a
    plaintext exactly when [seal_frame] makes it from that plaintext under the
    same key, prefix, intent, counter and final flag; and no other prefix,
    intent, counter or flag gives the same nonce and associated data. *)
Theorem frame_bound_to_position `{HA : !Aead, !AeadLaws} dek prefix h n fin ct pt :
  (open_frame dek prefix h n fin ct = Ok pt <-> seal_frame dek prefix h n fin pt = Ok ct)
  /\ forall prefix' h' n' fin',
       length prefix = length prefix' -> length h = length h' ->
       0 <= n <= U32_MAX -> 0 <= n' <= U32_MAX ->
       stream_nonce prefix n fin = stream_nonce prefix' n' fin' ->
       frame_aad h n fin = frame_aad h' n' fin' ->
       prefix = prefix' /\ h = h' /\ n = n' /\ fin = fin'.
Proof.
  split.
  - unfold open_frame, seal_frame. rewrite !ok_or_ok.
    split; [apply aead_seal_open|apply aead_open_seal].
  - unfold stream_nonce, frame_aad, U32_MAX. intros prefix' h' n' fin' Hp Hh Hn Hn' H1 H2.
    apply app_inj_1 in H1 as [-> H1]; [|done]. apply app_inv_head in H2.
    apply app_inj_1 in H2 as [-> _]; [|done].
    apply app_inj_1 in H1 as [H1 Hf]; [|by rewrite !length_be_bytes].
    apply be_bytes_inj in H1 as ->; [|change (256 ^ Z.of_nat 4) with 4294967296; lia..].
    destruct fin, fin'; done.
Qed.

(** ** Witnesses *)

Definition id16 (n : Z) : bytes := be_bytes 16 n.
Definition id32 (n : Z) : bytes := be_bytes 32 n.

Definition sample_ids : IntentIds.t :=
  IntentIds.mk (id16 1) (id16 2) (id16 3) (id16 4) (id16 5) (id16 6) (id16 7) (id32 8) (id32 9).
Definition sample_nums : IntentNumbers.t := IntentNumbers.mk 6 5 1 2 3 65536 1000000 1100000 77.
Definition sample_slot : SlotMaterial.t := SlotMaterial.mk [] (id32 10) [] (id32 11).
Definition sample_prefix : bytes := be_bytes 7 12.
Definition sample_prev : option bytes := Some (id32 13).

Lemma intent_hash_binds_witness :
  (sample_ids = sample_ids /\ sample_nums = sample_nums /\ 1 = 1
   /\ sample_prefix = sample_prefix /\ sample_prev = sample_prev
   /\ SlotMaterial.context_hash sample_slot = SlotMaterial.context_hash sample_slot
   /\ SlotMaterial.dek_slot_sha256 sample_slot = SlotMaterial.dek_slot_sha256 sample_slot)
  \/ (intent_preimage sample_ids sample_nums 1 sample_prefix sample_prev sample_slot
      <> intent_preimage sample_ids sample_nums 1 sample_prefix sample_prev sample_slot
      /\ (fun x => x)
           (intent_preimage sample_ids sample_nums 1 sample_prefix sample_prev sample_slot)
         = (fun x => x)
             (intent_preimage sample_ids sample_nums 1 sample_prefix sample_prev sample_slot)).
Proof.
  apply (intent_hash_binds (fun x => x) sample_ids sample_nums 1 sample_prefix sample_prev
    sample_slot
    (IntentMaterial.mk
       (encode (c.m (intent_fields sample_ids sample_nums 1 sample_prefix sample_prev
                       sample_slot)))
       (intent_preimage sample_ids sample_nums 1 sample_prefix sample_prev sample_slot))
    sample_ids sample_nums 1 sample_prefix sample_prev sample_slot
    (IntentMaterial.mk
       (encode (c.m (intent_fields sample_ids sample_nums 1 sample_prefix sample_prev
                       sample_slot)))
       (intent_preimage sample_ids sample_nums 1 sample_prefix sample_prev sample_slot)));
    vm_compute; reflexivity.
Defined.

Lemma frame_bound_to_position_witness :
  let aead := toy_aead in
  open_frame (id32 1) sample_prefix (id32 2) 3 true
    ([Byte.x2a] ++ toy_tag (id32 1) (stream_nonce sample_prefix 3 true)
                     (frame_aad (id32 2) 3 true) [Byte.x2a]) = Ok [Byte.x2a].
Proof.
  intros aead.
  destruct (frame_bound_to_position (HA := toy_aead) (id32 1) sample_prefix (id32 2) 3 true
    ([Byte.x2a] ++ toy_tag (id32 1) (stream_nonce sample_prefix 3 true)
                     (frame_aad (id32 2) 3 true) [Byte.x2a]) [Byte.x2a]) as [[_ H] _].
  apply H. vm_compute. reflexivity.
Defined.
