(* ===== verification/RestoreEpoch.v ===== *)
(** * Restore-epoch transitions (shared/src/restore_epoch.rs)

    The leaf, the transition payload, the signed transition container and the
    inclusion proof, with the construction of a leaf set's root, of a proof, of a
    signed transition, and the checks that unquarantine a binding
    ([verify_signature], [verify_inclusion]). The tree itself is in [Merkle]. *)

From S2P Require Import Prelude Bytes Canonical CanonicalFacts CanonicalDecode CanonicalTheorems.
From S2P Require Import RecordFields WireMap Merkle Keys.

Definition DOMAIN_RESTORE_EPOCH_LEAF := "shardx.restore-epoch.profile-head-leaf.v2".
Definition DOMAIN_RESTORE_EPOCH_INCLUSION_PROOF := "shardx.restore-epoch.inclusion-proof.v2".
Definition DOMAIN_RESTORE_EPOCH_TRANSITION_PAYLOAD :=
  "shardx.restore-epoch.transition-payload.v2".
Definition DOMAIN_RESTORE_EPOCH_SIGNED_TRANSITION_CONTAINER :=
  "shardx.restore-epoch.signed-transition-container.v2".
Definition MAPPING_CODEC := "PROFILE_HEAD_SET_MERKLE_V2".
Definition MAX_TRANSITION_PAYLOAD_BYTES : Z := 131072.
Definition MAX_SIGNATURE_BYTES : Z := 4096.
Definition MAX_SIGNED_TRANSITION_BYTES : Z :=
  MAX_TRANSITION_PAYLOAD_BYTES + MAX_SIGNATURE_BYTES + 1024.
Definition MAX_LEAF_BYTES : Z := 1024.
Definition MAX_PROOF_STEPS : Z := 20.
Definition MAX_PROOF_BYTES : Z := MAX_LEAF_BYTES + MAX_PROOF_STEPS * 64 + 1024.

Definition ZERO_HASH : bytes := replicate 32 Byte.x00.

#[export] Hint Unfold c.t c.u c.b version_u16 MAX_TRANSITION_PAYLOAD_BYTES
  MAX_SIGNATURE_BYTES MAX_LEAF_BYTES MAX_PROOF_STEPS : wire_unfold.

(** ** Leaf *)

Module RestoreEpochLeafV2.

Record t := mk {
  tenant_id : bytes;
  profile_id : bytes;
  previous_signed_head_hash : bytes;
  new_signed_head_hash : bytes }.

Definition parser : fields t :=
  _ ← Fields.exact_text "domain" DOMAIN_RESTORE_EPOCH_LEAF;
  _ ← version_u16;
  tenant_id ← Fields.fixed 16 "tenant_id";
  profile_id ← Fields.fixed 16 "profile_id";
  previous_signed_head_hash ← Fields.fixed 32 "previous_signed_head_hash";
  new_signed_head_hash ← Fields.fixed 32 "new_signed_head_hash";
  _ ← Fields.finish;
  _ ← fail_if (bool_decide (previous_signed_head_hash = ZERO_HASH)) (BadValue "previous_signed_head_hash");
  mret (mk tenant_id profile_id previous_signed_head_hash new_signed_head_hash).

Definition parse : bytes -> result RecordError t :=
  parse_map "RestoreEpochLeafV2" parser.

(** The entries of [restore_epoch_leaf_bytes] (envelope.rs). *)
Definition put (x : t) : list (string * Value) :=
  [("domain", c.t DOMAIN_RESTORE_EPOCH_LEAF); ("version", c.u VERSION);
   ("tenant_id", c.b (tenant_id x)); ("profile_id", c.b (profile_id x));
   ("previous_signed_head_hash", c.b (previous_signed_head_hash x));
   ("new_signed_head_hash", c.b (new_signed_head_hash x))].

Definition encode (x : t) : bytes := Canonical.encode (c.m (put x)).

Definition wf (x : t) : bool :=
  (blen (tenant_id x) =? 16) && (blen (profile_id x) =? 16)
  && (blen (previous_signed_head_hash x) =? 32) && (blen (new_signed_head_hash x) =? 32)
  && negb (bool_decide (previous_signed_head_hash x = ZERO_HASH)).

#[global] Hint Unfold put wf : wire_unfold.

#[global] Instance wire : WireMap "RestoreEpochLeafV2" parser put wf.
Proof. wire_map ltac:(fun x => destruct x as []). Qed.

Lemma RestoreEpochLeafV2_exact :
  exact_map parse encode (record_ok put wf).
Proof. intros payload x. exact (wire_map_exact _ _ _ _ payload x). Qed.

Definition hash (sha256 : bytes -> bytes) (x : t) : bytes := leaf_hash sha256 (encode x).

Definition epoch_leaf (x : t) : EpochLeaf := (tenant_id x, profile_id x, encode x).

End RestoreEpochLeafV2.

(** The loop of [mapping_root]. *)
Fixpoint check_leaves (tenant_id : bytes) (leaves : list RestoreEpochLeafV2.t)
    : result MerkleError unit :=
  match leaves with
  | [] => Ok tt
  | l :: rest =>
      if negb (bool_decide (RestoreEpochLeafV2.tenant_id l = tenant_id)) then Err ForeignTenant
      else if bool_decide (RestoreEpochLeafV2.previous_signed_head_hash l = ZERO_HASH) then
        Err ZeroPreviousHead
      else check_leaves tenant_id rest
  end.

Definition mapping_root (sha256 : bytes -> bytes) (tenant_id : bytes)
    (leaves : list RestoreEpochLeafV2.t) : result MerkleError bytes :=
  _ ← check_leaves tenant_id leaves;
  merkle_root sha256 (List.map RestoreEpochLeafV2.epoch_leaf leaves).

(** ** Transition payload *)

Module RestoreReason.

Inductive t := OperatorRestore | DisasterRecovery | VerifiedBackupRollback.

Definition ALL : list t := [OperatorRestore; DisasterRecovery; VerifiedBackupRollback].

Definition as_str (r : t) : string :=
  match r with
  | OperatorRestore => "operator_restore"
  | DisasterRecovery => "disaster_recovery"
  | VerifiedBackupRollback => "verified_backup_rollback"
  end.

End RestoreReason.

Definition check_epochs_and_count (previous_epoch new_epoch count : Z) (count_field : string)
    : fields unit :=
  _ ← fail_if (new_epoch <=? previous_epoch) (BadValue "new_epoch");
  fail_if ((count =? 0) || (MAX_RESTORE_EPOCH_LEAVES_V2 <? count)) (BadValue count_field).

(** What [check_epochs_and_count] lets through. *)
Definition epochs_and_count_ok (previous_epoch new_epoch count : Z) : bool :=
  negb (new_epoch <=? previous_epoch)
  && negb ((count =? 0) || (MAX_RESTORE_EPOCH_LEAVES_V2 <? count)).

#[export] Hint Unfold check_epochs_and_count epochs_and_count_ok : wire_unfold.

Module RestoreEpochTransitionV2.

Record t := mk {
  transition_replay_id : bytes;
  server_instance_id : bytes;
  tenant_id : bytes;
  previous_epoch : Z;
  new_epoch : Z;
  mapping_count : Z;
  profile_head_mapping_root : bytes;
  reason_code : RestoreReason.t;
  approver_account_id : bytes;
  approver_device_id : bytes;
  approver_signing_key_id : bytes;
  issued_at_ms : Z;
  nonce : bytes }.

Definition parser : fields t :=
  _ ← Fields.exact_text "domain" DOMAIN_RESTORE_EPOCH_TRANSITION_PAYLOAD;
  _ ← version_u16;
  transition_replay_id ← Fields.fixed 16 "transition_replay_id";
  server_instance_id ← Fields.fixed 16 "server_instance_id";
  tenant_id ← Fields.fixed 16 "tenant_id";
  previous_epoch ← Fields.uint "previous_epoch";
  new_epoch ← Fields.uint "new_epoch";
  _ ← Fields.exact_text "mapping_codec" MAPPING_CODEC;
  mapping_count ← Fields.uint "mapping_count";
  profile_head_mapping_root ← Fields.fixed 32 "profile_head_mapping_root";
  reason ← Fields.text "reason_code";
  reason_code ← lift (ok_or (find_str RestoreReason.as_str RestoreReason.ALL reason)
                        (BadValue "reason_code"));
  approver_account_id ← Fields.fixed 16 "approver_account_id";
  approver_device_id ← Fields.fixed 16 "approver_device_id";
  approver_signing_key_id ← Fields.fixed 32 "approver_signing_key_id";
  issued_at_ms ← Fields.uint "issued_at_ms";
  nonce ← Fields.fixed 16 "nonce";
  _ ← Fields.finish;
  _ ← check_epochs_and_count previous_epoch new_epoch mapping_count "mapping_count";
  mret (mk transition_replay_id server_instance_id tenant_id previous_epoch new_epoch
  mapping_count profile_head_mapping_root reason_code approver_account_id approver_device_id
  approver_signing_key_id issued_at_ms nonce).

Definition parse : bytes -> result RecordError t :=
  parse_map "RestoreEpochTransitionV2" parser.

Definition put (x : t) : list (string * Value) :=
  [("domain", c.t DOMAIN_RESTORE_EPOCH_TRANSITION_PAYLOAD); ("version", c.u VERSION);
   ("transition_replay_id", c.b (transition_replay_id x));
   ("server_instance_id", c.b (server_instance_id x)); ("tenant_id", c.b (tenant_id x));
   ("previous_epoch", c.u (previous_epoch x)); ("new_epoch", c.u (new_epoch x));
   ("mapping_codec", c.t MAPPING_CODEC); ("mapping_count", c.u (mapping_count x));
   ("profile_head_mapping_root", c.b (profile_head_mapping_root x));
   ("reason_code", c.t (RestoreReason.as_str (reason_code x)));
   ("approver_account_id", c.b (approver_account_id x));
   ("approver_device_id", c.b (approver_device_id x));
   ("approver_signing_key_id", c.b (approver_signing_key_id x));
   ("issued_at_ms", c.u (issued_at_ms x)); ("nonce", c.b (nonce x))].

Definition encode (x : t) : bytes := Canonical.encode (c.m (put x)).

Definition wf (x : t) : bool :=
  (blen (transition_replay_id x) =? 16) && (blen (server_instance_id x) =? 16)
  && (blen (tenant_id x) =? 16) && (blen (profile_head_mapping_root x) =? 32)
  && (blen (approver_account_id x) =? 16) && (blen (approver_device_id x) =? 16)
  && (blen (approver_signing_key_id x) =? 32) && (blen (nonce x) =? 16)
  && epochs_and_count_ok (previous_epoch x) (new_epoch x) (mapping_count x).

#[global] Hint Unfold put wf : wire_unfold.

#[global] Instance wire : WireMap "RestoreEpochTransitionV2" parser put wf.
Proof. wire_map ltac:(fun x => destruct x as [? ? ? ? ? ? ? [] ? ? ? ? ?]). Qed.

Lemma RestoreEpochTransitionV2_exact :
  exact_map parse encode (record_ok put wf).
Proof. intros payload x. exact (wire_map_exact _ _ _ _ payload x). Qed.

End RestoreEpochTransitionV2.

(** ** Signed transition container *)

Definition tbs_fields (payload_bytes payload_sha256 approver_signing_key_id : bytes)
    : list (string * Value) :=
  [("container_domain", c.t DOMAIN_RESTORE_EPOCH_SIGNED_TRANSITION_CONTAINER);
   ("container_version", c.u VERSION);
   ("payload_domain", c.t DOMAIN_RESTORE_EPOCH_TRANSITION_PAYLOAD);
   ("payload_version", c.u VERSION);
   ("canonical_transition_payload_bytes", c.b payload_bytes);
   ("transition_payload_sha256", c.b payload_sha256);
   ("signature_suite_id", c.u SIGNATURE_SUITE_ID_ED25519);
   ("signature_version", c.u SIGNATURE_VERSION);
   ("approver_signing_key_id", c.b approver_signing_key_id)].

(** The cast of the length to [u32] is the [mod 2^32] of [be_bytes 4]. *)
Definition signing_input (tbs_bytes : bytes) : bytes :=
  as_bytes L_RESTORE_EPOCH_TRANSITION_TBS ++ be_bytes 4 (blen tbs_bytes) ++ tbs_bytes.

(** The fields of the container map, as [parse] takes them. *)
Module ContainerFields.

Record t := mk {
  payload_bytes : bytes;
  payload_sha256 : bytes;
  approver_signing_key_id : bytes;
  signature_bytes : bytes;
  container_hash : bytes }.

(** One turn of the loops over versions and suites. *)
Definition supported (field : string) (expected : Z) : fields unit :=
  v ← Fields.u16 field;
  fail_if (negb (v =? expected)) (Unsupported field v).

#[global] Hint Unfold supported : wire_unfold.

Definition parser : fields t :=
  _ ← Fields.exact_text "container_domain" DOMAIN_RESTORE_EPOCH_SIGNED_TRANSITION_CONTAINER;
  _ ← supported "container_version" VERSION;
  _ ← supported "payload_version" VERSION;
  _ ← Fields.exact_text "payload_domain" DOMAIN_RESTORE_EPOCH_TRANSITION_PAYLOAD;
  payload_bytes ← Fields.bytes "canonical_transition_payload_bytes" 1
                    MAX_TRANSITION_PAYLOAD_BYTES;
  payload_sha256 ← Fields.fixed 32 "transition_payload_sha256";
  _ ← supported "signature_suite_id" SIGNATURE_SUITE_ID_ED25519;
  _ ← supported "signature_version" SIGNATURE_VERSION;
  approver_signing_key_id ← Fields.fixed 32 "approver_signing_key_id";
  signature_bytes ← Fields.bytes "signature_bytes" 1 MAX_SIGNATURE_BYTES;
  container_hash ← Fields.fixed 32 "signed_transition_container_hash";
  _ ← Fields.finish;
  mret (mk payload_bytes payload_sha256 approver_signing_key_id signature_bytes
    container_hash).

Definition put (x : t) : list (string * Value) :=
  tbs_fields (payload_bytes x) (payload_sha256 x) (approver_signing_key_id x)
  ++ [("signature_bytes", c.b (signature_bytes x));
      ("signed_transition_container_hash", c.b (container_hash x))].

Definition wf (x : t) : bool :=
  (1 <=? blen (payload_bytes x)) && (blen (payload_bytes x) <=? MAX_TRANSITION_PAYLOAD_BYTES)
  && (blen (payload_sha256 x) =? 32) && (blen (approver_signing_key_id x) =? 32)
  && (1 <=? blen (signature_bytes x)) && (blen (signature_bytes x) <=? MAX_SIGNATURE_BYTES)
  && (blen (container_hash x) =? 32).

#[global] Hint Unfold tbs_fields put wf : wire_unfold.

#[global] Instance wire : WireMap "SignedRestoreEpochTransitionV2" parser put wf.
Proof. wire_map ltac:(fun x => destruct x as [? ? ? ? ?]). Qed.

End ContainerFields.

Module SignedRestoreEpochTransitionV2.

Record t := mk {
  canonical_transition_payload_bytes : bytes;
  transition_payload_sha256 : bytes;
  approver_signing_key_id : bytes;
  signature_bytes : bytes;
  signed_transition_container_hash : bytes;
  exact_signed_transition_bytes : bytes;
  exact_signed_transition_bytes_sha256 : bytes;
  tbs_bytes : bytes;
  payload : RestoreEpochTransitionV2.t }.

Definition MAP := "SignedRestoreEpochTransitionV2".

Section container.
Context `{HE : !Ed25519} (sha256 : bytes -> bytes).

(** [parse] after [f.finish()]. *)
Definition check (exact : bytes) (f : ContainerFields.t) : result RecordError t :=
  let payload_bytes := ContainerFields.payload_bytes f in
  let payload_sha256 := ContainerFields.payload_sha256 f in
  let approver_signing_key_id := ContainerFields.approver_signing_key_id f in
  let signature_bytes := ContainerFields.signature_bytes f in
  let container_hash := ContainerFields.container_hash f in
  if negb (blen signature_bytes =? ED25519_SIG_LEN) then Err (BadField MAP "signature_bytes")
  else if negb (bool_decide (sha256 payload_bytes = payload_sha256)) then
    Err PayloadHashMismatch
  else
    let core := tbs_fields payload_bytes payload_sha256 approver_signing_key_id in
    let tbs_bytes := Canonical.encode (c.m core) in
    let core := core ++ [("signature_bytes", c.b signature_bytes)] in
    let core_bytes := Canonical.encode (c.m core) in
    if negb (bool_decide
         (domain_hash sha256 L_RESTORE_EPOCH_TRANSITION_CONTAINER core_bytes
          = container_hash)) then Err ContainerHashMismatch
    else
      payload ← RestoreEpochTransitionV2.parse payload_bytes;
      if negb (bool_decide (RestoreEpochTransitionV2.approver_signing_key_id payload
                            = approver_signing_key_id)) then
        Err (BadValue "approver_signing_key_id")
      else
        Ok (mk payload_bytes payload_sha256 approver_signing_key_id signature_bytes
              container_hash exact (sha256 exact) tbs_bytes payload).

Definition parse (exact : bytes) : result RecordError t :=
  if MAX_SIGNED_TRANSITION_BYTES <? blen exact then
    Err (BadField MAP "exact_signed_transition_bytes")
  else
    f ← parse_map MAP ContainerFields.parser exact;
    check exact f.

(** [verify_signature] returns the container as a [VerifiedTransition], which no
    other function makes. *)
Record VerifiedTransition := Verified { container : t }.

Definition verify_signature (self : t) (approver_public_key : bytes)
    : result RecordError VerifiedTransition :=
  if negb (bool_decide (signing_key_id sha256 approver_public_key
                        = approver_signing_key_id self)) then Err IssuerKeyMismatch
  else
    _ ← map_err (fun _ => Signature)
          (verify_message_strict approver_public_key (signing_input (tbs_bytes self))
             (signature_bytes self));
    mret (Verified self).

Definition verified_payload (v : VerifiedTransition) : RestoreEpochTransitionV2.t :=
  payload (container v).

End container.

End SignedRestoreEpochTransitionV2.

Definition build_signed_transition `{HE : !Ed25519} (sha256 : bytes -> bytes) (sk : bytes)
    (payload : RestoreEpochTransitionV2.t) : bytes :=
  let payload_bytes := RestoreEpochTransitionV2.encode payload in
  let key_id := signing_key_id sha256 (ed_public sk) in
  let fields := tbs_fields payload_bytes (sha256 payload_bytes) key_id in
  let tbs := encode (c.m fields) in
  let signature := ed_sign sk (signing_input tbs) in
  let fields := fields ++ [("signature_bytes", c.b signature)] in
  let core := encode (c.m fields) in
  let hash := domain_hash sha256 L_RESTORE_EPOCH_TRANSITION_CONTAINER core in
  let fields := fields ++ [("signed_transition_container_hash", c.b hash)] in
  encode (c.m fields).

(** ** Inclusion proof *)

Module MerkleProofStepV2.

Definition parser : fields ProofStep :=
  direction ← Fields.u16 "direction";
  sibling ← Fields.opt_fixed 32 "sibling_hash";
  _ ← Fields.finish;
  match sibling with
  | Some s =>
      if (direction =? DIR_SIBLING_LEFT) || (direction =? DIR_SIBLING_RIGHT) then
        mret (direction, Some s)
      else if direction =? DIR_UNARY_PROMOTE then throw (BadValue "sibling_hash")
      else throw (BadValue "direction")
  | None =>
      if direction =? DIR_UNARY_PROMOTE then mret (direction, None)
      else if (direction =? DIR_SIBLING_LEFT) || (direction =? DIR_SIBLING_RIGHT) then
        throw (MissingField "MerkleProofStepV2" "sibling_hash")
      else throw (BadValue "direction")
  end.

(** [parse_step]. *)
Definition parse (v : Value) : result RecordError ProofStep :=
  f ← Fields.open "MerkleProofStepV2" v;
  run parser f.

Definition put (x : ProofStep) : list (string * Value) :=
  ("direction", c.u x.1) :: opt_entry "sibling_hash" c.b x.2.

Definition wf (x : ProofStep) : bool :=
  match x.2 with
  | Some s => ((x.1 =? DIR_SIBLING_LEFT) || (x.1 =? DIR_SIBLING_RIGHT)) && (blen s =? 32)
  | None => x.1 =? DIR_UNARY_PROMOTE
  end.

#[global] Hint Unfold put wf DIR_SIBLING_LEFT DIR_SIBLING_RIGHT DIR_UNARY_PROMOTE
  : wire_unfold.

#[global] Instance wire : WireMap "MerkleProofStepV2" parser put wf.
Proof. wire_map ltac:(fun x => destruct x as [? [|]]). Qed.

End MerkleProofStepV2.

Module RestoreEpochInclusionProofV2.

Record t := mk {
  server_instance_id : bytes;
  previous_epoch : Z;
  new_epoch : Z;
  leaf_index : Z;
  leaf_count : Z;
  leaf : RestoreEpochLeafV2.t;
  expected_root : bytes;
  steps : list ProofStep }.

Definition parser (sha256 : bytes -> bytes) : fields t :=
  _ ← Fields.exact_text "domain" DOMAIN_RESTORE_EPOCH_INCLUSION_PROOF;
  _ ← version_u16;
  server_instance_id ← Fields.fixed 16 "server_instance_id";
  tenant_id ← Fields.fixed 16 "tenant_id";
  profile_id ← Fields.fixed 16 "profile_id";
  previous_epoch ← Fields.uint "previous_epoch";
  new_epoch ← Fields.uint "new_epoch";
  _ ← Fields.exact_text "mapping_codec" MAPPING_CODEC;
  leaf_index ← Fields.uint "leaf_index";
  leaf_count ← Fields.uint "leaf_count";
  leaf_bytes ← Fields.bytes "canonical_leaf_bytes" 1 MAX_LEAF_BYTES;
  claimed_leaf_hash ← Fields.fixed 32 "leaf_hash";
  expected_root ← Fields.fixed 32 "expected_root";
  steps_value ← Fields.req "steps";
  items ← match steps_value with
           | Array items =>
               if blen items <=? MAX_PROOF_STEPS then mret items else Fields.bad "steps"
           | _ => Fields.bad "steps"
           end;
  _ ← Fields.finish;
  _ ← check_epochs_and_count previous_epoch new_epoch leaf_count "leaf_count";
  _ ← fail_if (leaf_count <=? leaf_index) (BadValue "leaf_index");
  leaf ← lift (RestoreEpochLeafV2.parse leaf_bytes);
  _ ← fail_if (negb (bool_decide (RestoreEpochLeafV2.tenant_id leaf = tenant_id)))
        (BadValue "tenant_id");
  _ ← fail_if (negb (bool_decide (RestoreEpochLeafV2.profile_id leaf = profile_id)))
        (BadValue "profile_id");
  _ ← fail_if (negb (bool_decide (leaf_hash sha256 leaf_bytes = claimed_leaf_hash)))
        (BadValue "leaf_hash");
  steps ← lift (try_map MerkleProofStepV2.parse items);
  mret (mk server_instance_id previous_epoch new_epoch leaf_index leaf_count leaf expected_root
  steps).

Definition MAP := "RestoreEpochInclusionProofV2".

Definition parse (sha256 : bytes -> bytes) (exact : bytes) : result RecordError t :=
  if MAX_PROOF_BYTES <? blen exact then Err (BadField MAP "exact_proof_bytes")
  else parse_map MAP (parser sha256) exact.

Definition put (sha256 : bytes -> bytes) (x : t) : list (string * Value) :=
  [("domain", c.t DOMAIN_RESTORE_EPOCH_INCLUSION_PROOF); ("version", c.u VERSION);
   ("server_instance_id", c.b (server_instance_id x));
   ("tenant_id", c.b (RestoreEpochLeafV2.tenant_id (leaf x)));
   ("profile_id", c.b (RestoreEpochLeafV2.profile_id (leaf x)));
   ("previous_epoch", c.u (previous_epoch x)); ("new_epoch", c.u (new_epoch x));
   ("mapping_codec", c.t MAPPING_CODEC); ("leaf_index", c.u (leaf_index x));
   ("leaf_count", c.u (leaf_count x));
   ("canonical_leaf_bytes", c.b (RestoreEpochLeafV2.encode (leaf x)));
   ("leaf_hash", c.b (RestoreEpochLeafV2.hash sha256 (leaf x)));
   ("expected_root", c.b (expected_root x));
   ("steps", Array (List.map (fun s => c.m (MerkleProofStepV2.put s)) (steps x)))].

Definition encode (sha256 : bytes -> bytes) (x : t) : bytes := Canonical.encode (c.m (put sha256 x)).

Definition wf (sha256 : bytes -> bytes) (x : t) : bool :=
  (blen (server_instance_id x) =? 16)
  && record_ok RestoreEpochLeafV2.put RestoreEpochLeafV2.wf (leaf x)
  && (blen (RestoreEpochLeafV2.hash sha256 (leaf x)) =? 32)
  && (blen (expected_root x) =? 32)
  && (blen (steps x) <=? MAX_PROOF_STEPS) && List.forallb MerkleProofStepV2.wf (steps x)
  && epochs_and_count_ok (previous_epoch x) (new_epoch x) (leaf_count x)
  && (leaf_index x <? leaf_count x).

#[global] Hint Unfold put wf : wire_unfold.

Lemma step_sorted s : sort_entries (MerkleProofStepV2.put s) = MerkleProofStepV2.put s.
Proof. destruct s as [d [h|]]; reflexivity. Qed.

Lemma step_normal s :
  normalize (Map (MerkleProofStepV2.put s)) = Map (MerkleProofStepV2.put s).
Proof.
  cbn [normalize]. rewrite normalize_entries by by destruct s as [d [h|]]; repeat constructor.
  by rewrite step_sorted.
Qed.

Lemma step_record_ok s :
  MerkleProofStepV2.wf s = true -> record_ok MerkleProofStepV2.put MerkleProofStepV2.wf s = true.
Proof.
  intros H. unfold record_ok. rewrite H, andb_true_r. unfold MerkleProofStepV2.wf in H.
  destruct s as [d [h|]]; autounfold with wire_unfold in *; cbn in *;
    unfold wire_len, MAX_SQLITE_WIRE_UINT, U64_MAX, I64_MAX; lia.
Qed.

Lemma steps_sound items steps d :
  List.forallb (encodable d) items = true -> List.map normalize items = items ->
  try_map MerkleProofStepV2.parse items = Ok steps ->
  List.forallb MerkleProofStepV2.wf steps = true
  /\ items = List.map (fun s => Map (MerkleProofStepV2.put s)) steps.
Proof.
  intros Hv Hn H%try_map_ok. induction H as [|v s items steps Hs _ IH]; [done|].
  simpl in Hv, Hn |- *. apply andb_true_iff in Hv as [Hv1 Hv2].
  apply cons_eq in Hn as [Hn1 Hn2]. destruct (IH Hv2 Hn2) as [Hw ->].
  destruct (open_sound _ _ _ _ d v s Hs Hv1 Hn1) as [Hw1 ->].
  unfold wire_value. by rewrite step_sorted, Hw1, Hw.
Qed.

Lemma steps_run steps :
  List.forallb MerkleProofStepV2.wf steps = true ->
  try_map MerkleProofStepV2.parse
    (List.map (fun s => Map (MerkleProofStepV2.put s)) steps) = Ok steps.
Proof.
  intros H. apply try_map_ok. induction steps as [|s steps IH]; [constructor|].
  simpl in H |- *. apply andb_true_iff in H as [H1 H2]. constructor; [|by apply IH].
  rewrite <- (step_sorted s).
  by apply (open_run "MerkleProofStepV2" _ _ MerkleProofStepV2.wf), step_record_ok.
Qed.

(** The laws of the proof map; the leaf and the steps have their own. *)
Lemma proof_sound sha256 f x f' :
  parser sha256 f = Ok (x, f') -> values_ok (Fields.entries f) = true ->
  values_normal (Fields.entries f) ->
  wf sha256 x = true /\ Fields.entries f ≡ₚ put sha256 x.
Proof.
  intros H Hv Hn. unfold parser in H. autounfold with wire_unfold in H.
  pose proof (gives_refl f) as G. collect G H. wire_facts. unfold gives in G.
  match goal with Ha : Fields.entries _ = [] |- _ => rewrite Ha, app_nil_r in G end.
  match goal with Hl : RestoreEpochLeafV2.parse ?lb = Ok ?l |- _ =>
    apply RestoreEpochLeafV2.RestoreEpochLeafV2_exact in Hl as [Hleaf <-];
      [|unfold USIZE_MAX, U64_MAX; lia]
  end.
  match goal with Hi : try_map _ ?items = Ok ?steps |- _ =>
    assert (("steps", Array items) ∈ Fields.entries f) as Hin
      by (rewrite G; simpl; set_solver);
    apply (steps_sound items steps 2) in Hi as [Hw ->]
  end.
  - subst. unfold wf, put, epochs_and_count_ok. cbn -[Z.leb Z.eqb Z.ltb].
    split; [|by rewrite G].
    rewrite Hleaf, Hw. unfold blen in *. rewrite length_map in *.
    unfold RestoreEpochLeafV2.hash, MAX_PROOF_STEPS in *. lia.
  - unfold values_ok in Hv. rewrite List.forallb_forall in Hv.
    apply list_elem_of_In, Hv in Hin. cbn [snd encodable] in Hin.
    by apply andb_true_iff in Hin as [_ Hin].
  - unfold values_normal in Hn. rewrite Forall_forall in Hn. apply Hn in Hin.
    cbn [snd normalize] in Hin. by injection Hin.
Qed.

Lemma proof_structured sha256 : structured (parser sha256).
Proof.
  unfold parser. autounfold with wire_unfold.
  assert (forall b, structured (lift (RestoreEpochLeafV2.parse b) : fields _)) as H1
    by (intros b; apply structured_lift, (wire_map_safe _ _ _ _)).
  assert (forall l, structured (lift (try_map MerkleProofStepV2.parse l) : fields _)) as H2
    by (intros l; apply structured_lift, try_map_safe; intros v;
        apply (open_safe _ _ _ _)).
  by_structure.
Qed.

Lemma leaf_encode_size l :
  record_ok RestoreEpochLeafV2.put RestoreEpochLeafV2.wf l = true ->
  1 <= blen (RestoreEpochLeafV2.encode l) <= MAX_LEAF_BYTES.
Proof.
  intros [_ H]%andb_true_iff. split; [apply encode_pos|].
  etrans; [apply encode_size|]. destruct l. autounfold with wire_unfold in *. cbn in H.
  wire_facts. unfold MAX_LEAF_BYTES. cbn -[Z.add blen as_bytes]. eval_lengths. lia.
Qed.

Lemma proof_run sha256 x :
  record_ok (put sha256) (wf sha256) x = true ->
  exists f', parser sha256 (Fields.mk MAP (put sha256 x)) = Ok (x, f').
Proof.
  intros [_ H]%andb_true_iff. destruct x as [? ? ? ? ? l ? steps].
  unfold wf, epochs_and_count_ok in H. cbn -[Z.leb Z.eqb Z.ltb record_ok] in H.
  wire_facts.
  match goal with
  | Hl : record_ok RestoreEpochLeafV2.put _ l = true,
    Hs : forallb MerkleProofStepV2.wf steps = true |- _ =>
      pose proof (leaf_encode_size l Hl) as Hsize; pose proof (steps_run steps Hs) as Hsteps;
      assert (RestoreEpochLeafV2.parse (RestoreEpochLeafV2.encode l) = Ok l) as Hparse
        by (apply RestoreEpochLeafV2.RestoreEpochLeafV2_exact;
            [unfold USIZE_MAX, U64_MAX, MAX_LEAF_BYTES in *; lia|done]);
      apply andb_true_iff in Hl as [_ Hl]; unfold RestoreEpochLeafV2.wf in Hl; wire_facts
  end.
  unfold put. cbn -[Z.leb Z.eqb Z.ltb c.b c.u c.t c.m] in *.
  unfold RestoreEpochLeafV2.hash, MAX_LEAF_BYTES, MAX_PROOF_STEPS in *.
  set (lb := RestoreEpochLeafV2.encode l) in *. clearbody lb.
  set (items := List.map (fun s => c.m (MerkleProofStepV2.put s)) steps).
  change (try_map MerkleProofStepV2.parse items = Ok steps) in Hsteps.
  assert (blen items <= 20) as Hitems
    by (unfold items, blen in *; rewrite length_map; lia).
  clearbody items. unfold parser. autounfold with wire_unfold. run_fields.
Qed.

#[global] Instance wire sha256 :
  WireMap "RestoreEpochInclusionProofV2" (parser sha256) (put sha256) (wf sha256).
Proof.
  split; [apply proof_sound|apply proof_structured|apply proof_run|..].
  - intros x. lazy. reflexivity.
  - intros x. unfold put. repeat (apply Forall_cons; split; [done|]).
    apply Forall_cons; split; [|constructor]. cbn [snd normalize]. f_equal.
    rewrite List.map_map. apply List.map_ext. intros s. apply step_normal.
Qed.

(** [parse] refuses what is longer than [MAX_PROOF_BYTES] before it decodes. *)
Lemma RestoreEpochInclusionProofV2_exact sha256 exact x :
  parse sha256 exact = Ok x <->
  record_ok (put sha256) (wf sha256) x = true /\ encode sha256 x = exact
  /\ blen exact <= MAX_PROOF_BYTES.
Proof.
  unfold parse. destruct (Z.ltb_spec MAX_PROOF_BYTES (blen exact)).
  { split; [done|]. intros (_ & _ & Hle). lia. }
  unfold encode. rewrite (wire_map_exact MAP (parser sha256)).
  - split; [intros [? ?]; by split_and!|intros (? & ? & _); by split].
  - apply wire.
  - unfold MAX_PROOF_BYTES, MAX_LEAF_BYTES, MAX_PROOF_STEPS, USIZE_MAX, U64_MAX in *. lia.
Qed.


(** [build]: the leaf set is checked, must be the transition's, and the index in
    range. [leaves[leaf_index]] cannot panic after that check. *)
Definition build (sha256 : bytes -> bytes) (transition : RestoreEpochTransitionV2.t)
    (leaves : list RestoreEpochLeafV2.t) (leaf_index : nat) : result MerkleError t :=
  root ← mapping_root sha256 (RestoreEpochTransitionV2.tenant_id transition) leaves;
  if (length leaves <=? leaf_index)%nat then Err IndexOutOfRange
  else if negb (blen leaves =? RestoreEpochTransitionV2.mapping_count transition)
          || negb (bool_decide
               (root = RestoreEpochTransitionV2.profile_head_mapping_root transition))
  then Err NotTheTransition
  else
    let epoch_leaves := List.map RestoreEpochLeafV2.epoch_leaf leaves in
    match leaves !! leaf_index with
    | None => Crash Panic
    | Some leaf =>
        steps ← merkle_proof_steps sha256 epoch_leaves leaf_index;
        mret (mk (RestoreEpochTransitionV2.server_instance_id transition)
               (RestoreEpochTransitionV2.previous_epoch transition)
               (RestoreEpochTransitionV2.new_epoch transition)
               (Z.of_nat leaf_index) (blen leaves) leaf root steps)
    end.

Definition proof_sha256 (sha256 : bytes -> bytes) (x : t) : bytes :=
  domain_hash sha256 L_RESTORE_EPOCH_PROOF (encode sha256 x).

End RestoreEpochInclusionProofV2.

(** ** Verification of a proof under a signed transition *)

Inductive InclusionError :=
| CrossTenant
| Mismatch (field : string)
| Proof (e : ProofError).

Definition inclusion_code (e : InclusionError) : string :=
  match e with
  | CrossTenant => "RESTORE_EPOCH_CROSS_TENANT"
  | Mismatch _ | Proof _ => "RESTORE_EPOCH_TRANSITION_INVALID"
  end.

(** The loop over (field, equal): the first that differs. *)
Fixpoint first_mismatch (checks : list (string * bool)) : result InclusionError unit :=
  match checks with
  | [] => Ok tt
  | (field, equal) :: rest => if negb equal then Err (Mismatch field) else first_mismatch rest
  end.

Definition verify_inclusion (sha256 : bytes -> bytes)
    (transition : SignedRestoreEpochTransitionV2.VerifiedTransition)
    (proof : RestoreEpochInclusionProofV2.t) (profile_id : bytes)
    : result InclusionError unit :=
  let t := SignedRestoreEpochTransitionV2.verified_payload transition in
  let leaf := RestoreEpochInclusionProofV2.leaf proof in
  if negb (bool_decide (RestoreEpochLeafV2.tenant_id leaf
                        = RestoreEpochTransitionV2.tenant_id t)) then Err CrossTenant
  else
    _ ← first_mismatch
      [("profile_id", bool_decide (RestoreEpochLeafV2.profile_id leaf = profile_id));
       ("server_instance_id",
        bool_decide (RestoreEpochInclusionProofV2.server_instance_id proof
                     = RestoreEpochTransitionV2.server_instance_id t));
       ("previous_epoch",
        RestoreEpochInclusionProofV2.previous_epoch proof
        =? RestoreEpochTransitionV2.previous_epoch t);
       ("new_epoch",
        RestoreEpochInclusionProofV2.new_epoch proof =? RestoreEpochTransitionV2.new_epoch t);
       ("leaf_count",
        RestoreEpochInclusionProofV2.leaf_count proof
        =? RestoreEpochTransitionV2.mapping_count t);
       ("expected_root",
        bool_decide (RestoreEpochInclusionProofV2.expected_root proof
                     = RestoreEpochTransitionV2.profile_head_mapping_root t))];
    map_err Proof
      (verify_proof sha256 (RestoreEpochInclusionProofV2.leaf_index proof)
         (RestoreEpochInclusionProofV2.leaf_count proof)
         (RestoreEpochLeafV2.hash sha256 leaf) (RestoreEpochInclusionProofV2.steps proof)
         (RestoreEpochTransitionV2.profile_head_mapping_root t)).

(** ** Facts *)

Section facts.
Context (sha256 : bytes -> bytes) (Hsha : forall x, length (sha256 x) = 32%nat).

Lemma sha256_blen x : blen (sha256 x) = 32.
Proof. unfold blen. by rewrite Hsha. Qed.

Lemma transition_encode_size p :
  record_ok RestoreEpochTransitionV2.put RestoreEpochTransitionV2.wf p = true ->
  1 <= blen (RestoreEpochTransitionV2.encode p) <= 1400.
Proof.
  intros [_ H]%andb_true_iff. split; [apply encode_pos|].
  etrans; [apply encode_size|]. destruct p as [? ? ? ? ? ? ? r ? ? ? ? ?].
  autounfold with wire_unfold in *. cbn -[epochs_and_count_ok Z.leb] in H. wire_facts.
  assert (blen (as_bytes (RestoreReason.as_str r)) <= 24) by (by destruct r).
  cbn -[Z.add blen as_bytes RestoreReason.as_str].
  set (n := blen (as_bytes (RestoreReason.as_str r))) in *. eval_lengths. lia.
Qed.

Lemma transition_encode_inj p q :
  record_ok RestoreEpochTransitionV2.put RestoreEpochTransitionV2.wf p = true ->
  record_ok RestoreEpochTransitionV2.put RestoreEpochTransitionV2.wf q = true ->
  RestoreEpochTransitionV2.encode p = RestoreEpochTransitionV2.encode q -> p = q.
Proof.
  intros Hp Hq He. assert (Ok p = (Ok q : result RecordError _)) as [= ->]; [|done].
  pose proof (transition_encode_size p Hp).
  transitivity (RestoreEpochTransitionV2.parse (RestoreEpochTransitionV2.encode p));
    [symmetry|rewrite He in *]; (apply RestoreEpochTransitionV2.RestoreEpochTransitionV2_exact;
      [unfold USIZE_MAX, U64_MAX; lia|done]).
Qed.

(** The container of a payload, a signer key and a signature. *)
Definition container_of (p : RestoreEpochTransitionV2.t) (key_id sig : bytes)
    : ContainerFields.t :=
  let payload_bytes := RestoreEpochTransitionV2.encode p in
  let core := tbs_fields payload_bytes (sha256 payload_bytes) key_id
              ++ [("signature_bytes", c.b sig)] in
  ContainerFields.mk payload_bytes (sha256 payload_bytes) key_id sig
    (domain_hash sha256 L_RESTORE_EPOCH_TRANSITION_CONTAINER (encode (c.m core))).

(** The one whose signer key is the payload's. *)
Definition container_fields (p : RestoreEpochTransitionV2.t) (sig : bytes)
    : ContainerFields.t :=
  container_of p (RestoreEpochTransitionV2.approver_signing_key_id p) sig.

Definition transition_tbs (p : RestoreEpochTransitionV2.t) : bytes :=
  encode (c.m (tbs_fields (RestoreEpochTransitionV2.encode p)
                 (sha256 (RestoreEpochTransitionV2.encode p))
                 (RestoreEpochTransitionV2.approver_signing_key_id p))).

Definition assemble (p : RestoreEpochTransitionV2.t) (sig : bytes)
    : SignedRestoreEpochTransitionV2.t :=
  let f := container_fields p sig in
  let exact := encode (c.m (ContainerFields.put f)) in
  SignedRestoreEpochTransitionV2.mk (ContainerFields.payload_bytes f)
    (ContainerFields.payload_sha256 f) (ContainerFields.approver_signing_key_id f) sig
    (ContainerFields.container_hash f) exact (sha256 exact) (transition_tbs p) p.

Lemma container_of_ok p key sig :
  record_ok RestoreEpochTransitionV2.put RestoreEpochTransitionV2.wf p = true ->
  blen key = 32 -> blen sig = ED25519_SIG_LEN ->
  record_ok ContainerFields.put ContainerFields.wf (container_of p key sig) = true
  /\ blen (encode (c.m (ContainerFields.put (container_of p key sig))))
     <= MAX_SIGNED_TRANSITION_BYTES.
Proof.
  intros Hp Hk Hs. pose proof (transition_encode_size p Hp) as Hl.
  unfold container_of, domain_hash, ED25519_SIG_LEN in *.
  set (pb := RestoreEpochTransitionV2.encode p) in *. clearbody pb.
  set (core := encode (c.m (tbs_fields pb _ _ ++ _))). clearbody core.
  pose proof (sha256_blen pb) as H1.
  pose proof (sha256_blen (domain_preimage L_RESTORE_EPOCH_TRANSITION_CONTAINER core)) as H2.
  set (h1 := sha256 pb) in *. set (h2 := sha256 (domain_preimage _ core)) in *.
  clearbody h1 h2. split.
  - unfold record_ok, values_ok, ContainerFields.put, ContainerFields.wf, tbs_fields.
    cbn -[Z.leb Z.eqb blen encodable]. unfold MAX_TRANSITION_PAYLOAD_BYTES, MAX_SIGNATURE_BYTES.
    rewrite !andb_true_iff. split_and!; try reflexivity;
      unfold c.b; cbn [encodable]; unfold wire_len, U64_MAX; lia.
  - etrans; [apply encode_size|].
    unfold ContainerFields.put, tbs_fields, MAX_SIGNED_TRANSITION_BYTES,
      MAX_TRANSITION_PAYLOAD_BYTES, MAX_SIGNATURE_BYTES.
    cbn -[Z.add Z.mul blen as_bytes]. eval_lengths. lia.
Qed.

Lemma container_fields_ok p sig :
  record_ok RestoreEpochTransitionV2.put RestoreEpochTransitionV2.wf p = true ->
  blen sig = ED25519_SIG_LEN ->
  record_ok ContainerFields.put ContainerFields.wf (container_fields p sig) = true
  /\ blen (encode (c.m (ContainerFields.put (container_fields p sig))))
     <= MAX_SIGNED_TRANSITION_BYTES.
Proof.
  unfold container_fields. intros Hp Hs. apply container_of_ok; [done| |done].
  apply andb_true_iff in Hp as [_ Hp]. unfold RestoreEpochTransitionV2.wf in Hp. lia.
Qed.

(** Two assembled containers with one encoding are one. *)
Lemma container_inj f f' :
  record_ok ContainerFields.put ContainerFields.wf f = true ->
  record_ok ContainerFields.put ContainerFields.wf f' = true ->
  blen (encode (c.m (ContainerFields.put f))) <= USIZE_MAX ->
  encode (c.m (ContainerFields.put f)) = encode (c.m (ContainerFields.put f')) -> f = f'.
Proof.
  intros H H' Hb He.
  assert (Ok f = (Ok f' : result RecordError _)) as [= ->]; [|done].
  transitivity (parse_map SignedRestoreEpochTransitionV2.MAP ContainerFields.parser
    (encode (c.m (ContainerFields.put f)))); [symmetry|rewrite He in Hb |- *];
    (apply wire_map_exact with (put := ContainerFields.put) (contract := ContainerFields.wf);
      [apply ContainerFields.wire|done|done]).
Qed.

Lemma signed_transition_parse_iff exact s :
  SignedRestoreEpochTransitionV2.parse sha256 exact = Ok s <->
  exists p sig,
    record_ok RestoreEpochTransitionV2.put RestoreEpochTransitionV2.wf p = true
    /\ blen sig = ED25519_SIG_LEN /\ s = assemble p sig
    /\ SignedRestoreEpochTransitionV2.exact_signed_transition_bytes s = exact.
Proof.
  unfold SignedRestoreEpochTransitionV2.parse. split.
  - destruct (Z.ltb_spec MAX_SIGNED_TRANSITION_BYTES (blen exact)) as [|Hb]; [done|].
    intros (f & Hf & Hc)%result_bind_ok.
    apply wire_map_exact with (put := ContainerFields.put) (contract := ContainerFields.wf)
      in Hf as [Hok <-]; [|apply ContainerFields.wire|
        unfold MAX_SIGNED_TRANSITION_BYTES, MAX_TRANSITION_PAYLOAD_BYTES, MAX_SIGNATURE_BYTES,
          USIZE_MAX, U64_MAX in *; lia].
    unfold SignedRestoreEpochTransitionV2.check in Hc.
    destruct f as [pb sh key sig hash]. cbn [ContainerFields.payload_bytes
      ContainerFields.payload_sha256 ContainerFields.approver_signing_key_id
      ContainerFields.signature_bytes ContainerFields.container_hash] in Hc.
    case_match eqn:Esig; [done|]. case_match eqn:Esh; [done|].
    case_match eqn:Eh; [done|]. apply result_bind_ok in Hc as (p & Hp & Hc).
    case_match eqn:Ek; [done|]. injection Hc as <-. wire_facts. subst.
    apply andb_true_iff in Hok as [_ Hw]. unfold ContainerFields.wf in Hw.
    cbn [ContainerFields.payload_bytes] in Hw.
    apply RestoreEpochTransitionV2.RestoreEpochTransitionV2_exact in Hp as [Hp <-];
      [|unfold MAX_TRANSITION_PAYLOAD_BYTES, USIZE_MAX, U64_MAX in *; lia].
    exists p, sig. by split_and!.
  - intros (p & sig & Hp & Hs & -> & <-).
    destruct (container_fields_ok p sig Hp Hs) as [Hok Hlen].
    cbn [SignedRestoreEpochTransitionV2.exact_signed_transition_bytes assemble].
    rewrite (proj2 (Z.ltb_ge _ _)) by done.
    assert (parse_map SignedRestoreEpochTransitionV2.MAP ContainerFields.parser
              (encode (c.m (ContainerFields.put (container_fields p sig))))
            = Ok (container_fields p sig)) as ->.
    { apply wire_map_exact with (put := ContainerFields.put) (contract := ContainerFields.wf);
        [apply ContainerFields.wire| |done].
      unfold MAX_SIGNED_TRANSITION_BYTES, MAX_TRANSITION_PAYLOAD_BYTES, MAX_SIGNATURE_BYTES,
        USIZE_MAX, U64_MAX in *. lia. }
    unfold mbind, result_bind, SignedRestoreEpochTransitionV2.check.
    cbn [container_fields container_of ContainerFields.payload_bytes
      ContainerFields.payload_sha256 ContainerFields.approver_signing_key_id
      ContainerFields.signature_bytes ContainerFields.container_hash].
    rewrite Hs, Z.eqb_refl, !bool_decide_true by done. cbn [negb].
    assert (RestoreEpochTransitionV2.parse (RestoreEpochTransitionV2.encode p) = Ok p) as ->.
    { apply RestoreEpochTransitionV2.RestoreEpochTransitionV2_exact; [|done].
      pose proof (transition_encode_size p Hp). unfold USIZE_MAX, U64_MAX. lia. }
    unfold mbind, result_bind. by rewrite bool_decide_true.
Qed.

End facts.

(** ** Leaf sets *)

Lemma check_leaves_ok tenant leaves :
  check_leaves tenant leaves = Ok tt <->
  Forall (fun l => RestoreEpochLeafV2.tenant_id l = tenant
                   /\ RestoreEpochLeafV2.previous_signed_head_hash l <> ZERO_HASH) leaves.
Proof.
  induction leaves as [|l leaves IH]; [by split|]. cbn [check_leaves]. rewrite Forall_cons.
  destruct (bool_decide_reflect (RestoreEpochLeafV2.tenant_id l = tenant)); cbn [negb];
    [|naive_solver].
  case_bool_decide; [naive_solver|]. rewrite IH. naive_solver.
Qed.

Lemma leaf_encode_inj l l' :
  record_ok RestoreEpochLeafV2.put RestoreEpochLeafV2.wf l = true ->
  record_ok RestoreEpochLeafV2.put RestoreEpochLeafV2.wf l' = true ->
  RestoreEpochLeafV2.encode l = RestoreEpochLeafV2.encode l' -> l = l'.
Proof.
  intros H H' He. pose proof (RestoreEpochInclusionProofV2.leaf_encode_size l H) as Hs.
  assert (forall a, record_ok RestoreEpochLeafV2.put RestoreEpochLeafV2.wf a = true ->
    blen (RestoreEpochLeafV2.encode a) <= USIZE_MAX ->
    RestoreEpochLeafV2.parse (RestoreEpochLeafV2.encode a) = Ok a) as Hp
    by (intros a Ha Hb; by apply RestoreEpochLeafV2.RestoreEpochLeafV2_exact).
  unfold MAX_LEAF_BYTES, USIZE_MAX, U64_MAX in *.
  assert (Ok l = (Ok l' : result RecordError _)) as [= ->]; [|done].
  rewrite <- (Hp l), <- (Hp l'); [by rewrite He|done| |done|]; rewrite <- ?He; lia.
Qed.

Lemma mapping_root_inv sha256 tenant leaves root :
  mapping_root sha256 tenant leaves = Ok root <->
  check_leaves tenant leaves = Ok tt
  /\ merkle_root sha256 (List.map RestoreEpochLeafV2.epoch_leaf leaves) = Ok root.
Proof.
  unfold mapping_root. rewrite result_bind_ok. split; [by intros ([] & ? & ?)|].
  intros [? ?]. by exists tt.
Qed.

Lemma epoch_leaves_lookup leaves i leaf :
  leaves !! i = Some leaf ->
  List.map RestoreEpochLeafV2.epoch_leaf leaves !! i = Some (RestoreEpochLeafV2.epoch_leaf leaf).
Proof.
  intros H. change (List.map ?f ?l) with (f <$> l). by rewrite list_lookup_fmap, H.
Qed.

Lemma blen_map {A B} (f : A -> B) l : blen (List.map f l) = blen l.
Proof. unfold blen. by rewrite length_map. Qed.

(** ** The properties *)

(** The leaf and the transition payload are exact: each parser accepts
    exactly the encodings of the records its rules admit (a new epoch above the
    old one, a count in range, a previous head that is not zero). The inclusion
    proof is exact below its size limit. *)
Theorem restore_epoch_maps_exact sha256 :
  exact_map RestoreEpochLeafV2.parse RestoreEpochLeafV2.encode
    (record_ok RestoreEpochLeafV2.put RestoreEpochLeafV2.wf)
  /\ exact_map RestoreEpochTransitionV2.parse RestoreEpochTransitionV2.encode
    (record_ok RestoreEpochTransitionV2.put RestoreEpochTransitionV2.wf)
  /\ (forall exact x,
    RestoreEpochInclusionProofV2.parse sha256 exact = Ok x <->
    record_ok (RestoreEpochInclusionProofV2.put sha256)
      (RestoreEpochInclusionProofV2.wf sha256) x = true
    /\ RestoreEpochInclusionProofV2.encode sha256 x = exact
    /\ blen exact <= MAX_PROOF_BYTES).
Proof.
  split_and!.
  - apply RestoreEpochLeafV2.RestoreEpochLeafV2_exact.
  - apply RestoreEpochTransitionV2.RestoreEpochTransitionV2_exact.
  - apply RestoreEpochInclusionProofV2.RestoreEpochInclusionProofV2_exact.
Qed.

(** A signed transition is accepted exactly when it is the container assembled
    from a well-formed payload and a 64-byte signature, with the payload's own
    approver key: every hash in it is determined, and nothing else parses. *)
Theorem signed_transition_exact sha256 exact s :
  (forall x, length (sha256 x) = 32%nat) ->
  SignedRestoreEpochTransitionV2.parse sha256 exact = Ok s <->
  exists p sig,
    record_ok RestoreEpochTransitionV2.put RestoreEpochTransitionV2.wf p = true
    /\ blen sig = ED25519_SIG_LEN /\ s = assemble sha256 p sig
    /\ SignedRestoreEpochTransitionV2.exact_signed_transition_bytes s = exact.
Proof. intros Hsha. by apply signed_transition_parse_iff. Qed.

(** A verified transition is authentic: the verifier returns the parsed
    container only when the public key is the one its payload names and the
    strict Ed25519 check accepted the signature over the transition label and
    the to-be-signed bytes of exactly that payload. *)
Theorem verified_transition_authentic `{HE : !Ed25519} sha256 exact s pk v :
  (forall x, length (sha256 x) = 32%nat) ->
  SignedRestoreEpochTransitionV2.parse sha256 exact = Ok s ->
  SignedRestoreEpochTransitionV2.verify_signature sha256 s pk = Ok v ->
  let p := SignedRestoreEpochTransitionV2.verified_payload v in
  signing_key_id sha256 pk = RestoreEpochTransitionV2.approver_signing_key_id p
  /\ exists sig, s = assemble sha256 p sig
     /\ ed_verify_strict pk (signing_input (transition_tbs sha256 p)) sig = true.
Proof.
  intros Hsha (p & sig & Hp & Hs & -> & _)%signed_transition_parse_iff Hv; [|done].
  unfold SignedRestoreEpochTransitionV2.verify_signature in Hv.
  case_match eqn:Ek; [done|]. apply result_bind_ok in Hv as ([] & Hm%map_err_ok & [= <-]).
  apply negb_false_iff, bool_decide_eq_true in Ek. split; [done|]. exists sig.
  split; [done|]. unfold verify_message_strict in Hm. by repeat (case_match; try done).
Qed.

(** Signing and checking agree: the container built for a payload that names
    the signer's key parses to that payload and verifies under the signer's
    public key; one that names another key is refused. *)
Theorem built_transition_verifies `{HE : !Ed25519, !Ed25519Laws} sha256 sk p :
  (forall x, length (sha256 x) = 32%nat) ->
  record_ok RestoreEpochTransitionV2.put RestoreEpochTransitionV2.wf p = true ->
  let exact := build_signed_transition sha256 sk p in
  (RestoreEpochTransitionV2.approver_signing_key_id p = signing_key_id sha256 (ed_public sk) ->
   exists s, SignedRestoreEpochTransitionV2.parse sha256 exact = Ok s
     /\ SignedRestoreEpochTransitionV2.payload s = p
     /\ SignedRestoreEpochTransitionV2.verify_signature sha256 s (ed_public sk)
        = Ok (SignedRestoreEpochTransitionV2.Verified s))
  /\ (RestoreEpochTransitionV2.approver_signing_key_id p
        <> signing_key_id sha256 (ed_public sk) ->
      forall s, SignedRestoreEpochTransitionV2.parse sha256 exact <> Ok s).
Proof.
  intros Hsha Hp exact. split.
  - intros Hk. set (sig := ed_sign sk (signing_input (transition_tbs sha256 p))).
    exists (assemble sha256 p sig). split; [|split; [done|]].
    + apply signed_transition_parse_iff; [done|]. exists p, sig.
      split_and!; [done|apply ed_sign_length|done|].
      unfold exact, build_signed_transition. rewrite <- Hk. cbv zeta.
      rewrite <- (assoc (++)). done.
    + assert (verify_message_strict (ed_public sk) (signing_input (transition_tbs sha256 p)) sig
        = Ok tt) as Hv.
      { unfold verify_message_strict, ED25519_SIG_LEN, sig.
        by rewrite ed_public_length, ed_sign_length, ed_public_valid, ed_sign_verifies. }
      unfold SignedRestoreEpochTransitionV2.verify_signature.
      change (SignedRestoreEpochTransitionV2.approver_signing_key_id (assemble sha256 p sig))
        with (RestoreEpochTransitionV2.approver_signing_key_id p).
      change (SignedRestoreEpochTransitionV2.tbs_bytes (assemble sha256 p sig))
        with (transition_tbs sha256 p).
      change (SignedRestoreEpochTransitionV2.signature_bytes (assemble sha256 p sig)) with sig.
      by rewrite Hk, bool_decide_true, Hv.
  - intros Hne s (q & sig & Hq & Hs & -> & He)%signed_transition_parse_iff; [|done].
    apply Hne. set (pb := RestoreEpochTransitionV2.encode p).
    set (key := signing_key_id sha256 (ed_public sk)).
    set (sig' := ed_sign sk (signing_input (encode (c.m (tbs_fields pb (sha256 pb) key))))).
    destruct (container_of_ok sha256 Hsha p key sig') as [Hok _];
      [done|by apply (sha256_blen sha256 Hsha)|apply ed_sign_length|].
    destruct (container_fields_ok sha256 Hsha q sig) as [Hok' Hlen']; [done..|].
    assert (exact = encode (c.m (ContainerFields.put (container_of sha256 p key sig')))) as Hx
      by (unfold exact, build_signed_transition; cbv zeta; by rewrite <- (assoc (++))).
    rewrite Hx in He. apply container_inj in He; [|done..|].
    + pose proof (f_equal ContainerFields.payload_bytes He) as Hpb.
      pose proof (f_equal ContainerFields.approver_signing_key_id He) as Hkey.
      by apply transition_encode_inj in Hpb as ->.
    + unfold MAX_SIGNED_TRANSITION_BYTES, MAX_TRANSITION_PAYLOAD_BYTES, MAX_SIGNATURE_BYTES,
        USIZE_MAX, U64_MAX in *. lia.
Qed.


Lemma proof_steps_length sha256 k : forall f level idx steps,
  (length level <= 2 ^ k)%nat -> (idx < length level)%nat ->
  proof_steps sha256 f level idx = Ok steps -> (length steps <= k)%nat.
Proof.
  induction k as [|k IH]; intros f level idx steps Hl Hi Hs.
  - simpl in Hl. destruct f; simpl in Hs; rewrite decide_True in Hs by lia;
      by injection Hs as <-.
  - destruct (decide (length level <= 1)%nat) as [H1|H1].
    { destruct f; simpl in Hs; rewrite decide_True in Hs by lia; injection Hs as <-;
        simpl; lia. }
    destruct f; [simpl in Hs; by rewrite decide_False in Hs by lia|].
    rewrite proof_steps_step in Hs by lia.
    apply result_bind_ok in Hs as (more & Hm & [= <-]).
    apply IH in Hm; [simpl; lia| |].
    + rewrite next_level_length. rewrite Nat.pow_succ_r' in Hl.
      destruct (parity_cases (length level + 1)) as (m & Hc & ->). lia.
    + rewrite next_level_length. by apply half_index_lt.
Qed.

Lemma steps_siblings steps :
  List.forallb MerkleProofStepV2.wf steps = true ->
  Forall (fun step => forall sib, step.2 = Some sib -> length sib = 32%nat) steps.
Proof.
  rewrite List.forallb_forall. intros H. apply Forall_forall.
  intros [d sib] Hin%list_elem_of_In%H s Hs. cbn [snd] in Hs. subst.
  unfold MerkleProofStepV2.wf, blen in Hin. cbn [fst snd] in Hin. lia.
Qed.

(** What verifying a proof hashes. *)
Definition inclusion_preimages (sha256 : bytes -> bytes)
    (proof : RestoreEpochInclusionProofV2.t) (count : nat) : list bytes :=
  domain_preimage L_RESTORE_EPOCH_LEAF
    (RestoreEpochLeafV2.encode (RestoreEpochInclusionProofV2.leaf proof))
  :: path_preimages sha256 count (RestoreEpochInclusionProofV2.steps proof)
       (Verifier
          (RestoreEpochLeafV2.hash sha256 (RestoreEpochInclusionProofV2.leaf proof))
          (Z.to_nat (RestoreEpochInclusionProofV2.leaf_index proof)) count 0 0).

Lemma first_mismatch_ok checks :
  first_mismatch checks = Ok tt <-> Forall (fun ck => ck.2 = true) checks.
Proof.
  induction checks as [|[f b] checks IH]; [by split|]. cbn [first_mismatch].
  rewrite Forall_cons. destruct b; cbn [negb snd]; [naive_solver|naive_solver].
Qed.

(** The checks of [verify_inclusion], as facts. *)
Lemma verify_inclusion_iff sha256 v proof pid :
  let t := SignedRestoreEpochTransitionV2.verified_payload v in
  let leaf := RestoreEpochInclusionProofV2.leaf proof in
  verify_inclusion sha256 v proof pid = Ok tt <->
  RestoreEpochLeafV2.tenant_id leaf = RestoreEpochTransitionV2.tenant_id t
  /\ RestoreEpochLeafV2.profile_id leaf = pid
  /\ RestoreEpochInclusionProofV2.server_instance_id proof
     = RestoreEpochTransitionV2.server_instance_id t
  /\ RestoreEpochInclusionProofV2.previous_epoch proof
     = RestoreEpochTransitionV2.previous_epoch t
  /\ RestoreEpochInclusionProofV2.new_epoch proof = RestoreEpochTransitionV2.new_epoch t
  /\ RestoreEpochInclusionProofV2.leaf_count proof = RestoreEpochTransitionV2.mapping_count t
  /\ RestoreEpochInclusionProofV2.expected_root proof
     = RestoreEpochTransitionV2.profile_head_mapping_root t
  /\ verify_proof sha256 (RestoreEpochInclusionProofV2.leaf_index proof)
       (RestoreEpochInclusionProofV2.leaf_count proof) (RestoreEpochLeafV2.hash sha256 leaf)
       (RestoreEpochInclusionProofV2.steps proof)
       (RestoreEpochTransitionV2.profile_head_mapping_root t) = Ok tt.
Proof.
  intros t leaf. unfold verify_inclusion. fold t leaf.
  destruct (bool_decide_reflect (RestoreEpochLeafV2.tenant_id leaf
    = RestoreEpochTransitionV2.tenant_id t)) as [Ht|Ht]; cbn [negb];
    [|split; [done|by intros [? _]]].
  rewrite result_bind_ok. setoid_rewrite map_err_ok. split.
  - intros ([] & Hf & Hv). apply first_mismatch_ok in Hf.
    rewrite !Forall_cons in Hf. cbn [snd] in Hf.
    rewrite ?bool_decide_eq_true, ?Z.eqb_eq in Hf. naive_solver.
  - intros (_ & H1 & H2 & H3 & H4 & H5 & H6 & Hv). exists tt. split; [|done].
    apply first_mismatch_ok. rewrite !Forall_cons. cbn [snd].
    by rewrite !bool_decide_true, !(proj2 (Z.eqb_eq _ _)) by done.
Qed.

(** A proof built from the leaf set a transition commits to unquarantines its
    binding: [verify_inclusion] accepts it for the profile of its leaf under that
    transition, once signed. It has at most 20 steps, the limit of the map. *)
Theorem built_proof_verifies sha256 v leaves index proof :
  RestoreEpochInclusionProofV2.build sha256
    (SignedRestoreEpochTransitionV2.verified_payload v) leaves index = Ok proof ->
  leaves !! index = Some (RestoreEpochInclusionProofV2.leaf proof)
  /\ verify_inclusion sha256 v proof
       (RestoreEpochLeafV2.profile_id (RestoreEpochInclusionProofV2.leaf proof)) = Ok tt
  /\ blen (RestoreEpochInclusionProofV2.steps proof) <= MAX_PROOF_STEPS.
Proof.
  set (t := SignedRestoreEpochTransitionV2.verified_payload v).
  unfold RestoreEpochInclusionProofV2.build. intros (root & Hroot & H)%result_bind_ok.
  apply mapping_root_inv in Hroot as [Hchk Hroot].
  destruct (Nat.leb_spec (length leaves) index) as [|Hi]; [done|].
  case_match eqn:Ec; [done|]. apply orb_false_iff in Ec as [E1 E2].
  apply negb_false_iff, Z.eqb_eq in E1. apply negb_false_iff, bool_decide_eq_true in E2.
  destruct (leaves !! index) as [leaf|] eqn:El; [|done].
  apply result_bind_ok in H as (steps & Hs & [= <-]).
  cbn [RestoreEpochInclusionProofV2.leaf RestoreEpochInclusionProofV2.steps].
  split; [done|]. split.
  - apply verify_inclusion_iff. fold t.
    cbn [RestoreEpochInclusionProofV2.leaf RestoreEpochInclusionProofV2.steps
      RestoreEpochInclusionProofV2.server_instance_id
      RestoreEpochInclusionProofV2.previous_epoch RestoreEpochInclusionProofV2.new_epoch
      RestoreEpochInclusionProofV2.leaf_index RestoreEpochInclusionProofV2.leaf_count
      RestoreEpochInclusionProofV2.expected_root].
    apply check_leaves_ok in Hchk. rewrite Forall_lookup in Hchk.
    destruct (Hchk _ _ El) as [Ht _]. split_and!; try done. rewrite <- E2.
    rewrite <- (blen_map RestoreEpochLeafV2.epoch_leaf leaves).
    exact (verify_honest sha256 _ root index _ steps Hroot (epoch_leaves_lookup _ _ _ El) Hs).
  - apply merkle_root_inv in Hroot as [(_ & Hmax & _) _]. rewrite blen_map in Hmax.
    unfold merkle_proof_steps in Hs. unfold MAX_RESTORE_EPOCH_LEAVES_V2, blen in Hmax.
    apply (proof_steps_length sha256 20) in Hs; unfold blen, MAX_PROOF_STEPS;
      rewrite ?leaf_level_length, ?length_map; [lia| |lia].
    apply Nat2Z.inj_le. rewrite Nat2Z.inj_pow. change (Z.of_nat 2 ^ Z.of_nat 20) with 1048576.
    lia.
Qed.

(** C37. An accepted inclusion proof names a leaf of the set the transition
    commits to: under a root that [mapping_root] computed from a leaf set, a
    parsed proof accepted for a profile carries exactly the leaf at its index,
    and that leaf is the profile's, or two preimages hashed on the two sides
    collide. *)
Theorem inclusion_sound sha256 v proof pid leaves :
  let t := SignedRestoreEpochTransitionV2.verified_payload v in
  (forall x, length (sha256 x) = 32%nat) ->
  mapping_root sha256 (RestoreEpochTransitionV2.tenant_id t) leaves
  = Ok (RestoreEpochTransitionV2.profile_head_mapping_root t) ->
  blen leaves = RestoreEpochTransitionV2.mapping_count t ->
  Forall (fun l => record_ok RestoreEpochLeafV2.put RestoreEpochLeafV2.wf l = true) leaves ->
  record_ok (RestoreEpochInclusionProofV2.put sha256)
    (RestoreEpochInclusionProofV2.wf sha256) proof = true ->
  verify_inclusion sha256 v proof pid = Ok tt ->
  (leaves !! Z.to_nat (RestoreEpochInclusionProofV2.leaf_index proof)
     = Some (RestoreEpochInclusionProofV2.leaf proof)
   /\ RestoreEpochLeafV2.profile_id (RestoreEpochInclusionProofV2.leaf proof) = pid)
  \/ collision sha256
       (set_preimages sha256 (List.map RestoreEpochLeafV2.epoch_leaf leaves))
       (inclusion_preimages sha256 proof (length leaves)).
Proof.
  intros t Hsha [_ Hroot]%mapping_root_inv Hcount Hleaves Hok Hv.
  apply verify_inclusion_iff in Hv as (_ & Hpid & _ & _ & _ & Hc & _ & Hv). fold t in Hc, Hv.
  rewrite Hc, <- Hcount in Hv.
  rewrite <- (blen_map RestoreEpochLeafV2.epoch_leaf leaves) in Hv.
  apply andb_true_iff in Hok as [Hvals Hwf].
  assert (0 <= RestoreEpochInclusionProofV2.leaf_index proof) as Hidx.
  { unfold values_ok in Hvals. rewrite List.forallb_forall in Hvals.
    specialize (Hvals ("leaf_index", c.u (RestoreEpochInclusionProofV2.leaf_index proof))).
    cbn [snd encodable c.u] in Hvals.
    destruct (andb_true_iff (0 <=? RestoreEpochInclusionProofV2.leaf_index proof)
      (RestoreEpochInclusionProofV2.leaf_index proof <=? MAX_SQLITE_WIRE_UINT)) as [Hb _].
    apply Z.leb_le, Hb, Hvals. unfold RestoreEpochInclusionProofV2.put.
    do 8 right. left. reflexivity. }
  unfold RestoreEpochInclusionProofV2.wf in Hwf.
  repeat (apply andb_true_iff in Hwf as [Hwf ?]).
  match goal with Hl : record_ok RestoreEpochLeafV2.put _ _ = true |- _ => rename Hl into Hleaf end.
  match goal with Hl : forallb MerkleProofStepV2.wf _ = true |- _ => rename Hl into Hsteps end.
  destruct (verify_sound sha256 _ _ _ _ _ Hsha Hroot Hidx (Hsha _)
    (steps_siblings _ Hsteps) Hv) as [(leaf & Hlk & Hh & _)|Hcol].
  - change (List.map ?f ?l) with (f <$> l) in Hlk. rewrite list_lookup_fmap in Hlk.
    apply fmap_Some in Hlk as (l & Hl & ->). cbn [snd RestoreEpochLeafV2.epoch_leaf] in Hh.
    destruct (decide (RestoreEpochLeafV2.encode l
      = RestoreEpochLeafV2.encode (RestoreEpochInclusionProofV2.leaf proof))) as [He|Hne].
    + left. rewrite Forall_lookup in Hleaves. apply leaf_encode_inj in He as ->; eauto.
    + right. exists (domain_preimage L_RESTORE_EPOCH_LEAF (RestoreEpochLeafV2.encode l)).
      eexists. split; [|split; [by left|split; [|symmetry; exact Hh]]].
      * unfold set_preimages, leaf_preimages. rewrite List.map_map. apply elem_of_app. left.
        apply list_elem_of_In, in_map_iff. exists l. split; [done|].
        apply list_elem_of_In. by eapply list_elem_of_lookup_2.
      * intros Heq. apply Hne. unfold domain_preimage in Heq. apply app_inv_head in Heq.
        by apply app_inj_1 in Heq as [_ ?]; [|by rewrite !length_be_bytes].
  - right. rewrite !length_map in Hcol. eapply collision_mono; [| |exact Hcol].
    + intros z Hz. apply elem_of_app. right. by rewrite length_map.
    + intros z Hz. by right.
Qed.

(** ** Witnesses *)

Definition id16 (n : Z) : bytes := be_bytes 16 n.
Definition id32 (n : Z) : bytes := be_bytes 32 n.

Definition sample_leaf (n : Z) : RestoreEpochLeafV2.t :=
  RestoreEpochLeafV2.mk (id16 1) (id16 n) (id32 (100 + n)) (id32 (200 + n)).
Definition sample_set : list RestoreEpochLeafV2.t := [sample_leaf 1; sample_leaf 2; sample_leaf 5].
Definition sample_set_root : bytes := Eval vm_compute in
  match mapping_root toy_sha256 (id16 1) sample_set with Ok r => r | _ => [] end.
Definition sample_sk : bytes := id32 77.
Definition sample_transition : RestoreEpochTransitionV2.t :=
  RestoreEpochTransitionV2.mk (id16 3) (id16 4) (id16 1) 6 7 3 sample_set_root
    RestoreReason.OperatorRestore (id16 8) (id16 9)
    (signing_key_id toy_sha256 (ed_public sample_sk)) 1000 (id16 10).
Definition sample_sig : bytes := Eval vm_compute in
  ed_sign sample_sk (signing_input (transition_tbs toy_sha256 sample_transition)).
Definition sample_container : SignedRestoreEpochTransitionV2.t :=
  assemble toy_sha256 sample_transition sample_sig.
Definition sample_exact : bytes :=
  SignedRestoreEpochTransitionV2.exact_signed_transition_bytes sample_container.
Definition sample_steps2 : list ProofStep := Eval vm_compute in
  match merkle_proof_steps toy_sha256 (List.map RestoreEpochLeafV2.epoch_leaf sample_set) 2 with
  | Ok steps => steps
  | _ => []
  end.
Definition sample_proof : RestoreEpochInclusionProofV2.t :=
  RestoreEpochInclusionProofV2.mk (id16 4) 6 7 2 3 (sample_leaf 5) sample_set_root sample_steps2.
Definition sample_verified := SignedRestoreEpochTransitionV2.Verified sample_container.

Lemma signed_transition_exact_witness :
  SignedRestoreEpochTransitionV2.parse toy_sha256 sample_exact = Ok sample_container.
Proof.
  apply (signed_transition_exact toy_sha256 sample_exact sample_container toy_sha256_length).
  exists sample_transition, sample_sig.
  split; [vm_compute; reflexivity|split; [vm_compute; reflexivity|split; reflexivity]].
Defined.

Lemma verified_transition_authentic_witness :
  signing_key_id toy_sha256 (ed_public sample_sk)
  = RestoreEpochTransitionV2.approver_signing_key_id
      (SignedRestoreEpochTransitionV2.verified_payload sample_verified).
Proof.
  assert (SignedRestoreEpochTransitionV2.parse toy_sha256 sample_exact = Ok sample_container)
    as Hp by (vm_compute; reflexivity).
  assert (SignedRestoreEpochTransitionV2.verify_signature toy_sha256 sample_container
            (ed_public sample_sk) = Ok sample_verified) as Hv by (vm_compute; reflexivity).
  exact (proj1 (verified_transition_authentic toy_sha256 sample_exact sample_container
    (ed_public sample_sk) sample_verified toy_sha256_length Hp Hv)).
Defined.

Lemma built_transition_verifies_witness :
  exists s,
    SignedRestoreEpochTransitionV2.parse toy_sha256
      (build_signed_transition toy_sha256 sample_sk sample_transition) = Ok s
    /\ SignedRestoreEpochTransitionV2.payload s = sample_transition
    /\ SignedRestoreEpochTransitionV2.verify_signature toy_sha256 s (ed_public sample_sk)
       = Ok (SignedRestoreEpochTransitionV2.Verified s).
Proof.
  assert (record_ok RestoreEpochTransitionV2.put RestoreEpochTransitionV2.wf sample_transition
          = true) as Hok by (vm_compute; reflexivity).
  exact (proj1 (built_transition_verifies toy_sha256 sample_sk sample_transition
    toy_sha256_length Hok) eq_refl).
Defined.

Lemma built_proof_verifies_witness :
  verify_inclusion toy_sha256 sample_verified sample_proof (id16 5) = Ok tt.
Proof.
  assert (RestoreEpochInclusionProofV2.build toy_sha256
    (SignedRestoreEpochTransitionV2.verified_payload sample_verified) sample_set 2
    = Ok sample_proof) as Hb by (vm_compute; reflexivity).
  exact (proj1 (proj2 (built_proof_verifies toy_sha256 sample_verified sample_set 2
    sample_proof Hb))).
Defined.

Lemma inclusion_sound_witness :
  (sample_set !! Z.to_nat 2 = Some (RestoreEpochInclusionProofV2.leaf sample_proof)
   /\ RestoreEpochLeafV2.profile_id (RestoreEpochInclusionProofV2.leaf sample_proof) = id16 5)
  \/ collision toy_sha256
       (set_preimages toy_sha256 (List.map RestoreEpochLeafV2.epoch_leaf sample_set))
       (inclusion_preimages toy_sha256 sample_proof 3).
Proof.
  apply (inclusion_sound toy_sha256 sample_verified sample_proof (id16 5) sample_set
    toy_sha256_length).
  - vm_compute. reflexivity.
  - reflexivity.
  - repeat constructor.
  - vm_compute. reflexivity.
  - vm_compute. reflexivity.
Defined.
