(* ===== verification/AuthzPayloads.v ===== *)
(** * Authorization payloads (shared/src/authz_record.rs)

    The seven payloads a signed authorization record can carry: device approval,
    device revocation, capability grant, and the device, recovery, rotation and
    root key grants, with the sealing and opening of a recovery grant. Each is a
    Module as in [ProfileLease]. The container around them is in [AuthzRecord]. *)

From S2P Require Import Prelude Bytes Canonical CanonicalFacts CanonicalDecode CanonicalTheorems.
From S2P Require Import RecordFields WireMap Keys.

Definition PAYLOAD_VERSION : Z := 2.

Definition DOMAIN_DEVICE_APPROVAL := "shardx.auth.device-approval.v2".
Definition DOMAIN_TENANT_CAPABILITY_GRANT := "shardx.auth.tenant-capability-grant.v2".
Definition DOMAIN_FLEET_KEY_GRANT_DEVICE_HPKE := "shardx.keys.fleet-key-grant.device-hpke.v2".
Definition DOMAIN_FLEET_KEY_GRANT_RECOVERY := "shardx.keys.fleet-key-grant.recovery.v2".
Definition DOMAIN_FLEET_KEY_GRANT_ROTATION := "shardx.keys.fleet-key-grant.rotation.v2".
Definition DOMAIN_FLEET_RECOVERY_WRAP_CONTEXT :=
  "shardx.keys.fleet-key-grant.recovery.wrap-context.v2".
Definition DOMAIN_TENANT_ROOT_KEY_GRANT := "shardx.keys.tenant-root-key-grant.v2".
Definition DOMAIN_DEVICE_REVOCATION := "shardx.authz.device-revocation.v2".
Definition DOMAIN_FLEET_KEY_GRANT_HPKE_INFO :=
  "shardx.keys.fleet-key-grant.device-hpke.hpke-info.v2".

Definition HPKE_SUITE_ID_X25519_CHACHA : Z := 1.
Definition HPKE_MODE_BASE : Z := 0.
Definition HPKE_KEM_X25519_HKDF_SHA256 : Z := 0x20.
Definition HPKE_KDF_HKDF_SHA256 : Z := 1.
Definition HPKE_AEAD_CHACHA20POLY1305 : Z := 3.
Definition HPKE_SUITE1_ENCAPPED_LEN : Z := 32.
Definition HPKE_SUITE1_WRAPPED_FKEK_LEN : Z := 48.
Definition APPROVED_USE_TEAM_DEVICE := "team.device".
Definition GRANT_VARIANT_DEVICE_HPKE := "DeviceHpkeGrant".
Definition ROOT_WRAP_SUITE_ID_CHACHA : Z := 1.
Definition ROOT_WRAP_NONCE_LEN : Z := 12.
Definition ROOT_WRAP_WRAPPED_FKEK_LEN : Z := 48.
Definition GRANT_VARIANT_RECOVERY := "RecoveryGrant".
Definition GRANT_VARIANT_ROTATION := "RotationGrant".
Definition MAX_REQUIRED_GRANT_COUNT : Z := 65535.

#[export] Hint Unfold c.t c.u c.b version_u16 PAYLOAD_VERSION VERSION HPKE_MODE_BASE
  HPKE_SUITE_ID_X25519_CHACHA HPKE_KEM_X25519_HKDF_SHA256 HPKE_KDF_HKDF_SHA256
  HPKE_AEAD_CHACHA20POLY1305
  HPKE_SUITE1_ENCAPPED_LEN HPKE_SUITE1_WRAPPED_FKEK_LEN ROOT_WRAP_SUITE_ID_CHACHA
  ROOT_WRAP_NONCE_LEN ROOT_WRAP_WRAPPED_FKEK_LEN MAX_REQUIRED_GRANT_COUNT : wire_unfold.

(** ** Common fields *)

Module CommonFields.

Record t := mk {
  replay_id : bytes;
  tenant_id : bytes;
  issued_at_ms : Z;
  not_before_ms : Z;
  not_after_ms : Z;
  server_instance_id : bytes;
  restore_epoch : Z }.

Definition take (domain : string) : fields t :=
  _ ← Fields.exact_text "domain" domain;
  _ ← version_u16;
  replay_id ← Fields.fixed 16 "replay_id";
  tenant_id ← Fields.fixed 16 "tenant_id";
  issued_at_ms ← Fields.uint "issued_at_ms";
  not_before_ms ← Fields.uint "not_before_ms";
  not_after_ms ← Fields.uint "not_after_ms";
  server_instance_id ← Fields.fixed 16 "server_instance_id";
  restore_epoch ← Fields.uint "restore_epoch";
  _ ← fail_if (not_before_ms <? issued_at_ms) (BadValue "issued_at_ms");
  _ ← fail_if (not_after_ms <=? not_before_ms) (BadValue "not_after_ms");
  mret (mk replay_id tenant_id issued_at_ms not_before_ms not_after_ms server_instance_id
    restore_epoch).

(** The entries [put] appends. *)
Definition put (x : t) (domain : string) : list (string * Value) :=
  [("domain", c.t domain); ("version", c.u PAYLOAD_VERSION);
   ("replay_id", c.b (replay_id x)); ("tenant_id", c.b (tenant_id x));
   ("issued_at_ms", c.u (issued_at_ms x)); ("not_before_ms", c.u (not_before_ms x));
   ("not_after_ms", c.u (not_after_ms x));
   ("server_instance_id", c.b (server_instance_id x));
   ("restore_epoch", c.u (restore_epoch x))].

Definition wf (x : t) : bool :=
  (blen (replay_id x) =? 16) && (blen (tenant_id x) =? 16)
  && (blen (server_instance_id x) =? 16)
  && (issued_at_ms x <=? not_before_ms x) && (not_before_ms x <? not_after_ms x).

#[global] Hint Unfold take put wf : wire_unfold.

End CommonFields.

(** ** Device approval and revocation *)

Module ApprovalScopeKind.

Inductive t := Tenant | Fleet.

#[global] Instance eq_dec : EqDecision t.
Proof. solve_decision. Defined.

Definition as_str (x : t) : string :=
  match x with
  | Tenant => "tenant"
  | Fleet => "fleet"
  end.

End ApprovalScopeKind.

Module DeviceApprovalV2.

Record t := mk {
  common : CommonFields.t;
  subject_account_id : bytes;
  subject_device_id : bytes;
  subject_signing_key_id : bytes;
  subject_hpke_key_id : bytes;
  approval_scope_kind : ApprovalScopeKind.t;
  approval_scope_id : bytes }.

Definition parser : fields t :=
  common ← CommonFields.take DOMAIN_DEVICE_APPROVAL;
  subject_account_id ← Fields.fixed 16 "subject_account_id";
  subject_device_id ← Fields.fixed 16 "subject_device_id";
  subject_signing_key_id ← Fields.fixed 32 "subject_signing_key_id";
  subject_hpke_key_id ← Fields.fixed 32 "subject_hpke_key_id";
  kind ← Fields.text "approval_scope_kind";
  approval_scope_kind ← (if String.eqb kind "tenant" then mret ApprovalScopeKind.Tenant
                         else if String.eqb kind "fleet" then mret ApprovalScopeKind.Fleet
                         else throw (BadValue "approval_scope_kind"));
  approval_scope_id ← Fields.fixed 16 "approval_scope_id";
  _ ← Fields.exact_text "approved_use" APPROVED_USE_TEAM_DEVICE;
  _ ← Fields.finish;
  _ ← fail_if (bool_decide (subject_signing_key_id = subject_hpke_key_id)) (BadValue "subject_hpke_key_id");
  _ ← fail_if (bool_decide (approval_scope_kind = ApprovalScopeKind.Tenant)
        && negb (bool_decide (approval_scope_id = CommonFields.tenant_id common))) (BadValue "approval_scope_id");
  mret (mk common subject_account_id subject_device_id subject_signing_key_id
  subject_hpke_key_id approval_scope_kind approval_scope_id).

Definition parse : bytes -> result RecordError t :=
  parse_map "DeviceApprovalV2" parser.

Definition put (x : t) : list (string * Value) :=
  CommonFields.put (common x) DOMAIN_DEVICE_APPROVAL ++
  [("subject_account_id", c.b (subject_account_id x));
   ("subject_device_id", c.b (subject_device_id x));
   ("subject_signing_key_id", c.b (subject_signing_key_id x));
   ("subject_hpke_key_id", c.b (subject_hpke_key_id x));
   ("approval_scope_kind", c.t (ApprovalScopeKind.as_str (approval_scope_kind x)));
   ("approval_scope_id", c.b (approval_scope_id x));
   ("approved_use", c.t APPROVED_USE_TEAM_DEVICE)].

Definition encode (x : t) : bytes := Canonical.encode (c.m (put x)).

Definition wf (x : t) : bool :=
  CommonFields.wf (common x) && (blen (subject_account_id x) =? 16)
  && (blen (subject_device_id x) =? 16) && (blen (subject_signing_key_id x) =? 32)
  && (blen (subject_hpke_key_id x) =? 32) && (blen (approval_scope_id x) =? 16)
  && negb (bool_decide (subject_signing_key_id x = subject_hpke_key_id x))
  && negb (bool_decide (approval_scope_kind x = ApprovalScopeKind.Tenant)
       && negb (bool_decide (approval_scope_id x = CommonFields.tenant_id (common x)))).

#[global] Hint Unfold put wf : wire_unfold.

#[global] Instance wire : WireMap "DeviceApprovalV2" parser put wf.
Proof. wire_map ltac:(fun x => destruct x as [[] ? ? ? ? [] ?]). Qed.

Lemma DeviceApprovalV2_exact :
  exact_map parse encode (record_ok put wf).
Proof. intros payload x. exact (wire_map_exact _ _ _ _ payload x). Qed.

End DeviceApprovalV2.

Module DeviceRevocationReason.

Inductive t := Lost | Compromised | Retired | Rekeyed.

#[global] Instance eq_dec : EqDecision t.
Proof. solve_decision. Defined.

Definition ALL : list t := [Lost; Compromised; Retired; Rekeyed].

Definition as_str (x : t) : string :=
  match x with
  | Lost => "lost"
  | Compromised => "compromised"
  | Retired => "retired"
  | Rekeyed => "rekeyed"
  end.

End DeviceRevocationReason.

Module DeviceRevocationV2.

Record t := mk {
  common : CommonFields.t;
  subject_account_id : bytes;
  subject_device_id : bytes;
  subject_signing_key_id : bytes;
  subject_hpke_key_id : bytes;
  reason_code : DeviceRevocationReason.t }.

Definition parser : fields t :=
  common ← CommonFields.take DOMAIN_DEVICE_REVOCATION;
  subject_account_id ← Fields.fixed 16 "subject_account_id";
  subject_device_id ← Fields.fixed 16 "subject_device_id";
  subject_signing_key_id ← Fields.fixed 32 "subject_signing_key_id";
  subject_hpke_key_id ← Fields.fixed 32 "subject_hpke_key_id";
  reason ← Fields.text "reason_code";
  reason_code ← lift (ok_or (find_str DeviceRevocationReason.as_str DeviceRevocationReason.ALL
                               reason) (BadValue "reason_code"));
  _ ← Fields.finish;
  _ ← fail_if (bool_decide (subject_signing_key_id = subject_hpke_key_id)) (BadValue "subject_hpke_key_id");
  mret (mk common subject_account_id subject_device_id subject_signing_key_id
  subject_hpke_key_id reason_code).

Definition parse : bytes -> result RecordError t :=
  parse_map "DeviceRevocationV2" parser.

Definition put (x : t) : list (string * Value) :=
  CommonFields.put (common x) DOMAIN_DEVICE_REVOCATION ++
  [("subject_account_id", c.b (subject_account_id x));
   ("subject_device_id", c.b (subject_device_id x));
   ("subject_signing_key_id", c.b (subject_signing_key_id x));
   ("subject_hpke_key_id", c.b (subject_hpke_key_id x));
   ("reason_code", c.t (DeviceRevocationReason.as_str (reason_code x)))].

Definition encode (x : t) : bytes := Canonical.encode (c.m (put x)).

Definition wf (x : t) : bool :=
  CommonFields.wf (common x) && (blen (subject_account_id x) =? 16)
  && (blen (subject_device_id x) =? 16) && (blen (subject_signing_key_id x) =? 32)
  && (blen (subject_hpke_key_id x) =? 32)
  && negb (bool_decide (subject_signing_key_id x = subject_hpke_key_id x)).

#[global] Hint Unfold put wf : wire_unfold.

#[global] Instance wire : WireMap "DeviceRevocationV2" parser put wf.
Proof. wire_map ltac:(fun x => destruct x as [[] ? ? ? ? []]). Qed.

Lemma DeviceRevocationV2_exact :
  exact_map parse encode (record_ok put wf).
Proof. intros payload x. exact (wire_map_exact _ _ _ _ payload x). Qed.

End DeviceRevocationV2.

(** ** Capabilities *)

Module CapabilityScopeKind.

Inductive t := Tenant | Fleet | Profile.

#[global] Instance eq_dec : EqDecision t.
Proof. solve_decision. Defined.

Definition as_str (x : t) : string :=
  match x with
  | Tenant => "tenant"
  | Fleet => "fleet"
  | Profile => "profile"
  end.

End CapabilityScopeKind.

Module Capability.

Inductive t := TenantManage | MembershipManage | FleetManage | DeviceApprove | DeviceRevoke | KeyRotate | RecoveryManage | LeaseForceExpire | ProfilePublish | ProfileCheckout | ProfileCommit | RootCustody | FleetKeyReceive | FleetKeyRecover.

#[global] Instance eq_dec : EqDecision t.
Proof. solve_decision. Defined.

Definition ALL : list t := [TenantManage; MembershipManage; FleetManage; DeviceApprove;
  DeviceRevoke; KeyRotate; RecoveryManage; LeaseForceExpire; ProfilePublish; ProfileCheckout;
  ProfileCommit; RootCustody; FleetKeyReceive; FleetKeyRecover].

Definition as_str (x : t) : string :=
  match x with
  | TenantManage => "tenant.manage"
  | MembershipManage => "membership.manage"
  | FleetManage => "fleet.manage"
  | DeviceApprove => "device.approve"
  | DeviceRevoke => "device.revoke"
  | KeyRotate => "key.rotate"
  | RecoveryManage => "recovery.manage"
  | LeaseForceExpire => "lease.force_expire"
  | ProfilePublish => "profile.publish"
  | ProfileCheckout => "profile.checkout"
  | ProfileCommit => "profile.commit"
  | RootCustody => "root.custody"
  | FleetKeyReceive => "fleet.key.receive"
  | FleetKeyRecover => "fleet.key.recover"
  end.

Definition parse (s : string) : option t := find_str as_str ALL s.

(** The scope kinds a capability grant may carry the value with. *)
Definition grant_scopes (x : t) : list CapabilityScopeKind.t :=
  match x with
  | TenantManage | MembershipManage | RecoveryManage => [CapabilityScopeKind.Tenant]
  | FleetManage | DeviceApprove | DeviceRevoke | KeyRotate | ProfilePublish =>
      [CapabilityScopeKind.Tenant; CapabilityScopeKind.Fleet]
  | LeaseForceExpire | ProfileCheckout | ProfileCommit =>
      [CapabilityScopeKind.Tenant; CapabilityScopeKind.Fleet; CapabilityScopeKind.Profile]
  | RootCustody | FleetKeyReceive | FleetKeyRecover => []
  end.

#[global] Hint Unfold parse : wire_unfold.

Lemma capability_find (x : t) (e : RecordError) :
  ok_or (find_str as_str ALL (as_str x)) e = Ok x.
Proof. by destruct x. Qed.

#[global] Hint Resolve capability_find : wire_find.

End Capability.

Module GrantSubject.

Inductive t :=
| Account (account_id : bytes)
| Device (account_id device_id signing_key_id hpke_key_id : bytes).

Definition is_device (x : t) : bool :=
  match x with Device _ _ _ _ => true | Account _ => false end.

(** The match of [parse]: the device fields are present exactly for a device. *)
Definition of_fields (subject_kind : string) (account_id : bytes)
    (device_id signing_key_id hpke_key_id : option bytes) : fields t :=
  match device_id, signing_key_id, hpke_key_id with
  | None, None, None =>
      if String.eqb subject_kind "account" then mret (Account account_id)
      else throw (BadValue "subject_kind")
  | Some device_id, Some signing_key_id, Some hpke_key_id =>
      if String.eqb subject_kind "device" then
        _ ← fail_if (bool_decide (signing_key_id = hpke_key_id))
              (BadValue "subject_hpke_key_id");
        mret (Device account_id device_id signing_key_id hpke_key_id)
      else throw (BadValue "subject_kind")
  | _, _, _ => throw (BadValue "subject_kind")
  end.

Definition put (x : t) : list (string * Value) :=
  match x with
  | Account account_id =>
      [("subject_kind", c.t "account"); ("subject_account_id", c.b account_id)]
  | Device account_id device_id signing_key_id hpke_key_id =>
      [("subject_kind", c.t "device"); ("subject_account_id", c.b account_id);
       ("subject_device_id", c.b device_id); ("subject_signing_key_id", c.b signing_key_id);
       ("subject_hpke_key_id", c.b hpke_key_id)]
  end.

Definition wf (x : t) : bool :=
  match x with
  | Account account_id => blen account_id =? 16
  | Device account_id device_id signing_key_id hpke_key_id =>
      (blen account_id =? 16) && (blen device_id =? 16) && (blen signing_key_id =? 32)
      && (blen hpke_key_id =? 32) && negb (bool_decide (signing_key_id = hpke_key_id))
  end.

#[global] Hint Unfold of_fields put wf : wire_unfold.

End GrantSubject.

(** The match on the capability that ends [TenantCapabilityGrantV2::parse]. *)
Definition check_capability (subject : GrantSubject.t) (scope_kind : CapabilityScopeKind.t)
    (capability : Capability.t) : result RecordError unit :=
  match capability with
  | Capability.RootCustody =>
      if negb (GrantSubject.is_device subject) then Err (BadValue "capability")
      else if negb (bool_decide (scope_kind = CapabilityScopeKind.Tenant)) then
        Err (BadValue "scope_kind")
      else Ok tt
  | Capability.FleetKeyReceive | Capability.FleetKeyRecover => Err (BadValue "capability")
  | _ =>
      if negb (bool_decide (scope_kind ∈ Capability.grant_scopes capability)) then
        Err (BadValue "scope_kind")
      else Ok tt
  end.
#[global] Arguments check_capability : simpl never.

Lemma check_capability_safe s k cap : safe (check_capability s k cap).
Proof. intros c. unfold check_capability. by repeat case_match. Qed.

Lemma structured_check_capability s k cap :
  structured (lift (check_capability s k cap) : fields unit).
Proof. apply structured_lift, check_capability_safe. Qed.

#[export] Hint Resolve structured_check_capability : wire.

Module TenantCapabilityGrantV2.

Record t := mk {
  common : CommonFields.t;
  subject : GrantSubject.t;
  scope_kind : CapabilityScopeKind.t;
  scope_id : bytes;
  capability : Capability.t }.

Definition parser : fields t :=
  common ← CommonFields.take DOMAIN_TENANT_CAPABILITY_GRANT;
  subject_kind ← Fields.text "subject_kind";
  account_id ← Fields.fixed 16 "subject_account_id";
  device_id ← Fields.opt_fixed 16 "subject_device_id";
  signing_key_id ← Fields.opt_fixed 32 "subject_signing_key_id";
  hpke_key_id ← Fields.opt_fixed 32 "subject_hpke_key_id";
  subject ← GrantSubject.of_fields subject_kind account_id device_id signing_key_id
              hpke_key_id;
  kind ← Fields.text "scope_kind";
  scope_kind ← (if String.eqb kind "tenant" then mret CapabilityScopeKind.Tenant
                else if String.eqb kind "fleet" then mret CapabilityScopeKind.Fleet
                else if String.eqb kind "profile" then mret CapabilityScopeKind.Profile
                else throw (BadValue "scope_kind"));
  scope_id ← Fields.fixed 16 "scope_id";
  s ← Fields.text "capability";
  capability ← lift (ok_or (Capability.parse s) (BadValue "capability"));
  _ ← Fields.finish;
  _ ← lift (check_capability subject scope_kind capability);
  _ ← fail_if (bool_decide (scope_kind = CapabilityScopeKind.Tenant)
        && negb (bool_decide (scope_id = CommonFields.tenant_id common))) (BadValue "scope_id");
  mret (mk common subject scope_kind scope_id capability).

Definition parse : bytes -> result RecordError t :=
  parse_map "TenantCapabilityGrantV2" parser.

Definition put (x : t) : list (string * Value) :=
  CommonFields.put (common x) DOMAIN_TENANT_CAPABILITY_GRANT ++
  GrantSubject.put (subject x) ++
  [("scope_kind", c.t (CapabilityScopeKind.as_str (scope_kind x)));
   ("scope_id", c.b (scope_id x)); ("capability", c.t (Capability.as_str (capability x)))].

Definition encode (x : t) : bytes := Canonical.encode (c.m (put x)).

Definition wf (x : t) : bool :=
  CommonFields.wf (common x) && GrantSubject.wf (subject x) && (blen (scope_id x) =? 16)
  && is_ok (check_capability (subject x) (scope_kind x) (capability x))
  && negb (bool_decide (scope_kind x = CapabilityScopeKind.Tenant)
       && negb (bool_decide (scope_id x = CommonFields.tenant_id (common x)))).

#[global] Hint Unfold put wf : wire_unfold.

#[global] Instance wire : WireMap "TenantCapabilityGrantV2" parser put wf.
Proof. wire_map ltac:(fun x => destruct x as [[] [] [] ? ?]). Qed.

Lemma TenantCapabilityGrantV2_exact :
  exact_map parse encode (record_ok put wf).
Proof. intros payload x. exact (wire_map_exact _ _ _ _ payload x). Qed.

(** Whether a server may accept the grant for filing. *)
Definition is_issuable (x : t) : bool :=
  negb (bool_decide (capability x = Capability.RootCustody)).

End TenantCapabilityGrantV2.

(** ** Fleet key grant of a device *)

Module DeviceHpkeGrantV2.

Record t := mk {
  common : CommonFields.t;
  fleet_id : bytes;
  fkek_key_id : bytes;
  generation : Z;
  subject_account_id : bytes;
  subject_device_id : bytes;
  subject_signing_key_id : bytes;
  recipient_hpke_key_id : bytes;
  hpke_encapped_key_bytes : bytes;
  hpke_wrapped_fleet_key_bytes : bytes }.

(** [hpke_info_bytes]: the HPKE info the grant is sealed under. *)
Definition hpke_info_bytes (x : t) : bytes :=
  let k := common x in
  Canonical.encode (c.m
    [("domain", c.t DOMAIN_FLEET_KEY_GRANT_HPKE_INFO); ("version", c.u PAYLOAD_VERSION);
     ("replay_id", c.b (CommonFields.replay_id k));
     ("tenant_id", c.b (CommonFields.tenant_id k));
     ("server_instance_id", c.b (CommonFields.server_instance_id k));
     ("restore_epoch", c.u (CommonFields.restore_epoch k));
     ("fleet_id", c.b (fleet_id x)); ("fkek_key_id", c.b (fkek_key_id x));
     ("generation", c.u (generation x));
     ("subject_account_id", c.b (subject_account_id x));
     ("subject_device_id", c.b (subject_device_id x));
     ("recipient_hpke_key_id", c.b (recipient_hpke_key_id x));
     ("hpke_suite_id", c.u HPKE_SUITE_ID_X25519_CHACHA); ("hpke_mode_id", c.u HPKE_MODE_BASE);
     ("hpke_kem_id", c.u HPKE_KEM_X25519_HKDF_SHA256);
     ("hpke_kdf_id", c.u HPKE_KDF_HKDF_SHA256); ("hpke_aead_id", c.u HPKE_AEAD_CHACHA20POLY1305);
     ("grant_capability", c.t (Capability.as_str Capability.FleetKeyReceive))]).
#[global] Arguments hpke_info_bytes : simpl never.

Definition parser : fields t :=
  common ← CommonFields.take DOMAIN_FLEET_KEY_GRANT_DEVICE_HPKE;
  _ ← Fields.exact_text "grant_variant" GRANT_VARIANT_DEVICE_HPKE;
  fleet_id ← Fields.fixed 16 "fleet_id";
  fkek_key_id ← Fields.fixed 32 "fkek_key_id";
  generation ← Fields.uint "generation";
  _ ← Fields.exact_text "grant_capability" (Capability.as_str Capability.FleetKeyReceive);
  subject_account_id ← Fields.fixed 16 "subject_account_id";
  subject_device_id ← Fields.fixed 16 "subject_device_id";
  subject_signing_key_id ← Fields.fixed 32 "subject_signing_key_id";
  recipient_hpke_key_id ← Fields.fixed 32 "recipient_hpke_key_id";
  hpke_suite_id ← Fields.u16 "hpke_suite_id";
  info ← Fields.bytes "hpke_info_bytes" 1 1024;
  hpke_encapped_key_bytes ← Fields.bytes "hpke_encapped_key_bytes" 1 2048;
  hpke_wrapped_fleet_key_bytes ← Fields.bytes "hpke_wrapped_fleet_key_bytes" 1 4096;
  _ ← Fields.finish;
  _ ← fail_if (negb (hpke_suite_id =? HPKE_SUITE_ID_X25519_CHACHA)) (Unsupported "hpke_suite_id" hpke_suite_id);
  _ ← fail_if (negb (blen hpke_encapped_key_bytes =? HPKE_SUITE1_ENCAPPED_LEN)) (BadField "DeviceHpkeGrant" "hpke_encapped_key_bytes");
  _ ← fail_if (negb (blen hpke_wrapped_fleet_key_bytes =? HPKE_SUITE1_WRAPPED_FKEK_LEN)) (BadField "DeviceHpkeGrant" "hpke_wrapped_fleet_key_bytes");
  _ ← fail_if (bool_decide (subject_signing_key_id = recipient_hpke_key_id)) (BadValue "recipient_hpke_key_id");
  let grant :=
    mk common fleet_id fkek_key_id generation subject_account_id subject_device_id
    subject_signing_key_id recipient_hpke_key_id hpke_encapped_key_bytes
    hpke_wrapped_fleet_key_bytes in
  _ ← fail_if (negb (bool_decide (info = hpke_info_bytes grant))) (BadValue "hpke_info_bytes");
  mret grant.

Definition parse : bytes -> result RecordError t :=
  parse_map "DeviceHpkeGrant" parser.

Definition put (x : t) : list (string * Value) :=
  CommonFields.put (common x) DOMAIN_FLEET_KEY_GRANT_DEVICE_HPKE ++
  [("grant_variant", c.t GRANT_VARIANT_DEVICE_HPKE); ("fleet_id", c.b (fleet_id x));
   ("fkek_key_id", c.b (fkek_key_id x)); ("generation", c.u (generation x));
   ("grant_capability", c.t (Capability.as_str Capability.FleetKeyReceive));
   ("subject_account_id", c.b (subject_account_id x));
   ("subject_device_id", c.b (subject_device_id x));
   ("subject_signing_key_id", c.b (subject_signing_key_id x));
   ("recipient_hpke_key_id", c.b (recipient_hpke_key_id x));
   ("hpke_suite_id", c.u HPKE_SUITE_ID_X25519_CHACHA);
   ("hpke_info_bytes", c.b (hpke_info_bytes x));
   ("hpke_encapped_key_bytes", c.b (hpke_encapped_key_bytes x));
   ("hpke_wrapped_fleet_key_bytes", c.b (hpke_wrapped_fleet_key_bytes x))].

Definition encode (x : t) : bytes := Canonical.encode (c.m (put x)).

Definition wf (x : t) : bool :=
  CommonFields.wf (common x) && (blen (fleet_id x) =? 16) && (blen (fkek_key_id x) =? 32)
  && (blen (subject_account_id x) =? 16) && (blen (subject_device_id x) =? 16)
  && (blen (subject_signing_key_id x) =? 32) && (blen (recipient_hpke_key_id x) =? 32)
  && (1 <=? blen (hpke_info_bytes x)) && (blen (hpke_info_bytes x) <=? 1024)
  && (blen (hpke_encapped_key_bytes x) =? HPKE_SUITE1_ENCAPPED_LEN)
  && (blen (hpke_wrapped_fleet_key_bytes x) =? HPKE_SUITE1_WRAPPED_FKEK_LEN)
  && negb (bool_decide (subject_signing_key_id x = recipient_hpke_key_id x)).

#[global] Hint Unfold put wf : wire_unfold.

#[local] Opaque hpke_info_bytes.
#[global] Instance wire : WireMap "DeviceHpkeGrant" parser put wf.
Proof. wire_map ltac:(fun x => destruct x as [[] ? ? ? ? ? ? ? ? ?]). Qed.

Lemma DeviceHpkeGrantV2_exact :
  exact_map parse encode (record_ok put wf).
Proof. intros payload x. exact (wire_map_exact _ _ _ _ payload x). Qed.

End DeviceHpkeGrantV2.

(** ** Recovery grant *)

Module RecoveryGrantV2.

Record t := mk {
  common : CommonFields.t;
  fleet_id : bytes;
  fkek_key_id : bytes;
  generation : Z;
  recipient_root_key_id : bytes;
  recipient_root_generation : Z;
  root_wrap_nonce_bytes : bytes;
  wrapped_fleet_key_bytes : bytes }.

(** [root_wrap_context_bytes]: the AAD the fleet key is wrapped under. *)
Definition root_wrap_context_bytes (x : t) : bytes :=
  let k := common x in
  Canonical.encode (c.m
    [("domain", c.t DOMAIN_FLEET_RECOVERY_WRAP_CONTEXT); ("version", c.u PAYLOAD_VERSION);
     ("replay_id", c.b (CommonFields.replay_id k));
     ("tenant_id", c.b (CommonFields.tenant_id k));
     ("server_instance_id", c.b (CommonFields.server_instance_id k));
     ("restore_epoch", c.u (CommonFields.restore_epoch k));
     ("fleet_id", c.b (fleet_id x)); ("fkek_key_id", c.b (fkek_key_id x));
     ("generation", c.u (generation x));
     ("recipient_root_key_id", c.b (recipient_root_key_id x));
     ("recipient_root_generation", c.u (recipient_root_generation x));
     ("root_wrap_suite_id", c.u ROOT_WRAP_SUITE_ID_CHACHA);
     ("grant_capability", c.t (Capability.as_str Capability.FleetKeyRecover))]).
#[global] Arguments root_wrap_context_bytes : simpl never.

Definition parser : fields t :=
  common ← CommonFields.take DOMAIN_FLEET_KEY_GRANT_RECOVERY;
  _ ← Fields.exact_text "grant_variant" GRANT_VARIANT_RECOVERY;
  fleet_id ← Fields.fixed 16 "fleet_id";
  fkek_key_id ← Fields.fixed 32 "fkek_key_id";
  generation ← Fields.uint "generation";
  _ ← Fields.exact_text "grant_capability" (Capability.as_str Capability.FleetKeyRecover);
  recipient_root_key_id ← Fields.fixed 32 "recipient_root_key_id";
  recipient_root_generation ← Fields.uint "recipient_root_generation";
  root_wrap_suite_id ← Fields.u16 "root_wrap_suite_id";
  nonce ← Fields.bytes "root_wrap_nonce_bytes" 1 64;
  context ← Fields.bytes "root_wrap_context_bytes" 1 1024;
  wrapped ← Fields.bytes "wrapped_fleet_key_bytes" 1 4096;
  _ ← Fields.finish;
  _ ← fail_if (negb (root_wrap_suite_id =? ROOT_WRAP_SUITE_ID_CHACHA)) (Unsupported "root_wrap_suite_id" root_wrap_suite_id);
  _ ← fail_if (negb (blen nonce =? ROOT_WRAP_NONCE_LEN)) (BadField "RecoveryGrant" "root_wrap_nonce_bytes");
  _ ← fail_if (negb (blen wrapped =? ROOT_WRAP_WRAPPED_FKEK_LEN)) (BadField "RecoveryGrant" "wrapped_fleet_key_bytes");
  let grant :=
    mk common fleet_id fkek_key_id generation recipient_root_key_id recipient_root_generation
    nonce wrapped in
  _ ← fail_if (negb (bool_decide (context = root_wrap_context_bytes grant))) (BadValue "root_wrap_context_bytes");
  mret grant.

Definition parse : bytes -> result RecordError t :=
  parse_map "RecoveryGrant" parser.

Definition put (x : t) : list (string * Value) :=
  CommonFields.put (common x) DOMAIN_FLEET_KEY_GRANT_RECOVERY ++
  [("grant_variant", c.t GRANT_VARIANT_RECOVERY); ("fleet_id", c.b (fleet_id x));
   ("fkek_key_id", c.b (fkek_key_id x)); ("generation", c.u (generation x));
   ("grant_capability", c.t (Capability.as_str Capability.FleetKeyRecover));
   ("recipient_root_key_id", c.b (recipient_root_key_id x));
   ("recipient_root_generation", c.u (recipient_root_generation x));
   ("root_wrap_suite_id", c.u ROOT_WRAP_SUITE_ID_CHACHA);
   ("root_wrap_nonce_bytes", c.b (root_wrap_nonce_bytes x));
   ("root_wrap_context_bytes", c.b (root_wrap_context_bytes x));
   ("wrapped_fleet_key_bytes", c.b (wrapped_fleet_key_bytes x))].

Definition encode (x : t) : bytes := Canonical.encode (c.m (put x)).

Definition wf (x : t) : bool :=
  CommonFields.wf (common x) && (blen (fleet_id x) =? 16) && (blen (fkek_key_id x) =? 32)
  && (blen (recipient_root_key_id x) =? 32)
  && (1 <=? blen (root_wrap_context_bytes x))
  && (blen (root_wrap_context_bytes x) <=? 1024)
  && (blen (root_wrap_nonce_bytes x) =? ROOT_WRAP_NONCE_LEN)
  && (blen (wrapped_fleet_key_bytes x) =? ROOT_WRAP_WRAPPED_FKEK_LEN).

#[global] Hint Unfold put wf : wire_unfold.

#[local] Opaque root_wrap_context_bytes.
#[global] Instance wire : WireMap "RecoveryGrant" parser put wf.
Proof. wire_map ltac:(fun x => destruct x as [[] ? ? ? ? ? ? ?]). Qed.

Lemma RecoveryGrantV2_exact :
  exact_map parse encode (record_ok put wf).
Proof. intros payload x. exact (wire_map_exact _ _ _ _ payload x). Qed.

End RecoveryGrantV2.

(** ** Rotation grant *)

Module RotationGrantV2.

Record t := mk {
  common : CommonFields.t;
  fleet_id : bytes;
  fkek_key_id : bytes;
  generation : Z;
  previous_fkek_key_id : bytes;
  previous_generation : Z;
  required_device_grant_count : Z;
  required_device_grant_set_hash : bytes;
  recovery_grant_signed_container_hash : bytes;
  activation_not_before_ms : Z }.

Definition parser : fields t :=
  common ← CommonFields.take DOMAIN_FLEET_KEY_GRANT_ROTATION;
  _ ← Fields.exact_text "grant_variant" GRANT_VARIANT_ROTATION;
  fleet_id ← Fields.fixed 16 "fleet_id";
  fkek_key_id ← Fields.fixed 32 "fkek_key_id";
  generation ← Fields.uint "generation";
  _ ← Fields.exact_text "grant_capability" (Capability.as_str Capability.KeyRotate);
  previous_fkek_key_id ← Fields.fixed 32 "previous_fkek_key_id";
  previous_generation ← Fields.uint "previous_generation";
  count ← Fields.uint "required_device_grant_count";
  required_device_grant_count ←
    (if count <=? U32_MAX then mret count else Fields.bad "required_device_grant_count");
  required_device_grant_set_hash ← Fields.fixed 32 "required_device_grant_set_hash";
  recovery_grant_signed_container_hash ← Fields.fixed 32 "recovery_grant_signed_container_hash";
  activation_not_before_ms ← Fields.uint "activation_not_before_ms";
  _ ← Fields.finish;
  _ ← fail_if (negb (bool_decide (checked_add previous_generation 1 = Some generation))) (BadValue "generation");
  _ ← fail_if (bool_decide (fkek_key_id = previous_fkek_key_id)) (BadValue "fkek_key_id");
  _ ← fail_if (negb ((1 <=? count) && (count <=? MAX_REQUIRED_GRANT_COUNT))) (BadValue "required_device_grant_count");
  _ ← fail_if (negb ((CommonFields.not_before_ms common <=? activation_not_before_ms)
        && (activation_not_before_ms <? CommonFields.not_after_ms common))) (BadValue "activation_not_before_ms");
  mret (mk common fleet_id fkek_key_id generation previous_fkek_key_id previous_generation
  required_device_grant_count required_device_grant_set_hash
  recovery_grant_signed_container_hash activation_not_before_ms).

Definition parse : bytes -> result RecordError t :=
  parse_map "RotationGrant" parser.

Definition put (x : t) : list (string * Value) :=
  CommonFields.put (common x) DOMAIN_FLEET_KEY_GRANT_ROTATION ++
  [("grant_variant", c.t GRANT_VARIANT_ROTATION); ("fleet_id", c.b (fleet_id x));
   ("fkek_key_id", c.b (fkek_key_id x)); ("generation", c.u (generation x));
   ("grant_capability", c.t (Capability.as_str Capability.KeyRotate));
   ("previous_fkek_key_id", c.b (previous_fkek_key_id x));
   ("previous_generation", c.u (previous_generation x));
   ("required_device_grant_count", c.u (required_device_grant_count x));
   ("required_device_grant_set_hash", c.b (required_device_grant_set_hash x));
   ("recovery_grant_signed_container_hash", c.b (recovery_grant_signed_container_hash x));
   ("activation_not_before_ms", c.u (activation_not_before_ms x))].

Definition encode (x : t) : bytes := Canonical.encode (c.m (put x)).

Definition wf (x : t) : bool :=
  CommonFields.wf (common x) && (blen (fleet_id x) =? 16) && (blen (fkek_key_id x) =? 32)
  && (blen (previous_fkek_key_id x) =? 32) && (blen (required_device_grant_set_hash x) =? 32)
  && (blen (recovery_grant_signed_container_hash x) =? 32)
  && bool_decide (checked_add (previous_generation x) 1 = Some (generation x))
  && negb (bool_decide (fkek_key_id x = previous_fkek_key_id x))
  && (1 <=? required_device_grant_count x)
  && (required_device_grant_count x <=? MAX_REQUIRED_GRANT_COUNT)
  && (CommonFields.not_before_ms (common x) <=? activation_not_before_ms x)
  && (activation_not_before_ms x <? CommonFields.not_after_ms (common x)).

#[global] Hint Unfold put wf : wire_unfold.

#[global] Instance wire : WireMap "RotationGrant" parser put wf.
Proof. wire_map ltac:(fun x => destruct x as [[] ? ? ? ? ? ? ? ? ?]). Qed.

Lemma RotationGrantV2_exact :
  exact_map parse encode (record_ok put wf).
Proof. intros payload x. exact (wire_map_exact _ _ _ _ payload x). Qed.

End RotationGrantV2.

(** ** Root key grant *)

(** grants.rs: what the HPKE info of a root grant binds. *)
Module GrantScope.

Record t := mk {
  replay_id : bytes;
  tenant_id : bytes;
  server_instance_id : bytes;
  restore_epoch : Z;
  root_key_id : bytes;
  root_generation : Z;
  subject_account_id : bytes;
  subject_device_id : bytes;
  recipient_hpke_key_id : bytes }.

End GrantScope.

Definition GRANT_CAPABILITY_ROOT_CUSTODY := "root.custody".

Definition root_grant_info (scope : GrantScope.t) : bytes :=
  encode (c.m
    [("domain", c.t "shardx.keys.tenant-root-key-grant.hpke-info.v2"); ("version", c.u 2);
     ("replay_id", c.b (GrantScope.replay_id scope));
     ("tenant_id", c.b (GrantScope.tenant_id scope));
     ("server_instance_id", c.b (GrantScope.server_instance_id scope));
     ("restore_epoch", c.u (GrantScope.restore_epoch scope));
     ("root_key_id", c.b (GrantScope.root_key_id scope));
     ("root_generation", c.u (GrantScope.root_generation scope));
     ("subject_account_id", c.b (GrantScope.subject_account_id scope));
     ("subject_device_id", c.b (GrantScope.subject_device_id scope));
     ("recipient_hpke_key_id", c.b (GrantScope.recipient_hpke_key_id scope));
     ("hpke_suite_id", c.u 1); ("hpke_mode_id", c.u HPKE_MODE_BASE);
     ("hpke_kem_id", c.u HPKE_KEM_X25519_HKDF_SHA256);
     ("hpke_kdf_id", c.u HPKE_KDF_HKDF_SHA256); ("hpke_aead_id", c.u HPKE_AEAD_CHACHA20POLY1305);
     ("grant_capability", c.t GRANT_CAPABILITY_ROOT_CUSTODY)]).

Module RootGrantVariant.

Inductive t :=
| FirstRootSelfGrant
| ExistingRootGrant
| RotationGrant (previous_root_key_id : bytes) (previous_root_generation : Z).

Definition as_str (x : t) : string :=
  match x with
  | FirstRootSelfGrant => "FirstRootSelfGrant"
  | ExistingRootGrant => "ExistingRootGrant"
  | RotationGrant _ _ => "RotationGrant"
  end.

(** The match on the variant's name and the previous-root pair. *)
Definition of_fields (variant : string) (previous_root_key_id : option bytes)
    (previous_root_generation : option Z) : fields t :=
  match previous_root_key_id, previous_root_generation with
  | None, None =>
      if String.eqb variant "FirstRootSelfGrant" then mret FirstRootSelfGrant
      else if String.eqb variant "ExistingRootGrant" then mret ExistingRootGrant
      else if String.eqb variant "RotationGrant" then throw (BadValue "previous_root_key_id")
      else throw (BadValue "grant_variant")
  | Some key_id, Some generation =>
      if String.eqb variant "RotationGrant" then mret (RotationGrant key_id generation)
      else if String.eqb variant "FirstRootSelfGrant" || String.eqb variant "ExistingRootGrant"
      then throw (BadValue "previous_root_key_id")
      else throw (BadValue "grant_variant")
  | _, _ =>
      if String.eqb variant "FirstRootSelfGrant" || String.eqb variant "ExistingRootGrant"
         || String.eqb variant "RotationGrant"
      then throw (BadValue "previous_root_key_id")
      else throw (BadValue "grant_variant")
  end.

(** The generation rule of each variant. *)
Definition check_generation (variant : t) (root_key_id : bytes) (root_generation : Z)
    : fields unit :=
  match variant with
  | FirstRootSelfGrant => fail_if (negb (root_generation =? 0)) (BadValue "root_generation")
  | ExistingRootGrant => mret tt
  | RotationGrant previous_root_key_id previous_root_generation =>
      _ ← fail_if (negb (bool_decide (checked_add previous_root_generation 1
                                      = Some root_generation)))
            (BadValue "root_generation");
      fail_if (bool_decide (previous_root_key_id = root_key_id))
        (BadValue "previous_root_key_id")
  end.

(** The entries written after all others. *)
Definition put_previous (x : t) : list (string * Value) :=
  match x with
  | RotationGrant previous_root_key_id previous_root_generation =>
      [("previous_root_key_id", c.b previous_root_key_id);
       ("previous_root_generation", c.u previous_root_generation)]
  | _ => []
  end.

Definition wf (x : t) (root_key_id : bytes) (root_generation : Z) : bool :=
  match x with
  | FirstRootSelfGrant => root_generation =? 0
  | ExistingRootGrant => true
  | RotationGrant previous_root_key_id previous_root_generation =>
      (blen previous_root_key_id =? 32)
      && bool_decide (checked_add previous_root_generation 1 = Some root_generation)
      && negb (bool_decide (previous_root_key_id = root_key_id))
  end.

#[global] Hint Unfold of_fields check_generation put_previous wf : wire_unfold.

End RootGrantVariant.

Module TenantRootKeyGrantV2.

Record t := mk {
  common : CommonFields.t;
  variant : RootGrantVariant.t;
  root_key_id : bytes;
  root_generation : Z;
  subject_account_id : bytes;
  subject_device_id : bytes;
  subject_signing_key_id : bytes;
  recipient_hpke_key_id : bytes;
  subject_device_approval_replay_id : bytes;
  hpke_encapped_key_bytes : bytes;
  hpke_wrapped_trk_bytes : bytes }.

(** The fields the HPKE info binds. *)
Definition scope (x : t) : GrantScope.t :=
  let k := common x in
  GrantScope.mk (CommonFields.replay_id k) (CommonFields.tenant_id k)
    (CommonFields.server_instance_id k) (CommonFields.restore_epoch k) (root_key_id x)
    (root_generation x) (subject_account_id x) (subject_device_id x)
    (recipient_hpke_key_id x).

Definition hpke_info_bytes (x : t) : bytes := root_grant_info (scope x).
#[global] Arguments hpke_info_bytes : simpl never.

Definition parser : fields t :=
  common ← CommonFields.take DOMAIN_TENANT_ROOT_KEY_GRANT;
  grant_variant ← Fields.text "grant_variant";
  root_key_id ← Fields.fixed 32 "root_key_id";
  root_generation ← Fields.uint "root_generation";
  _ ← Fields.exact_text "grant_capability" (Capability.as_str Capability.RootCustody);
  subject_account_id ← Fields.fixed 16 "subject_account_id";
  subject_device_id ← Fields.fixed 16 "subject_device_id";
  subject_signing_key_id ← Fields.fixed 32 "subject_signing_key_id";
  recipient_hpke_key_id ← Fields.fixed 32 "recipient_hpke_key_id";
  subject_device_approval_replay_id ← Fields.fixed 16 "subject_device_approval_replay_id";
  hpke_suite_id ← Fields.u16 "hpke_suite_id";
  hpke_mode_id ← Fields.uint "hpke_mode_id";
  hpke_kem_id ← Fields.u16 "hpke_kem_id";
  hpke_kdf_id ← Fields.u16 "hpke_kdf_id";
  hpke_aead_id ← Fields.u16 "hpke_aead_id";
  info ← Fields.bytes "hpke_info_bytes" 1 1024;
  hpke_encapped_key_bytes ← Fields.fixed 32 "hpke_encapped_key_bytes";
  hpke_wrapped_trk_bytes ← Fields.fixed 48 "hpke_wrapped_trk_bytes";
  previous_root_key_id ← Fields.opt_fixed 32 "previous_root_key_id";
  previous_root_generation ← Fields.opt_uint "previous_root_generation";
  _ ← Fields.finish;
  _ ← fail_if (U8_MAX <? hpke_mode_id) (BadField "TenantRootKeyGrantV2" "hpke_mode_id");
  _ ← fail_first
        [(negb (hpke_suite_id =? HPKE_SUITE_ID_X25519_CHACHA),
          Unsupported "hpke_suite_id" hpke_suite_id);
         (negb (hpke_mode_id =? HPKE_MODE_BASE), Unsupported "hpke_mode_id" hpke_mode_id);
         (negb (hpke_kem_id =? HPKE_KEM_X25519_HKDF_SHA256),
          Unsupported "hpke_kem_id" hpke_kem_id);
         (negb (hpke_kdf_id =? HPKE_KDF_HKDF_SHA256), Unsupported "hpke_kdf_id" hpke_kdf_id);
         (negb (hpke_aead_id =? HPKE_AEAD_CHACHA20POLY1305),
          Unsupported "hpke_aead_id" hpke_aead_id)];
  variant ← RootGrantVariant.of_fields grant_variant previous_root_key_id
              previous_root_generation;
  _ ← RootGrantVariant.check_generation variant root_key_id root_generation;
  _ ← fail_if (bool_decide (subject_signing_key_id = recipient_hpke_key_id)) (BadValue "recipient_hpke_key_id");
  let grant :=
    mk common variant root_key_id root_generation subject_account_id subject_device_id
    subject_signing_key_id recipient_hpke_key_id subject_device_approval_replay_id
    hpke_encapped_key_bytes hpke_wrapped_trk_bytes in
  _ ← fail_if (negb (bool_decide (info = hpke_info_bytes grant))) (BadValue "hpke_info_bytes");
  mret grant.

Definition parse : bytes -> result RecordError t :=
  parse_map "TenantRootKeyGrantV2" parser.

Definition put (x : t) : list (string * Value) :=
  CommonFields.put (common x) DOMAIN_TENANT_ROOT_KEY_GRANT ++
  [("grant_variant", c.t (RootGrantVariant.as_str (variant x)));
   ("root_key_id", c.b (root_key_id x)); ("root_generation", c.u (root_generation x));
   ("grant_capability", c.t (Capability.as_str Capability.RootCustody));
   ("subject_account_id", c.b (subject_account_id x));
   ("subject_device_id", c.b (subject_device_id x));
   ("subject_signing_key_id", c.b (subject_signing_key_id x));
   ("recipient_hpke_key_id", c.b (recipient_hpke_key_id x));
   ("subject_device_approval_replay_id", c.b (subject_device_approval_replay_id x));
   ("hpke_suite_id", c.u HPKE_SUITE_ID_X25519_CHACHA); ("hpke_mode_id", c.u HPKE_MODE_BASE);
   ("hpke_kem_id", c.u HPKE_KEM_X25519_HKDF_SHA256); ("hpke_kdf_id", c.u HPKE_KDF_HKDF_SHA256);
   ("hpke_aead_id", c.u HPKE_AEAD_CHACHA20POLY1305);
   ("hpke_info_bytes", c.b (hpke_info_bytes x));
   ("hpke_encapped_key_bytes", c.b (hpke_encapped_key_bytes x));
   ("hpke_wrapped_trk_bytes", c.b (hpke_wrapped_trk_bytes x))] ++
  RootGrantVariant.put_previous (variant x).

Definition encode (x : t) : bytes := Canonical.encode (c.m (put x)).

Definition wf (x : t) : bool :=
  CommonFields.wf (common x) && (blen (root_key_id x) =? 32)
  && (blen (subject_account_id x) =? 16) && (blen (subject_device_id x) =? 16)
  && (blen (subject_signing_key_id x) =? 32) && (blen (recipient_hpke_key_id x) =? 32)
  && (blen (subject_device_approval_replay_id x) =? 16)
  && (1 <=? blen (hpke_info_bytes x)) && (blen (hpke_info_bytes x) <=? 1024)
  && (blen (hpke_encapped_key_bytes x) =? 32) && (blen (hpke_wrapped_trk_bytes x) =? 48)
  && RootGrantVariant.wf (variant x) (root_key_id x) (root_generation x)
  && negb (bool_decide (subject_signing_key_id x = recipient_hpke_key_id x)).

#[global] Hint Unfold put wf : wire_unfold.

#[local] Opaque hpke_info_bytes.
#[global] Instance wire : WireMap "TenantRootKeyGrantV2" parser put wf.
Proof. wire_map ltac:(fun x => destruct x as [[] [] ? ? ? ? ? ? ? ? ?]). Qed.

Lemma TenantRootKeyGrantV2_exact :
  exact_map parse encode (record_ok put wf).
Proof. intros payload x. exact (wire_map_exact _ _ _ _ payload x). Qed.

End TenantRootKeyGrantV2.

(** ** Sealing and opening a recovery grant *)

(** shared/src/grants.rs. *)
Inductive GrantError :=
| BadKeyMaterial
| HpkeFailure
| BadTrkLength
| BadFkekLength
| AeadFailure
| FieldMismatch (field : string).

(** shared/src/fleet_grants.rs. *)
Definition FKEK_LEN : Z := 32.

Definition fkek_key_id (sha256 : bytes -> bytes) (fkek : bytes) : bytes :=
  sha256 (encode (c.m [("domain", c.t "shardx.keys.fleet-key-id.v2"); ("version", c.u 2);
                       ("key_bytes", c.b fkek)])).

Definition root_wrap `{!Aead} (trk nonce context fkek : bytes) : result GrantError bytes :=
  sealed ← ok_or (aead_encrypt trk nonce context fkek) AeadFailure;
  if blen sealed =? ROOT_WRAP_WRAPPED_FKEK_LEN then Ok sealed else Err AeadFailure.

Module RecoveryCustody.

Definition with_nonce (self : RecoveryGrantV2.t) (nonce : bytes) : RecoveryGrantV2.t :=
  match self with
  | RecoveryGrantV2.mk k f i g r rg _ w => RecoveryGrantV2.mk k f i g r rg nonce w
  end.

Definition with_wrapped (self : RecoveryGrantV2.t) (wrapped : bytes) : RecoveryGrantV2.t :=
  match self with
  | RecoveryGrantV2.mk k f i g r rg n _ => RecoveryGrantV2.mk k f i g r rg n wrapped
  end.

Section custody.
Context `{HA : !Aead} (sha256 : bytes -> bytes).

(** [seal] on [&mut self]: the outcome, and the grant it leaves. The nonce is what
    the OS returned; a failing wrap leaves the new nonce in place. *)
Definition seal (self : RecoveryGrantV2.t) (trk fkek nonce : bytes)
    : result GrantError unit * RecoveryGrantV2.t :=
  if negb (bool_decide (root_key_id sha256 trk = RecoveryGrantV2.recipient_root_key_id self))
  then (Err (FieldMismatch "recipient_root_key_id"), self)
  else if negb (bool_decide (fkek_key_id sha256 fkek = RecoveryGrantV2.fkek_key_id self))
  then (Err (FieldMismatch "fkek_key_id"), self)
  else
    let self := with_nonce self nonce in
    match root_wrap trk nonce (RecoveryGrantV2.root_wrap_context_bytes self) fkek with
    | Ok wrapped => (Ok tt, with_wrapped self wrapped)
    | Err e => (Err e, self)
    | Crash c => (Crash c, self)
    end.

Definition open_fkek (self : RecoveryGrantV2.t) (trk : bytes) : result GrantError bytes :=
  if negb (bool_decide (root_key_id sha256 trk = RecoveryGrantV2.recipient_root_key_id self))
  then Err (FieldMismatch "recipient_root_key_id")
  else
    plain ← ok_or (aead_decrypt trk (RecoveryGrantV2.root_wrap_nonce_bytes self)
                     (RecoveryGrantV2.root_wrap_context_bytes self)
                     (RecoveryGrantV2.wrapped_fleet_key_bytes self)) AeadFailure;
    fkek ← (if blen plain =? FKEK_LEN then Ok plain else Err BadFkekLength);
    if negb (bool_decide (fkek_key_id sha256 fkek = RecoveryGrantV2.fkek_key_id self))
    then Err (FieldMismatch "fkek_key_id") else Ok fkek.

End custody.

End RecoveryCustody.

(** A recovery grant opens exactly to what it seals: under a root key it yields
    a fleet key exactly when sealing that fleet key under that root key with the
    grant's nonce succeeds and leaves the grant as it is. The wrap context binds
    every field it names. *)
Theorem recovery_open_iff_seal `{HA : !Aead, !AeadLaws} sha256 grant trk fkek :
  RecoveryCustody.open_fkek sha256 grant trk = Ok fkek <->
  blen fkek = FKEK_LEN
  /\ RecoveryCustody.seal sha256 grant trk fkek (RecoveryGrantV2.root_wrap_nonce_bytes grant)
     = (Ok tt, grant).
Proof.
  destruct grant as [k f i g r rg nonce wrapped].
  unfold RecoveryCustody.open_fkek, RecoveryCustody.seal, root_wrap,
    ROOT_WRAP_WRAPPED_FKEK_LEN, FKEK_LEN.
  cbn [RecoveryCustody.with_nonce RecoveryGrantV2.recipient_root_key_id
    RecoveryGrantV2.fkek_key_id RecoveryGrantV2.root_wrap_nonce_bytes
    RecoveryGrantV2.wrapped_fleet_key_bytes].
  set (context := RecoveryGrantV2.root_wrap_context_bytes _).
  case_bool_decide as Hr; cbn [negb]; [|naive_solver]. split.
  - intros (plain & Hd%ok_or_ok & Hp)%result_bind_ok.
    apply result_bind_ok in Hp as (x & Hx & Hp). destruct (blen plain =? 32) eqn:El; [|done].
    injection Hx as <-.
    destruct (bool_decide_reflect (fkek_key_id sha256 plain = i)) as [Hi|]; cbn [negb] in Hp;
      [|done].
    injection Hp as <-. split; [lia|]. rewrite bool_decide_true by done. cbn [negb].
    apply aead_seal_open in Hd. pose proof (aead_tag _ _ _ _ _ Hd) as Ht.
    rewrite Hd. cbn [ok_or]. unfold mbind, result_bind.
    by rewrite (proj2 (Z.eqb_eq (blen wrapped) 48)) by lia.
  - intros [Hl Hs]. case_bool_decide as Hi; cbn [negb] in Hs; [|done].
    destruct (aead_encrypt trk nonce context fkek) as [w|] eqn:He;
      unfold mbind, result_bind in Hs; cbn [ok_or] in Hs; [|done].
    destruct (blen w =? 48); [|done]. injection Hs as ->.
    apply aead_open_seal in He. rewrite He. cbn [ok_or]. unfold mbind, result_bind.
    rewrite (proj2 (Z.eqb_eq (blen fkek) 32)) by done. by rewrite bool_decide_true.
Qed.

(** C38. What a capability grant can say. A grant that parses never carries
    [fleet.key.receive] or [fleet.key.recover]; it carries [root.custody] only for a
    device and tenant-wide, and such a grant is never issuable; any other
    capability has a scope kind of its row of the D-2 table; a tenant scope names
    the grant's own tenant; and a device subject has two distinct keys. *)
Theorem capability_grant_rule payload x :
  blen payload <= USIZE_MAX -> TenantCapabilityGrantV2.parse payload = Ok x ->
  let cap := TenantCapabilityGrantV2.capability x in
  let kind := TenantCapabilityGrantV2.scope_kind x in
  cap <> Capability.FleetKeyReceive /\ cap <> Capability.FleetKeyRecover
  /\ (cap = Capability.RootCustody ->
      GrantSubject.is_device (TenantCapabilityGrantV2.subject x) = true
      /\ kind = CapabilityScopeKind.Tenant)
  /\ (TenantCapabilityGrantV2.is_issuable x = true -> kind ∈ Capability.grant_scopes cap)
  /\ (kind = CapabilityScopeKind.Tenant ->
      TenantCapabilityGrantV2.scope_id x
      = CommonFields.tenant_id (TenantCapabilityGrantV2.common x))
  /\ (forall a d s h, TenantCapabilityGrantV2.subject x = GrantSubject.Device a d s h -> s <> h).
Proof.
  intros Hb [Hok _]%TenantCapabilityGrantV2.TenantCapabilityGrantV2_exact; [|done].
  apply andb_true_iff in Hok as [_ Hw]. cbv zeta.
  destruct x as [k subject kind sid cap].
  unfold TenantCapabilityGrantV2.wf, TenantCapabilityGrantV2.is_issuable in *.
  cbn [TenantCapabilityGrantV2.common TenantCapabilityGrantV2.subject
    TenantCapabilityGrantV2.scope_kind TenantCapabilityGrantV2.scope_id
    TenantCapabilityGrantV2.capability] in *.
  apply andb_true_iff in Hw as [[Hw Hcheck]%andb_true_iff Htenant].
  apply andb_true_iff in Hw as [[_ Hsubject]%andb_true_iff _].
  apply is_ok_true in Hcheck as [u Hcheck]. unfold check_capability in Hcheck. split_and!.
  - by intros ->.
  - by intros ->.
  - intros ->. destruct (GrantSubject.is_device subject); [|done]. cbn [negb] in Hcheck.
    clear Htenant. by case_bool_decide.
  - intros Hi%negb_true_iff%bool_decide_eq_false.
    clear Htenant. destruct cap; try done; case_bool_decide; done.
  - intros ->. clear Hcheck. by do 2 case_bool_decide.
  - intros a d s h ->. unfold GrantSubject.wf in Hsubject. wire_facts. done.
Qed.

(** ** Samples *)

Definition sample_bytes (n : nat) (z : Z) : bytes := be_bytes n z.
Definition sample_common : CommonFields.t :=
  CommonFields.mk (sample_bytes 16 1) (sample_bytes 16 2) 100 200 300 (sample_bytes 16 3) 7.
Definition sample_capability : TenantCapabilityGrantV2.t :=
  TenantCapabilityGrantV2.mk sample_common
    (GrantSubject.Device (sample_bytes 16 4) (sample_bytes 16 5) (sample_bytes 32 6)
       (sample_bytes 32 7))
    CapabilityScopeKind.Tenant (sample_bytes 16 2) Capability.RootCustody.
Definition sample_trk : bytes := replicate 32 Byte.x11.
Definition sample_fkek : bytes := replicate 32 Byte.x22.
(** Stands for SHA-256 in the witnesses. *)
Definition toy_hash (x : bytes) : bytes :=
  be_bytes 32 (blen x).
Definition sample_unsealed : RecoveryGrantV2.t :=
  RecoveryGrantV2.mk sample_common (sample_bytes 16 8) (fkek_key_id toy_hash sample_fkek) 3
    (root_key_id toy_hash sample_trk) 4 (replicate 12 Byte.x00) (replicate 48 Byte.x00).
Definition sample_recovery : RecoveryGrantV2.t :=
  (RecoveryCustody.seal toy_hash sample_unsealed sample_trk sample_fkek
     (replicate 12 Byte.x09)).2.

Lemma recovery_open_iff_seal_witness :
  RecoveryCustody.open_fkek toy_hash sample_recovery sample_trk = Ok sample_fkek.
Proof.
  apply (recovery_open_iff_seal (HA := toy_aead) toy_hash sample_recovery sample_trk
    sample_fkek).
  split; vm_compute; reflexivity.
Defined.

Lemma capability_grant_rule_witness :
  GrantSubject.is_device (TenantCapabilityGrantV2.subject sample_capability) = true
  /\ TenantCapabilityGrantV2.scope_kind sample_capability = CapabilityScopeKind.Tenant.
Proof.
  assert (TenantCapabilityGrantV2.parse (TenantCapabilityGrantV2.encode sample_capability)
          = Ok sample_capability) as Hp by (vm_compute; reflexivity).
  refine (proj1 (proj2 (proj2 (capability_grant_rule
    (TenantCapabilityGrantV2.encode sample_capability) sample_capability _ Hp))) eq_refl).
  vm_compute. discriminate.
Defined.
