(* ===== verification/AuthzRecord.v ===== *)
(** * Signed authorization records (shared/src/authz_record.rs)

    The container [SignedAuthorizationRecordV2]: its parser, the checks of its
    hashes and of its payload, the signature check that gives access to the
    payload, and its construction. *)

From S2P Require Import Prelude Bytes Canonical CanonicalFacts CanonicalDecode CanonicalTheorems.
From S2P Require Import RecordFields WireMap Keys AuthzPayloads.

Definition CONTAINER_DOMAIN := "shardx.authorization.signed-container.v2".
Definition CONTAINER_VERSION : Z := 2.
Definition MAX_PAYLOAD_BYTES : Z := 65536.
Definition MAX_SIGNATURE_BYTES : Z := 4096.
Definition MAX_RECORD_BYTES : Z := MAX_PAYLOAD_BYTES + MAX_SIGNATURE_BYTES + 1024.

(** ** Payloads *)

Module Payload.

Inductive t :=
| DeviceApproval (p : DeviceApprovalV2.t)
| TenantCapabilityGrant (p : TenantCapabilityGrantV2.t)
| DeviceHpkeGrant (p : DeviceHpkeGrantV2.t)
| RecoveryGrant (p : RecoveryGrantV2.t)
| RotationGrant (p : RotationGrantV2.t)
| TenantRootKeyGrant (p : TenantRootKeyGrantV2.t)
| DeviceRevocation (p : DeviceRevocationV2.t).

Definition common (x : t) : CommonFields.t :=
  match x with
  | DeviceApproval p => DeviceApprovalV2.common p
  | TenantCapabilityGrant p => TenantCapabilityGrantV2.common p
  | DeviceHpkeGrant p => DeviceHpkeGrantV2.common p
  | RecoveryGrant p => RecoveryGrantV2.common p
  | RotationGrant p => RotationGrantV2.common p
  | TenantRootKeyGrant p => TenantRootKeyGrantV2.common p
  | DeviceRevocation p => DeviceRevocationV2.common p
  end.

Definition parse (domain : string) (bs : bytes) : result RecordError t :=
  if String.eqb domain DOMAIN_DEVICE_APPROVAL then
    DeviceApproval <$> DeviceApprovalV2.parse bs
  else if String.eqb domain DOMAIN_TENANT_CAPABILITY_GRANT then
    TenantCapabilityGrant <$> TenantCapabilityGrantV2.parse bs
  else if String.eqb domain DOMAIN_FLEET_KEY_GRANT_DEVICE_HPKE then
    DeviceHpkeGrant <$> DeviceHpkeGrantV2.parse bs
  else if String.eqb domain DOMAIN_FLEET_KEY_GRANT_RECOVERY then
    RecoveryGrant <$> RecoveryGrantV2.parse bs
  else if String.eqb domain DOMAIN_FLEET_KEY_GRANT_ROTATION then
    RotationGrant <$> RotationGrantV2.parse bs
  else if String.eqb domain DOMAIN_TENANT_ROOT_KEY_GRANT then
    TenantRootKeyGrant <$> TenantRootKeyGrantV2.parse bs
  else if String.eqb domain DOMAIN_DEVICE_REVOCATION then
    DeviceRevocation <$> DeviceRevocationV2.parse bs
  else Err (UnknownPayloadDomain domain).

(** The domain, the entries, the encoding and the contract of each kind. *)
Definition domain (x : t) : string :=
  match x with
  | DeviceApproval _ => DOMAIN_DEVICE_APPROVAL
  | TenantCapabilityGrant _ => DOMAIN_TENANT_CAPABILITY_GRANT
  | DeviceHpkeGrant _ => DOMAIN_FLEET_KEY_GRANT_DEVICE_HPKE
  | RecoveryGrant _ => DOMAIN_FLEET_KEY_GRANT_RECOVERY
  | RotationGrant _ => DOMAIN_FLEET_KEY_GRANT_ROTATION
  | TenantRootKeyGrant _ => DOMAIN_TENANT_ROOT_KEY_GRANT
  | DeviceRevocation _ => DOMAIN_DEVICE_REVOCATION
  end.

Definition put (x : t) : list (string * Value) :=
  match x with
  | DeviceApproval p => DeviceApprovalV2.put p
  | TenantCapabilityGrant p => TenantCapabilityGrantV2.put p
  | DeviceHpkeGrant p => DeviceHpkeGrantV2.put p
  | RecoveryGrant p => RecoveryGrantV2.put p
  | RotationGrant p => RotationGrantV2.put p
  | TenantRootKeyGrant p => TenantRootKeyGrantV2.put p
  | DeviceRevocation p => DeviceRevocationV2.put p
  end.

Definition encode (x : t) : bytes := Canonical.encode (c.m (put x)).

Definition wf (x : t) : bool :=
  match x with
  | DeviceApproval p => DeviceApprovalV2.wf p
  | TenantCapabilityGrant p => TenantCapabilityGrantV2.wf p
  | DeviceHpkeGrant p => DeviceHpkeGrantV2.wf p
  | RecoveryGrant p => RecoveryGrantV2.wf p
  | RotationGrant p => RotationGrantV2.wf p
  | TenantRootKeyGrant p => TenantRootKeyGrantV2.wf p
  | DeviceRevocation p => DeviceRevocationV2.wf p
  end.

Abbreviation ok := (record_ok put wf).

(** The rule [AuthorizationRecord::parse] checks after the payload's own: a first
    self-grant is signed by its subject. *)
Definition self_signed (x : t) (issuer_signing_key_id : bytes) : bool :=
  match x with
  | TenantRootKeyGrant g =>
      negb (match TenantRootKeyGrantV2.variant g with
            | RootGrantVariant.FirstRootSelfGrant => true
            | _ => false
            end
            && negb (bool_decide (TenantRootKeyGrantV2.subject_signing_key_id g
                                  = issuer_signing_key_id)))
  | _ => true
  end.

End Payload.

(** ** Container *)

Definition tbs_fields (payload_domain : string)
    (payload_bytes payload_sha256 issuer_signing_key_id : bytes) : list (string * Value) :=
  [("container_domain", c.t CONTAINER_DOMAIN); ("container_version", c.u CONTAINER_VERSION);
   ("payload_domain", c.t payload_domain); ("payload_version", c.u PAYLOAD_VERSION);
   ("canonical_payload_bytes", c.b payload_bytes); ("payload_sha256", c.b payload_sha256);
   ("signature_suite_id", c.u SIGNATURE_SUITE_ID_ED25519);
   ("signature_version", c.u SIGNATURE_VERSION);
   ("issuer_signing_key_id", c.b issuer_signing_key_id)].

Definition build_record `{!Ed25519} (sha256 : bytes -> bytes) (sk : bytes)
    (payload_domain : string) (payload_bytes : bytes) : bytes :=
  let issuer := signing_key_id sha256 (ed_public sk) in
  let fields := tbs_fields payload_domain payload_bytes (sha256 payload_bytes) issuer in
  SignedContainer.exact_bytes (build_signed_container sha256 sk fields).

(** The fields of the container map, as [parse] takes them. *)
Module RecordContainer.

Record t := mk {
  payload_domain : string;
  payload_bytes : bytes;
  payload_sha256 : bytes;
  issuer_signing_key_id : bytes;
  signature_bytes : bytes;
  container_hash : bytes }.

Definition supported (field : string) (expected : Z) : fields unit :=
  v ← Fields.u16 field;
  fail_if (negb (v =? expected)) (Unsupported field v).

Definition parser : fields t :=
  _ ← Fields.exact_text "container_domain" CONTAINER_DOMAIN;
  _ ← supported "container_version" CONTAINER_VERSION;
  payload_domain ← Fields.text "payload_domain";
  _ ← supported "payload_version" PAYLOAD_VERSION;
  payload_bytes ← Fields.bytes "canonical_payload_bytes" 1 MAX_PAYLOAD_BYTES;
  payload_sha256 ← Fields.fixed 32 "payload_sha256";
  _ ← supported "signature_suite_id" SIGNATURE_SUITE_ID_ED25519;
  _ ← supported "signature_version" SIGNATURE_VERSION;
  issuer_signing_key_id ← Fields.fixed 32 "issuer_signing_key_id";
  signature_bytes ← Fields.bytes "signature_bytes" 1 MAX_SIGNATURE_BYTES;
  container_hash ← Fields.fixed 32 "signed_container_hash";
  _ ← Fields.finish;
  mret (mk payload_domain payload_bytes payload_sha256 issuer_signing_key_id signature_bytes
    container_hash).

Definition put (x : t) : list (string * Value) :=
  tbs_fields (payload_domain x) (payload_bytes x) (payload_sha256 x) (issuer_signing_key_id x)
  ++ [("signature_bytes", c.b (signature_bytes x));
      ("signed_container_hash", c.b (container_hash x))].

Definition wf (x : t) : bool :=
  (1 <=? blen (payload_bytes x)) && (blen (payload_bytes x) <=? MAX_PAYLOAD_BYTES)
  && (blen (payload_sha256 x) =? 32) && (blen (issuer_signing_key_id x) =? 32)
  && (1 <=? blen (signature_bytes x)) && (blen (signature_bytes x) <=? MAX_SIGNATURE_BYTES)
  && (blen (container_hash x) =? 32).

#[global] Hint Unfold supported tbs_fields put wf CONTAINER_VERSION MAX_PAYLOAD_BYTES
  MAX_SIGNATURE_BYTES SIGNATURE_SUITE_ID_ED25519 SIGNATURE_VERSION : wire_unfold.

#[global] Instance wire : WireMap "SignedAuthorizationRecordV2" parser put wf.
Proof. wire_map ltac:(fun x => destruct x as [? ? ? ? ? ?]). Qed.

End RecordContainer.

Module AuthorizationRecord.

Record t := mk {
  payload_domain : string;
  canonical_payload_bytes : bytes;
  payload_sha256 : bytes;
  issuer_signing_key_id : bytes;
  signature_bytes : bytes;
  signed_container_hash : bytes;
  exact_signed_container_bytes : bytes;
  exact_signed_container_bytes_sha256 : bytes;
  tbs_bytes : bytes;
  payload : Payload.t }.

Definition MAP := "SignedAuthorizationRecordV2".

(** The payload map must name the container's domain and version. *)
Definition check_header (payload_domain : string) (payload_version : Z) : fields unit :=
  domain ← Fields.text "domain";
  _ ← fail_if (negb (String.eqb domain payload_domain)) (BadValue "payload_domain");
  version ← Fields.u16 "version";
  fail_if (negb (version =? payload_version)) (BadValue "payload_version").

Section record.
Context `{!Ed25519} (sha256 : bytes -> bytes).

(** [parse] after [f.finish()]; the payload version is the one just checked. *)
Definition check (exact : bytes) (f : RecordContainer.t) : result RecordError t :=
  let domain := RecordContainer.payload_domain f in
  let payload_bytes := RecordContainer.payload_bytes f in
  let payload_sha256 := RecordContainer.payload_sha256 f in
  let issuer := RecordContainer.issuer_signing_key_id f in
  let signature_bytes := RecordContainer.signature_bytes f in
  let container_hash := RecordContainer.container_hash f in
  if negb (blen signature_bytes =? ED25519_SIG_LEN) then Err (BadField MAP "signature_bytes")
  else if negb (bool_decide (sha256 payload_bytes = payload_sha256)) then
    Err PayloadHashMismatch
  else
    let core := tbs_fields domain payload_bytes payload_sha256 issuer in
    let tbs_bytes := Canonical.encode (c.m core) in
    let core := core ++ [("signature_bytes", c.b signature_bytes)] in
    let core_bytes := Canonical.encode (c.m core) in
    if negb (bool_decide (domain_hash sha256 L_SIGNED_CONTAINER core_bytes = container_hash))
    then Err ContainerHashMismatch
    else
      _ ← parse_map "payload" (check_header domain PAYLOAD_VERSION) payload_bytes;
      payload ← Payload.parse domain payload_bytes;
      if negb (Payload.self_signed payload issuer) then Err (BadValue "issuer_signing_key_id")
      else
        Ok (mk domain payload_bytes payload_sha256 issuer signature_bytes container_hash exact
              (sha256 exact) tbs_bytes payload).

Definition parse (exact : bytes) : result RecordError t :=
  if MAX_RECORD_BYTES <? blen exact then Err (BadField MAP "exact_signed_container_bytes")
  else
    f ← parse_map MAP RecordContainer.parser exact;
    check exact f.

(** The record, returned as verified; no other function makes one. *)
Record VerifiedRecord := Verified { record : t }.

Definition verify_signature (self : t) (issuer_public_key : bytes)
    : result RecordError VerifiedRecord :=
  if negb (bool_decide (signing_key_id sha256 issuer_public_key = issuer_signing_key_id self))
  then Err IssuerKeyMismatch
  else
    _ ← map_err (fun _ => Signature)
          (verify_tbs issuer_public_key (tbs_bytes self) (signature_bytes self));
    mret (Verified self).

Definition verified_payload (v : VerifiedRecord) : Payload.t := payload (record v).

End record.

End AuthorizationRecord.

(** ** Payloads of one domain *)

(** Every payload is under the container's cap, so the cap never refuses one. *)
Lemma payload_encode_size p :
  Payload.ok p = true -> 1 <= blen (Payload.encode p) <= MAX_PAYLOAD_BYTES.
Proof.
  intros [_ H]%andb_true_iff. split; [apply encode_pos|].
  etrans; [apply encode_size|]. unfold MAX_PAYLOAD_BYTES.
  destruct p as [[[] ? ? ? ? [] ?]|[[] [] [] ? cap]|[[] ? ? ? ? ? ? ? ? ?]|[[] ? ? ? ? ? ? ?]
    |[[] ? ? ? ? ? ? ? ? ?]|[[] [] ? ? ? ? ? ? ? ? ?]|[[] ? ? ? ? []]];
    try (assert (blen (as_bytes (Capability.as_str cap)) <= 32) by (by destruct cap));
    cbn [Payload.wf Payload.put] in *; autounfold with wire_unfold in *;
    cbn -[Z.leb Z.ltb Z.eqb blen as_bytes] in H; wire_facts;
    cbn -[Z.add Z.mul blen as_bytes Capability.as_str];
    try (set (n := blen (as_bytes (Capability.as_str cap))) in *; clearbody n);
    eval_lengths; lia.
Qed.

(** [Payload::parse] on a domain accepts exactly the encodings of the well-formed
    payloads of that domain. *)
Lemma payload_parse_iff d bs p :
  blen bs <= USIZE_MAX ->
  Payload.parse d bs = Ok p <->
  Payload.ok p = true /\ Payload.domain p = d /\ Payload.encode p = bs.
Proof.
  intros Hb. unfold Payload.parse. split.
  - repeat match goal with
    | |- context [String.eqb d ?s] => destruct (String.eqb_spec d s) as [->|_]
    end; [intros (x & Hx & ->)%result_fmap_ok; revert Hx..|done].
    + by intros [??]%DeviceApprovalV2.DeviceApprovalV2_exact.
    + by intros [??]%TenantCapabilityGrantV2.TenantCapabilityGrantV2_exact.
    + by intros [??]%DeviceHpkeGrantV2.DeviceHpkeGrantV2_exact.
    + by intros [??]%RecoveryGrantV2.RecoveryGrantV2_exact.
    + by intros [??]%RotationGrantV2.RotationGrantV2_exact.
    + by intros [??]%TenantRootKeyGrantV2.TenantRootKeyGrantV2_exact.
    + by intros [??]%DeviceRevocationV2.DeviceRevocationV2_exact.
  - intros (Hok & <- & He). destruct p as [x|x|x|x|x|x|x]; cbn [Payload.domain];
      rewrite ?(proj2 (String.eqb_neq _ _)), String.eqb_refl by done; apply result_fmap_ok;
      exists x; (split; [|done]).
    + by apply DeviceApprovalV2.DeviceApprovalV2_exact.
    + by apply TenantCapabilityGrantV2.TenantCapabilityGrantV2_exact.
    + by apply DeviceHpkeGrantV2.DeviceHpkeGrantV2_exact.
    + by apply RecoveryGrantV2.RecoveryGrantV2_exact.
    + by apply RotationGrantV2.RotationGrantV2_exact.
    + by apply TenantRootKeyGrantV2.TenantRootKeyGrantV2_exact.
    + by apply DeviceRevocationV2.DeviceRevocationV2_exact.
Qed.

Lemma payload_keys p : keys_ok (Payload.put p) = true.
Proof. destruct p; cbn [Payload.put]; apply wm_keys. Qed.

Lemma payload_normal p : values_normal (Payload.put p).
Proof. destruct p; cbn [Payload.put]; apply wm_normal. Qed.

Lemma payload_header p :
  Payload.ok p = true ->
  parse_map "payload" (AuthorizationRecord.check_header (Payload.domain p) PAYLOAD_VERSION)
    (Payload.encode p) = Ok tt.
Proof.
  intros Hok. pose proof (payload_encode_size p Hok). pose proof Hok as [Hv _]%andb_true_iff.
  assert (exists f', AuthorizationRecord.check_header (Payload.domain p) PAYLOAD_VERSION
    (Fields.mk "payload" (Payload.put p)) = Ok (tt, f')) as [f' Hf]
    by (destruct p; eexists; reflexivity).
  eapply parse_map_run; [|done|apply payload_keys|apply payload_normal| |exact Hf].
  - unfold AuthorizationRecord.check_header. by_structure.
  - unfold Payload.encode, MAX_PAYLOAD_BYTES, USIZE_MAX, U64_MAX in *. lia.
Qed.

Lemma payload_encode_inj p q :
  Payload.ok p = true -> Payload.ok q = true -> Payload.encode p = Payload.encode q -> p = q.
Proof.
  intros Hp Hq He. pose proof (payload_encode_size p Hp) as Hs.
  assert (Payload.put p ≡ₚ Payload.put q) as Hperm.
  { pose proof Hp as [? _]%andb_true_iff. pose proof Hq as [? _]%andb_true_iff.
    apply encode_m_inj; try done; try apply payload_keys; try apply payload_normal.
    unfold Payload.encode, MAX_PAYLOAD_BYTES, USIZE_MAX, U64_MAX in *. lia. }
  assert (Payload.domain p = Payload.domain q) as Hd.
  { pose proof (payload_keys q) as Hk%keys_ok_NoDup%entry_keys_NoDup.
    assert (("domain", Text (Payload.domain p)) ∈ Payload.put q) as H1
      by (rewrite <- Hperm; destruct p; left).
    assert (("domain", Text (Payload.domain q)) ∈ Payload.put q) as H2
      by (destruct q; left).
    by apply (nodup_fst_unique _ _ _ _ Hk H1) in H2 as [= ->]. }
  assert (Ok p = (Ok q : result RecordError _)) as [= ->]; [|done].
  transitivity (Payload.parse (Payload.domain p) (Payload.encode p)); [symmetry|];
    (apply payload_parse_iff; [unfold MAX_PAYLOAD_BYTES, USIZE_MAX, U64_MAX in *; lia|]).
  - by split_and!.
  - by split_and!.
Qed.

(** ** The container of a payload, a signer key and a signature *)

Section facts.
Context (sha256 : bytes -> bytes) (sha256_length : forall x, length (sha256 x) = 32%nat).

Lemma sha_blen x : blen (sha256 x) = 32.
Proof. unfold blen. by rewrite sha256_length. Qed.

Definition record_fields (p : Payload.t) (issuer sig : bytes) : RecordContainer.t :=
  let payload_bytes := Payload.encode p in
  let core := tbs_fields (Payload.domain p) payload_bytes (sha256 payload_bytes) issuer
              ++ [("signature_bytes", c.b sig)] in
  RecordContainer.mk (Payload.domain p) payload_bytes (sha256 payload_bytes) issuer sig
    (domain_hash sha256 L_SIGNED_CONTAINER (encode (c.m core))).

Definition record_tbs (p : Payload.t) (issuer : bytes) : bytes :=
  encode (c.m (tbs_fields (Payload.domain p) (Payload.encode p) (sha256 (Payload.encode p))
                 issuer)).

Definition signed_record (p : Payload.t) (issuer sig : bytes) : AuthorizationRecord.t :=
  let f := record_fields p issuer sig in
  let exact := encode (c.m (RecordContainer.put f)) in
  AuthorizationRecord.mk (Payload.domain p) (RecordContainer.payload_bytes f)
    (RecordContainer.payload_sha256 f) issuer sig (RecordContainer.container_hash f) exact
    (sha256 exact) (record_tbs p issuer) p.

Lemma payload_domain_length p : blen (as_bytes (Payload.domain p)) <= 64.
Proof. by destruct p. Qed.

Lemma record_fields_ok p issuer sig :
  Payload.ok p = true -> blen issuer = 32 -> blen sig = ED25519_SIG_LEN ->
  record_ok RecordContainer.put RecordContainer.wf (record_fields p issuer sig) = true
  /\ blen (encode (c.m (RecordContainer.put (record_fields p issuer sig)))) <= MAX_RECORD_BYTES.
Proof.
  intros Hp Hk Hs. pose proof (payload_encode_size p Hp) as Hl.
  pose proof (payload_domain_length p) as Hd.
  assert (encodable 1 (c.t (Payload.domain p)) = true) as Hde by by destruct p.
  unfold record_fields, domain_hash, ED25519_SIG_LEN in *.
  set (pb := Payload.encode p) in *. clearbody pb.
  set (d := Payload.domain p) in *. clearbody d.
  set (core := encode (c.m (tbs_fields d pb _ _ ++ _))). clearbody core.
  pose proof (sha_blen pb) as H1.
  pose proof (sha_blen (domain_preimage L_SIGNED_CONTAINER core)) as H2.
  set (h1 := sha256 pb) in *. set (h2 := sha256 (domain_preimage _ core)) in *.
  clearbody h1 h2. split.
  - unfold record_ok, values_ok, RecordContainer.put, RecordContainer.wf, tbs_fields.
    cbn -[Z.leb Z.eqb blen encodable]. unfold MAX_PAYLOAD_BYTES, MAX_SIGNATURE_BYTES in *.
    rewrite !andb_true_iff. split_and!; try reflexivity; try done;
      unfold c.b; cbn [encodable]; unfold wire_len, U64_MAX; lia.
  - etrans; [apply encode_size|].
    unfold RecordContainer.put, tbs_fields, MAX_RECORD_BYTES, MAX_PAYLOAD_BYTES,
      MAX_SIGNATURE_BYTES in *.
    cbn -[Z.add Z.mul blen as_bytes]. set (n := blen (as_bytes d)) in *. clearbody n.
    eval_lengths. lia.
Qed.

Lemma record_parse_iff exact s :
  AuthorizationRecord.parse sha256 exact = Ok s <->
  exists p issuer sig,
    Payload.ok p = true /\ blen issuer = 32 /\ blen sig = ED25519_SIG_LEN
    /\ Payload.self_signed p issuer = true /\ s = signed_record p issuer sig
    /\ AuthorizationRecord.exact_signed_container_bytes s = exact.
Proof.
  unfold AuthorizationRecord.parse. split.
  - destruct (Z.ltb_spec MAX_RECORD_BYTES (blen exact)) as [|Hb]; [done|].
    intros (f & Hf & Hc)%result_bind_ok.
    apply wire_map_exact with (put := RecordContainer.put) (contract := RecordContainer.wf)
      in Hf as [Hok <-]; [|apply RecordContainer.wire|
        unfold MAX_RECORD_BYTES, MAX_PAYLOAD_BYTES, MAX_SIGNATURE_BYTES, USIZE_MAX,
          U64_MAX in *; lia].
    apply andb_true_iff in Hok as [_ Hw]. unfold AuthorizationRecord.check in Hc.
    destruct f as [d pb sh key sig hash]. cbn [RecordContainer.payload_domain
      RecordContainer.payload_bytes RecordContainer.payload_sha256
      RecordContainer.issuer_signing_key_id RecordContainer.signature_bytes
      RecordContainer.container_hash] in Hc.
    unfold RecordContainer.wf in Hw. cbn [RecordContainer.payload_bytes
      RecordContainer.issuer_signing_key_id] in Hw.
    case_match eqn:Esig; [done|]. case_match eqn:Esh; [done|].
    case_match eqn:Eh; [done|]. apply result_bind_ok in Hc as (_ & _ & Hc).
    apply result_bind_ok in Hc as (p & Hp & Hc).
    case_match eqn:Ek; [done|]. injection Hc as <-.
    apply payload_parse_iff in Hp as (Hp & <- & <-);
      [|unfold MAX_PAYLOAD_BYTES, USIZE_MAX, U64_MAX in *; lia].
    wire_facts. subst. exists p, key, sig. by split_and!.
  - intros (p & issuer & sig & Hp & Hk & Hs & Hself & -> & <-).
    destruct (record_fields_ok p issuer sig Hp Hk Hs) as [Hok Hlen].
    cbn [AuthorizationRecord.exact_signed_container_bytes signed_record].
    rewrite (proj2 (Z.ltb_ge _ _)) by done.
    assert (parse_map AuthorizationRecord.MAP RecordContainer.parser
              (encode (c.m (RecordContainer.put (record_fields p issuer sig))))
            = Ok (record_fields p issuer sig)) as ->.
    { apply wire_map_exact with (put := RecordContainer.put) (contract := RecordContainer.wf);
        [apply RecordContainer.wire| |done].
      unfold MAX_RECORD_BYTES, MAX_PAYLOAD_BYTES, MAX_SIGNATURE_BYTES, USIZE_MAX, U64_MAX in *.
      lia. }
    pose proof (payload_encode_size p Hp) as Hsize.
    unfold mbind, result_bind, AuthorizationRecord.check.
    cbn [record_fields RecordContainer.payload_domain RecordContainer.payload_bytes
      RecordContainer.payload_sha256 RecordContainer.issuer_signing_key_id
      RecordContainer.signature_bytes RecordContainer.container_hash].
    rewrite Hs, Z.eqb_refl, !bool_decide_true, payload_header by done. cbn [negb].
    assert (Payload.parse (Payload.domain p) (Payload.encode p) = Ok p) as ->
      by (apply payload_parse_iff; [unfold MAX_PAYLOAD_BYTES, USIZE_MAX, U64_MAX in *; lia|done]).
    unfold mbind, result_bind. by rewrite Hself.
Qed.

Lemma record_build `{!Ed25519} sk p :
  let issuer := signing_key_id sha256 (ed_public sk) in
  build_record sha256 sk (Payload.domain p) (Payload.encode p)
  = AuthorizationRecord.exact_signed_container_bytes
      (signed_record p issuer (sign_tbs sk (record_tbs p issuer))).
Proof.
  unfold build_record, build_signed_container, signed_record, record_fields, RecordContainer.put.
  cbn [SignedContainer.exact_bytes]. by rewrite <- (assoc (++)).
Qed.

Lemma record_verify `{!Ed25519} s pk v :
  AuthorizationRecord.verify_signature sha256 s pk = Ok v <->
  v = AuthorizationRecord.Verified s
  /\ signing_key_id sha256 pk = AuthorizationRecord.issuer_signing_key_id s
  /\ verify_tbs pk (AuthorizationRecord.tbs_bytes s) (AuthorizationRecord.signature_bytes s)
     = Ok tt.
Proof.
  unfold AuthorizationRecord.verify_signature.
  case_bool_decide as Hk; cbn [negb]; [|naive_solver].
  rewrite result_bind_ok. split.
  - by intros ([] & Hm%map_err_ok & [= <-]).
  - intros (-> & _ & Hv). exists tt. by rewrite Hv.
Qed.

(** Two records with one container are one. *)
Lemma signed_record_inj p issuer sig q issuer' sig' :
  Payload.ok p = true -> blen issuer = 32 -> blen sig = ED25519_SIG_LEN ->
  Payload.ok q = true -> blen issuer' = 32 -> blen sig' = ED25519_SIG_LEN ->
  AuthorizationRecord.exact_signed_container_bytes (signed_record p issuer sig)
  = AuthorizationRecord.exact_signed_container_bytes (signed_record q issuer' sig') ->
  p = q /\ issuer = issuer' /\ sig = sig'.
Proof.
  intros Hp Hi Hs Hq Hi' Hs' He.
  destruct (record_fields_ok p issuer sig) as [Hok Hlen]; [done..|].
  destruct (record_fields_ok q issuer' sig') as [Hok' Hlen']; [done..|].
  assert (Ok (record_fields p issuer sig)
          = (Ok (record_fields q issuer' sig') : result RecordError _)) as [= Hd Hpb _ -> -> _].
  { transitivity (parse_map AuthorizationRecord.MAP RecordContainer.parser
      (encode (c.m (RecordContainer.put (record_fields p issuer sig))))); [symmetry|];
    (apply wire_map_exact with (put := RecordContainer.put) (contract := RecordContainer.wf);
      [apply RecordContainer.wire| |done]);
      unfold MAX_RECORD_BYTES, MAX_PAYLOAD_BYTES, MAX_SIGNATURE_BYTES, USIZE_MAX, U64_MAX in *;
      lia. }
  by apply payload_encode_inj in Hpb as ->.
Qed.

End facts.

Lemma payload_parse_safe domain bs : safe (Payload.parse domain bs).
Proof.
  unfold Payload.parse.
  repeat (case_match; [apply safe_fmap, (wire_map_safe _ _ _ _)|]). done.
Qed.

Lemma record_parse_safe sha256 exact : safe (AuthorizationRecord.parse sha256 exact).
Proof.
  unfold AuthorizationRecord.parse. case_match; [done|].
  apply safe_bind; [apply (wire_map_safe _ _ RecordContainer.put RecordContainer.wf)|].
  intros f _. unfold AuthorizationRecord.check. repeat (case_match; [done|]).
  apply safe_bind; [apply parse_map_safe; unfold AuthorizationRecord.check_header; by_structure|].
  intros _ _. apply safe_bind; [apply payload_parse_safe|]. intros p _. by case_match.
Qed.

Lemma record_verify_safe `{HE : !Ed25519} sha256 s pk :
  safe (AuthorizationRecord.verify_signature sha256 s pk).
Proof.
  unfold AuthorizationRecord.verify_signature. case_match; [done|].
  apply safe_bind; [|done]. intros c. unfold verify_tbs, verify_message_strict.
  by repeat case_match.
Qed.

(** ** The properties *)

(** The seven payload schemas are exact and disjoint: under a payload domain the
    parser accepts exactly the encodings of the well-formed payloads of that
    domain; no byte string is a payload of two kinds, and no other domain has a
    payload. *)
Theorem payload_parse_exact d bs p :
  blen bs <= USIZE_MAX ->
  Payload.parse d bs = Ok p <->
  Payload.ok p = true /\ Payload.domain p = d /\ Payload.encode p = bs.
Proof. apply payload_parse_iff. Qed.

(** C2. A signed record is accepted exactly when it is the container assembled from
    a well-formed payload, an issuer key identifier and a 64-byte signature (a
    first self-grant under its own subject's key): domain, version, both hashes and
    the to-be-signed bytes are determined, and nothing else parses. *)
Theorem authorization_record_exact sha256 exact s :
  (forall x, length (sha256 x) = 32%nat) ->
  AuthorizationRecord.parse sha256 exact = Ok s <->
  exists p issuer sig,
    Payload.ok p = true /\ blen issuer = 32 /\ blen sig = ED25519_SIG_LEN
    /\ Payload.self_signed p issuer = true /\ s = signed_record sha256 p issuer sig
    /\ AuthorizationRecord.exact_signed_container_bytes s = exact.
Proof. intros Hsha. by apply record_parse_iff. Qed.

(** C3. A verified record is authentic: verification returns the record it was
    given, and only under a public key whose identifier is the record's issuer and
    under which the strict Ed25519 check accepts the signature over the signing
    input of exactly that payload. Whatever else changes in the record changes
    what was signed. *)
Theorem verified_record_authentic `{HE : !Ed25519} sha256 exact s pk v :
  (forall x, length (sha256 x) = 32%nat) ->
  AuthorizationRecord.parse sha256 exact = Ok s ->
  AuthorizationRecord.verify_signature sha256 s pk = Ok v ->
  let p := AuthorizationRecord.verified_payload v in
  AuthorizationRecord.record v = s
  /\ exists sig, s = signed_record sha256 p (signing_key_id sha256 pk) sig
     /\ ed_verify_strict pk
          (signed_record_signing_input (record_tbs sha256 p (signing_key_id sha256 pk))) sig
        = true.
Proof.
  intros Hsha (p & issuer & sig & _ & _ & _ & _ & -> & _)%record_parse_iff Hv; [|done].
  apply record_verify in Hv as (-> & Hk & Hv). split; [done|].
  cbn [AuthorizationRecord.issuer_signing_key_id signed_record] in Hk. subst.
  exists sig. split; [done|]. unfold verify_tbs, verify_message_strict in Hv.
  by repeat (case_match; try done).
Qed.

(** C18. Building and checking agree: the record built from a well-formed payload
    under a signing key parses to that payload and verifies under the signer's
    public key, and under no key of another identifier; a first self-grant of
    another subject is refused although its signature is good. *)
Theorem built_record_verifies `{HE : !Ed25519, !Ed25519Laws} sha256 sk p :
  (forall x, length (sha256 x) = 32%nat) -> Payload.ok p = true ->
  let issuer := signing_key_id sha256 (ed_public sk) in
  let exact := build_record sha256 sk (Payload.domain p) (Payload.encode p) in
  (Payload.self_signed p issuer = true ->
   exists s, AuthorizationRecord.parse sha256 exact = Ok s
     /\ AuthorizationRecord.payload s = p
     /\ AuthorizationRecord.verify_signature sha256 s (ed_public sk)
        = Ok (AuthorizationRecord.Verified s)
     /\ forall pk, signing_key_id sha256 pk <> issuer ->
          AuthorizationRecord.verify_signature sha256 s pk = Err IssuerKeyMismatch)
  /\ (Payload.self_signed p issuer = false ->
      forall s, AuthorizationRecord.parse sha256 exact <> Ok s).
Proof.
  intros Hsha Hp issuer exact. pose proof (record_build sha256 sk p) as Hb. cbv zeta in Hb.
  fold issuer in Hb. set (sig := sign_tbs sk (record_tbs sha256 p issuer)) in *.
  assert (blen issuer = 32) as Hi by (apply (sha_blen sha256 Hsha)).
  assert (blen sig = ED25519_SIG_LEN) as Hs by apply ed_sign_length. split.
  - intros Hself. exists (signed_record sha256 p issuer sig). split; [|split; [done|split]].
    + apply record_parse_iff; [done|]. exists p, issuer, sig. by split_and!.
    + apply record_verify. split; [done|]. split; [done|]. apply sign_verify.
    + intros pk Hne. unfold AuthorizationRecord.verify_signature. by rewrite bool_decide_false.
  - intros Hself s (q & issuer' & sig' & Hq & Hi' & Hs' & Hself' & -> & He)%record_parse_iff;
      [|done].
    unfold exact in He. rewrite Hb in He.
    apply signed_record_inj in He as (-> & -> & ->); [|done..]. by rewrite Hself in Hself'.
Qed.

(** ** Witnesses *)

Definition sample_record_sk : bytes := sample_bytes 32 77.
Definition sample_self_grant : TenantRootKeyGrantV2.t :=
  TenantRootKeyGrantV2.mk sample_common RootGrantVariant.FirstRootSelfGrant
    (sample_bytes 32 21) 0 (sample_bytes 16 4) (sample_bytes 16 5)
    (signing_key_id toy_hash (ed_public sample_record_sk)) (sample_bytes 32 7)
    (sample_bytes 16 9) (sample_bytes 32 10) (sample_bytes 48 11).
Definition sample_payload : Payload.t := Payload.TenantRootKeyGrant sample_self_grant.
Definition sample_issuer : bytes := signing_key_id toy_hash (ed_public sample_record_sk).
Definition sample_signature : bytes := Eval vm_compute in
  sign_tbs sample_record_sk (record_tbs toy_hash sample_payload sample_issuer).
Definition sample_signed : AuthorizationRecord.t :=
  signed_record toy_hash sample_payload sample_issuer sample_signature.

Lemma toy_hash_length x : length (toy_hash x) = 32%nat.
Proof. apply length_be_bytes. Qed.

Lemma payload_parse_exact_witness :
  Payload.parse DOMAIN_TENANT_ROOT_KEY_GRANT (Payload.encode sample_payload)
  = Ok sample_payload.
Proof.
  apply payload_parse_exact; [vm_compute; discriminate|].
  split; [vm_compute; reflexivity|split; reflexivity].
Defined.

Lemma authorization_record_exact_witness :
  AuthorizationRecord.parse toy_hash
    (AuthorizationRecord.exact_signed_container_bytes sample_signed) = Ok sample_signed.
Proof.
  apply (authorization_record_exact toy_hash _ sample_signed toy_hash_length).
  exists sample_payload, sample_issuer, sample_signature.
  split; [vm_compute; reflexivity|split; [vm_compute; reflexivity|]].
  split; [vm_compute; reflexivity|split; [vm_compute; reflexivity|split; reflexivity]].
Defined.

Lemma verified_record_authentic_witness :
  AuthorizationRecord.record (AuthorizationRecord.Verified sample_signed) = sample_signed.
Proof.
  assert (AuthorizationRecord.parse toy_hash
    (AuthorizationRecord.exact_signed_container_bytes sample_signed) = Ok sample_signed) as Hp
    by (vm_compute; reflexivity).
  assert (AuthorizationRecord.verify_signature toy_hash sample_signed
            (ed_public sample_record_sk) = Ok (AuthorizationRecord.Verified sample_signed)) as Hv
    by (vm_compute; reflexivity).
  exact (proj1 (verified_record_authentic toy_hash _ sample_signed
    (ed_public sample_record_sk) (AuthorizationRecord.Verified sample_signed)
    toy_hash_length Hp Hv)).
Defined.

Lemma built_record_verifies_witness :
  exists s, AuthorizationRecord.parse toy_hash
      (build_record toy_hash sample_record_sk DOMAIN_TENANT_ROOT_KEY_GRANT
         (Payload.encode sample_payload)) = Ok s
    /\ AuthorizationRecord.payload s = sample_payload.
Proof.
  assert (Payload.ok sample_payload = true) as Hok by (vm_compute; reflexivity).
  assert (Payload.self_signed sample_payload
            (signing_key_id toy_hash (ed_public sample_record_sk)) = true) as Hself
    by (vm_compute; reflexivity).
  destruct (proj1 (built_record_verifies toy_hash sample_record_sk sample_payload
    toy_hash_length Hok) Hself) as (s & H1 & H2 & _).
  exists s. split; [exact H1|exact H2].
Defined.
