(* ===== verification/TrustEvidence.v ===== *)
(** * Trust evidence pages (shared/src/trust_evidence.rs)

    One page of a tenant's trust evidence: public keys, containers as opaque
    bytes, and the server's revocation reports, with bounds on every part and no
    duplicates. The containers are judged in [TrustChain]. *)

From S2P Require Import Prelude Bytes Canonical CanonicalFacts CanonicalDecode.
From S2P Require Import CanonicalTheorems RecordFields WireMap.

Definition DOMAIN_TRUST_EVIDENCE_PAGE := "shardx.trust.tenant-evidence-page.v2".
Definition MAX_PAGE_CONTAINERS : Z := 1024.
Definition MAX_CONTAINER_BYTES : Z := 131072.
Definition MAX_PAGE_BYTES : Z := 4 * 1024 * 1024.
Definition MAX_CURSOR_BYTES : Z := 64.
Definition MAX_EVIDENCE_CONTAINERS : Z := 65536.

#[export] Hint Unfold c.t c.u c.b : wire_unfold.

(** ** Revocation reports *)

Module RevokedRecord.

Record t := mk {
  payload_domain : string;
  replay_id : bytes;
  revoked_at_ms : Z }.

Definition parser : fields t :=
  payload_domain ← Fields.text "payload_domain";
  replay_id ← Fields.fixed 16 "replay_id";
  revoked_at_ms ← Fields.uint "revoked_at_ms";
  _ ← Fields.finish;
  mret (mk payload_domain replay_id revoked_at_ms).

(** [Fields::open] on the element, then its fields. *)
Definition parse (v : Value) : result RecordError t :=
  f ← Fields.open "RevokedRecord" v;
  run parser f.

Definition put (x : t) : list (string * Value) :=
  [("payload_domain", c.t (payload_domain x)); ("replay_id", c.b (replay_id x));
   ("revoked_at_ms", c.u (revoked_at_ms x))].

Definition wf (x : t) : bool :=
  (blen (replay_id x) =? 16).

#[global] Hint Unfold put wf : wire_unfold.

#[global] Instance wire : WireMap "RevokedRecord" parser put wf.
Proof. wire_map ltac:(fun x => destruct x as [? ? ?]). Qed.

End RevokedRecord.

Module RevokedDevice.

Record t := mk {
  device_id : bytes;
  revoked_at_ms : Z }.

Definition parser : fields t :=
  device_id ← Fields.fixed 16 "device_id";
  revoked_at_ms ← Fields.uint "revoked_at_ms";
  _ ← Fields.finish;
  mret (mk device_id revoked_at_ms).

(** [Fields::open] on the element, then its fields. *)
Definition parse (v : Value) : result RecordError t :=
  f ← Fields.open "RevokedDevice" v;
  run parser f.

Definition put (x : t) : list (string * Value) :=
  [("device_id", c.b (device_id x)); ("revoked_at_ms", c.u (revoked_at_ms x))].

Definition wf (x : t) : bool :=
  (blen (device_id x) =? 16).

#[global] Hint Unfold put wf : wire_unfold.

#[global] Instance wire : WireMap "RevokedDevice" parser put wf.
Proof. wire_map ltac:(fun x => destruct x as [? ?]). Qed.

End RevokedDevice.

(** ** Page *)

Definition array (field : string) (max : Z) : fields (list Value) :=
  v ← Fields.req field;
  match v with
  | Array items => if blen items <=? max then mret items else Fields.bad field
  | _ => Fields.bad field
  end.

(** [seen.insert] says whether the item is new. *)
Fixpoint unique_from `{EqDecision A} (seen : list A) (items : list A) : bool :=
  match items with
  | [] => true
  | x :: rest => negb (bool_decide (x ∈ seen)) && unique_from (x :: seen) rest
  end.

Definition all_unique `{EqDecision A} (items : list A) : bool := unique_from [] items.

Lemma unique_from_spec `{EqDecision A} (seen items : list A) :
  unique_from seen items = true <-> NoDup items /\ forall x, x ∈ items -> x ∉ seen.
Proof.
  revert seen. induction items as [|x items IH]; intros seen; cbn [unique_from].
  - split; [intros _; split; [constructor|set_solver]|done].
  - rewrite andb_true_iff, negb_true_iff, bool_decide_eq_false, IH, NoDup_cons.
    split; [intros (Hx & Hd & Hs)|intros ((Hx & Hd) & Hs)].
    + split; [split; [|done]|]; set_solver.
    + split_and!; [set_solver|done|set_solver].
Qed.

Lemma all_unique_NoDup `{EqDecision A} (items : list A) :
  all_unique items = true <-> NoDup items.
Proof.
  unfold all_unique. rewrite unique_from_spec. split; [by intros []|].
  intros H. split; [done|]. intros x _ Hx. by apply elem_of_nil in Hx.
Qed.

Module TenantTrustEvidencePageV2.

Record t := mk {
  server_instance_id : bytes;
  tenant_id : bytes;
  server_now_ms : Z;
  page_index : Z;
  next_cursor : bytes;
  signing_public_keys : list bytes;
  containers : list bytes;
  revocations : list RevokedRecord.t;
  device_revocations : list RevokedDevice.t }.

Definition MAP := "TenantTrustEvidencePageV2".

(** A page of another version is refused with the version of this build. *)
Definition parser : fields t :=
  _ ← Fields.exact_text "domain" DOMAIN_TRUST_EVIDENCE_PAGE;
  version ← Fields.uint "version";
  _ ← fail_if (negb (version =? VERSION)) (Unsupported "version" VERSION);
  server_instance_id ← Fields.fixed 16 "server_instance_id";
  tenant_id ← Fields.fixed 16 "tenant_id";
  server_now_ms ← Fields.uint "server_now_ms";
  index ← Fields.uint "page_index";
  page_index ← (if index <=? U32_MAX then mret index else Fields.bad "page_index");
  next_cursor ← Fields.bytes "next_cursor" 0 MAX_CURSOR_BYTES;
  keys ← array "signing_public_keys" MAX_PAGE_CONTAINERS;
  signing_public_keys ←
    lift (try_map (bytes_item 32 32 (BadField MAP "signing_public_keys")) keys);
  items ← array "containers" MAX_PAGE_CONTAINERS;
  containers ←
    lift (try_map (bytes_item 1 MAX_CONTAINER_BYTES (BadField MAP "containers")) items);
  records ← array "revocations" MAX_PAGE_CONTAINERS;
  revocations ← lift (try_map RevokedRecord.parse records);
  devices ← array "device_revocations" MAX_PAGE_CONTAINERS;
  device_revocations ← lift (try_map RevokedDevice.parse devices);
  _ ← Fields.finish;
  _ ← fail_if (negb (all_unique signing_public_keys)) (BadValue "signing_public_keys");
  _ ← fail_if (negb (all_unique containers)) (BadValue "containers");
  _ ← fail_if (negb (all_unique (List.map (fun r => (RevokedRecord.payload_domain r,
                                                     RevokedRecord.replay_id r)) revocations)))
        (BadValue "revocations");
  _ ← fail_if (negb (all_unique (List.map RevokedDevice.device_id device_revocations)))
        (BadValue "device_revocations");
  mret (mk server_instance_id tenant_id server_now_ms page_index next_cursor
    signing_public_keys containers revocations device_revocations).

Definition parse (exact : bytes) : result RecordError t :=
  if MAX_PAGE_BYTES <? blen exact then Err (BadValue "page")
  else parse_map MAP parser exact.

Definition put (x : t) : list (string * Value) :=
  [("domain", c.t DOMAIN_TRUST_EVIDENCE_PAGE); ("version", c.u VERSION);
   ("server_instance_id", c.b (server_instance_id x)); ("tenant_id", c.b (tenant_id x));
   ("server_now_ms", c.u (server_now_ms x)); ("page_index", c.u (page_index x));
   ("next_cursor", c.b (next_cursor x));
   ("signing_public_keys", Array (List.map VBytes (signing_public_keys x)));
   ("containers", Array (List.map VBytes (containers x)));
   ("revocations", Array (List.map (fun r => Map (RevokedRecord.put r)) (revocations x)));
   ("device_revocations",
    Array (List.map (fun r => Map (RevokedDevice.put r)) (device_revocations x)))].

Definition encode (x : t) : bytes := Canonical.encode (c.m (put x)).

(** The bounds, and no key, container, record or device twice. *)
Definition wf (x : t) : bool :=
  (blen (server_instance_id x) =? 16) && (blen (tenant_id x) =? 16)
  && (page_index x <=? U32_MAX) && (blen (next_cursor x) <=? MAX_CURSOR_BYTES)
  && (blen (signing_public_keys x) <=? MAX_PAGE_CONTAINERS)
  && sizes_ok 32 32 (signing_public_keys x)
  && (blen (containers x) <=? MAX_PAGE_CONTAINERS)
  && sizes_ok 1 MAX_CONTAINER_BYTES (containers x)
  && (blen (revocations x) <=? MAX_PAGE_CONTAINERS)
  && List.forallb RevokedRecord.wf (revocations x)
  && (blen (device_revocations x) <=? MAX_PAGE_CONTAINERS)
  && List.forallb RevokedDevice.wf (device_revocations x)
  && all_unique (signing_public_keys x) && all_unique (containers x)
  && all_unique (List.map (fun r => (RevokedRecord.payload_domain r,
                                     RevokedRecord.replay_id r)) (revocations x))
  && all_unique (List.map RevokedDevice.device_id (device_revocations x)).

#[global] Hint Unfold array : wire_unfold.
#[global] Arguments all_unique : simpl never.

(** The same entries, the nested maps in wire order. *)
Definition put_wire (x : t) : list (string * Value) :=
  [("domain", c.t DOMAIN_TRUST_EVIDENCE_PAGE); ("version", c.u VERSION);
   ("server_instance_id", c.b (server_instance_id x)); ("tenant_id", c.b (tenant_id x));
   ("server_now_ms", c.u (server_now_ms x)); ("page_index", c.u (page_index x));
   ("next_cursor", c.b (next_cursor x));
   ("signing_public_keys", Array (List.map VBytes (signing_public_keys x)));
   ("containers", Array (List.map VBytes (containers x)));
   ("revocations", Array (List.map (wire_value RevokedRecord.put) (revocations x)));
   ("device_revocations",
    Array (List.map (wire_value RevokedDevice.put) (device_revocations x)))].

Lemma put_wire_normal x : values_normal (put_wire x).
Proof.
  unfold put_wire. repeat (apply Forall_cons; split; [|]); try apply Forall_nil_2; cbn [snd];
    try done; try apply bytes_array_normal.
  - apply (nested_normal "RevokedRecord" RevokedRecord.parser _ RevokedRecord.wf).
  - apply (nested_normal "RevokedDevice" RevokedDevice.parser _ RevokedDevice.wf).
Qed.

Lemma encode_put_wire x : encode x = Canonical.encode (c.m (put_wire x)).
Proof.
  unfold encode, Canonical.encode, c.m.
  etransitivity; [symmetry; apply encode_normalize|].
  etransitivity; [|apply encode_normalize]. f_equal.
  cbn [normalize]. rewrite (normalize_entries (put_wire x)) by apply put_wire_normal. do 2 f_equal.
  unfold put, put_wire. cbn [List.map fst snd]. rewrite !bytes_array_normal.
  rewrite (nested_normalize "RevokedRecord" RevokedRecord.parser _ RevokedRecord.wf).
  by rewrite (nested_normalize "RevokedDevice" RevokedDevice.parser _ RevokedDevice.wf).
Qed.

Lemma page_structured : structured parser.
Proof.
  unfold parser. autounfold with wire_unfold.
  assert (forall lo hi e l, structured (lift (try_map (bytes_item lo hi e) l) : fields _)) as H1
    by (intros; apply structured_lift, bytes_items_safe).
  assert (forall l, structured (lift (try_map RevokedRecord.parse l) : fields _)) as H2
    by (intros l; apply structured_lift;
        apply (nested_safe "RevokedRecord" RevokedRecord.parser RevokedRecord.put
                 RevokedRecord.wf)).
  assert (forall l, structured (lift (try_map RevokedDevice.parse l) : fields _)) as H3
    by (intros l; apply structured_lift;
        apply (nested_safe "RevokedDevice" RevokedDevice.parser RevokedDevice.put
                 RevokedDevice.wf)).
  by_structure.
Qed.

Lemma page_sound f x f' :
  parser f = Ok (x, f') -> values_ok (Fields.entries f) = true ->
  values_normal (Fields.entries f) ->
  wf x = true /\ Fields.entries f ≡ₚ put_wire x.
Proof.
  intros H Hv Hn. unfold parser in H. autounfold with wire_unfold in H.
  pose proof (gives_refl f) as G. collect G H. wire_facts. unfold gives in G.
  match goal with Ha : Fields.entries _ = [] |- _ => rewrite Ha, app_nil_r in G end.
  pose proof (array_entry (Fields.entries f)) as Harr.
  repeat match goal with Hb : try_map (bytes_item _ _ _) _ = Ok _ |- _ =>
    apply bytes_items_ok in Hb as [-> ?] end.
  match goal with Hr : try_map RevokedRecord.parse ?items = Ok ?rs |- _ =>
    destruct (Harr "revocations" items Hv Hn) as [? ?]; [rewrite G; simpl; set_solver|];
    apply (nested_sound "RevokedRecord" _ _ _ 2 items) in Hr as [? ->]; [|done|done] end.
  match goal with Hr : try_map RevokedDevice.parse ?items = Ok ?rs |- _ =>
    destruct (Harr "device_revocations" items Hv Hn) as [? ?]; [rewrite G; simpl; set_solver|];
    apply (nested_sound "RevokedDevice" _ _ _ 2 items) in Hr as [? ->]; [|done|done] end.
  subst. unfold blen in *. rewrite !length_map in *. unfold wf, blen.
  cbn [server_instance_id tenant_id server_now_ms page_index next_cursor signing_public_keys
    containers revocations device_revocations].
  split; [|by rewrite G].
  repeat (apply andb_true_intro; split); try done; lia.
Qed.

Lemma page_run x :
  record_ok put_wire wf x = true -> exists f', parser (Fields.mk MAP (put_wire x)) = Ok (x, f').
Proof.
  intros [Hv Hw]%andb_true_iff. destruct x as [? ? ? ? ? keys conts recs devs].
  unfold values_ok, put_wire in Hv.
  cbn [server_instance_id tenant_id server_now_ms page_index next_cursor signing_public_keys
    containers revocations device_revocations List.forallb snd] in Hv.
  rewrite !andb_true_iff in Hv. destruct Hv as (_ & _ & _ & _ & _ & _ & _ & _ & _ & Hr & Hd & _).
  unfold wf in Hw.
  cbn [server_instance_id tenant_id server_now_ms page_index next_cursor signing_public_keys
    containers revocations device_revocations] in Hw.
  rewrite !andb_true_iff in Hw. destruct_and! Hw.
  assert (try_map RevokedRecord.parse (List.map (wire_value RevokedRecord.put) recs) = Ok recs)
    as Hrecs.
  { apply (nested_run "RevokedRecord" _ _ RevokedRecord.wf).
    by apply (nested_values_ok "RevokedRecord" RevokedRecord.parser _ _ 1). }
  assert (try_map RevokedDevice.parse (List.map (wire_value RevokedDevice.put) devs) = Ok devs)
    as Hdevs.
  { apply (nested_run "RevokedDevice" _ _ RevokedDevice.wf).
    by apply (nested_values_ok "RevokedDevice" RevokedDevice.parser _ _ 1). }
  assert (forall lo hi e bs, sizes_ok lo hi bs = true ->
    try_map (bytes_item lo hi e) (List.map VBytes bs) = Ok bs) as Hbs
    by (intros; by apply bytes_items_ok).
  pose proof (Hbs _ _ (BadField MAP "signing_public_keys") keys ltac:(done)) as Hkeys.
  pose proof (Hbs _ _ (BadField MAP "containers") conts ltac:(done)) as Hconts. clear Hbs.
  assert (forall {A} (g : A -> Value) l, blen (List.map g l) = blen l) as Hlen
    by (intros; unfold blen; by rewrite length_map).
  rewrite <- (Hlen _ VBytes keys), <- (Hlen _ VBytes conts),
    <- (Hlen _ (wire_value RevokedRecord.put) recs),
    <- (Hlen _ (wire_value RevokedDevice.put) devs) in *.
  unfold put_wire. cbn [server_instance_id tenant_id server_now_ms page_index next_cursor
    signing_public_keys containers revocations device_revocations].
  clear Hr Hd Hlen.
  set (vkeys := List.map VBytes keys) in *. set (vconts := List.map VBytes conts) in *.
  set (vrecs := List.map _ recs) in *. set (vdevs := List.map _ devs) in *.
  clearbody vkeys vconts vrecs vdevs. unfold parser. autounfold with wire_unfold.
  wire_facts. pose proof (blen_nonneg next_cursor0). run_fields.
Qed.

#[global] Instance wire : WireMap "TenantTrustEvidencePageV2" parser put_wire wf.
Proof.
  split; [apply page_sound|apply page_structured|apply page_run|..].
  - intros x. lazy. reflexivity.
  - apply put_wire_normal.
Qed.

(** [parse] refuses what is longer than [MAX_PAGE_BYTES] before it decodes. *)
Lemma TenantTrustEvidencePageV2_exact exact x :
  parse exact = Ok x <->
  record_ok put_wire wf x = true /\ encode x = exact /\ blen exact <= MAX_PAGE_BYTES.
Proof.
  unfold parse. rewrite encode_put_wire.
  destruct (Z.ltb_spec MAX_PAGE_BYTES (blen exact)).
  { split; [done|]. intros (_ & _ & Hle). lia. }
  rewrite (wire_map_exact MAP parser put_wire wf).
  - split; [intros [? ?]; by split_and!|intros (? & ? & _); by split].
  - unfold MAX_PAGE_BYTES, USIZE_MAX, U64_MAX in *. lia.
Qed.

End TenantTrustEvidencePageV2.

(** ** The property *)

Import TenantTrustEvidencePageV2.

(** Pages are exact: [parse] accepts exactly the encodings, of at most
    [MAX_PAGE_BYTES], of the pages within the bounds that repeat no key, container,
    record or device, and returns the page; a page with nested maps out of order, an
    extra field, a wrong length or a duplicate anywhere is refused. *)
Theorem evidence_page_exact exact x :
  parse exact = Ok x <->
  record_ok put_wire wf x = true /\ encode x = exact /\ blen exact <= MAX_PAGE_BYTES.
Proof. apply TenantTrustEvidencePageV2_exact. Qed.
