(* ===== verification/TrustChain.v ===== *)
(** * Trust chain evaluation (shared/src/trust_chain.rs)

    [Evidence.collect] keeps the usable containers of a full set of pages,
    [TrustChain.evaluate] derives the custodian windows of every key from the
    tenant's one self-grant, and the queries answer from those windows. A
    [BTreeMap] is a [gmap]: no answer depends on the order its entries are
    visited in. The theory of this file is in [TrustChainFacts]. *)

From Stdlib Require Import Strings.Byte.
From S2P Require Import Prelude Bytes Canonical RecordFields Keys AuthzPayloads AuthzRecord.
From S2P Require Import TrustEvidence.

Abbreviation KeyId := bytes.

(** D-6 (c): a key's custodian windows end this long after its first one. *)
Definition MAX_CUSTODIAN_KEY_AGE_MS : Z := 1095 * 86400000.
(** The local clock's tolerance for "now". *)
Definition CLOCK_TOLERANCE_MS : Z := 300000.
Definition MAX_EVIDENCE_PAGES : Z := 4096.

Inductive TrustError :=
| BadPages (why : string)
| TooMuchEvidence
| NoAnchor
| ConflictingAnchors
| AnchorMismatch.

(** [Display]. *)
Definition trust_error_message (e : TrustError) : string :=
  match e with
  | BadPages why => "the trust evidence pages are unusable: " ++ why
  | TooMuchEvidence => "the trust evidence exceeds the client cap"
  | NoAnchor => "the trust evidence holds no usable bootstrap anchor"
  | ConflictingAnchors => "the trust evidence holds two bootstrap anchors"
  | AnchorMismatch => "the bootstrap anchor is not the pinned one"
  end.

(** [u64::saturating_add] and [u64::saturating_sub]. *)
Definition saturating_add (a b : Z) : Z := Z.min (a + b) U64_MAX.
Definition saturating_sub (a b : Z) : Z := Z.max (a - b) 0.

(** [iter().enumerate()]. *)
Definition enumerate {A} (l : list A) : list (nat * A) := imap pair l.

(** [let at = m.entry(k).or_insert(u64::MAX); *at = ( *at).min(at)]. *)
Definition lower `{Countable K} (k : K) (at_ms : Z) (m : gmap K Z) : gmap K Z :=
  <[k := Z.min (default U64_MAX (m !! k)) at_ms]> m.

(** [m.entry(k).or_default().push(x)]. *)
Definition push `{Countable K} {A} (k : K) (x : A) (m : gmap K (list A)) : gmap K (list A) :=
  <[k := default [] (m !! k) ++ [x]]> m.

(** ** Data *)

Module Binding.

Record t := mk {
  server_instance_id : bytes;
  tenant_id : bytes }.

End Binding.

Module Scope.

Inductive t :=
| Tenant
| Fleet (fleet_id : bytes)
| Profile (profile_id : bytes).

#[global] Instance eq_dec : EqDecision t.
Proof. solve_decision. Defined.

End Scope.

Module Recipient.

Record t := mk {
  account_id : bytes;
  device_id : bytes;
  signing_key_id : KeyId;
  hpke_key_id : KeyId }.

End Recipient.

Module Usable.

Record t (T : Type) := mk {
  issuer : KeyId;
  payload : T;
  revoked_at_ms : option Z }.
#[global] Arguments mk {T}.
#[global] Arguments issuer {T}.
#[global] Arguments payload {T}.
#[global] Arguments revoked_at_ms {T}.

End Usable.

Abbreviation Root := (Usable.t TenantRootKeyGrantV2.t).
Abbreviation Approval := (Usable.t DeviceApprovalV2.t).
Abbreviation Grant := (Usable.t TenantCapabilityGrantV2.t).
Abbreviation DeviceGrant := (Usable.t DeviceHpkeGrantV2.t).

Definition names (common : CommonFields.t) (binding : Binding.t) : bool :=
  bool_decide (CommonFields.tenant_id common = Binding.tenant_id binding)
  && bool_decide (CommonFields.server_instance_id common = Binding.server_instance_id binding).

Module Evidence.

Record t := mk {
  roots : list Root;
  approvals : list Approval;
  grants : list Grant;
  device_grants : gmap bytes DeviceGrant;
  revoked_devices : gmap bytes Z;
  first_not_before : gmap KeyId Z }.

Definition empty : t := mk [] [] [] ∅ ∅ ∅.

Definition push_root (u : Root) (x : t) : t :=
  mk (roots x ++ [u]) (approvals x) (grants x) (device_grants x) (revoked_devices x)
    (first_not_before x).
Definition push_approval (u : Approval) (x : t) : t :=
  mk (roots x) (approvals x ++ [u]) (grants x) (device_grants x) (revoked_devices x)
    (first_not_before x).
Definition push_grant (u : Grant) (x : t) : t :=
  mk (roots x) (approvals x) (grants x ++ [u]) (device_grants x) (revoked_devices x)
    (first_not_before x).
Definition insert_device_grant (hash : bytes) (u : DeviceGrant) (x : t) : t :=
  mk (roots x) (approvals x) (grants x) (<[hash := u]> (device_grants x)) (revoked_devices x)
    (first_not_before x).

(** What the loop over the pages accumulates: public keys by identifier, the
    earliest report about each record and about each device, and the number of
    containers so far. *)
Record listing := Listing {
  keys : gmap KeyId bytes;
  revoked : gmap (string * bytes) Z;
  devices : gmap bytes Z;
  total : Z }.

Section collect.
Context `{!Ed25519} (sha256 : bytes -> bytes) (binding : Binding.t).

Abbreviation Page := TenantTrustEvidencePageV2.t.

(** The body of the loop over pages: page [i] of [n]. *)
Definition read_page (n i : Z) (page : Page) (st : listing) : result TrustError listing :=
  if negb (TenantTrustEvidencePageV2.page_index page =? i) then
    Err (BadPages "pages out of order")
  else if (i + 1 <? n) && bool_decide (TenantTrustEvidencePageV2.next_cursor page = []) then
    Err (BadPages "a page before the last ends the listing")
  else if negb (bool_decide (TenantTrustEvidencePageV2.tenant_id page = Binding.tenant_id binding)
                && bool_decide (TenantTrustEvidencePageV2.server_instance_id page
                                = Binding.server_instance_id binding)) then
    Err (BadPages "a page names another tenant or server")
  else
    let total := total st + blen (TenantTrustEvidencePageV2.containers page) in
    if MAX_EVIDENCE_CONTAINERS <? total then Err TooMuchEvidence
    else
      Ok (Listing
        (foldl (fun m pk => <[signing_key_id sha256 pk := pk]> m) (keys st)
           (TenantTrustEvidencePageV2.signing_public_keys page))
        (foldl (fun m r => lower (RevokedRecord.payload_domain r, RevokedRecord.replay_id r)
                             (RevokedRecord.revoked_at_ms r) m) (revoked st)
           (TenantTrustEvidencePageV2.revocations page))
        (foldl (fun m d => lower (RevokedDevice.device_id d) (RevokedDevice.revoked_at_ms d) m)
           (devices st) (TenantTrustEvidencePageV2.device_revocations page))
        total).

Fixpoint read_pages (n i : Z) (pages : list Page) (st : listing) : result TrustError listing :=
  match pages with
  | [] => Ok st
  | page :: rest => st' ← read_page n i page st; read_pages n (i + 1) rest st'
  end.

(** One record that parsed and verified, put with the others of its kind. *)
Definition keep_payload (ls : listing) (record : AuthorizationRecord.t) (out : t) : t :=
  let issuer := AuthorizationRecord.issuer_signing_key_id record in
  let revoked_at common :=
    revoked ls !! (AuthorizationRecord.payload_domain record, CommonFields.replay_id common) in
  match AuthorizationRecord.payload record with
  | Payload.TenantRootKeyGrant g =>
      let common := TenantRootKeyGrantV2.common g in
      if names common binding then push_root (Usable.mk issuer g (revoked_at common)) out
      else out
  | Payload.DeviceApproval a =>
      let common := DeviceApprovalV2.common a in
      if names common binding then push_approval (Usable.mk issuer a (revoked_at common)) out
      else out
  | Payload.TenantCapabilityGrant g =>
      let common := TenantCapabilityGrantV2.common g in
      if names common binding then push_grant (Usable.mk issuer g (revoked_at common)) out
      else out
  | Payload.DeviceHpkeGrant g =>
      let common := DeviceHpkeGrantV2.common g in
      if names common binding then
        insert_device_grant (AuthorizationRecord.signed_container_hash record)
          (Usable.mk issuer g (revoked_at common)) out
      else out
  | _ => out
  end.

(** The body of the loop over containers: [continue] leaves [out] as it is. *)
Definition keep (ls : listing) (st : gset bytes * t) (container : bytes) : gset bytes * t :=
  let (seen, out) := st in
  match AuthorizationRecord.parse sha256 container with
  | Ok record =>
      let hash := AuthorizationRecord.signed_container_hash record in
      if bool_decide (hash ∈ seen) then (seen, out)
      else
        let seen := {[hash]} ∪ seen in
        match keys ls !! AuthorizationRecord.issuer_signing_key_id record with
        | None => (seen, out)
        | Some pk =>
            match AuthorizationRecord.verify_signature sha256 record pk with
            | Ok verified =>
                (seen, keep_payload ls (AuthorizationRecord.record verified) out)
            | _ => (seen, out)
            end
        end
  | _ => (seen, out)
  end.

Definition collect (pages : list Page) : result TrustError t :=
  if MAX_EVIDENCE_PAGES <? blen pages then Err TooMuchEvidence
  else
    match last pages with
    | None => Err (BadPages "no page")
    | Some final =>
        if negb (bool_decide (TenantTrustEvidencePageV2.next_cursor final = [])) then
          Err (BadPages "the last page names a next one")
        else
          ls ← read_pages (blen pages) 0 pages (Listing ∅ ∅ ∅ 0);
          Ok (foldl (keep ls) (∅, mk [] [] [] ∅ (devices ls) ∅)
                (List.flat_map TenantTrustEvidencePageV2.containers pages)).2
    end.

End collect.

Definition remember_first_not_before (key : KeyId) (at_ms : Z) (x : t) : t :=
  mk (roots x) (approvals x) (grants x) (device_grants x) (revoked_devices x)
    (lower key at_ms (first_not_before x)).

End Evidence.

(** ** Windows *)

Definition end_of (common : CommonFields.t) (revoked_at device_revoked_at : option Z) : Z :=
  Z.min (Z.min (CommonFields.not_after_ms common) (default U64_MAX revoked_at))
    (default U64_MAX device_revoked_at).

Definition holds (window : Z * Z) (t : Z) : bool := (window.1 <=? t) && (t <? window.2).

(** Positions in [items] by the key [key_of] names. *)
Definition index {T} (items : list T) (key_of : T -> option KeyId) : gmap KeyId (list nat) :=
  foldl (fun by_key '(i, item) =>
           match key_of item with
           | Some key => push key i by_key
           | None => by_key
           end) ∅ (enumerate items).

(** The items at the positions an index gave. A position out of range would panic:
    [index_lookup] shows that there is none. *)
Definition at_positions {T} (items : list T) (ps : list nat) : list T :=
  omap (fun i => items !! i) ps.

Definition approval_scope (a : DeviceApprovalV2.t) : Scope.t :=
  match DeviceApprovalV2.approval_scope_kind a with
  | ApprovalScopeKind.Tenant => Scope.Tenant
  | ApprovalScopeKind.Fleet => Scope.Fleet (DeviceApprovalV2.approval_scope_id a)
  end.

(** Whether a grant over [(kind, id)] covers [scope]. *)
Definition covers (kind : CapabilityScopeKind.t) (id : bytes) (scope : Scope.t) : bool :=
  match kind, scope with
  | CapabilityScopeKind.Tenant, _ => true
  | CapabilityScopeKind.Fleet, Scope.Fleet f => bool_decide (id = f)
  | CapabilityScopeKind.Profile, Scope.Profile p => bool_decide (id = p)
  | _, _ => false
  end.

(** ** The chain *)

Module TrustChain.

Record t := mk {
  anchor : KeyId;
  custodians : gmap KeyId (list (Z * Z));
  first_not_before : gmap KeyId Z;
  counted : gmap KeyId (Z * Z);
  approvals_by_subject : gmap KeyId (list nat);
  grants_by_subject : gmap KeyId (gmap KeyId (list nat));
  evidence : Evidence.t;
  anchor_approval : bytes }.

Definition with_windows (chain : t) (custodians : gmap KeyId (list (Z * Z)))
    (counted : gmap KeyId (Z * Z)) : t :=
  mk (anchor chain) custodians (first_not_before chain) counted (approvals_by_subject chain)
    (grants_by_subject chain) (evidence chain) (anchor_approval chain).

Definition windows (chain : t) (key : KeyId) : list (Z * Z) :=
  default [] (custodians chain !! key).

(** Rule 1. *)
Definition custodian_at (chain : t) (key : KeyId) (t : Z) : bool :=
  List.existsb (fun w => holds w t) (windows chain key).

(** Rule 2. *)
Definition custodian_now (chain : t) (key : KeyId) (now : Z) : bool :=
  let lo := saturating_sub now CLOCK_TOLERANCE_MS in
  let hi := saturating_add now CLOCK_TOLERANCE_MS in
  List.existsb (fun '(nb, na) => (nb <=? hi) && (lo <? na)) (windows chain key).

Definition device_revoked (chain : t) (device_id : bytes) : option Z :=
  Evidence.revoked_devices (evidence chain) !! device_id.

(** The approvals listed for a key: [approvals_by_subject.get(key)]. *)
Definition listed_approvals (chain : t) (key : KeyId) : list Approval :=
  at_positions (Evidence.approvals (evidence chain))
    (default [] (approvals_by_subject chain !! key)).

(** Rule 4. *)
Definition capability_at (chain : t) (key : KeyId) (capability : Capability.t)
    (scope : Scope.t) (t : Z) : bool :=
  if bool_decide (capability = Capability.RootCustody) then false
  else
    match grants_by_subject chain !! key with
    | None => false
    | Some by_issuer =>
        List.existsb
          (fun g : Grant =>
             let p := Usable.payload g in
             match TenantCapabilityGrantV2.subject p with
             | GrantSubject.Account _ => false
             | GrantSubject.Device _ device_id _ _ =>
                 let common := TenantCapabilityGrantV2.common p in
                 bool_decide (TenantCapabilityGrantV2.capability p = capability)
                 && covers (TenantCapabilityGrantV2.scope_kind p)
                      (TenantCapabilityGrantV2.scope_id p) scope
                 && holds (CommonFields.not_before_ms common,
                           end_of common (Usable.revoked_at_ms g)
                             (device_revoked chain device_id)) t
                 && custodian_at chain (Usable.issuer g) (CommonFields.issued_at_ms common)
             end)
          (at_positions (Evidence.grants (evidence chain))
             (List.flat_map (fun issuer => default [] (by_issuer !! issuer))
                (map_to_list (custodians chain)).*1))
    end.

(** Rule 3: who may issue an approval. *)
Definition approval_issuer_ok (chain : t) (a : Approval) : bool :=
  let p := Usable.payload a in
  let common := DeviceApprovalV2.common p in
  if bool_decide (Usable.issuer a = anchor chain)
     && bool_decide (DeviceApprovalV2.subject_signing_key_id p = anchor chain)
     && bool_decide (CommonFields.replay_id common = anchor_approval chain)
  then true
  else
    let t := CommonFields.issued_at_ms common in
    custodian_at chain (Usable.issuer a) t
    && capability_at chain (Usable.issuer a) Capability.DeviceApprove (approval_scope p) t.

(** Rule 3 for one approval: in force at [t], from an allowed issuer. *)
Definition approval_holds_at (chain : t) (a : Approval) (t : Z) : bool :=
  let p := Usable.payload a in
  let common := DeviceApprovalV2.common p in
  holds (CommonFields.not_before_ms common,
         end_of common (Usable.revoked_at_ms a)
           (device_revoked chain (DeviceApprovalV2.subject_device_id p))) t
  && approval_issuer_ok chain a.

(** The fields by which a root grant names its own approval. *)
Definition links (g : TenantRootKeyGrantV2.t) (p : DeviceApprovalV2.t) : bool :=
  bool_decide (CommonFields.replay_id (DeviceApprovalV2.common p)
               = TenantRootKeyGrantV2.subject_device_approval_replay_id g)
  && bool_decide (DeviceApprovalV2.subject_device_id p
                  = TenantRootKeyGrantV2.subject_device_id g)
  && bool_decide (DeviceApprovalV2.subject_account_id p
                  = TenantRootKeyGrantV2.subject_account_id g)
  && bool_decide (DeviceApprovalV2.subject_hpke_key_id p
                  = TenantRootKeyGrantV2.recipient_hpke_key_id g)
  && bool_decide (approval_scope p = Scope.Tenant).

(** Rule 1's link. *)
Definition linked_approval_holds (chain : t) (g : TenantRootKeyGrantV2.t) : bool :=
  List.existsb
    (fun a => approval_holds_at chain a
                (CommonFields.issued_at_ms (TenantRootKeyGrantV2.common g)))
    (List.filter (fun a : Approval => links g (Usable.payload a))
       (listed_approvals chain (TenantRootKeyGrantV2.subject_signing_key_id g))).

(** Rule 3: the usable approvals of [key] valid at [t], whatever their scope. *)
Definition approvals_of (chain : t) (key : KeyId) (t : Z) : list Approval :=
  List.filter (fun a => approval_holds_at chain a t) (listed_approvals chain key).

Definition approval_valid_at (chain : t) (key : KeyId) (scope : Scope.t) (t : Z) : bool :=
  List.existsb
    (fun a : Approval =>
       match approval_scope (Usable.payload a), scope with
       | Scope.Tenant, _ => true
       | Scope.Fleet f, Scope.Fleet g => bool_decide (f = g)
       | _, _ => false
       end) (approvals_of chain key t).

(** Rule 6: the scope a revocation of [key] must cover. *)
Definition revocation_scope (chain : t) (key : KeyId) : Scope.t :=
  match List.map (fun a : Approval => approval_scope (Usable.payload a))
          (List.filter (approval_issuer_ok chain) (listed_approvals chain key)) with
  | Scope.Fleet f :: scopes =>
      if List.forallb (fun s => bool_decide (s = Scope.Fleet f)) scopes then Scope.Fleet f
      else Scope.Tenant
  | _ => Scope.Tenant
  end.

Definition approves_device (chain : t) (key : KeyId) (device : bytes) : bool :=
  List.existsb
    (fun a : Approval =>
       bool_decide (DeviceApprovalV2.subject_device_id (Usable.payload a) = device)
       && approval_issuer_ok chain a) (listed_approvals chain key).

Definition reported_revoked_at (chain : t) (key : KeyId) (t : Z) : bool :=
  List.existsb (fun at_ms => at_ms <=? t)
    (omap (fun a : Approval =>
             device_revoked chain (DeviceApprovalV2.subject_device_id (Usable.payload a)))
       (List.filter (approval_issuer_ok chain) (listed_approvals chain key))).

(** Rule 5 up to the HPKE open. *)
Definition device_hpke_grant (sha256 : bytes -> bytes) (chain : t) (container : bytes)
    (to : Recipient.t) (fleet_id : bytes) (generation now : Z) : option DeviceHpkeGrantV2.t :=
  match AuthorizationRecord.parse sha256 container with
  | Ok record =>
      g ← Evidence.device_grants (evidence chain)
            !! AuthorizationRecord.signed_container_hash record;
      let p := Usable.payload g in
      let common := DeviceHpkeGrantV2.common p in
      let fleet := Scope.Fleet (DeviceHpkeGrantV2.fleet_id p) in
      let t := CommonFields.issued_at_ms common in
      if bool_decide (DeviceHpkeGrantV2.fleet_id p = fleet_id)
         && (DeviceHpkeGrantV2.generation p =? generation)
         && bool_decide (DeviceHpkeGrantV2.subject_account_id p = Recipient.account_id to)
         && bool_decide (DeviceHpkeGrantV2.subject_device_id p = Recipient.device_id to)
         && bool_decide (DeviceHpkeGrantV2.subject_signing_key_id p
                         = Recipient.signing_key_id to)
         && bool_decide (DeviceHpkeGrantV2.recipient_hpke_key_id p = Recipient.hpke_key_id to)
         && (CommonFields.not_before_ms common <=? saturating_add now CLOCK_TOLERANCE_MS)
         && (saturating_sub now CLOCK_TOLERANCE_MS
             <? end_of common (Usable.revoked_at_ms g)
                  (device_revoked chain (DeviceHpkeGrantV2.subject_device_id p)))
         && custodian_at chain (Usable.issuer g) t
         && approval_valid_at chain (Usable.issuer g) fleet t
         && capability_at chain (Usable.issuer g) Capability.FleetManage fleet t
      then Some p else None
  | _ => None
  end.

(** ** Evaluation *)

Definition is_first (v : RootGrantVariant.t) : bool :=
  match v with RootGrantVariant.FirstRootSelfGrant => true | _ => false end.

Definition is_anchor (r : Root) : bool :=
  let g := Usable.payload r in
  is_first (TenantRootKeyGrantV2.variant g)
  && bool_decide (Usable.issuer r = TenantRootKeyGrantV2.subject_signing_key_id g)
  && (TenantRootKeyGrantV2.root_generation g =? 0).

(** The first [not_before_ms] of each key over every usable root grant, or the
    earlier one the client cached. *)
Definition clips (ev : Evidence.t) : gmap KeyId Z :=
  foldl (fun m (r : Root) =>
           let g := Usable.payload r in
           lower (TenantRootKeyGrantV2.subject_signing_key_id g)
             (CommonFields.not_before_ms (TenantRootKeyGrantV2.common g)) m)
    (Evidence.first_not_before ev) (Evidence.roots ev).

Definition index_grants (items : list Grant) : gmap KeyId (gmap KeyId (list nat)) :=
  foldl (fun by_key '(i, g) =>
           match TenantCapabilityGrantV2.subject (Usable.payload g) with
           | GrantSubject.Device _ _ signing_key_id _ =>
               <[signing_key_id :=
                   push (Usable.issuer g) i (default ∅ (by_key !! signing_key_id))]> by_key
           | GrantSubject.Account _ => by_key
           end) ∅ (enumerate items).

(** The chain before any window: its anchor is the issuer of [first]. *)
Definition initial (ev : Evidence.t) (first : Root) : t :=
  mk (Usable.issuer first) ∅ (clips ev) ∅
    (index (Evidence.approvals ev)
       (fun a : Approval => Some (DeviceApprovalV2.subject_signing_key_id (Usable.payload a))))
    (index_grants (Evidence.grants ev)) ev
    (TenantRootKeyGrantV2.subject_device_approval_replay_id (Usable.payload first)).

(** [roots[i]] and [first_not_before[key]] panic when absent. *)
Definition add_window (chain : t) (i : nat) : result TrustError t :=
  match Evidence.roots (evidence chain) !! i with
  | None => Crash Panic
  | Some r =>
      let g := Usable.payload r in
      let key := TenantRootKeyGrantV2.subject_signing_key_id g in
      match first_not_before chain !! key with
      | None => Crash Panic
      | Some first =>
          let cap := saturating_add first MAX_CUSTODIAN_KEY_AGE_MS in
          let nb := CommonFields.not_before_ms (TenantRootKeyGrantV2.common g) in
          let fin := end_of (TenantRootKeyGrantV2.common g) (Usable.revoked_at_ms r)
                       (device_revoked chain (TenantRootKeyGrantV2.subject_device_id g)) in
          let known := default (nb, fin) (counted chain !! key) in
          let counted' := <[key := (Z.min known.1 nb, Z.max known.2 fin)]> (counted chain) in
          let na := Z.min fin cap in
          Ok (with_windows chain
                (if nb <? na then push key (nb, na) (custodians chain) else custodians chain)
                counted')
      end
  end.

Fixpoint add_windows (chain : t) (ps : list nat) : result TrustError t :=
  match ps with
  | [] => Ok chain
  | i :: rest => chain' ← add_window chain i; add_windows chain' rest
  end.

(** The predicate of the partition: the grant counts with the windows so far. *)
Definition ready (chain : t) (i : nat) : bool :=
  match Evidence.roots (evidence chain) !! i with
  | None => false
  | Some r =>
      bool_decide (is_Some (custodians chain !! Usable.issuer r))
      && custodian_at chain (Usable.issuer r)
           (CommonFields.issued_at_ms (TenantRootKeyGrantV2.common (Usable.payload r)))
      && linked_approval_holds chain (Usable.payload r)
  end.

Fixpoint fixpoint (fuel : nat) (chain : t) (pending : list nat) : result TrustError t :=
  match fuel with
  | O => Crash OutOfFuel
  | S fuel' =>
      let (now_ready, rest) := List.partition (ready chain) pending in
      match now_ready with
      | [] => Ok chain
      | _ => chain' ← add_windows chain now_ready; fixpoint fuel' chain' rest
      end
  end.

(** The positions the fixpoint starts with. *)
Definition candidates (ev : Evidence.t) (g0 : nat) : list nat :=
  List.filter (fun i => match Evidence.roots ev !! i with
                        | Some r => negb (is_first (TenantRootKeyGrantV2.variant
                                                      (Usable.payload r)))
                        | None => false
                        end)
    (List.filter (fun i => negb (Nat.eqb i g0)) (seq 0 (length (Evidence.roots ev)))).

Definition evaluate (ev : Evidence.t) (pinned : option KeyId) : result TrustError t :=
  match List.filter (fun '(_, r) => is_anchor r) (enumerate (Evidence.roots ev)) with
  | [] => Err NoAnchor
  | (g0, first) :: more =>
      if negb (bool_decide (more = [])) then Err ConflictingAnchors
      else if negb (opt_ok (fun p => bool_decide (p = Usable.issuer first)) pinned) then
        Err AnchorMismatch
      else
        let chain := initial ev first in
        match Evidence.roots ev !! g0 with
        | None => Crash Panic
        | Some base =>
            if negb (linked_approval_holds chain (Usable.payload base)) then Err NoAnchor
            else
              chain ← add_window chain g0;
              let pending := candidates ev g0 in
              fixpoint (S (length pending)) chain pending
        end
  end.

End TrustChain.

(** ** Join ceremony *)

Definition join_sas (sha256 : bytes -> bytes) (server_instance_id tenant_id : bytes)
    (anchor signing_key_id hpke_key_id : KeyId) : bytes :=
  let preimage := server_instance_id ++ tenant_id ++ anchor ++ signing_key_id ++ hpke_key_id in
  take 16 (domain_hash sha256 (nul_label "SHARDX-JOIN-ANCHOR-SAS-V2") preimage).

(** [format!("{:02x}")]. *)
Definition hex_digit (n : Z) : string :=
  match String.get (Z.to_nat n) "0123456789abcdef" with
  | Some c => String c EmptyString
  | None => EmptyString
  end.
Definition hex2 (b : byte) : string := (hex_digit (b2z b / 16) ++ hex_digit (b2z b mod 16))%string.

(** The groups of [chunks(2)]; [g[1]] panics on an odd chunk, and a SAS has none. *)
Fixpoint sas_groups (sas : bytes) : result TrustError (list string) :=
  match sas with
  | [] => Ok []
  | [_] => Crash Panic
  | a :: b :: rest => groups ← sas_groups rest; Ok ((hex2 a ++ hex2 b)%string :: groups)
  end.

Definition join_sas_display (sas : bytes) : result TrustError string :=
  groups ← sas_groups sas; Ok (String.concat " " groups).
