(* ===== verification/TrustChainFacts.v ===== *)
(** * Theory of the trust chain (shared/src/trust_chain.rs)

    The rules of the evaluation as one inductive definition over the evidence,
    and [TrustChain.evaluate] as its least fixpoint: soundness, completeness,
    outcomes, bounds, and what omitted evidence can change. *)

From Stdlib Require Import Strings.Byte.
From S2P Require Import Prelude Bytes Canonical RecordFields Keys AuthzPayloads AuthzRecord.
From S2P Require Import TrustEvidence TrustChain.

(** ** The rules

    Rules 1 to 4 of the evaluation over the evidence [ev], for the anchor root grant
    at position [g0] issued by [A0], whose linked approval has replay ID [D1]. *)

Definition device_end (ev : Evidence.t) (device_id : bytes) : option Z :=
  Evidence.revoked_devices ev !! device_id.

(** The first [not_before_ms] of the root grants naming [key], or the cached one. *)
Definition clip (ev : Evidence.t) (key : KeyId) : Z :=
  foldr Z.min (default U64_MAX (Evidence.first_not_before ev !! key))
    (omap (fun r : Root =>
             let g := Usable.payload r in
             if bool_decide (TenantRootKeyGrantV2.subject_signing_key_id g = key)
             then Some (CommonFields.not_before_ms (TenantRootKeyGrantV2.common g)) else None)
       (Evidence.roots ev)).

(** The custodian window a counted root grant gives its subject. *)
Definition window_of (ev : Evidence.t) (r : Root) : Z * Z :=
  let g := Usable.payload r in
  (CommonFields.not_before_ms (TenantRootKeyGrantV2.common g),
   Z.min (end_of (TenantRootKeyGrantV2.common g) (Usable.revoked_at_ms r)
            (device_end ev (TenantRootKeyGrantV2.subject_device_id g)))
     (saturating_add (clip ev (TenantRootKeyGrantV2.subject_signing_key_id g))
        MAX_CUSTODIAN_KEY_AGE_MS)).

Definition approval_in_force (ev : Evidence.t) (a : Approval) (t : Z) : bool :=
  let p := Usable.payload a in
  holds (CommonFields.not_before_ms (DeviceApprovalV2.common p),
         end_of (DeviceApprovalV2.common p) (Usable.revoked_at_ms a)
           (device_end ev (DeviceApprovalV2.subject_device_id p))) t.

(** The device-scoped grant [g] says that [key] holds [capability] over [scope] at
    [t]; custody is never said by a capability grant. *)
Definition grant_confers (ev : Evidence.t) (key : KeyId) (capability : Capability.t)
    (scope : Scope.t) (t : Z) (g : Grant) : bool :=
  let p := Usable.payload g in
  match TenantCapabilityGrantV2.subject p with
  | GrantSubject.Account _ => false
  | GrantSubject.Device _ device_id signing_key_id _ =>
      negb (bool_decide (capability = Capability.RootCustody))
      && bool_decide (signing_key_id = key)
      && bool_decide (TenantCapabilityGrantV2.capability p = capability)
      && covers (TenantCapabilityGrantV2.scope_kind p) (TenantCapabilityGrantV2.scope_id p) scope
      && holds (CommonFields.not_before_ms (TenantCapabilityGrantV2.common p),
                end_of (TenantCapabilityGrantV2.common p) (Usable.revoked_at_ms g)
                  (device_end ev device_id)) t
  end.

(** The approval [A0] gave itself, the one the anchor links. *)
Definition anchor_approval (A0 D1 : bytes) (a : Approval) : bool :=
  let p := Usable.payload a in
  bool_decide (Usable.issuer a = A0)
  && bool_decide (DeviceApprovalV2.subject_signing_key_id p = A0)
  && bool_decide (CommonFields.replay_id (DeviceApprovalV2.common p) = D1).

Definition root_issued (r : Root) : Z :=
  CommonFields.issued_at_ms (TenantRootKeyGrantV2.common (Usable.payload r)).
Definition root_subject (r : Root) : KeyId :=
  TenantRootKeyGrantV2.subject_signing_key_id (Usable.payload r).
Definition approval_issued (a : Approval) : Z :=
  CommonFields.issued_at_ms (DeviceApprovalV2.common (Usable.payload a)).
Definition grant_issued (g : Grant) : Z :=
  CommonFields.issued_at_ms (TenantCapabilityGrantV2.common (Usable.payload g)).

Section rules.
Context (ev : Evidence.t) (g0 : nat) (A0 D1 : bytes).

Inductive Counted : nat -> Prop :=
| counted_anchor r :
    Evidence.roots ev !! g0 = Some r -> Linked r -> Counted g0
| counted_step i r :
    Evidence.roots ev !! i = Some r ->
    TrustChain.is_first (TenantRootKeyGrantV2.variant (Usable.payload r)) = false ->
    CustodianAt (Usable.issuer r) (root_issued r) -> Linked r -> Counted i
with CustodianAt : KeyId -> Z -> Prop :=
| custodian_window i r t :
    Counted i -> Evidence.roots ev !! i = Some r -> holds (window_of ev r) t = true ->
    CustodianAt (root_subject r) t
with Linked : Root -> Prop :=
| linked_approval r a :
    a ∈ Evidence.approvals ev ->
    DeviceApprovalV2.subject_signing_key_id (Usable.payload a) = root_subject r ->
    TrustChain.links (Usable.payload r) (Usable.payload a) = true ->
    approval_in_force ev a (root_issued r) = true -> Allowed a -> Linked r
with Allowed : Approval -> Prop :=
| allowed_anchor a : anchor_approval A0 D1 a = true -> Allowed a
| allowed_custodian a :
    CustodianAt (Usable.issuer a) (approval_issued a) ->
    Capable (Usable.issuer a) Capability.DeviceApprove (approval_scope (Usable.payload a))
      (approval_issued a) -> Allowed a
with Capable : KeyId -> Capability.t -> Scope.t -> Z -> Prop :=
| capable_grant key capability scope t g :
    g ∈ Evidence.grants ev -> grant_confers ev key capability scope t g = true ->
    CustodianAt (Usable.issuer g) (grant_issued g) -> Capable key capability scope t.

(** An approval of [key] in force at [t] that covers [scope]. *)
Definition Approved (key : KeyId) (scope : Scope.t) (t : Z) : Prop :=
  exists a, a ∈ Evidence.approvals ev
    /\ DeviceApprovalV2.subject_signing_key_id (Usable.payload a) = key
    /\ approval_in_force ev a t = true /\ Allowed a
    /\ (approval_scope (Usable.payload a) = Scope.Tenant
        \/ exists f, approval_scope (Usable.payload a) = Scope.Fleet f /\ scope = Scope.Fleet f).

End rules.

Scheme Counted_mut := Induction for Counted Sort Prop
with CustodianAt_mut := Induction for CustodianAt Sort Prop
with Linked_mut := Induction for Linked Sort Prop
with Allowed_mut := Induction for Allowed Sort Prop
with Capable_mut := Induction for Capable Sort Prop.
Combined Scheme rules_mut from Counted_mut, CustodianAt_mut, Linked_mut, Allowed_mut, Capable_mut.

(** ** Maps and positions *)

Lemma lower_lookup `{Countable K} (k j : K) at_ms (m : gmap K Z) :
  lower k at_ms m !! j
  = if decide (k = j) then Some (Z.min (default U64_MAX (m !! j)) at_ms) else m !! j.
Proof. unfold lower. rewrite lookup_insert. case_decide as Hk; by subst. Qed.

Lemma push_lookup `{Countable K} {A} (k j : K) (x : A) m :
  default [] (push k x m !! j) = default [] (m !! j) ++ if decide (k = j) then [x] else [].
Proof.
  unfold push. rewrite lookup_insert. case_decide as Hk; subst; by rewrite ?app_nil_r.
Qed.

(** The positions of the items [p] accepts. *)
Definition positions {T} (p : T -> bool) (items : list T) : list nat :=
  (List.filter (fun '(_, x) => p x) (enumerate items)).*1.

Lemma enumerate_snoc {T} (l : list T) x : enumerate (l ++ [x]) = enumerate l ++ [(length l, x)].
Proof.
  unfold enumerate. rewrite imap_app. f_equal. cbn. by rewrite Nat.add_0_r.
Qed.

Lemma positions_snoc {T} (p : T -> bool) l x :
  positions p (l ++ [x]) = positions p l ++ if p x then [length l] else [].
Proof.
  unfold positions. rewrite enumerate_snoc, List.filter_app, fmap_app. f_equal.
  cbn. by destruct (p x).
Qed.

Lemma positions_lt {T} (p : T -> bool) l : Forall (fun i => i < length l)%nat (positions p l).
Proof.
  induction l as [|x l IH] using rev_ind; [by constructor|].
  rewrite positions_snoc, length_app. apply Forall_app. split.
  - eapply Forall_impl; [exact IH|]. cbn. lia.
  - destruct (p x); repeat constructor. cbn. lia.
Qed.

Lemma at_positions_app {T} (items : list T) ps qs :
  at_positions items (ps ++ qs) = at_positions items ps ++ at_positions items qs.
Proof. apply omap_app. Qed.

Lemma at_positions_snoc {T} (l : list T) x ps :
  Forall (fun i => i < length l)%nat ps -> at_positions (l ++ [x]) ps = at_positions l ps.
Proof.
  induction 1 as [|i ps Hi _ IH]; [done|]. cbn. rewrite lookup_app_l by done.
  unfold at_positions in IH. by rewrite IH.
Qed.

Lemma at_positions_positions {T} (p : T -> bool) l :
  at_positions l (positions p l) = List.filter p l.
Proof.
  induction l as [|x l IH] using rev_ind; [done|].
  rewrite positions_snoc, at_positions_app, at_positions_snoc, IH, List.filter_app
    by apply positions_lt. f_equal. cbn. destruct (p x); [|done]. cbn.
  rewrite lookup_app_r by done. by rewrite Nat.sub_diag.
Qed.

(** [index]: what is listed under a key is every item with that key, in order, so no
    position it gives is out of range. *)
Lemma index_lookup {T} (items : list T) key_of k :
  default [] (index items key_of !! k)
  = positions (fun x => bool_decide (key_of x = Some k)) items.
Proof.
  unfold index. induction items as [|x l IH] using rev_ind; [done|].
  rewrite enumerate_snoc, foldl_app, positions_snoc. cbn [foldl].
  destruct (key_of x) as [j|] eqn:Hj.
  - rewrite push_lookup, IH. f_equal.
    destruct (decide (j = k)); [rewrite bool_decide_true|rewrite bool_decide_false];
      naive_solver.
  - rewrite IH. by rewrite app_nil_r.
Qed.

Definition grant_key (g : Grant) : option KeyId :=
  match TenantCapabilityGrantV2.subject (Usable.payload g) with
  | GrantSubject.Device _ _ signing_key_id _ => Some signing_key_id
  | GrantSubject.Account _ => None
  end.

Lemma index_grants_lookup items k i :
  default [] (default ∅ (TrustChain.index_grants items !! k) !! i)
  = positions (fun g => bool_decide (grant_key g = Some k /\ Usable.issuer g = i)) items.
Proof.
  unfold TrustChain.index_grants. induction items as [|g l IH] using rev_ind; [done|].
  rewrite enumerate_snoc, foldl_app, positions_snoc. cbn [foldl].
  assert (grant_key g = match TenantCapabilityGrantV2.subject (Usable.payload g) with
    | GrantSubject.Device _ _ j _ => Some j | GrantSubject.Account _ => None end) as -> by done.
  destruct (TenantCapabilityGrantV2.subject (Usable.payload g)) as [?|? ? j ?].
  - rewrite IH, bool_decide_false, app_nil_r; [done|]. by intros [[=] _].
  - destruct (decide (j = k)) as [->|Hne].
    + rewrite lookup_insert_eq. cbn [from_option id]. rewrite push_lookup, IH. f_equal.
      destruct (decide (Usable.issuer g = i)); [rewrite bool_decide_true|rewrite bool_decide_false];
        naive_solver.
    + rewrite lookup_insert_ne, IH, bool_decide_false, app_nil_r; [done|naive_solver|done].
Qed.

Lemma enumerate_elem {T} (l : list T) i x : (i, x) ∈ enumerate l <-> l !! i = Some x.
Proof.
  unfold enumerate. rewrite list_elem_of_lookup. setoid_rewrite list_lookup_imap.
  split.
  - intros (j & Hj). destruct (l !! j) eqn:E; naive_solver.
  - intros H. exists i. by rewrite H.
Qed.

Lemma elem_of_filter_bool {T} (p : T -> bool) l x : x ∈ List.filter p l <-> x ∈ l /\ p x = true.
Proof. rewrite !list_elem_of_In. apply List.filter_In. Qed.

Lemma existsb_elem {T} (p : T -> bool) l : List.existsb p l = true <-> exists x, x ∈ l /\ p x = true.
Proof. rewrite List.existsb_exists. by setoid_rewrite list_elem_of_In. Qed.

Lemma existsb_ext {T} (p q : T -> bool) l : (forall x, p x = q x) -> List.existsb p l = List.existsb q l.
Proof. intros H. induction l as [|x l IH]; cbn; [done|]. by rewrite H, IH. Qed.

(** ** Reading a chain

    [evaluate] only ever changes the windows: every chain it builds is [initial]
    with some windows, and its queries are the rules over those windows. *)

Definition reads (ev : Evidence.t) (first : Root) (chain : TrustChain.t) : Prop :=
  exists custodians counted,
    chain = TrustChain.with_windows (TrustChain.initial ev first) custodians counted.

Lemma foldr_min d x l : foldr Z.min (Z.min d x) l = Z.min x (foldr Z.min d l).
Proof. induction l as [|y l IH]; cbn; lia. Qed.

Lemma clips_default ev k : default U64_MAX (TrustChain.clips ev !! k) = clip ev k.
Proof.
  unfold TrustChain.clips, clip. generalize (Evidence.first_not_before ev).
  induction (Evidence.roots ev) as [|r l IH]; intros m; cbn [foldl omap]; [done|].
  rewrite IH, lower_lookup. cbn. case_decide as Hk; case_bool_decide; try done.
  cbn. by rewrite foldr_min.
Qed.

Lemma clips_some ev i r :
  Evidence.roots ev !! i = Some r ->
  TrustChain.clips ev !! root_subject r = Some (clip ev (root_subject r)).
Proof.
  intros Hr. rewrite <- clips_default.
  assert (is_Some (TrustChain.clips ev !! root_subject r)) as [c ->]; [|done].
  apply list_elem_of_lookup_2 in Hr. unfold TrustChain.clips.
  assert (forall m : gmap KeyId Z,
    r ∈ Evidence.roots ev \/ is_Some (m !! root_subject r) ->
    is_Some (foldl (fun m (r : Root) =>
      lower (TenantRootKeyGrantV2.subject_signing_key_id (Usable.payload r))
        (CommonFields.not_before_ms (TenantRootKeyGrantV2.common (Usable.payload r))) m)
      m (Evidence.roots ev) !! root_subject r)) as H; [|apply H; by left].
  clear Hr. induction (Evidence.roots ev) as [|r' l IH]; intros m Hm; cbn [foldl].
  { destruct Hm as [Hm|]; [by apply elem_of_nil in Hm|done]. }
  apply IH. rewrite lower_lookup. destruct Hm as [[->|]%elem_of_cons|]; [right|by left|right];
    case_decide; [done..|by eexists|done].
Qed.

(** The grants of [key] issued by one of [ks]. *)
Lemma listed_grants_elem items key ks g :
  g ∈ at_positions items
        (List.flat_map (fun issuer =>
           default [] (default ∅ (TrustChain.index_grants items !! key) !! issuer)) ks) <->
  g ∈ items /\ grant_key g = Some key /\ Usable.issuer g ∈ ks.
Proof.
  induction ks as [|k ks IH]; cbn [List.flat_map].
  { split; [intros Hg; by apply elem_of_nil in Hg|]. by intros (_ & _ & Hg%elem_of_nil). }
  rewrite at_positions_app, elem_of_app, IH, index_grants_lookup, at_positions_positions.
  rewrite elem_of_filter_bool, bool_decide_eq_true, elem_of_cons. naive_solver.
Qed.

(** What a conferring grant says, its key apart. *)
Definition grant_says (ev : Evidence.t) (capability : Capability.t) (scope : Scope.t) (t : Z)
    (g : Grant) : bool :=
  let p := Usable.payload g in
  match TenantCapabilityGrantV2.subject p with
  | GrantSubject.Account _ => false
  | GrantSubject.Device _ device_id _ _ =>
      bool_decide (TenantCapabilityGrantV2.capability p = capability)
      && covers (TenantCapabilityGrantV2.scope_kind p) (TenantCapabilityGrantV2.scope_id p) scope
      && holds (CommonFields.not_before_ms (TenantCapabilityGrantV2.common p),
                end_of (TenantCapabilityGrantV2.common p) (Usable.revoked_at_ms g)
                  (device_end ev device_id)) t
  end.

Lemma grant_confers_iff ev key capability scope t g :
  grant_confers ev key capability scope t g = true <->
  grant_key g = Some key /\ capability <> Capability.RootCustody
  /\ grant_says ev capability scope t g = true.
Proof.
  unfold grant_confers, grant_key, grant_says. case_match; [naive_solver|].
  rewrite !andb_true_iff, negb_true_iff, !bool_decide_eq_true, bool_decide_eq_false.
  naive_solver.
Qed.

Section reading.
Context (ev : Evidence.t) (first : Root) (chain : TrustChain.t) (Hchain : reads ev first chain).

Abbreviation A0 := (Usable.issuer first).
Abbreviation D1 :=
  (TenantRootKeyGrantV2.subject_device_approval_replay_id (Usable.payload first)).

Lemma listed_approvals_elem k a :
  a ∈ TrustChain.listed_approvals chain k <->
  a ∈ Evidence.approvals ev
  /\ DeviceApprovalV2.subject_signing_key_id (Usable.payload a) = k.
Proof.
  destruct Hchain as (? & ? & ->). unfold TrustChain.listed_approvals. cbn.
  rewrite index_lookup, at_positions_positions, elem_of_filter_bool, bool_decide_eq_true.
  naive_solver.
Qed.

Lemma custodian_at_elem k t :
  TrustChain.custodian_at chain k t = true <->
  exists w, w ∈ TrustChain.windows chain k /\ holds w t = true.
Proof. apply existsb_elem. Qed.

Lemma windows_custodian k w :
  w ∈ TrustChain.windows chain k -> is_Some (TrustChain.custodians chain !! k).
Proof.
  unfold TrustChain.windows. destruct (TrustChain.custodians chain !! k); [by eexists|].
  intros Hw. by apply elem_of_nil in Hw.
Qed.

(** The grants [capability_at] walks are those of [key] whose issuer has windows. *)
Lemma capability_at_elem key capability scope t :
  TrustChain.capability_at chain key capability scope t = true <->
  exists g, g ∈ Evidence.grants ev /\ grant_confers ev key capability scope t g = true
    /\ TrustChain.custodian_at chain (Usable.issuer g) (grant_issued g) = true.
Proof.
  assert (forall g, TrustChain.custodian_at chain (Usable.issuer g) (grant_issued g) = true ->
    Usable.issuer g ∈ (map_to_list (TrustChain.custodians chain)).*1) as Hkeys.
  { intros g (w & [ws Hw]%windows_custodian & _)%custodian_at_elem.
    apply list_elem_of_fmap. exists (Usable.issuer g, ws). split; [done|].
    by apply elem_of_map_to_list. }
  pose proof (listed_grants_elem (Evidence.grants ev) key
    (map_to_list (TrustChain.custodians chain)).*1) as Hlisted.
  unfold TrustChain.capability_at.
  assert (TrustChain.grants_by_subject chain = TrustChain.index_grants (Evidence.grants ev)
          /\ TrustChain.evidence chain = ev) as [-> Hev] by by destruct Hchain as (? & ? & ->).
  rewrite Hev. case_bool_decide as Hc.
  { split; [done|]. intros (g & _ & (_ & Hg & _)%grant_confers_iff & _). by destruct Hg. }
  destruct (TrustChain.index_grants (Evidence.grants ev) !! key) as [by_issuer|].
  - cbn [from_option id] in Hlisted. rewrite existsb_elem. setoid_rewrite Hlisted.
    setoid_rewrite grant_confers_iff. unfold grant_key, device_end, TrustChain.device_revoked.
    rewrite Hev. split.
    + intros (g & (Hin & Hkey & _) & Hg). exists g. unfold grant_says, device_end.
      case_match; [done|]. apply andb_true_iff in Hg as [Hg Hcust]. by split_and!.
    + intros (g & Hin & (Hkey & _ & Hg) & Hcust). exists g. split; [by auto|].
      unfold grant_says, device_end in Hg. case_match; [done|]. by rewrite Hg.
  - split; [done|]. intros (g & Hin & (Hkey & _)%grant_confers_iff & Hcust).
    assert (g ∈ at_positions (Evidence.grants ev) []) as Hnil; [|by apply elem_of_nil in Hnil].
    pose proof (proj2 (Hlisted g) (conj Hin (conj Hkey (Hkeys g Hcust)))) as Hg.
    revert Hg. clear. cbn [from_option].
    induction (map_to_list _).*1 as [|k l IH]; [done|]. cbn [List.flat_map].
    by rewrite lookup_empty.
Qed.

Lemma approval_issuer_ok_elem a :
  TrustChain.approval_issuer_ok chain a = true <->
  anchor_approval A0 D1 a = true
  \/ (TrustChain.custodian_at chain (Usable.issuer a) (approval_issued a) = true
      /\ TrustChain.capability_at chain (Usable.issuer a) Capability.DeviceApprove
           (approval_scope (Usable.payload a)) (approval_issued a) = true).
Proof.
  unfold TrustChain.approval_issuer_ok, anchor_approval, approval_issued.
  assert (TrustChain.anchor chain = A0 /\ TrustChain.anchor_approval chain = D1) as [-> ->]
    by by destruct Hchain as (? & ? & ->).
  case_match; [naive_solver|]. rewrite andb_true_iff. naive_solver.
Qed.

Lemma approval_holds_at_elem a t :
  TrustChain.approval_holds_at chain a t = true <->
  approval_in_force ev a t = true /\ TrustChain.approval_issuer_ok chain a = true.
Proof.
  unfold TrustChain.approval_holds_at, approval_in_force, TrustChain.device_revoked, device_end.
  assert (TrustChain.evidence chain = ev) as -> by by destruct Hchain as (? & ? & ->).
  by rewrite andb_true_iff.
Qed.

Lemma linked_approval_holds_elem g :
  TrustChain.linked_approval_holds chain g = true <->
  exists a, a ∈ Evidence.approvals ev
    /\ DeviceApprovalV2.subject_signing_key_id (Usable.payload a)
       = TenantRootKeyGrantV2.subject_signing_key_id g
    /\ TrustChain.links g (Usable.payload a) = true
    /\ approval_in_force ev a (CommonFields.issued_at_ms (TenantRootKeyGrantV2.common g)) = true
    /\ TrustChain.approval_issuer_ok chain a = true.
Proof.
  unfold TrustChain.linked_approval_holds. rewrite existsb_elem.
  setoid_rewrite elem_of_filter_bool. setoid_rewrite listed_approvals_elem.
  setoid_rewrite approval_holds_at_elem. naive_solver.
Qed.

Lemma approval_valid_at_elem key scope t :
  TrustChain.approval_valid_at chain key scope t = true <->
  exists a, a ∈ Evidence.approvals ev
    /\ DeviceApprovalV2.subject_signing_key_id (Usable.payload a) = key
    /\ approval_in_force ev a t = true /\ TrustChain.approval_issuer_ok chain a = true
    /\ (approval_scope (Usable.payload a) = Scope.Tenant
        \/ exists f, approval_scope (Usable.payload a) = Scope.Fleet f /\ scope = Scope.Fleet f).
Proof.
  unfold TrustChain.approval_valid_at, TrustChain.approvals_of. rewrite existsb_elem.
  setoid_rewrite elem_of_filter_bool. setoid_rewrite listed_approvals_elem.
  setoid_rewrite approval_holds_at_elem.
  assert (forall s, match s, scope with
    | Scope.Tenant, _ => true | Scope.Fleet f, Scope.Fleet g => bool_decide (f = g)
    | _, _ => false end = true <->
    (s = Scope.Tenant \/ exists f, s = Scope.Fleet f /\ scope = Scope.Fleet f)) as Hs.
  { intros s. repeat case_match; try naive_solver. rewrite bool_decide_eq_true. naive_solver. }
  setoid_rewrite Hs. naive_solver.
Qed.

End reading.

(** ** The fixpoint *)

Section evaluation.
Context (ev : Evidence.t) (g0 : nat) (first : Root).
Context (Hg0 : Evidence.roots ev !! g0 = Some first).
Context (Hfirst : TrustChain.is_anchor first = true).

Abbreviation A0 := (Usable.issuer first).
Abbreviation D1 :=
  (TenantRootKeyGrantV2.subject_device_approval_replay_id (Usable.payload first)).
Abbreviation counts := (Counted ev g0 A0 D1).

(** The windows of [chain] are those of the root grants at the positions [S]. *)
Definition windows_from (S : list nat) (chain : TrustChain.t) : Prop :=
  reads ev first chain
  /\ forall k w, w ∈ TrustChain.windows chain k <->
       exists i r, i ∈ S /\ Evidence.roots ev !! i = Some r /\ root_subject r = k
         /\ w = window_of ev r /\ w.1 < w.2.

Lemma windows_from_initial : windows_from [] (TrustChain.initial ev first).
Proof.
  split; [by exists ∅, ∅|]. intros k w. split; [intros Hw; by apply elem_of_nil in Hw|].
  by intros (i & r & Hi%elem_of_nil & _).
Qed.

Lemma add_window_from S chain i r :
  windows_from S chain -> Evidence.roots ev !! i = Some r ->
  exists chain', TrustChain.add_window chain i = Ok chain' /\ windows_from (S ++ [i]) chain'.
Proof.
  intros [Hreads HS] Hr. pose proof (clips_some ev i r Hr) as Hclip.
  destruct Hreads as (cs & n & ->). unfold TrustChain.add_window. cbn. rewrite Hr.
  fold (root_subject r). rewrite Hclip. fold (device_end ev).
  set (wn := window_of ev r).
  match goal with |- exists _, Ok (TrustChain.with_windows _ ?cs' ?n') = _ /\ _ =>
    assert (cs' = if wn.1 <? wn.2 then push (root_subject r) wn cs else cs) as ->
      by reflexivity; generalize n' end.
  intros n'. eexists; split; [done|]. split; [by eexists _, n'|]. intros k w.
  assert (w ∈ TrustChain.windows (TrustChain.with_windows (TrustChain.initial ev first)
            (if wn.1 <? wn.2 then push (root_subject r) wn cs else cs) n') k <->
          w ∈ default [] (cs !! k) \/ (root_subject r = k /\ w = wn /\ wn.1 < wn.2)) as Hw.
  { unfold TrustChain.windows, TrustChain.with_windows. cbn [TrustChain.custodians].
    clearbody wn. destruct (Z.ltb_spec wn.1 wn.2).
    - rewrite push_lookup, elem_of_app.
      case_decide; rewrite ?list_elem_of_singleton, ?elem_of_nil; naive_solver.
    - naive_solver lia. }
  specialize (HS k w).
  change (TrustChain.windows (TrustChain.with_windows _ cs n) k) with (default [] (cs !! k)) in HS.
  rewrite Hw, HS. setoid_rewrite elem_of_app. setoid_rewrite list_elem_of_singleton.
  subst wn. split.
  - intros [(j & r' & ? & ? & ? & ? & ?)|(<- & -> & Hlt)]; [by exists j, r'; auto|].
    exists i, r. by auto.
  - intros (j & r' & [Hj | ->] & Hr' & Hk & -> & Hlt); [left; by exists j, r'|right].
    by simplify_eq.
Qed.

Lemma add_windows_from S chain ps :
  windows_from S chain -> Forall (fun i => is_Some (Evidence.roots ev !! i)) ps ->
  exists chain', TrustChain.add_windows chain ps = Ok chain' /\ windows_from (S ++ ps) chain'.
Proof.
  intros HS Hps. revert S chain HS.
  induction Hps as [|i ps [r Hr] _ IH]; intros S chain HS; cbn [TrustChain.add_windows].
  - exists chain. by rewrite app_nil_r.
  - destruct (add_window_from S chain i r HS Hr) as (chain1 & -> & H1).
    destruct (IH _ _ H1) as (chain2 & H2 & H3). exists chain2. split; [done|].
    by rewrite <- (assoc_L (++)) in H3.
Qed.

(** Everything a chain answers from derived windows is derived. *)
Section sound.
Context (S : list nat) (chain : TrustChain.t) (HS : windows_from S chain).
Context (Hsound : Forall counts S).

Lemma custodian_sound k t :
  TrustChain.custodian_at chain k t = true -> CustodianAt ev g0 A0 D1 k t.
Proof.
  intros (w & Hw & Ht)%existsb_elem. apply HS in Hw as (i & r & Hi & Hr & <- & -> & _).
  eapply custodian_window; [|done..]. by eapply Forall_forall in Hsound.
Qed.

Lemma capable_sound k capability scope t :
  TrustChain.capability_at chain k capability scope t = true ->
  Capable ev g0 A0 D1 k capability scope t.
Proof.
  intros (g & Hin & Hg & Hc%custodian_sound)%(capability_at_elem ev first); [|apply HS].
  by eapply capable_grant.
Qed.

Lemma allowed_sound a :
  TrustChain.approval_issuer_ok chain a = true -> Allowed ev g0 A0 D1 a.
Proof.
  intros [Ha|[Hc%custodian_sound Hk%capable_sound]]%(approval_issuer_ok_elem ev first);
    [by apply allowed_anchor|by apply allowed_custodian|apply HS].
Qed.

Lemma linked_sound r :
  TrustChain.linked_approval_holds chain (Usable.payload r) = true -> Linked ev g0 A0 D1 r.
Proof.
  intros (a & ? & ? & ? & ? & Ha%allowed_sound)%(linked_approval_holds_elem ev first);
    [|apply HS]. by eapply linked_approval.
Qed.

Lemma ready_sound i :
  TrustChain.ready chain i = true -> i ∈ TrustChain.candidates ev g0 -> counts i.
Proof.
  unfold TrustChain.ready, TrustChain.candidates.
  assert (TrustChain.evidence chain = ev) as -> by by destruct HS as [(? & ? & ->) _].
  destruct (Evidence.roots ev !! i) as [r|] eqn:Hr; [|done].
  rewrite !andb_true_iff. intros [[_ Hc%custodian_sound] Hl%linked_sound] Hi.
  apply elem_of_filter_bool in Hi as [_ Hi]. rewrite Hr in Hi. apply negb_true_iff in Hi.
  by eapply counted_step.
Qed.

End sound.

Lemma candidates_elem i :
  i ∈ TrustChain.candidates ev g0 <->
  exists r, Evidence.roots ev !! i = Some r
    /\ TrustChain.is_first (TenantRootKeyGrantV2.variant (Usable.payload r)) = false.
Proof.
  unfold TrustChain.candidates. rewrite !elem_of_filter_bool.
  assert (forall r, Evidence.roots ev !! i = Some r -> i ∈ seq 0 (length (Evidence.roots ev)))
    as Hseq by (intros r Hr%lookup_lt_Some; apply elem_of_seq; lia).
  split.
  - intros [_ Hi]. case_match; [|done]. apply negb_true_iff in Hi. by eexists.
  - intros (r & Hr & Hv). rewrite Hr, Hv. split; [|done]. split; [by eapply Hseq|].
    apply negb_true_iff, Nat.eqb_neq. intros ->. simplify_eq.
    unfold TrustChain.is_anchor in Hfirst. by rewrite Hv in Hfirst.
Qed.

(** Enough fuel: each pass takes a position out of [pending]. The loop ends with
    every position that is ready among the counted ones. *)
Lemma fixpoint_from fuel S chain pending :
  (length pending < fuel)%nat -> windows_from S chain -> Forall counts S ->
  pending ⊆ TrustChain.candidates ev g0 ->
  (forall i, i ∈ TrustChain.candidates ev g0 -> i ∈ S \/ i ∈ pending) ->
  exists S' chain', TrustChain.fixpoint fuel chain pending = Ok chain'
    /\ windows_from S' chain' /\ Forall counts S' /\ S ⊆ S'
    /\ forall i, i ∈ TrustChain.candidates ev g0 -> TrustChain.ready chain' i = true -> i ∈ S'.
Proof.
  revert S chain pending. induction fuel as [|fuel IH]; intros S chain pending Hf HS Hc Hp Hall;
    [lia|]. cbn [TrustChain.fixpoint].
  destruct (List.partition _ pending) as [now rest] eqn:Hpart.
  pose proof (List.elements_in_partition _ _ Hpart) as Hin.
  pose proof (List.partition_length _ _ Hpart) as Hlen.
  assert (now = List.filter (TrustChain.ready chain) pending) as Hnow.
  { rewrite List.partition_as_filter in Hpart. by simplify_eq. }
  setoid_rewrite <- list_elem_of_In in Hin.
  destruct now as [|i now'].
  { exists S, chain. split_and!; [done..|]. intros i [|Hi]%Hall Hr; [done|].
    assert (i ∈ List.filter (TrustChain.ready chain) pending) as Hi'
      by by apply elem_of_filter_bool.
    rewrite <- Hnow in Hi'. by apply elem_of_nil in Hi'. }
  cbn [length] in Hlen. set (now := i :: now') in *.
  assert (forall j, j ∈ now -> j ∈ pending /\ TrustChain.ready chain j = true) as Hready
    by (intros j; rewrite Hnow; apply elem_of_filter_bool).
  destruct (add_windows_from S chain now HS) as (chain1 & -> & H1).
  { apply Forall_forall. intros j [Hj _]%Hready. apply Hp, candidates_elem in Hj.
    naive_solver. }
  destruct (IH (S ++ now) chain1 rest) as (S' & chain' & ? & ? & ? & Hsub & ?); try done.
  - lia.
  - apply Forall_app. split; [done|]. apply Forall_forall. intros j [Hj Hr]%Hready.
    apply (ready_sound S chain HS Hc j Hr). by apply Hp.
  - intros j Hj. apply Hp, Hin. by right.
  - intros j [|Hj%Hin]%Hall; set_solver.
  - exists S', chain'. split_and!; [done..| |done]. intros j Hj. apply Hsub. set_solver.
Qed.

(** A chain closed under the rules answers everything derivable. *)
Lemma complete_from S chain :
  windows_from S chain ->
  (TrustChain.linked_approval_holds chain (Usable.payload first) = true -> g0 ∈ S) ->
  (forall i, i ∈ TrustChain.candidates ev g0 -> TrustChain.ready chain i = true -> i ∈ S) ->
  (forall i, counts i -> i ∈ S)
  /\ (forall k t, CustodianAt ev g0 A0 D1 k t -> TrustChain.custodian_at chain k t = true)
  /\ (forall r, Linked ev g0 A0 D1 r ->
        TrustChain.linked_approval_holds chain (Usable.payload r) = true)
  /\ (forall a, Allowed ev g0 A0 D1 a -> TrustChain.approval_issuer_ok chain a = true)
  /\ (forall k capability scope t, Capable ev g0 A0 D1 k capability scope t ->
        TrustChain.capability_at chain k capability scope t = true).
Proof.
  intros HS Hbase Hclosed. pose proof HS as [Hreads Hw].
  apply (rules_mut ev g0 A0 D1 (fun i _ => i ∈ S)
    (fun k t _ => TrustChain.custodian_at chain k t = true)
    (fun r _ => TrustChain.linked_approval_holds chain (Usable.payload r) = true)
    (fun a _ => TrustChain.approval_issuer_ok chain a = true)
    (fun k capability scope t _ => TrustChain.capability_at chain k capability scope t = true)).
  - intros r Hr _ Hl. simplify_eq. by apply Hbase.
  - intros i r Hr Hv _ Hc _ Hl. apply Hclosed; [apply candidates_elem; by eexists|].
    unfold TrustChain.ready.
    assert (TrustChain.evidence chain = ev) as -> by by destruct Hreads as (? & ? & ->).
    rewrite Hr. fold (root_issued r). rewrite Hl, Hc, !andb_true_r. apply bool_decide_eq_true.
    apply custodian_at_elem in Hc as (w & Hwin & _). by eapply windows_custodian.
  - intros i r t _ Hi Hr Ht. apply existsb_elem. exists (window_of ev r). split; [|done].
    apply Hw. exists i, r. split_and!; try done. unfold holds in Ht. lia.
  - intros r a ? ? ? ? _ Ha. apply (linked_approval_holds_elem ev first); [done|].
    by exists a.
  - intros a Ha. apply (approval_issuer_ok_elem ev first); [done|]. by left.
  - intros a _ Hc _ Hk. apply (approval_issuer_ok_elem ev first); [done|]. by right.
  - intros k capability scope t g ? ? _ Hc. apply (capability_at_elem ev first); [done|].
    by exists g.
Qed.

End evaluation.
