(* ===== verification/TrustChainTheorems.v ===== *)
(** * Properties of the trust chain (shared/src/trust_chain.rs)

    What [TrustChain.evaluate] returns on every evidence set, its answers as the
    least fixpoint of the rules of [TrustChainFacts], the bounds of a custodian
    window, and what omitted evidence or added revocations can change. *)

From Stdlib Require Import Strings.Byte.
From S2P Require Import Prelude Bytes Canonical RecordFields Keys AuthzPayloads AuthzRecord.
From S2P Require Import TrustEvidence TrustChain TrustChainFacts.

(** ** Outcomes of [evaluate] *)

(** The position and grant of the tenant's one self-grant. *)
Definition the_anchor (ev : Evidence.t) (g0 : nat) (first : Root) : Prop :=
  Evidence.roots ev !! g0 = Some first /\ TrustChain.is_anchor first = true
  /\ forall i r, Evidence.roots ev !! i = Some r -> TrustChain.is_anchor r = true -> i = g0.

Definition pin_ok (pinned : option KeyId) (key : KeyId) : Prop :=
  forall p, pinned = Some p -> p = key.

(** The replay ID of the approval the anchor links. *)
Definition linked_id (first : Root) : bytes :=
  TenantRootKeyGrantV2.subject_device_approval_replay_id (Usable.payload first).

Lemma anchors_elem ev i r :
  (i, r) ∈ List.filter (fun '(_, r) => TrustChain.is_anchor r) (enumerate (Evidence.roots ev))
  <-> Evidence.roots ev !! i = Some r /\ TrustChain.is_anchor r = true.
Proof. by rewrite elem_of_filter_bool, enumerate_elem. Qed.

Lemma enumerate_nodup {T} (l : list T) : NoDup (enumerate l).
Proof.
  induction l as [|x l IH] using rev_ind; [constructor|]. rewrite enumerate_snoc.
  apply NoDup_app. split_and!; [done| |apply NoDup_singleton].
  intros [i y] Hi%enumerate_elem [= -> ->]%list_elem_of_singleton.
  apply lookup_lt_Some in Hi. lia.
Qed.

Lemma anchors_nodup ev :
  NoDup (List.filter (fun '(_, r) => TrustChain.is_anchor r) (enumerate (Evidence.roots ev))).
Proof. apply NoDup_ListNoDup, List.NoDup_filter, NoDup_ListNoDup, enumerate_nodup. Qed.

Lemma pin_ok_iff pinned key :
  opt_ok (fun p => bool_decide (p = key)) pinned = true <-> pin_ok pinned key.
Proof.
  unfold pin_ok. destruct pinned as [p|]; cbn; [rewrite bool_decide_eq_true|]; naive_solver.
Qed.

(** What an accepted chain is: its windows come from exactly the counted grants. *)
Definition accepted (ev : Evidence.t) (pinned : option KeyId) (g0 : nat) (first : Root)
    (chain : TrustChain.t) : Prop :=
  the_anchor ev g0 first /\ pin_ok pinned (Usable.issuer first)
  /\ Linked ev g0 (Usable.issuer first) (linked_id first) first
  /\ exists S, windows_from ev first S chain
     /\ forall i, i ∈ S <-> Counted ev g0 (Usable.issuer first) (linked_id first) i.

Definition outcome (ev : Evidence.t) (pinned : option KeyId) (r : result TrustError TrustChain.t)
    : Prop :=
  match r with
  | Ok chain => exists g0 first, accepted ev pinned g0 first chain
  | Err NoAnchor =>
      (forall i r, Evidence.roots ev !! i = Some r -> TrustChain.is_anchor r = false)
      \/ (exists g0 first, the_anchor ev g0 first /\ pin_ok pinned (Usable.issuer first)
           /\ ~ Linked ev g0 (Usable.issuer first) (linked_id first) first)
  | Err ConflictingAnchors =>
      exists i j r r', i <> j /\ Evidence.roots ev !! i = Some r
        /\ TrustChain.is_anchor r = true /\ Evidence.roots ev !! j = Some r'
        /\ TrustChain.is_anchor r' = true
  | Err AnchorMismatch =>
      exists g0 first, the_anchor ev g0 first /\ ~ pin_ok pinned (Usable.issuer first)
  | Err _ | Crash _ => False
  end.

(** Before any window only the anchor's own approval counts. *)
Lemma initial_linked ev g0 first :
  the_anchor ev g0 first ->
  TrustChain.linked_approval_holds (TrustChain.initial ev first) (Usable.payload first) = false ->
  ~ Linked ev g0 (Usable.issuer first) (linked_id first) first.
Proof.
  intros (Hg0 & Ha & _) Hl Hlinked. pose proof (windows_from_initial ev first) as HS.
  destruct (complete_from ev g0 first Hg0 Ha [] _ HS) as (_ & _ & H & _).
  - intros Hl'. by rewrite Hl in Hl'.
  - intros i _ Hr. unfold TrustChain.ready in Hr. cbn in Hr. case_match; [|done].
    rewrite lookup_empty in Hr. by rewrite bool_decide_false in Hr by by intros [].
  - apply H in Hlinked. by rewrite Hl in Hlinked.
Qed.

Lemma evaluate_anchor ev pinned g0 first :
  the_anchor ev g0 first -> pin_ok pinned (Usable.issuer first) ->
  TrustChain.linked_approval_holds (TrustChain.initial ev first) (Usable.payload first) = true ->
  exists chain,
    (chain1 ← TrustChain.add_window (TrustChain.initial ev first) g0;
     TrustChain.fixpoint (S (length (TrustChain.candidates ev g0))) chain1
       (TrustChain.candidates ev g0)) = Ok chain
    /\ accepted ev pinned g0 first chain.
Proof.
  intros Hanchor Hpin Hl. pose proof Hanchor as (Hg0 & Ha & _).
  pose proof (windows_from_initial ev first) as HS0.
  pose proof (linked_sound ev g0 first [] _ HS0 (Forall_nil_2 _) first Hl) as Hlinked.
  assert (Counted ev g0 (Usable.issuer first) (linked_id first) g0) as Hcounted
    by by eapply counted_anchor.
  destruct (add_window_from ev first [] _ g0 first HS0 Hg0) as (chain1 & Heq & H1).
  rewrite Heq. unfold mbind, result_bind.
  destruct (fixpoint_from ev g0 first Hg0 Ha (S (length (TrustChain.candidates ev g0)))
    ([] ++ [g0]) chain1 (TrustChain.candidates ev g0)) as (S' & chain & -> & HS & Hs & Hsub & Hcl);
    [lia|done|by repeat constructor|done|by auto|].
  exists chain. split; [done|]. split_and!; [done..|]. exists S'. split; [done|]. intros i. split.
  - by apply Forall_forall.
  - eapply (complete_from ev g0 first Hg0 Ha S' chain HS); [|done]. intros _. apply Hsub. set_solver.
Qed.

Lemma evaluate_spec ev pinned : outcome ev pinned (TrustChain.evaluate ev pinned).
Proof.
  unfold TrustChain.evaluate. pose proof (anchors_elem ev) as Hin.
  pose proof (anchors_nodup ev) as Hnd.
  destruct (List.filter _ _) as [|[g0 first] more] eqn:Hf.
  { left. intros i r Hr. destruct (TrustChain.is_anchor r) eqn:Ha; [|done].
    pose proof (proj2 (Hin i r) (conj Hr Ha)) as Hn. by apply elem_of_nil in Hn. }
  destruct (proj1 (Hin g0 first)) as [Hg0 Ha]; [by left|].
  destruct more as [|[j r'] more]; cbn [bool_decide negb].
  - assert (the_anchor ev g0 first) as Hanchor.
    { split_and!; [done..|]. intros i r Hr Hra. pose proof (proj2 (Hin i r) (conj Hr Hra)) as Hi.
      by apply list_elem_of_singleton in Hi as [= -> _]. }
    rewrite bool_decide_true by done. cbn [negb].
    destruct (opt_ok _ pinned) eqn:Hpin; cbn [negb]; [apply pin_ok_iff in Hpin|].
    + rewrite Hg0. destruct (TrustChain.linked_approval_holds _ _) eqn:Hl; cbn [negb].
      * destruct (evaluate_anchor ev pinned g0 first Hanchor Hpin Hl) as (chain & -> & H).
        by exists g0, first.
      * right. exists g0, first. split_and!; [done..|]. by apply initial_linked.
    + exists g0, first. split; [done|]. rewrite <- pin_ok_iff, Hpin. done.
  - rewrite bool_decide_false by done. cbn [negb].
    destruct (proj1 (Hin j r')) as [Hj Hr']; [right; by left|].
    exists g0, j, first, r'. split_and!; [|done..]. intros ->. simplify_eq.
    apply NoDup_cons in Hnd as [Hnd _]. apply Hnd. by left.
Qed.

Lemma evaluate_accepted ev pinned chain :
  TrustChain.evaluate ev pinned = Ok chain ->
  exists g0 first, accepted ev pinned g0 first chain.
Proof. intros H. pose proof (evaluate_spec ev pinned) as Ho. by rewrite H in Ho. Qed.

Lemma the_anchor_unique ev g0 first g0' first' :
  the_anchor ev g0 first -> the_anchor ev g0' first' -> g0 = g0' /\ first = first'.
Proof.
  intros (H & Ha & Hu) (H' & Ha' & _). pose proof (Hu _ _ H' Ha'). subst. by simplify_eq.
Qed.

Lemma evaluate_some ev pinned g0 first :
  the_anchor ev g0 first -> pin_ok pinned (Usable.issuer first) ->
  Linked ev g0 (Usable.issuer first) (linked_id first) first ->
  exists chain, TrustChain.evaluate ev pinned = Ok chain.
Proof.
  intros Ha Hpin Hl. pose proof (evaluate_spec ev pinned) as Ho.
  destruct (TrustChain.evaluate ev pinned) as [chain|[]|]; cbn in Ho; [by eexists|done|done|..].
  - destruct Ho as [Ho|(g0' & first' & Ha' & _ & Hn)].
    + destruct Ha as (Hg & Hfirst & _). by rewrite (Ho _ _ Hg) in Hfirst.
    + by destruct (the_anchor_unique _ _ _ _ _ Ha Ha') as [-> ->].
  - destruct Ho as (i & j & r & r' & Hne & Hi & Hr & Hj & Hr'). destruct Ha as (_ & _ & Hu).
    by rewrite (Hu i r), (Hu j r') in Hne.
  - destruct Ho as (g0' & first' & Ha' & Hn).
    by destruct (the_anchor_unique _ _ _ _ _ Ha Ha') as [-> ->].
  - done.
Qed.

(** The answers of an accepted chain are the rules. *)
Lemma accepted_answers ev pinned g0 first chain :
  accepted ev pinned g0 first chain ->
  let A0 := Usable.issuer first in
  let D1 := linked_id first in
  (forall k t, TrustChain.custodian_at chain k t = true <-> CustodianAt ev g0 A0 D1 k t)
  /\ (forall k capability scope t,
        TrustChain.capability_at chain k capability scope t = true <->
        Capable ev g0 A0 D1 k capability scope t)
  /\ (forall a, TrustChain.approval_issuer_ok chain a = true <-> Allowed ev g0 A0 D1 a)
  /\ (forall k scope t,
        TrustChain.approval_valid_at chain k scope t = true <-> Approved ev g0 A0 D1 k scope t).
Proof.
  intros ((Hg0 & Ha & _) & _ & Hl & S & HS & Hcount) A0 D1.
  assert (Forall (Counted ev g0 A0 D1) S) as Hsound by (apply Forall_forall; apply Hcount).
  assert (g0 ∈ S) as Hin by (apply Hcount; by eapply counted_anchor).
  destruct (complete_from ev g0 first Hg0 Ha S chain HS) as (_ & Hc & _ & Hal & Hk).
  { done. }
  { intros i Hi Hr. apply Hcount. by apply (ready_sound ev g0 first S chain HS Hsound). }
  assert (forall a, TrustChain.approval_issuer_ok chain a = true <-> Allowed ev g0 A0 D1 a)
    as Hallowed.
  { intros a. split; [by apply (allowed_sound ev g0 first S chain HS Hsound)|apply Hal]. }
  split_and!.
  - intros k t. split; [by apply (custodian_sound ev g0 first S chain HS Hsound)|apply Hc].
  - intros k cap sc t.
    split; [by apply (capable_sound ev g0 first S chain HS Hsound)|apply Hk].
  - done.
  - intros k sc t. rewrite (approval_valid_at_elem ev first) by apply HS. unfold Approved.
    by setoid_rewrite Hallowed.
Qed.

(** ** Less evidence *)

(** [u'] is [u], perhaps reported revoked earlier. *)
Definition narrower {T} (u' u : Usable.t T) : Prop :=
  Usable.issuer u' = Usable.issuer u /\ Usable.payload u' = Usable.payload u
  /\ default U64_MAX (Usable.revoked_at_ms u') <= default U64_MAX (Usable.revoked_at_ms u).

(** [ev'] is [ev] with containers omitted and revocations added, and no clip later. *)
Record tightens (ev' ev : Evidence.t) : Prop := {
  tight_roots : forall r', r' ∈ Evidence.roots ev' ->
    exists r, r ∈ Evidence.roots ev /\ narrower r' r;
  tight_approvals : forall a', a' ∈ Evidence.approvals ev' ->
    exists a, a ∈ Evidence.approvals ev /\ narrower a' a;
  tight_grants : forall g', g' ∈ Evidence.grants ev' ->
    exists g, g ∈ Evidence.grants ev /\ narrower g' g;
  tight_device_grants : forall h g', Evidence.device_grants ev' !! h = Some g' ->
    exists g, Evidence.device_grants ev !! h = Some g /\ narrower g' g;
  tight_devices : forall d, default U64_MAX (device_end ev' d) <= default U64_MAX (device_end ev d);
  tight_clips : forall k, clip ev' k <= clip ev k }.

Lemma end_of_mono common rev' rev dev' dev :
  default U64_MAX rev' <= default U64_MAX rev -> default U64_MAX dev' <= default U64_MAX dev ->
  end_of common rev' dev' <= end_of common rev dev.
Proof. unfold end_of. lia. Qed.

Lemma holds_mono s e' e t : e' <= e -> holds (s, e') t = true -> holds (s, e) t = true.
Proof. unfold holds. cbn [fst snd]. lia. Qed.

Section tightening.
Context (ev' ev : Evidence.t) (Htight : tightens ev' ev).

Lemma window_of_mono r' r :
  narrower r' r ->
  (window_of ev' r').1 = (window_of ev r).1 /\ (window_of ev' r').2 <= (window_of ev r).2.
Proof.
  intros (_ & Hp & Hrev). unfold window_of. rewrite Hp. cbn [fst snd]. split; [done|].
  set (g := Usable.payload r).
  pose proof (tight_clips _ _ Htight (TenantRootKeyGrantV2.subject_signing_key_id g)).
  pose proof (end_of_mono (TenantRootKeyGrantV2.common g) _ _ _ _ Hrev
    (tight_devices _ _ Htight (TenantRootKeyGrantV2.subject_device_id g))).
  unfold saturating_add. lia.
Qed.

Lemma approval_in_force_mono a' a t :
  narrower a' a -> approval_in_force ev' a' t = true -> approval_in_force ev a t = true.
Proof.
  intros (_ & Hp & Hrev). unfold approval_in_force. rewrite Hp. apply holds_mono.
  apply end_of_mono; [done|apply (tight_devices _ _ Htight)].
Qed.

Lemma grant_confers_mono k capability scope t g' g :
  narrower g' g -> grant_confers ev' k capability scope t g' = true ->
  grant_confers ev k capability scope t g = true.
Proof.
  intros (_ & Hp & Hrev). unfold grant_confers. rewrite Hp. case_match; [done|].
  intros [Hg Ht]%andb_true_iff. apply andb_true_iff. split; [exact Hg|]. revert Ht.
  apply holds_mono, end_of_mono; [done|apply (tight_devices _ _ Htight)].
Qed.

Lemma the_anchor_tightens g0' first' g0 first :
  the_anchor ev' g0' first' -> the_anchor ev g0 first -> narrower first' first.
Proof.
  intros (Hg' & Ha' & _) (Hg & Ha & Hu).
  destruct (tight_roots _ _ Htight first') as (r & [i Hi]%list_elem_of_lookup & Hr);
    [by eapply list_elem_of_lookup_2|].
  assert (i = g0) as ->; [|by simplify_eq].
  apply (Hu i r Hi). destruct Hr as (Hr1 & Hr2 & _). unfold TrustChain.is_anchor in *.
  by rewrite Hr1, Hr2 in Ha'.
Qed.

(** Every derivation from [ev'] is one from [ev]. *)
Lemma rules_mono g0' first' g0 first :
  the_anchor ev' g0' first' -> the_anchor ev g0 first ->
  let A0 := Usable.issuer first in
  let D1 := linked_id first in
  (forall i, Counted ev' g0' A0 D1 i ->
     forall r', Evidence.roots ev' !! i = Some r' ->
     exists j r, Counted ev g0 A0 D1 j /\ Evidence.roots ev !! j = Some r /\ narrower r' r)
  /\ (forall k t, CustodianAt ev' g0' A0 D1 k t -> CustodianAt ev g0 A0 D1 k t)
  /\ (forall r', Linked ev' g0' A0 D1 r' ->
        forall r, narrower r' r -> Linked ev g0 A0 D1 r)
  /\ (forall a', Allowed ev' g0' A0 D1 a' -> forall a, narrower a' a -> Allowed ev g0 A0 D1 a)
  /\ (forall k capability scope t, Capable ev' g0' A0 D1 k capability scope t ->
        Capable ev g0 A0 D1 k capability scope t).
Proof.
  intros H' H A0 D1. pose proof (the_anchor_tightens _ _ _ _ H' H) as Hnarrow.
  destruct H' as (Hg0' & _), H as (Hg0 & _).
  apply (rules_mut ev' g0' A0 D1
    (fun i _ => forall r', Evidence.roots ev' !! i = Some r' ->
       exists j r, Counted ev g0 A0 D1 j /\ Evidence.roots ev !! j = Some r /\ narrower r' r)
    (fun k t _ => CustodianAt ev g0 A0 D1 k t)
    (fun r' _ => forall r, narrower r' r -> Linked ev g0 A0 D1 r)
    (fun a' _ => forall a, narrower a' a -> Allowed ev g0 A0 D1 a)
    (fun k capability scope t _ => Capable ev g0 A0 D1 k capability scope t)).
  - intros r1 Hr1 _ IH r2 Hr2. simplify_eq. exists g0, first. split_and!; [|done..].
    by eapply counted_anchor; [|apply IH].
  - intros i r1 Hr1 Hv _ IHc _ IHl r2 Hr2. simplify_eq.
    destruct (tight_roots _ _ Htight r1) as (r & [j Hj]%list_elem_of_lookup & Hn);
      [by eapply list_elem_of_lookup_2|].
    exists j, r. split_and!; [|done..]. pose proof Hn as (Hn1 & Hn2 & _).
    eapply counted_step; [done|by rewrite <- Hn2| |by apply IHl].
    unfold root_issued in *. by rewrite <- Hn1, <- Hn2.
  - intros i r' t _ IH Hr' Ht. destruct (IH r' Hr') as (j & r & Hj & Hr & Hn).
    assert (root_subject r' = root_subject r) as ->
      by (unfold root_subject; by destruct Hn as (_ & -> & _)).
    eapply custodian_window; [done..|]. destruct (window_of_mono r' r Hn) as [He1 He2].
    unfold holds in *. lia.
  - intros r' a' Ha' Hs Hlink Hf _ IH r Hn. 
    destruct (tight_approvals _ _ Htight a' Ha') as (a & Ha & Hna).
    pose proof Hn as (_ & Hp & _). pose proof Hna as (_ & Hpa & _).
    unfold root_subject, root_issued in *. rewrite Hp, Hpa in Hlink. rewrite Hp, Hpa in Hs.
    eapply linked_approval; [done|done|done| |by apply IH].
    eapply approval_in_force_mono; [done|]. unfold root_issued. by rewrite <- Hp.
  - intros a' Ha' a (Hi & Hp & _). apply allowed_anchor. unfold anchor_approval in *.
    by rewrite Hi, Hp in Ha'.
  - intros a' _ IHc _ IHk a (Hi & Hp & _). unfold approval_issued in *.
    rewrite Hi, Hp in IHc, IHk. by apply allowed_custodian.
  - intros k cap sc t g' Hg' Hconf _ IH.
    destruct (tight_grants _ _ Htight g' Hg') as (g & Hg & Hn).
    eapply capable_grant; [done|by eapply grant_confers_mono|].
    destruct Hn as (Hi & Hp & _). unfold grant_issued in *. by rewrite <- Hi, <- Hp.
Qed.

End tightening.

(** The windows of two accepted chains. *)
Lemma windows_mono ev' ev pinned' pinned g0' first' g0 first chain' chain :
  tightens ev' ev -> accepted ev' pinned' g0' first' chain' -> accepted ev pinned g0 first chain ->
  forall k w', w' ∈ TrustChain.windows chain' k ->
  exists w, w ∈ TrustChain.windows chain k /\ w.1 = w'.1 /\ w'.2 <= w.2.
Proof.
  intros Ht (H' & _ & _ & S' & HS' & Hc') (H & _ & _ & S & HS & Hc) k w' Hw'.
  pose proof (the_anchor_tightens _ _ Ht _ _ _ _ H' H) as Hn.
  assert (Usable.issuer first' = Usable.issuer first /\ linked_id first' = linked_id first)
    as [Hi Hl] by (destruct Hn as (? & Hp & _); unfold linked_id; by rewrite Hp).
  apply HS' in Hw' as (i & r' & Hin & Hr' & <- & -> & Hlt).
  apply Hc' in Hin. rewrite Hi, Hl in Hin.
  destruct (rules_mono ev' ev Ht _ _ _ _ H' H) as [Hm _].
  destruct (Hm i Hin r' Hr') as (j & r & Hj & Hr & Hrn).
  destruct (window_of_mono _ _ Ht _ _ Hrn) as [He1 He2].
  exists (window_of ev r). split; [|by rewrite He1]. apply HS. exists j, r.
  assert (root_subject r = root_subject r') as ->
    by (unfold root_subject; by destruct Hrn as (_ & -> & _)).
  apply Hc in Hj. split_and!; [done..|lia].
Qed.

Lemma answers_mono ev' ev pinned' pinned g0' first' g0 first chain' chain :
  tightens ev' ev -> accepted ev' pinned' g0' first' chain' -> accepted ev pinned g0 first chain ->
  (forall k t, TrustChain.custodian_at chain' k t = true ->
     TrustChain.custodian_at chain k t = true)
  /\ (forall k capability scope t, TrustChain.capability_at chain' k capability scope t = true ->
        TrustChain.capability_at chain k capability scope t = true)
  /\ (forall k scope t, TrustChain.approval_valid_at chain' k scope t = true ->
        TrustChain.approval_valid_at chain k scope t = true).
Proof.
  intros Ht H' H.
  destruct (accepted_answers _ _ _ _ _ H') as (Hc' & Hk' & _ & Hv').
  destruct (accepted_answers _ _ _ _ _ H) as (Hc & Hk & _ & Hv).
  destruct H' as (H' & _), H as (H & _).
  pose proof (the_anchor_tightens _ _ Ht _ _ _ _ H' H) as Hn.
  assert (Usable.issuer first' = Usable.issuer first /\ linked_id first' = linked_id first)
    as [Hi Hl] by (destruct Hn as (? & Hp & _); unfold linked_id; by rewrite Hp).
  rewrite Hi, Hl in *.
  destruct (rules_mono ev' ev Ht _ _ _ _ H' H) as (_ & Mc & _ & Ma & Mk).
  split_and!.
  - intros k t ?%Hc'. by apply Hc, Mc.
  - intros k cap sc t ?%Hk'. by apply Hk, Mk.
  - intros k sc t (a' & Ha' & Hs & Hf & Hal & Hsc)%Hv'. apply Hv.
    destruct (tight_approvals _ _ Ht a' Ha') as (a & Ha & Hna). pose proof Hna as (_ & Hp & _).
    rewrite Hp in *. exists a. split_and!; [done|done| |by eapply Ma|done].
    by eapply approval_in_force_mono.
Qed.

Definition two_anchors (ev : Evidence.t) : Prop :=
  exists i j r r', i <> j /\ Evidence.roots ev !! i = Some r /\ TrustChain.is_anchor r = true
    /\ Evidence.roots ev !! j = Some r' /\ TrustChain.is_anchor r' = true.

(** Evidence that accepted evidence tightens is refused for two anchors or for its pin. *)
Lemma fuller_outcome ev' ev pinned' pinned g0' first' chain' :
  tightens ev' ev -> accepted ev' pinned' g0' first' chain' ->
  match TrustChain.evaluate ev pinned with
  | Ok _ => True
  | Err ConflictingAnchors => two_anchors ev
  | Err AnchorMismatch => ~ pin_ok pinned (TrustChain.anchor chain')
  | Err _ | Crash _ => False
  end.
Proof.
  intros Ht (H' & _ & Hl & S & HS & _). pose proof (evaluate_spec ev pinned) as Ho.
  assert (TrustChain.anchor chain' = Usable.issuer first') as ->
    by by destruct HS as [(? & ? & ->) _].
  destruct (TrustChain.evaluate ev pinned) as [chain|[]|]; cbn in Ho; try done.
  - destruct Ho as [Ho|(g0 & first & H & Hp & Hn)].
    + destruct H' as (Hg & Ha & _).
      destruct (tight_roots _ _ Ht first') as (r & [i Hi]%list_elem_of_lookup & Hr);
        [by eapply list_elem_of_lookup_2|].
      specialize (Ho i r Hi). destruct Hr as (Hr1 & Hr2 & _). unfold TrustChain.is_anchor in *.
      by rewrite Hr1, Hr2, Ho in Ha.
    + pose proof (the_anchor_tightens _ _ Ht _ _ _ _ H' H) as Hnar.
      assert (Usable.issuer first' = Usable.issuer first /\ linked_id first' = linked_id first)
        as [Hi Hd] by (destruct Hnar as (? & Hq & _); unfold linked_id; by rewrite Hq).
      rewrite Hi, Hd in Hl. destruct (rules_mono ev' ev Ht _ _ _ _ H' H) as (_ & _ & Ml & _).
      apply Hn. by eapply Ml.
  - destruct Ho as (g0 & first & H & Hn).
    by destruct (the_anchor_tightens _ _ Ht _ _ _ _ H' H) as (-> & _).
Qed.

Lemma window_bounds ev pinned chain k t :
  TrustChain.evaluate ev pinned = Ok chain -> TrustChain.custodian_at chain k t = true ->
  (exists r, r ∈ Evidence.roots ev /\ root_subject r = k
     /\ (window_of ev r).1 <= t
     /\ t < CommonFields.not_after_ms (TenantRootKeyGrantV2.common (Usable.payload r))
     /\ (forall at_ms, Usable.revoked_at_ms r = Some at_ms -> t < at_ms)
     /\ (forall at_ms, device_end ev (TenantRootKeyGrantV2.subject_device_id (Usable.payload r))
                       = Some at_ms -> t < at_ms))
  /\ (forall r, r ∈ Evidence.roots ev -> root_subject r = k ->
        t < (window_of ev r).1 + MAX_CUSTODIAN_KEY_AGE_MS)
  /\ (forall at_ms, Evidence.first_not_before ev !! k = Some at_ms ->
        t < at_ms + MAX_CUSTODIAN_KEY_AGE_MS).
Proof.
  intros (g0 & first & _ & _ & _ & S & HS & _)%evaluate_accepted (w & Hw & Ht)%existsb_elem.
  apply HS in Hw as (i & r & _ & Hr & <- & -> & _).
  apply list_elem_of_lookup_2 in Hr. unfold holds in Ht.
  assert (t < (window_of ev r).2) as Hna by lia. cbn [window_of snd] in Hna.
  assert (t < clip ev (root_subject r) + MAX_CUSTODIAN_KEY_AGE_MS) as Hclip
    by (unfold saturating_add, root_subject in *; lia).
  split_and!.
  - exists r. unfold end_of in Hna. split_and!; try done; [lia|lia|..];
      intros at_ms Hat; rewrite Hat in Hna; cbn [default from_option id] in Hna; lia.
  - intros r' Hr' Hk. eapply Z.lt_le_trans; [exact Hclip|].
    apply Z.add_le_mono_r. unfold clip. generalize (Evidence.first_not_before ev !! root_subject r).
    intros o. clear -Hr' Hk. induction Hr' as [|r1 r2 l _ IH]; cbn [omap list_omap].
    + rewrite bool_decide_true by done. cbn [foldr]. cbn [window_of fst]. lia.
    + specialize (IH Hk). case_bool_decide; [|done]. cbn [foldr]. lia.
  - intros at_ms Hat. eapply Z.lt_le_trans; [exact Hclip|]. apply Z.add_le_mono_r.
    unfold clip. rewrite Hat. cbn [default from_option id].
    induction (omap _ _) as [|x l IH]; cbn [foldr]; lia.
Qed.

(** ** The properties *)

(** C20. What [evaluate] returns, on every evidence set: it never panics and its loop
    never runs out of passes; it accepts exactly when there is one self-grant, it is
    the pinned one if one is pinned, and its own approval is derivable, and then the
    windows are those of exactly the derivable root grants; each refusal names the
    test that failed. *)
Theorem evaluate_outcome ev pinned : outcome ev pinned (TrustChain.evaluate ev pinned).
Proof. apply evaluate_spec. Qed.

(** C19. [evaluate] computes the least fixpoint of the rules: the chain it returns says
    that a key is a custodian, holds a capability or holds an approval covering a scope
    at a time exactly when that has a derivation from the anchor. *)
Theorem evaluate_least_fixpoint ev pinned chain g0 first :
  TrustChain.evaluate ev pinned = Ok chain -> the_anchor ev g0 first ->
  let A0 := Usable.issuer first in
  let D1 := linked_id first in
  (forall k t, TrustChain.custodian_at chain k t = true <-> CustodianAt ev g0 A0 D1 k t)
  /\ (forall k capability scope t,
        TrustChain.capability_at chain k capability scope t = true <->
        Capable ev g0 A0 D1 k capability scope t)
  /\ (forall k scope t,
        TrustChain.approval_valid_at chain k scope t = true <-> Approved ev g0 A0 D1 k scope t).
Proof.
  intros (g0' & first' & Hacc)%evaluate_accepted Hanchor. pose proof Hacc as (Ha & _).
  destruct (the_anchor_unique _ _ _ _ _ Ha Hanchor) as [-> ->].
  destruct (accepted_answers _ _ _ _ _ Hacc) as (? & ? & _ & ?). by split_and!.
Qed.

(** C21. Take accepted evidence that leaves containers out of other evidence, or adds
    revocation reports to it, with no clip later. The fuller evidence is accepted too and says
    everything the lesser says of custodians, capabilities, approvals and fleet key grants,
    unless it is refused for a second self-grant or for another pin: an omission takes
    answers away, and the one refusal it can lift is that of two anchors. *)
Theorem omission_only_tightens sha256 ev' ev pinned' pinned chain' :
  tightens ev' ev -> TrustChain.evaluate ev' pinned' = Ok chain' ->
  match TrustChain.evaluate ev pinned with
  | Ok chain =>
      (forall k t, TrustChain.custodian_at chain' k t = true ->
         TrustChain.custodian_at chain k t = true)
      /\ (forall k now, TrustChain.custodian_now chain' k now = true ->
            TrustChain.custodian_now chain k now = true)
      /\ (forall k capability scope t,
            TrustChain.capability_at chain' k capability scope t = true ->
            TrustChain.capability_at chain k capability scope t = true)
      /\ (forall k scope t, TrustChain.approval_valid_at chain' k scope t = true ->
            TrustChain.approval_valid_at chain k scope t = true)
      /\ (forall container to fleet_id generation now p,
            TrustChain.device_hpke_grant sha256 chain' container to fleet_id generation now = Some p ->
            TrustChain.device_hpke_grant sha256 chain container to fleet_id generation now = Some p)
  | Err ConflictingAnchors => two_anchors ev
  | Err AnchorMismatch => ~ pin_ok pinned (TrustChain.anchor chain')
  | Err _ | Crash _ => False
  end.
Proof.
  intros Ht (g0' & first' & H')%evaluate_accepted.
  pose proof (fuller_outcome ev' ev pinned' pinned g0' first' chain' Ht H') as Ho.
  destruct (TrustChain.evaluate ev pinned) as [chain|[]|] eqn:Hev; try exact Ho. clear Ho.
  apply evaluate_accepted in Hev as (g0 & first & H).
  destruct (answers_mono _ _ _ _ _ _ _ _ _ _ Ht H' H) as (Hc & Hk & Hv).
  pose proof (windows_mono _ _ _ _ _ _ _ _ _ _ Ht H' H) as Hw.
  split_and!; [done| |done|done|].
  - intros k now ([nb na] & Hin & Hn)%existsb_elem.
    destruct (Hw _ _ Hin) as ([nb2 na2] & Hin2 & He1 & He2). cbn [fst snd] in *. subst.
    apply existsb_elem. exists (nb, na2). split; [done|]. lia.
  - intros container to fleet_id generation now p. unfold TrustChain.device_hpke_grant.
    destruct (AuthorizationRecord.parse sha256 container) as [record| |]; [|done..].
    assert (TrustChain.evidence chain' = ev' /\ TrustChain.evidence chain = ev) as [He' He]
      by (split; [destruct H' as (_ & _ & _ & ? & [(? & ? & ->) _] & _)
                 |destruct H as (_ & _ & _ & ? & [(? & ? & ->) _] & _)]; done).
    unfold TrustChain.device_revoked. rewrite He', He.
    intros (g' & Hg' & Hp)%bind_Some.
    destruct (tight_device_grants _ _ Ht _ _ Hg') as (g & -> & Hi & Hpl & Hrev).
    cbn [mbind option_bind]. rewrite Hi, Hpl in Hp. match type of Hp with (if ?b then _ else _) = _ => destruct b eqn:Hcond; [|done] end.
    rewrite !andb_true_iff in Hcond. destruct_and! Hcond.
    pose proof (end_of_mono (DeviceHpkeGrantV2.common (Usable.payload g)) _ _ _ _ Hrev
      (tight_devices _ _ Ht (DeviceHpkeGrantV2.subject_device_id (Usable.payload g)))) as Hend.
    unfold device_end in Hend.
    match goal with |- (if ?b then _ else _) = _ => assert (b = true) as -> end; [|done].
    rewrite !andb_true_iff. split_and!; try done; [lia|by apply Hc|by apply Hv|by apply Hk].
Qed.

(** C23. A custodian's window is bounded whatever the evidence: it starts no earlier than
    a root grant naming the key, ends before that grant and before every report that
    revokes the grant or its device, and ends within [MAX_CUSTODIAN_KEY_AGE_MS] of the
    earliest root grant naming the key, and of the cached one. *)
Theorem custodian_bounds ev pinned chain k t :
  TrustChain.evaluate ev pinned = Ok chain -> TrustChain.custodian_at chain k t = true ->
  (exists r, r ∈ Evidence.roots ev /\ root_subject r = k
     /\ (window_of ev r).1 <= t
     /\ t < CommonFields.not_after_ms (TenantRootKeyGrantV2.common (Usable.payload r))
     /\ (forall at_ms, Usable.revoked_at_ms r = Some at_ms -> t < at_ms)
     /\ (forall at_ms, device_end ev (TenantRootKeyGrantV2.subject_device_id (Usable.payload r))
                       = Some at_ms -> t < at_ms))
  /\ (forall r, r ∈ Evidence.roots ev -> root_subject r = k ->
        t < (window_of ev r).1 + MAX_CUSTODIAN_KEY_AGE_MS)
  /\ (forall at_ms, Evidence.first_not_before ev !! k = Some at_ms ->
        t < at_ms + MAX_CUSTODIAN_KEY_AGE_MS).
Proof. apply window_bounds. Qed.

(** ** Witnesses

    [KA] is the anchor, [KB] a second custodian with two root grants. *)

Definition DAY : Z := 86400000.
Definition KA : KeyId := [Byte.x01].
Definition KB : KeyId := [Byte.x02].

Definition sample_terms (replay : byte) (issued not_before : Z) : CommonFields.t :=
  CommonFields.mk [replay] [Byte.x0a] issued not_before (9000 * DAY) [Byte.x0b] 0.

Definition sample_root (issuer subject : KeyId) (variant : RootGrantVariant.t) (approval : byte)
    (issued not_before : Z) (revoked : option Z) : Root :=
  Usable.mk issuer
    (TenantRootKeyGrantV2.mk (sample_terms Byte.x20 issued not_before) variant [] 0 [Byte.x0c]
       subject subject subject [approval] [] []) revoked.

Definition sample_approval (subject : KeyId) (replay : byte) : Approval :=
  Usable.mk KA
    (DeviceApprovalV2.mk (sample_terms replay 0 0) [Byte.x0c] subject subject subject
       ApprovalScopeKind.Tenant [Byte.x0a]) None.

Definition sample_approver : Grant :=
  Usable.mk KA
    (TenantCapabilityGrantV2.mk (sample_terms Byte.x30 0 0)
       (GrantSubject.Device [Byte.x0c] KA KA KA) CapabilityScopeKind.Tenant [Byte.x0a]
       Capability.DeviceApprove) None.

Definition sample_anchor : Root :=
  sample_root KA KA RootGrantVariant.FirstRootSelfGrant Byte.x21 0 0 None.
(** [KB]'s earliest root grant, perhaps reported revoked, and a later one. *)
Definition sample_early (revoked : option Z) : Root :=
  sample_root KA KB RootGrantVariant.ExistingRootGrant Byte.x22 10 10 revoked.
Definition sample_late : Root :=
  sample_root KA KB RootGrantVariant.ExistingRootGrant Byte.x22 10 (1000 * DAY) None.

Definition sample_evidence (roots : list Root) (cached : gmap KeyId Z) : Evidence.t :=
  Evidence.mk roots [sample_approval KA Byte.x21; sample_approval KB Byte.x22] [sample_approver]
    ∅ ∅ cached.
Definition sample_full : Evidence.t :=
  sample_evidence [sample_anchor; sample_early None; sample_late] ∅.
Definition sample_revoked : Evidence.t :=
  sample_evidence [sample_anchor; sample_early (Some (500 * DAY)); sample_late] ∅.
(** The earliest root grant of [KB] omitted. *)
Definition sample_omitted (cached : gmap KeyId Z) : Evidence.t :=
  sample_evidence [sample_anchor; sample_late] cached.

Section samples.
Context (roots : list Root) (cached : gmap KeyId Z).
Abbreviation ev := (sample_evidence (sample_anchor :: roots) cached).
Context (Hroots : Forall (fun r => TrustChain.is_anchor r = false) roots).
Context (Hclip : clip ev KA = 0).

Lemma sample_the_anchor : the_anchor ev 0 sample_anchor.
Proof.
  split_and!; [done..|]. intros [|i] r Hr Ha; [done|]. cbn in Hr.
  apply list_elem_of_lookup_2 in Hr. eapply Forall_forall in Hr; [|done]. by rewrite Hr in Ha.
Qed.

Lemma sample_linked_anchor : Linked ev 0 KA [Byte.x21] sample_anchor.
Proof.
  apply (linked_approval _ _ _ _ _ (sample_approval KA Byte.x21)); [by left|done|done| |].
  - unfold approval_in_force, device_end. cbn [Evidence.revoked_devices sample_evidence].
    by rewrite lookup_empty.
  - by apply allowed_anchor.
Qed.

Lemma sample_custodian_KA t : 0 <= t <= 10 -> CustodianAt ev 0 KA [Byte.x21] KA t.
Proof.
  intros Ht. apply (custodian_window _ _ _ _ 0 sample_anchor); [|done|].
  - by eapply counted_anchor; [|apply sample_linked_anchor].
  - unfold holds, window_of, device_end. change (TenantRootKeyGrantV2.subject_signing_key_id _)
      with KA. rewrite Hclip. cbn [Evidence.revoked_devices sample_evidence].
    rewrite lookup_empty. cbn -[Z.leb Z.ltb]. unfold end_of, saturating_add. cbn.
    unfold DAY, MAX_CUSTODIAN_KEY_AGE_MS, U64_MAX. lia.
Qed.

Lemma sample_custodian_KB i r t :
  (sample_anchor :: roots) !! i = Some r -> r = sample_late \/ (exists rev, r = sample_early rev) ->
  holds (window_of ev r) t = true -> CustodianAt ev 0 KA [Byte.x21] KB t.
Proof.
  intros Hi Hr Ht.
  assert (root_subject r = KB /\ root_issued r = 10 /\ Usable.issuer r = KA
    /\ TrustChain.is_first (TenantRootKeyGrantV2.variant (Usable.payload r)) = false
    /\ TrustChain.links (Usable.payload r) (Usable.payload (sample_approval KB Byte.x22)) = true)
    as (Hsub & Hiss & Hkey & Hv & Hlink) by (destruct Hr as [->|[rev ->]]; done).
  rewrite <- Hsub. eapply custodian_window; [|done..]. eapply counted_step; [done..| |].
  - rewrite Hkey, Hiss. by apply sample_custodian_KA.
  - apply (linked_approval _ _ _ _ _ (sample_approval KB Byte.x22)); [by right; left| |done| |].
    + by destruct Hr as [->|[rev ->]].
    + unfold approval_in_force, device_end. cbn [Evidence.revoked_devices sample_evidence].
      by rewrite lookup_empty, Hiss.
    + apply allowed_custodian; [by apply sample_custodian_KA|].
      apply (capable_grant _ _ _ _ _ _ _ _ sample_approver); [by left| |].
      * unfold grant_confers, device_end. cbn -[holds]. by rewrite lookup_empty.
      * by apply sample_custodian_KA.
Qed.

Lemma sample_evaluates :
  exists chain, TrustChain.evaluate ev (Some KA) = Ok chain
    /\ forall k t, TrustChain.custodian_at chain k t = true <-> CustodianAt ev 0 KA [Byte.x21] k t.
Proof.
  destruct (evaluate_some ev (Some KA) 0 sample_anchor) as [chain Hchain];
    [apply sample_the_anchor|by intros p [= <-]|apply sample_linked_anchor|].
  exists chain. split; [done|].
  destruct (evaluate_accepted _ _ _ Hchain) as (g0 & first & Hacc). pose proof Hacc as (Ha & _).
  destruct (the_anchor_unique _ _ _ _ _ Ha sample_the_anchor) as [-> ->].
  by destruct (accepted_answers _ _ _ _ _ Hacc).
Qed.

End samples.

Lemma sample_tightens : tightens sample_revoked sample_full.
Proof.
  split; [|intros x Hx; exists x; by split_and!|intros x Hx; exists x; by split_and!| |done|done].
  2: { intros h g' Hg. cbn in Hg. by rewrite lookup_empty in Hg. }
  intros r'. cbn. rewrite !elem_of_cons, elem_of_nil. intros [->|[->|[->|[]]]].
  - exists sample_anchor. split; [set_solver|by split_and!].
  - exists (sample_early None). split; [set_solver|by split_and!].
  - exists sample_late. split; [set_solver|by split_and!].
Qed.

Lemma sample_clip_full : clip sample_full KA = 0 /\ clip sample_full KB = 10.
Proof. split; vm_compute; reflexivity. Qed.
Lemma sample_clip_revoked : clip sample_revoked KA = 0 /\ clip sample_revoked KB = 10.
Proof. exact sample_clip_full. Qed.
Lemma sample_clip_omitted : clip (sample_omitted ∅) KA = 0.
Proof. vm_compute. reflexivity. Qed.
Lemma sample_no_anchor roots :
  (forall r, r ∈ roots -> r = sample_late \/ exists rev, r = sample_early rev) ->
  Forall (fun r => TrustChain.is_anchor r = false) roots.
Proof.
  intros H. apply Forall_forall. intros r [->|[rev ->]]%H; reflexivity.
Qed.

Lemma sample_roots_full : forall r, r ∈ [sample_early None; sample_late] ->
  r = sample_late \/ exists rev, r = sample_early rev.
Proof. set_solver. Qed.

(** Evaluation of each sample, and a day on which [KB] is a custodian of it. *)
Lemma sample_full_chain :
  exists chain, TrustChain.evaluate sample_full (Some KA) = Ok chain
    /\ TrustChain.custodian_at chain KB (400 * DAY) = true.
Proof.
  destruct (sample_evaluates [sample_early None; sample_late] ∅
    (sample_no_anchor _ sample_roots_full)) as (chain & He & Hc).
  exists chain. split; [done|]. apply Hc.
  apply (sample_custodian_KB _ _ (proj1 sample_clip_full) 1 (sample_early None)); [done|eauto|].
  vm_compute. reflexivity.
Qed.

Lemma sample_revoked_chain :
  exists chain, TrustChain.evaluate sample_revoked (Some KA) = Ok chain
    /\ TrustChain.custodian_at chain KB (400 * DAY) = true.
Proof.
  destruct (sample_evaluates [sample_early (Some (500 * DAY)); sample_late] ∅) as (chain & He & Hc);
    [apply sample_no_anchor; set_solver|].
  exists chain. split; [done|]. apply Hc.
  apply (sample_custodian_KB _ _ (proj1 sample_clip_revoked) 1 (sample_early (Some (500 * DAY))));
    [done|eauto|]. vm_compute. reflexivity.
Qed.

(** The clip hypothesis of [omission_only_tightens] is needed: without the earliest root
    grant of [KB], and with nothing cached, [KB] is a custodian on day 1100, when with it,
    or with its start cached, it is not. *)
Lemma omission_stretches_clip :
  (exists chain, TrustChain.evaluate (sample_omitted ∅) (Some KA) = Ok chain
     /\ TrustChain.custodian_at chain KB (1100 * DAY) = true)
  /\ (forall chain, TrustChain.evaluate sample_full (Some KA) = Ok chain ->
        TrustChain.custodian_at chain KB (1100 * DAY) = false)
  /\ (forall chain,
        TrustChain.evaluate (sample_omitted (lower KB 10 ∅)) (Some KA) = Ok chain ->
        TrustChain.custodian_at chain KB (1100 * DAY) = false).
Proof.
  split_and!.
  - destruct (sample_evaluates [sample_late] ∅) as (chain & He & Hc);
      [apply sample_no_anchor; set_solver|].
    exists chain. split; [done|]. apply Hc.
    apply (sample_custodian_KB [sample_late] ∅ sample_clip_omitted 1 sample_late); [done|eauto|].
    vm_compute. reflexivity.
  - intros chain He. apply not_true_is_false. intros Hc.
    destruct (window_bounds _ _ _ _ _ He Hc) as (_ & Hr & _).
    assert (1100 * DAY < 10 + MAX_CUSTODIAN_KEY_AGE_MS); [|done].
    by apply (Hr (sample_early None)); [right; left|].
  - intros chain He. apply not_true_is_false. intros Hc.
    destruct (window_bounds _ _ _ _ _ He Hc) as (_ & _ & Hcached).
    assert (1100 * DAY < 10 + MAX_CUSTODIAN_KEY_AGE_MS); [|done].
    apply Hcached. cbn [Evidence.first_not_before sample_omitted sample_evidence].
    by rewrite lower_lookup, decide_True, lookup_empty.
Qed.

(** A second self-grant beside the sample's. *)
Definition sample_rival : Root :=
  sample_root KB KB RootGrantVariant.FirstRootSelfGrant Byte.x22 10 10 None.
Definition sample_conflict : Evidence.t :=
  sample_evidence [sample_rival; sample_anchor; sample_early None; sample_late] ∅.

Lemma clip_others r roots cached k :
  root_subject r <> k ->
  clip (sample_evidence (r :: roots) cached) k = clip (sample_evidence roots cached) k.
Proof.
  intros H. unfold clip, sample_evidence. cbn [Evidence.roots Evidence.first_not_before].
  cbn [omap list_omap]. by case_bool_decide.
Qed.

(** An omission can lift a refusal: evidence with two usable self-grants is refused, and
    the same evidence without one of them is accepted and names custodians. *)
Lemma omission_lifts_conflict :
  TrustChain.evaluate sample_conflict (Some KA) = Err ConflictingAnchors
  /\ tightens sample_full sample_conflict
  /\ exists chain, TrustChain.evaluate sample_full (Some KA) = Ok chain
       /\ TrustChain.custodian_at chain KB (400 * DAY) = true.
Proof.
  split_and!; [by vm_compute| |exact sample_full_chain].
  split; [|intros x Hx; exists x; by split_and!|intros x Hx; exists x; by split_and!| |done|].
  - intros r Hr. exists r. split; [|by split_and!]. cbn in Hr |- *. set_solver.
  - intros h g' Hg. cbn in Hg. by rewrite lookup_empty in Hg.
  - intros k. destruct (decide (k = KB)) as [->|Hk]; [by vm_compute|].
    unfold sample_conflict. rewrite clip_others by by apply not_eq_sym. reflexivity.
Qed.

Lemma evaluate_least_fixpoint_witness :
  exists chain, TrustChain.evaluate sample_full (Some KA) = Ok chain
    /\ CustodianAt sample_full 0 KA [Byte.x21] KB (400 * DAY).
Proof.
  destruct sample_full_chain as (chain & He & Hc). exists chain. split; [exact He|].
  exact (proj1 (proj1 (evaluate_least_fixpoint sample_full (Some KA) chain 0 sample_anchor He
    (sample_the_anchor _ _ (sample_no_anchor _ sample_roots_full))) KB (400 * DAY)) Hc).
Defined.

Lemma omission_only_tightens_witness :
  exists chain' chain, TrustChain.evaluate sample_revoked (Some KA) = Ok chain'
    /\ TrustChain.custodian_at chain' KB (400 * DAY) = true
    /\ TrustChain.evaluate sample_full (Some KA) = Ok chain
    /\ TrustChain.custodian_at chain KB (400 * DAY) = true.
Proof.
  destruct sample_revoked_chain as (chain' & He' & Hc').
  destruct sample_full_chain as (chain & He & _).
  exists chain', chain. split; [exact He'|]. split; [exact Hc'|]. split; [exact He|].
  pose proof (omission_only_tightens toy_hash sample_revoked sample_full (Some KA) (Some KA)
    chain' sample_tightens He') as H.
  rewrite He in H. exact (proj1 H KB (400 * DAY) Hc').
Defined.

Lemma custodian_bounds_witness :
  exists chain, TrustChain.evaluate sample_full (Some KA) = Ok chain
    /\ exists r, r ∈ Evidence.roots sample_full /\ root_subject r = KB.
Proof.
  destruct sample_full_chain as (chain & He & Hc). exists chain. split; [exact He|].
  destruct (custodian_bounds sample_full (Some KA) chain KB (400 * DAY) He Hc)
    as [(r & Hr & Hk & _) _].
  exists r. split; [exact Hr|exact Hk].
Defined.
