(* ===== verification/TrustCollect.v ===== *)
(** * Collecting trust evidence (shared/src/trust_chain.rs)

    The theory of [Evidence.collect]: which listings it accepts, and that the
    evidence holds exactly the records of the listing that parse, verify under a
    listed key and name the binding, each with the earliest report of its
    revocation. *)

From Stdlib Require Import Strings.Byte.
From S2P Require Import Prelude Bytes Canonical CanonicalFacts CanonicalDecode CanonicalTheorems.
From S2P Require Import RecordFields WireMap Keys AuthzPayloads AuthzRecord.
From S2P Require Import TrustEvidence TrustChain TrustChainFacts.

Import TenantTrustEvidencePageV2.

Abbreviation Page := TenantTrustEvidencePageV2.t.

(** ** Listings *)

Section listing.
Context (sha256 : bytes -> bytes) (binding : Binding.t).

Definition page_ok (n i : Z) (page : Page) : Prop :=
  page_index page = i /\ tenant_id page = Binding.tenant_id binding
  /\ server_instance_id page = Binding.server_instance_id binding
  /\ (i + 1 < n -> next_cursor page <> []).

Definition containers_total (pages : list Page) : Z :=
  foldr (fun page n => blen (containers page) + n) 0 pages.

(** A complete, ordered listing for [binding], within the caps. *)
Definition listing_ok (pages : list Page) : Prop :=
  blen pages <= MAX_EVIDENCE_PAGES
  /\ (exists final, last pages = Some final /\ next_cursor final = [])
  /\ (forall i page, pages !! i = Some page -> page_ok (blen pages) (Z.of_nat i) page)
  /\ containers_total pages <= MAX_EVIDENCE_CONTAINERS.

(** What one page adds. *)
Definition absorb (st : Evidence.listing) (page : Page) : Evidence.listing :=
  Evidence.Listing
    (foldl (fun m pk => <[signing_key_id sha256 pk := pk]> m) (Evidence.keys st)
       (signing_public_keys page))
    (foldl (fun m r => lower (RevokedRecord.payload_domain r, RevokedRecord.replay_id r)
                         (RevokedRecord.revoked_at_ms r) m) (Evidence.revoked st)
       (revocations page))
    (foldl (fun m d => lower (RevokedDevice.device_id d) (RevokedDevice.revoked_at_ms d) m)
       (Evidence.devices st) (device_revocations page))
    (Evidence.total st + blen (containers page)).

Lemma read_page_ok n i page st ls :
  Evidence.read_page sha256 binding n i page st = Ok ls <->
  page_ok n i page /\ Evidence.total st + blen (containers page) <= MAX_EVIDENCE_CONTAINERS
  /\ ls = absorb st page.
Proof.
  unfold Evidence.read_page, page_ok. destruct (Z.eqb_spec (page_index page) i); cbn [negb];
    [|split; [done|naive_solver]].
  destruct (Z.ltb_spec (i + 1) n); case_bool_decide; cbn [andb negb];
    try (split; [done|naive_solver]);
    (do 2 case_bool_decide; cbn [andb negb]; try (split; [done|naive_solver]));
    (destruct (Z.ltb_spec MAX_EVIDENCE_CONTAINERS (Evidence.total st + blen (containers page)));
     [split; [done|intros (_ & ? & _); lia]|]);
    (split; [intros [= <-]; split_and!; try done; lia|by intros (_ & _ & ->)]).
Qed.

Lemma read_page_safe n i page st : safe (Evidence.read_page sha256 binding n i page st).
Proof. intros c. unfold Evidence.read_page. by repeat case_match. Qed.

Lemma containers_total_nonneg pages : 0 <= containers_total pages.
Proof.
  induction pages as [|p pages IH]; [done|].
  pose proof (blen_nonneg (containers p)). unfold containers_total in *. cbn [foldr]. lia.
Qed.

Lemma read_pages_ok n i pages st ls :
  0 <= Evidence.total st <= MAX_EVIDENCE_CONTAINERS ->
  Evidence.read_pages sha256 binding n i pages st = Ok ls <->
  (forall j page, pages !! j = Some page -> page_ok n (i + Z.of_nat j) page)
  /\ Evidence.total st + containers_total pages <= MAX_EVIDENCE_CONTAINERS
  /\ ls = foldl absorb st pages.
Proof.
  revert i st. induction pages as [|p pages IH]; intros i st Ht; cbn [Evidence.read_pages].
  { cbn [containers_total foldr foldl]. split.
    - intros [= <-]. split_and!; [|lia|done]. intros j page Hj. by rewrite lookup_nil in Hj.
    - by intros (_ & _ & ->). }
  rewrite result_bind_ok. setoid_rewrite read_page_ok. cbn [containers_total foldr foldl].
  fold (containers_total pages). pose proof (containers_total_nonneg pages).
  pose proof (blen_nonneg (containers p)).
  split.
  - intros (st' & (Hp & Hn & ->) & Hrest). apply IH in Hrest as (Hall & Htot & ->);
      [|cbn [absorb Evidence.total]; lia].
    cbn [absorb Evidence.total] in Htot. split_and!; [|lia|done].
    intros [|j] page Hj; [injection Hj as ->; by rewrite Z.add_0_r|].
    replace (i + Z.of_nat (S j)) with (i + 1 + Z.of_nat j) by lia. by apply Hall.
  - intros (Hall & Htot & ->). exists (absorb st p). split.
    + split_and!; [|lia|done]. rewrite <- (Z.add_0_r i). by apply (Hall 0%nat).
    + apply IH; cbn [absorb Evidence.total]; [lia|]. split_and!; [|lia|done].
      intros j page Hj. replace (i + 1 + Z.of_nat j) with (i + Z.of_nat (S j)) by lia.
      by apply Hall.
Qed.

Lemma read_pages_safe n i pages st : safe (Evidence.read_pages sha256 binding n i pages st).
Proof.
  revert i st. induction pages as [|p pages IH]; intros i st; [done|].
  apply safe_bind; [apply read_page_safe|]. intros st' _. apply IH.
Qed.

Context `{HE : !Ed25519}.

(** The evidence of an accepted listing. *)
Definition gathered (pages : list Page) : Evidence.t :=
  let ls := foldl absorb (Evidence.Listing ∅ ∅ ∅ 0) pages in
  (foldl (Evidence.keep sha256 binding ls) (∅, Evidence.mk [] [] [] ∅ (Evidence.devices ls) ∅)
     (List.flat_map containers pages)).2.

Lemma collect_ok pages ev :
  Evidence.collect sha256 binding pages = Ok ev <-> listing_ok pages /\ ev = gathered pages.
Proof.
  unfold Evidence.collect, listing_ok.
  destruct (Z.ltb_spec MAX_EVIDENCE_PAGES (blen pages)); [split; [done|intros [[? _] _]; lia]|].
  destruct (last pages) as [final|]; [|naive_solver].
  case_bool_decide as Hc; cbn [negb]; [|naive_solver].
  rewrite result_bind_ok. setoid_rewrite read_pages_ok; [|cbn; unfold MAX_EVIDENCE_CONTAINERS; lia].
  cbn [Evidence.total]. setoid_rewrite Z.add_0_l.
  split.
  - intros (ls & (Hall & Htot & ->) & [= <-]). split; [|done]. split_and!; [done|by eexists|done..].
  - intros ((_ & _ & Hall & Htot) & ->). eexists. split; [split_and!; done|done].
Qed.

Lemma collect_safe pages : safe (Evidence.collect sha256 binding pages).
Proof.
  unfold Evidence.collect. case_match; [done|]. case_match; [|done]. case_match; [done|].
  apply safe_bind; [apply read_pages_safe|done].
Qed.

End listing.

(** ** What an accepted listing says *)

(** The earliest of some reports. *)
Definition earliest (times : list Z) : option Z :=
  match times with
  | [] => None
  | _ => Some (foldr Z.min U64_MAX times)
  end.

Definition about `{EqDecision K} {R} (key_of : R -> K) (at_of : R -> Z) (k : K) (reports : list R)
    : list Z :=
  omap (fun r => if bool_decide (key_of r = k) then Some (at_of r) else None) reports.

Lemma earliest_snoc l x : earliest (l ++ [x]) = Some (Z.min (default U64_MAX (earliest l)) x).
Proof.
  assert (foldr Z.min U64_MAX (l ++ [x]) = Z.min (foldr Z.min U64_MAX l) x) as H.
  { induction l as [|y l IH]; cbn [foldr app]; [lia|]. rewrite IH. lia. }
  destruct l as [|y l]; [cbn; f_equal; lia|].
  change (Some (foldr Z.min U64_MAX ((y :: l) ++ [x]))
          = Some (Z.min (foldr Z.min U64_MAX (y :: l)) x)). by rewrite H.
Qed.

Lemma lower_reports `{Countable K} {R} (key_of : R -> K) (at_of : R -> Z) reports k :
  foldl (fun m r => lower (key_of r) (at_of r) m) ∅ reports !! k
  = earliest (about key_of at_of k reports).
Proof.
  induction reports as [|r l IH] using rev_ind; [cbn [foldl]; by rewrite lookup_empty|].
  rewrite foldl_app. cbn [foldl]. rewrite lower_lookup. unfold about in *.
  rewrite omap_app. cbn. case_decide; case_bool_decide; try done.
  - by rewrite earliest_snoc, IH.
  - by rewrite app_nil_r.
Qed.

Lemma foldl_flat_map {A B C} (f : A -> B -> A) (g : C -> list B) l a :
  foldl f a (List.flat_map g l) = foldl (fun a x => foldl f a (g x)) a l.
Proof.
  revert a. induction l as [|x l IH]; intros a; [done|]. cbn [List.flat_map foldl].
  by rewrite foldl_app, IH.
Qed.

Section records.
Context (sha256 : bytes -> bytes) (binding : Binding.t) `{HE : !Ed25519}.

Definition listed_keys (pages : list Page) : list bytes :=
  List.flat_map signing_public_keys pages.
Definition listed_containers (pages : list Page) : list bytes := List.flat_map containers pages.

Definition hash_of (s : AuthorizationRecord.t) : bytes :=
  AuthorizationRecord.signed_container_hash s.
Definition common_of (s : AuthorizationRecord.t) : CommonFields.t :=
  Payload.common (AuthorizationRecord.payload s).

(** A record of the listing that verifies under a listed key and names the binding. *)
Definition usable (pages : list Page) (s : AuthorizationRecord.t) : Prop :=
  (exists c, c ∈ listed_containers pages /\ AuthorizationRecord.parse sha256 c = Ok s)
  /\ names (common_of s) binding = true
  /\ exists pk, pk ∈ listed_keys pages
     /\ AuthorizationRecord.verify_signature sha256 s pk = Ok (AuthorizationRecord.Verified s).

(** The earliest report that a record, or a device, is revoked. *)
Definition reported (pages : list Page) (s : AuthorizationRecord.t) : option Z :=
  earliest (about (fun r => (RevokedRecord.payload_domain r, RevokedRecord.replay_id r))
              RevokedRecord.revoked_at_ms
              (AuthorizationRecord.payload_domain s, CommonFields.replay_id (common_of s))
              (List.flat_map revocations pages)).
Definition device_reported (pages : list Page) (d : bytes) : option Z :=
  earliest (about RevokedDevice.device_id RevokedDevice.revoked_at_ms d
              (List.flat_map device_revocations pages)).

(** [u] is the record [s], its payload of the kind [wrap], reported revoked at [rev]. *)
Definition from_record {T} (wrap : T -> Payload.t) (s : AuthorizationRecord.t) (rev : option Z)
    (u : Usable.t T) : Prop :=
  AuthorizationRecord.payload s = wrap (Usable.payload u)
  /\ Usable.issuer u = AuthorizationRecord.issuer_signing_key_id s
  /\ Usable.revoked_at_ms u = rev.

(** The record [s] is in the evidence, among those of its kind. *)
Definition held (ev : Evidence.t) (s : AuthorizationRecord.t) (rev : option Z) : Prop :=
  let issuer := AuthorizationRecord.issuer_signing_key_id s in
  match AuthorizationRecord.payload s with
  | Payload.TenantRootKeyGrant g => Usable.mk issuer g rev ∈ Evidence.roots ev
  | Payload.DeviceApproval a => Usable.mk issuer a rev ∈ Evidence.approvals ev
  | Payload.TenantCapabilityGrant g => Usable.mk issuer g rev ∈ Evidence.grants ev
  | Payload.DeviceHpkeGrant g =>
      Evidence.device_grants ev !! hash_of s = Some (Usable.mk issuer g rev)
  | _ => True
  end.

(** Everything in the evidence is a record [P] admits. *)
Definition all_from (P : AuthorizationRecord.t -> Prop)
    (rev : AuthorizationRecord.t -> option Z) (ev : Evidence.t) : Prop :=
  (forall u, u ∈ Evidence.roots ev ->
     exists s, P s /\ from_record Payload.TenantRootKeyGrant s (rev s) u)
  /\ (forall u, u ∈ Evidence.approvals ev ->
        exists s, P s /\ from_record Payload.DeviceApproval s (rev s) u)
  /\ (forall u, u ∈ Evidence.grants ev ->
        exists s, P s /\ from_record Payload.TenantCapabilityGrant s (rev s) u)
  /\ (forall h u, Evidence.device_grants ev !! h = Some u ->
        exists s, P s /\ hash_of s = h /\ from_record Payload.DeviceHpkeGrant s (rev s) u).

(** No two records of the listing share a container hash, no two keys an identifier. *)
Definition collision_free (pages : list Page) : Prop :=
  (forall c c' s s', c ∈ listed_containers pages -> c' ∈ listed_containers pages ->
     AuthorizationRecord.parse sha256 c = Ok s -> AuthorizationRecord.parse sha256 c' = Ok s' ->
     hash_of s = hash_of s' -> s = s')
  /\ (forall pk pk', pk ∈ listed_keys pages -> pk' ∈ listed_keys pages ->
        signing_key_id sha256 pk = signing_key_id sha256 pk' -> pk = pk').

(** ** The loop over containers *)

Definition revoked_in (ls : Evidence.listing) (s : AuthorizationRecord.t) : option Z :=
  Evidence.revoked ls !! (AuthorizationRecord.payload_domain s, CommonFields.replay_id (common_of s)).

(** The loop counts [s] when its issuer's key is listed and verifies it. *)
Definition counted_by (ls : Evidence.listing) (s : AuthorizationRecord.t) : Prop :=
  names (common_of s) binding = true
  /\ exists pk, Evidence.keys ls !! AuthorizationRecord.issuer_signing_key_id s = Some pk
     /\ AuthorizationRecord.verify_signature sha256 s pk = Ok (AuthorizationRecord.Verified s).

Lemma all_from_mono (P Q : AuthorizationRecord.t -> Prop) rev ev :
  (forall s, P s -> Q s) -> all_from P rev ev -> all_from Q rev ev.
Proof. intros H (H1 & H2 & H3 & H4). split_and!; naive_solver. Qed.

Lemma keep_payload_from P ls s ev :
  (names (common_of s) binding = true -> P s) -> all_from P (revoked_in ls) ev ->
  all_from P (revoked_in ls) (Evidence.keep_payload binding ls s ev).
Proof.
  intros HP (H1 & H2 & H3 & H4). unfold Evidence.keep_payload.
  unfold common_of in HP.
  assert (forall p, AuthorizationRecord.payload s = p -> revoked_in ls s
    = Evidence.revoked ls !! (AuthorizationRecord.payload_domain s,
                              CommonFields.replay_id (Payload.common p))) as Hrev
    by by intros p <-.
  destruct (AuthorizationRecord.payload s) as [p|p|p|p|p|p|p] eqn:Hp; try done;
    cbn [Payload.common] in HP;
    (destruct (names _ binding); [|done]); specialize (HP eq_refl); specialize (Hrev _ eq_refl);
    cbn [Payload.common] in Hrev; rewrite <- Hrev.
  - split_and!; try done. intros u [Hu| ->%list_elem_of_singleton]%elem_of_app; [by auto|].
    by exists s.
  - split_and!; try done. intros u [Hu| ->%list_elem_of_singleton]%elem_of_app; [by auto|].
    by exists s.
  - split_and!; try done. intros h u Hu. cbn in Hu. apply lookup_insert_Some in Hu as [[<- <-]|[_ Hu]]; [|by auto].
    by exists s.
  - split_and!; try done. intros u [Hu| ->%list_elem_of_singleton]%elem_of_app; [by auto|].
    by exists s.
Qed.

Lemma keep_payload_held ls s ev :
  names (common_of s) binding = true ->
  held (Evidence.keep_payload binding ls s ev) s (revoked_in ls s).
Proof.
  intros Hn. unfold held, Evidence.keep_payload, revoked_in. unfold common_of in *.
  destruct (AuthorizationRecord.payload s) as [p|p|p|p|p|p|p]; try done;
    cbn [Payload.common] in *; rewrite Hn; cbn.
  - apply elem_of_app. right. by apply list_elem_of_singleton.
  - apply elem_of_app. right. by apply list_elem_of_singleton.
  - by rewrite lookup_insert_eq.
  - apply elem_of_app. right. by apply list_elem_of_singleton.
Qed.

Lemma keep_payload_preserves ls s s' rev ev :
  hash_of s <> hash_of s' -> held ev s rev -> held (Evidence.keep_payload binding ls s' ev) s rev.
Proof.
  intros Hne. unfold held, Evidence.keep_payload.
  destruct (AuthorizationRecord.payload s') as [p|p|p|p|p|p|p]; try done;
    (destruct (names _ binding); [|done]);
    destruct (AuthorizationRecord.payload s) as [q|q|q|q|q|q|q]; try done; cbn;
    try (intros H; apply elem_of_app; by left).
  by rewrite lookup_insert_ne by done.
Qed.

(** A container of [cs] parsed to [s]. *)
Definition parsed (cs : list bytes) (s : AuthorizationRecord.t) : Prop :=
  exists c, c ∈ cs /\ AuthorizationRecord.parse sha256 c = Ok s.

(** The state of the loop after the containers [cs]. *)
Record kept (ls : Evidence.listing) (cs : list bytes) (st : gset bytes * Evidence.t) : Prop := {
  kept_from : all_from (fun s => parsed cs s /\ counted_by ls s) (revoked_in ls) st.2;
  kept_seen : forall s, parsed cs s -> hash_of s ∈ st.1;
  kept_held : forall h, h ∈ st.1 -> exists s, parsed cs s /\ hash_of s = h
    /\ (counted_by ls s -> held st.2 s (revoked_in ls s)) }.

Lemma verify_signature_same s pk v :
  AuthorizationRecord.verify_signature sha256 s pk = Ok v ->
  v = AuthorizationRecord.Verified s.
Proof. by intros [-> _]%record_verify. Qed.

Lemma parsed_app cs c s :
  parsed (cs ++ [c]) s <-> parsed cs s \/ AuthorizationRecord.parse sha256 c = Ok s.
Proof.
  unfold parsed. setoid_rewrite elem_of_app. setoid_rewrite list_elem_of_singleton. naive_solver.
Qed.

(** A container that adds nothing to the evidence. *)
Lemma kept_skip ls cs c seen seen' ev :
  kept ls cs (seen, ev) -> seen ⊆ seen' ->
  (forall s, AuthorizationRecord.parse sha256 c = Ok s -> hash_of s ∈ seen') ->
  (forall h, h ∈ seen' -> h ∈ seen \/ exists s, AuthorizationRecord.parse sha256 c = Ok s
     /\ hash_of s = h /\ ~ counted_by ls s) ->
  kept ls (cs ++ [c]) (seen', ev).
Proof.
  intros [H1 H2 H3] Hsub Hseen Hnew. cbn [fst snd] in *. split; cbn [fst snd].
  - eapply all_from_mono; [|exact H1]. intros s [Hs ?]. split; [|done]. apply parsed_app. by left.
  - intros s [Hs|Hs]%parsed_app; [by apply Hsub, H2|by apply Hseen].
  - intros h [(s & ? & ? & ?)%H3|(s & ? & ? & ?)]%Hnew; exists s; rewrite parsed_app;
      [by auto|]. split_and!; [by right|done|done].
Qed.

Lemma keep_kept ls cs st c :
  kept ls cs st -> kept ls (cs ++ [c]) (Evidence.keep sha256 binding ls st c).
Proof.
  destruct st as [seen ev]. intros Hk. unfold Evidence.keep.
  destruct (AuthorizationRecord.parse sha256 c) as [s|e|k] eqn:Hp;
    [|eapply kept_skip; [done|done|by rewrite Hp|by left]..].
  assert (forall s', AuthorizationRecord.parse sha256 c = Ok s' -> s' = s) as Hsame
    by (intros s'; rewrite Hp; by intros [= ->]).
  fold (hash_of s). case_bool_decide as Hin.
  { eapply kept_skip; [done|done|by intros s' ->%Hsame|by left]. }
  assert (~ counted_by ls s -> kept ls (cs ++ [c]) ({[hash_of s]} ∪ seen, ev)) as Hskip.
  { intros Hn. eapply kept_skip; [done|set_solver|intros s' ->%Hsame; set_solver|].
    intros h [->%elem_of_singleton|]%elem_of_union; [right; by exists s|by left]. }
  destruct (Evidence.keys ls !! _) as [pk|] eqn:Hkey.
  2: { apply Hskip. intros (_ & pk & Hkey' & _). by rewrite Hkey in Hkey'. }
  destruct (AuthorizationRecord.verify_signature sha256 s pk) as [v|e|k] eqn:Hv.
  2, 3: apply Hskip; intros (_ & pk' & Hkey' & Hv'); congruence.
  apply verify_signature_same in Hv as Hvs. subst v. cbn [AuthorizationRecord.record].
  assert (parsed (cs ++ [c]) s) as Hpar by (apply parsed_app; by right).
  assert (names (common_of s) binding = true -> counted_by ls s) as Hcount
    by (intros Hn; split; [done|]; by exists pk).
  destruct Hk as [H1 H2 H3]. cbn [fst snd] in *. split; cbn [fst snd].
  - apply keep_payload_from; [by auto|]. eapply all_from_mono; [|exact H1].
    intros s' [Hs' ?]. split; [|done]. apply parsed_app. by left.
  - intros s' [Hs'| ->%Hsame]%parsed_app; [|set_solver]. apply H2 in Hs'. set_solver.
  - intros h [->%elem_of_singleton|Hh]%elem_of_union.
    + exists s. split_and!; [done|done|]. intros [Hn _]. by apply keep_payload_held.
    + destruct (H3 h Hh) as (s' & Hs' & <- & Hheld). exists s'. split_and!; [|done|].
      * apply parsed_app. by left.
      * intros Hc. apply keep_payload_preserves; [|by apply Hheld]. intros Heq.
        by rewrite Heq in Hh.
Qed.

Lemma keep_all ls cs ev :
  Evidence.roots ev = [] -> Evidence.approvals ev = [] -> Evidence.grants ev = [] ->
  Evidence.device_grants ev = ∅ ->
  kept ls cs (foldl (Evidence.keep sha256 binding ls) (∅, ev) cs).
Proof.
  intros E1 E2 E3 E4. induction cs as [|c cs IH] using rev_ind.
  - cbn [foldl]. split; cbn [fst snd].
    + unfold all_from. rewrite E1, E2, E3, E4. split_and!; try (intros u Hu; by apply elem_of_nil in Hu).
      intros h u Hu. by rewrite lookup_empty in Hu.
    + intros s (c & Hc & _). by apply elem_of_nil in Hc.
    + set_solver.
  - rewrite foldl_app. cbn [foldl]. by apply keep_kept.
Qed.

(** ** The maps of the listing *)

Abbreviation start := (Evidence.Listing ∅ ∅ ∅ 0).

Lemma absorb_keys pages st :
  Evidence.keys (foldl (absorb sha256) st pages)
  = foldl (fun m pk => <[signing_key_id sha256 pk := pk]> m) (Evidence.keys st) (listed_keys pages).
Proof.
  unfold listed_keys. rewrite foldl_flat_map. revert st.
  induction pages as [|p pages IH]; intros st; [done|]. cbn [foldl]. by rewrite IH.
Qed.

Lemma absorb_reports pages st :
  Evidence.revoked (foldl (absorb sha256) st pages)
  = foldl (fun m r => lower (RevokedRecord.payload_domain r, RevokedRecord.replay_id r)
                        (RevokedRecord.revoked_at_ms r) m)
      (Evidence.revoked st) (List.flat_map revocations pages)
  /\ Evidence.devices (foldl (absorb sha256) st pages)
  = foldl (fun m d => lower (RevokedDevice.device_id d) (RevokedDevice.revoked_at_ms d) m)
      (Evidence.devices st) (List.flat_map device_revocations pages).
Proof.
  rewrite !foldl_flat_map. revert st.
  induction pages as [|p pages IH]; intros st; [done|]. cbn [foldl]. by destruct (IH (absorb sha256 st p)).
Qed.

Lemma absorb_revoked pages s :
  revoked_in (foldl (absorb sha256) start pages) s = reported pages s.
Proof.
  unfold revoked_in, reported. rewrite <- lower_reports.
  by rewrite (proj1 (absorb_reports pages start)).
Qed.

Lemma absorb_devices pages d :
  Evidence.devices (foldl (absorb sha256) start pages) !! d = device_reported pages d.
Proof.
  unfold device_reported. rewrite <- lower_reports.
  by rewrite (proj2 (absorb_reports pages start)).
Qed.

(** A key is found under its identifier only, and every listed key is found unless
    another one has its identifier. *)
Lemma listed_keys_lookup (l : list bytes) id :
  match (foldl (fun m pk => <[signing_key_id sha256 pk := pk]> m) ∅ l : gmap KeyId bytes) !! id with
  | Some pk => pk ∈ l /\ signing_key_id sha256 pk = id
  | None => forall pk, pk ∈ l -> signing_key_id sha256 pk <> id
  end.
Proof.
  induction l as [|pk l IH] using rev_ind; [cbn [foldl]; rewrite lookup_empty; set_solver|].
  rewrite foldl_app. cbn [foldl]. rewrite lookup_insert. case_decide as Hk; [set_solver|].
  case_match; set_solver.
Qed.

Lemma counted_usable pages s :
  parsed (listed_containers pages) s -> counted_by (foldl (absorb sha256) start pages) s ->
  usable pages s.
Proof.
  intros Hp (Hn & pk & Hkey & Hv). split_and!; [done|done|]. exists pk. split; [|done].
  rewrite absorb_keys in Hkey. cbn [Evidence.keys] in Hkey.
  pose proof (listed_keys_lookup (listed_keys pages)
    (AuthorizationRecord.issuer_signing_key_id s)) as H. by rewrite Hkey in H; destruct H.
Qed.

Lemma usable_counted pages s :
  collision_free pages -> usable pages s ->
  counted_by (foldl (absorb sha256) start pages) s.
Proof.
  intros [_ Hfree] (_ & Hn & pk & Hpk & Hv). split; [done|].
  pose proof Hv as (_ & Hid & _)%record_verify.
  rewrite absorb_keys. cbn [Evidence.keys].
  pose proof (listed_keys_lookup (listed_keys pages)
    (AuthorizationRecord.issuer_signing_key_id s)) as H.
  case_match; [|by destruct (H pk)]. destruct H as [Hin Hid'].
  eexists. split; [done|]. by rewrite (Hfree _ pk Hin Hpk) by by rewrite Hid, Hid'.
Qed.

Lemma keep_payload_base ls s ev :
  Evidence.revoked_devices (Evidence.keep_payload binding ls s ev) = Evidence.revoked_devices ev
  /\ Evidence.first_not_before (Evidence.keep_payload binding ls s ev)
     = Evidence.first_not_before ev.
Proof. unfold Evidence.keep_payload. by repeat case_match. Qed.

Lemma keep_base ls cs st :
  Evidence.revoked_devices (foldl (Evidence.keep sha256 binding ls) st cs).2
  = Evidence.revoked_devices st.2
  /\ Evidence.first_not_before (foldl (Evidence.keep sha256 binding ls) st cs).2
     = Evidence.first_not_before st.2.
Proof.
  revert st. induction cs as [|c cs IH]; intros [seen ev]; [done|]. cbn [foldl].
  destruct (IH (Evidence.keep sha256 binding ls (seen, ev) c)) as [-> ->].
  unfold Evidence.keep. repeat case_match; try done. apply keep_payload_base.
Qed.

End records.

(** ** The properties *)

(** [Evidence::collect] accepts exactly the complete, ordered listings of its binding
    within the caps: every page in its place, the last and only the last without a next
    cursor, at most [MAX_EVIDENCE_CONTAINERS] containers in all. It never panics,
    whatever bytes the containers hold: their parser and their signature check never
    do. *)
Theorem collect_accepts `{HE : !Ed25519} sha256 binding pages :
  ((exists ev, Evidence.collect sha256 binding pages = Ok ev) <-> listing_ok binding pages)
  /\ safe (Evidence.collect sha256 binding pages)
  /\ (forall c, safe (AuthorizationRecord.parse sha256 c))
  /\ (forall s pk, safe (AuthorizationRecord.verify_signature sha256 s pk)).
Proof.
  split_and!; [|apply collect_safe|apply record_parse_safe|intros; apply record_verify_safe].
  setoid_rewrite collect_ok. naive_solver.
Qed.

(** C22. The evidence is authentic and complete: everything in it is a record of the
    listing that parses, verifies under a listed key and names the binding, with the
    earliest report that it is revoked; and, no two containers or keys of the listing
    colliding, every such record of the four kinds is in it. Devices carry the earliest
    report about them, and nothing is cached. *)
Theorem collect_exact `{HE : !Ed25519} sha256 binding pages ev :
  Evidence.collect sha256 binding pages = Ok ev ->
  all_from (usable sha256 binding pages) (reported pages) ev
  /\ (collision_free sha256 pages -> forall s, usable sha256 binding pages s ->
        held ev s (reported pages s))
  /\ (forall d, Evidence.revoked_devices ev !! d = device_reported pages d)
  /\ Evidence.first_not_before ev = ∅.
Proof.
  intros [_ ->]%collect_ok. unfold gathered.
  set (ls := foldl (absorb sha256) _ pages).
  set (ev0 := Evidence.mk [] [] [] ∅ (Evidence.devices ls) ∅).
  pose proof (keep_all sha256 binding ls (listed_containers pages) ev0 eq_refl eq_refl eq_refl
    eq_refl) as [Hfrom Hseen Hheld].
  destruct (keep_base sha256 binding ls (listed_containers pages) (∅, ev0)) as [Hd Hf].
  unfold listed_containers in *. rewrite Hd, Hf. split_and!.
  - destruct Hfrom as (H1 & H2 & H3 & H4).
    assert (forall s, revoked_in ls s = reported pages s) as Hrev by apply absorb_revoked.
    split_and!; [intros u Hu; destruct (H1 u Hu) as (s & [] & Hs)
      |intros u Hu; destruct (H2 u Hu) as (s & [] & Hs)
      |intros u Hu; destruct (H3 u Hu) as (s & [] & Hs)
      |intros h u Hu; destruct (H4 h u Hu) as (s & [] & ? & Hs)];
      exists s; rewrite Hrev in Hs; split_and!; try done; by apply counted_usable.
  - intros Hfree s Hs. pose proof (usable_counted _ _ _ _ Hfree Hs) as Hc.
    destruct Hs as ((c & Hc1 & Hc2) & _).
    destruct (Hheld (hash_of s)) as (s' & (c' & Hc1' & Hc2') & Hh & H).
    { apply Hseen. by exists c. }
    assert (s' = s) as -> by by apply (proj1 Hfree c' c).
    rewrite <- (absorb_revoked sha256). by apply H.
  - intros d. apply absorb_devices.
  - done.
Qed.

(** ** Witness: a listing of one page with one self-grant *)

Definition sample_binding : Binding.t :=
  Binding.mk (CommonFields.server_instance_id sample_common) (CommonFields.tenant_id sample_common).
Definition sample_container : bytes :=
  AuthorizationRecord.exact_signed_container_bytes sample_signed.
Definition sample_page : Page :=
  TenantTrustEvidencePageV2.mk (Binding.server_instance_id sample_binding)
    (Binding.tenant_id sample_binding) 500 0 [] [ed_public sample_record_sk] [sample_container]
    [] [].

Lemma sample_listing_ok : listing_ok sample_binding [sample_page].
Proof.
  split_and!; [done|by exists sample_page| |done].
  intros [|[|i]] page Hi; [|done|done]. injection Hi as <-.
  split_and!; [done|done|done|]. unfold blen. cbn. lia.
Qed.

Lemma sample_container_parses : AuthorizationRecord.parse toy_hash sample_container = Ok sample_signed.
Proof.
  apply (record_parse_iff toy_hash toy_hash_length).
  exists sample_payload, sample_issuer, sample_signature.
  split_and!; [vm_compute; reflexivity|reflexivity|reflexivity|vm_compute; reflexivity
    |reflexivity|reflexivity].
Qed.

Lemma sample_usable : usable toy_hash sample_binding [sample_page] sample_signed.
Proof.
  split_and!; [|done|].
  - exists sample_container. split; [by left|exact sample_container_parses].
  - exists (ed_public sample_record_sk). split; [by left|].
    apply record_verify. split_and!; [done|done|vm_compute; reflexivity].
Qed.

Lemma sample_collision_free : collision_free toy_hash [sample_page].
Proof.
  split.
  - intros c c' s s' ->%list_elem_of_singleton ->%list_elem_of_singleton H1 H2 _. congruence.
  - by intros pk pk' ->%list_elem_of_singleton ->%list_elem_of_singleton _.
Qed.

Lemma collect_exact_witness :
  exists ev, Evidence.collect toy_hash sample_binding [sample_page] = Ok ev
    /\ Usable.mk sample_issuer sample_self_grant None ∈ Evidence.roots ev.
Proof.
  exists (gathered toy_hash sample_binding [sample_page]).
  assert (Evidence.collect toy_hash sample_binding [sample_page]
          = Ok (gathered toy_hash sample_binding [sample_page])) as Hc
    by (apply collect_ok; split; [exact sample_listing_ok|reflexivity]).
  split; [exact Hc|].
  exact (proj1 (proj2 (collect_exact toy_hash sample_binding [sample_page] _ Hc))
    sample_collision_free sample_signed sample_usable).
Defined.
