(* ===== verification/Mutation.v ===== *)
(** * Idempotent mutation requests and stored responses (shared/src/mutation.rs)

    The outer request and the stored response, each around one operation payload; the
    payload hash and the hash of the map itself are recomputed when it is parsed. *)

From S2P Require Import Prelude Bytes Canonical CanonicalFacts CanonicalDecode CanonicalTheorems.
From S2P Require Import RecordFields WireMap FleetLifecycle.

Definition DOMAIN_MUTATION_REQUEST := "shardx.sync.idempotent-mutation-request.v2".
Definition DOMAIN_STORED_RESPONSE := "shardx.sync.idempotent-stored-response.v2".
Definition L_REQUEST_HASH := nul_label "SHARDX-IDEMPOTENT-MUTATION-REQUEST-V2".
Definition L_RESPONSE_HASH := nul_label "SHARDX-IDEMPOTENT-STORED-RESPONSE-V2".
Definition MAX_OPERATION_PAYLOAD : Z := 262144.
Definition OUTCOME_SUCCEEDED := "succeeded".

#[export] Hint Unfold MAX_OPERATION_PAYLOAD : wire_unfold.

Module OperationKind.

Inductive t :=
| ProfilePublishCreate
| ProfileCheckout
| CreateUpload
| FinalizeUpload
| ReleaseLease
| LocalUnbind
| RootGenerationCreate
| RootGrantCreate
| RootGrantAck
| RootGenerationActivate
| RootGrantRevoke
| FleetGenerationCreate
| FleetGrantCreate
| FleetGrantAck
| FleetGenerationActivate
| FleetGrantRevoke
| DeviceRevoke.

#[global] Instance eq_dec : EqDecision t.
Proof. solve_decision. Defined.

Definition ALL : list t :=
  [ProfilePublishCreate; ProfileCheckout; CreateUpload; FinalizeUpload; ReleaseLease;
   LocalUnbind; RootGenerationCreate; RootGrantCreate; RootGrantAck; RootGenerationActivate;
   RootGrantRevoke; FleetGenerationCreate; FleetGrantCreate; FleetGrantAck;
   FleetGenerationActivate; FleetGrantRevoke; DeviceRevoke].

Definition names (x : t) : string * string :=
  match x with
  | ProfilePublishCreate => ("PROFILE_PUBLISH_CREATE", "profile.publish-create.v2")
  | ProfileCheckout => ("PROFILE_CHECKOUT", "profile.checkout.v2")
  | CreateUpload => ("CREATE_UPLOAD", "profile.create-upload.v2")
  | FinalizeUpload => ("FINALIZE_UPLOAD", "profile.finalize-upload.v2")
  | ReleaseLease => ("RELEASE_LEASE", "profile.release-lease.v2")
  | LocalUnbind => ("LOCAL_UNBIND", "local.profile.unbind.v2")
  | RootGenerationCreate => ("ROOT_GENERATION_CREATE", "tenant.root-generation-create.v2")
  | RootGrantCreate => ("ROOT_GRANT_CREATE", "tenant.root-grant-create.v2")
  | RootGrantAck => ("ROOT_GRANT_ACK", "tenant.root-grant-ack.v2")
  | RootGenerationActivate => ("ROOT_GENERATION_ACTIVATE", "tenant.root-generation-activate.v2")
  | RootGrantRevoke => ("ROOT_GRANT_REVOKE", "tenant.root-grant-revoke.v2")
  | FleetGenerationCreate => ("FLEET_GENERATION_CREATE", "fleet.key-generation-create.v2")
  | FleetGrantCreate => ("FLEET_GRANT_CREATE", "fleet.key-grant-create.v2")
  | FleetGrantAck => ("FLEET_GRANT_ACK", "fleet.key-grant-ack.v2")
  | FleetGenerationActivate => ("FLEET_GENERATION_ACTIVATE", "fleet.key-generation-activate.v2")
  | FleetGrantRevoke => ("FLEET_GRANT_REVOKE", "fleet.key-grant-revoke.v2")
  | DeviceRevoke => ("DEVICE_REVOKE", "device.revoke.v2")
  end.

Definition as_str (x : t) : string := (names x).1.
Definition scope (x : t) : string := (names x).2.
#[global] Arguments as_str : simpl never.
#[global] Arguments scope : simpl never.

Definition parse (s : string) : option t := find_str as_str ALL s.
#[global] Hint Unfold parse : wire_unfold.

Lemma operation_kind_find (x : t) (e : RecordError) :
  ok_or (find_str as_str ALL (as_str x)) e = Ok x.
Proof. by destruct x. Qed.
#[global] Hint Resolve operation_kind_find : wire_find.

(** A kind is named by its scope too. *)
Lemma scope_inj x y : scope x = scope y -> x = y.
Proof. by destruct x, y. Qed.

End OperationKind.

(** Takes the kind and scope, which must name each other. *)
Definition take_kind : fields OperationKind.t :=
  s ← Fields.text "operation_kind";
  kind ← lift (ok_or (OperationKind.parse s) (BadValue "operation_kind"));
  _ ← Fields.exact_text "operation_scope" (OperationKind.scope kind);
  mret kind.

#[export] Hint Unfold take_kind : wire_unfold.

Module IdempotentMutationRequestV2.

Record t := mk {
  operation_kind : OperationKind.t;
  idempotency_key : bytes;
  canonical_payload_bytes : bytes;
  client_request_nonce : bytes;
  server_instance_id : bytes;
  restore_epoch : Z }.

Definition core (sha256 : bytes -> bytes) (x : t) : list (string * Value) :=
  [("domain", c.t DOMAIN_MUTATION_REQUEST); ("version", c.u VERSION);
   ("operation_kind", c.t (OperationKind.as_str (operation_kind x)));
   ("operation_scope", c.t (OperationKind.scope (operation_kind x)));
   ("idempotency_key", c.b (idempotency_key x));
   ("canonical_payload_bytes", c.b (canonical_payload_bytes x));
   ("payload_sha256", c.b (sha256 (canonical_payload_bytes x)));
   ("client_request_nonce", c.b (client_request_nonce x));
   ("server_instance_id", c.b (server_instance_id x)); ("restore_epoch", c.u (restore_epoch x))].

Definition canonical_request_hash (sha256 : bytes -> bytes) (x : t) : bytes :=
  domain_hash sha256 L_REQUEST_HASH (Canonical.encode (c.m (core sha256 x))).
#[global] Arguments canonical_request_hash : simpl never.
#[global] Hint Unfold core : wire_unfold.

Definition parser (sha256 : bytes -> bytes) : fields t :=
  _ ← exact_version DOMAIN_MUTATION_REQUEST;
  operation_kind ← take_kind;
  idempotency_key ← Fields.fixed 16 "idempotency_key";
  canonical_payload_bytes ← Fields.bytes "canonical_payload_bytes" 1 MAX_OPERATION_PAYLOAD;
  payload_sha256 ← Fields.fixed 32 "payload_sha256";
  client_request_nonce ← Fields.fixed 16 "client_request_nonce";
  server_instance_id ← Fields.fixed 16 "server_instance_id";
  restore_epoch ← Fields.uint "restore_epoch";
  request_hash ← Fields.fixed 32 "canonical_request_hash";
  _ ← Fields.finish;
  _ ← fail_if (negb (bool_decide (payload_sha256 = sha256 canonical_payload_bytes)))
        PayloadHashMismatch;
  let req := mk operation_kind idempotency_key canonical_payload_bytes client_request_nonce server_instance_id restore_epoch in
  _ ← fail_if (negb (bool_decide (request_hash = canonical_request_hash sha256 req)))
        (BadValue "canonical_request_hash");
  mret req.

Definition parse (sha256 : bytes -> bytes) : bytes -> result RecordError t :=
  parse_map "IdempotentMutationRequestV2" (parser sha256).

Definition put (sha256 : bytes -> bytes) (x : t) : list (string * Value) :=
  core sha256 x ++ [("canonical_request_hash", c.b (canonical_request_hash sha256 x))].

Definition encode (sha256 : bytes -> bytes) (x : t) : bytes := Canonical.encode (c.m (put sha256 x)).

Definition wf (sha256 : bytes -> bytes) (x : t) : bool :=
  (blen (idempotency_key x) =? 16)
  && (1 <=? blen (canonical_payload_bytes x)) && (blen (canonical_payload_bytes x) <=? MAX_OPERATION_PAYLOAD)
  && (blen (client_request_nonce x) =? 16) && (blen (server_instance_id x) =? 16)
  && (blen (sha256 (canonical_payload_bytes x)) =? 32)
  && (blen (canonical_request_hash sha256 x) =? 32).

#[global] Hint Unfold put wf : wire_unfold.

#[global] Instance wire (sha256 : bytes -> bytes) : WireMap "IdempotentMutationRequestV2" (parser sha256) (put sha256) (wf sha256).
Proof. wire_map ltac:(fun x => destruct x as [? ? ? ? ? ?]). Qed.

Lemma IdempotentMutationRequestV2_exact (sha256 : bytes -> bytes) :
  exact_map (parse sha256) (encode sha256) (record_ok (put sha256) (wf sha256)).
Proof. intros payload x. exact (wire_map_exact _ _ _ _ payload x). Qed.

End IdempotentMutationRequestV2.

Module IdempotentStoredResponseV2.

Record t := mk {
  operation_kind : OperationKind.t;
  idempotency_key : bytes;
  exact_request_hash : bytes;
  response_record_type : string;
  canonical_response_payload_bytes : bytes;
  server_instance_id : bytes;
  restore_epoch : Z;
  committed_at_ms : Z;
  receipt_id : bytes }.

Definition core (sha256 : bytes -> bytes) (x : t) : list (string * Value) :=
  [("domain", c.t DOMAIN_STORED_RESPONSE); ("version", c.u VERSION);
   ("operation_kind", c.t (OperationKind.as_str (operation_kind x)));
   ("operation_scope", c.t (OperationKind.scope (operation_kind x)));
   ("idempotency_key", c.b (idempotency_key x));
   ("exact_request_hash", c.b (exact_request_hash x));
   ("response_record_type", c.t (response_record_type x));
   ("canonical_response_payload_bytes", c.b (canonical_response_payload_bytes x));
   ("response_payload_sha256", c.b (sha256 (canonical_response_payload_bytes x)));
   ("outcome", c.t OUTCOME_SUCCEEDED); ("server_instance_id", c.b (server_instance_id x));
   ("restore_epoch", c.u (restore_epoch x)); ("committed_at_ms", c.u (committed_at_ms x));
   ("receipt_id", c.b (receipt_id x))].

Definition stored_response_hash (sha256 : bytes -> bytes) (x : t) : bytes :=
  domain_hash sha256 L_RESPONSE_HASH (Canonical.encode (c.m (core sha256 x))).
#[global] Arguments stored_response_hash : simpl never.
#[global] Hint Unfold core : wire_unfold.

Definition parser (sha256 : bytes -> bytes) : fields t :=
  _ ← exact_version DOMAIN_STORED_RESPONSE;
  operation_kind ← take_kind;
  idempotency_key ← Fields.fixed 16 "idempotency_key";
  exact_request_hash ← Fields.fixed 32 "exact_request_hash";
  response_record_type ← Fields.text "response_record_type";
  canonical_response_payload_bytes ← Fields.bytes "canonical_response_payload_bytes" 1 MAX_OPERATION_PAYLOAD;
  payload_sha256 ← Fields.fixed 32 "response_payload_sha256";
  _ ← Fields.exact_text "outcome" OUTCOME_SUCCEEDED;
  server_instance_id ← Fields.fixed 16 "server_instance_id";
  restore_epoch ← Fields.uint "restore_epoch";
  committed_at_ms ← Fields.uint "committed_at_ms";
  receipt_id ← Fields.fixed 16 "receipt_id";
  response_hash ← Fields.fixed 32 "stored_response_hash";
  _ ← Fields.finish;
  let n := blen (as_bytes response_record_type) in
  _ ← fail_if (negb ((1 <=? n) && (n <=? 128)))
        (BadField "IdempotentStoredResponseV2" "response_record_type");
  _ ← fail_if (negb (bool_decide (payload_sha256 = sha256 canonical_response_payload_bytes)))
        PayloadHashMismatch;
  let resp := mk operation_kind idempotency_key exact_request_hash response_record_type canonical_response_payload_bytes
                server_instance_id restore_epoch committed_at_ms receipt_id in
  _ ← fail_if (negb (bool_decide (response_hash = stored_response_hash sha256 resp)))
        (BadValue "stored_response_hash");
  mret resp.

Definition parse (sha256 : bytes -> bytes) : bytes -> result RecordError t :=
  parse_map "IdempotentStoredResponseV2" (parser sha256).

Definition put (sha256 : bytes -> bytes) (x : t) : list (string * Value) :=
  core sha256 x ++ [("stored_response_hash", c.b (stored_response_hash sha256 x))].

Definition encode (sha256 : bytes -> bytes) (x : t) : bytes := Canonical.encode (c.m (put sha256 x)).

Definition wf (sha256 : bytes -> bytes) (x : t) : bool :=
  (blen (idempotency_key x) =? 16) && (blen (exact_request_hash x) =? 32)
  && (1 <=? blen (canonical_response_payload_bytes x)) && (blen (canonical_response_payload_bytes x) <=? MAX_OPERATION_PAYLOAD)
  && (blen (server_instance_id x) =? 16) && (blen (receipt_id x) =? 16)
  && (1 <=? blen (as_bytes (response_record_type x)))
  && (blen (as_bytes (response_record_type x)) <=? 128)
  && (blen (sha256 (canonical_response_payload_bytes x)) =? 32)
  && (blen (stored_response_hash sha256 x) =? 32).

#[global] Hint Unfold put wf : wire_unfold.

#[global] Instance wire (sha256 : bytes -> bytes) : WireMap "IdempotentStoredResponseV2" (parser sha256) (put sha256) (wf sha256).
Proof. wire_map ltac:(fun x => destruct x as [? ? ? ? ? ? ? ? ?]). Qed.

Lemma IdempotentStoredResponseV2_exact (sha256 : bytes -> bytes) :
  exact_map (parse sha256) (encode sha256) (record_ok (put sha256) (wf sha256)).
Proof. intros payload x. exact (wire_map_exact _ _ _ _ payload x). Qed.

End IdempotentStoredResponseV2.


(** ** The properties *)

Module Request := IdempotentMutationRequestV2.
Module Response := IdempotentStoredResponseV2.

(** The entries whose hash names the request, and the bytes hashed. *)
Definition request_preimage (sha256 : bytes -> bytes) (x : Request.t) : bytes :=
  domain_preimage L_REQUEST_HASH (encode (c.m (Request.core sha256 x))).
Definition response_preimage (sha256 : bytes -> bytes) (x : Response.t) : bytes :=
  domain_preimage L_RESPONSE_HASH (encode (c.m (Response.core sha256 x))).

Lemma request_core_size sha256 x :
  record_ok (Request.put sha256) (Request.wf sha256) x = true ->
  blen (encode (c.m (Request.core sha256 x))) <= USIZE_MAX.
Proof.
  intros [_ H]%andb_true_iff. etrans; [apply encode_size|]. unfold USIZE_MAX, U64_MAX.
  destruct x as [k ? ? ? ? ?]. unfold Request.core, Request.wf in *.
  assert (blen (as_bytes (OperationKind.as_str k)) <= 64
          /\ blen (as_bytes (OperationKind.scope k)) <= 64) as [? ?] by by destruct k.
  autounfold with wire_unfold in *. cbn -[Z.leb Z.ltb Z.eqb blen as_bytes] in H. wire_facts.
  cbn -[Z.add Z.mul blen as_bytes].
  set (n := blen (as_bytes (OperationKind.as_str k))) in *. clearbody n.
  set (m := blen (as_bytes (OperationKind.scope k))) in *. clearbody m. eval_lengths. lia.
Qed.

Lemma response_core_size sha256 x :
  record_ok (Response.put sha256) (Response.wf sha256) x = true ->
  blen (encode (c.m (Response.core sha256 x))) <= USIZE_MAX.
Proof.
  intros [_ H]%andb_true_iff. etrans; [apply encode_size|]. unfold USIZE_MAX, U64_MAX.
  destruct x as [k ? ? ty ? ? ? ? ?]. unfold Response.core, Response.wf in *.
  assert (blen (as_bytes (OperationKind.as_str k)) <= 64
          /\ blen (as_bytes (OperationKind.scope k)) <= 64) as [? ?] by by destruct k.
  autounfold with wire_unfold in *. cbn -[Z.leb Z.ltb Z.eqb blen as_bytes] in H. wire_facts.
  cbn -[Z.add Z.mul blen as_bytes].
  set (n := blen (as_bytes (OperationKind.as_str k))) in *. clearbody n.
  set (m := blen (as_bytes (OperationKind.scope k))) in *. clearbody m.
  set (l := blen (as_bytes ty)) in *. clearbody l. eval_lengths. lia.
Qed.

(** The outer request and the stored response are exact: each parser accepts exactly
    the encodings of the records within the map's rules, with the kind and its scope
    naming each other, the payload's hash and the map's own hash as recomputed. *)
Theorem mutation_maps_exact sha256 :
  exact_map (Request.parse sha256) (Request.encode sha256)
    (record_ok (Request.put sha256) (Request.wf sha256))
  /\ exact_map (Response.parse sha256) (Response.encode sha256)
    (record_ok (Response.put sha256) (Response.wf sha256)).
Proof. split; intros payload x; exact (wire_map_exact _ _ _ _ payload x). Qed.

(** A request hash names one request and a response hash one response: two
    well-formed requests (responses) with one hash are equal, operation, payload and
    idempotency key included, or SHA-256 maps their two different preimages to one
    value. A stored response, which names its request by that hash, is a receipt for it. *)
Theorem mutation_hashes_bind sha256 :
  (forall x y,
     record_ok (Request.put sha256) (Request.wf sha256) x = true ->
     record_ok (Request.put sha256) (Request.wf sha256) y = true ->
     Request.canonical_request_hash sha256 x = Request.canonical_request_hash sha256 y ->
     x = y \/ (request_preimage sha256 x <> request_preimage sha256 y
               /\ sha256 (request_preimage sha256 x) = sha256 (request_preimage sha256 y)))
  /\ (forall x y,
     record_ok (Response.put sha256) (Response.wf sha256) x = true ->
     record_ok (Response.put sha256) (Response.wf sha256) y = true ->
     Response.stored_response_hash sha256 x = Response.stored_response_hash sha256 y ->
     x = y \/ (response_preimage sha256 x <> response_preimage sha256 y
               /\ sha256 (response_preimage sha256 x) = sha256 (response_preimage sha256 y))).
Proof.
  split; intros x y Hx Hy Hh.
  - apply (hashed_map_binds _ _ _ _ sha256 L_REQUEST_HASH (Request.core sha256)
      "canonical_request_hash" x y); try done.
    by apply request_core_size.
  - apply (hashed_map_binds _ _ _ _ sha256 L_RESPONSE_HASH (Response.core sha256)
      "stored_response_hash" x y); try done.
    by apply response_core_size.
Qed.
