(* ===== verification/GrantSet.v ===== *)
(** * Grant set hashes (shared/src/mutation.rs)

    [root_custodian_grant_set_hash] and [fleet_device_grant_set_hash]: the domain hash
    of a set of container hashes, sorted and concatenated. *)

From Stdlib Require Import Strings.Byte.
From S2P Require Import Prelude Bytes Canonical CanonicalFacts CanonicalDecode CanonicalTheorems.
From S2P Require Import RecordFields.

Definition L_ROOT_CUSTODIAN_SET := nul_label "SHARDX-ROOT-CUSTODIAN-GRANT-SET-V2".
Definition L_FLEET_DEVICE_SET := nul_label "SHARDX-FLEET-DEVICE-GRANT-SET-V2".

(** [sort_unstable] on [[u8; 32]]: equal members are indistinguishable. *)
Fixpoint insert_sorted (x : bytes) (l : list bytes) : list bytes :=
  match l with
  | [] => [x]
  | y :: l' =>
      match bytes_cmp x y with
      | Gt => y :: insert_sorted x l'
      | _ => x :: l
      end
  end.
Definition sort_unstable (l : list bytes) : list bytes := foldr insert_sorted [] l.

(** [Vec::dedup]: drops an element equal to the one kept before it. *)
Fixpoint dedup (l : list bytes) : list bytes :=
  match l with
  | [] => []
  | x :: l' =>
      match dedup l' with
      | [] => [x]
      | y :: l'' => if bool_decide (x = y) then y :: l'' else x :: y :: l''
      end
  end.

Section sets.
Context (sha256 : bytes -> bytes).

Definition grant_set_hash (label : string) (members : list bytes) : option bytes :=
  let sorted := dedup (sort_unstable members) in
  if bool_decide (sorted = []) || negb (blen sorted =? blen members) then None
  else Some (domain_hash sha256 label (concat sorted)).

Definition root_custodian_grant_set_hash (members : list bytes) : option bytes :=
  grant_set_hash L_ROOT_CUSTODIAN_SET members.
Definition fleet_device_grant_set_hash (members : list bytes) : option bytes :=
  grant_set_hash L_FLEET_DEVICE_SET members.

End sets.

(** ** The sorted set *)

Definition bytes_le (x y : bytes) : Prop := bytes_cmp x y <> Gt.

#[export] Instance bytes_le_antisym : AntiSymm eq bytes_le.
Proof.
  intros x y Hxy Hyx. apply bytes_cmp_eq. unfold bytes_le in *.
  rewrite bytes_cmp_antisym in Hyx. by destruct (bytes_cmp x y).
Qed.

Lemma bytes_le_lt x y : bytes_le x y <-> x = y \/ bytes_lt x y.
Proof.
  unfold bytes_le, bytes_lt. rewrite <- bytes_cmp_eq. destruct (bytes_cmp x y); naive_solver.
Qed.

#[export] Instance bytes_le_trans : Transitive bytes_le.
Proof.
  intros x y z [->|Hxy]%bytes_le_lt; [done|]. rewrite !bytes_le_lt.
  intros [<-|Hyz]; right; [done|by trans y].
Qed.

Lemma insert_sorted_perm x l : insert_sorted x l ≡ₚ x :: l.
Proof.
  induction l as [|y l IH]; cbn; [done|]. case_match; [done..|]. rewrite IH. apply perm_swap.
Qed.

Lemma sort_unstable_perm l : sort_unstable l ≡ₚ l.
Proof. induction l as [|x l IH]; cbn; [done|]. by rewrite insert_sorted_perm, IH. Qed.

Lemma insert_sorted_sorted x l :
  StronglySorted bytes_le l -> StronglySorted bytes_le (insert_sorted x l).
Proof.
  induction 1 as [|y l Hl IH Hy]; cbn; [by repeat constructor|].
  destruct (bytes_cmp x y) eqn:E.
  1, 2: assert (bytes_le x y) as Hxy by (unfold bytes_le; by rewrite E);
    constructor; [by constructor|]; constructor; [done|];
    (eapply Forall_impl; [exact Hy|]); intros z; by trans y.
  constructor; [done|]. rewrite insert_sorted_perm. constructor; [|done].
  apply bytes_le_lt. right. by apply bytes_cmp_gt.
Qed.

Lemma sort_unstable_sorted l : StronglySorted bytes_le (sort_unstable l).
Proof. induction l; cbn; [constructor|by apply insert_sorted_sorted]. Qed.

Lemma sort_unstable_ext l k : l ≡ₚ k -> sort_unstable l = sort_unstable k.
Proof.
  intros H. apply (StronglySorted_unique bytes_le); try apply sort_unstable_sorted.
  by rewrite !sort_unstable_perm.
Qed.

Lemma dedup_head x l : exists l', dedup (x :: l) = x :: l'.
Proof.
  cbn. destruct (dedup l) as [|y l']; [by eexists|]. case_bool_decide; subst; by eexists.
Qed.

Lemma dedup_length l : (length (dedup l) <= length l)%nat.
Proof.
  induction l as [|x l IH]; cbn; [done|]. destruct (dedup l); cbn in *; [lia|].
  case_bool_decide; cbn; lia.
Qed.

(** On a sorted list [dedup] drops something exactly when there is a duplicate. *)
Lemma dedup_sorted l :
  StronglySorted bytes_le l -> length (dedup l) = length l <-> NoDup l.
Proof.
  induction 1 as [|x l Hl IH Hx]; [split; [constructor|done]|].
  destruct l as [|y l]; [split; [intros _; apply NoDup_singleton|done]|].
  destruct (dedup_head y l) as [l' Hl'].
  change (dedup (x :: y :: l)) with (match dedup (y :: l) with
    | [] => [x] | z :: l'' => if bool_decide (x = z) then z :: l'' else x :: z :: l'' end).
  pose proof (dedup_length (y :: l)) as Hlen. rewrite Hl' in *. rewrite NoDup_cons, <- IH.
  case_bool_decide as Hxy.
  - subst. cbn [length] in *. split; [lia|]. intros [Hn _]. destruct Hn. by left.
  - cbn [length] in *. split; [|lia]. intros Heq. split; [|lia].
    intros Hin. apply elem_of_cons in Hin as [->|Hin]; [done|].
    inversion Hl as [|? ? _ Hy]; subst. eapply Forall_forall in Hy; [|done].
    inversion Hx as [|? ? Hxy' _]; subst. by apply Hxy, (anti_symm bytes_le).
Qed.

Lemma dedup_nodup l : NoDup l -> dedup l = l.
Proof.
  induction 1 as [|x l Hx _ IH]; [done|]. cbn. rewrite IH. destruct l as [|y l]; [done|].
  rewrite bool_decide_false; [done|]. intros ->. apply Hx. by left.
Qed.

(** The hash is that of the set: of its members in order, when there is one and none
    is repeated. *)
Lemma grant_set_hash_some sha256 label members h :
  grant_set_hash sha256 label members = Some h <->
  members <> [] /\ NoDup members
  /\ h = domain_hash sha256 label (concat (sort_unstable members)).
Proof.
  unfold grant_set_hash, blen. pose proof (sort_unstable_perm members) as Hp.
  assert (NoDup (sort_unstable members) <-> NoDup members) as Hnd by by rewrite Hp.
  pose proof (dedup_sorted _ (sort_unstable_sorted members)) as Hd.
  rewrite Hnd, (Permutation_length Hp) in Hd.
  destruct (decide (NoDup members)) as [Hn|Hn].
  - rewrite dedup_nodup by by apply Hnd. rewrite (Permutation_length Hp), Z.eqb_refl.
    cbn [negb]. rewrite orb_false_r. case_bool_decide as He.
    + rewrite He in Hp. apply Permutation_nil_l in Hp. naive_solver.
    + split; [intros [= <-]; split_and!; [|done|done]|by intros (_ & _ & ->)].
      intros ->. done.
  - rewrite (proj2 (Z.eqb_neq _ _)) by (intros H; apply Hn, Hd; lia).
    cbn [negb]. rewrite orb_true_r. naive_solver.
Qed.

Lemma concat_inj (n : nat) (l k : list bytes) :
  (0 < n)%nat -> Forall (fun b => length b = n) l -> Forall (fun b => length b = n) k ->
  concat l = concat k -> l = k.
Proof.
  intros Hn Hl. revert k. induction Hl as [|x l Hx _ IH]; intros k Hk; destruct Hk as [|y k Hy Hk];
    cbn [concat]; intros H; [done|..].
  - apply (f_equal length) in H. rewrite length_app in H. cbn in H. lia.
  - apply (f_equal length) in H. rewrite length_app in H. cbn in H. lia.
  - apply app_inj_1 in H as [-> H]; [|by rewrite Hx, Hy]. f_equal. by apply IH.
Qed.

(** ** The property *)

(** A grant set hash is a function of the set and names it: it exists exactly for a
    non-empty list without repetition, is the same for every order of its members, and
    two sets of container hashes with one hash under a label have the same members, or
    SHA-256 maps their two different preimages to one value. *)
Theorem grant_set_hash_binds sha256 label members :
  (is_Some (grant_set_hash sha256 label members) <-> members <> [] /\ NoDup members)
  /\ (forall others, members ≡ₚ others ->
        grant_set_hash sha256 label members = grant_set_hash sha256 label others)
  /\ (forall others h, Forall (fun b => length b = 32%nat) (members ++ others) ->
        grant_set_hash sha256 label members = Some h ->
        grant_set_hash sha256 label others = Some h ->
        let pre l := domain_preimage label (concat (sort_unstable l)) in
        members ≡ₚ others
        \/ (pre members <> pre others /\ sha256 (pre members) = sha256 (pre others))).
Proof.
  split_and!.
  - split; [intros [h (? & ? & _)%grant_set_hash_some]; done|].
    intros [? ?]. eexists. by apply grant_set_hash_some.
  - intros others Hp. unfold grant_set_hash.
    rewrite (sort_unstable_ext members others Hp). unfold blen.
    by rewrite (Permutation_length Hp).
  - intros others h [Hm Ho]%Forall_app (_ & _ & ->)%grant_set_hash_some
      (_ & _ & Hh)%grant_set_hash_some pre.
    destruct (decide (pre members = pre others)) as [He|Hne]; [left|by right].
    apply domain_preimage_body, (concat_inj 32) in He; [|lia|by rewrite sort_unstable_perm..].
    by rewrite <- (sort_unstable_perm members), He, sort_unstable_perm.
Qed.
