(* ===== verification/RootLifecycle.v ===== *)
(** * Tenant root lifecycle maps (shared/src/mutation.rs)

    The payloads and stored responses of root generation create and activate, and of
    root grant create, acknowledgement and revocation, with the components they share
    ([RootGenerationTarget], [RootGenerationMode], [RootGrantRef], [PreviousRoot]). *)

From S2P Require Import Prelude Bytes Canonical CanonicalFacts CanonicalDecode CanonicalTheorems.
From S2P Require Import RecordFields WireMap FleetLifecycle GrantSet.

Definition DOMAIN_ROOT_GENERATION_CREATE := "shardx.keys.tenant-root-generation-create.v2".
Definition DOMAIN_ROOT_GENERATION_CREATED := "shardx.keys.tenant-root-generation-created.v2".
Definition DOMAIN_ROOT_GRANT_ACK := "shardx.keys.tenant-root-grant-ack.v2".
Definition DOMAIN_ROOT_GRANT_ACKED := "shardx.keys.tenant-root-grant-acked.v2".
Definition DOMAIN_ROOT_GRANT_CREATE := "shardx.keys.tenant-root-grant-create.v2".
Definition DOMAIN_ROOT_GRANT_CREATED := "shardx.keys.tenant-root-grant-created.v2".
Definition DOMAIN_ROOT_GRANT_REVOKE := "shardx.keys.tenant-root-grant-revoke.v2".
Definition DOMAIN_ROOT_GRANT_REVOKED := "shardx.keys.tenant-root-grant-revoked.v2".
Definition DOMAIN_ROOT_GENERATION_ACTIVATE := "shardx.keys.tenant-root-generation-activate.v2".
Definition DOMAIN_ROOT_GENERATION_ACTIVATED := "shardx.keys.tenant-root-generation-activated.v2".
Definition REVOKE_OUTCOME_REVOKED := "revoked".
Definition ROOT_GRANT_CREATE_VARIANTS : list string := ["ExistingRootGrant"; "RotationGrant"].

(** ** Components *)

Module RootGenerationTarget.

Record t := mk {
  tenant_id : bytes;
  server_instance_id : bytes;
  restore_epoch : Z;
  root_key_id : bytes;
  root_generation : Z;
  required_custodian_grant_count : Z;
  required_custodian_grant_set_hash : bytes;
  recovery_bundle_sha256 : bytes }.

Definition take : fields t :=
  tenant_id ← Fields.fixed 16 "tenant_id";
  server_instance_id ← Fields.fixed 16 "server_instance_id";
  restore_epoch ← Fields.uint "restore_epoch";
  root_key_id ← Fields.fixed 32 "root_key_id";
  root_generation ← Fields.uint "root_generation";
  required_custodian_grant_count ← u32_in "required_custodian_grant_count" 1 65535;
  required_custodian_grant_set_hash ← Fields.fixed 32 "required_custodian_grant_set_hash";
  recovery_bundle_sha256 ← Fields.fixed 32 "recovery_bundle_sha256";
  mret (mk tenant_id server_instance_id restore_epoch root_key_id root_generation
  required_custodian_grant_count required_custodian_grant_set_hash recovery_bundle_sha256).

Definition put (x : t) : list (string * Value) :=
  [("tenant_id", c.b (tenant_id x)); ("server_instance_id", c.b (server_instance_id x));
   ("restore_epoch", c.u (restore_epoch x)); ("root_key_id", c.b (root_key_id x));
   ("root_generation", c.u (root_generation x));
   ("required_custodian_grant_count", c.u (required_custodian_grant_count x));
   ("required_custodian_grant_set_hash", c.b (required_custodian_grant_set_hash x));
   ("recovery_bundle_sha256", c.b (recovery_bundle_sha256 x))].

Definition wf (x : t) : bool :=
  (blen (tenant_id x) =? 16) && (blen (server_instance_id x) =? 16)
  && (blen (root_key_id x) =? 32)
  && (1 <=? required_custodian_grant_count x) && (required_custodian_grant_count x <=? 65535)
  && (blen (required_custodian_grant_set_hash x) =? 32)
  && (blen (recovery_bundle_sha256 x) =? 32).

#[global] Hint Unfold take put wf : wire_unfold.

End RootGenerationTarget.

(** [RootGenerationMode<B>]. *)
Module RootGenerationMode.

Inductive t (B : Type) :=
| Bootstrap (b : B)
| Rotation (previous_root_key_id : bytes) (previous_root_generation : Z).
#[global] Arguments Bootstrap {B}.
#[global] Arguments Rotation {B}.

(** The match of [take_mode] on the mode and the previous-root pair. *)
Definition of_fields (mode : string) (previous_root_key_id : option bytes)
    (previous_root_generation : option Z) : fields (t unit) :=
  match previous_root_key_id, previous_root_generation with
  | None, None =>
      if String.eqb mode "bootstrap" then mret (Bootstrap tt)
      else if String.eqb mode "rotation" then throw (BadValue "previous_root_key_id")
      else throw (BadValue "mode")
  | Some key_id, Some generation =>
      if String.eqb mode "rotation" then mret (Rotation key_id generation)
      else if String.eqb mode "bootstrap" then throw (BadValue "previous_root_key_id")
      else throw (BadValue "mode")
  | _, _ =>
      if String.eqb mode "bootstrap" || String.eqb mode "rotation"
      then throw (BadValue "previous_root_key_id")
      else throw (BadValue "mode")
  end.

(** The generation rule of each mode. *)
Definition check (target : RootGenerationTarget.t) (mode : t unit) : fields unit :=
  match mode with
  | Bootstrap _ =>
      fail_if (negb (RootGenerationTarget.root_generation target =? 0)) (BadValue "root_generation")
  | Rotation key_id generation =>
      _ ← fail_if (negb (bool_decide (checked_add generation 1
                                      = Some (RootGenerationTarget.root_generation target))))
            (BadValue "root_generation");
      fail_if (bool_decide (key_id = RootGenerationTarget.root_key_id target))
        (BadValue "previous_root_key_id")
  end.

Definition take_mode (target : RootGenerationTarget.t) : fields (t unit) :=
  mode ← Fields.text "mode";
  previous_root_key_id ← Fields.opt_fixed 32 "previous_root_key_id";
  previous_root_generation ← Fields.opt_uint "previous_root_generation";
  mode ← of_fields mode previous_root_key_id previous_root_generation;
  _ ← check target mode;
  mret mode.

Definition put_mode {B} (mode : t B) : list (string * Value) :=
  match mode with
  | Bootstrap _ => [("mode", c.t "bootstrap")]
  | Rotation previous_root_key_id previous_root_generation =>
      [("mode", c.t "rotation"); ("previous_root_key_id", c.b previous_root_key_id);
       ("previous_root_generation", c.u previous_root_generation)]
  end.

Definition wf {B} (target : RootGenerationTarget.t) (mode : t B) : bool :=
  match mode with
  | Bootstrap _ => RootGenerationTarget.root_generation target =? 0
  | Rotation key_id generation =>
      (blen key_id =? 32)
      && bool_decide (checked_add generation 1
                      = Some (RootGenerationTarget.root_generation target))
      && negb (bool_decide (key_id = RootGenerationTarget.root_key_id target))
  end.

#[global] Hint Unfold of_fields check take_mode put_mode wf : wire_unfold.

End RootGenerationMode.

(** The custodian set of a bootstrap is its self-grant alone. *)
Definition bootstrap_set_is_self_grant (sha256 : bytes -> bytes) (target : RootGenerationTarget.t)
    (self_grant : bytes) : fields unit :=
  _ ← fail_if (negb (RootGenerationTarget.required_custodian_grant_count target =? 1))
        (BadValue "required_custodian_grant_count");
  fail_if (negb (bool_decide
    (root_custodian_grant_set_hash sha256 [self_grant]
     = Some (RootGenerationTarget.required_custodian_grant_set_hash target))))
    (BadValue "required_custodian_grant_set_hash").

Definition self_grant_set_wf (sha256 : bytes -> bytes) (target : RootGenerationTarget.t)
    (self_grant : bytes) : bool :=
  (RootGenerationTarget.required_custodian_grant_count target =? 1)
  && bool_decide (root_custodian_grant_set_hash sha256 [self_grant]
                  = Some (RootGenerationTarget.required_custodian_grant_set_hash target)).

#[export] Hint Unfold bootstrap_set_is_self_grant self_grant_set_wf : wire_unfold.
#[global] Arguments root_custodian_grant_set_hash : simpl never.

Module EmbeddedSelfGrant.

Record t := mk {
  container_bytes : bytes;
  signed_container_hash : bytes }.

End EmbeddedSelfGrant.

Module SelfGrantIdentity.

Record t := mk {
  replay_id : bytes;
  signed_container_hash : bytes;
  container_bytes_sha256 : bytes }.

End SelfGrantIdentity.

(** ** Root generation create *)

Module TenantRootGenerationCreateV2.

Record t := mk {
  target : RootGenerationTarget.t;
  mode : RootGenerationMode.t EmbeddedSelfGrant.t }.

(** The match on the mode and the three optional self-grant fields. *)
Definition embed (sha256 : bytes -> bytes) (target : RootGenerationTarget.t)
    (mode : RootGenerationMode.t unit) (bytes hash bytes_sha : option bytes)
    : fields (RootGenerationMode.t EmbeddedSelfGrant.t) :=
  match mode, bytes, hash, bytes_sha with
  | RootGenerationMode.Bootstrap _, Some container_bytes, Some hash, Some sha =>
      _ ← fail_if (negb (bool_decide (sha = sha256 container_bytes)))
            (BadValue "first_self_grant_container_bytes_sha256");
      _ ← bootstrap_set_is_self_grant sha256 target hash;
      mret (RootGenerationMode.Bootstrap (EmbeddedSelfGrant.mk container_bytes hash))
  | RootGenerationMode.Rotation key_id generation, None, None, None =>
      mret (RootGenerationMode.Rotation key_id generation)
  | _, _, _, _ => throw (BadValue "first_self_grant_container_bytes")
  end.

(** The self-grant [put] writes after the mode, and its rules. *)
Definition put_grant (sha256 : bytes -> bytes) (mode : RootGenerationMode.t EmbeddedSelfGrant.t)
    : list (string * Value) :=
  match mode with
  | RootGenerationMode.Bootstrap g =>
      [("first_self_grant_container_bytes", c.b (EmbeddedSelfGrant.container_bytes g));
       ("first_self_grant_signed_container_hash", c.b (EmbeddedSelfGrant.signed_container_hash g));
       ("first_self_grant_container_bytes_sha256",
        c.b (sha256 (EmbeddedSelfGrant.container_bytes g)))]
  | RootGenerationMode.Rotation _ _ => []
  end.

Definition grant_wf (sha256 : bytes -> bytes) (target : RootGenerationTarget.t)
    (mode : RootGenerationMode.t EmbeddedSelfGrant.t) : bool :=
  match mode with
  | RootGenerationMode.Bootstrap g =>
      (1 <=? blen (EmbeddedSelfGrant.container_bytes g))
      && (blen (EmbeddedSelfGrant.container_bytes g) <=? MAX_EMBEDDED_GRANT_BYTES)
      && (blen (EmbeddedSelfGrant.signed_container_hash g) =? 32)
      && (blen (sha256 (EmbeddedSelfGrant.container_bytes g)) =? 32)
      && self_grant_set_wf sha256 target (EmbeddedSelfGrant.signed_container_hash g)
  | RootGenerationMode.Rotation _ _ => true
  end.

#[global] Hint Unfold embed put_grant grant_wf : wire_unfold.

Definition parser (sha256 : bytes -> bytes) : fields t :=
  _ ← exact_version DOMAIN_ROOT_GENERATION_CREATE;
  target ← RootGenerationTarget.take;
  mode ← RootGenerationMode.take_mode target;
  taken ← Fields.take "first_self_grant_container_bytes";
  bytes ← match taken with
          | None => mret None
          | Some (VBytes b) =>
              if (1 <=? blen b) && (blen b <=? MAX_EMBEDDED_GRANT_BYTES) then mret (Some b)
              else Fields.bad "first_self_grant_container_bytes"
          | Some _ => Fields.bad "first_self_grant_container_bytes"
          end;
  hash ← Fields.opt_fixed 32 "first_self_grant_signed_container_hash";
  bytes_sha ← Fields.opt_fixed 32 "first_self_grant_container_bytes_sha256";
  _ ← Fields.finish;
  mode ← embed sha256 target mode bytes hash bytes_sha;
  mret (mk target mode).

Definition parse (sha256 : bytes -> bytes) : bytes -> result RecordError t :=
  parse_map "TenantRootGenerationCreateV2" (parser sha256).

Definition put (sha256 : bytes -> bytes) (x : t) : list (string * Value) :=
  opening DOMAIN_ROOT_GENERATION_CREATE ++
  RootGenerationTarget.put (target x) ++
  RootGenerationMode.put_mode (mode x) ++
  put_grant sha256 (mode x).

Definition encode (sha256 : bytes -> bytes) (x : t) : bytes := Canonical.encode (c.m (put sha256 x)).

Definition wf (sha256 : bytes -> bytes) (x : t) : bool :=
  RootGenerationTarget.wf (target x)
  && RootGenerationMode.wf (target x) (mode x) && grant_wf sha256 (target x) (mode x).

#[global] Hint Unfold put wf : wire_unfold.

#[global] Instance wire (sha256 : bytes -> bytes) : WireMap "TenantRootGenerationCreateV2" (parser sha256) (put sha256) (wf sha256).
Proof. wire_map ltac:(fun x => destruct x as [[? ? ? ? ? ? ? ?] [[? ?]|? ?]]). Qed.

Lemma TenantRootGenerationCreateV2_exact (sha256 : bytes -> bytes) :
  exact_map (parse sha256) (encode sha256) (record_ok (put sha256) (wf sha256)).
Proof. intros payload x. exact (wire_map_exact _ _ _ _ payload x). Qed.

End TenantRootGenerationCreateV2.

Module TenantRootGenerationCreatedV2.

Record t := mk {
  target : RootGenerationTarget.t;
  mode : RootGenerationMode.t SelfGrantIdentity.t;
  created_at_ms : Z }.

(** The match on the mode and the three optional self-grant fields. *)
Definition identify (sha256 : bytes -> bytes) (target : RootGenerationTarget.t)
    (mode : RootGenerationMode.t unit) (replay_id hash bytes_sha : option bytes)
    : fields (RootGenerationMode.t SelfGrantIdentity.t) :=
  match mode, replay_id, hash, bytes_sha with
  | RootGenerationMode.Bootstrap _, Some replay_id, Some hash, Some sha =>
      _ ← bootstrap_set_is_self_grant sha256 target hash;
      mret (RootGenerationMode.Bootstrap (SelfGrantIdentity.mk replay_id hash sha))
  | RootGenerationMode.Rotation key_id generation, None, None, None =>
      mret (RootGenerationMode.Rotation key_id generation)
  | _, _, _, _ => throw (BadValue "first_self_grant_replay_id")
  end.

Definition put_grant (mode : RootGenerationMode.t SelfGrantIdentity.t) : list (string * Value) :=
  match mode with
  | RootGenerationMode.Bootstrap g =>
      [("first_self_grant_replay_id", c.b (SelfGrantIdentity.replay_id g));
       ("first_self_grant_signed_container_hash", c.b (SelfGrantIdentity.signed_container_hash g));
       ("first_self_grant_container_bytes_sha256",
        c.b (SelfGrantIdentity.container_bytes_sha256 g))]
  | RootGenerationMode.Rotation _ _ => []
  end.

Definition grant_wf (sha256 : bytes -> bytes) (target : RootGenerationTarget.t)
    (mode : RootGenerationMode.t SelfGrantIdentity.t) : bool :=
  match mode with
  | RootGenerationMode.Bootstrap g =>
      (blen (SelfGrantIdentity.replay_id g) =? 16)
      && (blen (SelfGrantIdentity.signed_container_hash g) =? 32)
      && (blen (SelfGrantIdentity.container_bytes_sha256 g) =? 32)
      && self_grant_set_wf sha256 target (SelfGrantIdentity.signed_container_hash g)
  | RootGenerationMode.Rotation _ _ => true
  end.

#[global] Hint Unfold identify put_grant grant_wf : wire_unfold.

Definition parser (sha256 : bytes -> bytes) : fields t :=
  _ ← exact_version DOMAIN_ROOT_GENERATION_CREATED;
  target ← RootGenerationTarget.take;
  taken ← RootGenerationMode.take_mode target;
  _ ← Fields.exact_text "generation_state" GENERATION_STATE_PREPARING;
  replay_id ← Fields.opt_fixed 16 "first_self_grant_replay_id";
  hash ← Fields.opt_fixed 32 "first_self_grant_signed_container_hash";
  bytes_sha ← Fields.opt_fixed 32 "first_self_grant_container_bytes_sha256";
  created_at_ms ← Fields.uint "created_at_ms";
  _ ← Fields.finish;
  mode ← identify sha256 target taken replay_id hash bytes_sha;
  mret (mk target mode created_at_ms).

Definition parse (sha256 : bytes -> bytes) : bytes -> result RecordError t :=
  parse_map "TenantRootGenerationCreatedV2" (parser sha256).

Definition put (x : t) : list (string * Value) :=
  opening DOMAIN_ROOT_GENERATION_CREATED ++
  RootGenerationTarget.put (target x) ++
  RootGenerationMode.put_mode (mode x) ++
  [("generation_state", c.t GENERATION_STATE_PREPARING)] ++ put_grant (mode x) ++
  [("created_at_ms", c.u (created_at_ms x))].

Definition encode (x : t) : bytes := Canonical.encode (c.m (put x)).

Definition wf (sha256 : bytes -> bytes) (x : t) : bool :=
  RootGenerationTarget.wf (target x)
  && RootGenerationMode.wf (target x) (mode x) && grant_wf sha256 (target x) (mode x).

#[global] Hint Unfold put wf : wire_unfold.

#[global] Instance wire (sha256 : bytes -> bytes) : WireMap "TenantRootGenerationCreatedV2" (parser sha256) put (wf sha256).
Proof. wire_map ltac:(fun x => destruct x as [[? ? ? ? ? ? ? ?] [[? ? ?]|? ?] ?]). Qed.

Lemma TenantRootGenerationCreatedV2_exact (sha256 : bytes -> bytes) :
  exact_map (parse sha256) encode (record_ok put (wf sha256)).
Proof. intros payload x. exact (wire_map_exact _ _ _ _ payload x). Qed.

End TenantRootGenerationCreatedV2.

(** ** Root grants: create, acknowledge, revoke *)

Module RootGrantRef.

Record t := mk {
  tenant_id : bytes;
  server_instance_id : bytes;
  restore_epoch : Z;
  root_generation : Z;
  root_key_id : bytes;
  replay_id : bytes;
  signed_container_hash : bytes;
  exact_signed_container_bytes_sha256 : bytes }.

Definition take : fields t :=
  tenant_id ← Fields.fixed 16 "tenant_id";
  server_instance_id ← Fields.fixed 16 "server_instance_id";
  restore_epoch ← Fields.uint "restore_epoch";
  root_generation ← Fields.uint "root_generation";
  root_key_id ← Fields.fixed 32 "root_key_id";
  replay_id ← Fields.fixed 16 "replay_id";
  signed_container_hash ← Fields.fixed 32 "signed_container_hash";
  exact_signed_container_bytes_sha256 ← Fields.fixed 32 "exact_signed_container_bytes_sha256";
  mret (mk tenant_id server_instance_id restore_epoch root_generation root_key_id replay_id
  signed_container_hash exact_signed_container_bytes_sha256).

Definition put (x : t) : list (string * Value) :=
  [("tenant_id", c.b (tenant_id x)); ("server_instance_id", c.b (server_instance_id x));
   ("restore_epoch", c.u (restore_epoch x)); ("root_generation", c.u (root_generation x));
   ("root_key_id", c.b (root_key_id x)); ("replay_id", c.b (replay_id x));
   ("signed_container_hash", c.b (signed_container_hash x));
   ("exact_signed_container_bytes_sha256", c.b (exact_signed_container_bytes_sha256 x))].

Definition wf (x : t) : bool :=
  (blen (tenant_id x) =? 16) && (blen (server_instance_id x) =? 16)
  && (blen (root_key_id x) =? 32) && (blen (replay_id x) =? 16)
  && (blen (signed_container_hash x) =? 32)
  && (blen (exact_signed_container_bytes_sha256 x) =? 32).

#[global] Hint Unfold take put wf : wire_unfold.

End RootGrantRef.

Module TenantRootGrantAckV2.

Record t := mk {
  grant : RootGrantRef.t }.

Definition parser : fields t :=
  _ ← exact_version DOMAIN_ROOT_GRANT_ACK;
  grant ← RootGrantRef.take;
  unwrapped ← Fields.fixed 32 "locally_unwrapped_trk_key_id";
  _ ← Fields.finish;
  _ ← fail_if (negb (bool_decide (unwrapped = RootGrantRef.root_key_id grant)))
        (BadValue "locally_unwrapped_trk_key_id");
  mret (mk grant).

Definition parse : bytes -> result RecordError t :=
  parse_map "TenantRootGrantAckV2" parser.

Definition put (x : t) : list (string * Value) :=
  opening DOMAIN_ROOT_GRANT_ACK ++
  RootGrantRef.put (grant x) ++
  [("locally_unwrapped_trk_key_id", c.b (RootGrantRef.root_key_id (grant x)))].

Definition encode (x : t) : bytes := Canonical.encode (c.m (put x)).

Definition wf (x : t) : bool :=
  RootGrantRef.wf (grant x).

#[global] Hint Unfold put wf : wire_unfold.

#[global] Instance wire : WireMap "TenantRootGrantAckV2" parser put wf.
Proof. wire_map ltac:(fun x => destruct x as [[? ? ? ? ? ? ? ?]]). Qed.

Lemma TenantRootGrantAckV2_exact :
  exact_map parse encode (record_ok put wf).
Proof. intros payload x. exact (wire_map_exact _ _ _ _ payload x). Qed.

End TenantRootGrantAckV2.

Module TenantRootGrantAckedV2.

Record t := mk {
  grant : RootGrantRef.t;
  acked_at_ms : Z }.

Definition parser : fields t :=
  _ ← exact_version DOMAIN_ROOT_GRANT_ACKED;
  grant ← RootGrantRef.take;
  _ ← Fields.exact_text "ack_outcome" ACK_OUTCOME_ACKNOWLEDGED;
  acked_at_ms ← Fields.uint "acked_at_ms";
  _ ← Fields.finish;
  mret (mk grant acked_at_ms).

Definition parse : bytes -> result RecordError t :=
  parse_map "TenantRootGrantAckedV2" parser.

Definition put (x : t) : list (string * Value) :=
  opening DOMAIN_ROOT_GRANT_ACKED ++
  RootGrantRef.put (grant x) ++
  [("ack_outcome", c.t ACK_OUTCOME_ACKNOWLEDGED); ("acked_at_ms", c.u (acked_at_ms x))].

Definition encode (x : t) : bytes := Canonical.encode (c.m (put x)).

Definition wf (x : t) : bool :=
  RootGrantRef.wf (grant x).

#[global] Hint Unfold put wf : wire_unfold.

#[global] Instance wire : WireMap "TenantRootGrantAckedV2" parser put wf.
Proof. wire_map ltac:(fun x => destruct x as [[? ? ? ? ? ? ? ?] ?]). Qed.

Lemma TenantRootGrantAckedV2_exact :
  exact_map parse encode (record_ok put wf).
Proof. intros payload x. exact (wire_map_exact _ _ _ _ payload x). Qed.

End TenantRootGrantAckedV2.

Module TenantRootGrantCreateV2.

Record t := mk {
  grant : RootGrantRef.t;
  exact_signed_grant_container_bytes : bytes }.

Definition parser (sha256 : bytes -> bytes) : fields t :=
  _ ← exact_version DOMAIN_ROOT_GRANT_CREATE;
  grant ← RootGrantRef.take;
  exact_signed_grant_container_bytes ← Fields.bytes "exact_signed_grant_container_bytes" 1 MAX_EMBEDDED_GRANT_BYTES;
  _ ← Fields.finish;
  _ ← fail_if (negb (bool_decide (RootGrantRef.exact_signed_container_bytes_sha256 grant
          = sha256 exact_signed_grant_container_bytes)))
        (BadValue "exact_signed_container_bytes_sha256");
  mret (mk grant exact_signed_grant_container_bytes).

Definition parse (sha256 : bytes -> bytes) : bytes -> result RecordError t :=
  parse_map "TenantRootGrantCreateV2" (parser sha256).

Definition put (x : t) : list (string * Value) :=
  opening DOMAIN_ROOT_GRANT_CREATE ++
  RootGrantRef.put (grant x) ++
  [("exact_signed_grant_container_bytes", c.b (exact_signed_grant_container_bytes x))].

Definition encode (x : t) : bytes := Canonical.encode (c.m (put x)).

Definition wf (sha256 : bytes -> bytes) (x : t) : bool :=
  RootGrantRef.wf (grant x)
  && (1 <=? blen (exact_signed_grant_container_bytes x)) && (blen (exact_signed_grant_container_bytes x) <=? MAX_EMBEDDED_GRANT_BYTES)
  && bool_decide (RootGrantRef.exact_signed_container_bytes_sha256 (grant x)
      = sha256 (exact_signed_grant_container_bytes x)).

#[global] Hint Unfold put wf : wire_unfold.

#[global] Instance wire (sha256 : bytes -> bytes) : WireMap "TenantRootGrantCreateV2" (parser sha256) put (wf sha256).
Proof. wire_map ltac:(fun x => destruct x as [[? ? ? ? ? ? ? ?] ?]). Qed.

Lemma TenantRootGrantCreateV2_exact (sha256 : bytes -> bytes) :
  exact_map (parse sha256) encode (record_ok put (wf sha256)).
Proof. intros payload x. exact (wire_map_exact _ _ _ _ payload x). Qed.

End TenantRootGrantCreateV2.

(** [RootGrantState] and [RootGenerationState], the readback states. *)
Module RootGrantState.

Inductive t := PendingAck | Acknowledged | Revoked.

#[global] Instance eq_dec : EqDecision t.
Proof. solve_decision. Defined.

Definition ALL : list t := [PendingAck; Acknowledged; Revoked].

Definition as_str (x : t) : string :=
  match x with
  | PendingAck => "PENDING_ACK"
  | Acknowledged => "ACKNOWLEDGED"
  | Revoked => "REVOKED"
  end.

End RootGrantState.

Module RootGenerationState.

Inductive t := Preparing | Active | Retired.

#[global] Instance eq_dec : EqDecision t.
Proof. solve_decision. Defined.

Definition ALL : list t := [Preparing; Active; Retired].

Definition as_str (x : t) : string :=
  match x with
  | Preparing => GENERATION_STATE_PREPARING
  | Active => GENERATION_STATE_ACTIVE
  | Retired => GENERATION_STATE_RETIRED
  end.

End RootGenerationState.

(** [grant_variant] is one of two names. *)
Module TenantRootGrantCreatedV2.

Record t := mk {
  grant : RootGrantRef.t;
  grant_variant : string;
  subject_device_id : bytes;
  recipient_hpke_key_id : bytes;
  created_at_ms : Z }.

Definition variant_wf (v : string) : bool :=
  List.existsb (String.eqb v) ROOT_GRANT_CREATE_VARIANTS.
#[global] Hint Unfold variant_wf : wire_unfold.
#[local] Arguments List.existsb : simpl never.

Definition parser : fields t :=
  _ ← exact_version DOMAIN_ROOT_GRANT_CREATED;
  grant ← RootGrantRef.take;
  variant ← Fields.text "grant_variant";
  grant_variant ← (if List.existsb (String.eqb variant) ROOT_GRANT_CREATE_VARIANTS then mret variant
                   else throw (BadValue "grant_variant"));
  subject_device_id ← Fields.fixed 16 "subject_device_id";
  recipient_hpke_key_id ← Fields.fixed 32 "recipient_hpke_key_id";
  _ ← Fields.exact_text "grant_state" (RootGrantState.as_str RootGrantState.PendingAck);
  created_at_ms ← Fields.uint "created_at_ms";
  _ ← Fields.finish;
  mret (mk grant grant_variant subject_device_id recipient_hpke_key_id created_at_ms).

Definition parse : bytes -> result RecordError t :=
  parse_map "TenantRootGrantCreatedV2" parser.

Definition put (x : t) : list (string * Value) :=
  opening DOMAIN_ROOT_GRANT_CREATED ++
  RootGrantRef.put (grant x) ++
  [("grant_variant", c.t (grant_variant x)); ("subject_device_id", c.b (subject_device_id x));
   ("recipient_hpke_key_id", c.b (recipient_hpke_key_id x));
   ("grant_state", c.t (RootGrantState.as_str RootGrantState.PendingAck));
   ("created_at_ms", c.u (created_at_ms x))].

Definition encode (x : t) : bytes := Canonical.encode (c.m (put x)).

Definition wf (x : t) : bool :=
  RootGrantRef.wf (grant x) && variant_wf (grant_variant x)
  && (blen (subject_device_id x) =? 16) && (blen (recipient_hpke_key_id x) =? 32).

#[global] Hint Unfold put wf : wire_unfold.

#[global] Instance wire : WireMap "TenantRootGrantCreatedV2" parser put wf.
Proof. wire_map ltac:(fun x => destruct x as [[? ? ? ? ? ? ? ?] ? ? ? ?]). Qed.

Lemma TenantRootGrantCreatedV2_exact :
  exact_map parse encode (record_ok put wf).
Proof. intros payload x. exact (wire_map_exact _ _ _ _ payload x). Qed.

End TenantRootGrantCreatedV2.

Module RootGrantRevokeReason.

Inductive t := DeviceLost | CustodyRemoved | RotationExclusion.

#[global] Instance eq_dec : EqDecision t.
Proof. solve_decision. Defined.

Definition ALL : list t := [DeviceLost; CustodyRemoved; RotationExclusion].

Definition as_str (x : t) : string :=
  match x with
  | DeviceLost => "device_lost"
  | CustodyRemoved => "custody_removed"
  | RotationExclusion => "rotation_exclusion"
  end.

Definition take : fields t :=
  s ← Fields.text "reason_code";
  lift (ok_or (find_str as_str ALL s) (BadValue "reason_code")).

#[global] Hint Unfold take : wire_unfold.

End RootGrantRevokeReason.

Module TenantRootGrantRevokeV2.

Record t := mk {
  grant : RootGrantRef.t;
  reason_code : RootGrantRevokeReason.t }.

Definition parser : fields t :=
  _ ← exact_version DOMAIN_ROOT_GRANT_REVOKE;
  grant ← RootGrantRef.take;
  reason_code ← RootGrantRevokeReason.take;
  _ ← Fields.finish;
  mret (mk grant reason_code).

Definition parse : bytes -> result RecordError t :=
  parse_map "TenantRootGrantRevokeV2" parser.

Definition put (x : t) : list (string * Value) :=
  opening DOMAIN_ROOT_GRANT_REVOKE ++
  RootGrantRef.put (grant x) ++
  [("reason_code", c.t (RootGrantRevokeReason.as_str (reason_code x)))].

Definition encode (x : t) : bytes := Canonical.encode (c.m (put x)).

Definition wf (x : t) : bool :=
  RootGrantRef.wf (grant x).

#[global] Hint Unfold put wf : wire_unfold.

#[global] Instance wire : WireMap "TenantRootGrantRevokeV2" parser put wf.
Proof. wire_map ltac:(fun x => destruct x as [[? ? ? ? ? ? ? ?] []]). Qed.

Lemma TenantRootGrantRevokeV2_exact :
  exact_map parse encode (record_ok put wf).
Proof. intros payload x. exact (wire_map_exact _ _ _ _ payload x). Qed.

End TenantRootGrantRevokeV2.

Module TenantRootGrantRevokedV2.

Record t := mk {
  grant : RootGrantRef.t;
  reason_code : RootGrantRevokeReason.t;
  sessions_invalidated_count : Z;
  revoked_at_ms : Z }.

Definition parser : fields t :=
  _ ← exact_version DOMAIN_ROOT_GRANT_REVOKED;
  grant ← RootGrantRef.take;
  reason_code ← RootGrantRevokeReason.take;
  _ ← Fields.exact_text "revoke_outcome" REVOKE_OUTCOME_REVOKED;
  sessions_invalidated_count ← u32_in "sessions_invalidated_count" 0 U32_MAX;
  revoked_at_ms ← Fields.uint "revoked_at_ms";
  _ ← Fields.finish;
  mret (mk grant reason_code sessions_invalidated_count revoked_at_ms).

Definition parse : bytes -> result RecordError t :=
  parse_map "TenantRootGrantRevokedV2" parser.

Definition put (x : t) : list (string * Value) :=
  opening DOMAIN_ROOT_GRANT_REVOKED ++
  RootGrantRef.put (grant x) ++
  [("reason_code", c.t (RootGrantRevokeReason.as_str (reason_code x)))] ++
  [("revoke_outcome", c.t REVOKE_OUTCOME_REVOKED);
   ("sessions_invalidated_count", c.u (sessions_invalidated_count x));
   ("revoked_at_ms", c.u (revoked_at_ms x))].

Definition encode (x : t) : bytes := Canonical.encode (c.m (put x)).

Definition wf (x : t) : bool :=
  RootGrantRef.wf (grant x)
  && (0 <=? sessions_invalidated_count x) && (sessions_invalidated_count x <=? U32_MAX).

#[global] Hint Unfold put wf : wire_unfold.

#[global] Instance wire : WireMap "TenantRootGrantRevokedV2" parser put wf.
Proof. wire_map ltac:(fun x => destruct x as [[? ? ? ? ? ? ? ?] [] ? ?]). Qed.

Lemma TenantRootGrantRevokedV2_exact :
  exact_map parse encode (record_ok put wf).
Proof. intros payload x. exact (wire_map_exact _ _ _ _ payload x). Qed.

End TenantRootGrantRevokedV2.

(** ** Root generation activate *)

Module PreviousRoot.

Record t := mk {
  root_key_id : bytes;
  root_generation : Z }.

(** The match of [take_previous], then the rotation rule. *)
Definition of_fields (target : RootGenerationTarget.t) (key : option bytes)
    (generation : option Z) : fields (option t) :=
  let n := RootGenerationTarget.root_generation target in
  match key, generation with
  | None, None =>
      if n =? 0 then
        if RootGenerationTarget.required_custodian_grant_count target =? 1 then mret None
        else throw (BadValue "required_custodian_grant_count")
      else throw (BadValue "previous_root_key_id")
  | Some root_key_id, Some root_generation =>
      if 0 <? n then
        _ ← fail_if (negb (bool_decide (checked_add root_generation 1 = Some n)))
              (BadValue "root_generation");
        _ ← fail_if (bool_decide (root_key_id = RootGenerationTarget.root_key_id target))
              (BadValue "previous_root_key_id");
        mret (Some (mk root_key_id root_generation))
      else throw (BadValue "previous_root_key_id")
  | _, _ => throw (BadValue "previous_root_key_id")
  end.

Definition take_previous (target : RootGenerationTarget.t) : fields (option t) :=
  key ← Fields.opt_fixed 32 "previous_root_key_id";
  generation ← Fields.opt_uint "previous_root_generation";
  of_fields target key generation.

Definition put_previous (previous : option t) : list (string * Value) :=
  match previous with
  | None => []
  | Some p =>
      [("previous_root_key_id", c.b (root_key_id p));
       ("previous_root_generation", c.u (root_generation p))]
  end.

Definition wf (target : RootGenerationTarget.t) (previous : option t) : bool :=
  let n := RootGenerationTarget.root_generation target in
  match previous with
  | None => (n =? 0) && (RootGenerationTarget.required_custodian_grant_count target =? 1)
  | Some p =>
      (0 <? n) && (blen (root_key_id p) =? 32)
      && bool_decide (checked_add (root_generation p) 1 = Some n)
      && negb (bool_decide (root_key_id p = RootGenerationTarget.root_key_id target))
  end.

#[global] Hint Unfold of_fields take_previous put_previous wf : wire_unfold.

End PreviousRoot.

Module TenantRootGenerationActivateV2.

Record t := mk {
  target : RootGenerationTarget.t;
  previous : option PreviousRoot.t }.

Definition parser : fields t :=
  _ ← exact_version DOMAIN_ROOT_GENERATION_ACTIVATE;
  target ← RootGenerationTarget.take;
  previous ← PreviousRoot.take_previous target;
  _ ← Fields.finish;
  mret (mk target previous).

Definition parse : bytes -> result RecordError t :=
  parse_map "TenantRootGenerationActivateV2" parser.

Definition put (x : t) : list (string * Value) :=
  opening DOMAIN_ROOT_GENERATION_ACTIVATE ++
  RootGenerationTarget.put (target x) ++
  PreviousRoot.put_previous (previous x).

Definition encode (x : t) : bytes := Canonical.encode (c.m (put x)).

Definition wf (x : t) : bool :=
  RootGenerationTarget.wf (target x) && PreviousRoot.wf (target x) (previous x).

#[global] Hint Unfold put wf : wire_unfold.

#[global] Instance wire : WireMap "TenantRootGenerationActivateV2" parser put wf.
Proof. wire_map ltac:(fun x => destruct x as [[? ? ? ? ? ? ? ?] [[? ?]|]]). Qed.

Lemma TenantRootGenerationActivateV2_exact :
  exact_map parse encode (record_ok put wf).
Proof. intros payload x. exact (wire_map_exact _ _ _ _ payload x). Qed.

End TenantRootGenerationActivateV2.

Module TenantRootGenerationActivatedV2.

Record t := mk {
  target : RootGenerationTarget.t;
  previous : option PreviousRoot.t;
  activated_at_ms : Z }.

Definition parser : fields t :=
  _ ← exact_version DOMAIN_ROOT_GENERATION_ACTIVATED;
  target ← RootGenerationTarget.take;
  previous ← PreviousRoot.take_previous target;
  _ ← Fields.exact_text "target_state" GENERATION_STATE_ACTIVE;
  previous_state ← Fields.take "previous_state";
  pointer ← Fields.uint "active_root_generation";
  activated_at_ms ← Fields.uint "activated_at_ms";
  _ ← Fields.finish;
  let retired := Some (Text GENERATION_STATE_RETIRED) in
  _ ← fail_if (negb (bool_decide (previous_state = option_and previous retired)))
        (BadValue "previous_state");
  _ ← fail_if (negb (pointer =? RootGenerationTarget.root_generation target))
        (BadValue "active_root_generation");
  mret (mk target previous activated_at_ms).

Definition parse : bytes -> result RecordError t :=
  parse_map "TenantRootGenerationActivatedV2" parser.

Definition put (x : t) : list (string * Value) :=
  opening DOMAIN_ROOT_GENERATION_ACTIVATED ++
  RootGenerationTarget.put (target x) ++
  PreviousRoot.put_previous (previous x) ++
  [("target_state", c.t GENERATION_STATE_ACTIVE)] ++
  (if is_some (previous x) then [("previous_state", c.t GENERATION_STATE_RETIRED)] else []) ++
  [("active_root_generation", c.u (RootGenerationTarget.root_generation (target x)));
   ("activated_at_ms", c.u (activated_at_ms x))].

Definition encode (x : t) : bytes := Canonical.encode (c.m (put x)).

Definition wf (x : t) : bool :=
  RootGenerationTarget.wf (target x) && PreviousRoot.wf (target x) (previous x).

#[global] Hint Unfold put wf : wire_unfold.

#[global] Instance wire : WireMap "TenantRootGenerationActivatedV2" parser put wf.
Proof. wire_map ltac:(fun x => destruct x as [[? ? ? ? ? ? ? ?] [[? ?]|] ?]). Qed.

Lemma TenantRootGenerationActivatedV2_exact :
  exact_map parse encode (record_ok put wf).
Proof. intros payload x. exact (wire_map_exact _ _ _ _ payload x). Qed.

End TenantRootGenerationActivatedV2.


(** ** The properties *)

(** Every tenant root lifecycle map is exact: its parser accepts a payload exactly
    when the payload is the encoding of a record within the map's rules (the mode and
    its previous root, generation arithmetic, the embedded self-grant present iff
    bootstrap with the hash of its bytes, the custodian set hash of a bootstrap, the
    variants of a grant, the activated generation as active pointer). *)
Theorem root_maps_exact sha256 :
  exact_map (TenantRootGenerationCreateV2.parse sha256)
    (TenantRootGenerationCreateV2.encode sha256)
    (record_ok (TenantRootGenerationCreateV2.put sha256) (TenantRootGenerationCreateV2.wf sha256))
  /\ exact_map (TenantRootGenerationCreatedV2.parse sha256) TenantRootGenerationCreatedV2.encode
    (record_ok TenantRootGenerationCreatedV2.put (TenantRootGenerationCreatedV2.wf sha256))
  /\ exact_map TenantRootGrantAckV2.parse TenantRootGrantAckV2.encode
    (record_ok TenantRootGrantAckV2.put TenantRootGrantAckV2.wf)
  /\ exact_map TenantRootGrantAckedV2.parse TenantRootGrantAckedV2.encode
    (record_ok TenantRootGrantAckedV2.put TenantRootGrantAckedV2.wf)
  /\ exact_map (TenantRootGrantCreateV2.parse sha256) (TenantRootGrantCreateV2.encode)
    (record_ok TenantRootGrantCreateV2.put (TenantRootGrantCreateV2.wf sha256))
  /\ exact_map TenantRootGrantCreatedV2.parse TenantRootGrantCreatedV2.encode
    (record_ok TenantRootGrantCreatedV2.put TenantRootGrantCreatedV2.wf)
  /\ exact_map TenantRootGrantRevokeV2.parse TenantRootGrantRevokeV2.encode
    (record_ok TenantRootGrantRevokeV2.put TenantRootGrantRevokeV2.wf)
  /\ exact_map TenantRootGrantRevokedV2.parse TenantRootGrantRevokedV2.encode
    (record_ok TenantRootGrantRevokedV2.put TenantRootGrantRevokedV2.wf)
  /\ exact_map TenantRootGenerationActivateV2.parse TenantRootGenerationActivateV2.encode
    (record_ok TenantRootGenerationActivateV2.put TenantRootGenerationActivateV2.wf)
  /\ exact_map TenantRootGenerationActivatedV2.parse TenantRootGenerationActivatedV2.encode
    (record_ok TenantRootGenerationActivatedV2.put TenantRootGenerationActivatedV2.wf).
Proof. split_and!; intros payload x; exact (wire_map_exact _ _ _ _ payload x). Qed.

(** The rule of root generations, on the target and the previous root of a create or
    activate map: a bootstrap is generation 0 with one custodian, a rotation targets
    the generation after the previous one under another key. *)
Definition root_generation_rule (target : RootGenerationTarget.t)
    (previous : option (bytes * Z)) : Prop :=
  match previous with
  | None => RootGenerationTarget.root_generation target = 0
            /\ RootGenerationTarget.required_custodian_grant_count target = 1
  | Some (key_id, generation) =>
      RootGenerationTarget.root_generation target = generation + 1
      /\ generation < U64_MAX /\ key_id <> RootGenerationTarget.root_key_id target
  end.

Definition mode_previous {B} (mode : RootGenerationMode.t B) : option (bytes * Z) :=
  match mode with
  | RootGenerationMode.Bootstrap _ => None
  | RootGenerationMode.Rotation key_id generation => Some (key_id, generation)
  end.

Definition previous_root (p : PreviousRoot.t) : bytes * Z :=
  (PreviousRoot.root_key_id p, PreviousRoot.root_generation p).

Lemma checked_succ_some n m : checked_add n 1 = Some m -> m = n + 1 /\ n < U64_MAX.
Proof. unfold checked_add. case_match; [|done]. intros [= <-]. lia. Qed.

Lemma self_grant_set sha256 target g :
  self_grant_set_wf sha256 target g = true ->
  RootGenerationTarget.required_custodian_grant_count target = 1
  /\ RootGenerationTarget.required_custodian_grant_set_hash target
     = domain_hash sha256 L_ROOT_CUSTODIAN_SET g.
Proof.
  unfold self_grant_set_wf. intros [Hc Hs]%andb_true_iff. apply bool_decide_eq_true in Hs.
  split; [lia|]. apply grant_set_hash_some in Hs as (_ & _ & ->).
  cbn. by rewrite app_nil_r.
Qed.

Lemma create_wf_rule sha256 x :
  TenantRootGenerationCreateV2.wf sha256 x = true ->
  root_generation_rule (TenantRootGenerationCreateV2.target x)
    (mode_previous (TenantRootGenerationCreateV2.mode x)).
Proof.
  unfold TenantRootGenerationCreateV2.wf. rewrite !andb_true_iff. intros [[_ Hm] Hg].
  destruct (TenantRootGenerationCreateV2.mode x) as [g|key generation];
    cbn [RootGenerationMode.wf TenantRootGenerationCreateV2.grant_wf] in Hm, Hg.
  - apply andb_true_iff in Hg as [_ [Hc _]%self_grant_set]. split; [lia|done].
  - rewrite !andb_true_iff, negb_true_iff, bool_decide_eq_true, bool_decide_eq_false in Hm.
    destruct Hm as [[_ [? ?]%checked_succ_some] ?]. by split_and!.
Qed.

Lemma activate_wf_rule x :
  TenantRootGenerationActivateV2.wf x = true ->
  root_generation_rule (TenantRootGenerationActivateV2.target x)
    (previous_root <$> TenantRootGenerationActivateV2.previous x).
Proof.
  unfold TenantRootGenerationActivateV2.wf. rewrite !andb_true_iff. intros [_ Hp].
  destruct (TenantRootGenerationActivateV2.previous x) as [p|];
    cbn [PreviousRoot.wf fmap option_fmap option_map] in *; rewrite !andb_true_iff in Hp.
  - rewrite negb_true_iff, bool_decide_eq_true, bool_decide_eq_false in Hp.
    destruct Hp as [[_ [? ?]%checked_succ_some] ?]. by split_and!.
  - split; lia.
Qed.

(** C32. The generation rule holds of every root create and activate payload accepted,
    whatever its bytes; a bootstrap carries its first self-grant, and names as
    custodian set the grant's container alone. *)
Theorem accepted_root_generation sha256 payload :
  blen payload <= USIZE_MAX ->
  (forall x, TenantRootGenerationCreateV2.parse sha256 payload = Ok x ->
     root_generation_rule (TenantRootGenerationCreateV2.target x)
       (mode_previous (TenantRootGenerationCreateV2.mode x))
     /\ forall g, TenantRootGenerationCreateV2.mode x = RootGenerationMode.Bootstrap g ->
          1 <= blen (EmbeddedSelfGrant.container_bytes g) <= MAX_EMBEDDED_GRANT_BYTES
          /\ RootGenerationTarget.required_custodian_grant_set_hash
               (TenantRootGenerationCreateV2.target x)
             = domain_hash sha256 L_ROOT_CUSTODIAN_SET (EmbeddedSelfGrant.signed_container_hash g))
  /\ (forall x, TenantRootGenerationActivateV2.parse payload = Ok x ->
     root_generation_rule (TenantRootGenerationActivateV2.target x)
       (previous_root <$> TenantRootGenerationActivateV2.previous x)).
Proof.
  intros Hb. split; intros x Hx.
  - apply TenantRootGenerationCreateV2.TenantRootGenerationCreateV2_exact in Hx
      as [[_ Hw]%andb_true_iff _]; [|done]. split; [by eapply create_wf_rule|].
    intros g Hg. unfold TenantRootGenerationCreateV2.wf in Hw. rewrite Hg, !andb_true_iff in Hw.
    destruct Hw as [_ Hw]. cbn [TenantRootGenerationCreateV2.grant_wf] in Hw.
    rewrite !andb_true_iff in Hw. destruct Hw as [[[[? ?] _] _] [_ ?]%self_grant_set].
    split; [lia|done].
  - apply TenantRootGenerationActivateV2.TenantRootGenerationActivateV2_exact in Hx
      as [[_ Hw]%andb_true_iff _]; [|done]. by apply activate_wf_rule.
Qed.

Definition sample_target : RootGenerationTarget.t :=
  RootGenerationTarget.mk (be_bytes 16 1) (be_bytes 16 2) 0 (be_bytes 32 3) 5 2 (be_bytes 32 4)
    (be_bytes 32 5).
Definition sample_activate : TenantRootGenerationActivateV2.t :=
  TenantRootGenerationActivateV2.mk sample_target (Some (PreviousRoot.mk (be_bytes 32 6) 4)).

Lemma accepted_root_generation_witness :
  TenantRootGenerationActivateV2.parse (TenantRootGenerationActivateV2.encode sample_activate)
  = Ok sample_activate /\ root_generation_rule sample_target (Some (be_bytes 32 6, 4)).
Proof.
  assert (TenantRootGenerationActivateV2.parse (TenantRootGenerationActivateV2.encode
    sample_activate) = Ok sample_activate) as Hp by (vm_compute; reflexivity).
  split; [exact Hp|].
  refine (proj2 (accepted_root_generation (fun b => b)
    (TenantRootGenerationActivateV2.encode sample_activate) _) sample_activate Hp).
  vm_compute. discriminate.
Defined.
