(* ===== verification/DeviceRevoke.v ===== *)
(** * Device revocation (shared/src/mutation.rs)

    The [DEVICE_REVOKE] payload, which embeds a signed record and the generation
    activations committed with it, and its stored response. *)

From Stdlib Require Import Strings.Byte.
From S2P Require Import Prelude Bytes Canonical CanonicalFacts CanonicalDecode CanonicalTheorems.
From S2P Require Import RecordFields WireMap FleetLifecycle AuthzPayloads AuthzRecord TrustEvidence.
From S2P Require Import RootLifecycle.

Definition DOMAIN_DEVICE_REVOKE := "shardx.authz.device-revoke.v2".
Definition DOMAIN_DEVICE_REVOKED := "shardx.authz.device-revoked.v2".

(** ** Activations *)

Module GenerationActivation.

Inductive t :=
| Root (a : TenantRootGenerationActivateV2.t)
| Fleet (a : FleetKeyGenerationActivateV2.t).

Definition encode (x : t) : bytes :=
  match x with
  | Root a => TenantRootGenerationActivateV2.encode a
  | Fleet a => FleetKeyGenerationActivateV2.encode a
  end.

(** [entries.into_iter().find(|(k, _)| k == "domain")] on the decoded map, if it is one. *)
Definition find_domain (bs : bytes) : option Value :=
  match decode bs with
  | Ok (Map entries) => snd <$> List.find (fun kv => String.eqb kv.1 "domain") entries
  | _ => None
  end.

Definition parse (item : Value) : result RecordError t :=
  let bad := Err (BadValue "activations") in
  match item with
  | VBytes bs =>
      parsed ←
        match find_domain bs with
        | Some (Text d) =>
            if String.eqb d DOMAIN_ROOT_GENERATION_ACTIVATE then
              Root <$> TenantRootGenerationActivateV2.parse bs
            else if String.eqb d DOMAIN_FLEET_GENERATION_ACTIVATE then
              Fleet <$> FleetKeyGenerationActivateV2.parse bs
            else bad
        | _ => bad
        end;
      if negb (bool_decide (encode parsed = bs)) then bad else Ok parsed
  | _ => bad
  end.

Definition sort_key (x : t) : Z * bytes * Z :=
  match x with
  | Root a =>
      (0, replicate 16 Byte.x00,
       RootGenerationTarget.root_generation (TenantRootGenerationActivateV2.target a))
  | Fleet a =>
      let g := FleetGenerationTerms.generation (FleetKeyGenerationActivateV2.terms a) in
      (1, FleetGenerationRef.fleet_id g, FleetGenerationRef.generation g)
  end.

(** The order of the tuples [(u8, [u8; 16], u64)]. *)
Definition key_ltb (p q : Z * bytes * Z) : bool :=
  let '(kind, fleet, generation) := p in
  let '(kind', fleet', generation') := q in
  (kind <? kind')
  || (kind =? kind')
     && match bytes_cmp fleet fleet' with
        | Lt => true
        | Gt => false
        | Eq => generation <? generation'
        end.

(** [activations.windows(2).all(|w| w[0].sort_key() < w[1].sort_key())] *)
Fixpoint increasing (l : list t) : bool :=
  match l with
  | x :: (y :: _) as rest => key_ltb (sort_key x) (sort_key y) && increasing rest
  | _ => true
  end.

(** The well-formed activations. *)
Definition ok (x : t) : bool :=
  match x with
  | Root a => record_ok TenantRootGenerationActivateV2.put TenantRootGenerationActivateV2.wf a
  | Fleet a => record_ok FleetKeyGenerationActivateV2.put FleetKeyGenerationActivateV2.wf a
  end.

End GenerationActivation.

(** ** Request *)

Module DeviceRevokeRequestV2.

Record t := mk {
  signed_container_hash : bytes;
  exact_signed_revocation_container_bytes : bytes;
  activations : list GenerationActivation.t }.

(** The record embedded, under the hash that names it. *)
Definition embedded (sha256 : bytes -> bytes) (bs hash : bytes) : result RecordError unit :=
  record ← AuthorizationRecord.parse sha256 bs;
  if negb (bool_decide (AuthorizationRecord.signed_container_hash record = hash))
  then Err (BadValue "signed_container_hash") else Ok tt.

Definition parser (sha256 : bytes -> bytes) : fields t :=
  _ ← exact_version DOMAIN_DEVICE_REVOKE;
  signed_container_hash ← Fields.fixed 32 "signed_container_hash";
  bs ← Fields.bytes "exact_signed_revocation_container_bytes" 1 MAX_EMBEDDED_GRANT_BYTES;
  taken ← Fields.req "activations";
  items ← match taken with
          | Array items => mret items
          | _ => throw (BadValue "activations")
          end;
  _ ← fail_if (U16_MAX <? blen items) (BadValue "activations");
  activations ← lift (try_map GenerationActivation.parse items);
  _ ← fail_if (negb (GenerationActivation.increasing activations)) (BadValue "activations");
  _ ← Fields.finish;
  _ ← lift (embedded sha256 bs signed_container_hash);
  mret (mk signed_container_hash bs activations).

Definition parse (sha256 : bytes -> bytes) : bytes -> result RecordError t :=
  parse_map "DeviceRevokeRequestV2" (parser sha256).

Definition put (x : t) : list (string * Value) :=
  [("domain", c.t DOMAIN_DEVICE_REVOKE); ("version", c.u VERSION);
   ("signed_container_hash", c.b (signed_container_hash x));
   ("exact_signed_revocation_container_bytes",
    c.b (exact_signed_revocation_container_bytes x));
   ("activations", Array (List.map (fun a => c.b (GenerationActivation.encode a))
                            (activations x)))].

Definition encode (x : t) : bytes := Canonical.encode (c.m (put x)).

Definition wf (sha256 : bytes -> bytes) (x : t) : bool :=
  (blen (signed_container_hash x) =? 32)
  && (1 <=? blen (exact_signed_revocation_container_bytes x))
  && (blen (exact_signed_revocation_container_bytes x) <=? MAX_EMBEDDED_GRANT_BYTES)
  && (blen (activations x) <=? U16_MAX)
  && List.forallb GenerationActivation.ok (activations x)
  && GenerationActivation.increasing (activations x)
  && is_ok (embedded sha256 (exact_signed_revocation_container_bytes x)
              (signed_container_hash x)).

End DeviceRevokeRequestV2.

(** ** Stored response *)

Module DeviceRevokedV2.

Record t := mk {
  tenant_id : bytes;
  subject_device_id : bytes;
  replay_id : bytes;
  signed_container_hash : bytes;
  reason_code : DeviceRevocationReason.t;
  sessions_invalidated_count : Z;
  revoked_at_ms : Z }.

Definition parser : fields t :=
  _ ← exact_version DOMAIN_DEVICE_REVOKED;
  tenant_id ← Fields.fixed 16 "tenant_id";
  subject_device_id ← Fields.fixed 16 "subject_device_id";
  replay_id ← Fields.fixed 16 "replay_id";
  signed_container_hash ← Fields.fixed 32 "signed_container_hash";
  reason ← Fields.text "reason_code";
  reason_code ← lift (ok_or (find_str DeviceRevocationReason.as_str DeviceRevocationReason.ALL
                               reason) (BadValue "reason_code"));
  _ ← Fields.exact_text "revoke_outcome" REVOKE_OUTCOME_REVOKED;
  sessions_invalidated_count ← u32_in "sessions_invalidated_count" 0 U32_MAX;
  revoked_at_ms ← Fields.uint "revoked_at_ms";
  _ ← Fields.finish;
  mret (mk tenant_id subject_device_id replay_id signed_container_hash reason_code
    sessions_invalidated_count revoked_at_ms).

Definition parse : bytes -> result RecordError t := parse_map "DeviceRevokedV2" parser.

Definition put (x : t) : list (string * Value) :=
  [("domain", c.t DOMAIN_DEVICE_REVOKED); ("version", c.u VERSION);
   ("tenant_id", c.b (tenant_id x)); ("subject_device_id", c.b (subject_device_id x));
   ("replay_id", c.b (replay_id x)); ("signed_container_hash", c.b (signed_container_hash x));
   ("reason_code", c.t (DeviceRevocationReason.as_str (reason_code x)));
   ("revoke_outcome", c.t REVOKE_OUTCOME_REVOKED);
   ("sessions_invalidated_count", c.u (sessions_invalidated_count x));
   ("revoked_at_ms", c.u (revoked_at_ms x))].

Definition encode (x : t) : bytes := Canonical.encode (c.m (put x)).

Definition wf (x : t) : bool :=
  (blen (tenant_id x) =? 16) && (blen (subject_device_id x) =? 16)
  && (blen (replay_id x) =? 16) && (blen (signed_container_hash x) =? 32)
  && (0 <=? sessions_invalidated_count x) && (sessions_invalidated_count x <=? U32_MAX).

#[global] Hint Unfold put wf : wire_unfold.

#[global] Instance wire : WireMap "DeviceRevokedV2" parser put wf.
Proof. wire_map ltac:(fun x => destruct x as [? ? ? ? [] ? ?]). Qed.

End DeviceRevokedV2.

(** ** Activations are exact *)

(** The domain of an encoded map is found whatever the order of its entries. *)
Lemma find_domain_encode es d :
  values_ok es = true -> keys_ok es = true -> values_normal es ->
  blen (encode (c.m es)) <= USIZE_MAX -> ("domain", Text d) ∈ es ->
  GenerationActivation.find_domain (encode (c.m es)) = Some (Text d).
Proof.
  intros Hv Hk Hn Hb Hin. unfold GenerationActivation.find_domain.
  destruct (fields_decode_encode "" es Hv Hk Hn Hb) as (es' & Hd & Hp).
  unfold Fields.decode in Hd. rewrite roundtrip_is_decode in Hd.
  apply result_bind_ok in Hd as (v & Hv'%map_err_ok & Ho). unfold c.m. rewrite Hv'.
  destruct v; try done. cbn [Fields.open] in Ho. injection Ho as ->.
  assert (NoDup es'.*1) as Hnd by (rewrite Hp; by apply entry_keys_NoDup, keys_ok_NoDup).
  destruct (List.find _ es') as [[k v]|] eqn:E; cbn [fmap option_fmap option_map snd].
  - apply List.find_some in E as [E Hkey]. cbn in Hkey. apply String.eqb_eq in Hkey as ->.
    apply list_elem_of_In in E. rewrite <- Hp in Hin. f_equal.
    exact (nodup_fst_unique _ _ _ _ Hnd E Hin).
  - rewrite <- Hp in Hin. apply list_elem_of_In in Hin.
    by apply (List.find_none _ _ E) in Hin.
Qed.

Lemma wire_find_domain {A} name (p : fields A) put contract `{!WireMap name p put contract} x d :
  record_ok put contract x = true -> blen (encode (c.m (put x))) <= USIZE_MAX ->
  ("domain", Text d) ∈ put x ->
  GenerationActivation.find_domain (encode (c.m (put x))) = Some (Text d).
Proof.
  intros [Hv _]%andb_true_iff Hb Hin. apply find_domain_encode; [done|apply wm_keys|
    apply wm_normal|done|done].
Qed.

(** An activation is accepted exactly when it is the encoding of a well-formed root or
    fleet activation. *)
Lemma activation_parse_iff d v a :
  encodable d v = true ->
  GenerationActivation.parse v = Ok a <->
  v = VBytes (GenerationActivation.encode a) /\ GenerationActivation.ok a = true.
Proof.
  intros Hv. destruct v as [| |b| | |]; try (by split; [|intros [? _]]).
  assert (blen b <= USIZE_MAX) as Hb by (cbn [encodable] in Hv; unfold wire_len, USIZE_MAX in *; lia).
  unfold GenerationActivation.parse. split.
  - intros (p & Hp & H)%result_bind_ok. case_bool_decide as He; [|done]. injection H as <-.
    subst b. split; [done|]. clear Hv. repeat case_match; try done;
      apply result_fmap_ok in Hp as (x & Hx & ->);
      [apply TenantRootGenerationActivateV2.TenantRootGenerationActivateV2_exact in Hx
      |apply FleetKeyGenerationActivateV2.FleetKeyGenerationActivateV2_exact in Hx];
      try done; by destruct Hx.
  - intros [[= ->] Hok]. apply result_bind_ok. exists a.
    rewrite bool_decide_true by done. split; [|done].
    destruct a as [x|x]; cbn [GenerationActivation.encode GenerationActivation.ok] in *.
    + unfold TenantRootGenerationActivateV2.encode in *.
      rewrite (wire_find_domain "TenantRootGenerationActivateV2"
        TenantRootGenerationActivateV2.parser _ TenantRootGenerationActivateV2.wf _
        DOMAIN_ROOT_GENERATION_ACTIVATE) by (done || left).
      rewrite String.eqb_refl. apply result_fmap_ok. exists x. split; [|done].
      by apply TenantRootGenerationActivateV2.TenantRootGenerationActivateV2_exact.
    + unfold FleetKeyGenerationActivateV2.encode in *.
      rewrite (wire_find_domain "FleetKeyGenerationActivateV2"
        FleetKeyGenerationActivateV2.parser _ FleetKeyGenerationActivateV2.wf _
        DOMAIN_FLEET_GENERATION_ACTIVATE) by (done || left).
      cbn [String.eqb]. apply result_fmap_ok. exists x. split; [|done].
      by apply FleetKeyGenerationActivateV2.FleetKeyGenerationActivateV2_exact.
Qed.

Lemma activations_parse_iff d items l :
  List.forallb (encodable d) items = true ->
  try_map GenerationActivation.parse items = Ok l <->
  items = List.map (fun a => c.b (GenerationActivation.encode a)) l
  /\ List.forallb GenerationActivation.ok l = true.
Proof.
  intros Hv. rewrite try_map_ok. split.
  - induction 1 as [|v a items l Ha _ IH]; [done|]. simpl in Hv |- *.
    apply andb_true_iff in Hv as [Hv1 Hv2]. destruct (IH Hv2) as [-> ->].
    apply (activation_parse_iff d) in Ha as [-> ->]; done.
  - intros [-> Hl]. induction l as [|a l IH]; [constructor|]. simpl in Hv, Hl |- *.
    apply andb_true_iff in Hv as [Hv1 Hv2], Hl as [Hl1 Hl2].
    constructor; [by apply (activation_parse_iff d)|by apply IH].
Qed.

Lemma activation_safe v : safe (GenerationActivation.parse v).
Proof.
  destruct v; try done. unfold GenerationActivation.parse. apply safe_bind.
  - repeat case_match; try done.
    + apply safe_fmap, (wire_map_safe "TenantRootGenerationActivateV2"
        TenantRootGenerationActivateV2.parser TenantRootGenerationActivateV2.put
        TenantRootGenerationActivateV2.wf).
    + apply safe_fmap, (wire_map_safe "FleetKeyGenerationActivateV2"
        FleetKeyGenerationActivateV2.parser FleetKeyGenerationActivateV2.put
        FleetKeyGenerationActivateV2.wf).
  - intros a _. by case_match.
Qed.

(** The keys increase strictly along the whole list. *)
Lemma key_ltb_trans p q r :
  GenerationActivation.key_ltb p q = true -> GenerationActivation.key_ltb q r = true ->
  GenerationActivation.key_ltb p r = true.
Proof.
  destruct p as [[k1 f1] g1], q as [[k2 f2] g2], r as [[k3 f3] g3]. cbn.
  rewrite !orb_true_iff, !andb_true_iff.
  intros [H1|[H1 H1']] [H2|[H2 H2']]; [left; lia..|].
  right. split; [lia|].
  destruct (bytes_cmp f1 f2) eqn:E1, (bytes_cmp f2 f3) eqn:E2; try done.
  - apply bytes_cmp_eq in E1 as ->, E2 as ->. rewrite bytes_cmp_refl. lia.
  - apply bytes_cmp_eq in E1 as ->. by rewrite E2.
  - apply bytes_cmp_eq in E2 as <-. by rewrite E1.
  - assert (bytes_lt f1 f3) as -> by (by trans f2). done.
Qed.

Lemma key_ltb_irrefl p : GenerationActivation.key_ltb p p = false.
Proof.
  destruct p as [[k f] g]. cbn. rewrite bytes_cmp_refl, !Z.ltb_irrefl. by destruct (k =? k).
Qed.

Lemma increasing_sorted l :
  GenerationActivation.increasing l = true ->
  StronglySorted (fun x y => GenerationActivation.key_ltb (GenerationActivation.sort_key x)
                               (GenerationActivation.sort_key y) = true) l.
Proof.
  intros H. apply Sorted_StronglySorted; [intros x y z; apply key_ltb_trans|].
  induction l as [|x l IH]; [constructor|]. destruct l as [|y l].
  - repeat constructor.
  - cbn in H. apply andb_true_iff in H as [Hxy Hl]. constructor; [by apply IH|by constructor].
Qed.

Lemma increasing_NoDup l :
  GenerationActivation.increasing l = true ->
  NoDup (List.map GenerationActivation.sort_key l).
Proof.
  intros H%increasing_sorted. induction H as [|x l _ IH Hx]; [constructor|].
  constructor; [|done]. intros (y & Hy & Hin)%list_elem_of_In%in_map_iff.
  apply list_elem_of_In in Hin. eapply Forall_forall in Hx; [|done]. cbn in Hx.
  by rewrite Hy, key_ltb_irrefl in Hx.
Qed.

(** ** The request is a closed map *)

Section request.
Context (sha256 : bytes -> bytes).

Import DeviceRevokeRequestV2.

Lemma embedded_safe bs h : safe (embedded sha256 bs h).
Proof.
  unfold embedded. apply safe_bind; [apply record_parse_safe|]. intros s _. by case_match.
Qed.

Lemma request_structured : structured (parser sha256).
Proof.
  unfold parser.
  assert (forall l, structured (lift (try_map GenerationActivation.parse l) : fields _)) as H1
    by (intros l; apply structured_lift, try_map_safe, activation_safe).
  assert (forall bs h, structured (lift (embedded sha256 bs h) : fields _)) as H2
    by (intros bs h; apply structured_lift, embedded_safe).
  by_structure.
Qed.

Lemma request_sound f x f' :
  parser sha256 f = Ok (x, f') -> values_ok (Fields.entries f) = true ->
  values_normal (Fields.entries f) ->
  wf sha256 x = true /\ Fields.entries f ≡ₚ put x.
Proof.
  intros H Hv Hn. unfold parser in H.
  pose proof (gives_refl f) as G. collect G H. wire_facts. unfold gives in G.
  match goal with Ha : Fields.entries _ = [] |- _ => rewrite Ha, app_nil_r in G end.
  match goal with Hr : try_map GenerationActivation.parse ?items = Ok ?l |- _ =>
    destruct (array_entry (Fields.entries f) "activations" items Hv Hn) as [? _];
      [rewrite G; simpl; set_solver|];
    apply (activations_parse_iff 2) in Hr as [-> ?]; [|done] end.
  subst. unfold blen in *. rewrite !length_map in *. unfold wf, blen.
  cbn [signed_container_hash exact_signed_revocation_container_bytes activations].
  split; [|by rewrite G].
  repeat (apply andb_true_intro; split); wire_bool.
Qed.

Lemma request_run x :
  record_ok put (wf sha256) x = true ->
  exists f', parser sha256 (Fields.mk "DeviceRevokeRequestV2" (put x)) = Ok (x, f').
Proof.
  intros [Hv Hw]%andb_true_iff. destruct x as [hash bs acts]. unfold wf in Hw.
  cbn [signed_container_hash exact_signed_revocation_container_bytes activations] in Hw.
  rewrite !andb_true_iff in Hw. destruct_and! Hw.
  assert (blen acts = blen (List.map (fun a => c.b (GenerationActivation.encode a)) acts)) as Hl
    by (unfold blen; by rewrite length_map).
  assert (try_map GenerationActivation.parse
    (List.map (fun a => c.b (GenerationActivation.encode a)) acts) = Ok acts) as Hacts.
  { apply (activations_parse_iff 2); [|done].
    unfold values_ok, put in Hv. cbn [activations List.forallb snd] in Hv.
    rewrite !andb_true_iff in Hv. destruct Hv as (_ & _ & _ & _ & Hv & _). cbn [encodable] in Hv.
    by apply andb_true_iff in Hv as [_ Hv]. }
  match goal with He : is_ok (embedded _ _ _) = true |- _ =>
    apply is_ok_true in He as [[] He] end.
  rewrite Hl in *. unfold put.
  cbn [signed_container_hash exact_signed_revocation_container_bytes activations].
  set (items := List.map _ acts) in *. clearbody items. unfold parser. wire_facts. run_fields.
Qed.

#[local] Instance wire : WireMap "DeviceRevokeRequestV2" (parser sha256) put (wf sha256).
Proof.
  split; [apply request_sound|apply request_structured|apply request_run|..].
  - intros x. lazy. reflexivity.
  - intros x. unfold put. repeat (apply Forall_cons; split; [|]); try apply Forall_nil_2;
      cbn [snd]; try done.
    cbn [normalize]. f_equal. rewrite List.map_map. by apply List.map_ext.
Qed.

Lemma DeviceRevokeRequestV2_exact :
  exact_map (parse sha256) encode (record_ok put (wf sha256)).
Proof. intros payload x. exact (wire_map_exact _ _ _ _ payload x). Qed.

End request.

(** ** The properties *)

(** Both device revocation maps are exact: a request is accepted exactly when it is
    the encoding of a well-formed one (at most 65535 well-formed root or fleet
    activations under strictly increasing keys, and a signed record under the hash that
    names it), a stored response exactly when it encodes a record within its bounds. *)
Theorem device_revoke_maps_exact sha256 :
  exact_map (DeviceRevokeRequestV2.parse sha256) DeviceRevokeRequestV2.encode
    (record_ok DeviceRevokeRequestV2.put (DeviceRevokeRequestV2.wf sha256))
  /\ exact_map DeviceRevokedV2.parse DeviceRevokedV2.encode
       (record_ok DeviceRevokedV2.put DeviceRevokedV2.wf).
Proof.
  split; [apply DeviceRevokeRequestV2_exact|]. intros payload x. exact (wire_map_exact _ _ _ _ payload x).
Qed.

(** The generation rule of an activation. *)
Definition activation_rule (a : GenerationActivation.t) : Prop :=
  match a with
  | GenerationActivation.Root x =>
      root_generation_rule (TenantRootGenerationActivateV2.target x)
        (previous_root <$> TenantRootGenerationActivateV2.previous x)
  | GenerationActivation.Fleet x => generation_rule (FleetKeyGenerationActivateV2.terms x)
  end.

Lemma activation_ok_rule a : GenerationActivation.ok a = true -> activation_rule a.
Proof.
  destruct a; cbn; intros [_ Hw]%andb_true_iff; [by apply activate_wf_rule|by apply terms_wf_rule].
Qed.

(** C31. What a revocation commits is determined by its bytes: the embedded bytes are the
    container of one signed record over a well-formed payload, and the named hash is that
    record's; every activation follows its generation rule, their keys increase strictly,
    and so no generation of a fleet, and none of the tenant root, is activated twice. *)
Theorem accepted_revocation sha256 payload x :
  (forall b, length (sha256 b) = 32%nat) -> blen payload <= USIZE_MAX ->
  DeviceRevokeRequestV2.parse sha256 payload = Ok x ->
  let acts := DeviceRevokeRequestV2.activations x in
  (exists p issuer sig,
     Payload.ok p = true /\ Payload.self_signed p issuer = true
     /\ AuthorizationRecord.exact_signed_container_bytes (signed_record sha256 p issuer sig)
        = DeviceRevokeRequestV2.exact_signed_revocation_container_bytes x
     /\ AuthorizationRecord.signed_container_hash (signed_record sha256 p issuer sig)
        = DeviceRevokeRequestV2.signed_container_hash x)
  /\ Forall activation_rule acts
  /\ NoDup (List.map GenerationActivation.sort_key acts)
  /\ StronglySorted (fun a b => GenerationActivation.key_ltb (GenerationActivation.sort_key a)
                                  (GenerationActivation.sort_key b) = true) acts.
Proof.
  intros Hsha Hb [[_ Hw]%andb_true_iff _]%DeviceRevokeRequestV2_exact acts; [|done].
  unfold DeviceRevokeRequestV2.wf in Hw. rewrite !andb_true_iff in Hw. destruct_and! Hw.
  split_and!; [| |by apply increasing_NoDup|by apply increasing_sorted].
  - match goal with He : is_ok _ = true |- _ => apply is_ok_true in He as [[] He] end.
    unfold DeviceRevokeRequestV2.embedded in *.
    match goal with He : _ = Ok () |- _ => apply result_bind_ok in He as (s & Hs & He) end.
    case_bool_decide as Hh; [|done].
    apply record_parse_iff in Hs as (p & issuer & sig & ? & ? & ? & ? & -> & ?); [|done].
    by exists p, issuer, sig.
  - match goal with Ho : List.forallb _ _ = true |- _ =>
      rewrite List.forallb_forall in Ho; apply List.Forall_forall; intros a Ha end.
    apply activation_ok_rule. auto.
Qed.

Definition sample_revoke : DeviceRevokeRequestV2.t :=
  DeviceRevokeRequestV2.mk (AuthorizationRecord.signed_container_hash sample_signed)
    (AuthorizationRecord.exact_signed_container_bytes sample_signed)
    [GenerationActivation.Root sample_activate;
     GenerationActivation.Fleet (FleetKeyGenerationActivateV2.mk sample_terms)].

Lemma accepted_revocation_witness :
  DeviceRevokeRequestV2.parse toy_hash (DeviceRevokeRequestV2.encode sample_revoke)
  = Ok sample_revoke
  /\ NoDup (List.map GenerationActivation.sort_key
              (DeviceRevokeRequestV2.activations sample_revoke)).
Proof.
  assert (DeviceRevokeRequestV2.parse toy_hash (DeviceRevokeRequestV2.encode sample_revoke)
    = Ok sample_revoke) as Hp by (vm_compute; reflexivity).
  split; [exact Hp|].
  refine (proj1 (proj2 (proj2 (accepted_revocation toy_hash
    (DeviceRevokeRequestV2.encode sample_revoke) sample_revoke toy_hash_length _ Hp)))).
  vm_compute. discriminate.
Defined.
