(* ===== verification/Descriptors.v ===== *)
(** * Grant readback descriptors (shared/src/mutation.rs)

    The descriptor a server returns for a stored grant: the exact signed container,
    every column it determines and the two states. [encode] derives the columns from a
    verified record; [parse] verifies the embedded container under the key the caller
    trusts and requires the received bytes to be exactly that derivation. *)

From S2P Require Import Prelude Bytes Canonical CanonicalFacts CanonicalDecode CanonicalTheorems.
From S2P Require Import RecordFields WireMap Keys AuthzPayloads AuthzRecord RootLifecycle.

Definition DOMAIN_ROOT_GRANT_DESCRIPTOR := "shardx.keys.tenant-root-grant-descriptor.v2".
Definition DOMAIN_FLEET_DEVICE_GRANT_DESCRIPTOR := "shardx.keys.fleet-device-grant-descriptor.v2".
Definition MAX_DESCRIPTOR_BYTES : Z := 3 * MAX_RECORD_BYTES + 4096.

Import AuthorizationRecord (VerifiedRecord, Verified).

(** Every payload field under its own name, except the two that clash with the
    descriptor's. *)
Definition rename (kv : string * Value) : string * Value :=
  let '(k, v) := kv in
  if String.eqb k "domain" then ("payload_domain", v)
  else if String.eqb k "version" then ("payload_version", v)
  else (k, v).

Definition columns (domain : string) (r : AuthorizationRecord.t)
    (grant_state : RootGrantState.t) (generation_state : RootGenerationState.t)
    : list (string * Value) :=
  [("domain", c.t domain); ("version", c.u VERSION);
   ("container_domain", c.t CONTAINER_DOMAIN); ("container_version", c.u CONTAINER_VERSION);
   ("canonical_payload_bytes", c.b (AuthorizationRecord.canonical_payload_bytes r));
   ("payload_sha256", c.b (AuthorizationRecord.payload_sha256 r));
   ("signature_suite_id", c.u SIGNATURE_SUITE_ID_ED25519);
   ("signature_version", c.u SIGNATURE_VERSION);
   ("issuer_signing_key_id", c.b (AuthorizationRecord.issuer_signing_key_id r));
   ("signature_bytes", c.b (AuthorizationRecord.signature_bytes r));
   ("signed_container_hash", c.b (AuthorizationRecord.signed_container_hash r));
   ("exact_signed_container_bytes", c.b (AuthorizationRecord.exact_signed_container_bytes r));
   ("exact_signed_container_bytes_sha256",
    c.b (AuthorizationRecord.exact_signed_container_bytes_sha256 r));
   ("grant_state", c.t (RootGrantState.as_str grant_state));
   ("generation_state", c.t (RootGenerationState.as_str generation_state))].

(** The [unreachable!] is a panic. *)
Definition encode_descriptor (domain : string) (record : VerifiedRecord)
    (grant_state : RootGrantState.t) (generation_state : RootGenerationState.t)
    : result RecordError bytes :=
  let r := AuthorizationRecord.record record in
  match decode (AuthorizationRecord.canonical_payload_bytes r) with
  | Ok (Map payload) =>
      Ok (encode (Map (List.map rename payload ++ columns domain r grant_state generation_state)))
  | _ => Crash Panic
  end.

(** The fields [parse_descriptor] reads; the rest is checked by rebuilding. *)
Definition descriptor_fields (domain : string)
    : fields (bytes * RootGrantState.t * RootGenerationState.t) :=
  _ ← exact_version domain;
  container ← Fields.bytes "exact_signed_container_bytes" 1 MAX_RECORD_BYTES;
  grant_state ← Fields.text "grant_state";
  grant_state ← lift (ok_or (find_str RootGrantState.as_str RootGrantState.ALL grant_state)
                       (BadValue "grant_state"));
  generation_state ← Fields.text "generation_state";
  generation_state ← lift (ok_or (find_str RootGenerationState.as_str RootGenerationState.ALL
                                    generation_state) (BadValue "generation_state"));
  mret (container, grant_state, generation_state).

Section descriptors.
Context `{HE : !Ed25519} (sha256 : bytes -> bytes).

Definition parse_descriptor (map domain : string) (exact issuer_public_key : bytes)
    : result RecordError (VerifiedRecord * RootGrantState.t * RootGenerationState.t) :=
  if MAX_DESCRIPTOR_BYTES <? blen exact then Err (BadValue "descriptor")
  else
    taken ← parse_map map (descriptor_fields domain) exact;
    let '(container, grant_state, generation_state) := taken in
    parsed ← AuthorizationRecord.parse sha256 container;
    record ← AuthorizationRecord.verify_signature sha256 parsed issuer_public_key;
    mret (record, grant_state, generation_state).

End descriptors.

Module TenantRootGrantDescriptorV2.

Record t := mk {
  record : VerifiedRecord;
  grant_state : RootGrantState.t;
  generation_state : RootGenerationState.t }.

Definition new (record : VerifiedRecord) (grant_state : RootGrantState.t)
    (generation_state : RootGenerationState.t) : option t :=
  match AuthorizationRecord.verified_payload record with
  | Payload.TenantRootKeyGrant _ => Some (mk record grant_state generation_state)
  | _ => None
  end.

Definition encode (x : t) : result RecordError bytes :=
  encode_descriptor DOMAIN_ROOT_GRANT_DESCRIPTOR (record x) (grant_state x) (generation_state x).

Definition parse `{HE : !Ed25519} (sha256 : bytes -> bytes) (exact issuer_public_key : bytes)
    : result RecordError t :=
  parsed ← parse_descriptor sha256 "TenantRootGrantDescriptorV2" DOMAIN_ROOT_GRANT_DESCRIPTOR
             exact issuer_public_key;
  let '(record, grant_state, generation_state) := parsed in
  descriptor ← ok_or (new record grant_state generation_state) (BadValue "payload_domain");
  again ← encode descriptor;
  if negb (bool_decide (again = exact)) then Err (BadValue "descriptor") else Ok descriptor.

End TenantRootGrantDescriptorV2.

Module FleetDeviceGrantDescriptorV2.

Record t := mk {
  record : VerifiedRecord;
  grant_state : RootGrantState.t;
  generation_state : RootGenerationState.t }.

Definition new (record : VerifiedRecord) (grant_state : RootGrantState.t)
    (generation_state : RootGenerationState.t) : option t :=
  match AuthorizationRecord.verified_payload record with
  | Payload.DeviceHpkeGrant _ => Some (mk record grant_state generation_state)
  | _ => None
  end.

Definition encode (x : t) : result RecordError bytes :=
  encode_descriptor DOMAIN_FLEET_DEVICE_GRANT_DESCRIPTOR (record x) (grant_state x)
    (generation_state x).

Definition parse `{HE : !Ed25519} (sha256 : bytes -> bytes) (exact issuer_public_key : bytes)
    : result RecordError t :=
  parsed ← parse_descriptor sha256 "FleetDeviceGrantDescriptorV2"
             DOMAIN_FLEET_DEVICE_GRANT_DESCRIPTOR exact issuer_public_key;
  let '(record, grant_state, generation_state) := parsed in
  descriptor ← ok_or (new record grant_state generation_state) (BadValue "payload_domain");
  again ← encode descriptor;
  if negb (bool_decide (again = exact)) then Err (BadValue "descriptor") else Ok descriptor.

End FleetDeviceGrantDescriptorV2.

(** ** The entries of a descriptor *)

(** The payloads a descriptor can hold, and the domain of each descriptor. *)
Inductive describable : string -> Payload.t -> Prop :=
| root_descriptor p : describable DOMAIN_ROOT_GRANT_DESCRIPTOR (Payload.TenantRootKeyGrant p)
| fleet_descriptor p : describable DOMAIN_FLEET_DEVICE_GRANT_DESCRIPTOR (Payload.DeviceHpkeGrant p).

Section facts.
Context `{HE : !Ed25519} (sha256 : bytes -> bytes).
Context (sha256_length : forall x, length (sha256 x) = 32%nat).

Definition descriptor_entries (domain : string) (p : Payload.t) (issuer sig : bytes)
    (gs : RootGrantState.t) (ns : RootGenerationState.t) : list (string * Value) :=
  List.map rename (Payload.put p) ++ columns domain (signed_record sha256 p issuer sig) gs ns.

Lemma rename_values es :
  values_ok (List.map rename es) = values_ok es
  /\ (values_normal es -> values_normal (List.map rename es)).
Proof.
  assert (forall kv, (rename kv).2 = kv.2) as Hr
    by (intros [k v]; unfold rename; by repeat case_match).
  split.
  - unfold values_ok. induction es as [|kv es IH]; [done|]. simpl. by rewrite Hr, IH.
  - intros H. apply Forall_map. eapply Forall_impl; [exact H|]. intros kv. cbn. by rewrite Hr.
Qed.

Lemma descriptor_keys domain p issuer sig gs ns :
  describable domain p -> keys_ok (descriptor_entries domain p issuer sig gs ns) = true.
Proof.
  intros [g|g]; unfold descriptor_entries, columns; cbn [Payload.put].
  - unfold TenantRootKeyGrantV2.put. destruct g as [? [] ? ? ? ? ? ? ? ? ?]; lazy; reflexivity.
  - destruct g. lazy. reflexivity.
Qed.

Lemma columns_normal domain r gs ns : values_normal (columns domain r gs ns).
Proof. unfold columns. by repeat (apply Forall_cons; split; [done|]). Qed.

Lemma descriptor_normal domain p issuer sig gs ns :
  values_normal (descriptor_entries domain p issuer sig gs ns).
Proof.
  apply Forall_app. split; [apply rename_values, payload_normal|apply columns_normal].
Qed.

Lemma descriptor_values domain p issuer sig gs ns :
  describable domain p -> Payload.ok p = true -> blen issuer = 32 ->
  blen sig = ED25519_SIG_LEN ->
  values_ok (descriptor_entries domain p issuer sig gs ns) = true.
Proof.
  intros Hd Hp Hi Hs. unfold descriptor_entries, values_ok. rewrite List.forallb_app.
  apply andb_true_iff. split.
  - pose proof Hp as [Hv _]%andb_true_iff. rewrite <- (proj1 (rename_values _)) in Hv. done.
  - destruct (record_fields_ok sha256 sha256_length p issuer sig Hp Hi Hs) as [_ Hl].
    pose proof (payload_encode_size p Hp) as Hsize.
    unfold columns, signed_record. cbn [List.forallb snd].
    cbn [AuthorizationRecord.canonical_payload_bytes AuthorizationRecord.payload_sha256
      AuthorizationRecord.issuer_signing_key_id AuthorizationRecord.signature_bytes
      AuthorizationRecord.signed_container_hash AuthorizationRecord.exact_signed_container_bytes
      AuthorizationRecord.exact_signed_container_bytes_sha256 RecordContainer.payload_bytes
      RecordContainer.payload_sha256 RecordContainer.container_hash record_fields] in *.
    unfold domain_hash, c.b. cbn [encodable]. rewrite ?(sha_blen sha256 sha256_length).
    unfold wire_len, U64_MAX, ED25519_SIG_LEN, MAX_RECORD_BYTES, MAX_PAYLOAD_BYTES,
      MAX_SIGNATURE_BYTES in *.
    rewrite !andb_true_iff. split_and!; try lia; try reflexivity;
      try (by destruct Hd); try (by destruct gs); by destruct ns.
Qed.

Lemma descriptor_size domain p issuer sig gs ns :
  describable domain p -> Payload.ok p = true -> blen issuer = 32 ->
  blen sig = ED25519_SIG_LEN ->
  blen (encode (c.m (descriptor_entries domain p issuer sig gs ns))) <= MAX_DESCRIPTOR_BYTES.
Proof.
  intros Hd Hp Hi Hs.
  destruct (record_fields_ok sha256 sha256_length p issuer sig Hp Hi Hs) as [_ Hl].
  pose proof (payload_encode_size p Hp) as Hsize. apply andb_true_iff in Hp as [_ Hw].
  etrans; [apply encode_size|]. unfold descriptor_entries, columns, signed_record.
  cbn [AuthorizationRecord.canonical_payload_bytes AuthorizationRecord.payload_sha256
    AuthorizationRecord.issuer_signing_key_id AuthorizationRecord.signature_bytes
    AuthorizationRecord.signed_container_hash AuthorizationRecord.exact_signed_container_bytes
    AuthorizationRecord.exact_signed_container_bytes_sha256 RecordContainer.payload_bytes
    RecordContainer.payload_sha256 RecordContainer.container_hash record_fields] in *.
  pose proof (sha_blen sha256 sha256_length) as Hsha.
  unfold domain_hash, ED25519_SIG_LEN in *.
  set (cont := encode (c.m (RecordContainer.put _))) in *. clearbody cont.
  set (pb := Payload.encode p) in *. clearbody pb.
  set (core := encode (c.m (_ ++ _))). clearbody core.
  pose proof (Hsha pb) as H1. pose proof (Hsha (domain_preimage L_SIGNED_CONTAINER core)) as H2.
  pose proof (Hsha cont) as H3.
  set (h1 := sha256 pb) in *. set (h2 := sha256 (domain_preimage _ core)) in *.
  set (h3 := sha256 cont) in *. clearbody h1 h2 h3.
  assert (blen (as_bytes (RootGrantState.as_str gs)) <= 16) as Hg by (by destruct gs).
  assert (blen (as_bytes (RootGenerationState.as_str ns)) <= 16) as Hn by (by destruct ns).
  unfold MAX_DESCRIPTOR_BYTES, MAX_RECORD_BYTES, MAX_PAYLOAD_BYTES, MAX_SIGNATURE_BYTES in *.
  destruct Hd as [[[] [] ? ? ? ? ? ? ? ? ?]|[[] ? ? ? ? ? ? ? ? ?]];
    cbn [Payload.wf Payload.put] in *; autounfold with wire_unfold in *;
    cbn -[Z.leb Z.ltb Z.eqb blen as_bytes] in Hw; wire_facts;
    cbn -[Z.add Z.mul blen as_bytes RootGrantState.as_str RootGenerationState.as_str];
    set (n1 := blen (as_bytes (RootGrantState.as_str gs))) in *;
    set (n2 := blen (as_bytes (RootGenerationState.as_str ns))) in *; clearbody n1 n2;
    eval_lengths; lia.
Qed.

(** The encoder writes those entries: the payload of a record decodes to what was
    encoded, so the panic is unreachable. *)
Lemma encode_descriptor_signed domain p issuer sig gs ns :
  describable domain p -> Payload.ok p = true ->
  encode_descriptor domain (Verified (signed_record sha256 p issuer sig)) gs ns
  = Ok (encode (c.m (descriptor_entries domain p issuer sig gs ns))).
Proof.
  intros Hd Hp. unfold encode_descriptor. cbn [AuthorizationRecord.record].
  change (AuthorizationRecord.canonical_payload_bytes (signed_record sha256 p issuer sig))
    with (Payload.encode p).
  pose proof (payload_encode_size p Hp) as Hsize. pose proof Hp as [Hv _]%andb_true_iff.
  destruct (fields_decode_encode "" (Payload.put p) Hv (payload_keys p) (payload_normal p))
    as (es & He & Hperm).
  { unfold Payload.encode, c.m, MAX_PAYLOAD_BYTES, USIZE_MAX, U64_MAX in *. lia. }
  unfold Fields.decode in He. rewrite roundtrip_is_decode in He.
  apply result_bind_ok in He as (v & Hdec%map_err_ok & Ho).
  unfold Payload.encode, c.m. rewrite Hdec. destruct v; try done.
  cbn [Fields.open] in Ho. injection Ho as ->. f_equal. symmetry. apply encode_perm.
  - by apply keys_ok_NoDup, descriptor_keys.
  - unfold descriptor_entries. f_equiv. apply Permutation_map. by rewrite Hperm.
Qed.

End facts.

(** ** The properties *)

(** A record obtained the only way the library gives one: parsed from its container and
    verified under the key [pk]. *)
Definition genuine `{HE : !Ed25519} (sha256 : bytes -> bytes) (pk : bytes) (v : VerifiedRecord)
    : Prop :=
  exists s, AuthorizationRecord.parse sha256 (AuthorizationRecord.exact_signed_container_bytes s)
            = Ok s
    /\ AuthorizationRecord.verify_signature sha256 s pk = Ok v.

Section parsing.
Context `{HE : !Ed25519} (sha256 : bytes -> bytes).
Context (sha256_length : forall x, length (sha256 x) = 32%nat).

Lemma descriptor_fields_structured domain : structured (descriptor_fields domain).
Proof. unfold descriptor_fields. by_structure. Qed.

Lemma parse_descriptor_sound map domain exact pk v gs ns :
  parse_descriptor sha256 map domain exact pk = Ok (v, gs, ns) -> genuine sha256 pk v.
Proof.
  unfold parse_descriptor. case_match; [done|].
  intros ([[container g] n] & _ & Hr)%result_bind_ok.
  apply result_bind_ok in Hr as (s & Hs & Hr).
  apply result_bind_ok in Hr as (v' & Hv & [= -> -> ->]).
  exists s. split; [|done].
  pose proof Hs as (p & issuer & sig & ? & ? & ? & ? & _ & ->)%record_parse_iff; done.
Qed.

Lemma descriptor_fields_run map domain p issuer sig gs ns :
  describable domain p ->
  blen (AuthorizationRecord.exact_signed_container_bytes (signed_record sha256 p issuer sig))
    <= MAX_RECORD_BYTES ->
  exists f', descriptor_fields domain
      (Fields.mk map (descriptor_entries sha256 domain p issuer sig gs ns))
    = Ok (AuthorizationRecord.exact_signed_container_bytes (signed_record sha256 p issuer sig),
          gs, ns, f').
Proof.
  intros Hd Hl. unfold descriptor_entries, columns.
  assert (1 <= blen (AuthorizationRecord.exact_signed_container_bytes
    (signed_record sha256 p issuer sig))) as Hl1 by apply encode_pos.
  set (s := signed_record sha256 p issuer sig) in *. clearbody s.
  destruct Hd as [[? [] ? ? ? ? ? ? ? ? ?]|[? ? ? ? ? ? ? ? ? ?]]; unfold descriptor_fields;
    destruct gs, ns; run_fields.
Qed.

Lemma parse_descriptor_run map domain p pk v gs ns exact :
  describable domain p -> genuine sha256 pk v -> AuthorizationRecord.verified_payload v = p ->
  encode_descriptor domain v gs ns = Ok exact ->
  parse_descriptor sha256 map domain exact pk = Ok (v, gs, ns).
Proof.
  intros Hd (s & Hs & Hv) Hp He.
  pose proof Hs as (q & issuer & sig & Hq & Hi & Hsig & _ & -> & _)%record_parse_iff; [|done].
  pose proof Hv as (-> & _)%record_verify. cbn in Hp. subst q.
  rewrite encode_descriptor_signed in He by done.
  assert (exact = encode (c.m (descriptor_entries sha256 domain p issuer sig gs ns))) as ->
    by congruence. clear He.
  pose proof (descriptor_size sha256 sha256_length domain p issuer sig gs ns Hd Hq Hi Hsig) as Hsz.
  unfold parse_descriptor. rewrite (proj2 (Z.ltb_ge _ _)) by done.
  destruct (descriptor_fields_run map domain p issuer sig gs ns Hd) as [f' Hf];
    [by apply record_fields_ok|].
  assert (parse_map map (descriptor_fields domain)
            (encode (c.m (descriptor_entries sha256 domain p issuer sig gs ns)))
          = Ok (AuthorizationRecord.exact_signed_container_bytes
                  (signed_record sha256 p issuer sig), gs, ns)) as ->.
  { eapply parse_map_run; [apply descriptor_fields_structured|by apply descriptor_values
      |by apply descriptor_keys|apply descriptor_normal| |exact Hf].
    unfold MAX_DESCRIPTOR_BYTES, MAX_RECORD_BYTES, MAX_PAYLOAD_BYTES, MAX_SIGNATURE_BYTES,
      USIZE_MAX, U64_MAX in *. lia. }
  unfold mbind, result_bind. by rewrite Hs, Hv.
Qed.

Lemma parse_descriptor_safe map domain exact pk :
  safe (parse_descriptor sha256 map domain exact pk).
Proof.
  unfold parse_descriptor. case_match; [done|].
  apply safe_bind; [apply parse_map_safe, descriptor_fields_structured|].
  intros [[container g] n] _. apply safe_bind; [apply record_parse_safe|]. intros s _.
  apply safe_bind; [apply record_verify_safe|done].
Qed.

Lemma genuine_encodes domain pk v gs ns :
  genuine sha256 pk v -> describable domain (AuthorizationRecord.verified_payload v) ->
  exists exact, encode_descriptor domain v gs ns = Ok exact.
Proof.
  intros (s & (p & issuer & sig & ? & ? & ? & ? & -> & _)%record_parse_iff & (-> & _)%record_verify)
    Hd; [|done]. cbn in Hd. eexists. by apply encode_descriptor_signed.
Qed.

Lemma root_new v gs ns d :
  TenantRootGrantDescriptorV2.new v gs ns = Some d <->
  d = TenantRootGrantDescriptorV2.mk v gs ns
  /\ exists g, AuthorizationRecord.verified_payload v = Payload.TenantRootKeyGrant g.
Proof. unfold TenantRootGrantDescriptorV2.new. case_match; naive_solver. Qed.

Lemma fleet_new v gs ns d :
  FleetDeviceGrantDescriptorV2.new v gs ns = Some d <->
  d = FleetDeviceGrantDescriptorV2.mk v gs ns
  /\ exists g, AuthorizationRecord.verified_payload v = Payload.DeviceHpkeGrant g.
Proof. unfold FleetDeviceGrantDescriptorV2.new. case_match; naive_solver. Qed.

(** [parse] of either descriptor, over its [new] and its domain: the two differ in
    nothing else. *)
Definition rebuild {D} (map domain : string)
    (new : VerifiedRecord -> RootGrantState.t -> RootGenerationState.t -> option D)
    (encode : D -> result RecordError bytes) (exact pk : bytes) : result RecordError D :=
  parsed ← parse_descriptor sha256 map domain exact pk;
  let '(record, grant_state, generation_state) := parsed in
  descriptor ← ok_or (new record grant_state generation_state) (BadValue "payload_domain");
  again ← encode descriptor;
  if negb (bool_decide (again = exact)) then Err (BadValue "descriptor") else Ok descriptor.

Lemma rebuild_spec {D} map domain new (mk : _ -> _ -> _ -> D) encode (kind : Payload.t -> Prop)
    exact pk :
  (forall v gs ns d, new v gs ns = Some d <->
     d = mk v gs ns /\ kind (AuthorizationRecord.verified_payload v)) ->
  (forall v gs ns, encode (mk v gs ns) = encode_descriptor domain v gs ns) ->
  (forall p, kind p -> describable domain p) ->
  (forall v gs ns v' gs' ns', mk v gs ns = mk v' gs' ns' -> v = v' /\ gs = gs' /\ ns = ns') ->
  (forall v gs ns, rebuild map domain new encode exact pk = Ok (mk v gs ns) <->
   genuine sha256 pk v /\ kind (AuthorizationRecord.verified_payload v)
   /\ encode (mk v gs ns) = Ok exact)
  /\ safe (rebuild map domain new encode exact pk).
Proof.
  intros Hnew Henc His Hinj. unfold rebuild. split; [intros v gs ns; split|].
  - intros ([[v' gs'] ns'] & Hp & H)%result_bind_ok.
    apply result_bind_ok in H as (d & [-> Hv]%ok_or_ok%Hnew & H).
    apply result_bind_ok in H as (again & He & H). case_bool_decide as Hx; [|done].
    injection H as (<- & <- & <-)%Hinj. subst again.
    split_and!; [by eapply parse_descriptor_sound|done|done].
  - intros (Hg & Hv & He). pose proof He as He'. rewrite Henc in He'.
    rewrite (parse_descriptor_run map domain _ pk v gs ns exact (His _ Hv)) by done.
    unfold mbind at 1, result_bind at 1.
    rewrite (proj2 (Hnew v gs ns _)) by done. unfold mbind, result_bind, ok_or.
    by rewrite He, bool_decide_true.
  - apply safe_bind; [apply parse_descriptor_safe|].
    intros [[v' gs'] ns'] Hg%parse_descriptor_sound. apply safe_bind.
    + intros c. by destruct (new v' gs' ns').
    + intros d [-> Hv]%ok_or_ok%Hnew. rewrite Henc.
      destruct (genuine_encodes domain pk v' gs' ns' Hg (His _ Hv)) as [b ->].
      intros c. cbn. by case_match.
Qed.

End parsing.

(** C27. A descriptor is exactly the derivation of a genuine record: whatever the server
    returns, it is accepted under a key precisely when it is the encoding of a root grant
    (or fleet device grant) record that verifies under that key, with a grant and a
    generation state; no column can disagree with the signed container, be missing or be
    added, and the panic of the encoder is never reached. *)
Theorem descriptor_exact `{HE : !Ed25519} sha256 exact pk :
  (forall x, length (sha256 x) = 32%nat) ->
  (forall d, TenantRootGrantDescriptorV2.parse sha256 exact pk = Ok d <->
     genuine sha256 pk (TenantRootGrantDescriptorV2.record d)
     /\ (exists g, AuthorizationRecord.verified_payload (TenantRootGrantDescriptorV2.record d)
                   = Payload.TenantRootKeyGrant g)
     /\ TenantRootGrantDescriptorV2.encode d = Ok exact)
  /\ (forall d, FleetDeviceGrantDescriptorV2.parse sha256 exact pk = Ok d <->
     genuine sha256 pk (FleetDeviceGrantDescriptorV2.record d)
     /\ (exists g, AuthorizationRecord.verified_payload (FleetDeviceGrantDescriptorV2.record d)
                   = Payload.DeviceHpkeGrant g)
     /\ FleetDeviceGrantDescriptorV2.encode d = Ok exact)
  /\ safe (TenantRootGrantDescriptorV2.parse sha256 exact pk)
  /\ safe (FleetDeviceGrantDescriptorV2.parse sha256 exact pk).
Proof.
  intros Hsha.
  assert (forall p, (exists g, p = Payload.TenantRootKeyGrant g) ->
    describable DOMAIN_ROOT_GRANT_DESCRIPTOR p) as Hr by (intros p [g ->]; constructor).
  assert (forall p, (exists g, p = Payload.DeviceHpkeGrant g) ->
    describable DOMAIN_FLEET_DEVICE_GRANT_DESCRIPTOR p) as Hf by (intros p [g ->]; constructor).
  destruct (rebuild_spec sha256 Hsha "TenantRootGrantDescriptorV2" _ _ _
    TenantRootGrantDescriptorV2.encode _ exact pk root_new (fun _ _ _ => eq_refl) Hr)
    as [Hroot Hroot']; [naive_solver|].
  destruct (rebuild_spec sha256 Hsha "FleetDeviceGrantDescriptorV2" _ _ _
    FleetDeviceGrantDescriptorV2.encode _ exact pk fleet_new (fun _ _ _ => eq_refl) Hf)
    as [Hfleet Hfleet']; [naive_solver|].
  split_and!; [intros []; apply Hroot|intros []; apply Hfleet|done|done].
Qed.

Definition sample_descriptor : TenantRootGrantDescriptorV2.t :=
  TenantRootGrantDescriptorV2.mk (Verified sample_signed) RootGrantState.Acknowledged
    RootGenerationState.Active.

Lemma descriptor_exact_witness :
  exists exact, TenantRootGrantDescriptorV2.encode sample_descriptor = Ok exact
    /\ TenantRootGrantDescriptorV2.parse toy_hash exact (ed_public sample_record_sk)
       = Ok sample_descriptor.
Proof.
  assert (is_ok (TenantRootGrantDescriptorV2.encode sample_descriptor) = true) as He
    by (vm_compute; reflexivity).
  destruct (TenantRootGrantDescriptorV2.encode sample_descriptor) as [exact| |] eqn:E;
    [|discriminate He..].
  exists exact. split; [reflexivity|].
  apply (proj1 (descriptor_exact toy_hash exact (ed_public sample_record_sk) toy_hash_length)).
  split; [exists sample_signed; split; vm_compute; reflexivity|].
  split; [exists sample_self_grant; reflexivity|exact E].
Defined.
