(* ===== verification/Journal.v ===== *)
(** * Restore and downgrade journals (src-tauri/src/team/journal.rs)

    The phases and the chains they move along, the rows of the two tables with the
    constraints of the schema (src-tauri/src/team/db.rs), and every operation as a
    transaction: it commits, or leaves the tables as they were. *)

From S2P Require Import Prelude Bytes RecordFields.

(** [anyhow] errors by their code; [Constraint] is a statement SQLite refuses. *)
Inductive JournalError :=
| UnknownPhase (phase : string)
| LedgerUnreadable
| ReadbackMismatch (field : string)
| BadTransition (from to : string)
| OutOfRange (field : string)
| NotFound
| NotSettled (phase : string)
| FlowTaken
| NotBound
| MissingField (phase : string)
| Constraint.

(** ** Phases *)

(** [parse] of the [phases!] macro. *)
Definition parse_phase {A} (as_str : A -> string) (variants : list A) (text : string)
    : result JournalError A :=
  match find_str as_str variants text with
  | Some p => Ok p
  | None => Err (UnknownPhase text)
  end.

(** [chain.iter().position(|p| *p == self)], then [chain.get(i + 1)]. *)
Definition next_in {A} `{EqDecision A} (chain : list A) (p : A) : option A :=
  '(i, _) ← list_find (fun q => q = p) chain;
  chain !! S i.

Inductive Resume := Abort | Rollback | Continue | Settled.

Module RestorePhase.

Inductive t :=
| Created | Downloading | Verified | Extracting | Validated | Resealed | SwapStarted
| Swapped | SmokePassed | RollbackRequired | RolledBack | Completed.

#[global] Instance eq_dec : EqDecision t.
Proof. solve_decision. Defined.

Definition variants : list t :=
  [Created; Downloading; Verified; Extracting; Validated; Resealed; SwapStarted;
   Swapped; SmokePassed; RollbackRequired; RolledBack; Completed].

Definition as_str (x : t) : string :=
  match x with
  | Created => "CREATED"
  | Downloading => "DOWNLOADING"
  | Verified => "VERIFIED"
  | Extracting => "EXTRACTING"
  | Validated => "VALIDATED"
  | Resealed => "RESEALED"
  | SwapStarted => "SWAP_STARTED"
  | Swapped => "SWAPPED"
  | SmokePassed => "SMOKE_PASSED"
  | RollbackRequired => "ROLLBACK_REQUIRED"
  | RolledBack => "ROLLED_BACK"
  | Completed => "COMPLETED"
  end.

Definition parse : string -> result JournalError t := parse_phase as_str variants.

Definition RESTORE_FORWARD : list t :=
  [Created; Downloading; Verified; Extracting; Validated; Resealed; SwapStarted;
   Swapped; SmokePassed; Completed].

Definition allows (self to : t) : bool :=
  match self, to with
  | RollbackRequired, RolledBack => true
  | (Completed | RolledBack | RollbackRequired), _ => false
  | _, RollbackRequired => true
  | _, _ => bool_decide (next_in RESTORE_FORWARD self = Some to)
  end.

Definition is_terminal (self : t) : bool :=
  match self with Completed | RolledBack => true | _ => false end.

Definition resume (self : t) : Resume :=
  match self with
  | Created | Downloading | Verified | Extracting | Validated | Resealed => Abort
  | SwapStarted | RollbackRequired => Rollback
  | Swapped | SmokePassed => Continue
  | Completed | RolledBack => Settled
  end.

End RestorePhase.

Module Mode.

Inductive t := Clone | PreV2Restore.

#[global] Instance eq_dec : EqDecision t.
Proof. solve_decision. Defined.

Definition variants : list t := [Clone; PreV2Restore].

Definition as_str (x : t) : string :=
  match x with Clone => "CLONE" | PreV2Restore => "PRE_V2_RESTORE" end.

Definition parse : string -> result JournalError t := parse_phase as_str variants.

End Mode.

Module DowngradePhase.

Inductive t :=
| Created | Claimed | OriginalMetadataMoved | OriginalUserDataMoved | DiscoveryScanPassed
| CloneWritten | PreV2SetRestored | TeamArtifactsRetired | ReadbackPassed | Completed
| RollbackRequired | RolledBack.

#[global] Instance eq_dec : EqDecision t.
Proof. solve_decision. Defined.

Definition variants : list t :=
  [Created; Claimed; OriginalMetadataMoved; OriginalUserDataMoved; DiscoveryScanPassed;
   CloneWritten; PreV2SetRestored; TeamArtifactsRetired; ReadbackPassed; Completed;
   RollbackRequired; RolledBack].

Definition as_str (x : t) : string :=
  match x with
  | Created => "CREATED"
  | Claimed => "CLAIMED"
  | OriginalMetadataMoved => "ORIGINAL_METADATA_MOVED"
  | OriginalUserDataMoved => "ORIGINAL_USER_DATA_MOVED"
  | DiscoveryScanPassed => "DISCOVERY_SCAN_PASSED"
  | CloneWritten => "CLONE_WRITTEN"
  | PreV2SetRestored => "PRE_V2_SET_RESTORED"
  | TeamArtifactsRetired => "TEAM_ARTIFACTS_RETIRED"
  | ReadbackPassed => "READBACK_PASSED"
  | Completed => "COMPLETED"
  | RollbackRequired => "ROLLBACK_REQUIRED"
  | RolledBack => "ROLLED_BACK"
  end.

Definition parse : string -> result JournalError t := parse_phase as_str variants.

Definition CLONE_CHAIN : list t :=
  [Created; Claimed; OriginalMetadataMoved; OriginalUserDataMoved; DiscoveryScanPassed;
   CloneWritten; ReadbackPassed; Completed].

Definition PRE_V2_CHAIN : list t :=
  [Created; Claimed; PreV2SetRestored; TeamArtifactsRetired; ReadbackPassed; Completed].

Definition chain (mode : Mode.t) : list t :=
  match mode with Mode.Clone => CLONE_CHAIN | Mode.PreV2Restore => PRE_V2_CHAIN end.

Definition allows (self : t) (mode : Mode.t) (to : t) : bool :=
  match self, to with
  | RollbackRequired, RolledBack => true
  | (Completed | RolledBack | RollbackRequired), _ => false
  | _, RollbackRequired => true
  | _, _ => bool_decide (next_in (chain mode) self = Some to)
  end.

Definition is_terminal (self : t) : bool :=
  match self with Completed | RolledBack => true | _ => false end.

Definition resume (self : t) : Resume :=
  match self with
  | RollbackRequired => Rollback
  | Completed | RolledBack => Settled
  | _ => Continue
  end.

End DowngradePhase.

(** ** Journals and their rows

    A row holds what the columns hold; [updated_at] is never read and left out. *)

Module RestoreJournal.

Record t := mk {
  local_profile_id : string;
  journal_id : string;
  phase : RestorePhase.t;
  staged_path : string;
  backup_path : string;
  old_binding_json : string;
  target_version : Z;
  target_head_hash : bytes }.

#[global] Instance eq_dec : EqDecision t.
Proof. solve_decision. Defined.

Definition with_phase (x : t) (phase : RestorePhase.t) : t :=
  mk (local_profile_id x) (journal_id x) phase (staged_path x) (backup_path x)
    (old_binding_json x) (target_version x) (target_head_hash x).

End RestoreJournal.

Module RestoreRow.

Record t := mk {
  local_profile_id : string;
  journal_id : string;
  phase : string;
  staged_path : string;
  backup_path : string;
  old_binding_json : string;
  target_version : Z;
  target_head_hash : bytes;
  created_at : string }.

Definition with_phase (x : t) (phase : string) : t :=
  mk (local_profile_id x) (journal_id x) phase (staged_path x) (backup_path x)
    (old_binding_json x) (target_version x) (target_head_hash x) (created_at x).

(** The CHECK constraints. *)
Definition check (x : t) : bool :=
  List.existsb (String.eqb (phase x)) (List.map RestorePhase.as_str RestorePhase.variants)
  && (0 <=? target_version x) && (target_version x <=? I64_MAX)
  && (blen (target_head_hash x) =? 32).

End RestoreRow.

Module DowngradeJournal.

Record t := mk {
  journal_id : string;
  mode : Mode.t;
  original_local_profile_id : string;
  new_local_profile_id : option string;
  phase : DowngradePhase.t;
  original_metadata_archive_path : option string;
  original_user_data_archive_path : option string;
  pre_v2_manifest_sha256 : option bytes;
  discovery_readback_sha256 : option bytes }.

#[global] Instance eq_dec : EqDecision t.
Proof. solve_decision. Defined.

End DowngradeJournal.

Module Patch.

Record t := mk {
  pre_v2_manifest_sha256 : option bytes;
  discovery_readback_sha256 : option bytes }.

Definition default : t := mk None None.

End Patch.

Module DowngradeRow.

Record t := mk {
  journal_id : string;
  mode : string;
  original_local_profile_id : string;
  new_local_profile_id : option string;
  phase : string;
  original_metadata_archive_path : option string;
  original_user_data_archive_path : option string;
  pre_v2_manifest_sha256 : option bytes;
  discovery_readback_sha256 : option bytes;
  created_at : string }.

(** What [downgrade_advance] sets. *)
Definition updated (x : t) (phase : string) (pre_v2 readback : option bytes) : t :=
  mk (journal_id x) (mode x) (original_local_profile_id x) (new_local_profile_id x) phase
    (original_metadata_archive_path x) (original_user_data_archive_path x) pre_v2 readback
    (created_at x).

Definition check (x : t) : bool :=
  List.existsb (String.eqb (mode x)) (List.map Mode.as_str Mode.variants)
  && List.existsb (String.eqb (phase x)) (List.map DowngradePhase.as_str DowngradePhase.variants)
  && opt_ok (fun h => blen h =? 32) (pre_v2_manifest_sha256 x)
  && opt_ok (fun h => blen h =? 32) (discovery_readback_sha256 x)
  && opt_ok (fun new => negb (String.eqb new (original_local_profile_id x)))
       (new_local_profile_id x).

End DowngradeRow.

(** ** The database

    Tables in [rowid] order. Of [profile_bindings] only the key is read here. *)
Record Db := mk_db {
  profile_bindings : list string;
  restore_journals : list RestoreRow.t;
  downgrade_journals : list DowngradeRow.t }.

(** A transaction: what it reads and writes; an error rolls it back. *)
Abbreviation txn := (SM Db JournalError).

Definition transact {A} (m : txn A) (db : Db) : result JournalError A * Db :=
  match m db with
  | Ok (a, db') => (Ok a, db')
  | Err e => (Err e, db)
  | Crash c => (Crash c, db)
  end.

Definition tables : txn Db := fun db => Ok (db, db).

(** [ORDER BY created_at, rowid]: a stable sort of the rows. *)
Fixpoint insert_by {A} (key : A -> string) (x : A) (l : list A) : list A :=
  match l with
  | [] => [x]
  | y :: l' =>
      match bytes_cmp (as_bytes (key x)) (as_bytes (key y)) with
      | Gt => y :: insert_by key x l'
      | _ => x :: l
      end
  end.
Definition order_by {A} (key : A -> string) (l : list A) : list A := foldr (insert_by key) [] l.

(** [SELECT .. WHERE key], the first row, through the row's reader. *)
Definition query_row {R J} (read : R -> result JournalError J) (where_ : R -> bool)
    (rows : list R) : result JournalError (option J) :=
  match List.find where_ rows with
  | None => Ok None
  | Some r => Some <$> read r
  end.

Definition update_rows {R} (where_ : R -> bool) (set : R -> R) (check : R -> bool)
    (rows : list R) : result JournalError (list R) :=
  try_map (fun r => if where_ r then (if check (set r) then Ok (set r) else Err Constraint)
                    else Ok r) rows.

(** ** Flows *)

(** [flow_taken_in]: a restore journal, or a downgrade journal not rolled back. *)
Definition flow_taken (db : Db) (local : string) : bool :=
  List.existsb (fun r => String.eqb (RestoreRow.local_profile_id r) local) (restore_journals db)
  || List.existsb (fun r => String.eqb (DowngradeRow.original_local_profile_id r) local
                           && negb (String.eqb (DowngradeRow.phase r) "ROLLED_BACK"))
       (downgrade_journals db).

Definition refuse_second_flow (local : string) : txn unit :=
  db ← tables;
  fail_if (flow_taken db local) FlowTaken.

(** ** Restore journals *)

(** [u64::try_from] of the [i64] column; the head hash is an array of 32 bytes. *)
Definition restore_row (r : RestoreRow.t) : result JournalError RestoreJournal.t :=
  phase ← RestorePhase.parse (RestoreRow.phase r);
  if RestoreRow.target_version r <? 0 then Err LedgerUnreadable
  else if negb (blen (RestoreRow.target_head_hash r) =? 32) then Err LedgerUnreadable
  else
    Ok (RestoreJournal.mk (RestoreRow.local_profile_id r) (RestoreRow.journal_id r) phase
          (RestoreRow.staged_path r) (RestoreRow.backup_path r) (RestoreRow.old_binding_json r)
          (RestoreRow.target_version r) (RestoreRow.target_head_hash r)).

Definition is_restore (local : string) (r : RestoreRow.t) : bool :=
  String.eqb (RestoreRow.local_profile_id r) local.

Definition restore_in (db : Db) (local : string) : result JournalError (option RestoreJournal.t) :=
  query_row restore_row (is_restore local) (restore_journals db).

Definition restore_get : Db -> string -> result JournalError (option RestoreJournal.t) := restore_in.

Definition restore_open (db : Db) : result JournalError (list RestoreJournal.t) :=
  journals ← try_map restore_row (order_by RestoreRow.created_at (restore_journals db));
  Ok (List.filter (fun j => negb (RestorePhase.is_terminal (RestoreJournal.phase j))) journals).

(** [INSERT]: the keys of the table, its checks, its key to [profile_bindings]. *)
Definition insert_restore (r : RestoreRow.t) : txn unit :=
  fun db =>
    if RestoreRow.check r
       && negb (List.existsb (is_restore (RestoreRow.local_profile_id r)) (restore_journals db))
       && negb (List.existsb (fun q => String.eqb (RestoreRow.journal_id q)
                                          (RestoreRow.journal_id r)) (restore_journals db))
       && List.existsb (String.eqb (RestoreRow.local_profile_id r)) (profile_bindings db)
    then Ok (tt, mk_db (profile_bindings db) (restore_journals db ++ [r]) (downgrade_journals db))
    else Err Constraint.

Definition set_restores (rows : list RestoreRow.t) : txn unit :=
  fun db => Ok (tt, mk_db (profile_bindings db) rows (downgrade_journals db)).

(** The row [restore_in] reads back, which must be there. *)
Definition stored_restore (local : string) (absent : JournalError) : txn RestoreJournal.t :=
  db ← tables;
  found ← lift (restore_in db local);
  lift (ok_or found absent).

Definition restore_create (now : string) (journal : RestoreJournal.t) : txn unit :=
  _ ← fail_if (negb (bool_decide (RestoreJournal.phase journal = RestorePhase.Created)))
        (BadTransition "-" (RestorePhase.as_str (RestoreJournal.phase journal)));
  _ ← fail_if (I64_MAX <? RestoreJournal.target_version journal) (OutOfRange "target_version");
  _ ← refuse_second_flow (RestoreJournal.local_profile_id journal);
  _ ← insert_restore
        (RestoreRow.mk (RestoreJournal.local_profile_id journal) (RestoreJournal.journal_id journal)
           (RestorePhase.as_str (RestoreJournal.phase journal)) (RestoreJournal.staged_path journal)
           (RestoreJournal.backup_path journal) (RestoreJournal.old_binding_json journal)
           (RestoreJournal.target_version journal) (RestoreJournal.target_head_hash journal) now);
  stored ← stored_restore (RestoreJournal.local_profile_id journal) (ReadbackMismatch "row");
  fail_if (negb (bool_decide (stored = journal))) (ReadbackMismatch "journal").

Definition restore_advance (local : string) (to : RestorePhase.t) : txn RestoreJournal.t :=
  current ← stored_restore local NotFound;
  let from := RestoreJournal.phase current in
  _ ← fail_if (negb (RestorePhase.allows from to))
        (BadTransition (RestorePhase.as_str from) (RestorePhase.as_str to));
  db ← tables;
  rows ← lift (update_rows
                 (fun r => is_restore local r
                           && String.eqb (RestoreRow.phase r) (RestorePhase.as_str from))
                 (fun r => RestoreRow.with_phase r (RestorePhase.as_str to))
                 RestoreRow.check (restore_journals db));
  _ ← set_restores rows;
  stored ← stored_restore local (ReadbackMismatch "row");
  _ ← fail_if (negb (bool_decide (RestoreJournal.phase stored = to))
               || negb (bool_decide (stored = RestoreJournal.with_phase current to)))
        (ReadbackMismatch "phase");
  mret stored.

Definition restore_retire (local : string) : txn unit :=
  current ← stored_restore local NotFound;
  _ ← fail_if (negb (RestorePhase.is_terminal (RestoreJournal.phase current)))
        (NotSettled (RestorePhase.as_str (RestoreJournal.phase current)));
  db ← tables;
  _ ← set_restores (List.filter (fun r => negb (is_restore local r)) (restore_journals db));
  db ← tables;
  left ← lift (restore_in db local);
  fail_if (is_some left) (ReadbackMismatch "row").

(** ** Downgrade journals *)

Definition digest (value : option bytes) : result JournalError (option bytes) :=
  match value with
  | None => Ok None
  | Some b => if blen b =? 32 then Ok (Some b) else Err LedgerUnreadable
  end.

Definition downgrade_row (r : DowngradeRow.t) : result JournalError DowngradeJournal.t :=
  mode ← Mode.parse (DowngradeRow.mode r);
  phase ← DowngradePhase.parse (DowngradeRow.phase r);
  pre_v2 ← digest (DowngradeRow.pre_v2_manifest_sha256 r);
  readback ← digest (DowngradeRow.discovery_readback_sha256 r);
  Ok (DowngradeJournal.mk (DowngradeRow.journal_id r) mode
        (DowngradeRow.original_local_profile_id r) (DowngradeRow.new_local_profile_id r) phase
        (DowngradeRow.original_metadata_archive_path r)
        (DowngradeRow.original_user_data_archive_path r) pre_v2 readback).

Definition is_downgrade (id : string) (r : DowngradeRow.t) : bool :=
  String.eqb (DowngradeRow.journal_id r) id.

Definition downgrade_in (db : Db) (id : string)
    : result JournalError (option DowngradeJournal.t) :=
  query_row downgrade_row (is_downgrade id) (downgrade_journals db).

Definition downgrade_get : Db -> string -> result JournalError (option DowngradeJournal.t) :=
  downgrade_in.

Definition downgrade_for (db : Db) (original : string)
    : result JournalError (list DowngradeJournal.t) :=
  try_map downgrade_row
    (order_by DowngradeRow.created_at
       (List.filter (fun r => String.eqb (DowngradeRow.original_local_profile_id r) original)
          (downgrade_journals db))).

Definition downgrade_open (db : Db) : result JournalError (list DowngradeJournal.t) :=
  journals ← try_map downgrade_row (order_by DowngradeRow.created_at (downgrade_journals db));
  Ok (List.filter (fun j => negb (DowngradePhase.is_terminal (DowngradeJournal.phase j))) journals).

Definition downgrade_for_phase (db : Db) (phase : DowngradePhase.t)
    : result JournalError (list DowngradeJournal.t) :=
  try_map downgrade_row
    (order_by DowngradeRow.created_at
       (List.filter (fun r => String.eqb (DowngradeRow.phase r) (DowngradePhase.as_str phase))
          (downgrade_journals db))).

(** What each phase needs stored before the journal may enter it. *)
Definition requires (journal : DowngradeJournal.t) : bool :=
  let metadata := is_some (DowngradeJournal.original_metadata_archive_path journal) in
  let data := is_some (DowngradeJournal.original_user_data_archive_path journal) in
  let new := is_some (DowngradeJournal.new_local_profile_id journal) in
  let readback := is_some (DowngradeJournal.discovery_readback_sha256 journal) in
  let pre_v2 := is_some (DowngradeJournal.pre_v2_manifest_sha256 journal) in
  match DowngradeJournal.phase journal, DowngradeJournal.mode journal with
  | DowngradePhase.OriginalMetadataMoved, _ => metadata
  | (DowngradePhase.OriginalUserDataMoved | DowngradePhase.DiscoveryScanPassed), _ =>
      metadata && data
  | DowngradePhase.CloneWritten, _ => metadata && data && new
  | (DowngradePhase.ReadbackPassed | DowngradePhase.Completed), Mode.Clone => new && readback
  | (DowngradePhase.PreV2SetRestored | DowngradePhase.TeamArtifactsRetired), _ => pre_v2
  | (DowngradePhase.ReadbackPassed | DowngradePhase.Completed), Mode.PreV2Restore =>
      pre_v2 && readback
  | _, _ => true
  end.

Definition insert_downgrade (r : DowngradeRow.t) : txn unit :=
  fun db =>
    if DowngradeRow.check r
       && negb (List.existsb (is_downgrade (DowngradeRow.journal_id r)) (downgrade_journals db))
    then Ok (tt, mk_db (profile_bindings db) (restore_journals db) (downgrade_journals db ++ [r]))
    else Err Constraint.

Definition set_downgrades (rows : list DowngradeRow.t) : txn unit :=
  fun db => Ok (tt, mk_db (profile_bindings db) (restore_journals db) rows).

Definition stored_downgrade (id : string) (absent : JournalError) : txn DowngradeJournal.t :=
  db ← tables;
  found ← lift (downgrade_in db id);
  lift (ok_or found absent).

Definition downgrade_create (now : string) (journal : DowngradeJournal.t) : txn unit :=
  let original := DowngradeJournal.original_local_profile_id journal in
  _ ← fail_if (negb (bool_decide (DowngradeJournal.phase journal = DowngradePhase.Created)))
        (BadTransition "-" (DowngradePhase.as_str (DowngradeJournal.phase journal)));
  db ← tables;
  _ ← fail_if (negb (List.existsb (String.eqb original) (profile_bindings db))) NotBound;
  _ ← refuse_second_flow original;
  _ ← insert_downgrade
        (DowngradeRow.mk (DowngradeJournal.journal_id journal)
           (Mode.as_str (DowngradeJournal.mode journal)) original
           (DowngradeJournal.new_local_profile_id journal)
           (DowngradePhase.as_str (DowngradeJournal.phase journal))
           (DowngradeJournal.original_metadata_archive_path journal)
           (DowngradeJournal.original_user_data_archive_path journal)
           (DowngradeJournal.pre_v2_manifest_sha256 journal)
           (DowngradeJournal.discovery_readback_sha256 journal) now);
  stored ← stored_downgrade (DowngradeJournal.journal_id journal) (ReadbackMismatch "row");
  fail_if (negb (bool_decide (stored = journal))) (ReadbackMismatch "journal").

(** [Option::or]. *)
Definition option_or {A} (x y : option A) : option A :=
  match x with Some _ => x | None => y end.

(** The journal [downgrade_advance] means to store. *)
Definition patched (current : DowngradeJournal.t) (to : DowngradePhase.t) (patch : Patch.t)
    : DowngradeJournal.t :=
  DowngradeJournal.mk (DowngradeJournal.journal_id current) (DowngradeJournal.mode current)
    (DowngradeJournal.original_local_profile_id current)
    (DowngradeJournal.new_local_profile_id current) to
    (DowngradeJournal.original_metadata_archive_path current)
    (DowngradeJournal.original_user_data_archive_path current)
    (option_or (Patch.pre_v2_manifest_sha256 patch)
       (DowngradeJournal.pre_v2_manifest_sha256 current))
    (option_or (Patch.discovery_readback_sha256 patch)
       (DowngradeJournal.discovery_readback_sha256 current)).

Definition downgrade_advance (id : string) (to : DowngradePhase.t) (patch : Patch.t)
    : txn DowngradeJournal.t :=
  current ← stored_downgrade id NotFound;
  let from := DowngradeJournal.phase current in
  _ ← fail_if (negb (DowngradePhase.allows from (DowngradeJournal.mode current) to))
        (BadTransition (DowngradePhase.as_str from) (DowngradePhase.as_str to));
  let next := patched current to patch in
  _ ← fail_if (negb (requires next)) (MissingField (DowngradePhase.as_str to));
  db ← tables;
  rows ← lift (update_rows
                 (fun r => is_downgrade id r
                           && String.eqb (DowngradeRow.phase r) (DowngradePhase.as_str from))
                 (fun r => DowngradeRow.updated r (DowngradePhase.as_str to)
                             (DowngradeJournal.pre_v2_manifest_sha256 next)
                             (DowngradeJournal.discovery_readback_sha256 next))
                 DowngradeRow.check (downgrade_journals db));
  _ ← set_downgrades rows;
  stored ← stored_downgrade id (ReadbackMismatch "row");
  _ ← fail_if (negb (bool_decide (stored = next))) (ReadbackMismatch "phase");
  mret stored.
