(* ===== verification/JournalFacts.v ===== *)
(** * Journals: rows, keys and the effect of each operation

    The rows of a database that keeps the schema are journals, a key names one row, and
    every branch of every operation of [Journal]. *)

From S2P Require Import Prelude Bytes RecordFields Journal.

(** ** Rows and journals *)

Lemma find_str_all {A} (as_str : A -> string) variants x :
  (forall y z, as_str y = as_str z -> y = z) -> x ∈ variants ->
  find_str as_str variants (as_str x) = Some x.
Proof.
  intros Hinj Hx. unfold find_str. destruct (List.find _ variants) as [y|] eqn:E.
  - apply List.find_some in E as [_ E%String.eqb_eq]. by apply Hinj in E as ->.
  - apply list_elem_of_In in Hx. apply (List.find_none _ _ E) in Hx.
    by rewrite String.eqb_refl in Hx.
Qed.

Lemma restore_phase_parse p : RestorePhase.parse (RestorePhase.as_str p) = Ok p.
Proof. by destruct p. Qed.

Lemma downgrade_phase_parse p : DowngradePhase.parse (DowngradePhase.as_str p) = Ok p.
Proof. by destruct p. Qed.

Lemma mode_parse m : Mode.parse (Mode.as_str m) = Ok m.
Proof. by destruct m. Qed.

Lemma parse_phase_ok {A} (as_str : A -> string) variants text p :
  parse_phase as_str variants text = Ok p -> text = as_str p.
Proof. unfold parse_phase. case_match eqn:E; [|done]. intros [= <-]. by apply find_str_ok in E. Qed.

Lemma in_variants {A} (as_str : A -> string) variants text :
  List.existsb (String.eqb text) (List.map as_str variants) = true ->
  exists p, text = as_str p.
Proof.
  intros (s & (p & <- & _)%in_map_iff & ->%String.eqb_eq)%List.existsb_exists. by exists p.
Qed.

(** A row within the CHECKs of its table is a journal. *)
Lemma restore_row_total r : RestoreRow.check r = true -> exists j, restore_row r = Ok j.
Proof.
  unfold RestoreRow.check. rewrite !andb_true_iff. intros [[[Hp Hv] _] Hh].
  apply in_variants in Hp as [p Hp]. unfold restore_row.
  rewrite Hp, restore_phase_parse. unfold mbind, result_bind.
  rewrite (proj2 (Z.ltb_ge _ _)), Hh by lia. by eexists.
Qed.

Lemma restore_row_with r j to :
  restore_row r = Ok j ->
  restore_row (RestoreRow.with_phase r (RestorePhase.as_str to))
  = Ok (RestoreJournal.with_phase j to).
Proof.
  unfold restore_row. intros (p & Hp & H)%result_bind_ok.
  destruct (RestoreRow.target_version r <? 0) eqn:Hv; [done|].
  destruct (blen (RestoreRow.target_head_hash r) =? 32) eqn:Hh; [|done].
  injection H as <-. cbn [RestoreRow.with_phase RestoreRow.phase RestoreRow.target_version
    RestoreRow.target_head_hash]. rewrite restore_phase_parse. unfold mbind, result_bind.
  by rewrite Hv, Hh.
Qed.

Lemma restore_row_phase r j :
  restore_row r = Ok j -> RestoreRow.phase r = RestorePhase.as_str (RestoreJournal.phase j)
  /\ RestoreRow.local_profile_id r = RestoreJournal.local_profile_id j.
Proof.
  unfold restore_row. intros (p & Hp%parse_phase_ok & H)%result_bind_ok.
  repeat (case_match; [done|]). by injection H as <-.
Qed.

Lemma downgrade_row_total r : DowngradeRow.check r = true -> exists j, downgrade_row r = Ok j.
Proof.
  unfold DowngradeRow.check. rewrite !andb_true_iff. intros [[[[Hm Hp] Hh] Hh'] _].
  apply in_variants in Hm as [m Hm], Hp as [p Hp]. unfold downgrade_row.
  rewrite Hm, Hp, mode_parse, downgrade_phase_parse. unfold mbind, result_bind, digest.
  destruct (DowngradeRow.pre_v2_manifest_sha256 r), (DowngradeRow.discovery_readback_sha256 r);
    cbn [opt_ok] in *; rewrite ?Hh, ?Hh'; by eexists.
Qed.

Lemma digest_ok v w : digest v = Ok w <-> v = w /\ opt_ok (fun h => blen h =? 32) v = true.
Proof. unfold digest. destruct v; cbn [opt_ok]; [case_match|]; naive_solver. Qed.

Lemma downgrade_row_ok r j :
  downgrade_row r = Ok j <->
  DowngradeRow.mode r = Mode.as_str (DowngradeJournal.mode j)
  /\ DowngradeRow.phase r = DowngradePhase.as_str (DowngradeJournal.phase j)
  /\ DowngradeRow.journal_id r = DowngradeJournal.journal_id j
  /\ DowngradeRow.original_local_profile_id r = DowngradeJournal.original_local_profile_id j
  /\ DowngradeRow.new_local_profile_id r = DowngradeJournal.new_local_profile_id j
  /\ DowngradeRow.original_metadata_archive_path r
     = DowngradeJournal.original_metadata_archive_path j
  /\ DowngradeRow.original_user_data_archive_path r
     = DowngradeJournal.original_user_data_archive_path j
  /\ DowngradeRow.pre_v2_manifest_sha256 r = DowngradeJournal.pre_v2_manifest_sha256 j
  /\ DowngradeRow.discovery_readback_sha256 r = DowngradeJournal.discovery_readback_sha256 j
  /\ opt_ok (fun h => blen h =? 32) (DowngradeRow.pre_v2_manifest_sha256 r) = true
  /\ opt_ok (fun h => blen h =? 32) (DowngradeRow.discovery_readback_sha256 r) = true.
Proof.
  unfold downgrade_row. split.
  - intros (m & Hm%parse_phase_ok & Hr)%result_bind_ok.
    apply result_bind_ok in Hr as (p & Hp%parse_phase_ok & Hr).
    apply result_bind_ok in Hr as (h & [<- Hh]%digest_ok & Hr).
    apply result_bind_ok in Hr as (h' & [<- Hh']%digest_ok & [= <-]). by split_and!.
  - destruct r, j. cbn. intros (-> & -> & -> & -> & -> & -> & -> & -> & -> & H1 & H2).
    rewrite mode_parse, downgrade_phase_parse. unfold mbind, result_bind.
    rewrite (proj2 (digest_ok _ _) (conj eq_refl H1)).
    by rewrite (proj2 (digest_ok _ _) (conj eq_refl H2)).
Qed.

(** ** Tables under their keys *)

Lemma find_map_key {R} (p : R -> bool) (f : R -> R) rows :
  (forall r, p (f r) = p r) -> List.find p (List.map f rows) = f <$> List.find p rows.
Proof.
  intros Hf. induction rows as [|r rows IH]; [done|]. cbn. rewrite Hf. by destruct (p r).
Qed.

Lemma find_snoc {R} (p : R -> bool) rows r :
  List.existsb p rows = false -> p r = true -> List.find p (rows ++ [r]) = Some r.
Proof.
  intros H Hr. induction rows as [|q rows IH]; cbn in *; [by rewrite Hr|].
  apply orb_false_iff in H as [-> H]. by apply IH.
Qed.

Lemma find_filter_negb {R} (p : R -> bool) rows :
  List.find p (List.filter (fun r => negb (p r)) rows) = None.
Proof.
  induction rows as [|r rows IH]; [done|]. cbn. destruct (p r) eqn:E; cbn; [done|]. by rewrite E.
Qed.

(** The row a key names is the only one. *)
Lemma find_unique {R} (key : R -> string) k rows r q :
  NoDup (List.map key rows) -> List.find (fun x => String.eqb (key x) k) rows = Some r ->
  q ∈ rows -> key q = k -> q = r.
Proof.
  intros Hd Hf Hq Hk. apply List.find_some in Hf as [Hr Hkr%String.eqb_eq].
  apply list_elem_of_In in Hr. clear -Hd Hr Hq Hk Hkr. revert Hd.
  induction rows as [|x rows IH]; [by apply elem_of_nil in Hq|]. cbn. rewrite NoDup_cons.
  intros [Hx Hd]. assert (forall y, y ∈ rows -> key y ∈ List.map key rows) as Hin.
  { intros y Hy. apply list_elem_of_In, in_map, list_elem_of_In, Hy. }
  apply elem_of_cons in Hq as [->|Hq], Hr as [->|Hr]; [done| | |by apply IH].
  - destruct Hx. rewrite Hk, <- Hkr. by apply Hin.
  - destruct Hx. rewrite Hkr, <- Hk. by apply Hin.
Qed.

Lemma update_rows_ok {R} (where_ : R -> bool) set check rows :
  (forall r, r ∈ rows -> where_ r = true -> check (set r) = true) ->
  update_rows where_ set check rows
  = Ok (List.map (fun r => if where_ r then set r else r) rows).
Proof.
  intros H. unfold update_rows. apply try_map_ok. induction rows as [|r rows IH]; [constructor|].
  cbn. constructor.
  - destruct (where_ r) eqn:E; [|done]. rewrite (H r); [done|by left|done].
  - apply IH. intros q Hq. apply H. by right.
Qed.

(** What the schema of team-sync.db maintains whatever is written. *)
Record schema (db : Db) : Prop := {
  restores_checked : Forall (fun r => RestoreRow.check r = true) (restore_journals db);
  restores_keyed : NoDup (List.map RestoreRow.local_profile_id (restore_journals db));
  restores_unique : NoDup (List.map RestoreRow.journal_id (restore_journals db));
  restores_bound :
    Forall (fun r => RestoreRow.local_profile_id r ∈ profile_bindings db) (restore_journals db);
  downgrades_checked : Forall (fun r => DowngradeRow.check r = true) (downgrade_journals db);
  downgrades_keyed : NoDup (List.map DowngradeRow.journal_id (downgrade_journals db)) }.

Lemma restore_in_cases db local :
  schema db ->
  match List.find (is_restore local) (restore_journals db) with
  | None => restore_in db local = Ok None
  | Some r => exists j, restore_row r = Ok j /\ restore_in db local = Ok (Some j)
  end.
Proof.
  intros Hs. unfold restore_in, query_row.
  destruct (List.find _ _) as [r|] eqn:E; [|done]. apply List.find_some in E as [E _].
  apply list_elem_of_In in E. pose proof (restores_checked db Hs) as Hc.
  rewrite Forall_forall in Hc. destruct (restore_row_total r (Hc r E)) as [j Hj].
  exists j. by rewrite Hj.
Qed.

Lemma downgrade_in_cases db id :
  schema db ->
  match List.find (is_downgrade id) (downgrade_journals db) with
  | None => downgrade_in db id = Ok None
  | Some r => exists j, downgrade_row r = Ok j /\ downgrade_in db id = Ok (Some j)
  end.
Proof.
  intros Hs. unfold downgrade_in, query_row.
  destruct (List.find _ _) as [r|] eqn:E; [|done]. apply List.find_some in E as [E _].
  apply list_elem_of_In in E. pose proof (downgrades_checked db Hs) as Hc.
  rewrite Forall_forall in Hc. destruct (downgrade_row_total r (Hc r E)) as [j Hj].
  exists j. by rewrite Hj.
Qed.

(** ** The operations on a database of the schema *)

Definition set_restore_phase (db : Db) (local : string) (to : RestorePhase.t) : Db :=
  mk_db (profile_bindings db)
    (List.map (fun r => if is_restore local r
                        then RestoreRow.with_phase r (RestorePhase.as_str to) else r)
       (restore_journals db))
    (downgrade_journals db).

Definition remove_restore (db : Db) (local : string) : Db :=
  mk_db (profile_bindings db)
    (List.filter (fun r => negb (is_restore local r)) (restore_journals db))
    (downgrade_journals db).

Definition restore_row_of (now : string) (j : RestoreJournal.t) : RestoreRow.t :=
  RestoreRow.mk (RestoreJournal.local_profile_id j) (RestoreJournal.journal_id j)
    (RestorePhase.as_str (RestoreJournal.phase j)) (RestoreJournal.staged_path j)
    (RestoreJournal.backup_path j) (RestoreJournal.old_binding_json j)
    (RestoreJournal.target_version j) (RestoreJournal.target_head_hash j) now.

(** The values of a [RestoreJournal] in Rust: a [u64] and an array. *)
Definition restore_typed (j : RestoreJournal.t) : bool :=
  (0 <=? RestoreJournal.target_version j) && (blen (RestoreJournal.target_head_hash j) =? 32).

Definition restore_free (db : Db) (j : RestoreJournal.t) : bool :=
  negb (List.existsb (fun q => String.eqb (RestoreRow.journal_id q) (RestoreJournal.journal_id j))
          (restore_journals db))
  && List.existsb (String.eqb (RestoreJournal.local_profile_id j)) (profile_bindings db).

Lemma restore_row_row_of now j :
  restore_typed j = true -> restore_row (restore_row_of now j) = Ok j.
Proof.
  unfold restore_typed. intros [Hv Hh]%andb_true_iff. unfold restore_row, restore_row_of.
  cbn [RestoreRow.phase RestoreRow.target_version RestoreRow.target_head_hash].
  rewrite restore_phase_parse. unfold mbind, result_bind.
  rewrite (proj2 (Z.ltb_ge _ _)), Hh by lia. by destruct j.
Qed.

Lemma transact_err {A} (m : txn A) db e : m db = Err e -> transact m db = (Err e, db).
Proof. unfold transact. by intros ->. Qed.

Lemma transact_ok {A} (m : txn A) db a db' : m db = Ok (a, db') -> transact m db = (Ok a, db').
Proof. unfold transact. by intros ->. Qed.

Lemma stored_restore_none db local e :
  restore_in db local = Ok None -> stored_restore local e db = Err e.
Proof. intros H. unfold stored_restore, tables, mbind, sm_bind, lift. cbn. by rewrite H. Qed.

Lemma stored_restore_some db local e j :
  restore_in db local = Ok (Some j) -> stored_restore local e db = Ok (j, db).
Proof. intros H. unfold stored_restore, tables, mbind, sm_bind, lift. cbn. by rewrite H. Qed.

Lemma is_restore_with local r to :
  is_restore local (RestoreRow.with_phase r to) = is_restore local r.
Proof. done. Qed.

Lemma restore_in_set db local r j to :
  List.find (is_restore local) (restore_journals db) = Some r -> restore_row r = Ok j ->
  restore_in (set_restore_phase db local to) local
  = Ok (Some (RestoreJournal.with_phase j to)).
Proof.
  intros Hf Hj. unfold restore_in, query_row, set_restore_phase. cbn [restore_journals].
  rewrite find_map_key, Hf by (intros q; by case_match). cbn.
  apply List.find_some in Hf as [_ Hl]. rewrite Hl. by rewrite (restore_row_with r j to Hj).
Qed.

Lemma restore_advance_update db local r from to :
  schema db -> List.find (is_restore local) (restore_journals db) = Some r ->
  RestoreRow.phase r = RestorePhase.as_str from ->
  update_rows (fun r => is_restore local r
                        && String.eqb (RestoreRow.phase r) (RestorePhase.as_str from))
    (fun r => RestoreRow.with_phase r (RestorePhase.as_str to))
    RestoreRow.check (restore_journals db)
  = Ok (restore_journals (set_restore_phase db local to)).
Proof.
  intros Hs Hf Hp. rewrite update_rows_ok.
  - cbn. f_equal. apply List.map_ext_in. intros q Hq%list_elem_of_In.
    destruct (is_restore local q) eqn:E; [|done]. cbn.
    rewrite (find_unique RestoreRow.local_profile_id local (restore_journals db) r q);
      [|apply restores_keyed, Hs|exact Hf|done|by apply String.eqb_eq].
    by rewrite Hp, String.eqb_refl.
  - intros q Hq _. pose proof (restores_checked db Hs) as Hc. rewrite Forall_forall in Hc.
    specialize (Hc q Hq). unfold RestoreRow.check in *. cbn in *.
    rewrite !andb_true_iff in *. destruct Hc as [[[_ ?] ?] ?]. split_and!; try done.
    by destruct to.
Qed.

(** Every branch of [restore_advance]; the read-back never disagrees. *)
Lemma restore_advance_spec db local to :
  schema db ->
  transact (restore_advance local to) db
  = match restore_in db local with
    | Ok (Some j) =>
        if RestorePhase.allows (RestoreJournal.phase j) to
        then (Ok (RestoreJournal.with_phase j to), set_restore_phase db local to)
        else (Err (BadTransition (RestorePhase.as_str (RestoreJournal.phase j))
                     (RestorePhase.as_str to)), db)
    | _ => (Err NotFound, db)
    end.
Proof.
  intros Hs. pose proof (restore_in_cases db local Hs) as Hc. unfold restore_advance.
  destruct (List.find _ _) as [r|] eqn:Hf.
  - destruct Hc as (j & Hj & Hin). rewrite Hin.
    pose proof (restore_row_phase r j Hj) as [Hp _].
    destruct (RestorePhase.allows (RestoreJournal.phase j) to) eqn:Ha.
    + apply transact_ok. rewrite (sm_bind_step _ _ _ _ _ (stored_restore_some db local _ j Hin)).
      cbv zeta. rewrite Ha. unfold mbind, sm_bind, tables, set_restores, lift, fail_if.
      cbn [negb]. cbv beta iota.
      rewrite (restore_advance_update db local r _ to Hs Hf Hp).
      rewrite (stored_restore_some (set_restore_phase db local to) local _
        (RestoreJournal.with_phase j to)) by by eapply restore_in_set.
      by rewrite !bool_decide_true.
    + apply transact_err. rewrite (sm_bind_step _ _ _ _ _ (stored_restore_some db local _ j Hin)).
      cbv zeta. by rewrite Ha.
  - rewrite Hc. apply transact_err. unfold mbind, sm_bind. by rewrite stored_restore_none.
Qed.

Lemma existsb_find {R} (p : R -> bool) rows :
  List.existsb p rows = is_some (List.find p rows).
Proof. induction rows as [|r rows IH]; [done|]. cbn. by destruct (p r). Qed.

(** The flow check sees the restore journals of the profile. *)
Lemma not_taken_restore db local :
  flow_taken db local = false -> List.existsb (is_restore local) (restore_journals db) = false.
Proof. unfold flow_taken. by intros [H _]%orb_false_iff. Qed.

(** Every branch of [restore_create]. A journal id of another journal, or a profile that
    is not bound, is a constraint of the schema. *)
Lemma restore_create_spec db now j :
  restore_typed j = true ->
  transact (restore_create now j) db
  = if negb (bool_decide (RestoreJournal.phase j = RestorePhase.Created)) then
      (Err (BadTransition "-" (RestorePhase.as_str (RestoreJournal.phase j))), db)
    else if I64_MAX <? RestoreJournal.target_version j then
      (Err (OutOfRange "target_version"), db)
    else if flow_taken db (RestoreJournal.local_profile_id j) then (Err FlowTaken, db)
    else if negb (restore_free db j) then (Err Constraint, db)
    else
      (Ok tt, mk_db (profile_bindings db) (restore_journals db ++ [restore_row_of now j])
                (downgrade_journals db)).
Proof.
  intros Ht. pose proof Ht as [Hv Hh]%andb_true_iff. unfold restore_create, transact.
  unfold mbind, sm_bind, refuse_second_flow, fail_if, tables, mbind, sm_bind.
  destruct (negb (bool_decide _)); [done|]. cbv beta iota.
  destruct (Z.ltb_spec I64_MAX (RestoreJournal.target_version j)); [done|].
  destruct (flow_taken _ _) eqn:Hf; [done|]. unfold insert_restore.
  change (RestoreRow.mk _ _ _ _ _ _ _ _ _) with (restore_row_of now j).
  assert (RestoreRow.check (restore_row_of now j) = true) as ->.
  { unfold RestoreRow.check, restore_row_of. cbn. rewrite !andb_true_iff.
    split_and!; [by destruct (RestoreJournal.phase j)|lia|lia|done]. }
  apply not_taken_restore in Hf. cbn [restore_row_of RestoreRow.local_profile_id
    RestoreRow.journal_id andb]. rewrite Hf. cbn [negb andb].
  change (negb (List.existsb _ _) && _) with (restore_free db j).
  destruct (restore_free db j) eqn:Hfree; cbn [negb]; [|done]. cbv beta iota.
  rewrite (stored_restore_some _ _ _ j); [by rewrite bool_decide_true|].
  unfold restore_in, query_row. cbn [restore_journals].
  rewrite find_snoc; [|done|apply String.eqb_refl]. by rewrite restore_row_row_of.
Qed.

(** Every branch of [restore_retire]. *)
Lemma restore_retire_spec db local :
  schema db ->
  transact (restore_retire local) db
  = match restore_in db local with
    | Ok (Some j) =>
        if RestorePhase.is_terminal (RestoreJournal.phase j)
        then (Ok tt, remove_restore db local)
        else (Err (NotSettled (RestorePhase.as_str (RestoreJournal.phase j))), db)
    | _ => (Err NotFound, db)
    end.
Proof.
  intros Hs. pose proof (restore_in_cases db local Hs) as Hc. unfold restore_retire.
  destruct (List.find _ _) as [r|] eqn:Hf.
  - destruct Hc as (j & Hj & Hin). rewrite Hin. unfold transact.
    rewrite (sm_bind_step _ _ _ _ _ (stored_restore_some db local _ j Hin)).
    unfold mbind, sm_bind, tables, set_restores, lift, fail_if.
    destruct (RestorePhase.is_terminal _); cbn [negb]; [|done]. cbv beta iota.
    unfold restore_in, query_row. cbn [restore_journals]. by rewrite find_filter_negb.
  - rewrite Hc. apply transact_err. unfold mbind, sm_bind. by rewrite stored_restore_none.
Qed.

(** ** Downgrade operations *)

Definition downgrade_row_of (now : string) (j : DowngradeJournal.t) : DowngradeRow.t :=
  DowngradeRow.mk (DowngradeJournal.journal_id j) (Mode.as_str (DowngradeJournal.mode j))
    (DowngradeJournal.original_local_profile_id j) (DowngradeJournal.new_local_profile_id j)
    (DowngradePhase.as_str (DowngradeJournal.phase j))
    (DowngradeJournal.original_metadata_archive_path j)
    (DowngradeJournal.original_user_data_archive_path j)
    (DowngradeJournal.pre_v2_manifest_sha256 j) (DowngradeJournal.discovery_readback_sha256 j) now.

(** Hashes are arrays of 32 bytes. *)
Definition digest_typed (h : option bytes) : bool := opt_ok (fun h => blen h =? 32) h.

Definition downgrade_typed (j : DowngradeJournal.t) : bool :=
  digest_typed (DowngradeJournal.pre_v2_manifest_sha256 j)
  && digest_typed (DowngradeJournal.discovery_readback_sha256 j).

Definition patch_typed (p : Patch.t) : bool :=
  digest_typed (Patch.pre_v2_manifest_sha256 p)
  && digest_typed (Patch.discovery_readback_sha256 p).

Definition downgrade_free (db : Db) (j : DowngradeJournal.t) : bool :=
  opt_ok (fun new => negb (String.eqb new (DowngradeJournal.original_local_profile_id j)))
    (DowngradeJournal.new_local_profile_id j)
  && negb (List.existsb (is_downgrade (DowngradeJournal.journal_id j)) (downgrade_journals db)).

Definition set_downgrade (db : Db) (next : DowngradeJournal.t) : Db :=
  mk_db (profile_bindings db) (restore_journals db)
    (List.map (fun r =>
       if is_downgrade (DowngradeJournal.journal_id next) r
       then DowngradeRow.updated r (DowngradePhase.as_str (DowngradeJournal.phase next))
              (DowngradeJournal.pre_v2_manifest_sha256 next)
              (DowngradeJournal.discovery_readback_sha256 next)
       else r) (downgrade_journals db)).

Lemma downgrade_row_row_of now j :
  downgrade_typed j = true -> downgrade_row (downgrade_row_of now j) = Ok j.
Proof. intros [H1 H2]%andb_true_iff. apply downgrade_row_ok. by split_and!. Qed.

Lemma stored_downgrade_none db id e :
  downgrade_in db id = Ok None -> stored_downgrade id e db = Err e.
Proof. intros H. unfold stored_downgrade, tables, mbind, sm_bind, lift. cbn. by rewrite H. Qed.

Lemma stored_downgrade_some db id e j :
  downgrade_in db id = Ok (Some j) -> stored_downgrade id e db = Ok (j, db).
Proof. intros H. unfold stored_downgrade, tables, mbind, sm_bind, lift. cbn. by rewrite H. Qed.

(** Every branch of [downgrade_create]. *)
Lemma downgrade_create_spec db now j :
  downgrade_typed j = true ->
  transact (downgrade_create now j) db
  = if negb (bool_decide (DowngradeJournal.phase j = DowngradePhase.Created)) then
      (Err (BadTransition "-" (DowngradePhase.as_str (DowngradeJournal.phase j))), db)
    else if negb (List.existsb (String.eqb (DowngradeJournal.original_local_profile_id j))
                    (profile_bindings db)) then (Err NotBound, db)
    else if flow_taken db (DowngradeJournal.original_local_profile_id j) then (Err FlowTaken, db)
    else if negb (downgrade_free db j) then (Err Constraint, db)
    else
      (Ok tt, mk_db (profile_bindings db) (restore_journals db)
                (downgrade_journals db ++ [downgrade_row_of now j])).
Proof.
  intros Ht. pose proof Ht as [H1 H2]%andb_true_iff. unfold downgrade_create, transact.
  unfold mbind, sm_bind, refuse_second_flow, fail_if, tables, mbind, sm_bind.
  destruct (negb (bool_decide _)); [done|]. cbv beta iota.
  destruct (negb (List.existsb _ (profile_bindings db))); [done|].
  destruct (flow_taken _ _) eqn:Hf; [done|]. unfold insert_downgrade.
  change (DowngradeRow.mk _ _ _ _ _ _ _ _ _ _) with (downgrade_row_of now j).
  assert (DowngradeRow.check (downgrade_row_of now j)
          && negb (List.existsb (is_downgrade (DowngradeRow.journal_id (downgrade_row_of now j)))
                     (downgrade_journals db)) = downgrade_free db j) as ->.
  { unfold DowngradeRow.check, downgrade_row_of, downgrade_free, digest_typed in *. cbn.
    rewrite H1, H2.
    by destruct (DowngradeJournal.mode j), (DowngradeJournal.phase j). }
  destruct (downgrade_free db j) eqn:Hfree; cbn [negb]; [|done]. cbv beta iota.
  apply andb_true_iff in Hfree as [_ Hfree%negb_true_iff].
  rewrite (stored_downgrade_some _ _ _ j); [by rewrite bool_decide_true|].
  unfold downgrade_in, query_row. cbn [downgrade_journals].
  rewrite find_snoc; [|done|apply String.eqb_refl]. by rewrite downgrade_row_row_of.
Qed.

Lemma option_or_typed x y :
  digest_typed x = true -> digest_typed y = true -> digest_typed (option_or x y) = true.
Proof. by destruct x. Qed.

Lemma downgrade_row_set r j to patch :
  downgrade_row r = Ok j -> patch_typed patch = true ->
  downgrade_row (DowngradeRow.updated r (DowngradePhase.as_str to)
    (DowngradeJournal.pre_v2_manifest_sha256 (patched j to patch))
    (DowngradeJournal.discovery_readback_sha256 (patched j to patch)))
  = Ok (patched j to patch).
Proof.
  rewrite !downgrade_row_ok. unfold patch_typed. cbn.
  intros (-> & _ & -> & -> & -> & -> & -> & -> & -> & H1 & H2) [P1 P2]%andb_true_iff.
  split_and!; try done; by apply option_or_typed.
Qed.

Lemma downgrade_in_set db id r j to patch :
  List.find (is_downgrade id) (downgrade_journals db) = Some r -> downgrade_row r = Ok j ->
  patch_typed patch = true ->
  downgrade_in (set_downgrade db (patched j to patch)) id = Ok (Some (patched j to patch)).
Proof.
  intros Hf Hj Hp. pose proof Hj as (_ & _ & Hid & _)%downgrade_row_ok.
  pose proof Hf as [_ Hl]%List.find_some. apply String.eqb_eq in Hl. rewrite Hl in Hid.
  unfold downgrade_in, query_row, set_downgrade. cbn [downgrade_journals].
  rewrite find_map_key, Hf by (intros q; by case_match). cbn. rewrite <- Hid.
  unfold is_downgrade. rewrite Hl, String.eqb_refl.
  change (option_or (Patch.pre_v2_manifest_sha256 patch) _)
    with (DowngradeJournal.pre_v2_manifest_sha256 (patched j to patch)).
  change (option_or (Patch.discovery_readback_sha256 patch) _)
    with (DowngradeJournal.discovery_readback_sha256 (patched j to patch)).
  by rewrite (downgrade_row_set r j to patch Hj Hp).
Qed.

Lemma downgrade_advance_update db id r j to patch :
  schema db -> List.find (is_downgrade id) (downgrade_journals db) = Some r ->
  downgrade_row r = Ok j -> patch_typed patch = true ->
  update_rows (fun r => is_downgrade id r
                        && String.eqb (DowngradeRow.phase r)
                             (DowngradePhase.as_str (DowngradeJournal.phase j)))
    (fun r => DowngradeRow.updated r (DowngradePhase.as_str to)
                (DowngradeJournal.pre_v2_manifest_sha256 (patched j to patch))
                (DowngradeJournal.discovery_readback_sha256 (patched j to patch)))
    DowngradeRow.check (downgrade_journals db)
  = Ok (downgrade_journals (set_downgrade db (patched j to patch))).
Proof.
  intros Hs Hf Hj Hp. pose proof Hj as (_ & Hph & Hid & _)%downgrade_row_ok.
  pose proof Hf as [Hin Hl]%List.find_some. apply String.eqb_eq in Hl. rewrite Hl in Hid.
  assert (forall q, q ∈ downgrade_journals db -> is_downgrade id q = true -> q = r) as Hu.
  { intros q Hq Hk. eapply (find_unique DowngradeRow.journal_id id);
      [apply downgrades_keyed, Hs|exact Hf|done|by apply String.eqb_eq]. }
  rewrite update_rows_ok.
  - unfold set_downgrade. cbn [downgrade_journals]. f_equal. apply List.map_ext_in.
    intros q Hq%list_elem_of_In. change (DowngradeJournal.journal_id (patched j to patch))
      with (DowngradeJournal.journal_id j). rewrite <- Hid.
    destruct (is_downgrade id q) eqn:E; [|done]. cbn [andb].
    rewrite (Hu q Hq E), Hph, String.eqb_refl. done.
  - intros q Hq [E _]%andb_true_iff. rewrite (Hu q Hq E).
    pose proof (downgrades_checked db Hs) as Hc. rewrite Forall_forall in Hc.
    apply list_elem_of_In in Hin. specialize (Hc r Hin). unfold DowngradeRow.check in *.
    cbn [DowngradeRow.updated DowngradeRow.mode DowngradeRow.phase
      DowngradeRow.pre_v2_manifest_sha256 DowngradeRow.discovery_readback_sha256
      DowngradeRow.original_local_profile_id DowngradeRow.new_local_profile_id] in *.
    pose proof Hj as (_ & _ & _ & _ & _ & _ & _ & E1 & E2 & H1 & H2)%downgrade_row_ok.
    rewrite E1 in H1. rewrite E2 in H2.
    rewrite !andb_true_iff in *. destruct Hc as [[[[Hm _] _] _] Hn].
    apply andb_true_iff in Hp as [P1 P2].
    split_and!; [done|by destruct to|by apply option_or_typed|by apply option_or_typed|done].
Qed.

(** Every branch of [downgrade_advance]; the read-back never disagrees. *)
Lemma downgrade_advance_spec db id to patch :
  schema db -> patch_typed patch = true ->
  transact (downgrade_advance id to patch) db
  = match downgrade_in db id with
    | Ok (Some j) =>
        if negb (DowngradePhase.allows (DowngradeJournal.phase j) (DowngradeJournal.mode j) to)
        then (Err (BadTransition (DowngradePhase.as_str (DowngradeJournal.phase j))
                     (DowngradePhase.as_str to)), db)
        else if negb (requires (patched j to patch))
        then (Err (MissingField (DowngradePhase.as_str to)), db)
        else (Ok (patched j to patch), set_downgrade db (patched j to patch))
    | _ => (Err NotFound, db)
    end.
Proof.
  intros Hs Hp. pose proof (downgrade_in_cases db id Hs) as Hc. unfold downgrade_advance.
  destruct (List.find _ _) as [r|] eqn:Hf.
  - destruct Hc as (j & Hj & Hin). rewrite Hin. unfold transact.
    rewrite (sm_bind_step _ _ _ _ _ (stored_downgrade_some db id _ j Hin)).
    cbv zeta. unfold mbind, sm_bind, tables, set_downgrades, lift, fail_if.
    destruct (DowngradePhase.allows _ _ _) eqn:Ha; cbn [negb]; cbv beta iota; [|done].
    destruct (requires _) eqn:Hr; cbn [negb]; cbv beta iota; [|done].
    rewrite (downgrade_advance_update db id r j to patch Hs Hf Hj Hp).
    rewrite (stored_downgrade_some (set_downgrade db (patched j to patch)) id _
      (patched j to patch)) by by eapply downgrade_in_set.
    by rewrite bool_decide_true.
  - rewrite Hc. apply transact_err. unfold mbind, sm_bind. by rewrite stored_downgrade_none.
Qed.
