(* ===== verification/JournalTheorems.v ===== *)
(** * Journals: histories, reachable databases, the properties

    The phases a journal can visit, the databases any sequence of operations reaches, and
    what a start after a crash may rely on. *)

From S2P Require Import Prelude Bytes RecordFields Journal JournalFacts.

(** ** Histories

    The phases visited after [p], each move allowed. *)
Fixpoint walk {A} (allows : A -> A -> bool) (p : A) (visited : list A) : bool :=
  match visited with
  | [] => true
  | q :: rest => allows p q && walk allows q rest
  end.

(** A prefix of the chain, then possibly the rollback; a completed flow is not rolled back. *)
Definition along {A} (chain : list A) (rollback rolled_back : A) (visited : list A) : Prop :=
  exists n, visited = take n chain
    \/ ((n < length chain)%nat
        /\ (visited = take n chain ++ [rollback]
            \/ visited = take n chain ++ [rollback; rolled_back])).

Section walks.
Context {A : Type} (allows : A -> A -> bool) (chain : list A) (rr rb : A).
Context (next : forall i p q, chain !! i = Some p -> allows p q = true ->
  (q = rr /\ (S i < length chain)%nat) \/ chain !! S i = Some q).
Context (from_rr : forall q, allows rr q = true -> q = rb).
Context (from_rb : forall q, allows rb q = false).

Lemma walk_from i p visited :
  chain !! i = Some p -> walk allows p visited = true ->
  along (drop (S i) chain) rr rb visited.
Proof.
  revert i p. induction visited as [|q visited IH]; intros i p Hi Hw.
  { exists 0%nat. by left. }
  cbn in Hw. apply andb_true_iff in Hw as [Ha Hw].
  destruct (next i p q Hi Ha) as [[-> Hl]|Hq].
  - exists 0%nat. right. rewrite length_drop. split; [lia|].
    destruct visited as [|x visited]; [by left|right].
    cbn in Hw. apply andb_true_iff in Hw as [->%from_rr Hw].
    destruct visited as [|y visited]; [done|]. cbn in Hw. by rewrite from_rb in Hw.
  - destruct (IH _ _ Hq Hw) as (n & Hn). exists (S n).
    rewrite (drop_S _ q (S i)) by done. cbn [take length app].
    destruct Hn as [->|[Hlt [->| ->]]]; [by left|right; split; [lia|by left]|
      right; split; [lia|by right]].
Qed.

End walks.

Lemma restore_next i p q :
  RestorePhase.RESTORE_FORWARD !! i = Some p -> RestorePhase.allows p q = true ->
  (q = RestorePhase.RollbackRequired /\ (S i < length RestorePhase.RESTORE_FORWARD)%nat)
  \/ RestorePhase.RESTORE_FORWARD !! S i = Some q.
Proof.
  intros Hi Ha.
  do 10 (destruct i as [|i]; [injection Hi as <-; destruct q; try discriminate Ha;
    first [left; split; [reflexivity|cbn; lia]|right; reflexivity]|]).
  discriminate Hi.
Qed.

Lemma downgrade_next mode i p q :
  DowngradePhase.chain mode !! i = Some p -> DowngradePhase.allows p mode q = true ->
  (q = DowngradePhase.RollbackRequired /\ (S i < length (DowngradePhase.chain mode))%nat)
  \/ DowngradePhase.chain mode !! S i = Some q.
Proof.
  destruct mode; intros Hi Ha.
  - do 8 (destruct i as [|i]; [injection Hi as <-; destruct q; try discriminate Ha;
      first [left; split; [reflexivity|cbn; lia]|right; reflexivity]|]). discriminate Hi.
  - do 6 (destruct i as [|i]; [injection Hi as <-; destruct q; try discriminate Ha;
      first [left; split; [reflexivity|cbn; lia]|right; reflexivity]|]). discriminate Hi.
Qed.

(** ** Reachable databases

    The operations of this file are the only writers of the two tables; the rest of the
    program binds profiles and unbinds them, which the RESTRICT key of [restore_journals]
    refuses while a restore journal is there. *)
Inductive step (db : Db) : Db -> Prop :=
| step_restore_create now j :
    restore_typed j = true -> step db (transact (restore_create now j) db).2
| step_restore_advance local to : step db (transact (restore_advance local to) db).2
| step_restore_retire local : step db (transact (restore_retire local) db).2
| step_downgrade_create now j :
    downgrade_typed j = true -> step db (transact (downgrade_create now j) db).2
| step_downgrade_advance id to patch :
    patch_typed patch = true -> step db (transact (downgrade_advance id to patch) db).2
| step_bind local :
    step db (mk_db (profile_bindings db ++ [local]) (restore_journals db) (downgrade_journals db))
| step_unbind local :
    List.existsb (is_restore local) (restore_journals db) = false ->
    step db (mk_db (List.filter (fun p => negb (String.eqb p local)) (profile_bindings db))
               (restore_journals db) (downgrade_journals db)).

Definition reachable (db : Db) : Prop := rtc step (mk_db [] [] []) db.

(** The downgrade journals of a profile that hold its flow. *)
Definition holds_flow (local : string) (r : DowngradeRow.t) : bool :=
  String.eqb (DowngradeRow.original_local_profile_id r) local
  && negb (String.eqb (DowngradeRow.phase r) "ROLLED_BACK").

Definition flows (db : Db) (local : string) : nat :=
  length (List.filter (is_restore local) (restore_journals db))
  + length (List.filter (holds_flow local) (downgrade_journals db)).

Lemma filter_existsb {R} (p : R -> bool) rows :
  List.existsb p rows = false -> List.filter p rows = [].
Proof.
  induction rows as [|r rows IH]; [done|]. cbn. intros [-> H]%orb_false_iff. by apply IH.
Qed.

Lemma flow_free db local : flow_taken db local = false -> flows db local = 0%nat.
Proof.
  intros [H1 H2]%orb_false_iff. unfold flows, is_restore, holds_flow.
  by rewrite !filter_existsb.
Qed.

Lemma filter_map_mono {R} (p : R -> bool) (f : R -> R) rows :
  (forall r, r ∈ rows -> p (f r) = true -> p r = true) ->
  (length (List.filter p (List.map f rows)) <= length (List.filter p rows))%nat.
Proof.
  intros H. induction rows as [|r rows IH]; [done|]. cbn.
  assert (length (List.filter p (List.map f rows)) <= length (List.filter p rows))%nat as Hl
    by (apply IH; intros q Hq; apply H; by right).
  destruct (p (f r)) eqn:E; [rewrite (H r) by (by left || done); cbn; lia|].
  destruct (p r); cbn; lia.
Qed.

Lemma filter_filter_le {R} (p q : R -> bool) rows :
  (length (List.filter p (List.filter q rows)) <= length (List.filter p rows))%nat.
Proof.
  induction rows as [|r rows IH]; [done|]. cbn. destruct (q r); cbn; destruct (p r); cbn; lia.
Qed.

(** ** The invariant *)

Definition on_chain (j : DowngradeJournal.t) : Prop :=
  DowngradeJournal.phase j ∈ DowngradePhase.chain (DowngradeJournal.mode j)
  \/ DowngradeJournal.phase j = DowngradePhase.RollbackRequired
  \/ DowngradeJournal.phase j = DowngradePhase.RolledBack.

Record lawful (db : Db) : Prop := {
  law_schema : schema db;
  law_flows local : (flows db local <= 1)%nat;
  law_evidence :
    Forall (fun r => forall j, downgrade_row r = Ok j -> requires j = true /\ on_chain j)
      (downgrade_journals db) }.

Lemma snoc_NoDup {R} (key : R -> string) rows r :
  NoDup (List.map key rows) ->
  List.existsb (fun q => String.eqb (key q) (key r)) rows = false ->
  NoDup (List.map key (rows ++ [r])).
Proof.
  intros Hd Hr. rewrite List.map_app. apply NoDup_app. split_and!; [done| |apply NoDup_singleton].
  intros k (q & <- & Hq)%list_elem_of_In%in_map_iff Hk%list_elem_of_singleton.
  assert (List.existsb (fun q => String.eqb (key q) (key r)) rows = true) as Ht.
  { apply List.existsb_exists. exists q. split; [done|]. rewrite Hk. apply String.eqb_refl. }
  by rewrite Hr in Ht.
Qed.

Lemma map_same_key {R} (key : R -> string) (f : R -> R) rows :
  (forall r, key (f r) = key r) -> List.map key (List.map f rows) = List.map key rows.
Proof. intros H. rewrite List.map_map. by apply List.map_ext. Qed.

Lemma filter_NoDup_key {R} (key : R -> string) p rows :
  NoDup (List.map key rows) -> NoDup (List.map key (List.filter p rows)).
Proof.
  induction rows as [|r rows IH]; [done|]. cbn. rewrite NoDup_cons. intros [Hr Hd].
  destruct (p r); cbn; [|by apply IH]. rewrite NoDup_cons. split; [|by apply IH].
  intros Hin. apply Hr. apply list_elem_of_In, in_map_iff in Hin as (q & <- & Hq).
  apply List.filter_In in Hq as [Hq _]. by apply list_elem_of_In, in_map.
Qed.

Lemma Forall_filter_bool {R} (P : R -> Prop) p rows :
  Forall P rows -> Forall P (List.filter p rows).
Proof.
  rewrite !List.Forall_forall. intros H r [Hr _]%List.filter_In. by apply H.
Qed.

Lemma flows_snoc_restore db r local :
  flows (mk_db (profile_bindings db) (restore_journals db ++ [r]) (downgrade_journals db)) local
  = (flows db local + if is_restore local r then 1 else 0)%nat.
Proof.
  unfold flows. cbn [restore_journals downgrade_journals]. rewrite List.filter_app, length_app.
  cbn. destruct (is_restore local r); cbn; lia.
Qed.

Lemma flows_snoc_downgrade db r local :
  flows (mk_db (profile_bindings db) (restore_journals db) (downgrade_journals db ++ [r])) local
  = (flows db local + if holds_flow local r then 1 else 0)%nat.
Proof.
  unfold flows. cbn [restore_journals downgrade_journals]. rewrite List.filter_app, length_app.
  cbn. destruct (holds_flow local r); cbn; lia.
Qed.

Lemma create_restore_lawful db now j :
  restore_typed j = true -> lawful db -> lawful (transact (restore_create now j) db).2.
Proof.
  intros Ht [Hs Hf He]. rewrite restore_create_spec by done.
  destruct (bool_decide _) eqn:Hp; cbn [negb snd]; [|done].
  destruct (Z.ltb_spec I64_MAX (RestoreJournal.target_version j)); [done|].
  destruct (flow_taken _ _) eqn:Ht'; [done|]. destruct (restore_free db j) eqn:Hfr; [|done].
  cbn [negb snd]. apply andb_true_iff in Hfr as [Hid%negb_true_iff Hb].
  apply List.existsb_exists in Hb as (b & Hb & <-%String.eqb_eq). apply list_elem_of_In in Hb.
  destruct Hs as [H1 H2 H3 H4 H5 H6]. split; [split; cbn| |cbn]; try done.
  - apply Forall_app. split; [done|]. apply Forall_singleton.
    apply andb_true_iff in Ht as [Hv Hh]. unfold RestoreRow.check. cbn. rewrite !andb_true_iff.
    split_and!; [by destruct (RestoreJournal.phase j)|lia|lia|done].
  - apply snoc_NoDup; [done|]. by apply not_taken_restore in Ht'.
  - by apply snoc_NoDup.
  - apply Forall_app. split; [done|]. by apply Forall_singleton.
  - intros local. rewrite flows_snoc_restore. unfold is_restore. cbn.
    destruct (String.eqb_spec (RestoreJournal.local_profile_id j) local) as [<-|_];
      [rewrite (flow_free db) by done; lia|specialize (Hf local); lia].
Qed.

Lemma advance_restore_lawful db local to :
  lawful db -> lawful (transact (restore_advance local to) db).2.
Proof.
  intros Hl. pose proof Hl as [Hs Hf He]. rewrite restore_advance_spec by done.
  destruct (restore_in db local) as [[j|]| |]; try done.
  destruct (RestorePhase.allows _ _); [|done]. cbn [snd].
  destruct Hs as [H1 H2 H3 H4 H5 H6]. split; [split; cbn| |cbn]; try done.
  - apply Forall_map. eapply Forall_impl; [exact H1|]. intros r Hr. cbn.
    destruct (is_restore local r); [|done]. unfold RestoreRow.check in *. cbn in *.
    rewrite !andb_true_iff in *. destruct Hr as [[[_ ?] ?] ?]. split_and!; try done.
    by destruct to.
  - rewrite map_same_key; [done|]. intros r. by destruct (is_restore local r).
  - rewrite map_same_key; [done|]. intros r. by destruct (is_restore local r).
  - apply Forall_map. eapply Forall_impl; [exact H4|]. intros r Hr. cbn.
    by destruct (is_restore local r).
  - intros l. etrans; [|apply (Hf l)]. unfold flows, set_restore_phase. cbn.
    apply Nat.add_le_mono_r, filter_map_mono. intros r _. by destruct (is_restore local r).
Qed.

Lemma retire_restore_lawful db local :
  lawful db -> lawful (transact (restore_retire local) db).2.
Proof.
  intros Hl. pose proof Hl as [Hs Hf He]. rewrite restore_retire_spec by done.
  destruct (restore_in db local) as [[j|]| |]; try done.
  destruct (RestorePhase.is_terminal _); [|done]. cbn [snd].
  destruct Hs as [H1 H2 H3 H4 H5 H6].
  split; [split; cbn| |cbn]; try done; try by apply Forall_filter_bool.
  - by apply filter_NoDup_key.
  - by apply filter_NoDup_key.
  - intros l. etrans; [|apply (Hf l)]. unfold flows, remove_restore. cbn.
    apply Nat.add_le_mono_r, filter_filter_le.
Qed.

Lemma create_downgrade_lawful db now j :
  downgrade_typed j = true -> lawful db -> lawful (transact (downgrade_create now j) db).2.
Proof.
  intros Ht [Hs Hf He]. rewrite downgrade_create_spec by done.
  destruct (bool_decide _) eqn:Hp; cbn [negb snd]; [|done]. apply bool_decide_eq_true in Hp.
  destruct (List.existsb _ _); cbn [negb snd]; [|done].
  destruct (flow_taken _ _) eqn:Ht'; [done|]. destruct (downgrade_free db j) eqn:Hfr; [|done].
  cbn [negb snd]. apply andb_true_iff in Hfr as [Hnew Hid%negb_true_iff].
  pose proof Ht as [T1 T2]%andb_true_iff.
  destruct Hs as [H1 H2 H3 H4 H5 H6]. split; [split; cbn| |cbn]; try done.
  - apply Forall_app. split; [done|]. apply Forall_singleton. unfold DowngradeRow.check.
    cbn. unfold digest_typed in *. rewrite T1, T2, Hnew. rewrite Hp.
    by destruct (DowngradeJournal.mode j).
  - by apply snoc_NoDup.
  - intros local. rewrite flows_snoc_downgrade. unfold holds_flow. cbn.
    destruct (String.eqb_spec (DowngradeJournal.original_local_profile_id j) local) as [<-|_];
      [rewrite (flow_free db) by done|specialize (Hf local)]; destruct (negb _); cbn; lia.
  - apply Forall_app. split; [done|]. apply Forall_singleton. intros j'.
    rewrite downgrade_row_row_of by done. intros [= <-]. unfold requires, on_chain. rewrite Hp.
    split; [done|]. left. destruct (DowngradeJournal.mode j); left.
Qed.

(** What an allowed move reaches. *)
Lemma allows_target mode p q :
  DowngradePhase.allows p mode q = true ->
  p <> DowngradePhase.RolledBack /\ q <> p
  /\ (q ∈ DowngradePhase.chain mode \/ q = DowngradePhase.RollbackRequired
      \/ q = DowngradePhase.RolledBack).
Proof.
  intros H. split_and!; [by intros ->|intros ->; destruct mode, p; discriminate H|].
  destruct q; auto; left; destruct mode, p; try discriminate H;
    apply list_elem_of_In; cbn; tauto.
Qed.

Lemma advance_downgrade_lawful db id to patch :
  patch_typed patch = true -> lawful db -> lawful (transact (downgrade_advance id to patch) db).2.
Proof.
  intros Hp Hl. pose proof Hl as [Hs Hf He]. rewrite downgrade_advance_spec by done.
  pose proof (downgrade_in_cases db id Hs) as Hc.
  destruct (List.find _ _) as [r|] eqn:Hr; [|by rewrite Hc].
  destruct Hc as (j & Hj & Hin). rewrite Hin.
  destruct (DowngradePhase.allows _ _ _) eqn:Ha; cbn [negb]; [|done].
  destruct (requires _) eqn:Hreq; cbn [negb]; [|done]. cbn [snd].
  apply allows_target in Ha as (Hrb & _ & Hto).
  pose proof Hj as (_ & Hph & Hid & _)%downgrade_row_ok.
  pose proof Hr as [_ Hk]%List.find_some. apply String.eqb_eq in Hk. rewrite Hk in Hid.
  assert (forall q, q ∈ downgrade_journals db -> is_downgrade id q = true -> q = r) as Hu.
  { intros q Hq E. eapply (find_unique DowngradeRow.journal_id id);
      [apply downgrades_keyed, Hs|exact Hr|done|by apply String.eqb_eq]. }
  pose proof (downgrade_advance_update db id r j to patch Hs Hr Hj Hp) as Hup.
  destruct Hs as [H1 H2 H3 H4 H5 H6]. split; [split| |]; try done.
  - pose proof (proj1 (try_map_ok _ _ _) Hup) as Hall.
    rewrite Forall_forall in H5. apply Forall_forall. intros x Hx.
    apply list_elem_of_lookup in Hx as [i Hi].
    destruct (Forall2_lookup_r _ _ _ _ _ Hall Hi) as (y & Hy & Hxy). cbn in Hxy.
    destruct (is_downgrade id y && _); [case_match eqn:Ec; [|done]; by injection Hxy as <-|].
    injection Hxy as <-. apply H5. by eapply list_elem_of_lookup_2.
  - cbn. rewrite map_same_key; [done|]. intros q. by case_match.
  - intros l. etrans; [|apply (Hf l)]. unfold flows, set_downgrade. cbn.
    apply Nat.add_le_mono_l, filter_map_mono. intros q Hq. rewrite <- Hid.
    destruct (is_downgrade id q) eqn:E; [|done]. rewrite (Hu q Hq E). unfold holds_flow. cbn.
    rewrite Hph. intros [-> _]%andb_true_iff. by destruct (DowngradeJournal.phase j).
  - cbn. rewrite Forall_forall in *. intros x (q & -> & Hq)%list_elem_of_fmap.
    rewrite <- Hid. destruct (is_downgrade id q) eqn:E; [|by apply He].
    rewrite (Hu q Hq E). intros j' Hj'.
    change (option_or (Patch.pre_v2_manifest_sha256 patch) _)
      with (DowngradeJournal.pre_v2_manifest_sha256 (patched j to patch)) in Hj'.
    change (option_or (Patch.discovery_readback_sha256 patch) _)
      with (DowngradeJournal.discovery_readback_sha256 (patched j to patch)) in Hj'.
    rewrite (downgrade_row_set r j to patch Hj Hp) in Hj'. injection Hj' as <-. by split.
Qed.

Lemma step_lawful db db' : step db db' -> lawful db -> lawful db'.
Proof.
  intros H Hl. destruct H as [now j Ht|local to|local|now j Ht|id to patch Hp|local|local Hno].
  - by apply create_restore_lawful.
  - by apply advance_restore_lawful.
  - by apply retire_restore_lawful.
  - by apply create_downgrade_lawful.
  - by apply advance_downgrade_lawful.
  - destruct Hl as [[H1 H2 H3 H4 H5 H6] Hf He]. split; [split; cbn| |cbn]; try done.
    eapply Forall_impl; [exact H4|]. intros r Hr. apply elem_of_app. by left.
  - destruct Hl as [[H1 H2 H3 H4 H5 H6] Hf He]. split; [split; cbn| |cbn]; try done.
    rewrite List.Forall_forall in *. intros r Hr. apply list_elem_of_In, List.filter_In.
    split; [by apply list_elem_of_In, H4|]. apply negb_true_iff.
    destruct (String.eqb_spec (RestoreRow.local_profile_id r) local) as [Hk|]; [|done].
    assert (List.existsb (is_restore local) (restore_journals db) = true) as Ht.
    { apply List.existsb_exists. exists r. split; [done|]. by apply String.eqb_eq. }
    by rewrite Hno in Ht.
Qed.

Lemma reachable_lawful db : reachable db -> lawful db.
Proof.
  unfold reachable. intros H.
  assert (lawful (mk_db [] [] [])) as H0.
  { split; [split; constructor| |constructor]. intros local. cbn. lia. }
  revert H0. induction H as [|x y z Hxy _ IH]; [done|]. intros Hx. apply IH.
  by eapply step_lawful.
Qed.

(** ** The properties *)

(** The restore journal operations do exactly what they say on any database of the
    schema, on every branch: what they return, which error names each refusal, and which
    rows are left; an error leaves the tables as they were, and the read-back after a write
    never disagrees with what was written. *)
Theorem restore_operations db :
  schema db ->
  (forall now j, restore_typed j = true ->
     transact (restore_create now j) db
     = if negb (bool_decide (RestoreJournal.phase j = RestorePhase.Created)) then
         (Err (BadTransition "-" (RestorePhase.as_str (RestoreJournal.phase j))), db)
       else if I64_MAX <? RestoreJournal.target_version j then
         (Err (OutOfRange "target_version"), db)
       else if flow_taken db (RestoreJournal.local_profile_id j) then (Err FlowTaken, db)
       else if negb (restore_free db j) then (Err Constraint, db)
       else
         (Ok tt, mk_db (profile_bindings db) (restore_journals db ++ [restore_row_of now j])
                   (downgrade_journals db)))
  /\ (forall local to,
     transact (restore_advance local to) db
     = match restore_in db local with
       | Ok (Some j) =>
           if RestorePhase.allows (RestoreJournal.phase j) to
           then (Ok (RestoreJournal.with_phase j to), set_restore_phase db local to)
           else (Err (BadTransition (RestorePhase.as_str (RestoreJournal.phase j))
                        (RestorePhase.as_str to)), db)
       | _ => (Err NotFound, db)
       end)
  /\ (forall local,
     transact (restore_retire local) db
     = match restore_in db local with
       | Ok (Some j) =>
           if RestorePhase.is_terminal (RestoreJournal.phase j)
           then (Ok tt, remove_restore db local)
           else (Err (NotSettled (RestorePhase.as_str (RestoreJournal.phase j))), db)
       | _ => (Err NotFound, db)
       end)
  /\ forall local, is_ok (restore_in db local) = true.
Proof.
  intros Hs. split_and!.
  - intros now j Hj. by apply restore_create_spec.
  - intros local to. by apply restore_advance_spec.
  - intros local. by apply restore_retire_spec.
  - intros local. pose proof (restore_in_cases db local Hs) as Hc.
    destruct (List.find _ _); [destruct Hc as (j & _ & ->)|rewrite Hc]; done.
Qed.

(** C30. So do the downgrade journal operations: an advance follows the chain of the
    journal's mode, needs the evidence of the phase it enters, keeps every other field and
    sets only the hashes of its patch. *)
Theorem downgrade_operations db :
  schema db ->
  (forall now j, downgrade_typed j = true ->
     transact (downgrade_create now j) db
     = if negb (bool_decide (DowngradeJournal.phase j = DowngradePhase.Created)) then
         (Err (BadTransition "-" (DowngradePhase.as_str (DowngradeJournal.phase j))), db)
       else if negb (List.existsb (String.eqb (DowngradeJournal.original_local_profile_id j))
                       (profile_bindings db)) then (Err NotBound, db)
       else if flow_taken db (DowngradeJournal.original_local_profile_id j)
       then (Err FlowTaken, db)
       else if negb (downgrade_free db j) then (Err Constraint, db)
       else
         (Ok tt, mk_db (profile_bindings db) (restore_journals db)
                   (downgrade_journals db ++ [downgrade_row_of now j])))
  /\ (forall id to patch, patch_typed patch = true ->
     transact (downgrade_advance id to patch) db
     = match downgrade_in db id with
       | Ok (Some j) =>
           if negb (DowngradePhase.allows (DowngradeJournal.phase j) (DowngradeJournal.mode j) to)
           then (Err (BadTransition (DowngradePhase.as_str (DowngradeJournal.phase j))
                        (DowngradePhase.as_str to)), db)
           else if negb (requires (patched j to patch))
           then (Err (MissingField (DowngradePhase.as_str to)), db)
           else (Ok (patched j to patch), set_downgrade db (patched j to patch))
       | _ => (Err NotFound, db)
       end)
  /\ forall id, is_ok (downgrade_in db id) = true.
Proof.
  intros Hs. split_and!.
  - intros now j Hj. by apply downgrade_create_spec.
  - intros id to patch Hp. by apply downgrade_advance_spec.
  - intros id. pose proof (downgrade_in_cases db id Hs) as Hc.
    destruct (List.find _ _); [destruct Hc as (j & _ & ->)|rewrite Hc]; done.
Qed.

(** C28. Whatever sequence of operations, bindings and unbindings runs, a profile is in at
    most one flow: it never has a restore journal beside a downgrade journal that is not
    rolled back, nor two of either; every restore journal is of a bound profile; and every
    downgrade journal stored is at a phase of its mode with the evidence that phase needs. *)
Theorem one_flow_per_profile db :
  reachable db ->
  (forall local, (flows db local <= 1)%nat)
  /\ Forall (fun r => RestoreRow.local_profile_id r ∈ profile_bindings db) (restore_journals db)
  /\ (forall id j, downgrade_in db id = Ok (Some j) -> requires j = true /\ on_chain j)
  /\ schema db.
Proof.
  intros [Hs Hf He]%reachable_lawful. split_and!; [done|apply Hs| |done].
  intros id j Hj. pose proof (downgrade_in_cases db id Hs) as Hc.
  destruct (List.find _ _) as [r|] eqn:E; [|by rewrite Hc in Hj].
  destruct Hc as (j' & Hj' & Hin). rewrite Hin in Hj. injection Hj as <-.
  apply List.find_some in E as [E%list_elem_of_In _]. rewrite Forall_forall in He.
  by apply (He r).
Qed.

(** C29. No step of a flow is skipped, repeated or undone: the phases a journal visits after
    [CREATED] are a prefix of its chain, possibly followed by the rollback and, only then,
    the rolled-back state; a completed flow is never rolled back and no phase follows a
    terminal one, so a flow ends after boundedly many moves. *)
Theorem phases_follow_the_chain :
  (forall visited, walk RestorePhase.allows RestorePhase.Created visited = true ->
     along (drop 1 RestorePhase.RESTORE_FORWARD) RestorePhase.RollbackRequired
       RestorePhase.RolledBack visited
     /\ (length visited <= 10)%nat)
  /\ (forall mode visited,
     walk (fun p q => DowngradePhase.allows p mode q) DowngradePhase.Created visited = true ->
     along (drop 1 (DowngradePhase.chain mode)) DowngradePhase.RollbackRequired
       DowngradePhase.RolledBack visited
     /\ (length visited <= 8)%nat).
Proof.
  assert (forall A (chain : list A) rr rb visited, along chain rr rb visited ->
    (length visited <= S (length chain))%nat) as Hlen.
  { intros A chain rr rb visited (n & [->|[Hn [->| ->]]]);
      rewrite ?length_app, length_take; cbn; lia. }
  split.
  - intros visited Hw. assert (along (drop 1 RestorePhase.RESTORE_FORWARD)
      RestorePhase.RollbackRequired RestorePhase.RolledBack visited) as Ha.
    { eapply walk_from; [apply restore_next| | |done|exact Hw].
      - by intros [].
      - by intros []. }
    split; [done|]. by apply Hlen in Ha.
  - intros mode visited Hw. assert (along (drop 1 (DowngradePhase.chain mode))
      DowngradePhase.RollbackRequired DowngradePhase.RolledBack visited) as Ha.
    { eapply walk_from; [apply downgrade_next| | |by destruct mode|exact Hw].
      - by intros [].
      - by intros []. }
    split; [done|]. apply Hlen in Ha. destruct mode; cbn in Ha; lia.
Qed.

(** What a start after a crash does fits where the crash left the journal: it aborts
    exactly while the swap is not on the path, undoes once the swap may have begun, goes on
    only past it, and leaves alone exactly the journals that can move no further. *)
Theorem resume_fits_the_phase :
  (forall p, RestorePhase.resume p = Settled <-> RestorePhase.is_terminal p = true)
  /\ (forall p, RestorePhase.is_terminal p = true <-> forall q, RestorePhase.allows p q = false)
  /\ (forall visited p, walk RestorePhase.allows RestorePhase.Created visited = true ->
        last (RestorePhase.Created :: visited) = Some p ->
        (RestorePhase.resume p = Abort -> RestorePhase.SwapStarted ∉ visited
                                          /\ RestorePhase.RollbackRequired ∉ visited)
        /\ (RestorePhase.resume p = Continue -> RestorePhase.Swapped ∈ visited
                                               /\ RestorePhase.RollbackRequired ∉ visited))
  /\ (forall p, DowngradePhase.resume p = Settled <-> DowngradePhase.is_terminal p = true)
  /\ (forall mode p, DowngradePhase.is_terminal p = true ->
        forall q, DowngradePhase.allows p mode q = false).
Proof.
  split_and!.
  - by intros [].
  - intros p. split; [by destruct p|]. intros H.
    pose proof (H RestorePhase.RollbackRequired) as H1.
    pose proof (H RestorePhase.RolledBack) as H2. by destruct p.
  - intros visited p Hw Hp.
    assert (along (drop 1 RestorePhase.RESTORE_FORWARD)
      RestorePhase.RollbackRequired RestorePhase.RolledBack visited) as (n & Hn).
    { eapply walk_from; [apply restore_next| | |done|exact Hw]; by intros []. }
    assert (n < 10 \/ 10 <= n)%nat as [Hlt|Hge] by lia.
    + do 10 (destruct n as [|n]; [clear Hlt; destruct Hn as [->|[_ [->| ->]]];
        cbn in Hp; injection Hp as <-; cbn; (split; intros Hr; try discriminate Hr; split;
          apply (bool_decide_unpack _); exact I)|]). lia.
    + destruct Hn as [->|[Hn _]]; [|cbn in Hn; lia].
      rewrite take_ge in Hp by (cbn; lia). cbn in Hp. injection Hp as <-. done.
  - by intros [].
  - by intros mode [] H [].
Qed.

(** ** Witnesses *)

Definition sample_restore : RestoreJournal.t :=
  RestoreJournal.mk "local-a" "r1" RestorePhase.Created "staged" "backup" "{}" 7 (be_bytes 32 7).
Definition sample_clone : DowngradeJournal.t :=
  DowngradeJournal.mk "d1" Mode.Clone "local-a" (Some "local-b") DowngradePhase.Created
    (Some "a/meta") (Some "a/data") None None.
Definition sample_bound : Db := mk_db ["local-a"] [] [].
Definition sample_restoring : Db :=
  mk_db ["local-a"] [restore_row_of "2025" sample_restore] [].
Definition sample_cloning : Db :=
  mk_db ["local-a"] [] [downgrade_row_of "2025" sample_clone].

Lemma sample_restoring_schema : schema sample_restoring.
Proof.
  split; cbn; try apply NoDup_singleton; try constructor; try constructor; try (by left);
    vm_compute; reflexivity.
Qed.

Lemma sample_cloning_schema : schema sample_cloning.
Proof.
  split; cbn; try apply NoDup_singleton; try constructor; try constructor;
    vm_compute; reflexivity.
Qed.

Lemma restore_operations_witness :
  transact (restore_advance "local-a" RestorePhase.Downloading) sample_restoring
  = (Ok (RestoreJournal.with_phase sample_restore RestorePhase.Downloading),
     set_restore_phase sample_restoring "local-a" RestorePhase.Downloading).
Proof.
  exact (proj1 (proj2 (restore_operations sample_restoring sample_restoring_schema)) "local-a"
    RestorePhase.Downloading).
Defined.

Lemma downgrade_operations_witness :
  transact (downgrade_advance "d1" DowngradePhase.Claimed Patch.default) sample_cloning
  = (Ok (patched sample_clone DowngradePhase.Claimed Patch.default),
     set_downgrade sample_cloning (patched sample_clone DowngradePhase.Claimed Patch.default)).
Proof.
  exact (proj1 (proj2 (downgrade_operations sample_cloning sample_cloning_schema)) "d1"
    DowngradePhase.Claimed Patch.default eq_refl).
Defined.

Lemma sample_reachable : reachable (transact (restore_create "2025" sample_restore) sample_bound).2.
Proof.
  apply (rtc_l _ _ sample_bound); [apply (step_bind (mk_db [] [] []) "local-a")|].
  apply rtc_once, step_restore_create. reflexivity.
Qed.

Lemma one_flow_per_profile_witness :
  (transact (restore_create "2025" sample_restore) sample_bound).2 = sample_restoring
  /\ (flows sample_restoring "local-a" <= 1)%nat.
Proof.
  assert ((transact (restore_create "2025" sample_restore) sample_bound).2 = sample_restoring)
    as He by (vm_compute; reflexivity).
  split; [exact He|]. rewrite <- He.
  exact (proj1 (one_flow_per_profile _ sample_reachable) "local-a").
Defined.
