(* ===== verification/Hpke.v ===== *)
(** * Key grants under HPKE (shared/src/grants.rs, fleet_grants.rs)

    Sealing a tenant root key or a fleet key to the HPKE key of a device, and opening
    it. The [hpke] crate is the interface [Hpke]; its laws are what RFC 9180 and the
    crate promise of the single-shot base mode of the pinned suite: what is sealed
    to the public key of a secret key opens under that secret key, info and AAD; an
    encapsulated key has 32 bytes and parses; the ciphertext has the tag's 16 bytes
    more than its plaintext. The randomness of a seal is an argument. *)

From S2P Require Import Prelude Bytes Canonical CanonicalFacts CanonicalDecode CanonicalTheorems.
From S2P Require Import RecordFields WireMap Keys AuthzPayloads.

(** ** The crate *)

Class Hpke := {
  (** [PrivateKey::from_bytes], [PublicKey::from_bytes], [EncappedKey::from_bytes] accept. *)
  hpke_secret_ok : bytes -> bool;
  hpke_public_ok : bytes -> bool;
  hpke_encapped_ok : bytes -> bool;
  hpke_public : bytes -> bytes;
  (** [single_shot_seal_with_rng]: public key, info, plaintext, AAD, randomness. *)
  hpke_seal : bytes -> bytes -> bytes -> bytes -> bytes -> option (bytes * bytes);
  (** [single_shot_open]: secret key, encapsulated key, info, ciphertext, AAD. *)
  hpke_open : bytes -> bytes -> bytes -> bytes -> bytes -> option bytes;
}.

Class HpkeLaws `{!Hpke} : Prop := {
  hpke_open_seal sk info pt aad eph enc ct :
    hpke_seal (hpke_public sk) info pt aad eph = Some (enc, ct) ->
    hpke_open sk enc info ct aad = Some pt;
  hpke_sealed_sizes pk info pt aad eph enc ct :
    hpke_seal pk info pt aad eph = Some (enc, ct) ->
    hpke_encapped_ok enc = true /\ blen enc = 32 /\ blen ct = blen pt + 16;
}.

(** ** grants.rs *)

Definition HPKE_SUITE_ID_X25519_HKDF_SHA256_CHACHA20POLY1305 : Z := 1.
Definition L_ROOT_GRANT_AAD : bytes := as_bytes "SHARDX-TENANT-ROOT-GRANT-AAD-V2" ++ [Byte.x00].
Definition L_FLEET_GRANT_AAD : bytes := as_bytes "SHARDX-FLEET-KEY-GRANT-AAD-V2" ++ [Byte.x00].
Definition TRK_LEN : Z := 32.

(** Label, length as [u32] (the cast wraps), info. *)
Definition root_grant_aad (hpke_info_bytes : bytes) : bytes :=
  L_ROOT_GRANT_AAD ++ be_bytes 4 (blen hpke_info_bytes) ++ hpke_info_bytes.

Definition fleet_grant_aad (hpke_info_bytes : bytes) : bytes :=
  L_FLEET_GRANT_AAD ++ be_bytes 4 (blen hpke_info_bytes) ++ hpke_info_bytes.

Module SealedGrant.

Record t := mk {
  encapped_key_bytes : bytes;
  ciphertext_bytes : bytes;
  hpke_info_bytes : bytes }.

End SealedGrant.

Section grants.
Context `{!Hpke} (sha256 : bytes -> bytes).

(** [PrivateKey::from_bytes], [EncappedKey::from_bytes], [single_shot_open]: what the
    four openers share. *)
Definition open_bytes (sk encapped info ct aad : bytes) : result GrantError bytes :=
  if negb (hpke_secret_ok sk) then Err BadKeyMaterial
  else if negb (hpke_encapped_ok encapped) then Err BadKeyMaterial
  else ok_or (hpke_open sk encapped info ct aad) HpkeFailure.

(** The recipient check, [PublicKey::from_bytes], [single_shot_seal_with_rng]. *)
Definition seal_bytes (pk recipient_hpke_key_id info plain aad eph : bytes)
    : result GrantError (bytes * bytes) :=
  if negb (bool_decide (hpke_key_id sha256 pk = recipient_hpke_key_id))
  then Err (FieldMismatch "recipient_hpke_key_id")
  else if negb (hpke_public_ok pk) then Err BadKeyMaterial
  else ok_or (hpke_seal pk info plain aad eph) HpkeFailure.

Definition seal_trk (recipient_pk_bytes : bytes) (scope : GrantScope.t) (trk eph : bytes)
    : result GrantError SealedGrant.t :=
  let info := root_grant_info scope in
  '(encapped, ciphertext) ← seal_bytes recipient_pk_bytes
      (GrantScope.recipient_hpke_key_id scope) info trk (root_grant_aad info) eph;
  mret (SealedGrant.mk encapped ciphertext info).

Definition open_trk_with_info (recipient_sk_bytes hpke_info_bytes encapped_key_bytes
    ciphertext : bytes) : result GrantError bytes :=
  pt ← open_bytes recipient_sk_bytes encapped_key_bytes hpke_info_bytes ciphertext
         (root_grant_aad hpke_info_bytes);
  if blen pt =? TRK_LEN then Ok pt else Err BadTrkLength.

Definition open_trk (recipient_sk_bytes : bytes) (scope : GrantScope.t)
    (encapped_key_bytes ciphertext : bytes) : result GrantError bytes :=
  let info := root_grant_info scope in
  pt ← open_bytes recipient_sk_bytes encapped_key_bytes info ciphertext (root_grant_aad info);
  if blen pt =? TRK_LEN then Ok pt else Err BadTrkLength.

(** On [&mut grant]: the outcome, and the grant it leaves. *)
Definition seal_device_fkek (recipient_pk_bytes : bytes) (grant : DeviceHpkeGrantV2.t)
    (fkek eph : bytes) : result GrantError unit * DeviceHpkeGrantV2.t :=
  let info := DeviceHpkeGrantV2.hpke_info_bytes grant in
  match seal_bytes recipient_pk_bytes (DeviceHpkeGrantV2.recipient_hpke_key_id grant) info fkek
          (fleet_grant_aad info) eph with
  | Ok (encapped, ciphertext) =>
      (Ok tt, match grant with
              | DeviceHpkeGrantV2.mk k f i g a d s r _ _ =>
                  DeviceHpkeGrantV2.mk k f i g a d s r encapped ciphertext
              end)
  | Err e => (Err e, grant)
  | Crash c => (Crash c, grant)
  end.

Definition open_device_fkek (recipient_sk_bytes : bytes) (grant : DeviceHpkeGrantV2.t)
    : result GrantError bytes :=
  let info := DeviceHpkeGrantV2.hpke_info_bytes grant in
  pt ← open_bytes recipient_sk_bytes (DeviceHpkeGrantV2.hpke_encapped_key_bytes grant) info
         (DeviceHpkeGrantV2.hpke_wrapped_fleet_key_bytes grant) (fleet_grant_aad info);
  fkek ← (if blen pt =? FKEK_LEN then Ok pt else Err BadFkekLength);
  if negb (bool_decide (fkek_key_id sha256 fkek = DeviceHpkeGrantV2.fkek_key_id grant))
  then Err (FieldMismatch "fkek_key_id") else Ok fkek.

(** [TenantRootKeyGrantV2::open_trk] of authz_record.rs. *)
Definition grant_open_trk (self : TenantRootKeyGrantV2.t) (recipient_sk_bytes : bytes)
    : result GrantError bytes :=
  trk ← open_trk recipient_sk_bytes (TenantRootKeyGrantV2.scope self)
          (TenantRootKeyGrantV2.hpke_encapped_key_bytes self)
          (TenantRootKeyGrantV2.hpke_wrapped_trk_bytes self);
  if negb (bool_decide (root_key_id sha256 trk = TenantRootKeyGrantV2.root_key_id self))
  then Err (FieldMismatch "root_key_id") else Ok trk.

End grants.

Module GrantVariant.

Inductive t := FirstRootSelfGrant | CustodianIssued.

Definition as_str (x : t) : string :=
  match x with
  | FirstRootSelfGrant => "FirstRootSelfGrant"
  | CustodianIssued => "CustodianIssued"
  end.

End GrantVariant.

Definition grant_record_fields (variant : GrantVariant.t) (scope : GrantScope.t)
    (subject_signing_key_id subject_device_approval_replay_id : bytes)
    (sealed : SealedGrant.t) : list (string * Value) :=
  [("domain", c.t "shardx.authorization.tenant-root-key-grant.v2"); ("version", c.u 2);
   ("grant_variant", c.t (GrantVariant.as_str variant));
   ("root_key_id", c.b (GrantScope.root_key_id scope));
   ("root_generation", c.u (GrantScope.root_generation scope));
   ("grant_capability", c.t GRANT_CAPABILITY_ROOT_CUSTODY);
   ("subject_account_id", c.b (GrantScope.subject_account_id scope));
   ("subject_device_id", c.b (GrantScope.subject_device_id scope));
   ("subject_signing_key_id", c.b subject_signing_key_id);
   ("recipient_hpke_key_id", c.b (GrantScope.recipient_hpke_key_id scope));
   ("subject_device_approval_replay_id", c.b subject_device_approval_replay_id);
   ("hpke_suite_id", c.u HPKE_SUITE_ID_X25519_HKDF_SHA256_CHACHA20POLY1305);
   ("hpke_mode_id", c.u HPKE_MODE_BASE); ("hpke_kem_id", c.u HPKE_KEM_X25519_HKDF_SHA256);
   ("hpke_kdf_id", c.u HPKE_KDF_HKDF_SHA256);
   ("hpke_aead_id", c.u HPKE_AEAD_CHACHA20POLY1305);
   ("hpke_info_bytes", c.b (SealedGrant.hpke_info_bytes sealed));
   ("hpke_encapped_key_bytes", c.b (SealedGrant.encapped_key_bytes sealed));
   ("hpke_wrapped_trk_bytes", c.b (SealedGrant.ciphertext_bytes sealed));
   ("tenant_id", c.b (GrantScope.tenant_id scope));
   ("server_instance_id", c.b (GrantScope.server_instance_id scope));
   ("restore_epoch", c.u (GrantScope.restore_epoch scope));
   ("replay_id", c.b (GrantScope.replay_id scope))].

(** ** fleet_grants.rs *)

Module FleetGrantScope.

Record t := mk {
  replay_id : bytes;
  tenant_id : bytes;
  server_instance_id : bytes;
  restore_epoch : Z;
  fleet_id : bytes;
  fkek_key_id : bytes;
  generation : Z;
  subject_account_id : bytes;
  subject_device_id : bytes;
  recipient_hpke_key_id : bytes }.

End FleetGrantScope.

Module FleetGrants.

(** The entries of [fleet_grant_info]. *)
Definition info_fields (scope : FleetGrantScope.t) : list (string * Value) :=
  [("domain", c.t "shardx.keys.fleet-key-grant.device-hpke.hpke-info.v2"); ("version", c.u 2);
   ("replay_id", c.b (FleetGrantScope.replay_id scope));
   ("tenant_id", c.b (FleetGrantScope.tenant_id scope));
   ("server_instance_id", c.b (FleetGrantScope.server_instance_id scope));
   ("restore_epoch", c.u (FleetGrantScope.restore_epoch scope));
   ("fleet_id", c.b (FleetGrantScope.fleet_id scope));
   ("fkek_key_id", c.b (FleetGrantScope.fkek_key_id scope));
   ("generation", c.u (FleetGrantScope.generation scope));
   ("subject_account_id", c.b (FleetGrantScope.subject_account_id scope));
   ("subject_device_id", c.b (FleetGrantScope.subject_device_id scope));
   ("recipient_hpke_key_id", c.b (FleetGrantScope.recipient_hpke_key_id scope));
   ("hpke_suite_id", c.u HPKE_SUITE_ID_X25519_HKDF_SHA256_CHACHA20POLY1305)].

Definition fleet_grant_info (scope : FleetGrantScope.t) : bytes :=
  encode (c.m (info_fields scope)).

(** The AAD of this file: a map, not the label of grants.rs. *)
Definition fleet_grant_aad (info : bytes) : bytes :=
  encode (c.m [("domain", c.t "shardx.keys.fleet-key-grant.device-hpke.aad.v2");
               ("version", c.u 2); ("hpke_info_bytes", c.b info)]).

Section fleet.
Context `{!Hpke} (sha256 : bytes -> bytes).

Definition seal_fkek (recipient_pk_bytes : bytes) (scope : FleetGrantScope.t) (fkek eph : bytes)
    : result GrantError SealedGrant.t :=
  let info := fleet_grant_info scope in
  '(encapped, ciphertext) ← seal_bytes sha256 recipient_pk_bytes
      (FleetGrantScope.recipient_hpke_key_id scope) info fkek (fleet_grant_aad info) eph;
  mret (SealedGrant.mk encapped ciphertext info).

Definition open_fkek_with_info (recipient_sk_bytes : bytes) (grant : SealedGrant.t)
    : result GrantError bytes :=
  pt ← open_bytes recipient_sk_bytes (SealedGrant.encapped_key_bytes grant)
         (SealedGrant.hpke_info_bytes grant) (SealedGrant.ciphertext_bytes grant)
         (fleet_grant_aad (SealedGrant.hpke_info_bytes grant));
  if blen pt =? FKEK_LEN then Ok pt else Err BadFkekLength.

Definition open_fkek (recipient_sk_bytes : bytes) (scope : FleetGrantScope.t)
    (grant : SealedGrant.t) : result GrantError bytes :=
  if negb (bool_decide (fleet_grant_info scope = SealedGrant.hpke_info_bytes grant))
  then Err (FieldMismatch "hpke_info_bytes")
  else open_fkek_with_info recipient_sk_bytes grant.

End fleet.

End FleetGrants.

(** ** Facts *)

Lemma open_bytes_ok `{HH : !Hpke} sk enc info ct aad pt :
  open_bytes sk enc info ct aad = Ok pt <->
  hpke_secret_ok sk = true /\ hpke_encapped_ok enc = true
  /\ hpke_open sk enc info ct aad = Some pt.
Proof.
  unfold open_bytes. destruct (hpke_secret_ok sk), (hpke_encapped_ok enc); cbn [negb];
    rewrite ?ok_or_ok; naive_solver.
Qed.

Section facts.
Context `{HH : !Hpke} (sha256 : bytes -> bytes).

Lemma seal_bytes_ok pk id info pt aad eph r :
  seal_bytes sha256 pk id info pt aad eph = Ok r <->
  hpke_key_id sha256 pk = id /\ hpke_public_ok pk = true
  /\ hpke_seal pk info pt aad eph = Some r.
Proof.
  unfold seal_bytes. case_bool_decide; destruct (hpke_public_ok pk); cbn [negb];
    rewrite ?ok_or_ok; naive_solver.
Qed.

(** What a seal to the public key of [sk] makes, [sk] opens. *)
Lemma seal_open_bytes `{!HpkeLaws} sk id info pt aad eph enc ct :
  hpke_secret_ok sk = true ->
  seal_bytes sha256 (hpke_public sk) id info pt aad eph = Ok (enc, ct) ->
  open_bytes sk enc info ct aad = Ok pt /\ blen enc = 32 /\ blen ct = blen pt + 16.
Proof.
  intros Hsk (_ & _ & Hs)%seal_bytes_ok.
  pose proof (hpke_sealed_sizes _ _ _ _ _ _ _ Hs) as (He & Hl & Hc).
  split; [|done]. apply open_bytes_ok. split_and!; [done..|].
  by eapply hpke_open_seal.
Qed.

Lemma seal_trk_ok pk scope trk eph s :
  seal_trk sha256 pk scope trk eph = Ok s <->
  SealedGrant.hpke_info_bytes s = root_grant_info scope
  /\ seal_bytes sha256 pk (GrantScope.recipient_hpke_key_id scope) (root_grant_info scope) trk
       (root_grant_aad (root_grant_info scope)) eph
     = Ok (SealedGrant.encapped_key_bytes s, SealedGrant.ciphertext_bytes s).
Proof.
  unfold seal_trk. rewrite result_bind_ok. split.
  - intros ([enc ct] & Hs & [= <-]). by split.
  - destruct s as [enc ct info]; cbn. intros [-> Hs]. exists (enc, ct). by split.
Qed.

End facts.

(** The grant a sealed key completes. *)
Definition with_sealed (g : TenantRootKeyGrantV2.t) (s : SealedGrant.t) : TenantRootKeyGrantV2.t :=
  match g with
  | TenantRootKeyGrantV2.mk k v i n a d sk r p _ _ =>
      TenantRootKeyGrantV2.mk k v i n a d sk r p (SealedGrant.encapped_key_bytes s)
        (SealedGrant.ciphertext_bytes s)
  end.

Lemma with_sealed_scope g s :
  TenantRootKeyGrantV2.scope (with_sealed g s) = TenantRootKeyGrantV2.scope g.
Proof. by destruct g. Qed.

(** The entries of a root grant around the two a seal writes. *)
Lemma with_sealed_put g s :
  let e := SealedGrant.encapped_key_bytes s in
  let w := SealedGrant.ciphertext_bytes s in
  TenantRootKeyGrantV2.put (with_sealed g s)
  = take 24 (TenantRootKeyGrantV2.put g)
    ++ [("hpke_encapped_key_bytes", c.b e); ("hpke_wrapped_trk_bytes", c.b w)]
    ++ drop 26 (TenantRootKeyGrantV2.put g).
Proof. by destruct g. Qed.

Lemma with_sealed_ok g s :
  record_ok TenantRootKeyGrantV2.put TenantRootKeyGrantV2.wf g = true ->
  blen (SealedGrant.encapped_key_bytes s) = 32 -> blen (SealedGrant.ciphertext_bytes s) = 48 ->
  record_ok TenantRootKeyGrantV2.put TenantRootKeyGrantV2.wf (with_sealed g s) = true.
Proof.
  unfold record_ok. rewrite !andb_true_iff. intros [Hv Hw] He Hc. split.
  - rewrite with_sealed_put. unfold values_ok in *. rewrite !List.forallb_app, !andb_true_iff.
    rewrite List.forallb_forall in Hv. split_and!.
    + apply List.forallb_forall. intros kv Hk. apply Hv. rewrite <- (take_drop 24).
      apply in_or_app. by left.
    + cbn [List.forallb snd c.b encodable]. by rewrite He, Hc.
    + apply List.forallb_forall. intros kv Hk. apply Hv. rewrite <- (take_drop 26).
      apply in_or_app. by right.
  - destruct g, s. unfold TenantRootKeyGrantV2.wf in *. cbn [with_sealed] in *.
    rewrite !andb_true_iff in *. destruct_and! Hw. split_and!; try done; by apply Z.eqb_eq.
Qed.

(** ** What a scope commits to *)

Module GrantScopeFacts.

Definition fields_of (s : GrantScope.t) : list (string * Value) :=
  [("domain", c.t "shardx.keys.tenant-root-key-grant.hpke-info.v2"); ("version", c.u 2);
   ("replay_id", c.b (GrantScope.replay_id s)); ("tenant_id", c.b (GrantScope.tenant_id s));
   ("server_instance_id", c.b (GrantScope.server_instance_id s));
   ("restore_epoch", c.u (GrantScope.restore_epoch s));
   ("root_key_id", c.b (GrantScope.root_key_id s));
   ("root_generation", c.u (GrantScope.root_generation s));
   ("subject_account_id", c.b (GrantScope.subject_account_id s));
   ("subject_device_id", c.b (GrantScope.subject_device_id s));
   ("recipient_hpke_key_id", c.b (GrantScope.recipient_hpke_key_id s));
   ("hpke_suite_id", c.u 1); ("hpke_mode_id", c.u HPKE_MODE_BASE);
   ("hpke_kem_id", c.u HPKE_KEM_X25519_HKDF_SHA256);
   ("hpke_kdf_id", c.u HPKE_KDF_HKDF_SHA256); ("hpke_aead_id", c.u HPKE_AEAD_CHACHA20POLY1305);
   ("grant_capability", c.t GRANT_CAPABILITY_ROOT_CUSTODY)].

(** The array lengths of the Rust struct; integers the codec carries. *)
Definition ok (s : GrantScope.t) : bool :=
  (blen (GrantScope.replay_id s) =? 16) && (blen (GrantScope.tenant_id s) =? 16)
  && (blen (GrantScope.server_instance_id s) =? 16)
  && (blen (GrantScope.root_key_id s) =? 32) && (blen (GrantScope.subject_account_id s) =? 16)
  && (blen (GrantScope.subject_device_id s) =? 16)
  && (blen (GrantScope.recipient_hpke_key_id s) =? 32)
  && (0 <=? GrantScope.restore_epoch s) && (GrantScope.restore_epoch s <=? I64_MAX)
  && (0 <=? GrantScope.root_generation s) && (GrantScope.root_generation s <=? I64_MAX).

Lemma info_fields s : root_grant_info s = encode (c.m (fields_of s)).
Proof. done. Qed.

Lemma values s : ok s = true -> values_ok (fields_of s) = true.
Proof.
  destruct s. unfold ok. cbn. intros H. wire_facts.
  unfold fields_of, values_ok. cbn -[wire_len blen MAX_SQLITE_WIRE_UINT].
  rewrite !andb_true_iff. split_and!; try reflexivity; try done;
    unfold wire_len, U64_MAX; apply Z.leb_le; lia.
Qed.

Lemma size s : ok s = true -> blen (root_grant_info s) <= 1024.
Proof.
  intros H. rewrite info_fields. etrans; [apply encode_size|]. destruct s.
  unfold ok in H. cbn in H. wire_facts.
  unfold fields_of. cbn -[Z.add blen as_bytes]. eval_lengths. lia.
Qed.

Lemma inj s s' : ok s = true -> ok s' = true -> root_grant_info s = root_grant_info s' -> s = s'.
Proof.
  intros H H' He. rewrite !info_fields in He. apply encode_m_inj in He; try by apply values.
  - apply perm_same_keys in He; [|done|by vm_compute; repeat constructor; set_solver].
    destruct s, s'. by injection He as -> -> -> -> -> -> -> -> ->.
  - done.
  - done.
  - repeat constructor.
  - repeat constructor.
  - rewrite <- info_fields. pose proof (size s H). unfold USIZE_MAX, U64_MAX. lia.
Qed.

End GrantScopeFacts.

(** ** Properties *)

(** C35. A custody grant reaches its device. When sealing a root key to the public key
    of [sk] succeeds for the scope of a well-formed grant, the grant that carries the
    sealed bytes parses back from its encoding, and opening it with [sk] gives the key
    back exactly when the key is the one the grant names; opening by the stored info
    gives it back in any case. *)
Theorem custody_grant_roundtrip `{HH : !Hpke, !HpkeLaws} sha256 sk g trk eph s :
  record_ok TenantRootKeyGrantV2.put TenantRootKeyGrantV2.wf g = true ->
  hpke_secret_ok sk = true -> blen trk = TRK_LEN ->
  seal_trk sha256 (hpke_public sk) (TenantRootKeyGrantV2.scope g) trk eph = Ok s ->
  blen (TenantRootKeyGrantV2.encode (with_sealed g s)) <= USIZE_MAX ->
  TenantRootKeyGrantV2.parse (TenantRootKeyGrantV2.encode (with_sealed g s))
    = Ok (with_sealed g s)
  /\ open_trk_with_info sk (SealedGrant.hpke_info_bytes s) (SealedGrant.encapped_key_bytes s)
       (SealedGrant.ciphertext_bytes s) = Ok trk
  /\ grant_open_trk sha256 (with_sealed g s) sk
     = if bool_decide (root_key_id sha256 trk = TenantRootKeyGrantV2.root_key_id g)
       then Ok trk else Err (FieldMismatch "root_key_id").
Proof.
  intros Hg Hsk Hl (Hinfo & Hs)%seal_trk_ok Hsize.
  destruct (seal_open_bytes _ _ _ _ _ _ _ _ _ Hsk Hs) as (Ho & He & Hc).
  unfold TRK_LEN in Hl. split_and!.
  - apply TenantRootKeyGrantV2.TenantRootKeyGrantV2_exact; [done|]. split; [|done].
    apply with_sealed_ok; [done..|]. by rewrite Hc, Hl.
  - unfold open_trk_with_info. rewrite Hinfo, Ho. unfold mbind, result_bind. by rewrite Hl.
  - unfold grant_open_trk, open_trk. rewrite with_sealed_scope.
    destruct g, s. cbn in *. rewrite Ho. unfold mbind, result_bind. rewrite Hl. cbn.
    by case_bool_decide.
Qed.

(** A fleet key grant reaches its device: a grant sealed to the public key of [sk]
    opens with [sk] to the sealed key exactly when that is the key the grant names, and
    is refused under its name otherwise; sealing to another key than the recipient the
    grant names is refused and leaves the grant alone. *)
Theorem device_grant_roundtrip `{HH : !Hpke, !HpkeLaws} sha256 sk pk g fkek eph :
  hpke_secret_ok sk = true -> blen fkek = FKEK_LEN ->
  (forall g', seal_device_fkek sha256 (hpke_public sk) g fkek eph = (Ok tt, g') ->
     open_device_fkek sha256 sk g'
     = if bool_decide (fkek_key_id sha256 fkek = DeviceHpkeGrantV2.fkek_key_id g)
       then Ok fkek else Err (FieldMismatch "fkek_key_id"))
  /\ (hpke_key_id sha256 pk <> DeviceHpkeGrantV2.recipient_hpke_key_id g ->
      seal_device_fkek sha256 pk g fkek eph = (Err (FieldMismatch "recipient_hpke_key_id"), g)).
Proof.
  intros Hsk Hl. unfold FKEK_LEN in Hl. split.
  - intros g'. unfold seal_device_fkek. set (info := DeviceHpkeGrantV2.hpke_info_bytes g).
    destruct (seal_bytes _ _ _ _ _ _ _) as [[enc ct]|e|c] eqn:Hs; intros [= <-].
    destruct (seal_open_bytes _ _ _ _ _ _ _ _ _ Hsk Hs) as (Ho & _).
    assert (forall h, DeviceHpkeGrantV2.hpke_encapped_key_bytes h = enc ->
      DeviceHpkeGrantV2.hpke_wrapped_fleet_key_bytes h = ct ->
      DeviceHpkeGrantV2.hpke_info_bytes h = info ->
      DeviceHpkeGrantV2.fkek_key_id h = DeviceHpkeGrantV2.fkek_key_id g ->
      open_device_fkek sha256 sk h
      = if bool_decide (fkek_key_id sha256 fkek = DeviceHpkeGrantV2.fkek_key_id g)
        then Ok fkek else Err (FieldMismatch "fkek_key_id")) as Hopen.
    { intros h H1 H2 H3 H4. unfold open_device_fkek. rewrite H1, H2, H3, H4, Ho.
      unfold mbind, result_bind, FKEK_LEN. rewrite Hl. cbn. by case_bool_decide. }
    by apply Hopen; destruct g.
  - intros Hk. unfold seal_device_fkek, seal_bytes. by rewrite bool_decide_false.
Qed.

(** C36. An opened root grant names the scope it was opened under: if one ciphertext
    opens with one secret key under two scopes, the scopes are equal field by field, or
    that ciphertext and encapsulated key are accepted by HPKE under two different infos
    and two different AADs. *)
Theorem root_grant_bound_to_scope `{HH : !Hpke} sk s s' enc ct k k' :
  GrantScopeFacts.ok s = true -> GrantScopeFacts.ok s' = true ->
  open_trk sk s enc ct = Ok k -> open_trk sk s' enc ct = Ok k' ->
  s = s'
  \/ (root_grant_info s <> root_grant_info s'
      /\ root_grant_aad (root_grant_info s) <> root_grant_aad (root_grant_info s')
      /\ hpke_open sk enc (root_grant_info s) ct (root_grant_aad (root_grant_info s)) = Some k
      /\ hpke_open sk enc (root_grant_info s') ct (root_grant_aad (root_grant_info s'))
         = Some k').
Proof.
  intros Hs Hs' Ho Ho'.
  destruct (decide (root_grant_info s = root_grant_info s')) as [He|Hne];
    [left; by apply GrantScopeFacts.inj|right].
  assert (forall z key, open_trk sk z enc ct = Ok key ->
    hpke_open sk enc (root_grant_info z) ct (root_grant_aad (root_grant_info z)) = Some key)
    as Hopen.
  { intros z key (pt & Hp & Hk)%result_bind_ok. apply open_bytes_ok in Hp as (_ & _ & Hp).
    destruct (blen pt =? TRK_LEN); [|done]. by injection Hk as ->. }
  split_and!; [done| |by apply Hopen..].
  unfold root_grant_aad. intros He. apply app_inv_head in He.
  by apply app_inj_1 in He as [_ ?]; [|by rewrite !length_be_bytes].
Qed.

(** [grant_record_fields] and [fleet_grant_info] do not make what the records of
    authz_record.rs carry: no map of [grant_record_fields] parses as a root key grant, and
    no info of [fleet_grant_info] is the info of a device grant, although both name the
    same domain. *)
Theorem grant_formats_disjoint :
  (forall variant scope key approval sealed x,
     let es := grant_record_fields variant scope key approval sealed in
     values_ok es = true -> blen (encode (c.m es)) <= USIZE_MAX ->
     TenantRootKeyGrantV2.parse (encode (c.m es)) <> Ok x)
  /\ (forall scope g,
        FleetGrants.fleet_grant_info scope <> DeviceHpkeGrantV2.hpke_info_bytes g).
Proof.
  split.
  - intros variant scope key approval sealed x es Hv Hb Hp.
    apply TenantRootKeyGrantV2.TenantRootKeyGrantV2_exact in Hp as [Hx He]; [|done].
    assert (es ≡ₚ TenantRootKeyGrantV2.put x) as Hperm.
    { apply encode_m_inj; try done.
      - apply wm_keys.
      - by apply andb_true_iff in Hx as [? _].
      - repeat constructor.
      - apply wm_normal. }
    pose proof (wm_keys x) as Hd%keys_ok_NoDup%entry_keys_NoDup.
    assert (("domain", c.t "shardx.authorization.tenant-root-key-grant.v2")
      ∈ TenantRootKeyGrantV2.put x) as H1 by (rewrite <- Hperm; left).
    assert (("domain", c.t DOMAIN_TENANT_ROOT_KEY_GRANT) ∈ TenantRootKeyGrantV2.put x) as H2
      by left.
    by pose proof (nodup_fst_unique _ _ _ _ Hd H1 H2).
  - intros scope g He. (* 13 entries against 18: the first byte differs *)
    unfold FleetGrants.fleet_grant_info, DeviceHpkeGrantV2.hpke_info_bytes in He.
    discriminate He.
Qed.

(** ** A concrete scheme, for witnesses

    Not a cipher: the tag of the toy AEAD, computed from the public key. *)
#[export] Instance toy_hpke : Hpke := {
  hpke_secret_ok _ := true;
  hpke_public_ok _ := true;
  hpke_encapped_ok _ := true;
  hpke_public sk := be_bytes 32 (of_be sk);
  hpke_seal pk info pt aad eph := Some (be_bytes 32 (of_be eph), pt ++ toy_tag pk info aad pt);
  hpke_open sk enc info ct aad :=
    let msg := take (length ct - 16) ct in
    if decide (ct = msg ++ toy_tag (be_bytes 32 (of_be sk)) info aad msg)
    then Some msg else None;
}.

#[export] Instance toy_hpke_laws : HpkeLaws.
Proof.
  split; simpl.
  - intros sk info pt aad eph enc ct [= <- <-].
    rewrite length_app, toy_tag_length, Nat.add_sub, take_app_length. by rewrite decide_True.
  - intros pk info pt aad eph enc ct [= <- <-]. rewrite blen_app. unfold blen.
    rewrite toy_tag_length. split_and!; [done| |done].
    exact (f_equal Z.of_nat (length_be_bytes 32 _)).
Qed.

Definition sample_hpke_sk : bytes := sample_bytes 32 77.
Definition sample_template : TenantRootKeyGrantV2.t :=
  TenantRootKeyGrantV2.mk sample_common RootGrantVariant.FirstRootSelfGrant
    (root_key_id toy_hash sample_trk) 0 (sample_bytes 16 4) (sample_bytes 16 5)
    (sample_bytes 32 6) (hpke_key_id toy_hash (hpke_public sample_hpke_sk)) (sample_bytes 16 9)
    (replicate 32 Byte.x00) (replicate 48 Byte.x00).
Definition sample_sealed_trk : SealedGrant.t :=
  match seal_trk toy_hash (hpke_public sample_hpke_sk)
          (TenantRootKeyGrantV2.scope sample_template) sample_trk (sample_bytes 32 5) with
  | Ok s => s | _ => SealedGrant.mk [] [] []
  end.

Lemma custody_grant_roundtrip_witness :
  grant_open_trk toy_hash (with_sealed sample_template sample_sealed_trk) sample_hpke_sk
  = Ok sample_trk.
Proof.
  refine (proj2 (proj2 (custody_grant_roundtrip toy_hash sample_hpke_sk sample_template
    sample_trk (sample_bytes 32 5) sample_sealed_trk _ _ _ _ _))).
  - vm_compute. reflexivity.
  - reflexivity.
  - reflexivity.
  - vm_compute. reflexivity.
  - apply Z.leb_le. vm_compute. reflexivity.
Defined.

Definition sample_device_grant : DeviceHpkeGrantV2.t :=
  DeviceHpkeGrantV2.mk sample_common (sample_bytes 16 8) (fkek_key_id toy_hash sample_fkek) 3
    (sample_bytes 16 4) (sample_bytes 16 5) (sample_bytes 32 6)
    (hpke_key_id toy_hash (hpke_public sample_hpke_sk)) [] [].
Definition sample_sealed_device : DeviceHpkeGrantV2.t :=
  (seal_device_fkek toy_hash (hpke_public sample_hpke_sk) sample_device_grant sample_fkek
     (sample_bytes 32 5)).2.

Lemma device_grant_roundtrip_witness :
  open_device_fkek toy_hash sample_hpke_sk sample_sealed_device = Ok sample_fkek.
Proof.
  refine (proj1 (device_grant_roundtrip toy_hash sample_hpke_sk [] sample_device_grant sample_fkek
    (sample_bytes 32 5) _ _) sample_sealed_device _); [reflexivity..|].
  vm_compute. reflexivity.
Defined.

Lemma root_grant_bound_to_scope_witness :
  TenantRootKeyGrantV2.scope sample_template = TenantRootKeyGrantV2.scope sample_template.
Proof.
  destruct (root_grant_bound_to_scope sample_hpke_sk
    (TenantRootKeyGrantV2.scope sample_template) (TenantRootKeyGrantV2.scope sample_template)
    (SealedGrant.encapped_key_bytes sample_sealed_trk)
    (SealedGrant.ciphertext_bytes sample_sealed_trk) sample_trk sample_trk)
    as [H|[H _]]; [vm_compute; reflexivity..|exact H|by destruct H].
Defined.
