(* ===== verification/Disk.v ===== *)
(** * The disk under the clone flow (src-tauri/src/durable.rs, team/downgrade.rs)

    Directory trees, the file system calls of [durable.rs] and [downgrade.rs] on them,
    and the programs made of such calls. A run takes its luck from a list of [Fate]s:
    every call that touches the disk or the database may work, fail, or be the last
    one of a process that dies. What the standard library does in several calls
    ([create_dir_all], [remove_dir_all], [fs::copy], [write_all]) is a program of them here.
    A change of the disk is lost in a power cut unless every directory and file it waits for
    was synced after it; changes reach the disk in order. What a link leads to lies outside
    the tree. *)

From S2P Require Import Prelude Bytes.

(** ** Trees and paths *)

(** A link carries what it resolves to, if anything. *)
Inductive tree :=
| File (body : bytes)
| Link (target : option tree)
| Dir (entries : list (string * tree)).

(** Names under the data root. *)
Definition path : Type := list string.

Definition join (p : path) (name : string) : path := p ++ [name].

(** [Path::parent] of a path that has one. *)
Definition parent (p : path) : path := removelast p.

Definition file_name (p : path) : string := List.last p EmptyString.

Fixpoint entry_of (name : string) (es : list (string * tree)) : option tree :=
  match es with
  | [] => None
  | (n, t) :: es' => if String.eqb n name then Some t else entry_of name es'
  end.

Definition del_entry (name : string) (es : list (string * tree)) : list (string * tree) :=
  List.filter (fun e => negb (String.eqb e.1 name)) es.

Definition set_entry (name : string) (v : option tree) (es : list (string * tree))
    : list (string * tree) :=
  match v with
  | Some t => del_entry name es ++ [(name, t)]
  | None => del_entry name es
  end.

(** What a path that ends here is, links followed. *)
Fixpoint resolve (t : tree) : option tree :=
  match t with
  | Link None => None
  | Link (Some t') => resolve t'
  | File _ | Dir _ => Some t
  end.

(** The entries of a directory, a link followed ([read_dir]). *)
Fixpoint entries_of (t : tree) : option (list (string * tree)) :=
  match t with
  | File _ => None
  | Link None => None
  | Link (Some t') => entries_of t'
  | Dir es => Some es
  end.

(** [symlink_metadata]: the object at a path, the last name not followed. *)
Fixpoint lookup (p : path) (t : tree) : option tree :=
  match p with
  | [] => Some t
  | name :: p' => es ← entries_of t; t' ← entry_of name es; lookup p' t'
  end.

(** Replaces the object at a path whose parent is a directory; links on the way are not
    followed. *)
Fixpoint alter (p : path) (g : option tree -> option tree) (t : tree) : option tree :=
  match p, t with
  | [name], Dir es => Some (Dir (set_entry name (g (entry_of name es)) es))
  | name :: p', Dir es =>
      t' ← entry_of name es;
      t'' ← alter p' g t';
      Some (Dir (set_entry name (Some t'') es))
  | _, _ => None
  end.

Definition insert (p : path) (v : tree) : tree -> option tree := alter p (fun _ => Some v).
Definition remove (p : path) : tree -> option tree := alter p (fun _ => None).

(** ** Errors

    [anyhow] errors by the codes they carry; [Io] stands for an operating system
    error, [Stored] for one of the journal. *)
Inductive FlowError E :=
| Coded (code : string)
| Context (code : string) (e : FlowError E)
| Io
| Stored (e : E).
Arguments Coded {E} code.
Arguments Context {E} code e.
Arguments Io {E}.
Arguments Stored {E} e.

(** [has_code] on the formatted chain. *)
Fixpoint has_code {E} (e : FlowError E) (key : string) : bool :=
  match e with
  | Coded code => String.eqb code key
  | Context code e' => String.eqb code key || has_code e' key
  | Io | Stored _ => false
  end.

(** ** Calls on a tree *)

Section calls.
Context {E : Type}.

Definition from_option {A} (o : option A) : result (FlowError E) A := ok_or o Io.

(** [std::fs::rename] to a path that is free. *)
Definition rename (src dst : path) (t : tree) : result (FlowError E) tree :=
  from_option (sub ← lookup src t; t1 ← remove src t; insert dst sub t1).

(** [durable::move_new]: never replaces. *)
Definition rename_new (src dst : path) (t : tree) : result (FlowError E) tree :=
  if is_some (lookup dst t) then Err Io else rename src dst t.

(** [mkdir]. *)
Definition create_dir (p : path) (t : tree) : result (FlowError E) tree :=
  if is_some (lookup p t) then Err Io else from_option (insert p (Dir []) t).

(** [remove_dir]: an empty directory only. *)
Definition remove_dir (p : path) (t : tree) : result (FlowError E) tree :=
  match lookup p t with
  | Some (Dir []) => from_option (remove p t)
  | _ => Err Io
  end.

Definition remove_file (p : path) (t : tree) : result (FlowError E) tree :=
  match lookup p t with
  | Some (File _) | Some (Link _) => from_option (remove p t)
  | _ => Err Io
  end.

(** [durable::replace_file]: a rename over what is at [dst], a directory apart. *)
Definition replace_file (src dst : path) (t : tree) : result (FlowError E) tree :=
  match lookup dst t with
  | Some (Dir _) => Err Io
  | _ => rename src dst t
  end.

(** The object at a path as a file with the contents [body], written through links. *)
Fixpoint written (body : bytes) (t : tree) : option tree :=
  match t with
  | File _ => Some (File body)
  | Link None => Some (Link (Some (File body)))
  | Link (Some t') => t'' ← written body t'; Some (Link (Some t''))
  | Dir _ => None
  end.

Definition put (p : path) (body : bytes) (t : tree) : result (FlowError E) tree :=
  from_option (new ← match lookup p t with Some old => written body old | None => Some (File body) end;
               insert p new t).

(** [fs::read]. *)
Definition read_file (p : path) (t : tree) : result (FlowError E) bytes :=
  match lookup p t ≫= resolve with
  | Some (File body) => Ok body
  | _ => Err Io
  end.

(** [fs::read_dir]. *)
Definition read_dir (p : path) (t : tree) : result (FlowError E) (list (string * tree)) :=
  from_option (d ← lookup p t; entries_of d).

(** [read_to_string]. *)
Definition read_to_string (p : path) (t : tree) : result (FlowError E) bytes :=
  body ← read_file p t;
  if utf8_valid body then Ok body else Err Io.

End calls.

Definition exists_at (p : path) (t : tree) : bool := is_some (lookup p t).

(** [Path::is_dir]. *)
Definition is_directory (p : path) (t : tree) : bool :=
  match lookup p t ≫= resolve with Some (Dir _) => true | _ => false end.

(** ** Programs

    A world: the disk; the disks a power cut may still bring back, newest first, each with
    the directories and files whose sync the change that left it waits for; the database;
    the luck of the calls to come (a call beyond the list works). *)
Inductive Fate :=
| Works
| Fails
| Dies (lost : option nat).

Record World (L : Type) := mk_world {
  disk : tree;
  unflushed : list (tree * list path);
  ledger : L;
  fates : list Fate }.
Arguments mk_world {L} disk unflushed ledger fates.
Arguments disk {L}.
Arguments unflushed {L}.
Arguments ledger {L}.
Arguments fates {L}.

(** The disks a power cut can leave. *)
Definition possible {L} (w : World L) : list tree := disk w :: (unflushed w).*1.

Section programs.
Context {L E : Type}.

(** [None]: the process died. *)
Definition Prog (A : Type) : Type := World L -> option (result (FlowError E) A) * World L.

#[export] Instance prog_ret : MRet Prog := fun A a w => (Some (Ok a), w).

#[export] Instance prog_bind : MBind Prog := fun A B k m w =>
  match m w with
  | (Some (Ok a), w') => k a w'
  | (Some (Err e), w') => (Some (Err e), w')
  | (Some (Crash c), w') => (Some (Crash c), w')
  | (None, w') => (None, w')
  end.

Definition bail {A} (e : FlowError E) : Prog A := fun w => (Some (Err e), w).

Definition bail_if (c : bool) (e : FlowError E) : Prog unit :=
  if c then bail e else mret tt.

Definition of_result {A} (m : result (FlowError E) A) : Prog A := fun w => (Some m, w).

(** The outcome of a call kept as a value ([let r = call();]). *)
Definition outcome {A} (m : Prog A) : Prog (result (FlowError E) A) := fun w =>
  match m w with
  | (Some r, w') => (Some (Ok r), w')
  | (None, w') => (None, w')
  end.

(** What needs no call that can fail. *)
Definition look {A} (f : tree -> A) : Prog A := fun w => (Some (Ok (f (disk w))), w).

(** What a power cut leaves: one of the possible disks, nothing pending. A process that
    is killed loses no change. *)
Definition cut (lost : option nat) (w : World L) : World L :=
  match lost with
  | None => w
  | Some n =>
      mk_world (default (disk w) (possible w !! n)) [] (ledger w) (fates w)
  end.

(** One call: [works] if it works; one that fails or is cut off changes nothing. *)
Definition call {A} (works : World L -> result (FlowError E) A * World L) : Prog A := fun w =>
  let w1 := mk_world (disk w) (unflushed w) (ledger w) (List.tl (fates w)) in
  match List.hd Works (fates w) with
  | Works => let '(r, w2) := works w1 in (Some r, w2)
  | Fails => (Some (Err Io), w1)
  | Dies lost => (None, cut lost w1)
  end.

(** A read. *)
Definition ask {A} (f : tree -> result (FlowError E) A) : Prog A :=
  call (fun w => (f (disk w), w)).

(** A call to the operating system whose refusal has a code of its own. *)
Definition probe (refusal : FlowError E) (ok : bool) : Prog unit :=
  call (fun w => (if ok then Ok tt else Err refusal, w)).

(** The disk after a change that waits for the syncs of [dirs]. *)
Definition changed (dirs : list path) (t : tree) (w : World L) : World L :=
  mk_world t ((disk w, dirs) :: unflushed w) (ledger w) (fates w).

(** An atomic change of the disk. *)
Definition change (dirs : list path) (f : tree -> result (FlowError E) tree) : Prog unit :=
  call (fun w =>
    match f (disk w) with
    | Ok t => (Ok tt, changed dirs t w)
    | Err e => (Err e, w)
    | Crash c => (Crash c, w)
    end).

(** Changes up to the first that waits for nothing; that one and all before it are on
    the disk. *)
Fixpoint pending (l : list (tree * list path)) : list (tree * list path) :=
  match l with
  | [] => []
  | (t, []) :: _ => []
  | e :: l' => e :: pending l'
  end.

(** [sync_all] of the file or directory [p]. *)
Definition sync_all (p : path) : Prog unit :=
  call (fun w =>
    (Ok tt, mk_world (disk w)
              (pending (List.map
                 (fun e => (e.1, List.filter (fun d => negb (bool_decide (d = p))) e.2))
                 (unflushed w)))
              (ledger w) (fates w))).

Definition sync_parent (p : path) : Prog unit := sync_all (parent p).

(** [durable::move_new]. *)
Definition move_new_raw (src dst : path) : Prog unit :=
  change [parent src; parent dst] (rename_new src dst).

(** A transaction of the database: it commits or nothing changes. *)
Definition commit {A J} (wrap : J -> E) (m : L -> result J A * L) : Prog A :=
  call (fun w =>
    let '(r, l) := m (ledger w) in
    (map_err (fun e => Stored (wrap e)) r, mk_world (disk w) (unflushed w) l (fates w))).

(** A query of the database. *)
Definition query {A} (f : L -> result (FlowError E) A) : Prog A :=
  call (fun w => (f (ledger w), w)).

End programs.
Arguments Prog : clear implicits.

(** [for x in l]. *)
Fixpoint for_each {L E X} (body : X -> Prog L E unit) (l : list X) : Prog L E unit :=
  match l with
  | [] => mret tt
  | x :: l' => _ ← body x; for_each body l'
  end.

(** ** What the standard library does in several calls *)

(** The paths above [p], the root first. *)
Fixpoint ancestors (p : path) : list path :=
  match p with
  | [] => []
  | name :: p' => [] :: List.map (cons name) (ancestors p')
  end.

Section several.
Context {L E : Type}.

(** [DirBuilder::create_dir_all] at one path: a directory that is there is fine. *)
Definition ensure_dir (p : path) : Prog L E unit :=
  there ← look (is_directory p);
  if there : bool then mret tt else change [parent p] (create_dir p).

Definition create_dir_all (p : path) : Prog L E unit :=
  _ ← for_each ensure_dir (ancestors p);
  ensure_dir p.

(** What is under a path, from the leaves; an entry that is gone is passed over. *)
Fixpoint remove_tree_at (p : path) (t : tree) : Prog L E unit :=
  match t with
  | Dir es =>
      _ ← ask (read_dir p);
      _ ← (fix go (es : list (string * tree)) : Prog L E unit :=
             match es with
             | [] => mret tt
             | (name, t') :: es' =>
                 there ← look (exists_at (join p name));
                 _ ← (if there : bool then remove_tree_at (join p name) t' else mret tt);
                 go es'
             end) es;
      change [parent p] (remove_dir p)
  | File _ | Link _ => change [parent p] (remove_file p)
  end.

(** [remove_dir_all]: a directory with all it holds, or a link itself. *)
Definition remove_dir_all (p : path) : Prog L E unit :=
  found ← look (lookup p);
  match found with
  | Some (File _) | None => bail Io
  | Some t => remove_tree_at p t
  end.

(** [File::create]: an empty file, made or emptied. *)
Definition create_file (p : path) : Prog L E unit := change [parent p; p] (put p []).

(** One [write]; [write_all] repeats it, and it may take as little as one byte. *)
Definition write (p : path) (b : byte) : Prog L E unit :=
  change [p] (fun t => old ← read_file p t; put p (old ++ [b]) t).

Definition write_all (p : path) (body : bytes) : Prog L E unit := for_each (write p) body.

(** [fs::copy]. *)
Definition copy_file (src dst : path) : Prog L E unit :=
  body ← ask (read_file src);
  _ ← create_file dst;
  write_all dst body.

(** ** durable.rs *)

(** [<path>.tmp]. *)
Definition tmp_of (p : path) : path := join (parent p) (file_name p +:+ ".tmp").

(** [write_private]; the mode bits [restrict] sets are not in the model. *)
Definition write_private (p : path) (body : bytes) : Prog L E unit :=
  let tmp := tmp_of p in
  r ← outcome (
        _ ← create_file tmp;
        _ ← write_all tmp body;
        _ ← sync_all tmp;
        _ ← change [parent p] (replace_file tmp p);
        sync_parent p);
  match r with
  | Ok _ => mret tt
  | Err e => _ ← outcome (change [parent tmp] (remove_file tmp)); bail e
  | Crash c => of_result (Crash c)
  end.

End several.
