(* ===== verification/DiskFacts.v ===== *)
(** * Facts about trees, paths and programs

    What a change at one path does at another; the specifications of the calls of [Disk];
    the simulation of a program by steps on trees, with one lemma per primitive. *)

From S2P Require Import Prelude Bytes Disk.

(** Induction on a tree, links not entered. *)
Lemma tree_induction (P : tree -> Prop) :
  (forall b, P (File b)) -> (forall o, P (Link o)) ->
  (forall es, Forall (fun e => P e.2) es -> P (Dir es)) -> forall t, P t.
Proof.
  intros Hf Hl Hd. fix IH 1. intros [b|o|es]; [apply Hf|apply Hl|]. apply Hd.
  revert es. fix IHes 1. intros [|[name t] es]; [constructor|].
  constructor; [exact (IH t)|exact (IHes es)].
Qed.

(** ** Entries *)

Lemma entry_of_del name name' es :
  entry_of name' (del_entry name es) = if String.eqb name name' then None else entry_of name' es.
Proof.
  induction es as [|[n t] es IH]; simpl; [by case_match|].
  destruct (String.eqb_spec n name) as [->|Hn]; simpl.
  - rewrite IH. by destruct (String.eqb_spec name name').
  - destruct (String.eqb_spec n name') as [->|]; [|done].
    destruct (String.eqb_spec name name'); by simplify_eq.
Qed.

Lemma entry_of_app name es es' :
  entry_of name (es ++ es')
  = match entry_of name es with Some t => Some t | None => entry_of name es' end.
Proof. induction es as [|[n t] es IH]; simpl; [done|]. destruct (String.eqb n name); [done|exact IH]. Qed.

Lemma entry_of_set_same name v es : entry_of name (set_entry name v es) = v.
Proof.
  destruct v; simpl; rewrite ?entry_of_app, entry_of_del, String.eqb_refl; [|done].
  simpl. by rewrite String.eqb_refl.
Qed.

Lemma entry_of_set_other name name' v es :
  name <> name' -> entry_of name' (set_entry name v es) = entry_of name' es.
Proof.
  intros H. apply String.eqb_neq in H.
  destruct v; simpl; rewrite ?entry_of_app, entry_of_del, H; [|done].
  simpl. rewrite H. by case_match.
Qed.

(** ** Paths *)

(** [p] leads to [q] or above it. *)
Definition above (p q : path) : Prop := exists r, q = p ++ r.

Definition apart (p q : path) : Prop := ~ above p q /\ ~ above q p.

Lemma above_refl p : above p p.
Proof. exists []. by rewrite app_nil_r. Qed.

Lemma above_app p r : above p (p ++ r).
Proof. by exists r. Qed.

Lemma above_trans p q r : above p q -> above q r -> above p r.
Proof. intros [x ->] [y ->]. exists (x ++ y). by rewrite app_assoc. Qed.

Lemma above_cons name p q : above (name :: p) (name :: q) <-> above p q.
Proof. split; intros [r Hr]; exists r; [by injection Hr as ->|by rewrite Hr]. Qed.

Lemma apart_sym p q : apart p q -> apart q p.
Proof. intros [? ?]. by split. Qed.

Lemma apart_below p q r : apart p q -> apart p (q ++ r).
Proof.
  intros [H1 H2]. split; intros [x Hx].
  - apply eq_sym, app_eq_inv in Hx as [(k & -> & _)|(k & -> & _)];
      [apply H2, above_app|apply H1, above_app].
  - apply H2. exists (r ++ x). by rewrite Hx, app_assoc.
Qed.

Lemma apart_cons_ne n m p q : n <> m -> apart (n :: p) (m :: q).
Proof. intros H. by split; intros [r [= ? ?]]; subst. Qed.

Lemma apart_cons n p q : apart (n :: p) (n :: q) <-> apart p q.
Proof. unfold apart. by rewrite !above_cons. Qed.

Lemma above_iff_take p q : above p q <-> take (length p) q = p.
Proof.
  split; [intros [r ->]; by rewrite take_app_length|].
  intros H. exists (drop (length p) q). by rewrite <- H at 1; rewrite take_drop.
Qed.

#[global] Instance above_dec p q : Decision (above p q).
Proof.
  refine (cast_if (decide (take (length p) q = p))); by rewrite above_iff_take.
Defined.

(** ** Looking up *)

Lemma lookup_app p q t : lookup (p ++ q) t = (s ← lookup p t; lookup q s).
Proof.
  revert t. induction p as [|name p IH]; intros t; [done|]. cbn [app lookup].
  destruct (entries_of t) as [es|]; [|done]. cbn. destruct (entry_of name es); [apply IH|done].
Qed.

Lemma lookup_above p q t : above p q -> lookup p t = None -> lookup q t = None.
Proof. intros [r ->] H. by rewrite lookup_app, H. Qed.

Lemma lookup_cons name p t : lookup (name :: p) t = (es ← entries_of t; s ← entry_of name es; lookup p s).
Proof. done. Qed.

Lemma lookup_dir name p es : lookup (name :: p) (Dir es) = (s ← entry_of name es; lookup p s).
Proof. done. Qed.

Lemma alter_inv name p g t t' :
  alter (name :: p) g t = Some t' ->
  exists es v, t = Dir es /\ t' = Dir (set_entry name v es)
    /\ ((p = [] /\ v = g (entry_of name es))
        \/ (p <> [] /\ exists s s', entry_of name es = Some s /\ alter p g s = Some s'
              /\ v = Some s')).
Proof.
  destruct t as [b|l|es]; destruct p as [|m p]; try done.
  - intros [= <-]. exists es, (g (entry_of name es)). split_and!; [done..|by left].
  - change (alter (name :: m :: p) g (Dir es)) with
      (s ← entry_of name es; s' ← alter (m :: p) g s; Some (Dir (set_entry name (Some s') es))).
    destruct (entry_of name es) as [s|] eqn:He; [|done]. unfold mbind, option_bind.
    destruct (alter (m :: p) g s) as [s'|] eqn:Hs; [|done]. intros [= <-].
    exists es, (Some s'). split_and!; [done..|right]. split; [done|]. by exists s, s'.
Qed.

(** What [alter] does at its path, elsewhere and above, when it works. *)
Lemma lookup_alter_same p g t t' :
  alter p g t = Some t' -> lookup p t' = g (lookup p t).
Proof.
  revert t t'. induction p as [|name p IH]; intros t t' H; [done|].
  apply alter_inv in H as (es & v & -> & -> & [(-> & ->)|(Hp & s & s' & He & Hs & ->)]);
    rewrite !lookup_dir, entry_of_set_same.
  - cbn. by destruct (entry_of name es), (g _).
  - rewrite He. by apply IH.
Qed.

Lemma lookup_alter_apart p q g t t' :
  alter p g t = Some t' -> apart p q -> lookup q t' = lookup q t.
Proof.
  revert q t t'. induction p as [|name p IH]; intros q t t' H Hq; [done|].
  destruct q as [|m q]; [by destruct Hq as [_ []]; exists (name :: p)|].
  apply alter_inv in H as (es & v & -> & -> & H). rewrite !lookup_dir.
  destruct (decide (name = m)) as [<-|Hne]; [|by rewrite entry_of_set_other].
  apply apart_cons in Hq. rewrite entry_of_set_same.
  destruct H as [(-> & ->)|(Hp & s & s' & He & Hs & ->)]; [by destruct Hq as [[] _]; exists q|].
  rewrite He. by apply (IH q s).
Qed.

Lemma lookup_alter_above p r g t t' :
  alter (p ++ r) g t = Some t' -> r <> [] ->
  exists es es', lookup p t = Some (Dir es) /\ lookup p t' = Some (Dir es').
Proof.
  revert t t'. induction p as [|name p IH]; intros t t' H Hr.
  - destruct r as [|name r]; [done|]. apply alter_inv in H as (es & v & -> & -> & _).
    by eexists _, _.
  - apply alter_inv in H as (es & v & -> & -> & H). rewrite !lookup_dir, entry_of_set_same.
    destruct H as [(Hp & _)|(_ & s & s' & -> & Hs & ->)].
    + by apply app_eq_nil in Hp as [_ ?].
    + by apply (IH s).
Qed.

(** Both at once, below the path. *)
Lemma lookup_alter_below p r g t t' :
  alter p g t = Some t' -> lookup (p ++ r) t' = (s ← g (lookup p t); lookup r s).
Proof. intros H. by rewrite lookup_app, (lookup_alter_same _ _ _ _ H). Qed.

(** A file or nothing at a path stays, whatever [alter] does apart from it or below. *)
Lemma alter_works p g t es :
  p <> [] -> lookup (parent p) t = Some (Dir es) ->
  (forall q x, above q (parent p) -> lookup q t = Some x -> exists es', x = Dir es') ->
  exists t', alter p g t = Some t'.
Proof.
  revert t. induction p as [|name p IH]; intros t Hp Hl Hd; [done|].
  destruct (Hd [] t (ex_intro _ _ eq_refl) eq_refl) as [es0 ->].
  destruct p as [|m p]; [by eexists|].
  change (parent (name :: m :: p)) with (name :: parent (m :: p)) in *.
  rewrite lookup_dir in Hl. destruct (entry_of name es0) as [s|] eqn:He; [|done].
  destruct (IH s) as [s' Hs].
  - done.
  - exact Hl.
  - intros q x Hq Hx. apply (Hd (name :: q) x); [by apply above_cons|].
    by rewrite lookup_dir, He.
  - exists (Dir (set_entry name (Some s') es0)).
    change (alter (name :: m :: p) g (Dir es0)) with
      (s ← entry_of name es0; s' ← alter (m :: p) g s; Some (Dir (set_entry name (Some s') es0))).
    by rewrite He; cbn [mbind option_bind]; rewrite Hs.
Qed.

(** ** The calls *)

Lemma from_option_ok {E A} (o : option A) (a : A) :
  (from_option o : result (FlowError E) A) = Ok a <-> o = Some a.
Proof. apply ok_or_ok. Qed.

(** Directories all the way to the parent of [p]. *)
Definition dirs_to (p : path) (t : tree) : Prop :=
  forall q, above q p -> q <> p -> exists es, lookup q t = Some (Dir es).

Lemma parent_snoc p name : parent (p ++ [name]) = p.
Proof. apply removelast_last. Qed.

Lemma path_snoc (p : path) : p <> [] -> exists q name, p = q ++ [name].
Proof. intros H. destruct (exists_last H) as (q & name & ->). by exists q, name. Qed.

Lemma above_parent q p : p <> [] -> above q p -> q <> p -> above q (parent p).
Proof.
  intros (p' & name & ->)%path_snoc [r Hr] Hne. rewrite parent_snoc.
  destruct r as [|x r]; [by rewrite app_nil_r in Hr|].
  destruct (path_snoc (x :: r)) as (r' & y & Hxr); [done|]. rewrite Hxr, app_assoc in Hr.
  apply app_inj_tail in Hr as [-> _]. apply above_app.
Qed.

Lemma parent_above p : p <> [] -> above (parent p) p /\ parent p <> p.
Proof.
  intros (q & name & ->)%path_snoc. rewrite parent_snoc. split; [apply above_app|].
  intros H%(f_equal length). rewrite length_app in H. simpl in H. lia.
Qed.

Lemma alter_dirs_to p g t : p <> [] -> dirs_to p t -> exists t', alter p g t = Some t'.
Proof.
  intros Hp Hd. destruct (parent_above p Hp) as [Ha Hn].
  destruct (Hd (parent p) Ha Hn) as [es He].
  eapply alter_works; [done..|]. intros q x Hq Hx.
  destruct (Hd q) as [es' He']; [by eapply above_trans|..].
  - intros ->. destruct Hq as [r Hr]. rewrite Hr in Hn. destruct Ha as [r' Hr'].
    apply (f_equal length) in Hr, Hr'. rewrite length_app in *. 
    assert (length r = 0 /\ length r' = 0)%nat as [H1 H2] by lia.
    apply nil_length_inv in H1 as ->. apply Hn. by rewrite app_nil_r.
  - rewrite Hx in He'. injection He' as ->. by exists es'.
Qed.

Record renamed (src dst : path) (t t' : tree) (s : tree) : Prop := {
  rn_src : lookup src t = Some s;
  rn_dst : lookup dst t = None;
  rn_apart : apart src dst;
  rn_gone : lookup src t' = None;
  rn_there : lookup dst t' = Some s;
  rn_other q : apart src q -> apart dst q -> lookup q t' = lookup q t;
}.

Lemma rename_new_ok {E} src dst t t' :
  rename_new src dst t = (Ok t' : result (FlowError E) tree) -> exists s, renamed src dst t t' s.
Proof.
  unfold rename_new, rename. destruct (lookup dst t) as [|] eqn:Hdst; [done|]. cbn [is_some].
  rewrite from_option_ok. destruct (lookup src t) as [s|] eqn:Hsrc; [|done].
  cbn [mbind option_bind]. unfold remove, insert.
  destruct (alter src _ t) as [t1|] eqn:H1; [|done]. cbn [mbind option_bind]. intros H2. exists s.
  pose proof (lookup_alter_same _ _ _ _ H1) as L1. pose proof (lookup_alter_same _ _ _ _ H2) as L2.
  assert (apart src dst) as Hap.
  { split; intros [r Hr].
    - subst dst. destruct r as [|x r]; [by rewrite app_nil_r, Hsrc in Hdst|].
      destruct (lookup_alter_above _ _ _ _ _ H2) as (es & _ & He & _); [done|].
      by rewrite L1 in He.
    - subst src. by rewrite lookup_app, Hdst in Hsrc. }
  split; [done..| |done|].
  - by rewrite (lookup_alter_apart _ _ _ _ _ H2 (apart_sym _ _ Hap)).
  - intros q Hq1 Hq2. by rewrite (lookup_alter_apart _ _ _ _ _ H2 Hq2),
      (lookup_alter_apart _ _ _ _ _ H1 Hq1).
Qed.

Lemma renamed_below src dst t t' s r :
  renamed src dst t t' s -> lookup (dst ++ r) t' = lookup (src ++ r) t.
Proof. intros H. by rewrite !lookup_app, (rn_there _ _ _ _ _ H), (rn_src _ _ _ _ _ H). Qed.

Lemma dirs_to_alter p q g t t' :
  alter p g t = Some t' -> dirs_to q t -> ~ above p q -> dirs_to q t'.
Proof.
  intros H Hd Hp x Hx Hne. destruct (Hd x Hx Hne) as [es He].
  destruct (decide (above x p)) as [[r ->]|Hn].
  - destruct r as [|y r]; [rewrite app_nil_r in *; by destruct Hp|].
    destruct (lookup_alter_above _ _ _ _ _ H) as (_ & es' & _ & He'); [done|by exists es'].
  - exists es. rewrite (lookup_alter_apart _ _ _ _ _ H); [done|]. split; [|done].
    intros Hpx. apply Hp. by eapply above_trans.
Qed.

Lemma rename_new_works {E} src dst t s :
  lookup src t = Some s -> lookup dst t = None -> src <> [] -> dst <> [] -> apart src dst ->
  dirs_to src t -> dirs_to dst t ->
  exists t', rename_new src dst t = (Ok t' : result (FlowError E) tree).
Proof.
  intros Hs Hd Hs0 Hd0 Hap Ds Dd. unfold rename_new, rename. rewrite Hd, Hs. cbn [is_some].
  destruct (alter_dirs_to src (fun _ => None) t Hs0 Ds) as [t1 H1].
  destruct (alter_dirs_to dst (fun _ => Some s) t1) as [t2 H2]; [done| |].
  - eapply dirs_to_alter; [done..|]. by destruct Hap.
  - exists t2. unfold remove, insert. apply from_option_ok. cbn [mbind option_bind]. rewrite H1.
    by cbn [mbind option_bind].
Qed.

Lemma create_dir_ok {E} p t t' :
  create_dir p t = (Ok t' : result (FlowError E) tree) ->
  lookup p t = None /\ alter p (fun _ => Some (Dir [])) t = Some t'.
Proof.
  unfold create_dir. destruct (lookup p t); cbn [is_some]; [done|]. by rewrite from_option_ok.
Qed.

Lemma create_dir_works {E} p t :
  p <> [] -> lookup p t = None -> dirs_to p t ->
  exists t', create_dir p t = (Ok t' : result (FlowError E) tree).
Proof.
  intros Hp Hl Hd. unfold create_dir. rewrite Hl. cbn [is_some].
  destruct (alter_dirs_to p (fun _ => Some (Dir [])) t Hp Hd) as [t' Ht]. exists t'.
  by apply from_option_ok.
Qed.

Lemma is_directory_there p t : is_directory p t = true -> is_Some (lookup p t).
Proof. unfold is_directory. by destruct (lookup p t). Qed.

(** The paths [create_dir_all] goes through. *)
Lemma elem_of_ancestors q p : q ∈ ancestors p -> above q p /\ q <> p.
Proof.
  revert q. induction p as [|name p IH]; cbn [ancestors]; intros q; [by intros ?%elem_of_nil|].
  intros [->|H]%elem_of_cons; [split; [by exists (name :: p)|done]|].
  apply list_elem_of_In, in_map_iff in H as (x & <- & Hx%list_elem_of_In%IH).
  rewrite above_cons. split; [apply Hx|]. by intros [= ?%Hx].
Qed.

Lemma ancestors_snoc p name : ancestors (p ++ [name]) = ancestors p ++ [p].
Proof.
  induction p as [|x p IH]; [done|]. cbn [app ancestors]. rewrite IH, List.map_app. done.
Qed.

Lemma remove_dir_ok {E} p t t' :
  remove_dir p t = (Ok t' : result (FlowError E) tree) ->
  lookup p t = Some (Dir []) /\ alter p (fun _ => None) t = Some t'.
Proof.
  unfold remove_dir. destruct (lookup p t) as [[b|l|[|e es]]|] eqn:Hl; try done.
  by rewrite from_option_ok.
Qed.

Lemma remove_file_ok {E} p t t' :
  remove_file p t = (Ok t' : result (FlowError E) tree) -> alter p (fun _ => None) t = Some t'.
Proof. unfold remove_file. destruct (lookup p t) as [[b|l|es]|]; try done; by rewrite from_option_ok. Qed.

(** A rename over nothing is one that replaces nothing. *)
Lemma replace_file_new {E} src dst t :
  lookup dst t = None ->
  replace_file src dst t = (rename_new src dst t : result (FlowError E) tree).
Proof. intros H. unfold replace_file, rename_new. by rewrite H. Qed.

Lemma written_resolves body : forall t t', written body t = Some t' -> resolve t' = Some (File body).
Proof.
  fix IH 1. intros [b|[t|]|es] t'; cbn [written]; [by intros [= <-]| |by intros [= <-]|done].
  destruct (written body t) as [t1|] eqn:Hw; [|done]. intros [= <-]. exact (IH t t1 Hw).
Qed.

(** What is written is read back. *)
Lemma written_ok {E} p body t t' :
  put p body t = (Ok t' : result (FlowError E) tree) ->
  exists v, alter p (fun _ => Some v) t = Some t'
    /\ read_file p t' = (Ok body : result (FlowError E) bytes).
Proof.
  unfold put. rewrite from_option_ok. intros H.
  assert (exists v, alter p (fun _ => Some v) t = Some t' /\ resolve v = Some (File body))
    as (v & Ha & Hv).
  { destruct (lookup p t) as [old|]; [|by exists (File body)].
    destruct (written body old) as [v|] eqn:Hw; [|done]. exists v. split; [exact H|].
    by apply written_resolves in Hw. }
  exists v. split; [done|]. unfold read_file. rewrite (lookup_alter_same _ _ _ _ Ha).
  cbn [mbind option_bind]. by rewrite Hv.
Qed.

(** ** Folders *)

Definition is_dir (q : path) (t : tree) : Prop := exists es, lookup q t = Some (Dir es).
Definition dir_or_none (q : path) (t : tree) : Prop := lookup q t = None \/ is_dir q t.

Lemma alter_is_dir p g t t' q :
  alter p g t = Some t' -> ~ above p q -> is_dir q t -> is_dir q t'.
Proof.
  intros H Hn [es He]. destruct (decide (above q p)) as [[r ->]|Hq].
  - destruct r as [|x r]; [rewrite app_nil_r in Hn; by destruct Hn; apply above_refl|].
    destruct (lookup_alter_above _ _ _ _ _ H) as (_ & es' & _ & He'); [done|by exists es'].
  - exists es. by rewrite (lookup_alter_apart _ _ _ _ _ H).
Qed.

Lemma alter_dir_or_none p g t t' q :
  alter p g t = Some t' -> ~ above p q -> dir_or_none q t -> dir_or_none q t'.
Proof.
  intros H Hn [Ha|Hd]; [|right; by eapply alter_is_dir].
  destruct (decide (above q p)) as [[r ->]|Hq].
  - destruct r as [|x r]; [rewrite app_nil_r in Hn; by destruct Hn; apply above_refl|].
    destruct (lookup_alter_above _ _ _ _ _ H) as (es & es' & He & He'); [done|].
    by rewrite Ha in He.
  - left. by rewrite (lookup_alter_apart _ _ _ _ _ H).
Qed.

(** A folder made where nothing was. *)
Lemma made_lookup p t t' q :
  lookup p t = None -> alter p (fun _ => Some (Dir [])) t = Some t' -> above p q -> q <> p ->
  lookup q t' = None.
Proof.
  intros Hl H [r ->] Hne. rewrite (lookup_alter_below _ _ _ _ _ H).
  destruct r as [|x r]; [by rewrite app_nil_r in Hne|done].
Qed.

Lemma made_keeps p t t' q :
  lookup p t = None -> alter p (fun _ => Some (Dir [])) t = Some t' -> ~ above q p ->
  lookup q t' = lookup q t.
Proof.
  intros Hl H Hq. destruct (decide (above p q)) as [Hp|Hp].
  - rewrite (made_lookup _ _ _ _ Hl H Hp) by (intros ->; by apply Hq, above_refl).
    by rewrite (lookup_above _ _ _ Hp Hl).
  - by rewrite (lookup_alter_apart _ _ _ _ _ H).
Qed.

Lemma made_is_dir p t t' q :
  lookup p t = None -> alter p (fun _ => Some (Dir [])) t = Some t' -> is_dir q t -> is_dir q t'.
Proof.
  intros Hl H [es He]. destruct (decide (above p q)) as [Hp|Hp].
  - by rewrite (lookup_above _ _ _ Hp Hl) in He.
  - eapply alter_is_dir; [exact H|done|by exists es].
Qed.

Lemma made_dir_or_none p t t' q :
  lookup p t = None -> alter p (fun _ => Some (Dir [])) t = Some t' ->
  dir_or_none q t -> dir_or_none q t'.
Proof.
  intros Hl H Hq. destruct (decide (above p q)) as [Hp|Hp]; [|by eapply alter_dir_or_none].
  destruct (decide (q = p)) as [->|Hne]; [|left; by eapply made_lookup].
  right. exists []. by rewrite (lookup_alter_same _ _ _ _ H).
Qed.
