(* ===== verification/DiskLogic.v ===== *)
(** * A logic for programs on the disk

    [triple R P m Q X]: started where [P] holds of the disk and the database, the program
    [m] goes only through steps of [R], whatever its luck; it ends well with [Q], in an
    error with [X]. Going through steps of [R] means: every disk a power cut may leave
    was reached by steps or was pending before; if no power is cut, so is the pair
    of disk and database it ends with, dead or alive. One rule per primitive. *)

From S2P Require Import Prelude Bytes Disk DiskFacts.

Definition cuts (f : Fate) : bool :=
  match f with Dies (Some _) => true | _ => false end.

Definition no_cuts (l : list Fate) : Prop := Forall (fun f => cuts f = false) l.

Lemma no_cuts_tl l : no_cuts l -> no_cuts (List.tl l).
Proof. destruct l; [done|]. by intros H%Forall_inv_tail. Qed.

Section logic.
Context {L E : Type} (R : tree * L -> tree * L -> Prop).
Implicit Types w : World L.

Definition state w : tree * L := (disk w, ledger w).

(** What a run from [w] to [w'] goes through. *)
Record passes (alive : bool) w w' : Prop := {
  ps_disks d : d ∈ possible w' ->
    d ∈ (unflushed w).*1 \/ exists l, rtc R (state w) (d, l);
  ps_ledger : exists d, rtc R (state w) (d, ledger w');
  ps_alive : alive = true -> rtc R (state w) (state w');
  ps_state : no_cuts (fates w) -> rtc R (state w) (state w') /\ no_cuts (fates w');
}.

Definition assn : Type := tree -> L -> Prop.

Definition ends {A} (Q : A -> assn) (X : assn) (r : option (result (FlowError E) A)) w : Prop :=
  match r with
  | Some (Ok a) => Q a (disk w) (ledger w)
  | Some _ => X (disk w) (ledger w)
  | None => True
  end.

Definition triple {A} (P : assn) (m : Prog L E A) (Q : A -> assn) (X : assn) : Prop :=
  forall w, P (disk w) (ledger w) ->
    passes (is_some (m w).1) w (m w).2 /\ ends Q X (m w).1 (m w).2.

Lemma passes_refl b w : passes b w w.
Proof.
  split; [|exists (disk w); apply rtc_refl|intros _; apply rtc_refl
         |intros Hc; split; [apply rtc_refl|done]].
  intros d [->|Hd]%elem_of_cons; [right; exists (ledger w); apply rtc_refl|by left].
Qed.

Lemma passes_trans b w w1 w2 : passes true w w1 -> passes b w1 w2 -> passes b w w2.
Proof.
  intros [D1 _ A1 S1] [D2 [d2 L2] A2 S2]. split.
  - intros d [Hd|(l & Hl)]%D2.
    + apply D1. by right.
    + right. exists l. etrans; [by apply A1|done].
  - exists d2. etrans; [by apply A1|done].
  - intros Hb. etrans; [by apply A1|by apply A2].
  - intros Hc. destruct (S1 Hc) as [H1 Hc1]. destruct (S2 Hc1). split; [by etrans|done].
Qed.

(** A call consumed: the world as the rest of it sees it. *)
Lemma passes_fate b w w' :
  passes b (mk_world (disk w) (unflushed w) (ledger w) (List.tl (fates w))) w' -> passes b w w'.
Proof.
  intros [D Lg A S]. split; [exact D|exact Lg|exact A|]. intros Hc. by apply S, no_cuts_tl.
Qed.

Lemma cut_possible n w d : d ∈ possible (cut n w) -> d ∈ possible w.
Proof.
  destruct n as [n|]; [|done]. unfold cut, possible at 1. cbn -[possible].
  rewrite list_elem_of_singleton. intros ->.
  destruct (possible w !! n) eqn:H; cbn; [by eapply list_elem_of_lookup_2|by left].
Qed.

(** The fates after [w]'s first. *)
Definition lucky w : World L := mk_world (disk w) (unflushed w) (ledger w) (List.tl (fates w)).

Lemma call_triple {A} P (works : World L -> result (FlowError E) A * World L) Q (X : assn) :
  (forall w, P (disk w) (ledger w) ->
     X (disk w) (ledger w) /\ passes true w (works w).2
     /\ ends Q X (Some (works w).1) (works w).2) ->
  triple P (call works) Q X.
Proof.
  intros H w HP. destruct (H (lucky w) HP) as (Ht & Hw & He).
  unfold call. fold (lucky w). destruct (fates w) as [|[| |lost] fs] eqn:Hf; cbn [List.hd].
  - destruct (works (lucky w)) as [r w2]. split; [by apply passes_fate|done].
  - destruct (works (lucky w)) as [r w2]. split; [by apply passes_fate|done].
  - split; [apply passes_fate, passes_refl|done].
  - pose proof (passes_fate true w (lucky w) (passes_refl true (lucky w))) as [D Lg Al S].
    split; [|done]. split.
    + intros d Hd. apply D. by eapply cut_possible.
    + by destruct lost.
    + done.
    + rewrite Hf. intros Hc. pose proof (Forall_inv Hc) as Hl. destruct lost; [done|].
      apply S. by rewrite Hf.
Qed.

(** *** Structural rules *)

Lemma triple_conseq {A} (P P' : assn) (m : Prog L E A) Q Q' (X X' : assn) :
  triple P m Q X -> (forall t l, P' t l -> P t l) -> (forall a t l, Q a t l -> Q' a t l) ->
  (forall t l, X t l -> X' t l) -> triple P' m Q' X'.
Proof.
  intros H HP HQ HX w Hw. destruct (H w) as [Hs He]; [by apply HP|]. split; [done|].
  destruct (m w) as [[[a|e|c]|] w']; cbn in *; auto.
Qed.

Lemma triple_pre {A} (P P' : assn) (m : Prog L E A) Q X :
  triple P m Q X -> (forall t l, P' t l -> P t l) -> triple P' m Q X.
Proof. intros H HP. by eapply triple_conseq. Qed.

Lemma triple_post {A} P (m : Prog L E A) (Q Q' : A -> assn) X :
  triple P m Q X -> (forall a t l, Q a t l -> Q' a t l) -> triple P m Q' X.
Proof. intros H HQ. by eapply triple_conseq. Qed.

Lemma triple_err {A} P (m : Prog L E A) Q (X X' : assn) :
  triple P m Q X -> (forall t l, X t l -> X' t l) -> triple P m Q X'.
Proof. intros H HX. by eapply triple_conseq. Qed.

(** A premise that holds whenever the precondition does. *)
Lemma triple_pure {A} (P : assn) (H : Prop) (m : Prog L E A) Q X :
  (forall t l, P t l -> H) -> (H -> triple P m Q X) -> triple P m Q X.
Proof. intros HP Hm w Hw. by apply (Hm (HP _ _ Hw)). Qed.

Lemma triple_exists {A B} (P : B -> assn) (m : Prog L E A) Q X :
  (forall b, triple (P b) m Q X) -> triple (fun t l => exists b, P b t l) m Q X.
Proof. intros H w [b Hb]. by apply (H b). Qed.

Lemma triple_ret {A} (a : A) (P : assn) X : triple P (mret a : Prog L E A) (fun x t l => x = a /\ P t l) X.
Proof. intros w HP. split; [apply passes_refl|done]. Qed.

Lemma triple_bail {A} e (P : assn) (Q : A -> assn) : triple P (bail e) Q P.
Proof. intros w HP. split; [apply passes_refl|done]. Qed.

Lemma triple_of_result {A} (r : result (FlowError E) A) (P : assn) :
  triple P (of_result r) (fun a t l => r = Ok a /\ P t l) P.
Proof. intros w HP. split; [apply passes_refl|]. by destruct r. Qed.

Lemma triple_bind {A B} P (m : Prog L E A) Q (k : A -> Prog L E B) Q' X :
  triple P m Q X -> (forall a, triple (Q a) (k a) Q' X) -> triple P (m ≫= k) Q' X.
Proof.
  intros Hm Hk w HP. destruct (Hm w HP) as [Hs He]. unfold mbind, prog_bind.
  destruct (m w) as [[[a|e|c]|] w']; cbn in *; [|done..].
  destruct (Hk a w' He) as [Hs' He']. split; [by eapply passes_trans|done].
Qed.

Lemma triple_bail_if c e (P : assn) :
  triple P (bail_if c e : Prog L E unit) (fun _ t l => c = false /\ P t l) P.
Proof. destruct c; intros w HP; (split; [apply passes_refl|done]). Qed.

Lemma triple_look {A} (f : tree -> A) (P : assn) X :
  triple P (look f : Prog L E A) (fun a t l => a = f t /\ P t l) X.
Proof. intros w HP. split; [apply passes_refl|done]. Qed.

Lemma triple_outcome {A} P (m : Prog L E A) Q (X : assn) X' :
  triple P m Q X ->
  triple P (outcome m)
    (fun r t l => match r with Ok a => Q a t l | _ => X t l end) X'.
Proof.
  intros H w HP. destruct (H w HP) as [Hs He]. unfold outcome.
  destruct (m w) as [[[a|e|c]|] w']; cbn in *; done.
Qed.

(** *** Calls *)

Lemma triple_ask {A} (f : tree -> result (FlowError E) A) (P : assn) :
  triple P (ask f) (fun a t l => f t = Ok a /\ P t l) P.
Proof.
  apply call_triple. intros w HP. split_and!; [done| |].
  - apply passes_refl.
  - cbn. by destruct (f (disk w)).
Qed.

Lemma triple_probe e ok (P : assn) : triple P (probe e ok : Prog L E unit) (fun _ t l => ok = true /\ P t l) P.
Proof.
  apply call_triple. intros w HP. split_and!; [done| |].
  - apply passes_refl.
  - by destruct ok.
Qed.

Lemma triple_query {A} (f : L -> result (FlowError E) A) (P : assn) :
  triple P (query f) (fun a t l => f l = Ok a /\ P t l) P.
Proof.
  apply call_triple. intros w HP. split_and!; [done| |].
  - apply passes_refl.
  - cbn. by destruct (f (ledger w)).
Qed.

Lemma passes_changed dirs t w :
  rtc R (state w) (t, ledger w) -> passes true w (changed dirs t w).
Proof.
  intros H. split; [|by eexists|by intros _|by intros Hc; split].
  intros d [->|[->|Hd]%elem_of_cons]%elem_of_cons;
    [right; by eexists|right; exists (ledger w); apply rtc_refl|by left].
Qed.

Lemma triple_change dirs f (P : assn) :
  (forall t t' l, P t l -> f t = Ok t' -> rtc R (t, l) (t', l)) ->
  triple P (change dirs f : Prog L E unit)
    (fun _ t' l => exists t, f t = Ok t' /\ P t l) P.
Proof.
  intros H. apply call_triple. intros w HP.
  split_and!; [done| |].
  - destruct (f (disk w)) as [t|e|c] eqn:Hf; [|apply passes_refl..].
    apply passes_changed. by eapply H.
  - destruct (f (disk w)) as [t|e|c] eqn:Hf; cbn; [by exists (disk w)|done..].
Qed.

Lemma pending_incl (l : list (tree * list path)) d : d ∈ (pending l).*1 -> d ∈ l.*1.
Proof.
  induction l as [|[t [|p ps]] l IH]; csimpl; [done|by intros ?%elem_of_nil|].
  rewrite !elem_of_cons. naive_solver.
Qed.

Lemma triple_sync_all p (P : assn) : triple P (sync_all p : Prog L E unit) (fun _ => P) P.
Proof.
  apply call_triple. intros w HP. split_and!; [done| |done].
  split; [|exists (disk w); apply rtc_refl|intros _; apply rtc_refl
         |intros Hc; split; [apply rtc_refl|done]].
  intros d [->|Hd]%elem_of_cons; [right; exists (ledger w); apply rtc_refl|left]. cbn in Hd.
  apply pending_incl in Hd. by rewrite <- list_fmap_compose in Hd.
Qed.

Lemma triple_sync p (P : assn) : triple P (sync_parent p : Prog L E unit) (fun _ => P) P.
Proof. apply triple_sync_all. Qed.

Lemma triple_commit {A J} (wrap : J -> E) (m : L -> result J A * L) (P : assn) :
  (forall t l a l', P t l -> m l = (Ok a, l') -> rtc R (t, l) (t, l')) ->
  (forall l r l', m l = (r, l') -> is_ok r = false -> l' = l) ->
  triple P (commit wrap m) (fun a t l' => exists l, m l = (Ok a, l') /\ P t l) P.
Proof.
  intros H Hs. apply call_triple. intros [d u l f] HP. cbn in HP.
  split_and!; [done| |]; cbn;
    destruct (m l) as [[a|e|c] l'] eqn:Hm; cbn;
    try (apply Hs in Hm as ->; [|done]); try done; try apply passes_refl.
  - specialize (H _ _ _ _ HP Hm). split; [|by eexists|by intros _|by intros Hc; split].
    intros x [->|Hx]%elem_of_cons; [right; by eexists|by left].
  - by exists l.
Qed.

(** *** Loops *)

Lemma triple_for_each_in {X} (body : X -> Prog L E unit) (l : list X) (P Xe : assn) :
  (forall x, x ∈ l -> triple P (body x) (fun _ => P) Xe) ->
  triple P (for_each body l) (fun _ => P) Xe.
Proof.
  intros H. induction l as [|x l IH]; cbn [for_each].
  - eapply triple_conseq; [apply (triple_ret tt P Xe)|done|naive_solver|done].
  - eapply triple_bind; [apply H; by left|intros a; apply IH]. intros y Hy. apply H. by right.
Qed.

Lemma triple_for_each {X} (body : X -> Prog L E unit) (l : list X) (P Xe : assn) :
  (forall x, triple P (body x) (fun _ => P) Xe) -> triple P (for_each body l) (fun _ => P) Xe.
Proof. intros H. apply triple_for_each_in. intros x _. apply H. Qed.

(** *** Calls of several steps *)

(** A last change, or none. *)
Lemma triple_skip {A} (a : A) (P : assn) X : triple P (mret a : Prog L E A) (fun _ => P) X.
Proof. eapply triple_post; [apply triple_ret|]. by intros x t l [_ ?]. Qed.

Lemma triple_ensure_dir p (P Q : assn) :
  (forall t l, P t l -> is_directory p t = true -> Q t l) ->
  (forall t t' l, P t l -> create_dir p t = (Ok t' : result (FlowError E) tree) ->
     rtc R (t, l) (t', l) /\ Q t' l) ->
  triple P (ensure_dir p) (fun _ => Q) P.
Proof.
  intros Hd Hc. unfold ensure_dir. eapply triple_bind; [apply triple_look|].
  intros [|]; cbv beta iota.
  - eapply triple_pre; [apply triple_skip|]. intros t l [? ?]. by apply Hd.
  - eapply triple_post; [eapply triple_pre; [apply (triple_change _ _ P)|]|].
    + intros t t' l HP Ht. by eapply Hc.
    + by intros t l [_ ?].
    + intros _ t' l (t & Ht & HP). by eapply (Hc t t' l).
Qed.

Lemma triple_create_dir_all p (P Q : assn) :
  (forall q t t' l, q ∈ ancestors p -> P t l ->
     create_dir q t = (Ok t' : result (FlowError E) tree) -> rtc R (t, l) (t', l) /\ P t' l) ->
  (forall t l, P t l -> is_directory p t = true -> Q t l) ->
  (forall t t' l, P t l -> create_dir p t = (Ok t' : result (FlowError E) tree) ->
     rtc R (t, l) (t', l) /\ Q t' l) ->
  triple P (create_dir_all p) (fun _ => Q) P.
Proof.
  intros Ha Hd Hc. apply (triple_bind _ _ (fun _ => P)).
  - apply triple_for_each_in. intros q Hq. apply triple_ensure_dir; [done|]. intros t t' l. by apply Ha.
  - intros _. by apply triple_ensure_dir.
Qed.

(** A file made and filled. *)
Lemma triple_write_all p body pre (P : assn) :
  (forall t t' l v, P t l -> alter p (fun _ => Some v) t = Some t' ->
     rtc R (t, l) (t', l) /\ P t' l) ->
  triple (fun t l => P t l /\ read_file p t = (Ok pre : result (FlowError E) bytes)) (write_all p body)
    (fun _ t l => P t l /\ read_file p t = (Ok (pre ++ body) : result (FlowError E) bytes)) P.
Proof.
  intros H. unfold write_all. revert pre. induction body as [|b body IH]; intros pre; cbn [for_each].
  - rewrite app_nil_r. apply triple_skip.
  - eapply triple_bind; [|intros a; rewrite (app_assoc pre [b] body : pre ++ b :: body = _); apply IH].
    eapply triple_conseq; [apply (triple_change _ _ (fun t l => P t l
        /\ read_file p t = (Ok pre : result (FlowError E) bytes)))|done| |by intros t l [? _]].
    + intros t t' l [HP _] (old & _ & Hp)%result_bind_ok. apply written_ok in Hp as (v & Hv & _).
      by eapply H.
    + intros a t' l (t & (old & Ho & Hp)%result_bind_ok & HP & Hr).
      assert (old = pre) as -> by congruence. apply written_ok in Hp as (v & Hv & Hrd).
      split; [by eapply (H t t' l v)|done].
Qed.

Lemma triple_create_file p (P : assn) :
  (forall t t' l v, P t l -> alter p (fun _ => Some v) t = Some t' ->
     rtc R (t, l) (t', l) /\ P t' l) ->
  triple P (create_file p)
    (fun _ t l => P t l /\ read_file p t = (Ok [] : result (FlowError E) bytes)) P.
Proof.
  intros H. eapply triple_post; [apply (triple_change _ _ P)|].
  - intros t t' l HP (v & Hv & _)%written_ok. by eapply H.
  - intros a t' l (t & (v & Hv & Hr)%written_ok & HP).
    exact (conj (proj2 (H _ _ _ _ HP Hv)) Hr).
Qed.

Lemma triple_unlink p dirs f (P : assn) :
  (forall t t', f t = (Ok t' : result (FlowError E) tree) -> alter p (fun _ => None) t = Some t') ->
  (forall t t' l, P t l -> alter p (fun _ => None) t = Some t' -> rtc R (t, l) (t', l) /\ P t' l) ->
  triple P (change dirs f) (fun _ => P) P.
Proof.
  intros Hf H. eapply triple_post; [apply (triple_change _ _ P)|].
  - intros t t' l HP Ht%Hf. by eapply H.
  - intros a t' l (t & Ht%Hf & HP). by eapply (H t).
Qed.

Lemma triple_remove_tree p t (P : assn) :
  (forall q t t' l, above p q -> P t l -> alter q (fun _ => None) t = Some t' ->
     rtc R (t, l) (t', l) /\ P t' l) ->
  triple P (remove_tree_at p t) (fun _ => P) P.
Proof.
  revert p. induction t as [b|o|es IH] using tree_induction; intros p H; cbn [remove_tree_at].
  1,2: apply (triple_unlink p); [apply remove_file_ok|intros t t' l; apply H, above_refl].
  eapply triple_bind; [apply triple_ask|intros a].
  apply (triple_pre P); [|by intros t l [_ ?]].
  apply (triple_bind _ _ (fun _ => P)); [clear a|intros _].
  - induction es as [|[name t'] es IHes]; [apply triple_skip|].
    apply Forall_cons in IH as [IH1 IH]. specialize (IHes IH).
    eapply triple_bind; [apply triple_look|intros there]. cbv beta.
    apply (triple_pre P); [|by intros t l [_ ?]].
    apply (triple_bind _ _ (fun _ => P)); [|intros _; exact IHes].
    destruct there; [|apply triple_skip]. apply IH1. intros q t t1 l Hq. apply H.
    eapply above_trans; [|exact Hq]. apply above_app.
  - apply (triple_unlink p); [by intros t t' [_ Ht]%remove_dir_ok|].
    intros t t' l; apply H, above_refl.
Qed.

Lemma triple_remove_dir_all p (P : assn) :
  (forall q t t' l, above p q -> P t l -> alter q (fun _ => None) t = Some t' ->
     rtc R (t, l) (t', l) /\ P t' l) ->
  triple P (remove_dir_all p) (fun _ => P) P.
Proof.
  intros H. unfold remove_dir_all. eapply triple_bind; [apply triple_look|]. intros found. cbv beta.
  apply (triple_pre P); [|by intros t l [_ ?]].
  destruct found as [[b|o|es]|]; try apply triple_bail; by apply triple_remove_tree.
Qed.

(** *** Checks: programs that change nothing *)

Definition quiet {A} (m : Prog L E A) : Prop := forall P, triple P m (fun _ => P) P.

Lemma quiet_ret {A} (a : A) : quiet (mret a).
Proof. intros P. eapply triple_post; [apply triple_ret|]. by intros ??? [_ ?]. Qed.

Lemma quiet_bail {A} e : quiet (bail e : Prog L E A).
Proof. intros P. apply triple_bail. Qed.

Lemma quiet_bail_if c e : quiet (bail_if c e).
Proof. destruct c; [apply quiet_bail|apply quiet_ret]. Qed.

Lemma quiet_of_result {A} (r : result (FlowError E) A) : quiet (of_result r).
Proof. intros P. eapply triple_post; [apply triple_of_result|]. by intros ??? [_ ?]. Qed.

Lemma quiet_look {A} (f : tree -> A) : quiet (look f).
Proof. intros P. eapply triple_post; [apply triple_look|]. by intros ??? [_ ?]. Qed.

Lemma quiet_ask {A} (f : tree -> result (FlowError E) A) : quiet (ask f).
Proof. intros P. eapply triple_post; [apply triple_ask|]. by intros ??? [_ ?]. Qed.

Lemma quiet_probe e ok : quiet (probe e ok).
Proof. intros P. eapply triple_post; [apply triple_probe|]. by intros ??? [_ ?]. Qed.

Lemma quiet_query {A} (f : L -> result (FlowError E) A) : quiet (query f).
Proof. intros P. eapply triple_post; [apply triple_query|]. by intros ??? [_ ?]. Qed.

Lemma quiet_bind {A B} (m : Prog L E A) (k : A -> Prog L E B) :
  quiet m -> (forall a, quiet (k a)) -> quiet (m ≫= k).
Proof. intros Hm Hk P. eapply triple_bind; [apply Hm|intros a; apply Hk]. Qed.

Lemma quiet_for_each {X} (body : X -> Prog L E unit) (l : list X) :
  (forall x, quiet (body x)) -> quiet (for_each body l).
Proof. intros H P. apply triple_for_each. intros x. apply H. Qed.

(** A check before the rest. *)
Lemma triple_after {A B} (P : assn) (m : Prog L E A) (k : A -> Prog L E B) Q (X : assn) :
  quiet m -> (forall t l, P t l -> X t l) -> (forall a, triple P (k a) Q X) ->
  triple P (m ≫= k) Q X.
Proof.
  intros Hm HX Hk. eapply triple_bind; [|exact Hk]. eapply triple_err; [apply Hm|done].
Qed.

End logic.

Create HintDb quiet.
#[export] Hint Resolve quiet_ret quiet_bail quiet_bail_if quiet_of_result quiet_look quiet_ask
  quiet_probe quiet_query quiet_bind quiet_for_each : quiet.

(** ** Runs in which nothing fails

    [goes P m Q]: where no call fails and no process dies, [m] started in [P] ends well
    in [Q]. *)

Section goes.
Context {L E : Type}.
Implicit Types w : World L.

Definition goes {A} (P : assn) (m : Prog L E A) (Q : A -> assn) : Prop :=
  forall w, fates w = [] -> P (disk w) (ledger w) ->
    exists a w', m w = (Some (Ok a), w') /\ fates w' = [] /\ Q a (disk w') (ledger w').

Lemma goes_conseq {A} (P P' : assn) (m : Prog L E A) (Q Q' : A -> assn) :
  goes P m Q -> (forall t l, P' t l -> P t l) -> (forall a t l, Q a t l -> Q' a t l) ->
  goes P' m Q'.
Proof.
  intros H HP HQ w Hf Hw. destruct (H w Hf) as (a & w' & ? & ? & ?); [by apply HP|].
  exists a, w'. auto.
Qed.

Lemma goes_ret {A} (a : A) P : goes P (mret a) (fun x t l => x = a /\ P t l).
Proof. intros w Hf Hw. by exists a, w. Qed.

Lemma goes_bind {A B} P (m : Prog L E A) Q (k : A -> Prog L E B) Q' :
  goes P m Q -> (forall a, goes (Q a) (k a) Q') -> goes P (m ≫= k) Q'.
Proof.
  intros Hm Hk w Hf Hw. destruct (Hm w Hf Hw) as (a & w1 & Hr & Hf1 & Hq).
  destruct (Hk a w1 Hf1 Hq) as (b & w2 & Hr2 & ? & ?). exists b, w2.
  unfold mbind, prog_bind. by rewrite Hr.
Qed.

Lemma goes_look {A} (f : tree -> A) P : goes P (look f) (fun a t l => a = f t /\ P t l).
Proof. intros w Hf Hw. by exists (f (disk w)), w. Qed.

Lemma goes_result {A} (r : result (FlowError E) A) (P : assn) :
  is_ok r = true -> goes P (of_result r) (fun a t l => r = Ok a /\ P t l).
Proof. destruct r as [a|e|c]; [|done..]. intros _ w Hf Hw. by exists a, w. Qed.

(** A call of a world in which nothing fails. *)
Lemma goes_call {A} (works : World L -> result (FlowError E) A * World L) P Q :
  (forall w, fates w = [] -> P (disk w) (ledger w) ->
     exists a w', works w = (Ok a, w') /\ fates w' = [] /\ Q a (disk w') (ledger w')) ->
  goes P (call works) Q.
Proof.
  intros H [d u l f] Hf Hw. cbn in Hf. subst f. unfold call. cbn [fates List.hd List.tl disk unflushed ledger].
  destruct (H (mk_world d u l []) eq_refl Hw) as (a & w' & Hr & ? & ?). rewrite Hr.
  by exists a, w'.
Qed.

Lemma goes_ask {A} (f : tree -> result (FlowError E) A) (P : assn) :
  (forall t l, P t l -> is_ok (f t) = true) -> goes P (ask f) (fun a t l => f t = Ok a /\ P t l).
Proof.
  intros H. apply goes_call. intros w Hf Hw. specialize (H _ _ Hw).
  destruct (f (disk w)) as [a|e|c] eqn:Ha; [|done..]. by exists a, w.
Qed.

Lemma goes_query {A} (f : L -> result (FlowError E) A) (P : assn) :
  (forall t l, P t l -> is_ok (f l) = true) -> goes P (query f) (fun a t l => f l = Ok a /\ P t l).
Proof.
  intros H. apply goes_call. intros w Hf Hw. specialize (H _ _ Hw).
  destruct (f (ledger w)) as [a|e|c] eqn:Ha; [|done..]. by exists a, w.
Qed.

Lemma goes_change dirs f (P : assn) (Q : unit -> assn) :
  (forall t l, P t l -> exists t', f t = Ok t' /\ Q tt t' l) -> goes P (change dirs f) Q.
Proof.
  intros H. apply goes_call. intros w Hf Hw. destruct (H _ _ Hw) as (t' & Ht & Hq). rewrite Ht.
  by exists tt, (changed dirs t' w).
Qed.

Lemma goes_sync p (P : assn) : goes P (sync_parent p) (fun _ => P).
Proof. apply goes_call. intros w Hf Hw. eexists tt, _. split_and!; [done|exact Hf|exact Hw]. Qed.

Lemma goes_commit {A J} (wrap : J -> E) (m : L -> result J A * L) (P : assn) Q :
  (forall t l, P t l -> exists a l', m l = (Ok a, l') /\ Q a t l') -> goes P (commit wrap m) Q.
Proof.
  intros H. apply goes_call. intros w Hf Hw. destruct (H _ _ Hw) as (a & l' & Hm & Hq). rewrite Hm.
  eexists a, _. split_and!; [done|exact Hf|exact Hq].
Qed.

(** The outcome of a change is there, whatever it is. *)
Lemma goes_outcome_change dirs f (P : assn) :
  goes P (outcome (change dirs f)) (fun _ _ _ => True).
Proof.
  intros [d u l fs] Hf Hw. cbn in Hf. subst fs. unfold outcome, change, call.
  cbn [fates List.hd List.tl disk]. destruct (f d); by eexists _, _.
Qed.

Lemma goes_for_each {X} (body : X -> Prog L E unit) l (P : assn) :
  (forall x, goes P (body x) (fun _ => P)) -> goes P (for_each body l) (fun _ => P).
Proof.
  intros H. induction l as [|x l IH]; cbn [for_each].
  - eapply goes_conseq; [apply (goes_ret tt P)|done|]. by intros a t l [_ ?].
  - apply (goes_bind _ _ (fun _ => P)); [apply H|intros _; exact IH].
Qed.

Lemma for_each_snoc {X} (body : X -> Prog L E unit) l x w :
  for_each body (l ++ [x]) w = (for_each body l ≫= fun _ => body x) w.
Proof.
  revert w. induction l as [|y l IH]; intros w; cbn [for_each app]; unfold mbind, prog_bind.
  - cbn. by destruct (body x w) as [[[[]|e|c]|] w'].
  - destruct (body y w) as [[[[]|e|c]|] w']; [|done..]. exact (IH w').
Qed.

Lemma goes_ext {A} P (m m' : Prog L E A) Q : (forall w, m w = m' w) -> goes P m' Q -> goes P m Q.
Proof. intros H Hm w Hf Hw. rewrite H. by apply Hm. Qed.

Lemma goes_from {A} P (m : Prog L E A) Q :
  (forall t l, P t l -> goes (fun t' l' => t' = t /\ l' = l) m Q) -> goes P m Q.
Proof. intros H w Hf Hw. by apply (H _ _ Hw). Qed.

(** *** Folders *)

Lemma goes_ensure_dir p (I : tree -> Prop) :
  p <> [] -> (forall t t', I t -> lookup p t = None ->
    alter p (fun _ => Some (Dir [])) t = Some t' -> I t') ->
  goes (fun t _ => I t /\ dirs_to p t /\ dir_or_none p t) (ensure_dir p)
    (fun _ t _ => I t /\ dirs_to p t /\ is_dir p t).
Proof.
  intros Hp HI. unfold ensure_dir. eapply goes_bind; [apply goes_look|]. intros [|]; cbv beta iota.
  - eapply goes_conseq; [apply goes_ret|intros t l H; exact H|].
    intros a t l (_ & Hd & H1 & H2 & [Hn|H3]); [|done].
    unfold is_directory in Hd. by rewrite Hn in Hd.
  - apply goes_change. intros t l (Hd & H1 & H2 & [Hn|[es Hes]]).
    + destruct (create_dir_works (E := E) p t) as [t' Ht]; [done..|]. exists t'. split; [done|].
      apply create_dir_ok in Ht as [_ Ha]. split_and!; [by eapply HI| |].
      * intros q Hq Hne. eapply made_is_dir; [done..|]. by apply H2.
      * exists []. by rewrite (lookup_alter_same _ _ _ _ Ha).
    + unfold is_directory in Hd. by rewrite Hes in Hd.
Qed.

(** Where nothing but folders is on the way, [create_dir_all] makes the rest of it. *)
Lemma goes_create_dir_all p :
  goes (fun t _ => is_dir [] t /\ forall q, above q p -> dir_or_none q t) (create_dir_all p)
    (fun _ t _ => forall q, above q p -> is_dir q t).
Proof.
  assert (forall d, above d p ->
    goes (fun t _ => is_dir [] t /\ forall q, above q p -> dir_or_none q t) (create_dir_all d)
      (fun _ t _ => (forall q, above q p -> dir_or_none q t) /\ dirs_to d t /\ is_dir d t)) as H.
  { induction d as [|name d IH] using rev_ind; intros Hd.
    - intros w Hf [[es He] Hw]. injection He as He. exists tt, w. split_and!; [|done|done|..].
      + unfold create_dir_all, ensure_dir, mbind, prog_bind, look. cbn [ancestors for_each].
        unfold is_directory. cbn. by rewrite He.
      + intros q [r Hr] Hne. by destruct q.
      + exists es. by rewrite <- He.
    - assert (above d p) as Hd' by (eapply above_trans; [apply above_app|exact Hd]).
      eapply goes_bind.
      + rewrite ancestors_snoc. eapply goes_ext; [apply for_each_snoc|]. by apply IH.
      + intros u. eapply goes_conseq; [apply (goes_ensure_dir (d ++ [name])
          (fun t => forall q, above q p -> dir_or_none q t))| |by intros a t l Ht].
        * by destruct d.
        * intros t t' Ht Hn Ha q Hq. eapply made_dir_or_none; [done..|by apply Ht].
        * intros t l (H1 & H2 & H3). split_and!; [done| |by apply H1].
          intros q Hq Hne. apply above_parent in Hq; [|by destruct d|done]. rewrite parent_snoc in Hq.
          destruct (decide (q = d)) as [->|]; [exact H3|by apply H2]. }
  eapply goes_conseq; [apply (H p (above_refl p))|done|]. intros a t l (_ & Hd & Hp) q Hq.
  destruct (decide (q = p)) as [->|Hne]; [exact Hp|by apply Hd].
Qed.

(** What [remove_dir_all] leaves: nothing at its path, the rest as it was. *)
Definition cleared (p : path) (t t' : tree) : Prop :=
  lookup p t' = None /\ (forall q, apart p q -> lookup q t' = lookup q t)
  /\ (forall q, ~ above p q -> is_dir q t -> is_dir q t').

Lemma cleared_alter p t t' : alter p (fun _ => None) t = Some t' -> cleared p t t'.
Proof.
  intros H. split_and!.
  - by rewrite (lookup_alter_same _ _ _ _ H).
  - intros q Hq. by rewrite (lookup_alter_apart _ _ _ _ _ H).
  - intros q Hq. by eapply alter_is_dir.
Qed.

(** A folder [p] of the disk [d], emptied but for what [rest] lists. *)
Definition emptied (p : path) (d : tree) (rest : list (string * tree)) (d' : tree) : Prop :=
  dirs_to p d'
  /\ (exists cur, lookup p d' = Some (Dir cur)
        /\ forall n x, entry_of n cur = Some x -> entry_of n rest = Some x)
  /\ (forall q, apart p q -> lookup q d' = lookup q d)
  /\ (forall q, ~ above p q -> is_dir q d -> is_dir q d').

Lemma lookup_entry p name d cur :
  lookup p d = Some (Dir cur) -> lookup (join p name) d = entry_of name cur.
Proof. intros H. unfold join. rewrite lookup_app, H. cbn. by destruct (entry_of name cur). Qed.

Lemma join_apart p n m : n <> m -> apart (join p n) (join p m).
Proof. intros H. unfold join. induction p as [|x p IH]; [by apply apart_cons_ne|by apply apart_cons]. Qed.

Lemma emptied_gone p d name t rest d' :
  emptied p d ((name, t) :: rest) d' -> lookup (join p name) d' = None -> emptied p d rest d'.
Proof.
  intros (H1 & (cur & Hc & He) & H3 & H4) Hn. split_and!; [done| |done..]. exists cur.
  split; [done|]. intros n x Hx. specialize (He n x Hx). cbn [entry_of] in He.
  destruct (String.eqb_spec name n) as [->|]; [|done].
  rewrite (lookup_entry _ _ _ _ Hc) in Hn. congruence.
Qed.

Lemma emptied_cleared p d name t rest d1 d2 :
  emptied p d ((name, t) :: rest) d1 -> cleared (join p name) d1 d2 -> emptied p d rest d2.
Proof.
  intros (H1 & (cur & Hc & He) & H3 & H4) (C1 & C2 & C3).
  assert (forall q, ~ above p q -> ~ above (join p name) q) as Hup.
  { intros q Hq Ha. apply Hq. eapply above_trans; [apply above_app|exact Ha]. }
  assert (~ above (join p name) p) as Hjoin.
  { intros [r Hr]. apply (f_equal length) in Hr. unfold join in Hr. rewrite !length_app in Hr.
    simpl in Hr. lia. }
  destruct (C3 p Hjoin) as [cur' Hc']; [by exists cur|].
  apply (emptied_gone p d name t); [|done]. split_and!.
  - intros q Hq Hne. apply C3; [|by apply H1]. intros Ha. apply Hjoin. by eapply above_trans.
  - exists cur'. split; [done|]. intros n x Hx. apply He.
    rewrite <- (lookup_entry _ _ _ _ Hc') in Hx. rewrite <- (lookup_entry _ _ _ _ Hc).
    destruct (decide (name = n)) as [<-|Hne]; [by rewrite C1 in Hx|].
    by rewrite <- (C2 (join p n)) by by apply join_apart.
  - intros q Hq. rewrite C2; [by apply H3|]. apply apart_sym, apart_sym. unfold join.
    apply apart_sym, apart_below. by apply apart_sym.
  - intros q Hq Hd. apply C3; [by apply Hup|by apply H4].
Qed.

Lemma goes_remove_tree t p d :
  p <> [] -> lookup p d = Some t -> dirs_to p d ->
  goes (fun t' _ => t' = d) (remove_tree_at p t) (fun _ d' _ => cleared p d d').
Proof.
  revert p d. induction t as [b|o|es IH] using tree_induction; intros p d Hp Hl Hd;
    cbn [remove_tree_at].
  1,2: apply goes_change; intros t _ ->;
    destruct (alter_dirs_to p (fun _ => None) d Hp Hd) as [t' Ht]; exists t';
    (split; [unfold remove_file; rewrite Hl; by apply from_option_ok|by apply cleared_alter]).
  eapply goes_bind; [apply goes_ask|intros a].
  { intros t _ ->. unfold read_dir. by rewrite Hl. }
  eapply goes_conseq; [|intros t l [_ Ht]; exact Ht|intros u t l H; exact H]. clear a.
  apply (goes_bind _ _ (fun _ d' _ => emptied p d [] d')).
  - eapply (goes_conseq (fun d' _ => emptied p d es d') (fun t' _ => t' = d));
      [|intros t u Ht; cbv beta in Ht; subst t; split; [exact Hd|];
        split; [exists es; split; [exact Hl|done]|by split]
      |intros a t l H; exact H].
    clear Hl. induction es as [|[name t] es IHes].
    { eapply goes_conseq; [apply goes_ret|intros t l H; exact H|]. by intros a t l [_ ?]. }
    apply Forall_cons in IH as [IH1 IH]. specialize (IHes IH). cbn [snd] in IH1.
    eapply goes_bind; [apply goes_look|intros there]. cbv beta.
    apply (goes_bind _ _ (fun _ d' _ => emptied p d es d')); [|intros _; exact IHes].
    destruct there.
    + apply goes_from. intros d1 l [He Hem]. pose proof Hem as (H1 & (cur & Hc & Hx) & _).
      unfold exists_at in He. rewrite (lookup_entry _ _ _ _ Hc) in He.
      destruct (entry_of name cur) as [x|] eqn:Hn; [|done].
      specialize (Hx name x Hn) as Hx'. cbn [entry_of] in Hx'. rewrite String.eqb_refl in Hx'.
      injection Hx' as <-.
      eapply goes_conseq; [apply (IH1 (join p name) d1)| |].
      * by destruct p.
      * by rewrite (lookup_entry _ _ _ _ Hc).
      * intros q Hq Hne. apply above_parent in Hq; [|by destruct p|done]. unfold join in Hq.
        rewrite parent_snoc in Hq. destruct (decide (q = p)) as [->|]; [by exists cur|by apply H1].
      * by intros t' l' [-> _].
      * intros a d2 l' Hcl. by eapply emptied_cleared.
    + eapply goes_conseq; [apply goes_ret|intros t' l H; exact H|].
      intros a d' l (_ & He & Hem). apply (emptied_gone p d name t); [done|].
      unfold exists_at in He. by destruct (lookup (join p name) d').
  - intros _. apply goes_change. intros d' l (H1 & (cur & Hc & He) & H3 & H4).
    destruct cur as [|[n x] cur].
    2: { specialize (He n x). cbn [entry_of] in He. rewrite String.eqb_refl in He. by discriminate He. }
    destruct (alter_dirs_to p (fun _ => None) d' Hp H1) as [t' Ht]. exists t'. split.
    + unfold remove_dir. rewrite Hc. by apply from_option_ok.
    + destruct (cleared_alter _ _ _ Ht) as (C1 & C2 & C3). split_and!; [done| |].
      * intros q Hq. by rewrite C2, H3.
      * intros q Hq Hq'. by apply C3, H4.
Qed.

(** What a program that goes well keeps besides. *)
Lemma goes_keeps {A} R (I : tree * L -> Prop) P (m : Prog L E A) Q X Q' :
  (forall s s', rtc R s s' -> I s -> I s') -> triple R P m Q X ->
  goes (fun t l => P t l /\ I (t, l)) m Q' ->
  goes (fun t l => P t l /\ I (t, l)) m (fun a t l => Q a t l /\ Q' a t l /\ I (t, l)).
Proof.
  intros HI Ht Hg w Hf [Hw Hi]. destruct (Hg w Hf) as (a & w' & Hr & Hf' & Hq); [done|].
  destruct (Ht w Hw) as [Hp He]. rewrite Hr in Hp, He. cbn [fst snd is_some] in Hp. cbn in He.
  exists a, w'. split_and!; [done..|]. by apply (HI _ _ (ps_alive _ _ _ _ Hp eq_refl)).
Qed.

End goes.
