(* ===== verification/Downgrade.v ===== *)
(** * The downgrade clone (src-tauri/src/team/downgrade.rs)

    The flow that moves a bound profile out of what v0.1.28 reads and leaves it a clone:
    discovery, paths, the steps of the journal's phases, the rollback, and the commands
    that start, resume and undo a flow, as programs over [Disk] and the journals of
    [Journal]. The JSON, UUID and hash crates are parameters, and so is what the operating
    system answers about volumes and links. The data root is the config root, which
    [require_legacy_layout] demands. *)

From Stdlib Require Import Ascii.
From S2P Require Import Prelude Bytes RecordFields Journal Disk.

(** ** Data *)

(** [serde_json::Value]. *)
Inductive json :=
| JNull
| JBool (b : bool)
| JNumber (n : string)
| JString (s : string)
| JArray (items : list json)
| JObject (map : list (string * json)).

(** profile.rs: [StoredProfile] with its [StoredMeta]; [others] are the fields of the
    latter that no flow reads. *)
Module StoredProfile.

Record t := mk {
  id : string;
  created_at : option string;
  temporary : bool;
  others : json;
  config : list (string * json) }.

End StoredProfile.

Definition ARCHIVE_DIR : string := "downgrade-archive".
Definition READBACK_DOMAIN : bytes :=
  as_bytes "SHARDX-DOWNGRADE-CLONE-READBACK-V1" ++ [Byte.x00].
Definition MARKER_KEYS : list string :=
  ["team"; "team_binding"; "team_sync"; "remote_profile_id"; "remote_lineage";
   "server_instance_id"; "fleet_id"; "lease_id"; "fencing_token"; "credential_ref";
   "credential_reference"].

Module Discovery.

Record t := mk {
  listed : list (string * string);
  listed_data : list string;
  seen : list string;
  unparsed : list bytes }.

Definition default : t := mk [] [] [] [].

End Discovery.

(** What the flow reads of team-sync.db besides the journals. *)
Module Binding.

Record t := mk {
  local_profile_id : string;
  server_instance_id : string;
  tenant_id : string;
  fleet_id : string;
  remote_profile_id : string;
  lease_id : option string }.

End Binding.

Module Operation.

Record t := mk {
  local_profile_id : option string;
  kind : string;
  state : string;
  lease_id : option string }.

End Operation.

Module Upload.

Record t := mk { local_profile_id : option string; state : string }.

End Upload.

Record Ledger := mk_ledger {
  journals : Db;
  bindings : list Binding.t;
  operations : list Operation.t;
  upload_sessions : list Upload.t;
  revert_swaps : list string }.

Definition with_journals (l : Ledger) (db : Db) : Ledger :=
  mk_ledger db (bindings l) (operations l) (upload_sessions l) (revert_swaps l).

Definition with_swaps (l : Ledger) (swaps : list string) : Ledger :=
  mk_ledger (journals l) (bindings l) (operations l) (upload_sessions l) swaps.

Abbreviation flow_error := (FlowError JournalError).
Abbreviation flow := (Prog Ledger JournalError).

(** [anyhow::Context] on the outcome of a call. *)
Definition with_context {A} (key : string) (m : flow A) : flow A := fun w =>
  match m w with
  | (Some r, w') => (Some (map_err (Context key) r), w')
  | (None, w') => (None, w')
  end.

(** [.map_err(|_| anyhow!(code))]. *)
Definition refused_as {A} (key : string) (m : flow A) : flow A := fun w =>
  match m w with
  | (Some r, w') => (Some (map_err (fun _ => Coded key) r), w')
  | (None, w') => (None, w')
  end.

(** ** File names *)

(** The last dot and what is around it. *)
Fixpoint rsplit_dot (s : string) : option (string * string) :=
  match s with
  | EmptyString => None
  | String c s' =>
      match rsplit_dot s' with
      | Some (a, b) => Some (String c a, b)
      | None => if Ascii.eqb c "."%char then Some (EmptyString, s') else None
      end
  end.

Definition extension (name : string) : option string :=
  match rsplit_dot name with
  | Some (EmptyString, _) | None => None
  | Some (_, ext) => Some ext
  end.

Definition file_stem (name : string) : string :=
  match rsplit_dot name with
  | Some (EmptyString, _) | None => name
  | Some (stem, _) => stem
  end.

(** [str::contains]. *)
Fixpoint contains (needle hay : bytes) : bool :=
  bool_decide (take (length needle) hay = needle)
  || match hay with [] => false | _ :: hay' => contains needle hay' end.

(** store.rs, for a data root that is the config root. *)
Definition profiles_dir : path := ["profiles"].
Definition user_data_root : path := ["user-data"].
Definition trash_dir : path := ["trash"].

(** Entries of [dir]; a folder that is not there, or a link that leads nowhere, lists
    nothing. *)
Definition entries (dir : path) (t : tree) : result flow_error (list string) :=
  match lookup dir t ≫= resolve with
  | None => Ok []
  | Some d => List.map fst <$> from_option (entries_of d)
  end.

(** ** Listings and copies *)

(** [walk]: every file and directory under a directory with its size, by relative path. *)
Fixpoint walk (prefix : string) (skip_team : bool) (t : tree) (out : list (bytes * Z))
    : result flow_error (list (bytes * Z)) :=
  match t with
  | Dir es =>
      (fix go (es : list (string * tree)) (out : list (bytes * Z)) :=
         match es with
         | [] => Ok out
         | (name, t') :: es' =>
             if skip_team && String.prefix "team-sync" name then go es' out
             else
               match t' with
               | Link _ => Err (Coded "downgrade.userDataLink")
               | Dir _ =>
                   out' ← walk (prefix +:+ name +:+ "/") false t'
                            (btree_insert (as_bytes (prefix +:+ name +:+ "/")) 0 out);
                   go es' out'
               | File body => go es' (btree_insert (as_bytes (prefix +:+ name)) (blen body) out)
               end
         end) es out
  | _ => Err Io
  end.

(** [read_dir] on the root follows a link. *)
Definition listing (root : path) (skip_team : bool) (t : tree)
    : result flow_error (list (bytes * Z)) :=
  d ← from_option (lookup root t);
  es ← from_option (entries_of d);
  walk "" skip_team (Dir es) [].

(** [copy_tree] of the directory [t] at [src]; nothing else changes [src] meanwhile. *)
Fixpoint copy_dir (top : bool) (t : tree) (src dst : path) : flow unit :=
  match t with
  | Dir es =>
      _ ← create_dir_all dst;
      _ ← ask (read_dir src);
      (fix go (es : list (string * tree)) : flow unit :=
         match es with
         | [] => mret tt
         | (name, t') :: es' =>
             if top && String.prefix "team-sync" name then go es'
             else
               _ ← match t' with
                   | Link _ => bail (Coded "downgrade.userDataLink")
                   | Dir _ => copy_dir false t' (join src name) (join dst name)
                   | File _ =>
                       _ ← copy_file (join src name) (join dst name);
                       sync_all (join dst name)
                   end;
               go es'
         end) es
  | _ => bail Io
  end.

(** [copy_tree(src, dst, true)]; [read_dir] on [src] follows a link. *)
Definition copy_tree (src dst : path) : flow unit :=
  found ← look (fun t => lookup src t ≫= resolve);
  match found with
  | Some (Dir es) => copy_dir true (Dir es) src dst
  | _ => _ ← create_dir_all dst; bail Io
  end.

(** ** Records *)

(** [strings_of]: the strings of a value and the keys of its objects. *)
Fixpoint strings_of (value : json) (out : list string * list string) : list string * list string :=
  match value with
  | JString s => (out.1 ++ [s], out.2)
  | JArray items =>
      (fix go (items : list json) (out : list string * list string) :=
         match items with
         | [] => out
         | v :: items' => go items' (strings_of v out)
         end) items out
  | JObject map =>
      (fix go (map : list (string * json)) (out : list string * list string) :=
         match map with
         | [] => out
         | (k, v) :: map' => go map' (strings_of v (out.1, out.2 ++ [k]))
         end) map out
  | _ => out
  end.

(** No marker key, and no forbidden text in any string. *)
Definition clean_value (forbidden : list string) (value : json) : bool :=
  let '(values, keys) := strings_of value ([], []) in
  negb (List.existsb (fun k => List.existsb (String.eqb k) MARKER_KEYS) keys
        || List.existsb (fun v => List.existsb (fun bad =>
             negb (String.eqb bad "") && contains (as_bytes bad) (as_bytes v)) forbidden) values).

(** ** Places *)

Module Places.

Record t := mk {
  dir : path;
  metadata_src : path;
  metadata_dst : path;
  data_src : path;
  data_dst : path;
  clone_metadata : path;
  clone_data : path;
  clone_staging : path;
  retired_metadata : path;
  retired_data : path;
  probe : path }.

(** The places of an original, a clone and a journal ID. *)
Definition of_ids (original new journal_id : string) : t :=
  let dir := [ARCHIVE_DIR; journal_id] in
  let retired := join dir "clone-retired" in
  mk dir (join profiles_dir (original +:+ ".json")) (join dir (original +:+ ".json.archived"))
    (join user_data_root original) (join dir "user-data")
    (join profiles_dir (new +:+ ".json")) (join user_data_root new)
    (join dir "clone-user-data.partial") (join retired (new +:+ ".json"))
    (join retired "user-data") (join dir "idle-probe").

End Places.

(** A journal ID is 16 random bytes in lower-case hex. *)
Definition valid_journal_id (id : string) : bool :=
  (blen (as_bytes id) =? 32)
  && List.forallb (fun b => in_range 48 57 b || in_range 97 102 b) (as_bytes id).

Definition CONFLICTS : list string :=
  ["downgrade.archiveConflict"; "downgrade.originalGone"; "downgrade.stillDiscoverable";
   "downgrade.cloneTeamMarker"; "downgrade.cloneMismatch"; "downgrade.userDataLink";
   "downgrade.readbackFailed"].

Definition forces_rollback (phase : DowngradePhase.t) (e : flow_error) : bool :=
  let clone_exists :=
    match phase with
    | DowngradePhase.CloneWritten | DowngradePhase.ReadbackPassed => true
    | _ => false
    end in
  List.existsb (fun key => has_code e key
                           && negb (clone_exists && String.eqb key "downgrade.originalGone"))
    CONFLICTS.

Module CloneDone.

Record t := mk {
  journal_id : string;
  original_local_profile_id : string;
  new_local_profile_id : string;
  phase : DowngradePhase.t }.

End CloneDone.

Definition done_of (j : DowngradeJournal.t) : CloneDone.t :=
  CloneDone.mk (DowngradeJournal.journal_id j) (DowngradeJournal.original_local_profile_id j)
    (default EmptyString (DowngradeJournal.new_local_profile_id j)) (DowngradeJournal.phase j).

(** What a resume found for one journal. *)
Module Resumed.

Record t := mk {
  journal_id : string;
  original_local_profile_id : string;
  phase : DowngradePhase.t;
  error : option flow_error }.

End Resumed.

(** ** The flow *)

Section flow.
(** The uuid crate: the hyphenated form of an ID that parses. *)
Context (uuid_canonical : string -> option string).
(** serde_json: records and values of a text, and the text of a record. *)
Context (from_slice : bytes -> option StoredProfile.t).
Context (to_vec_pretty : StoredProfile.t -> option bytes).
Context (value_of : bytes -> option json).
Context (sha256 : bytes -> bytes).
(** The operating system: the data root, the volume of a path, whether a path leads into a
    scanned folder, whether the volume is local, the clock ("@" and seconds). *)
Context (data_root : string) (volume_serial : path -> Z) (leads_inside : path -> bool)
  (local_volume : path -> bool) (clock : string).
(** This process: whether the data root is moving, is apart from the config root; the
    claims others hold; the browsers that run. *)
Context (migrating data_root_moved : bool) (claims running : list string).

(** [Path::display]. *)
Definition display (p : path) : string :=
  data_root +:+ String.concat "" (List.map (fun name => "/" +:+ name) p).

(** *** Discovery *)

(** One entry of [profiles/]. *)
Definition scan_record (t : tree) (name : string) (found : Discovery.t)
    : result flow_error Discovery.t :=
  if negb (bool_decide (extension name = Some "json")) then Ok found
  else
    let stem := file_stem name in
    body ← read_to_string (join profiles_dir name) t;
    Ok match from_slice body with
       | Some stored =>
           Discovery.mk (Discovery.listed found ++ [(stem, StoredProfile.id stored)])
             (Discovery.listed_data found)
             (Discovery.seen found ++ [stem; StoredProfile.id stored])
             (Discovery.unparsed found)
       | None =>
           Discovery.mk (Discovery.listed found) (Discovery.listed_data found)
             (Discovery.seen found) (Discovery.unparsed found ++ [body])
       end.

Fixpoint scan_records (t : tree) (names : list string) (found : Discovery.t)
    : result flow_error Discovery.t :=
  match names with
  | [] => Ok found
  | name :: names' => found' ← scan_record t name found; scan_records t names' found'
  end.

(** [discover], with the one root of [scan_roots]. *)
Definition scan (t : tree) : result flow_error Discovery.t :=
  names ← entries profiles_dir t;
  found ← scan_records t names Discovery.default;
  data ← entries user_data_root t;
  trash ← entries trash_dir t;
  Ok (Discovery.mk (Discovery.listed found) (Discovery.listed_data found ++ data)
        (Discovery.seen found ++ data ++ List.map file_stem trash) (Discovery.unparsed found)).

Definition discover : flow Discovery.t := ask scan.

Definition mentions (found : Discovery.t) (id : string) : bool :=
  List.existsb (String.eqb id) (Discovery.seen found)
  || List.existsb (contains (as_bytes id)) (Discovery.unparsed found).

Definition lists (found : Discovery.t) (id : string) : bool :=
  List.existsb (fun p => String.eqb p.1 id && String.eqb p.2 id) (Discovery.listed found).

Definition has_data (found : Discovery.t) (id : string) : bool :=
  List.existsb (String.eqb id) (Discovery.listed_data found).

(** profile.rs, [list_all]: the IDs it lists. The flow holds the claim the backfill of
    [created_at] would need, so nothing is written. *)
Fixpoint listed_ids (t : tree) (names : list string) : result flow_error (list string) :=
  match names with
  | [] => Ok []
  | name :: names' =>
      if negb (bool_decide (extension name = Some "json")) then listed_ids t names'
      else
        body ← read_to_string (join profiles_dir name) t;
        rest ← listed_ids t names';
        Ok match from_slice body with
           | Some stored =>
               if StoredProfile.temporary stored then rest else StoredProfile.id stored :: rest
           | None => rest
           end
  end.

Definition list_all (t : tree) : result flow_error (list string) :=
  d ← from_option (lookup profiles_dir t);
  es ← from_option (entries_of d);
  listed_ids t (List.map fst es).

(** profile.rs, [load_raw] of an ID that is a UUID. *)
Definition load_raw (id : string) (t : tree) : result flow_error StoredProfile.t :=
  body ← read_to_string (join profiles_dir (id +:+ ".json")) t;
  from_option (from_slice body).

Definition outside_discovery (p : path) : flow unit :=
  probe (Coded "downgrade.archiveDiscoverable") (negb (leads_inside p)).

Definition require_legacy_layout : flow unit :=
  bail_if data_root_moved (Coded "downgrade.dataRootMoved").

Definition require_local_ntfs (p : path) : flow unit :=
  probe (Coded "storage.unsupportedVolume") (local_volume p).

(** *** Paths *)

Definition archive_root : path := [ARCHIVE_DIR].

Definition valid_id (id : string) : result flow_error unit :=
  if bool_decide (uuid_canonical id = Some id) then Ok tt else Err (Coded "profile.invalidId").

(** The stored paths are compared with the recomputed ones and never followed. *)
Definition places (j : DowngradeJournal.t) : result flow_error Places.t :=
  match DowngradeJournal.original_metadata_archive_path j,
        DowngradeJournal.original_user_data_archive_path j,
        DowngradeJournal.new_local_profile_id j with
  | Some metadata, Some data, Some new =>
      let original := DowngradeJournal.original_local_profile_id j in
      _ ← valid_id original;
      _ ← valid_id new;
      if negb (valid_journal_id (DowngradeJournal.journal_id j))
      then Err (Coded "downgrade.archiveOutside")
      else
        let w := Places.of_ids original new (DowngradeJournal.journal_id j) in
        if negb (String.eqb metadata (display (Places.metadata_dst w)))
           || negb (String.eqb data (display (Places.data_dst w)))
        then Err (Coded "downgrade.archiveOutside")
        else Ok w
  | _, _, _ => Err (Coded "journal.missingField")
  end.

Definition exists_ (p : path) : flow bool := look (exists_at p).

(** The ancestors of [dir], itself first, that are not there. *)
Fixpoint missing_from (n : nat) (dir : path) (t : tree) : list path :=
  match n with
  | O => []
  | S n' => if exists_at dir t then [] else dir :: missing_from n' (parent dir) t
  end.

Definition make_dir (dir : path) : flow unit :=
  missing ← look (missing_from (S (length dir)) dir);
  _ ← create_dir_all dir;
  for_each sync_parent (rev missing).

Definition move_new (src dst : path) : flow unit :=
  _ ← with_context "downgrade.moveFailed" (move_new_raw src dst);
  _ ← sync_parent src;
  sync_parent dst.

Definition move_path (src dst : path) (missing : string) : flow unit :=
  s ← exists_ src;
  d ← exists_ dst;
  match s, d with
  | true, false => _ ← make_dir (parent dst); move_new src dst
  | false, true => mret tt
  | true, true => bail (Coded "downgrade.archiveConflict")
  | false, false => bail (Coded missing)
  end.

(** *** The database *)

Definition binding_facts (local : string) : flow (list string) :=
  b ← query (fun l => ok_or (List.find (fun b => String.eqb (Binding.local_profile_id b) local)
                               (bindings l)) (Coded "journal.notBound"));
  match Binding.lease_id b with
  | Some _ => bail (Coded "downgrade.leaseHeld")
  | None => mret [Binding.server_instance_id b; Binding.tenant_id b; Binding.fleet_id b;
                  Binding.remote_profile_id b]
  end.

Definition pending_work (local : string) : flow Z :=
  query (fun l =>
    Ok (blen (List.filter (fun o =>
                 bool_decide (Operation.local_profile_id o = Some local)
                 && List.existsb (String.eqb (Operation.state o))
                      ["PENDING"; "RUNNING"; "AWAITING_RETRY"]) (operations l))
        + blen (List.filter (fun u =>
                 bool_decide (Upload.local_profile_id u = Some local)
                 && List.existsb (String.eqb (Upload.state u)) ["OPEN"; "FINALIZING"; "READY"])
                 (upload_sessions l)))).

(** A journal operation as one transaction. *)
Definition journal_commit {A} (m : txn A) : flow A :=
  commit (fun e => e) (fun l => let '(r, db) := transact m (journals l) in (r, with_journals l db)).

Definition store_phase (id : string) (to : DowngradePhase.t) (patch : Patch.t)
    : flow DowngradeJournal.t := journal_commit (downgrade_advance id to patch).

Definition find_journal (id : string) : flow DowngradeJournal.t :=
  query (fun l =>
    found ← map_err Stored (downgrade_get (journals l) id);
    ok_or found (Coded "journal.notFound")).

Definition advance (j : DowngradeJournal.t) (to : DowngradePhase.t) (patch : Patch.t)
    : flow DowngradeJournal.t := store_phase (DowngradeJournal.journal_id j) to patch.

(** *** Claims *)

Definition NUL : Ascii.ascii := Ascii.ascii_of_nat 0.
Definition PROFILE_NAME_CLAIM : string := String NUL "profile-name-namespace".
Definition GLOBAL_FOLDER_CLAIM : string := String NUL "folder-mutation".

(** profile.rs, [begin_claim]: the first refusal in the order of the keys. *)
Definition begin_claim (keys : list string) : flow unit :=
  if List.existsb (String.eqb GLOBAL_FOLDER_CLAIM) claims
  then bail (Coded "profile.busyReorganizing")
  else
    for_each (fun key =>
      if List.existsb (String.eqb key) claims then bail (Coded "profile.busyOne")
      else if negb (String.eqb key PROFILE_NAME_CLAIM) && List.existsb (String.eqb key) running
      then bail (Coded "profile.stopRunningBrowser")
      else mret tt) (order_by (fun k => k) keys).

Definition begin_user_mutation (ids : list string) : flow unit :=
  begin_claim (ids ++ [PROFILE_NAME_CLAIM]).

Definition claim (original : string) (new : option string) : flow unit :=
  begin_user_mutation (original :: option_list new).

Definition refuse_while_migrating : flow unit :=
  bail_if migrating (Coded "downgrade.migrating").

(** The journal, and whether its profiles were claimed. *)
Definition claimed (id : string) : flow DowngradeJournal.t :=
  peek ← find_journal id;
  if negb (bool_decide (DowngradeJournal.mode peek = Mode.Clone))
  then bail (Coded "downgrade.notClone")
  else
    match DowngradePhase.resume (DowngradeJournal.phase peek) with
    | Settled => mret peek
    | _ =>
        _ ← claim (DowngradeJournal.original_local_profile_id peek)
              (DowngradeJournal.new_local_profile_id peek);
        j ← find_journal id;
        if negb (String.eqb (DowngradeJournal.original_local_profile_id j)
                   (DowngradeJournal.original_local_profile_id peek))
           || negb (bool_decide (DowngradeJournal.new_local_profile_id j
                                 = DowngradeJournal.new_local_profile_id peek))
        then bail (Coded "journal.readbackMismatch")
        else mret j
    end.

(** *** Steps *)

(** Off Windows: a [SingletonLock] in the data. *)
Definition prove_idle (data : path) : flow unit :=
  held ← exists_ (join data "SingletonLock");
  bail_if held (Coded "downgrade.dataInUse").

Fixpoint one_volume (serials : list Z) : flow unit :=
  match serials with
  | a :: (b :: _) as rest =>
      if a =? b then one_volume rest else bail (Coded "downgrade.volumeMismatch")
  | _ => mret tt
  end.

Definition same_volume (data archive : path) : flow unit :=
  there ← exists_ data;
  let data := if there : bool then data else user_data_root in
  serials ← ask (fun _ => Ok (List.map volume_serial [profiles_dir; data; archive]));
  one_volume serials.

Definition settle_probe (w : Places.t) : flow unit :=
  away ← exists_ (Places.probe w);
  home ← exists_ (Places.data_src w);
  match away, home with
  | true, false => move_new (Places.probe w) (Places.data_src w)
  | true, true => bail (Coded "downgrade.archiveConflict")
  | _, _ => mret tt
  end.

(** [for _ in 0..n { if back.is_ok() { break; } sleep; back = settle_probe(w); } back]. *)
Fixpoint retry_home (n : nat) (w : Places.t) (back : result flow_error unit) : flow unit :=
  match n with
  | O => of_result back
  | S n' =>
      if is_ok back then of_result back
      else back' ← outcome (settle_probe w); retry_home n' w back'
  end.

Definition prove_unlocked (w : Places.t) : flow unit :=
  there ← exists_ (Places.data_src w);
  if negb there then mret tt
  else
    away ← exists_ (Places.probe w);
    if away : bool then bail (Coded "downgrade.archiveConflict")
    else
      _ ← refused_as "downgrade.dataInUse" (move_new_raw (Places.data_src w) (Places.probe w));
      back ← outcome (move_new (Places.probe w) (Places.data_src w));
      retry_home 10 w back.

Definition is_link (p : path) (t : tree) : bool :=
  match lookup p t with Some (Link _) => true | _ => false end.

Definition move_data (w : Places.t) : flow unit :=
  link ← look (is_link (Places.data_src w));
  if link : bool then bail (Coded "downgrade.userDataLink")
  else
    s ← exists_ (Places.data_src w);
    d ← exists_ (Places.data_dst w);
    if negb s && negb d then make_dir (Places.data_dst w)
    else move_path (Places.data_src w) (Places.data_dst w) "downgrade.originalGone".

Definition prove_gone (j : DowngradeJournal.t) (w : Places.t) : flow unit :=
  m ← exists_ (Places.metadata_dst w);
  d ← exists_ (Places.data_dst w);
  _ ← bail_if (negb m || negb d) (Coded "downgrade.originalGone");
  _ ← outside_discovery (Places.dir w);
  found ← discover;
  bail_if (mentions found (DowngradeJournal.original_local_profile_id j))
    (Coded "downgrade.stillDiscoverable").

Definition require_clean (body : bytes) (forbidden : list string)
    : result flow_error StoredProfile.t :=
  stored ← ok_or (from_slice body) (Coded "downgrade.cloneTeamMarker");
  value ← ok_or (value_of body) (Coded "downgrade.cloneTeamMarker");
  if clean_value forbidden value then Ok stored else Err (Coded "downgrade.cloneTeamMarker").

(** What [clone_record] makes of the original's record. *)
Definition cloned (stored : StoredProfile.t) (new : string) : StoredProfile.t :=
  StoredProfile.mk new
    (match StoredProfile.created_at stored with None => Some clock | at_ => at_ end)
    (StoredProfile.temporary stored) (StoredProfile.others stored)
    (List.filter (fun kv => negb (List.existsb (String.eqb kv.1) MARKER_KEYS))
       (StoredProfile.config stored)).

Definition clone_record (original : bytes) (new : string) (forbidden : list string)
    : result flow_error bytes :=
  stored ← ok_or (from_slice original) (Coded "downgrade.originalUnreadable");
  body ← from_option (to_vec_pretty (cloned stored new));
  _ ← require_clean body forbidden;
  Ok body.

(** The clone's user data: the copy is made beside the archive and moved in one step. *)
Definition write_clone_data (w : Places.t) (archived : list (bytes * Z)) : flow unit :=
  there ← exists_ (Places.clone_data w);
  if negb there then
    stale ← exists_ (Places.clone_staging w);
    _ ← (if stale : bool then remove_dir_all (Places.clone_staging w) else mret tt);
    _ ← copy_tree (Places.data_dst w) (Places.clone_staging w);
    copy ← ask (listing (Places.clone_staging w) false);
    _ ← bail_if (negb (bool_decide (copy = archived))) (Coded "downgrade.cloneMismatch");
    move_new (Places.clone_staging w) (Places.clone_data w)
  else
    copy ← ask (listing (Places.clone_data w) false);
    bail_if (negb (bool_decide (copy = archived))) (Coded "downgrade.cloneMismatch").

Definition write_clone_record (w : Places.t) (new : string) (forbidden : list string)
    : flow unit :=
  there ← exists_ (Places.clone_metadata w);
  if there : bool then
    body ← ask (read_file (Places.clone_metadata w));
    stored ← of_result (require_clean body forbidden);
    bail_if (negb (String.eqb (StoredProfile.id stored) new)) (Coded "downgrade.cloneMismatch")
  else
    original ← ask (read_file (Places.metadata_dst w));
    body ← of_result (clone_record original new forbidden);
    write_private (Places.clone_metadata w) body.

Definition write_clone (j : DowngradeJournal.t) (w : Places.t) : flow unit :=
  let new := default EmptyString (DowngradeJournal.new_local_profile_id j) in
  let original := DowngradeJournal.original_local_profile_id j in
  facts ← binding_facts original;
  archived ← ask (listing (Places.data_dst w) true);
  _ ← write_clone_data w archived;
  write_clone_record w new (facts ++ [original]).

Definition readback_digest (j : DowngradeJournal.t) : bytes :=
  sha256 (READBACK_DOMAIN ++
    List.flat_map (fun part =>
      let text := as_bytes (default EmptyString part) in
      be_bytes 8 (blen text) ++ text)
    [Some (DowngradeJournal.journal_id j);
     Some (DowngradeJournal.original_local_profile_id j);
     DowngradeJournal.new_local_profile_id j;
     DowngradeJournal.original_metadata_archive_path j;
     DowngradeJournal.original_user_data_archive_path j]).

Definition read_back (j : DowngradeJournal.t) (w : Places.t) : flow bytes :=
  let new := default EmptyString (DowngradeJournal.new_local_profile_id j) in
  let original := DowngradeJournal.original_local_profile_id j in
  found ← discover;
  _ ← bail_if (negb (lists found new) || negb (has_data found new) || mentions found original)
        (Coded "downgrade.readbackFailed");
  listed ← ask list_all;
  _ ← bail_if (negb (List.existsb (String.eqb new) listed)
               || List.existsb (String.eqb original) listed) (Coded "downgrade.readbackFailed");
  facts ← binding_facts original;
  body ← ask (read_file (Places.clone_metadata w));
  _ ← of_result (require_clean body (facts ++ [original]));
  m ← exists_ (Places.metadata_dst w);
  d ← exists_ (Places.data_dst w);
  _ ← bail_if (negb m || negb d) (Coded "downgrade.originalGone");
  mret (readback_digest j).

(** *** Rollback *)

(** The facts of [check_restorable]. *)
Definition placed_once (w : Places.t) (t : tree) : bool :=
  let clone_present := exists_at (Places.clone_metadata w) t || exists_at (Places.clone_data w) t in
  List.forallb (fun p =>
    let in_place := exists_at p.1 t in
    let archived := exists_at p.2 t in
    negb ((in_place && archived) || (clone_present && negb in_place && negb archived)))
    [(Places.data_src w, Places.data_dst w); (Places.metadata_src w, Places.metadata_dst w)]
  && negb ((exists_at (Places.clone_metadata w) t && exists_at (Places.retired_metadata w) t)
           || (exists_at (Places.clone_data w) t && exists_at (Places.retired_data w) t)).

Definition check_restorable (j : DowngradeJournal.t) (w : Places.t) : flow unit :=
  fine ← look (placed_once w);
  _ ← bail_if (negb fine) (Coded "downgrade.rollbackConflict");
  there ← exists_ (Places.clone_metadata w);
  if negb there then mret tt
  else
    body ← ask (read_file (Places.clone_metadata w));
    bail_if (negb match from_slice body with
                  | Some p => bool_decide (Some (StoredProfile.id p)
                                           = DowngradeJournal.new_local_profile_id j)
                  | None => false
                  end) (Coded "downgrade.rollbackConflict").

Definition retire (src dst : path) : flow unit :=
  there ← exists_ src;
  if negb there then mret tt
  else
    taken ← exists_ dst;
    if taken : bool then bail (Coded "downgrade.rollbackConflict")
    else _ ← make_dir (parent dst); move_new src dst.

Definition restore (src dst : path) : flow unit :=
  archived ← exists_ dst;
  if negb archived then mret tt
  else
    home ← exists_ src;
    if home : bool then bail (Coded "downgrade.rollbackConflict") else move_new dst src.

Definition discard_staging (w : Places.t) : flow unit :=
  stale ← exists_ (Places.clone_staging w);
  archived ← exists_ (Places.data_dst w);
  if stale && archived then
    _ ← remove_dir_all (Places.clone_staging w);
    sync_parent (Places.clone_staging w)
  else mret tt.

Definition roll_back (j : DowngradeJournal.t) (w : Places.t) : flow DowngradeJournal.t :=
  j ← (if bool_decide (DowngradeJournal.phase j = DowngradePhase.RollbackRequired) then mret j
       else store_phase (DowngradeJournal.journal_id j) DowngradePhase.RollbackRequired
              Patch.default);
  _ ← settle_probe w;
  _ ← check_restorable j w;
  _ ← retire (Places.clone_metadata w) (Places.retired_metadata w);
  _ ← retire (Places.clone_data w) (Places.retired_data w);
  _ ← discard_staging w;
  _ ← restore (Places.data_src w) (Places.data_dst w);
  _ ← restore (Places.metadata_src w) (Places.metadata_dst w);
  next ← store_phase (DowngradeJournal.journal_id j) DowngradePhase.RolledBack Patch.default;
  _ ← outcome (change [parent (Places.dir w)] (remove_dir (Places.dir w)));
  mret next.

(** *** Driving a journal to its end *)

Definition step (j : DowngradeJournal.t) (w : Places.t) : flow DowngradeJournal.t :=
  match DowngradeJournal.phase j with
  | DowngradePhase.Created =>
      _ ← binding_facts (DowngradeJournal.original_local_profile_id j);
      advance j DowngradePhase.Claimed Patch.default
  | DowngradePhase.Claimed =>
      _ ← make_dir (Places.dir w);
      _ ← require_local_ntfs (Places.dir w);
      _ ← outside_discovery (Places.dir w);
      _ ← same_volume (Places.data_src w) (Places.dir w);
      _ ← prove_idle (Places.data_src w);
      _ ← prove_unlocked w;
      _ ← move_path (Places.metadata_src w) (Places.metadata_dst w) "downgrade.originalGone";
      advance j DowngradePhase.OriginalMetadataMoved Patch.default
  | DowngradePhase.OriginalMetadataMoved =>
      _ ← prove_idle (Places.data_src w);
      _ ← move_data w;
      advance j DowngradePhase.OriginalUserDataMoved Patch.default
  | DowngradePhase.OriginalUserDataMoved =>
      _ ← prove_gone j w;
      advance j DowngradePhase.DiscoveryScanPassed Patch.default
  | DowngradePhase.DiscoveryScanPassed =>
      _ ← write_clone j w;
      advance j DowngradePhase.CloneWritten Patch.default
  | DowngradePhase.CloneWritten =>
      again ← find_journal (DowngradeJournal.journal_id j);
      sha ← read_back again w;
      advance again DowngradePhase.ReadbackPassed (Patch.mk None (Some sha))
  | DowngradePhase.ReadbackPassed => advance j DowngradePhase.Completed Patch.default
  | DowngradePhase.RollbackRequired => roll_back j w
  | DowngradePhase.Completed | DowngradePhase.RolledBack => mret j
  | _ => bail (Coded "journal.badTransition")
  end.

(** The loop of [drive]: the fuel is the longest way to a terminal phase. *)
Fixpoint drive_loop (fuel : nat) (j : DowngradeJournal.t) (w : Places.t) : flow CloneDone.t :=
  match fuel with
  | O => of_result (Crash OutOfFuel)
  | S fuel' =>
      r ← outcome (step j w);
      match r with
      | Ok next =>
          if DowngradePhase.is_terminal (DowngradeJournal.phase next) then mret (done_of next)
          else drive_loop fuel' next w
      | Err e =>
          if forces_rollback (DowngradeJournal.phase j) e then
            _ ← outcome (store_phase (DowngradeJournal.journal_id j)
                           DowngradePhase.RollbackRequired Patch.default);
            bail e
          else bail e
      | Crash c => of_result (Crash c)
      end
  end.

Definition DRIVE_FUEL : nat := length DowngradePhase.CLONE_CHAIN.

Definition drive (j : DowngradeJournal.t) : flow CloneDone.t :=
  match DowngradePhase.resume (DowngradeJournal.phase j) with
  | Settled => mret (done_of j)
  | _ =>
      w ← of_result (places j);
      _ ← settle_probe w;
      drive_loop DRIVE_FUEL j w
  end.

Definition run_clone (journal_id : string) : flow CloneDone.t :=
  _ ← refuse_while_migrating;
  j ← claimed journal_id;
  drive j.

Definition roll_back_clone (journal_id : string) : flow CloneDone.t :=
  _ ← refuse_while_migrating;
  j ← claimed journal_id;
  if bool_decide (DowngradeJournal.phase j = DowngradePhase.Completed)
  then bail (Coded "journal.badTransition")
  else
    w ← of_result (places j);
    next ← roll_back j w;
    mret (done_of next).

(** *** Starting *)

(** sync.rs: what a revert stages beside the user data. *)
Definition REVERT_STAGING : string := ".revert-staging".
Definition REVERT_OLD : string := ".revert-old".
Definition SWAP_DIRS : list string := [REVERT_STAGING; REVERT_OLD].
Definition UNPACK_LEFTOVERS : list string :=
  [".revert-staging.incoming"; ".revert-staging.backup"].

Definition beside (udd : path) (suffix : string) : path :=
  join (parent udd) (file_name udd +:+ suffix).

(** [Path::exists] follows a link. *)
Definition there_at (p : path) (t : tree) : bool :=
  is_some (lookup p t ≫= resolve).

Definition swap_in (udd : path) : flow unit :=
  let staging := beside udd REVERT_STAGING in
  let old := beside udd REVERT_OLD in
  staged ← look (there_at staging);
  _ ← (if staged : bool then
         there ← look (there_at udd);
         _ ← (if there : bool then
                stale ← look (there_at old);
                _ ← (if stale : bool then remove_dir_all old else mret tt);
                change [parent udd] (rename udd old)
              else mret tt);
         change [parent udd] (rename staging udd)
       else mret tt);
  stale ← look (there_at old);
  if stale : bool then remove_dir_all old else mret tt.

Definition settle_revert_swap (local : string) (udd : path) : flow unit :=
  waiting ← query (fun l => Ok (List.existsb (String.eqb local) (revert_swaps l)));
  if negb waiting then mret tt
  else
    _ ← refused_as "sync.revertSwapPending" (swap_in udd);
    commit (fun e : JournalError => e) (fun l =>
      (Ok tt, with_swaps l (List.filter (fun s => negb (String.eqb s local)) (revert_swaps l)))).

Definition remove_beside (udd : path) (suffixes : list string) : flow unit :=
  for_each (fun suffix =>
    there ← look (there_at (beside udd suffix));
    if there : bool then remove_dir_all (beside udd suffix) else mret tt) suffixes.

(** The query of [discard_revert_staging]. *)
Definition staging_needed (local : string) (l : Ledger) : bool :=
  List.existsb (fun b =>
    String.eqb (Binding.local_profile_id b) local
    && List.existsb (fun o =>
         bool_decide (Operation.local_profile_id o = Some local)
         && opt_ok (fun lease => bool_decide (Operation.lease_id o = Some lease))
              (Binding.lease_id b)
         && is_some (Binding.lease_id b)
         && String.eqb (Operation.kind o) "UPLOAD") (operations l)
    && negb (List.existsb (fun r =>
         bool_decide (Operation.local_profile_id r = Some local)
         && String.eqb (Operation.kind r) "RELEASE" && String.eqb (Operation.state r) "PENDING"
         && is_some (Binding.lease_id b)
         && bool_decide (Operation.lease_id r = Binding.lease_id b)) (operations l)))
    (bindings l)
  || List.existsb (String.eqb local) (revert_swaps l).

Definition discard_revert_staging (local : string) (udd : path) : flow unit :=
  _ ← remove_beside udd UNPACK_LEFTOVERS;
  any ← look (fun t => List.existsb (fun s => there_at (beside udd s) t) SWAP_DIRS);
  if negb any then mret tt
  else
    needed ← query (fun l => Ok (staging_needed local l));
    if needed : bool then mret tt else remove_beside udd SWAP_DIRS.

(** [start_clone]; [new] and [id] are what the random generator gives, [now] the time
    the journal row is created at. *)
Definition start_clone (now local new id : string) : flow CloneDone.t :=
  _ ← of_result (valid_id local);
  _ ← refuse_while_migrating;
  _ ← require_legacy_layout;
  _ ← claim local (Some new);
  _ ← binding_facts local;
  work ← pending_work local;
  _ ← bail_if (0 <? work) (Coded "downgrade.operationPending");
  stored ← outcome (ask (load_raw local));
  _ ← bail_if (negb match stored with
                    | Ok p => String.eqb (StoredProfile.id p) local
                              && negb (StoredProfile.temporary p)
                    | _ => false
                    end) (Coded "downgrade.originalUnreadable");
  let data := join user_data_root local in
  _ ← settle_revert_swap local data;
  _ ← discard_revert_staging local data;
  _ ← make_dir archive_root;
  _ ← require_local_ntfs archive_root;
  _ ← outside_discovery archive_root;
  _ ← same_volume data archive_root;
  there ← exists_ data;
  _ ← (if there : bool then
         _ ← ask (listing data false);
         prove_idle data
       else mret tt);
  found ← discover;
  _ ← bail_if (mentions found new) (Coded "downgrade.archiveConflict");
  let w := Places.of_ids local new id in
  let journal :=
    DowngradeJournal.mk id Mode.Clone local (Some new) DowngradePhase.Created
      (Some (display (Places.metadata_dst w))) (Some (display (Places.data_dst w))) None None in
  _ ← journal_commit (downgrade_create now journal);
  drive journal.

(** *** Resuming *)

Definition resume_one (j : DowngradeJournal.t) : flow Resumed.t :=
  r ← outcome (match DowngradeJournal.mode j with
               | Mode.Clone => run_clone (DowngradeJournal.journal_id j)
               | Mode.PreV2Restore => bail (Coded "downgrade.preV2Unsupported")
               end);
  match r with
  | Ok d => mret (Resumed.mk (DowngradeJournal.journal_id j)
                    (DowngradeJournal.original_local_profile_id j) (CloneDone.phase d) None)
  | Err e => mret (Resumed.mk (DowngradeJournal.journal_id j)
                     (DowngradeJournal.original_local_profile_id j)
                     (DowngradeJournal.phase j) (Some e))
  | Crash c => of_result (Crash c)
  end.

Fixpoint resume_all (open_ : list DowngradeJournal.t) : flow (list Resumed.t) :=
  match open_ with
  | [] => mret []
  | j :: open' => r ← resume_one j; rest ← resume_all open'; mret (r :: rest)
  end.

Definition resume_open : flow (list Resumed.t) :=
  open_ ← query (fun l => map_err Stored (downgrade_open (journals l)));
  resume_all open_.

(** *** Evidence of a finished flow *)

Definition clone_holds (j : DowngradeJournal.t) (found : Discovery.t) (t : tree) : bool :=
  match DowngradeJournal.new_local_profile_id j with
  | None => false
  | Some new =>
      bool_decide (DowngradeJournal.discovery_readback_sha256 j = Some (readback_digest j))
      && match places j with
         | Ok w => exists_at (Places.metadata_dst w) t && exists_at (Places.data_dst w) t
         | _ => false
         end
      && lists found new && negb (mentions found (DowngradeJournal.original_local_profile_id j))
  end.

End flow.
