(* ===== verification/DowngradeSteps.v ===== *)
(** * The abstract clone flow

    What the programs of [Downgrade] do to the disk and the journal, as a transition system:
    each [kind] of change is one call on fixed places, allowed in the phases [fits] names;
    a phase is entered only when the disk is [ready] for it. A triple of each program shows
    that it takes no other steps, whatever fails and wherever the process dies
    ([triple_step], [triple_run_clone], [triple_roll_back_clone]). *)

From Stdlib Require Import Ascii.
From S2P Require Import Prelude Bytes RecordFields Journal JournalFacts JournalTheorems.
From S2P Require Import Disk DiskFacts DiskLogic Downgrade.

(** ** The places lie apart *)

Definition ends_with (suffix s : string) : bool :=
  bool_decide (drop (length (as_bytes s) - length (as_bytes suffix)) (as_bytes s)
               = as_bytes suffix).

Lemma as_bytes_app s t : as_bytes (s +:+ t) = as_bytes s ++ as_bytes t.
Proof.
  unfold as_bytes, String.list_byte_of_string.
  assert (forall u v, String.list_ascii_of_string (u +:+ v) = String.list_ascii_of_string u ++ String.list_ascii_of_string v) as ->.
  { intros u v. induction u as [|c u IH]; [done|].
    change (String c u +:+ v) with (String c (u +:+ v)). cbn. by rewrite IH. }
  apply map_app.
Qed.

Lemma ends_with_app s t : ends_with t (s +:+ t) = true.
Proof.
  unfold ends_with. rewrite as_bytes_app, length_app. apply bool_decide_eq_true.
  by rewrite Nat.add_sub, drop_app_length.
Qed.

Lemma suffix_ne s t c : ends_with t c = false -> s +:+ t <> c.
Proof. intros H <-. by rewrite ends_with_app in H. Qed.

Lemma string_app_inj_l (s1 s2 t : string) : s1 +:+ t = s2 +:+ t -> s1 = s2.
Proof.
  intros H%(f_equal as_bytes). rewrite !as_bytes_app in H. apply app_inv_tail in H.
  by apply as_bytes_inj.
Qed.

(** Endings that differ. *)
Lemma suffix_clash s s' t t' :
  (length (as_bytes t') <= length (as_bytes t))%nat -> ends_with t' t = false -> s +:+ t <> s' +:+ t'.
Proof.
  intros Hl Ht H%(f_equal as_bytes). rewrite !as_bytes_app in H.
  apply bool_decide_eq_false in Ht. apply Ht.
  apply (f_equal length) in H as Hn. rewrite !length_app in Hn.
  apply (f_equal (drop (length (as_bytes s')))) in H. rewrite drop_app_length in H.
  rewrite drop_app_ge in H by lia. rewrite <- H at 2. f_equal. lia.
Qed.

(** Two places of [Places.of_ids], or a place and a folder that is not above it. *)
Ltac apart_name :=
  first [ discriminate | assumption | by apply not_eq_sym | by apply suffix_ne
        | by apply not_eq_sym, suffix_ne
        | by apply suffix_clash; [cbn; lia|]
        | by apply not_eq_sym, suffix_clash; [cbn; lia|]
        | by intros ?%string_app_inj_l | by intros ?%eq_sym%string_app_inj_l ].
Ltac apart_path := repeat apply apart_cons; apply apart_cons_ne; apart_name.
Ltac solve_apart :=
  first [assumption | by apply apart_sym
        | unfold tmp_of, file_name, Places.of_ids, parent, join, profiles_dir, user_data_root,
            ARCHIVE_DIR; cbn; apart_path].

(** ** Frames *)

(** [U] names the paths a change leaves alone. *)
Definition keeps (U : path -> Prop) (t t' : tree) : Prop :=
  forall q, U q -> lookup q t' = lookup q t.

Definition framed (U : path -> Prop) (F : tree -> Prop) : Prop :=
  forall t t', keeps U t t' -> F t -> F t'.

Definition off_move (src dst q : path) : Prop := apart src q /\ apart dst q.
Definition off_dir (p q : path) : Prop := ~ above q p.

Lemma off_dir_apart p q : apart p q -> off_dir p q.
Proof. by intros [_ ?]. Qed.

Lemma keeps_renamed src dst t t' s : renamed src dst t t' s -> keeps (off_move src dst) t t'.
Proof. intros H q [? ?]. by eapply rn_other. Qed.

Lemma keeps_alter p g t t' : alter p g t = Some t' -> keeps (apart p) t t'.
Proof. intros H q Hq. by eapply lookup_alter_apart. Qed.

Lemma keeps_create p t t' :
  create_dir p t = (Ok t' : result flow_error tree) -> keeps (off_dir p) t t'.
Proof. intros [H Ha]%create_dir_ok q. by apply made_keeps. Qed.

(** A change at a path or below it. *)
Lemma keeps_alter_below p r g t t' : alter (p ++ r) g t = Some t' -> keeps (apart p) t t'.
Proof. intros H q Hq. eapply lookup_alter_apart; [exact H|]. by apply apart_sym, apart_below, apart_sym. Qed.

Lemma off_dir_below p q r : off_dir (p ++ r) q -> off_dir p q.
Proof. intros H Ha. apply H. eapply above_trans; [exact Ha|apply above_app]. Qed.

Definition present (p : path) (t : tree) : Prop := is_Some (lookup p t).
Definition absent (p : path) (t : tree) : Prop := lookup p t = None.

(** Facts about places survive a change that is off them. *)
Ltac off :=
  match goal with
  | |- off_move _ _ _ => split; solve_apart
  | |- off_dir _ _ =>
      let H := fresh in
      first
        [ intros [? H];
          unfold Places.of_ids, join, profiles_dir, user_data_root, ARCHIVE_DIR, parent in H;
          cbn in H; discriminate H
        | apply off_dir_apart; solve_apart ]
  | |- apart _ _ => solve_apart
  end.
Ltac solve_frame :=
  let K := fresh "K" in
  intros ?t ?t' K; unfold absent, present; rewrite ?K by off; tauto.

Section steps.
Context (uuid_canonical : string -> option string).
Context (from_slice : bytes -> option StoredProfile.t).
Context (to_vec_pretty : StoredProfile.t -> option bytes).
Context (value_of : bytes -> option json).
Context (sha256 : bytes -> bytes) (sha256_length : forall x, blen (sha256 x) = 32).
Context (data_root : string) (volume_serial : path -> Z) (leads_inside : path -> bool)
  (local_volume : path -> bool) (clock : string).
Context (original new jid : string) (distinct : original <> new).

Abbreviation w := (Places.of_ids original new jid).

(** Where [write_private] makes the clone's record before the rename. *)
Abbreviation clone_tmp := (tmp_of (Places.clone_metadata w)).

(** ** Steps *)

Inductive kind :=
| MakeDir (p : path)
| TryMove
| TakeHome
| MoveRecord
| MoveData
| MakeData
| Scratch (r : path) (v : option tree)
| PlaceClone
| WriteTmp (v : option tree)
| WriteRecord (body : bytes)
| RetireRecord
| RetireData
| RestoreData
| RestoreRecord
| Clean.

Definition moved (src dst : path) (t t' : tree) : Prop :=
  rename_new src dst t = (Ok t' : result flow_error tree).

Definition change_of (k : kind) (t t' : tree) : Prop :=
  match k with
  | MakeDir p =>
      above p (parent (Places.retired_metadata w))
      /\ create_dir p t = (Ok t' : result flow_error tree)
  | TryMove => moved (Places.data_src w) (Places.probe w) t t'
  | TakeHome => moved (Places.probe w) (Places.data_src w) t t'
  | MoveRecord => moved (Places.metadata_src w) (Places.metadata_dst w) t t'
  | MoveData => moved (Places.data_src w) (Places.data_dst w) t t'
  | MakeData =>
      lookup (Places.data_src w) t = None /\ lookup (Places.data_dst w) t = None
      /\ lookup (Places.probe w) t = None
      /\ create_dir (Places.data_dst w) t = (Ok t' : result flow_error tree)
  | Scratch r v =>
      (r = [] -> v = None \/ v = Some (Dir []))
      /\ alter (Places.clone_staging w ++ r) (fun _ => v) t = Some t'
  | PlaceClone => moved (Places.clone_staging w) (Places.clone_data w) t t'
  | WriteTmp v => alter clone_tmp (fun _ => v) t = Some t'
  | WriteRecord body =>
      moved clone_tmp (Places.clone_metadata w) t t'
      /\ read_file clone_tmp t = (Ok body : result flow_error bytes)
      /\ exists stored record now,
           read_file (Places.metadata_dst w) t = (Ok record : result flow_error bytes)
           /\ from_slice record = Some stored
           /\ to_vec_pretty (cloned now stored new) = Some body
  | RetireRecord => moved (Places.clone_metadata w) (Places.retired_metadata w) t t'
  | RetireData => moved (Places.clone_data w) (Places.retired_data w) t t'
  | RestoreData => moved (Places.data_dst w) (Places.data_src w) t t'
  | RestoreRecord => moved (Places.metadata_dst w) (Places.metadata_src w) t t'
  | Clean => remove_dir (Places.dir w) t = (Ok t' : result flow_error tree)
  end.

Definition fits (k : kind) (phase : DowngradePhase.t) : bool :=
  match k, phase with
  | MakeDir _, (DowngradePhase.Claimed | DowngradePhase.OriginalMetadataMoved
                | DowngradePhase.RollbackRequired) => true
  | TryMove, DowngradePhase.Claimed => true
  | TakeHome, (DowngradePhase.Completed | DowngradePhase.RolledBack) => false
  | TakeHome, _ => true
  | MoveRecord, DowngradePhase.Claimed => true
  | (MoveData | MakeData), DowngradePhase.OriginalMetadataMoved => true
  | Scratch _ _, (DowngradePhase.DiscoveryScanPassed | DowngradePhase.RollbackRequired) => true
  | (PlaceClone | WriteTmp _ | WriteRecord _), DowngradePhase.DiscoveryScanPassed => true
  | (RetireRecord | RetireData | RestoreData | RestoreRecord),
      DowngradePhase.RollbackRequired => true
  | Clean, DowngradePhase.RolledBack => true
  | _, _ => false
  end.

(** The clone's record is readable and carries nothing of the binding. *)
Definition clean_record (t : tree) : Prop :=
  exists body stored forbidden,
    read_file (Places.clone_metadata w) t = (Ok body : result flow_error bytes)
    /\ require_clean from_slice value_of body (forbidden ++ [original]) = Ok stored.

(** What the disk shows when a phase is entered. *)
Definition ready (to : DowngradePhase.t) (t : tree) : Prop :=
  match to with
  | DowngradePhase.OriginalMetadataMoved =>
      absent (Places.metadata_src w) t /\ present (Places.metadata_dst w) t
      /\ absent (Places.probe w) t
  | DowngradePhase.OriginalUserDataMoved =>
      absent (Places.data_src w) t /\ present (Places.data_dst w) t /\ absent (Places.probe w) t
  | DowngradePhase.DiscoveryScanPassed =>
      present (Places.metadata_dst w) t /\ present (Places.data_dst w) t
      /\ exists found, scan from_slice t = Ok found /\ mentions found original = false
  | DowngradePhase.CloneWritten =>
      clean_record t
      /\ exists files, listing (Places.data_dst w) true t = (Ok files : result flow_error _)
           /\ listing (Places.clone_data w) false t = Ok files
  | DowngradePhase.ReadbackPassed =>
      clean_record t /\ present (Places.metadata_dst w) t /\ present (Places.data_dst w) t
      /\ exists found, scan from_slice t = Ok found /\ lists found new = true
           /\ has_data found new = true /\ mentions found original = false
  | DowngradePhase.RolledBack =>
      absent (Places.metadata_dst w) t /\ absent (Places.data_dst w) t
      /\ absent (Places.probe w) t
      /\ absent (Places.clone_metadata w) t /\ absent (Places.clone_data w) t
  | _ => True
  end.

(** The journal of this flow, in a lawful database. *)
Definition mine (j : DowngradeJournal.t) : Prop :=
  DowngradeJournal.journal_id j = jid
  /\ DowngradeJournal.original_local_profile_id j = original
  /\ DowngradeJournal.new_local_profile_id j = Some new
  /\ DowngradeJournal.mode j = Mode.Clone.

Definition row (l : Ledger) (j : DowngradeJournal.t) : Prop :=
  lawful (journals l) /\ downgrade_in (journals l) jid = Ok (Some j) /\ mine j.

Inductive Step : tree * Ledger -> tree * Ledger -> Prop :=
| step_disk k t t' l j :
    row l j -> fits k (DowngradeJournal.phase j) = true -> change_of k t t' ->
    Step (t, l) (t', l)
| step_phase t l j to patch db :
    row l j -> patch_typed patch = true ->
    transact (downgrade_advance jid to patch) (journals l) = (Ok (patched j to patch), db) ->
    ready to t -> Step (t, l) (t, with_journals l db).

Abbreviation Triple := (triple Step).

Lemma step_once k t t' l j :
  row l j -> fits k (DowngradeJournal.phase j) = true -> change_of k t t' ->
  rtc Step (t, l) (t', l).
Proof. intros. apply rtc_once. by eapply step_disk. Qed.

(** ** The journal *)

Lemma row_fun l j j' : row l j -> row l j' -> j = j'.
Proof. intros (_ & H & _) (_ & H' & _). congruence. Qed.

Lemma advance_row l j to patch j' db :
  row l j -> patch_typed patch = true ->
  transact (downgrade_advance jid to patch) (journals l) = (Ok j', db) ->
  j' = patched j to patch /\ row (with_journals l db) j'
  /\ DowngradePhase.allows (DowngradeJournal.phase j) Mode.Clone to = true.
Proof.
  intros (Hl & Hin & Hm) Hp Ht. pose proof (advance_downgrade_lawful _ jid to patch Hp Hl) as Hl'.
  rewrite Ht in Hl'. cbn in Hl'. rewrite downgrade_advance_spec in Ht by (by try apply law_schema).
  rewrite Hin in Ht. destruct Hm as (M1 & M2 & M3 & M4). rewrite M4 in Ht.
  destruct (DowngradePhase.allows _ _ _) eqn:Ha; cbn [negb] in Ht; [|done].
  destruct (requires _) eqn:Hr; cbn [negb] in Ht; [|done]. injection Ht as <- <-.
  split_and!; [done| |done]. split_and!; [done| |by split_and!].
  pose proof (downgrade_in_cases (journals l) jid (law_schema _ Hl)) as Hc.
  destruct (List.find _ _) as [r|] eqn:Hf.
  - destruct Hc as (j1 & Hj1 & Hin1). rewrite Hin in Hin1. injection Hin1 as <-.
    by eapply downgrade_in_set.
  - by rewrite Hin in Hc.
Qed.

Lemma transact_stays {A} (m : txn A) db r db' :
  transact m db = (r, db') -> is_ok r = false -> db' = db.
Proof. unfold transact. destruct (m db) as [[a d]|e|c]; intros [= <- <-]; done. Qed.

Lemma with_journals_id l : with_journals l (journals l) = l.
Proof. by destruct l. Qed.

(** Storing a phase the disk is ready for. *)
Lemma triple_store j to patch (P : assn) :
  (forall t l, P t l -> row l j /\ ready to t) -> patch_typed patch = true ->
  Triple P (store_phase jid to patch)
    (fun j' t l' => j' = patched j to patch /\ row l' j' /\ ready to t /\ exists l, P t l) P.
Proof.
  intros HP Hp. unfold store_phase, journal_commit.
  eapply triple_conseq; [apply (triple_commit _ _ _ P)|done| |done].
  - intros t l j' l' Ht Hm. destruct (HP t l Ht) as [Hrow Hready].
    destruct (transact _ _) as [r db] eqn:Hx. injection Hm as -> <-.
    destruct (advance_row _ _ _ _ _ _ Hrow Hp Hx) as (-> & _). apply rtc_once.
    by eapply step_phase.
  - intros l r l' Hm Hr. destruct (transact _ _) as [r' db] eqn:Hx. injection Hm as -> <-.
    apply transact_stays in Hx as ->; [|done]. apply with_journals_id.
  - cbv beta. intros j' t l' (l & Hm & Ht). destruct (HP t l Ht) as [Hrow Hready].
    destruct (transact _ _) as [r db] eqn:Hx. injection Hm as -> <-.
    destruct (advance_row _ _ _ _ _ _ Hrow Hp Hx) as (-> & Hrow' & _). eauto.
Qed.

(** A fact of the disk while the journal is at [j]. *)
Definition at_ (j : DowngradeJournal.t) (F : tree -> Prop) : assn := fun t l => row l j /\ F t.

Abbreviation anywhere := (fun _ : tree => True).

Lemma weaken_at j F t l : at_ j F t l -> at_ j anywhere t l.
Proof. by intros [? _]. Qed.

Lemma triple_at {A} j (F G : tree -> Prop) (m : flow A) Q X :
  Triple (at_ j G) m Q X -> (forall t, F t -> G t) -> Triple (at_ j F) m Q X.
Proof. intros H HF. eapply triple_conseq; [exact H| |done|done]. intros t l [? ?]. split; auto. Qed.

(** ** Pieces of the programs *)

Lemma triple_change_at k dirs f j (F G : tree -> Prop) :
  fits k (DowngradeJournal.phase j) = true ->
  (forall t t', F t -> f t = Ok t' -> change_of k t t' /\ G t') ->
  Triple (at_ j F) (change dirs f : flow unit) (fun _ => at_ j G) (at_ j F).
Proof.
  intros Hk H. eapply triple_conseq; [apply triple_change| done| |done].
  - intros t t' l [Hr HF] Hf. eapply step_once; [done..|]. by eapply H.
  - intros _ t l (t0 & Hf & Hr & HF). split; [done|]. by eapply H.
Qed.

Lemma triple_make_dir d j (F G : tree -> Prop) :
  (forall q t t' l, q ∈ ancestors d -> at_ j F t l ->
     create_dir q t = (Ok t' : result flow_error tree) -> rtc Step (t, l) (t', l) /\ F t') ->
  (forall t, F t -> present d t -> G t) ->
  (forall t t' l, at_ j F t l -> create_dir d t = (Ok t' : result flow_error tree) ->
     rtc Step (t, l) (t', l) /\ G t') ->
  Triple (at_ j F) (make_dir d) (fun _ => at_ j G) (at_ j (fun t => F t \/ G t)).
Proof.
  intros Ha Hx H. unfold make_dir. eapply triple_bind; [apply triple_look|].
  intros missing. cbv beta.
  apply (triple_pre _ (at_ j F)); [|by intros t l [_ Ht]].
  apply (triple_bind _ _ _ (fun _ => at_ j G)).
  - eapply triple_err; [apply triple_create_dir_all|].
    + intros q t t' l Hq Ht Hc. destruct (Ha q t t' l Hq Ht Hc). split; [done|]. split; [apply Ht|done].
    + intros t l [Hr Ht] Hd%is_directory_there. split; [done|]. by apply Hx.
    + intros t t' l Ht Hc. destruct (H t t' l Ht Hc). split; [done|]. split; [apply Ht|done].
    + intros t l [? ?]. split; [done|by left].
  - intros _. eapply triple_err; [apply (triple_for_each _ _ _ (at_ j G))|].
    + intros x. apply triple_sync.
    + intros t l [? ?]. split; [done|by right].
Qed.

Lemma triple_with_context {A} key (P : assn) (m : flow A) Q X :
  Triple P m Q X -> Triple P (with_context key m) Q X.
Proof.
  intros H t Ht. destruct (H t Ht) as [Hp He]. unfold with_context.
  destruct (m t) as [[[a|e|c]|] t']; done.
Qed.

Lemma triple_refused_as {A} key (P : assn) (m : flow A) Q X :
  Triple P m Q X -> Triple P (refused_as key m) Q X.
Proof.
  intros H t Ht. destruct (H t Ht) as [Hp He]. unfold refused_as.
  destruct (m t) as [[[a|e|c]|] t']; done.
Qed.

(** A move that never replaces, of kind [k]. *)
Lemma triple_move_new k src dst j (F G : tree -> Prop) :
  fits k (DowngradeJournal.phase j) = true ->
  (forall t t' s, F t -> moved src dst t t' -> renamed src dst t t' s ->
     change_of k t t' /\ G t') ->
  Triple (at_ j F) (move_new src dst) (fun _ => at_ j G) (at_ j (fun t => F t \/ G t)).
Proof.
  intros Hk H. unfold move_new, move_new_raw. apply (triple_bind _ _ _ (fun _ => at_ j G)).
  - apply triple_with_context.
    eapply triple_err; [apply (triple_change_at k _ _ j F G)|].
    + done.
    + intros t t' HF Hm. destruct (rename_new_ok _ _ _ _ Hm) as [s Hs].
      exact (H _ _ _ HF Hm Hs).
    + intros t l [? ?]. split; [done|by left].
  - intros _. apply (triple_bind _ _ _ (fun _ => at_ j G)); [|intros _]; (eapply triple_err; [apply triple_sync|]);
      intros t l [? ?]; (split; [done|by right]).
Qed.

Lemma triple_settle_probe j F :
  fits TakeHome (DowngradeJournal.phase j) = true ->
  framed (off_move (Places.probe w) (Places.data_src w)) F ->
  Triple (at_ j F) (settle_probe w)
    (fun _ => at_ j (fun t => F t /\ absent (Places.probe w) t)) (at_ j F).
Proof.
  intros Hk HF. unfold settle_probe, exists_.
  eapply triple_bind; [apply triple_look|]. intros away.
  eapply triple_bind; [apply triple_look|]. intros home. cbv beta.
  destruct away; [destruct home|].
  - eapply triple_err; [apply triple_bail|]. by intros t l (_ & _ & ?).
  - eapply triple_pre; [eapply triple_err; [eapply (triple_move_new TakeHome _ _ j F)|]|].
    + done.
    + intros t t' s Ht Hm Hr. split; [done|]. split; [|by eapply rn_gone].
      eapply HF; [by eapply keeps_renamed|done].
    + intros t l [? [?|[? _]]]; by split.
    + by intros t l (_ & _ & ?).
  - eapply triple_post; [eapply triple_pre; [apply triple_ret|]|].
    + intros t l Ht. exact Ht.
    + intros [] t l (_ & _ & Ha & Hr & Ht). split; [done|]. split; [done|].
      unfold absent. unfold exists_at in Ha. by destruct (lookup (Places.probe w) t).
Qed.

Lemma triple_retry_home n j F back :
  fits TakeHome (DowngradeJournal.phase j) = true ->
  framed (off_move (Places.probe w) (Places.data_src w)) F ->
  Triple (at_ j (fun t => F t /\ (is_ok back = true -> absent (Places.probe w) t)))
    (retry_home n w back)
    (fun _ => at_ j (fun t => F t /\ absent (Places.probe w) t)) (at_ j F).
Proof.
  intros Hk HF.
  assert (forall back, Triple (at_ j (fun t => F t /\ (is_ok back = true -> absent (Places.probe w) t)))
    (of_result back : flow unit)
    (fun _ => at_ j (fun t => F t /\ absent (Places.probe w) t)) (at_ j F)) as Hret.
  { intros b. eapply triple_post; [eapply triple_err; [apply triple_of_result|]|].
    - by intros t l (? & ? & _).
    - intros a t l (-> & Hr & Ht & Ha). split_and!; [done..|by apply Ha]. }
  revert back. induction n as [|n IH]; intros back; cbn [retry_home]; [apply Hret|].
  destruct (is_ok back) eqn:Hb; [eapply triple_pre; [apply Hret|by rewrite Hb]|].
  eapply triple_bind; [|intros r; apply IH]. eapply triple_post; [eapply triple_pre|].
  - eapply triple_outcome. by apply triple_settle_probe.
  - by intros t l (? & ? & _).
  - intros [a|e|c] t l Ht; cbn in *; [|by destruct Ht..]. destruct Ht as (? & ? & ?). by split_and!.
Qed.

Lemma triple_prove_unlocked j F :
  DowngradeJournal.phase j = DowngradePhase.Claimed ->
  framed (off_move (Places.probe w) (Places.data_src w)) F ->
  Triple (at_ j (fun t => F t /\ absent (Places.probe w) t)) (prove_unlocked w)
    (fun _ => at_ j (fun t => F t /\ absent (Places.probe w) t)) (at_ j F).
Proof.
  intros Hp HF. unfold prove_unlocked, exists_.
  eapply triple_bind; [apply triple_look|]. intros there. cbv beta.
  apply (triple_pre _ (at_ j (fun t => F t /\ absent (Places.probe w) t))); [|by intros t l [_ ?]].
  destruct there; cbn [negb].
  2: { eapply triple_post; [apply triple_ret|]. by intros [] t l [_ ?]. }
  eapply triple_bind; [apply triple_look|]. intros away. cbv beta.
  apply (triple_pre _ (at_ j F)); [|by intros t l (_ & ? & ? & _)].
  destruct away; [apply triple_bail|].
  apply (triple_bind _ _ _ (fun _ => at_ j F)); [|intros _].
  - apply triple_refused_as. apply (triple_change_at TryMove); [by rewrite Hp|].
    intros t t' Ht Hm. split; [done|]. destruct (rename_new_ok _ _ _ _ Hm) as [s Hs].
    eapply HF; [|done]. intros q [? ?]. by eapply rn_other.
  - eapply triple_bind; [apply triple_outcome; apply (triple_move_new TakeHome _ _ j F
        (fun t => F t /\ absent (Places.probe w) t))|].
    + by rewrite Hp.
    + intros t t' s Ht Hm Hr. split; [done|]. split; [|by eapply rn_gone].
      eapply HF; [by eapply keeps_renamed|done].
    + intros back. eapply triple_pre; [apply triple_retry_home; [by rewrite Hp|done]|].
      intros t l Hb. destruct back; cbn in *; destruct Hb as (? & Hb); split; try done;
        destruct Hb; naive_solver.
Qed.

(** A folder of the archive made. *)
Lemma make_once d q j F t t' l :
  above d (parent (Places.retired_metadata w)) -> above q d ->
  (forall p, fits (MakeDir p) (DowngradeJournal.phase j) = true) -> framed (off_dir d) F ->
  at_ j F t l -> create_dir q t = (Ok t' : result flow_error tree) ->
  rtc Step (t, l) (t', l) /\ F t'.
Proof.
  intros Hd Hq Hk HF [Hr Ht] Hc. split.
  - eapply (step_once (MakeDir q)); [done|done|]. split; [|done]. by eapply above_trans.
  - eapply HF; [|done]. intros x Hx. apply (keeps_create _ _ _ Hc). intros Ha. apply Hx.
    by eapply above_trans.
Qed.

Lemma triple_make_place d j F :
  above d (parent (Places.retired_metadata w)) ->
  (forall p, fits (MakeDir p) (DowngradeJournal.phase j) = true) -> framed (off_dir d) F ->
  Triple (at_ j F) (make_dir d) (fun _ => at_ j F) (at_ j F).
Proof.
  intros Hd Hk HF. eapply triple_err; [apply (triple_make_dir d j F F)|].
  - intros q t t' l [Hq _]%elem_of_ancestors. by apply (make_once d).
  - done.
  - intros t t' l. by apply (make_once d d _ _ _ _ _ Hd (above_refl d)).
  - intros t l [? [?|?]]; by split.
Qed.

Lemma dir_above : above (Places.dir w) (parent (Places.retired_metadata w)).
Proof. by exists ["clone-retired"]. Qed.

(** After [let s = exists(src)], with what it tells. *)
Lemma triple_exists_ {B} p j F (k : bool -> flow B) Q X :
  Triple (at_ j (fun t => F t /\ present p t)) (k true) Q X ->
  Triple (at_ j (fun t => F t /\ absent p t)) (k false) Q X ->
  Triple (at_ j F) (b ← exists_ p; k b) Q X.
Proof.
  intros Ht Hf. eapply triple_bind; [apply triple_look|]. intros [|]; cbv beta.
  - eapply triple_pre; [exact Ht|]. intros t l (Hb & Hr & HF). split_and!; [done..|].
    unfold exists_at in Hb. unfold present. by destruct (lookup p t).
  - eapply triple_pre; [exact Hf|]. intros t l (Hb & Hr & HF). split_and!; [done..|].
    unfold exists_at in Hb. unfold absent. by destruct (lookup p t).
Qed.

Lemma triple_bail_at {A} e j F (Q : A -> assn) :
  Triple (at_ j F) (bail e : flow A) Q (at_ j anywhere).
Proof. eapply triple_err; [apply triple_bail|]. apply weaken_at. Qed.

Lemma triple_ret_at {A} (a : A) j F X :
  Triple (at_ j F) (mret a : flow A) (fun x t l => x = a /\ at_ j F t l) X.
Proof. apply triple_ret. Qed.

(** A last step that only has to be left. *)
Lemma triple_done {A} (a : A) j (F G : tree -> Prop) X :
  (forall t, F t -> G t) -> Triple (at_ j F) (mret a : flow A) (fun _ => at_ j G) X.
Proof.
  intros H. eapply triple_post; [apply triple_ret|]. intros x t l (_ & Hr & HF). split; auto.
Qed.

Lemma triple_move_path k src dst missing j F :
  fits k (DowngradeJournal.phase j) = true ->
  (forall p, fits (MakeDir p) (DowngradeJournal.phase j) = true) ->
  parent dst = Places.dir w -> (forall t t', moved src dst t t' -> change_of k t t') ->
  framed (off_dir (parent dst)) F -> framed (off_dir (parent dst)) (present src) ->
  framed (off_dir (parent dst)) (absent dst) -> framed (off_move src dst) F ->
  Triple (at_ j F) (move_path src dst missing)
    (fun _ => at_ j (fun t => F t /\ absent src t /\ present dst t)) (at_ j anywhere).
Proof.
  intros Hk Hd Hp Hc F1 F2 F3 F4. unfold move_path.
  apply triple_exists_; apply triple_exists_; try apply triple_bail_at.
  - apply (triple_bind _ _ _ (fun _ => at_ j (fun t => (F t /\ present src t) /\ absent dst t)));
      [|intros _].
    + eapply triple_err; [apply triple_make_place;
        [rewrite Hp; apply dir_above|done|]|apply weaken_at].
      intros t t' K ((? & ?) & ?). split_and!; [by eapply F1|by eapply F2|by eapply F3].
    + eapply triple_err; [apply (triple_move_new k); [done|]|apply weaken_at].
      intros t t' s ((HF & _) & _) Hm Hr. split; [by apply Hc|]. split_and!.
      * eapply F4; [by eapply keeps_renamed|done].
      * by eapply rn_gone.
      * eexists. by eapply rn_there.
  - apply triple_done. intros t ((? & ?) & ?). by split_and!.
Qed.

Lemma triple_move_data j :
  DowngradeJournal.phase j = DowngradePhase.OriginalMetadataMoved ->
  Triple (at_ j (absent (Places.probe w))) (move_data w)
    (fun _ => at_ j (ready DowngradePhase.OriginalUserDataMoved)) (at_ j anywhere).
Proof.
  intros Hp. unfold move_data. eapply triple_bind; [apply triple_look|]. intros link. cbv beta.
  apply (triple_pre _ (at_ j (absent (Places.probe w)))); [|by intros t l [_ ?]].
  assert (forall F, Triple (at_ j (fun t => absent (Places.probe w) t /\ F t))
    (move_path (Places.data_src w) (Places.data_dst w) "downgrade.originalGone")
    (fun _ => at_ j (ready DowngradePhase.OriginalUserDataMoved)) (at_ j anywhere)) as Hmove.
  { intros F. eapply triple_post; [eapply triple_at;
      [apply (triple_move_path MoveData _ _ _ j (absent (Places.probe w)))|tauto]|].
    - by rewrite Hp.
    - by rewrite Hp.
    - done.
    - done.
    - solve_frame.
    - solve_frame.
    - solve_frame.
    - solve_frame.
    - intros _ t l (? & ? & ? & ?). by split_and!. }
  destruct link; [apply triple_bail_at|].
  apply triple_exists_; apply triple_exists_; cbn [negb andb];
    try (eapply triple_at; [apply (Hmove anywhere)|tauto]).
  eapply triple_post; [eapply triple_err; [apply (triple_make_dir _ j _ (ready DowngradePhase.OriginalUserDataMoved))|]|].
  - intros q t t' l [Hq Hne]%elem_of_ancestors. apply (make_once (Places.dir w)).
    + apply dir_above.
    + by apply above_parent in Hq.
    + by rewrite Hp.
    + solve_frame.
  - intros t (_ & Ha) [x He]. unfold absent in *. by rewrite Ha in He.
  - intros t t' l (Hr & (H1 & H2) & H3) Hc. split.
    + eapply (step_once MakeData); [done|by rewrite Hp|]. by split_and!.
    + pose proof (keeps_create _ _ _ Hc) as K. apply create_dir_ok in Hc as [_ Ha].
      split_and!; [|exists (Dir []); apply (lookup_alter_same _ _ _ _ Ha)|];
        unfold absent; by rewrite K by off.
  - intros t l [? _]. by split.
  - done.
Qed.

(** ** Checks *)

Ltac quiet_tac :=
  repeat first
    [ apply quiet_bind; [|intros ?] | apply quiet_for_each; intros ? | solve [eauto with quiet]
    | match goal with |- context [match ?x with _ => _ end] => destruct x end ].

Lemma quiet_one_volume l : quiet Step (one_volume l).
Proof.
  induction l as [|a [|b l] IH]; [apply quiet_ret..|]. cbn [one_volume].
  destruct (a =? b); [exact IH|apply quiet_bail].
Qed.

Lemma quiet_same_volume data archive : quiet Step (same_volume volume_serial data archive).
Proof.
  apply quiet_bind; [apply quiet_look|intros there].
  apply quiet_bind; [apply quiet_ask|intros serials; apply quiet_one_volume].
Qed.

Lemma quiet_prove_idle data : quiet Step (prove_idle data).
Proof. unfold prove_idle, exists_. quiet_tac. Qed.

Lemma quiet_binding_facts local : quiet Step (binding_facts local).
Proof. unfold binding_facts. quiet_tac. Qed.

Lemma quiet_claim claims running original' new' : quiet Step (claim claims running original' new').
Proof. unfold claim, begin_user_mutation, begin_claim. quiet_tac. Qed.

Lemma triple_check {A B} j (F : tree -> Prop) (m : flow A) (k : A -> flow B) Q :
  quiet Step m -> (forall a, Triple (at_ j F) (k a) Q (at_ j anywhere)) ->
  Triple (at_ j F) (m ≫= k) Q (at_ j anywhere).
Proof. intros Hm Hk. apply triple_after; [done|apply weaken_at|done]. Qed.


Lemma triple_guard {B} j F c e (k : unit -> flow B) Q :
  (c = false -> Triple (at_ j F) (k tt) Q (at_ j anywhere)) ->
  Triple (at_ j F) (bail_if c e ≫= k) Q (at_ j anywhere).
Proof.
  intros H. destruct c; [|apply (triple_bind _ _ _ (fun _ => at_ j F))].
  - apply (triple_bind _ _ _ (fun _ _ _ => False)); [apply triple_bail_at|by intros ? t].
  - eapply triple_post; [apply triple_ret|]. by intros ??? [_ ?].
  - intros []. by apply H.
Qed.

Lemma triple_last_guard j F c e :
  Triple (at_ j F) (bail_if c e : flow unit) (fun _ => at_ j (fun t => F t /\ c = false))
    (at_ j anywhere).
Proof.
  eapply triple_post; [eapply triple_err; [apply triple_bail_if|apply weaken_at]|].
  intros _ t l (? & Hr & HF). by split_and!.
Qed.

Lemma triple_read {A B} j F (f : tree -> result flow_error A) (k : A -> flow B) Q :
  (forall a, Triple (at_ j (fun t => F t /\ f t = Ok a)) (k a) Q (at_ j anywhere)) ->
  Triple (at_ j F) (ask f ≫= k) Q (at_ j anywhere).
Proof.
  intros H. eapply triple_bind.
  - eapply triple_err; [apply triple_ask|apply weaken_at].
  - intros a. eapply triple_pre; [apply H|]. intros t l (Hf & Hr & HF). by split_and!.
Qed.

Lemma triple_result {A B} j F (r : result flow_error A) (k : A -> flow B) Q :
  (forall a, r = Ok a -> Triple (at_ j F) (k a) Q (at_ j anywhere)) ->
  Triple (at_ j F) (of_result r ≫= k) Q (at_ j anywhere).
Proof.
  intros H. eapply triple_bind.
  - eapply triple_err; [apply triple_of_result|apply weaken_at].
  - intros a. apply (triple_pure _ _ (r = Ok a)); [by intros t l [? _]|]. intros Hr.
    eapply triple_pre; [by apply H|]. by intros t l [_ ?].
Qed.

Lemma triple_prove_gone j :
  DowngradeJournal.original_local_profile_id j = original ->
  Triple (at_ j anywhere) (prove_gone from_slice leads_inside j w)
    (fun _ => at_ j (ready DowngradePhase.DiscoveryScanPassed)) (at_ j anywhere).
Proof.
  intros Ho. unfold prove_gone, discover. rewrite Ho. apply triple_exists_; apply triple_exists_;
    (apply triple_guard; intros Hb; try done).
  apply triple_check; [apply quiet_probe|intros _].
  apply triple_read. intros found. eapply triple_post; [apply triple_last_guard|].
  intros _ t l (Hr & (((_ & Hm) & Hd) & Hs) & Hn). split; [done|]. split_and!; [done..|]. eauto.
Qed.

(** *** The clone *)

Lemma listing_lookup r r' skip t t' :
  lookup r t = lookup r' t' -> listing r skip t = listing r' skip t'.
Proof. unfold listing. by intros ->. Qed.

Lemma read_file_lookup {E} p p' t t' :
  lookup p t = lookup p' t' -> (read_file p t : result (FlowError E) bytes) = read_file p' t'.
Proof. unfold read_file. by intros ->. Qed.

(** One change at the staging copy or in it. *)
Lemma scratch_once r v j F t t' l :
  (forall r v, fits (Scratch r v) (DowngradeJournal.phase j) = true) ->
  framed (apart (Places.clone_staging w)) F ->
  (r = [] -> v = None \/ v = Some (Dir [])) ->
  at_ j F t l -> alter (Places.clone_staging w ++ r) (fun _ => v) t = Some t' ->
  rtc Step (t, l) (t', l) /\ at_ j F t' l.
Proof.
  intros Hk HF Hv [Hr Ht] Ha. split; [by eapply (step_once (Scratch r v))|]. split; [done|].
  eapply HF; [by eapply keeps_alter_below|done].
Qed.

Lemma triple_remove_staging j F :
  (forall r v, fits (Scratch r v) (DowngradeJournal.phase j) = true) ->
  framed (apart (Places.clone_staging w)) F ->
  Triple (at_ j F) (remove_dir_all (Places.clone_staging w) : flow unit) (fun _ => at_ j F) (at_ j F).
Proof.
  intros Hk HF. apply triple_remove_dir_all. intros q t t' l [r ->].
  apply (scratch_once r None j F); [done|done|by left].
Qed.

(** A folder of the copy made; those above the copy are there. *)
Lemma triple_make_copied r j F :
  (forall r v, fits (Scratch r v) (DowngradeJournal.phase j) = true) ->
  framed (apart (Places.clone_staging w)) F ->
  (forall t, F t -> present (Places.dir w) t) ->
  Triple (at_ j F) (create_dir_all (Places.clone_staging w ++ r) : flow unit) (fun _ => at_ j F)
    (at_ j F).
Proof.
  intros Hk HF Hp.
  assert (forall q t t' l, above q (Places.clone_staging w ++ r) -> at_ j F t l ->
    create_dir q t = (Ok t' : result flow_error tree) ->
    rtc Step (t, l) (t', l) /\ at_ j F t' l) as Hq.
  { intros q t t' l [x Hx] Ht [Hn Ha]%create_dir_ok.
    apply app_eq_inv in Hx as [(k & Hk' & _)|(k & -> & _)].
    - destruct k as [|y k]; [rewrite app_nil_r in Hk'; subst q|].
      + apply (scratch_once [] (Some (Dir [])) j F t); [done..|by right|done|by rewrite app_nil_r].
      + assert (above q (Places.dir w)) as Hab.
        { apply (above_parent q (Places.clone_staging w)); [done|by eexists|].
          intros ->. apply (f_equal length) in Hk'. rewrite length_app in Hk'. simpl in Hk'. lia. }
        destruct Ht as [_ Ht]. destruct (Hp t Ht) as [d Hd].
        by rewrite (lookup_above _ _ _ Hab Hn) in Hd.
    - by apply (scratch_once k (Some (Dir [])) j F t); [done..|right|done|]. }
  apply triple_create_dir_all.
  - intros q t t' l [Ha _]%elem_of_ancestors. by apply Hq.
  - done.
  - intros t t' l. apply Hq, above_refl.
Qed.

Lemma triple_copy_dir top t src r j F :
  (forall r v, fits (Scratch r v) (DowngradeJournal.phase j) = true) ->
  framed (apart (Places.clone_staging w)) F ->
  (forall t, F t -> present (Places.dir w) t) ->
  Triple (at_ j F) (copy_dir top t src (Places.clone_staging w ++ r)) (fun _ => at_ j F) (at_ j F).
Proof.
  intros Hk HF Hp. revert top src r.
  induction t as [b|o|es IH] using tree_induction; intros top src r; cbn [copy_dir];
    [apply triple_bail..|].
  apply (triple_bind _ _ _ (fun _ => at_ j F)); [by apply triple_make_copied|intros _].
  eapply triple_bind; [apply triple_ask|intros a]. cbv beta.
  apply (triple_pre _ (at_ j F)); [|by intros t l [_ ?]]. clear a.
  induction es as [|[name t] es IHes]; [apply triple_skip|].
  apply Forall_cons in IH as [IH1 IH]. specialize (IHes IH). cbn [snd] in IH1.
  destruct (top && _); [exact IHes|].
  apply (triple_bind _ _ _ (fun _ => at_ j F)); [|intros _; exact IHes].
  assert (join (Places.clone_staging w ++ r) name = Places.clone_staging w ++ (r ++ [name])) as ->
    by by unfold join; rewrite app_assoc.
  destruct t as [b|o|es']; [|apply triple_bail|apply IH1].
  apply (triple_bind _ _ _ (fun _ => at_ j F)); [|intros _; apply triple_sync_all].
  unfold copy_file. eapply triple_bind; [apply triple_ask|intros body]. cbv beta.
  apply (triple_pre _ (at_ j F)); [|by intros t l [_ ?]].
  assert (forall t t' l v, at_ j F t l ->
    alter (Places.clone_staging w ++ (r ++ [name])) (fun _ => Some v) t = Some t' ->
    rtc Step (t, l) (t', l) /\ at_ j F t' l) as Hw.
  { intros t t' l v. apply (scratch_once (r ++ [name]) (Some v) j F); [done..|].
    intros Hn. by destruct r. }
  eapply triple_bind; [by apply triple_create_file|intros u].
  eapply triple_post; [by apply triple_write_all|by intros a t l [? _]].
Qed.

Lemma triple_copy_tree src j F :
  (forall r v, fits (Scratch r v) (DowngradeJournal.phase j) = true) ->
  framed (apart (Places.clone_staging w)) F ->
  (forall t, F t -> present (Places.dir w) t) ->
  Triple (at_ j F) (copy_tree src (Places.clone_staging w)) (fun _ => at_ j F) (at_ j F).
Proof.
  intros Hk HF Hp. unfold copy_tree. eapply triple_bind; [apply triple_look|]. intros found. cbv beta.
  apply (triple_pre _ (at_ j F)); [|by intros t l [_ ?]].
  assert (Triple (at_ j F) (_ ← create_dir_all (Places.clone_staging w); bail Io : flow unit)
    (fun _ => at_ j F) (at_ j F)) as Hbad.
  { apply (triple_bind _ _ _ (fun _ => at_ j F)); [|intros _; apply triple_bail].
    rewrite <- (app_nil_r (Places.clone_staging w)). by apply triple_make_copied. }
  destruct found as [[b|o|es]|]; try exact Hbad.
  rewrite <- (app_nil_r (Places.clone_staging w)). by apply triple_copy_dir.
Qed.

Lemma framed_and U F G : framed U F -> framed U G -> framed U (fun t => F t /\ G t).
Proof. intros HF HG t t' K [? ?]. split; [by eapply HF|by eapply HG]. Qed.

Lemma framed_listing (U : path -> Prop) r skip files :
  U r -> framed U (fun t => listing r skip t = (Ok files : result flow_error _)).
Proof. intros Hr t t' K. by rewrite (listing_lookup r r skip t' t (K r Hr)). Qed.

Lemma triple_write_clone_data j archived :
  DowngradeJournal.phase j = DowngradePhase.DiscoveryScanPassed ->
  let F t := listing (Places.data_dst w) true t = (Ok archived : result flow_error _) in
  Triple (at_ j F) (write_clone_data w archived)
    (fun _ => at_ j (fun t => F t /\ listing (Places.clone_data w) false t = Ok archived))
    (at_ j anywhere).
Proof.
  intros Hp F.
  assert (framed (apart (Places.clone_staging w)) F) as HF1.
  { apply framed_listing; off. }
  assert (framed (off_move (Places.clone_staging w) (Places.clone_data w)) F) as HF2.
  { apply framed_listing; off. }
  unfold write_clone_data. apply triple_exists_; cbn [negb].
  { eapply triple_at; [|intros t [HF _]; exact HF]. apply triple_read. intros copy.
    eapply triple_post; [apply triple_last_guard|]. intros _ t l (Hr & (HF & Hl) & Hc).
    split_and!; [done..|]. apply negb_false_iff, bool_decide_eq_true in Hc. by rewrite <- Hc. }
  eapply triple_at; [|intros t [HF _]; exact HF].
  assert (forall (k : unit -> flow unit) Q, Triple (at_ j F) (k tt) Q (at_ j anywhere) ->
    Triple (at_ j F) (copy_tree (Places.data_dst w) (Places.clone_staging w) ≫= k) Q
      (at_ j anywhere)) as Hcopy.
  { intros k Q Hk. eapply triple_bind; [eapply triple_err; [apply (triple_copy_tree _ j F)|apply weaken_at]|].
    - by rewrite Hp.
    - done.
    - intros t (d & Hd%from_option_ok & _)%result_bind_ok.
      destruct (lookup (Places.dir w) t) as [x|] eqn:Hx; [by exists x|].
      rewrite (lookup_above (Places.dir w) (Places.data_dst w)) in Hd by (by eexists [_] || done). done.
    - by intros []. }
  assert (Triple (at_ j F)
    (copy ← ask (listing (Places.clone_staging w) false);
     _ ← bail_if (negb (bool_decide (copy = archived))) (Coded "downgrade.cloneMismatch");
     move_new (Places.clone_staging w) (Places.clone_data w))
    (fun _ => at_ j (fun t => F t /\ listing (Places.clone_data w) false t = Ok archived))
    (at_ j anywhere)) as Hrest.
  { apply triple_read. intros copy. apply triple_guard. intros Hc.
    apply negb_false_iff, bool_decide_eq_true in Hc. rewrite Hc.
    eapply triple_err; [apply (triple_move_new PlaceClone)|apply weaken_at].
    - by rewrite Hp.
    - intros t t' s [HF Hl] Hm Hr. split; [done|]. split.
      + eapply HF2; [by eapply keeps_renamed|done].
      + rewrite <- Hl. apply listing_lookup. by rewrite (rn_there _ _ _ _ _ Hr), (rn_src _ _ _ _ _ Hr). }
  apply triple_exists_; (eapply triple_at; [|intros t [HF _]; exact HF]).
  - eapply triple_bind; [eapply triple_err; [apply (triple_remove_staging j F)|apply weaken_at]|].
    + by rewrite Hp.
    + done.
    + intros []. apply Hcopy, Hrest.
  - eapply triple_bind; [apply (triple_done tt j F F); tauto|]. intros []. apply Hcopy, Hrest.
Qed.

(** [write_private] of the clone's record: the temporary, its rename, and on an error its
    removal. *)
Lemma triple_write_private j body (F G : tree -> Prop) :
  DowngradeJournal.phase j = DowngradePhase.DiscoveryScanPassed ->
  framed (apart clone_tmp) F ->
  (forall t t', F t -> read_file clone_tmp t = (Ok body : result flow_error bytes) ->
     replace_file clone_tmp (Places.clone_metadata w) t = (Ok t' : result flow_error tree) ->
     change_of (WriteRecord body) t t' /\ G t') ->
  Triple (at_ j F) (write_private (Places.clone_metadata w) body : flow unit) (fun _ => at_ j G)
    (at_ j anywhere).
Proof.
  intros Hp HF HG.
  assert (forall v H t t' l, framed (apart clone_tmp) H -> at_ j H t l ->
    alter clone_tmp (fun _ => v) t = Some t' -> rtc Step (t, l) (t', l) /\ at_ j H t' l) as Htmp.
  { intros v H t t' l Hf [Hr Ht] Ha. split; [eapply (step_once (WriteTmp v)); [done|by rewrite Hp|done]|].
    split; [done|]. eapply Hf; [by eapply keeps_alter|done]. }
  apply (triple_bind _ _ _ (fun (r : result flow_error unit) t l =>
    match r with Ok _ => at_ j G t l | _ => at_ j anywhere t l end)).
  - apply (triple_outcome _ _ _ (fun _ => at_ j G)).
    eapply triple_bind; [eapply triple_err; [apply triple_create_file|apply weaken_at]|].
    { intros t t' l v. by apply (Htmp (Some v) F). }
    intros u. eapply triple_bind; [eapply triple_err; [apply triple_write_all|apply weaken_at]|].
    { intros t t' l v. by apply (Htmp (Some v) F). }
    intros u1. cbn [app]. eapply triple_bind; [eapply triple_err; [apply triple_sync_all|]|].
    { intros t l [[? ?] _]. by split. }
    intros u2. apply (triple_bind _ _ _ (fun _ => at_ j G)).
    + eapply triple_pre; [eapply triple_err; [apply (triple_change_at (WriteRecord body) _ _ j (fun t =>
        F t /\ read_file clone_tmp t = (Ok body : result flow_error bytes)))|apply weaken_at]|].
      * by rewrite Hp.
      * intros t t' [Ht Hr]. by apply HG.
      * intros t l [[? ?] ?]. by split_and!.
    + intros _. eapply triple_err; [apply triple_sync_all|apply weaken_at].
  - intros [a|e|c]; cbv beta iota.
    + apply triple_skip.
    + apply (triple_bind _ _ _ (fun _ => at_ j anywhere)); [|intros _; apply triple_bail].
      eapply triple_post; [apply triple_outcome|].
      * apply (triple_unlink _ clone_tmp); [apply remove_file_ok|].
        intros t t' l. by apply (Htmp None anywhere).
      * by intros [a|e'|c] t l H.
    + eapply triple_post; [apply triple_of_result|]. by intros a t l [? _].
Qed.

Lemma triple_write_clone_record j forbidden G :
  DowngradeJournal.phase j = DowngradePhase.DiscoveryScanPassed ->
  framed (apart clone_tmp) G -> framed (off_move clone_tmp (Places.clone_metadata w)) G ->
  Triple (at_ j G)
    (write_clone_record from_slice to_vec_pretty value_of clock w new (forbidden ++ [original]))
    (fun _ => at_ j (fun t => G t /\ clean_record t)) (at_ j anywhere).
Proof.
  intros Hp HG' HG. unfold write_clone_record. apply triple_exists_.
  - apply triple_read. intros body. apply triple_result. intros stored Hs.
    eapply triple_post; [apply triple_last_guard|].
    intros _ t l (Hr & ((HF & _) & Hb) & _). split_and!; [done..|]. by exists body, stored, forbidden.
  - apply triple_read. intros orig. apply triple_result. intros body Hb.
    apply triple_write_private; [done|..].
    + intros t t' K ((H1 & H2) & H3). split; [split; [by eapply HG'|]|].
      * unfold absent. by rewrite K by off.
      * rewrite <- H3. apply read_file_lookup, K. off.
    + intros t t' ((Ht & Ha) & Ho) Hr Hc. rewrite replace_file_new in Hc by done.
      unfold clone_record in Hb.
      apply result_bind_ok in Hb as (stored & Hs%ok_or_ok & Hb).
      apply result_bind_ok in Hb as (body' & Hv%from_option_ok & Hb).
      apply result_bind_ok in Hb as (again & Hcl & [= ->]).
      pose proof (rename_new_ok _ _ _ _ Hc) as [s Hs']. split.
      * split_and!; [done..|]. by exists stored, orig, clock.
      * split; [eapply HG; [by eapply keeps_renamed|done]|].
        exists body, again, forbidden. split; [|done]. rewrite <- Hr. apply read_file_lookup.
        by rewrite (rn_there _ _ _ _ _ Hs'), (rn_src _ _ _ _ _ Hs').
Qed.

Lemma triple_write_clone j :
  mine j -> DowngradeJournal.phase j = DowngradePhase.DiscoveryScanPassed ->
  Triple (at_ j anywhere) (write_clone from_slice to_vec_pretty value_of clock j w)
    (fun _ => at_ j (ready DowngradePhase.CloneWritten)) (at_ j anywhere).
Proof.
  intros (_ & Ho & Hn & _) Hp. unfold write_clone. rewrite Ho, Hn. cbn [default].
  apply triple_check; [apply quiet_binding_facts|intros facts].
  apply triple_read. intros archived. eapply triple_bind.
  { eapply triple_at; [by apply (triple_write_clone_data j archived)|by intros t [_ ?]]. }
  intros []. eapply triple_post; [apply (triple_write_clone_record j facts _ Hp)|].
  - apply framed_and; apply framed_listing; off.
  - apply framed_and; apply framed_listing; off.
  - intros _ t l (Hr & (H1 & H2) & Hc). split; [done|]. split; [done|by exists archived].
Qed.

Lemma triple_read_back j :
  mine j ->
  Triple (at_ j anywhere) (read_back from_slice value_of sha256 j w)
    (fun sha t l => sha = readback_digest sha256 j
       /\ at_ j (ready DowngradePhase.ReadbackPassed) t l) (at_ j anywhere).
Proof.
  intros (_ & Ho & Hn & _). unfold read_back, discover. rewrite Ho, Hn. cbn [default].
  apply triple_read. intros found. apply triple_guard. intros Hf.
  apply triple_check; [apply quiet_ask|intros listed].
  apply triple_check; [apply quiet_bail_if|intros _].
  apply triple_check; [apply quiet_binding_facts|intros facts].
  apply triple_read. intros body. apply triple_result. intros stored Hs.
  apply triple_exists_; apply triple_exists_; (apply triple_guard; intros Hb; try done).
  eapply triple_post; [apply triple_ret|].
  intros sha t l (-> & Hr & ((((_ & Hd) & Hbody) & Hm) & Hd')). split; [done|]. split; [done|].
  apply orb_false_iff in Hf as [[Hl%negb_false_iff Hh%negb_false_iff]%orb_false_iff Hx].
  split; [by exists body, stored, facts|]. split_and!; [done..|]. by exists found.
Qed.

(** *** Rolling back *)

Lemma triple_check_restorable j j' F :
  Triple (at_ j F) (check_restorable from_slice j' w)
    (fun _ => at_ j (fun t => F t /\ placed_once w t = true)) (at_ j anywhere).
Proof.
  unfold check_restorable. eapply triple_bind; [apply triple_look|]. intros fine. cbv beta.
  destruct fine; cbn [negb].
  2: { apply (triple_bind _ _ _ (fun _ _ _ => False)); [|by intros ? t].
    eapply triple_err; [apply triple_bail|by intros t l (_ & ? & _)]. }
  apply (triple_pre _ (at_ j (fun t => F t /\ placed_once w t = true)));
    [|intros t l (? & ? & ?); by split_and!].
  apply triple_check; [apply (quiet_bail_if _ false)|intros _]. apply triple_exists_; cbn [negb].
  - apply triple_read. intros body. eapply triple_post; [apply triple_last_guard|].
    intros _ t l (Hr & (([? ?] & _) & _) & _). by split_and!.
  - apply triple_done. by intros t [? _].
Qed.

Lemma triple_retire k src dst j F :
  DowngradeJournal.phase j = DowngradePhase.RollbackRequired ->
  fits k (DowngradeJournal.phase j) = true -> (forall t t', moved src dst t t' -> change_of k t t') ->
  parent dst = parent (Places.retired_metadata w) ->
  framed (off_dir (parent dst)) F -> framed (off_move src dst) F ->
  Triple (at_ j F) (retire src dst) (fun _ => at_ j (fun t => F t /\ absent src t)) (at_ j anywhere).
Proof.
  intros Hp Hk Hc Hd F1 F2. unfold retire. apply triple_exists_; cbn [negb]; [|by apply triple_done].
  eapply triple_at; [|intros t [HF _]; exact HF].
  apply triple_exists_; [apply triple_bail_at|]. eapply triple_at; [|intros t [HF _]; exact HF].
  apply (triple_bind _ _ _ (fun _ => at_ j F)); [|intros _].
  - eapply triple_err; [apply triple_make_place;
      [rewrite Hd; apply above_refl|by rewrite Hp|done]|apply weaken_at].
  - eapply triple_err; [apply (triple_move_new k); [done|]|apply weaken_at].
    intros t t' s HF Hm Hr. split; [by apply Hc|]. split; [|by eapply rn_gone].
    eapply F2; [by eapply keeps_renamed|done].
Qed.

Lemma triple_restore k src dst j F :
  fits k (DowngradeJournal.phase j) = true -> (forall t t', moved dst src t t' -> change_of k t t') ->
  framed (off_move dst src) F ->
  Triple (at_ j F) (restore src dst) (fun _ => at_ j (fun t => F t /\ absent dst t)) (at_ j anywhere).
Proof.
  intros Hk Hc F2. unfold restore. apply triple_exists_; cbn [negb]; [|by apply triple_done].
  eapply triple_at; [|intros t [HF _]; exact HF].
  apply triple_exists_; [apply triple_bail_at|]. eapply triple_at; [|intros t [HF _]; exact HF].
  eapply triple_err; [apply (triple_move_new k); [done|]|apply weaken_at].
  intros t t' s HF Hm Hr. split; [by apply Hc|]. split; [|by eapply rn_gone].
  eapply F2; [by eapply keeps_renamed|done].
Qed.

Lemma triple_discard_staging j F :
  DowngradeJournal.phase j = DowngradePhase.RollbackRequired ->
  framed (apart (Places.clone_staging w)) F ->
  Triple (at_ j F) (discard_staging w) (fun _ => at_ j F) (at_ j anywhere).
Proof.
  intros Hp HF. unfold discard_staging. apply triple_exists_; apply triple_exists_; cbn [andb];
    try (apply triple_done; tauto).
  eapply triple_at; [|intros t [[Ht _] _]; exact Ht].
  eapply triple_bind; [eapply triple_err; [apply (triple_remove_staging j F)|apply weaken_at]|].
  - by rewrite Hp.
  - done.
  - intros []. eapply triple_err; [apply triple_sync|apply weaken_at].
Qed.

(** The journal is somewhere, the disk anywhere. *)
Definition tracked : assn := fun _ l => exists j, row l j.

Lemma at_tracked j F t l : at_ j F t l -> tracked t l.
Proof. intros [? _]. by exists j. Qed.

(** Ended: at [j], the disk ready for its phase. *)
Definition reached (to : DowngradePhase.t) (next : DowngradeJournal.t) : assn := fun t l =>
  row l next /\ DowngradeJournal.phase next = to /\ ready to t.

Lemma triple_enter j to patch F :
  mine j -> patch_typed patch = true -> (forall t, F t -> ready to t) ->
  Triple (at_ j F) (store_phase (DowngradeJournal.journal_id j) to patch)
    (fun next t l => reached to next t l /\ F t) (at_ j F).
Proof.
  intros (Hid & _) Hp HF. rewrite Hid. eapply triple_post; [apply (triple_store j)|].
  - intros t l [? ?]. auto.
  - done.
  - intros next t l (-> & Hr & Hready & l0 & _ & Ht). by split_and!.
Qed.

Lemma cleaned t t' : change_of Clean t t' ->
  ready DowngradePhase.RolledBack t -> ready DowngradePhase.RolledBack t'.
Proof.
  intros [_ Ha]%remove_dir_ok (H1 & H2 & H3 & H4 & H5). pose proof (keeps_alter _ _ _ _ Ha) as K.
  assert (forall name, absent (join (Places.dir w) name) t') as Hu.
  { intros name. unfold absent, join. by rewrite (lookup_alter_below _ _ _ _ _ Ha). }
  split_and!; try apply Hu; unfold absent; by rewrite K by off.
Qed.

Lemma triple_rollback_required j :
  mine j ->
  Triple (at_ j anywhere)
    (if bool_decide (DowngradeJournal.phase j = DowngradePhase.RollbackRequired) then mret j
     else store_phase (DowngradeJournal.journal_id j) DowngradePhase.RollbackRequired Patch.default)
    (reached DowngradePhase.RollbackRequired) tracked.
Proof.
  intros Hm. case_bool_decide as Hp.
  - eapply triple_post; [apply triple_ret|]. by intros j' t l (-> & ? & _).
  - eapply triple_post; [eapply triple_err; [by apply triple_enter|apply at_tracked]|].
    by intros j' t l [? _].
Qed.

Lemma triple_roll_back j :
  mine j ->
  Triple (at_ j anywhere) (roll_back from_slice j w) (reached DowngradePhase.RolledBack) tracked.
Proof.
  intros Hm. unfold roll_back. eapply triple_bind; [by apply triple_rollback_required|]. intros j1.
  apply (triple_pure _ _ (mine j1 /\ DowngradeJournal.phase j1 = DowngradePhase.RollbackRequired)).
  { intros t l ((_ & _ & ?) & ? & _). done. }
  intros [Hm1 Hp1]. apply (triple_pre _ (at_ j1 anywhere)); [|by intros t l (? & _)].
  assert (forall F t l, at_ j1 F t l -> tracked t l) as Hx by apply at_tracked.
  eapply triple_bind; [eapply triple_err; [apply (triple_settle_probe j1 anywhere)|apply at_tracked]|].
  { by rewrite Hp1. }
  { done. }
  intros []. eapply triple_bind; [eapply triple_err; [apply triple_check_restorable|apply at_tracked]|].
  intros []. eapply triple_at; [|intros t [[_ Ha] _]; exact Ha].
  eapply triple_bind; [eapply triple_err; [apply (triple_retire RetireRecord)|apply at_tracked]|].
  1-6: rewrite ?Hp1; first [done|solve_frame].
  intros [].
  eapply triple_bind; [eapply triple_err; [apply (triple_retire RetireData)|apply at_tracked]|].
  1-6: rewrite ?Hp1; first [done|solve_frame].
  intros [].
  eapply triple_bind; [eapply triple_err; [apply triple_discard_staging|apply at_tracked]|].
  1-2: first [done|solve_frame].
  intros [].
  eapply triple_bind; [eapply triple_err; [apply (triple_restore RestoreData)|apply at_tracked]|].
  1-3: rewrite ?Hp1; first [done|solve_frame].
  intros [].
  eapply triple_bind; [eapply triple_err; [apply (triple_restore RestoreRecord)|apply at_tracked]|].
  1-3: rewrite ?Hp1; first [done|solve_frame].
  intros [].
  eapply triple_bind; [eapply triple_err; [apply triple_enter|apply at_tracked]|].
  - done.
  - done.
  - intros t ((((H1 & H2) & H3) & H4) & H5). by split_and!.
  - intros next.
    apply (triple_pure _ _ (DowngradeJournal.phase next = DowngradePhase.RolledBack)).
    { by intros t l ((_ & ? & _) & _). }
    intros Hn. apply (triple_pre _ (at_ next (ready DowngradePhase.RolledBack))).
    2: { by intros t l ((? & _ & ?) & _). }
    eapply triple_bind; [apply triple_outcome; apply (triple_change_at Clean)|].
    + by rewrite Hn.
    + intros t t' Ht Hc. split; [done|]. by eapply cleaned.
    + intros r. eapply triple_post; [eapply triple_pre; [apply triple_ret|]|].
      * intros t l H. exact H.
      * intros x t l (-> & H). destruct r; destruct H; by split_and!.
Qed.

(** ** Driving *)

(** Where a step that ends well takes the journal. *)
Definition onward (phase : DowngradePhase.t) : option DowngradePhase.t :=
  match phase with
  | DowngradePhase.Created => Some DowngradePhase.Claimed
  | DowngradePhase.Claimed => Some DowngradePhase.OriginalMetadataMoved
  | DowngradePhase.OriginalMetadataMoved => Some DowngradePhase.OriginalUserDataMoved
  | DowngradePhase.OriginalUserDataMoved => Some DowngradePhase.DiscoveryScanPassed
  | DowngradePhase.DiscoveryScanPassed => Some DowngradePhase.CloneWritten
  | DowngradePhase.CloneWritten => Some DowngradePhase.ReadbackPassed
  | DowngradePhase.ReadbackPassed => Some DowngradePhase.Completed
  | DowngradePhase.RollbackRequired => Some DowngradePhase.RolledBack
  | _ => None
  end.

(** No trial move is under way where one could be. *)
Definition probe_home (phase : DowngradePhase.t) (t : tree) : Prop :=
  match phase with
  | DowngradePhase.Created | DowngradePhase.Claimed | DowngradePhase.OriginalMetadataMoved =>
      absent (Places.probe w) t
  | _ => True
  end.

Definition at_loop (j : DowngradeJournal.t) : assn := at_ j (probe_home (DowngradeJournal.phase j)).

Definition went_on (j next : DowngradeJournal.t) : assn := fun t l =>
  exists to, onward (DowngradeJournal.phase j) = Some to /\ reached to next t l /\ probe_home to t.

Abbreviation step_ := (step from_slice to_vec_pretty value_of sha256 volume_serial leads_inside
  local_volume clock).

(** A phase the disk is ready for, stored at the end of a step. *)
Lemma triple_go j to patch F :
  mine j -> onward (DowngradeJournal.phase j) = Some to -> patch_typed patch = true ->
  (forall t, F t -> ready to t /\ probe_home to t) ->
  Triple (at_ j F) (advance j to patch) (went_on j) tracked.
Proof.
  intros Hm Hto Hp HF.
  eapply triple_post; [eapply triple_err; [apply (triple_enter j to patch F)|apply at_tracked]|].
  - done.
  - done.
  - intros t Ht. by apply HF.
  - intros next t l (Hr & Ht). exists to. split_and!; [done..|]. by apply HF.
Qed.

Lemma triple_advance {A} j to F G (m : flow A) :
  mine j -> onward (DowngradeJournal.phase j) = Some to ->
  Triple (at_ j G) m (fun _ => at_ j F) (at_ j anywhere) ->
  (forall t, F t -> ready to t /\ probe_home to t) ->
  Triple (at_ j G) (_ ← m; advance j to Patch.default) (went_on j) tracked.
Proof.
  intros Hm Hto H HF. eapply triple_bind; [eapply triple_err; [exact H|apply at_tracked]|].
  intros a. by apply (triple_go _ _ _ F).
Qed.

Lemma triple_step_claimed j :
  mine j -> DowngradeJournal.phase j = DowngradePhase.Claimed ->
  Triple (at_loop j) (step_ j w) (went_on j) tracked.
Proof.
  intros Hm Hp. unfold step, at_loop. rewrite Hp.
  change (probe_home DowngradePhase.Claimed) with (absent (Places.probe w)).
  assert (forall t l, at_ j (absent (Places.probe w)) t l -> tracked t l) as HP by apply at_tracked.
  eapply triple_bind; [eapply triple_err; [apply triple_make_place|exact HP]|];
    [apply dir_above|by rewrite Hp|solve_frame|].
  intros [].
  apply triple_after; [apply quiet_probe|exact HP|intros _].
  apply triple_after; [apply quiet_probe|exact HP|intros _].
  apply triple_after; [apply quiet_same_volume|exact HP|intros _].
  apply triple_after; [apply quiet_prove_idle|exact HP|intros _].
  eapply triple_bind; [eapply triple_err; [eapply triple_at|apply at_tracked]|];
    [by apply (triple_prove_unlocked j anywhere)|done|].
  intros []. eapply (triple_advance _ _ (ready DowngradePhase.OriginalMetadataMoved)); [done|by rewrite Hp| |].
  - eapply triple_post; [eapply triple_at;
        [apply (triple_move_path MoveRecord _ _ _ j (absent (Places.probe w)))|tauto]|].
    + by rewrite Hp.
    + by rewrite Hp.
    + done.
    + done.
    + solve_frame.
    + solve_frame.
    + solve_frame.
    + solve_frame.
    + intros _ t l (? & ? & ? & ?). by split_and!.
  - intros t Ht. split; [exact Ht|apply Ht].
Qed.

Lemma typed_digest sha : blen sha = 32 -> patch_typed (Patch.mk None (Some sha)) = true.
Proof. intros H. unfold patch_typed. cbn. by rewrite H. Qed.

Lemma at_loop_any j t l : at_loop j t l -> at_ j anywhere t l.
Proof. by intros [? _]. Qed.

Lemma triple_find_again {B} j F (k : DowngradeJournal.t -> flow B) Q :
  mine j -> Triple (at_ j F) (k j) Q tracked ->
  Triple (at_ j F) (find_journal (DowngradeJournal.journal_id j) ≫= k) Q tracked.
Proof.
  intros (Hid & _) Hk. rewrite Hid. eapply triple_bind; [eapply triple_err; [apply triple_query|apply at_tracked]|].
  intros again. apply (triple_pure _ _ (again = j)).
  - intros t l (Hf & (_ & Hin & _) & _). unfold downgrade_get in Hf. rewrite Hin in Hf.
    cbn in Hf. congruence.
  - intros ->. eapply triple_pre; [exact Hk|]. by intros t l [_ ?].
Qed.

Lemma triple_step j :
  mine j -> DowngradePhase.is_terminal (DowngradeJournal.phase j) = false ->
  Triple (at_loop j) (step_ j w) (went_on j) tracked.
Proof.
  intros Hm Hnt. pose proof Hm as (Hid & Ho & Hn & Hmode).
  destruct (DowngradeJournal.phase j) eqn:Hp; try done.
  all: try (unfold step; rewrite Hp; eapply triple_err; [apply triple_bail|apply at_tracked]).
  - unfold step. rewrite Hp, Ho. apply triple_after; [apply quiet_binding_facts|apply at_tracked|].
    intros _. unfold at_loop. rewrite Hp. eapply triple_go; [done|by rewrite Hp|done|]. by intros t Ht.
  - by apply triple_step_claimed.
  - unfold step. rewrite Hp. apply triple_after; [apply quiet_prove_idle|apply at_tracked|].
    intros _. unfold at_loop. rewrite Hp.
    eapply triple_advance; [done|by rewrite Hp|by apply triple_move_data|]. done.
  - unfold step. rewrite Hp. eapply triple_pre; [|apply at_loop_any].
    eapply triple_advance; [done|by rewrite Hp|by apply triple_prove_gone|]. done.
  - unfold step. rewrite Hp. eapply triple_pre; [|apply at_loop_any].
    eapply triple_advance; [done|by rewrite Hp|by apply triple_write_clone|]. done.
  - unfold step. rewrite Hp. eapply triple_pre; [|apply at_loop_any].
    apply triple_find_again; [done|].
    eapply triple_bind; [eapply triple_err; [by apply triple_read_back|apply at_tracked]|].
    intros sha. apply (triple_pure _ _ (sha = readback_digest sha256 j)); [by intros t l [? _]|].
    intros ->. apply (triple_pre _ (at_ j (ready DowngradePhase.ReadbackPassed))); [|by intros t l [_ ?]].
    eapply triple_go; [done|by rewrite Hp| |done]. apply typed_digest, sha256_length.
  - unfold step. rewrite Hp. eapply triple_pre; [|apply at_loop_any].
    eapply triple_go; [done|by rewrite Hp|done|]. done.
  - unfold step. rewrite Hp. eapply triple_pre; [|apply at_loop_any].
    eapply triple_post; [by apply triple_roll_back|]. intros next t l Hr.
    exists DowngradePhase.RolledBack. by rewrite Hp.
Qed.

Abbreviation drive_loop_ := (drive_loop from_slice to_vec_pretty value_of sha256 volume_serial
  leads_inside local_volume clock).
Abbreviation drive_ := (drive uuid_canonical from_slice to_vec_pretty value_of sha256 data_root
  volume_serial leads_inside local_volume clock).

(** What a run returns. *)
Definition finished (d : CloneDone.t) : assn := fun t l =>
  exists j, row l j /\ d = done_of j /\ DowngradePhase.is_terminal (DowngradeJournal.phase j) = true.

Lemma triple_give_up {A} e (Q : A -> assn) :
  Triple tracked
    (_ ← outcome (store_phase jid DowngradePhase.RollbackRequired Patch.default); bail e : flow A)
    Q tracked.
Proof.
  eapply triple_bind; [apply triple_outcome|intros r; apply (triple_err _ _ _ _ _ _ (triple_bail _ _ _ _))].
  - apply triple_exists. intros j. apply (triple_pure _ _ (mine j)); [by intros t l (_ & _ & ?)|].
    intros Hm. pose proof Hm as (Hid & _). rewrite <- Hid.
    eapply triple_post; [eapply triple_err; [eapply triple_pre|]|].
    + by apply (triple_enter j DowngradePhase.RollbackRequired Patch.default anywhere).
    + by intros t l Hr.
    + apply at_tracked.
    + intros next t l H. exact H.
  - intros t l. destruct r; [|done..]. intros [(? & _) _]. by eexists.
Qed.

Lemma triple_drive_loop fuel j :
  mine j -> DowngradePhase.is_terminal (DowngradeJournal.phase j) = false ->
  Triple (at_loop j) (drive_loop_ fuel j w) finished tracked.
Proof.
  revert j. induction fuel as [|fuel IH]; intros j Hm Hnt; cbn [drive_loop].
  - eapply triple_post; [eapply triple_err; [apply triple_of_result|apply at_tracked]|].
    by intros a t l [? _].
  - eapply triple_bind; [apply triple_outcome; by apply triple_step|]. intros [next|e|c]; cbv beta iota.
    + apply triple_exists. intros to.
      apply (triple_pure _ _ (mine next /\ DowngradeJournal.phase next = to)).
      { by intros t l (_ & ((_ & _ & ?) & ? & _) & _). }
      intros [Hm' Hp]. destruct (DowngradePhase.is_terminal (DowngradeJournal.phase next)) eqn:Ht.
      * eapply triple_post; [apply triple_ret|]. intros d t l (-> & _ & (? & _) & _). by exists next.
      * eapply triple_pre; [by apply IH|]. intros t l (_ & (? & _) & ?). split; [done|by rewrite Hp].
    + destruct (forces_rollback _ _); [|eapply triple_err; [apply triple_bail|done]].
      destruct Hm as (-> & _). apply triple_give_up.
    + eapply triple_post; [eapply triple_err; [apply triple_of_result|done]|]. by intros a t l [? _].
Qed.

(** The longest way to a terminal phase. *)
Definition steps_left (phase : DowngradePhase.t) : nat :=
  match phase with
  | DowngradePhase.Created => 7
  | DowngradePhase.Claimed => 6
  | DowngradePhase.OriginalMetadataMoved => 5
  | DowngradePhase.OriginalUserDataMoved => 4
  | DowngradePhase.DiscoveryScanPassed => 3
  | DowngradePhase.CloneWritten => 2
  | _ => 1
  end.

Lemma places_of j w' :
  mine j -> places uuid_canonical data_root j = Ok w' -> w' = w.
Proof.
  intros (Hid & Ho & Hn & _). unfold places. rewrite Hid, Ho, Hn.
  destruct (DowngradeJournal.original_metadata_archive_path j); [|done].
  destruct (DowngradeJournal.original_user_data_archive_path j); [|done].
  unfold valid_id. destruct (bool_decide (uuid_canonical original = _)); [|done].
  destruct (bool_decide (uuid_canonical new = _)); [|done].
  cbn [mbind result_bind]. destruct (valid_journal_id jid); cbn [negb]; [|done].
  destruct (_ || _); [done|]. congruence.
Qed.

Lemma triple_drive j :
  mine j -> Triple (at_ j anywhere) (drive_ j) finished tracked.
Proof.
  intros Hm. unfold drive. destruct (DowngradePhase.is_terminal (DowngradeJournal.phase j)) eqn:Ht.
  - assert (DowngradePhase.resume (DowngradeJournal.phase j) = Settled) as ->
      by by destruct (DowngradeJournal.phase j).
    eapply triple_post; [apply triple_ret|]. intros d t l (-> & ? & _). by exists j.
  - assert (Triple (at_ j anywhere)
      (w' ← of_result (places uuid_canonical data_root j); _ ← settle_probe w';
       drive_loop_ DRIVE_FUEL j w') finished tracked) as H.
    { eapply triple_bind; [eapply triple_err; [apply triple_of_result|apply at_tracked]|]. intros w'.
      apply (triple_pure _ _ (places uuid_canonical data_root j = Ok w')); [by intros t l [? _]|].
      intros ->%places_of; [|done]. apply (triple_pre _ (at_ j anywhere)); [|by intros t l [_ ?]].
      eapply triple_bind; [eapply triple_err; [apply triple_settle_probe|apply at_tracked]|].
      - by destruct (DowngradeJournal.phase j).
      - done.
      - intros []. eapply triple_pre; [by apply triple_drive_loop|].
        intros t l (? & _ & Ha). split; [done|]. by destruct (DowngradeJournal.phase j). }
    by destruct (DowngradeJournal.phase j).
Qed.

Lemma triple_claimed claims running j F :
  mine j ->
  Triple (at_ j F) (claimed claims running jid) (fun a t l => a = j /\ at_ j F t l) tracked.
Proof.
  intros Hm. pose proof Hm as (Hid & _ & _ & Hmode). unfold claimed. rewrite <- Hid.
  apply triple_find_again; [done|]. rewrite Hmode, bool_decide_eq_true_2 by done. cbn [negb].
  assert (Triple (at_ j F) (mret j : flow DowngradeJournal.t)
    (fun a t l => a = j /\ at_ j F t l) tracked) as Hret by apply triple_ret.
  assert (Triple (at_ j F)
    (_ ← claim claims running (DowngradeJournal.original_local_profile_id j)
           (DowngradeJournal.new_local_profile_id j);
     j' ← find_journal (DowngradeJournal.journal_id j);
     if negb (String.eqb (DowngradeJournal.original_local_profile_id j')
                (DowngradeJournal.original_local_profile_id j))
        || negb (bool_decide (DowngradeJournal.new_local_profile_id j'
                              = DowngradeJournal.new_local_profile_id j))
     then bail (Coded "journal.readbackMismatch") else mret j')
    (fun a t l => a = j /\ at_ j F t l) tracked) as Hrest.
  { apply triple_after; [apply quiet_claim|apply at_tracked|intros _].
    apply triple_find_again; [done|].
    by rewrite String.eqb_refl, bool_decide_eq_true_2 by done. }
  by destruct (DowngradePhase.resume (DowngradeJournal.phase j)).
Qed.

Lemma triple_run_clone migrating claims running :
  Triple tracked
    (run_clone uuid_canonical from_slice to_vec_pretty value_of sha256 data_root volume_serial
       leads_inside local_volume clock migrating claims running jid) finished tracked.
Proof.
  unfold run_clone, refuse_while_migrating.
  apply triple_after; [apply quiet_bail_if|done|intros _]. apply triple_exists. intros j.
  apply (triple_pure _ _ (mine j)); [by intros t l (_ & _ & ?)|]. intros Hm.
  apply (triple_pre _ (at_ j anywhere)); [|by intros t l ?]. eapply triple_bind;
    [by apply triple_claimed|]. intros a.
  apply (triple_pure _ _ (a = j)); [by intros t l [? _]|]. intros ->.
  eapply triple_pre; [by apply triple_drive|]. by intros t l [_ ?].
Qed.

Lemma triple_roll_back_clone migrating claims running :
  Triple tracked
    (roll_back_clone uuid_canonical from_slice data_root migrating claims running jid)
    (fun d t l => finished d t l /\ CloneDone.phase d = DowngradePhase.RolledBack
       /\ ready DowngradePhase.RolledBack t) tracked.
Proof.
  unfold roll_back_clone, refuse_while_migrating.
  apply triple_after; [apply quiet_bail_if|done|intros _]. apply triple_exists. intros j.
  apply (triple_pure _ _ (mine j)); [by intros t l (_ & _ & ?)|]. intros Hm.
  apply (triple_pre _ (at_ j anywhere)); [|by intros t l ?]. eapply triple_bind;
    [by apply triple_claimed|]. intros a.
  apply (triple_pure _ _ (a = j)); [by intros t l [? _]|]. intros ->.
  apply (triple_pre _ (at_ j anywhere)); [|by intros t l [_ ?]].
  case_bool_decide; [eapply triple_err; [apply triple_bail|apply at_tracked]|].
  eapply triple_bind; [eapply triple_err; [apply triple_of_result|apply at_tracked]|]. intros w'.
  apply (triple_pure _ _ (places uuid_canonical data_root j = Ok w')); [by intros t l [? _]|].
  intros ->%places_of; [|done]. apply (triple_pre _ (at_ j anywhere)); [|by intros t l [_ ?]].
  eapply triple_bind; [by apply triple_roll_back|]. intros next.
  eapply triple_post; [apply triple_ret|]. intros d t l (-> & Hr & Hp & Hready).
  split_and!; [|done|done]. exists next. by rewrite Hp.
Qed.

End steps.
