(* ===== verification/DowngradeTotal.v ===== *)
(** * The clone flow always returns

    [returns m]: [m] neither panics nor runs out of fuel, and gives an outcome unless the
    process is made to die. One rule per primitive, then the programs of [Downgrade]; the
    loop of [drive] needs the phases its steps reach ([DowngradeSteps]). *)

From S2P Require Import Prelude Bytes RecordFields Journal JournalFacts JournalTheorems.
From S2P Require Import Disk DiskFacts DiskLogic Downgrade DowngradeSteps.

Definition lives (l : list Fate) : Prop :=
  Forall (fun f => match f with Dies _ => False | _ => True end) l.

Lemma lives_tl l : lives l -> lives (List.tl l).
Proof. destruct l; [done|]. by intros H%Forall_inv_tail. Qed.

Section returns.
Context {L E : Type}.
Implicit Types w : World L.

Definition returns_at {A} (m : Prog L E A) w : Prop :=
  match m w with
  | (Some r, w') => safe r /\ (lives (fates w) -> lives (fates w'))
  | (None, _) => ~ lives (fates w)
  end.

Definition returns {A} (m : Prog L E A) : Prop := forall w, returns_at m w.

Lemma returns_ret {A} (a : A) : returns (mret a).
Proof. by intros w; split. Qed.

Lemma returns_bail {A} e : returns (bail e : Prog L E A).
Proof. by intros w; split. Qed.

Lemma returns_bail_if c e : returns (bail_if c e).
Proof. destruct c; [apply returns_bail|apply returns_ret]. Qed.

Lemma returns_of_result {A} (r : result (FlowError E) A) : safe r -> returns (of_result r).
Proof. by intros H w; split. Qed.

Lemma returns_look {A} (f : tree -> A) : returns (look f).
Proof. by intros w; split. Qed.

Lemma returns_bind_at {A B} (m : Prog L E A) (k : A -> Prog L E B) w :
  returns_at m w -> (forall a w', m w = (Some (Ok a), w') -> returns_at (k a) w') ->
  returns_at (m ≫= k) w.
Proof.
  unfold returns_at. intros Hm Hk. unfold mbind, prog_bind.
  destruct (m w) as [[[a|e|c]|] w'].
  - specialize (Hk a w' eq_refl). destruct (k a w') as [[r|] w'']; naive_solver.
  - destruct Hm as [_ Hf]. by split.
  - destruct Hm as [Hs _]. by destruct (Hs c).
  - done.
Qed.

Lemma returns_bind {A B} (m : Prog L E A) (k : A -> Prog L E B) :
  returns m -> (forall a, returns (k a)) -> returns (m ≫= k).
Proof. intros Hm Hk w. apply returns_bind_at; [apply Hm|]. intros a w' _. apply Hk. Qed.

(** The outcome of a call is never a crash. *)
Lemma returns_outcome {A B} (m : Prog L E A) (k : result (FlowError E) A -> Prog L E B) w :
  returns m ->
  (forall r w', m w = (Some r, w') -> safe r -> returns_at (k r) w') -> returns_at (outcome m ≫= k) w.
Proof.
  intros Hm Hk. specialize (Hm w). unfold returns_at, mbind, prog_bind, outcome in *.
  destruct (m w) as [[r|] w']; [|done]. destruct Hm as [Hr Hf].
  specialize (Hk r w' eq_refl Hr). destruct (k r w') as [[r'|] w'']; naive_solver.
Qed.

Lemma returns_call {A} (works : World L -> result (FlowError E) A * World L) :
  (forall w, safe (works w).1 /\ fates (works w).2 = fates w) -> returns (call works).
Proof.
  intros Hw w. unfold returns_at, call. set (w1 := mk_world _ _ _ _).
  destruct (Hw w1) as [Hs Hf]. assert (fates w1 = List.tl (fates w)) as H1 by done.
  destruct (fates w) as [|[| |lost] fs]; cbn [List.hd].
  - destruct (works w1) as [r w2]. cbn [fst snd] in *. rewrite Hf, H1. split; [done|apply lives_tl].
  - destruct (works w1) as [r w2]. cbn [fst snd] in *. rewrite Hf, H1. split; [done|apply lives_tl].
  - split; [done|]. rewrite H1. apply lives_tl.
  - intros Hd. by apply Forall_inv in Hd.
Qed.

Lemma returns_ask {A} (f : tree -> result (FlowError E) A) : (forall t, safe (f t)) -> returns (ask f).
Proof. intros H. apply returns_call. intros w. split; [apply H|done]. Qed.

Lemma returns_probe e ok : returns (probe e ok).
Proof. apply returns_call. intros w. by destruct ok. Qed.

Lemma returns_query {A} (f : L -> result (FlowError E) A) : (forall l, safe (f l)) -> returns (query f).
Proof. intros H. apply returns_call. intros w. split; [apply H|done]. Qed.

Lemma returns_change dirs f : (forall t, safe (f t)) -> returns (change dirs f).
Proof.
  intros H. apply returns_call. intros w. specialize (H (disk w)).
  destruct (f (disk w)) as [t|e|c]; split; try done. by destruct (H c).
Qed.

Lemma returns_sync_all p : returns (sync_all p).
Proof. apply returns_call. intros w. by split. Qed.

Lemma returns_sync p : returns (sync_parent p).
Proof. apply returns_sync_all. Qed.

Lemma returns_commit {A J} (wrap : J -> E) (m : L -> result J A * L) :
  (forall l, safe (m l).1) -> returns (commit wrap m).
Proof.
  intros H. apply returns_call. intros w. specialize (H (ledger w)).
  destruct (m (ledger w)) as [[a|e|c] l]; split; try done. by destruct (H c).
Qed.

Lemma returns_for_each {X} (body : X -> Prog L E unit) l :
  (forall x, returns (body x)) -> returns (for_each body l).
Proof.
  intros H. induction l as [|x l IH]; [apply returns_ret|]. by apply returns_bind.
Qed.

End returns.

Create HintDb returns.
#[export] Hint Resolve returns_ret returns_bail returns_bail_if returns_of_result returns_look
  returns_ask returns_probe returns_query returns_change returns_sync returns_sync_all
  returns_commit returns_for_each : returns.

(** ** The calls on a tree *)

Lemma from_option_safe {E A} (o : option A) : safe (from_option o : result (FlowError E) A).
Proof. by destruct o. Qed.

Create HintDb calm.
#[export] Hint Resolve from_option_safe ok_or_safe map_err_safe : calm.
#[export] Hint Extern 5 (safe (Ok _)) => by intros ? : calm.
#[export] Hint Extern 5 (safe (Err _)) => by intros ? : calm.

(** Follows a computation to its outcomes. *)
Ltac calm :=
  repeat first
    [ solve [eauto with calm]
    | apply safe_bind; [|intros ? ?]
    | apply safe_fmap
    | match goal with |- context [match ?x with _ => _ end] => destruct x eqn:? end ].

Section calls.
Context {E : Type}.

Lemma rename_new_safe src dst t : safe (rename_new src dst t : result (FlowError E) tree).
Proof. unfold rename_new, rename. calm. Qed.

Lemma create_dir_safe p t : safe (create_dir p t : result (FlowError E) tree).
Proof. unfold create_dir. calm. Qed.

Lemma remove_dir_safe p t : safe (remove_dir p t : result (FlowError E) tree).
Proof. unfold remove_dir. calm. Qed.

Lemma remove_file_safe p t : safe (remove_file p t : result (FlowError E) tree).
Proof. unfold remove_file. calm. Qed.

Lemma replace_file_safe src dst t : safe (replace_file src dst t : result (FlowError E) tree).
Proof. unfold replace_file, rename. calm. Qed.

Lemma put_safe p body t : safe (put p body t : result (FlowError E) tree).
Proof. unfold put. calm. Qed.

Lemma read_dir_safe p t : safe (read_dir p t : result (FlowError E) (list (string * tree))).
Proof. unfold read_dir. calm. Qed.

Lemma read_file_safe p t : safe (read_file p t : result (FlowError E) bytes).
Proof. unfold read_file. calm. Qed.

End calls.
#[export] Hint Resolve rename_new_safe create_dir_safe remove_dir_safe remove_file_safe
  replace_file_safe put_safe read_dir_safe read_file_safe : calm.

Lemma read_to_string_safe {E} p t : safe (read_to_string p t : result (FlowError E) bytes).
Proof. unfold read_to_string. calm. Qed.
#[export] Hint Resolve read_to_string_safe : calm.

Lemma entries_safe p t : safe (entries p t).
Proof. unfold entries. calm. Qed.

Lemma walk_safe t prefix skip out : safe (walk prefix skip t out).
Proof.
  revert prefix skip out. induction t as [b|o|es IH] using tree_induction; intros prefix skip out;
    [done..|].
  cbn [walk]. revert out. induction es as [|[name t] es IHes]; intros out; [done|].
  apply Forall_cons in IH as [IH1 IH]. specialize (IHes IH).
  destruct (skip && _); [apply IHes|]. destruct t as [b|o|es']; [apply IHes|done|].
  apply safe_bind; [apply IH1|intros out' _; apply IHes].
Qed.

Lemma listing_safe root skip t : safe (listing root skip t).
Proof. unfold listing. pose proof walk_safe. calm. Qed.

#[export] Hint Resolve entries_safe listing_safe : calm.

(** ** The journal *)

Lemma downgrade_row_safe r : safe (downgrade_row r).
Proof.
  unfold downgrade_row. apply safe_bind; [unfold Mode.parse; calm|intros mode _].
  apply safe_bind; [unfold DowngradePhase.parse; calm|intros phase _].
  unfold digest. calm.
Qed.

Lemma downgrade_in_safe db id : safe (downgrade_in db id).
Proof.
  unfold downgrade_in, query_row. destruct (List.find _ _); [|done].
  apply safe_fmap, downgrade_row_safe.
Qed.

Lemma lift_safe' {S E A} (m : result E A) (s : S) : safe m -> safe (lift m s).
Proof. intros H c. unfold lift. destruct m as [a|e|c']; [done..|]. by destruct (H c'). Qed.

Lemma stored_downgrade_safe id absent db : safe (stored_downgrade id absent db).
Proof.
  unfold stored_downgrade. apply safe_sm_bind; [done|intros db' s _].
  apply safe_sm_bind; [apply lift_safe', downgrade_in_safe|intros found s' _].
  apply lift_safe', ok_or_safe.
Qed.

Lemma fail_if_safe {S E} c (e : E) (s : S) : safe (fail_if c e s).
Proof. by destruct c. Qed.

Lemma downgrade_advance_safe id to patch db : safe (downgrade_advance id to patch db).
Proof.
  unfold downgrade_advance. apply safe_sm_bind; [apply stored_downgrade_safe|intros current s _].
  apply safe_sm_bind; [apply fail_if_safe|intros _ s1 _].
  apply safe_sm_bind; [apply fail_if_safe|intros _ s2 _].
  apply safe_sm_bind; [done|intros db' s3 _].
  apply safe_sm_bind; [apply lift_safe', try_map_safe; intros r; calm|intros rows s4 _].
  apply safe_sm_bind; [done|intros _ s5 _].
  apply safe_sm_bind; [apply stored_downgrade_safe|intros stored s6 _].
  apply safe_sm_bind; [apply fail_if_safe|done].
Qed.

Lemma transact_safe {A} (m : txn A) db : safe (m db) -> safe (transact m db).1.
Proof.
  intros H c. unfold transact. destruct (m db) as [[a db']|e|c']; [done..|]. by destruct (H c').
Qed.

(** ** The programs *)

Lemma returns_outcome_dropped {L E A} (m : Prog L E A) : returns m -> returns (outcome m).
Proof. intros H w. specialize (H w). unfold returns_at, outcome in *. destruct (m w) as [[r|] w']; [|done]. by destruct H; split. Qed.

Lemma returns_with_context {A} key (m : flow A) : returns m -> returns (with_context key m).
Proof.
  intros H w. specialize (H w). unfold returns_at, with_context in *.
  destruct (m w) as [[r|] w']; [|done]. destruct H. split; [by apply map_err_safe|done].
Qed.

Lemma returns_refused_as {A} key (m : flow A) : returns m -> returns (refused_as key m).
Proof.
  intros H w. specialize (H w). unfold returns_at, refused_as in *.
  destruct (m w) as [[r|] w']; [|done]. destruct H. split; [by apply map_err_safe|done].
Qed.

Lemma returns_store id to patch : returns (store_phase id to patch).
Proof.
  unfold store_phase, journal_commit. apply returns_commit. intros l.
  pose proof (transact_safe _ (journals l) (downgrade_advance_safe id to patch (journals l))) as H.
  by destruct (transact _ _) as [r db].
Qed.

Lemma returns_find id : returns (find_journal id).
Proof.
  unfold find_journal. apply returns_query. intros l.
  apply safe_bind; [|intros found _; apply ok_or_safe]. apply map_err_safe, downgrade_in_safe.
Qed.
#[export] Hint Resolve returns_outcome_dropped returns_with_context returns_refused_as returns_store
  returns_find : returns.

Ltac ret :=
  repeat first
    [ solve [eauto with returns calm]
    | apply returns_bind; [|intros ?]
    | apply returns_for_each; intros ?
    | apply returns_ask; intros ?; calm
    | apply returns_query; intros ?; calm
    | apply returns_of_result; calm
    | match goal with |- context [match ?x with _ => _ end] => destruct x eqn:? end ].

Section several.
Context {L E : Type}.

Lemma returns_create_dir_all p : returns (create_dir_all p : Prog L E unit).
Proof.
  assert (forall q, returns (ensure_dir q : Prog L E unit)) by (intros q; unfold ensure_dir; ret).
  unfold create_dir_all. ret.
Qed.

Lemma returns_create_file p : returns (create_file p : Prog L E unit).
Proof. apply returns_change. intros t. apply put_safe. Qed.

Lemma returns_write_all p body : returns (write_all p body : Prog L E unit).
Proof.
  apply returns_for_each. intros b. apply returns_change. intros t.
  apply safe_bind; [apply read_file_safe|intros old _; apply put_safe].
Qed.

Lemma returns_remove_tree t p : returns (remove_tree_at p t : Prog L E unit).
Proof.
  revert p. induction t as [b|o|es IH] using tree_induction; intros p; cbn [remove_tree_at];
    [apply returns_change; intros t; apply remove_file_safe..|].
  apply returns_bind; [apply returns_ask; intros t; apply read_dir_safe|intros _].
  apply returns_bind; [|intros _; apply returns_change; intros t; apply remove_dir_safe].
  induction es as [|[name t] es IHes]; [apply returns_ret|].
  apply Forall_cons in IH as [IH1 IH]. specialize (IHes IH).
  apply returns_bind; [apply returns_look|intros there].
  apply returns_bind; [destruct there; [apply IH1|apply returns_ret]|intros _; exact IHes].
Qed.

Lemma returns_remove_dir_all p : returns (remove_dir_all p : Prog L E unit).
Proof.
  apply returns_bind; [apply returns_look|intros [[b|o|es]|]];
    first [apply returns_bail|apply returns_remove_tree].
Qed.

(** The outcome of a call that returns is kept, then used. *)
Lemma returns_outcome_bind {A B} (m : Prog L E A) (k : result (FlowError E) A -> Prog L E B) :
  returns m -> (forall r, safe r -> returns (k r)) -> returns (outcome m ≫= k).
Proof. intros Hm Hk w. apply returns_outcome; [done|]. intros r w' _ Hr. by apply Hk. Qed.

End several.
#[export] Hint Resolve returns_create_dir_all returns_create_file returns_write_all
  returns_remove_dir_all : returns.

Lemma returns_write_private {L E} p body : returns (write_private p body : Prog L E unit).
Proof.
  apply returns_outcome_bind; [ret|]. intros [a|e|c] Hr; [apply returns_ret| |by destruct (Hr c)].
  apply returns_bind; [|intros _; apply returns_bail]. apply returns_outcome_dropped. ret.
Qed.

Lemma returns_copy_dir t top src dst : returns (copy_dir top t src dst).
Proof.
  revert top src dst. induction t as [b|o|es IH] using tree_induction; intros top src dst;
    cbn [copy_dir]; [apply returns_bail..|].
  apply returns_bind; [apply returns_create_dir_all|intros _].
  apply returns_bind; [apply returns_ask; intros t; apply read_dir_safe|intros _].
  induction es as [|[name t] es IHes]; [apply returns_ret|].
  apply Forall_cons in IH as [IH1 IH]. specialize (IHes IH).
  destruct (top && _); [exact IHes|].
  apply returns_bind; [|intros _; exact IHes]. cbn [snd] in IH1.
  destruct t as [b|o|es']; [|apply returns_bail|apply IH1]. unfold copy_file. ret.
Qed.

Lemma returns_copy_tree src dst : returns (copy_tree src dst).
Proof. unfold copy_tree. pose proof returns_copy_dir. ret. Qed.
#[export] Hint Resolve returns_write_private returns_copy_tree : returns.

Lemma returns_make_dir d : returns (make_dir d).
Proof. unfold make_dir. ret. Qed.

Lemma returns_move_new src dst : returns (move_new src dst).
Proof. unfold move_new, move_new_raw. ret. Qed.
#[export] Hint Resolve returns_make_dir returns_move_new : returns.

Lemma returns_move_path src dst missing : returns (move_path src dst missing).
Proof. unfold move_path, exists_. ret. Qed.

Lemma returns_settle_probe w : returns (settle_probe w).
Proof. unfold settle_probe, exists_. ret. Qed.

Lemma returns_retry_home n w back : safe back -> returns (retry_home n w back).
Proof.
  revert back. induction n as [|n IH]; intros back Hb; cbn [retry_home]; [by apply returns_of_result|].
  destruct (is_ok back); [by apply returns_of_result|].
  intros w0. apply returns_outcome; [apply returns_settle_probe|].
  intros r w1 _ Hr. by apply IH.
Qed.
#[export] Hint Resolve returns_move_path returns_settle_probe : returns.

Lemma returns_prove_unlocked w : returns (prove_unlocked w).
Proof.
  unfold prove_unlocked, exists_. apply returns_bind; [apply returns_look|intros there].
  destruct (negb there); [apply returns_ret|].
  apply returns_bind; [apply returns_look|intros away]. destruct away; [apply returns_bail|].
  apply returns_bind; [unfold move_new_raw; ret|intros _]. intros w0.
  apply returns_outcome; [apply returns_move_new|]. intros r w1 _ Hr. by apply returns_retry_home.
Qed.

Lemma returns_move_data w : returns (move_data w).
Proof. unfold move_data, exists_. ret. Qed.

Lemma returns_prove_idle data : returns (prove_idle data).
Proof. unfold prove_idle, exists_. ret. Qed.

Lemma returns_one_volume l : returns (one_volume l : flow unit).
Proof.
  induction l as [|a [|b l] IH]; [apply returns_ret..|]. cbn [one_volume].
  destruct (a =? b); [exact IH|apply returns_bail].
Qed.
#[export] Hint Resolve returns_prove_unlocked returns_move_data returns_prove_idle
  returns_one_volume : returns.

Lemma returns_same_volume serial data archive : returns (same_volume serial data archive).
Proof. unfold same_volume, exists_. ret. Qed.

Lemma returns_binding_facts local : returns (binding_facts local).
Proof. unfold binding_facts. ret. Qed.

Lemma returns_claim claims running original new : returns (claim claims running original new).
Proof. unfold claim, begin_user_mutation, begin_claim. ret. Qed.
#[export] Hint Resolve returns_same_volume returns_binding_facts returns_claim : returns.

Lemma returns_claimed claims running id : returns (claimed claims running id).
Proof. unfold claimed. ret. Qed.

Lemma returns_retire src dst : returns (retire src dst).
Proof. unfold retire, exists_. ret. Qed.

Lemma returns_restore src dst : returns (restore src dst).
Proof. unfold restore, exists_. ret. Qed.

Lemma returns_discard_staging w : returns (discard_staging w).
Proof. unfold discard_staging, exists_. ret. Qed.
#[export] Hint Resolve returns_claimed returns_retire returns_restore returns_discard_staging : returns.

Section total.
Context (uuid_canonical : string -> option string).
Context (from_slice : bytes -> option StoredProfile.t).
Context (to_vec_pretty : StoredProfile.t -> option bytes).
Context (value_of : bytes -> option json).
Context (sha256 : bytes -> bytes) (sha256_length : forall x, blen (sha256 x) = 32).
Context (data_root : string) (volume_serial : path -> Z) (leads_inside : path -> bool)
  (local_volume : path -> bool) (clock : string).

Lemma scan_safe t : safe (scan from_slice t).
Proof.
  unfold scan. apply safe_bind; [apply entries_safe|intros names _].
  apply safe_bind; [|intros found _; calm]. generalize Discovery.default.
  induction names as [|name names IH]; intros found; [done|]. cbn [scan_records].
  apply safe_bind; [|intros found' _; apply IH]. unfold scan_record. calm.
Qed.

Lemma list_all_safe t : safe (list_all from_slice t).
Proof.
  unfold list_all. apply safe_bind; [apply from_option_safe|intros d _].
  apply safe_bind; [apply from_option_safe|intros es _]. generalize (List.map fst es) as names.
  induction names as [|name names IH]; [done|]. cbn [listed_ids]. calm.
Qed.

Lemma places_safe j : safe (places uuid_canonical data_root j).
Proof. unfold places, valid_id. calm. Qed.

Lemma require_clean_safe body forbidden : safe (require_clean from_slice value_of body forbidden).
Proof. unfold require_clean. calm. Qed.
Hint Resolve scan_safe list_all_safe places_safe require_clean_safe : calm.

Lemma clone_record_safe original new forbidden :
  safe (clone_record from_slice to_vec_pretty value_of clock original new forbidden).
Proof. unfold clone_record. calm. Qed.
Hint Resolve clone_record_safe : calm.

Lemma returns_write_clone j w : returns (write_clone from_slice to_vec_pretty value_of clock j w).
Proof.
  unfold write_clone, write_clone_data, write_clone_record, exists_. ret.
Qed.

Lemma returns_read_back j w : returns (read_back from_slice value_of sha256 j w).
Proof. unfold read_back, discover, exists_. ret. Qed.

Lemma returns_roll_back j w : returns (roll_back from_slice j w).
Proof. unfold roll_back, check_restorable, exists_. ret. Qed.
Hint Resolve returns_write_clone returns_read_back returns_roll_back : returns.

Lemma returns_step j w :
  returns (step from_slice to_vec_pretty value_of sha256 volume_serial leads_inside local_volume
             clock j w).
Proof.
  unfold step, advance, require_local_ntfs, outside_discovery, prove_gone, discover, exists_. ret.
Qed.

Context (original new jid : string) (distinct : original <> new).

Abbreviation w := (Places.of_ids original new jid).
Abbreviation drive_loop_ := (drive_loop from_slice to_vec_pretty value_of sha256 volume_serial
  leads_inside local_volume clock).

Ltac ret_at := match goal with |- returns_at ?m _ => assert (returns m) as Hret; [ret|apply Hret] end.

Lemma drive_loop_returns n j w0 :
  mine original new jid j -> DowngradePhase.is_terminal (DowngradeJournal.phase j) = false ->
  at_loop original new jid j (disk w0) (ledger w0) ->
  (steps_left (DowngradeJournal.phase j) <= n)%nat ->
  returns_at (drive_loop_ n j w) w0.
Proof.
  revert j w0. induction n as [|n IH]; intros j w0 Hm Hnt Hw Hn.
  { destruct (DowngradeJournal.phase j); cbn in Hn; lia. }
  cbn [drive_loop]. apply returns_outcome; [apply returns_step|]. intros r w1 Hr Hsafe.
  destruct r as [next|e|c]; [|ret_at|by destruct (Hsafe c)].
  destruct (triple_step uuid_canonical from_slice to_vec_pretty value_of sha256 sha256_length
    data_root volume_serial leads_inside local_volume clock original new jid distinct j Hm Hnt w0 Hw) as [_ He].
  rewrite Hr in He. destruct He as (to & Hto & ((Hl & Hin & Hm') & Hp & _) & Hh).
  destruct (DowngradePhase.is_terminal (DowngradeJournal.phase next)) eqn:Ht; [apply returns_ret|].
  apply IH; [done|done|split; [by split_and!|by rewrite Hp]|]. rewrite Hp in *. clear Hp.
  destruct (DowngradeJournal.phase j); cbn in Hto, Hn; simplify_eq; cbn in *; (done || lia).
Qed.

Lemma drive_returns j w0 :
  mine original new jid j -> row original new jid (ledger w0) j ->
  returns_at (drive uuid_canonical from_slice to_vec_pretty value_of sha256 data_root volume_serial
    leads_inside local_volume clock j) w0.
Proof.
  intros Hm Hr. unfold drive.
  destruct (DowngradePhase.is_terminal (DowngradeJournal.phase j)) eqn:Ht.
  - assert (DowngradePhase.resume (DowngradeJournal.phase j) = Settled) as ->
      by by destruct (DowngradeJournal.phase j). apply returns_ret.
  - assert (returns_at (w' ← of_result (places uuid_canonical data_root j); _ ← settle_probe w';
       drive_loop_ DRIVE_FUEL j w') w0) as H; [|by destruct (DowngradeJournal.phase j)].
    apply returns_bind_at; [apply returns_of_result, places_safe|]. intros w' w1 Hp.
    unfold of_result in Hp. injection Hp as Hp <-. rewrite (places_of _ _ original new jid _ _ Hm Hp).
    apply returns_bind_at; [apply returns_settle_probe|]. intros [] w1 Hs.
    destruct (triple_settle_probe from_slice to_vec_pretty value_of original new jid j
      (fun _ => True)) with (w := w0) as [_ He]; [by destruct (DowngradeJournal.phase j)|done|done|].
    rewrite Hs in He. destruct He as (Hr' & _ & Ha).
    apply drive_loop_returns; [done|done| |by destruct (DowngradeJournal.phase j); cbn; lia].
    split; [done|]. by destruct (DowngradeJournal.phase j).
Qed.

Lemma returned {A} (m : flow A) w0 :
  returns_at m w0 -> lives (fates w0) -> exists r w1, m w0 = (Some r, w1) /\ safe r.
Proof. unfold returns_at. destruct (m w0) as [[r|] w1]; [|done]. intros [? _]. by exists r, w1. Qed.

Lemma run_clone_returns migrating claims running w0 :
  tracked original new jid (disk w0) (ledger w0) ->
  returns_at
    (run_clone uuid_canonical from_slice to_vec_pretty value_of sha256 data_root volume_serial
       leads_inside local_volume clock migrating claims running jid) w0.
Proof.
  intros [j Hj]. pose proof Hj as (_ & _ & Hm). unfold run_clone, refuse_while_migrating.
  apply returns_bind_at; [apply returns_bail_if|]. intros [] w1 Hb.
  assert (w1 = w0) as -> by (destruct migrating; by injection Hb).
  apply returns_bind_at; [apply returns_claimed|]. intros a w1 Hc.
  destruct (triple_claimed from_slice to_vec_pretty value_of original new jid claims running j
    (fun _ => True) Hm w0) as [_ He]; [by split|].
  rewrite Hc in He. destruct He as (-> & Hr & _). by apply drive_returns.
Qed.

Lemma roll_back_clone_returns migrating claims running w0 :
  returns_at
    (roll_back_clone uuid_canonical from_slice data_root migrating claims running jid) w0.
Proof. unfold roll_back_clone, refuse_while_migrating. pose proof places_safe. ret_at. Qed.

End total.
