(* ===== verification/DowngradeTheorems.v ===== *)
(** * What the clone flow keeps

    Invariants of the steps of [DowngradeSteps], carried to the programs: over any history of
    runs, with calls that fail, processes that die and power cuts, and, where no power
    is cut, phase by phase. *)

From S2P Require Import Prelude Bytes RecordFields Journal JournalFacts JournalTheorems.
From S2P Require Import Disk DiskFacts DiskLogic Downgrade DowngradeSteps DowngradeTotal.

(** ** One object in one of some places *)

(** [r] is at one of [ps], and nothing is at the others. *)
Definition sole (ps : list path) (r : tree) (t : tree) : Prop :=
  exists p, p ∈ ps /\ lookup p t = Some r /\ forall q, q ∈ ps -> q <> p -> lookup q t = None.

Definition vacant (ps : list path) (t : tree) : Prop := forall q, q ∈ ps -> lookup q t = None.

(** [r] is at one of [ps]. *)
Definition stays (ps : list path) (r : tree) (t : tree) : Prop :=
  exists p, p ∈ ps /\ lookup p t = Some r.

Lemma sole_off U ps r t t' : keeps U t t' -> (forall q, q ∈ ps -> U q) -> sole ps r t -> sole ps r t'.
Proof.
  intros K HU (p & Hp & Hl & Ho). exists p. split; [done|]. rewrite K by auto. split; [done|].
  intros q Hq Hne. rewrite K by auto. auto.
Qed.

Lemma vacant_off U ps t t' : keeps U t t' -> (forall q, q ∈ ps -> U q) -> vacant ps t -> vacant ps t'.
Proof. intros K HU Hv q Hq. rewrite K by auto. auto. Qed.

Lemma stays_off U ps r t t' : keeps U t t' -> (forall q, q ∈ ps -> U q) -> stays ps r t -> stays ps r t'.
Proof. intros K HU (p & Hp & Hl). exists p. split; [done|]. rewrite K by auto. done. Qed.

Section places.
Context (src dst : path) (ps : list path) (t t' s : tree) (Hr : renamed src dst t t' s)
  (Hsrc : src ∈ ps) (Hdst : dst ∈ ps)
  (Hps : forall q, q ∈ ps -> q <> src -> q <> dst -> apart src q /\ apart dst q).

Lemma sole_moved r : sole ps r t -> sole ps r t'.
Proof.
  intros (p & Hp & Hl & Ho). pose proof (rn_src _ _ _ _ _ Hr) as Hs.
  destruct (decide (src = p)) as [<-|Hne]; [|by rewrite Ho in Hs].
  exists dst. split; [done|]. split; [rewrite (rn_there _ _ _ _ _ Hr); congruence|].
  intros q Hq Hqd. destruct (decide (q = src)) as [->|Hqs]; [by eapply rn_gone|].
  destruct (Hps q) as [? ?]; [done..|]. rewrite (rn_other _ _ _ _ _ Hr) by done. auto.
Qed.

Lemma stays_moved r : stays ps r t -> stays ps r t'.
Proof.
  intros (p & Hp & Hl). destruct (decide (p = src)) as [->|Hs].
  - exists dst. split; [done|]. rewrite (rn_there _ _ _ _ _ Hr). by rewrite (rn_src _ _ _ _ _ Hr) in Hl.
  - exists p. split; [done|]. destruct (decide (p = dst)) as [->|Hd].
    + by rewrite (rn_dst _ _ _ _ _ Hr) in Hl.
    + destruct (Hps p) as [? ?]; [done..|]. by rewrite (rn_other _ _ _ _ _ Hr).
Qed.

Lemma vacant_unmoved : vacant ps t -> False.
Proof. intros Hv. pose proof (rn_src _ _ _ _ _ Hr) as Hs. by rewrite Hv in Hs. Qed.

End places.

Lemma moved_renamed src dst t t' : moved src dst t t' -> exists s, renamed src dst t t' s.
Proof. apply rename_new_ok. Qed.

Ltac each tac := refine (proj1 (Forall_forall _ _) _); repeat (apply List.Forall_cons; [tac|]); apply List.Forall_nil.
Ltac place_or_off := intros ? ?; first [congruence | split; solve_apart].
Ltac listed := repeat constructor.

Section flow.
Context (from_slice : bytes -> option StoredProfile.t).
Context (to_vec_pretty : StoredProfile.t -> option bytes).
Context (value_of : bytes -> option json).
Context (original new jid : string) (distinct : original <> new).

Abbreviation w := (Places.of_ids original new jid).
Abbreviation clone_tmp := (tmp_of (Places.clone_metadata w)).
Abbreviation Change := (change_of from_slice to_vec_pretty original new jid).
Abbreviation Steps := (Step from_slice to_vec_pretty value_of original new jid).

(** ** The disk, whatever the journal says *)

Definition record_places : list path := [Places.metadata_src w; Places.metadata_dst w].
Definition data_places : list path := [Places.data_src w; Places.probe w; Places.data_dst w].
Definition clone_record_places : list path := [Places.clone_metadata w; Places.retired_metadata w].
Definition clone_data_places : list path := [Places.clone_data w; Places.retired_data w].

(** What a change of kind [k] leaves alone. *)
Definition spared (k : kind) (q : path) : Prop :=
  match k with
  | MakeDir _ => off_dir (parent (Places.retired_metadata w)) q
  | TryMove => off_move (Places.data_src w) (Places.probe w) q
  | TakeHome => off_move (Places.probe w) (Places.data_src w) q
  | MoveRecord => off_move (Places.metadata_src w) (Places.metadata_dst w) q
  | MoveData => off_move (Places.data_src w) (Places.data_dst w) q
  | MakeData => off_dir (Places.data_dst w) q
  | Scratch _ _ => apart (Places.clone_staging w) q
  | PlaceClone => off_move (Places.clone_staging w) (Places.clone_data w) q
  | WriteTmp _ => apart clone_tmp q
  | WriteRecord _ => off_move clone_tmp (Places.clone_metadata w) q
  | RetireRecord => off_move (Places.clone_metadata w) (Places.retired_metadata w) q
  | RetireData => off_move (Places.clone_data w) (Places.retired_data w) q
  | RestoreData => off_move (Places.data_dst w) (Places.data_src w) q
  | RestoreRecord => off_move (Places.metadata_dst w) (Places.metadata_src w) q
  | Clean => off_dir (Places.dir w) q
  end.

Lemma change_spares k t t' : Change k t t' -> keeps (spared k) t t'.
Proof.
  destruct k; cbn [change_of spared]; intros H;
    try (by destruct (moved_renamed _ _ _ _ H) as [s Hs]; eapply keeps_renamed);
    try (by eapply keeps_alter).
  - destruct H as [Hp H%keeps_create]. intros q Hq. apply H. intros Ha. apply Hq.
    by eapply above_trans.
  - destruct H as (_ & _ & _ & H). by eapply keeps_create.
  - destruct H as (_ & H). by eapply keeps_alter_below.
  - destruct H as (H & _). destruct (moved_renamed _ _ _ _ H) as [s Hs]. by eapply keeps_renamed.
  - apply remove_dir_ok in H as [Hd Ha]. intros q Hq.
    destruct (decide (above (Places.dir w) q)) as [[r ->]|Hn].
    + rewrite (lookup_alter_below _ _ _ _ _ Ha), lookup_app, Hd. destruct r as [|x r]; [|done].
      exfalso. apply Hq. rewrite app_nil_r. apply above_refl.
    + by rewrite (lookup_alter_apart _ _ _ _ _ Ha).
Qed.

Ltac spared_off := cbn [spared]; off.
Ltac by_kind k H :=
  pose proof (change_spares _ _ _ H) as K; destruct k; cbn [change_of spared] in H, K.

Lemma change_record k t t' r : Change k t t' -> sole record_places r t -> sole record_places r t'.
Proof.
  intros H. by_kind k H; try (eapply sole_off; [exact K|each spared_off]);
    destruct (moved_renamed _ _ _ _ H) as [s Hs]; 
    (apply (sole_moved _ _ _ _ _ _ Hs); [listed|listed|each place_or_off]).
Qed.

Definition data_kept (data : option tree) (t : tree) : Prop :=
  match data with
  | Some d => sole data_places d t
  | None => vacant data_places t \/ sole data_places (Dir []) t
  end.

Lemma change_sole_data k t t' d : Change k t t' -> sole data_places d t -> sole data_places d t'.
Proof.
  intros H. by_kind k H;
    try (eapply sole_off; [exact K|each spared_off]);
    try (destruct (moved_renamed _ _ _ _ H) as [s Hs];
         apply (sole_moved _ _ _ _ _ _ Hs); [listed|listed|each place_or_off]).
  intros (p & Hp & Hl & _). destruct H as (H1 & H2 & H3 & _).
  repeat (apply elem_of_cons in Hp as [->|Hp]; [congruence|]). by apply elem_of_nil in Hp.
Qed.

Lemma change_data k t t' data : Change k t t' -> data_kept data t -> data_kept data t'.
Proof.
  intros H. destruct data as [d|]; cbn [data_kept]; [by eapply change_sole_data|].
  intros [Hv|Hs]; [|right; by eapply change_sole_data]. by_kind k H;
    try (left; eapply vacant_off; [exact K|each spared_off|done]);
    try (destruct (moved_renamed _ _ _ _ H) as [s Hs]; destruct (vacant_unmoved _ _ data_places _ _ _ Hs);
         [listed|done]).
  right. destruct H as (H1 & H2 & H3 & H). exists (Places.data_dst w). split; [listed|].
  apply create_dir_ok in H as [_ H].
  split; [apply (lookup_alter_same _ _ _ _ H)|]. intros q Hq Hne.
  repeat (apply elem_of_cons in Hq as [->|Hq]; [first [done | by rewrite K by spared_off]|]).
  by apply elem_of_nil in Hq.
Qed.

Lemma change_clone_record k t t' r :
  Change k t t' -> stays clone_record_places r t -> stays clone_record_places r t'.
Proof.
  intros H. by_kind k H;
    try (eapply stays_off; [exact K|each spared_off]);
    try (destruct (moved_renamed _ _ _ _ H) as [s Hs];
         apply (stays_moved _ _ _ _ _ _ Hs); [listed|each place_or_off]).
  destruct H as (H & _). destruct (moved_renamed _ _ _ _ H) as [s Hs].
  pose proof (rn_dst _ _ _ _ _ Hs) as Ha. intros (p & Hp & Hl). exists p. split; [done|].
  repeat (apply elem_of_cons in Hp as [->|Hp]; [first [congruence | by rewrite K by spared_off]|]).
  by apply elem_of_nil in Hp.
Qed.

Lemma change_clone_data k t t' r :
  Change k t t' -> stays clone_data_places r t -> stays clone_data_places r t'.
Proof.
  intros H. by_kind k H;
    try (eapply stays_off; [exact K|each spared_off]);
    destruct (moved_renamed _ _ _ _ H) as [s Hs];
    try (apply (stays_moved _ _ _ _ _ _ Hs); [listed|each place_or_off]).
Qed.

(** Apart from every place of the flow: the journal's folder in the archive, the original's
    record and data, the clone's, and the temporary file [write_private] makes of the
    clone's record. *)
Definition elsewhere (q : path) : Prop :=
  apart (Places.dir w) q /\ apart (Places.metadata_src w) q /\ apart (Places.data_src w) q
  /\ apart (Places.clone_metadata w) q /\ apart clone_tmp q /\ apart (Places.clone_data w) q.

Lemma in_dir name q : apart (Places.dir w) q -> apart (join (Places.dir w) name) q.
Proof. intros H. apply apart_sym, apart_below. by apply apart_sym. Qed.

Lemma in_retired name q :
  apart (Places.dir w) q -> apart (join (join (Places.dir w) "clone-retired") name) q.
Proof. intros H. unfold join. rewrite <- app_assoc. apply apart_sym, apart_below. by apply apart_sym. Qed.

Lemma change_elsewhere k t t' q : Change k t t' -> elsewhere q -> lookup q t' = lookup q t.
Proof.
  intros H (H1 & H2 & H3 & H4 & H5 & H6). apply (change_spares k t t' H).
  destruct k; cbn [spared]; try (match goal with |- off_move _ _ _ => split end); first
    [ done | by apply in_dir | by apply in_retired | apply off_dir_apart; by apply (in_dir "clone-retired")
    | apply off_dir_apart; by apply (in_dir "user-data") | by apply off_dir_apart ].
Qed.

(** ** The journal along the steps *)

Lemma step_row s s' : Steps s s' -> tracked original new jid s.1 s.2 -> tracked original new jid s'.1 s'.2.
Proof.
  intros [k t t' l j Hr _ _|t l j to patch db Hr Hp Ht _] _; [by exists j|].
  destruct (advance_row _ _ _ _ _ _ _ _ _ Hr Hp Ht) as (_ & Hr' & _). by eexists.
Qed.

(** ** What each phase says of the disk while no power is cut *)

Abbreviation Ready := (ready from_slice value_of original new jid).

Definition archived (t : tree) : Prop :=
  absent (Places.metadata_src w) t /\ present (Places.metadata_dst w) t
  /\ absent (Places.data_src w) t /\ present (Places.data_dst w) t /\ absent (Places.probe w) t.

(** v0.1.28 lists the clone, with its data, and finds no trace of the original. *)
Definition seen_right (t : tree) : Prop :=
  exists found, scan from_slice t = Ok found /\ lists found new = true
    /\ has_data found new = true /\ mentions found original = false.

Definition phase_holds (phase : DowngradePhase.t) (t : tree) : Prop :=
  match phase with
  | DowngradePhase.OriginalMetadataMoved =>
      absent (Places.metadata_src w) t /\ present (Places.metadata_dst w) t
  | DowngradePhase.OriginalUserDataMoved | DowngradePhase.DiscoveryScanPassed => archived t
  | DowngradePhase.CloneWritten => archived t /\ Ready DowngradePhase.CloneWritten t
  | DowngradePhase.ReadbackPassed | DowngradePhase.Completed =>
      archived t /\ Ready DowngradePhase.CloneWritten t /\ seen_right t
  | DowngradePhase.RolledBack => Ready DowngradePhase.RolledBack t
  | _ => True
  end.

Lemma no_way_home t t' :
  moved (Places.probe w) (Places.data_src w) t t' -> absent (Places.probe w) t -> False.
Proof. intros [s Hs]%moved_renamed Ha. pose proof (rn_src _ _ _ _ _ Hs). by rewrite Ha in *. Qed.

Lemma archived_stuck t t' :
  moved (Places.probe w) (Places.data_src w) t t' -> archived t -> False.
Proof. intros H (_ & _ & _ & _ & Ha). by eapply no_way_home. Qed.

Lemma archived_off U t t' :
  keeps U t t' ->
  U (Places.metadata_src w) -> U (Places.metadata_dst w) -> U (Places.data_src w) ->
  U (Places.data_dst w) -> U (Places.probe w) -> archived t -> archived t'.
Proof. intros K U1 U2 U3 U4 U5. unfold archived, absent, present. by rewrite !K by done. Qed.

Lemma phase_disk k t t' phase :
  Change k t t' -> fits k phase = true -> phase_holds phase t -> phase_holds phase t'.
Proof.
  intros H Hf Hh. pose proof (change_spares _ _ _ H) as K.
  destruct phase; try done; destruct k; try done; cbn [phase_holds change_of] in *;
    try (by destruct (archived_stuck _ _ H); first [exact Hh|apply Hh]);
    try (eapply archived_off; [exact K|spared_off..|exact Hh]).
  1-4: destruct Hh as [H1 H2]; unfold absent, present; rewrite !K by spared_off; done.
  by apply (cleaned from_slice to_vec_pretty value_of original new jid t).
Qed.

Lemma phase_enters j to t :
  DowngradePhase.allows (DowngradeJournal.phase j) Mode.Clone to = true ->
  phase_holds (DowngradeJournal.phase j) t -> Ready to t -> phase_holds to t.
Proof.
  intros Ha Hh Hr. destruct (DowngradeJournal.phase j), to; try done; cbn [phase_holds ready] in *.
  - by destruct Hr as (? & ? & _).
  - destruct Hh, Hr as (? & ? & ?). unfold archived. by split_and!.
  - destruct Hh as [Hw Hc], Hr as (_ & _ & _ & Hs). exact (conj Hw (conj Hc Hs)).
Qed.

Abbreviation Row := (row original new jid).
Abbreviation Tracked := (tracked original new jid).

(** The phase of the journal and the disk agree. *)
Definition agree (s : tree * Ledger) : Prop :=
  forall j, Row s.2 j -> phase_holds (DowngradeJournal.phase j) s.1.

Lemma step_agree s s' : Steps s s' -> agree s -> agree s'.
Proof.
  intros [k t t' l j Hr Hf Hc|t l j to patch db Hr Hp Ht Hto] Ha j' Hr'; cbn [fst snd] in *.
  - eapply phase_disk; [exact Hc| |by apply (Ha j')]. by rewrite <- (row_fun _ _ _ _ _ _ Hr Hr').
  - destruct (advance_row _ _ _ _ _ _ _ _ _ Hr Hp Ht) as (_ & Hr2 & Hal).
    rewrite (row_fun _ _ _ _ _ _ Hr' Hr2). eapply phase_enters; [exact Hal|by apply (Ha j)|done].
Qed.

(** An invariant of every change of the disk. *)
Definition stable (I : tree -> Prop) : Prop := forall k t t', Change k t t' -> I t -> I t'.

Lemma steps_stable I s s' : stable I -> rtc Steps s s' -> I s.1 -> I s'.1.
Proof.
  intros HI. induction 1 as [|s s1 s2 H _ IH]; [done|]. intros Hs. apply IH.
  destruct H as [k t t' l j _ _ Hc|]; [by eapply HI|done].
Qed.

Lemma steps_row s s' : rtc Steps s s' -> Tracked s.1 s.2 -> Tracked s'.1 s'.2.
Proof. induction 1 as [|s s1 s2 H _ IH]; [done|]. intros Hs. by eapply IH, step_row. Qed.

Lemma steps_agree s s' : rtc Steps s s' -> agree s -> agree s'.
Proof. induction 1 as [|s s1 s2 H _ IH]; [done|]. intros Hs. by eapply IH, step_agree. Qed.

(** ** Histories *)

Context (uuid_canonical : string -> option string).
Context (sha256 : bytes -> bytes) (sha256_length : forall x, blen (sha256 x) = 32).
Context (data_root : string).

(** What one run finds around it. *)
Record Env := mk_env {
  migrating : bool;
  claims : list string;
  running : list string;
  volume_serial : path -> Z;
  leads_inside : path -> bool;
  local_volume : path -> bool;
  clock : string }.

Inductive Event :=
| Run (e : Env) (luck : list Fate)
| RollBack (e : Env) (luck : list Fate)
| PowerCut (n : nat).

Definition lucky_world (w0 : World Ledger) (luck : list Fate) : World Ledger :=
  mk_world (disk w0) (unflushed w0) (ledger w0) luck.

Definition play (w0 : World Ledger) (ev : Event) : World Ledger :=
  match ev with
  | Run e luck =>
      (run_clone uuid_canonical from_slice to_vec_pretty value_of sha256 data_root
         (volume_serial e) (leads_inside e) (local_volume e) (clock e) (migrating e) (claims e)
         (running e) jid (lucky_world w0 luck)).2
  | RollBack e luck =>
      (roll_back_clone uuid_canonical from_slice data_root (migrating e) (claims e) (running e)
         jid (lucky_world w0 luck)).2
  | PowerCut n => cut (Some n) w0
  end.

Definition history (w0 : World Ledger) (evs : list Event) : World Ledger := fold_left play evs w0.

(** No power is cut, during a run or between two. *)
Definition powered (ev : Event) : Prop :=
  match ev with Run _ luck | RollBack _ luck => no_cuts luck | PowerCut _ => False end.

Definition tracking (w0 : World Ledger) : Prop := Tracked (disk w0) (ledger w0).

Lemma play_passes w0 ev :
  tracking w0 ->
  match ev with
  | Run _ luck | RollBack _ luck => exists b, passes Steps b (lucky_world w0 luck) (play w0 ev)
  | PowerCut _ => True
  end.
Proof.
  intros Hw. destruct ev as [e luck|e luck|n]; [..|done]; eexists.
  - apply (triple_run_clone uuid_canonical from_slice to_vec_pretty value_of sha256 sha256_length
      data_root (volume_serial e) (leads_inside e) (local_volume e) (clock e) original new jid
      distinct (migrating e) (claims e) (running e) (lucky_world w0 luck) Hw).
  - apply (triple_roll_back_clone uuid_canonical from_slice to_vec_pretty value_of data_root
      original new jid distinct (migrating e) (claims e) (running e) (lucky_world w0 luck) Hw).
Qed.

Lemma play_safe I w0 ev :
  stable I -> tracking w0 -> (forall d, d ∈ possible w0 -> I d) ->
  tracking (play w0 ev) /\ forall d, d ∈ possible (play w0 ev) -> I d.
Proof.
  intros HI Hw Hd. pose proof (play_passes w0 ev Hw) as Hp.
  destruct ev as [e luck|e luck|n]; [..|split; [exact Hw|]; intros d Hc; exact (Hd _ (cut_possible (Some n) _ _ Hc))];
    destruct Hp as [b [D [dl Lg] _ _]]; (split; [exact (steps_row _ _ Lg Hw)|]);
    (intros d [Hu|[l Hs]]%D; [apply Hd, elem_of_cons; by right|]);
    apply (steps_stable I _ _ HI Hs), Hd, elem_of_cons; by left.
Qed.

Lemma history_safe I w0 evs :
  stable I -> tracking w0 -> (forall d, d ∈ possible w0 -> I d) ->
  tracking (history w0 evs) /\ forall d, d ∈ possible (history w0 evs) -> I d.
Proof.
  intros HI. revert w0. induction evs as [|ev evs IH]; intros w0 Hw Hd; [done|].
  destruct (play_safe I w0 ev HI Hw Hd) as [Hw' Hd']. exact (IH _ Hw' Hd').
Qed.

Lemma history_steps w0 evs :
  tracking w0 -> Forall powered evs ->
  rtc Steps (state w0) (state (history w0 evs)).
Proof.
  intros Hw Hp. revert w0 Hw. induction Hp as [|ev evs Hev _ IH]; intros w0 Hw; [apply rtc_refl|].
  pose proof (play_passes w0 ev Hw) as Hs.
  destruct ev as [e luck|e luck|n]; [..|done]; destruct Hs as [b [_ _ _ S]];
    destruct (S Hev) as [S' _]; (etrans; [exact S'|]); apply IH; exact (steps_row _ _ S' Hw).
Qed.

(** ** The theorems *)

Lemma sole_at ps p r t :
  sole ps r t -> p ∈ ps -> (forall q, q ∈ ps -> q <> p -> absent q t) -> lookup p t = Some r.
Proof.
  intros (p' & Hp' & Hl & _) Hp Ha. destruct (decide (p' = p)) as [->|Hne]; [done|].
  by rewrite (Ha p' Hp' Hne) in Hl.
Qed.

Ltac but_one := first [done | intros ?; congruence].

(** A rolled back original is home. *)
Lemma rolled_back_home r data t :
  sole record_places r t -> data_kept data t -> Ready DowngradePhase.RolledBack t ->
  lookup (Places.metadata_src w) t = Some r
  /\ (lookup (Places.data_src w) t = data
      \/ data = None /\ lookup (Places.data_src w) t = Some (Dir [])).
Proof.
  intros Hr Hd (A1 & A2 & A3 & A4 & A5). split.
  - apply (sole_at record_places); [done|listed|]. each but_one.
  - destruct data as [d|]; [left|destruct Hd as [Hv|Hd]; [left; apply Hv; listed|right; split; [done|]]];
      (apply (sole_at data_places); [done|listed|]; each but_one).
Qed.

(** C4. Refinement: whatever fails and wherever a process is killed, a run or a rollback takes the
    disk and the database only through steps of the abstract flow, each a change its phase
    allows or the entry of a phase the disk is ready for. Every call to the file system is a
    step of its own, down to each folder [create_dir_all] makes, each write of a copied file
    and the temporary file of [write_private] before its rename. A disk a power cut may bring back
    was pending before or is one the steps passed. *)
Theorem flow_takes_only_steps w0 ev d :
  tracking w0 -> d ∈ possible (play w0 ev) ->
  (d ∈ possible w0 \/ exists l, rtc Steps (state w0) (d, l))
  /\ (exists d', rtc Steps (state w0) (d', ledger (play w0 ev)))
  /\ (powered ev -> rtc Steps (state w0) (state (play w0 ev))).
Proof.
  intros Hw Hd. pose proof (play_passes w0 ev Hw) as Hp.
  destruct ev as [e luck|e luck|n]; [destruct Hp as [b [D Lg _ S]]..|].
  3: { split_and!; [left; exact (cut_possible (Some n) _ _ Hd)| |done]. exists (disk w0). apply rtc_refl. }
  all: split_and!; [|exact Lg|intros Hpow; exact (proj1 (S Hpow))].
  all: destruct (D d Hd) as [Hu|Hs]; [left; apply elem_of_cons; by right|by right].
Qed.

(** C5. The original is never lost, overwritten or doubled. Take any history of runs and
    rollbacks in which every call may fail and every process may be killed, with power
    cuts during and between them. On every disk that can be left, the original's record is at
    exactly one of its two places and unchanged, its user data at exactly one of their three,
    and everything that is not a place of the flow is as it was. The places of the flow are
    the journal's archive folder, the record and data of the original and of the clone, and
    the temporary file of the clone's record, which a kill can leave. *)
Theorem original_survives w0 r data evs d :
  unflushed w0 = [] -> tracking w0 ->
  sole record_places r (disk w0) -> data_kept data (disk w0) ->
  d ∈ possible (history w0 evs) ->
  sole record_places r d /\ data_kept data d
  /\ forall q, elsewhere q -> lookup q d = lookup q (disk w0).
Proof.
  intros Hu Hw Hr Hd.
  pose (I t := sole record_places r t /\ data_kept data t
               /\ forall q, elsewhere q -> lookup q t = lookup q (disk w0)).
  apply (history_safe I); [|done|].
  - intros k t t' Hc (H1 & H2 & H3). split_and!;
      [by eapply change_record|by eapply change_data|].
    intros q Hq. by rewrite (change_elsewhere _ _ _ _ Hc Hq), H3.
  - unfold possible. rewrite Hu. by intros d' ->%list_elem_of_singleton.
Qed.

(** C34. A rollback retires the clone and never deletes it: a record and user data that are on
    every possible disk, in place or retired, stay at one of these places through any history
    of runs, failures, kills and power cuts. *)
Theorem clone_never_deleted w0 r c evs d :
  tracking w0 ->
  (forall d', d' ∈ possible w0 -> stays clone_record_places r d' /\ stays clone_data_places c d') ->
  d ∈ possible (history w0 evs) -> stays clone_record_places r d /\ stays clone_data_places c d.
Proof.
  intros Hw Hd. apply (history_safe (fun t => stays clone_record_places r t /\ stays clone_data_places c t));
    [|done..].
  intros k t t' Hc [H1 H2]. split; [by eapply change_clone_record|by eapply change_clone_data].
Qed.

(** C7. While the power stays on, a terminal phase tells the truth about the disk, however often
    the flow was killed and resumed: [COMPLETED] means the original is in the archive,
    unchanged, and nowhere else, the clone has its data and carries no identifier of the
    binding, and v0.1.28 lists the clone and finds no trace of the original; [ROLLED_BACK]
    means the original is back in place, unchanged, and the clone is out of the way. *)
Theorem phases_mean_what_they_say w0 r data evs j :
  tracking w0 -> (forall j0, Row (ledger w0) j0 -> DowngradeJournal.phase j0 = DowngradePhase.Created) ->
  sole record_places r (disk w0) -> data_kept data (disk w0) -> unflushed w0 = [] ->
  Forall powered evs ->
  let t := disk (history w0 evs) in
  Row (ledger (history w0 evs)) j ->
  match DowngradeJournal.phase j with
  | DowngradePhase.Completed =>
      lookup (Places.metadata_dst w) t = Some r
      /\ lookup (Places.data_dst w) t = Some (default (Dir []) data)
      /\ absent (Places.metadata_src w) t /\ absent (Places.data_src w) t
      /\ Ready DowngradePhase.CloneWritten t /\ seen_right t
  | DowngradePhase.RolledBack =>
      lookup (Places.metadata_src w) t = Some r
      /\ (lookup (Places.data_src w) t = data
          \/ data = None /\ lookup (Places.data_src w) t = Some (Dir []))
      /\ Ready DowngradePhase.RolledBack t
  | _ => True
  end.
Proof.
  intros Hw H0 Hr Hd Hu Hp t Hj.
  destruct (original_survives w0 r data evs t) as (Hr' & Hd' & _);
    [done..|apply elem_of_cons; by left|].
  assert (agree (state (history w0 evs))) as Ha.
  { eapply steps_agree; [by apply history_steps|]. intros j0 Hj0. by rewrite (H0 j0). }
  specialize (Ha j Hj). cbn [state fst] in Ha. fold t in Ha.
  destruct (DowngradeJournal.phase j); try done; cbn [phase_holds] in Ha.
  - destruct Ha as ((A1 & A2 & A3 & A4 & A5) & Hc & Hs). split_and!; [|..|exact Hc|exact Hs]; try done.
    + apply (sole_at record_places); [done|listed|]. each but_one.
    + destruct data as [d|]; [|destruct Hd' as [Hv|Hd']].
      * apply (sole_at data_places); [done|listed|]. each but_one.
      * destruct A4 as [x Hx]. rewrite Hv in Hx by listed. done.
      * apply (sole_at data_places); [done|listed|]. each but_one.
  - by destruct (rolled_back_home r data t Hr' Hd' Ha).
Qed.

(** The phase a run or a rollback returns is the one the journal holds, and terminal; a
    rollback that returns has emptied the archive of the original and taken the clone out. *)
Theorem returned_phase_is_stored w0 e luck :
  tracking w0 ->
  match run_clone uuid_canonical from_slice to_vec_pretty value_of sha256 data_root
          (volume_serial e) (leads_inside e) (local_volume e) (clock e) (migrating e) (claims e)
          (running e) jid (lucky_world w0 luck) with
  | (Some (Ok d), w1) =>
      exists j, Row (ledger w1) j /\ d = done_of j
        /\ DowngradePhase.is_terminal (DowngradeJournal.phase j) = true
  | _ => True
  end
  /\ match roll_back_clone uuid_canonical from_slice data_root (migrating e) (claims e) (running e)
             jid (lucky_world w0 luck) with
     | (Some (Ok d), w1) =>
         CloneDone.phase d = DowngradePhase.RolledBack /\ Ready DowngradePhase.RolledBack (disk w1)
         /\ exists j, Row (ledger w1) j /\ d = done_of j
     | _ => True
     end.
Proof.
  intros Hw. split.
  - destruct (triple_run_clone uuid_canonical from_slice to_vec_pretty value_of sha256 sha256_length
      data_root (volume_serial e) (leads_inside e) (local_volume e) (clock e) original new jid
      distinct (migrating e) (claims e) (running e) (lucky_world w0 luck) Hw) as [_ He].
    by destruct (run_clone _ _ _ _ _ _ _ _ _ _ _ _ _ _ _) as [[[d|x|c]|] w1].
  - destruct (triple_roll_back_clone uuid_canonical from_slice to_vec_pretty value_of data_root
      original new jid distinct (migrating e) (claims e) (running e) (lucky_world w0 luck) Hw)
      as [_ He].
    destruct (roll_back_clone _ _ _ _ _ _ _ _) as [[[d|x|c]|] w1]; try done.
    destruct He as ((j & Hr & Hd & _) & Hp & Hready). split_and!; [done..|]. by exists j.
Qed.

(** C33. A run and a rollback return, whatever the disk and whichever calls fail: no panic, and
    the loop of [drive] ends within its bound. *)
Theorem flow_always_returns w0 e luck :
  tracking w0 -> lives luck ->
  (exists r w1,
     run_clone uuid_canonical from_slice to_vec_pretty value_of sha256 data_root (volume_serial e)
       (leads_inside e) (local_volume e) (clock e) (migrating e) (claims e) (running e) jid
       (lucky_world w0 luck) = (Some r, w1) /\ safe r)
  /\ (exists r w1,
        roll_back_clone uuid_canonical from_slice data_root (migrating e) (claims e) (running e) jid
          (lucky_world w0 luck) = (Some r, w1) /\ safe r).
Proof.
  intros Hw Hl. split; apply returned; try exact Hl.
  - by apply run_clone_returns with (original := original) (new := new).
  - apply roll_back_clone_returns.
Qed.

End flow.

(** ** A sample flow *)

Module Sample.

Definition from_slice (body : bytes) : option StoredProfile.t :=
  Some (StoredProfile.mk (String.string_of_list_byte body) None false JNull []).
Definition to_vec_pretty (s : StoredProfile.t) : option bytes := Some (as_bytes (StoredProfile.id s)).
Definition value_of (body : bytes) : option json := Some (JString (String.string_of_list_byte body)).
Definition sha256 (_ : bytes) : bytes := repeat Byte.x00 32.

Lemma sha256_length x : blen (sha256 x) = 32.
Proof. reflexivity. Qed.

Definition jid : string := "00112233445566778899aabbccddeeff".

Lemma distinct : "o" <> "n".
Proof. discriminate. Qed.

Definition journal : DowngradeJournal.t :=
  DowngradeJournal.mk jid Mode.Clone "o" (Some "n") DowngradePhase.Created
    (Some ("/d/downgrade-archive/" +:+ jid +:+ "/o.json.archived"))
    (Some ("/d/downgrade-archive/" +:+ jid +:+ "/user-data")) None None.

Definition db : Db := Eval vm_compute in
  (transact (downgrade_create "2025" journal) (mk_db ["o"] [] [])).2.

Definition tables : Ledger :=
  mk_ledger db [Binding.mk "o" "server" "tenant" "fleet" "remote" None] [] [] [].

Definition record : tree := File (as_bytes "o").
Definition data : tree := Dir [("Cookies", File [Byte.x01]); ("team-sync-state", File [])].

Definition start : World Ledger :=
  mk_world (Dir [("profiles", Dir [("o.json", record)]); ("user-data", Dir [("o", data)])]) []
    tables [].

Definition env : Env :=
  mk_env false [] [] (fun _ => 7) (fun _ => false) (fun _ => true) "@1".

Definition more : World Ledger -> list Event -> World Ledger :=
  history from_slice to_vec_pretty value_of jid (fun s => Some s) sha256 "/d".

Definition after : list Event -> World Ledger := more start.

Definition phase_of (w0 : World Ledger) : option DowngradePhase.t :=
  match downgrade_in (journals (ledger w0)) jid with
  | Ok (Some j) => Some (DowngradeJournal.phase j)
  | _ => None
  end.

Lemma start_tracked : tracking "o" "n" jid start.
Proof.
  exists journal. split_and!; [|vm_compute; reflexivity|by split_and!].
  apply reachable_lawful. change (journals (ledger start)) with db.
  replace db with (transact (downgrade_create "2025" journal) (mk_db ["o"] [] [])).2
    by (vm_compute; reflexivity).
  apply (rtc_l _ _ (mk_db ["o"] [] [])); [apply (step_bind (mk_db [] [] []) "o")|].
  apply rtc_once, step_downgrade_create. reflexivity.
Qed.

Lemma start_record : sole (record_places "o" "n" jid) record (disk start).
Proof.
  exists ["profiles"; "o.json"]. split; [listed|]. split; [reflexivity|].
  each ltac:(first [intros []; reflexivity | intros _; vm_compute; reflexivity]).
Qed.

Lemma start_data : data_kept "o" "n" jid (Some data) (disk start).
Proof.
  exists ["user-data"; "o"]. split; [listed|]. split; [reflexivity|].
  each ltac:(first [intros []; reflexivity | intros _; vm_compute; reflexivity]).
Qed.

Lemma start_created j0 :
  row "o" "n" jid (ledger start) j0 -> DowngradeJournal.phase j0 = DowngradePhase.Created.
Proof. intros (_ & Hin & _). vm_compute in Hin. by injection Hin as <-. Qed.

(** A process that is killed at its [n]th call. *)
Definition killed (n : nat) : list Fate := repeat Works n ++ [Dies None].

Lemma original_survives_witness :
  let w0 := after [Run env (killed 41); PowerCut 1] in
  lookup ["profiles"; "n.json.tmp"] (disk w0) = Some (File [])
  /\ sole (record_places "o" "n" jid) record (disk w0)
  /\ data_kept "o" "n" jid (Some data) (disk w0).
Proof.
  intros w0. split; [vm_compute; reflexivity|].
  destruct (original_survives from_slice to_vec_pretty value_of "o" "n" jid distinct (fun s => Some s)
    sha256 sha256_length "/d" start record (Some data) [Run env (killed 41); PowerCut 1] (disk w0)
    eq_refl start_tracked start_record start_data (list_elem_of_here _ _)) as (Hr & Hd & _).
  exact (conj Hr Hd).
Defined.

Lemma phases_mean_what_they_say_witness :
  phase_of (after [Run env []]) = Some DowngradePhase.Completed
  /\ lookup ["downgrade-archive"; jid; "o.json.archived"] (disk (after [Run env []])) = Some record.
Proof.
  assert (phase_of (after [Run env []]) = Some DowngradePhase.Completed) as Hp
    by (vm_compute; reflexivity).
  split; [exact Hp|].
  destruct (history_safe from_slice to_vec_pretty value_of "o" "n" jid distinct (fun s => Some s)
    sha256 sha256_length "/d" (fun _ => True) start [Run env []] (fun _ _ _ _ _ => I) start_tracked
    (fun _ _ => I)) as [[j Hj] _].
  assert (DowngradeJournal.phase j = DowngradePhase.Completed) as Hc.
  { destruct Hj as (_ & Hin & _). unfold phase_of, after, more in Hp. rewrite Hin in Hp. by injection Hp. }
  pose proof (phases_mean_what_they_say from_slice to_vec_pretty value_of "o" "n" jid distinct
    (fun s => Some s) sha256 sha256_length "/d" start record (Some data) [Run env []] j start_tracked
    start_created start_record start_data eq_refl) as H.
  rewrite Hc in H. apply H; [|exact Hj]. constructor; [constructor|constructor].
Defined.

(** A move that was made but not flushed is not flushed by a repeat, which finds it done. Here
    a rollback is killed between the rename of the record and its flush, and repeated to
    its end; the power fails; the journal says [ROLLED_BACK], the record is in the archive,
    and neither a run nor a rollback moves it any more. *)
Theorem rollback_flush_can_be_skipped :
  let before := [Run env (killed 24); RollBack env (killed 7); RollBack env []] in
  let cut_off := after (before ++ [PowerCut 2]) in
  phase_of (after before) = Some DowngradePhase.RolledBack
  /\ lookup ["profiles"; "o.json"] (disk (after before)) = Some record
  /\ phase_of cut_off = Some DowngradePhase.RolledBack
  /\ lookup ["profiles"; "o.json"] (disk cut_off) = None
  /\ lookup ["downgrade-archive"; jid; "o.json.archived"] (disk cut_off) = Some record
  /\ disk (after (before ++ [PowerCut 2; Run env []; RollBack env []])) = disk cut_off.
Proof. vm_compute. repeat split. Qed.

(** A rollback does not take the temporary file of the clone's record away: killed between the
    sync of [<clone>.json.tmp] and its rename, then rolled back to its end, the flow leaves
    the record under that name in the profile folder, and no later call removes it. *)
Theorem rollback_leaves_temporary :
  let rolled_back := after [Run env (killed 42); RollBack env []] in
  phase_of rolled_back = Some DowngradePhase.RolledBack
  /\ lookup ["profiles"; "o.json"] (disk rolled_back) = Some record
  /\ lookup ["profiles"; "n.json.tmp"] (disk rolled_back) = Some (File (as_bytes "n"))
  /\ disk (more rolled_back [Run env []; RollBack env []]) = disk rolled_back.
Proof. vm_compute. repeat split. Qed.

Lemma after_tracked evs : tracking "o" "n" jid (after evs).
Proof.
  apply (history_safe from_slice to_vec_pretty value_of "o" "n" jid distinct (fun s => Some s)
    sha256 sha256_length "/d" (fun _ => True)); [done|apply start_tracked|done].
Qed.

Definition clone_record : tree := File (as_bytes "n").
Definition clone_data : tree := Dir [("Cookies", File [Byte.x01])].

Abbreviation played_ := (play from_slice to_vec_pretty value_of jid (fun s => Some s) sha256 "/d" start).

Lemma flow_takes_only_steps_witness :
  lookup ["profiles"; "n.json.tmp"] (disk (played_ (Run env (killed 42)))) = Some (File (as_bytes "n"))
  /\ rtc (Step from_slice to_vec_pretty value_of "o" "n" jid) (state start)
    (state (played_ (Run env (killed 42)))).
Proof.
  split; [vm_compute; reflexivity|].
  destruct (flow_takes_only_steps from_slice to_vec_pretty value_of "o" "n" jid distinct
    (fun s => Some s) sha256 sha256_length "/d" start (Run env (killed 42))
    (disk (played_ (Run env (killed 42)))) start_tracked (list_elem_of_here _ _)) as (_ & _ & H).
  apply H. repeat constructor.
Defined.

(** A clone that is written, then rolled back, is in the archive. *)
Lemma clone_never_deleted_witness :
  let w0 := after [Run env (killed 46)] in
  let d := disk (more w0 [RollBack env []]) in
  stays (clone_record_places "o" "n" jid) clone_record d
  /\ stays (clone_data_places "o" "n" jid) clone_data d.
Proof.
  intros w0 d.
  apply (clone_never_deleted from_slice to_vec_pretty value_of "o" "n" jid distinct (fun s => Some s)
    sha256 sha256_length "/d" w0 clone_record clone_data [RollBack env []] d (after_tracked _)).
  - assert (possible w0 = [disk w0]) as -> by (vm_compute; reflexivity).
    intros d' ->%list_elem_of_singleton. split.
    + exists ["profiles"; "n.json"]. split; [listed|vm_compute; reflexivity].
    + exists ["user-data"; "n"]. split; [listed|vm_compute; reflexivity].
  - apply list_elem_of_here.
Defined.

Lemma returned_phase_is_stored_witness :
  exists d w1 j,
    run_clone (fun s => Some s) from_slice to_vec_pretty value_of sha256 "/d" (volume_serial env)
      (leads_inside env) (local_volume env) (clock env) (migrating env) (claims env) (running env)
      jid (lucky_world start []) = (Some (Ok d), w1)
    /\ row "o" "n" jid (ledger w1) j /\ d = done_of j.
Proof.
  destruct (returned_phase_is_stored from_slice to_vec_pretty value_of "o" "n" jid distinct
    (fun s => Some s) sha256 sha256_length "/d" start env [] start_tracked) as [H _].
  match type of H with match ?run with _ => _ end =>
    assert (exists d, run.1 = Some (Ok d)) as [d Hd] by (vm_compute; eexists; reflexivity);
    destruct run as [o w1]
  end.
  cbn [fst] in Hd. subst o. destruct H as (j & Hr & He & _).
  exists d, w1, j. exact (conj eq_refl (conj Hr He)).
Defined.

Lemma flow_always_returns_witness :
  exists r w1,
    run_clone (fun s => Some s) from_slice to_vec_pretty value_of sha256 "/d" (volume_serial env)
      (leads_inside env) (local_volume env) (clock env) (migrating env) (claims env) (running env)
      jid (lucky_world start [Fails]) = (Some r, w1) /\ safe r.
Proof.
  assert (lives [Fails]) as Hl by (constructor; [exact I|constructor]).
  destruct (flow_always_returns from_slice to_vec_pretty value_of "o" "n" jid distinct
    (fun s => Some s) sha256 sha256_length "/d" start env [Fails] start_tracked Hl) as [H _].
  exact H.
Defined.

End Sample.
