(* ===== verification/DowngradeProgress.v ===== *)
(** * The clone flow can always be rolled back

    What a rollback needs of the disk (the folders, a clone that can be read, nothing of the
    clone in two places) holds in every state the flow reaches while the power stays on;
    so a rollback in which no call fails puts the original back, whatever was interrupted
    before it. *)

From S2P Require Import Prelude Bytes RecordFields Journal JournalFacts JournalTheorems.
From S2P Require Import Disk DiskFacts DiskLogic Downgrade DowngradeSteps DowngradeTheorems.

(** ** Folders *)

Lemma moved_alters src dst t t' :
  moved src dst t t' ->
  exists s t1, alter src (fun _ => None) t = Some t1 /\ alter dst (fun _ => Some s) t1 = Some t'.
Proof.
  unfold moved, rename_new, rename. destruct (is_some _); [done|]. rewrite from_option_ok.
  destruct (lookup src t) as [s|]; [|done]. cbn [mbind option_bind]. unfold remove, insert.
  destruct (alter src _ t) as [t1|] eqn:H1; [|done]. cbn [mbind option_bind]. eauto.
Qed.

Lemma moved_is_dir src dst t t' q :
  moved src dst t t' -> ~ above src q -> ~ above dst q -> is_dir q t -> is_dir q t'.
Proof.
  intros (s & t1 & H1 & H2)%moved_alters Hs Hd Hq.
  eapply alter_is_dir; [exact H2|done|]. by eapply alter_is_dir.
Qed.

Lemma moved_dir_or_none src dst t t' q :
  moved src dst t t' -> ~ above src q -> ~ above dst q -> dir_or_none q t -> dir_or_none q t'.
Proof.
  intros (s & t1 & H1 & H2)%moved_alters Hs Hd Hq.
  eapply alter_dir_or_none; [exact H2|done|]. by eapply alter_dir_or_none.
Qed.

(** A folder on the way to something that is there. *)
Lemma on_the_way q r t : dir_or_none q t -> present (q ++ r) t -> is_dir q t.
Proof. intros [Ha|Hd] [x Hx]; [|done]. unfold absent in Ha. by rewrite lookup_app, Ha in Hx. Qed.

Section progress.
Context (from_slice : bytes -> option StoredProfile.t).
Context (to_vec_pretty : StoredProfile.t -> option bytes).
Context (value_of : bytes -> option json).
Context (original new jid : string) (distinct : original <> new).
Context (uuid_canonical : string -> option string).
Context (sha256 : bytes -> bytes) (sha256_length : forall x, blen (sha256 x) = 32).
Context (data_root : string).

(** serde_json reads back the ID of the record it wrote. *)
Context (reads_back : forall s body, to_vec_pretty s = Some body ->
  exists s', from_slice body = Some s' /\ StoredProfile.id s' = StoredProfile.id s).

Abbreviation w := (Places.of_ids original new jid).
Abbreviation clone_tmp := (tmp_of (Places.clone_metadata w)).
Abbreviation Change := (change_of from_slice to_vec_pretty original new jid).
Abbreviation Steps := (Step from_slice to_vec_pretty value_of original new jid).
Abbreviation Row := (row original new jid).

Definition retired_dir : path := parent (Places.retired_metadata w).

Record layout (t : tree) : Prop := {
  lay_root : is_dir [] t;
  lay_profiles : is_dir profiles_dir t;
  lay_data : is_dir user_data_root t;
  lay_archive : dir_or_none archive_root t;
  lay_dir : dir_or_none (Places.dir w) t;
  lay_retired : dir_or_none retired_dir t;
  lay_staging : dir_or_none (Places.clone_staging w) t }.

(** No path of the flow is above a folder of the layout, but these. *)
Ltac off_folder :=
  unfold retired_dir, archive_root;
  match goal with |- ~ above ?p ?q => change (off_dir q p); off end.

Lemma moved_layout src dst t t' :
  moved src dst t t' ->
  (forall q, q ∈ [[]; profiles_dir; user_data_root; archive_root; Places.dir w; retired_dir] ->
     ~ above src q /\ ~ above dst q) ->
  dir_or_none (Places.clone_staging w) t' -> layout t -> layout t'.
Proof.
  intros H Hq Hs [L1 L2 L3 L4 L5 L6 L7].
  split; [..|exact Hs];
    first [eapply moved_is_dir; [exact H|..] | eapply moved_dir_or_none; [exact H|..]];
    try done; apply Hq; repeat (apply elem_of_cons; first [by left|right]).
Qed.

Lemma alter_layout p g t t' :
  alter p g t = Some t' ->
  (forall q, q ∈ [[]; profiles_dir; user_data_root; archive_root] -> ~ above p q) ->
  dir_or_none (Places.dir w) t' -> dir_or_none retired_dir t' ->
  dir_or_none (Places.clone_staging w) t' -> layout t -> layout t'.
Proof.
  intros H Hq H1 H2 H3 [L1 L2 L3 L4 L5 L6 L7].
  split; [..|exact H1|exact H2|exact H3];
    first [eapply alter_is_dir; [exact H|..] | eapply alter_dir_or_none; [exact H|..]];
    try done; apply Hq; repeat (apply elem_of_cons; first [by left|right]).
Qed.

Lemma made_layout p t t' :
  create_dir p t = (Ok t' : result flow_error tree) -> layout t -> layout t'.
Proof.
  intros [Hl H]%create_dir_ok [L1 L2 L3 L4 L5 L6 L7].
  split; first [by eapply made_is_dir | by eapply made_dir_or_none].
Qed.

Lemma change_layout k t t' : Change k t t' -> layout t -> layout t'.
Proof.
  intros H HL. pose proof (lay_staging _ HL) as Hs.
  destruct k; cbn [change_of] in H;
    try (eapply moved_layout; [exact H|each ltac:(split; off_folder)| |done];
         first [eapply moved_dir_or_none; [exact H|off_folder|off_folder|done]
               |destruct (moved_renamed _ _ _ _ H) as [s Hr]; left; by eapply rn_gone]).
  - destruct H as [_ H]. by eapply made_layout.
  - destruct H as (_ & _ & _ & H). by eapply made_layout.
  - destruct H as [Hv H].
    assert (forall q, ~ above (Places.clone_staging w) q ->
      ~ above (Places.clone_staging w ++ r) q) as Hup.
    { intros q Hq Ha. apply Hq. eapply above_trans; [apply above_app|exact Ha]. }
    eapply alter_layout; [exact H|each ltac:(apply Hup; off_folder)|..|done].
    + eapply alter_dir_or_none; [exact H|apply Hup; off_folder|apply HL].
    + eapply alter_dir_or_none; [exact H|apply Hup; off_folder|apply HL].
    + destruct r as [|x r].
      * rewrite app_nil_r in H. unfold dir_or_none. rewrite (lookup_alter_same _ _ _ _ H).
        destruct Hv as [->| ->]; [done|by left|]. right. exists [].
        by rewrite (lookup_alter_same _ _ _ _ H).
      * eapply alter_dir_or_none; [exact H| |done]. intros [y Hy].
        apply (f_equal length) in Hy. rewrite !length_app in Hy. simpl in Hy. lia.
  - eapply alter_layout; [exact H|each off_folder|..|done];
      (eapply alter_dir_or_none; [exact H|off_folder|apply HL]).
  - destruct H as [H _]. eapply moved_layout; [exact H|each ltac:(split; off_folder)| |done].
    eapply moved_dir_or_none; [exact H|off_folder|off_folder|done].
  - apply remove_dir_ok in H as [_ H]. eapply alter_layout; [exact H|each off_folder|..|done].
    + left. by rewrite (lookup_alter_same _ _ _ _ H).
    + left. unfold absent, retired_dir.
      change (parent (Places.retired_metadata w)) with (Places.dir w ++ ["clone-retired"]).
      by rewrite (lookup_alter_below _ _ _ _ _ H).
    + left. unfold absent.
      change (Places.clone_staging w) with (Places.dir w ++ ["clone-user-data.partial"]).
      by rewrite (lookup_alter_below _ _ _ _ _ H).
Qed.

(** ** The clone *)

(** A record of the clone is one that reads back under the clone's ID. *)
Definition clone_reads (t : tree) : Prop :=
  absent (Places.clone_metadata w) t
  \/ exists body s, read_file (Places.clone_metadata w) t = (Ok body : result flow_error bytes)
       /\ from_slice body = Some s /\ StoredProfile.id s = new.

Lemma change_clone_reads k t t' : Change k t t' -> clone_reads t -> clone_reads t'.
Proof.
  intros H Hc. pose proof (change_spares _ _ _ _ _ k t t' H) as K.
  assert (spared original new jid k (Places.clone_metadata w) -> clone_reads t') as Hoff.
  { intros Hs. unfold clone_reads, absent, read_file. by rewrite (K _ Hs). }
  destruct k; try (apply Hoff; cbn [spared]; off); cbn [change_of] in H.
  - destruct H as (H & Hr & stored & record & now & _ & _ & Hb). right.
    destruct (reads_back _ _ Hb) as (s' & Hs & Hid). exists body, s'. split_and!; [|done|done].
    destruct (moved_renamed _ _ _ _ H) as [s Hm]. rewrite <- Hr. apply read_file_lookup.
    by rewrite (rn_there _ _ _ _ _ Hm), (rn_src _ _ _ _ _ Hm).
  - destruct (moved_renamed _ _ _ _ H) as [s Hr]. left. by eapply rn_gone.
Qed.

(** What a rollback counts on besides. *)
Record undoable (phase : DowngradePhase.t) (t : tree) : Prop := {
  un_early : phase <> DowngradePhase.RollbackRequired -> phase <> DowngradePhase.RolledBack ->
    absent (Places.retired_metadata w) t /\ absent (Places.retired_data w) t;
  un_record : absent (Places.clone_metadata w) t \/ absent (Places.retired_metadata w) t;
  un_data : absent (Places.clone_data w) t \/ absent (Places.retired_data w) t;
  un_kept : absent (Places.clone_metadata w) t /\ absent (Places.clone_data w) t
            \/ ~ vacant (data_places original new jid) t }.

Abbreviation Holds := (phase_holds from_slice value_of original new jid).
Abbreviation Vacant := (vacant (data_places original new jid)).

Lemma change_not_vacant k t t' data :
  Change k t t' -> data_kept original new jid data t -> ~ Vacant t -> ~ Vacant t'.
Proof.
  intros H Hd Hv.
  assert (exists d, sole (data_places original new jid) d t) as [d Hs].
  { destruct data as [d|]; [by exists d|]. destruct Hd as [?|Hd]; [done|by eexists]. }
  apply (change_sole_data _ _ _ _ _ distinct k t t' d H) in Hs as (p & Hp & Hl & _).
  intros Hv'. by rewrite (Hv' p Hp) in Hl.
Qed.

Lemma archived_not_vacant t : archived original new jid t -> ~ Vacant t.
Proof. intros (_ & _ & _ & [x Hx] & _) Hv. rewrite Hv in Hx; [done|listed]. Qed.

Ltac spared_off := cbn [spared]; off.

Lemma change_undoable k t t' phase data :
  Change k t t' -> fits k phase = true -> Holds phase t -> data_kept original new jid data t ->
  undoable phase t -> undoable phase t'.
Proof.
  intros H Hf Hh Hd [U1 U2 U3 U4].
  pose proof (change_not_vacant k t t' data H Hd) as Hv.
  pose proof (change_spares _ _ _ _ _ k t t' H) as K.
  assert ((absent (Places.clone_metadata w) t /\ absent (Places.clone_data w) t) \/ ~ Vacant t') as U4'.
  { destruct U4; auto. }
  destruct k;
    try (split; unfold absent; rewrite ?K by spared_off;
         [exact U1|exact U2|exact U3|destruct U4; [by left|right; auto]]); cbn [change_of] in H.
  - destruct phase; try done. destruct U1 as [R1 R2]; [done..|].
    split; [intros _ _; unfold absent; by rewrite !K by spared_off| |right; unfold absent; by rewrite K by spared_off|].
    + unfold absent. rewrite !K by spared_off. exact U2.
    + right. by apply Hv, archived_not_vacant.
  - destruct phase; try done. destruct U1 as [R1 R2]; [done..|].
    split; [intros _ _; unfold absent; by rewrite !K by spared_off|right; unfold absent; by rewrite K by spared_off| |].
    + unfold absent. rewrite !K by spared_off. exact U3.
    + right. by apply Hv, archived_not_vacant.
  - destruct phase; try done. destruct (moved_renamed _ _ _ _ H) as [s Hr].
    split; [done|left; by eapply rn_gone| |].
    + unfold absent. rewrite !K by spared_off. exact U3.
    + destruct U4 as [[Ha _]|U4]; [|right; auto]. pose proof (rn_src _ _ _ _ _ Hr) as Hs.
      by rewrite Ha in Hs.
  - destruct phase; try done. destruct (moved_renamed _ _ _ _ H) as [s Hr].
    split; [done| |left; by eapply rn_gone|].
    + unfold absent. rewrite !K by spared_off. exact U2.
    + destruct U4 as [[_ Ha]|U4]; [|right; auto]. pose proof (rn_src _ _ _ _ _ Hr) as Hs.
      by rewrite Ha in Hs.
Qed.

Lemma undoable_enters j to t :
  DowngradePhase.allows (DowngradeJournal.phase j) Mode.Clone to = true ->
  undoable (DowngradeJournal.phase j) t -> undoable to t.
Proof.
  intros Ha [U1 U2 U3 U4]. split; [|done..]. intros H1 H2.
  apply U1; intros Hp; rewrite Hp in Ha; by destruct to.
Qed.

(** ** Along the steps *)

Context (record : tree) (data : option tree).

Record keeping (s : tree * Ledger) : Prop := {
  ke_agree : agree from_slice value_of original new jid s;
  ke_record : sole (record_places original new jid) record s.1;
  ke_data : data_kept original new jid data s.1;
  ke_layout : layout s.1;
  ke_reads : clone_reads s.1;
  ke_undo j : Row s.2 j -> undoable (DowngradeJournal.phase j) s.1;
  ke_places j : Row s.2 j -> places uuid_canonical data_root j = Ok w }.

Lemma step_keeping s s' : Steps s s' -> keeping s -> keeping s'.
Proof.
  intros H [K1 K2 K3 K4 K5 K6 K7].
  pose proof (step_agree _ _ _ _ _ _ distinct _ _ H K1) as K1'.
  destruct H as [k t t' l j Hr Hf Hc|t l j to patch db Hr Hp Ht Hto]; cbn [fst snd] in *.
  - split; cbn [fst snd]; [exact K1'|by eapply change_record|by eapply change_data
      |by eapply change_layout|by eapply change_clone_reads| |done].
    intros j' Hr'. rewrite (row_fun _ _ _ _ _ _ Hr' Hr).
    eapply change_undoable; [exact Hc|done|by apply (K1 j)|done|by apply K6].
  - destruct (advance_row _ _ _ _ _ _ _ _ _ Hr Hp Ht) as (_ & Hr2 & Hal).
    split; cbn [fst snd]; try done; intros j' Hr'; rewrite (row_fun _ _ _ _ _ _ Hr' Hr2).
    + eapply undoable_enters; [exact Hal|by apply K6].
    + exact (K7 j Hr).
Qed.

Lemma steps_keeping s s' : rtc Steps s s' -> keeping s -> keeping s'.
Proof. induction 1 as [|s s1 s2 H _ IH]; [done|]. intros Hs. by eapply IH, step_keeping. Qed.

(** ** A rollback in which nothing fails *)

Abbreviation Keeping := (fun t l => keeping (t, l)).

Lemma dirs_to_in q name t : is_dir q t -> dirs_to q t -> dirs_to (join q name) t.
Proof.
  intros Hq Hd p Hp Hne. apply above_parent in Hp; [|by destruct q|done]. unfold join in Hp.
  rewrite parent_snoc in Hp. destruct (decide (p = q)) as [->|]; [exact Hq|by apply Hd].
Qed.

Lemma dirs_to_root t : dirs_to [] t.
Proof. intros q [r Hr] Hne. by destruct q. Qed.

Lemma dirs_to_profiles name t : layout t -> dirs_to (join profiles_dir name) t.
Proof. intros L. apply dirs_to_in; [apply L|]. apply (dirs_to_in []); [apply L|apply dirs_to_root]. Qed.

Lemma dirs_to_data name t : layout t -> dirs_to (join user_data_root name) t.
Proof. intros L. apply dirs_to_in; [apply L|]. apply (dirs_to_in []); [apply L|apply dirs_to_root]. Qed.

Lemma dirs_to_archive name t :
  layout t -> present (join (Places.dir w) name) t -> dirs_to (join (Places.dir w) name) t.
Proof.
  intros L Hp. assert (is_dir (Places.dir w) t) as Hd by (eapply on_the_way; [apply L|exact Hp]).
  apply dirs_to_in; [done|]. apply (dirs_to_in archive_root).
  - eapply (on_the_way _ [jid]); [apply L|]. destruct Hd as [es He]. by exists (Dir es).
  - apply (dirs_to_in []); [apply L|apply dirs_to_root].
Qed.

Lemma goes_move_new src dst (P : assn) :
  (forall t l, P t l -> exists t', moved src dst t t') ->
  goes P (move_new src dst) (fun _ _ _ => True).
Proof.
  intros H. unfold move_new. apply (goes_bind _ _ (fun _ _ _ => True)).
  - intros w0 Hf Hw. destruct (@goes_change _ JournalError [parent src; parent dst] (rename_new src dst) P
      (fun _ _ _ => True)) with (w := w0) as (a & w1 & Hr & ? & _); [|done..|].
    { intros t l Ht. destruct (H t l Ht) as [t' Hm]. by exists t'. }
    exists a, w1. unfold with_context, move_new_raw. by rewrite Hr.
  - intros _. apply (goes_bind _ _ (fun _ _ _ => True)); [apply goes_sync|intros _; apply goes_sync].
Qed.

Lemma goes_make_dir d (P : assn) :
  (forall t l, P t l -> is_dir [] t /\ forall q, above q d -> dir_or_none q t) ->
  goes P (make_dir d) (fun _ t _ => forall q, above q d -> is_dir q t).
Proof.
  intros H. unfold make_dir. eapply goes_bind; [apply goes_look|]. intros missing. cbv beta.
  eapply goes_bind.
  - eapply goes_conseq; [apply goes_create_dir_all|by intros t l [_ ?%H]|intros a t l Hq; exact Hq].
  - intros a. apply goes_for_each. intros x. apply goes_sync.
Qed.

Lemma make_retired_works t :
  layout t -> is_dir [] t /\ forall q, above q retired_dir -> dir_or_none q t.
Proof.
  intros L. split; [apply L|]. intros q [r Hr].
  assert (q = [] \/ q = archive_root \/ q = Places.dir w \/ q = retired_dir) as Hq.
  { unfold retired_dir, archive_root. cbn in Hr |- *.
    destruct q as [|a [|b [|c [|d q]]]]; cbn in Hr; [tauto|..]; try discriminate Hr;
      injection Hr; intros; subst; tauto. }
  destruct Hq as [->|[->|[->| ->]]]; [right; apply L|..]; apply L.
Qed.

Definition keep (j : DowngradeJournal.t) (F : tree -> Prop) : assn :=
  fun t l => at_ original new jid j F t l /\ keeping (t, l).

Abbreviation fine := (fun _ _ _ => True).

Lemma goes_absurd {A} (P : assn) (m : flow A) Q : (forall t l, P t l -> False) -> goes P m Q.
Proof. intros H w0 _ Hw. by destruct (H _ _ Hw). Qed.

Lemma goes_fine {A} (a : A) (P : assn) : goes P (mret a : flow A) fine.
Proof. intros w0 Hf _. by exists a, w0. Qed.

Lemma goes_fact {A} (P : assn) (m : flow A) Q (X : Prop) :
  (forall t l, P t l -> X) -> (X -> goes P m Q) -> goes P m Q.
Proof. intros HX H w0 Hf Hw. exact (H (HX _ _ Hw) w0 Hf Hw). Qed.

Lemma goes_exists {B} p j F (k : bool -> flow B) Q :
  goes (keep j (fun t => F t /\ present p t)) (k true) Q ->
  goes (keep j (fun t => F t /\ absent p t)) (k false) Q ->
  goes (keep j F) (b ← exists_ p; k b) Q.
Proof.
  intros Ht Hf. eapply goes_bind; [apply goes_look|]. intros [|]; cbv beta.
  - eapply goes_conseq; [exact Ht| |by intros a t l HQ]. intros t l (Hb & (Hr & HF) & Hk).
    split; [split; [done|split; [done|]]|done].
    unfold exists_at in Hb. unfold present. by destruct (lookup p t).
  - eapply goes_conseq; [exact Hf| |by intros a t l HQ]. intros t l (Hb & (Hr & HF) & Hk).
    split; [split; [done|split; [done|]]|done].
    unfold exists_at in Hb. unfold absent. by destruct (lookup p t).
Qed.

Lemma once {A} ps p q (r : A) t (f : A -> tree) :
  sole ps (f r) t -> p ∈ ps -> q ∈ ps -> p <> q -> present p t -> absent q t.
Proof.
  intros (x & Hx & Hl & Ho) Hp Hq Hne [y Hy]. destruct (decide (p = x)) as [->|Hpx].
  - apply Ho; [done|]. by apply not_eq_sym.
  - by rewrite (Ho p Hp Hpx) in Hy.
Qed.

Lemma record_once p q t l :
  keeping (t, l) -> p ∈ record_places original new jid -> q ∈ record_places original new jid ->
  p <> q -> present p t -> absent q t.
Proof. intros K. apply (once _ p q record t id), K. Qed.

Lemma data_once p q t l :
  keeping (t, l) -> p ∈ data_places original new jid -> q ∈ data_places original new jid ->
  p <> q -> present p t -> absent q t.
Proof.
  intros K Hp Hq Hne Hpr. pose proof (ke_data _ K) as Hd. cbn [fst] in Hd.
  destruct data as [d|]; [by eapply (once _ p q d t id)|].
  destruct Hd as [Hv|Hd]; [by apply Hv|by eapply (once _ p q (Dir []) t id)].
Qed.

Lemma apart_ne p q : apart p q -> p <> q.
Proof. intros [H _] ->. apply H, above_refl. Qed.

Lemma move_works src dst t :
  present src t -> absent dst t -> apart src dst -> src <> [] -> dst <> [] ->
  dirs_to src t -> dirs_to dst t -> exists t', moved src dst t t'.
Proof. intros [s Hs] Hd Ha H1 H2 D1 D2. by eapply rename_new_works. Qed.

Lemma present_absent p t : present p t -> absent p t -> False.
Proof. intros [x Hx] Ha. by rewrite Ha in Hx. Qed.

Lemma goes_settle j F : goes (keep j F) (settle_probe w) fine.
Proof.
  unfold settle_probe. apply goes_exists; apply goes_exists; try apply goes_fine.
  - apply goes_absurd. intros t l [(_ & (_ & H1) & H2) K].
    eapply present_absent; [exact H2|]. eapply (data_once (Places.probe w)); [exact K|listed|listed| |done].
    apply apart_ne. off.
  - apply goes_move_new. intros t l [(_ & (_ & H1) & H2) K]. pose proof (ke_layout _ K) as L.
    apply move_works; try done; [off|by apply (dirs_to_archive "idle-probe")|by apply dirs_to_data].
Qed.

Lemma goes_restore src dst j F :
  (forall t l, keeping (t, l) -> present dst t -> absent src t) ->
  apart dst src -> src <> [] -> (forall t, layout t -> dirs_to src t) ->
  (exists name, dst = join (Places.dir w) name) ->
  goes (keep j F) (restore src dst) fine.
Proof.
  intros H Ha Hs Hd [name ->]. unfold restore. apply goes_exists; cbn [negb]; [|apply goes_fine].
  apply goes_exists.
  - apply goes_absurd. intros t l [(_ & (_ & H1) & H2) K].
    eapply present_absent; [exact H2|by eapply H].
  - apply goes_move_new. intros t l [(_ & (_ & H1) & H2) K]. pose proof (ke_layout _ K) as L.
    apply move_works; try done; [by apply dirs_to_archive|by apply Hd].
Qed.

Lemma exists_present p t : exists_at p t = true -> present p t.
Proof. unfold exists_at, present. by destruct (lookup p t). Qed.

Lemma exists_absent p t : exists_at p t = false -> absent p t.
Proof. unfold exists_at, absent. by destruct (lookup p t). Qed.

Lemma not_both p q t :
  (present p t -> absent q t) -> exists_at p t && exists_at q t = false.
Proof.
  intros H. destruct (exists_at p t) eqn:Hp; [|done]. apply exists_present, H in Hp.
  unfold exists_at. by rewrite Hp.
Qed.

Lemma keeping_placed t l j :
  keeping (t, l) -> Row l j -> absent (Places.probe w) t -> placed_once w t = true.
Proof.
  intros K Hr Ha. pose proof (ke_undo _ K j Hr) as [_ U2 U3 U4]. cbn [fst] in *.
  unfold placed_once. cbn [List.forallb fst snd].
  rewrite (not_both (Places.data_src w) (Places.data_dst w));
    [|by apply (data_once _ _ t l K); [listed|listed|apply apart_ne; off]].
  rewrite (not_both (Places.metadata_src w) (Places.metadata_dst w));
    [|by apply (record_once _ _ t l K); [listed|listed|apply apart_ne; off]].
  rewrite (not_both (Places.clone_metadata w) (Places.retired_metadata w));
    [|intros H; destruct U2 as [U2|U2]; [by destruct (present_absent _ _ H U2)|done]].
  rewrite (not_both (Places.clone_data w) (Places.retired_data w));
    [|intros H; destruct U3 as [U3|U3]; [by destruct (present_absent _ _ H U3)|done]].
  cbn [orb negb]. rewrite !andb_true_r. apply andb_true_iff. split; apply negb_true_iff.
  - destruct U4 as [[C1 C2]|Hv].
    + unfold exists_at at 1 2. by rewrite C1, C2.
    + destruct (exists_at (Places.data_src w) t) eqn:H1; [by rewrite andb_false_r|].
      destruct (exists_at (Places.data_dst w) t) eqn:H2; [by rewrite andb_false_r|].
      apply exists_absent in H1, H2. destruct Hv. each ltac:(done).
  - destruct (exists_at (Places.metadata_src w) t) eqn:H1; [by rewrite andb_false_r|].
    destruct (exists_at (Places.metadata_dst w) t) eqn:H2; [by rewrite andb_false_r|].
    apply exists_absent in H1, H2. destruct (ke_record _ K) as (p & Hp & Hl & _). cbn [fst] in Hl.
    repeat (apply elem_of_cons in Hp as [->|Hp]; [congruence|]). by apply elem_of_nil in Hp.
Qed.

Lemma goes_check_restorable j F :
  (forall t, F t -> absent (Places.probe w) t) -> mine original new jid j ->
  goes (keep j F) (check_restorable from_slice j w) fine.
Proof.
  intros HF (_ & _ & Hn & _). unfold check_restorable.
  eapply goes_bind; [apply goes_look|]. intros f. cbv beta. destruct f; cbn [negb].
  2: { apply goes_absurd. intros t l (Hp & (Hr & Ht) & K).
       by rewrite (keeping_placed t l j K Hr (HF t Ht)) in Hp. }
  eapply goes_conseq; [|intros t l [_ Ht]; exact Ht|done].
  apply (goes_bind _ _ (fun _ => keep j F)).
  { eapply goes_conseq; [apply (goes_ret tt)|done|]. by intros a t l [_ ?]. }
  intros _. apply goes_exists; cbn [negb]; [|apply goes_fine].
  eapply goes_bind.
  - apply goes_ask. intros t l [(_ & (_ & Hp)) K].
    destruct (ke_reads _ K) as [Ha|(body & s & Hl & _)]; cbn [fst] in *.
    + by destruct (present_absent _ _ Hp Ha).
    + by rewrite Hl.
  - intros body w0 Hf (Hb & (_ & (_ & Hp)) & K). exists tt, w0.
    destruct (ke_reads _ K) as [Ha|(body' & s & Hl & Hs & Hid)]; cbn [fst] in *.
    + by destruct (present_absent _ _ Hp Ha).
    + rewrite Hl in Hb. injection Hb as <-. rewrite Hs, Hn, Hid.
      by rewrite bool_decide_eq_true_2.
Qed.

Lemma goes_retire src dst name j F :
  DowngradeJournal.phase j = DowngradePhase.RollbackRequired ->
  dst = join retired_dir name -> apart src dst -> src <> [] ->
  (forall t, layout t -> dirs_to src t) ->
  (forall t l, keeping (t, l) -> Row l j -> present src t -> absent dst t) ->
  framed (off_dir retired_dir) F -> framed (off_dir retired_dir) (present src) ->
  framed (off_dir retired_dir) (absent dst) ->
  goes (keep j F) (retire src dst) fine.
Proof.
  intros Hp -> Ha Hs Hd Hfree F1 F2 F3. unfold retire.
  apply goes_exists; cbn [negb]; [|apply goes_fine]. apply goes_exists.
  - apply goes_absurd. intros t l [(Hr & (_ & H1) & H2) K].
    eapply present_absent; [exact H2|by eapply Hfree].
  - unfold join. rewrite parent_snoc.
    eapply goes_bind; [eapply (goes_keeps _ keeping)|].
    + apply steps_keeping.
    + apply (triple_make_place from_slice to_vec_pretty value_of original new jid retired_dir j);
        [apply above_refl|by rewrite Hp|].
      intros t t' Kp ((? & ?) & ?). split; [split; [by eapply F1|by eapply F2]|by eapply F3].
    + apply goes_make_dir. intros t l [_ K]. apply make_retired_works, (ke_layout _ K).
    + intros []. apply goes_move_new. intros t l ((_ & ((_ & H1) & H2)) & Hdirs & K).
      pose proof (ke_layout _ K) as L. apply move_works; try done; [by apply Hd|].
      apply dirs_to_in; [apply Hdirs, above_refl|]. intros q Hq _. by apply Hdirs.
Qed.

Lemma goes_discard_staging j F : goes (keep j F) (discard_staging w) fine.
Proof.
  unfold discard_staging. apply goes_exists; apply goes_exists; cbn [andb]; try apply goes_fine.
  apply (goes_bind _ _ (fun _ _ _ => True)); [|intros _; apply goes_sync].
  apply goes_from. intros t l [(_ & ((_ & H1) & _)) K]. pose proof (ke_layout _ K) as L.
  destruct (lay_staging _ L) as [Ha|[es He]]; [by destruct (present_absent _ _ H1 Ha)|].
  cbn [fst] in He. unfold remove_dir_all. eapply goes_bind; [apply goes_look|]. intros found.
  apply (goes_fact _ _ _ (found = Some (Dir es))); [by intros t' l' (-> & -> & _)|]. intros ->.
  eapply goes_conseq; [apply (goes_remove_tree _ _ t); [done|exact He|]|by intros t' l' (_ & ? & _)|done].
  by apply (dirs_to_archive "clone-user-data.partial").
Qed.

Lemma goes_store j to F :
  mine original new jid j ->
  DowngradePhase.allows (DowngradeJournal.phase j) Mode.Clone to = true ->
  requires (patched j to Patch.default) = true ->
  goes (keep j F) (store_phase (DowngradeJournal.journal_id j) to Patch.default) fine.
Proof.
  intros (Hid & _ & _ & Hm) Ha Hr. rewrite Hid. apply goes_commit.
  intros t l [((Hl & Hin & _) & _) _].
  rewrite downgrade_advance_spec by (by try apply law_schema). rewrite Hin, Hm, Ha, Hr. cbn [negb].
  by eexists _, _.
Qed.

Lemma goes_then {A B} j F G (m : flow A) (k : A -> flow B) Q X :
  triple Steps (at_ original new jid j F) m (fun _ => at_ original new jid j G) X ->
  goes (keep j F) m fine -> (forall a, goes (keep j G) (k a) Q) -> goes (keep j F) (m ≫= k) Q.
Proof.
  intros Ht Hg Hk. eapply goes_bind; [by eapply (goes_keeps _ keeping _ _ _ _ _ steps_keeping Ht)|].
  intros a. eapply goes_conseq; [apply Hk| |by intros x t l H]. intros t l (Hat & _ & K). by split.
Qed.

Lemma goes_weaken {A} j (F G : tree -> Prop) (m : flow A) Q :
  goes (keep j G) m Q -> (forall t, F t -> G t) -> goes (keep j F) m Q.
Proof.
  intros H HF. eapply goes_conseq; [exact H| |by intros a t l HQ]. intros t l [[Hr Ht] K].
  split; [split; [done|auto]|done].
Qed.

Lemma off_retired_record t l j :
  keeping (t, l) -> Row l j -> present (Places.clone_metadata w) t ->
  absent (Places.retired_metadata w) t.
Proof.
  intros K Hr Hp. destruct (un_record _ _ (ke_undo _ K j Hr)) as [Ha|Ha]; [|done].
  by destruct (present_absent _ _ Hp Ha).
Qed.

Lemma off_retired_data t l j :
  keeping (t, l) -> Row l j -> present (Places.clone_data w) t -> absent (Places.retired_data w) t.
Proof.
  intros K Hr Hp. destruct (un_data _ _ (ke_undo _ K j Hr)) as [Ha|Ha]; [|done].
  by destruct (present_absent _ _ Hp Ha).
Qed.

Lemma goes_roll_back j :
  mine original new jid j -> DowngradeJournal.phase j = DowngradePhase.RollbackRequired ->
  goes (keep j (fun _ => True)) (roll_back from_slice j w) fine.
Proof.
  intros Hm Hp. unfold roll_back. rewrite Hp, bool_decide_eq_true_2 by done.
  apply (goes_bind _ _ (fun a t l => a = j /\ keep j (fun _ => True) t l)); [apply goes_ret|].
  intros j1. apply (goes_fact _ _ _ (j1 = j)); [by intros t l [? _]|]. intros ->.
  eapply goes_conseq; [|by intros t l [_ H]; exact H|intros a t l H; exact H].
  eapply goes_then; [apply (triple_settle_probe _ _ _ _ _ _ j (fun _ => True)); [by rewrite Hp|done]
    |apply goes_settle|intros []].
  eapply goes_then;
    [apply triple_check_restorable|apply goes_check_restorable; [by intros t [_ ?]|done]|intros []].
  eapply goes_weaken; [|intros t [[_ Ha] _]; exact Ha].
  eapply goes_then.
  { apply (triple_retire _ _ _ _ _ _ RetireRecord); rewrite ?Hp; first [done|solve_frame]. }
  { apply (goes_retire _ _ (new +:+ ".json") j); try done; try solve_frame;
      [off|intros t; apply dirs_to_profiles|]. intros t l K Hr. by apply (off_retired_record t l j). }
  intros [].
  eapply goes_then.
  { apply (triple_retire _ _ _ _ _ _ RetireData); rewrite ?Hp; first [done|solve_frame]. }
  { apply (goes_retire _ _ "user-data" j); try done; try solve_frame;
      [off|intros t; apply dirs_to_data|]. intros t l K Hr. by apply (off_retired_data t l j). }
  intros [].
  eapply goes_then; [apply triple_discard_staging; first [done|solve_frame]
    |apply goes_discard_staging|intros []].
  eapply goes_then.
  { apply (triple_restore _ _ _ _ _ _ RestoreData); rewrite ?Hp; first [done|solve_frame]. }
  { apply goes_restore; try done; [|off|intros t; apply dirs_to_data|by exists "user-data"].
    intros t l K. apply (data_once _ _ t l K); [listed|listed|apply apart_ne; off]. }
  intros [].
  eapply goes_then.
  { apply (triple_restore _ _ _ _ _ _ RestoreRecord); rewrite ?Hp; first [done|solve_frame]. }
  { apply goes_restore; try done; [|off|intros t; apply dirs_to_profiles|by eexists].
    intros t l K. apply (record_once _ _ t l K); [listed|listed|apply apart_ne; off]. }
  intros [].
  eapply goes_bind; [apply goes_store; [done|by rewrite Hp|done]|]. intros nxt.
  eapply goes_bind; [apply goes_outcome_change|]. intros r. apply goes_fine.
Qed.
Lemma goes_rollback_required j :
  mine original new jid j -> DowngradePhase.is_terminal (DowngradeJournal.phase j) = false ->
  goes (keep j (fun _ => True))
    (if bool_decide (DowngradeJournal.phase j = DowngradePhase.RollbackRequired) then mret j
     else store_phase (DowngradeJournal.journal_id j) DowngradePhase.RollbackRequired Patch.default)
    fine.
Proof.
  intros Hm Ht. case_bool_decide as Hp; [apply goes_fine|]. apply goes_store; [done|..].
  - by destruct (DowngradeJournal.phase j).
  - unfold requires. cbn. by destruct (DowngradeJournal.mode j).
Qed.

Lemma roll_back_required j :
  DowngradeJournal.phase j = DowngradePhase.RollbackRequired ->
  (if bool_decide (DowngradeJournal.phase j = DowngradePhase.RollbackRequired) then mret j
   else store_phase (DowngradeJournal.journal_id j) DowngradePhase.RollbackRequired Patch.default)
  = (mret j : flow DowngradeJournal.t).
Proof. intros Hp. by rewrite bool_decide_eq_true_2. Qed.

Lemma goes_roll_back_any j :
  mine original new jid j -> DowngradePhase.is_terminal (DowngradeJournal.phase j) = false ->
  goes (keep j (fun _ => True)) (roll_back from_slice j w) fine.
Proof.
  intros Hm Ht. eapply goes_bind.
  - eapply (goes_keeps _ keeping _ _ _ _ _ steps_keeping).
    + by apply triple_rollback_required.
    + by apply goes_rollback_required.
  - intros j1. apply (goes_fact _ _ _ (mine original new jid j1
                        /\ DowngradeJournal.phase j1 = DowngradePhase.RollbackRequired)).
    { by intros t l (((_ & _ & ?) & ? & _) & _). }
    intros [Hm1 Hp1]. pose proof (goes_roll_back j1 Hm1 Hp1) as H.
    unfold roll_back in H. rewrite roll_back_required in H by done.
    intros w0 Hf ((Hr & _) & _ & K). exact (H w0 Hf (conj (conj Hr I) K)).
Qed.
(** ** The claim *)

Lemma goes_find {B} j F (k : DowngradeJournal.t -> flow B) Q :
  mine original new jid j -> goes (keep j F) (k j) Q ->
  goes (keep j F) (find_journal (DowngradeJournal.journal_id j) ≫= k) Q.
Proof.
  intros (Hid & _) Hk. eapply goes_bind.
  - apply (goes_query _ (keep j F)). intros t l (((_ & Hin & _) & _) & _).
    unfold downgrade_get. rewrite Hid, Hin. done.
  - intros again w0 Hf (Hfound & Hkeep). pose proof Hkeep as (((_ & Hin & _) & _) & _).
    unfold downgrade_get in Hfound. rewrite Hid, Hin in Hfound. injection Hfound as <-.
    exact (Hk w0 Hf Hkeep).
Qed.

Lemma goes_claim P original' new' : goes P (claim [] [] original' new') (fun _ => P).
Proof.
  unfold claim, begin_user_mutation, begin_claim. cbn [List.existsb]. apply goes_for_each.
  intros key. rewrite andb_false_r. eapply goes_conseq; [apply (goes_ret tt P)|done|]. by intros a t l [_ ?].
Qed.

Lemma goes_claimed j F :
  mine original new jid j -> goes (keep j F) (claimed [] [] jid) fine.
Proof.
  intros Hm. pose proof Hm as (Hid & _ & _ & Hmode). unfold claimed. rewrite <- Hid at 1.
  apply goes_find; [done|]. rewrite Hmode, bool_decide_eq_true_2 by done. cbn [negb].
  assert (goes (keep j F)
    (_ ← claim [] [] (DowngradeJournal.original_local_profile_id j)
           (DowngradeJournal.new_local_profile_id j);
     j' ← find_journal (DowngradeJournal.journal_id j);
     if negb (String.eqb (DowngradeJournal.original_local_profile_id j')
                (DowngradeJournal.original_local_profile_id j))
        || negb (bool_decide (DowngradeJournal.new_local_profile_id j'
                              = DowngradeJournal.new_local_profile_id j))
     then bail (Coded "journal.readbackMismatch") else mret j') fine) as Hrest.
  { eapply goes_bind; [apply goes_claim|intros []; cbv beta]. apply goes_find; [done|].
    rewrite String.eqb_refl, bool_decide_eq_true_2 by done. apply goes_fine. }
  rewrite Hid in Hrest.
  destruct (DowngradePhase.resume (DowngradeJournal.phase j)); first [exact Hrest|apply goes_fine].
Qed.

Lemma goes_roll_back_clone j :
  mine original new jid j -> DowngradePhase.is_terminal (DowngradeJournal.phase j) = false ->
  goes (keep j (fun _ => True))
    (roll_back_clone uuid_canonical from_slice data_root false [] [] jid) fine.
Proof.
  intros Hm Ht. unfold roll_back_clone, refuse_while_migrating.
  apply (goes_bind _ _ (fun _ => keep j (fun _ => True))).
  { eapply goes_conseq; [apply (goes_ret tt)|done|]. by intros a t l [_ ?]. }
  intros _. eapply goes_bind.
  - eapply (goes_keeps _ keeping _ _ _ _ _ steps_keeping).
    + by apply (triple_claimed from_slice to_vec_pretty value_of original new jid [] [] j).
    + by apply goes_claimed.
  - intros a. eapply (goes_fact _ _ _ (a = j /\ places uuid_canonical data_root j = Ok w)).
    { intros t l ((-> & Hr & _) & _ & K). split; [done|exact (ke_places _ K j Hr)]. }
    intros [-> Hplaces]. case_bool_decide as Hp; [by rewrite Hp in Ht|]. rewrite Hplaces.
    eapply goes_bind; [apply goes_result; done|]. intros w'.
    apply (goes_fact _ _ _ (w' = w)); [by intros t l [[= ->] _]|]. intros ->.
    apply (goes_bind _ _ fine); [|intros next; apply goes_fine].
    eapply goes_conseq; [by apply goes_roll_back_any| |done].
    intros t l (_ & (_ & Hr & _) & _ & K). by split.
Qed.



Lemma goes_home j :
  mine original new jid j -> DowngradePhase.is_terminal (DowngradeJournal.phase j) = false ->
  goes (keep j (fun _ => True))
    (roll_back_clone uuid_canonical from_slice data_root false [] [] jid)
    (fun d t l => CloneDone.phase d = DowngradePhase.RolledBack
       /\ ready from_slice value_of original new jid DowngradePhase.RolledBack t /\ keeping (t, l)).
Proof.
  intros Hm Ht. eapply goes_conseq.
  - eapply (goes_keeps _ keeping _ _ _ _ _ steps_keeping); [|by apply (goes_roll_back_clone j)].
    eapply triple_pre; [by apply triple_roll_back_clone|]. intros t l [Hr _]. by exists j.
  - done.
  - by intros d t l ((_ & Hp & Hready) & _ & K).
Qed.

End progress.

(** ** The theorem *)

Section rollback.
Context (from_slice : bytes -> option StoredProfile.t).
Context (to_vec_pretty : StoredProfile.t -> option bytes).
Context (value_of : bytes -> option json).
Context (original new jid : string) (distinct : original <> new).
Context (uuid_canonical : string -> option string).
Context (sha256 : bytes -> bytes) (sha256_length : forall x, blen (sha256 x) = 32).
Context (data_root : string).
Context (reads_back : forall s body, to_vec_pretty s = Some body ->
  exists s', from_slice body = Some s' /\ StoredProfile.id s' = StoredProfile.id s).

Abbreviation w := (Places.of_ids original new jid).

(** A disk on which the flow has done nothing yet. *)
Record fresh (record : tree) (data : option tree) (t : tree) : Prop := {
  fr_record : sole (record_places original new jid) record t;
  fr_data : data_kept original new jid data t;
  fr_layout : layout original new jid t;
  fr_clone : absent (Places.clone_metadata w) t /\ absent (Places.clone_data w) t;
  fr_retired : absent (Places.retired_metadata w) t /\ absent (Places.retired_data w) t }.

Lemma fresh_keeping record data w0 :
  fresh record data (disk w0) ->
  (forall j, row original new jid (ledger w0) j ->
     DowngradeJournal.phase j = DowngradePhase.Created
     /\ places uuid_canonical data_root j = Ok w) ->
  keeping from_slice value_of original new jid uuid_canonical data_root record data (state w0).
Proof.
  intros [F1 F2 F3 [C1 C2] [R1 R2]] Hj. split; cbn [state fst snd]; try done.
  - intros j Hr. by rewrite (proj1 (Hj j Hr)).
  - by left.
  - intros j Hr. split; [done|by left|by left|by left].
  - intros j Hr. by apply Hj.
Qed.

(** C6. However often the flow was interrupted, an open journal can be rolled back: after any
    history of runs and rollbacks in which calls fail and processes are killed while the
    power stays on, a rollback that finds the profiles idle and whose own calls succeed returns
    [ROLLED_BACK]; then the original's record and its user data are in place, unchanged, and
    the clone is not. *)
Theorem rollback_always_succeeds w0 record data evs e j :
  tracking original new jid w0 -> fresh record data (disk w0) ->
  (forall j0, row original new jid (ledger w0) j0 ->
     DowngradeJournal.phase j0 = DowngradePhase.Created
     /\ places uuid_canonical data_root j0 = Ok w) ->
  Forall powered evs ->
  let w1 := history from_slice to_vec_pretty value_of jid uuid_canonical sha256 data_root w0 evs in
  row original new jid (ledger w1) j ->
  DowngradePhase.is_terminal (DowngradeJournal.phase j) = false ->
  migrating e = false -> claims e = [] -> running e = [] ->
  exists d w2,
    roll_back_clone uuid_canonical from_slice data_root (migrating e) (claims e) (running e) jid
      (lucky_world w1 []) = (Some (Ok d), w2)
    /\ CloneDone.phase d = DowngradePhase.RolledBack
    /\ lookup (Places.metadata_src w) (disk w2) = Some record
    /\ (lookup (Places.data_src w) (disk w2) = data
        \/ data = None /\ lookup (Places.data_src w) (disk w2) = Some (Dir []))
    /\ absent (Places.clone_metadata w) (disk w2) /\ absent (Places.clone_data w) (disk w2).
Proof.
  intros Hw Hfresh Hcreated Hp w1 Hr Ht -> -> ->.
  pose proof (history_steps from_slice to_vec_pretty value_of original new jid distinct
    uuid_canonical sha256 sha256_length data_root w0 evs Hw Hp) as Hsteps.
  pose proof (steps_keeping _ _ _ _ _ _ distinct _ _ reads_back record data _ _ Hsteps
    (fresh_keeping _ _ _ Hfresh Hcreated)) as K.
  destruct (goes_home from_slice to_vec_pretty value_of original new jid distinct uuid_canonical
    data_root reads_back record data j (proj2 (proj2 Hr)) Ht (lucky_world w1 []) eq_refl)
    as (d & w2 & Hrun & _ & Hphase & Hready & [_ K1 K2 _ _ _ _]); [by split|].
  destruct (rolled_back_home from_slice value_of original new jid record data (disk w2) K1 K2 Hready)
    as [H1 H2].
  exists d, w2. destruct Hready as (A1 & A2 & A3 & A4 & A5). by split_and!.
Qed.

End rollback.

(** ** The sample flow *)

Module Rollback.
Import Sample.

Lemma reads_back s body :
  to_vec_pretty s = Some body ->
  exists s', from_slice body = Some s' /\ StoredProfile.id s' = StoredProfile.id s.
Proof.
  intros [= <-]. eexists. split; [reflexivity|]. cbn [StoredProfile.id]. unfold as_bytes.
  apply String.string_of_list_byte_of_string.
Qed.

Lemma start_fresh : fresh "o" "n" jid record (Some data) (disk start).
Proof.
  split; [apply start_record|apply start_data| |split; reflexivity|split; reflexivity].
  split; first [by eexists | by left].
Qed.

Lemma start_placed j0 :
  row "o" "n" jid (ledger start) j0 ->
  DowngradeJournal.phase j0 = DowngradePhase.Created
  /\ places (fun s => Some s) "/d" j0 = Ok (Places.of_ids "o" "n" jid).
Proof. intros (_ & Hin & _). vm_compute in Hin. injection Hin as <-. by vm_compute. Qed.

Definition interrupted : list Event := [Run env (killed 46); RollBack env (killed 7)].

Abbreviation played := (history from_slice to_vec_pretty value_of jid (fun s => Some s) sha256 "/d"
  start interrupted).

Lemma played_open :
  exists j, row "o" "n" jid (ledger played) j
    /\ DowngradeJournal.phase j = DowngradePhase.RollbackRequired.
Proof.
  assert (phase_of played = Some DowngradePhase.RollbackRequired) as Hp by (vm_compute; reflexivity).
  destruct (history_safe from_slice to_vec_pretty value_of "o" "n" jid distinct (fun s => Some s)
    sha256 sha256_length "/d" (fun _ => True) start interrupted (fun _ _ _ _ _ => I) start_tracked
    (fun _ _ => I)) as [[j Hj] _].
  exists j. split; [exact Hj|]. destruct Hj as (_ & Hin & _). unfold phase_of in Hp.
  rewrite Hin in Hp. by injection Hp.
Qed.

(** A run that is killed after it wrote the clone, and a rollback that is killed half way. *)
Lemma rollback_always_succeeds_witness :
  lookup ["profiles"; "o.json"] (disk played) = None
  /\ exists d w2,
       roll_back_clone (fun s => Some s) from_slice "/d" false [] [] jid (lucky_world played [])
         = (Some (Ok d), w2)
       /\ lookup ["profiles"; "o.json"] (disk w2) = Some record.
Proof.
  split; [vm_compute; reflexivity|].
  destruct played_open as [j [Hj Hc]].
  assert (Forall powered interrupted) as Hpow by (repeat constructor).
  destruct (rollback_always_succeeds from_slice to_vec_pretty value_of "o" "n" jid distinct
    (fun s => Some s) sha256 sha256_length "/d" reads_back start record (Some data)
    interrupted env j start_tracked start_fresh start_placed
    Hpow Hj (f_equal DowngradePhase.is_terminal Hc) eq_refl eq_refl eq_refl)
    as (d & w2 & Hrun & _ & Hrec & _).
  exists d, w2. exact (conj Hrun Hrec).
Defined.

End Rollback.
