(* ===== verification/EnvelopeV2.v ===== *)
(** * Envelope suite 2 (shared/src/envelope_v2.rs)

    The object a snapshot is uploaded as: a preamble of 64 bytes, the exact intent, the exact
    DEK slot, and the frames of STREAM LE31. Here: the preamble and the closed maps an
    object carries, and their binding to one another. [EnvelopeObject] seals and opens. *)

From S2P Require Import Prelude Bytes Canonical CanonicalFacts CanonicalDecode CanonicalTheorems.
From S2P Require Import RecordFields WireMap Keys Envelope ProfileLease.

Definition MAGIC : bytes := as_bytes "SHARDXBK".
Definition ENVELOPE_VERSION : Z := 2.
Definition PREAMBLE_LEN : Z := 64.
Definition STREAM_NONCE_PREFIX_LEN : Z := 20.
Definition MIN_FRAME_PLAINTEXT_SIZE : Z := 65536.
Definition MAX_FRAME_PLAINTEXT_SIZE : Z := 4194304.
Definition MAX_INTENT_LEN : Z := 65536.
Definition MAX_DEK_SLOT_LEN : Z := 16384.
Definition L_ENVELOPE_PREAMBLE := nul_label "SHARDX-ENVELOPE-PREAMBLE-V2".
Definition SUITE_ID : Z := ENVELOPE_SUITE_ID_XCHACHA20POLY1305_STREAM_LE31.
Definition WRAPPED_DEK_LEN : Z := DEK_LEN + AEAD_TAG_LEN.
Definition MAX_DEK_SLOT_CONTEXT_LEN : Z := 4096.

#[export] Instance crash_eq_dec : EqDecision crash.
Proof. solve_decision. Defined.
#[export] Instance result_eq_dec {E A} `{EqDecision E, EqDecision A} : EqDecision (result E A).
Proof. solve_decision. Defined.
#[export] Instance cbor_error_eq_dec : EqDecision CborError.
Proof. solve_decision. Defined.
#[export] Instance record_error_eq_dec : EqDecision RecordError.
Proof. solve_decision. Defined.

(** [std::io::Error]: the code looks at its kind only. *)
Module IoError.

Inductive t :=
| UnexpectedEof
| Other (code : Z).

#[global] Instance eq_dec : EqDecision t.
Proof. solve_decision. Defined.

End IoError.

Inductive EnvelopeError :=
| Malformed (rule : string)
| Mismatch (what : string)
| Record_ (e : RecordError)
| KeyUnwrap
| AeadFailed
| Io (e : IoError.t).

#[export] Instance envelope_error_eq_dec : EqDecision EnvelopeError.
Proof. solve_decision. Defined.

Definition frame_size_ok (size : Z) : bool :=
  (MIN_FRAME_PLAINTEXT_SIZE <=? size) && (size <=? MAX_FRAME_PLAINTEXT_SIZE).

(** ** The preamble *)

Module Preamble.

Record t := mk {
  intent_len : Z;
  dek_slot_len : Z;
  frame_plaintext_size : Z;
  intent_sha256 : bytes }.

#[global] Instance eq_dec : EqDecision t.
Proof. solve_decision. Defined.

Definition encode (self : t) : bytes :=
  MAGIC ++ be_bytes 2 ENVELOPE_VERSION ++ be_bytes 2 PREAMBLE_LEN ++ be_bytes 2 SUITE_ID
  ++ be_bytes 2 0 ++ be_bytes 4 (intent_len self) ++ be_bytes 4 (dek_slot_len self)
  ++ be_bytes 4 (frame_plaintext_size self) ++ be_bytes 4 0 ++ intent_sha256 self.

Definition slice (from to : nat) (p : bytes) : bytes := take (to - from) (drop from p).
Definition u16_at (i : nat) (p : bytes) : Z := of_be (slice i (i + 2) p).
Definition u32_at (i : nat) (p : bytes) : Z := of_be (slice i (i + 4) p).

Definition rule (ok : bool) (name : string) : result EnvelopeError unit :=
  if ok then Ok tt else Err (Malformed name).

Definition parse (p : bytes) : result EnvelopeError t :=
  _ ← rule (bool_decide (slice 0 8 p = MAGIC)) "magic";
  _ ← rule (u16_at 8 p =? ENVELOPE_VERSION) "envelope_version";
  _ ← rule (u16_at 10 p =? PREAMBLE_LEN) "preamble_length";
  _ ← rule (u16_at 12 p =? SUITE_ID) "suite_id";
  _ ← rule (u16_at 14 p =? 0) "flags";
  _ ← rule (u32_at 28 p =? 0) "reserved";
  let intent_len := u32_at 16 p in
  _ ← rule ((1 <=? intent_len) && (intent_len <=? MAX_INTENT_LEN)) "intent_len";
  let dek_slot_len := u32_at 20 p in
  _ ← rule ((1 <=? dek_slot_len) && (dek_slot_len <=? MAX_DEK_SLOT_LEN)) "dek_slot_len";
  let frame_plaintext_size := u32_at 24 p in
  _ ← rule (frame_size_ok frame_plaintext_size) "frame_plaintext_size";
  mret (mk intent_len dek_slot_len frame_plaintext_size (slice 32 64 p)).

Definition wf (x : t) : bool :=
  (1 <=? intent_len x) && (intent_len x <=? MAX_INTENT_LEN)
  && (1 <=? dek_slot_len x) && (dek_slot_len x <=? MAX_DEK_SLOT_LEN)
  && frame_size_ok (frame_plaintext_size x) && (blen (intent_sha256 x) =? 32).

End Preamble.

Definition preamble_sha256 (sha256 : bytes -> bytes) (preamble : bytes) : bytes :=
  domain_hash sha256 L_ENVELOPE_PREAMBLE preamble.

(** ** The intent a writer makes *)

Definition object_size_ok (value : Z) : bool := (1 <=? value) && (value <=? MAX_OBJECT_SIZE).

Definition build_intent_v2 (sha256 : bytes -> bytes) (ids : IntentIds.t) (nums : IntentNumbers.t)
    (stream_nonce_prefix : bytes) (previous_signed_head_hash : option bytes)
    (slot : SlotMaterial.t) : result IntentError IntentMaterial.t :=
  if negb (frame_size_ok (IntentNumbers.frame_plaintext_size nums)) then
    Err (OutOfBounds "frame_plaintext_size")
  else if negb (object_size_ok (IntentNumbers.max_plaintext_size nums)) then
    Err (OutOfBounds "max_plaintext_size")
  else if negb (object_size_ok (IntentNumbers.max_ciphertext_size nums)) then
    Err (OutOfBounds "max_ciphertext_size")
  else
    build_intent sha256 ids nums SUITE_ID stream_nonce_prefix previous_signed_head_hash slot.

(** ** The closed maps *)

Definition exact_u16 (field : string) (want : Z) : fields unit :=
  n ← Fields.u16 field;
  fail_if (negb (n =? want)) (BadValue field).

Definition registry_id (field : string) (pinned : Z) : fields unit :=
  id ← Fields.u16 field;
  fail_if (negb (id =? pinned)) (Unsupported field id).

#[global] Hint Unfold exact_u16 registry_id frame_size_ok MIN_FRAME_PLAINTEXT_SIZE
  MAX_FRAME_PLAINTEXT_SIZE object_size_ok MAX_OBJECT_SIZE SUITE_ID
  ENVELOPE_SUITE_ID_XCHACHA20POLY1305_STREAM_LE31
  WRAP_SUITE_ID_CHACHA20POLY1305 ARCHIVE_FORMAT_ID_TAR ARCHIVE_POLICY_ID_PROFILE_SNAPSHOT
  COMPRESSION_ID_GZIP WRAP_NONCE_LEN DEK_LEN AEAD_TAG_LEN WRAPPED_DEK_LEN
  MAX_DEK_SLOT_CONTEXT_LEN STREAM_NONCE_PREFIX_LEN : wire_unfold.

Module DekSlotContextV2.

Record t := mk {
  snapshot_id : bytes;
  tenant_id : bytes;
  fleet_id : bytes;
  profile_id : bytes;
  fkek_key_id : bytes;
  key_generation : Z;
  envelope_context_nonce : bytes }.

#[global] Instance eq_dec : EqDecision t.
Proof. solve_decision. Defined.

Definition parser : fields t :=
  _ ← Fields.exact_text "domain" "shardx.envelope.dek-slot-context.v2";
  _ ← exact_u16 "version" 2;
  snapshot_id ← Fields.fixed 16 "snapshot_id";
  tenant_id ← Fields.fixed 16 "tenant_id";
  fleet_id ← Fields.fixed 16 "fleet_id";
  profile_id ← Fields.fixed 16 "profile_id";
  fkek_key_id ← Fields.fixed 32 "fkek_key_id";
  key_generation ← Fields.uint "key_generation";
  _ ← registry_id "wrap_suite_id" WRAP_SUITE_ID_CHACHA20POLY1305;
  _ ← exact_u16 "slot_index" 0;
  envelope_context_nonce ← Fields.fixed 16 "envelope_context_nonce";
  _ ← Fields.finish;
  mret (mk snapshot_id tenant_id fleet_id profile_id fkek_key_id key_generation
          envelope_context_nonce).

Definition parse : bytes -> result RecordError t := parse_map "DekSlotContextV2" parser.

(** The entries [slot_context] of envelope.rs writes. *)
Definition ids (x : t) : SlotIds.t :=
  SlotIds.mk (tenant_id x) (fleet_id x) (profile_id x) (snapshot_id x) (fkek_key_id x)
    (envelope_context_nonce x).
Definition put (x : t) : list (string * Value) := slot_context (ids x) (key_generation x).

Definition wf (x : t) : bool :=
  (blen (snapshot_id x) =? 16) && (blen (tenant_id x) =? 16) && (blen (fleet_id x) =? 16)
  && (blen (profile_id x) =? 16) && (blen (fkek_key_id x) =? 32)
  && (blen (envelope_context_nonce x) =? 16).

#[global] Hint Unfold put wf ids slot_context : wire_unfold.

#[global] Instance wire : WireMap "DekSlotContextV2" parser put wf.
Proof. wire_map ltac:(fun x => destruct x). Qed.

End DekSlotContextV2.

Module EnvelopeIntentV2.

Record t := mk {
  snapshot_id : bytes;
  tenant_id : bytes;
  fleet_id : bytes;
  profile_id : bytes;
  lease_id : bytes;
  manifest_replay_id : bytes;
  target_version : Z;
  base_version : Z;
  fencing_token : Z;
  key_generation : Z;
  fkek_key_id : bytes;
  frame_plaintext_size : Z;
  stream_nonce_prefix : bytes;
  max_plaintext_size : Z;
  max_ciphertext_size : Z;
  created_at_ms : Z;
  previous_signed_head_hash : option bytes;
  intended_signer_signing_key_id : bytes;
  server_instance_id : bytes;
  restore_epoch : Z;
  dek_slot_context_hash : bytes;
  dek_slot_sha256 : bytes }.

(** [u32::try_from(..).ok().filter(frame_size_ok)]. *)
Definition take_frame_size : fields Z :=
  n ← Fields.uint "frame_plaintext_size";
  if (n <=? U32_MAX) && frame_size_ok n then mret n else throw (BadValue "frame_plaintext_size").

(** The decoder caps every integer at [i64::MAX]: [base_version + 1] cannot overflow. *)
Definition parser : fields t :=
  _ ← Fields.exact_text "domain" "shardx.envelope.intent.v2";
  _ ← exact_u16 "version" 2;
  snapshot_id ← Fields.fixed 16 "snapshot_id";
  tenant_id ← Fields.fixed 16 "tenant_id";
  fleet_id ← Fields.fixed 16 "fleet_id";
  profile_id ← Fields.fixed 16 "profile_id";
  lease_id ← Fields.fixed 16 "lease_id";
  manifest_replay_id ← Fields.fixed 16 "manifest_replay_id";
  target_version ← Fields.uint "target_version";
  base_version ← Fields.uint "base_version";
  fencing_token ← Fields.uint "fencing_token";
  key_generation ← Fields.uint "key_generation";
  fkek_key_id ← Fields.fixed 32 "fkek_key_id";
  _ ← exact_u16 "preamble_version" 2;
  _ ← registry_id "envelope_suite_id" SUITE_ID;
  _ ← registry_id "wrap_suite_id" WRAP_SUITE_ID_CHACHA20POLY1305;
  _ ← registry_id "archive_format_id" ARCHIVE_FORMAT_ID_TAR;
  _ ← registry_id "archive_policy_id" ARCHIVE_POLICY_ID_PROFILE_SNAPSHOT;
  _ ← registry_id "compression_id" COMPRESSION_ID_GZIP;
  frame_plaintext_size ← take_frame_size;
  stream_nonce_prefix ← Fields.fixed STREAM_NONCE_PREFIX_LEN "stream_nonce_prefix";
  final ← Fields.req "final_frame_required";
  _ ← fail_if (negb (bool_decide (final = VBool true))) (BadValue "final_frame_required");
  max_plaintext_size ← Fields.uint "max_plaintext_size";
  max_ciphertext_size ← Fields.uint "max_ciphertext_size";
  _ ← fail_first
        [(negb (object_size_ok max_plaintext_size), BadValue "max_plaintext_size");
         (negb (object_size_ok max_ciphertext_size), BadValue "max_ciphertext_size")];
  created_at_ms ← Fields.uint "created_at_ms";
  previous_signed_head_hash ← Fields.opt_fixed 32 "previous_signed_head_hash";
  intended_signer_signing_key_id ← Fields.fixed 32 "intended_signer_signing_key_id";
  server_instance_id ← Fields.fixed 16 "server_instance_id";
  restore_epoch ← Fields.uint "restore_epoch";
  dek_slot_context_hash ← Fields.fixed 32 "dek_slot_context_hash";
  dek_slot_sha256 ← Fields.fixed 32 "dek_slot_sha256";
  _ ← Fields.finish;
  _ ← fail_if (negb (target_version =? base_version + 1)) (BadValue "target_version");
  _ ← fail_if (xorb (is_some previous_signed_head_hash) (negb (base_version =? 0)))
        (BadValue "previous_signed_head_hash");
  mret (mk snapshot_id tenant_id fleet_id profile_id lease_id manifest_replay_id target_version
          base_version fencing_token key_generation fkek_key_id frame_plaintext_size
          stream_nonce_prefix max_plaintext_size max_ciphertext_size created_at_ms
          previous_signed_head_hash intended_signer_signing_key_id server_instance_id
          restore_epoch dek_slot_context_hash dek_slot_sha256).

Definition parse : bytes -> result RecordError t := parse_map "EnvelopeIntentV2" parser.

(** What [build_intent_v2] is given, and the entries it writes. *)
Definition ids (x : t) : IntentIds.t :=
  IntentIds.mk (snapshot_id x) (tenant_id x) (fleet_id x) (profile_id x) (lease_id x)
    (manifest_replay_id x) (server_instance_id x) (fkek_key_id x)
    (intended_signer_signing_key_id x).
Definition nums (x : t) : IntentNumbers.t :=
  IntentNumbers.mk (target_version x) (base_version x) (fencing_token x) (key_generation x)
    (restore_epoch x) (frame_plaintext_size x) (max_plaintext_size x) (max_ciphertext_size x)
    (created_at_ms x).
Definition slot (x : t) : SlotMaterial.t :=
  SlotMaterial.mk [] (dek_slot_context_hash x) [] (dek_slot_sha256 x).
Definition put (x : t) : list (string * Value) :=
  intent_fields (ids x) (nums x) SUITE_ID (stream_nonce_prefix x) (previous_signed_head_hash x)
    (slot x).

Definition wf (x : t) : bool :=
  (blen (snapshot_id x) =? 16) && (blen (tenant_id x) =? 16) && (blen (fleet_id x) =? 16)
  && (blen (profile_id x) =? 16) && (blen (lease_id x) =? 16)
  && (blen (manifest_replay_id x) =? 16) && (blen (fkek_key_id x) =? 32)
  && frame_size_ok (frame_plaintext_size x) && (blen (stream_nonce_prefix x) =? 20)
  && object_size_ok (max_plaintext_size x) && object_size_ok (max_ciphertext_size x)
  && opt_ok (fun h => blen h =? 32) (previous_signed_head_hash x)
  && (blen (intended_signer_signing_key_id x) =? 32) && (blen (server_instance_id x) =? 16)
  && (blen (dek_slot_context_hash x) =? 32) && (blen (dek_slot_sha256 x) =? 32)
  && (target_version x =? base_version x + 1)
  && Bool.eqb (is_some (previous_signed_head_hash x)) (negb (base_version x =? 0)).

#[global] Hint Unfold put wf ids nums slot intent_fields take_frame_size : wire_unfold.

#[global] Instance wire : WireMap "EnvelopeIntentV2" parser put wf.
Proof. wire_map ltac:(fun x => destruct x). Qed.

Definition hash (sha256 : bytes -> bytes) (exact_intent_bytes : bytes) : bytes :=
  domain_hash sha256 L_ENVELOPE_INTENT exact_intent_bytes.

End EnvelopeIntentV2.

Module DekSlotV2.

Record t := mk {
  context : DekSlotContextV2.t;
  canonical_dek_slot_context_bytes : bytes;
  dek_slot_context_hash : bytes;
  wrap_nonce_bytes : bytes;
  wrapped_dek_bytes : bytes }.

Definition parser (sha256 : bytes -> bytes) : fields t :=
  _ ← Fields.exact_text "domain" "shardx.envelope.dek-slot.v2";
  _ ← exact_u16 "version" 2;
  _ ← exact_u16 "slot_index" 0;
  context_bytes ← Fields.bytes "canonical_dek_slot_context_bytes" 1 MAX_DEK_SLOT_CONTEXT_LEN;
  context ← lift (DekSlotContextV2.parse context_bytes);
  dek_slot_context_hash ← Fields.fixed 32 "dek_slot_context_hash";
  _ ← fail_if (negb (bool_decide
        (dek_slot_context_hash = domain_hash sha256 L_DEK_SLOT_CONTEXT context_bytes)))
        (BadValue "dek_slot_context_hash");
  wrap_nonce_bytes ← Fields.fixed WRAP_NONCE_LEN "wrap_nonce_bytes";
  wrapped_dek_bytes ← Fields.fixed WRAPPED_DEK_LEN "wrapped_dek_bytes";
  _ ← Fields.finish;
  mret (mk context context_bytes dek_slot_context_hash wrap_nonce_bytes wrapped_dek_bytes).

Definition parse (sha256 : bytes -> bytes) : bytes -> result RecordError t :=
  parse_map "DekSlotV2" (parser sha256).

Definition put (x : t) : list (string * Value) :=
  [("domain", c.t "shardx.envelope.dek-slot.v2"); ("version", c.u 2); ("slot_index", c.u 0);
   ("canonical_dek_slot_context_bytes", c.b (canonical_dek_slot_context_bytes x));
   ("dek_slot_context_hash", c.b (dek_slot_context_hash x));
   ("wrap_nonce_bytes", c.b (wrap_nonce_bytes x));
   ("wrapped_dek_bytes", c.b (wrapped_dek_bytes x))].

(** The context bytes are those of the context, and hashed. *)
Definition wf (sha256 : bytes -> bytes) (x : t) : bool :=
  (1 <=? blen (canonical_dek_slot_context_bytes x))
  && (blen (canonical_dek_slot_context_bytes x) <=? MAX_DEK_SLOT_CONTEXT_LEN)
  && bool_decide (DekSlotContextV2.parse (canonical_dek_slot_context_bytes x) = Ok (context x))
  && bool_decide (dek_slot_context_hash x
                  = domain_hash sha256 L_DEK_SLOT_CONTEXT (canonical_dek_slot_context_bytes x))
  && (blen (dek_slot_context_hash x) =? 32) && (blen (wrap_nonce_bytes x) =? 12)
  && (blen (wrapped_dek_bytes x) =? 48).

#[global] Hint Unfold put wf : wire_unfold.

Lemma context_safe bs : safe (DekSlotContextV2.parse bs).
Proof. apply (wire_map_safe _ _ DekSlotContextV2.put DekSlotContextV2.wf). Qed.

Lemma context_structured bs : structured (lift (DekSlotContextV2.parse bs)).
Proof. apply structured_lift, context_safe. Qed.
#[local] Hint Resolve context_structured : wire.

#[global] Instance wire sha256 : WireMap "DekSlotV2" (parser sha256) put (wf sha256).
Proof. wire_map ltac:(fun x => destruct x). Qed.

End DekSlotV2.

(** The slot of an object, bound to the intent before any unwrap. *)
Definition bind_slot (sha256 : bytes -> bytes) (slot_bytes : bytes)
    (intent : EnvelopeIntentV2.t) : result EnvelopeError DekSlotV2.t :=
  if negb (bool_decide (domain_hash sha256 L_DEK_SLOT slot_bytes
                        = EnvelopeIntentV2.dek_slot_sha256 intent))
  then Err (Mismatch "dek_slot_sha256")
  else
    slot ← map_err Record_ (DekSlotV2.parse sha256 slot_bytes);
    let cx := DekSlotV2.context slot in
    match List.find (fun check => negb check.2)
      [("dek_slot_context_hash", bool_decide (DekSlotV2.dek_slot_context_hash slot
                                   = EnvelopeIntentV2.dek_slot_context_hash intent));
       ("snapshot_id", bool_decide (DekSlotContextV2.snapshot_id cx
                                    = EnvelopeIntentV2.snapshot_id intent));
       ("tenant_id", bool_decide (DekSlotContextV2.tenant_id cx
                                  = EnvelopeIntentV2.tenant_id intent));
       ("fleet_id", bool_decide (DekSlotContextV2.fleet_id cx
                                 = EnvelopeIntentV2.fleet_id intent));
       ("profile_id", bool_decide (DekSlotContextV2.profile_id cx
                                   = EnvelopeIntentV2.profile_id intent));
       ("fkek_key_id", bool_decide (DekSlotContextV2.fkek_key_id cx
                                    = EnvelopeIntentV2.fkek_key_id intent));
       ("key_generation", DekSlotContextV2.key_generation cx
                          =? EnvelopeIntentV2.key_generation intent)] with
    | Some (field, _) => Err (Mismatch field)
    | None => Ok slot
    end.
