(* ===== verification/EnvelopeV2Facts.v ===== *)
(** * Facts about the maps of a suite 2 object

    The preamble and the three closed maps are parsed exactly; what a reader accepts as an
    intent is what [build_intent_v2] writes. *)

From S2P Require Import Prelude Bytes Canonical CanonicalFacts CanonicalDecode CanonicalTheorems.
From S2P Require Import RecordFields WireMap Keys Envelope ProfileLease EnvelopeV2.

(** ** The preamble *)

Lemma slice_drop a b (p : bytes) : (a <= b)%nat -> drop a p = Preamble.slice a b p ++ drop b p.
Proof.
  intros H. unfold Preamble.slice. rewrite <- (take_drop (b - a) (drop a p)) at 1.
  rewrite drop_drop. do 2 f_equal. lia.
Qed.

Lemma length_slice a b (p : bytes) :
  (a <= b)%nat -> (b <= length p)%nat -> length (Preamble.slice a b p) = (b - a)%nat.
Proof. intros H1 H2. unfold Preamble.slice. rewrite length_take, length_drop. lia. Qed.

Lemma of_be_is (s : bytes) n v :
  length s = n -> 0 <= v < 256 ^ Z.of_nat n -> (be_bytes n v = s <-> of_be s = v).
Proof.
  intros <- Hv. split; [intros <-|intros <-; apply be_bytes_of_be].
  by rewrite of_be_be_bytes.
Qed.

Lemma preamble_slices (p : bytes) :
  length p = 64%nat ->
  p = Preamble.slice 0 8 p ++ Preamble.slice 8 10 p ++ Preamble.slice 10 12 p
      ++ Preamble.slice 12 14 p ++ Preamble.slice 14 16 p ++ Preamble.slice 16 20 p
      ++ Preamble.slice 20 24 p ++ Preamble.slice 24 28 p ++ Preamble.slice 28 32 p
      ++ Preamble.slice 32 64 p.
Proof.
  intros Hp. rewrite <- (drop_0 p) at 1. rewrite (slice_drop 0 8) by lia.
  rewrite (slice_drop 8 10), (slice_drop 10 12), (slice_drop 12 14), (slice_drop 14 16),
    (slice_drop 16 20), (slice_drop 20 24), (slice_drop 24 28), (slice_drop 28 32),
    (slice_drop 32 64) by lia.
  rewrite (drop_ge p 64) by lia. by rewrite app_nil_r.
Qed.

Lemma app_split (a b x y : bytes) (P Q : Prop) :
  length a = length x -> (a = x <-> P) -> (b = y <-> Q) -> a ++ b = x ++ y <-> P /\ Q.
Proof.
  intros H <- <-. split; [intros He; by apply app_inj_1|by intros [-> ->]].
Qed.

Lemma length_encode x : length (Preamble.intent_sha256 x) = 32%nat -> length (Preamble.encode x) = 64%nat.
Proof. intros H. unfold Preamble.encode. rewrite !length_app, !length_be_bytes, H. reflexivity. Qed.

Lemma preamble_encode_is p x :
  length p = 64%nat -> Preamble.wf x = true ->
  Preamble.encode x = p <->
  MAGIC = Preamble.slice 0 8 p /\ Preamble.u16_at 8 p = ENVELOPE_VERSION
  /\ Preamble.u16_at 10 p = PREAMBLE_LEN /\ Preamble.u16_at 12 p = SUITE_ID
  /\ Preamble.u16_at 14 p = 0 /\ Preamble.u32_at 16 p = Preamble.intent_len x
  /\ Preamble.u32_at 20 p = Preamble.dek_slot_len x
  /\ Preamble.u32_at 24 p = Preamble.frame_plaintext_size x
  /\ Preamble.u32_at 28 p = 0 /\ Preamble.intent_sha256 x = Preamble.slice 32 64 p.
Proof.
  intros Hp Hwf. rewrite (preamble_slices p Hp) at 1. unfold Preamble.encode.
  unfold Preamble.wf, frame_size_ok, MAX_INTENT_LEN, MAX_DEK_SLOT_LEN, MIN_FRAME_PLAINTEXT_SIZE,
    MAX_FRAME_PLAINTEXT_SIZE in Hwf.
  repeat first
    [ apply app_split; [by rewrite ?length_be_bytes, ?length_slice by (rewrite ?Hp; lia)| |]
    | apply of_be_is; [by apply length_slice; rewrite ?Hp; lia|] ]; try done; try lia;
    vm_compute; split; congruence.
Qed.

(** The preamble is the encoding of what its bytes say, and of nothing else. *)
Theorem preamble_exact p x :
  blen p = PREAMBLE_LEN ->
  Preamble.parse p = Ok x <-> Preamble.wf x = true /\ Preamble.encode x = p.
Proof.
  intros Hp. assert (length p = 64%nat) as Hl by (unfold blen, PREAMBLE_LEN in Hp; lia).
  unfold Preamble.parse, Preamble.rule. cbv zeta. split.
  - intros H.
    repeat match type of H with
      ((if ?b then _ else _) ≫= _) = _ => destruct b eqn:?; cbn [mbind result_bind] in H; [|done]
      end.
    injection H as <-. wire_facts. match goal with |- ?a = true /\ _ => assert (a = true) as Hwf end.
    { unfold Preamble.wf. cbn. rewrite !andb_true_iff. split_and!; try done; try lia.
      apply Z.eqb_eq. unfold blen. rewrite length_take, length_drop. lia. }
    split; [done|]. apply preamble_encode_is; [done..|]. by split_and!.
  - intros [Hwf He]. apply preamble_encode_is in He as (H0 & H1 & H2 & H3 & H4 & H5 & H6 & H7 & H8 & H9);
      [|done..].
    rewrite <- H0, H1, H2, H3, H4, H5, H6, H7, H8, <- H9, bool_decide_eq_true_2 by done.
    unfold Preamble.wf in Hwf. destruct x as [a b c d]. cbn in Hwf |- *.
    rewrite !andb_true_iff in Hwf. destruct Hwf as [[[[[-> ->] ->] ->] ->] _]. reflexivity.
Qed.

(** ** The closed maps *)

Lemma context_exact payload x :
  blen payload <= USIZE_MAX ->
  DekSlotContextV2.parse payload = Ok x <->
  record_ok DekSlotContextV2.put DekSlotContextV2.wf x = true
  /\ encode (c.m (DekSlotContextV2.put x)) = payload.
Proof. exact (wire_map_exact _ _ _ _ payload x). Qed.

Lemma slot_exact sha256 payload x :
  blen payload <= USIZE_MAX ->
  DekSlotV2.parse sha256 payload = Ok x <->
  record_ok DekSlotV2.put (DekSlotV2.wf sha256) x = true
  /\ encode (c.m (DekSlotV2.put x)) = payload.
Proof. exact (wire_map_exact _ _ _ _ payload x). Qed.

Lemma intent_exact payload x :
  blen payload <= USIZE_MAX ->
  EnvelopeIntentV2.parse payload = Ok x <->
  record_ok EnvelopeIntentV2.put EnvelopeIntentV2.wf x = true
  /\ encode (c.m (EnvelopeIntentV2.put x)) = payload.
Proof. exact (wire_map_exact _ _ _ _ payload x). Qed.

Lemma intent_parse_safe bs : safe (EnvelopeIntentV2.parse bs).
Proof. apply (wire_map_safe _ _ EnvelopeIntentV2.put EnvelopeIntentV2.wf). Qed.

Lemma slot_parse_safe sha256 bs : safe (DekSlotV2.parse sha256 bs).
Proof. apply (wire_map_safe _ _ DekSlotV2.put (DekSlotV2.wf sha256)). Qed.

Lemma intent_bounds x :
  record_ok EnvelopeIntentV2.put EnvelopeIntentV2.wf x = true ->
  frame_size_ok (EnvelopeIntentV2.frame_plaintext_size x) = true
  /\ object_size_ok (EnvelopeIntentV2.max_plaintext_size x) = true
  /\ object_size_ok (EnvelopeIntentV2.max_ciphertext_size x) = true
  /\ EnvelopeIntentV2.target_version x = EnvelopeIntentV2.base_version x + 1
  /\ 0 <= EnvelopeIntentV2.target_version x <= U64_MAX
  /\ is_some (EnvelopeIntentV2.previous_signed_head_hash x)
     = negb (EnvelopeIntentV2.base_version x =? 0)
  /\ blen (EnvelopeIntentV2.stream_nonce_prefix x) = 20.
Proof.
  intros [Hv Hwf]%andb_true_iff.
  assert (encodable 1 (Uint (EnvelopeIntentV2.target_version x)) = true) as Ht.
  { unfold values_ok in Hv. rewrite List.forallb_forall in Hv.
    apply (Hv ("target_version", Uint (EnvelopeIntentV2.target_version x))).
    unfold EnvelopeIntentV2.put, intent_fields, EnvelopeIntentV2.nums, c.u. cbn. tauto. }
  unfold EnvelopeIntentV2.wf in Hwf. rewrite !andb_true_iff in Hwf.
  destruct Hwf as [[[[[[[[[[[[[[[[[_ _] _] _] _] _] _] H8] H9] H10] H11] _] _] _] _] _] H17] H18].
  apply Z.eqb_eq in H17, H9. apply Bool.eqb_prop in H18. split_and!; try done.
  all: unfold encodable, MAX_SQLITE_WIRE_UINT, I64_MAX, U64_MAX in *; cbn in Ht; lia.
Qed.

(** The arrays and the integers of an intent are of their wire widths. *)
Definition intent_widths (x : EnvelopeIntentV2.t) : bool :=
  List.forallb (fun id => blen id =? 16)
    [EnvelopeIntentV2.snapshot_id x; EnvelopeIntentV2.tenant_id x; EnvelopeIntentV2.fleet_id x;
     EnvelopeIntentV2.profile_id x; EnvelopeIntentV2.lease_id x;
     EnvelopeIntentV2.manifest_replay_id x; EnvelopeIntentV2.server_instance_id x]
  && List.forallb (fun hash => blen hash =? 32)
    [EnvelopeIntentV2.fkek_key_id x; EnvelopeIntentV2.intended_signer_signing_key_id x;
     EnvelopeIntentV2.dek_slot_context_hash x; EnvelopeIntentV2.dek_slot_sha256 x]
  && opt_ok (fun hash => blen hash =? 32) (EnvelopeIntentV2.previous_signed_head_hash x)
  && (blen (EnvelopeIntentV2.stream_nonce_prefix x) =? 20)
  && values_ok (EnvelopeIntentV2.put x).

(** The widths, and the rules [build_intent_v2] checks. *)
Lemma intent_ok_split x :
  record_ok EnvelopeIntentV2.put EnvelopeIntentV2.wf x = true <->
  intent_widths x = true
  /\ frame_size_ok (EnvelopeIntentV2.frame_plaintext_size x) = true
  /\ object_size_ok (EnvelopeIntentV2.max_plaintext_size x) = true
  /\ object_size_ok (EnvelopeIntentV2.max_ciphertext_size x) = true
  /\ EnvelopeIntentV2.target_version x = EnvelopeIntentV2.base_version x + 1
  /\ is_some (EnvelopeIntentV2.previous_signed_head_hash x)
     = negb (EnvelopeIntentV2.base_version x =? 0).
Proof.
  unfold record_ok, EnvelopeIntentV2.wf, intent_widths. cbn [List.forallb].
  rewrite <- (Z.eqb_eq (EnvelopeIntentV2.target_version x)), !andb_true_r, !andb_true_iff,
    Bool.eqb_true_iff. tauto.
Qed.

Lemma intent_base_bounds x :
  values_ok (EnvelopeIntentV2.put x) = true ->
  0 <= EnvelopeIntentV2.base_version x <= I64_MAX.
Proof.
  intros H. unfold values_ok in H. rewrite List.forallb_forall in H.
  specialize (H ("base_version", Uint (EnvelopeIntentV2.base_version x))).
  unfold EnvelopeIntentV2.put, intent_fields, EnvelopeIntentV2.nums, c.u in H. cbn in H.
  unfold MAX_SQLITE_WIRE_UINT in H. specialize (H ltac:(tauto)). lia.
Qed.

Lemma built_intent_v2 sha256 payload x :
  intent_widths x = true ->
  build_intent_v2 sha256 (EnvelopeIntentV2.ids x) (EnvelopeIntentV2.nums x)
    (EnvelopeIntentV2.stream_nonce_prefix x) (EnvelopeIntentV2.previous_signed_head_hash x)
    (EnvelopeIntentV2.slot x)
  = Ok (IntentMaterial.mk payload (EnvelopeIntentV2.hash sha256 payload)) <->
  (frame_size_ok (EnvelopeIntentV2.frame_plaintext_size x) = true
   /\ object_size_ok (EnvelopeIntentV2.max_plaintext_size x) = true
   /\ object_size_ok (EnvelopeIntentV2.max_ciphertext_size x) = true
   /\ EnvelopeIntentV2.target_version x = EnvelopeIntentV2.base_version x + 1
   /\ is_some (EnvelopeIntentV2.previous_signed_head_hash x)
      = negb (EnvelopeIntentV2.base_version x =? 0))
  /\ encode (c.m (EnvelopeIntentV2.put x)) = payload.
Proof.
  intros [_ Hv]%andb_true_iff. apply intent_base_bounds in Hv. unfold I64_MAX in Hv.
  unfold build_intent_v2, build_intent. cbn [IntentNumbers.frame_plaintext_size
    IntentNumbers.max_plaintext_size IntentNumbers.max_ciphertext_size IntentNumbers.base_version
    IntentNumbers.target_version EnvelopeIntentV2.nums].
  rewrite add_u64_small by (unfold U64_MAX; lia). unfold EnvelopeIntentV2.hash. split.
  - intros H.
    repeat match type of H with
      (if negb ?b then _ else _) = _ => destruct b eqn:?; cbn [negb] in H; [|done]
      end.
    match type of H with (if ?b then _ else _) = _ => destruct b eqn:Hg; [done|] end.
    injection H as <- _. wire_facts. split_and!; try done.
    apply xorb_eq in Hg. rewrite <- Hg. by destruct (is_some _).
  - intros [(-> & -> & -> & -> & ->) <-]. by rewrite Z.eqb_refl, negb_involutive, xorb_nilpotent.
Qed.

(** C40. A reader accepts as an intent exactly what [build_intent_v2] makes of the fields it
    returns: every intent built from arrays and integers of their wire widths is read back as
    those fields, and every byte string a reader accepts is built from them again, so that the
    rules of the writer (frame and object sizes, the next version, the previous head left out
    at genesis) and those of the reader are the same. *)
Theorem intent_v2_exact sha256 payload x :
  blen payload <= USIZE_MAX ->
  EnvelopeIntentV2.parse payload = Ok x <->
  intent_widths x = true
  /\ build_intent_v2 sha256 (EnvelopeIntentV2.ids x) (EnvelopeIntentV2.nums x)
       (EnvelopeIntentV2.stream_nonce_prefix x) (EnvelopeIntentV2.previous_signed_head_hash x)
       (EnvelopeIntentV2.slot x)
     = Ok (IntentMaterial.mk payload (EnvelopeIntentV2.hash sha256 payload)).
Proof.
  intros Hb. rewrite intent_exact, intent_ok_split by done.
  pose proof (built_intent_v2 sha256 payload x). tauto.
Qed.

Definition sample_payload : bytes :=
  encode (c.m (intent_fields sample_ids sample_nums SUITE_ID (be_bytes 20 3) sample_prev sample_slot)).

Definition sample_fields : EnvelopeIntentV2.t :=
  EnvelopeIntentV2.mk (id16 1) (id16 2) (id16 3) (id16 4) (id16 5) (id16 6) 6 5 1 2 (id32 8) 65536
    (be_bytes 20 3) 1000000 1100000 77 sample_prev (id32 9) (id16 7) 3 (id32 10) (id32 11).

Lemma intent_v2_exact_witness :
  blen sample_payload <= USIZE_MAX
  /\ EnvelopeIntentV2.parse sample_payload = Ok sample_fields.
Proof.
  assert (blen sample_payload <= USIZE_MAX) as Hb by (vm_compute; discriminate).
  split; [exact Hb|]. apply (intent_v2_exact (fun x => x) sample_payload sample_fields Hb).
  split; vm_compute; reflexivity.
Defined.

(** ** The binding of the slot *)

Definition bound (sha256 : bytes -> bytes) (slot_bytes : bytes) (intent : EnvelopeIntentV2.t)
    (slot : DekSlotV2.t) : Prop :=
  let cx := DekSlotV2.context slot in
  domain_hash sha256 L_DEK_SLOT slot_bytes = EnvelopeIntentV2.dek_slot_sha256 intent
  /\ DekSlotV2.parse sha256 slot_bytes = Ok slot
  /\ DekSlotV2.dek_slot_context_hash slot = EnvelopeIntentV2.dek_slot_context_hash intent
  /\ DekSlotContextV2.snapshot_id cx = EnvelopeIntentV2.snapshot_id intent
  /\ DekSlotContextV2.tenant_id cx = EnvelopeIntentV2.tenant_id intent
  /\ DekSlotContextV2.fleet_id cx = EnvelopeIntentV2.fleet_id intent
  /\ DekSlotContextV2.profile_id cx = EnvelopeIntentV2.profile_id intent
  /\ DekSlotContextV2.fkek_key_id cx = EnvelopeIntentV2.fkek_key_id intent
  /\ DekSlotContextV2.key_generation cx = EnvelopeIntentV2.key_generation intent.

Lemma bind_slot_ok sha256 slot_bytes intent slot :
  bind_slot sha256 slot_bytes intent = Ok slot <-> bound sha256 slot_bytes intent slot.
Proof.
  unfold bind_slot, bound. case_bool_decide as H0; cbn [negb]; [|split; [done|by intros [? _]]].
  rewrite result_bind_ok. split.
  - intros (s & Hs%map_err_ok & H). cbn [List.find snd] in H.
    repeat (case_bool_decide; cbn [negb] in H; [|done]).
    destruct (Z.eqb_spec (DekSlotContextV2.key_generation (DekSlotV2.context s))
      (EnvelopeIntentV2.key_generation intent)); [|done]. injection H as <-. done.
  - intros (_ & Hs & H1 & H2 & H3 & H4 & H5 & H6 & H7). exists slot.
    rewrite map_err_ok. split; [done|]. cbn [List.find snd].
    rewrite !bool_decide_eq_true_2, H7, Z.eqb_refl by done. done.
Qed.

Lemma bind_slot_safe sha256 slot_bytes intent : safe (bind_slot sha256 slot_bytes intent).
Proof.
  unfold bind_slot. case_match; [done|]. apply safe_bind.
  - pose proof (slot_parse_safe sha256 slot_bytes) as Hp. intros cr. specialize (Hp cr).
    destruct (DekSlotV2.parse _ _); cbn; congruence.
  - intros s _ cr. cbv zeta. by destruct (List.find _ _) as [[]|].
Qed.

Lemma preamble_parse_safe p : safe (Preamble.parse p).
Proof. unfold Preamble.parse, Preamble.rule. repeat (apply safe_bind; [by case_match|intros _ _]). done. Qed.
