(* ===== verification/EnvelopeObject.v ===== *)
(** * Sealing and opening a suite 2 object (shared/src/envelope_v2.rs)

    [seal], [open] and [check_public] over a reader, a writer and the I/O errors either may
    return. The crate [aead-stream] is the class [StreamLE31]; its laws state what it
    documents: a decryptor in the place of an encryptor inverts it, accepts nothing else,
    and a tag has 16 bytes. *)

From S2P Require Import Prelude Bytes Canonical CanonicalFacts CanonicalDecode CanonicalTheorems.
From S2P Require Import RecordFields WireMap Keys Envelope ProfileLease EnvelopeV2 EnvelopeV2Facts.

(** ** The crate *)

Class StreamLE31 := {
  Encryptor : Type;
  Decryptor : Type;
  encryptor_new : forall key prefix : bytes, Encryptor;
  decryptor_new : forall key prefix : bytes, Decryptor;
  encrypt_next : Encryptor -> forall aad msg : bytes, option (bytes * Encryptor);
  encrypt_last : Encryptor -> forall aad msg : bytes, option bytes;
  decrypt_next : Decryptor -> forall aad msg : bytes, option (bytes * Decryptor);
  decrypt_last : Decryptor -> forall aad msg : bytes, option bytes;
}.

Class StreamLaws `{!StreamLE31} := {
  (** Under one key and prefix, at one position. *)
  in_step : Encryptor -> Decryptor -> Prop;
  in_step_new key prefix : in_step (encryptor_new key prefix) (decryptor_new key prefix);
  next_opens e d aad m c e' :
    in_step e d -> encrypt_next e aad m = Some (c, e') ->
    exists d', decrypt_next d aad c = Some (m, d') /\ in_step e' d';
  next_sealed e d aad m c d' :
    in_step e d -> decrypt_next d aad c = Some (m, d') ->
    exists e', encrypt_next e aad m = Some (c, e') /\ in_step e' d';
  last_opens e d aad m c :
    in_step e d -> encrypt_last e aad m = Some c <-> decrypt_last d aad c = Some m;
  next_tag e aad m c e' : encrypt_next e aad m = Some (c, e') -> blen c = blen m + 16;
  last_tag e aad m c : encrypt_last e aad m = Some c -> blen c = blen m + 16;
}.

(** ** Input and output *)

(** What a call comes to: it works, or fails with an error after writing a part. *)
Inductive Fate :=
| Works
| Fails (e : IoError.t) (wrote : nat).

Module Streams.

(** A reader of [source] at [pos], and what a writer was given. *)
Record t := mk { source : bytes; pos : nat; sink : bytes; fates : list Fate }.

End Streams.

Definition io (A : Type) : Type := Streams.t -> result EnvelopeError A * Streams.t.

#[export] Instance io_ret : MRet io := fun A a s => (Ok a, s).
#[export] Instance io_bind : MBind io := fun A B k m s =>
  match m s with
  | (Ok a, s') => k a s'
  | (Err e, s') => (Err e, s')
  | (Crash c, s') => (Crash c, s')
  end.

Definition of_result {A} (r : result EnvelopeError A) : io A := fun s => (r, s).
Definition fail {A} (e : EnvelopeError) : io A := of_result (Err e).
Definition malformed_if (c : bool) (rule : string) : io unit :=
  if c then fail (Malformed rule) else mret tt.
Definition mismatch_if (c : bool) (what : string) : io unit :=
  if c then fail (Mismatch what) else mret tt.

(** Addition of machine integers. Past their width a debug build panics and a release build
    wraps; [Crash Panic] stands for both, and no run of these functions comes to it
    ([EnvelopeFailures]). *)
Definition add_within (max a b : Z) : io Z :=
  of_result (if a + b <=? max then Ok (a + b) else Crash Panic).

(** One call: its fate, then what it does if it works. *)
Definition call {A} (failed : IoError.t -> nat -> io A) (works : io A) : io A := fun s =>
  match Streams.fates s with
  | [] => works s
  | fate :: rest =>
      let s' := Streams.mk (Streams.source s) (Streams.pos s) (Streams.sink s) rest in
      match fate with
      | Works => works s'
      | Fails e wrote => failed e wrote s'
      end
  end.

Definition rest_of (s : Streams.t) : bytes := drop (Streams.pos s) (Streams.source s).
Definition go_to (pos : nat) (s : Streams.t) : Streams.t :=
  Streams.mk (Streams.source s) pos (Streams.sink s) (Streams.fates s).
Definition append (b : bytes) (s : Streams.t) : Streams.t :=
  Streams.mk (Streams.source s) (Streams.pos s) (Streams.sink s ++ b) (Streams.fates s).

(** [reader.take(n).read_to_end], which is also how [io::copy] reads. *)
Definition read_up_to (n : Z) : io bytes :=
  call (fun e _ => fail (Io e))
    (fun s => let b := take (Z.to_nat n) (rest_of s) in
              (Ok b, go_to (Streams.pos s + length b) s)).

Definition eof_as (rule : string) (e : IoError.t) : EnvelopeError :=
  match e with IoError.UnexpectedEof => Malformed rule | e => Io e end.

(** [read_exact_or] on a buffer of [n] bytes. *)
Definition read_exact_or (n : Z) (rule : string) : io bytes :=
  call (fun e _ => fail (eof_as rule e))
    (fun s => let b := take (Z.to_nat n) (rest_of s) in
              let s' := go_to (Streams.pos s + length b) s in
              if blen b =? n then (Ok b, s') else (Err (eof_as rule IoError.UnexpectedEof), s')).

Definition seek_start (n : Z) : io unit :=
  call (fun e _ => fail (Io e)) (fun s => (Ok tt, go_to (Z.to_nat n) s)).

Definition stream_position : io Z :=
  call (fun e _ => fail (Io e)) (fun s => (Ok (Z.of_nat (Streams.pos s)), s)).

Definition write_all (b : bytes) : io unit :=
  call (fun e wrote s => (Err (Io e), append (take wrote b) s))
    (fun s => (Ok tt, append b s)).

Definition flush : io unit := call (fun e _ => fail (Io e)) (mret tt).

(** ** Sealing *)

Module ObjectDigest.

Record t := mk {
  ciphertext_sha256 : bytes;
  ciphertext_size : Z;
  preamble_sha256 : bytes;
  frame_count : Z;
  plaintext_len : Z }.

End ObjectDigest.

Definition KIND_DATA : byte := Byte.x00.
Definition KIND_FINAL : byte := Byte.x01.
Definition TAG_LEN : Z := 16.
Definition FRAME_HEADER_LEN : Z := 9.

Module Hashing.

(** [hashed] is what the hasher was fed, the hash being that of all of it. *)
Record t := mk { hashed : bytes; len : Z }.

Definition new : t := mk [] 0.

Definition put (w : t) (b : bytes) : io t :=
  _ ← write_all b;
  len ← add_within U64_MAX (len w) (blen b);
  mret (mk (hashed w ++ b) len).

End Hashing.

(** [len_in]: the length as a [u32] between 1 and [max]. *)
Definition len_in (b : bytes) (max : Z) (name : string) : io Z :=
  if (blen b <=? U32_MAX) && ((1 <=? blen b) && (blen b <=? max)) then mret (blen b)
  else fail (Malformed name).

Definition is_empty (b : bytes) : bool := match b with [] => true | _ => false end.

Section seal.
Context `{HS : !StreamLE31} (sha256 : bytes -> bytes).

(** The loop of [seal]: the frame of [current], and on. *)
Fixpoint seal_frames (fuel : nat) (view : EnvelopeIntentV2.t) (intent_hash : bytes)
    (encryptor : option Encryptor) (current : bytes) (counter plaintext_len : Z) (w : Hashing.t)
    : io (Hashing.t * Z * Z) :=
  match fuel with
  | O => of_result (Crash OutOfFuel)
  | S fuel' =>
      let size := EnvelopeIntentV2.frame_plaintext_size view in
      next ← (if blen current =? size then read_up_to size else mret []);
      let is_final := is_empty next in
      plaintext_len ← add_within U64_MAX plaintext_len (blen current);
      _ ← malformed_if (EnvelopeIntentV2.max_plaintext_size view <? plaintext_len)
            "plaintext exceeds max_plaintext_size";
      let aad := frame_aad intent_hash counter is_final in
      '(ciphertext, encryptor) ←
        match is_final, encryptor with
        | false, Some e =>
            match encrypt_next e aad current with
            | Some (ct, e') => mret (ct, Some e')
            | None => fail AeadFailed
            end
        | true, Some e =>
            match encrypt_last e aad current with
            | Some ct => mret (ct, None)
            | None => fail AeadFailed
            end
        | _, None => of_result (Crash Panic)
        end;
      len ← add_within U64_MAX (Hashing.len w) FRAME_HEADER_LEN;
      len ← add_within U64_MAX len (blen ciphertext);
      _ ← malformed_if (EnvelopeIntentV2.max_ciphertext_size view <? len)
            "object exceeds max_ciphertext_size";
      w ← Hashing.put w [if is_final then KIND_FINAL else KIND_DATA];
      w ← Hashing.put w (be_bytes 4 counter);
      w ← Hashing.put w (be_bytes 4 (blen ciphertext));
      w ← Hashing.put w ciphertext;
      if is_final then mret (w, counter, plaintext_len)
      else
        counter ← add_within U32_MAX counter 1;
        seal_frames fuel' view intent_hash encryptor next counter plaintext_len w
  end.

(** The frames a view has room for, with one more. *)
Definition frame_fuel (view : EnvelopeIntentV2.t) : nat :=
  Z.to_nat (EnvelopeIntentV2.max_plaintext_size view
            / EnvelopeIntentV2.frame_plaintext_size view + 2).

Definition seal (dek : bytes) (intent : IntentMaterial.t) (slot : SlotMaterial.t)
    : io ObjectDigest.t :=
  let intent_bytes := IntentMaterial.exact_intent_bytes intent in
  let slot_bytes := SlotMaterial.exact_slot_bytes slot in
  _ ← mismatch_if (negb (bool_decide (EnvelopeIntentV2.hash sha256 intent_bytes
                                      = IntentMaterial.intent_hash intent))) "intent_hash";
  view ← of_result (map_err Record_ (EnvelopeIntentV2.parse intent_bytes));
  _ ← of_result (bind_slot sha256 slot_bytes view);
  intent_len ← len_in intent_bytes MAX_INTENT_LEN "intent_len";
  dek_slot_len ← len_in slot_bytes MAX_DEK_SLOT_LEN "dek_slot_len";
  let preamble :=
    Preamble.encode (Preamble.mk intent_len dek_slot_len
      (EnvelopeIntentV2.frame_plaintext_size view) (IntentMaterial.intent_hash intent)) in
  w ← Hashing.put Hashing.new preamble;
  w ← Hashing.put w intent_bytes;
  w ← Hashing.put w slot_bytes;
  let encryptor := encryptor_new dek (EnvelopeIntentV2.stream_nonce_prefix view) in
  current ← read_up_to (EnvelopeIntentV2.frame_plaintext_size view);
  _ ← malformed_if (is_empty current) "plaintext is empty";
  '(w, counter, plaintext_len) ←
    seal_frames (frame_fuel view) view (IntentMaterial.intent_hash intent) (Some encryptor)
      current 0 0 w;
  _ ← flush;
  frame_count ← add_within U32_MAX counter 1;
  mret (ObjectDigest.mk (sha256 (Hashing.hashed w)) (Hashing.len w)
          (preamble_sha256 sha256 preamble) frame_count plaintext_len).

End seal.

(** ** Opening *)

Module Scope.

Record t := mk {
  snapshot_id : bytes;
  tenant_id : bytes;
  fleet_id : bytes;
  profile_id : bytes;
  target_version : Z;
  key_generation : Z }.

Definition of_intent (i : EnvelopeIntentV2.t) : t :=
  mk (EnvelopeIntentV2.snapshot_id i) (EnvelopeIntentV2.tenant_id i)
    (EnvelopeIntentV2.fleet_id i) (EnvelopeIntentV2.profile_id i)
    (EnvelopeIntentV2.target_version i) (EnvelopeIntentV2.key_generation i).

Definition first_difference (self other : t) : option string :=
  fst <$> List.find (fun check => negb check.2)
    [("snapshot_id", bool_decide (snapshot_id self = snapshot_id other));
     ("tenant_id", bool_decide (tenant_id self = tenant_id other));
     ("fleet_id", bool_decide (fleet_id self = fleet_id other));
     ("profile_id", bool_decide (profile_id self = profile_id other));
     ("target_version", target_version self =? target_version other);
     ("key_generation", key_generation self =? key_generation other)].

End Scope.

Module Expected.

Record t := mk {
  ciphertext_sha256 : bytes;
  ciphertext_size : Z;
  preamble_sha256 : bytes;
  intent_hash : bytes;
  dek_slot_sha256 : bytes;
  scope : Scope.t }.

End Expected.

Module OpenOutcome.

Record t := mk { frame_count : Z; plaintext_len : Z }.

End OpenOutcome.

(** [frame_head]: whether the frame is FINAL, and the length of its ciphertext. *)
Definition frame_head (head : bytes) (counter max_frames size : Z)
    : result EnvelopeError (bool * Z) :=
  let is_kind k := bool_decide (take 1 head = [k]) in
  if negb (is_kind KIND_DATA || is_kind KIND_FINAL) then Err (Malformed "frame kind")
  else
    let is_final := is_kind KIND_FINAL in
    if negb (Preamble.u32_at 1 head =? counter) then Err (Malformed "frame counter")
    else if max_frames <=? counter then Err (Malformed "frame counter beyond max_plaintext_size")
    else
      let ciphertext_len := Preamble.u32_at 5 head in
      if is_final && negb ((TAG_LEN + 1 <=? ciphertext_len) && (ciphertext_len <=? size + TAG_LEN))
      then Err (Malformed "FINAL frame length")
      else if negb is_final && negb (ciphertext_len =? size + TAG_LEN)
      then Err (Malformed "DATA frame length")
      else Ok (is_final, ciphertext_len).

(** [u64::div_ceil]. *)
Definition div_ceil (a b : Z) : Z := (a + b - 1) / b.

Section open.
Context `{HS : !StreamLE31} `{HA : !Aead} (sha256 : bytes -> bytes).

Definition read_head (expected : Expected.t)
    : io (Preamble.t * bytes * EnvelopeIntentV2.t * DekSlotV2.t) :=
  let size := Expected.ciphertext_size expected in
  _ ← malformed_if (MAX_OBJECT_SIZE <? size) "object exceeds the size cap";
  _ ← seek_start 0;
  one_more ← add_within U64_MAX size 1;
  object ← read_up_to one_more;
  _ ← mismatch_if (negb (blen object =? size)) "ciphertext_size";
  _ ← mismatch_if (negb (bool_decide (sha256 object = Expected.ciphertext_sha256 expected)))
        "ciphertext_sha256";
  _ ← seek_start 0;
  preamble ← read_exact_or PREAMBLE_LEN "preamble";
  pre ← of_result (Preamble.parse preamble);
  _ ← mismatch_if (negb (bool_decide (preamble_sha256 sha256 preamble
                                      = Expected.preamble_sha256 expected))) "preamble_sha256";
  intent_bytes ← read_exact_or (Preamble.intent_len pre) "intent";
  let intent_hash := EnvelopeIntentV2.hash sha256 intent_bytes in
  _ ← mismatch_if (negb (bool_decide (intent_hash = Preamble.intent_sha256 pre))) "intent_sha256";
  _ ← mismatch_if (negb (bool_decide (intent_hash = Expected.intent_hash expected))) "intent_hash";
  view ← of_result (map_err Record_ (EnvelopeIntentV2.parse intent_bytes));
  _ ← match Scope.first_difference (Scope.of_intent view) (Expected.scope expected) with
      | Some field => fail (Mismatch field)
      | None => mret tt
      end;
  _ ← mismatch_if (negb (EnvelopeIntentV2.frame_plaintext_size view
                         =? Preamble.frame_plaintext_size pre)) "frame_plaintext_size";
  _ ← malformed_if (EnvelopeIntentV2.max_ciphertext_size view <? size)
        "object exceeds max_ciphertext_size";
  slot_bytes ← read_exact_or (Preamble.dek_slot_len pre) "dek slot";
  _ ← mismatch_if (negb (bool_decide (domain_hash sha256 L_DEK_SLOT slot_bytes
                                      = Expected.dek_slot_sha256 expected))) "dek_slot_sha256";
  slot ← of_result (bind_slot sha256 slot_bytes view);
  mret (pre, intent_hash, view, slot).

(** The loop of [check_public]. *)
Fixpoint skip_frames (fuel : nat) (at_ counter max_frames size : Z) : io Z :=
  match fuel with
  | O => of_result (Crash OutOfFuel)
  | S fuel' =>
      head ← read_exact_or FRAME_HEADER_LEN "missing FINAL frame";
      '(is_final, ciphertext_len) ← of_result (frame_head head counter max_frames size);
      step ← add_within U64_MAX FRAME_HEADER_LEN ciphertext_len;
      at_ ← add_within U64_MAX at_ step;
      _ ← seek_start at_;
      if is_final : bool then mret at_
      else
        counter ← add_within U32_MAX counter 1;
        skip_frames fuel' at_ counter max_frames size
  end.

Definition check_public (expected : Expected.t) : io EnvelopeIntentV2.t :=
  '(pre, _, view, _) ← read_head expected;
  let size := Preamble.frame_plaintext_size pre in
  let max_frames := div_ceil (EnvelopeIntentV2.max_plaintext_size view) size in
  at_ ← stream_position;
  at_ ← skip_frames (Z.to_nat max_frames + 1) at_ 0 max_frames size;
  _ ← malformed_if (negb (at_ =? Expected.ciphertext_size expected))
        "bytes after the FINAL frame";
  mret view.

(** The loop of [open]. *)
Fixpoint open_frames (fuel : nat) (view : EnvelopeIntentV2.t) (intent_hash : bytes)
    (max_frames size : Z) (decryptor : option Decryptor) (counter plaintext_len : Z)
    : io (Z * Z) :=
  match fuel with
  | O => of_result (Crash OutOfFuel)
  | S fuel' =>
      head ← read_exact_or FRAME_HEADER_LEN "missing FINAL frame";
      '(is_final, ciphertext_len) ← of_result (frame_head head counter max_frames size);
      ciphertext ← read_exact_or ciphertext_len "frame ciphertext";
      let aad := frame_aad intent_hash counter is_final in
      '(plaintext, decryptor) ←
        match is_final, decryptor with
        | false, Some d =>
            match decrypt_next d aad ciphertext with
            | Some (m, d') => mret (m, Some d')
            | None => fail AeadFailed
            end
        | true, Some d =>
            match decrypt_last d aad ciphertext with
            | Some m => mret (m, None)
            | None => fail AeadFailed
            end
        | _, None => of_result (Crash Panic)
        end;
      plaintext_len ← add_within U64_MAX plaintext_len (blen plaintext);
      _ ← malformed_if (EnvelopeIntentV2.max_plaintext_size view <? plaintext_len)
            "plaintext exceeds max_plaintext_size";
      _ ← write_all plaintext;
      if is_final : bool then mret (counter, plaintext_len)
      else
        counter ← add_within U32_MAX counter 1;
        open_frames fuel' view intent_hash max_frames size decryptor counter plaintext_len
  end.

Definition open (fkek : bytes) (expected : Expected.t) : io OpenOutcome.t :=
  '(pre, intent_hash, view, slot) ← read_head expected;
  dek ← of_result (map_err (fun _ => KeyUnwrap)
          (unwrap_dek fkek (DekSlotV2.wrap_nonce_bytes slot) (DekSlotV2.wrapped_dek_bytes slot)
             (DekSlotV2.canonical_dek_slot_context_bytes slot)));
  let size := Preamble.frame_plaintext_size pre in
  let max_frames := div_ceil (EnvelopeIntentV2.max_plaintext_size view) size in
  let decryptor := decryptor_new dek (EnvelopeIntentV2.stream_nonce_prefix view) in
  '(counter, plaintext_len) ←
    open_frames (Z.to_nat max_frames + 1) view intent_hash max_frames size (Some decryptor) 0 0;
  extra ← read_up_to 1;
  _ ← malformed_if (negb (is_empty extra)) "bytes after the FINAL frame";
  _ ← flush;
  frame_count ← add_within U32_MAX counter 1;
  mret (OpenOutcome.mk frame_count plaintext_len).

End open.
