(* ===== verification/EnvelopeObjectFacts.v ===== *)
(** * What an object is

    [frames_of] gives the frames of a plaintext cut in chunks; [object_of] a whole object.
    Where no call fails, [seal] writes exactly the objects [object_of] describes, and [open]
    reads exactly these. *)

From S2P Require Import Prelude Bytes Canonical CanonicalFacts CanonicalDecode CanonicalTheorems.
From S2P Require Import RecordFields WireMap Keys Envelope ProfileLease EnvelopeV2 EnvelopeV2Facts.
From S2P Require Import EnvelopeObject.

(** ** The monad *)

Lemma io_bind_ok {A B} (m : io A) (k : A -> io B) s b s' :
  (m ≫= k) s = (Ok b, s') <-> exists a s1, m s = (Ok a, s1) /\ k a s1 = (Ok b, s').
Proof. unfold mbind, io_bind. destruct (m s) as [[a|e|c] s1]; naive_solver. Qed.

Lemma io_step {A B} (m : io A) (k : A -> io B) s a s1 :
  m s = (Ok a, s1) -> (m ≫= k) s = k a s1.
Proof. intros H. unfold mbind, io_bind. by rewrite H. Qed.

Lemma of_result_ok {A} (r : result EnvelopeError A) s a s' :
  of_result r s = (Ok a, s') <-> r = Ok a /\ s' = s.
Proof. unfold of_result. naive_solver. Qed.

Lemma malformed_if_ok c rule s u s' :
  malformed_if c rule s = (Ok u, s') <-> c = false /\ s' = s.
Proof. unfold malformed_if, fail, of_result, mret, io_ret. destruct c, u; naive_solver. Qed.

Lemma mismatch_if_ok c what s u s' :
  mismatch_if c what s = (Ok u, s') <-> c = false /\ s' = s.
Proof. unfold mismatch_if, fail, of_result, mret, io_ret. destruct c, u; naive_solver. Qed.

Lemma add_within_ok max a b s n s' :
  add_within max a b s = (Ok n, s') <-> n = a + b /\ a + b <= max /\ s' = s.
Proof.
  unfold add_within. rewrite of_result_ok. destruct (Z.leb_spec (a + b) max).
  - split; [by intros [[= <-] ->]|by intros (-> & _ & ->)].
  - split; [by intros [? _]|lia].
Qed.

Lemma mret_ok {A} (a b : A) (s s' : Streams.t) :
  (mret a : io A) s = (Ok b, s') <-> b = a /\ s' = s.
Proof. unfold mret, io_ret. naive_solver. Qed.

(** ** Calls that work *)

(** No call fails. *)
Definition st (source : bytes) (pos : nat) (sink : bytes) : Streams.t :=
  Streams.mk source pos sink [].

Lemma take_drop_taken {A} n (l : list A) : take n l ++ drop (length (take n l)) l = l.
Proof.
  rewrite length_take. destruct (Nat.le_ge_cases n (length l)).
  - rewrite Nat.min_l by done. apply take_drop.
  - rewrite Nat.min_r, take_ge, drop_ge by done. apply app_nil_r.
Qed.

Section ideal.
Context (source : bytes).
Implicit Types (pos : nat) (sink b : bytes).

Lemma read_up_to_st n pos sink :
  read_up_to n (st source pos sink)
  = (Ok (take (Z.to_nat n) (drop pos source)),
     st source (pos + length (take (Z.to_nat n) (drop pos source))) sink).
Proof. reflexivity. Qed.

Lemma read_exact_run n rule pos sink b tail :
  drop pos source = b ++ tail -> blen b = n ->
  read_exact_or n rule (st source pos sink) = (Ok b, st source (pos + length b) sink).
Proof.
  intros Hd Hn. unfold read_exact_or, call. cbn. unfold rest_of. cbn. rewrite Hd.
  assert (take (Z.to_nat n) (b ++ tail) = b) as ->.
  { rewrite take_app_length'; [done|]. unfold blen in Hn. lia. }
  by rewrite (proj2 (Z.eqb_eq _ _) Hn).
Qed.

Lemma read_exact_ok n rule pos sink b s' :
  read_exact_or n rule (st source pos sink) = (Ok b, s') ->
  blen b = n /\ s' = st source (pos + length b) sink
  /\ drop pos source = b ++ drop (pos + length b) source.
Proof.
  unfold read_exact_or, call. cbn. unfold rest_of. cbn. destruct (Z.eqb_spec (blen (take (Z.to_nat n) (drop pos source))) n) as [Hb|]; [|done].
  intros [= <- <-]. split_and!; [done|done|].
  rewrite <- drop_drop. by rewrite take_drop_taken.
Qed.

Lemma write_all_st b pos sink :
  write_all b (st source pos sink) = (Ok tt, st source pos (sink ++ b)).
Proof. reflexivity. Qed.

Lemma put_ok w b pos sink w' s' :
  Hashing.put w b (st source pos sink) = (Ok w', s') <->
  w' = Hashing.mk (Hashing.hashed w ++ b) (Hashing.len w + blen b)
  /\ Hashing.len w + blen b <= U64_MAX /\ s' = st source pos (sink ++ b).
Proof.
  unfold Hashing.put. rewrite (io_step _ _ _ _ _ (write_all_st b pos sink)), io_bind_ok. split.
  - intros (n & s1 & (-> & H & ->)%add_within_ok & [-> ->]%mret_ok). done.
  - intros (-> & H & ->). eexists _, _. rewrite add_within_ok. by split_and!.
Qed.
End ideal.

(** ** Chunks *)

(** Chunks of [size] bytes, then a last one of at least a byte and at most [size]. *)
Fixpoint chunks_ok (size : Z) (chunks : list bytes) : bool :=
  match chunks with
  | [] => false
  | [last] => (1 <=? blen last) && (blen last <=? size)
  | chunk :: rest => (blen chunk =? size) && chunks_ok size rest
  end.

Lemma blen_zero {A} (a : list A) : blen a = 0 -> a = [].
Proof. destruct a; unfold blen; [done|simpl; lia]. Qed.

Lemma is_empty_true b : is_empty b = true <-> b = [].
Proof. by destruct b. Qed.

Lemma is_empty_false b : is_empty b = false <-> 0 < blen b.
Proof. destruct b; unfold blen; cbn; [split; [done|lia]|split; [lia|done]]. Qed.

Lemma chunks_cons size c r :
  chunks_ok size (c :: r) = true <->
  (r = [] /\ 1 <= blen c <= size) \/ (r <> [] /\ blen c = size /\ chunks_ok size r = true).
Proof.
  destruct r as [|d r]; cbn [chunks_ok]; rewrite andb_true_iff, ?Z.leb_le, ?Z.eqb_eq; naive_solver.
Qed.

Lemma chunks_first size c r :
  chunks_ok size (c :: r) = true ->
  take (Z.to_nat size) (c ++ concat r) = c /\ drop (length c) (c ++ concat r) = concat r
  /\ (blen c = size \/ concat r = []).
Proof.
  rewrite chunks_cons. intros H. rewrite drop_app_length. split_and!; [|done|naive_solver].
  destruct H as [[-> Hc]|(_ & Hc & _)]; cbn [concat].
  - rewrite app_nil_r. apply take_ge. unfold blen in Hc. lia.
  - apply take_app_length'. unfold blen in Hc. lia.
Qed.

Lemma chunks_nonempty size c r : 1 <= size -> chunks_ok size (c :: r) = true -> 1 <= blen c.
Proof. rewrite chunks_cons. intros ? [[_ ?]|(_ & -> & _)]; lia. Qed.

(** The frames fit the number a view has room for. *)
Lemma chunks_total size chunks :
  1 <= size -> chunks_ok size chunks = true ->
  (blen chunks - 1) * size < blen (concat chunks) <= blen chunks * size.
Proof.
  intros Hs. induction chunks as [|c r IH]; [done|]. rewrite chunks_cons. cbn [concat].
  rewrite blen_app. assert (blen (c :: r) = blen r + 1) as -> by (unfold blen; cbn [length]; lia).
  intros [[-> Hc]|(_ & Hc & Hr%IH)]; [unfold blen in *; cbn in *; lia|nia].
Qed.

(** ** Frames *)

Definition record (is_final : bool) (counter : Z) (ct : bytes) : bytes :=
  [if is_final then KIND_FINAL else KIND_DATA] ++ be_bytes 4 counter ++ be_bytes 4 (blen ct) ++ ct.

Lemma blen_record f n ct : blen (record f n ct) = FRAME_HEADER_LEN + blen ct.
Proof.
  unfold record, FRAME_HEADER_LEN. rewrite !blen_app. unfold blen at 1 2 3.
  rewrite !length_be_bytes. cbn. lia.
Qed.

Section frames.
Context `{HS : !StreamLE31}.

Fixpoint frames_of (e : Encryptor) (h : bytes) (counter : Z) (chunks : list bytes) : option bytes :=
  match chunks with
  | [] => None
  | [last] => ct ← encrypt_last e (frame_aad h counter true) last; Some (record true counter ct)
  | chunk :: rest =>
      '(ct, e') ← encrypt_next e (frame_aad h counter false) chunk;
      fb ← frames_of e' h (counter + 1) rest;
      Some (record false counter ct ++ fb)
  end.

Lemma frames_last e h n c fb :
  frames_of e h n [c] = Some fb <->
  exists ct, encrypt_last e (frame_aad h n true) c = Some ct /\ fb = record true n ct.
Proof. cbn. destruct (encrypt_last _ _ _); naive_solver. Qed.

Lemma frames_cons e h n c r :
  r <> [] ->
  frames_of e h n (c :: r)
  = '(ct, e') ← encrypt_next e (frame_aad h n false) c;
    fb ← frames_of e' h (n + 1) r;
    Some (record false n ct ++ fb).
Proof. by destruct r. Qed.

Lemma frames_next e h n c r fb :
  r <> [] -> frames_of e h n (c :: r) = Some fb <->
  exists ct e' fb', encrypt_next e (frame_aad h n false) c = Some (ct, e')
    /\ frames_of e' h (n + 1) r = Some fb' /\ fb = record false n ct ++ fb'.
Proof.
  intros Hr. rewrite frames_cons by done.
  destruct (encrypt_next _ _ _) as [[ct e']|]; cbn [mbind option_bind]; [|naive_solver].
  destruct (frames_of e' h (n + 1) r) as [fb'|] eqn:Hfb; cbn [mbind option_bind]; [|naive_solver].
  split; [intros [= <-]; eauto 6|]. intros (ct' & e1 & fb1 & [= <- <-] & Hfb1 & ->).
  rewrite Hfb in Hfb1. by injection Hfb1 as <-.
Qed.

End frames.

(** ** Sealing *)

(** Splits a run that ends well into its calls. *)
Ltac inv_io :=
  repeat match goal with
  | E : malformed_if _ _ _ = (Ok _, _) |- _ => apply malformed_if_ok in E as [? ->]
  | E : mismatch_if _ _ _ = (Ok _, _) |- _ => apply mismatch_if_ok in E as [? ->]
  | E : add_within _ _ _ _ = (Ok _, _) |- _ => apply add_within_ok in E as (-> & ? & ->)
  | E : of_result _ _ = (Ok _, _) |- _ => apply of_result_ok in E as [? ->]
  | E : read_up_to _ (st _ _ _) = (Ok _, _) |- _ => rewrite read_up_to_st in E; injection E as <- <-
  | E : read_exact_or _ _ (st _ _ _) = (Ok _, _) |- _ => apply read_exact_ok in E as (? & -> & ?)
  | E : write_all _ (st _ _ _) = (Ok _, _) |- _ => rewrite write_all_st in E; injection E as <- <-
  | E : Hashing.put _ _ (st _ _ _) = (Ok _, _) |- _ => apply put_ok in E as (-> & ? & ->)
  | E : mret _ _ = (Ok _, _) |- _ => apply mret_ok in E as [-> ->]
  | E : map_err _ _ = Ok _ |- _ => apply map_err_ok in E
  | E : (_ ≫= _) _ = (Ok _, _) |- _ => apply io_bind_ok in E as (? & ? & ? & E)
  | x : (_ * _)%type |- _ => destruct x
  end.

Section seal.
Context `{HS : !StreamLE31} (sha256 : bytes -> bytes).

(** The four writes of a frame. *)
Definition put_frame (w : Hashing.t) (is_final : bool) (n : Z) (ct : bytes) : io Hashing.t :=
  w ← Hashing.put w [if is_final then KIND_FINAL else KIND_DATA];
  w ← Hashing.put w (be_bytes 4 n);
  w ← Hashing.put w (be_bytes 4 (blen ct));
  Hashing.put w ct.

Definition extended (w : Hashing.t) (fb : bytes) : Hashing.t :=
  Hashing.mk (Hashing.hashed w ++ fb) (Hashing.len w + blen fb).

Lemma extended_twice w a b : extended (extended w a) b = extended w (a ++ b).
Proof. unfold extended. cbn. rewrite blen_app, (assoc (++)). f_equal. lia. Qed.

Lemma put_frame_ok src w f n ct pos sink w' s' :
  put_frame w f n ct (st src pos sink) = (Ok w', s') <->
  w' = extended w (record f n ct) /\ Hashing.len w + FRAME_HEADER_LEN + blen ct <= U64_MAX
  /\ s' = st src pos (sink ++ record f n ct).
Proof.
  assert (blen [if f then KIND_FINAL else KIND_DATA] = 1) as H1 by by destruct f.
  assert (forall z, blen (be_bytes 4 z) = 4) as H4 by (intros z; unfold blen; by rewrite length_be_bytes).
  pose proof (blen_nonneg ct). unfold put_frame, extended. rewrite blen_record.
  unfold record, FRAME_HEADER_LEN in *. split.
  - intros H0. inv_io. cbn [Hashing.len Hashing.hashed] in *.
    rewrite H1, !H4 in *. split_and!; [|lia|by rewrite <- !(assoc (++))].
    rewrite <- !(assoc (++)). f_equal. lia.
  - intros (-> & Hb & ->). do 3 (erewrite io_step by (apply put_ok; split_and!;
      [reflexivity|cbn [Hashing.len]; rewrite ?H1, ?H4; lia|reflexivity])).
    apply put_ok. cbn [Hashing.len Hashing.hashed]. rewrite H1, !H4.
    split_and!; [|lia|by rewrite <- !(assoc (++))]. rewrite <- !(assoc (++)). f_equal. lia.
Qed.

Lemma io_assoc {A B C} (m : io A) (g : A -> io B) (k : B -> io C) s :
  ((m ≫= g) ≫= k) s = (m ≫= (fun a => g a ≫= k)) s.
Proof. unfold mbind, io_bind. by destruct (m s) as [[a|e|c] s1]. Qed.

Lemma put_frame_then {A} w f n ct (k : Hashing.t -> io A) s :
  (w ← Hashing.put w [if f : bool then KIND_FINAL else KIND_DATA];
   w ← Hashing.put w (be_bytes 4 n);
   w ← Hashing.put w (be_bytes 4 (blen ct));
   w ← Hashing.put w ct; k w) s
  = (put_frame w f n ct ≫= k) s.
Proof.
  unfold put_frame, mbind, io_bind.
  repeat match goal with |- context [match Hashing.put ?a ?b ?c with _ => _ end] =>
    destruct (Hashing.put a b c) as [[?|?|?] ?]; [|done|done] end. done.
Qed.

(** One round of the loop of [seal] that goes well. *)
Lemma seal_step_ok fuel view h e current n plen w src pos sink r s' :
  let size := EnvelopeIntentV2.frame_plaintext_size view in
  let next := if blen current =? size then take (Z.to_nat size) (drop pos src) else [] in
  let fin := is_empty next in
  seal_frames (S fuel) view h (Some e) current n plen w (st src pos sink) = (Ok r, s') <->
  exists ct enc,
    (if fin then enc = None /\ encrypt_last e (frame_aad h n true) current = Some ct
     else exists e', enc = Some e' /\ encrypt_next e (frame_aad h n false) current = Some (ct, e'))
    /\ plen + blen current <= EnvelopeIntentV2.max_plaintext_size view
    /\ plen + blen current <= U64_MAX
    /\ Hashing.len w + blen (record fin n ct) <= EnvelopeIntentV2.max_ciphertext_size view
    /\ Hashing.len w + blen (record fin n ct) <= U64_MAX
    /\ (if fin then mret (extended w (record fin n ct), n, plen + blen current)
        else counter ← add_within U32_MAX n 1;
             seal_frames fuel view h enc next counter (plen + blen current)
               (extended w (record fin n ct)))
         (st src (pos + length next) (sink ++ record fin n ct)) = (Ok r, s').
Proof.
  intros size next fin. cbn [seal_frames].
  assert ((if blen current =? EnvelopeIntentV2.frame_plaintext_size view
           then read_up_to (EnvelopeIntentV2.frame_plaintext_size view) else mret [])
          (st src pos sink) = (Ok next, st src (pos + length next) sink)) as Hread.
  { unfold next, size. destruct (blen current =? _); [by rewrite read_up_to_st|].
    unfold mret, io_ret. by rewrite Nat.add_0_r. }
  rewrite (io_step _ _ _ _ _ Hread). fold fin. split.
  - intros H. apply io_bind_ok in H as (plen' & s1 & (-> & Hb1 & ->)%add_within_ok & H).
    apply io_bind_ok in H as (u & s1 & [Hm ->]%malformed_if_ok & H). apply Z.ltb_ge in Hm.
    apply io_bind_ok in H as ([ct enc] & s1 & Henc & H).
    apply io_bind_ok in H as (len & s2 & (-> & Hb2 & ->)%add_within_ok & H).
    apply io_bind_ok in H as (len & s2 & (-> & Hb3 & ->)%add_within_ok & H).
    apply io_bind_ok in H as (u' & s2 & [Hc ->]%malformed_if_ok & H). apply Z.ltb_ge in Hc.
    exists ct, enc. assert (s1 = st src (pos + length next) sink) as ->.
    { destruct fin; cbn iota in Henc; [destruct (encrypt_last _ _ _)|destruct (encrypt_next _ _ _) as [[]|]];
        unfold mret, io_ret, fail, of_result in Henc; congruence. }
    rewrite put_frame_then in H.
    apply io_bind_ok in H as (w' & s2 & (-> & Hb9 & ->)%put_frame_ok & H).
    split; [|split_and!; rewrite ?blen_record; try lia; exact H].
    destruct fin; cbn iota in Henc.
    + destruct (encrypt_last _ _ _); [|done]. by injection Henc as <- <-.
    + destruct (encrypt_next _ _ _) as [[]|]; [|done]. injection Henc as <- <-. eauto.
  - intros (ct & enc & Henc & H1 & H2 & H3 & H4 & H). rewrite blen_record in H3, H4.
    pose proof (blen_nonneg ct).
    erewrite io_step by (apply add_within_ok; split_and!; [reflexivity|lia|reflexivity]).
    erewrite (io_step _ _ _ tt) by (apply malformed_if_ok; split; [apply Z.ltb_ge; lia|reflexivity]).
    rewrite (io_step _ _ _ (ct, enc) (st src (pos + length next) sink)).
    2:{ destruct fin; cbn iota; [destruct Henc as [-> ->]|destruct Henc as (e' & -> & ->)]; done. }
    erewrite io_step by (apply add_within_ok; split_and!; [reflexivity|lia|reflexivity]).
    erewrite io_step by (apply add_within_ok; split_and!; [reflexivity|lia|reflexivity]).
    erewrite (io_step _ _ _ tt) by (apply malformed_if_ok; split; [apply Z.ltb_ge; lia|reflexivity]).
    rewrite put_frame_then.
    erewrite io_step by (apply put_frame_ok; split_and!; [reflexivity|lia|reflexivity]). exact H.
Qed.

End seal.
Section sealing.
Context `{HS : !StreamLE31} (sha256 : bytes -> bytes).
Context (view : EnvelopeIntentV2.t).

Abbreviation size := (EnvelopeIntentV2.frame_plaintext_size view).
Abbreviation max_plain := (EnvelopeIntentV2.max_plaintext_size view).
Abbreviation max_cipher := (EnvelopeIntentV2.max_ciphertext_size view).

Context (size_pos : 1 <= size) (plain_fits : max_plain <= U64_MAX) (cipher_fits : max_cipher <= U64_MAX).

(** [current], then what the reader has left, is cut in [current :: r]. *)
Lemma next_chunk (current src : bytes) pos :
  1 <= blen current <= size -> blen current = size \/ drop pos src = [] ->
  let next := if blen current =? size then take (Z.to_nat size) (drop pos src) else [] in
  next ++ drop (pos + length next) src = drop pos src
  /\ (next = [] -> drop pos src = []) /\ blen next <= size
  /\ (next <> [] -> blen current = size)
  /\ (blen next = size \/ drop (pos + length next) src = []).
Proof.
  intros Hc Hor next. subst next. destruct (Z.eqb_spec (blen current) size) as [He|He].
  - set (rest := drop pos src). set (next := take (Z.to_nat size) rest).
    assert (next ++ drop (pos + length next) src = rest) as Happ.
    { rewrite <- drop_drop. apply take_drop_taken. }
    assert (blen next <= size) as Hn by (unfold next, blen; rewrite length_take; lia).
    split_and!; [done| |done|done|].
    + intros Hnil. unfold next in Hnil. destruct rest as [|b rest]; [done|].
      destruct (Z.to_nat size) eqn:Hz; [lia|done].
    + destruct (Z.eq_dec (blen next) size); [by left|right]. apply drop_ge.
      unfold next, blen in *. rewrite length_take in *. subst rest. rewrite length_drop in *. lia.
  - destruct Hor as [|Hnil]; [done|]. cbn. rewrite Nat.add_0_r. split_and!; [done|done|unfold blen; cbn; lia|done|by right].
Qed.

Lemma seal_frames_iff fuel h e current n plen w src pos sink w' n' plen' s' :
  1 <= blen current <= size -> blen current = size \/ drop pos src = [] -> n <= U32_MAX ->
  seal_frames fuel view h (Some e) current n plen w (st src pos sink) = (Ok (w', n', plen'), s') <->
  exists r fb,
    chunks_ok size (current :: r) = true /\ concat r = drop pos src
    /\ frames_of e h n (current :: r) = Some fb
    /\ (length r < fuel)%nat /\ n + blen r <= U32_MAX
    /\ plen + blen (current ++ concat r) <= max_plain
    /\ Hashing.len w + blen fb <= max_cipher
    /\ w' = extended w fb /\ n' = n + blen r /\ plen' = plen + blen (current ++ concat r)
    /\ s' = st src (pos + length (concat r)) (sink ++ fb).
Proof.
  revert e current n plen w pos sink. induction fuel as [|fuel IH]; intros e current n plen w pos sink Hc Hor Hn.
  { split; [done|]. intros (r & fb & _ & _ & _ & ? & _). lia. }
  pose proof (next_chunk current src pos Hc Hor) as (Happ & Hnil & Hns & Hfull & Hor').
  rewrite seal_step_ok.
  set (next := if blen current =? size then _ else _) in *.
  destruct (is_empty next) eqn:Hfin.
  - apply is_empty_true in Hfin. split.
    + intros (ct & enc & [-> Hct] & H1 & H2 & H3 & H4 & ([= -> -> ->] & ->)%mret_ok).
      exists [], (record true n ct). rewrite frames_last, chunks_cons, Hnil by done. cbn [concat].
      rewrite app_nil_r, Hfin. unfold blen at 5 6. cbn [length]. rewrite !Z.add_0_r.
      split_and!; try done; [left; done|eauto|lia].
    + intros (r & fb & Hck & Hr & Hfr & _ & _ & H1 & H2 & -> & -> & -> & ->).
      rewrite (Hnil Hfin) in Hr. assert (r = []) as ->.
      { apply chunks_cons in Hck as [[-> _]|(Hne & _ & Hck)]; [done|]. destruct r as [|d r]; [done|].
        pose proof (chunks_nonempty _ _ _ size_pos Hck). cbn [concat] in Hr.
        apply app_nil in Hr as [-> _]. unfold blen in *. cbn in *. lia. }
      apply frames_last in Hfr as (ct & Hct & ->). cbn [concat] in *. rewrite app_nil_r in *.
      exists ct, None. split_and!; try done; try lia. rewrite Hfin.
      apply mret_ok. unfold blen at 2. cbn. by rewrite !Z.add_0_r.
  - assert (next <> []) as Hne by (by intros Hx; rewrite Hx in Hfin).
    apply is_empty_false in Hfin. specialize (Hfull Hne). split.
    + intros (ct & enc & (e' & -> & Hct) & H1 & H2 & H3 & H4 & H).
      apply io_bind_ok in H as (n1 & s1 & (-> & Hb & ->)%add_within_ok & H).
      apply IH in H as (r & fb & Hck & Hr & Hfr & Hl & Hu & Hp & Hw & -> & -> & -> & ->); [|lia|done..].
      exists (next :: r), (record false n ct ++ fb).
      rewrite frames_next, chunks_cons by done. cbn [concat length]. rewrite Hr, Happ in *.
      unfold extended in Hw. cbn [Hashing.len] in Hw. rewrite extended_twice, !blen_app in *.
      assert (blen (next :: r) = 1 + blen r) as -> by (unfold blen; cbn [length]; lia).
      assert (blen (drop pos src) = blen next + blen (drop (pos + length next) src)) as Hd
        by (by rewrite <- Happ at 1; rewrite blen_app).
      split_and!; try done; try lia; eauto 8.
      unfold st. f_equal; [unfold blen in Hd; lia|by rewrite (assoc (++))].
    + intros (r & fb & Hck & Hr & Hfr & Hl & Hu & H1 & H2 & -> & -> & -> & ->).
      apply chunks_cons in Hck as [[-> _]|(Hner & _ & Hck)].
      { cbn in Hr. rewrite <- Hr in Happ. by apply app_nil in Happ as [? _]. }
      destruct r as [|d r]; [done|]. apply frames_next in Hfr as (ct & e' & fb' & Hct & Hfr & ->); [|done].
      assert (next = d) as Hnd.
      { unfold next. rewrite (proj2 (Z.eqb_eq _ _) Hfull), <- Hr. cbn [concat].
        by apply chunks_first in Hck as [? _]. }
      assert (drop (pos + length next) src = concat r) as Hdr.
      { rewrite <- drop_drop, <- Hr, Hnd. apply drop_app_length. }
      cbn [concat length] in *. rewrite !blen_app in *.
      assert (blen (d :: r) = 1 + blen r) as Hbl by (unfold blen; cbn [length]; lia).
      rewrite Hbl in *. pose proof (blen_nonneg (d ++ concat r)). pose proof (blen_nonneg fb').
      pose proof (blen_nonneg r). rewrite blen_app in *. pose proof (blen_nonneg (concat r)).
      exists ct, (Some e'). split_and!; [by eauto|subst d; lia..|].
      erewrite io_step by (apply add_within_ok; split_and!; [reflexivity|lia|reflexivity]).
      apply IH; [lia|done|lia|]. exists r, fb'. rewrite Hnd in *.
      unfold extended at 1. cbn [Hashing.len]. rewrite extended_twice, !blen_app in *.
      split_and!; try done; try lia.
      unfold st. f_equal; [rewrite length_app; lia|by rewrite (assoc (++))].
Qed.
End sealing.

(** ** Objects *)

Section object.
Context `{HS : !StreamLE31} (sha256 : bytes -> bytes) (sha256_length : forall x, blen (sha256 x) = 32).

Definition pre_of (ib sb : bytes) (view : EnvelopeIntentV2.t) : Preamble.t :=
  Preamble.mk (blen ib) (blen sb) (EnvelopeIntentV2.frame_plaintext_size view)
    (EnvelopeIntentV2.hash sha256 ib).

Definition header_of (ib sb : bytes) (view : EnvelopeIntentV2.t) : bytes :=
  Preamble.encode (pre_of ib sb view) ++ ib ++ sb.

(** What precedes the frames: an intent and a slot that is bound to it. *)
Record headed (ib sb : bytes) (view : EnvelopeIntentV2.t) (slot : DekSlotV2.t) : Prop := {
  hd_intent : EnvelopeIntentV2.parse ib = Ok view;
  hd_slot : bind_slot sha256 sb view = Ok slot;
  hd_intent_len : 1 <= blen ib <= MAX_INTENT_LEN;
  hd_slot_len : 1 <= blen sb <= MAX_DEK_SLOT_LEN }.

(** The object of a plaintext, the concatenation of its chunks. *)
Record object_of (dek ib sb : bytes) (view : EnvelopeIntentV2.t) (slot : DekSlotV2.t)
    (chunks : list bytes) (obj : bytes) : Prop := {
  ob_headed : headed ib sb view slot;
  ob_chunks : chunks_ok (EnvelopeIntentV2.frame_plaintext_size view) chunks = true;
  ob_plain : blen (concat chunks) <= EnvelopeIntentV2.max_plaintext_size view;
  ob_cipher : blen obj <= EnvelopeIntentV2.max_ciphertext_size view;
  ob_bytes : exists fb,
    frames_of (encryptor_new dek (EnvelopeIntentV2.stream_nonce_prefix view))
      (EnvelopeIntentV2.hash sha256 ib) 0 chunks = Some fb
    /\ obj = header_of ib sb view ++ fb }.

Definition digest_of (ib sb : bytes) (view : EnvelopeIntentV2.t) (chunks : list bytes)
    (obj : bytes) : ObjectDigest.t :=
  ObjectDigest.mk (sha256 obj) (blen obj)
    (preamble_sha256 sha256 (Preamble.encode (pre_of ib sb view)))
    (blen chunks) (blen (concat chunks)).

(** The sizes an accepted intent allows. *)
Record sizes (view : EnvelopeIntentV2.t) : Prop := {
  sz_frame : MIN_FRAME_PLAINTEXT_SIZE <= EnvelopeIntentV2.frame_plaintext_size view
             <= MAX_FRAME_PLAINTEXT_SIZE;
  sz_plain : 1 <= EnvelopeIntentV2.max_plaintext_size view <= MAX_OBJECT_SIZE;
  sz_cipher : 1 <= EnvelopeIntentV2.max_ciphertext_size view <= MAX_OBJECT_SIZE }.

Lemma intent_sizes ib view :
  blen ib <= USIZE_MAX -> EnvelopeIntentV2.parse ib = Ok view -> sizes view.
Proof.
  intros Hb Hp. apply intent_exact in Hp as [Hok _]; [|done].
  apply intent_bounds in Hok as (H1 & H2 & H3 & _).
  unfold frame_size_ok, object_size_ok in *. split; lia.
Qed.

Lemma headed_sizes ib sb view slot : headed ib sb view slot -> sizes view.
Proof.
  intros [H1 _ H2 _]. eapply intent_sizes; [|exact H1].
  unfold MAX_INTENT_LEN, USIZE_MAX, U64_MAX in *. lia.
Qed.

Lemma blen_preamble x : blen (Preamble.encode x) = 32 + blen (Preamble.intent_sha256 x).
Proof. unfold Preamble.encode. rewrite !blen_app. unfold blen. rewrite !length_be_bytes. cbn. lia. Qed.

Lemma blen_hash ib : blen (EnvelopeIntentV2.hash sha256 ib) = 32.
Proof. unfold EnvelopeIntentV2.hash, domain_hash. apply sha256_length. Qed.

Lemma pre_of_wf ib sb view slot : headed ib sb view slot -> Preamble.wf (pre_of ib sb view) = true.
Proof.
  intros H. pose proof (headed_sizes _ _ _ _ H) as [S _ _]. destruct H as [_ _ H1 H2].
  unfold Preamble.wf, pre_of, frame_size_ok. cbn. rewrite blen_hash.
  rewrite !(proj2 (Z.leb_le _ _)) by lia. reflexivity.
Qed.

Lemma blen_header ib sb view : blen (header_of ib sb view) = 64 + blen ib + blen sb.
Proof. unfold header_of. rewrite !blen_app, blen_preamble. cbn. rewrite blen_hash. lia. Qed.

(** Chunks of a plaintext within the cap are few. *)
Lemma few_chunks view chunks :
  sizes view -> chunks_ok (EnvelopeIntentV2.frame_plaintext_size view) chunks = true ->
  blen (concat chunks) <= EnvelopeIntentV2.max_plaintext_size view ->
  1 <= blen chunks
  <= EnvelopeIntentV2.max_plaintext_size view / EnvelopeIntentV2.frame_plaintext_size view + 1
  /\ blen chunks <= 8192.
Proof.
  intros [S1 S2 _] Hc Hp. unfold MIN_FRAME_PLAINTEXT_SIZE, MAX_OBJECT_SIZE in *.
  assert (1 <= blen chunks) as H1.
  { destruct chunks; [done|]. unfold blen. cbn. lia. }
  apply chunks_total in Hc; [|lia].
  set (size := EnvelopeIntentV2.frame_plaintext_size view) in *.
  set (cap := EnvelopeIntentV2.max_plaintext_size view) in *.
  assert ((blen chunks - 1) <= cap / size) as H2 by (apply Z.div_le_lower_bound; lia).
  split; [lia|]. nia.
Qed.

Lemma len_in_ok b max name s n s' :
  max <= U32_MAX -> len_in b max name s = (Ok n, s') <-> n = blen b /\ 1 <= blen b <= max /\ s' = s.
Proof.
  intros Hm. unfold len_in. case_match eqn:E.
  - rewrite mret_ok. split; [intros [-> ->]; split_and!; lia || done|by intros (-> & _ & ->)].
  - split; [done|]. intros (_ & ? & _). lia.
Qed.

Lemma flush_st src pos sink : flush (st src pos sink) = (Ok tt, st src pos sink).
Proof. reflexivity. Qed.

Lemma header_put ib sb view slot w1 w2 w3 p sink s' :
  headed ib sb view slot ->
  (exists s1 s2,
     Hashing.put Hashing.new (Preamble.encode (pre_of ib sb view)) (st p 0 sink) = (Ok w1, s1)
     /\ Hashing.put w1 ib s1 = (Ok w2, s2) /\ Hashing.put w2 sb s2 = (Ok w3, s')) <->
  w1 = extended Hashing.new (Preamble.encode (pre_of ib sb view)) /\ w2 = extended w1 ib
  /\ w3 = extended w2 sb /\ s' = st p 0 (sink ++ header_of ib sb view).
Proof.
  intros Hd. pose proof (blen_header ib sb view) as Hl. destruct Hd as [_ _ H1 H2].
  unfold MAX_INTENT_LEN, MAX_DEK_SLOT_LEN in *.
  unfold header_of in *. rewrite !blen_app in Hl. pose proof (blen_nonneg (Preamble.encode (pre_of ib sb view))).
  split.
  - intros (s1 & s2 & (-> & ? & ->)%put_ok & (-> & ? & ->)%put_ok & (-> & ? & ->)%put_ok).
    split_and!; try done. by rewrite <- !app_assoc.
  - intros (-> & -> & -> & ->). eexists _, _. rewrite !put_ok. unfold extended, U64_MAX in *. cbn in *.
    split_and!; [done|lia|done|done|lia|done|done|lia|by rewrite <- !app_assoc].
Qed.

Lemma sizes_fit view :
  sizes view ->
  1 <= EnvelopeIntentV2.frame_plaintext_size view
  /\ EnvelopeIntentV2.max_plaintext_size view <= U64_MAX
  /\ EnvelopeIntentV2.max_ciphertext_size view <= U64_MAX.
Proof.
  intros [S1 S2 S3]. unfold MIN_FRAME_PLAINTEXT_SIZE, MAX_OBJECT_SIZE, U64_MAX in *. lia.
Qed.

Lemma first_chunk size (p : bytes) :
  1 <= size ->
  let current := take (Z.to_nat size) p in
  is_empty current = false ->
  1 <= blen current <= size /\ (blen current = size \/ drop (length current) p = [])
  /\ current ++ drop (length current) p = p.
Proof.
  intros Hs current He%is_empty_false. subst current.
  assert (blen (take (Z.to_nat size) p) <= size) as Hl by (unfold blen; rewrite length_take; lia).
  split_and!; [lia|done| |apply take_drop_taken].
  destruct (Z.eq_dec (blen (take (Z.to_nat size) p)) size) as [|Hne]; [by left|right].
  apply drop_ge. unfold blen in *. rewrite length_take in *. lia.
Qed.

(** [seal] writes exactly the objects of what it reads. *)
Lemma seal_ok dek intent slotm p d s' :
  let ib := IntentMaterial.exact_intent_bytes intent in
  let sb := SlotMaterial.exact_slot_bytes slotm in
  seal sha256 dek intent slotm (st p 0 []) = (Ok d, s') ->
  exists view slot chunks obj,
    EnvelopeIntentV2.hash sha256 ib = IntentMaterial.intent_hash intent
    /\ object_of dek ib sb view slot chunks obj /\ concat chunks = p
    /\ s' = st p (length p) obj /\ d = digest_of ib sb view chunks obj.
Proof.
  intros ib sb. unfold seal. fold ib sb. intros H. inv_io.
  rename x0 into view, x1 into slot, x12 into current.
  repeat match goal with E : len_in _ _ _ _ = _ |- _ => apply len_in_ok in E as (-> & ? & ->); [|done] end.
  match goal with E : negb (bool_decide _) = false |- _ =>
    apply negb_false_iff, bool_decide_eq_true in E; rename E into Hh end.
  rewrite <- Hh in *.
  assert (headed ib sb view slot) as Hd by by split.
  pose proof (headed_sizes _ _ _ _ Hd) as Hs.
  match goal with E1 : Hashing.put Hashing.new _ _ = _, E2 : Hashing.put _ ib _ = _,
    E3 : Hashing.put _ sb _ = _ |- _ =>
    pose proof (proj1 (header_put _ _ _ _ _ _ _ p [] _ Hd)
      (ex_intro _ _ (ex_intro _ _ (conj E1 (conj E2 E3))))) as (-> & -> & -> & ->); clear E1 E2 E3 end.
  inv_io. rewrite drop_0 in *.
  match goal with E : is_empty _ = false |- _ => rename E into He end.
  destruct (sizes_fit view Hs) as (A1 & A2 & A3).
  destruct (first_chunk _ p A1 He) as (Hc & Hor & Hp).
  match goal with E : seal_frames _ _ _ _ _ _ _ _ _ = _ |- _ =>
    apply (seal_frames_iff view A1 A2 A3) in E
      as (r & fb & Hck & Hr & Hfr & _ & _ & Hpl & Hci & -> & -> & -> & ->); [|done..] end.
  match goal with E : flush _ = _ |- _ => rewrite flush_st in E; injection E as <- <- end.
  rewrite !extended_twice in *. cbn [extended Hashing.hashed Hashing.len Hashing.new] in *.
  rewrite Z.add_0_l in *. rewrite <- blen_app in Hci.
  set (cur := take _ p) in *.
  exists view, slot, (cur :: r), (header_of ib sb view ++ fb). cbn [concat]. rewrite Hr, Hp in *.
  unfold header_of. rewrite <- !app_assoc in *.
  split_and!; [done| |done| |].
  - split; [done|done|cbn [concat]; rewrite Hr, Hp; lia|done|exists fb; split; [done|]].
    unfold header_of. by rewrite <- !app_assoc.
  - f_equal. rewrite <- length_app. by rewrite Hp.
  - unfold digest_of. cbn [concat]. rewrite Hr, Hp. f_equal. unfold blen. cbn [length]. lia.
Qed.

Lemma seal_run dek intent slotm view slot chunks obj :
  let ib := IntentMaterial.exact_intent_bytes intent in
  let sb := SlotMaterial.exact_slot_bytes slotm in
  EnvelopeIntentV2.hash sha256 ib = IntentMaterial.intent_hash intent ->
  object_of dek ib sb view slot chunks obj ->
  seal sha256 dek intent slotm (st (concat chunks) 0 [])
  = (Ok (digest_of ib sb view chunks obj), st (concat chunks) (length (concat chunks)) obj).
Proof.
  intros ib sb Hh [Hd Hck Hpl Hci (fb & Hfr & ->)]. unfold seal. fold ib sb.
  pose proof Hd as [Hp Hs Hl1 Hl2]. pose proof (headed_sizes _ _ _ _ Hd) as Hsz.
  destruct (few_chunks view chunks Hsz Hck Hpl) as [Hfew H8].
  destruct (sizes_fit view Hsz) as (A1 & A2 & A3).
  set (s0 := st (concat chunks) 0 []).
  rewrite (io_step _ _ s0 tt s0) by (apply mismatch_if_ok; by rewrite Hh, bool_decide_eq_true_2).
  rewrite (io_step _ _ s0 view s0) by (apply of_result_ok; by rewrite Hp).
  rewrite (io_step _ _ s0 slot s0) by by apply of_result_ok.
  rewrite (io_step _ _ s0 (blen ib) s0) by by apply len_in_ok.
  rewrite (io_step _ _ s0 (blen sb) s0) by by apply len_in_ok.
  rewrite <- Hh. fold (pre_of ib sb view).
  destruct (proj2 (header_put ib sb view slot _ _ _ (concat chunks) [] _ Hd)
    (conj eq_refl (conj eq_refl (conj eq_refl eq_refl)))) as (s1 & s2 & E1 & E2 & E3).
  rewrite (io_step _ _ _ _ _ E1), (io_step _ _ _ _ _ E2), (io_step _ _ _ _ _ E3).
  destruct chunks as [|c r]; [done|]. cbn [concat] in *.
  pose proof (chunks_first _ _ _ Hck) as (Hcur & Hrest & Hor).
  pose proof (chunks_nonempty _ _ _ A1 Hck) as Hne.
  rewrite app_nil_l in *. rewrite (io_step _ _ _ _ _ (read_up_to_st _ _ _ _)), drop_0, Hcur.
  erewrite (io_step _ _ _ tt) by (apply malformed_if_ok; split; [by apply is_empty_false; lia|done]).
  erewrite (io_step _ _ _ (_, _, _)).
  2:{ apply (seal_frames_iff view A1 A2 A3).
      - apply chunks_cons in Hck as [[_ ?]|(_ & ? & _)]; lia.
      - by rewrite Nat.add_0_l, Hrest.
      - done.
      - exists r, fb. rewrite Nat.add_0_l, Hrest. split_and!; try done.
        + unfold frame_fuel. unfold blen in Hfew. cbn [length] in Hfew. lia.
        + unfold U32_MAX, blen in *. cbn [length] in H8. lia.
        + cbn [extended Hashing.len Hashing.new]. rewrite blen_app in Hci.
          unfold header_of in Hci. rewrite !blen_app in Hci. lia. }
  cbv beta iota. rewrite (io_step _ _ _ _ _ (flush_st _ _ _)).
  erewrite io_step by (apply add_within_ok; split_and!; [reflexivity|..|reflexivity];
    unfold U32_MAX, blen in *; cbn [length] in H8; lia).
  unfold mret, io_ret. rewrite !extended_twice. unfold digest_of, header_of. cbn [extended
    Hashing.hashed Hashing.len Hashing.new concat]. rewrite <- !app_assoc.
  rewrite app_nil_l, !Z.add_0_l, length_app.
  by assert (blen (c :: r) = blen r + 1) as -> by (unfold blen; cbn [length]; lia).
Qed.

End object.
