(* ===== verification/EnvelopeOpenFacts.v ===== *)
(** * What opening an object reads

    Where no call fails: the header of a frame, the loop of [open], the loop of
    [check_public] and [read_head], each against the object it reads. *)

From S2P Require Import Prelude Bytes Canonical CanonicalFacts CanonicalDecode CanonicalTheorems.
From S2P Require Import RecordFields WireMap Keys Envelope ProfileLease EnvelopeV2 EnvelopeV2Facts.
From S2P Require Import EnvelopeObject EnvelopeObjectFacts.

(** ** Frames *)

Definition frame_header (fin : bool) (n len : Z) : bytes :=
  [if fin then KIND_FINAL else KIND_DATA] ++ be_bytes 4 n ++ be_bytes 4 len.

Definition frame_len_ok (fin : bool) (size len : Z) : Prop :=
  if fin then TAG_LEN + 1 <= len <= size + TAG_LEN else len = size + TAG_LEN.

Lemma record_header fin n ct : record fin n ct = frame_header fin n (blen ct) ++ ct.
Proof. unfold record, frame_header. by rewrite <- !app_assoc. Qed.

Lemma blen_frame_header fin n len : blen (frame_header fin n len) = FRAME_HEADER_LEN.
Proof. unfold frame_header, blen, FRAME_HEADER_LEN. rewrite !length_app, !length_be_bytes. done. Qed.

Lemma frame_header_slices (head : bytes) :
  blen head = FRAME_HEADER_LEN ->
  head = take 1 head ++ Preamble.slice 1 5 head ++ Preamble.slice 5 9 head.
Proof.
  unfold blen, FRAME_HEADER_LEN. intros H. rewrite <- (take_drop 1 head) at 1. f_equal.
  rewrite (slice_drop 1 5), (slice_drop 5 9) by lia. rewrite (drop_ge head 9) by lia.
  by rewrite app_nil_r.
Qed.

Lemma frame_head_ok head n max_frames size fin len :
  blen head = FRAME_HEADER_LEN -> 0 <= n <= U32_MAX -> 0 <= size <= MAX_FRAME_PLAINTEXT_SIZE ->
  frame_head head n max_frames size = Ok (fin, len) <->
  frame_header fin n len = head /\ n < max_frames /\ frame_len_ok fin size len.
Proof.
  intros Hl Hn Hs. assert (length head = 9%nat) as Hl9 by (unfold blen, FRAME_HEADER_LEN in Hl; lia).
  assert (length (Preamble.slice 1 5 head) = 4%nat /\ length (Preamble.slice 5 9 head) = 4%nat)
    as [L1 L2] by (split; apply length_slice; lia).
  assert (frame_header fin n len = head <->
    take 1 head = [if fin then KIND_FINAL else KIND_DATA] /\ be_bytes 4 n = Preamble.slice 1 5 head
    /\ be_bytes 4 len = Preamble.slice 5 9 head) as Hsplit.
  { rewrite (frame_header_slices head Hl) at 1. unfold frame_header. split.
    - intros H. apply app_inj_1 in H as [H1 H]; [|by rewrite length_take, Hl9].
      apply app_inj_1 in H as [H2 H]; [|by rewrite L1, length_be_bytes]. done.
    - by intros (-> & -> & ->). }
  rewrite Hsplit.
  assert (0 <= n < 256 ^ Z.of_nat 4) as Hn4 by (unfold U32_MAX in Hn; cbn; lia).
  unfold frame_head, TAG_LEN. change (Preamble.u32_at 1 head) with (of_be (Preamble.slice 1 5 head)).
  change (Preamble.u32_at 5 head) with (of_be (Preamble.slice 5 9 head)).
  rewrite (of_be_is (Preamble.slice 1 5 head) 4 n L1 Hn4).
  pose proof (of_be_range (Preamble.slice 5 9 head)) as Hr. unfold blen in Hr. rewrite L2 in Hr.
  set (l := of_be (Preamble.slice 5 9 head)) in *.
  assert (frame_len_ok fin size len -> be_bytes 4 len = Preamble.slice 5 9 head <-> l = len) as Hlen.
  { intros Hok. apply of_be_is; [done|]. unfold frame_len_ok, TAG_LEN, MAX_FRAME_PLAINTEXT_SIZE in *.
    change (256 ^ Z.of_nat 4) with 4294967296. destruct fin; lia. }
  unfold frame_len_ok, TAG_LEN in *.
  destruct (decide (take 1 head = [KIND_FINAL])) as [HF|HF].
  { rewrite HF, bool_decide_eq_false_2, (bool_decide_eq_true_2 ([KIND_FINAL] = [KIND_FINAL])) by done.
    cbn [orb negb andb]. destruct (Z.eqb_spec (of_be (Preamble.slice 1 5 head)) n); cbn [negb];
      [|split; [done|by intros ((_ & ? & _) & _)]].
    destruct (Z.leb_spec max_frames n); [split; [done|lia]|].
    destruct (Z.leb_spec (16 + 1) l), (Z.leb_spec l (size + 16)); cbn [andb negb];
      (split; [intros [= <- <-]|intros ((Hk & _ & Hb) & _ & Ho)]); try done;
      try (destruct fin; [|done]; apply Hlen in Hb; [|done]; first [lia|by rewrite Hb]).
    split_and!; [done|done|apply Hlen; lia|done|lia|lia]. }
  destruct (decide (take 1 head = [KIND_DATA])) as [HD|HD].
  { rewrite HD, (bool_decide_eq_false_2 ([KIND_DATA] = [KIND_FINAL])), (bool_decide_eq_true_2 ([KIND_DATA] = [KIND_DATA])) by done.
    cbn [orb negb andb]. destruct (Z.eqb_spec (of_be (Preamble.slice 1 5 head)) n); cbn [negb];
      [|split; [done|by intros ((_ & ? & _) & _)]].
    destruct (Z.leb_spec max_frames n); [split; [done|lia]|].
    destruct (Z.eqb_spec l (size + 16)); cbn [andb negb];
      (split; [intros [= <- <-]|intros ((Hk & _ & Hb) & _ & Ho)]); try done;
      try (destruct fin; [done|]; apply Hlen in Hb; [|done]; first [lia|by rewrite Hb]).
    split_and!; [done|done|apply Hlen; lia|done|lia]. }
  rewrite !bool_decide_eq_false_2 by done. cbn [orb negb].
  split; [done|]. intros ((Hk & _) & _). by destruct fin.
Qed.

(** ** The loop of [open] *)

Lemma drop_record (src b t : bytes) pos :
  drop pos src = b ++ t -> t = drop (pos + length b) src.
Proof. intros H. by rewrite <- drop_drop, H, drop_app_length. Qed.

Lemma blen_one {A} (a : A) : blen [a] = 1.
Proof. done. Qed.

Section open.
Context `{HS : !StreamLE31, HL : !StreamLaws}.
Context (view : EnvelopeIntentV2.t) (max_frames size : Z) (h : bytes).
Context (size_fits : 1 <= size <= MAX_FRAME_PLAINTEXT_SIZE).
Context (plain_fits : EnvelopeIntentV2.max_plaintext_size view <= U64_MAX).

Abbreviation max_plain := (EnvelopeIntentV2.max_plaintext_size view).

(** A frame in the source, read as [open] and [check_public] read it. *)
Lemma read_frame_head {A} (k : bool * Z -> io A) n pos src sink (r : A) s' :
  0 <= n <= U32_MAX ->
  ((head ← read_exact_or FRAME_HEADER_LEN "missing FINAL frame";
    x ← of_result (frame_head head n max_frames size); k x) (st src pos sink) = (Ok r, s')) <->
  exists fin len,
    drop pos src = frame_header fin n len ++ drop (pos + 9) src
    /\ n < max_frames /\ frame_len_ok fin size len
    /\ k (fin, len) (st src (pos + 9) sink) = (Ok r, s').
Proof.
  intros Hn. split.
  - intros H. apply io_bind_ok in H as (head & s1 & (Hl & -> & Hd)%read_exact_ok & H).
    apply io_bind_ok in H as ([fin len] & s2 & [Hf ->]%of_result_ok & H).
    apply frame_head_ok in Hf as (<- & Hm & Hlen); [|done|done|lia].
    assert (length (frame_header fin n len) = 9%nat) as H9 by (unfold blen, FRAME_HEADER_LEN in Hl; lia).
    rewrite H9 in *. exists fin, len. by split_and!.
  - intros (fin & len & Hd & Hm & Hlen & H).
    pose proof (blen_frame_header fin n len) as Hl.
    rewrite (io_step _ _ _ _ _ (read_exact_run src _ _ pos sink _ _ Hd Hl)).
    assert (length (frame_header fin n len) = 9%nat) as -> by (unfold blen, FRAME_HEADER_LEN in Hl; lia).
    erewrite io_step; [exact H|]. apply of_result_ok. split; [|done].
    apply frame_head_ok; [done|done|lia|done].
Qed.

(** One round of the loop of [open] that goes well. *)
Lemma open_step_ok fuel d n plen src pos sink r s' :
  0 <= n <= U32_MAX ->
  open_frames (S fuel) view h max_frames size (Some d) n plen (st src pos sink) = (Ok r, s') <->
  exists fin ct m dec,
    drop pos src = record fin n ct ++ drop (pos + length (record fin n ct)) src
    /\ n < max_frames /\ frame_len_ok fin size (blen ct)
    /\ (if fin then dec = None /\ decrypt_last d (frame_aad h n true) ct = Some m
        else exists d', dec = Some d' /\ decrypt_next d (frame_aad h n false) ct = Some (m, d'))
    /\ plen + blen m <= max_plain
    /\ (if fin then mret (n, plen + blen m)
        else counter ← add_within U32_MAX n 1;
             open_frames fuel view h max_frames size dec counter (plen + blen m))
         (st src (pos + length (record fin n ct)) (sink ++ m)) = (Ok r, s').
Proof.
  intros Hn. cbn [open_frames]. rewrite read_frame_head by done.
  assert (forall fin (ct : bytes), (pos + 9 + length ct)%nat = (pos + length (record fin n ct))%nat) as H9.
  { intros fin ct. pose proof (blen_record fin n ct) as H. unfold blen, FRAME_HEADER_LEN in H. lia. }
  split.
  - intros (fin & len & Hd & Hm & Hlen & H).
    apply io_bind_ok in H as (ct & s1 & (Hct & -> & Hd2)%read_exact_ok & H). subst len.
    apply io_bind_ok in H as ([m dec] & s1 & Hdec & H).
    apply io_bind_ok in H as (plen' & s2 & (-> & Hb & ->)%add_within_ok & H).
    apply io_bind_ok in H as (u & s2 & [Hp ->]%malformed_if_ok & H). apply Z.ltb_ge in Hp.
    assert (s1 = st src (pos + 9 + length ct) sink) as ->.
    { destruct fin; cbn iota in Hdec; [destruct (decrypt_last _ _ _)|destruct (decrypt_next _ _ _) as [[]|]];
        unfold mret, io_ret, fail, EnvelopeObject.of_result in Hdec; congruence. }
    rewrite (io_step _ _ _ _ _ (write_all_st _ _ _ _)) in H. rewrite (H9 fin) in *.
    exists fin, ct, m, dec. split_and!; try done.
    + by rewrite Hd, Hd2, app_assoc, <- record_header.
    + destruct fin; cbn iota in Hdec.
      * destruct (decrypt_last _ _ _); [|done]. by injection Hdec as <- <-.
      * destruct (decrypt_next _ _ _) as [[]|]; [|done]. injection Hdec as <- <-. eauto.
  - intros (fin & ct & m & dec & Hd & Hm & Hlen & Hdec & Hp & H).
    rewrite record_header, <- app_assoc in Hd. pose proof (drop_record _ _ _ _ Hd) as Hd2.
    assert (length (frame_header fin n (blen ct)) = 9%nat) as L9.
    { pose proof (blen_frame_header fin n (blen ct)) as L. unfold blen at 1, FRAME_HEADER_LEN in L. lia. }
    rewrite L9 in Hd2. exists fin, (blen ct). rewrite <- Hd2. split_and!; [done|done|done|].
    rewrite (io_step _ _ _ _ _ (read_exact_run src _ _ _ sink ct _ (eq_sym Hd2) eq_refl)), (H9 fin).
    rewrite (io_step _ _ _ (m, dec) (st src (pos + length (record fin n ct)) sink)).
    2:{ destruct fin; cbn iota; [destruct Hdec as [-> ->]|destruct Hdec as (d' & -> & ->)]; done. }
    erewrite io_step by (apply add_within_ok; split_and!; [reflexivity|lia|reflexivity]).
    erewrite (io_step _ _ _ tt) by (apply malformed_if_ok; split; [apply Z.ltb_ge; lia|reflexivity]).
    by rewrite (io_step _ _ _ _ _ (write_all_st _ _ _ _)).
Qed.

Lemma open_frames_iff fuel e d n plen src pos sink n' plen' s' :
  in_step e d -> 0 <= n <= U32_MAX ->
  open_frames fuel view h max_frames size (Some d) n plen (st src pos sink)
  = (Ok (n', plen'), s') <->
  exists chunks fb,
    chunks_ok size chunks = true /\ frames_of e h n chunks = Some fb
    /\ (length chunks <= fuel)%nat /\ n + blen chunks <= max_frames
    /\ n + blen chunks - 1 <= U32_MAX /\ plen + blen (concat chunks) <= max_plain
    /\ drop pos src = fb ++ drop (pos + length fb) src
    /\ n' = n + blen chunks - 1 /\ plen' = plen + blen (concat chunks)
    /\ s' = st src (pos + length fb) (sink ++ concat chunks).
Proof.
  revert e d n plen pos sink n' plen' s'.
  induction fuel as [|fuel IH]; intros e d n plen pos sink n' plen' s' Hin Hn.
  { split; [done|]. intros ([|c r] & fb & Hck & _ & Hl & _); [done|]. cbn in Hl. lia. }
  rewrite open_step_ok by done. split.
  - intros (fin & ct & m & dec & Hd & Hm & Hlen & Hdec & Hp & H). destruct fin; cbn [frame_len_ok] in Hlen.
    + destruct Hdec as [-> Hdec]. apply mret_ok in H as [[= -> ->] ->].
      apply (last_opens e) in Hdec; [|done]. pose proof (last_tag _ _ _ _ Hdec). unfold TAG_LEN in Hlen.
      exists [m], (record true n ct). rewrite chunks_cons, frames_last. cbn [concat]. rewrite app_nil_r.
      rewrite blen_one. split_and!; try done; try lia; [left; split; [done|lia]|by eexists|cbn; lia].
    + destruct Hdec as (d' & -> & Hdec).
      destruct (next_sealed e d _ _ _ _ Hin Hdec) as (e' & Henc & Hin').
      pose proof (next_tag _ _ _ _ _ Henc) as Htag. unfold TAG_LEN in Hlen.
      apply io_bind_ok in H as (n1 & s1 & (-> & Hb & ->)%add_within_ok & Hrest).
      assert (0 <= n + 1 <= U32_MAX) as Hn1 by lia.
      destruct (proj1 (IH _ _ _ _ _ _ _ _ _ Hin' Hn1) Hrest)
        as (chunks & fb & Hck & Hfr & Hl & Hmf & Hu & Hpl & Hd2 & -> & -> & ->).
      exists (m :: chunks), (record false n ct ++ fb).
      assert (chunks <> []) as Hne by by intros ->.
      rewrite chunks_cons, frames_next by done. cbn [concat length]. rewrite blen_app in *.
      assert (blen (m :: chunks) = 1 + blen chunks) as -> by (unfold blen; cbn [length]; lia).
      rewrite length_app, Nat.add_assoc.
      split_and!; try done; try lia.
      * right. split_and!; [done|lia|done].
      * by exists ct, e', fb.
      * by rewrite Hd, Hd2 at 1; rewrite <- app_assoc.
      * unfold st. f_equal. by rewrite <- app_assoc.
  - intros (chunks & fb & Hck & Hfr & Hl & Hmf & Hu & Hpl & Hd & -> & -> & ->).
    destruct chunks as [|m r]; [done|]. destruct (decide (r = [])) as [->|Hne].
    + apply frames_last in Hfr as (ct & Hct & ->). apply chunks_cons in Hck as [[_ Hc]|[? _]]; [|done].
      pose proof (last_tag _ _ _ _ Hct). cbn [concat] in *. rewrite app_nil_r in *.
      rewrite blen_one in *.
      exists true, ct, m, None. split_and!; try done; try lia.
      * cbn. unfold TAG_LEN. lia.
      * by apply (last_opens e d).
      * apply mret_ok. split; [f_equal; lia|done].
    + apply frames_next in Hfr as (ct & e' & fb' & Hct & Hfr & ->); [|done].
      apply chunks_cons in Hck as [[? _]|(_ & Hc & Hck)]; [done|].
      pose proof (next_tag _ _ _ _ _ Hct). cbn [concat length] in *. rewrite blen_app in *.
      assert (blen (m :: r) = 1 + blen r) as Hbl by (unfold blen; cbn [length]; lia).
      rewrite Hbl in *. pose proof (blen_nonneg (concat r)).
      destruct (next_opens e d _ _ _ _ Hin Hct) as (d' & Hdec & Hin').
      rewrite length_app, Nat.add_assoc, <- app_assoc in Hd. pose proof (drop_record _ _ _ _ Hd) as Hd2.
      exists false, ct, m, (Some d'). rewrite <- Hd2. assert (1 <= blen r).
      { destruct r; [done|]. unfold blen. cbn [length]. lia. }
      split_and!; [done|lia| |by exists d'|lia|].
      { cbn. unfold TAG_LEN. lia. }
      erewrite io_step by (apply add_within_ok; split_and!; [reflexivity|lia|reflexivity]).
      apply (IH e'); [done|lia|]. exists r, fb'. rewrite length_app, Nat.add_assoc.
      split_and!; try done; try lia.
      unfold st. f_equal. by rewrite <- app_assoc.
Qed.

End open.

(** ** The head *)

Section head.
Context (sha256 : bytes -> bytes) (sha256_length : forall x, blen (sha256 x) = 32).

(** [expected] is about an object with this intent and slot. *)
Record names (expected : Expected.t) (ib sb : bytes) (view : EnvelopeIntentV2.t) (obj : bytes)
    : Prop := {
  nm_size : Expected.ciphertext_size expected = blen obj;
  nm_sha : Expected.ciphertext_sha256 expected = sha256 obj;
  nm_preamble : Expected.preamble_sha256 expected
                = preamble_sha256 sha256 (Preamble.encode (pre_of sha256 ib sb view));
  nm_intent : Expected.intent_hash expected = EnvelopeIntentV2.hash sha256 ib;
  nm_slot : Expected.dek_slot_sha256 expected = domain_hash sha256 L_DEK_SLOT sb;
  nm_scope : Expected.scope expected = Scope.of_intent view }.

Lemma scope_same a b : Scope.first_difference a b = None <-> a = b.
Proof.
  unfold Scope.first_difference. split.
  - cbn [List.find snd]. intros H.
    repeat (case_bool_decide; cbn [negb] in H; [|done]).
    destruct (Z.eqb_spec (Scope.target_version a) (Scope.target_version b)); cbn [negb] in H; [|done].
    destruct (Z.eqb_spec (Scope.key_generation a) (Scope.key_generation b)); cbn [negb] in H; [|done].
    destruct a, b. cbn in *. congruence.
  - intros <-. cbn [List.find snd]. rewrite !bool_decide_eq_true_2, !Z.eqb_refl by done. done.
Qed.

Lemma take_all_blen (src : bytes) n : blen (take (Z.to_nat (n + 1)) src) = n -> take (Z.to_nat (n + 1)) src = src.
Proof. unfold blen. rewrite length_take. intros H. apply take_ge. lia. Qed.

Lemma seek_start_st n src pos sink : seek_start n (st src pos sink) = (Ok tt, st src (Z.to_nat n) sink).
Proof. reflexivity. Qed.

Lemma headed_fits ib sb view slot :
  headed sha256 ib sb view slot -> EnvelopeIntentV2.max_ciphertext_size view <= MAX_OBJECT_SIZE.
Proof. intros H. by destruct (headed_sizes sha256 _ _ _ _ H) as [_ _ [_ ?]]. Qed.

Lemma read_head_ok expected src pos sink pre h view slot s' :
  read_head sha256 expected (st src pos sink) = (Ok (pre, h, view, slot), s') ->
  exists ib sb rest,
    src = header_of sha256 ib sb view ++ rest /\ headed sha256 ib sb view slot
    /\ pre = pre_of sha256 ib sb view /\ h = EnvelopeIntentV2.hash sha256 ib
    /\ names expected ib sb view src
    /\ blen src <= EnvelopeIntentV2.max_ciphertext_size view
    /\ s' = st src (length (header_of sha256 ib sb view)) sink.
Proof.
  unfold read_head. intros H. inv_io.
  repeat match goal with
  | E : seek_start _ (st _ _ _) = _ |- _ => rewrite seek_start_st in E; injection E as <- <-; inv_io
  | E : match ?o with Some _ => _ | None => _ end _ = _ |- _ =>
      destruct o eqn:?; [done|]; apply mret_ok in E as [-> ->]; inv_io
  end.
  wire_facts.
  match goal with E : Scope.first_difference _ _ = None |- _ => apply scope_same in E end.
  apply mret_ok in H as [[= -> -> -> ->] ->].
  change (Z.to_nat 0) with 0%nat in *. rewrite ?Nat.add_0_l, drop_0 in *.
  match goal with E : blen (take _ src) = _ |- _ =>
    pose proof (take_all_blen _ _ E) as Hall; rewrite Hall in * end.
  match goal with E : Preamble.parse ?p = Ok ?x, L : blen ?p = PREAMBLE_LEN |- _ =>
    apply preamble_exact in E as [Hwf <-]; [|done]; rename x into pr end.
  match goal with E : EnvelopeIntentV2.parse ?b = Ok ?v |- _ => rename b into ib, v into vw end.
  match goal with E : bind_slot sha256 ?b vw = Ok ?v |- _ => rename b into sb, v into sl end.
  assert (pr = pre_of sha256 ib sb vw) as ->.
  { unfold pre_of. destruct pr. cbn in *. congruence. }
  unfold Preamble.wf in Hwf. cbn in Hwf. rewrite !andb_true_iff in Hwf.
  destruct Hwf as [[[[[W1 W2] W3] W4] W5] _].
  assert (length (Preamble.encode (pre_of sha256 ib sb vw)) + length ib + length sb
          = length (header_of sha256 ib sb vw))%nat as Hlen
    by (unfold header_of; rewrite !length_app; lia).
  rewrite Hlen in *.
  exists ib, sb, (drop (length (header_of sha256 ib sb vw)) src). split_and!; try done; try lia.
  - unfold header_of at 1. rewrite <- !app_assoc. congruence.
  - split; [done|done|lia|lia].
Qed.

Lemma read_head_run expected ib sb view slot rest pos sink :
  let src := header_of sha256 ib sb view ++ rest in
  headed sha256 ib sb view slot -> names expected ib sb view src ->
  blen src <= EnvelopeIntentV2.max_ciphertext_size view ->
  read_head sha256 expected (st src pos sink)
  = (Ok (pre_of sha256 ib sb view, EnvelopeIntentV2.hash sha256 ib, view, slot),
     st src (length (header_of sha256 ib sb view)) sink).
Proof.
  intros src Hd Hn Hs. pose proof (headed_fits _ _ _ _ Hd) as Hfit.
  pose proof (pre_of_wf sha256 sha256_length _ _ _ _ Hd) as Hwf.
  destruct Hd as [Hp Hb H1 H2], Hn as [N1 N2 N3 N4 N5 N6].
  unfold read_head. cbv zeta. rewrite N1, N2, N3, N4, N5, N6.
  assert (MAX_OBJECT_SIZE + 1 <= U64_MAX) by done. pose proof (blen_nonneg src).
  erewrite (io_step _ _ _ tt) by (apply malformed_if_ok; split; [apply Z.ltb_ge; lia|reflexivity]).
  rewrite (io_step _ _ _ _ _ (seek_start_st _ _ _ _)).
  erewrite io_step by (apply add_within_ok; split_and!; [reflexivity|lia|reflexivity]).
  rewrite (io_step _ _ _ _ _ (read_up_to_st _ _ _ _)). change (Z.to_nat 0) with 0%nat.
  rewrite drop_0, (take_ge src) by (unfold blen; lia).
  erewrite (io_step _ _ _ tt) by (apply mismatch_if_ok; by rewrite Z.eqb_refl).
  erewrite (io_step _ _ _ tt) by (apply mismatch_if_ok; by rewrite bool_decide_eq_true_2).
  rewrite (io_step _ _ _ _ _ (seek_start_st _ _ _ _)). change (Z.to_nat 0) with 0%nat.
  set (pre := Preamble.encode (pre_of sha256 ib sb view)) in *.
  assert (src = pre ++ ib ++ sb ++ rest) as Hsrc
    by (unfold src, header_of; by rewrite <- !app_assoc).
  assert (blen pre = PREAMBLE_LEN) as Hpre.
  { unfold pre. rewrite blen_preamble. cbn. by rewrite blen_hash. }
  assert (drop 0 src = pre ++ ib ++ sb ++ rest) as D0 by by rewrite drop_0.
  pose proof (drop_record _ _ _ _ D0) as D1. symmetry in D1.
  pose proof (drop_record _ _ _ _ D1) as D2. symmetry in D2.
  rewrite (io_step _ _ _ _ _ (read_exact_run _ _ _ _ _ _ _ D0 Hpre)).
  erewrite io_step by (apply of_result_ok; split; [by apply preamble_exact|done]).
  erewrite (io_step _ _ _ tt) by (apply mismatch_if_ok; by rewrite bool_decide_eq_true_2).
  rewrite (io_step _ _ _ _ _ (read_exact_run _ _ _ _ _ _ _ D1 eq_refl)).
  erewrite (io_step _ _ _ tt) by (apply mismatch_if_ok; by rewrite bool_decide_eq_true_2).
  erewrite (io_step _ _ _ tt) by (apply mismatch_if_ok; by rewrite bool_decide_eq_true_2).
  erewrite io_step by (apply of_result_ok; split; [apply map_err_ok, Hp|done]).
  rewrite (proj2 (scope_same _ _) eq_refl).
  erewrite (io_step _ _ _ tt) by by apply mret_ok.
  erewrite (io_step _ _ _ tt) by (apply mismatch_if_ok; by rewrite Z.eqb_refl).
  erewrite (io_step _ _ _ tt) by (apply malformed_if_ok; split; [apply Z.ltb_ge; lia|reflexivity]).
  rewrite (io_step _ _ _ _ _ (read_exact_run _ _ _ _ _ _ _ D2 eq_refl)).
  erewrite (io_step _ _ _ tt) by (apply mismatch_if_ok; by rewrite bool_decide_eq_true_2).
  erewrite io_step by by apply of_result_ok.
  unfold mret, io_ret. do 2 f_equal. unfold header_of. fold pre. rewrite !length_app. lia.
Qed.

End head.

(** ** The framing, without a key *)

Fixpoint layout (n : Z) (cts : list bytes) : bytes :=
  match cts with
  | [] => []
  | [ct] => record true n ct
  | ct :: rest => record false n ct ++ layout (n + 1) rest
  end.

Fixpoint cts_ok (size : Z) (cts : list bytes) : Prop :=
  match cts with
  | [] => False
  | [ct] => frame_len_ok true size (blen ct)
  | ct :: rest => frame_len_ok false size (blen ct) /\ cts_ok size rest
  end.

Lemma cts_cons size ct rest :
  rest <> [] -> cts_ok size (ct :: rest) <-> frame_len_ok false size (blen ct) /\ cts_ok size rest.
Proof. by destruct rest. Qed.

Lemma layout_cons n ct rest :
  rest <> [] -> layout n (ct :: rest) = record false n ct ++ layout (n + 1) rest.
Proof. by destruct rest. Qed.

Lemma layout_nonempty n cts : cts <> [] -> 0 < blen (layout n cts).
Proof.
  destruct cts as [|ct [|ct' rest]]; [done|intros _..]; cbn [layout];
    rewrite ?blen_app, blen_record; unfold FRAME_HEADER_LEN.
  - pose proof (blen_nonneg ct). lia.
  - pose proof (blen_nonneg ct).
    pose proof (blen_nonneg (match rest with [] => record true (n + 1) ct' | _ :: _ => record false (n + 1) ct' ++ layout (n + 1 + 1) rest end)).
    lia.
Qed.

(** The frames of chunks are laid out so. *)
Lemma frames_layout `{HS : !StreamLE31, HL : !StreamLaws} size e h n chunks fb :
  chunks_ok size chunks = true -> frames_of e h n chunks = Some fb ->
  exists cts, cts_ok size cts /\ fb = layout n cts /\ length cts = length chunks.
Proof.
  revert e n fb. induction chunks as [|c r IH]; intros e n fb Hck Hfr; [done|].
  apply chunks_cons in Hck as [[-> Hc]|(Hr & Hc & Hck)].
  - apply frames_last in Hfr as (ct & Hct & ->). pose proof (last_tag _ _ _ _ Hct).
    exists [ct]. split_and!; [|done|done]. cbn. unfold TAG_LEN. lia.
  - apply frames_next in Hfr as (ct & e' & fb' & Hct & Hfr & ->); [|done].
    destruct (IH _ _ _ Hck Hfr) as (cts & Hok & -> & Hlen). pose proof (next_tag _ _ _ _ _ Hct).
    assert (cts <> []) as Hne by (intros ->; by destruct r).
    exists (ct :: cts). rewrite cts_cons, layout_cons by done. cbn [length].
    split_and!; [|done|done|lia]. cbn. unfold TAG_LEN. lia.
Qed.

Section skip.
Context (max_frames size : Z) (size_fits : 1 <= size <= MAX_FRAME_PLAINTEXT_SIZE) (src : bytes).

Lemma frame_len_bounds fin len : frame_len_ok fin size len -> 0 < len <= 4194320.
Proof. unfold frame_len_ok, TAG_LEN, MAX_FRAME_PLAINTEXT_SIZE in *. destruct fin; lia. Qed.

(** One round of the loop of [check_public] that goes well. *)
Lemma skip_step_ok fuel n pos sink r s' :
  0 <= n <= U32_MAX ->
  skip_frames (S fuel) (Z.of_nat pos) n max_frames size (st src pos sink) = (Ok r, s') <->
  exists fin len,
    drop pos src = frame_header fin n len ++ drop (pos + 9) src
    /\ n < max_frames /\ frame_len_ok fin size len
    /\ Z.of_nat (pos + 9 + Z.to_nat len) <= U64_MAX
    /\ (if fin then mret (Z.of_nat (pos + 9 + Z.to_nat len))
        else counter ← add_within U32_MAX n 1;
             skip_frames fuel (Z.of_nat (pos + 9 + Z.to_nat len)) counter max_frames size)
         (st src (pos + 9 + Z.to_nat len) sink) = (Ok r, s').
Proof.
  intros Hn. cbn [skip_frames]. rewrite read_frame_head by done. unfold FRAME_HEADER_LEN.
  assert (forall len, 0 < len <= 4194320 ->
    Z.of_nat pos + (9 + len) = Z.of_nat (pos + 9 + Z.to_nat len)
    /\ Z.to_nat (Z.of_nat pos + (9 + len)) = (pos + 9 + Z.to_nat len)%nat) as Hpos by lia.
  split; intros (fin & len & Hd & Hm & Hlen & H); exists fin, len;
    pose proof (frame_len_bounds _ _ Hlen) as Hlb; destruct (Hpos len Hlb) as [P1 P2].
  - apply io_bind_ok in H as (step & s1 & (-> & _ & ->)%add_within_ok & H).
    apply io_bind_ok in H as (at_ & s1 & (-> & Hb & ->)%add_within_ok & H).
    rewrite (io_step _ _ _ _ _ (seek_start_st _ _ _ _)), P2, P1 in H. split_and!; try done. lia.
  - destruct H as [Hb H]. split_and!; [done..|].
    erewrite io_step by (apply add_within_ok; split_and!; [reflexivity|unfold U64_MAX; lia|reflexivity]).
    erewrite io_step by (apply add_within_ok; split_and!; [reflexivity|lia|reflexivity]).
    by rewrite (io_step _ _ _ _ _ (seek_start_st _ _ _ _)), P2, P1.
Qed.

(** The frames up to the end of the source. *)
Definition framed (fuel : nat) (n : Z) (pos : nat) (cts : list bytes) : Prop :=
  cts_ok size cts /\ drop pos src = layout n cts /\ (length cts <= fuel)%nat
  /\ n + blen cts <= max_frames /\ n + blen cts - 1 <= U32_MAX.

Lemma skip_frames_ok fuel n pos sink s' :
  0 <= n <= U32_MAX ->
  skip_frames fuel (Z.of_nat pos) n max_frames size (st src pos sink) = (Ok (blen src), s') ->
  exists cts, framed fuel n pos cts.
Proof.
  unfold framed. revert n pos. induction fuel as [|fuel IH]; intros n pos Hn H; [done|].
  apply skip_step_ok in H as (fin & len & Hd & Hm & Hlen & Hb & H); [|done].
  pose proof (frame_len_bounds _ _ Hlen) as Hlb.
  assert (drop (pos + 9) src <> [] -> pos + 9 < length src)%nat as Hin.
  { intros Hne. destruct (Nat.lt_ge_cases (pos + 9) (length src)); [done|]. by rewrite drop_ge in Hne. }
  destruct fin.
  - apply mret_ok in H as [He ->]. exists [drop (pos + 9) src].
    assert (blen (drop (pos + 9) src) = len) as Hct by (unfold blen in *; rewrite length_drop; lia).
    cbn [cts_ok layout]. rewrite Hct, record_header, Hct, blen_one. split_and!; try done; cbn; lia.
  - apply io_bind_ok in H as (n1 & s1 & (-> & Hu & ->)%add_within_ok & H).
    apply IH in H as (cts & Hok & Hl & Hf & Hm2 & Hu2); [|lia].
    assert (cts <> []) as Hne by by intros ->.
    pose proof (layout_nonempty (n + 1) cts Hne) as Hpos2. rewrite <- Hl in Hpos2.
    assert (blen (take (Z.to_nat len) (drop (pos + 9) src)) = len) as Hct.
    { unfold blen in *. rewrite length_take, length_drop in *. lia. }
    exists (take (Z.to_nat len) (drop (pos + 9) src) :: cts).
    rewrite cts_cons, layout_cons, record_header, Hct, blen_cons by done.
    split_and!; try done; [|cbn [length]; lia|lia|lia].
    rewrite Hd at 1. rewrite <- app_assoc. f_equal. rewrite <- Hl.
    rewrite <- (take_drop (Z.to_nat len) (drop (pos + 9) src)) at 1. by rewrite drop_drop.
Qed.

(** A frame at [pos]. *)
Lemma frame_at fin n ct tail pos :
  drop pos src = record fin n ct ++ tail ->
  drop pos src = frame_header fin n (blen ct) ++ drop (pos + 9) src
  /\ drop (pos + 9 + Z.to_nat (blen ct)) src = tail
  /\ blen src = Z.of_nat (pos + 9 + Z.to_nat (blen ct)) + blen tail.
Proof.
  intros Ht. rewrite record_header, <- app_assoc in Ht.
  pose proof (drop_record _ _ _ _ Ht) as Ht2. pose proof (blen_frame_header fin n (blen ct)) as L.
  assert (length (frame_header fin n (blen ct)) = 9%nat) as L9
    by (unfold blen at 1, FRAME_HEADER_LEN in L; lia).
  assert (Z.to_nat (blen ct) = length ct) as Lc by (unfold blen; lia).
  rewrite L9 in Ht2. rewrite Lc.
  split_and!; [by rewrite <- Ht2|by rewrite <- drop_drop, <- Ht2, drop_app_length|].
  pose proof (length_drop src pos) as Hdl. rewrite Ht, !length_app, L9 in Hdl. unfold blen. lia.
Qed.

Lemma skip_frames_run fuel n pos cts sink :
  0 <= n <= U32_MAX -> blen src <= U64_MAX -> framed fuel n pos cts ->
  exists s', skip_frames fuel (Z.of_nat pos) n max_frames size (st src pos sink)
             = (Ok (blen src), s').
Proof.
  intros Hn Hfit. revert fuel n pos Hn. induction cts as [|ct cts IH];
    intros fuel n pos Hn (Hok & Hl & Hf & Hm & Hu); [done|].
  destruct fuel as [|fuel]; [cbn in Hf; lia|]. rewrite blen_cons in *. pose proof (blen_nonneg cts).
  destruct cts as [|ct' cts].
  - cbn [cts_ok layout] in *. destruct (frame_at true n ct [] pos) as (R1 & R2 & R3);
      [by rewrite app_nil_r|]. unfold blen at 3 in R3. cbn [length] in R3.
    eexists. apply skip_step_ok; [done|]. exists true, (blen ct). split_and!; [done|lia|done|lia|].
    apply mret_ok. split; [lia|done].
  - rewrite cts_cons, layout_cons in * by done. destruct Hok as [Ho1 Ho2].
    destruct (frame_at false n ct _ pos Hl) as (R1 & R2 & R3).
    pose proof (blen_nonneg (layout (n + 1) (ct' :: cts))). rewrite blen_cons in Hm, Hu.
    pose proof (blen_nonneg cts).
    destruct (IH fuel (n + 1) (pos + 9 + Z.to_nat (blen ct))%nat) as [s' Hs']; [lia| |].
    { unfold framed. rewrite R2, blen_cons. cbn [length] in *. split_and!; [done|done|lia|lia|lia]. }
    exists s'. apply skip_step_ok; [done|]. exists false, (blen ct). split_and!; [done|lia|done|lia|].
    by erewrite io_step by (apply add_within_ok; split_and!; [reflexivity|lia|reflexivity]).
Qed.

End skip.
