(* ===== verification/EnvelopeObjectTheorems.v ===== *)
(** * Suite 2 objects: the theorems

    [open] accepts exactly what [seal] writes; what a server checks without a key is the
    framing of such an object; nothing is written before the object is the one expected; no
    input and no failing call makes either panic. *)

From S2P Require Import Prelude Bytes Canonical CanonicalFacts CanonicalDecode CanonicalTheorems.
From S2P Require Import RecordFields WireMap Keys Envelope ProfileLease EnvelopeV2 EnvelopeV2Facts.
From S2P Require Import EnvelopeObject EnvelopeObjectFacts EnvelopeOpenFacts.

(** A reader of [b] at its start and a writer of nothing yet, where no call fails. *)
Definition reading (b : bytes) : Streams.t := st b 0 [].

Section object.
Context `{HS : !StreamLE31, HL : !StreamLaws} `{HA : !Aead}.
Context (sha256 : bytes -> bytes) (sha256_length : forall x, blen (sha256 x) = 32).

(** What a manifest says of an object sealed from this intent and slot. *)
Definition committed (d : ObjectDigest.t) (intent : IntentMaterial.t) (slot : SlotMaterial.t)
    (view : EnvelopeIntentV2.t) : Expected.t :=
  Expected.mk (ObjectDigest.ciphertext_sha256 d) (ObjectDigest.ciphertext_size d)
    (ObjectDigest.preamble_sha256 d) (IntentMaterial.intent_hash intent)
    (domain_hash sha256 L_DEK_SLOT (SlotMaterial.exact_slot_bytes slot))
    (Scope.of_intent view).

Lemma div_ceil_enough cap size k :
  1 <= size -> (k - 1) * size < cap -> k <= div_ceil cap size.
Proof. intros Hs H. unfold div_ceil. apply Z.div_le_lower_bound; nia. Qed.

Lemma frames_allowed view chunks :
  sizes view -> chunks_ok (EnvelopeIntentV2.frame_plaintext_size view) chunks = true ->
  blen (concat chunks) <= EnvelopeIntentV2.max_plaintext_size view ->
  blen chunks <= div_ceil (EnvelopeIntentV2.max_plaintext_size view)
                   (EnvelopeIntentV2.frame_plaintext_size view)
  /\ 1 <= blen chunks <= 8192.
Proof.
  intros Hs Hc Hp. destruct (few_chunks view chunks Hs Hc Hp) as [[? _] ?].
  destruct (sizes_fit view Hs) as (A1 & _). split; [|done]. apply div_ceil_enough; [done|].
  apply chunks_total in Hc; [|done]. lia.
Qed.

Definition unwraps (fkek dek : bytes) (slot : DekSlotV2.t) : Prop :=
  unwrap_dek fkek (DekSlotV2.wrap_nonce_bytes slot) (DekSlotV2.wrapped_dek_bytes slot)
    (DekSlotV2.canonical_dek_slot_context_bytes slot) = Ok dek.

Lemma frame_size_fits view :
  sizes view -> 1 <= EnvelopeIntentV2.frame_plaintext_size view <= MAX_FRAME_PLAINTEXT_SIZE.
Proof. intros [[S1 ?] _ _]. unfold MIN_FRAME_PLAINTEXT_SIZE in S1. lia. Qed.

(** [open] reads exactly the objects of what it writes. *)
Lemma open_ok fkek expected obj oc s' :
  open sha256 fkek expected (reading obj) = (Ok oc, s') ->
  exists dek ib sb view slot chunks,
    object_of sha256 dek ib sb view slot chunks obj /\ names sha256 expected ib sb view obj
    /\ unwraps fkek dek slot /\ oc = OpenOutcome.mk (blen chunks) (blen (concat chunks))
    /\ s' = st obj (length obj) (concat chunks).
Proof.
  intros H. unfold open, reading in H.
  apply io_bind_ok in H as ([[[pre h] view] slot] & s1 & Hhead & H).
  apply read_head_ok in Hhead as (ib & sb & rest & Hobj & Hd & -> & -> & Hn & Hci & ->).
  pose proof (headed_sizes _ _ _ _ _ Hd) as Hsz.
  apply io_bind_ok in H as (dek & s1 & [Hdek%map_err_ok ->]%of_result_ok & H).
  apply io_bind_ok in H as ([n plen] & s1 & Hfr & H). cbn [pre_of Preamble.frame_plaintext_size] in Hfr.
  remember (length (header_of sha256 ib sb view)) as hl eqn:Hhl.
  apply (open_frames_iff view _ _ _ (frame_size_fits view Hsz)
    (proj1 (proj2 (sizes_fit view Hsz))) _ _ _ 0 0 obj _ [] _ _ _ (in_step_new _ _)) in Hfr
    as (chunks & fb & Hck & Hfb & _ & _ & _ & Hpl & Hdrop & -> & -> & ->); [|by unfold U32_MAX].
  apply io_bind_ok in H as (extra & s1 & Hx & H). rewrite read_up_to_st in Hx. injection Hx as <- <-.
  apply io_bind_ok in H as (u & s1 & [He%negb_false_iff%is_empty_true ->]%malformed_if_ok & H).
  apply io_bind_ok in H as (u' & s1 & Hfl & H). rewrite flush_st in Hfl. injection Hfl as <- <-.
  apply io_bind_ok in H as (k & s1 & (-> & _ & ->)%add_within_ok & [-> ->]%mret_ok).
  rewrite He, Nat.add_0_r.
  assert (drop (hl + length fb) obj = []) as Hend.
  { change (Z.to_nat 1) with 1%nat in He. clear -He. destruct (drop (hl + length fb) obj); [reflexivity|discriminate He]. }
  rewrite Hend, app_nil_r in Hdrop.
  assert (obj = header_of sha256 ib sb view ++ fb) as Hobj2.
  { rewrite Hobj at 1. f_equal. rewrite <- Hdrop, Hobj, Hhl. by rewrite drop_app_length. }
  exists dek, ib, sb, view, slot, chunks. split_and!; [|done|done| |].
  - split; [done|done|lia|done|]. exists fb. by split.
  - f_equal; lia.
  - f_equal. rewrite Hobj2, length_app, Hhl. reflexivity.
Qed.

Lemma object_opens fkek expected dek ib sb view slot chunks obj :
  object_of sha256 dek ib sb view slot chunks obj -> names sha256 expected ib sb view obj ->
  unwraps fkek dek slot ->
  open sha256 fkek expected (reading obj)
  = (Ok (OpenOutcome.mk (blen chunks) (blen (concat chunks))), st obj (length obj) (concat chunks)).
Proof.
  intros [Hd Hck Hpl Hci (fb & Hfb & Hobj)] Hn Hdek. pose proof (headed_sizes _ _ _ _ _ Hd) as Hsz.
  destruct (frames_allowed view chunks Hsz Hck Hpl) as [Hmf Hfew]. unfold open, reading.
  assert (obj = header_of sha256 ib sb view ++ fb ++ []) as Hobj2 by by rewrite app_nil_r.
  pose proof (read_head_run sha256 sha256_length expected ib sb view slot fb 0 [] Hd) as Hhead.
  rewrite <- Hobj in Hhead. rewrite (io_step _ _ _ _ _ (Hhead Hn Hci)).
  erewrite io_step by (apply of_result_ok; split; [apply map_err_ok, Hdek|done]).
  cbn [pre_of Preamble.frame_plaintext_size].
  set (hl := length (header_of sha256 ib sb view)).
  assert (length obj = hl + length fb)%nat as Hlen by (by rewrite Hobj, length_app).
  rewrite (io_step _ _ _ (0 + blen chunks - 1, 0 + blen (concat chunks)) (st obj (hl + length fb) ([] ++ concat chunks))).
  2:{ apply (open_frames_iff view _ _ _ (frame_size_fits view Hsz)
        (proj1 (proj2 (sizes_fit view Hsz))) _ _ _ 0 0 obj _ [] _ _ _ (in_step_new _ _)); [by unfold U32_MAX|].
      exists chunks, fb. split_and!; try done; try lia; [unfold blen in *; lia|unfold U32_MAX; lia|].
      rewrite (drop_ge obj (hl + _)) by lia. rewrite Hobj, app_nil_r. apply drop_app_length. }
  cbv beta iota. rewrite (io_step _ _ _ _ _ (read_up_to_st _ _ _ _)), (drop_ge obj) by lia.
  erewrite (io_step _ _ _ tt) by by apply malformed_if_ok.
  rewrite (io_step _ _ _ _ _ (flush_st _ _ _)).
  erewrite io_step by (apply add_within_ok; split_and!; [reflexivity|unfold U32_MAX; lia|reflexivity]).
  unfold mret, io_ret. rewrite app_nil_l, Z.add_0_l. cbn [take length Z.to_nat].
  change (length (take (Z.to_nat 1) (@nil byte))) with 0%nat. rewrite Nat.add_0_r, Hlen.
  do 3 f_equal. lia.
Qed.

Lemma committed_names ib sb view chunks obj expected intent slotm :
  IntentMaterial.exact_intent_bytes intent = ib -> SlotMaterial.exact_slot_bytes slotm = sb ->
  IntentMaterial.intent_hash intent = EnvelopeIntentV2.hash sha256 ib ->
  names sha256 expected ib sb view obj <->
  expected = committed (digest_of sha256 ib sb view chunks obj) intent slotm view.
Proof.
  intros <- <- Hh. unfold committed, digest_of. rewrite Hh. split.
  - intros [N1 N2 N3 N4 N5 N6]. destruct expected. cbn in N1, N2, N4, N5, N6.
    cbn [Expected.preamble_sha256] in N3. by subst.
  - intros ->. by split.
Qed.

(** C8. [open] is the inverse of [seal]: it yields a plaintext for an object exactly when some
    [seal] of that plaintext wrote the object, under the data key the slot unwraps to and
    an intent the slot is bound to, with the digests and the scope that the caller expects;
    and it reports the frames and the bytes that [seal] reported. *)
Theorem open_iff_sealed fkek expected obj oc p :
  (exists s', open sha256 fkek expected (reading obj) = (Ok oc, s') /\ Streams.sink s' = p) <->
  exists dek intent slotm view slot d s1,
    seal sha256 dek intent slotm (reading p) = (Ok d, s1) /\ Streams.sink s1 = obj
    /\ EnvelopeIntentV2.parse (IntentMaterial.exact_intent_bytes intent) = Ok view
    /\ bind_slot sha256 (SlotMaterial.exact_slot_bytes slotm) view = Ok slot
    /\ unwraps fkek dek slot /\ expected = committed d intent slotm view
    /\ oc = OpenOutcome.mk (ObjectDigest.frame_count d) (ObjectDigest.plaintext_len d).
Proof.
  split.
  - intros (s' & Ho & <-). apply open_ok in Ho as (dek & ib & sb & view & slot & chunks & Hobj & Hn & Hu & -> & ->).
    pose (intent := IntentMaterial.mk ib (EnvelopeIntentV2.hash sha256 ib)).
    pose (slotm := SlotMaterial.mk [] [] sb []).
    pose proof (seal_run sha256 sha256_length dek intent slotm view slot chunks obj eq_refl Hobj) as Hs.
    exists dek, intent, slotm, view, slot, (digest_of sha256 ib sb view chunks obj). eexists.
    split_and!; [exact Hs|done|apply Hobj|apply Hobj|done| |done].
    by apply (committed_names ib sb view chunks obj).
  - intros (dek & intent & slotm & view & slot & d & s1 & Hs & <- & Hp & Hb & Hu & -> & ->).
    apply seal_ok in Hs as (view' & slot' & chunks & obj & Hh & Hobj & <- & -> & ->); [|done].
    pose proof (ob_headed _ _ _ _ _ _ _ _ Hobj) as [Hp' Hb' _ _].
    rewrite Hp in Hp'. injection Hp' as <-. rewrite Hb in Hb'. injection Hb' as <-.
    exists (st obj (length obj) (concat chunks)). split; [|done]. change (Streams.sink _) with obj.
    rewrite (object_opens fkek _ dek _ _ view slot chunks obj Hobj); [done| |done].
    by apply (committed_names _ _ view chunks obj _ intent slotm).
Qed.

(** ** Without a key *)

Definition max_frames (view : EnvelopeIntentV2.t) : Z :=
  div_ceil (EnvelopeIntentV2.max_plaintext_size view) (EnvelopeIntentV2.frame_plaintext_size view).

Lemma max_frames_few view : sizes view -> 1 <= max_frames view <= 8192.
Proof.
  intros [S1 S2 _]. unfold max_frames, div_ceil, MIN_FRAME_PLAINTEXT_SIZE, MAX_OBJECT_SIZE in *.
  split; [apply Z.div_le_lower_bound; lia|]. apply Z.lt_succ_r, Z.div_lt_upper_bound; lia.
Qed.

Lemma stream_position_st src pos sink :
  stream_position (st src pos sink) = (Ok (Z.of_nat pos), st src pos sink).
Proof. done. Qed.

(** An object a server keeps without a key to it. *)
Record public (expected : Expected.t) (ib sb : bytes) (view : EnvelopeIntentV2.t)
    (slot : DekSlotV2.t) (cts : list bytes) (obj : bytes) : Prop := {
  pb_headed : headed sha256 ib sb view slot;
  pb_names : names sha256 expected ib sb view obj;
  pb_fits : blen obj <= EnvelopeIntentV2.max_ciphertext_size view;
  pb_bytes : obj = header_of sha256 ib sb view ++ layout 0 cts;
  pb_frames : cts_ok (EnvelopeIntentV2.frame_plaintext_size view) cts;
  pb_count : blen cts <= max_frames view }.

Lemma public_ok expected obj view s' :
  check_public sha256 expected (reading obj) = (Ok view, s') ->
  exists ib sb slot cts, public expected ib sb view slot cts obj.
Proof.
  unfold check_public, reading. intros H.
  apply io_bind_ok in H as ([[[pre h] view'] slot] & s1 & Hhead & H).
  apply read_head_ok in Hhead as (ib & sb & rest & Hobj & Hd & -> & -> & Hn & Hci & ->).
  pose proof (headed_sizes _ _ _ _ _ Hd) as Hsz. pose proof (max_frames_few _ Hsz).
  cbn [pre_of Preamble.frame_plaintext_size] in H. fold (max_frames view') in H.
  remember (length (header_of sha256 ib sb view')) as hl eqn:Hhl.
  rewrite (io_step _ _ _ _ _ (stream_position_st _ _ _)) in H.
  apply io_bind_ok in H as (at_ & s1 & Hsk & H).
  apply io_bind_ok in H as (u & s2 & [He%negb_false_iff%Z.eqb_eq ->]%malformed_if_ok & [<- ->]%mret_ok).
  rewrite He, (nm_size _ _ _ _ _ _ Hn) in Hsk.
  apply (skip_frames_ok _ _ (frame_size_fits _ Hsz)) in Hsk as (cts & Hok & Hl & _ & Hm & _);
    [|by unfold U32_MAX].
  exists ib, sb, slot, cts. split; [done..| |done|lia].
  rewrite Hobj at 1. f_equal. rewrite <- Hl, Hobj, Hhl. by rewrite drop_app_length.
Qed.

Lemma public_run expected ib sb view slot cts obj :
  public expected ib sb view slot cts obj ->
  exists s', check_public sha256 expected (reading obj) = (Ok view, s').
Proof.
  unfold check_public, reading. intros [Hd Hn Hci Hobj Hok Hm].
  pose proof (headed_sizes _ _ _ _ _ Hd) as Hsz. pose proof (max_frames_few _ Hsz).
  pose proof (read_head_run sha256 sha256_length expected ib sb view slot (layout 0 cts) 0 [] Hd)
    as Hhead. rewrite <- Hobj in Hhead. rewrite (io_step _ _ _ _ _ (Hhead Hn Hci)).
  cbn [pre_of Preamble.frame_plaintext_size]. fold (max_frames view).
  set (hl := length (header_of sha256 ib sb view)).
  rewrite (io_step _ _ _ _ _ (stream_position_st _ _ _)).
  destruct (skip_frames_run (max_frames view) _ (frame_size_fits _ Hsz) obj
    (Z.to_nat (max_frames view) + 1) 0 hl cts []) as [s' Hs'].
  + by unfold U32_MAX.
  + destruct (sizes_fit view Hsz) as (_ & _ & ?). lia.
  + unfold framed. split_and!; [done| |unfold blen in *; lia|lia|unfold U32_MAX; lia].
    rewrite Hobj. apply drop_app_length.
  + exists s'. rewrite (io_step _ _ _ _ _ Hs'). rewrite (nm_size _ _ _ _ _ _ Hn), Z.eqb_refl. done.
Qed.

(** C24. What [check_public] accepts: the digests and the scope that are expected, an intent and
    a slot bound to it, and to the last byte frames counted from 0, DATA of a full frame,
    then one FINAL of at least a byte, no more of them than the intent has room for. *)
Theorem public_exact expected obj view :
  (exists s', check_public sha256 expected (reading obj) = (Ok view, s')) <->
  exists ib sb slot cts, public expected ib sb view slot cts obj.
Proof.
  split.
  - intros (s' & H). by apply public_ok in H.
  - intros (ib & sb & slot & cts & H). by apply public_run in H.
Qed.

(** A sealed object can be kept without its key. *)
Lemma object_public dek ib sb view slot chunks obj expected :
  object_of sha256 dek ib sb view slot chunks obj -> names sha256 expected ib sb view obj ->
  exists cts, public expected ib sb view slot cts obj /\ blen cts = blen chunks.
Proof.
  intros [Hd Hck Hpl Hci (fb & Hfb & Hobj)] Hn. pose proof (headed_sizes _ _ _ _ _ Hd) as Hsz.
  destruct (frames_allowed view chunks Hsz Hck Hpl) as [Hmf _].
  destruct (frames_layout _ _ _ _ _ _ Hck Hfb) as (cts & Hok & -> & Hlen).
  assert (blen cts = blen chunks) as Hb by (unfold blen; lia).
  exists cts. split; [|done]. split; [done..|]. by rewrite Hb.
Qed.

(** What a client opens, the server accepted: [check_public] refuses no object that [open]
    accepts for the same expectations, and its view has the scope that was expected. *)
Theorem opened_is_public fkek expected obj oc s' :
  open sha256 fkek expected (reading obj) = (Ok oc, s') ->
  exists view s1, check_public sha256 expected (reading obj) = (Ok view, s1)
    /\ Scope.of_intent view = Expected.scope expected
    /\ OpenOutcome.frame_count oc <= max_frames view
    /\ OpenOutcome.plaintext_len oc <= EnvelopeIntentV2.max_plaintext_size view.
Proof.
  intros H. apply open_ok in H as (dek & ib & sb & view & slot & chunks & Hobj & Hn & _ & -> & _).
  destruct (object_public _ _ _ _ _ _ _ _ Hobj Hn) as (cts & Hpub & Hlen).
  destruct (public_run _ _ _ _ _ _ _ Hpub) as [s1 Hs1]. exists view, s1.
  split_and!; [done|symmetry; apply (nm_scope _ _ _ _ _ _ Hn)| |apply Hobj].
  cbn [OpenOutcome.frame_count]. rewrite <- Hlen. apply Hpub.
Qed.

End object.

(** ** From the writer's fields to the reader's plaintext *)

(** The lengths of the arrays [build_dek_slot] is given. *)
Definition slot_arrays (ids : SlotIds.t) (dek wrap_nonce : bytes) : bool :=
  (blen (SlotIds.tenant_id ids) =? 16) && (blen (SlotIds.fleet_id ids) =? 16)
  && (blen (SlotIds.profile_id ids) =? 16) && (blen (SlotIds.snapshot_id ids) =? 16)
  && (blen (SlotIds.fkek_key_id ids) =? 32)
  && (blen (SlotIds.envelope_context_nonce ids) =? 16)
  && (blen dek =? DEK_LEN) && (blen wrap_nonce =? WRAP_NONCE_LEN).

Section published.
Context `{HS : !StreamLE31, HL : !StreamLaws} `{HA : !Aead, HAL : !AeadLaws}.
Context (sha256 : bytes -> bytes) (sha256_length : forall x, blen (sha256 x) = 32).

Lemma slot_context_size ids gen dek wrap_nonce :
  slot_arrays ids dek wrap_nonce = true -> 0 <= blen (encode (c.m (slot_context ids gen))) <= 4096.
Proof.
  intros H. unfold slot_arrays in H. rewrite !andb_true_iff, !Z.eqb_eq in H.
  split; [apply blen_nonneg|]. etrans; [apply encode_size|].
  unfold slot_context. cbn -[Z.add Z.mul blen as_bytes]. eval_lengths. lia.
Qed.

Lemma slot_values cx cb h nonce wrapped :
  0 <= blen cb <= 4096 -> blen h = 32 -> blen nonce = 12 -> blen wrapped = 48 ->
  values_ok (DekSlotV2.put (DekSlotV2.mk cx cb h nonce wrapped)) = true.
Proof.
  intros Hc Hh Hn Hw. unfold values_ok, DekSlotV2.put, c.b, c.t, c.u.
  cbn -[Z.leb blen text_ok contains_nul]. rewrite Hh, Hn, Hw. unfold wire_len, U64_MAX.
  rewrite (proj2 (Z.leb_le (blen cb) _)) by lia. vm_compute. reflexivity.
Qed.

(** The slot a reader parses is the one that was built. *)
Lemma built_slot_unwraps fkek dek wrap_nonce ids gen slotm slot :
  slot_arrays ids dek wrap_nonce = true ->
  build_dek_slot sha256 fkek dek wrap_nonce ids gen = Ok slotm ->
  blen (SlotMaterial.exact_slot_bytes slotm) <= MAX_DEK_SLOT_LEN ->
  DekSlotV2.parse sha256 (SlotMaterial.exact_slot_bytes slotm) = Ok slot ->
  unwraps fkek dek slot.
Proof.
  intros Ha Hb Hl Hp. pose proof (slot_context_size ids gen dek wrap_nonce Ha) as Hc.
  unfold build_dek_slot in Hb. set (cb := encode (c.m (slot_context ids gen))) in *. clearbody cb.
  apply result_bind_ok in Hb as (wrapped & Hw%ok_or_ok & Hb). injection Hb as Hb.
  rewrite <- Hb in Hl, Hp. cbn [SlotMaterial.exact_slot_bytes] in Hl, Hp. clear Hb.
  unfold MAX_DEK_SLOT_LEN in Hl.
  apply slot_exact in Hp as [Hok He]; [|unfold USIZE_MAX, U64_MAX; lia].
  unfold slot_arrays, DEK_LEN, WRAP_NONCE_LEN in Ha. rewrite !andb_true_iff, !Z.eqb_eq in Ha.
  destruct Ha as [[_ Hdek] Hn]. pose proof (aead_tag _ _ _ _ _ Hw) as Ht.
  pose (built := DekSlotV2.mk (DekSlotV2.context slot) cb
    (domain_hash sha256 L_DEK_SLOT_CONTEXT cb) wrap_nonce wrapped).
  assert (DekSlotV2.put slot ≡ₚ DekSlotV2.put built) as Hperm.
  { apply encode_m_inj.
    - apply (wm_keys (WireMap := DekSlotV2.wire sha256)).
    - apply (wm_keys (WireMap := DekSlotV2.wire sha256)).
    - by apply andb_true_iff in Hok as [Hv _].
    - apply slot_values; [done| |done|by rewrite Ht, Hdek]. apply sha256_length.
    - apply (wm_normal (WireMap := DekSlotV2.wire sha256)).
    - apply (wm_normal (WireMap := DekSlotV2.wire sha256)).
    - rewrite He. unfold USIZE_MAX, U64_MAX; lia.
    - done. }
  apply perm_same_keys in Hperm; [|done|apply entry_keys_NoDup, keys_ok_NoDup, (wm_keys (WireMap := DekSlotV2.wire sha256))].
  unfold DekSlotV2.put, c.b, built in Hperm. cbn in Hperm.
  injection Hperm as Hx1 Hx2 Hx3 Hx4. unfold unwraps, unwrap_dek. rewrite Hx1, Hx3, Hx4.
  rewrite (aead_open_seal _ _ _ _ _ Hw). cbn. by rewrite Hdek.
Qed.
Lemma built_intent_view ids nums prefix prev slotm intent view :
  intent_ok ids nums SUITE_ID prefix prev slotm = true ->
  build_intent_v2 sha256 ids nums prefix prev slotm = Ok intent ->
  EnvelopeIntentV2.parse (IntentMaterial.exact_intent_bytes intent) = Ok view ->
  EnvelopeIntentV2.ids view = ids /\ EnvelopeIntentV2.nums view = nums
  /\ EnvelopeIntentV2.stream_nonce_prefix view = prefix
  /\ EnvelopeIntentV2.previous_signed_head_hash view = prev.
Proof.
  intros [Hv Hl%Z.leb_le]%andb_true_iff Hb Hp. unfold build_intent_v2 in Hb.
  repeat (case_match; [done|]). unfold build_intent in Hb. repeat case_match; try done.
  assert (forall a b : IntentMaterial.t, @Ok IntentError _ a = Ok b -> a = b) as Hinj by congruence.
  apply Hinj in Hb as <-. cbn [IntentMaterial.exact_intent_bytes] in Hp.
  apply intent_exact in Hp as [[Hok _]%andb_true_iff He]; [|done].
  apply encode_m_inj in He; eauto using intent_keys_ok, intent_normal.
  - by apply intent_fields_inj in He as (? & ? & _ & ? & ? & _).
  - change (blen (encode (c.m (EnvelopeIntentV2.put view))) <= USIZE_MAX). by rewrite He.
Qed.

(** The whole path: the slot built for a data key, the intent built on it, the plaintext
    sealed under both. Whoever holds the fleet key and the manifest's digests reads that
    plaintext, and the identifiers and the numbers the writer put in the intent. *)
Theorem published_object_opens fkek dek wrap_nonce sids gen slotm ids nums prefix prev intent p d s1 :
  slot_arrays sids dek wrap_nonce = true ->
  build_dek_slot sha256 fkek dek wrap_nonce sids gen = Ok slotm ->
  intent_ok ids nums SUITE_ID prefix prev slotm = true ->
  build_intent_v2 sha256 ids nums prefix prev slotm = Ok intent ->
  seal sha256 dek intent slotm (reading p) = (Ok d, s1) ->
  exists view s', EnvelopeIntentV2.parse (IntentMaterial.exact_intent_bytes intent) = Ok view
    /\ EnvelopeIntentV2.ids view = ids /\ EnvelopeIntentV2.nums view = nums
    /\ open sha256 fkek (committed sha256 d intent slotm view) (reading (Streams.sink s1))
       = (Ok (OpenOutcome.mk (ObjectDigest.frame_count d) (blen p)), s')
    /\ Streams.sink s' = p.
Proof.
  intros Ha Hslot Hok Hint Hs.
  apply seal_ok in Hs as (view & slot & chunks & obj & Hh & Hobj & <- & -> & ->); [|done].
  pose proof (ob_headed _ _ _ _ _ _ _ _ Hobj) as [Hp Hb _ [_ Hl]].
  destruct (built_intent_view _ _ _ _ _ _ _ Hok Hint Hp) as (Hids & Hnums & _).
  exists view, (st obj (length obj) (concat chunks)). split_and!; try done.
  change (Streams.sink _) with obj. apply bind_slot_ok in Hb as (_ & Hb & _).
  rewrite (object_opens sha256 sha256_length fkek _ dek _ _ view slot chunks obj Hobj); [done| |].
  - by apply (committed_names sha256 _ _ view chunks obj _ intent slotm).
  - by apply (built_slot_unwraps fkek dek wrap_nonce sids gen slotm).
Qed.

End published.

(** ** A concrete scheme, for witnesses

    STREAM with a little-endian counter over an AEAD, the final flag in its top bit. *)
Definition le31 (n : Z) (fin : bool) : bytes := rev (be_bytes 4 (n + if fin then 2147483648 else 0)).

#[export] Instance toy_stream : StreamLE31 := {
  Encryptor := bytes * bytes * Z;
  Decryptor := bytes * bytes * Z;
  encryptor_new key prefix := (key, prefix, 0);
  decryptor_new key prefix := (key, prefix, 0);
  encrypt_next '(key, prefix, n) aad m :=
    c ← aead_encrypt key (prefix ++ le31 n false) aad m; Some (c, (key, prefix, n + 1));
  encrypt_last '(key, prefix, n) aad m := aead_encrypt key (prefix ++ le31 n true) aad m;
  decrypt_next '(key, prefix, n) aad c :=
    m ← aead_decrypt key (prefix ++ le31 n false) aad c; Some (m, (key, prefix, n + 1));
  decrypt_last '(key, prefix, n) aad c := aead_decrypt key (prefix ++ le31 n true) aad c }.

#[export] Instance toy_stream_laws : StreamLaws.
Proof.
  apply (Build_StreamLaws toy_stream (fun e d : bytes * bytes * Z => e = d)).
  - done.
  - intros [[k x] n] d aad m c e' <- H. cbn [encrypt_next decrypt_next toy_stream] in *.
    apply bind_Some in H as (c' & Hc & [= <- <-]). rewrite (aead_open_seal _ _ _ _ _ Hc).
    eexists. by split.
  - intros [[k x] n] d aad m c e' <- H. cbn [encrypt_next decrypt_next toy_stream] in *.
    apply bind_Some in H as (c' & Hc & [= <- <-]). rewrite (aead_seal_open _ _ _ _ _ Hc).
    eexists. by split.
  - intros [[k x] n] d aad m c <-. cbn [encrypt_last decrypt_last toy_stream].
    split; [apply aead_open_seal|apply aead_seal_open].
  - intros [[k x] n] aad m c e' H. cbn [encrypt_next toy_stream] in H.
    apply bind_Some in H as (c' & Hc & [= <- <-]). by eapply aead_tag.
  - intros [[k x] n] aad m c H. cbn [encrypt_last toy_stream] in H. by eapply aead_tag.
Defined.

Definition toy_digest (b : bytes) : bytes := be_bytes 32 (blen b).
Definition sample_dek : bytes := id32 1.
Definition sample_wrap_nonce : bytes := be_bytes 12 5.
Definition sample_stream_prefix : bytes := be_bytes 20 3.
Definition sample_plain : bytes := [Byte.x2a; Byte.x2b].
Definition sample_slot_ids : SlotIds.t :=
  SlotIds.mk (id16 2) (id16 3) (id16 4) (id16 1) (id32 8) (id16 6).
Definition ok_or_else {A E} (default : A) (r : result E A) : A :=
  match r with Ok a => a | _ => default end.
Definition sample_slot_material : SlotMaterial.t :=
  ok_or_else sample_slot
    (build_dek_slot toy_digest (id32 7) sample_dek sample_wrap_nonce sample_slot_ids 2).
Definition sample_intent : IntentMaterial.t :=
  ok_or_else (IntentMaterial.mk [] [])
    (build_intent_v2 toy_digest sample_ids sample_nums sample_stream_prefix sample_prev
       sample_slot_material).
Definition sample_view : EnvelopeIntentV2.t :=
  ok_or_else (EnvelopeIntentV2.mk [] [] [] [] [] [] 0 0 0 0 [] 0 [] 0 0 0 None [] [] 0 [] [])
    (EnvelopeIntentV2.parse (IntentMaterial.exact_intent_bytes sample_intent)).
Definition sample_bound : DekSlotV2.t :=
  ok_or_else (DekSlotV2.mk (DekSlotContextV2.mk [] [] [] [] [] 0 []) [] [] [] [])
    (bind_slot toy_digest (SlotMaterial.exact_slot_bytes sample_slot_material) sample_view).
Definition sample_sealed : result EnvelopeError ObjectDigest.t * Streams.t :=
  seal toy_digest sample_dek sample_intent sample_slot_material (reading sample_plain).
Definition sample_object : bytes := Streams.sink (snd sample_sealed).
Definition sample_digest : ObjectDigest.t :=
  ok_or_else (ObjectDigest.mk [] 0 [] 0 0) (fst sample_sealed).
Definition sample_expected : Expected.t :=
  committed toy_digest sample_digest sample_intent sample_slot_material sample_view.

Lemma toy_digest_length x : blen (toy_digest x) = 32.
Proof. unfold toy_digest, blen. by rewrite length_be_bytes. Qed.

Lemma open_iff_sealed_witness :
  exists s', open toy_digest (id32 7) sample_expected (reading sample_object)
             = (Ok (OpenOutcome.mk 1 2), s') /\ Streams.sink s' = sample_plain.
Proof.
  apply (open_iff_sealed toy_digest toy_digest_length).
  exists sample_dek, sample_intent, sample_slot_material, sample_view, sample_bound, sample_digest,
    (snd sample_sealed).
  split_and!; vm_compute; reflexivity.
Defined.

Lemma opened_is_public_witness :
  exists view s1, check_public toy_digest sample_expected (reading sample_object) = (Ok view, s1)
    /\ 1 <= max_frames view.
Proof.
  destruct (opened_is_public toy_digest toy_digest_length (id32 7) sample_expected
    sample_object (OpenOutcome.mk 1 2)
    (snd (open toy_digest (id32 7) sample_expected (reading sample_object))))
    as (v & s1 & H & _ & Hc & _); [vm_compute; reflexivity|].
  exists v, s1. split; [exact H|exact Hc].
Defined.

Lemma public_exact_witness :
  exists ib sb slot cts, public toy_digest sample_expected ib sb sample_view slot cts sample_object.
Proof.
  apply (public_exact toy_digest toy_digest_length).
  exists (snd (check_public toy_digest sample_expected (reading sample_object))).
  vm_compute. reflexivity.
Defined.

Lemma published_object_opens_witness :
  exists view s', EnvelopeIntentV2.ids view = sample_ids
    /\ open toy_digest (id32 7)
         (committed toy_digest sample_digest sample_intent sample_slot_material view)
         (reading sample_object) = (Ok (OpenOutcome.mk 1 2), s')
    /\ Streams.sink s' = sample_plain.
Proof.
  destruct (published_object_opens toy_digest toy_digest_length (id32 7) sample_dek
    sample_wrap_nonce sample_slot_ids 2 sample_slot_material sample_ids sample_nums
    sample_stream_prefix sample_prev sample_intent sample_plain sample_digest (snd sample_sealed))
    as (view & s' & _ & Hi & _ & Ho & Hp); [vm_compute; reflexivity..|].
  exists view, s'. split; [exact Hi|]. split; [exact Ho|exact Hp].
Defined.
