(* ===== verification/EnvelopeFailures.v ===== *)
(** * Suite 2 objects: calls that fail

    Any call on the reader or the writer may fail. What such a run has written is
    authentic, in order and of the expected object; and no run panics. *)

From S2P Require Import Prelude Bytes Canonical CanonicalFacts CanonicalDecode CanonicalTheorems.
From S2P Require Import RecordFields WireMap Keys Envelope ProfileLease EnvelopeV2 EnvelopeV2Facts.
From S2P Require Import EnvelopeObject EnvelopeObjectFacts EnvelopeOpenFacts EnvelopeObjectTheorems.

(** ** A step that goes well *)

(** The same streams, no call failing from here. *)
Definition calm (s : Streams.t) : Streams.t :=
  st (Streams.source s) (Streams.pos s) (Streams.sink s).

(** Where [m] goes well, it does what it does when no call fails. *)
Definition calmable {A} (m : io A) : Prop :=
  forall s a s', m s = (Ok a, s') -> m (calm s) = (Ok a, calm s').

Lemma calm_const {A} (r : result EnvelopeError A) : calmable (of_result r).
Proof. by intros s a s' [-> ->]%of_result_ok. Qed.

Lemma calm_bind {A B} (m : io A) (k : A -> io B) :
  calmable m -> (forall a, calmable (k a)) -> calmable (m ≫= k).
Proof.
  intros Hm Hk s b s' (a & s1 & H1 & H2)%io_bind_ok.
  rewrite (io_step _ _ _ _ _ (Hm _ _ _ H1)). by apply Hk.
Qed.

Lemma calm_call {A} (failed : IoError.t -> nat -> io A) works :
  (forall e n s a s', failed e n s <> (Ok a, s')) -> calmable works -> calmable (call failed works).
Proof.
  intros Hf Hw s a s'. unfold call at 1. destruct s as [src pos sink [|[|e n] fates]]; cbn; intros H.
  - exact (Hw _ _ _ H).
  - exact (Hw _ _ _ H).
  - by apply Hf in H.
Qed.

Ltac calm_leaf := intros [src pos sink fates] a s'; cbn; unfold rest_of, go_to, append; cbn;
  repeat case_match; intros Hgo; simplify_eq; done.

Lemma calm_mret {A} (a : A) : calmable (mret a).
Proof. exact (calm_const (Ok a)). Qed.

Lemma calm_read_up_to n : calmable (read_up_to n).
Proof. apply calm_call; [done|]. calm_leaf. Qed.

Lemma calm_read_exact n rule : calmable (read_exact_or n rule).
Proof. apply calm_call; [done|]. calm_leaf. Qed.

Lemma calm_seek n : calmable (seek_start n).
Proof. apply calm_call; [done|]. calm_leaf. Qed.

Lemma calm_position : calmable stream_position.
Proof. apply calm_call; [done|]. calm_leaf. Qed.

Lemma calm_malformed c rule : calmable (malformed_if c rule).
Proof. destruct c; apply calm_const. Qed.

Lemma calm_mismatch c what : calmable (mismatch_if c what).
Proof. destruct c; apply calm_const. Qed.

Lemma calm_add max a b : calmable (add_within max a b).
Proof. apply calm_const. Qed.

#[local] Hint Resolve calm_const calm_add calm_mret calm_read_up_to calm_read_exact calm_seek calm_position
  calm_malformed calm_mismatch : calm.

Lemma calm_read_head sha256 expected : calmable (read_head sha256 expected).
Proof.
  unfold read_head. cbv zeta.
  repeat (apply calm_bind; [first [solve [eauto with calm]|case_match; eauto with calm; apply calm_const]|intros ?]).
  apply calm_mret.
Qed.

(** ** A step that writes nothing *)

Definition silent {A} (m : io A) : Prop := forall s, Streams.sink (snd (m s)) = Streams.sink s.

Lemma silent_const {A} (r : result EnvelopeError A) : silent (of_result r).
Proof. done. Qed.

Lemma silent_mret {A} (a : A) : silent (mret a).
Proof. done. Qed.

Lemma silent_bind {A B} (m : io A) (k : A -> io B) :
  silent m -> (forall a, silent (k a)) -> silent (m ≫= k).
Proof.
  intros Hm Hk s. unfold mbind, io_bind. specialize (Hm s).
  destruct (m s) as [[a|e|c] s1]; cbn in *; rewrite <- Hm; [apply Hk|done..].
Qed.

Lemma silent_call {A} (failed : IoError.t -> nat -> io A) works :
  (forall e n, silent (failed e n)) -> silent works -> silent (call failed works).
Proof.
  intros Hf Hw [src pos sink [|[|e n] fates]]; unfold call; cbn; [apply Hw|..];
    [by rewrite Hw|by rewrite Hf].
Qed.

Ltac silent_leaf := apply silent_call; [done|]; intros [src pos sink fates]; cbn; by repeat case_match.

Lemma silent_read_up_to n : silent (read_up_to n).
Proof. silent_leaf. Qed.

Lemma silent_read_exact n rule : silent (read_exact_or n rule).
Proof. silent_leaf. Qed.

Lemma silent_seek n : silent (seek_start n).
Proof. silent_leaf. Qed.

Lemma silent_flush : silent flush.
Proof. silent_leaf. Qed.

Lemma silent_malformed c rule : silent (malformed_if c rule).
Proof. by destruct c. Qed.

Lemma silent_mismatch c what : silent (mismatch_if c what).
Proof. by destruct c. Qed.

Lemma silent_add max a b : silent (add_within max a b).
Proof. done. Qed.

#[local] Hint Resolve silent_const silent_add silent_mret silent_read_up_to silent_read_exact silent_seek
  silent_flush silent_malformed silent_mismatch : calm.

Lemma silent_read_head sha256 expected : silent (read_head sha256 expected).
Proof.
  unfold read_head. cbv zeta.
  repeat (apply silent_bind; [first [solve [eauto with calm]|by case_match]|intros ?]).
  apply silent_mret.
Qed.

(** What a bind leaves: what its first part left, or its second. *)
Lemma bind_ends {A B} (m : io A) (k : A -> io B) s (P : Streams.t -> Prop) :
  (forall a s1, m s = (Ok a, s1) -> P (snd (k a s1))) -> P (snd (m s)) ->
  P (snd ((m ≫= k) s)).
Proof.
  intros Hk Hm. unfold mbind, io_bind. destruct (m s) as [[a|e|c] s1]; [by apply Hk|done..].
Qed.

(** ** What [open] has written *)

Section written.
Context `{HS : !StreamLE31}.

(** [w] is plaintext of the frames that [body] begins with: of each whole, but of the last
    perhaps a part only. *)
Inductive written (h : bytes) : Decryptor -> Z -> bytes -> bytes -> Prop :=
| written_nothing d n body : written h d n body []
| written_part d n (fin : bool) ct body m k :
    (if fin then decrypt_last d (frame_aad h n true) ct = Some m
     else exists d', decrypt_next d (frame_aad h n false) ct = Some (m, d')) ->
    written h d n (record fin n ct ++ body) (take k m)
| written_frame d n ct body m d' w :
    decrypt_next d (frame_aad h n false) ct = Some (m, d') -> written h d' (n + 1) body w ->
    written h d n (record false n ct ++ body) (m ++ w).

Context (view : EnvelopeIntentV2.t) (h : bytes) (max_fr size : Z).
Context (size_fits : 1 <= size <= MAX_FRAME_PLAINTEXT_SIZE).

(** A frame that was read, whatever else fails. *)
Lemma frame_read n s head s1 fin len ct s2 :
  0 <= n <= U32_MAX ->
  read_exact_or FRAME_HEADER_LEN "missing FINAL frame" s = (Ok head, s1) ->
  frame_head head n max_fr size = Ok (fin, len) ->
  read_exact_or len "frame ciphertext" s1 = (Ok ct, s2) ->
  rest_of s = record fin n ct ++ rest_of s2 /\ Streams.sink s2 = Streams.sink s.
Proof.
  intros Hn H1 Hf H2. apply calm_read_exact in H1, H2. unfold calm in *.
  apply read_exact_ok in H1 as (L1 & E1 & D1). injection E1 as R1 P1 K1.
  apply read_exact_ok in H2 as (L2 & E2 & D2). injection E2 as R2 P2 K2.
  apply frame_head_ok in Hf as (<- & _ & _); [|done|done|lia].
  unfold rest_of. rewrite R2, P2, K2, <- K1. split; [|done].
  rewrite D1. rewrite <- R1, <- P1 at 1. rewrite D2, record_header, <- app_assoc. subst len.
  done.
Qed.

Lemma write_all_ends b s :
  exists k, Streams.sink (snd (write_all b s)) = Streams.sink s ++ take k b
            /\ forall u s', write_all b s = (Ok u, s') ->
                 Streams.sink s' = Streams.sink s ++ b /\ rest_of s' = rest_of s.
Proof.
  destruct s as [src pos sink [|[|e n] fates]]; cbn.
  1, 2: exists (length b); rewrite take_ge by done; split; [done|by intros u s' [= _ <-]].
  by exists n.
Qed.

Lemma open_frames_written fuel d n plen s :
  0 <= n <= U32_MAX ->
  exists w, Streams.sink (snd (open_frames fuel view h max_fr size (Some d) n plen s))
            = Streams.sink s ++ w
            /\ written h d n (rest_of s) w.
Proof.
  revert d n plen s. induction fuel as [|fuel IH]; intros d n plen s Hn.
  { exists []. rewrite app_nil_r. by split; [|constructor]. }
  assert (forall s', Streams.sink s' = Streams.sink s -> exists w,
    Streams.sink s' = Streams.sink s ++ w /\ written h d n (rest_of s) w) as Hnone.
  { intros s' ->. exists []. rewrite app_nil_r. by split; [|constructor]. }
  cbn [open_frames]. apply bind_ends; [intros head s1 H1|apply Hnone, silent_read_exact].
  assert (Streams.sink s1 = Streams.sink s) as K1.
  { pose proof (silent_read_exact FRAME_HEADER_LEN "missing FINAL frame" s) as K. by rewrite H1 in K. }
  apply bind_ends; [intros [fin len] s1' [Hf ->]%of_result_ok|by apply Hnone].
  apply bind_ends; [intros ct s2 H2|apply Hnone; by rewrite silent_read_exact].
  destruct (frame_read _ _ _ _ _ _ _ _ Hn H1 Hf H2) as [Hrest K2].
  apply bind_ends; [intros [m dec] s2' Hdec|apply Hnone; destruct fin; repeat case_match; done].
  assert (s2' = s2 /\ if fin then dec = None /\ decrypt_last d (frame_aad h n true) ct = Some m
    else exists d', dec = Some d' /\ decrypt_next d (frame_aad h n false) ct = Some (m, d'))
    as [-> Hm].
  { destruct fin; [destruct (decrypt_last _ _ _)|destruct (decrypt_next _ _ _) as [[]|]];
      injection Hdec; naive_solver. }
  apply bind_ends; [intros plen' s3 (-> & _ & ->)%add_within_ok|by apply Hnone].
  apply bind_ends; [intros u s3 [_ ->]%malformed_if_ok|apply Hnone; by rewrite silent_malformed].
  destruct (write_all_ends m s2) as (k & Hk & Hall). rewrite K2 in Hk, Hall. rewrite Hrest.
  assert (forall k, written h d n (record fin n ct ++ rest_of s2) (take k m)) as Hpart.
  { intros k'. apply written_part. destruct fin; naive_solver. }
  apply bind_ends; [intros u' s3 H3|by exists (take k m)].
  destruct (Hall _ _ H3) as [K3 R3].
  assert (forall s', Streams.sink s' = Streams.sink s3 -> exists w,
    Streams.sink s' = Streams.sink s ++ w /\ written h d n (record fin n ct ++ rest_of s2) w) as Hwhole.
  { intros s' ->. exists m. rewrite <- (take_ge m (length m)) at 2 by done. by split. }
  destruct fin; [by apply Hwhole|]. destruct Hm as (d' & -> & Hm).
  apply bind_ends; [intros n1 s4 (-> & Hb & ->)%add_within_ok|by apply Hwhole].
  destruct (IH d' (n + 1) (plen + blen m) s3) as (w & Hw & Hrec); [lia|].
  exists (m ++ w). rewrite Hw, K3, <- app_assoc. split; [done|].
  apply (written_frame _ _ _ _ _ _ d'); [done|by rewrite <- R3].
Qed.

End written.

(** C9. Whatever the bytes, and whichever calls fail, [open] writes nothing before the whole
    object has the digests and the scope that are expected, its slot is bound to its intent
    and its data key unwraps; and what it then writes is the plaintext of the frames in
    their order, each authenticated at its position, cut at most where the writer failed. *)
Theorem open_writes_authentic `{HS : !StreamLE31, HA : !Aead} sha256 fkek expected s :
  let s' := snd (open sha256 fkek expected s) in
  Streams.sink s' = Streams.sink s
  \/ exists ib sb view slot dek body w,
       Streams.source s = header_of sha256 ib sb view ++ body
       /\ headed sha256 ib sb view slot /\ names sha256 expected ib sb view (Streams.source s)
       /\ unwraps fkek dek slot
       /\ Streams.sink s' = Streams.sink s ++ w
       /\ written (EnvelopeIntentV2.hash sha256 ib)
            (decryptor_new dek (EnvelopeIntentV2.stream_nonce_prefix view)) 0 body w.
Proof.
  cbv zeta. unfold open. apply bind_ends; [|left; apply silent_read_head].
  intros [[[pre h] view] slot] s1 Hhead. apply calm_read_head in Hhead. unfold calm at 1 in Hhead.
  apply read_head_ok in Hhead as (ib & sb & body & Hsrc & Hd & -> & -> & Hn & _ & E).
  injection E as R P K. pose proof (headed_sizes _ _ _ _ _ Hd) as Hsz.
  apply bind_ends; [intros dek s1' [Hdek%map_err_ok ->]%of_result_ok|left; by rewrite silent_const].
  cbn [pre_of Preamble.frame_plaintext_size].
  set (frames := open_frames _ _ _ _ _ _ _ _).
  destruct (open_frames_written view (EnvelopeIntentV2.hash sha256 ib) (max_frames view) _
    (frame_size_fits _ Hsz) (Z.to_nat (max_frames view) + 1)
    (decryptor_new dek (EnvelopeIntentV2.stream_nonce_prefix view)) 0 0 s1) as (w & Hw & Hwr);
    [by unfold U32_MAX|].
  assert (rest_of s1 = body) as Hrest.
  { unfold rest_of. rewrite R, P, Hsrc. apply drop_app_length. }
  rewrite K in Hw. rewrite Hrest in Hwr. change (Streams.sink (snd (frames s1)) = Streams.sink s ++ w) in Hw.
  right. exists ib, sb, view, slot, dek, body, w. split_and!; try done.
  rewrite <- Hw. unfold mbind at 1, io_bind. destruct (frames s1) as [[[n plen]|e|c] s2]; [|done..].
  cbn [snd]. apply (silent_bind (read_up_to 1)); [auto with calm|]. intros extra.
  repeat (apply silent_bind; [auto with calm|intros ?]). apply silent_mret.
Qed.

(** ** No run panics *)

Definition no_crash {A} (m : io A) (s : Streams.t) : Prop := forall c, fst (m s) <> Crash c.

Lemma no_crash_bind {A B} (m : io A) (k : A -> io B) s :
  no_crash m s -> (forall a s1, m s = (Ok a, s1) -> no_crash (k a) s1) -> no_crash (m ≫= k) s.
Proof.
  intros Hm Hk c. unfold mbind, io_bind. specialize (Hm c). destruct (m s) as [[a|e|c'] s1].
  - by apply Hk.
  - done.
  - cbn in *. congruence.
Qed.

Lemma no_crash_result {A} (r : result EnvelopeError A) s : safe r -> no_crash (of_result r) s.
Proof. intros H c. apply H. Qed.

Lemma no_crash_mret {A} (a : A) s : no_crash (mret a) s.
Proof. done. Qed.

Lemma no_crash_call {A} (failed : IoError.t -> nat -> io A) works s :
  (forall e n s, no_crash (failed e n) s) -> (forall s, no_crash works s) ->
  no_crash (call failed works) s.
Proof.
  intros Hf Hw. destruct s as [src pos sink [|[|e n] fates]]; intros c; cbn; [apply Hw..|apply Hf].
Qed.

Ltac no_crash_leaf := apply no_crash_call; [done|]; intros ? ?; cbn; by repeat case_match.

Lemma no_crash_read_up_to n s : no_crash (read_up_to n) s.
Proof. no_crash_leaf. Qed.

Lemma no_crash_read_exact n rule s : no_crash (read_exact_or n rule) s.
Proof. no_crash_leaf. Qed.

Lemma no_crash_seek n s : no_crash (seek_start n) s.
Proof. no_crash_leaf. Qed.

Lemma no_crash_position s : no_crash stream_position s.
Proof. no_crash_leaf. Qed.

Lemma no_crash_write b s : no_crash (write_all b) s.
Proof. no_crash_leaf. Qed.

Lemma no_crash_flush s : no_crash flush s.
Proof. no_crash_leaf. Qed.

Lemma no_crash_malformed c rule s : no_crash (malformed_if c rule) s.
Proof. by destruct c. Qed.

Lemma no_crash_mismatch c what s : no_crash (mismatch_if c what) s.
Proof. by destruct c. Qed.

Lemma no_crash_add max a b s : a + b <= max -> no_crash (add_within max a b) s.
Proof. intros H c. unfold add_within, of_result. cbn. by rewrite (proj2 (Z.leb_le _ _) H). Qed.

#[local] Hint Resolve no_crash_result no_crash_mret no_crash_read_up_to no_crash_read_exact
  no_crash_seek no_crash_position no_crash_write no_crash_flush no_crash_malformed
  no_crash_mismatch no_crash_add map_err_safe intent_parse_safe bind_slot_safe
  preamble_parse_safe : calm.

Lemma read_head_no_crash sha256 expected s : no_crash (read_head sha256 expected) s.
Proof.
  unfold read_head. cbv zeta.
  apply no_crash_bind; [auto with calm|intros u s1 [Hmax%Z.ltb_ge ->]%malformed_if_ok].
  apply no_crash_bind; [auto with calm|intros u1 s1 _].
  apply no_crash_bind; [apply no_crash_add; unfold MAX_OBJECT_SIZE, U64_MAX in *; lia|intros n s2 _].
  repeat (apply no_crash_bind; [first [solve [eauto with calm]|by case_match]|intros ? ? _]).
  apply no_crash_mret.
Qed.

Lemma unwrap_dek_safe `{HA : !Aead} fkek nonce wrapped context :
  safe (unwrap_dek fkek nonce wrapped context).
Proof. unfold unwrap_dek, ok_or, mbind, result_bind. intros c. by repeat case_match. Qed.

Lemma frame_head_safe head n max_fr size : safe (frame_head head n max_fr size).
Proof. unfold frame_head. intros c. cbv zeta. by repeat case_match. Qed.

#[local] Hint Resolve unwrap_dek_safe frame_head_safe : calm.

Section skip.
Context (view : EnvelopeIntentV2.t) (Hsz : sizes view).
Abbreviation size := (EnvelopeIntentV2.frame_plaintext_size view).

Lemma frame_head_bounds head n fin len :
  blen head = FRAME_HEADER_LEN -> 0 <= n <= 8192 ->
  frame_head head n (max_frames view) size = Ok (fin, len) ->
  n < max_frames view /\ 0 < len <= 4194320.
Proof.
  intros Hl Hn Hf. pose proof (frame_size_fits _ Hsz).
  apply frame_head_ok in Hf as (_ & ? & Hlen); [|done|unfold U32_MAX; lia|lia].
  split; [done|]. by eapply frame_len_bounds.
Qed.

Lemma skip_frames_no_crash fuel at_ n s :
  0 <= n <= max_frames view -> max_frames view < n + Z.of_nat fuel ->
  0 <= at_ <= 1000000 + n * 5000000 ->
  no_crash (skip_frames fuel at_ n (max_frames view) size) s.
Proof.
  pose proof (max_frames_few _ Hsz) as Hfew.
  revert at_ n s. induction fuel as [|fuel IH]; intros at_ n s Hn Hf Hat; [lia|]. cbn [skip_frames].
  apply no_crash_bind; [auto with calm|intros head s1 Hhead].
  apply calm_read_exact, read_exact_ok in Hhead as (Hl & _ & _).
  apply no_crash_bind; [auto with calm|intros [fin len] s2 [Hfr ->]%of_result_ok].
  apply frame_head_bounds in Hfr as [Hlt Hlen]; [|done|lia].
  unfold FRAME_HEADER_LEN, U64_MAX, U32_MAX in *.
  apply no_crash_bind; [apply no_crash_add; lia|intros step s3 (-> & _ & ->)%add_within_ok].
  apply no_crash_bind; [apply no_crash_add; lia|intros at' s3 (-> & _ & ->)%add_within_ok].
  apply no_crash_bind; [auto with calm|intros u s3 _]. destruct fin; [done|].
  apply no_crash_bind; [apply no_crash_add; lia|intros n' s4 (-> & _ & ->)%add_within_ok].
  apply IH; lia.
Qed.

Lemma open_frames_no_crash `{HS : !StreamLE31, HL : !StreamLaws} fuel h e d n plen s :
  in_step e d -> 0 <= n <= max_frames view -> max_frames view < n + Z.of_nat fuel ->
  0 <= plen <= MAX_OBJECT_SIZE ->
  no_crash (open_frames fuel view h (max_frames view) size (Some d) n plen) s.
Proof.
  pose proof (max_frames_few _ Hsz) as Hfew. pose proof (sz_plain _ Hsz) as Hplain.
  revert e d n plen s. induction fuel as [|fuel IH]; intros e d n plen s Hin Hn Hf Hp; [lia|].
  cbn [open_frames]. apply no_crash_bind; [auto with calm|intros head s1 Hhead].
  apply calm_read_exact, read_exact_ok in Hhead as (Hl & _ & _).
  apply no_crash_bind; [auto with calm|intros [fin len] s2 [Hfr ->]%of_result_ok].
  apply frame_head_bounds in Hfr as [Hlt Hlen]; [|done|lia].
  apply no_crash_bind; [auto with calm|intros ct s2 Hct].
  apply calm_read_exact, read_exact_ok in Hct as (Hcl & _ & _).
  apply no_crash_bind; [destruct fin; repeat case_match; done|intros [m dec] s3 Hdec].
  assert (blen m <= blen ct /\ (fin = false -> exists e' d', dec = Some d' /\ in_step e' d')) as [Hm Hd].
  { destruct fin; [destruct (decrypt_last _ _ _) eqn:E|destruct (decrypt_next _ _ _) as [[]|] eqn:E];
      unfold mret, io_ret, fail, of_result in Hdec; simplify_eq.
    - apply (last_opens e) in E; [|done]. apply last_tag in E. split; [lia|done].
    - apply (next_sealed e) in E as (e' & E & ?); [|done]. apply next_tag in E.
      split; [lia|]. intros _. by exists e', d0. }
  pose proof (blen_nonneg m). unfold MAX_OBJECT_SIZE, U64_MAX, U32_MAX in *.
  apply no_crash_bind; [apply no_crash_add; lia|intros plen' s4 (-> & _ & ->)%add_within_ok].
  apply no_crash_bind; [auto with calm|intros u s4 [Hpl%Z.ltb_ge ->]%malformed_if_ok].
  apply no_crash_bind; [auto with calm|intros u' s4 _]. destruct fin; [done|].
  destruct (Hd eq_refl) as (e' & d' & -> & Hin').
  apply no_crash_bind; [apply no_crash_add; lia|intros n' s5 (-> & _ & ->)%add_within_ok].
  apply (IH e'); first [done|lia].
Qed.

End skip.

Lemma after_head sha256 (sha256_length : forall x, blen (sha256 x) = 32) expected s pre h view slot s1 :
  read_head sha256 expected s = (Ok (pre, h, view, slot), s1) ->
  sizes view /\ Preamble.frame_plaintext_size pre = EnvelopeIntentV2.frame_plaintext_size view
  /\ Z.of_nat (Streams.pos s1) <= 1000000.
Proof.
  intros Hhead%calm_read_head. unfold calm at 1 in Hhead.
  apply read_head_ok in Hhead as (ib & sb & body & _ & Hd & -> & _ & _ & _ & E).
  apply (f_equal Streams.pos) in E. cbn [Streams.pos calm st] in E. rewrite E. split_and!; [by eapply headed_sizes|done|].
  pose proof (blen_header sha256 sha256_length ib sb view) as Hl.
  destruct Hd as [_ _ H1 H2]. unfold MAX_INTENT_LEN, MAX_DEK_SLOT_LEN, blen in *. lia.
Qed.

Section seal.
Context `{HS : !StreamLE31, HL : !StreamLaws} (view : EnvelopeIntentV2.t) (Hsz : sizes view).
Abbreviation size := (EnvelopeIntentV2.frame_plaintext_size view).
Abbreviation max_plain := (EnvelopeIntentV2.max_plaintext_size view).

Lemma put_keeps w b s w' s' :
  Hashing.put w b s = (Ok w', s') -> Hashing.len w' = Hashing.len w + blen b.
Proof.
  unfold Hashing.put. intros (u & s1 & _ & H)%io_bind_ok.
  by apply io_bind_ok in H as (n & s2 & (-> & _ & _)%add_within_ok & [-> _]%mret_ok).
Qed.

Lemma no_crash_put w b s : Hashing.len w + blen b <= U64_MAX -> no_crash (Hashing.put w b) s.
Proof.
  intros H. unfold Hashing.put. apply no_crash_bind; [auto with calm|intros u s1 _].
  apply no_crash_bind; [auto with calm|]. intros. apply no_crash_mret.
Qed.

Lemma read_up_to_few n s b s' : 0 <= n -> read_up_to n s = (Ok b, s') -> blen b <= n.
Proof.
  intros Hn H. apply calm_read_up_to in H. unfold calm at 1 in H. rewrite read_up_to_st in H.
  injection H as <- _. unfold blen. rewrite length_take. lia.
Qed.

(** [n] full chunks are behind. *)
Lemma seal_frames_no_crash fuel h e current n plen w s :
  0 <= n -> plen = n * size -> plen <= max_plain -> max_plain / size < n + Z.of_nat fuel ->
  blen current <= size -> 0 <= Hashing.len w <= 1000000 + MAX_OBJECT_SIZE ->
  no_crash (seal_frames fuel view h (Some e) current n plen w) s.
Proof.
  destruct Hsz as [S1 S2 S3]. unfold MIN_FRAME_PLAINTEXT_SIZE, MAX_FRAME_PLAINTEXT_SIZE, MAX_OBJECT_SIZE in *.
  revert e current n plen w s. induction fuel as [|fuel IH]; intros e current n plen w s Hn Hpn Hp Hf Hc Hw.
  { assert (n <= max_plain / size) by (apply Z.div_le_lower_bound; lia). lia. }
  pose proof (blen_nonneg current). assert (n <= 8192) as Hn8 by nia. cbn [seal_frames].
  apply no_crash_bind; [case_match; auto with calm|intros next s1 Hnext].
  assert (blen next <= size /\ (is_empty next = false -> blen current = size)) as [Hns Hfull].
  { destruct (Z.eqb_spec (blen current) size).
    - apply read_up_to_few in Hnext; [done|lia].
    - injection Hnext as <- _. cbn. split; [unfold blen; cbn; lia|done]. }
  clear Hnext. unfold U64_MAX, U32_MAX in *.
  apply no_crash_bind; [apply no_crash_add; lia|intros plen' s2 (-> & _ & ->)%add_within_ok].
  apply no_crash_bind; [auto with calm|intros u s2 [Hpl%Z.ltb_ge ->]%malformed_if_ok].
  apply no_crash_bind; [destruct (is_empty next); repeat case_match; done|intros [ct enc] s2 Henc].
  assert (blen ct = blen current + 16 /\ (is_empty next = false -> is_Some enc)) as [Hct Hen].
  { destruct (is_empty next); [destruct (encrypt_last _ _ _) eqn:E|destruct (encrypt_next _ _ _) as [[]|] eqn:E];
      unfold mret, io_ret, fail, of_result in Henc; simplify_eq.
    - apply last_tag in E. by split.
    - apply next_tag in E. split; [done|]. by eexists. }
  clear Henc. unfold FRAME_HEADER_LEN in *.
  apply no_crash_bind; [apply no_crash_add; lia|intros l1 s3 (-> & _ & ->)%add_within_ok].
  apply no_crash_bind; [apply no_crash_add; lia|intros l2 s3 (-> & _ & ->)%add_within_ok].
  apply no_crash_bind; [auto with calm|intros u3 s3 [Hci%Z.ltb_ge ->]%malformed_if_ok].
  assert (forall z, blen (be_bytes 4 z) = 4) as H4 by (intros z; unfold blen; by rewrite length_be_bytes).
  assert (forall b : byte, blen [b] = 1) as H1 by done.
  apply no_crash_bind; [apply no_crash_put; rewrite H1; unfold U64_MAX; lia|intros w1 s4 L1%put_keeps].
  apply no_crash_bind; [apply no_crash_put; rewrite L1, H1, H4; unfold U64_MAX; lia|intros w2 s5 L2%put_keeps].
  apply no_crash_bind; [apply no_crash_put; rewrite L2, L1, H1, !H4; unfold U64_MAX; lia|intros w3 s6 L3%put_keeps].
  apply no_crash_bind; [apply no_crash_put; rewrite L3, L2, L1, H1, !H4; unfold U64_MAX; lia|intros w4 s7 L4%put_keeps].
  rewrite L3, L2, L1, H1, !H4 in L4.
  destruct (is_empty next); [done|]. rewrite Hfull in * by done. destruct (Hen eq_refl) as [e' ->].
  apply no_crash_bind; [apply no_crash_add; lia|intros n' s8 (-> & _ & ->)%add_within_ok].
  apply IH; try lia.
Qed.

End seal.

Lemma len_in_no_crash b max name s : no_crash (len_in b max name) s.
Proof. unfold len_in. by case_match. Qed.

Lemma len_in_le b max name s n s' : len_in b max name s = (Ok n, s') -> blen b <= max.
Proof. unfold len_in. case_match eqn:E; [|done]. intros _. lia. Qed.

Lemma seal_frames_counter `{HS : !StreamLE31} fuel view h enc current n plen w s w' n' plen' s' :
  seal_frames fuel view h enc current n plen w s = (Ok (w', n', plen'), s') ->
  n' < n + Z.of_nat fuel.
Proof.
  revert enc current n plen w s. induction fuel as [|fuel IH]; intros enc current n plen w s H; [done|].
  cbn [seal_frames] in H. cbv zeta in H.
  apply io_bind_ok in H as (next & ? & _ & H).
  do 2 (apply io_bind_ok in H as (? & ? & _ & H)). apply io_bind_ok in H as ([ct enc'] & ? & _ & H).
  do 7 (apply io_bind_ok in H as (? & ? & _ & H)). destruct (is_empty next).
  - apply mret_ok in H as [[= _ <- _] _]. lia.
  - apply io_bind_ok in H as (n1 & s1 & (-> & _ & _)%add_within_ok & H). apply IH in H. lia.
Qed.

Lemma open_frames_counter `{HS : !StreamLE31} fuel view h mf size dec n plen s n' plen' s' :
  open_frames fuel view h mf size dec n plen s = (Ok (n', plen'), s') -> n' < n + Z.of_nat fuel.
Proof.
  revert dec n plen s. induction fuel as [|fuel IH]; intros dec n plen s H; [done|].
  cbn [open_frames] in H. cbv zeta in H.
  apply io_bind_ok in H as (head & ? & _ & H). apply io_bind_ok in H as ([fin len] & ? & _ & H).
  apply io_bind_ok in H as (ct & ? & _ & H). apply io_bind_ok in H as ([m dec'] & ? & _ & H).
  do 3 (apply io_bind_ok in H as (? & ? & _ & H)). destruct fin.
  - apply mret_ok in H as [[= <- _] _]. lia.
  - apply io_bind_ok in H as (n1 & s1 & (-> & _ & _)%add_within_ok & H). apply IH in H. lia.
Qed.

Lemma seal_no_crash `{HS : !StreamLE31, HL : !StreamLaws} sha256 dek intent slotm s :
  (forall x, blen (sha256 x) = 32) -> no_crash (seal sha256 dek intent slotm) s.
Proof.
  intros sha256_length. unfold seal. cbv zeta.
  apply no_crash_bind; [auto with calm|intros u s1 [Hh%negb_false_iff%bool_decide_eq_true ->]%mismatch_if_ok].
  apply no_crash_bind; [auto with calm|intros view s1 [Hp%map_err_ok ->]%of_result_ok].
  apply no_crash_bind; [auto with calm|intros slot s1 _].
  apply no_crash_bind; [apply len_in_no_crash|intros il s2 Hi%len_in_le].
  apply no_crash_bind; [apply len_in_no_crash|intros sl s3 Hs%len_in_le].
  assert (sizes view) as Hsz.
  { eapply intent_sizes; [|done]. unfold MAX_INTENT_LEN, USIZE_MAX, U64_MAX in *. lia. }
  set (pre := Preamble.encode _). assert (blen pre = 64) as Hpre.
  { unfold pre. rewrite blen_preamble. cbn. by rewrite <- Hh, blen_hash. }
  unfold MAX_INTENT_LEN, MAX_DEK_SLOT_LEN in *.
  set (ib := IntentMaterial.exact_intent_bytes intent) in *.
  set (sb := SlotMaterial.exact_slot_bytes slotm) in *.
  pose proof (blen_nonneg ib). pose proof (blen_nonneg sb).
  apply no_crash_bind; [apply no_crash_put; cbn [Hashing.new Hashing.len]; unfold U64_MAX; lia|intros w1 s4 L1%put_keeps].
  cbn [Hashing.new Hashing.len] in L1.
  apply no_crash_bind; [apply no_crash_put; unfold U64_MAX; lia|intros w2 s5 L2%put_keeps].
  apply no_crash_bind; [apply no_crash_put; unfold U64_MAX; lia|intros w3 s6 L3%put_keeps].
  pose proof (sz_frame _ Hsz) as Hf. unfold MIN_FRAME_PLAINTEXT_SIZE in Hf.
  apply no_crash_bind; [auto with calm|intros current s7 Hcur%read_up_to_few; [|lia]].
  apply no_crash_bind; [auto with calm|intros u8 s8 _].
  pose proof (sz_plain _ Hsz) as Hpl.
  assert (0 <= EnvelopeIntentV2.max_plaintext_size view / EnvelopeIntentV2.frame_plaintext_size view)
    by (apply Z.div_pos; lia).
  apply no_crash_bind; [apply seal_frames_no_crash; try done; unfold frame_fuel, MAX_OBJECT_SIZE; lia|].
  intros [[w counter] plen] s9 Hfr.
  apply no_crash_bind; [auto with calm|intros u10 s10 _].
  apply no_crash_bind; [|intros; apply no_crash_mret].
  apply no_crash_add. apply seal_frames_counter in Hfr. unfold frame_fuel in Hfr.
  assert (EnvelopeIntentV2.max_plaintext_size view / EnvelopeIntentV2.frame_plaintext_size view <= 8192).
  { unfold MAX_OBJECT_SIZE in *. apply Z.lt_succ_r, Z.div_lt_upper_bound; lia. }
  unfold U32_MAX. lia.
Qed.

Section keyless.
Context (sha256 : bytes -> bytes) (sha256_length : forall x, blen (sha256 x) = 32).

Lemma check_public_no_crash expected s : no_crash (check_public sha256 expected) s.
Proof.
  unfold check_public. apply no_crash_bind; [apply read_head_no_crash|intros [[[pre h] view] slot] s1 Hhead].
  apply after_head in Hhead as (Hsz & -> & Hpos); [|done]. fold (max_frames view).
  pose proof (max_frames_few _ Hsz).
  apply no_crash_bind; [auto with calm|intros at_ s2 Hat].
  apply calm_position in Hat. unfold calm at 1 in Hat. rewrite stream_position_st in Hat.
  injection Hat as <- _.
  apply no_crash_bind; [apply skip_frames_no_crash; [done|lia..]|intros at' s3 _].
  apply no_crash_bind; [auto with calm|intros; apply no_crash_mret].
Qed.

Lemma open_no_crash `{HS : !StreamLE31, HL : !StreamLaws, HA : !Aead} fkek expected s :
  no_crash (open sha256 fkek expected) s.
Proof.
  unfold open. apply no_crash_bind; [apply read_head_no_crash|intros [[[pre h] view] slot] s1 Hhead].
  apply after_head in Hhead as (Hsz & -> & _); [|done].
  pose proof (max_frames_few _ Hsz).
  apply no_crash_bind; [auto with calm|intros dek s2 _]. fold (max_frames view).
  apply no_crash_bind.
  { eapply open_frames_no_crash; [done|apply in_step_new|lia|lia|unfold MAX_OBJECT_SIZE; lia]. }
  intros [n plen] s3 Hn%open_frames_counter.
  do 3 (apply no_crash_bind; [auto with calm|intros ? ? _]).
  apply no_crash_bind; [apply no_crash_add; unfold U32_MAX; lia|intros; apply no_crash_mret].
Qed.

End keyless.

(** C10. [seal], [open] and [check_public] return, on any bytes and whichever calls fail: no
    counter or length overflows, none takes its encryptor twice, and the rounds that the
    intent has room for are enough. *)
Theorem objects_never_panic `{HS : !StreamLE31, HL : !StreamLaws, HA : !Aead} sha256 s c
    dek intent slotm fkek expected :
  (forall x, blen (sha256 x) = 32) ->
  fst (seal sha256 dek intent slotm s) <> Crash c /\ fst (open sha256 fkek expected s) <> Crash c
  /\ fst (check_public sha256 expected s) <> Crash c.
Proof.
  intros Hsha. split_and!; [by apply seal_no_crash|by apply open_no_crash|by apply check_public_no_crash].
Qed.

Lemma objects_never_panic_witness :
  fst (seal toy_digest sample_dek sample_intent sample_slot_material
         (Streams.mk sample_plain 0 [] [Works; Fails IoError.UnexpectedEof 7])) <> Crash Panic.
Proof.
  apply (objects_never_panic toy_digest _ Panic sample_dek sample_intent sample_slot_material
    (id32 7) sample_expected), toy_digest_length.
Defined.

(** A writer that fails in the middle of the last frame has been given what it took. *)
Example cut_short :
  Streams.sink (snd (open toy_digest (id32 7) sample_expected
    (Streams.mk sample_object 0 [] (replicate 8 Works ++ [Fails IoError.UnexpectedEof 1]))))
  = [Byte.x2a].
Proof. vm_compute. reflexivity. Qed.
