(* ===== verification/SnapshotV2.v ===== *)
(** * Snapshot manifests, commit requests and receipts (shared/src/snapshot_v2.rs)

    The manifest of a sealed object, its signed container, the commit request and the
    finalize payload that carry it, and the receipt that binds the request. *)

From S2P Require Import Prelude Bytes Canonical CanonicalFacts CanonicalDecode CanonicalTheorems.
From S2P Require Import RecordFields WireMap Keys ProfileLease.

Definition DOMAIN_MANIFEST_PAYLOAD := "shardx.snapshot.manifest-payload.v2".
Definition DOMAIN_SIGNED_MANIFEST_CONTAINER := "shardx.snapshot.signed-manifest-container.v2".
Definition DOMAIN_COMMIT_REQUEST := "shardx.sync.commit-request.v2".
Definition DOMAIN_COMMIT_RECEIPT_BINDING := "shardx.sync.commit-receipt-binding.v2".
Definition OPERATION_SCOPE_COMMIT := "profile.commit.v2".
Definition VERSION : Z := 2.
Definition MAX_MANIFEST_PAYLOAD_BYTES : Z := 65536.
Definition MAX_SIGNED_MANIFEST_CONTAINER_BYTES : Z := 131072.
Definition MAX_COMMIT_REQUEST_BYTES : Z := MAX_SIGNED_MANIFEST_CONTAINER_BYTES + 4096.

Inductive SnapshotError :=
| InRecord (e : RecordError)
| ManifestReplayMismatch (field : string)
| ReceiptMismatch (field : string).

Definition snapshot_code (e : SnapshotError) : string :=
  match e with
  | InRecord e => code e
  | ManifestReplayMismatch _ => "MANIFEST_REPLAY_MISMATCH"
  | ReceiptMismatch _ => "RECEIPT_MISMATCH"
  end.

(** The [version != VERSION] of every parser, and of the suite and its version. *)
Definition supported (field : string) (expected : Z) : fields unit :=
  v ← Fields.u16 field;
  fail_if (negb (v =? expected)) (Unsupported field v).

#[global] Hint Unfold supported VERSION MAX_MANIFEST_PAYLOAD_BYTES
  MAX_SIGNED_MANIFEST_CONTAINER_BYTES MAX_COMMIT_REQUEST_BYTES MAX_OBJECT_SIZE
  SIGNATURE_SUITE_ID_ED25519 SIGNATURE_VERSION ED25519_SIG_LEN : wire_unfold.

(** The first field of [checks] that does not hold. *)
Definition first_unequal (checks : list (string * bool)) : option string :=
  fst <$> List.find (fun check => negb check.2) checks.

(** ** The manifest *)

Module SnapshotManifestV2.

Record t := mk {
  snapshot_id : bytes;
  tenant_id : bytes;
  fleet_id : bytes;
  profile_id : bytes;
  lease_id : bytes;
  target_version : Z;
  base_version : Z;
  fencing_token : Z;
  key_generation : Z;
  fkek_key_id : bytes;
  preamble_sha256 : bytes;
  intent_hash : bytes;
  dek_slot_sha256 : bytes;
  ciphertext_sha256 : bytes;
  ciphertext_size : Z;
  previous_signed_head_hash : option bytes;
  signer_signing_key_id : bytes;
  server_instance_id : bytes;
  restore_epoch : Z;
  manifest_replay_id : bytes;
  created_at_ms : Z }.

#[global] Instance eq_dec : EqDecision t.
Proof. solve_decision. Defined.

Definition put (x : t) : list (string * Value) :=
  [("domain", c.t DOMAIN_MANIFEST_PAYLOAD); ("version", c.u VERSION);
   ("snapshot_id", c.b (snapshot_id x)); ("tenant_id", c.b (tenant_id x));
   ("fleet_id", c.b (fleet_id x)); ("profile_id", c.b (profile_id x));
   ("lease_id", c.b (lease_id x)); ("target_version", c.u (target_version x));
   ("base_version", c.u (base_version x)); ("fencing_token", c.u (fencing_token x));
   ("key_generation", c.u (key_generation x)); ("fkek_key_id", c.b (fkek_key_id x));
   ("preamble_sha256", c.b (preamble_sha256 x)); ("intent_hash", c.b (intent_hash x));
   ("dek_slot_sha256", c.b (dek_slot_sha256 x));
   ("ciphertext_sha256", c.b (ciphertext_sha256 x));
   ("ciphertext_size", c.u (ciphertext_size x));
   ("signer_signing_key_id", c.b (signer_signing_key_id x));
   ("server_instance_id", c.b (server_instance_id x));
   ("restore_epoch", c.u (restore_epoch x));
   ("manifest_replay_id", c.b (manifest_replay_id x));
   ("created_at_ms", c.u (created_at_ms x))]
  ++ opt_entry "previous_signed_head_hash" c.b (previous_signed_head_hash x).

Definition encode (x : t) : bytes := Canonical.encode (c.m (put x)).

Definition check (x : t) : fields unit :=
  _ ← fail_if (negb (bool_decide (checked_add (base_version x) 1 = Some (target_version x))))
        (BadValue "target_version");
  _ ← fail_if (negb ((1 <=? ciphertext_size x) && (ciphertext_size x <=? MAX_OBJECT_SIZE)))
        (BadValue "ciphertext_size");
  fail_if (negb (Bool.eqb (base_version x =? 0) (negb (is_some (previous_signed_head_hash x)))))
    (BadValue "previous_signed_head_hash").

Definition parser : fields t :=
  _ ← Fields.exact_text "domain" DOMAIN_MANIFEST_PAYLOAD;
  _ ← supported "version" VERSION;
  snapshot_id ← Fields.fixed 16 "snapshot_id";
  tenant_id ← Fields.fixed 16 "tenant_id";
  fleet_id ← Fields.fixed 16 "fleet_id";
  profile_id ← Fields.fixed 16 "profile_id";
  lease_id ← Fields.fixed 16 "lease_id";
  target_version ← Fields.uint "target_version";
  base_version ← Fields.uint "base_version";
  fencing_token ← Fields.uint "fencing_token";
  key_generation ← Fields.uint "key_generation";
  fkek_key_id ← Fields.fixed 32 "fkek_key_id";
  preamble_sha256 ← Fields.fixed 32 "preamble_sha256";
  intent_hash ← Fields.fixed 32 "intent_hash";
  dek_slot_sha256 ← Fields.fixed 32 "dek_slot_sha256";
  ciphertext_sha256 ← Fields.fixed 32 "ciphertext_sha256";
  ciphertext_size ← Fields.uint "ciphertext_size";
  previous_signed_head_hash ← Fields.opt_fixed 32 "previous_signed_head_hash";
  signer_signing_key_id ← Fields.fixed 32 "signer_signing_key_id";
  server_instance_id ← Fields.fixed 16 "server_instance_id";
  restore_epoch ← Fields.uint "restore_epoch";
  manifest_replay_id ← Fields.fixed 16 "manifest_replay_id";
  created_at_ms ← Fields.uint "created_at_ms";
  let m := mk snapshot_id tenant_id fleet_id profile_id lease_id target_version base_version
             fencing_token key_generation fkek_key_id preamble_sha256 intent_hash
             dek_slot_sha256 ciphertext_sha256 ciphertext_size previous_signed_head_hash
             signer_signing_key_id server_instance_id restore_epoch manifest_replay_id
             created_at_ms in
  _ ← Fields.finish;
  _ ← check m;
  mret m.

Definition parse (bs : bytes) : result SnapshotError t :=
  map_err InRecord (parse_map "SnapshotManifestV2" parser bs).

Definition wf (x : t) : bool :=
  (blen (snapshot_id x) =? 16) && (blen (tenant_id x) =? 16) && (blen (fleet_id x) =? 16)
  && (blen (profile_id x) =? 16) && (blen (lease_id x) =? 16) && (blen (fkek_key_id x) =? 32)
  && (blen (preamble_sha256 x) =? 32) && (blen (intent_hash x) =? 32)
  && (blen (dek_slot_sha256 x) =? 32) && (blen (ciphertext_sha256 x) =? 32)
  && opt_ok (fun h => blen h =? 32) (previous_signed_head_hash x)
  && (blen (signer_signing_key_id x) =? 32) && (blen (server_instance_id x) =? 16)
  && (blen (manifest_replay_id x) =? 16)
  && bool_decide (checked_add (base_version x) 1 = Some (target_version x))
  && (1 <=? ciphertext_size x) && (ciphertext_size x <=? MAX_OBJECT_SIZE)
  && Bool.eqb (base_version x =? 0) (negb (is_some (previous_signed_head_hash x))).

#[global] Hint Unfold put check wf : wire_unfold.

#[global] Instance wire : WireMap "SnapshotManifestV2" parser put wf.
Proof. wire_map ltac:(fun x => destruct x). Qed.

Abbreviation ok := (record_ok put wf).

End SnapshotManifestV2.

(** ** The signed container *)

Definition tbs_fields (payload_bytes payload_sha256 signer_signing_key_id : bytes)
    : list (string * Value) :=
  [("container_domain", c.t DOMAIN_SIGNED_MANIFEST_CONTAINER);
   ("container_version", c.u VERSION); ("payload_domain", c.t DOMAIN_MANIFEST_PAYLOAD);
   ("payload_version", c.u VERSION); ("canonical_manifest_payload_bytes", c.b payload_bytes);
   ("manifest_payload_sha256", c.b payload_sha256);
   ("signature_suite_id", c.u SIGNATURE_SUITE_ID_ED25519);
   ("signature_version", c.u SIGNATURE_VERSION);
   ("signer_signing_key_id", c.b signer_signing_key_id)].

(** The fields of the container, as [parse] takes them. *)
Module ManifestContainer.

Record t := mk {
  payload_bytes : bytes;
  payload_sha256 : bytes;
  signer : bytes;
  signature_bytes : bytes;
  signed_container_hash : bytes }.

Definition parser : fields t :=
  _ ← Fields.exact_text "container_domain" DOMAIN_SIGNED_MANIFEST_CONTAINER;
  _ ← supported "container_version" VERSION;
  _ ← Fields.exact_text "payload_domain" DOMAIN_MANIFEST_PAYLOAD;
  _ ← supported "payload_version" VERSION;
  payload_bytes ← Fields.bytes "canonical_manifest_payload_bytes" 1 MAX_MANIFEST_PAYLOAD_BYTES;
  payload_sha256 ← Fields.fixed 32 "manifest_payload_sha256";
  _ ← supported "signature_suite_id" SIGNATURE_SUITE_ID_ED25519;
  _ ← supported "signature_version" SIGNATURE_VERSION;
  signer ← Fields.fixed 32 "signer_signing_key_id";
  signature_bytes ← Fields.fixed ED25519_SIG_LEN "signature_bytes";
  signed_container_hash ← Fields.fixed 32 "signed_container_hash";
  _ ← Fields.finish;
  mret (mk payload_bytes payload_sha256 signer signature_bytes signed_container_hash).

Definition put (x : t) : list (string * Value) :=
  tbs_fields (payload_bytes x) (payload_sha256 x) (signer x)
  ++ [("signature_bytes", c.b (signature_bytes x));
      ("signed_container_hash", c.b (signed_container_hash x))].

Definition wf (x : t) : bool :=
  (1 <=? blen (payload_bytes x)) && (blen (payload_bytes x) <=? MAX_MANIFEST_PAYLOAD_BYTES)
  && (blen (payload_sha256 x) =? 32) && (blen (signer x) =? 32)
  && (blen (signature_bytes x) =? 64) && (blen (signed_container_hash x) =? 32).

#[global] Hint Unfold tbs_fields put wf : wire_unfold.

#[global] Instance wire : WireMap "SignedSnapshotManifestV2" parser put wf.
Proof. wire_map ltac:(fun x => destruct x). Qed.

End ManifestContainer.

Module SignedSnapshotManifestV2.

Record t := mk {
  payload : SnapshotManifestV2.t;
  canonical_manifest_payload_bytes : bytes;
  manifest_payload_sha256 : bytes;
  signature_bytes : bytes;
  signed_container_hash : bytes;
  exact_bytes : bytes;
  exact_bytes_sha256 : bytes;
  tbs_bytes : bytes }.

#[global] Instance eq_dec : EqDecision t.
Proof. solve_decision. Defined.

Section manifest.
Context `{!Ed25519} (sha256 : bytes -> bytes).

(** [parse] after [f.finish()]. *)
Definition check (exact : bytes) (f : ManifestContainer.t) : result SnapshotError t :=
  let payload_bytes := ManifestContainer.payload_bytes f in
  let payload_sha256 := ManifestContainer.payload_sha256 f in
  let signer := ManifestContainer.signer f in
  let signature_bytes := ManifestContainer.signature_bytes f in
  let signed_container_hash := ManifestContainer.signed_container_hash f in
  if negb (bool_decide (sha256 payload_bytes = payload_sha256)) then
    Err (InRecord PayloadHashMismatch)
  else
    let core := tbs_fields payload_bytes payload_sha256 signer in
    let tbs_bytes := Canonical.encode (c.m core) in
    let core := core ++ [("signature_bytes", c.b signature_bytes)] in
    let core_bytes := Canonical.encode (c.m core) in
    if negb (bool_decide (domain_hash sha256 L_SIGNED_CONTAINER core_bytes
                          = signed_container_hash))
    then Err (InRecord ContainerHashMismatch)
    else
      payload ← SnapshotManifestV2.parse payload_bytes;
      if negb (bool_decide (SnapshotManifestV2.signer_signing_key_id payload = signer)) then
        Err (InRecord (BadValue "signer_signing_key_id"))
      else
        Ok (mk payload payload_bytes payload_sha256 signature_bytes signed_container_hash exact
              (sha256 exact) tbs_bytes).

Definition parse (exact : bytes) : result SnapshotError t :=
  if MAX_SIGNED_MANIFEST_CONTAINER_BYTES <? blen exact then
    Err (InRecord (BadField "SignedSnapshotManifestV2" "exact_signed_manifest_container_bytes"))
  else
    f ← map_err InRecord (parse_map "SignedSnapshotManifestV2" ManifestContainer.parser exact);
    check exact f.

(** An invalid payload is refused by the closing parse. *)
Definition sign (sk : bytes) (payload : SnapshotManifestV2.t) : result SnapshotError t :=
  if negb (bool_decide (signing_key_id sha256 (ed_public sk)
                        = SnapshotManifestV2.signer_signing_key_id payload))
  then Err (InRecord (BadValue "signer_signing_key_id"))
  else
    let bs := SnapshotManifestV2.encode payload in
    let fields := tbs_fields bs (sha256 bs) (SnapshotManifestV2.signer_signing_key_id payload) in
    parse (SignedContainer.exact_bytes (build_signed_container sha256 sk fields)).

Definition check_signature (self : t) (signer_public_key : bytes) : result SnapshotError unit :=
  if negb (bool_decide (signing_key_id sha256 signer_public_key
                        = SnapshotManifestV2.signer_signing_key_id (payload self)))
  then Err (InRecord IssuerKeyMismatch)
  else map_err (fun _ => InRecord Signature)
         (verify_tbs signer_public_key (tbs_bytes self) (signature_bytes self)).

(** The manifest, returned as verified; no other function makes one. *)
Record VerifiedSnapshotManifestV2 := Verified { container : t }.

Definition verify_signature (self : t) (signer_public_key : bytes)
    : result SnapshotError VerifiedSnapshotManifestV2 :=
  _ ← check_signature self signer_public_key;
  mret (Verified self).

Definition verified_payload (v : VerifiedSnapshotManifestV2) : SnapshotManifestV2.t :=
  payload (container v).

Definition head_hash (self : t) : bytes := domain_hash sha256 L_SNAPSHOT_HEAD (exact_bytes self).

End manifest.

End SignedSnapshotManifestV2.

(** ** The commit request *)

Definition commit_fields (p : SnapshotManifestV2.t) (m : SignedSnapshotManifestV2.t)
    (upload_id idempotency_key client_request_nonce : bytes) : list (string * Value) :=
  [("domain", c.t DOMAIN_COMMIT_REQUEST); ("version", c.u VERSION);
   ("tenant_id", c.b (SnapshotManifestV2.tenant_id p));
   ("fleet_id", c.b (SnapshotManifestV2.fleet_id p));
   ("profile_id", c.b (SnapshotManifestV2.profile_id p));
   ("upload_id", c.b upload_id);
   ("snapshot_id", c.b (SnapshotManifestV2.snapshot_id p));
   ("manifest_replay_id", c.b (SnapshotManifestV2.manifest_replay_id p));
   ("operation_scope", c.t OPERATION_SCOPE_COMMIT);
   ("idempotency_key", c.b idempotency_key);
   ("lease_id", c.b (SnapshotManifestV2.lease_id p));
   ("fencing_token", c.u (SnapshotManifestV2.fencing_token p));
   ("base_version", c.u (SnapshotManifestV2.base_version p));
   ("intent_hash", c.b (SnapshotManifestV2.intent_hash p));
   ("ciphertext_sha256", c.b (SnapshotManifestV2.ciphertext_sha256 p));
   ("ciphertext_size", c.u (SnapshotManifestV2.ciphertext_size p));
   ("signed_manifest_container_bytes", c.b (SignedSnapshotManifestV2.exact_bytes m));
   ("signed_manifest_container_bytes_sha256",
    c.b (SignedSnapshotManifestV2.exact_bytes_sha256 m));
   ("signed_manifest_container_hash", c.b (SignedSnapshotManifestV2.signed_container_hash m));
   ("server_instance_id", c.b (SnapshotManifestV2.server_instance_id p));
   ("restore_epoch", c.u (SnapshotManifestV2.restore_epoch p));
   ("client_request_nonce", c.b client_request_nonce)].

(** The fields of the request, as [parse] takes them. *)
Module CommitFields.

Record t := mk {
  tenant_id : bytes;
  fleet_id : bytes;
  profile_id : bytes;
  upload_id : bytes;
  snapshot_id : bytes;
  manifest_replay_id : bytes;
  idempotency_key : bytes;
  lease_id : bytes;
  fencing_token : Z;
  base_version : Z;
  intent_hash : bytes;
  ciphertext_sha256 : bytes;
  ciphertext_size : Z;
  container : bytes;
  container_sha256 : bytes;
  container_hash : bytes;
  server_instance_id : bytes;
  restore_epoch : Z;
  client_request_nonce : bytes;
  canonical_request_hash : bytes }.

Definition parser : fields t :=
  _ ← Fields.exact_text "domain" DOMAIN_COMMIT_REQUEST;
  _ ← supported "version" VERSION;
  tenant_id ← Fields.fixed 16 "tenant_id";
  fleet_id ← Fields.fixed 16 "fleet_id";
  profile_id ← Fields.fixed 16 "profile_id";
  upload_id ← Fields.fixed 16 "upload_id";
  snapshot_id ← Fields.fixed 16 "snapshot_id";
  manifest_replay_id ← Fields.fixed 16 "manifest_replay_id";
  _ ← Fields.exact_text "operation_scope" OPERATION_SCOPE_COMMIT;
  idempotency_key ← Fields.fixed 16 "idempotency_key";
  lease_id ← Fields.fixed 16 "lease_id";
  fencing_token ← Fields.uint "fencing_token";
  base_version ← Fields.uint "base_version";
  intent_hash ← Fields.fixed 32 "intent_hash";
  ciphertext_sha256 ← Fields.fixed 32 "ciphertext_sha256";
  ciphertext_size ← Fields.uint "ciphertext_size";
  container ← Fields.bytes "signed_manifest_container_bytes" 1
                MAX_SIGNED_MANIFEST_CONTAINER_BYTES;
  container_sha256 ← Fields.fixed 32 "signed_manifest_container_bytes_sha256";
  container_hash ← Fields.fixed 32 "signed_manifest_container_hash";
  server_instance_id ← Fields.fixed 16 "server_instance_id";
  restore_epoch ← Fields.uint "restore_epoch";
  client_request_nonce ← Fields.fixed 16 "client_request_nonce";
  canonical_request_hash ← Fields.fixed 32 "canonical_request_hash";
  _ ← Fields.finish;
  mret (mk tenant_id fleet_id profile_id upload_id snapshot_id manifest_replay_id idempotency_key
          lease_id fencing_token base_version intent_hash ciphertext_sha256 ciphertext_size
          container container_sha256 container_hash server_instance_id restore_epoch
          client_request_nonce canonical_request_hash).

Definition put (x : t) : list (string * Value) :=
  [("domain", c.t DOMAIN_COMMIT_REQUEST); ("version", c.u VERSION);
   ("tenant_id", c.b (tenant_id x)); ("fleet_id", c.b (fleet_id x));
   ("profile_id", c.b (profile_id x)); ("upload_id", c.b (upload_id x));
   ("snapshot_id", c.b (snapshot_id x)); ("manifest_replay_id", c.b (manifest_replay_id x));
   ("operation_scope", c.t OPERATION_SCOPE_COMMIT);
   ("idempotency_key", c.b (idempotency_key x)); ("lease_id", c.b (lease_id x));
   ("fencing_token", c.u (fencing_token x)); ("base_version", c.u (base_version x));
   ("intent_hash", c.b (intent_hash x)); ("ciphertext_sha256", c.b (ciphertext_sha256 x));
   ("ciphertext_size", c.u (ciphertext_size x));
   ("signed_manifest_container_bytes", c.b (container x));
   ("signed_manifest_container_bytes_sha256", c.b (container_sha256 x));
   ("signed_manifest_container_hash", c.b (container_hash x));
   ("server_instance_id", c.b (server_instance_id x)); ("restore_epoch", c.u (restore_epoch x));
   ("client_request_nonce", c.b (client_request_nonce x));
   ("canonical_request_hash", c.b (canonical_request_hash x))].

Definition wf (x : t) : bool :=
  (blen (tenant_id x) =? 16) && (blen (fleet_id x) =? 16) && (blen (profile_id x) =? 16)
  && (blen (upload_id x) =? 16) && (blen (snapshot_id x) =? 16)
  && (blen (manifest_replay_id x) =? 16) && (blen (idempotency_key x) =? 16)
  && (blen (lease_id x) =? 16) && (blen (intent_hash x) =? 32)
  && (blen (ciphertext_sha256 x) =? 32) && (1 <=? blen (container x))
  && (blen (container x) <=? MAX_SIGNED_MANIFEST_CONTAINER_BYTES)
  && (blen (container_sha256 x) =? 32) && (blen (container_hash x) =? 32)
  && (blen (server_instance_id x) =? 16) && (blen (client_request_nonce x) =? 16)
  && (blen (canonical_request_hash x) =? 32).

#[global] Hint Unfold put wf : wire_unfold.

#[global] Instance wire : WireMap "CommitRequestV2" parser put wf.
Proof. wire_map ltac:(fun x => destruct x). Qed.

End CommitFields.

Module CommitRequestV2.

Record t := mk {
  upload_id : bytes;
  idempotency_key : bytes;
  client_request_nonce : bytes;
  manifest : SignedSnapshotManifestV2.t;
  canonical_request_hash : bytes;
  exact_bytes : bytes;
  exact_bytes_sha256 : bytes }.

#[global] Instance eq_dec : EqDecision t.
Proof. solve_decision. Defined.

Section request.
Context (sha256 : bytes -> bytes).

Definition build (manifest : SignedSnapshotManifestV2.t)
    (upload_id idempotency_key client_request_nonce : bytes) : t :=
  let p := SignedSnapshotManifestV2.payload manifest in
  let fields := commit_fields p manifest upload_id idempotency_key client_request_nonce in
  let core_bytes := Canonical.encode (c.m fields) in
  let canonical_request_hash := domain_hash sha256 L_COMMIT_REQUEST core_bytes in
  let fields := fields ++ [("canonical_request_hash", c.b canonical_request_hash)] in
  let exact_bytes := Canonical.encode (c.m fields) in
  mk upload_id idempotency_key client_request_nonce manifest canonical_request_hash exact_bytes
    (sha256 exact_bytes).

(** The fields the request copies, each with whether it equals the manifest's. *)
Definition copied (f : CommitFields.t) (m : SignedSnapshotManifestV2.t)
    : list (string * bool) :=
  let p := SignedSnapshotManifestV2.payload m in
  let same (a b : bytes) := bool_decide (a = b) in
  [("signed_manifest_container_bytes_sha256",
    same (CommitFields.container_sha256 f) (SignedSnapshotManifestV2.exact_bytes_sha256 m));
   ("signed_manifest_container_hash",
    same (CommitFields.container_hash f) (SignedSnapshotManifestV2.signed_container_hash m));
   ("tenant_id", same (CommitFields.tenant_id f) (SnapshotManifestV2.tenant_id p));
   ("fleet_id", same (CommitFields.fleet_id f) (SnapshotManifestV2.fleet_id p));
   ("profile_id", same (CommitFields.profile_id f) (SnapshotManifestV2.profile_id p));
   ("snapshot_id", same (CommitFields.snapshot_id f) (SnapshotManifestV2.snapshot_id p));
   ("manifest_replay_id",
    same (CommitFields.manifest_replay_id f) (SnapshotManifestV2.manifest_replay_id p));
   ("lease_id", same (CommitFields.lease_id f) (SnapshotManifestV2.lease_id p));
   ("fencing_token", CommitFields.fencing_token f =? SnapshotManifestV2.fencing_token p);
   ("base_version", CommitFields.base_version f =? SnapshotManifestV2.base_version p);
   ("intent_hash", same (CommitFields.intent_hash f) (SnapshotManifestV2.intent_hash p));
   ("ciphertext_sha256",
    same (CommitFields.ciphertext_sha256 f) (SnapshotManifestV2.ciphertext_sha256 p));
   ("ciphertext_size", CommitFields.ciphertext_size f =? SnapshotManifestV2.ciphertext_size p);
   ("server_instance_id",
    same (CommitFields.server_instance_id f) (SnapshotManifestV2.server_instance_id p));
   ("restore_epoch", CommitFields.restore_epoch f =? SnapshotManifestV2.restore_epoch p)].

Definition parse (exact : bytes) : result SnapshotError t :=
  if MAX_COMMIT_REQUEST_BYTES <? blen exact then
    Err (InRecord (BadField "CommitRequestV2" "exact_commit_request_bytes"))
  else
    f ← map_err InRecord (parse_map "CommitRequestV2" CommitFields.parser exact);
    manifest ← SignedSnapshotManifestV2.parse sha256 (CommitFields.container f);
    match first_unequal (copied f manifest) with
    | Some field => Err (ManifestReplayMismatch field)
    | None =>
        let rebuilt := build manifest (CommitFields.upload_id f)
                         (CommitFields.idempotency_key f) (CommitFields.client_request_nonce f) in
        if negb (bool_decide (canonical_request_hash rebuilt
                              = CommitFields.canonical_request_hash f))
        then Err (ManifestReplayMismatch "canonical_request_hash")
        else Ok rebuilt
    end.

(** The request, returned as verified; no other function makes one. *)
Record VerifiedCommitRequestV2 := Verified { request : t }.

Definition verify_signature `{!Ed25519} (self : t) (signer_public_key : bytes)
    : result SnapshotError VerifiedCommitRequestV2 :=
  _ ← SignedSnapshotManifestV2.check_signature sha256 (manifest self) signer_public_key;
  mret (Verified self).

End request.

End CommitRequestV2.

(** ** The finalize payload *)

Definition DOMAIN_FINALIZE_UPLOAD_REQUEST := "shardx.sync.finalize-upload-request.v2".

(** The fields of the payload, as [parse] takes them. *)
Module FinalizeFields.

Record t := mk {
  tenant_id : bytes;
  profile_id : bytes;
  upload_id : bytes;
  snapshot_id : bytes;
  manifest_replay_id : bytes;
  container : bytes;
  container_hash : bytes;
  container_sha256 : bytes;
  request : bytes;
  request_hash : bytes;
  request_sha256 : bytes;
  size : Z;
  sha256 : bytes;
  server_instance_id : bytes;
  restore_epoch : Z }.

Definition parser : fields t :=
  _ ← Fields.exact_text "domain" DOMAIN_FINALIZE_UPLOAD_REQUEST;
  _ ← supported "version" VERSION;
  tenant_id ← Fields.fixed 16 "tenant_id";
  profile_id ← Fields.fixed 16 "profile_id";
  upload_id ← Fields.fixed 16 "upload_id";
  snapshot_id ← Fields.fixed 16 "snapshot_id";
  manifest_replay_id ← Fields.fixed 16 "manifest_replay_id";
  container ← Fields.bytes "signed_manifest_container_bytes" 1
                MAX_SIGNED_MANIFEST_CONTAINER_BYTES;
  container_hash ← Fields.fixed 32 "signed_manifest_container_hash";
  container_sha256 ← Fields.fixed 32 "signed_manifest_container_bytes_sha256";
  request ← Fields.bytes "exact_commit_request_bytes" 1 MAX_COMMIT_REQUEST_BYTES;
  request_hash ← Fields.fixed 32 "canonical_request_hash";
  request_sha256 ← Fields.fixed 32 "exact_commit_request_bytes_sha256";
  size ← Fields.uint "expected_ciphertext_size";
  sha256 ← Fields.fixed 32 "expected_ciphertext_sha256";
  server_instance_id ← Fields.fixed 16 "server_instance_id";
  restore_epoch ← Fields.uint "restore_epoch";
  _ ← Fields.finish;
  mret (mk tenant_id profile_id upload_id snapshot_id manifest_replay_id container
          container_hash container_sha256 request request_hash request_sha256 size sha256
          server_instance_id restore_epoch).

Definition put (x : t) : list (string * Value) :=
  [("domain", c.t DOMAIN_FINALIZE_UPLOAD_REQUEST); ("version", c.u VERSION);
   ("tenant_id", c.b (tenant_id x)); ("profile_id", c.b (profile_id x));
   ("upload_id", c.b (upload_id x)); ("snapshot_id", c.b (snapshot_id x));
   ("manifest_replay_id", c.b (manifest_replay_id x));
   ("signed_manifest_container_bytes", c.b (container x));
   ("signed_manifest_container_hash", c.b (container_hash x));
   ("signed_manifest_container_bytes_sha256", c.b (container_sha256 x));
   ("exact_commit_request_bytes", c.b (request x));
   ("canonical_request_hash", c.b (request_hash x));
   ("exact_commit_request_bytes_sha256", c.b (request_sha256 x));
   ("expected_ciphertext_size", c.u (size x)); ("expected_ciphertext_sha256", c.b (sha256 x));
   ("server_instance_id", c.b (server_instance_id x)); ("restore_epoch", c.u (restore_epoch x))].

Definition wf (x : t) : bool :=
  (blen (tenant_id x) =? 16) && (blen (profile_id x) =? 16) && (blen (upload_id x) =? 16)
  && (blen (snapshot_id x) =? 16) && (blen (manifest_replay_id x) =? 16)
  && (1 <=? blen (container x)) && (blen (container x) <=? MAX_SIGNED_MANIFEST_CONTAINER_BYTES)
  && (blen (container_hash x) =? 32) && (blen (container_sha256 x) =? 32)
  && (1 <=? blen (request x)) && (blen (request x) <=? MAX_COMMIT_REQUEST_BYTES)
  && (blen (request_hash x) =? 32) && (blen (request_sha256 x) =? 32)
  && (blen (sha256 x) =? 32) && (blen (server_instance_id x) =? 16).

#[global] Hint Unfold put wf : wire_unfold.

#[global] Instance wire : WireMap "FinalizeUploadV2" parser put wf.
Proof. wire_map ltac:(fun x => destruct x). Qed.

End FinalizeFields.

Module FinalizeUploadV2.

Record t := mk { commit : CommitRequestV2.t }.

Definition new (commit : CommitRequestV2.t) : t := mk commit.

(** What the payload repeats of the request and of its manifest. *)
Definition fields_of (r : CommitRequestV2.t) : FinalizeFields.t :=
  let m := CommitRequestV2.manifest r in
  let p := SignedSnapshotManifestV2.payload m in
  FinalizeFields.mk (SnapshotManifestV2.tenant_id p) (SnapshotManifestV2.profile_id p)
    (CommitRequestV2.upload_id r) (SnapshotManifestV2.snapshot_id p)
    (SnapshotManifestV2.manifest_replay_id p) (SignedSnapshotManifestV2.exact_bytes m)
    (SignedSnapshotManifestV2.signed_container_hash m)
    (SignedSnapshotManifestV2.exact_bytes_sha256 m) (CommitRequestV2.exact_bytes r)
    (CommitRequestV2.canonical_request_hash r) (CommitRequestV2.exact_bytes_sha256 r)
    (SnapshotManifestV2.ciphertext_size p) (SnapshotManifestV2.ciphertext_sha256 p)
    (SnapshotManifestV2.server_instance_id p) (SnapshotManifestV2.restore_epoch p).

Definition encode (x : t) : bytes :=
  Canonical.encode (c.m (FinalizeFields.put (fields_of (commit x)))).

Definition copied (f : FinalizeFields.t) (commit : CommitRequestV2.t) : list (string * bool) :=
  let m := CommitRequestV2.manifest commit in
  let p := SignedSnapshotManifestV2.payload m in
  let same (a b : bytes) := bool_decide (a = b) in
  [("signed_manifest_container_bytes",
    same (FinalizeFields.container f) (SignedSnapshotManifestV2.exact_bytes m));
   ("signed_manifest_container_hash",
    same (FinalizeFields.container_hash f) (SignedSnapshotManifestV2.signed_container_hash m));
   ("signed_manifest_container_bytes_sha256",
    same (FinalizeFields.container_sha256 f) (SignedSnapshotManifestV2.exact_bytes_sha256 m));
   ("canonical_request_hash",
    same (FinalizeFields.request_hash f) (CommitRequestV2.canonical_request_hash commit));
   ("exact_commit_request_bytes_sha256",
    same (FinalizeFields.request_sha256 f) (CommitRequestV2.exact_bytes_sha256 commit));
   ("tenant_id", same (FinalizeFields.tenant_id f) (SnapshotManifestV2.tenant_id p));
   ("profile_id", same (FinalizeFields.profile_id f) (SnapshotManifestV2.profile_id p));
   ("upload_id", same (FinalizeFields.upload_id f) (CommitRequestV2.upload_id commit));
   ("snapshot_id", same (FinalizeFields.snapshot_id f) (SnapshotManifestV2.snapshot_id p));
   ("manifest_replay_id",
    same (FinalizeFields.manifest_replay_id f) (SnapshotManifestV2.manifest_replay_id p));
   ("expected_ciphertext_size",
    FinalizeFields.size f =? SnapshotManifestV2.ciphertext_size p);
   ("expected_ciphertext_sha256",
    same (FinalizeFields.sha256 f) (SnapshotManifestV2.ciphertext_sha256 p));
   ("server_instance_id",
    same (FinalizeFields.server_instance_id f) (SnapshotManifestV2.server_instance_id p));
   ("restore_epoch", FinalizeFields.restore_epoch f =? SnapshotManifestV2.restore_epoch p)].

Definition parse (sha256 : bytes -> bytes) (bs : bytes) : result SnapshotError t :=
  f ← map_err InRecord (parse_map "FinalizeUploadV2" FinalizeFields.parser bs);
  commit ← CommitRequestV2.parse sha256 (FinalizeFields.request f);
  match first_unequal (copied f commit) with
  | Some field => Err (ManifestReplayMismatch field)
  | None => Ok (mk commit)
  end.

End FinalizeUploadV2.

(** ** The receipt *)

Module LeaseReleaseOutcome.

Inductive t := Released | AlreadyReleasedSameCommit.

Definition ALL : list t := [Released; AlreadyReleasedSameCommit].

Definition as_str (x : t) : string :=
  match x with
  | Released => "released"
  | AlreadyReleasedSameCommit => "already_released_same_commit"
  end.

Definition parse (s : string) : option t := find_str as_str ALL s.

#[global] Hint Unfold parse : wire_unfold.

End LeaseReleaseOutcome.

Module CommitReceiptBindingV2.

Record t := mk {
  exact_request_hash : bytes;
  snapshot_id : bytes;
  resulting_version : Z;
  resulting_head_hash : bytes;
  lease_release_outcome : LeaseReleaseOutcome.t;
  server_instance_id : bytes;
  restore_epoch : Z;
  commit_timestamp_ms : Z;
  server_receipt_id : bytes }.

Definition for_request (sha256 : bytes -> bytes)
    (request : CommitRequestV2.VerifiedCommitRequestV2)
    (lease_release_outcome : LeaseReleaseOutcome.t) (commit_timestamp_ms : Z)
    (server_receipt_id : bytes) : t :=
  let r := CommitRequestV2.request request in
  let p := SignedSnapshotManifestV2.payload (CommitRequestV2.manifest r) in
  mk (CommitRequestV2.canonical_request_hash r) (SnapshotManifestV2.snapshot_id p)
    (SnapshotManifestV2.target_version p)
    (SignedSnapshotManifestV2.head_hash sha256 (CommitRequestV2.manifest r))
    lease_release_outcome (SnapshotManifestV2.server_instance_id p)
    (SnapshotManifestV2.restore_epoch p) commit_timestamp_ms server_receipt_id.

Definition put (x : t) : list (string * Value) :=
  [("domain", c.t DOMAIN_COMMIT_RECEIPT_BINDING); ("version", c.u VERSION);
   ("exact_request_hash", c.b (exact_request_hash x)); ("snapshot_id", c.b (snapshot_id x));
   ("resulting_version", c.u (resulting_version x));
   ("resulting_head_hash", c.b (resulting_head_hash x));
   ("lease_release_outcome", c.t (LeaseReleaseOutcome.as_str (lease_release_outcome x)));
   ("server_instance_id", c.b (server_instance_id x)); ("restore_epoch", c.u (restore_epoch x));
   ("commit_timestamp_ms", c.u (commit_timestamp_ms x));
   ("server_receipt_id", c.b (server_receipt_id x))].

Definition encode (x : t) : bytes := Canonical.encode (c.m (put x)).

Definition parser : fields t :=
  _ ← Fields.exact_text "domain" DOMAIN_COMMIT_RECEIPT_BINDING;
  _ ← supported "version" VERSION;
  exact_request_hash ← Fields.fixed 32 "exact_request_hash";
  snapshot_id ← Fields.fixed 16 "snapshot_id";
  resulting_version ← Fields.uint "resulting_version";
  resulting_head_hash ← Fields.fixed 32 "resulting_head_hash";
  outcome ← Fields.text "lease_release_outcome";
  lease_release_outcome ← lift (ok_or (LeaseReleaseOutcome.parse outcome)
                                  (BadValue "lease_release_outcome"));
  server_instance_id ← Fields.fixed 16 "server_instance_id";
  restore_epoch ← Fields.uint "restore_epoch";
  commit_timestamp_ms ← Fields.uint "commit_timestamp_ms";
  server_receipt_id ← Fields.fixed 16 "server_receipt_id";
  _ ← Fields.finish;
  mret (mk exact_request_hash snapshot_id resulting_version resulting_head_hash
          lease_release_outcome server_instance_id restore_epoch commit_timestamp_ms
          server_receipt_id).

Definition parse (bs : bytes) : result SnapshotError t :=
  map_err InRecord (parse_map "CommitReceiptBindingV2" parser bs).

Definition wf (x : t) : bool :=
  (blen (exact_request_hash x) =? 32) && (blen (snapshot_id x) =? 16)
  && (blen (resulting_head_hash x) =? 32) && (blen (server_instance_id x) =? 16)
  && (blen (server_receipt_id x) =? 16).

#[global] Hint Unfold put wf : wire_unfold.

#[global] Instance wire : WireMap "CommitReceiptBindingV2" parser put wf.
Proof. wire_map ltac:(fun x => destruct x as [? ? ? ? [] ? ? ? ?]). Qed.

Definition check_binds (sha256 : bytes -> bytes) (self : t) (request : CommitRequestV2.t)
    : result SnapshotError unit :=
  let m := CommitRequestV2.manifest request in
  let p := SignedSnapshotManifestV2.payload m in
  let same (a b : bytes) := bool_decide (a = b) in
  match first_unequal
    [("exact_request_hash",
      same (exact_request_hash self) (CommitRequestV2.canonical_request_hash request));
     ("snapshot_id", same (snapshot_id self) (SnapshotManifestV2.snapshot_id p));
     ("resulting_version", resulting_version self =? SnapshotManifestV2.target_version p);
     ("resulting_head_hash",
      same (resulting_head_hash self) (SignedSnapshotManifestV2.head_hash sha256 m));
     ("server_instance_id",
      same (server_instance_id self) (SnapshotManifestV2.server_instance_id p));
     ("restore_epoch", restore_epoch self =? SnapshotManifestV2.restore_epoch p)] with
  | Some field => Err (ReceiptMismatch field)
  | None => Ok tt
  end.

End CommitReceiptBindingV2.
