(* ===== verification/SnapshotV2Facts.v ===== *)
(** * Facts about manifests, commit requests and receipts

    The signed manifest of a payload and a signature; what each parser accepts. *)

From S2P Require Import Prelude Bytes Canonical CanonicalFacts CanonicalDecode CanonicalTheorems.
From S2P Require Import RecordFields WireMap Keys ProfileLease SnapshotV2.

Lemma map_err_iff {E F A} (g : E -> F) (r : result E A) a : map_err g r = Ok a <-> r = Ok a.
Proof. apply map_err_ok. Qed.

Lemma first_unequal_none checks :
  first_unequal checks = None <-> Forall (fun check => check.2 = true) checks.
Proof.
  unfold first_unequal. induction checks as [|[s b] l IH]; cbn; [by split|].
  rewrite Forall_cons. destruct b; cbn; [rewrite IH; naive_solver|naive_solver].
Qed.

(** ** The manifest *)

Lemma manifest_payload_size p :
  SnapshotManifestV2.ok p = true ->
  1 <= blen (SnapshotManifestV2.encode p) <= MAX_MANIFEST_PAYLOAD_BYTES.
Proof.
  intros [_ H]%andb_true_iff. split; [apply encode_pos|].
  etrans; [apply encode_size|]. unfold MAX_MANIFEST_PAYLOAD_BYTES.
  destruct p as [? ? ? ? ? ? ? ? ? ? ? ? ? ? ? [h|] ? ? ? ? ?];
    unfold SnapshotManifestV2.wf in H; autounfold with wire_unfold in *;
    cbn -[Z.leb Z.ltb Z.eqb blen as_bytes bool_decide] in H; wire_facts;
    unfold SnapshotManifestV2.put, opt_entry;
    cbn -[Z.add Z.mul blen as_bytes]; eval_lengths; lia.
Qed.

Lemma manifest_parse_iff bs p :
  blen bs <= USIZE_MAX ->
  SnapshotManifestV2.parse bs = Ok p <->
  SnapshotManifestV2.ok p = true /\ SnapshotManifestV2.encode p = bs.
Proof. intros Hb. unfold SnapshotManifestV2.parse. rewrite map_err_ok. exact (wire_map_exact _ _ _ _ bs p Hb). Qed.

Section facts.
Context (sha256 : bytes -> bytes) (sha256_length : forall x, length (sha256 x) = 32%nat).

Lemma sha_32 x : blen (sha256 x) = 32.
Proof. unfold blen. by rewrite sha256_length. Qed.

Definition manifest_tbs (p : SnapshotManifestV2.t) : bytes :=
  let pb := SnapshotManifestV2.encode p in
  encode (c.m (tbs_fields pb (sha256 pb) (SnapshotManifestV2.signer_signing_key_id p))).

Definition manifest_fields (p : SnapshotManifestV2.t) (sig : bytes) : ManifestContainer.t :=
  let pb := SnapshotManifestV2.encode p in
  let signer := SnapshotManifestV2.signer_signing_key_id p in
  ManifestContainer.mk pb (sha256 pb) signer sig
    (domain_hash sha256 L_SIGNED_CONTAINER
       (encode (c.m (tbs_fields pb (sha256 pb) signer ++ [("signature_bytes", c.b sig)])))).

(** The container of a manifest and a signature. *)
Definition signed_manifest (p : SnapshotManifestV2.t) (sig : bytes) : SignedSnapshotManifestV2.t :=
  let f := manifest_fields p sig in
  let exact := encode (c.m (ManifestContainer.put f)) in
  SignedSnapshotManifestV2.mk p (ManifestContainer.payload_bytes f)
    (ManifestContainer.payload_sha256 f) sig (ManifestContainer.signed_container_hash f)
    exact (sha256 exact) (manifest_tbs p).

Lemma signer_length p :
  SnapshotManifestV2.ok p = true -> blen (SnapshotManifestV2.signer_signing_key_id p) = 32.
Proof. intros [_ H]%andb_true_iff. unfold SnapshotManifestV2.wf in H. by wire_facts. Qed.

Lemma manifest_fields_ok p sig :
  SnapshotManifestV2.ok p = true -> blen sig = ED25519_SIG_LEN ->
  record_ok ManifestContainer.put ManifestContainer.wf (manifest_fields p sig) = true
  /\ blen (encode (c.m (ManifestContainer.put (manifest_fields p sig))))
     <= MAX_SIGNED_MANIFEST_CONTAINER_BYTES.
Proof.
  intros Hp Hs. pose proof (manifest_payload_size p Hp) as Hl.
  pose proof (signer_length p Hp) as Hk. unfold manifest_fields, domain_hash, ED25519_SIG_LEN in *.
  set (pb := SnapshotManifestV2.encode p) in *. clearbody pb.
  set (k := SnapshotManifestV2.signer_signing_key_id p) in *. clearbody k.
  set (core := encode (c.m (tbs_fields pb _ _ ++ _))). clearbody core.
  pose proof (sha_32 pb) as H1. pose proof (sha_32 (domain_preimage L_SIGNED_CONTAINER core)) as H2.
  set (h1 := sha256 pb) in *. set (h2 := sha256 (domain_preimage _ core)) in *.
  clearbody h1 h2. unfold MAX_MANIFEST_PAYLOAD_BYTES, MAX_SIGNED_MANIFEST_CONTAINER_BYTES in *. split.
  - unfold record_ok, values_ok, ManifestContainer.put, ManifestContainer.wf, tbs_fields.
    cbn -[Z.leb Z.eqb blen encodable]. unfold MAX_MANIFEST_PAYLOAD_BYTES.
    rewrite !andb_true_iff. split_and!; try reflexivity;
      unfold c.b; cbn [encodable]; unfold wire_len, U64_MAX; lia.
  - etrans; [apply encode_size|]. unfold ManifestContainer.put, tbs_fields.
    cbn -[Z.add Z.mul blen as_bytes]. eval_lengths. lia.
Qed.

Lemma signed_parse_iff exact s :
  SignedSnapshotManifestV2.parse sha256 exact = Ok s <->
  exists p sig,
    SnapshotManifestV2.ok p = true /\ blen sig = ED25519_SIG_LEN
    /\ s = signed_manifest p sig /\ SignedSnapshotManifestV2.exact_bytes s = exact.
Proof.
  unfold SignedSnapshotManifestV2.parse. split.
  - destruct (Z.ltb_spec MAX_SIGNED_MANIFEST_CONTAINER_BYTES (blen exact)) as [|Hb]; [done|].
    intros (f & Hf%map_err_ok & Hc)%result_bind_ok.
    apply wire_map_exact with (put := ManifestContainer.put) (contract := ManifestContainer.wf)
      in Hf as [Hok <-]; [|apply ManifestContainer.wire|
        unfold MAX_SIGNED_MANIFEST_CONTAINER_BYTES, USIZE_MAX, U64_MAX in *; lia].
    apply andb_true_iff in Hok as [_ Hw]. unfold SignedSnapshotManifestV2.check in Hc.
    destruct f as [pb sh k sig hash]. cbn [ManifestContainer.payload_bytes
      ManifestContainer.payload_sha256 ManifestContainer.signer
      ManifestContainer.signature_bytes ManifestContainer.signed_container_hash] in Hc.
    unfold ManifestContainer.wf in Hw. cbn [ManifestContainer.payload_bytes
      ManifestContainer.signature_bytes] in Hw.
    case_match eqn:Esh; [done|]. case_match eqn:Eh; [done|].
    apply result_bind_ok in Hc as (p & Hp & Hc). case_match eqn:Ek; [done|]. injection Hc as <-.
    apply manifest_parse_iff in Hp as (Hp & <-);
      [|wire_facts; unfold MAX_MANIFEST_PAYLOAD_BYTES, USIZE_MAX, U64_MAX in *; lia].
    wire_facts. subst. exists p, sig. by split_and!.
  - intros (p & sig & Hp & Hs & -> & <-).
    destruct (manifest_fields_ok p sig Hp Hs) as [Hok Hlen].
    cbn [SignedSnapshotManifestV2.exact_bytes signed_manifest].
    rewrite (proj2 (Z.ltb_ge _ _)) by done.
    assert (parse_map "SignedSnapshotManifestV2" ManifestContainer.parser
              (encode (c.m (ManifestContainer.put (manifest_fields p sig))))
            = Ok (manifest_fields p sig)) as ->.
    { apply wire_map_exact with (put := ManifestContainer.put) (contract := ManifestContainer.wf);
        [apply ManifestContainer.wire| |done].
      unfold MAX_SIGNED_MANIFEST_CONTAINER_BYTES, USIZE_MAX, U64_MAX in *. lia. }
    pose proof (manifest_payload_size p Hp) as Hsize.
    unfold mbind, result_bind, map_err, SignedSnapshotManifestV2.check.
    cbn [manifest_fields ManifestContainer.payload_bytes ManifestContainer.payload_sha256
      ManifestContainer.signer ManifestContainer.signature_bytes
      ManifestContainer.signed_container_hash].
    rewrite !bool_decide_true by done. cbn [negb].
    assert (SnapshotManifestV2.parse (SnapshotManifestV2.encode p) = Ok p) as ->.
    { apply manifest_parse_iff; [|done].
      unfold MAX_MANIFEST_PAYLOAD_BYTES, USIZE_MAX, U64_MAX in *. lia. }
    cbn. by rewrite bool_decide_true.
Qed.

(** A manifest that [parse] returned. *)
Definition parsed (m : SignedSnapshotManifestV2.t) : Prop :=
  SignedSnapshotManifestV2.parse sha256 (SignedSnapshotManifestV2.exact_bytes m) = Ok m.

Lemma parsed_iff exact m :
  SignedSnapshotManifestV2.parse sha256 exact = Ok m <->
  parsed m /\ SignedSnapshotManifestV2.exact_bytes m = exact.
Proof.
  unfold parsed. rewrite !signed_parse_iff. split.
  - intros (p & sig & Hp & Hs & -> & He). split; [|done]. by exists p, sig.
  - intros [(p & sig & Hp & Hs & -> & _) He]. by exists p, sig.
Qed.

(** ** The commit request *)

Definition request_fields (m : SignedSnapshotManifestV2.t) (uid key nonce hash : bytes)
    : CommitFields.t :=
  let p := SignedSnapshotManifestV2.payload m in
  CommitFields.mk (SnapshotManifestV2.tenant_id p) (SnapshotManifestV2.fleet_id p)
    (SnapshotManifestV2.profile_id p) uid (SnapshotManifestV2.snapshot_id p)
    (SnapshotManifestV2.manifest_replay_id p) key (SnapshotManifestV2.lease_id p)
    (SnapshotManifestV2.fencing_token p) (SnapshotManifestV2.base_version p)
    (SnapshotManifestV2.intent_hash p) (SnapshotManifestV2.ciphertext_sha256 p)
    (SnapshotManifestV2.ciphertext_size p) (SignedSnapshotManifestV2.exact_bytes m)
    (SignedSnapshotManifestV2.exact_bytes_sha256 m)
    (SignedSnapshotManifestV2.signed_container_hash m)
    (SnapshotManifestV2.server_instance_id p) (SnapshotManifestV2.restore_epoch p) nonce hash.

(** What [build] writes. *)
Lemma build_put m uid key nonce :
  let r := CommitRequestV2.build sha256 m uid key nonce in
  CommitRequestV2.exact_bytes r
  = encode (c.m (CommitFields.put
      (request_fields m uid key nonce (CommitRequestV2.canonical_request_hash r)))).
Proof. reflexivity. Qed.

Lemma copied_iff f m :
  first_unequal (CommitRequestV2.copied f m) = None /\ CommitFields.container f
    = SignedSnapshotManifestV2.exact_bytes m <->
  f = request_fields m (CommitFields.upload_id f) (CommitFields.idempotency_key f)
        (CommitFields.client_request_nonce f) (CommitFields.canonical_request_hash f).
Proof.
  rewrite first_unequal_none. unfold CommitRequestV2.copied, request_fields.
  destruct f. cbn [CommitFields.container CommitFields.upload_id CommitFields.idempotency_key
    CommitFields.client_request_nonce CommitFields.canonical_request_hash
    CommitFields.container_sha256 CommitFields.container_hash CommitFields.tenant_id
    CommitFields.fleet_id CommitFields.profile_id CommitFields.snapshot_id
    CommitFields.manifest_replay_id CommitFields.lease_id CommitFields.fencing_token
    CommitFields.base_version CommitFields.intent_hash CommitFields.ciphertext_sha256
    CommitFields.ciphertext_size CommitFields.server_instance_id CommitFields.restore_epoch].
  rewrite !Forall_cons, Forall_nil. cbn [snd]. rewrite !bool_decide_eq_true, !Z.eqb_eq. split.
  - intros (H & ->). repeat match type of H with _ /\ _ => destruct H as [? H] end. by subst.
  - intros [=]. subst. done.
Qed.

Lemma request_fields_ok m uid key nonce hash :
  parsed m -> blen uid = 16 -> blen key = 16 -> blen nonce = 16 -> blen hash = 32 ->
  record_ok CommitFields.put CommitFields.wf (request_fields m uid key nonce hash) = true
  /\ blen (encode (c.m (CommitFields.put (request_fields m uid key nonce hash))))
     <= MAX_COMMIT_REQUEST_BYTES.
Proof.
  intros (p & sig & Hp & Hs & -> & _)%signed_parse_iff Hu Hk Hn Hh.
  destruct (manifest_fields_ok p sig Hp Hs) as [_ Hl]. unfold request_fields.
  cbn [signed_manifest SignedSnapshotManifestV2.payload SignedSnapshotManifestV2.exact_bytes
    SignedSnapshotManifestV2.exact_bytes_sha256 SignedSnapshotManifestV2.signed_container_hash
    manifest_fields ManifestContainer.signed_container_hash].
  assert (1 <= blen (encode (c.m (ManifestContainer.put (manifest_fields p sig))))) as Hl1
    by apply encode_pos.
  unfold domain_hash. set (ex := encode (c.m (ManifestContainer.put _))) in *.
  set (co := domain_preimage _ _). pose proof (sha_32 ex) as H1. pose proof (sha_32 co) as H2.
  set (h1 := sha256 ex) in *. set (h2 := sha256 co) in *. clearbody h1 h2 co ex.
  apply andb_true_iff in Hp as [Hv Hw].
  unfold MAX_COMMIT_REQUEST_BYTES, MAX_SIGNED_MANIFEST_CONTAINER_BYTES in *.
  destruct p as [? ? ? ? ? ? ? ? ? ? ? ? ? ? ? o ? ? ? ? ?].
  unfold SnapshotManifestV2.wf in Hw. cbn -[Z.leb Z.eqb blen bool_decide] in Hw. wire_facts.
  unfold values_ok, SnapshotManifestV2.put in Hv. rewrite List.forallb_app in Hv.
  cbn -[Z.leb blen text_ok contains_nul opt_entry] in Hv. wire_facts. split.
  - unfold record_ok, values_ok, CommitFields.put, CommitFields.wf.
    cbn -[Z.leb Z.eqb blen text_ok contains_nul]. unfold MAX_SIGNED_MANIFEST_CONTAINER_BYTES.
    rewrite !andb_true_iff. split_and!; try reflexivity; try assumption;
      unfold wire_len, U64_MAX; try lia.
  - etrans; [apply encode_size|]. unfold CommitFields.put.
    cbn -[Z.add Z.mul blen as_bytes]. eval_lengths. lia.
Qed.

Lemma build_hash_length m uid key nonce :
  blen (CommitRequestV2.canonical_request_hash (CommitRequestV2.build sha256 m uid key nonce)) = 32.
Proof. apply sha_32. Qed.

Lemma commit_parse_iff exact r :
  CommitRequestV2.parse sha256 exact = Ok r <->
  exists m uid key nonce,
    parsed m /\ blen uid = 16 /\ blen key = 16 /\ blen nonce = 16
    /\ r = CommitRequestV2.build sha256 m uid key nonce /\ CommitRequestV2.exact_bytes r = exact.
Proof.
  unfold CommitRequestV2.parse. split.
  - destruct (Z.ltb_spec MAX_COMMIT_REQUEST_BYTES (blen exact)) as [|Hb]; [done|].
    intros (f & Hf%map_err_ok & Hc)%result_bind_ok.
    apply wire_map_exact with (put := CommitFields.put) (contract := CommitFields.wf)
      in Hf as [[_ Hw]%andb_true_iff He]; [|apply CommitFields.wire|
        unfold MAX_COMMIT_REQUEST_BYTES, MAX_SIGNED_MANIFEST_CONTAINER_BYTES, USIZE_MAX, U64_MAX in *; lia].
    apply result_bind_ok in Hc as (m & [Hm Hcont]%parsed_iff & Hc).
    destruct (first_unequal _) eqn:Hcp; [done|]. case_match eqn:Eh; [done|].
    assert (forall a b : CommitRequestV2.t, @Ok SnapshotError _ a = Ok b -> a = b) as Hinj by congruence.
    apply Hinj in Hc as <-. apply negb_false_iff, bool_decide_eq_true in Eh.
    pose proof (proj1 (copied_iff f m) (conj Hcp (eq_sym Hcont))) as Hfm.
    exists m, (CommitFields.upload_id f), (CommitFields.idempotency_key f),
      (CommitFields.client_request_nonce f).
    unfold CommitFields.wf in Hw. wire_facts. split_and!; try done.
    rewrite build_put, Eh, <- Hfm. done.
  - intros (m & uid & key & nonce & Hm & Hu & Hk & Hn & -> & <-).
    pose proof (build_hash_length m uid key nonce) as Hh. rewrite build_put.
    set (hash := CommitRequestV2.canonical_request_hash _) in *.
    destruct (request_fields_ok m uid key nonce hash Hm Hu Hk Hn Hh) as [Hok Hl].
    rewrite (proj2 (Z.ltb_ge _ _)) by done.
    assert (parse_map "CommitRequestV2" CommitFields.parser
              (encode (c.m (CommitFields.put (request_fields m uid key nonce hash))))
            = Ok (request_fields m uid key nonce hash)) as ->.
    { apply wire_map_exact with (put := CommitFields.put) (contract := CommitFields.wf);
        [apply CommitFields.wire| |done].
      unfold MAX_COMMIT_REQUEST_BYTES, MAX_SIGNED_MANIFEST_CONTAINER_BYTES, USIZE_MAX, U64_MAX in *. lia. }
    unfold mbind, result_bind, map_err. cbn [request_fields CommitFields.container].
    rewrite Hm. rewrite (proj1 (proj2 (copied_iff (request_fields m uid key nonce hash) m) eq_refl)).
    fold hash. by rewrite bool_decide_true.
Qed.

(** A request that [parse] returned. *)
Definition parsed_request (r : CommitRequestV2.t) : Prop :=
  CommitRequestV2.parse sha256 (CommitRequestV2.exact_bytes r) = Ok r.

Lemma parsed_request_iff exact r :
  CommitRequestV2.parse sha256 exact = Ok r <->
  parsed_request r /\ CommitRequestV2.exact_bytes r = exact.
Proof.
  unfold parsed_request. rewrite !commit_parse_iff. split.
  - intros (m & uid & key & nonce & Hm & Hu & Hk & Hn & -> & He). split; [|done].
    by exists m, uid, key, nonce.
  - intros [(m & uid & key & nonce & Hm & Hu & Hk & Hn & -> & _) He]. by exists m, uid, key, nonce.
Qed.

Lemma request_size r :
  parsed_request r -> 1 <= blen (CommitRequestV2.exact_bytes r) <= MAX_COMMIT_REQUEST_BYTES.
Proof.
  intros (m & uid & key & nonce & Hm & Hu & Hk & Hn & -> & _)%commit_parse_iff. rewrite build_put.
  split; [apply encode_pos|]. apply request_fields_ok; try done. apply build_hash_length.
Qed.

(** ** The finalize payload *)

Lemma finalize_copied_iff f r :
  first_unequal (FinalizeUploadV2.copied f r) = None /\ FinalizeFields.request f
    = CommitRequestV2.exact_bytes r <->
  f = FinalizeUploadV2.fields_of r.
Proof.
  rewrite first_unequal_none. unfold FinalizeUploadV2.copied, FinalizeUploadV2.fields_of.
  destruct f. cbn [FinalizeFields.container FinalizeFields.container_hash
    FinalizeFields.container_sha256 FinalizeFields.request FinalizeFields.request_hash
    FinalizeFields.request_sha256 FinalizeFields.tenant_id FinalizeFields.profile_id
    FinalizeFields.upload_id FinalizeFields.snapshot_id FinalizeFields.manifest_replay_id
    FinalizeFields.size FinalizeFields.sha256 FinalizeFields.server_instance_id
    FinalizeFields.restore_epoch].
  rewrite !Forall_cons, Forall_nil. cbn [snd]. rewrite !bool_decide_eq_true, !Z.eqb_eq. split.
  - intros (H & ->). repeat match type of H with _ /\ _ => destruct H as [? H] end. by subst.
  - intros [=]. subst. done.
Qed.

Lemma finalize_fields_ok r :
  parsed_request r ->
  record_ok FinalizeFields.put FinalizeFields.wf (FinalizeUploadV2.fields_of r) = true.
Proof.
  intros Hr. pose proof (request_size r Hr) as Hsz.
  apply commit_parse_iff in Hr as (m & uid & key & nonce & Hm & Hu & Hk & Hn & -> & _).
  pose proof (build_hash_length m uid key nonce) as Hh.
  destruct (request_fields_ok m uid key nonce _ Hm Hu Hk Hn Hh) as [[Hv Hw]%andb_true_iff _].
  set (r := CommitRequestV2.build sha256 m uid key nonce) in *.
  unfold FinalizeUploadV2.fields_of. change (CommitRequestV2.manifest r) with m.
  change (CommitRequestV2.upload_id r) with uid.
  assert (blen (CommitRequestV2.exact_bytes_sha256 r) = 32) as Hh2 by apply sha_32.
  set (hash := CommitRequestV2.canonical_request_hash r) in *. clearbody hash.
  set (h2 := CommitRequestV2.exact_bytes_sha256 r) in *. clearbody h2.
  set (ex := CommitRequestV2.exact_bytes r) in *. clearbody ex. clear r.
  unfold CommitFields.wf, request_fields in Hw. unfold values_ok, CommitFields.put, request_fields in Hv.
  cbn -[Z.leb Z.eqb blen text_ok contains_nul] in Hv, Hw. wire_facts.
  unfold record_ok, values_ok, FinalizeFields.put, FinalizeFields.wf.
  cbn -[Z.leb Z.eqb blen text_ok contains_nul]. rewrite !andb_true_iff.
  unfold MAX_COMMIT_REQUEST_BYTES, MAX_SIGNED_MANIFEST_CONTAINER_BYTES in *.
  split_and!; try reflexivity; try assumption; unfold wire_len, U64_MAX; try lia.
Qed.

Lemma finalize_parse_iff bs x :
  blen bs <= USIZE_MAX ->
  FinalizeUploadV2.parse sha256 bs = Ok x <->
  parsed_request (FinalizeUploadV2.commit x) /\ FinalizeUploadV2.encode x = bs.
Proof.
  intros Hb. unfold FinalizeUploadV2.parse, FinalizeUploadV2.encode. split.
  - intros (f & Hf%map_err_ok & Hc)%result_bind_ok.
    apply wire_map_exact with (put := FinalizeFields.put) (contract := FinalizeFields.wf)
      in Hf as [_ He]; [|apply FinalizeFields.wire|done].
    apply result_bind_ok in Hc as (r & [Hr Hreq]%parsed_request_iff & Hc).
    destruct (first_unequal _) eqn:Hcp; [done|]. injection Hc as <-. split; [done|].
    cbn [FinalizeUploadV2.commit]. by rewrite <- (proj1 (finalize_copied_iff f r) (conj Hcp (eq_sym Hreq))).
  - destruct x as [r]. cbn [FinalizeUploadV2.commit]. intros [Hr <-].
    pose proof (finalize_fields_ok r Hr) as Hok.
    assert (parse_map "FinalizeUploadV2" FinalizeFields.parser
              (encode (c.m (FinalizeFields.put (FinalizeUploadV2.fields_of r))))
            = Ok (FinalizeUploadV2.fields_of r)) as ->.
    { apply wire_map_exact with (put := FinalizeFields.put) (contract := FinalizeFields.wf);
        [apply FinalizeFields.wire|done|done]. }
    unfold mbind, result_bind, map_err. cbn [FinalizeUploadV2.fields_of FinalizeFields.request].
    rewrite Hr. by rewrite (proj1 (proj2 (finalize_copied_iff _ r) eq_refl)).
Qed.

Lemma finalize_size r :
  parsed_request r -> blen (FinalizeUploadV2.encode (FinalizeUploadV2.new r)) <= USIZE_MAX.
Proof.
  intros [_ Hw]%finalize_fields_ok%andb_true_iff. unfold FinalizeUploadV2.encode, FinalizeUploadV2.new.
  cbn [FinalizeUploadV2.commit]. destruct (FinalizeUploadV2.fields_of r).
  unfold FinalizeFields.wf in Hw. cbn -[Z.leb Z.eqb blen] in Hw. wire_facts.
  etrans; [apply encode_size|]. unfold FinalizeFields.put. cbn -[Z.add Z.mul blen as_bytes].
  unfold MAX_COMMIT_REQUEST_BYTES, MAX_SIGNED_MANIFEST_CONTAINER_BYTES in *.
  eval_lengths. unfold USIZE_MAX, U64_MAX. lia.
Qed.

(** What is sent is what is read. *)
Lemma finalize_roundtrip r :
  parsed_request r ->
  FinalizeUploadV2.parse sha256 (FinalizeUploadV2.encode (FinalizeUploadV2.new r))
  = Ok (FinalizeUploadV2.new r).
Proof. intros Hr. apply finalize_parse_iff; [by apply finalize_size|by split]. Qed.

End facts.
