(* ===== verification/SnapshotV2Theorems.v ===== *)
(** * Manifests, commit requests and receipts: the theorems

    What each parser accepts, what a verified manifest says of its signer, and what a
    receipt commits to. *)

From S2P Require Import Prelude Bytes Canonical CanonicalFacts CanonicalDecode CanonicalTheorems.
From S2P Require Import RecordFields WireMap Keys ProfileLease SnapshotV2 SnapshotV2Facts.

Section theorems.
Context (sha256 : bytes -> bytes) (sha256_length : forall x, length (sha256 x) = 32%nat).

(** C26. The signed container is accepted when it was assembled of a manifest that follows the
    rules and 64 bytes of signature; the commit request, when [build] assembles it of such
    a container; the finalize payload, when it is the encoding of such a request; the
    receipt, when it is the encoding of a well-formed one. *)
Theorem publication_exact exact :
  blen exact <= USIZE_MAX ->
  (forall m, SignedSnapshotManifestV2.parse sha256 exact = Ok m <->
     exists p sig, SnapshotManifestV2.ok p = true /\ blen sig = ED25519_SIG_LEN
       /\ m = signed_manifest sha256 p sig /\ SignedSnapshotManifestV2.exact_bytes m = exact)
  /\ (forall r, CommitRequestV2.parse sha256 exact = Ok r <->
     exists m upload_id key nonce,
       SignedSnapshotManifestV2.parse sha256 (SignedSnapshotManifestV2.exact_bytes m) = Ok m
       /\ blen upload_id = 16 /\ blen key = 16 /\ blen nonce = 16
       /\ r = CommitRequestV2.build sha256 m upload_id key nonce
       /\ CommitRequestV2.exact_bytes r = exact)
  /\ (forall x, FinalizeUploadV2.parse sha256 exact = Ok x <->
     CommitRequestV2.parse sha256 (CommitRequestV2.exact_bytes (FinalizeUploadV2.commit x))
       = Ok (FinalizeUploadV2.commit x)
     /\ FinalizeUploadV2.encode x = exact)
  /\ (forall x, CommitReceiptBindingV2.parse exact = Ok x <->
     record_ok CommitReceiptBindingV2.put CommitReceiptBindingV2.wf x = true
     /\ CommitReceiptBindingV2.encode x = exact).
Proof.
  intros Hb. split_and!; intros x.
  - by apply signed_parse_iff.
  - by apply commit_parse_iff.
  - by apply finalize_parse_iff.
  - unfold CommitReceiptBindingV2.parse. rewrite map_err_ok. exact (wire_map_exact _ _ _ _ exact x Hb).
Qed.

Lemma check_signature_ok `{HE : !Ed25519} m pk :
  SignedSnapshotManifestV2.check_signature sha256 m pk = Ok tt <->
  signing_key_id sha256 pk
    = SnapshotManifestV2.signer_signing_key_id (SignedSnapshotManifestV2.payload m)
  /\ verify_tbs pk (SignedSnapshotManifestV2.tbs_bytes m)
       (SignedSnapshotManifestV2.signature_bytes m) = Ok tt.
Proof.
  unfold SignedSnapshotManifestV2.check_signature. case_bool_decide as Hk; cbn [negb].
  - rewrite map_err_ok. naive_solver.
  - split; [done|]. by intros [? _].
Qed.

(** A verified manifest is the one that was parsed, and its signer, under the key whose
    identifier the manifest itself names, signed the manifest and nothing else: two
    verified containers with one signed message carry one manifest. *)
Theorem verified_manifest_authentic `{HE : !Ed25519} exact m pk v :
  SignedSnapshotManifestV2.parse sha256 exact = Ok m ->
  SignedSnapshotManifestV2.verify_signature sha256 m pk = Ok v ->
  let p := SignedSnapshotManifestV2.verified_payload v in
  SignedSnapshotManifestV2.container v = m
  /\ SnapshotManifestV2.ok p = true
  /\ signing_key_id sha256 pk = SnapshotManifestV2.signer_signing_key_id p
  /\ exists sig, m = signed_manifest sha256 p sig
     /\ ed_verify_strict pk (signed_record_signing_input (manifest_tbs sha256 p)) sig = true.
Proof.
  intros (p & sig & Hp & _ & -> & _)%signed_parse_iff Hv; [|done].
  unfold SignedSnapshotManifestV2.verify_signature in Hv.
  apply result_bind_ok in Hv as ([] & [Hk Hv]%check_signature_ok & Hm).
  assert (forall a b : SignedSnapshotManifestV2.VerifiedSnapshotManifestV2,
            @Ok SnapshotError _ a = Ok b -> a = b) as Hinj by congruence.
  apply Hinj in Hm as <-. unfold SignedSnapshotManifestV2.verified_payload.
  cbn [SignedSnapshotManifestV2.container].
  change (SignedSnapshotManifestV2.payload _) with p in *.
  split_and!; [done..|]. exists sig. split; [done|].
  unfold verify_tbs, verify_message_strict in Hv. by repeat (case_match; try done).
Qed.

(** ** Receipts *)

(** What the hash of a request is made of. *)
Definition request_core (r : CommitRequestV2.t) : bytes :=
  encode (c.m (commit_fields (SignedSnapshotManifestV2.payload (CommitRequestV2.manifest r))
    (CommitRequestV2.manifest r) (CommitRequestV2.upload_id r)
    (CommitRequestV2.idempotency_key r) (CommitRequestV2.client_request_nonce r))).

Lemma commit_keys_ok p m uid key nonce : keys_ok (commit_fields p m uid key nonce) = true.
Proof. vm_compute. reflexivity. Qed.

Lemma commit_normal p m uid key nonce :
  Forall (fun kv => normalize kv.2 = kv.2) (commit_fields p m uid key nonce).
Proof. unfold commit_fields. repeat constructor. Qed.

Lemma core_values r :
  parsed_request sha256 r ->
  values_ok (commit_fields (SignedSnapshotManifestV2.payload (CommitRequestV2.manifest r))
    (CommitRequestV2.manifest r) (CommitRequestV2.upload_id r)
    (CommitRequestV2.idempotency_key r) (CommitRequestV2.client_request_nonce r)) = true
  /\ blen (request_core r) <= USIZE_MAX.
Proof.
  intros (m & uid & key & nonce & Hm & Hu & Hk & Hn & -> & _)%commit_parse_iff; [|done].
  set (hash := CommitRequestV2.canonical_request_hash (CommitRequestV2.build sha256 m uid key nonce)).
  assert (blen hash = 32) as Hh by (by apply build_hash_length).
  destruct (request_fields_ok sha256 sha256_length m uid key nonce hash Hm Hu Hk Hn Hh)
    as [[Hv Hw]%andb_true_iff _].
  change (CommitFields.put (request_fields m uid key nonce hash))
    with (commit_fields (SignedSnapshotManifestV2.payload m) m uid key nonce
            ++ [("canonical_request_hash", c.b hash)]) in Hv.
  unfold values_ok in Hv. rewrite List.forallb_app in Hv. apply andb_true_iff in Hv as [Hv _].
  split; [exact Hv|]. unfold request_core.
  change (CommitRequestV2.manifest _) with m. change (CommitRequestV2.upload_id _) with uid.
  change (CommitRequestV2.idempotency_key _) with key.
  change (CommitRequestV2.client_request_nonce _) with nonce.
  unfold CommitFields.wf, request_fields in Hw. cbn -[Z.leb Z.eqb blen] in Hw.
  wire_facts. etrans; [apply encode_size|]. unfold commit_fields.
  cbn -[Z.add Z.mul blen as_bytes]. unfold MAX_SIGNED_MANIFEST_CONTAINER_BYTES in *.
  eval_lengths. unfold USIZE_MAX, U64_MAX. lia.
Qed.

(** The core determines the request. *)
Lemma request_core_inj r1 r2 :
  parsed_request sha256 r1 -> parsed_request sha256 r2 ->
  request_core r1 = request_core r2 -> r1 = r2.
Proof.
  intros H1 H2 He. destruct (core_values r1 H1) as [V1 L1]. destruct (core_values r2 H2) as [V2 _].
  apply encode_m_inj in He; [|apply commit_keys_ok|apply commit_keys_ok|done|done|
    apply commit_normal|apply commit_normal|done].
  apply perm_same_keys in He; [|done|apply entry_keys_NoDup, keys_ok_NoDup, commit_keys_ok].
  apply commit_parse_iff in H1 as (m1 & u1 & k1 & n1 & M1 & _ & _ & _ & -> & _); [|done].
  apply commit_parse_iff in H2 as (m2 & u2 & k2 & n2 & M2 & _ & _ & _ & -> & _); [|done].
  unfold commit_fields in He. cbn [CommitRequestV2.manifest CommitRequestV2.build
    CommitRequestV2.upload_id CommitRequestV2.idempotency_key
    CommitRequestV2.client_request_nonce] in He.
  unfold parsed in M1, M2. unfold c.b in He.
  assert (SignedSnapshotManifestV2.exact_bytes m1 = SignedSnapshotManifestV2.exact_bytes m2) as Hx
    by congruence.
  rewrite Hx in M1. assert (m1 = m2) as -> by congruence.
  assert (u1 = u2) as -> by congruence. assert (k1 = k2) as -> by congruence.
  by assert (n1 = n2) as -> by congruence.
Qed.

Lemma check_binds_ok rc r :
  CommitReceiptBindingV2.check_binds sha256 rc r = Ok tt <->
  let p := SignedSnapshotManifestV2.payload (CommitRequestV2.manifest r) in
  CommitReceiptBindingV2.exact_request_hash rc = CommitRequestV2.canonical_request_hash r
  /\ CommitReceiptBindingV2.snapshot_id rc = SnapshotManifestV2.snapshot_id p
  /\ CommitReceiptBindingV2.resulting_version rc = SnapshotManifestV2.target_version p
  /\ CommitReceiptBindingV2.resulting_head_hash rc
     = SignedSnapshotManifestV2.head_hash sha256 (CommitRequestV2.manifest r)
  /\ CommitReceiptBindingV2.server_instance_id rc = SnapshotManifestV2.server_instance_id p
  /\ CommitReceiptBindingV2.restore_epoch rc = SnapshotManifestV2.restore_epoch p.
Proof.
  unfold CommitReceiptBindingV2.check_binds. case_match eqn:E.
  - split; [done|]. intros H. enough (first_unequal _ = None) as E' by (rewrite E' in E; done).
    apply first_unequal_none. destruct H as (-> & -> & -> & -> & -> & ->).
    rewrite !Forall_cons, Forall_nil. cbn [snd]. by rewrite !bool_decide_eq_true, !Z.eqb_eq.
  - split; [intros _|done]. apply first_unequal_none in E.
    rewrite !Forall_cons, Forall_nil in E. cbn [snd] in E.
    rewrite !bool_decide_eq_true, !Z.eqb_eq in E. tauto.
Qed.

(** C25. A receipt is about one request: the receipt made for a verified request binds it, and
    when one receipt binds two requests that parse, they are the same bytes, or their two
    different cores collide under SHA-256. *)
Theorem receipt_binds_one_request rc r1 r2 :
  CommitRequestV2.parse sha256 (CommitRequestV2.exact_bytes r1) = Ok r1 ->
  CommitRequestV2.parse sha256 (CommitRequestV2.exact_bytes r2) = Ok r2 ->
  (forall outcome at_ms id, CommitReceiptBindingV2.check_binds sha256
     (CommitReceiptBindingV2.for_request sha256 (CommitRequestV2.Verified r1) outcome at_ms id) r1
   = Ok tt)
  /\ (CommitReceiptBindingV2.check_binds sha256 rc r1 = Ok tt ->
      CommitReceiptBindingV2.check_binds sha256 rc r2 = Ok tt ->
      r1 = r2
      \/ (request_core r1 <> request_core r2
          /\ domain_hash sha256 L_COMMIT_REQUEST (request_core r1)
             = domain_hash sha256 L_COMMIT_REQUEST (request_core r2))).
Proof.
  intros H1 H2. split.
  - intros. by apply check_binds_ok.
  - intros (B1 & _)%check_binds_ok (B2 & _)%check_binds_ok.
    destruct (decide (request_core r1 = request_core r2)) as [He|Hne];
      [left; by apply request_core_inj|right; split; [done|]].
    rewrite B1 in B2. apply commit_parse_iff in H1 as (? & ? & ? & ? & _ & _ & _ & _ & -> & _); [|done].
    by apply commit_parse_iff in H2 as (? & ? & ? & ? & _ & _ & _ & _ & -> & _); [|done].
Qed.

End theorems.

(** ** Witnesses *)

Definition weak_hash (b : bytes) : bytes := be_bytes 32 (blen b).

Lemma weak_hash_length x : length (weak_hash x) = 32%nat.
Proof. apply length_be_bytes. Qed.

Definition sample_device : bytes := be_bytes 32 77.
Definition sample_manifest : SnapshotManifestV2.t :=
  SnapshotManifestV2.mk (be_bytes 16 1) (be_bytes 16 2) (be_bytes 16 3) (be_bytes 16 4)
    (be_bytes 16 5) 8 7 3 2 (be_bytes 32 6) (be_bytes 32 7) (be_bytes 32 8) (be_bytes 32 9)
    (be_bytes 32 10) 9000 (Some (be_bytes 32 11)) (signing_key_id weak_hash (ed_public sample_device))
    (be_bytes 16 12) 1 (be_bytes 16 13) 1700000000000.
Definition sample_container : SignedSnapshotManifestV2.t := Eval vm_compute in
  signed_manifest weak_hash sample_manifest
    (sign_tbs sample_device (manifest_tbs weak_hash sample_manifest)).
Definition sample_commit : CommitRequestV2.t := Eval vm_compute in
  CommitRequestV2.build weak_hash sample_container (be_bytes 16 20) (be_bytes 16 21) (be_bytes 16 22).
Definition sample_receipt : CommitReceiptBindingV2.t :=
  CommitReceiptBindingV2.for_request weak_hash (CommitRequestV2.Verified sample_commit)
    LeaseReleaseOutcome.Released 1700000000001 (be_bytes 16 23).

Lemma publication_exact_witness :
  exists p sig, SnapshotManifestV2.ok p = true /\ blen sig = ED25519_SIG_LEN
    /\ sample_container = signed_manifest weak_hash p sig.
Proof.
  destruct (publication_exact weak_hash weak_hash_length
    (SignedSnapshotManifestV2.exact_bytes sample_container)) as [H _].
  { vm_compute. discriminate. }
  assert (SignedSnapshotManifestV2.parse weak_hash
    (SignedSnapshotManifestV2.exact_bytes sample_container) = Ok sample_container) as Hp
    by (vm_compute; reflexivity).
  destruct (proj1 (H sample_container) Hp) as (p & sig & H1 & H2 & H3 & _).
  exists p, sig. split; [exact H1|split; [exact H2|exact H3]].
Defined.

Lemma verified_manifest_authentic_witness :
  signing_key_id weak_hash (ed_public sample_device)
  = SnapshotManifestV2.signer_signing_key_id sample_manifest.
Proof.
  assert (SignedSnapshotManifestV2.parse weak_hash
    (SignedSnapshotManifestV2.exact_bytes sample_container) = Ok sample_container) as Hp
    by (vm_compute; reflexivity).
  assert (SignedSnapshotManifestV2.verify_signature weak_hash sample_container
    (ed_public sample_device) = Ok (SignedSnapshotManifestV2.Verified sample_container)) as Hv
    by (vm_compute; reflexivity).
  destruct (verified_manifest_authentic weak_hash weak_hash_length _ _ _ _ Hp Hv)
    as (_ & _ & Hk & _).
  exact Hk.
Defined.

Lemma receipt_binds_one_request_witness :
  CommitReceiptBindingV2.check_binds weak_hash sample_receipt sample_commit = Ok tt.
Proof.
  assert (CommitRequestV2.parse weak_hash (CommitRequestV2.exact_bytes sample_commit)
          = Ok sample_commit) as Hp by (vm_compute; reflexivity).
  exact (proj1 (receipt_binds_one_request weak_hash weak_hash_length sample_receipt
    sample_commit sample_commit Hp Hp) _ _ _).
Defined.
