(* ===== verification/Publish.v ===== *)
(** * From one device's profile to another's (src-tauri/src/team/sync.rs)

    What [seal_snapshot], [prepare_commit] and [restore] compute: the slot, the intent and
    the object of a packed profile; the signed manifest and the commit request of a spooled
    object; the ciphertext fetched by range and opened. The database, the network and the
    random source are outside: what they give is an argument. *)

From S2P Require Import Prelude Bytes Canonical CanonicalFacts CanonicalDecode CanonicalTheorems.
From S2P Require Import TrustChain.
From S2P Require Import RecordFields WireMap Keys Envelope ProfileLease EnvelopeV2 EnvelopeObject.
From S2P Require Import SnapshotV2.

Definition DEFAULT_FRAME_PLAINTEXT_SIZE : Z := 1048576.
Definition CHUNK : Z := 4194304.

(** The errors of the flow, each with what its message is made from. *)
Inductive SyncError :=
| BadReply (field : string)
| SealTaskFailed (e : EnvelopeError)
| SlotRefused (e : KeyError)
| IntentRefused (e : IntentError)
| ManifestRefused (e : SnapshotError)
| FetchRefused.

(** The columns of a binding the flow reads. *)
Module Bound.

Record t := mk {
  instance : bytes;
  tenant : bytes;
  fleet : bytes;
  profile : bytes;
  version : Z;
  head : option bytes;
  epoch : Z }.

Definition pref (b : t) : ProfileRef.t := ProfileRef.mk (tenant b) (fleet b) (profile b).

End Bound.

(** What [seal_snapshot] draws at random. *)
Module Drawn.

Record t := mk {
  snapshot_id : bytes;
  manifest_replay_id : bytes;
  dek : bytes;
  wrap_nonce : bytes;
  context_nonce : bytes;
  stream_prefix : bytes }.

End Drawn.

(** The generation a lease was granted under, and its key. *)
Module Granted.

Record t := mk { key_generation : Z; fkek_key_id : bytes }.

End Granted.

(** [base_version + 1]. *)
Definition next_version (n : Z) : Z := add_u64 n 1.

(** The result of a run over memory, which has no call that fails. *)
Definition in_memory {A} (source : bytes) (m : io A) : result EnvelopeError A * bytes :=
  let '(r, s) := m (Streams.mk source 0 [] []) in (r, Streams.sink s).

Section flow.
Context `{HS : !StreamLE31} `{HA : !Aead} (sha256 : bytes -> bytes).

(** [seal_snapshot], from the packed profile to the spooled object and its terms. *)
Definition seal_snapshot (fkek : bytes) (b : Bound.t) (lease : LeaseRef.t) (g : Granted.t)
    (signing_key_id : bytes) (now : Z) (drawn : Drawn.t) (plaintext : bytes)
    : result SyncError (bytes * CreateUploadV2.t) :=
  let generation := Granted.key_generation g in
  slot ← map_err SlotRefused
    (build_dek_slot sha256 fkek (Drawn.dek drawn) (Drawn.wrap_nonce drawn)
       (SlotIds.mk (Bound.tenant b) (Bound.fleet b) (Bound.profile b) (Drawn.snapshot_id drawn)
          (Granted.fkek_key_id g) (Drawn.context_nonce drawn)) generation);
  let target_version := next_version (Bound.version b) in
  intent ← map_err IntentRefused
    (build_intent_v2 sha256
       (IntentIds.mk (Drawn.snapshot_id drawn) (Bound.tenant b) (Bound.fleet b)
          (Bound.profile b) (LeaseRef.lease_id lease) (Drawn.manifest_replay_id drawn)
          (Bound.instance b) (Granted.fkek_key_id g) signing_key_id)
       (IntentNumbers.mk target_version (Bound.version b) (LeaseRef.fencing_token lease)
          generation (Bound.epoch b) DEFAULT_FRAME_PLAINTEXT_SIZE MAX_OBJECT_SIZE
          MAX_OBJECT_SIZE now)
       (Drawn.stream_prefix drawn) (Bound.head b) slot);
  let '(sealed, object) := in_memory plaintext (seal sha256 (Drawn.dek drawn) intent slot) in
  d ← map_err SealTaskFailed sealed;
  mret (object,
        CreateUploadV2.mk (Bound.pref b) (Drawn.snapshot_id drawn)
          (Drawn.manifest_replay_id drawn) lease (IntentMaterial.intent_hash intent)
          (ObjectDigest.preamble_sha256 d) (SlotMaterial.dek_slot_sha256 slot)
          (Granted.fkek_key_id g) generation (ObjectDigest.ciphertext_size d)
          (ObjectDigest.ciphertext_sha256 d)).

(** The [Expected] of [prepare_commit]. *)
Definition spooled (b : Bound.t) (terms : CreateUploadV2.t) (target_version : Z) : Expected.t :=
  Expected.mk (CreateUploadV2.expected_ciphertext_sha256 terms)
    (CreateUploadV2.expected_ciphertext_size terms) (CreateUploadV2.preamble_sha256 terms)
    (CreateUploadV2.intent_hash terms) (CreateUploadV2.dek_slot_sha256 terms)
    (Scope.mk (CreateUploadV2.snapshot_id terms) (Bound.tenant b) (Bound.fleet b)
       (Bound.profile b) target_version (CreateUploadV2.key_generation terms)).

Definition manifest_of (b : Bound.t) (terms : CreateUploadV2.t) (view : EnvelopeIntentV2.t)
    (signing_key_id : bytes) : SnapshotManifestV2.t :=
  let lease := CreateUploadV2.lease terms in
  SnapshotManifestV2.mk (CreateUploadV2.snapshot_id terms) (Bound.tenant b) (Bound.fleet b)
    (Bound.profile b) (LeaseRef.lease_id lease) (EnvelopeIntentV2.target_version view)
    (LeaseRef.base_version lease) (LeaseRef.fencing_token lease)
    (CreateUploadV2.key_generation terms) (CreateUploadV2.fkek_key_id terms)
    (CreateUploadV2.preamble_sha256 terms) (CreateUploadV2.intent_hash terms)
    (CreateUploadV2.dek_slot_sha256 terms) (CreateUploadV2.expected_ciphertext_sha256 terms)
    (CreateUploadV2.expected_ciphertext_size terms)
    (EnvelopeIntentV2.previous_signed_head_hash view) signing_key_id
    (EnvelopeIntentV2.server_instance_id view) (EnvelopeIntentV2.restore_epoch view)
    (CreateUploadV2.manifest_replay_id terms) (EnvelopeIntentV2.created_at_ms view).

(** [prepare_commit], up to the rows it stores. *)
Definition prepare_commit `{HE : !Ed25519} (sk signing_key_id : bytes) (b : Bound.t)
    (terms : CreateUploadV2.t) (object upload_id idempotency_key client_request_nonce : bytes)
    : result SyncError (SignedSnapshotManifestV2.t * CommitRequestV2.t) :=
  let target_version := next_version (LeaseRef.base_version (CreateUploadV2.lease terms)) in
  view ← map_err (fun _ => BadReply "spool")
    (in_memory object (check_public sha256 (spooled b terms target_version))).1;
  signed ← map_err ManifestRefused
    (SignedSnapshotManifestV2.sign sha256 sk (manifest_of b terms view signing_key_id));
  mret (signed,
        CommitRequestV2.build sha256 signed upload_id idempotency_key client_request_nonce).

(** ** Restoring *)

(** [hex] of fleet_client.rs. *)
Definition hex (b : bytes) : string := String.concat EmptyString (List.map hex2 b).

Definition quoted (s : string) : string :=
  let quote := String (Ascii.ascii_of_nat 34) EmptyString in (quote ++ s ++ quote)%string.

(** A reply to a range request that [ok] lets through: its [etag] and its body. *)
Definition Reply : Type := option string * bytes.

Section fetch.
Context (snapshot_range : Z -> Z -> option Reply) (p : SnapshotManifestV2.t).

(** The size of a parsed manifest is at most [MAX_OBJECT_SIZE]: [start + CHUNK] stays a
    [u64]. *)
Definition fetch_range (start : Z) : result SyncError bytes :=
  let size := SnapshotManifestV2.ciphertext_size p in
  let end_ := Z.min (start + CHUNK) size - 1 in
  '(etag, body) ← ok_or (snapshot_range start end_) FetchRefused;
  if negb (bool_decide (etag = Some (quoted (hex (SnapshotManifestV2.ciphertext_sha256 p)))))
     || negb (blen body =? end_ - start + 1)
  then Err (BadReply "range") else Ok body.

Fixpoint fetch_loop (fuel : nat) (object : bytes) : result SyncError bytes :=
  if negb (blen object <? SnapshotManifestV2.ciphertext_size p) then Ok object
  else match fuel with
  | O => Crash OutOfFuel
  | S fuel' =>
      body ← fetch_range (blen object);
      fetch_loop fuel' (object ++ body)
  end.

(** The chunks of the object, with one more. *)
Definition fetch : result SyncError bytes :=
  fetch_loop (Z.to_nat (SnapshotManifestV2.ciphertext_size p / CHUNK + 1)) [].

End fetch.

(** The [Expected] of [restore]. *)
Definition named_by (p : SnapshotManifestV2.t) : Expected.t :=
  Expected.mk (SnapshotManifestV2.ciphertext_sha256 p) (SnapshotManifestV2.ciphertext_size p)
    (SnapshotManifestV2.preamble_sha256 p) (SnapshotManifestV2.intent_hash p)
    (SnapshotManifestV2.dek_slot_sha256 p)
    (Scope.mk (SnapshotManifestV2.snapshot_id p) (SnapshotManifestV2.tenant_id p)
       (SnapshotManifestV2.fleet_id p) (SnapshotManifestV2.profile_id p)
       (SnapshotManifestV2.target_version p) (SnapshotManifestV2.key_generation p)).

(** [restore], up to the unpacking of the plaintext it returns. *)
Definition restore (snapshot_range : Z -> Z -> option Reply) (p : SnapshotManifestV2.t)
    (fkek : bytes) : result SyncError bytes :=
  object ← fetch snapshot_range p;
  let '(opened, plaintext) := in_memory object (open sha256 fkek (named_by p)) in
  _ ← map_err (fun _ => BadReply "envelope") opened;
  mret plaintext.

End flow.
