(* ===== verification/PublishTheorems.v ===== *)
(** * From one device's profile to another's: the theorems

    What one device seals, signs and commits, the server's parsers accept and another
    device restores. *)

From S2P Require Import Prelude Bytes Canonical CanonicalFacts CanonicalDecode CanonicalTheorems.
From S2P Require Import TrustChain.
From S2P Require Import RecordFields WireMap Keys Envelope ProfileLease EnvelopeV2 EnvelopeV2Facts.
From S2P Require Import EnvelopeObject EnvelopeObjectFacts EnvelopeOpenFacts EnvelopeObjectTheorems.
From S2P Require Import EnvelopeFailures SnapshotV2 SnapshotV2Facts SnapshotV2Theorems Publish.

(** ** Fetching *)

(** [snapshot_range] serves [object] under its digest. *)
Definition serves (snapshot_range : Z -> Z -> option Reply) (sha object : bytes) : Prop :=
  forall start end_, 0 <= start -> start <= end_ -> end_ < blen object ->
    snapshot_range start end_
    = Some (Some (quoted (hex sha)),
            take (Z.to_nat (end_ - start + 1)) (drop (Z.to_nat start) object)).

Lemma taken_length (object : bytes) start end_ :
  0 <= start -> start <= end_ -> end_ < blen object ->
  blen (take (Z.to_nat (end_ - start + 1)) (drop (Z.to_nat start) object)) = end_ - start + 1.
Proof. unfold blen. rewrite length_take, length_drop. lia. Qed.

Section fetch.
Context (snapshot_range : Z -> Z -> option Reply) (p : SnapshotManifestV2.t).
Abbreviation size := (SnapshotManifestV2.ciphertext_size p).

Lemma fetch_range_length start body :
  fetch_range snapshot_range p start = Ok body -> blen body = Z.min (start + CHUNK) size - start.
Proof.
  unfold fetch_range. intros ([etag b] & _ & H)%result_bind_ok. case_match eqn:E; [done|].
  injection H as <-. apply orb_false_iff in E as [_ E%negb_false_iff%Z.eqb_eq]. lia.
Qed.

Lemma fetch_range_safe start : safe (fetch_range snapshot_range p start).
Proof.
  unfold fetch_range. apply safe_bind; [intros c; by destruct (snapshot_range _ _)|].
  intros [etag b] _ c. by case_match.
Qed.

(** The loop ends within its fuel, with the size the manifest names. *)
Lemma fetch_loop_ends fuel object :
  0 <= blen object <= Z.max 0 size -> size - blen object <= Z.of_nat fuel * CHUNK ->
  safe (fetch_loop snapshot_range p fuel object)
  /\ forall o, fetch_loop snapshot_range p fuel object = Ok o -> blen o = Z.max 0 size.
Proof.
  unfold CHUNK. revert object. induction fuel as [|fuel IH]; intros object Hl Hf; cbn [fetch_loop].
  all: destruct (Z.ltb_spec (blen object) size) as [Hlt|Hge]; cbn [negb].
  - lia.
  - split; [done|]. intros o [= <-]. lia.
  - split.
    + apply safe_bind; [apply fetch_range_safe|]. intros body Hb%fetch_range_length.
      apply IH; rewrite blen_app; unfold CHUNK in *; lia.
    + intros o (body & Hb%fetch_range_length & H)%result_bind_ok. revert H.
      apply IH; rewrite blen_app; unfold CHUNK in *; lia.
  - split; [done|]. intros o [= <-]. lia.
Qed.

Lemma fetch_loop_served fuel object n :
  serves snapshot_range (SnapshotManifestV2.ciphertext_sha256 p) object -> blen object = size ->
  (n <= length object)%nat -> size - Z.of_nat n <= Z.of_nat fuel * CHUNK ->
  fetch_loop snapshot_range p fuel (take n object) = Ok object.
Proof.
  intros Hs Hl. unfold CHUNK. revert n. induction fuel as [|fuel IH]; intros n Hn Hf; cbn [fetch_loop].
  all: assert (blen (take n object) = Z.of_nat n) as -> by (unfold blen; rewrite length_take; lia).
  all: destruct (Z.ltb_spec (Z.of_nat n) size) as [Hlt|Hge]; cbn [negb].
  - lia.
  - by rewrite take_ge by (unfold blen in Hl; lia).
  - set (m := Z.to_nat (Z.min (Z.of_nat n + CHUNK) size)).
    assert (fetch_range snapshot_range p (Z.of_nat n) = Ok (take (m - n) (drop n object))) as ->.
    { unfold fetch_range. rewrite Hs by (unfold CHUNK; lia). cbn [ok_or mbind result_bind].
      rewrite taken_length, Z.eqb_refl, bool_decide_eq_true_2 by (unfold CHUNK; lia || done).
      cbn [negb orb]. do 2 f_equal; [unfold CHUNK in *; lia|f_equal; lia]. }
    unfold mbind, result_bind.
    assert (take n object ++ take (m - n) (drop n object) = take m object) as ->.
    { rewrite take_drop_commute. replace (n + (m - n))%nat with m by (unfold CHUNK in *; lia).
      rewrite <- (take_drop n (take m object)) at 2. f_equal. rewrite take_take. f_equal.
      unfold CHUNK in *. lia. }
    apply IH; unfold blen, CHUNK in *; lia.
  - by rewrite take_ge by (unfold blen in Hl; lia).
Qed.

End fetch.

Lemma chunks_enough size : 0 <= size -> size <= Z.of_nat (Z.to_nat (size / CHUNK + 1)) * CHUNK.
Proof.
  intros Hs. assert (0 <= size / CHUNK) by (apply Z.div_pos; [done|by unfold CHUNK]).
  pose proof (Z.div_mod size CHUNK) as Hd. pose proof (Z.mod_pos_bound size CHUNK) as Hm.
  unfold CHUNK in *. lia.
Qed.

Lemma fetch_served snapshot_range p object :
  serves snapshot_range (SnapshotManifestV2.ciphertext_sha256 p) object ->
  blen object = SnapshotManifestV2.ciphertext_size p -> fetch snapshot_range p = Ok object.
Proof.
  intros Hs Hl. pose proof (blen_nonneg object). unfold fetch. rewrite <- (take_0 object).
  apply fetch_loop_served; [done|done|lia|]. rewrite Z.sub_0_r. apply chunks_enough. lia.
Qed.

Lemma fetch_ends snapshot_range p :
  0 <= SnapshotManifestV2.ciphertext_size p ->
  safe (fetch snapshot_range p)
  /\ forall o, fetch snapshot_range p = Ok o -> blen o = SnapshotManifestV2.ciphertext_size p.
Proof.
  intros Hs. pose proof (chunks_enough _ Hs) as He.
  destruct (fetch_loop_ends snapshot_range p
    (Z.to_nat (SnapshotManifestV2.ciphertext_size p / CHUNK + 1)) []) as [H1 H2].
  - change (blen (@nil byte)) with 0. lia.
  - change (blen (@nil byte)) with 0. lia.
  - split; [done|]. intros o Ho. apply H2 in Ho. lia.
Qed.

(** ** Sealing *)

(** The lengths of the arrays and the ranges of the integers the flow is given. *)
Definition id16_ok (b : bytes) : bool := blen b =? 16.
Definition wire_int (n : Z) : bool := (0 <=? n) && (n <=? I64_MAX).

Definition publishable (b : Bound.t) (lease : LeaseRef.t) (g : Granted.t)
    (signing_key_id : bytes) (now : Z) (drawn : Drawn.t) : bool :=
  forallb id16_ok
    [Bound.instance b; Bound.tenant b; Bound.fleet b; Bound.profile b; LeaseRef.lease_id lease;
     Drawn.snapshot_id drawn; Drawn.manifest_replay_id drawn; Drawn.context_nonce drawn]
  && (blen (Granted.fkek_key_id g) =? 32) && (blen signing_key_id =? 32)
  && opt_ok (fun h => blen h =? 32) (Bound.head b)
  && (blen (Drawn.dek drawn) =? DEK_LEN) && (blen (Drawn.wrap_nonce drawn) =? WRAP_NONCE_LEN)
  && (blen (Drawn.stream_prefix drawn) =? 20)
  && forallb wire_int
    [Bound.version b + 1; Bound.epoch b; LeaseRef.fencing_token lease;
     Granted.key_generation g; now]
  && (0 <=? Bound.version b).

Section publish.
Context `{HS : !StreamLE31, HL : !StreamLaws} `{HA : !Aead, HAL : !AeadLaws}.
Context (sha256 : bytes -> bytes) (sha256_length : forall x, blen (sha256 x) = 32).
Context (fkek signing_key_id : bytes) (b : Bound.t) (lease : LeaseRef.t) (g : Granted.t).
Context (now : Z) (drawn : Drawn.t).
Context (inputs_ok : publishable b lease g signing_key_id now drawn = true).

Definition intent_ids : IntentIds.t :=
  IntentIds.mk (Drawn.snapshot_id drawn) (Bound.tenant b) (Bound.fleet b)
    (Bound.profile b) (LeaseRef.lease_id lease) (Drawn.manifest_replay_id drawn)
    (Bound.instance b) (Granted.fkek_key_id g) signing_key_id.

Definition intent_nums : IntentNumbers.t :=
  IntentNumbers.mk (Bound.version b + 1) (Bound.version b) (LeaseRef.fencing_token lease)
    (Granted.key_generation g) (Bound.epoch b) DEFAULT_FRAME_PLAINTEXT_SIZE MAX_OBJECT_SIZE
    MAX_OBJECT_SIZE now.

Definition slot_ids : SlotIds.t :=
  SlotIds.mk (Bound.tenant b) (Bound.fleet b) (Bound.profile b) (Drawn.snapshot_id drawn)
    (Granted.fkek_key_id g) (Drawn.context_nonce drawn).

Lemma sha_length x : length (sha256 x) = 32%nat.
Proof. pose proof (sha256_length x) as H. unfold blen in H. lia. Qed.

Lemma input_version : next_version (Bound.version b) = Bound.version b + 1.
Proof.
  apply add_u64_small. pose proof inputs_ok as H. unfold publishable, wire_int, I64_MAX in H.
  destruct b. cbn -[Z.eqb Z.leb Z.add blen] in *. wire_facts. unfold U64_MAX. lia.
Qed.

Lemma input_facts :
  slot_arrays slot_ids (Drawn.dek drawn) (Drawn.wrap_nonce drawn) = true
  /\ forall slotm, blen (SlotMaterial.context_hash slotm) = 32 ->
       blen (SlotMaterial.dek_slot_sha256 slotm) = 32 ->
       intent_ok intent_ids intent_nums SUITE_ID (Drawn.stream_prefix drawn) (Bound.head b) slotm
       = true.
Proof.
  pose proof inputs_ok as H. unfold publishable, id16_ok, wire_int, I64_MAX in H.
  unfold slot_arrays, slot_ids, intent_ok, intent_ids, intent_nums.
  destruct b as [? ? ? ? ? hd ?], lease, g, drawn.
  cbn -[Z.eqb Z.leb Z.add blen DEK_LEN WRAP_NONCE_LEN opt_ok] in H.
  wire_facts. unfold DEK_LEN, WRAP_NONCE_LEN in *. split.
  { cbn -[Z.eqb blen]. rewrite !andb_true_iff, !Z.eqb_eq. by split_and!. }
  intros [? ch ? sh] Hc Hs. cbn -[blen] in Hc, Hs. apply andb_true_iff. split.
  - unfold values_ok, intent_fields. rewrite List.forallb_app, andb_true_iff. split.
    + cbn -[Z.leb Z.add blen text_ok contains_nul].
      unfold wire_len, U64_MAX, MAX_SQLITE_WIRE_UINT, I64_MAX.
      rewrite !andb_true_iff. split_and!; try reflexivity; lia.
    + destruct hd as [h|]; [|done]. cbn -[Z.leb Z.eqb blen] in *. wire_facts.
      unfold wire_len, U64_MAX. rewrite (proj2 (Z.leb_le _ _)) by lia. done.
  - apply Z.leb_le. etrans; [apply encode_size|]. unfold intent_fields.
    destruct hd as [h|]; cbn -[Z.eqb Z.add Z.mul blen as_bytes] in *; wire_facts; eval_lengths;
      unfold USIZE_MAX, U64_MAX; lia.
Qed.

Lemma built_slot_hashes dek nonce ids gen slotm :
  build_dek_slot sha256 fkek dek nonce ids gen = Ok slotm ->
  blen (SlotMaterial.context_hash slotm) = 32
  /\ SlotMaterial.dek_slot_sha256 slotm
     = domain_hash sha256 L_DEK_SLOT (SlotMaterial.exact_slot_bytes slotm).
Proof.
  unfold build_dek_slot. intros (w & _ & H)%result_bind_ok.
  assert (forall x y : SlotMaterial.t, @Ok KeyError _ x = Ok y -> x = y) as Hinj by congruence.
  apply Hinj in H as <-. split; [apply sha256_length|done].
Qed.

Record sealed_as (object plaintext : bytes) (terms : CreateUploadV2.t) (ib sb : bytes)
    (view : EnvelopeIntentV2.t) (slot : DekSlotV2.t) (chunks : list bytes) : Prop := {
  sl_object : object_of sha256 (Drawn.dek drawn) ib sb view slot chunks object;
  sl_plain : concat chunks = plaintext;
  sl_unwraps : unwraps fkek (Drawn.dek drawn) slot;
  sl_ids : EnvelopeIntentV2.ids view = intent_ids;
  sl_nums : EnvelopeIntentV2.nums view = intent_nums;
  sl_prev : EnvelopeIntentV2.previous_signed_head_hash view = Bound.head b;
  sl_terms : terms = CreateUploadV2.mk (Bound.pref b) (Drawn.snapshot_id drawn)
    (Drawn.manifest_replay_id drawn) lease (EnvelopeIntentV2.hash sha256 ib)
    (preamble_sha256 sha256 (Preamble.encode (pre_of sha256 ib sb view)))
    (domain_hash sha256 L_DEK_SLOT sb) (Granted.fkek_key_id g) (Granted.key_generation g)
    (blen object) (sha256 object) }.

Lemma seal_snapshot_ok object terms plaintext :
  seal_snapshot sha256 fkek b lease g signing_key_id now drawn plaintext = Ok (object, terms) ->
  exists ib sb view slot chunks, sealed_as object plaintext terms ib sb view slot chunks.
Proof.
  destruct input_facts as [Harr Hint]. unfold seal_snapshot. intros H. fold slot_ids in H.
  apply result_bind_ok in H as (slotm & Hslot%map_err_ok & H).
  rewrite input_version in H. fold intent_ids intent_nums in H.
  apply result_bind_ok in H as (intent & Hintent%map_err_ok & H).
  unfold in_memory in H. change (Streams.mk plaintext 0 [] []) with (reading plaintext) in H.
  destruct (seal _ _ _ _ _) as [r s1] eqn:Hseal.
  apply result_bind_ok in H as (d & ->%map_err_ok & H).
  destruct (built_slot_hashes _ _ _ _ _ Hslot) as [Hch Hsh].
  apply seal_ok in Hseal as (view & slot & chunks & obj & Hh & Hobj & Hp & -> & ->); [|done].
  change (Streams.sink _) with obj in H.
  assert (forall x y : bytes * CreateUploadV2.t, @Ok SyncError _ x = Ok y -> x = y) as Hinj by congruence.
  apply Hinj in H. injection H as <- <-.
  pose proof (ob_headed _ _ _ _ _ _ _ _ Hobj) as [Hpi Hb _ [_ Hl]].
  assert (blen (SlotMaterial.dek_slot_sha256 slotm) = 32) as Hs32
    by (rewrite Hsh; apply sha256_length).
  destruct (built_intent_view sha256 _ _ _ _ _ _ _ (Hint slotm Hch Hs32) Hintent Hpi)
    as (Hids & Hnums & _ & Hprev).
  apply bind_slot_ok in Hb as (_ & Hb & _).
  eexists _, _, view, slot, chunks. split; [exact Hobj|done| |done|done|done|].
  - by apply (built_slot_unwraps sha256 sha256_length fkek _ _ _ _ slotm slot Harr Hslot).
  - rewrite <- Hh, Hsh. reflexivity.
Qed.

Section sealed.
Context (object plaintext : bytes) (terms : CreateUploadV2.t) (ib sb : bytes).
Context (view : EnvelopeIntentV2.t) (slot : DekSlotV2.t) (chunks : list bytes).
Context (Hsl : sealed_as object plaintext terms ib sb view slot chunks).

(** The manifest of what was sealed. *)
Definition sealed_manifest : SnapshotManifestV2.t :=
  SnapshotManifestV2.mk (Drawn.snapshot_id drawn) (Bound.tenant b) (Bound.fleet b)
    (Bound.profile b) (LeaseRef.lease_id lease) (Bound.version b + 1)
    (LeaseRef.base_version lease) (LeaseRef.fencing_token lease) (Granted.key_generation g)
    (Granted.fkek_key_id g)
    (preamble_sha256 sha256 (Preamble.encode (pre_of sha256 ib sb view)))
    (EnvelopeIntentV2.hash sha256 ib) (domain_hash sha256 L_DEK_SLOT sb) (sha256 object)
    (blen object) (Bound.head b) signing_key_id (Bound.instance b) (Bound.epoch b)
    (Drawn.manifest_replay_id drawn) now.

Lemma manifest_of_sealed : manifest_of b terms view signing_key_id = sealed_manifest.
Proof.
  destruct Hsl as [_ _ _ Hids Hnums Hprev ->]. unfold manifest_of, sealed_manifest.
  pose proof (f_equal IntentIds.server_instance_id Hids) as H1.
  pose proof (f_equal IntentNumbers.target_version Hnums) as H2.
  pose proof (f_equal IntentNumbers.restore_epoch Hnums) as H3.
  pose proof (f_equal IntentNumbers.created_at_ms Hnums) as H4.
  cbn [EnvelopeIntentV2.ids EnvelopeIntentV2.nums IntentIds.server_instance_id intent_ids
    IntentNumbers.target_version IntentNumbers.restore_epoch IntentNumbers.created_at_ms
    intent_nums] in H1, H2, H3, H4.
  rewrite H1, H2, H3, H4, Hprev. reflexivity.
Qed.

Lemma sealed_scope :
  Scope.of_intent view = Scope.mk (Drawn.snapshot_id drawn) (Bound.tenant b) (Bound.fleet b)
    (Bound.profile b) (Bound.version b + 1) (Granted.key_generation g).
Proof.
  destruct Hsl as [_ _ _ Hids Hnums _ _]. unfold Scope.of_intent.
  unfold EnvelopeIntentV2.ids, EnvelopeIntentV2.nums, intent_ids, intent_nums in *.
  by injection Hids as -> -> -> -> _ _ _ _ _; injection Hnums as -> _ _ -> _ _ _ _ _.
Qed.

(** The spooled object, and the manifest, name the object. *)
Lemma sealed_names :
  names sha256 (spooled b terms (Bound.version b + 1)) ib sb view object
  /\ names sha256 (named_by sealed_manifest) ib sb view object.
Proof.
  pose proof sealed_scope as Hscope. destruct Hsl as [_ _ _ _ _ _ ->].
  split; (split; try reflexivity); cbn [Expected.scope spooled named_by]; by rewrite Hscope.
Qed.

Lemma sealed_manifest_ok :
  LeaseRef.base_version lease = Bound.version b -> SnapshotManifestV2.ok sealed_manifest = true.
Proof.
  intros Hbase. destruct Hsl as [Hobj _ _ Hids Hnums Hprev _].
  pose proof (ob_headed _ _ _ _ _ _ _ _ Hobj) as Hd. pose proof (headed_sizes _ _ _ _ _ Hd) as Hsz.
  assert (1 <= blen object <= MAX_OBJECT_SIZE) as Hlen.
  { pose proof (sz_cipher _ Hsz). pose proof (ob_cipher _ _ _ _ _ _ _ _ Hobj).
    destruct (ob_bytes _ _ _ _ _ _ _ _ Hobj) as (fb & _ & ->). rewrite blen_app in *.
    rewrite blen_header in * by done. pose proof (blen_nonneg ib). pose proof (blen_nonneg sb).
    pose proof (blen_nonneg fb). lia. }
  unfold sealed_manifest. rewrite Hbase.
  assert (is_some (Bound.head b) = negb (Bound.version b =? 0)) as Hgen.
  { destruct Hd as [Hp _ [_ Hl] _]. apply intent_exact in Hp as [Hok _];
      [|unfold MAX_INTENT_LEN, USIZE_MAX, U64_MAX in *; lia].
    apply intent_bounds in Hok as (_ & _ & _ & _ & _ & Hg & _). rewrite Hprev in Hg.
    by apply (f_equal IntentNumbers.base_version) in Hnums; cbn in Hnums; rewrite Hnums in Hg. }
  assert (forall x, blen (sha256 x) = 32) as Hsha by done.
  unfold preamble_sha256, EnvelopeIntentV2.hash, domain_hash.
  set (h1 := sha256 (domain_preimage _ _)). set (h2 := sha256 (domain_preimage _ _)).
  set (h3 := sha256 (domain_preimage _ _)). set (h4 := sha256 object).
  pose proof (Hsha _ : blen h1 = 32) as L1. pose proof (Hsha _ : blen h2 = 32) as L2.
  pose proof (Hsha _ : blen h3 = 32) as L3. pose proof (Hsha _ : blen h4 = 32) as L4.
  clearbody h1 h2 h3 h4. pose proof inputs_ok as H. unfold publishable, id16_ok, wire_int, I64_MAX in H.
  destruct b as [? ? ? ? v hd ?], lease, g, drawn.
  cbn -[Z.eqb Z.leb Z.add blen DEK_LEN WRAP_NONCE_LEN opt_ok] in H, Hgen.
  wire_facts. unfold MAX_OBJECT_SIZE in *. unfold record_ok. apply andb_true_iff. split.
  - unfold values_ok, SnapshotManifestV2.put. rewrite List.forallb_app, andb_true_iff. split.
    + cbn -[Z.leb Z.add blen text_ok contains_nul].
      unfold wire_len, U64_MAX, MAX_SQLITE_WIRE_UINT, I64_MAX.
      rewrite !andb_true_iff. split_and!; try reflexivity; lia.
    + destruct hd as [h|]; [|done]. cbn -[Z.leb Z.eqb blen] in *. wire_facts.
      unfold wire_len, U64_MAX. rewrite (proj2 (Z.leb_le _ _)) by lia. done.
  - unfold SnapshotManifestV2.wf. cbn -[Z.eqb Z.leb Z.add blen opt_ok MAX_OBJECT_SIZE bool_decide].
    unfold checked_add. rewrite (proj2 (Z.leb_le (v + 1) U64_MAX)) by (unfold U64_MAX; lia).
    rewrite bool_decide_eq_true_2, Hgen, negb_involutive, Bool.eqb_reflx by done.
    unfold MAX_OBJECT_SIZE. rewrite !andb_true_iff. split_and!; try done; lia.
Qed.

Lemma sealed_commit `{HE : !Ed25519, !Ed25519Laws} sk upload_id key nonce :
  LeaseRef.base_version lease = Bound.version b ->
  signing_key_id = Keys.signing_key_id sha256 (ed_public sk) ->
  let signed := signed_manifest sha256 sealed_manifest
                  (sign_tbs sk (manifest_tbs sha256 sealed_manifest)) in
  prepare_commit sha256 sk signing_key_id b terms object upload_id key nonce
  = Ok (signed, CommitRequestV2.build sha256 signed upload_id key nonce)
  /\ parsed sha256 signed
  /\ SignedSnapshotManifestV2.check_signature sha256 signed (ed_public sk) = Ok tt.
Proof.
  intros Hbase Hk signed. pose proof (sealed_manifest_ok Hbase) as Hok.
  assert (parsed sha256 signed) as Hp.
  { apply (signed_parse_iff sha256 sha_length). eexists _, _. split_and!; [exact Hok| |done|done].
    apply ed_sign_length. }
  split_and!; [|done|].
  - unfold prepare_commit. destruct sealed_names as [Hn _].
    destruct (object_public sha256 _ _ _ _ _ _ _ _ (sl_object _ _ _ _ _ _ _ _ Hsl) Hn) as (cts & Hpub & _).
    apply (public_run sha256 sha256_length) in Hpub as [s' Hpub].
    assert (CreateUploadV2.lease terms = lease) as -> by by rewrite (sl_terms _ _ _ _ _ _ _ _ Hsl).
    rewrite Hbase, input_version. unfold in_memory.
    change (Streams.mk object 0 [] []) with (reading object). rewrite Hpub.
    cbn [fst map_err mbind result_bind]. rewrite manifest_of_sealed.
    unfold SignedSnapshotManifestV2.sign. rewrite bool_decide_true by by rewrite <- Hk.
    cbn [negb]. change (SignedContainer.exact_bytes _) with (SignedSnapshotManifestV2.exact_bytes signed).
    unfold parsed in Hp. rewrite Hp. done.
  - unfold SignedSnapshotManifestV2.check_signature. rewrite bool_decide_true by by rewrite <- Hk.
    cbn [negb]. change (SignedSnapshotManifestV2.tbs_bytes signed) with (manifest_tbs sha256 sealed_manifest).
    change (SignedSnapshotManifestV2.signature_bytes signed)
      with (sign_tbs sk (manifest_tbs sha256 sealed_manifest)).
    by rewrite sign_verify.
Qed.

Lemma sealed_restores snapshot_range :
  serves snapshot_range (sha256 object) object ->
  restore sha256 snapshot_range sealed_manifest fkek = Ok plaintext.
Proof.
  intros Hs. unfold restore.
  assert (fetch snapshot_range sealed_manifest = Ok object) as -> by by apply fetch_served.
  unfold mbind, result_bind, in_memory. change (Streams.mk object 0 [] []) with (reading object).
  destruct sealed_names as [_ Hn].
  rewrite (object_opens sha256 sha256_length fkek _ _ _ _ _ _ _ _
    (sl_object _ _ _ _ _ _ _ _ Hsl) Hn (sl_unwraps _ _ _ _ _ _ _ _ Hsl)).
  cbn [map_err]. unfold mret, result_ret. f_equal. apply (sl_plain _ _ _ _ _ _ _ _ Hsl).
Qed.

End sealed.

End publish.

(** ** From one device to another *)

Section flow.
Context `{HS : !StreamLE31, HL : !StreamLaws} `{HA : !Aead, HAL : !AeadLaws}.
Context `{HE : !Ed25519, HEL : !Ed25519Laws}.
Context (sha256 : bytes -> bytes) (sha256_length : forall x, blen (sha256 x) = 32).

(** C16. A profile that was sealed is published and restored: the manifest of the sealed object
    can be signed, under the next version and on top of the head the device holds; the
    finalize payload with the commit request parses to that request, whose signature
    verifies under the device's key; and whoever holds the fleet key restores the profile
    from any server that serves the object. *)
Theorem published_restores fkek sk b lease g now drawn plaintext object terms uid key nonce :
  let skid := Keys.signing_key_id sha256 (ed_public sk) in
  publishable b lease g skid now drawn = true ->
  LeaseRef.base_version lease = Bound.version b ->
  blen uid = 16 -> blen key = 16 -> blen nonce = 16 ->
  seal_snapshot sha256 fkek b lease g skid now drawn plaintext = Ok (object, terms) ->
  exists signed request,
    prepare_commit sha256 sk skid b terms object uid key nonce = Ok (signed, request)
    /\ FinalizeUploadV2.parse sha256 (FinalizeUploadV2.encode (FinalizeUploadV2.new request))
       = Ok (FinalizeUploadV2.new request)
    /\ CommitRequestV2.manifest request = signed
    /\ CommitRequestV2.verify_signature sha256 request (ed_public sk)
       = Ok (CommitRequestV2.Verified request)
    /\ (let p := SignedSnapshotManifestV2.payload signed in
        SnapshotManifestV2.target_version p = Bound.version b + 1
        /\ SnapshotManifestV2.previous_signed_head_hash p = Bound.head b
        /\ SnapshotManifestV2.ciphertext_sha256 p = sha256 object
        /\ forall snapshot_range, serves snapshot_range (sha256 object) object ->
             restore sha256 snapshot_range p fkek = Ok plaintext).
Proof.
  intros skid Hok Hbase Hu Hk Hn Hs.
  apply seal_snapshot_ok in Hs as (ib & sb & view & slot & chunks & Hsl); [|done..].
  destruct (sealed_commit sha256 sha256_length fkek skid b lease g now drawn Hok object plaintext
    terms ib sb view slot chunks Hsl sk uid key nonce Hbase eq_refl) as (Hprep & Hp & Hv).
  set (m := sealed_manifest _ _ _ _ _ _ _ _ _ _ _) in *.
  set (signed := signed_manifest _ _ _) in *.
  assert (parsed_request sha256 (CommitRequestV2.build sha256 signed uid key nonce)) as Hr.
  { apply commit_parse_iff; [by apply sha_length|]. by exists signed, uid, key, nonce. }
  exists signed, (CommitRequestV2.build sha256 signed uid key nonce). split_and!; try done.
  - apply finalize_roundtrip; [by apply sha_length|done].
  - unfold CommitRequestV2.verify_signature. change (CommitRequestV2.manifest _) with signed.
    rewrite Hv. reflexivity.
  - change (SignedSnapshotManifestV2.payload signed) with m. split_and!; [done..|].
    intros range Hserve. by eapply sealed_restores.
Qed.

(** C17. Whatever the server replies, [restore] returns, and what it returns was sealed: under
    the data key the object's slot unwraps to, with the digests, the identifiers and the
    version of the manifest. The replies of two servers give one plaintext, or two
    different objects that collide under SHA-256. *)
Theorem restore_any_server fkek p range :
  0 <= SnapshotManifestV2.ciphertext_size p <= MAX_OBJECT_SIZE ->
  safe (restore sha256 range p fkek)
  /\ (forall plaintext, restore sha256 range p fkek = Ok plaintext ->
       exists dek intent slotm view slot d s1,
         seal sha256 dek intent slotm (reading plaintext) = (Ok d, s1)
         /\ fetch range p = Ok (Streams.sink s1)
         /\ EnvelopeIntentV2.parse (IntentMaterial.exact_intent_bytes intent) = Ok view
         /\ bind_slot sha256 (SlotMaterial.exact_slot_bytes slotm) view = Ok slot
         /\ unwraps fkek dek slot /\ named_by p = committed sha256 d intent slotm view)
  /\ (forall range' x y, restore sha256 range p fkek = Ok x -> restore sha256 range' p fkek = Ok y ->
       x = y \/ exists o o', fetch range p = Ok o /\ fetch range' p = Ok o' /\ o <> o'
                /\ sha256 o = sha256 o').
Proof.
  intros Hsize.
  assert (forall r x, restore sha256 r p fkek = Ok x -> exists o oc s', fetch r p = Ok o
            /\ open sha256 fkek (named_by p) (reading o) = (Ok oc, s') /\ Streams.sink s' = x) as Hrun.
  { intros r x (o & Ho & H)%result_bind_ok. unfold in_memory in H.
    destruct (open _ _ _ _) as [res s'] eqn:E in H. apply result_bind_ok in H as (oc & ->%map_err_ok & H).
    exists o, oc, s'. split_and!; [done|exact E|]. by injection H. }
  split_and!.
  - unfold restore. apply safe_bind; [apply fetch_ends; lia|]. intros o _. unfold in_memory.
    destruct (open _ _ _ _) as [res s'] eqn:E. apply safe_bind; [|by intros ? _ ?].
    intros c H. destruct res as [| |c']; cbn [map_err] in H; try done.
    apply (open_no_crash sha256 sha256_length fkek (named_by p) (reading o) c').
    change (Streams.mk o 0 [] []) with (reading o) in E. rewrite E. by injection H as ->.
  - intros x (o & oc & s' & Ho & H & Hx)%Hrun.
    apply open_ok in H as (dek & ib & sb & view & slot & chunks & Hobj & Hn & Hu & _ & ->); [|done..].
    cbn in Hx. subst x.
    pose (intent := IntentMaterial.mk ib (EnvelopeIntentV2.hash sha256 ib)).
    pose (slotm := SlotMaterial.mk [] [] sb []).
    pose proof (seal_run sha256 sha256_length dek intent slotm view slot chunks o eq_refl Hobj) as Hs.
    exists dek, intent, slotm, view, slot, (digest_of sha256 ib sb view chunks o). eexists.
    split_and!; [exact Hs|done|apply Hobj|apply Hobj|done|].
    by apply (committed_names sha256 ib sb view chunks o).
  - intros r' x y (o & oc & s1 & Ho & H1 & <-)%Hrun (o' & oc' & s2 & Ho' & H2 & <-)%Hrun.
    destruct (decide (o = o')) as [<-|Hne]; [left; congruence|right].
    exists o, o'. split_and!; [done..|].
    apply open_ok in H1 as (? & ? & ? & ? & ? & ? & _ & N1 & _); [|done..].
    apply open_ok in H2 as (? & ? & ? & ? & ? & ? & _ & N2 & _); [|done..].
    by rewrite <- (nm_sha _ _ _ _ _ _ N1), <- (nm_sha _ _ _ _ _ _ N2).
Qed.

End flow.

(** ** Witnesses *)

Definition sample_sk : bytes := be_bytes 32 77.
Definition sample_skid : bytes := Keys.signing_key_id toy_digest (ed_public sample_sk).
Definition sample_bound : Bound.t :=
  Bound.mk (id16 1) (id16 2) (id16 3) (id16 4) 6 (Some (id32 5)) 2.
Definition sample_lease : LeaseRef.t := LeaseRef.mk (id16 7) 9 6.
Definition sample_granted : Granted.t := Granted.mk 3 (id32 8).
Definition sample_drawn : Drawn.t :=
  Drawn.mk (id16 9) (id16 10) (id32 11) (be_bytes 12 12) (id16 13) (be_bytes 20 14).
Definition sample_published : bytes * CreateUploadV2.t :=
  ok_or_else ([], CreateUploadV2.mk (Bound.pref sample_bound) [] [] sample_lease [] [] [] [] 0 0 [])
    (seal_snapshot toy_digest (id32 15) sample_bound sample_lease sample_granted sample_skid
       1700000000000 sample_drawn sample_plain).

(** A server that serves [object] under its digest. *)
Definition honest (sha object : bytes) (start end_ : Z) : option Reply :=
  Some (Some (quoted (hex sha)),
        take (Z.to_nat (end_ - start + 1)) (drop (Z.to_nat start) object)).

Lemma published_restores_witness :
  exists signed request,
    prepare_commit toy_digest sample_sk sample_skid sample_bound (snd sample_published)
      (fst sample_published) (id16 20) (id16 21) (id16 22) = Ok (signed, request)
    /\ restore toy_digest (honest (toy_digest (fst sample_published)) (fst sample_published))
         (SignedSnapshotManifestV2.payload signed) (id32 15) = Ok sample_plain.
Proof.
  destruct (published_restores toy_digest toy_digest_length (id32 15) sample_sk sample_bound
    sample_lease sample_granted 1700000000000 sample_drawn sample_plain (fst sample_published)
    (snd sample_published) (id16 20) (id16 21) (id16 22))
    as (signed & request & Hp & _ & _ & _ & _ & _ & _ & Hr); [vm_compute; reflexivity..|].
  exists signed, request. split; [exact Hp|]. apply Hr. unfold serves. intros. reflexivity.
Defined.

Lemma restore_any_server_witness :
  safe (restore toy_digest (fun _ _ => Some (None, [Byte.x00])) sample_manifest (id32 15)).
Proof.
  apply (restore_any_server toy_digest toy_digest_length (id32 15) sample_manifest).
  split; vm_compute; discriminate.
Defined.
