(* ===== verification/HeadWalk.v ===== *)
(** * Which head a device pulls (src-tauri/src/team/sync.rs)

    The walk of [pull] over the signed manifests between the head a device has pinned and
    the head a server lists: [revert_rule] and [walk]; the check of the listing before it
    and the decision after it. The replies of the server, the trust ledger and the
    evaluated trust chain are arguments. A version is read once in a walk, so what the
    server serves is a function of the version. *)

From S2P Require Import Prelude Bytes Canonical CanonicalTheorems AuthzPayloads AuthzRecord.
From S2P Require Import TrustEvidence TrustChain RecordFields WireMap Keys ProfileLease.
From S2P Require Import SnapshotV2 Publish.

(** One published profile's current head (shared/src/fleet_profiles.rs). *)
Module FleetProfileHeadV2.

Record t := mk {
  profile_id : bytes;
  current_version : Z;
  current_signed_head_hash : option bytes;
  key_generation : Z;
  label_ciphertext : bytes }.

End FleetProfileHeadV2.

(** A head's signer: proven revoked, reported revoked only, without an approval or
    [profile.commit], or in order. *)
Module Standing.

Inductive t := Withdrawn | Reported | Untrusted | Valid.

#[global] Instance eq_dec : EqDecision t.
Proof. solve_decision. Defined.

End Standing.

Module Link.

Record t := mk {
  version : Z;
  hash : bytes;
  base : Z;
  previous : option bytes;
  signer : bytes;
  standing : Standing.t }.

End Link.

Inductive Refusal := Revoked | SignerUntrusted | Gap.

Inductive Rule :=
| Join
| Advance
| Accept (run : list Link.t)
| Refuse (r : Refusal).

(** [Vec::is_empty] *)
Definition vec_is_empty {A} (l : list A) : bool := match l with [] => true | _ => false end.

(** Every version of a link is at most that of the listed head, and its base one less: the
    sums stay in [u64]. *)
Definition revert_rule (anchor : option Link.t) (run : list Link.t) (next : Link.t) : Rule :=
  let below := match last run with Some l => Some l | None => anchor end in
  if negb (Link.version next =? match below with Some l => Link.version l + 1 | None => 1 end)
     || negb (Link.base next + 1 =? Link.version next)
     || negb (bool_decide (Link.previous next = Link.hash <$> below))
  then Refuse Gap
  else
    match Link.standing next with
    | Standing.Withdrawn => Join
    | Standing.Reported => Refuse Revoked
    | Standing.Untrusted => Refuse SignerUntrusted
    | Standing.Valid => if vec_is_empty run then Advance else Accept run
    end.

(** A run of proven-revoked heads above its anchor, and what closed it. *)
Module Run.

Record t := mk {
  anchor : option (Z * bytes);
  heads : list Link.t;
  by_ : option bytes }.

End Run.

Module Walked.

Record t := mk {
  anchor : option (Link.t * SnapshotManifestV2.t);
  open_ : list Link.t;
  accepted : list Run.t;
  read : list (Z * bytes) }.

Definition default : t := mk None [] [] [].

Definition push_read (v : Z) (hash : bytes) (w : t) : t :=
  mk (anchor w) (open_ w) (accepted w) (read w ++ [(v, hash)]).

Definition set_anchor (l : Link.t) (p : SnapshotManifestV2.t) (w : t) : t :=
  mk (Some (l, p)) (open_ w) (accepted w) (read w).

Definition set_open (ls : list Link.t) (w : t) : t :=
  mk (anchor w) ls (accepted w) (read w).

Definition push_accepted (r : Run.t) (w : t) : t :=
  mk (anchor w) (open_ w) (accepted w ++ [r]) (read w).

(** [w.anchor.as_ref().map(|(l, _)| (l.version, l.hash))] *)
Definition anchor_head (w : t) : option (Z * bytes) :=
  (fun '(l, _) => (Link.version l, Link.hash l)) <$> anchor w.

End Walked.

(** An error of the walk; [Quarantined] ones have marked the binding with the reason. *)
Inductive WalkError :=
| NoReply
| LedgerFailed
| BadHead (field : string)
| Refused (key : string)
| Quarantined (reason key : string).

Definition untrusted : WalkError := Refused "sync.signerUntrusted".

Definition signer_revoked : WalkError := Quarantined "SIGNER_REVOKED" "sync.signerRevoked".

Definition refused_in_walk (w : Walked.t) (err : WalkError) : WalkError :=
  if vec_is_empty (Walked.open_ w) && vec_is_empty (Walked.accepted w) then err else signer_revoked.

(** An epoch other than the one [b] accepted. *)
Definition other_epoch (b : Bound.t) (epoch : Z) : WalkError :=
  if epoch <? Bound.epoch b then Quarantined "HEAD_ROLLBACK_DETECTED" "sync.headRollback"
  else Quarantined "RESTORE_EPOCH_TRANSITION_REQUIRED" "sync.epochTransitionRequired".

(** The first of [checks] that does not hold, as an error. *)
Definition checked (checks : list (string * bool)) (refuse : WalkError -> WalkError)
    : result WalkError unit :=
  match first_unequal checks with
  | Some field => Err (refuse (BadHead field))
  | None => Ok tt
  end.

(** The public keys of pages, by the identifier each hashes to; a later one replaces. *)
Definition keys_of (sha256 : bytes -> bytes) (public_keys : list bytes) : gmap KeyId bytes :=
  foldl (fun keys pk => <[signing_key_id sha256 pk := pk]> keys) ∅ public_keys.

Section walk.
Context `{HE : !Ed25519} (sha256 : bytes -> bytes).
Context (served : Z -> option bytes) (withdrawn : bytes -> option bool).
Context (chain : TrustChain.t) (keys : gmap KeyId bytes) (b : Bound.t) (now : Z).

Definition manifest (v : Z) : result WalkError SignedSnapshotManifestV2.t :=
  body ← ok_or (served v) NoReply;
  map_err (fun _ => BadHead "SignedSnapshotManifestV2")
    (SignedSnapshotManifestV2.parse sha256 body).

Definition signer_of (m : SignedSnapshotManifestV2.t) : bytes :=
  SnapshotManifestV2.signer_signing_key_id (SignedSnapshotManifestV2.payload m).

Definition payload_of (m : SignedSnapshotManifestV2.t) : result WalkError SnapshotManifestV2.t :=
  map_err (fun _ => BadHead "manifest")
    (SnapshotManifestV2.parse (SignedSnapshotManifestV2.canonical_manifest_payload_bytes m)).

Definition link_of (v : Z) (m : SignedSnapshotManifestV2.t) (p : SnapshotManifestV2.t)
    (standing : Standing.t) : Link.t :=
  Link.mk v (SignedSnapshotManifestV2.head_hash sha256 m) (SnapshotManifestV2.base_version p)
    (SnapshotManifestV2.previous_signed_head_hash p) (signer_of m) standing.

(** Below a withdrawn pin, down from version [n], to the newest head whose signer is neither
    withdrawn nor reported. *)
Fixpoint go_back (n : nat) (w : Walked.t) : result WalkError Walked.t :=
  match n with
  | O => Ok w
  | S n' =>
      let u := Z.of_nat n in
      m ← manifest u;
      first ← match Walked.open_ w with l :: _ => Ok l | [] => Crash Panic end;
      let hash := SignedSnapshotManifestV2.head_hash sha256 m in
      _ ← checked [("previous_signed_head_hash", bool_decide (Some hash = Link.previous first))] id;
      let w := Walked.push_read u hash w in
      p ← payload_of m;
      _ ← checked [("target_version", SnapshotManifestV2.target_version p =? u)] id;
      revoked ← ok_or (withdrawn (signer_of m)) LedgerFailed;
      if (revoked : bool) then
        go_back n' (Walked.set_open (link_of u m p Standing.Withdrawn :: Walked.open_ w) w)
      else if TrustChain.reported_revoked_at chain (signer_of m) now then Err signer_revoked
      else Ok (Walked.set_anchor (link_of u m p Standing.Valid) p w)
  end.

(** The checks every manifest of the walk passes, whoever signed it. *)
Definition of_binding (p : SnapshotManifestV2.t) : list (string * bool) :=
  [("tenant_id", bool_decide (SnapshotManifestV2.tenant_id p = Bound.tenant b));
   ("fleet_id", bool_decide (SnapshotManifestV2.fleet_id p = Bound.fleet b));
   ("profile_id", bool_decide (SnapshotManifestV2.profile_id p = Bound.profile b));
   ("server_instance_id",
    bool_decide (SnapshotManifestV2.server_instance_id p = Bound.instance b))].

(** The pinned head. *)
Definition pinned_head (v : Z) (m : SignedSnapshotManifestV2.t) (revoked : bool) (w : Walked.t)
    : result WalkError Walked.t :=
  let hash := SignedSnapshotManifestV2.head_hash sha256 m in
  _ ← checked [("current_signed_head_hash", bool_decide (Some hash = Bound.head b))] id;
  if negb revoked && TrustChain.reported_revoked_at chain (signer_of m) now
  then Err signer_revoked
  else
    p ← payload_of m;
    _ ← checked (of_binding p ++ [("target_version", SnapshotManifestV2.target_version p =? v)]) id;
    if negb revoked then Ok (Walked.set_anchor (link_of v m p Standing.Valid) p w)
    else
      let w := Walked.set_open (Walked.open_ w ++ [link_of v m p Standing.Withdrawn]) w in
      w ← go_back (Z.to_nat (v - 1)) w;
      first ← match Walked.open_ w with l :: _ => Ok l | [] => Crash Panic end;
      _ ← checked [("previous_signed_head_hash",
                    negb (negb (is_some (Walked.anchor w)) && is_some (Link.previous first)))] id;
      mret w.

Definition standing_of (signer : bytes) (revoked : bool) : Standing.t :=
  let commits scope := TrustChain.capability_at chain signer Capability.ProfileCommit scope now in
  if revoked then Standing.Withdrawn
  else if TrustChain.reported_revoked_at chain signer now then Standing.Reported
  else if negb (TrustChain.approval_valid_at chain signer (Scope.Fleet (Bound.fleet b)) now)
          || negb (commits (Scope.Profile (Bound.profile b)) || commits (Scope.Fleet (Bound.fleet b)))
  then Standing.Untrusted
  else Standing.Valid.

(** The link joins what was read as [revert_rule] says. *)
Definition follow (w : Walked.t) (link : Link.t) (p : SnapshotManifestV2.t)
    : result WalkError Walked.t :=
  match revert_rule (fst <$> Walked.anchor w) (Walked.open_ w) link with
  | Join => Ok (Walked.set_open (Walked.open_ w ++ [link]) w)
  | Advance => Ok (Walked.set_anchor link p w)
  | Accept heads =>
      let w := Walked.push_accepted
                 (Run.mk (Walked.anchor_head w) heads (Some (Link.hash link))) w in
      Ok (Walked.set_anchor link p (Walked.set_open [] w))
  | Refuse Revoked => Err signer_revoked
  | Refuse SignerUntrusted => Err (refused_in_walk w untrusted)
  | Refuse Gap => Err (refused_in_walk w (BadHead "previous_signed_head_hash"))
  end.

(** A head above the pin. *)
Definition new_head (v : Z) (m : SignedSnapshotManifestV2.t) (revoked : bool)
    (prev : option bytes) (w : Walked.t) : result WalkError Walked.t :=
  pk ← ok_or (keys !! signer_of m) (refused_in_walk w untrusted);
  verified ← map_err (fun _ => refused_in_walk w untrusted)
    (SignedSnapshotManifestV2.verify_signature sha256 m pk);
  let p := SignedSnapshotManifestV2.verified_payload verified in
  _ ← checked
        (of_binding p
         ++ [("target_version", (SnapshotManifestV2.target_version p =? v)
                                && (SnapshotManifestV2.base_version p + 1 =? v));
             ("previous_signed_head_hash",
              bool_decide (SnapshotManifestV2.previous_signed_head_hash p = prev))])
        (refused_in_walk w);
  if negb (SnapshotManifestV2.restore_epoch p =? Bound.epoch b) then
    Err (other_epoch b (SnapshotManifestV2.restore_epoch p))
  else follow w (link_of v m p (standing_of (signer_of m) revoked)) p.

(** One round of the loop: what was walked, and the hash the next head must name. *)
Definition walk_one (st : Walked.t * option bytes) (v : Z)
    : result WalkError (Walked.t * option bytes) :=
  let '(w, prev) := st in
  m ← manifest v;
  revoked ← ok_or (withdrawn (signer_of m)) LedgerFailed;
  let hash := SignedSnapshotManifestV2.head_hash sha256 m in
  let w := Walked.push_read v hash w in
  if v =? Bound.version b then
    w ← pinned_head v m revoked w;
    mret (w, prev)
  else
    w ← new_head v m revoked prev w;
    mret (w, Some hash).

Fixpoint walk_over (st : Walked.t * option bytes) (vs : list Z)
    : result WalkError (Walked.t * option bytes) :=
  match vs with
  | [] => Ok st
  | v :: vs => st ← walk_one st v; walk_over st vs
  end.

(** [lo..=hi] *)
Definition range (lo hi : Z) : list Z := seqZ lo (hi - lo + 1).

Definition walk (head : FleetProfileHeadV2.t) : result WalkError Walked.t :=
  '(w, prev) ← walk_over (Walked.default, Bound.head b)
    (range (Z.max (Bound.version b) 1) (FleetProfileHeadV2.current_version head));
  _ ← checked [("current_signed_head_hash",
                bool_decide (prev = FleetProfileHeadV2.current_signed_head_hash head))]
        (refused_in_walk w);
  mret w.

(** ** Pulling *)

(** [listed], for the epoch and the entry of the profile in the listing. *)
Definition listed (epoch : Z) (entry : option FleetProfileHeadV2.t)
    : result WalkError FleetProfileHeadV2.t :=
  if negb (epoch =? Bound.epoch b) then Err (other_epoch b epoch)
  else
    p ← ok_or entry (Refused "sync.profileNotListed");
    let current := FleetProfileHeadV2.current_version p in
    if (current <? Bound.version b)
       || ((current =? Bound.version b)
           && negb (bool_decide (FleetProfileHeadV2.current_signed_head_hash p = Bound.head b)))
    then Err (Quarantined "HEAD_ROLLBACK_DETECTED" "sync.headRollback")
    else Ok p.

(** What [pull] does with what was walked: it keeps the open run and the quarantine, and
    restores [P] first if it is past the pin; or it restores and pins the listed head,
    which lifts the quarantine if a run was accepted. *)
Inductive Pull :=
| HoldOpen (p : option (Link.t * SnapshotManifestV2.t))
| PullHead (at_ : Link.t) (p : SnapshotManifestV2.t) (lift : bool).

Definition pull_walked (error : option string) (w : Walked.t) : result WalkError Pull :=
  if negb (vec_is_empty (Walked.open_ w)) then
    Ok (HoldOpen
          match Walked.anchor w with
          | Some (at_, p) => if Bound.version b <? Link.version at_ then Some (at_, p) else None
          | None => None
          end)
  else if bool_decide (error = Some "SIGNER_REVOKED") && vec_is_empty (Walked.accepted w)
  then Err (Refused "sync.signerRevoked")
  else
    '(at_, p) ← ok_or (Walked.anchor w) (BadHead "manifest");
    mret (PullHead at_ p (negb (vec_is_empty (Walked.accepted w)))).

(** [pull] from the listing it takes to what it restores; [error] is the binding's. *)
Definition pull (error : option string) (epoch : Z) (entry : option FleetProfileHeadV2.t)
    : result WalkError Pull :=
  head ← listed epoch entry;
  if FleetProfileHeadV2.current_version head =? 0
  then Err (Refused "profile.theTeamServerHasNoSnapshotForThisProfi")
  else
    w ← walk head;
    pull_walked error w.

End walk.
