(* ===== verification/HeadWalkTheorems.v ===== *)
(** * Which head a device pulls: the theorems

    The walk follows the chain of signed heads and nothing else; what it resolves to is
    determined by the standing of their signers; two servers cannot show one device two
    histories below one head. *)

From S2P Require Import Prelude Bytes Canonical CanonicalTheorems AuthzPayloads AuthzRecord.
From S2P Require Import TrustEvidence TrustChain RecordFields WireMap Keys ProfileLease.

From S2P Require Import SnapshotV2 SnapshotV2Facts SnapshotV2Theorems Publish HeadWalk.

Lemma checked_ok checks refuse :
  checked checks refuse = Ok tt <-> Forall (fun check => check.2 = true) checks.
Proof.
  unfold checked. rewrite <- first_unequal_none. by destruct (first_unequal checks).
Qed.

Lemma checked_one field c refuse : checked [(field, c)] refuse = Ok tt <-> c = true.
Proof. rewrite checked_ok, Forall_cons, Forall_nil. naive_solver. Qed.

Lemma checked_safe checks refuse : safe (checked checks refuse).
Proof. unfold checked. intros c. by destruct (first_unequal checks). Qed.

Lemma vec_is_empty_true {A} (l : list A) : vec_is_empty l = true <-> l = [].
Proof. by destruct l. Qed.

(** The head under the next one. *)
Definition below (w : Walked.t) : option Link.t :=
  match last (Walked.open_ w) with Some l => Some l | None => fst <$> Walked.anchor w end.

(** [w] was walked to version [v], whose head is [prev]. *)
Definition joined (w : Walked.t) (v : Z) (prev : option bytes) : Prop :=
  match below w with
  | Some l => Link.version l = v /\ prev = Some (Link.hash l)
  | None => v = 0 /\ prev = None
  end.

(** What a head whose signer is withdrawn or in order does to what was walked. *)
Definition extend (w : Walked.t) (head : Link.t * SnapshotManifestV2.t) : Walked.t :=
  let '(link, p) := head in
  let w := Walked.push_read (Link.version link) (Link.hash link) w in
  if decide (Link.standing link = Standing.Withdrawn)
  then Walked.set_open (Walked.open_ w ++ [link]) w
  else if vec_is_empty (Walked.open_ w) then Walked.set_anchor link p w
  else Walked.set_anchor link p
         (Walked.set_open []
            (Walked.push_accepted
               (Run.mk (Walked.anchor_head w) (Walked.open_ w) (Some (Link.hash link))) w)).

Lemma joined_extend w link p :
  joined (extend w (link, p)) (Link.version link) (Some (Link.hash link)).
Proof.
  unfold joined, below, extend. case_decide.
  - cbn. by rewrite last_snoc.
  - destruct (vec_is_empty _) eqn:E; [|done]. apply vec_is_empty_true in E. cbn in *. by rewrite E.
Qed.

(** On a walk that is joined, the chain can have no gap. *)
Lemma follow_ok w v prev link p w' :
  joined w (v - 1) prev -> Link.version link = v -> Link.base link + 1 = v ->
  Link.previous link = prev ->
  follow (Walked.push_read v (Link.hash link) w) link p = Ok w' <->
  (Link.standing link = Standing.Withdrawn \/ Link.standing link = Standing.Valid)
  /\ w' = extend w (link, p).
Proof.
  intros Hj <- Hb Hp. unfold follow, revert_rule. cbn [Walked.open_ Walked.anchor Walked.push_read].
  fold (below w). unfold joined in Hj.
  assert ((Link.version link =? match below w with Some l => Link.version l + 1 | None => 1 end)
          = true) as -> by (apply Z.eqb_eq; destruct (below w); lia).
  assert (bool_decide (Link.previous link = Link.hash <$> below w) = true) as ->.
  { apply bool_decide_eq_true. rewrite Hp. destruct (below w); naive_solver. }
  rewrite (proj2 (Z.eqb_eq _ _) Hb). cbn [negb orb]. unfold extend.
  destruct (Link.standing link) eqn:Es; cbn [Walked.open_ Walked.push_read].
  - rewrite decide_True by done. naive_solver.
  - naive_solver.
  - naive_solver.
  - rewrite decide_False by done.
    case_match eqn:E; case_match eqn:E2; try discriminate; case_match; naive_solver.
Qed.

Lemma listed_ok b epoch entry head :
  listed b epoch entry = Ok head <->
  epoch = Bound.epoch b /\ entry = Some head
  /\ Bound.version b <= FleetProfileHeadV2.current_version head
  /\ (FleetProfileHeadV2.current_version head = Bound.version b ->
      FleetProfileHeadV2.current_signed_head_hash head = Bound.head b).
Proof.
  unfold listed. destruct (Z.eqb_spec epoch (Bound.epoch b)) as [->|]; cbn [negb]; [|naive_solver].
  split.
  - intros (p & Hp%ok_or_ok & H)%result_bind_ok. case_match eqn:E; [done|]. injection H as ->.
    apply orb_false_iff in E as [E1%Z.ltb_ge E2%andb_false_iff]. split_and!; try done. intros Hv.
    destruct E2 as [E2%Z.eqb_neq|E2%negb_false_iff%bool_decide_eq_true]; [lia|done].
  - intros (_ & -> & Hle & Hh). cbn [ok_or mbind result_bind]. rewrite (proj2 (Z.ltb_ge _ _) Hle).
    destruct (Z.eqb_spec (FleetProfileHeadV2.current_version head) (Bound.version b)); cbn; [|done].
    by rewrite bool_decide_true by auto.
Qed.

Section walk.
Context `{HE : !Ed25519} (sha256 : bytes -> bytes).
Context (sha256_length : forall x, length (sha256 x) = 32%nat).
Context (served : Z -> option bytes) (withdrawn : bytes -> option bool).
Context (chain : TrustChain.t) (keys : gmap KeyId bytes) (b : Bound.t) (now : Z).
Abbreviation manifest := (manifest sha256 served).
Abbreviation head_hash := (SignedSnapshotManifestV2.head_hash sha256).
Abbreviation payload := SignedSnapshotManifestV2.payload.

Lemma manifest_parsed v m :
  manifest v = Ok m <->
  exists body, served v = Some body /\ SignedSnapshotManifestV2.parse sha256 body = Ok m.
Proof.
  unfold HeadWalk.manifest. split.
  - intros (body & Hs%ok_or_ok & Hp%map_err_ok)%result_bind_ok. by exists body.
  - intros (body & Hs & Hp). rewrite Hs. cbn. by rewrite Hp.
Qed.

(** The payload is the one the container was parsed with. *)
Lemma payload_of_parsed v m : manifest v = Ok m -> payload_of m = Ok (payload m).
Proof.
  intros (body & _ & (p & sig & Hp & _ & -> & _)%signed_parse_iff)%manifest_parsed; [|done].
  unfold payload_of. apply map_err_ok. pose proof (manifest_payload_size p Hp) as Hs.
  change (SignedSnapshotManifestV2.canonical_manifest_payload_bytes _) with (SnapshotManifestV2.encode p).
  apply manifest_parse_iff; [|done].
  unfold MAX_MANIFEST_PAYLOAD_BYTES, USIZE_MAX, U64_MAX in *. lia.
Qed.

Definition standing (signer : bytes) (s : Standing.t) : Prop :=
  exists revoked, withdrawn signer = Some revoked
    /\ standing_of chain b now signer revoked = s.

(** A head above the pin that the walk follows. *)
Record head_ok (v : Z) (prev : option bytes) (m : SignedSnapshotManifestV2.t)
    (s : Standing.t) : Prop := {
  ho_manifest : manifest v = Ok m;
  ho_signed : exists pk, keys !! signer_of m = Some pk
    /\ SignedSnapshotManifestV2.check_signature sha256 m pk = Ok tt;
  ho_binding : Forall (fun check => check.2 = true) (of_binding b (payload m));
  ho_version : SnapshotManifestV2.target_version (payload m) = v;
  ho_base : SnapshotManifestV2.base_version (payload m) + 1 = v;
  ho_previous : SnapshotManifestV2.previous_signed_head_hash (payload m) = prev;
  ho_epoch : SnapshotManifestV2.restore_epoch (payload m) = Bound.epoch b;
  ho_standing : standing (signer_of m) s;
  ho_follows : s = Standing.Withdrawn \/ s = Standing.Valid }.

Definition head_at (v : Z) (m : SignedSnapshotManifestV2.t) (s : Standing.t)
    : Link.t * SnapshotManifestV2.t := (link_of sha256 v m (payload m) s, payload m).

Abbreviation walk_one := (walk_one sha256 served withdrawn chain keys b now).
Abbreviation walk_over := (walk_over sha256 served withdrawn chain keys b now).
Abbreviation pinned_head := (pinned_head sha256 served withdrawn chain b now).
Abbreviation new_head := (new_head sha256 chain keys b now).

Lemma new_head_ok v m revoked prev w w' :
  joined w (v - 1) prev ->
  new_head v m revoked prev (Walked.push_read v (head_hash m) w) = Ok w' <->
  exists s, (exists pk, keys !! signer_of m = Some pk
      /\ SignedSnapshotManifestV2.check_signature sha256 m pk = Ok tt)
    /\ Forall (fun check => check.2 = true) (of_binding b (payload m))
    /\ SnapshotManifestV2.target_version (payload m) = v
    /\ SnapshotManifestV2.base_version (payload m) + 1 = v
    /\ SnapshotManifestV2.previous_signed_head_hash (payload m) = prev
    /\ SnapshotManifestV2.restore_epoch (payload m) = Bound.epoch b
    /\ standing_of chain b now (signer_of m) revoked = s
    /\ (s = Standing.Withdrawn \/ s = Standing.Valid) /\ w' = extend w (head_at v m s).
Proof.
  intros Hj. unfold HeadWalk.new_head. split.
  - intros (pk & Hk%ok_or_ok & H)%result_bind_ok.
    apply result_bind_ok in H as (vm & Hv%map_err_ok & H).
    unfold SignedSnapshotManifestV2.verify_signature in Hv.
    apply result_bind_ok in Hv as ([] & Hsig & [= <-]).
    cbn [SignedSnapshotManifestV2.verified_payload SignedSnapshotManifestV2.container] in H.
    apply result_bind_ok in H as ([] & Hc%checked_ok & H).
    apply Forall_app in Hc as [Hb Hc]. rewrite !Forall_cons, Forall_nil in Hc. cbn [snd] in Hc.
    rewrite andb_true_iff, !Z.eqb_eq, bool_decide_eq_true in Hc. destruct Hc as ((Ht & Hbase) & Hp & _).
    change (SignedSnapshotManifestV2.verified_payload _) with (payload m) in H.
    destruct (Z.eqb_spec (SnapshotManifestV2.restore_epoch (payload m)) (Bound.epoch b)) as [He|];
      cbn [negb] in H; [|done].
    apply (follow_ok w v prev (link_of sha256 v m (payload m) _) (payload m)) in H as [Hs ->]; try done.
    eexists. split_and!; [by exists pk|done..].
  - intros (s & (pk & Hk & Hsig) & Hb & Ht & Hbase & Hp & He & <- & Hs & ->).
    rewrite Hk. cbn [ok_or mbind result_bind]. unfold SignedSnapshotManifestV2.verify_signature.
    rewrite Hsig. cbn [map_err mbind result_bind mret result_ret].
    change (SignedSnapshotManifestV2.verified_payload _) with (payload m).
    rewrite (proj2 (checked_ok _ _)).
    + rewrite (proj2 (Z.eqb_eq _ _) He). cbn [negb].
      by apply (follow_ok w v prev (link_of sha256 v m (payload m) _) (payload m)).
    + apply Forall_app. split; [done|]. rewrite !Forall_cons, Forall_nil. cbn [snd].
      by rewrite andb_true_iff, !Z.eqb_eq, bool_decide_eq_true.
Qed.

Lemma walk_one_ok w prev v w' prev' :
  joined w (v - 1) prev -> v <> Bound.version b ->
  walk_one (w, prev) v = Ok (w', prev') <->
  exists m s, head_ok v prev m s /\ w' = extend w (head_at v m s) /\ prev' = Some (head_hash m).
Proof.
  intros Hj Hne. unfold HeadWalk.walk_one. rewrite (proj2 (Z.eqb_neq _ _) Hne). split.
  - intros (m & Hm & H)%result_bind_ok.
    apply result_bind_ok in H as (revoked & Hr%ok_or_ok & H).
    apply result_bind_ok in H as (w1 & (s & Hk & Hb & Ht & Hbase & Hp & He & Hst & Hs & ->)%new_head_ok & H);
      [|done].
    injection H as <- <-. exists m, s. split_and!; [|done..]. split; try done. by exists revoked.
  - intros (m & s & [Hm Hk Hb Ht Hbase Hp He (revoked & Hr & Hst) Hs] & -> & ->).
    rewrite Hm. cbn [mbind result_bind]. rewrite Hr. cbn [ok_or mbind result_bind].
    assert (new_head v m revoked prev (Walked.push_read v (head_hash m) w)
            = Ok (extend w (head_at v m s))) as ->; [|done].
    apply new_head_ok; [done|]. exists s. by split_and!.
Qed.

(** The heads from version [v] on, each on top of the one before. *)
Fixpoint heads_ok (v : Z) (prev : option bytes)
    (heads : list (SignedSnapshotManifestV2.t * Standing.t)) : Prop :=
  match heads with
  | [] => True
  | (m, s) :: rest => head_ok v prev m s /\ heads_ok (v + 1) (Some (head_hash m)) rest
  end.

Definition last_hash (prev : option bytes)
    (heads : list (SignedSnapshotManifestV2.t * Standing.t)) : option bytes :=
  match last heads with Some (m, _) => Some (head_hash m) | None => prev end.

Fixpoint heads_from (v : Z) (heads : list (SignedSnapshotManifestV2.t * Standing.t))
    : list (Link.t * SnapshotManifestV2.t) :=
  match heads with
  | [] => []
  | (m, s) :: rest => head_at v m s :: heads_from (v + 1) rest
  end.

Lemma last_hash_cons prev m s heads :
  last_hash prev ((m, s) :: heads) = last_hash (Some (head_hash m)) heads.
Proof. unfold last_hash. rewrite last_cons. by destruct (last heads) as [[]|]. Qed.

Lemma joined_next w v m s :
  joined (extend w (head_at v m s)) (v + 1 - 1) (Some (head_hash m)).
Proof.
  replace (v + 1 - 1) with v by lia. exact (joined_extend w (link_of sha256 v m (payload m) s) _).
Qed.

Lemma walk_over_ok n v w prev w' prev' :
  joined w (v - 1) prev -> Bound.version b < v ->
  walk_over (w, prev) (seqZ v (Z.of_nat n)) = Ok (w', prev') <->
  exists heads, heads_ok v prev heads /\ length heads = n
    /\ w' = foldl extend w (heads_from v heads) /\ prev' = last_hash prev heads.
Proof.
  revert v w prev. induction n as [|n IH]; intros v w prev Hj Hlt.
  - change (seqZ v (Z.of_nat 0)) with (@nil Z). cbn. split.
    + intros [= <- <-]. by exists [].
    + intros ([] & _ & [=] & -> & ->). done.
  - rewrite seqZ_cons by lia. rewrite <- Z.add_1_r. replace (Z.pred (Z.of_nat (S n))) with (Z.of_nat n) by lia.
    cbn [HeadWalk.walk_over]. split.
    + intros ([w1 prev1] & (m & s & Hh & -> & ->)%walk_one_ok & H)%result_bind_ok; [|done|lia].
      apply IH in H as (heads & Hok & <- & -> & ->); [|apply joined_next|lia].
      exists ((m, s) :: heads). by rewrite last_hash_cons.
    + intros ([|[m s] heads] & Hok & [= Hn] & -> & ->). destruct Hok as [Hh Hok].
      assert (walk_one (w, prev) v = Ok (extend w (head_at v m s), Some (head_hash m))) as ->.
      { apply walk_one_ok; [done|lia|]. by exists m, s. }
      cbn [mbind result_bind]. apply IH; [apply joined_next|lia|].
      exists heads. by rewrite last_hash_cons.
Qed.

(** ** What a walk resolves to *)

Definition on_top (base : option (Z * bytes)) (l : Link.t) : Prop :=
  match base with
  | Some (v, hash) => Link.version l = v + 1 /\ Link.previous l = Some hash
  | None => Link.version l = 1 /\ Link.previous l = None
  end.

Definition at_ (l : Link.t) : Z * bytes := (Link.version l, Link.hash l).

(** Each link on top of the one before, the first on [base]. *)
Fixpoint stacked (base : option (Z * bytes)) (ls : list Link.t) : Prop :=
  match ls with
  | [] => True
  | l :: rest => on_top base l /\ stacked (Some (at_ l)) rest
  end.

Definition top_of (base : option (Z * bytes)) (ls : list Link.t) : option (Z * bytes) :=
  match last ls with Some l => Some (at_ l) | None => base end.

Lemma stacked_snoc base ls l :
  stacked base (ls ++ [l]) <-> stacked base ls /\ on_top (top_of base ls) l.
Proof.
  unfold top_of. revert base. induction ls as [|k ls IH]; intros base; [cbn; tauto|].
  cbn [stacked app]. rewrite IH, last_cons. destruct (last ls); tauto.
Qed.

(** The link of a manifest that was served, as its signer stands. *)
Definition is_link (l : Link.t) (p : SnapshotManifestV2.t) : Prop :=
  exists m, manifest (Link.version l) = Ok m /\ p = payload m
    /\ l = link_of sha256 (Link.version l) m p (Link.standing l).

(** A head no device pulls: its signer is proven revoked. *)
Definition skipped (l : Link.t) : Prop :=
  (exists p, is_link l p) /\ withdrawn (Link.signer l) = Some true
  /\ Link.standing l = Standing.Withdrawn.

(** A head to pull: its signer is neither withdrawn nor reported and, when the head is new,
    approved in the fleet and granted [profile.commit]. *)
Definition pulled (l : Link.t) (p : SnapshotManifestV2.t) : Prop :=
  is_link l p /\ withdrawn (Link.signer l) = Some false
  /\ TrustChain.reported_revoked_at chain (Link.signer l) now = false
  /\ (Bound.version b < Link.version l ->
      exists prev m, head_ok (Link.version l) prev m Standing.Valid /\ p = payload m
        /\ TrustChain.approval_valid_at chain (Link.signer l) (Scope.Fleet (Bound.fleet b)) now = true
        /\ exists scope, scope ∈ [Scope.Profile (Bound.profile b); Scope.Fleet (Bound.fleet b)]
             /\ TrustChain.capability_at chain (Link.signer l) Capability.ProfileCommit scope now = true).

(** A run that was skipped: heads of withdrawn signers, stacked on its anchor, under a head
    to pull. *)
Definition closed (r : Run.t) : Prop :=
  Run.heads r <> [] /\ stacked (Run.anchor r) (Run.heads r) /\ Forall skipped (Run.heads r)
  /\ exists l p, pulled l p /\ Run.by_ r = Some (Link.hash l)
       /\ on_top (top_of (Run.anchor r) (Run.heads r)) l.

Record resolved (w : Walked.t) (v : Z) (head : option bytes) : Prop := {
  rs_top : top_of (Walked.anchor_head w) (Walked.open_ w)
           = (if v =? 0 then None else pair v <$> head);
  rs_stacked : stacked (Walked.anchor_head w) (Walked.open_ w);
  rs_open : Forall skipped (Walked.open_ w);
  rs_anchor : forall l p, Walked.anchor w = Some (l, p) -> pulled l p;
  rs_runs : Forall closed (Walked.accepted w) }.

Lemma top_below w :
  top_of (Walked.anchor_head w) (Walked.open_ w) = at_ <$> below w.
Proof.
  unfold top_of, below, Walked.anchor_head. destruct (last (Walked.open_ w)); [done|].
  by destruct (Walked.anchor w) as [[l p]|].
Qed.

Lemma joined_on_top w v prev l :
  joined w (v - 1) prev -> Link.version l = v -> Link.previous l = prev ->
  on_top (top_of (Walked.anchor_head w) (Walked.open_ w)) l.
Proof.
  rewrite top_below. unfold joined, on_top. intros Hj <- <-. destruct (below w) as [k|]; cbn.
  - destruct Hj as [Hv ->]. split; [lia|done].
  - destruct Hj as [Hv ->]. split; [lia|done].
Qed.

Lemma standing_valid signer revoked :
  standing_of chain b now signer revoked = Standing.Valid ->
  revoked = false /\ TrustChain.reported_revoked_at chain signer now = false
  /\ TrustChain.approval_valid_at chain signer (Scope.Fleet (Bound.fleet b)) now = true
  /\ exists scope, scope ∈ [Scope.Profile (Bound.profile b); Scope.Fleet (Bound.fleet b)]
       /\ TrustChain.capability_at chain signer Capability.ProfileCommit scope now = true.
Proof.
  unfold standing_of. destruct revoked; [done|]. case_match; [done|]. case_match eqn:E; [done|].
  intros _. apply orb_false_iff in E as [Ha%negb_false_iff Hc%negb_false_iff].
  apply orb_true_iff in Hc as [Hc|Hc]; split_and!; try done;
    (eexists; split; [|exact Hc]); set_solver.
Qed.

Lemma head_pulled v prev m :
  head_ok v prev m Standing.Valid -> pulled (link_of sha256 v m (payload m) Standing.Valid) (payload m).
Proof.
  intros Hh. destruct (ho_standing _ _ _ _ Hh) as (revoked & Hr & Hs).
  apply standing_valid in Hs as (-> & Hrep & Ha & Hc). split_and!; [|done|done|].
  - exists m. split_and!; [apply Hh|done|done].
  - intros _. exists prev, m. by split_and!.
Qed.

Lemma head_skipped v prev m :
  head_ok v prev m Standing.Withdrawn -> skipped (link_of sha256 v m (payload m) Standing.Withdrawn).
Proof.
  intros Hh. destruct (ho_standing _ _ _ _ Hh) as (revoked & Hr & Hs). split_and!; [| |done].
  - exists (payload m), m. split_and!; [apply Hh|done|done].
  - cbn [Link.signer link_of]. rewrite Hr. f_equal. unfold standing_of in Hs.
    destruct revoked; [done|]. by repeat case_match.
Qed.

Lemma extend_resolved w v prev m s :
  joined w (v - 1) prev -> resolved w (v - 1) prev -> head_ok v prev m s -> 0 < v ->
  resolved (extend w (head_at v m s)) v (Some (head_hash m)).
Proof.
  intros Hj [_ Hst Hop Han Hru] Hh Hv.
  assert (on_top (top_of (Walked.anchor_head w) (Walked.open_ w))
            (link_of sha256 v m (payload m) s)) as Hon
    by (apply (joined_on_top w v prev); [done|done|apply Hh]).
  assert (forall w', joined w' (v + 1 - 1) (Some (head_hash m)) ->
    top_of (Walked.anchor_head w') (Walked.open_ w')
    = (if v =? 0 then None else pair v <$> Some (head_hash m))) as Htop.
  { intros w' Hj'. rewrite top_below, (proj2 (Z.eqb_neq _ _)) by lia. unfold joined in Hj'.
    destruct (below w') as [k|]; [|by destruct Hj']. destruct Hj' as [Hk [= ->]]. cbn. unfold at_.
    do 2 f_equal. lia. }
  split; [apply Htop, joined_next|..]; clear Htop; unfold extend, head_at;
    destruct (ho_follows _ _ _ _ Hh) as [-> | ->].
  all: first [rewrite decide_True by done | rewrite decide_False by done].
  all: try destruct (vec_is_empty _) eqn:E.
  all: try apply vec_is_empty_true in E; cbn [Walked.open_ Walked.push_read] in *.
  - apply stacked_snoc. by split.
  - cbn [Walked.open_ Walked.set_anchor Walked.push_read]. by rewrite E.
  - done.
  - apply Forall_app_2; [done|apply Forall_singleton]. by eapply head_skipped.
  - cbn [Walked.open_ Walked.set_anchor Walked.push_read]. by rewrite E.
  - by apply Forall_nil.
  - done.
  - cbn. intros l p [= <- <-]. by eapply head_pulled.
  - cbn. intros l p [= <- <-]. by eapply head_pulled.
  - done.
  - done.
  - cbn. apply Forall_app_2; [done|apply Forall_singleton]. split_and!; [|done|done|].
    + cbn. intros Hnil. by rewrite Hnil in E.
    + eexists _, _. split_and!; [by eapply head_pulled|done|done].
Qed.

Lemma heads_resolved heads w v prev :
  joined w (v - 1) prev -> resolved w (v - 1) prev -> heads_ok v prev heads -> 0 < v ->
  resolved (foldl extend w (heads_from v heads)) (v - 1 + blen heads) (last_hash prev heads).
Proof.
  revert w v prev. induction heads as [|[m s] heads IH]; intros w v prev Hj Hr Hh Hv.
  - by replace (v - 1 + blen []) with (v - 1) by (unfold blen; cbn; lia).
  - destruct Hh as [Hh Hrest]. rewrite last_hash_cons. cbn [heads_from foldl].
    replace (v - 1 + blen ((m, s) :: heads)) with (v + 1 - 1 + blen heads)
      by (unfold blen; cbn [length]; lia).
    apply IH; [apply joined_next| |done|lia].
    replace (v + 1 - 1) with v by lia. by apply (extend_resolved _ _ prev).
Qed.

(** ** The pin *)

(** Where the walk starts above the pin: nowhere, or what the pinned head resolves to. *)
Definition start (w : Walked.t) : Prop :=
  if Bound.version b =? 0 then w = Walked.default
  else exists m revoked, manifest (Bound.version b) = Ok m
    /\ withdrawn (signer_of m) = Some revoked
    /\ pinned_head (Bound.version b) m revoked
         (Walked.push_read (Bound.version b) (head_hash m) Walked.default) = Ok w.

Abbreviation go_back := (go_back sha256 served withdrawn chain now).

Lemma go_back_ok n w w' first rest :
  go_back n w = Ok w' -> Walked.anchor w = None -> Walked.open_ w = first :: rest ->
  Link.version first = Z.of_nat n + 1 -> stacked (Some (at_ first)) rest ->
  Forall skipped (Walked.open_ w) -> Z.of_nat n < Bound.version b ->
  exists first' rest', Walked.open_ w' = first' :: rest'
    /\ last (Walked.open_ w') = last (Walked.open_ w) /\ stacked (Some (at_ first')) rest'
    /\ Forall skipped (Walked.open_ w') /\ Walked.accepted w' = Walked.accepted w
    /\ match Walked.anchor w' with
       | Some (l, p) => pulled l p /\ on_top (Some (at_ l)) first'
       | None => Link.version first' = 1
       end.
Proof.
  revert w first rest. induction n as [|n IH]; intros w first rest H Han Hop Hv Hst Hsk Hlt.
  - injection H as <-. exists first, rest. rewrite Han. split_and!; try done.
  - cbn [HeadWalk.go_back] in H. apply result_bind_ok in H as (m & Hm & H). rewrite Hop in H.
    cbn [mbind result_bind] in H.
    apply result_bind_ok in H as ([] & Hprev%checked_one%bool_decide_eq_true & H).
    rewrite (payload_of_parsed _ _ Hm) in H. cbn [mbind result_bind] in H.
    apply result_bind_ok in H as ([] & Ht%checked_one%Z.eqb_eq & H).
    apply result_bind_ok in H as (revoked & Hr%ok_or_ok & H).
    set (u := Z.of_nat (S n)) in *.
    assert (forall s, is_link (link_of sha256 u m (payload m) s) (payload m)) as Hlink
      by (intros s; by exists m).
    assert (forall s, on_top (Some (at_ (link_of sha256 u m (payload m) s))) first) as Hon
      by (intros s; split; [cbn; lia|by rewrite <- Hprev]).
    destruct revoked; cbv iota in H.
    + apply IH with (first := link_of sha256 u m (payload m) Standing.Withdrawn) (rest := first :: rest) in H
        as (first' & rest' & H1 & H2 & H3 & H4 & H5 & H6); cbn [Walked.open_ Walked.set_open].
      * exists first', rest'. split_and!; try done. rewrite H2. cbn [Walked.open_ Walked.set_open Walked.push_read]. rewrite Hop, !last_cons. by destruct (last rest).
      * done.
      * by rewrite <- Hop.
      * cbn. unfold u. lia.
      * split; [apply Hon|done].
      * apply Forall_cons. split; [|done]. split_and!; [by eexists|done|done].
      * lia.
    + destruct (TrustChain.reported_revoked_at _ _ _) eqn:Hrep; [done|]. injection H as <-.
      exists first, rest. split_and!; try done. split; [|apply Hon].
      split_and!; [apply Hlink|done|done|]. cbn. unfold u. lia.
Qed.

Lemma start_resolved w :
  0 <= Bound.version b -> (Bound.version b = 0 -> Bound.head b = None) -> start w ->
  joined w (Bound.version b) (Bound.head b) /\ resolved w (Bound.version b) (Bound.head b).
Proof.
  intros H0 Hempty Hs. unfold start in Hs. destruct (Z.eqb_spec (Bound.version b) 0) as [Hz|Hz].
  { subst w. rewrite Hz, (Hempty Hz). split; [done|]. split; try done; by apply Forall_nil. }
  destruct Hs as (m & revoked & Hm & Hr & H). unfold HeadWalk.pinned_head in H.
  apply result_bind_ok in H as ([] & Hhash%checked_one%bool_decide_eq_true & H).
  set (v := Bound.version b) in *. rewrite <- Hhash.
  assert (forall w, joined w v (Some (head_hash m)) ->
    top_of (Walked.anchor_head w) (Walked.open_ w)
    = (if v =? 0 then None else pair v <$> Some (head_hash m))) as Htop.
  { intros w' Hj. rewrite top_below, (proj2 (Z.eqb_neq _ _) Hz). unfold joined in Hj.
    destruct (below w') as [k|]; [|by destruct Hj]. destruct Hj as [<- [= ->]]. done. }
  destruct revoked; cbn [negb andb] in H.
  - rewrite (payload_of_parsed _ _ Hm) in H. cbn [mbind result_bind] in H.
    apply result_bind_ok in H as ([] & _ & H).
    apply result_bind_ok in H as (w1 & Hback & H). cbn [Walked.open_ Walked.push_read Walked.default app] in Hback.
    set (pin := link_of sha256 v m (payload m) Standing.Withdrawn) in *.
    apply go_back_ok with (first := pin) (rest := []) in Hback
      as (first & rest & Hop & Hlast & Hst & Hsk & Hacc & Han); [|done|done|cbn; lia|done| |lia].
    2:{ apply Forall_singleton. split_and!; [exists (payload m); by exists m|done|done]. }
    rewrite Hop in H. cbn [mbind result_bind] in H.
    apply result_bind_ok in H as ([] & Hfirst%checked_one%negb_true_iff & H). injection H as ->.
    cbn in Hlast. assert (joined w v (Some (head_hash m))) as Hj.
    { unfold joined, below. rewrite Hlast. done. }
    split; [done|]. split; [by apply Htop| |done| |by rewrite Hacc; apply Forall_nil].
    + rewrite Hop. split; [|done]. unfold Walked.anchor_head.
      destruct (Walked.anchor w) as [[l p]|]; [apply Han|]. split; [done|].
      by destruct (Link.previous first).
    + intros l p Hlp. rewrite Hlp in Han. apply Han.
  - destruct (TrustChain.reported_revoked_at _ _ _) eqn:Hrep in H; [done|].
    rewrite (payload_of_parsed _ _ Hm) in H. cbn [mbind result_bind] in H.
    apply result_bind_ok in H as ([] & _ & H). injection H as <-.
    assert (joined (Walked.set_anchor (link_of sha256 v m (payload m) Standing.Valid) (payload m)
      (Walked.push_read v (head_hash m) Walked.default)) v (Some (head_hash m))) as Hj by done.
    split; [done|]. split; [by apply Htop|done|by apply Forall_nil| |by apply Forall_nil].
    cbn. intros l p [= <- <-]. split_and!; [by exists m|done|done|]. cbn. lia.
Qed.

(** ** The walk *)

Abbreviation walk := (walk sha256 served withdrawn chain keys b now).

Lemma walk_ok head w :
  let current := FleetProfileHeadV2.current_version head in
  0 <= Bound.version b <= current -> (Bound.version b = 0 -> Bound.head b = None) ->
  walk head = Ok w <->
  exists w0 heads, start w0 /\ heads_ok (Bound.version b + 1) (Bound.head b) heads
    /\ blen heads = current - Bound.version b
    /\ w = foldl extend w0 (heads_from (Bound.version b + 1) heads)
    /\ last_hash (Bound.head b) heads = FleetProfileHeadV2.current_signed_head_hash head.
Proof.
  intros current [H0 Hle] Hempty. unfold HeadWalk.walk. fold current.
  set (n := Z.to_nat (current - Bound.version b)).
  assert (forall w0 w prev, joined w0 (Bound.version b) (Bound.head b) ->
    walk_over (w0, Bound.head b) (seqZ (Bound.version b + 1) (Z.of_nat n)) = Ok (w, prev) <->
    exists heads, heads_ok (Bound.version b + 1) (Bound.head b) heads
      /\ blen heads = current - Bound.version b
      /\ w = foldl extend w0 (heads_from (Bound.version b + 1) heads)
      /\ prev = last_hash (Bound.head b) heads) as Hover.
  { intros w0 w' prev Hj. rewrite walk_over_ok; [|by rewrite Z.add_simpl_r|lia].
    unfold blen, n. split; intros (heads & ? & ? & ? & ?); exists heads; split_and!; try done; lia. }
  assert (forall st, walk_over (Walked.default, Bound.head b)
            (range (Z.max (Bound.version b) 1) current) = Ok st <->
          exists w0, start w0 /\ walk_over (w0, Bound.head b)
            (seqZ (Bound.version b + 1) (Z.of_nat n)) = Ok st) as Hstart.
  { intros st. unfold start, range. destruct (Z.eqb_spec (Bound.version b) 0) as [Hz|Hz].
    - rewrite Hz. replace (current - Z.max 0 1 + 1) with (Z.of_nat n) by (unfold n; lia).
      change (Z.max 0 1) with (0 + 1). split; [by exists Walked.default|]. by intros (? & -> & ?).
    - rewrite Z.max_l, seqZ_cons by lia. rewrite <- Z.add_1_r.
      replace (Z.pred (current - Bound.version b + 1)) with (Z.of_nat n) by (unfold n; lia).
      cbn [HeadWalk.walk_over]. unfold HeadWalk.walk_one at 1. rewrite Z.eqb_refl. split.
      + intros (st1 & H & Hw)%result_bind_ok. apply result_bind_ok in H as (m & Hm & H).
        apply result_bind_ok in H as (revoked & Hr%ok_or_ok & H).
        apply result_bind_ok in H as (w0 & Hp & [= <-]). exists w0. split; [|done].
        by exists m, revoked.
      + intros (w0 & (m & revoked & Hm & Hr & Hp) & Hw). rewrite Hm. cbn [mbind result_bind].
        rewrite Hr. cbn [ok_or mbind result_bind]. rewrite Hp. done. }
  split.
  - intros ([w1 prev] & (w0 & Hs & Hw)%Hstart & H)%result_bind_ok.
    apply Hover in Hw as (heads & Hh & Hl & -> & ->); [|by apply start_resolved].
    apply result_bind_ok in H as ([] & Hc%checked_one%bool_decide_eq_true & [= <-]).
    by exists w0, heads.
  - intros (w0 & heads & Hs & Hh & Hl & -> & Hc).
    assert (walk_over (Walked.default, Bound.head b) (range (Z.max (Bound.version b) 1) current)
      = Ok (foldl extend w0 (heads_from (Bound.version b + 1) heads), last_hash (Bound.head b) heads)) as ->.
    { apply Hstart. exists w0. split; [done|]. apply Hover; [by apply start_resolved|]. by exists heads. }
    cbn [mbind result_bind]. by rewrite (proj2 (checked_one _ _ _)) by by apply bool_decide_eq_true.
Qed.

(** C15. The walk accepts a listed head exactly when the server serves an unbroken chain to it:
    each head above the pin is signed under a listed key with the identifier it names, is
    of this binding, its epoch and its version, names the hash of the one below, and has a
    signer proven revoked or in order; the last one is the head listed. What it makes of
    them is the fold of [extend] from where the pin stands. *)
Theorem walk_exact head w :
  let current := FleetProfileHeadV2.current_version head in
  0 <= Bound.version b <= current -> (Bound.version b = 0 -> Bound.head b = None) ->
  walk head = Ok w <->
  exists w0 heads, start w0 /\ heads_ok (Bound.version b + 1) (Bound.head b) heads
    /\ blen heads = current - Bound.version b
    /\ w = foldl extend w0 (heads_from (Bound.version b + 1) heads)
    /\ last_hash (Bound.head b) heads = FleetProfileHeadV2.current_signed_head_hash head.
Proof. apply walk_ok. Qed.

Lemma walk_resolved head w :
  let current := FleetProfileHeadV2.current_version head in
  0 <= Bound.version b <= current -> (Bound.version b = 0 -> Bound.head b = None) ->
  walk head = Ok w ->
  resolved w current (FleetProfileHeadV2.current_signed_head_hash head).
Proof.
  intros current [H0 Hle] Hempty
    (w0 & heads & Hs & Hh & Hl & -> & <-)%walk_ok; [|by split|done].
  destruct (start_resolved w0 H0 Hempty Hs) as [Hj Hr].
  replace current with (Bound.version b + 1 - 1 + blen heads) by (unfold current; lia).
  apply heads_resolved; [by rewrite Z.add_simpl_r|by rewrite Z.add_simpl_r|done|lia].
Qed.

(** C12. What a walk resolves to: its anchor is a head to pull (a signer neither withdrawn nor
    reported and, for a new head, approved and granted [profile.commit]); the open run
    stacks on it up to the listed head and is of withdrawn signers only; every accepted run
    is of withdrawn signers too, stacked on its own anchor, and closed by a head to pull. *)
Theorem walk_resolves head w :
  let current := FleetProfileHeadV2.current_version head in
  0 <= Bound.version b <= current -> (Bound.version b = 0 -> Bound.head b = None) ->
  walk head = Ok w ->
  resolved w current (FleetProfileHeadV2.current_signed_head_hash head).
Proof. apply walk_resolved. Qed.

(** *** Pulling *)

Lemma stacked_above v hash ls k :
  stacked (Some (v, hash)) ls -> last ls = Some k -> v < Link.version k.
Proof.
  revert v hash. induction ls as [|l ls IH]; intros v hash Hst Hl; [done|].
  destruct Hst as [[Hv _] Hst]. destruct ls as [|l' ls].
  - cbn in Hl. injection Hl as <-. lia.
  - rewrite last_cons_cons in Hl. specialize (IH _ _ Hst Hl). lia.
Qed.

(** C14. A pull never goes back and never pins a head it should not: it restores and pins the
    listed head itself, at or above the pinned version, or, when revoked signers hold the
    top, only a head above the pin and below the listed one; either is a head to pull. A
    [SIGNER_REVOKED] quarantine is lifted by an accepted revert only. *)
Theorem pull_moves_forward error epoch entry out :
  0 <= Bound.version b -> (Bound.version b = 0 -> Bound.head b = None) ->
  pull sha256 served withdrawn chain keys b now error epoch entry = Ok out ->
  exists head w, entry = Some head /\ epoch = Bound.epoch b /\ walk head = Ok w
  /\ let current := FleetProfileHeadV2.current_version head in
     match out with
     | PullHead l p lift =>
         pulled l p /\ Walked.open_ w = [] /\ Bound.version b <= Link.version l
         /\ Link.version l = current
         /\ FleetProfileHeadV2.current_signed_head_hash head = Some (Link.hash l)
         /\ lift = negb (vec_is_empty (Walked.accepted w))
         /\ (error = Some "SIGNER_REVOKED"%string -> lift = true)
     | HoldOpen (Some (l, p)) =>
         pulled l p /\ Walked.open_ w <> [] /\ Bound.version b < Link.version l < current
     | HoldOpen None => Walked.open_ w <> []
     end.
Proof.
  intros H0 Hempty (head & (-> & -> & Hle & _)%listed_ok & H)%result_bind_ok.
  destruct (Z.eqb_spec (FleetProfileHeadV2.current_version head) 0) as [|Hne]; [done|].
  apply result_bind_ok in H as (w & Hw & H). exists head, w. split_and!; [done..|].
  destruct (walk_resolved head w (conj H0 Hle) Hempty Hw) as [Htop Hst _ Han _].
  rewrite (proj2 (Z.eqb_neq _ _) Hne) in Htop. unfold pull_walked in H.
  destruct (Walked.open_ w) as [|k ls] eqn:Hop; cbn [vec_is_empty negb] in H.
  - case_match eqn:E; [done|]. apply result_bind_ok in H as ([l p] & Hlp%ok_or_ok & [= <-]).
    unfold top_of, Walked.anchor_head in Htop. rewrite Hlp in Htop. cbn in Htop.
    destruct (FleetProfileHeadV2.current_signed_head_hash head) as [h|]; [|done].
    injection Htop as Hv Hhash. split_and!; [by apply Han|done|lia|done|by rewrite Hhash|done|].
    intros ->. rewrite bool_decide_true in E by done. by apply negb_true_iff.
  - injection H as <-. destruct (Walked.anchor w) as [[l p]|] eqn:Hlp; [|done].
    destruct (Z.ltb_spec (Bound.version b) (Link.version l)); [|done].
    split_and!; [by apply Han|done|lia|].
    unfold top_of, Walked.anchor_head in *. rewrite Hlp in Hst.
    cbn [fmap option_fmap option_map] in Hst.
    destruct (last (k :: ls)) as [top|] eqn:Ht; [|by apply last_None in Ht].
    pose proof (stacked_above _ _ _ _ Hst Ht). cbn in Htop.
    destruct (FleetProfileHeadV2.current_signed_head_hash head); [|done].
    injection Htop as Hv _. lia.
Qed.

(** *** No input makes it panic *)

Lemma snapshot_parse_safe exact : safe (SignedSnapshotManifestV2.parse sha256 exact).
Proof.
  unfold SignedSnapshotManifestV2.parse. case_match; [done|].
  apply safe_bind; [apply map_err_safe, wire_map_safe with ManifestContainer.put ManifestContainer.wf; apply _|].
  intros f _. unfold SignedSnapshotManifestV2.check. case_match; [done|]. case_match; [done|].
  apply safe_bind; [|intros p _; by case_match].
  apply map_err_safe, wire_map_safe with SnapshotManifestV2.put SnapshotManifestV2.wf; apply _.
Qed.

Lemma manifest_safe v : safe (manifest v).
Proof.
  apply safe_bind; [apply ok_or_safe|]. intros body _. apply map_err_safe, snapshot_parse_safe.
Qed.

Lemma go_back_safe n w :
  Walked.open_ w <> [] ->
  safe (go_back n w) /\ forall w', go_back n w = Ok w' -> Walked.open_ w' <> [].
Proof.
  revert w. induction n as [|n IH]; intros w Hw; cbn [HeadWalk.go_back].
  { split; [done|]. by intros w' [= <-]. }
  destruct (Walked.open_ w) as [|first rest] eqn:Hop; [done|]. split.
  - apply safe_bind; [apply manifest_safe|]. intros m Hm.
    apply safe_bind; [done|]. intros l _. apply safe_bind; [apply checked_safe|]. intros [] _.
    rewrite (payload_of_parsed _ _ Hm). apply safe_bind; [done|]. intros p _.
    apply safe_bind; [apply checked_safe|]. intros [] _. apply safe_bind; [apply ok_or_safe|].
    intros [] _; [by apply IH|by case_match].
  - intros w' H. apply result_bind_ok in H as (m & Hm & H). cbn [mbind result_bind] in H.
    apply result_bind_ok in H as (_ & _ & H). apply result_bind_ok in H as (p & _ & H).
    apply result_bind_ok in H as (_ & _ & H). apply result_bind_ok in H as (revoked & _ & H).
    destruct revoked; cbv iota in H; [by apply IH in H|]. case_match; [done|]. injection H as <-.
    cbn. by rewrite Hop.
Qed.

Lemma pinned_head_safe v m revoked w :
  manifest v = Ok m -> safe (pinned_head v m revoked w).
Proof.
  intros Hm. unfold HeadWalk.pinned_head. apply safe_bind; [apply checked_safe|]. intros [] _.
  case_match; [done|]. rewrite (payload_of_parsed _ _ Hm).
  apply safe_bind; [done|]. intros p _. apply safe_bind; [apply checked_safe|]. intros [] _.
  case_match; [done|].
  destruct (go_back_safe (Z.to_nat (v - 1)) (Walked.set_open (Walked.open_ w
    ++ [link_of sha256 v m p Standing.Withdrawn]) w)) as [Hs Hne]; [by destruct (Walked.open_ w)|].
  apply safe_bind; [done|]. intros w' Hw'%Hne. destruct (Walked.open_ w') as [|first rest]; [done|].
  apply safe_bind; [done|]. intros l _. apply safe_bind; [apply checked_safe|]. by intros [] _.
Qed.

Lemma walk_one_safe st v : safe (walk_one st v).
Proof.
  destruct st as [w prev]. unfold HeadWalk.walk_one. apply safe_bind; [apply manifest_safe|].
  intros m Hm. apply safe_bind; [apply ok_or_safe|]. intros revoked _. case_match.
  - apply safe_bind; [by apply pinned_head_safe|done].
  - apply safe_bind; [|done]. unfold HeadWalk.new_head. apply safe_bind; [apply ok_or_safe|].
    intros pk _. apply safe_bind.
    + apply map_err_safe. unfold SignedSnapshotManifestV2.verify_signature.
      apply safe_bind; [|done]. unfold SignedSnapshotManifestV2.check_signature.
      case_match; [done|]. apply map_err_safe. unfold verify_tbs, verify_message_strict.
      intros c. by repeat case_match.
    + intros vm _. apply safe_bind; [apply checked_safe|]. intros [] _. case_match; [done|].
      unfold follow. intros c. by repeat case_match.
Qed.

Lemma walk_safe_all head : safe (walk head).
Proof.
  unfold HeadWalk.walk. apply safe_bind.
  - generalize (Walked.default, Bound.head b). induction (range _ _) as [|v vs IH]; intros st; [done|].
    cbn [HeadWalk.walk_over]. apply safe_bind; [apply walk_one_safe|]. intros st' _. apply IH.
  - intros [w prev] _. apply safe_bind; [apply checked_safe|done].
Qed.

End walk.

(** ** Two servers *)

Section servers.
Context `{HE : !Ed25519} (sha256 : bytes -> bytes).
Context (sha256_length : forall x, length (sha256 x) = 32%nat).
Context (s1 s2 : Z -> option bytes) (withdrawn : bytes -> option bool).
Context (chain : TrustChain.t) (keys : gmap KeyId bytes) (b : Bound.t) (now : Z).
Abbreviation head_hash := (SignedSnapshotManifestV2.head_hash sha256).

(** Two different manifests of one version whose head hashes are the same: a collision. *)
Definition two_heads : Prop :=
  exists v m1 m2, manifest sha256 s1 v = Ok m1 /\ manifest sha256 s2 v = Ok m2
    /\ SignedSnapshotManifestV2.exact_bytes m1 <> SignedSnapshotManifestV2.exact_bytes m2
    /\ head_hash m1 = head_hash m2.

Lemma same_head v m1 m2 :
  manifest sha256 s1 v = Ok m1 -> manifest sha256 s2 v = Ok m2 -> head_hash m1 = head_hash m2 ->
  m1 = m2 \/ two_heads.
Proof.
  intros H1 H2 Hh.
  destruct (decide (SignedSnapshotManifestV2.exact_bytes m1 = SignedSnapshotManifestV2.exact_bytes m2))
    as [He|Hne]; [left|right; by exists v, m1, m2].
  apply manifest_parsed in H1 as (x1 & _ & [P1 <-]%parsed_iff), H2 as (x2 & _ & [P2 <-]%parsed_iff);
    [|done..].
  unfold parsed in *. rewrite He in P1. congruence.
Qed.

Lemma same_heads h1 h2 v p1 p2 :
  heads_ok sha256 s1 withdrawn chain keys b now v p1 h1 ->
  heads_ok sha256 s2 withdrawn chain keys b now v p2 h2 ->
  length h1 = length h2 -> last_hash sha256 p1 h1 = last_hash sha256 p2 h2 ->
  (h1 = h2 /\ p1 = p2) \/ two_heads.
Proof.
  revert h2 v p1 p2. induction h1 as [|[m1 t1] h1 IH]; intros [|[m2 t2] h2] v p1 p2 H1 H2 Hl He; try done.
  { by left. }
  destruct H1 as [H1 R1], H2 as [H2 R2]. rewrite !last_hash_cons in He. injection Hl as Hl.
  destruct (IH _ _ _ _ R1 R2 Hl He) as [[-> [= Hh]]|]; [|by right].
  destruct (same_head v m1 m2) as [->|]; [apply H1|apply H2|done| |by right]. left.
  destruct (ho_standing _ _ _ _ _ _ _ _ _ _ _ H1) as (r1 & Hr1 & <-).
  destruct (ho_standing _ _ _ _ _ _ _ _ _ _ _ H2) as (r2 & Hr2 & <-).
  assert (r1 = r2) as -> by congruence. split; [done|].
  by rewrite <- (ho_previous _ _ _ _ _ _ _ _ _ _ _ H1), <- (ho_previous _ _ _ _ _ _ _ _ _ _ _ H2).
Qed.

Lemma same_back n w w1 w2 :
  go_back sha256 s1 withdrawn chain now n w = Ok w1 ->
  go_back sha256 s2 withdrawn chain now n w = Ok w2 -> w1 = w2 \/ two_heads.
Proof.
  revert w. induction n as [|n IH]; intros w H1 H2; cbn [go_back] in *.
  { left. congruence. }
  apply result_bind_ok in H1 as (m1 & M1 & H1), H2 as (m2 & M2 & H2).
  destruct (Walked.open_ w) as [|first rest]; [done|]. cbn [mbind result_bind] in H1, H2.
  apply result_bind_ok in H1 as ([] & P1%checked_one%bool_decide_eq_true & H1).
  apply result_bind_ok in H2 as ([] & P2%checked_one%bool_decide_eq_true & H2).
  destruct (same_head _ _ _ M1 M2) as [->|]; [congruence| |by right].
  apply result_bind_ok in H1 as (q1 & Q1 & H1), H2 as (q2 & Q2 & H2).
  rewrite Q1 in Q2. injection Q2 as <-.
  apply result_bind_ok in H1 as ([] & _ & H1), H2 as ([] & _ & H2).
  apply result_bind_ok in H1 as (r1 & R1%ok_or_ok & H1), H2 as (r2 & R2%ok_or_ok & H2).
  assert (r1 = r2) as -> by congruence.
  destruct r2; cbv iota in H1, H2; [by eapply IH|]. case_match; [done|]. left. congruence.
Qed.

Lemma same_start w1 w2 :
  start sha256 s1 withdrawn chain b now w1 -> start sha256 s2 withdrawn chain b now w2 ->
  w1 = w2 \/ two_heads.
Proof.
  unfold start. case_match; [intros -> ->; by left|].
  intros (m1 & r1 & M1 & R1 & H1) (m2 & r2 & M2 & R2 & H2). unfold pinned_head in H1, H2.
  apply result_bind_ok in H1 as ([] & P1%checked_one%bool_decide_eq_true & H1).
  apply result_bind_ok in H2 as ([] & P2%checked_one%bool_decide_eq_true & H2).
  destruct (same_head _ _ _ M1 M2) as [->|]; [congruence| |by right].
  assert (r1 = r2) as -> by congruence. case_match; [done|].
  apply result_bind_ok in H1 as (q1 & Q1 & H1), H2 as (q2 & Q2 & H2).
  rewrite Q1 in Q2. injection Q2 as <-.
  apply result_bind_ok in H1 as ([] & _ & H1), H2 as ([] & _ & H2).
  case_match; [left; congruence|].
  apply result_bind_ok in H1 as (x1 & X1 & H1), H2 as (x2 & X2 & H2).
  destruct (same_back _ _ _ _ X1 X2) as [->|]; [|by right].
  rewrite H1 in H2. left. congruence.
Qed.

(** C13. One listed head has one history: whatever two servers serve below a head they both
    list, a device at one pin walks to the same result, or they served two different
    manifests of one version whose head hashes collide. No reply makes the walk panic. *)
Theorem one_history head1 head2 w1 w2 :
  let current := FleetProfileHeadV2.current_version head1 in
  0 <= Bound.version b <= current -> (Bound.version b = 0 -> Bound.head b = None) ->
  FleetProfileHeadV2.current_version head2 = current ->
  FleetProfileHeadV2.current_signed_head_hash head2 = FleetProfileHeadV2.current_signed_head_hash head1 ->
  safe (walk sha256 s1 withdrawn chain keys b now head1)
  /\ (walk sha256 s1 withdrawn chain keys b now head1 = Ok w1 ->
      walk sha256 s2 withdrawn chain keys b now head2 = Ok w2 -> w1 = w2 \/ two_heads).
Proof.
  intros current [H0 Hle] Hempty Hv Hh. split; [by apply walk_safe_all|].
  intros (a1 & h1 & S1 & O1 & L1 & -> & E1)%walk_ok; [|done..].
  intros (a2 & h2 & S2 & O2 & L2 & -> & E2)%walk_ok; [|done|by rewrite Hv|done].
  destruct (same_start _ _ S1 S2) as [->|]; [|by right].
  destruct (same_heads _ _ _ _ _ O1 O2) as [[-> _]|]; [|congruence|by left|by right].
  unfold blen in *. unfold current in *. lia.
Qed.

End servers.

(** ** Witnesses

    A profile of three versions: a device in order, a device proven revoked, and the first
    device again, which reverts over it. *)

Definition mixing_hash (b : bytes) : bytes :=
  be_bytes 32 (foldl (fun acc x => (acc * 31 + b2z x + 1) mod 2147483647) 7 b).

Lemma mixing_hash_length x : length (mixing_hash x) = 32%nat.
Proof. apply length_be_bytes. Qed.

Definition sample_good : bytes := be_bytes 32 77.
Definition sample_stolen : bytes := be_bytes 32 78.
Definition sample_key (sk : bytes) : bytes := signing_key_id mixing_hash (ed_public sk).
Definition sample_binding : Bound.t :=
  Bound.mk (be_bytes 16 12) (be_bytes 16 2) (be_bytes 16 3) (be_bytes 16 4) 0 None 1.

Definition sample_version (sk : bytes) (v : Z) (prev : option bytes) : SignedSnapshotManifestV2.t :=
  let p := SnapshotManifestV2.mk (be_bytes 16 v) (be_bytes 16 2) (be_bytes 16 3) (be_bytes 16 4)
    (be_bytes 16 5) v (v - 1) 3 2 (be_bytes 32 6) (be_bytes 32 7) (be_bytes 32 8) (be_bytes 32 9)
    (be_bytes 32 10) 9000 prev (sample_key sk) (be_bytes 16 12) 1 (be_bytes 16 13) 1700000000000 in
  signed_manifest mixing_hash p (sign_tbs sk (manifest_tbs mixing_hash p)).
Definition sample_hash (m : SignedSnapshotManifestV2.t) : option bytes :=
  Some (SignedSnapshotManifestV2.head_hash mixing_hash m).

Definition sample_v1 : SignedSnapshotManifestV2.t := Eval vm_compute in
  sample_version sample_good 1 None.
Definition sample_v2 : SignedSnapshotManifestV2.t := Eval vm_compute in
  sample_version sample_stolen 2 (sample_hash sample_v1).
Definition sample_v3 : SignedSnapshotManifestV2.t := Eval vm_compute in
  sample_version sample_good 3 (sample_hash sample_v2).

Definition sample_served (v : Z) : option bytes :=
  SignedSnapshotManifestV2.exact_bytes <$>
    (if v =? 1 then Some sample_v1 else if v =? 2 then Some sample_v2
     else if v =? 3 then Some sample_v3 else None).
Definition sample_withdrawn (signer : bytes) : option bool :=
  Some (bool_decide (signer = sample_key sample_stolen)).
Definition sample_keys : gmap KeyId bytes :=
  keys_of mixing_hash [ed_public sample_good; ed_public sample_stolen].

(** One device of [b]'s tenant, approved and granted [profile.commit] by itself. *)
Definition sample_common (b : Bound.t) (replay : bytes) : CommonFields.t :=
  CommonFields.mk replay (Bound.tenant b) 0 0 2000000000000 (Bound.instance b) 0.
Definition trust_in (b : Bound.t) (k : KeyId) : TrustChain.t :=
  TrustChain.mk k {[k := [(0, 2000000000000)]]} ∅ ∅ {[k := [0%nat]]} {[k := {[k := [0%nat]]}]}
    (Evidence.mk []
       [Usable.mk k (DeviceApprovalV2.mk (sample_common b (be_bytes 16 1)) (be_bytes 16 6)
          (be_bytes 16 7) k k ApprovalScopeKind.Tenant (Bound.tenant b)) None]
       [Usable.mk k (TenantCapabilityGrantV2.mk (sample_common b (be_bytes 16 2))
          (GrantSubject.Device (be_bytes 16 6) (be_bytes 16 7) k k) CapabilityScopeKind.Profile
          (Bound.profile b) Capability.ProfileCommit) None] ∅ ∅ ∅) (be_bytes 16 1).
Definition sample_trust : TrustChain.t := trust_in sample_binding (sample_key sample_good).

Definition sample_listed : FleetProfileHeadV2.t :=
  FleetProfileHeadV2.mk (be_bytes 16 4) 3 (sample_hash sample_v3) 2 [].
Definition sample_walk : result WalkError Walked.t :=
  walk mixing_hash sample_served sample_withdrawn sample_trust sample_keys sample_binding
    1700000000001 sample_listed.
Definition sample_walked : Walked.t := Eval vm_compute in
  match sample_walk with Ok w => w | _ => Walked.default end.

Lemma walk_exact_witness :
  exists w0 heads, start mixing_hash sample_served sample_withdrawn sample_trust sample_binding
      1700000000001 w0
    /\ heads_ok mixing_hash sample_served sample_withdrawn sample_trust sample_keys sample_binding
         1700000000001 1 None heads
    /\ blen heads = 3.
Proof.
  destruct (proj1 (walk_exact mixing_hash mixing_hash_length sample_served sample_withdrawn
    sample_trust sample_keys sample_binding 1700000000001 sample_listed sample_walked
    ltac:(vm_compute; split; discriminate) ltac:(reflexivity)))
    as (w0 & heads & H1 & H2 & H3 & _); [vm_compute; reflexivity|].
  exists w0, heads. split; [exact H1|split; [exact H2|exact H3]].
Defined.

Lemma walk_resolves_witness :
  Forall (closed mixing_hash sample_served sample_withdrawn sample_trust sample_keys sample_binding
            1700000000001) (Walked.accepted sample_walked)
  /\ length (Walked.accepted sample_walked) = 1%nat.
Proof.
  split; [|reflexivity].
  apply (walk_resolves mixing_hash mixing_hash_length sample_served sample_withdrawn
    sample_trust sample_keys sample_binding 1700000000001 sample_listed sample_walked);
    [vm_compute; split; discriminate|reflexivity|vm_compute; reflexivity].
Defined.

(** A server that serves another first version is found out: its head has another hash. *)
Definition sample_forked (v : Z) : option bytes :=
  if v =? 1 then Some (SignedSnapshotManifestV2.exact_bytes sample_v2) else sample_served v.

Lemma one_history_witness :
  safe (walk mixing_hash sample_forked sample_withdrawn sample_trust sample_keys sample_binding
          1700000000001 sample_listed).
Proof.
  apply (one_history mixing_hash mixing_hash_length sample_forked sample_served sample_withdrawn
    sample_trust sample_keys sample_binding 1700000000001 sample_listed sample_listed
    sample_walked sample_walked);
    [vm_compute; split; discriminate|reflexivity|reflexivity|reflexivity].
Defined.

(** What the device is told of the fork: the version of the manifest is not the one asked for. *)
Example forked_head_refused :
  walk mixing_hash sample_forked sample_withdrawn sample_trust sample_keys sample_binding
    1700000000001 sample_listed = Err (BadHead "target_version").
Proof. vm_compute. reflexivity. Qed.

Lemma pull_moves_forward_witness :
  exists head w, Some sample_listed = Some head
    /\ walk mixing_hash sample_served sample_withdrawn sample_trust sample_keys sample_binding
         1700000000001 head = Ok w /\ Walked.open_ w = [].
Proof.
  destruct (pull_moves_forward mixing_hash mixing_hash_length sample_served sample_withdrawn
    sample_trust sample_keys sample_binding 1700000000001 (Some "SIGNER_REVOKED"%string) 1
    (Some sample_listed)
    (PullHead (Link.mk 3 (default [] (sample_hash sample_v3)) 2 (sample_hash sample_v2)
                 (sample_key sample_good) Standing.Valid)
       (SignedSnapshotManifestV2.payload sample_v3) true))
    as (head & w & H1 & _ & H2 & _ & H3 & _);
    [vm_compute; discriminate|reflexivity|vm_compute; reflexivity|].
  exists head, w. split; [exact H1|split; [exact H2|exact H3]].
Defined.
