(* ===== verification/PullPublished.v ===== *)
(** * What one device publishes, another pulls

    The composition of [Publish] and [HeadWalk]: the manifest that [prepare_commit] signs,
    served as the next version, is the head that [pull] restores. *)

From S2P Require Import Prelude Bytes Canonical CanonicalFacts CanonicalDecode CanonicalTheorems.
From S2P Require Import AuthzPayloads AuthzRecord TrustEvidence TrustChain RecordFields WireMap.
From S2P Require Import Keys Envelope ProfileLease EnvelopeV2 EnvelopeV2Facts EnvelopeObject.
From S2P Require Import EnvelopeObjectFacts EnvelopeOpenFacts EnvelopeObjectTheorems.
From S2P Require Import SnapshotV2 SnapshotV2Facts SnapshotV2Theorems Publish PublishTheorems.
From S2P Require Import HeadWalk HeadWalkTheorems.

Section flow.
Context `{HS : !StreamLE31, HL : !StreamLaws} `{HA : !Aead, HAL : !AeadLaws}.
Context `{HE : !Ed25519, HEL : !Ed25519Laws}.
Context (sha256 : bytes -> bytes) (sha256_length : forall x, blen (sha256 x) = 32).

(** A manifest names the head under it unless it is the first. *)
Lemma ok_genesis p :
  SnapshotManifestV2.ok p = true -> SnapshotManifestV2.base_version p = 0 ->
  SnapshotManifestV2.previous_signed_head_hash p = None.
Proof.
  intros [_ H]%andb_true_iff H0. unfold SnapshotManifestV2.wf in H. wire_facts.
  rewrite H0 in *. cbn in *. by destruct (SnapshotManifestV2.previous_signed_head_hash p).
Qed.

Lemma extend_valid w link p :
  Link.standing link = Standing.Valid ->
  Walked.open_ (extend w (link, p)) = [] /\ Walked.anchor (extend w (link, p)) = Some (link, p).
Proof.
  intros Hs. unfold extend. rewrite Hs, decide_False by done.
  destruct (vec_is_empty _) eqn:E; [|done]. by apply vec_is_empty_true in E.
Qed.

(** The manifest that was signed, as the reader's next head. *)
Lemma signed_is_head served withdrawn chain keys b now sk m :
  parsed sha256 m -> SignedSnapshotManifestV2.check_signature sha256 m (ed_public sk) = Ok tt ->
  let p := SignedSnapshotManifestV2.payload m in
  let v := SnapshotManifestV2.target_version p in
  served v = Some (SignedSnapshotManifestV2.exact_bytes m) ->
  withdrawn (signer_of m) = Some false -> keys !! signer_of m = Some (ed_public sk) ->
  standing_of chain b now (signer_of m) false = Standing.Valid ->
  Forall (fun check => check.2 = true) (of_binding b p) ->
  SnapshotManifestV2.base_version p + 1 = v -> SnapshotManifestV2.restore_epoch p = Bound.epoch b ->
  head_ok sha256 served withdrawn chain keys b now v
    (SnapshotManifestV2.previous_signed_head_hash p) m Standing.Valid.
Proof.
  intros Hp Hsig p v Hs Hw Hk Hst Hb Hbase He. split; try done.
  - apply manifest_parsed. by eexists.
  - by exists (ed_public sk).
  - by exists false.
  - by right.
Qed.

(** C11. The next version of a profile reaches another device: a reader in step with the writer,
    whose evidence finds the writer's key in order, and to whom a server serves the signed
    manifest and the object, pulls that manifest as the new head and restores the
    plaintext the writer sealed. *)
Theorem published_is_pulled fkek sk b lease g now drawn plaintext object terms uid key nonce
    signed request served withdrawn chain keys now' error w0 generation label range :
  let skid := Keys.signing_key_id sha256 (ed_public sk) in
  let head := FleetProfileHeadV2.mk (Bound.profile b) (Bound.version b + 1)
                (Some (SignedSnapshotManifestV2.head_hash sha256 signed)) generation label in
  publishable b lease g skid now drawn = true ->
  LeaseRef.base_version lease = Bound.version b ->
  seal_snapshot sha256 fkek b lease g skid now drawn plaintext = Ok (object, terms) ->
  prepare_commit sha256 sk skid b terms object uid key nonce = Ok (signed, request) ->
  served (Bound.version b + 1) = Some (SignedSnapshotManifestV2.exact_bytes signed) ->
  serves range (sha256 object) object ->
  withdrawn skid = Some false -> keys !! skid = Some (ed_public sk) ->
  standing_of chain b now' skid false = Standing.Valid ->
  start sha256 served withdrawn chain b now' w0 -> error <> Some "SIGNER_REVOKED"%string ->
  exists l p lift,
    pull sha256 served withdrawn chain keys b now' error (Bound.epoch b) (Some head)
    = Ok (PullHead l p lift)
    /\ p = SignedSnapshotManifestV2.payload signed
    /\ restore sha256 range p fkek = Ok plaintext.
Proof.
  intros skid head Hok Hbase Hs Hprep Hserved Hrange Hw Hk Hst Hstart Herr.
  pose proof (sha_length sha256 sha256_length) as Hsl32.
  apply seal_snapshot_ok in Hs as (ib & sb & view & slot & chunks & Hsl); [|done..].
  pose proof (sealed_manifest_ok sha256 sha256_length fkek skid b lease g now drawn Hok object
    plaintext terms ib sb view slot chunks Hsl Hbase) as Hmok.
  destruct (sealed_commit sha256 sha256_length fkek skid b lease g now drawn Hok object plaintext
    terms ib sb view slot chunks Hsl sk uid key nonce Hbase eq_refl) as (Hprep' & Hp & Hv).
  set (p := sealed_manifest _ _ _ _ _ _ _ _ _ _ _) in *.
  set (m := signed_manifest _ _ _) in *.
  assert (signed = m) as -> by congruence. clear Hprep Hprep'.
  assert (Bound.version b = 0 -> Bound.head b = None) as Hempty
    by (rewrite <- Hbase; apply (ok_genesis p Hmok)).
  assert (0 <= Bound.version b) as H0.
  { unfold publishable in Hok. rewrite !andb_true_iff in Hok. destruct Hok as [_ Hok]. by apply Z.leb_le. }
  assert (head_ok sha256 served withdrawn chain keys b now' (Bound.version b + 1) (Bound.head b) m
            Standing.Valid) as Hhead.
  { apply (signed_is_head served withdrawn chain keys b now' sk m Hp Hv); try done.
    - repeat constructor; cbn; by apply bool_decide_eq_true.
    - cbn. by rewrite Hbase. }
  pose (w := extend w0 (head_at sha256 (Bound.version b + 1) m Standing.Valid)).
  assert (walk sha256 served withdrawn chain keys b now' head = Ok w) as Hwalk.
  { apply walk_ok; [done|cbn; lia|done|]. exists w0, [(m, Standing.Valid)]. split_and!; try done.
    unfold blen. cbn. lia. }
  exists (link_of sha256 (Bound.version b + 1) m p Standing.Valid), p,
    (negb (vec_is_empty (Walked.accepted w))). split_and!; [|done|].
  - unfold pull. assert (listed b (Bound.epoch b) (Some head) = Ok head) as ->
      by (apply listed_ok; split; [done|split; [done|split; cbn; lia]]).
    cbn [mbind result_bind]. rewrite (proj2 (Z.eqb_neq _ _)) by (cbn; lia). rewrite Hwalk.
    cbn [mbind result_bind]. unfold pull_walked.
    destruct (extend_valid w0 (link_of sha256 (Bound.version b + 1) m p Standing.Valid) p eq_refl)
      as [Hopen Hanchor].
    change (Walked.open_ w = []) in Hopen. change (Walked.anchor w = Some
      (link_of sha256 (Bound.version b + 1) m p Standing.Valid, p)) in Hanchor.
    rewrite Hopen, Hanchor, bool_decide_false by done. done.
  - by eapply sealed_restores.
Qed.

End flow.

(** ** Witness *)

Definition first_bound : Bound.t := Bound.mk (id16 1) (id16 2) (id16 3) (id16 4) 0 None 2.
Definition first_lease : LeaseRef.t := LeaseRef.mk (id16 7) 9 0.
Definition first_published : bytes * CreateUploadV2.t :=
  ok_or_else ([], CreateUploadV2.mk (Bound.pref first_bound) [] [] first_lease [] [] [] [] 0 0 [])
    (seal_snapshot toy_digest (id32 15) first_bound first_lease sample_granted sample_skid
       1700000000000 sample_drawn sample_plain).
Definition first_commit : SignedSnapshotManifestV2.t * CommitRequestV2.t :=
  ok_or_else (sample_container, sample_commit)
    (prepare_commit toy_digest sample_sk sample_skid first_bound (snd first_published)
       (fst first_published) (id16 20) (id16 21) (id16 22)).

Lemma published_is_pulled_witness :
  exists l p lift,
    pull toy_digest (fun v => Some (SignedSnapshotManifestV2.exact_bytes (fst first_commit)))
      (fun _ => Some false) (trust_in first_bound sample_skid)
      {[sample_skid := ed_public sample_sk]} first_bound 1700000000001 None 2
      (Some (FleetProfileHeadV2.mk (id16 4) 1
               (Some (SignedSnapshotManifestV2.head_hash toy_digest (fst first_commit))) 3 []))
    = Ok (PullHead l p lift)
    /\ restore toy_digest (honest (toy_digest (fst first_published)) (fst first_published)) p (id32 15)
       = Ok sample_plain.
Proof.
  destruct (published_is_pulled toy_digest toy_digest_length (id32 15) sample_sk first_bound
    first_lease sample_granted 1700000000000 sample_drawn sample_plain (fst first_published)
    (snd first_published) (id16 20) (id16 21) (id16 22) (fst first_commit) (snd first_commit)
    (fun _ => Some (SignedSnapshotManifestV2.exact_bytes (fst first_commit))) (fun _ => Some false)
    (trust_in first_bound sample_skid) {[sample_skid := ed_public sample_sk]} 1700000000001 None
    Walked.default 3 [] (honest (toy_digest (fst first_published)) (fst first_published)))
    as (l & p & lift & H & _ & Hr);
    [vm_compute; reflexivity|reflexivity|vm_compute; reflexivity|vm_compute; reflexivity|reflexivity
    |intros start_ end_ _ _ _; reflexivity|reflexivity|vm_compute; reflexivity
    |vm_compute; reflexivity|reflexivity|discriminate|].
  exists l, p, lift. split; [exact H|exact Hr].
Defined.
